(* ===== verification/_CoqProject ===== *)
-Q . S2P
Prelude.v
GoLib.v
Sha256.v
Host.v
Http.v
Mux.v
Health.v
Url.v
Format.v
Parallel.v
ParallelProps.v
JsonText.v
FileSystem.v
Domain.v
Guardrail.v
Prometheus.v
PrometheusProps.v
Registry.v
RegistrySpec.v
RegistryStore.v
RegistryMemory.v
AgentRegistry.v
AgentStore.v
AgentSpec.v
Rollout.v
RolloutFacts.v
RolloutStore.v
RolloutService.v
RolloutSpec.v
RolloutInvariants.v
RolloutMemory.v
RolloutRefine.v
RolloutProgress.v
Sql.v
Postgres.v
PostgresFacts.v
PostgresInvariants.v
PostgresSpec.v
PostgresRollouts.v
PostgresConcurrency.v
PostgresDemo.v
PostgresProps.v
DataPlane.v
Agent.v
ControlPlane.v
PlaneKeep.v
PostgresStores.v
System.v
DataPlaneFacts.v
AgentFacts.v
Commands.v
ConfigCode.v
ConfigApply.v
ConfigFacts.v
ConfigSpec.v
ConfigConverge.v
ConfigDeploy.v
Deployment.v
Simulator.v
Reliability.v
Drive.v
Scenarios.v
SimulatorCommand.v
ReliabilityCommand.v
Convergence.v
Demo.v
CampaignDrive.v
ReliabilityDrive.v
SimulatorDrive.v
ScenarioDrive.v
ReliabilityProps.v
SimulatorProps.v
CommandsProps.v
RolloutProps.v
EffectProps.v
DecisionProps.v
RegistryProps.v
DataPlaneProps.v
ControlPlaneProps.v
ConfigProps.v
