(* ===== verification/Prelude.v ===== *)
(** SafeConfig, a configuration rollout plane: the verification library.

    * The program

    A control plane keeps the configurations of tenants in numbered versions,
    and rolls a candidate version out to the agents of an environment in stages
    of increasing percentage.  An agent belongs to a stage by the hash of its
    identifier.  It polls the data plane for its snapshot, keeps it in a cache
    file, and acknowledges it to the control plane.  When a stage is covered by
    acknowledgements and its guardrails (Prometheus queries) are healthy the
    rollout is promoted; the last promotion makes the candidate stable; a
    failing guardrail, a timeout or a command rolls it back, and the rollback is
    verified by acknowledgements of the stable version.  A command line tool
    applies manifests to a control plane.  A simulator and a reliability harness
    drive all of it in one process.

    * Conventions

    A Go function that may fail is a [result]; a method that reads or changes
    state is an [M W T]: a function from the world to a result and the world it
    leaves, on both outcomes ([Prelude]).  [wp m Q w] is its weakest
    precondition.  A service is written once over a class per interface it
    declares ([Store], [Registry], [AgentSource], ...); the world is any type
    that has the parts it uses ([Has], [Env] in [Host]).  Integers are [Z] with
    the wrap-around of [int64] where the code can reach it; [float64] is the
    binary64 of [SpecFloat]; strings are byte strings; a Go map is a [gmap],
    and where its iteration order shows, that order is the host's ([RangeOrder]).
    The clock, the random source and the answers of [ctx.Err()] are read from
    the host, one reading per call of the code.  Every definition that models
    code carries the file and the lines it models.

    * What models what

    Generic: [GoLib], [Sha256], [Host], [Http], [Mux], [Url], [Format] (durations,
    numbers, [flag]), [JsonText], [FileSystem], [Sql].

    - [internal/domain]: [Domain].  [internal/guardrail]: [Guardrail] (rules,
      evaluation) and [Prometheus] (the client).
    - [internal/configregistry]: [Registry] (service), [RegistryStore] (memory
      store), [RegistrySpec] (abstract registry, laws of a store, invariants),
      [RegistryMemory] (the memory store obeys them).
    - [internal/agentregistry]: [AgentRegistry], [AgentStore], [AgentSpec].
    - [internal/rollout]: [Rollout] (states, stages, buckets, cohorts, coverage,
      decisions, effective versions), [RolloutStore] (memory store),
      [RolloutService] (every operation), [RolloutSpec] (the abstract rollout
      machine, a step relation), [RolloutInvariants] (what it guarantees, by
      induction on its steps), [RolloutRefine] (every operation, however it
      ends, is a sequence of its steps), [RolloutMemory] (laws of the store),
      [RolloutProgress] (no rollout hangs).
    - [internal/storage/postgres] and [migrations]: [Sql] (tables, connection),
      [Postgres] (every method, a definition per SQL statement),
      [PostgresFacts], [PostgresInvariants] (constraints), [PostgresSpec],
      [PostgresRollouts] (what is written and read back), [PostgresConcurrency]
      (histories, and interleaved transactions), [PostgresStores] (the three
      interfaces over it).
    - [internal/dataplane]: [DataPlane], [DataPlaneFacts].  [internal/agent]:
      [Agent] (cache, clients, syncer, and the local interface with its
      readiness), [AgentFacts].  [internal/controlplane]: [ControlPlane].
      [internal/health]: [Health] (the probes, and the [ServeMux] that mounts
      them next to the routes of a plane; [Mux] holds the patterns).
    - [internal/runtime], [internal/logging] and the three services of [cmd]:
      [Commands] (Modules [Runtime], [Server], [Commands]).
    - [internal/configcode] and [cmd/cfgctl]: [ConfigCode] (manifests,
      validation), [ConfigApply] (the client; Module [Cfgctl] is the command
      line), [ConfigFacts], [ConfigSpec] (the interface of a control plane as a
      client sees it), [ConfigConverge], [ConfigDeploy] (the control plane
      implements it).
    - [internal/simulator] and [cmd/simulator]: [Parallel] (the pool of workers,
      a step relation over its channels), [Simulator], [SimulatorCommand],
      [CampaignDrive] (the steps both drivers share: a fleet enrols, is offered
      a stage and acknowledges it in any order), [SimulatorDrive] (a whole run
      on a host that behaves).
    - [internal/reliability] and [cmd/reliability]: [Reliability] (harness,
      servers, runner; a request goes through the mux of the plane that listens
      at its address), [Scenarios], [ReliabilityCommand]; on a host that
      behaves, [ReliabilityDrive] (the operations of the harness) and
      [ScenarioDrive] (its pools and the life of their rollout).

    The parts meet in [System] (one process with the memory stores),
    [Deployment] (the control plane as a process serving any requests, in any
    order, beside its reconciler), [PlaneKeep] (what every request and every
    snapshot keeps, over any store) and Module [Process] of [Drive] (both
    planes, their network, and an agent with its files).  [Demo] (Modules
    [Demo], [ConfigDemo], [ReliabilityDemo]) and [PostgresDemo] hold concrete
    runs, with executable encoders for the witnesses.

    * What is proved

    - Rollouts ([RolloutProps], [EffectProps], [DecisionProps]): the three
      operations refine the rollout machine; one live rollout per configuration
      and environment; a completed rollout covered every stage, and completion
      publishes the candidate; a rolled back one is accounted for; a finished
      one never changes; cohorts stay within their percentage and do not depend
      on the listing order; agents are served the version their stage gives
      them; reconciliation ends every rollout; what a creation and an
      acknowledgement do exactly.
    - Registries ([RegistryProps]): versions are numbered without gaps, a token
      is accepted exactly when it is known and not expired.
    - PostgreSQL ([PostgresProps], [CommandsProps]): the constraints of the
      schema hold in every history with any interruptions, transactions happen
      entirely or not at all, rows are read back as they were written,
      interleaved numbering transactions never reuse a number, and both planes
      keep all of it over this store.
    - Agents and the data plane ([DataPlaneProps], [ControlPlaneProps]): a
      snapshot and an acknowledgement need the credential of their agent; the
      cache file is atomic under any failing system call or crash, always
      valid, and read back after a restart; what the local interface of an agent
      answers comes from a validated snapshot.
    - Configuration as code ([ConfigProps]): validated references resolve; names
      reach the handlers they are for; an application makes the registry hold
      the documents, and another one writes nothing.
    - Guardrail client ([PrometheusProps]): the query sent is the rule's, the
      answer read is the server's, and a decision rests on evidence.
    - Drivers ([ParallelProps], [SimulatorProps], [ReliabilityProps]): the pool
      of workers returns under every scheduler and does what its calls do one
      after the other; latency summaries are order statistics; a scenario
      reports every step up to the first that fails; on a host that behaves all
      four scenarios pass, those with pools under every scheduler and for any
      number of agents below ten thousand (the rollout of the concurrent one
      completes and publishes its candidate, that of the rollback one ends
      verified and leaves the stable version), and a simulation completes its
      rollout under every scheduler, unless no agent is in its first cohort.
    - Servers ([CommandsProps]): [RunHTTPServer] ends, and returns the error of
      the listener or of the shutdown; the planes over PostgreSQL keep the
      schema whatever requests reach their muxes.

    * Bounds and fuel

    [Parallel.enough] bounds the communications of a pool: twice its calls, its
    workers and two more; [pool_terminates] shows that it is enough.  The loop
    of [Simulator.Run] over the stages takes fuel and returns [None] without
    it: it need not end, as a late acknowledgement leaves a rollout that nobody
    reconciles; on a host that behaves three iterations are enough
    ([simulation_outcome]).  The agents' loops ([Agent.Run], [Commands.reconciler]) run over
    the list of what ends their waits.  The other recursions are structural.

    * Assumptions

    Parameters stand for code outside the repository, and for the host: the JSON
    and YAML encoders and decoders, the JSON Schema library, [url.Parse],
    [ParseFloat] and [ParseDuration], the PostgreSQL server, the network, file
    system faults.  What a theorem needs of them is a hypothesis of it, and a
    concrete instance satisfies it in the witness.  An operation is atomic where
    the code holds a mutex over it; handlers are interleaved as whole requests,
    PostgreSQL transactions statement by statement, and the calls of a pool
    where they end.

    * Not modelled

    The bytes of HTTP (headers beyond those read, redirects of the mux),
    signals, the records [slog] writes (a logger is its level and its service),
    timers as such (a loop is given what
    ended each wait), the text [flag] prints, and the tests. *)

From Stdlib Require Import ZArith Lia.
From stdpp Require Export base tactics list strings gmap sorting pretty.

#[global] Set Default Goal Selector "!".

(** * Go results and the state-and-error monad

    A Go function that returns [(T, error)] is a [result T]; a method that
    also reads or changes the state of the world is an [M W T].  An error does
    not undo the writes made before it: the final world is returned on both
    branches, as in the code. *)

Declare Scope go_scope.
Delimit Scope go_scope with go.

Inductive result_ (E A : Type) : Type :=
| Ok (a : A)
| Err (e : E).
Arguments Ok {E A} a.
Arguments Err {E A} e.

Definition is_ok {E A} (r : result_ E A) : bool :=
  match r with Ok _ => true | Err _ => false end.

#[export] Instance result_ret {E} : MRet (result_ E) := λ A a, Ok a.
#[export] Instance result_bind {E} : MBind (result_ E) :=
  λ A B k r, match r with Ok a => k a | Err e => Err e end.
#[export] Instance result_fmap {E} : FMap (result_ E) :=
  λ A B f r, match r with Ok a => Ok (f a) | Err e => Err e end.
#[export] Instance result_throw {E} : MThrow E (result_ E) := λ A e, Err e.

Definition M_ (E W A : Type) : Type := W → result_ E A * W.

#[export] Instance M_ret {E W} : MRet (M_ E W) := λ A a w, (Ok a, w).
#[export] Instance M_bind {E W} : MBind (M_ E W) :=
  λ A B k m w, match m w with (Ok a, w') => k a w' | (Err e, w') => (Err e, w') end.
#[export] Instance M_throw {E W} : MThrow E (M_ E W) := λ A e w, (Err e, w).

(** A pure Go function with an [error] result, called from a method. *)
Definition lift {E W A} (r : result_ E A) : M_ E W A := λ w, (r, w).

(** The value of a Go call kept as data, for code that inspects [err] itself. *)
Definition try {E W A} (m : M_ E W A) : M_ E W (result_ E A) :=
  λ w, match m w with (r, w') => (Ok r, w') end.

Definition get_world {E W} : M_ E W W := λ w, (Ok w, w).
Definition gets {E W A} (f : W → A) : M_ E W A := λ w, (Ok (f w), w).
Definition modify {E W} (f : W → W) : M_ E W unit := λ w, (Ok tt, f w).

(** [for _, x := range l { body }] whose body may return early with an error. *)
Fixpoint for_each {E W A} (l : list A) (body : A → M_ E W unit) : M_ E W unit :=
  match l with
  | [] => mret tt
  | x :: l => body x;; for_each l body
  end.

(** The same loop accumulating a value. *)
Fixpoint fold_m {E W A B} (l : list A) (acc : B) (body : B → A → M_ E W B) : M_ E W B :=
  match l with
  | [] => mret acc
  | x :: l => acc' ← body acc x; fold_m l acc' body
  end.

(** [if cond { return err }], in both monads. *)
Definition guard_err {E M} `{MThrow E M, MRet M} (cond : bool) (e : E) : M unit :=
  if cond then mthrow e else mret tt.

Notation "'fail_if' c 'with' e" := (guard_err c e)
  (at level 60, c at level 9, e at level 59) : go_scope.

(** * Weakest preconditions

    [wp m Q w]: running [m] in [w] ends in a result and a world related by
    [Q].  Every [M_] computation ends, so this is total correctness. *)

Definition wp {E W A} (m : M_ E W A) (Q : result_ E A → W → Prop) (w : W) : Prop :=
  Q (m w).1 (m w).2.

Section wp_rules.
Context {E W : Type}.

Lemma wp_ret {A} (a : A) (Q : result_ E A → W → Prop) w :
  Q (Ok a) w → wp (mret a) Q w.
Proof. done. Qed.

Lemma wp_throw {A} (e : E) (Q : result_ E A → W → Prop) w :
  Q (Err e) w → wp (mthrow e) Q w.
Proof. done. Qed.

Lemma wp_lift {A} (r : result_ E A) (Q : result_ E A → W → Prop) w :
  Q r w → wp (lift r) Q w.
Proof. done. Qed.

Lemma wp_try {A} (m : M_ E W A) (Q : result_ E (result_ E A) → W → Prop) w :
  wp m (λ r w', Q (Ok r) w') w → wp (try m) Q w.
Proof. unfold wp, try. by destruct (m w). Qed.

Lemma wp_bind {A B} (m : M_ E W A) (k : A → M_ E W B) (Q : result_ E B → W → Prop) w :
  wp m (λ r w', match r with Ok a => wp (k a) Q w' | Err e => Q (Err e) w' end) w →
  wp (m ≫= k) Q w.
Proof. unfold wp, mbind, M_bind. by destruct (m w) as [[a|e] w']. Qed.

Lemma wp_mono {A} (m : M_ E W A) (Q Q' : result_ E A → W → Prop) w :
  wp m Q w → (∀ r w', Q r w' → Q' r w') → wp m Q' w.
Proof. unfold wp. auto. Qed.

Lemma wp_guard (c : bool) (e : E) (Q : result_ E unit → W → Prop) w :
  (c = true → Q (Err e) w) → (c = false → Q (Ok tt) w) → wp (guard_err c e) Q w.
Proof. destruct c; intros H1 H2; unfold wp; simpl; auto. Qed.

(** Nothing is said of the call. *)
Lemma wp_any {A} (m : M_ E W A) (Q : result_ E A → W → Prop) w : (∀ r w', Q r w') → wp m Q w.
Proof. intros HQ. apply HQ. Qed.

(** The result of a call that is known to succeed. *)
Lemma wp_succeeds {A} (m : M_ E W A) (Q : result_ E A → W → Prop) (P : A → bool) w :
  wp m Q w → match (m w).1 with Ok a => P a | Err _ => false end = true →
  ∃ a w', m w = (Ok a, w') ∧ P a = true ∧ Q (Ok a) w'.
Proof.
  unfold wp. destruct (m w) as [[a|e] w'] eqn:Hm; simpl; [|done]. intros HQ HP. by exists a, w'.
Qed.

(** A loop rule: [I rest] holds before every iteration. *)
Lemma wp_for_each {A} (body : A → M_ E W unit) (I : list A → W → Prop)
    (Q : result_ E unit → W → Prop) :
  ∀ l w, I l w →
  (∀ x rest w, I (x :: rest) w →
     wp (body x) (λ r w', match r with Ok _ => I rest w' | Err e => Q (Err e) w' end) w) →
  (∀ w, I [] w → Q (Ok tt) w) →
  wp (for_each l body) Q w.
Proof.
  induction l as [|x l IH]; intros w HI Hb HQ; simpl.
  { apply wp_ret; auto. }
  apply wp_bind. eapply wp_mono; [by apply Hb|].
  intros [[]|e] w'; simpl; auto.
Qed.

(** The same for an accumulating loop: [I seen acc] holds before every
    iteration, where [seen] are the elements already visited. *)
Lemma wp_fold_m {A B} (body : B → A → M_ E W B) (I : list A → B → W → Prop)
    (Q : result_ E B → W → Prop) :
  (∀ seen x acc w, I seen acc w →
     wp (body acc x)
        (λ r w', match r with Ok acc' => I (seen ++ [x]) acc' w' | Err e => Q (Err e) w' end) w) →
  ∀ l seen acc w, I seen acc w →
  (∀ acc w, I (seen ++ l) acc w → Q (Ok acc) w) →
  wp (fold_m l acc body) Q w.
Proof.
  intros Hb. induction l as [|x l IH]; intros seen acc w HI HQ; simpl.
  { apply wp_ret, HQ. by rewrite app_nil_r. }
  apply wp_bind. eapply wp_mono; [by apply (Hb seen)|].
  intros [acc'|e] w'; simpl; [|done]. intros HI'. apply (IH (seen ++ [x])); [done|].
  intros acc1 w1. rewrite <-(assoc_L (++)). apply HQ.
Qed.

End wp_rules.

(** [wp_run] walks through the monadic structure of a goal [wp m Q w]; it
    stops at the calls, where a law of the callee is applied. *)
Ltac wp_step :=
  lazymatch goal with
  | |- wp (mbind _ _) _ _ => apply wp_bind
  | |- wp (mret _) _ _ => apply wp_ret
  | |- wp (mthrow _) _ _ => apply wp_throw
  | |- wp (lift _) _ _ => apply wp_lift
  | |- wp (try _) _ _ => apply wp_try
  | |- wp (guard_err _ _) _ _ => apply wp_guard; intros
  | |- wp (if ?b then _ else _) _ _ => destruct b eqn:?
  | |- wp (match ?x with _ => _ end) _ _ => destruct x eqn:?
  end.
Ltac wp_run := repeat (wp_step; simpl).
(** Apply a callee's law [H] and continue with its postcondition. *)
Ltac wp_call H := eapply wp_mono; [eapply H|].

(** * Reading a successful result back

    [res_ok H] turns [H : m = Ok a], for a [m] built from guards, binds and
    pure results, into the facts that made every step succeed. *)

Lemma res_bind_ok {E A B} (m : result_ E A) (k : A → result_ E B) b :
  m ≫= k = Ok b ↔ ∃ a, m = Ok a ∧ k a = Ok b.
Proof.
  destruct m as [a|e]; simpl.
  - split; [eauto|]. by intros (a' & [= <-] & ?).
  - split; [done|]. by intros (? & ? & ?).
Qed.

Lemma res_guard_ok {E} (c : bool) (e : E) (u : unit) :
  (guard_err c e : result_ E unit) = Ok u ↔ c = false.
Proof. destruct u, c; simpl; split; done. Qed.

Lemma res_guard_bind {E B} (c : bool) (e : E) (k : unit → result_ E B) :
  (guard_err c e : result_ E unit) ≫= k = if c then Err e else k tt.
Proof. by destruct c. Qed.

Ltac res_ok H :=
  lazymatch type of H with
  | (mbind _ _ = Ok _) =>
      let a := fresh "a" in let H1 := fresh H in
      apply res_bind_ok in H as (a & H1 & H); res_ok H1; res_ok H
  | (guard_err _ _ = Ok _) => apply res_guard_ok in H
  | (mret _ = Ok _) => injection H as H
  | (mthrow _ = Ok _) => discriminate H
  | _ => idtac
  end.

(** * Lists *)

Lemma NoDup_filter_list {A} (P : A → Prop) `{∀ x, Decision (P x)} (l : list A) :
  NoDup l → NoDup (filter P l).
Proof. apply NoDup_filter. Qed.

Lemma lookup_last_snoc {A} (l : list A) x : (l ++ [x]) !! length l = Some x.
Proof. rewrite lookup_app_r by lia. by rewrite Nat.sub_diag. Qed.

(** Two elements with the same key are the same element. *)
Lemma NoDup_fmap_elem_inj {A B} (f : A → B) (l : list A) x y :
  NoDup (f <$> l) → x ∈ l → y ∈ l → f x = f y → x = y.
Proof.
  intros Hnd Hx Hy Hf.
  apply list_elem_of_lookup in Hx as [i Hi], Hy as [j Hj].
  assert (i = j) as <-.
  { eapply (NoDup_lookup (f <$> l)); [done| |].
    - by rewrite list_lookup_fmap, Hi.
    - by rewrite list_lookup_fmap, Hj, Hf. }
  congruence.
Qed.

(** A sorted list is sorted for every larger relation. *)
Lemma StronglySorted_weaken {A} (R R' : relation A) (l : list A) :
  (∀ x y, R x y → R' x y) → StronglySorted R l → StronglySorted R' l.
Proof.
  intros HR. induction 1 as [|x l _ IH Hx]; constructor; [done|].
  eapply Forall_impl; [exact Hx|]. auto.
Qed.

(** A function that fixes the elements of a list fixes the list. *)
Lemma list_fmap_fixed {A} (f : A → A) (l : list A) : (∀ x, x ∈ l → f x = x) → f <$> l = l.
Proof.
  induction l as [|x l IH]; intros Hf; [done|]. rewrite fmap_cons. f_equal.
  - apply Hf. by left.
  - apply IH. intros y Hy. apply Hf. by right.
Qed.
