(* ===== verification/GoLib.v ===== *)
(** What the code uses of the Go language and standard library: machine
    integers, [time], [errors]/[fmt], [strings], [slices.SortFunc], [context],
    [encoding/json.Valid] and [float64] arithmetic. *)

From Stdlib Require Import ZArith Lia SpecFloat Ascii.
From S2P Require Import Prelude.
Open Scope Z_scope.

(** * Machine integers and durations

    [int] and [int64] are 64 bits wide; arithmetic that the code performs on
    them wraps around. *)

Definition int64_min : Z := - 2 ^ 63.
Definition int64_max : Z := 2 ^ 63 - 1.
Definition int64_wrap (z : Z) : Z := (z + 2 ^ 63) mod 2 ^ 64 - 2 ^ 63.
Definition int64_ok (z : Z) : Prop := int64_min ≤ z ≤ int64_max.

(** [time.Time] in UTC, as nanoseconds since the zero time; [time.Duration]
    as a 64-bit count of nanoseconds. *)
Definition Time := Z.
Definition Duration := Z.
Definition Second : Duration := 1000000000.
Definition Minute : Duration := 60 * Second.

(** [t.Sub(u)] saturates at the ends of the duration range. *)
Definition time_Sub (t u : Time) : Duration := Z.max int64_min (Z.min int64_max (t - u)).
Definition time_Add (t : Time) (d : Duration) : Time := t + d.
Definition time_After (t u : Time) : bool := u <? t.
Definition time_IsZero (t : Time) : bool := t =? 0.

(** * Strings *)

(** The UTF-8 encodings of the runes [unicode.IsSpace] accepts, at the head
    of a string: the number of bytes to drop. *)
Definition byte_is (n : N) (c : ascii) : bool := N.eqb (N_of_ascii c) n.
Definition byte_in (lo hi : N) (c : ascii) : bool :=
  N.leb lo (N_of_ascii c) && N.leb (N_of_ascii c) hi.

Definition ascii_space (c : ascii) : bool := byte_in 9 13 c || byte_is 32 c.
Definition space2 (c d : ascii) : bool :=
  byte_is 194 c && (byte_is 133 d || byte_is 160 d).
Definition space3 (c d e : ascii) : bool :=
  (byte_is 225 c && byte_is 154 d && byte_is 128 e)
  || (byte_is 226 c && byte_is 128 d
        && (byte_in 128 138 e || byte_is 168 e || byte_is 169 e || byte_is 175 e))
  || (byte_is 226 c && byte_is 129 d && byte_is 159 e)
  || (byte_is 227 c && byte_is 128 d && byte_is 128 e).

(** [strings.TrimSpace(s) == ""]: the string is a sequence of white space. *)
Fixpoint blank (s : string) : bool :=
  match s with
  | EmptyString => true
  | String c s1 =>
      if ascii_space c then blank s1
      else match s1 with
           | String d s2 =>
               if space2 c d then blank s2
               else match s2 with
                    | String e s3 => space3 c d e && blank s3
                    | EmptyString => false
                    end
           | EmptyString => false
           end
  end.

(** [strings.TrimSpace]: the leading white space dropped, then the longest
    blank suffix. *)
Fixpoint TrimLeft_space (s : string) : string :=
  match s with
  | EmptyString => EmptyString
  | String c s1 =>
      if ascii_space c then TrimLeft_space s1
      else match s1 with
           | String d s2 =>
               if space2 c d then TrimLeft_space s2
               else match s2 with
                    | String e s3 => if space3 c d e then TrimLeft_space s3 else s
                    | EmptyString => s
                    end
           | EmptyString => s
           end
  end.
Fixpoint TrimRight_space (s : string) : string :=
  match s with
  | EmptyString => EmptyString
  | String c s' => if blank s then EmptyString else String c (TrimRight_space s')
  end.
Definition TrimSpace (s : string) : string := TrimRight_space (TrimLeft_space s).

Definition empty_str (s : string) : bool := bool_decide (s = EmptyString).

(** [strings.Cut(s, sep)] for a one-byte separator. *)
Fixpoint Cut (sep : ascii) (s : string) : string * string * bool :=
  match s with
  | EmptyString => (EmptyString, EmptyString, false)
  | String c s' =>
      if bool_decide (c = sep) then (EmptyString, s', true)
      else let '(a, b, ok) := Cut sep s' in
           if ok then (String c a, b, true) else (String c a, EmptyString, false)
  end.

(** [strings.Split(s, sep)] for a one-byte separator. *)
Fixpoint split_byte (sep : ascii) (s : string) : string * list string :=
  match s with
  | EmptyString => (EmptyString, [])
  | String c s' =>
      let '(first, rest) := split_byte sep s' in
      if bool_decide (c = sep) then (EmptyString, first :: rest) else (String c first, rest)
  end.
Definition Split (sep : ascii) (s : string) : list string :=
  let '(first, rest) := split_byte sep s in first :: rest.

(** [strings.EqualFold] against an ASCII word without [k] and [s], the only
    letters with a non-ASCII case variant. *)
Definition ascii_lower (c : ascii) : ascii :=
  if byte_in 65 90 c then ascii_of_N (N_of_ascii c + 32) else c.
Fixpoint lower (s : string) : string :=
  match s with EmptyString => EmptyString | String c s' => String (ascii_lower c) (lower s') end.
Definition EqualFold (s t : string) : bool := bool_decide (lower s = lower t).

(** [utf8.ValidString]. *)
Definition continuation (c : ascii) : bool := byte_in 128 191 c.
Fixpoint utf8_valid (s : string) : bool :=
  match s with
  | EmptyString => true
  | String c s1 =>
      if byte_in 0 127 c then utf8_valid s1
      else match s1 with
           | EmptyString => false
           | String d s2 =>
               if byte_in 194 223 c then continuation d && utf8_valid s2
               else match s2 with
                    | EmptyString => false
                    | String e s3 =>
                        if byte_in 224 239 c
                        then byte_in (if byte_is 224 c then 160 else 128)
                               (if byte_is 237 c then 159 else 191) d
                             && continuation e && utf8_valid s3
                        else match s3 with
                             | EmptyString => false
                             | String f s4 =>
                                 byte_in 240 244 c
                                 && byte_in (if byte_is 240 c then 144 else 128)
                                      (if byte_is 244 c then 143 else 191) d
                                 && continuation e && continuation f && utf8_valid s4
                             end
                    end
           end
  end.

(** The byte ["\x00"] the stores separate the parts of a key with. *)
Definition NUL : ascii := Ascii.zero.
Definition nul_key (a b : string) : string := (a +:+ String NUL b)%string.
Fixpoint has_byte (c : ascii) (s : string) : bool :=
  match s with EmptyString => false | String d s' => bool_decide (d = c) || has_byte c s' end.
Definition no_nul (s : string) : Prop := has_byte NUL s = false.
Definition str_lt (a b : string) : bool := String.ltb a b.

(** * Errors

    A sentinel ([var ErrX = errors.New(..)]) is identified by its package and
    name; [fmt.Errorf] keeps its format and arguments; only ["%w"] keeps the
    wrapped error reachable by [errors.Is], ["%v"] prints it.  An error value of
    a library's own type has its kind, its text and its fields. *)

Inductive error : Type :=
| ESentinel (id msg : string)
| EText (format : string) (args : list string)
| EWrap (cause : error) (format : string) (args : list string)
| EWrapV (cause inner : error)
| EForeign (kind msg : string) (fields : list string).

#[export] Instance error_eq_dec : EqDecision error.
Proof. solve_decision. Defined.

Fixpoint errors_Is (e target : error) : bool :=
  bool_decide (e = target)
  || match e with
     | EWrap c _ _ | EWrapV c _ => errors_Is c target
     | _ => false
     end.

(** [strconv.Quote]: the escapes of control bytes, of the double quote and of the backslash;
    the bytes of a printable rune outside ASCII are kept. *)
Definition quote_hex (n : N) : ascii := ascii_of_N (if (n <? 10)%N then 48 + n else 87 + n).
Definition quote_byte (c : ascii) (rest : string) : string :=
  let n := N_of_ascii c in
  let named (e : N) := String (ascii_of_N 92) (String (ascii_of_N e) rest) in
  match n with
  | 7 => named 97 | 8 => named 98 | 12 => named 102 | 10 => named 110
  | 13 => named 114 | 9 => named 116 | 11 => named 118
  | 34 => named 34 | 92 => named 92
  | _ =>
      if (n <? 32)%N || (n =? 127)%N
      then String (ascii_of_N 92) (String "x" (String (quote_hex (n / 16)) (String (quote_hex (n mod 16)) rest)))
      else String c rest
  end%N.
Fixpoint quote_bytes (s : string) : string :=
  match s with
  | EmptyString => String (ascii_of_N 34) EmptyString
  | String c s' => quote_byte c (quote_bytes s')
  end.
Definition Quote (s : string) : string := String (ascii_of_N 34) (quote_bytes s).

(** [fmt.Sprintf] of the verbs the code uses, on arguments already printed:
    [%q] quotes its string, the others insert it. *)
Fixpoint sprintf (format : string) (args : list string) : string :=
  match format with
  | EmptyString => EmptyString
  | String "%" (String v rest) =>
      match args with
      | a :: args' =>
          ((if bool_decide (v = "q"%char) then Quote a else a) +:+ sprintf rest args')%string
      | [] => String "%" (String v (sprintf rest []))
      end
  | String c rest => String c (sprintf rest args)
  end.

Fixpoint Error (e : error) : string :=
  match e with
  | ESentinel _ msg => msg
  | EText f args => sprintf f args
  | EWrap c f args => (Error c +:+ ": " +:+ sprintf f args)%string
  | EWrapV c i => (Error c +:+ ": " +:+ Error i)%string
  | EForeign _ msg _ => msg
  end.

(** The quotation mark is byte 34. *)
Example quote_version :
  sprintf "versionRef %q at %d" ["v 1"; "7"] =
  ("versionRef " +:+ String (ascii_of_N 34) ("v 1" +:+ String (ascii_of_N 34) " at 7"))%string.
Proof. reflexivity. Qed.
Example trim_text : TrimSpace "  a b	 " = "a b"%string.
Proof. reflexivity. Qed.

Definition context_Canceled : error := ESentinel "context.Canceled" "context canceled".
Definition context_DeadlineExceeded : error :=
  ESentinel "context.DeadlineExceeded" "context deadline exceeded".

Abbreviation res := (result_ error).
Abbreviation M := (M_ error).

(** A [context.Context]: the answer of its [n]-th [Err()] call, so that a
    request may be cancelled, or its deadline pass, between any two steps of
    an operation. *)
Inductive ctx_error := Canceled | DeadlineExceeded.
Definition ctx_cause (e : ctx_error) : error :=
  match e with Canceled => context_Canceled | DeadlineExceeded => context_DeadlineExceeded end.
Definition Context := nat → option ctx_error.
Definition Background : Context := λ _, None.

(** [if err := ctx.Err(); err != nil { return err }], the first lines of a
    store method; [ctxErr] is the answer. *)
Definition ctx_check {W} (ctxErr : option error) : M W unit :=
  match ctxErr with Some err => mthrow err | None => mret tt end.

(** * Iteration over a map

    [for _, v := range m] visits the entries in an order the runtime chooses:
    the order of the keys is an argument. *)
Definition RangeOrder := list string → list string.
Definition map_values {A} (range : RangeOrder) (m : gmap string A) : list A :=
  omap (m !!.) (range (map_to_list m).*1).
Definition range_ok (range : RangeOrder) : Prop := ∀ l, range l ≡ₚ l.

(** * slices.SortFunc

    The order is given by "not greater"; the lists the code sorts have
    pairwise different keys, so that stability does not matter
    ([SortFunc_canonical]). *)
Definition SortFunc {A} (le : A → A → bool) (l : list A) : list A :=
  merge_sort (λ a b, Is_true (le a b)) l.

(** * float64: IEEE 754 binary64, as [SpecFloat] computes it *)

Definition float64 := spec_float.
Definition f_of_int (z : Z) : float64 := binary_normalize 53 1024 z 0 false.
Definition f_zero : float64 := S754_zero false.
Definition f_div (x y : float64) : float64 := SFdiv 53 1024 x y.
Definition f_mul (x y : float64) : float64 := SFmul 53 1024 x y.
Definition f_lt (x y : float64) : bool := SFltb x y.
Definition f_le (x y : float64) : bool := SFleb x y.
Definition f_eq (x y : float64) : bool := SFeqb x y.
Definition f_IsNaN (x : float64) : bool := match x with S754_nan => true | _ => false end.
Definition f_IsInf (x : float64) : bool := match x with S754_infinity _ => true | _ => false end.

(** * encoding/json.Valid

    The byte-driven state machine of the standard library's scanner, with its
    stack of open brackets and its nesting limit. *)

Module Json.

Inductive step :=
| BeginValueOrEmpty | BeginValue | BeginStringOrEmpty | BeginString | EndValue | EndTop
| InString | InStringEsc | InStringEscU (digits : nat)
| Neg | Int1 | Int0 | Dot | Dot0 | Exp | ExpSign | Exp0
| Lit (rest : list ascii).

Inductive parse_state := ObjectKey | ObjectValue | ArrayValue.

Record scanner := Scanner { sc_step : step; sc_stack : list parse_state; sc_endTop : bool }.

Definition start : scanner := Scanner BeginValue [] false.
Definition maxNestingDepth : Z := 10000.

Definition isSpace (c : ascii) : bool :=
  byte_is 32 c || byte_is 9 c || byte_is 13 c || byte_is 10 c.
Definition digit (c : ascii) : bool := byte_in 48 57 c.
Definition digit19 (c : ascii) : bool := byte_in 49 57 c.
Definition hex (c : ascii) : bool := digit c || byte_in 97 102 c || byte_in 65 70 c.

Definition goto (st : step) (s : scanner) : option scanner :=
  Some (Scanner st (sc_stack s) (sc_endTop s)).
Definition push (p : parse_state) (st : step) (s : scanner) : option scanner :=
  if Z.of_nat (S (length (sc_stack s))) <=? maxNestingDepth
  then Some (Scanner st (p :: sc_stack s) (sc_endTop s)) else None.
Definition pop (s : scanner) : option scanner :=
  match sc_stack s with
  | _ :: [] => Some (Scanner EndTop [] true)
  | _ :: st => Some (Scanner EndValue st (sc_endTop s))
  | [] => None
  end.

Definition endTop_step (s : scanner) (c : ascii) : option scanner :=
  if isSpace c then goto EndTop s else None.

Definition endValue (s : scanner) (c : ascii) : option scanner :=
  match sc_stack s with
  | [] => endTop_step (Scanner EndTop [] true) c
  | p :: st =>
      if isSpace c then goto EndValue s
      else match p with
           | ObjectKey =>
               if byte_is 58 c then Some (Scanner BeginValue (ObjectValue :: st) (sc_endTop s))
               else None
           | ObjectValue =>
               if byte_is 44 c then Some (Scanner BeginString (ObjectKey :: st) (sc_endTop s))
               else if byte_is 125 c then pop s else None
           | ArrayValue =>
               if byte_is 44 c then goto BeginValue s
               else if byte_is 93 c then pop s else None
           end
  end.

Definition beginValue (s : scanner) (c : ascii) : option scanner :=
  if isSpace c then Some s
  else if byte_is 123 c then push ObjectKey BeginStringOrEmpty s
  else if byte_is 91 c then push ArrayValue BeginValueOrEmpty s
  else if byte_is 34 c then goto InString s
  else if byte_is 45 c then goto Neg s
  else if byte_is 48 c then goto Int0 s
  else if byte_is 116 c then goto (Lit ["r"; "u"; "e"]%char) s
  else if byte_is 102 c then goto (Lit ["a"; "l"; "s"; "e"]%char) s
  else if byte_is 110 c then goto (Lit ["u"; "l"; "l"]%char) s
  else if digit19 c then goto Int1 s
  else None.

Definition beginString (s : scanner) (c : ascii) : option scanner :=
  if isSpace c then Some s else if byte_is 34 c then goto InString s else None.

Definition int0 (s : scanner) (c : ascii) : option scanner :=
  if byte_is 46 c then goto Dot s
  else if byte_is 101 c || byte_is 69 c then goto Exp s
  else endValue s c.

Definition expSign (s : scanner) (c : ascii) : option scanner :=
  if digit c then goto Exp0 s else None.

Definition escapes : list N := [98; 102; 110; 114; 116; 92; 47; 34]%N.

Definition step_byte (s : scanner) (c : ascii) : option scanner :=
  match sc_step s with
  | BeginValueOrEmpty =>
      if isSpace c then Some s
      else if byte_is 93 c then endValue s c else beginValue s c
  | BeginValue => beginValue s c
  | BeginStringOrEmpty =>
      if isSpace c then Some s
      else if byte_is 125 c
           then endValue (Scanner EndValue (ObjectValue :: tail (sc_stack s)) (sc_endTop s)) c
           else beginString s c
  | BeginString => beginString s c
  | EndValue => endValue s c
  | EndTop => endTop_step s c
  | InString =>
      if byte_is 34 c then goto EndValue s
      else if byte_is 92 c then goto InStringEsc s
      else if byte_in 0 31 c then None else Some s
  | InStringEsc =>
      if existsb (λ n, byte_is n c) escapes then goto InString s
      else if byte_is 117 c then goto (InStringEscU 4) s else None
  | InStringEscU n =>
      if hex c then goto (match n with S (S n') => InStringEscU (S n') | _ => InString end) s
      else None
  | Neg => if byte_is 48 c then goto Int0 s else if digit19 c then goto Int1 s else None
  | Int1 => if digit c then Some s else int0 s c
  | Int0 => int0 s c
  | Dot => if digit c then goto Dot0 s else None
  | Dot0 =>
      if digit c then Some s
      else if byte_is 101 c || byte_is 69 c then goto Exp s else endValue s c
  | Exp => if byte_is 43 c || byte_is 45 c then goto ExpSign s else expSign s c
  | ExpSign => expSign s c
  | Exp0 => if digit c then Some s else endValue s c
  | Lit [] => None
  | Lit (d :: rest) =>
      if bool_decide (c = d)
      then goto (match rest with [] => EndValue | _ => Lit rest end) s else None
  end.

Fixpoint scan (s : scanner) (data : string) : option scanner :=
  match data with
  | EmptyString => Some s
  | String c data' => match step_byte s c with Some s' => scan s' data' | None => None end
  end.

(** End of input: a number at top level is ended by an imaginary space. *)
Definition eof (s : scanner) : bool :=
  sc_endTop s || match step_byte s " "%char with Some s' => sc_endTop s' | None => false end.

Definition Valid (data : string) : bool :=
  match scan start data with Some s => eof s | None => false end.

End Json.

(** * Facts about these functions *)

Lemma empty_str_true s : empty_str s = true ↔ s = EmptyString.
Proof. apply bool_decide_eq_true. Qed.
Lemma empty_str_false s : empty_str s = false ↔ s ≠ EmptyString.
Proof. apply bool_decide_eq_false. Qed.

(** Comparison of strings is a total order. *)
Lemma str_lt_leb a b : str_lt a b = negb (String.leb b a).
Proof.
  unfold str_lt, String.ltb, String.leb. rewrite (String.compare_antisym a b).
  by destruct (String.compare b a).
Qed.
Lemma str_not_lt a b : str_lt a b = false ↔ String.le b a.
Proof.
  rewrite str_lt_leb, negb_false_iff. unfold String.le. symmetry. apply Is_true_true.
Qed.
Lemma str_lt_le a b : str_lt a b = true → String.le a b.
Proof.
  rewrite str_lt_leb. intros Hlt. destruct (String.leb_total a b) as [H|H]; unfold String.le.
  - by rewrite H.
  - by rewrite H in Hlt.
Qed.

(** ** Iteration over a map *)
Lemma omap_map_keys {A} (m : gmap string A) : omap (m !!.) (map_to_list m).*1 = (map_to_list m).*2.
Proof.
  assert (∀ l : list (string * A), l ⊆ map_to_list m → omap (m !!.) l.*1 = l.*2) as H.
  { induction l as [|[k a] l IH]; [done|]. intros Hl. simpl.
    rewrite (proj1 (elem_of_map_to_list m k a)) by (apply Hl; by left).
    f_equal. apply IH. intros x Hx. apply Hl. by right. }
  by apply H.
Qed.
Lemma map_values_perm {A} range (m : gmap string A) :
  range_ok range → map_values range m ≡ₚ (map_to_list m).*2.
Proof. unfold range_ok, map_values. intros Hr. by rewrite Hr, omap_map_keys. Qed.
Lemma elem_of_map_values {A} range (m : gmap string A) a :
  range_ok range → a ∈ map_values range m ↔ ∃ k, m !! k = Some a.
Proof.
  intros Hr. rewrite map_values_perm by done. rewrite list_elem_of_fmap. split.
  - intros ([k b] & -> & Hkb%elem_of_map_to_list). eauto.
  - intros [k Hk]. exists (k, a). by rewrite elem_of_map_to_list.
Qed.
(** A function of the values that is injective on the map lists no value twice. *)
Lemma NoDup_map_values {A B} (f : A → B) range (m : gmap string A) :
  range_ok range →
  (∀ k k' a a', m !! k = Some a → m !! k' = Some a' → f a = f a' → k = k') →
  NoDup (f <$> map_values range m).
Proof.
  intros Hr Hinj. rewrite map_values_perm by done. rewrite <-list_fmap_compose.
  apply NoDup_fmap_2_strong; [|apply NoDup_map_to_list].
  intros [k a] [k' a'] H1%elem_of_map_to_list H2%elem_of_map_to_list Hf; simpl in Hf.
  assert (k = k') as <- by eauto. congruence.
Qed.

(** ** Sorting *)
Section SortFunc.
Context {A : Type} (le : A → A → bool).
Abbreviation R := (λ a b, Is_true (le a b)).

Lemma SortFunc_perm l : SortFunc le l ≡ₚ l.
Proof. apply merge_sort_Permutation. Qed.

Lemma SortFunc_sorted `{!Transitive R} `{!Total R} l : StronglySorted R (SortFunc le l).
Proof. by apply StronglySorted_merge_sort. Qed.

(** Any sorted permutation of a list whose elements the order separates is
    the one [SortFunc] computes: the result does not depend on the algorithm,
    nor on the order of the input. *)
Lemma SortFunc_canonical `{!Transitive R} `{!Total R} l l' :
  (∀ x y, x ∈ l → y ∈ l → le x y → le y x → x = y) →
  l' ≡ₚ l → StronglySorted R l' → SortFunc le l = l'.
Proof.
  intros Hsep Hp Hs. eapply (StronglySorted_unique_strong R); [|by apply SortFunc_sorted|done|].
  - intros x y Hx Hy. apply Hsep; [by rewrite SortFunc_perm in Hx|by rewrite Hp in Hy].
  - by rewrite SortFunc_perm, Hp.
Qed.

Lemma SortFunc_input_order `{!Transitive R} `{!Total R} l l' :
  (∀ x y, x ∈ l → y ∈ l → le x y → le y x → x = y) →
  l ≡ₚ l' → SortFunc le l = SortFunc le l'.
Proof.
  intros Hsep Hp. apply SortFunc_canonical; [done| |by apply SortFunc_sorted].
  by rewrite SortFunc_perm.
Qed.
End SortFunc.

(** ** Keys joined with a zero byte *)
Lemma nul_key_inj a b c d :
  no_nul a → no_nul c → nul_key a b = nul_key c d → a = c ∧ b = d.
Proof.
  unfold no_nul, nul_key. revert c.
  induction a as [|x a IH]; intros [|y c]; simpl; intros Ha Hc Heq.
  - by injection Heq as ->.
  - injection Heq as <- Heq. by rewrite bool_decide_true in Hc.
  - injection Heq as -> Heq. by rewrite bool_decide_true in Ha.
  - apply orb_false_iff in Ha as [_ Ha], Hc as [_ Hc].
    injection Heq as -> Heq. destruct (IH c Ha Hc Heq) as [-> ->]. done.
Qed.

Lemma str_app_nil_r a : (a +:+ "")%string = a.
Proof.
  induction a as [|c a IH]; [done|]. change (String c (a +:+ "")%string = String c a). by rewrite IH.
Qed.

Lemma str_app_assoc a b c : ((a +:+ b) +:+ c)%string = (a +:+ (b +:+ c))%string.
Proof.
  induction a as [|x a IH]; [done|].
  change (String x ((a +:+ b) +:+ c)%string = String x (a +:+ (b +:+ c))%string). by rewrite IH.
Qed.

Lemma has_byte_app c a b : has_byte c (a +:+ b)%string = has_byte c a || has_byte c b.
Proof. induction a as [|x a IH]; simpl; [done|]. by rewrite IH, orb_assoc. Qed.

Lemma no_nul_app a b : no_nul a → no_nul b → no_nul (a +:+ b)%string.
Proof. unfold no_nul. rewrite has_byte_app. by intros -> ->. Qed.

Lemma Cut_app sep a b : has_byte sep a = false → Cut sep (a +:+ String sep b)%string = (a, b, true).
Proof.
  induction a as [|c a IH]; simpl.
  - intros _. by rewrite bool_decide_true.
  - intros [Hc Ha]%orb_false_iff. rewrite Hc.
    change ((fix app (s1 s2 : string) : string := _) a (String sep b)) with (a +:+ String sep b)%string.
    by rewrite IH.
Qed.

Lemma Cut_inv sep s a b : Cut sep s = (a, b, true) → s = (a +:+ String sep b)%string.
Proof.
  revert a b. induction s as [|c s IH]; intros a b; simpl; [done|].
  case_bool_decide as Hc; [intros [= <- <-]; by subst|].
  destruct (Cut sep s) as [[a' b'] []]; [|done]. intros [= <- <-].
  by rewrite (IH a' b').
Qed.

(** Text that starts with ASCII is valid when the rest is. *)
Fixpoint ascii_text (s : string) : bool :=
  match s with EmptyString => true | String c s' => byte_in 0 127 c && ascii_text s' end.
Lemma utf8_valid_ascii_app a b : ascii_text a = true → utf8_valid (a +:+ b)%string = utf8_valid b.
Proof.
  induction a as [|c a IH]; [done|]. cbn [ascii_text]. intros [Hc Ha]%andb_true_iff.
  change (utf8_valid (String c (a +:+ b)%string) = utf8_valid b). cbn [utf8_valid].
  rewrite Hc. by apply IH.
Qed.

(** A joined key also determines its parts when the second has no zero byte. *)
Lemma nul_key_inj_r a b c d :
  no_nul b → no_nul d → nul_key a b = nul_key c d → a = c ∧ b = d.
Proof.
  unfold no_nul, nul_key. intros Hb Hd. revert c.
  induction a as [|x a IH]; intros [|y c]; simpl; intros Heq.
  - by injection Heq as ->.
  - injection Heq as _ ->. rewrite has_byte_app in Hb. simpl in Hb.
    by rewrite orb_true_r in Hb.
  - injection Heq as _ <-. rewrite has_byte_app in Hd. simpl in Hd.
    by rewrite orb_true_r in Hd.
  - injection Heq as -> Heq. destruct (IH c Heq) as [-> ->]. done.
Qed.

Lemma pretty_N_go_no_nul n : ∀ s, no_nul s → no_nul (pretty_N_go n s).
Proof.
  induction (N.lt_wf_0 n) as [n _ IH]. intros s Hs.
  destruct (decide (0 < n)%N) as [Hn|Hn].
  - rewrite pretty_N_go_step by done. apply IH; [by apply N.div_lt|].
    unfold no_nul in *. simpl. rewrite Hs, orb_false_r. apply bool_decide_eq_false.
    unfold pretty_N_char. by repeat case_match.
  - by replace n with 0%N by lia.
Qed.

(** The decimal print of an integer carries no zero byte. *)
Lemma pretty_Z_no_nul (z : Z) : no_nul (pretty z).
Proof.
  assert (∀ n : N, no_nul (pretty n)) as Hp.
  { intros n. unfold pretty, pretty_N. case_decide; [done|]. by apply pretty_N_go_no_nul. }
  destruct z as [|p|p]; [done|apply (Hp (Npos p))|]. apply (no_nul_app "-"); [done|apply (Hp (Npos p))].
Qed.

(** ** Integers and durations *)
Lemma int64_wrap_id z : int64_ok z → int64_wrap z = z.
Proof.
  unfold int64_ok, int64_min, int64_max, int64_wrap. intros H.
  rewrite Z.mod_small; lia.
Qed.
Lemma int64_wrap_ok z : int64_ok (int64_wrap z).
Proof.
  unfold int64_ok, int64_min, int64_max, int64_wrap.
  pose proof (Z.mod_pos_bound (z + 2 ^ 63) (2 ^ 64)). lia.
Qed.
Lemma time_Sub_exact t u : int64_ok (t - u) → time_Sub t u = t - u.
Proof. unfold int64_ok, time_Sub. lia. Qed.
Lemma time_Sub_ge t u d : int64_ok d → d ≤ t - u → d ≤ time_Sub t u.
Proof. unfold int64_ok, time_Sub. lia. Qed.

(** ** errors.Is *)
Lemma errors_Is_refl e : errors_Is e e = true.
Proof. destruct e; simpl; rewrite bool_decide_true; done. Qed.
Lemma errors_Is_wrap c f a t : errors_Is c t = true → errors_Is (EWrap c f a) t = true.
Proof. simpl. intros ->. apply orb_true_r. Qed.
