(* ===== verification/Sha256.v ===== *)
(** SHA-256 (FIPS 180-4), the [crypto/sha256] function that buckets agents and
    checksums values, executable on byte strings. *)

From Stdlib Require Import NArith Ascii.
From S2P Require Import Prelude.
Open Scope N_scope.

Module Sha256.

Definition mask32 : N := 0xffffffff.
Definition add32 (x y : N) : N := N.land (x + y) mask32.
Definition rotr (n x : N) : N :=
  N.lor (N.shiftr x n) (N.land (N.shiftl x (32 - n)) mask32).
Definition not32 (x : N) : N := N.lxor x mask32.

Definition ch (x y z : N) : N := N.lxor (N.land x y) (N.land (not32 x) z).
Definition maj (x y z : N) : N := N.lxor (N.lxor (N.land x y) (N.land x z)) (N.land y z).
Definition bsig0 (x : N) : N := N.lxor (N.lxor (rotr 2 x) (rotr 13 x)) (rotr 22 x).
Definition bsig1 (x : N) : N := N.lxor (N.lxor (rotr 6 x) (rotr 11 x)) (rotr 25 x).
Definition ssig0 (x : N) : N := N.lxor (N.lxor (rotr 7 x) (rotr 18 x)) (N.shiftr x 3).
Definition ssig1 (x : N) : N := N.lxor (N.lxor (rotr 17 x) (rotr 19 x)) (N.shiftr x 10).

(** The sixty-four round constants, one row of eight per line. *)
Definition round_constants : list N :=
  [ 1116352408; 1899447441; 3049323471; 3921009573; 961987163; 1508970993; 2453635748; 2870763221;
    3624381080; 310598401; 607225278; 1426881987; 1925078388; 2162078206; 2614888103; 3248222580;
    3835390401; 4022224774; 264347078; 604807628; 770255983; 1249150122; 1555081692; 1996064986;
    2554220882; 2821834349; 2952996808; 3210313671; 3336571891; 3584528711; 113926993; 338241895;
    666307205; 773529912; 1294757372; 1396182291; 1695183700; 1986661051; 2177026350; 2456956037;
    2730485921; 2820302411; 3259730800; 3345764771; 3516065817; 3600352804; 4094571909; 275423344;
    430227734; 506948616; 659060556; 883997877; 958139571; 1322822218; 1537002063; 1747873779;
    1955562222; 2024104815; 2227730452; 2361852424; 2428436474; 2756734187; 3204031479; 3329325298 ].

Record hash := Hash { ha : N; hb : N; hc : N; hd : N; he : N; hf : N; hg : N; hh : N }.

Definition initial : hash :=
  Hash 1779033703 3144134277 1013904242 2773480762 1359893119 2600822924 528734635 1541459225.

(** The message schedule is kept as a window of the last sixteen words, the
    oldest first. *)
Definition next_word (win : list N) : N :=
  match win with
  | [w0; w1; _; _; _; _; _; _; _; w9; _; _; _; _; w14; _] =>
      add32 (add32 (ssig1 w14) w9) (add32 (ssig0 w1) w0)
  | _ => 0
  end.

Definition one_round (k w : N) (s : hash) : hash :=
  let t1 := add32 (add32 (add32 (hh s) (bsig1 (he s))) (add32 (ch (he s) (hf s) (hg s)) k)) w in
  let t2 := add32 (bsig0 (ha s)) (maj (ha s) (hb s) (hc s)) in
  Hash (add32 t1 t2) (ha s) (hb s) (hc s) (add32 (hd s) t1) (he s) (hf s) (hg s).

Fixpoint rounds (ks : list N) (win : list N) (s : hash) : hash :=
  match ks, win with
  | k :: ks', w :: win' => rounds ks' (win' ++ [next_word win]) (one_round k w s)
  | _, _ => s
  end.

Definition hash_add (s t : hash) : hash :=
  Hash (add32 (ha s) (ha t)) (add32 (hb s) (hb t)) (add32 (hc s) (hc t)) (add32 (hd s) (hd t))
       (add32 (he s) (he t)) (add32 (hf s) (hf t)) (add32 (hg s) (hg t)) (add32 (hh s) (hh t)).

Definition compress (s : hash) (block : list N) : hash :=
  hash_add s (rounds round_constants block s).

(** Bytes, padding and the cut into big-endian words and blocks. *)
Fixpoint bytes_of (s : string) : list N :=
  match s with EmptyString => [] | String c s' => N_of_ascii c :: bytes_of s' end.

Definition be_word (b3 b2 b1 b0 : N) : N :=
  N.lor (N.shiftl b3 24) (N.lor (N.shiftl b2 16) (N.lor (N.shiftl b1 8) b0)).
Definition word_bytes (w : N) : list N :=
  [N.shiftr w 24; N.land (N.shiftr w 16) 255; N.land (N.shiftr w 8) 255; N.land w 255].

Fixpoint words (bs : list N) : list N :=
  match bs with
  | b3 :: b2 :: b1 :: b0 :: bs' => be_word b3 b2 b1 b0 :: words bs'
  | _ => []
  end.

Definition pad (bs : list N) : list N :=
  let n := length bs in
  let zeros := Nat.modulo (64 - Nat.modulo (n + 9) 64) 64 in
  let bits := 8 * N.of_nat n in
  bs ++ 128 :: repeat 0 zeros
     ++ word_bytes (N.shiftr bits 32) ++ word_bytes (N.land bits mask32).

Fixpoint blocks (fuel : nat) (s : hash) (ws : list N) : hash :=
  match fuel, ws with
  | S fuel', _ :: _ => blocks fuel' (compress s (firstn 16 ws)) (skipn 16 ws)
  | _, _ => s
  end.

(** One block is consumed per unit of fuel, and there are fewer blocks than
    padded words. *)
Definition Sum256 (msg : string) : list N :=
  let ws := words (pad (bytes_of msg)) in
  let s := blocks (length ws) initial ws in
  word_bytes (ha s) ++ word_bytes (hb s) ++ word_bytes (hc s) ++ word_bytes (hd s)
  ++ word_bytes (he s) ++ word_bytes (hf s) ++ word_bytes (hg s) ++ word_bytes (hh s).

(** [hex.EncodeToString]; only the low byte of an element counts. *)
Definition hex_digit (n : N) : ascii :=
  let n := N.land n 15 in ascii_of_N (if N.ltb n 10 then 48 + n else 87 + n).
Fixpoint hex_encode (bs : list N) : string :=
  match bs with
  | [] => EmptyString
  | b :: bs' => String (hex_digit (N.shiftr b 4)) (String (hex_digit (N.land b 15)) (hex_encode bs'))
  end.

(** [binary.BigEndian.Uint64(sum[:8])]. *)
Fixpoint be_number (bs : list N) (acc : N) : N :=
  match bs with [] => acc | b :: bs' => be_number bs' (256 * acc + b) end.

(** Keep the digest folded in proofs; [vm_compute] still evaluates it. *)
#[global] Opaque Sum256.

End Sha256.
