(* ===== verification/Host.v ===== *)
(** The host a service runs on, and the composition of stateful parts: the
    clock, the random source and the cancellation of a request ([Env]), the
    parts of a world ([Has], [zoom]), and what an operation on one part
    leaves alone. *)

From Stdlib Require Import ZArith Lia Ascii.
From S2P Require Import Prelude GoLib Sha256.
Open Scope string_scope.
Open Scope list_scope.
Open Scope Z_scope.

(** * Parts of a world *)

(** A world [W] with a part [S]. *)
Class Has (S W : Type) := {
  part : W → S;
  set_part : S → W → W }.
Arguments part {S W _} _ : simpl never.
Arguments set_part {S W _} _ _ : simpl never.

Class HasLaws (S W : Type) `{Has S W} := {
  part_set : ∀ s (w : W), part (set_part s w) = s;
  set_part_part : ∀ w : W, set_part (part w) w = w;
  set_set_part : ∀ s s' (w : W), set_part s (set_part s' w) = set_part s w }.

#[export] Instance Has_self S : Has S S := {| part w := w; set_part s _ := s |}.
#[export] Instance Has_self_laws S : HasLaws S S.
Proof. by split. Qed.

(** An operation on a part, run in the whole world. *)
Definition zoom {E S W A} `{Has S W} (m : M_ E S A) : M_ E W A :=
  λ w, let '(r, s) := m (part w) in (r, set_part s w).

Lemma wp_zoom {E S W A} `{Has S W} (m : M_ E S A) (Q : result_ E A → W → Prop) w :
  wp m (λ r s, Q r (set_part s w)) (part w) → wp (zoom m) Q w.
Proof. unfold wp, zoom. by destruct (m (part w)). Qed.

(** * The clock, randomness and cancellation *)

(** The readings are those of the host: [env_now] is [time.Now().UTC()],
    [env_random n] are [n] bytes of [crypto/rand], which does not fail,
    [env_range] is the order of the next iteration over a map, and
    [env_ctx ctx] is one call of [ctx.Err()]. *)
Class Env (W : Type) := {
  env_now : W → Time * W;
  env_random : nat → W → list N * W;
  env_range : W → RangeOrder * W;
  env_ctx : Context → W → option ctx_error * W }.

Definition now {W} `{Env W} : M W Time := λ w, let '(t, w') := env_now w in (Ok t, w').

Definition random_bytes {W} `{Env W} (n : nat) : M W (list N) :=
  λ w, let '(b, w') := env_random n w in (Ok b, w').

Definition ctx_Err {W} `{Env W} (ctx : Context) : M W (option error) :=
  λ w, let '(e, w') := env_ctx ctx w in (Ok (ctx_cause <$> e), w').

Definition range_order {W} `{Env W} : M W RangeOrder :=
  λ w, let '(r, w') := env_range w in (Ok r, w').

(** A store method: it asks [ctx.Err()], then runs on the store's part. *)
Definition store_call {S W A} `{Env W, Has S W} (ctx : Context)
    (method : option error → M S A) : M W A :=
  ctxErr ← ctx_Err ctx; zoom (method ctxErr).

(** The same for a method that iterates over a map. *)
Definition store_range {S W A} `{Env W, Has S W} (ctx : Context)
    (method : option error → RangeOrder → M S A) : M W A :=
  ctxErr ← ctx_Err ctx; range ← range_order; zoom (method ctxErr range).

(** [prefix + "_" + hex.EncodeToString(b[:])] for twelve random bytes. *)
Definition random_id {W} `{Env W} (prefix : string) : M W string :=
  b ← random_bytes 12;
  mret (prefix +:+ "_" +:+ Sha256.hex_encode b)%string.

(** Generated identifiers carry no zero byte. *)
Lemma hex_digit_not n c : (N_of_ascii c < 48)%N → bool_decide (Sha256.hex_digit n = c) = false.
Proof.
  intros Hc. apply bool_decide_eq_false. unfold Sha256.hex_digit. cbv zeta. intros Heq.
  assert (N.land n 15 < 16)%N as Hlt.
  { change 15%N with (N.ones 4). rewrite N.land_ones. by apply N.mod_lt. }
  apply (f_equal N_of_ascii) in Heq.
  destruct (N.ltb (N.land n 15) 10) eqn:?; rewrite N_ascii_embedding in Heq by lia; lia.
Qed.
Lemma has_byte_hex_encode c b : (N_of_ascii c < 48)%N → has_byte c (Sha256.hex_encode b) = false.
Proof.
  intros Hc. induction b as [|x b IH]; [done|]. cbn [Sha256.hex_encode has_byte].
  by rewrite !hex_digit_not, IH.
Qed.
Lemma hex_encode_no_nul b : no_nul (Sha256.hex_encode b).
Proof. apply has_byte_hex_encode. by vm_compute. Qed.
(** They are ASCII text. *)
Lemma hex_digit_ascii n : byte_in 0 127 (Sha256.hex_digit n) = true.
Proof.
  unfold Sha256.hex_digit. cbv zeta. unfold byte_in.
  assert (N.land n 15 < 16)%N as Hlt.
  { change 15%N with (N.ones 4). rewrite N.land_ones. by apply N.mod_lt. }
  destruct (N.ltb (N.land n 15) 10) eqn:?; rewrite N_ascii_embedding by lia;
    apply andb_true_iff; split; apply N.leb_le; lia.
Qed.
Lemma hex_encode_utf8 b : utf8_valid (Sha256.hex_encode b) = true.
Proof.
  induction b as [|x b IH]; [done|]. cbn [Sha256.hex_encode utf8_valid].
  by rewrite !hex_digit_ascii, IH.
Qed.
Lemma random_id_utf8 prefix b :
  ascii_text prefix = true → utf8_valid (prefix +:+ "_" +:+ Sha256.hex_encode b)%string = true.
Proof. intros Hp. rewrite utf8_valid_ascii_app by done. rewrite utf8_valid_ascii_app by done. apply hex_encode_utf8. Qed.
Lemma random_id_no_nul prefix b :
  no_nul prefix → no_nul (prefix +:+ "_" +:+ Sha256.hex_encode b)%string.
Proof. intros Hp. apply no_nul_app; [done|]. apply no_nul_app; [done|apply hex_encode_no_nul]. Qed.

(** A map is iterated in some order of its keys, and a context answers as it
    was given. *)
Class EnvLaws (W : Type) `{Env W} := {
  env_range_ok : ∀ w : W, range_ok (env_range w).1;
  env_ctx_answers : ∀ ctx (w : W) c, (env_ctx ctx w).1 = Some c → ∃ n, ctx n = Some c }.

(** The error of a request that was cancelled or ran out of time. *)
Definition interrupted (ctx : Context) (e : error) : Prop :=
  ∃ n c, ctx n = Some c ∧ e = ctx_cause c.

Lemma interrupted_Background e : ¬ interrupted Background e.
Proof. by intros (n & c & ? & _). Qed.

(** The answers a context may give to one call of [ctx.Err()]. *)
Definition ctx_answer (ctx : Context) (e : option ctx_error) : Prop :=
  ∀ c, e = Some c → interrupted ctx (ctx_cause c).

Lemma wp_ctx_check {W} ctx e (Q : res unit → W → Prop) w :
  ctx_answer ctx e → (∀ err, interrupted ctx err → Q (Err err) w) → Q (Ok tt) w →
  wp (ctx_check (ctx_cause <$> e)) Q w.
Proof. intros He HE HQ. destruct e; [apply wp_throw|apply wp_ret]; auto. Qed.

(** * What an operation leaves alone

    [preserves P m]: from a world that satisfies [P], [m] ends in one that
    does, whatever its result. *)

Definition preserves {E W A} (P : W → Prop) (m : M_ E W A) : Prop :=
  ∀ w, P w → P (m w).2.

(** The host's own state is apart from what [P] speaks of. *)
Class HostFrame {W} `{Env W} (P : W → Prop) := {
  frame_now : ∀ w, P w → P (env_now w).2;
  frame_random : ∀ n w, P w → P (env_random n w).2;
  frame_range : ∀ w, P w → P (env_range w).2;
  frame_ctx : ∀ ctx w, P w → P (env_ctx ctx w).2 }.

Section preserves.
Context {E W : Type} (P : W → Prop).

Lemma preserves_ret {A} (a : A) : preserves P (mret a : M_ E W A).
Proof. by intros w Hw. Qed.
Lemma preserves_throw {A} (e : E) : preserves P (mthrow e : M_ E W A).
Proof. by intros w Hw. Qed.
Lemma preserves_lift {A} (r : result_ E A) : preserves P (lift r : M_ E W A).
Proof. by intros w Hw. Qed.
Lemma preserves_guard (c : bool) (e : E) : preserves P (guard_err c e : M_ E W unit).
Proof. by destruct c; intros w Hw. Qed.
Lemma preserves_bind {A B} (m : M_ E W A) (k : A → M_ E W B) :
  preserves P m → (∀ a, preserves P (k a)) → preserves P (m ≫= k).
Proof.
  intros Hm Hk w Hw. unfold mbind, M_bind. specialize (Hm w Hw).
  destruct (m w) as [[a|e] w']; simpl in *; [by apply Hk|done].
Qed.
Lemma preserves_try {A} (m : M_ E W A) : preserves P m → preserves P (try m).
Proof. intros Hm w Hw. specialize (Hm w Hw). unfold try. by destruct (m w). Qed.
Lemma preserves_if {A} (b : bool) (m1 m2 : M_ E W A) :
  preserves P m1 → preserves P m2 → preserves P (if b then m1 else m2).
Proof. by destruct b. Qed.
Lemma preserves_for_each {A} (l : list A) (body : A → M_ E W unit) :
  (∀ x, preserves P (body x)) → preserves P (for_each l body).
Proof.
  intros Hb. induction l as [|x l IH]; [apply preserves_ret|].
  apply preserves_bind; [apply Hb|done].
Qed.
Lemma preserves_wp {A} (m : M_ E W A) w : preserves P m → P w → wp m (λ _ w', P w') w.
Proof. intros Hm Hw. by apply Hm. Qed.
Lemma preserves_and (P' : W → Prop) {A} (m : M_ E W A) :
  preserves P m → preserves P' m → preserves (λ w, P w ∧ P' w) m.
Proof. intros H1 H2 w [??]. split; [by apply H1|by apply H2]. Qed.

(** A kept predicate may be added to what is known after. *)
Lemma wp_with {A} (m : M_ E W A) (Q : result_ E A → W → Prop) w :
  preserves P m → P w → wp m Q w → wp m (λ r w', P w' ∧ Q r w') w.
Proof. intros Hm Hw HQ. split; [by apply Hm|exact HQ]. Qed.
End preserves.

Section host.
Context {W : Type} `{Env W} (P : W → Prop) `{!HostFrame P}.

Lemma preserves_now : preserves P now.
Proof. intros w Hw. apply frame_now in Hw. unfold now. by destruct (env_now w). Qed.
Lemma preserves_random n : preserves P (random_bytes n).
Proof. intros w Hw. apply (frame_random n) in Hw. unfold random_bytes. by destruct (env_random n w). Qed.
Lemma preserves_ctx ctx : preserves P (ctx_Err ctx).
Proof. intros w Hw. apply (frame_ctx ctx) in Hw. unfold ctx_Err. by destruct (env_ctx ctx w). Qed.
Lemma preserves_range : preserves P range_order.
Proof. intros w Hw. apply frame_range in Hw. unfold range_order. by destruct (env_range w). Qed.
Lemma preserves_random_id prefix : preserves P (random_id prefix).
Proof. apply preserves_bind; [apply preserves_random|intros b; apply preserves_ret]. Qed.

Lemma wp_now (Q : res Time → W → Prop) w :
  P w → (∀ t w', P w' → Q (Ok t) w') → wp now Q w.
Proof.
  intros Hw HQ. unfold wp, now. pose proof (frame_now w Hw).
  destruct (env_now w); simpl in *. auto.
Qed.
Lemma wp_random_id prefix (Q : res string → W → Prop) w :
  P w → (∀ b w', P w' → Q (Ok (prefix +:+ "_" +:+ Sha256.hex_encode b)%string) w') →
  wp (random_id prefix) Q w.
Proof.
  intros Hw HQ. unfold wp, random_id, random_bytes, mbind, M_bind.
  pose proof (frame_random 12 w Hw). destruct (env_random 12 w); simpl in *. auto.
Qed.
Lemma wp_ctx_Err `{!EnvLaws W} ctx (Q : res (option error) → W → Prop) w :
  P w → (∀ e w', ctx_answer ctx e → P w' → Q (Ok (ctx_cause <$> e)) w') →
  wp (ctx_Err ctx) Q w.
Proof.
  intros Hw HQ. unfold wp, ctx_Err. pose proof (frame_ctx ctx w Hw).
  pose proof (env_ctx_answers ctx w) as Ha.
  destruct (env_ctx ctx w) as [e w']; simpl in *. apply HQ; [|done].
  intros c Hc. destruct (Ha c Hc) as [n Hn]. by exists n, c.
Qed.
Lemma wp_range_order `{!EnvLaws W} (Q : res RangeOrder → W → Prop) w :
  P w → (∀ r w', range_ok r → P w' → Q (Ok r) w') → wp range_order Q w.
Proof.
  intros Hw HQ. unfold wp, range_order. pose proof (frame_range w Hw).
  pose proof (env_range_ok w). destruct (env_range w); simpl in *. auto.
Qed.

(** A method of a store is a step of its part. *)
Lemma wp_store_call `{!EnvLaws W} {S A} `{Has S W} ctx (method : option error → M S A)
    (Q : res A → W → Prop) w :
  P w →
  (∀ e w, ctx_answer ctx e → P w →
     wp (method (ctx_cause <$> e)) (λ r s, Q r (set_part s w)) (part w)) →
  wp (store_call ctx method) Q w.
Proof.
  intros Hw HQ. unfold store_call. apply wp_bind, wp_ctx_Err; [done|].
  intros e w' He Hw'. apply wp_zoom. by apply HQ.
Qed.
Lemma wp_store_range `{!EnvLaws W} {S A} `{Has S W} ctx
    (method : option error → RangeOrder → M S A) (Q : res A → W → Prop) w :
  P w →
  (∀ e range w, ctx_answer ctx e → range_ok range → P w →
     wp (method (ctx_cause <$> e) range) (λ r s, Q r (set_part s w)) (part w)) →
  wp (store_range ctx method) Q w.
Proof.
  intros Hw HQ. unfold store_range. apply wp_bind, wp_ctx_Err; [done|].
  intros e w1 He Hw1. apply wp_bind, wp_range_order; [done|].
  intros range w2 Hr Hw2. apply wp_zoom. by apply HQ.
Qed.
End host.

(** * Methods of a store that is a part of the world *)

(** The host's readings leave the part alone. *)
Class HostApart (S W : Type) `{Env W, Has S W} :=
  host_apart : ∀ s : S, HostFrame (λ w : W, part w = s).

Section part.
Context {S W : Type} `{Env W, !EnvLaws W, Has S W, !HasLaws S W, !HostApart S W}.

Lemma store_call_law {A} ctx (method : option error → M S A) (post : res A → S → Prop)
    (Q : res A → W → Prop) w :
  (∀ e, ctx_answer ctx e → wp (method (ctx_cause <$> e)) post (part w)) →
  (∀ r w', post r (part w') → Q r w') →
  wp (store_call ctx method) Q w.
Proof.
  intros Hm HQ. apply (wp_store_call _ (HostFrame0 := host_apart (part w))); [done|].
  intros e w' He Hw'. rewrite Hw'. eapply wp_mono; [by apply Hm|].
  intros r s Hs. apply HQ. by rewrite part_set.
Qed.

Lemma store_range_law {A} ctx (method : option error → RangeOrder → M S A)
    (post : res A → S → Prop) (Q : res A → W → Prop) w :
  (∀ e range, ctx_answer ctx e → range_ok range →
     wp (method (ctx_cause <$> e) range) post (part w)) →
  (∀ r w', post r (part w') → Q r w') →
  wp (store_range ctx method) Q w.
Proof.
  intros Hm HQ. apply (wp_store_range _ (HostFrame0 := host_apart (part w))); [done|].
  intros e range w' He Hr Hw'. rewrite Hw'. eapply wp_mono; [by apply Hm|].
  intros r s Hs. apply HQ. by rewrite part_set.
Qed.
End part.

(** Writing the part [T] does not change the part [S]. *)
Class Disjoint (S T W : Type) `{Has S W, Has T W} :=
  disjoint : ∀ (t : T) (w : W), part (S := S) (set_part t w) = part w.

Section other_part.
Context {S T W : Type} `{Env W, Has S W, Has T W, !HostApart S W, !Disjoint S T W}.

Lemma preserves_zoom_other {A} (s : S) (m : M T A) :
  preserves (λ w : W, part w = s) (zoom m).
Proof. intros w <-. unfold zoom. destruct (m (part w)). apply disjoint. Qed.

Lemma preserves_store_call_other {A} (s : S) ctx (method : option error → M T A) :
  preserves (λ w : W, part w = s) (store_call ctx method).
Proof.
  apply preserves_bind; [apply preserves_ctx, host_apart|intros; apply preserves_zoom_other].
Qed.

Lemma preserves_store_range_other {A} (s : S) ctx (method : option error → RangeOrder → M T A) :
  preserves (λ w : W, part w = s) (store_range ctx method).
Proof.
  apply preserves_bind; [apply preserves_ctx, host_apart|intros e].
  apply preserves_bind; [apply preserves_range, host_apart|intros; apply preserves_zoom_other].
Qed.
End other_part.

(** An invariant of one part is kept by what keeps the part. *)
Lemma preserves_part {E S W A} `{Has S W} (P : S → Prop) (m : M_ E W A) :
  (∀ s, preserves (λ w, part w = s) m) → preserves (λ w, P (part w)) m.
Proof. intros Hm w Hw. by rewrite (Hm (part w) w eq_refl). Qed.

(** Walk through an operation that keeps a part. *)
Ltac keep_step :=
  lazymatch goal with
  | |- preserves _ (mbind _ _) => apply preserves_bind; [|intros ?]
  | |- preserves _ (mret _) => apply preserves_ret
  | |- preserves _ (mthrow _) => apply preserves_throw
  | |- preserves _ (lift _) => apply preserves_lift
  | |- preserves _ (guard_err _ _) => apply preserves_guard
  | |- preserves _ (try _) => apply preserves_try
  | |- preserves _ (for_each _ _) => apply preserves_for_each; intros ?
  | |- preserves _ now => apply preserves_now, host_apart
  | |- preserves _ (random_id _) => apply preserves_random_id, host_apart
  | |- preserves _ (store_call _ _) => apply preserves_store_call_other
  | |- preserves _ (store_range _ _) => apply preserves_store_range_other
  | |- preserves _ (if ?b then _ else _) => destruct b
  | |- preserves _ (match ?x with _ => _ end) => destruct x
  | |- _ => progress simpl
  end.
Ltac keep := intros; repeat (cbv zeta; keep_step).

(** Run a store method up to its first test of the store. *)
Ltac method_start He :=
  wp_step; apply (wp_ctx_check _ _ _ _ He); [eauto|];
  try (wp_step; unfold wp at 1; cbn [get_world fst snd]).
(** A law of a store interface is the law of the method at the store's part. *)
Ltac method_law law :=
  intros; first [eapply store_call_law | eapply store_range_law];
  [intros; eapply law; eauto|]; intros [?|?] ?; simpl; tauto.

Create HintDb preserves.
#[export] Hint Resolve preserves_ret preserves_throw preserves_lift preserves_guard
  preserves_bind preserves_try preserves_if preserves_for_each : preserves.
