(* ===== verification/Http.v ===== *)
(** What the handlers use of [net/http]: a request as its path values, headers
    and body, a response as its status, [ETag] header and payload, and the
    printing of times.  A handler ends by writing one response, so its only
    outcome is the response. *)

From Stdlib Require Import ZArith Lia Ascii.
From S2P Require Import Prelude GoLib.
Open Scope string_scope.
Open Scope list_scope.
Open Scope Z_scope.

(** [r.PathValue(name)] and [r.Header.Get(name)] are [""] for an absent name. *)
Record Request := MkRequest {
  rq_path_values : gmap string string;
  rq_headers : gmap string string;
  rq_body : string }.
Definition PathValue (r : Request) (name : string) : string := default "" (rq_path_values r !! name).
Definition Header (r : Request) (name : string) : string := default "" (rq_headers r !! name).

Definition StatusOK : Z := 200.
Definition StatusCreated : Z := 201.
Definition StatusNotModified : Z := 304.
Definition StatusBadRequest : Z := 400.
Definition StatusUnauthorized : Z := 401.
Definition StatusForbidden : Z := 403.
Definition StatusNotFound : Z := 404.
Definition StatusConflict : Z := 409.
Definition StatusInternalServerError : Z := 500.
Definition StatusServiceUnavailable : Z := 503.

(** The payload is kept as the value given to the JSON encoder; the body of a
    [304] response is empty. *)
Record Response (B : Type) := MkResponse {
  rs_status : Z;
  rs_etag : string;
  rs_payload : option B }.
Arguments MkResponse {B} _ _ _.
Arguments rs_status {B} _.
Arguments rs_etag {B} _.
Arguments rs_payload {B} _.

(** [json.Encoder]/[json.Decoder] at a type: the text of a value, and the value
    of a text. *)
Class Codec (T : Type) := {
  json_Marshal : T → res string;
  json_Unmarshal : string → res T }.

(** * time.Format with the layout "2006-01-02T15:04:05Z07:00" *)

(** Days since 1 January of year 1, to a date of the Gregorian calendar (years
    counted from March, in eras of 400 years). *)
Definition civil_of_days (days : Z) : Z * Z * Z :=
  let z := days + 306 in
  let era := z / 146097 in
  let doe := z mod 146097 in
  let yoe := (doe - doe / 1460 + doe / 36524 - doe / 146096) / 365 in
  let doy := doe - (365 * yoe + yoe / 4 - yoe / 100) in
  let mp := (5 * doy + 2) / 153 in
  let day := doy - (153 * mp + 2) / 5 + 1 in
  let month := if mp <? 10 then mp + 3 else mp - 9 in
  (yoe + era * 400 + (if month <=? 2 then 1 else 0), month, day).

Definition digit_char (z : Z) : Ascii.ascii := Ascii.ascii_of_N (48 + Z.to_N (z mod 10)).
Definition pad2 (z : Z) : string := String (digit_char (z / 10)) (String (digit_char z) "").
Definition pad4 (z : Z) : string :=
  if z <? 10000 then pad2 (z / 100) +:+ pad2 (z mod 100) else pretty z.

Definition Format_RFC3339 (t : Time) : string :=
  let seconds := t / Second in
  let '(year, month, day) := civil_of_days (seconds / 86400) in
  let s := seconds mod 86400 in
  (pad4 year +:+ "-" +:+ pad2 month +:+ "-" +:+ pad2 day +:+ "T"
   +:+ pad2 (s / 3600) +:+ ":" +:+ pad2 (s / 60 mod 60) +:+ ":" +:+ pad2 (s mod 60) +:+ "Z")%string.

(** The Unix epoch is 719162 days after the zero time. *)
Example format_epoch :
  Format_RFC3339 ((719162 * 86400 + 1709210096) * Second) = "2024-02-29T12:34:56Z"%string.
Proof. reflexivity. Qed.

(** ** bearerToken, in both planes *)
Definition bearer_token (header : string) : string :=
  if empty_str header then ""
  else let '(kind, token, ok) := Cut " "%char header in
       if negb ok || negb (EqualFold kind "Bearer") then "" else token.

(** * The client side of [net/http] *)

Record HttpRequest := MkHttpRequest {
  hq_Method : string;
  hq_URL : string;
  hq_Headers : gmap string string;
  hq_Body : string }.
Record HttpResponse := MkHttpResponse {
  hp_StatusCode : Z;
  hp_ETag : string;
  hp_Body : res string }.

(** [http.NewRequestWithContext] and [client.Do]: the network. *)
Class HttpClient (W : Type) := http_Do : Context → HttpRequest → M W HttpResponse.

Fixpoint TrimRight_slash (s : string) : string :=
  match s with
  | EmptyString => EmptyString
  | String c rest =>
      let t := TrimRight_slash rest in
      if empty_str t && bool_decide (c = "/"%char) then EmptyString else String c t
  end.
