(* ===== verification/Mux.v ===== *)
(** Paths: [url.PathEscape] and [url.PathUnescape], the segments of a request
    path, and the patterns of an [http.ServeMux] as the planes register them.

    The mux matches a path segment by segment after unescaping each of them; a
    path with an empty segment, ["."] or [".."] is answered by the mux itself
    with a redirect, and one that matches no pattern with 404 or 405. *)

From Stdlib Require Import ZArith Lia Ascii.
From S2P Require Import Prelude GoLib.
Open Scope string_scope.
Open Scope list_scope.
Open Scope Z_scope.

Module Mux.

(** * Escaping *)

Definition alphanumeric (c : ascii) : bool :=
  byte_in 48 57 c || byte_in 65 90 c || byte_in 97 122 c.

(** The bytes [PathEscape] leaves alone: letters, digits, [-_.~] and
    [$&+:=@]. *)
Definition path_byte (c : ascii) : bool :=
  alphanumeric c
  || existsb (λ n, byte_is n c) [45; 95; 46; 126; 36; 38; 43; 58; 61; 64]%N.

Definition upper_hex (n : N) : ascii := ascii_of_N (if (n <? 10)%N then 48 + n else 55 + n).

Definition escape_byte (c : ascii) (rest : string) : string :=
  if path_byte c then String c rest
  else String "%" (String (upper_hex (N_of_ascii c / 16)) (String (upper_hex (N_of_ascii c mod 16)) rest)).

Fixpoint PathEscape (s : string) : string :=
  match s with EmptyString => EmptyString | String c s' => escape_byte c (PathEscape s') end.

Definition unhex (c : ascii) : option N :=
  if byte_in 48 57 c then Some (N_of_ascii c - 48)%N
  else if byte_in 97 102 c then Some (N_of_ascii c - 87)%N
  else if byte_in 65 70 c then Some (N_of_ascii c - 55)%N
  else None.

(** [None]: an escape without two hexadecimal digits. *)
Fixpoint PathUnescape (s : string) : option string :=
  match s with
  | EmptyString => Some EmptyString
  | String c s' =>
      if bool_decide (c = "%"%char) then
        match s' with
        | String h (String l s3) =>
            match unhex h, unhex l with
            | Some x, Some y => String (ascii_of_N (16 * x + y)) <$> PathUnescape s3
            | _, _ => None
            end
        | _ => None
        end
      else String c <$> PathUnescape s'
  end.

(** * Segments *)

(** The text between slashes; a path starts with one. *)
Fixpoint split_slash (s : string) : string * list string :=
  match s with
  | EmptyString => ("", [])
  | String c s' =>
      let '(first, rest) := split_slash s' in
      if bool_decide (c = "/"%char) then ("", first :: rest) else (String c first, rest)
  end.
Definition segments (path : string) : option (list string) :=
  match split_slash path with ("", rest) => Some rest | _ => None end.

(** A segment [path.Clean] keeps. *)
Definition clean_segment (s : string) : bool :=
  negb (bool_decide (s = "") || bool_decide (s = ".") || bool_decide (s = "..")).

Definition unescape_segment (s : string) : string := default s (PathUnescape s).

(** * Patterns *)

Inductive segment := Lit (text : string) | Wild (name : string).

(** [path]: the segments, unescaped. *)
Fixpoint match_segments (pattern : list segment) (path : list string)
    : option (gmap string string) :=
  match pattern, path with
  | [], [] => Some ∅
  | Lit text :: pattern, s :: path =>
      if bool_decide (text = s) then match_segments pattern path else None
  | Wild name :: pattern, s :: path => <[name := s]> <$> match_segments pattern path
  | _, _ => None
  end.

(** A registered pattern: its method, its segments and its handler. *)
Record pattern (R : Type) := MkPattern {
  pt_method : string;
  pt_segments : list segment;
  pt_route : R }.
Arguments MkPattern {R} _ _ _.
Arguments pt_method {R} _.
Arguments pt_segments {R} _.
Arguments pt_route {R} _.

(** A pattern for [GET] matches [HEAD] as well. *)
Definition method_matches (registered method : string) : bool :=
  bool_decide (registered = method)
  || (bool_decide (registered = "GET") && bool_decide (method = "HEAD")).

(** The handler of a request and its path values.  The patterns of a plane are
    disjoint, so that their order does not matter. *)
Fixpoint find_pattern {R} (table : list (pattern R)) (method : string) (path : list string)
    : option (R * gmap string string) :=
  match table with
  | [] => None
  | p :: table =>
      match (if method_matches (pt_method p) method then match_segments (pt_segments p) path
             else None) with
      | Some values => Some (pt_route p, values)
      | None => find_pattern table method path
      end
  end.

Definition dispatch {R} (table : list (pattern R)) (method path : string)
    : option (R * gmap string string) :=
  match segments path with
  | Some segs =>
      if forallb clean_segment segs then find_pattern table method (unescape_segment <$> segs)
      else None
  | None => None
  end.

(** A table whose handlers are seen through [f]. *)
Definition map_routes {R R'} (f : R → R') (table : list (pattern R)) : list (pattern R') :=
  (λ p, MkPattern (pt_method p) (pt_segments p) (f (pt_route p))) <$> table.

(** * Facts *)

Lemma find_map_routes {R R'} (f : R → R') table method path :
  find_pattern (map_routes f table) method path =
  (λ found, (f found.1, found.2)) <$> find_pattern table method path.
Proof.
  induction table as [|p table IH]; [done|]. cbn. destruct (method_matches _ _); [|exact IH].
  by destruct (match_segments _ _); [|exact IH].
Qed.

Lemma find_app {R} (t1 t2 : list (pattern R)) method path :
  find_pattern (t1 ++ t2) method path =
  match find_pattern t1 method path with
  | Some found => Some found
  | None => find_pattern t2 method path
  end.
Proof.
  induction t1 as [|p t1 IH]; [done|]. cbn. by destruct (if method_matches _ _ then _ else _).
Qed.

Lemma unescape_escape_byte c rest :
  PathUnescape (escape_byte c rest) = String c <$> PathUnescape rest.
Proof. by destruct c as [[] [] [] [] [] [] [] []]. Qed.

(** Escaping is undone by unescaping. *)
Lemma PathUnescape_PathEscape s : PathUnescape (PathEscape s) = Some s.
Proof.
  induction s as [|c s IH]; [done|]. cbn [PathEscape].
  by rewrite unescape_escape_byte, IH.
Qed.
Lemma unescape_segment_PathEscape s : unescape_segment (PathEscape s) = s.
Proof. unfold unescape_segment. by rewrite PathUnescape_PathEscape. Qed.

(** ** Building a path

    A path is a list of segments, each literal or an escaped name; the mux
    recovers the names. *)
Inductive part := Text (literal : string) | Name (value : string).

Definition part_escaped (p : part) : string :=
  match p with Text literal => literal | Name value => PathEscape value end.
Definition part_value (p : part) : string :=
  match p with Text literal => literal | Name value => value end.
Fixpoint join (parts : list part) : string :=
  match parts with
  | [] => ""
  | p :: parts => String "/" (part_escaped p +:+ join parts)
  end.

(** An escaped text is a single segment. *)
Lemma split_slash_escape_byte c rest :
  split_slash (escape_byte c rest) =
  let '(first, more) := split_slash rest in (escape_byte c first, more).
Proof.
  destruct (split_slash rest) as [first more] eqn:E.
  destruct c as [[] [] [] [] [] [] [] []]; simpl; rewrite E; reflexivity.
Qed.
Lemma split_slash_escape_app s rest :
  split_slash (PathEscape s +:+ rest)%string =
  let '(first, more) := split_slash rest in ((PathEscape s +:+ first)%string, more).
Proof.
  induction s as [|c s IH]; cbn [PathEscape].
  { change ("" +:+ rest)%string with rest. by destruct (split_slash rest). }
  assert (∀ t u, (escape_byte c t +:+ u)%string = escape_byte c (t +:+ u)) as Happ.
  { intros t u. unfold escape_byte. by destruct (path_byte c). }
  rewrite Happ, split_slash_escape_byte, IH. destruct (split_slash rest). by rewrite Happ.
Qed.

(** Only the three names the mux cleans away are escaped to a segment it
    cleans away. *)
Definition routable (s : string) : Prop := s ≠ "" ∧ s ≠ "." ∧ s ≠ "..".
#[export] Instance routable_dec s : Decision (routable s).
Proof. unfold routable. apply _. Defined.

Lemma clean_PathEscape s : routable s → clean_segment (PathEscape s) = true.
Proof.
  intros (H1 & H2 & H3). unfold clean_segment. rewrite negb_true_iff, !orb_false_iff.
  assert (∀ t, s ≠ t → PathEscape t = t → PathEscape s ≠ t) as Hinj.
  { intros t Hne Ht Heq. apply Hne. apply (f_equal PathUnescape) in Heq.
    rewrite PathUnescape_PathEscape, <-Ht, PathUnescape_PathEscape in Heq. by injection Heq. }
  split_and!; apply bool_decide_eq_false; by apply Hinj.
Qed.

(** A literal the mux compares with: letters, digits and hyphens. *)
Definition simple_byte (c : ascii) : bool := alphanumeric c || byte_is 45 c.
Fixpoint simple (s : string) : bool :=
  match s with EmptyString => true | String c s' => simple_byte c && simple s' end.

Lemma simple_PathEscape s : simple s = true → PathEscape s = s.
Proof.
  induction s as [|c s IH]; [done|]. cbn [simple PathEscape]. intros [Hc Hs]%andb_true_iff.
  unfold escape_byte. replace (path_byte c) with true; [by rewrite IH|].
  unfold simple_byte in Hc. unfold path_byte. apply orb_true_iff in Hc as [-> | Hc]; [done|].
  simpl. rewrite Hc. by rewrite !orb_true_r.
Qed.

Definition part_ok (p : part) : Prop :=
  match p with
  | Text literal => simple literal = true ∧ literal ≠ ""
  | Name value => routable value
  end.

Lemma part_ok_routable p : part_ok p → part_escaped p = PathEscape (part_value p) ∧ routable (part_value p).
Proof.
  destruct p as [literal|value]; [|done]. intros [Hs Hne]. simpl.
  rewrite simple_PathEscape by done. split; [done|]. split_and!; [done|by intros ->..].
Qed.

Lemma segments_join parts :
  Forall part_ok parts → segments (join parts) = Some (part_escaped <$> parts).
Proof.
  intros Hok. unfold segments.
  assert (split_slash (join parts) = ("", part_escaped <$> parts)) as ->; [|done].
  induction Hok as [|p parts Hp _ IH]; [done|]. cbn [join split_slash].
  destruct (part_ok_routable p Hp) as [-> _]. rewrite split_slash_escape_app, IH.
  rewrite bool_decide_true by done. rewrite fmap_cons, (proj1 (part_ok_routable p Hp)).
  by rewrite str_app_nil_r.
Qed.

(** The path built from some parts is dispatched on their values. *)
Lemma dispatch_join {R} (table : list (pattern R)) method parts :
  Forall part_ok parts →
  dispatch table method (join parts) = find_pattern table method (part_value <$> parts).
Proof.
  intros Hok. unfold dispatch. rewrite segments_join by done.
  assert (forallb clean_segment (part_escaped <$> parts) = true) as ->.
  { apply forallb_forall. intros s Hs%list_elem_of_In. apply list_elem_of_fmap in Hs as (p & -> & Hp).
    eapply Forall_forall in Hok; [|exact Hp]. apply part_ok_routable in Hok as [-> ?].
    by apply clean_PathEscape. }
  f_equal. rewrite <-list_fmap_compose. apply list_fmap_ext. intros i p Hp%list_elem_of_lookup_2. simpl.
  eapply Forall_forall in Hok; [|exact Hp]. apply part_ok_routable in Hok as [-> _].
  apply unescape_segment_PathEscape.
Qed.

End Mux.
