(* ===== verification/Health.v ===== *)
(** [internal/health/handler.go]: the liveness and the readiness of a service.
    A checker is a call that may fail; the clock is the host's. *)

From Stdlib Require Import ZArith Lia.
From S2P Require Import Prelude GoLib Host Http Mux.
Open Scope string_scope.
Open Scope list_scope.
Open Scope Z_scope.

Module Health.

(** [src/internal/health/handler.go:10-12] Checker *)
Definition Checker (W : Type) : Type := Context → M W unit.

(** [src/internal/health/handler.go:14-18] StaticChecker *)
Definition StaticChecker {W} : Checker W := λ _, mret tt.

(** [src/internal/health/handler.go:20-23] Handler *)
Record Handler (W : Type) := MkHandler {
  h_service : string;
  h_ready : Checker W }.
Arguments MkHandler {W} _ _.
Arguments h_service {W} _.
Arguments h_ready {W} _.

(** [src/internal/health/handler.go:68-73] response *)
Record response := MkHealth {
  hr_Service : string;
  hr_Status : string;
  hr_Time : Time;
  hr_Error : string }.

Inductive Route := Health_ | Ready_.

(** [src/internal/health/handler.go:30-39] NewHandler *)
Definition routes : list (Mux.pattern Route) :=
  [ Mux.MkPattern "GET" [Mux.Lit "healthz"] Health_;
    Mux.MkPattern "GET" [Mux.Lit "livez"] Health_;
    Mux.MkPattern "GET" [Mux.Lit "readyz"] Ready_ ].

(** A nil checker is [None]. *)
(** [src/internal/health/handler.go:25-33] NewHandler *)
Definition NewHandler {W} (service : string) (ready : option (Checker W)) : Handler W :=
  let ready := match ready with None => StaticChecker | Some ready => ready end in
  MkHandler service ready.

(** [src/internal/health/handler.go:75-79] writeJSON *)
Definition writeJSON (status : Z) (payload : response) : Response response :=
  MkResponse status "" (Some payload).

Section handlers.
Context {W : Type} `{Env W} (h : Handler W).

(** [src/internal/health/handler.go:42-48] Handler.handleHealth *)
Definition handleHealth : M W (Response response) :=
  now ← now;
  mret (writeJSON StatusOK (MkHealth (h_service h) "ok" now "")).

(** [src/internal/health/handler.go:50-66] Handler.handleReady *)
Definition handleReady (ctx : Context) : M W (Response response) :=
  checked ← try (h_ready h ctx);
  now ← now;
  match checked with
  | Err err => mret (writeJSON StatusServiceUnavailable
                       (MkHealth (h_service h) "not_ready" now (Error err)))
  | Ok _ => mret (writeJSON StatusOK (MkHealth (h_service h) "ready" now ""))
  end.

(** [src/internal/health/handler.go:35-39] NewHandler *)
Definition handle (route : Route) (ctx : Context) : M W (Response response) :=
  match route with Health_ => handleHealth | Ready_ => handleReady ctx end.
End handlers.

(** * The mux of a plane

    Every plane mounts the three probes next to its own patterns.  A handler
    takes the method, the path, the headers and the body of a request; [None]
    is the answer of the mux itself: a redirect, 404 or 405. *)

Inductive Mounted (R : Type) := Probe (route : Route) | Own (route : R).
Arguments Probe {R} _.
Arguments Own {R} _.

Definition ServeHTTP (W B : Type) : Type :=
  Context → string → string → gmap string string → string → option (M W (Response (response + B))).

Section mux.
Context {W B R : Type} `{Env W} (probes : Handler W) (own : list (Mux.pattern R))
  (serve_own : R → Context → Request → M W (Response B)).

Definition mount : list (Mux.pattern (Mounted R)) :=
  Mux.map_routes Probe routes ++ Mux.map_routes Own own.

Definition tagged {P} (f : P → response + B) (resp : Response P) : Response (response + B) :=
  MkResponse (rs_status resp) (rs_etag resp) (f <$> rs_payload resp).

Definition serve_mounted (route : Mounted R) (ctx : Context) (r : Request)
    : M W (Response (response + B)) :=
  match route with
  | Probe route => resp ← handle probes route ctx; mret (tagged inl resp)
  | Own route => resp ← serve_own route ctx r; mret (tagged inr resp)
  end.

Definition ServeMux : ServeHTTP W B := λ ctx method path headers body,
  '(route, values) ← Mux.dispatch mount method path;
  Some (serve_mounted route ctx (MkRequest values headers body)).

(** The probes take no path from the plane's own patterns, nor do these from
    the probes. *)
Lemma dispatch_mount method path :
  Mux.dispatch mount method path =
  match Mux.dispatch routes method path with
  | Some (route, values) => Some (Probe route, values)
  | None => (λ found, (Own found.1, found.2)) <$> Mux.dispatch own method path
  end.
Proof.
  unfold Mux.dispatch, mount. destruct (Mux.segments path) as [segs|]; [|done].
  destruct (forallb _ _); [|done]. rewrite Mux.find_app, !Mux.find_map_routes.
  by destruct (Mux.find_pattern routes _ _) as [[]|].
Qed.

(** The planes' own paths start with [v1], and the probes' do not. *)
Lemma dispatch_own method path found :
  Forall (λ p, head (Mux.pt_segments p) = Some (Mux.Lit "v1")) own →
  Mux.dispatch own method path = Some found →
  Mux.dispatch mount method path = Some (Own found.1, found.2).
Proof.
  intros Hown. rewrite dispatch_mount. unfold Mux.dispatch.
  destruct (Mux.segments path) as [segs|]; [|done]. destruct (forallb _ _); [|done].
  intros Hf. rewrite Hf. enough (Mux.find_pattern routes method (Mux.unescape_segment <$> segs) = None) as -> by done.
  assert (∃ rest, Mux.unescape_segment <$> segs = "v1" :: rest) as [rest ->].
  { clear -Hown Hf. induction Hown as [|p table Hp _ IH]; [done|]. cbn in Hf.
    destruct (Mux.pt_segments p) as [|[text|] pattern] eqn:E; simplify_eq/=; rewrite ?E in *.
    destruct (Mux.method_matches _ _); [|by apply IH].
    destruct (Mux.unescape_segment <$> segs) as [|s rest]; [by apply IH|]. cbn in Hf.
    case_bool_decide; [|by apply IH]. subst. by eexists. }
  unfold routes. cbn. by repeat destruct (Mux.method_matches _ _).
Qed.

(** What the probes and the handlers of a plane keep, its mux keeps. *)
Lemma preserves_ServeMux (P : W → Prop) `{!HostFrame P} ctx method path headers body m :
  (∀ ctx, preserves P (h_ready probes ctx)) → (∀ route ctx r, preserves P (serve_own route ctx r)) →
  ServeMux ctx method path headers body = Some m → preserves P m.
Proof.
  intros Hready Hown. unfold ServeMux. destruct (Mux.dispatch _ _ _) as [[[route|route] values]|];
    [| |done]; intros [= <-]; cbn [serve_mounted].
  - apply preserves_bind; [|intros resp; apply preserves_ret]. destruct route; cbn [handle].
    + apply preserves_bind; [apply preserves_now, _|intros t; apply preserves_ret].
    + apply preserves_bind; [apply preserves_try, Hready|intros checked].
      apply preserves_bind; [apply preserves_now, _|intros t]. destruct checked; apply preserves_ret.
  - apply preserves_bind; [apply Hown|intros resp; apply preserves_ret].
Qed.
End mux.

End Health.
