(* ===== verification/Url.v ===== *)
(** Query strings: [url.QueryEscape], [url.ParseQuery] and [url.Values.Encode],
    and the number formats written into them.
    Then what query strings keep: an encoded value is decoded to itself, and a
    query string is read back to the values it was made of. *)

From Stdlib Require Import ZArith Lia Ascii SpecFloat.
From S2P Require Import Prelude GoLib Mux.
Import Mux.
Open Scope string_scope.
Open Scope list_scope.
Open Scope Z_scope.

Module Url.

(** * Escaping *)

(** The bytes [QueryEscape] leaves alone: letters, digits and [-_.~]. *)
Definition query_byte (c : ascii) : bool :=
  alphanumeric c || existsb (λ n, byte_is n c) [45; 95; 46; 126]%N.

Definition query_escape_byte (c : ascii) (rest : string) : string :=
  if query_byte c then String c rest
  else if byte_is 32 c then String "+" rest
  else String "%" (String (upper_hex (N_of_ascii c / 16)) (String (upper_hex (N_of_ascii c mod 16)) rest)).

Fixpoint QueryEscape (s : string) : string :=
  match s with EmptyString => EmptyString | String c s' => query_escape_byte c (QueryEscape s') end.

(** [None]: an escape without two hexadecimal digits. *)
Fixpoint QueryUnescape (s : string) : option string :=
  match s with
  | EmptyString => Some EmptyString
  | String c s' =>
      if bool_decide (c = "%"%char) then
        match s' with
        | String h (String l s3) =>
            match unhex h, unhex l with
            | Some x, Some y => String (ascii_of_N (16 * x + y)) <$> QueryUnescape s3
            | _, _ => None
            end
        | _ => None
        end
      else String (if bool_decide (c = "+"%char) then " "%char else c) <$> QueryUnescape s'
  end.

(** * url.Values *)

Abbreviation Values := (gmap string (list string)).
Definition Values_at (m : Values) (key : string) : list string := default [] (m !! key).
Definition Values_Set (key value : string) (m : Values) : Values := <[key := [value]]> m.
Definition Values_Get (m : Values) (key : string) : string := hd "" (Values_at m key).

Definition parts (query : string) : list string := Split "&" query.

(** One turn of the loop of [parseQuery]: a part with a semicolon, an empty
    part and a part that cannot be unescaped are skipped. *)
Definition add_part (m : Values) (part : string) : Values :=
  if has_byte ";" part || empty_str part then m
  else let '(key, value, _) := Cut "=" part in
       match QueryUnescape key, QueryUnescape value with
       | Some key, Some value => <[key := Values_at m key ++ [value]]> m
       | _, _ => m
       end.
Definition read_query (query : string) : Values := foldl add_part ∅ (parts query).

(** [u.Query()] forgets the error; too many parts are an error at once. *)
Definition max_params : Z := 10000.
Definition ParseQuery (query : string) : Values :=
  if max_params <? Z.of_nat (length (parts query)) then ∅ else read_query query.

Fixpoint join_with (sep : ascii) (l : list string) : string :=
  match l with
  | [] => ""
  | [s] => s
  | s :: rest => s +:+ String sep (join_with sep rest)
  end.
Definition pair_text (key value : string) : string :=
  (QueryEscape key +:+ String "=" (QueryEscape value))%string.
Definition sorted_keys (m : Values) : list string :=
  SortFunc String.leb (map_to_list m).*1.
Definition Encode (m : Values) : string :=
  join_with "&" (k ← sorted_keys m; pair_text k <$> Values_at m k).

(** * Numbers *)

(** [t.UnixNano()]; the zero time is 62135596800 seconds before 1970. *)
Definition UnixNano (t : Time) : Z := int64_wrap (t - 62135596800 * Second).

Definition pad3 (n : Z) : string :=
  (if n <? 10 then "00" else if n <? 100 then "0" else "") +:+ pretty n.

(** Half to even of [m / 2^k]. *)
Definition round_shift (m k : Z) : Z :=
  let q := Z.shiftr m k in
  let rest := m - Z.shiftl q k in
  let half := Z.shiftl 1 (k - 1) in
  if (half <? rest) || ((half =? rest) && Z.odd q) then q + 1 else q.

(** [strconv.FormatFloat(x, 'f', 3, 64)]. *)
Definition FormatFloat3 (x : float64) : string :=
  let signed (s : bool) (t : string) : string := if s then String "-" t else t in
  match x with
  | S754_zero s => signed s "0.000"
  | S754_nan => "NaN"
  | S754_infinity s => if s then "-Inf" else "+Inf"
  | S754_finite s m e =>
      let n := if 0 <=? e then Z.shiftl (Z.pos m * 1000) e else round_shift (Z.pos m * 1000) (- e) in
      signed s (pretty (n / 1000) +:+ "." +:+ pad3 (n mod 1000))%string
  end.

Example format_instant :
  FormatFloat3 (f_div (f_of_int 1709210096123400000) (f_of_int Second)) = "1709210096.123".
Proof. vm_compute. reflexivity. Qed.

End Url.

Import Url.

(** * Escaping *)

Lemma query_unescape_escape_byte c rest :
  QueryUnescape (query_escape_byte c rest) = String c <$> QueryUnescape rest.
Proof. by destruct c as [[] [] [] [] [] [] [] []]. Qed.

Lemma QueryUnescape_QueryEscape s : QueryUnescape (QueryEscape s) = Some s.
Proof.
  induction s as [|c s IH]; [done|]. cbn [QueryEscape].
  by rewrite query_unescape_escape_byte, IH.
Qed.

(** The bytes that structure a query string. *)
Definition structural (c : ascii) : bool := byte_is 38 c || byte_is 59 c || byte_is 61 c.

Lemma structural_escape_byte c d rest :
  structural c = true → has_byte c (query_escape_byte d rest) = has_byte c rest.
Proof.
  intros Hc. assert (c = "&"%char ∨ c = ";"%char ∨ c = "="%char) as [->|[->| ->]]
    by (unfold structural, byte_is in Hc; rewrite !orb_true_iff, !N.eqb_eq in Hc;
        destruct Hc as [[Hc|Hc]|Hc]; apply (f_equal ascii_of_N) in Hc; rewrite ascii_N_embedding in Hc; auto).
  all: by destruct d as [[] [] [] [] [] [] [] []].
Qed.

Lemma structural_QueryEscape c s : structural c = true → has_byte c (QueryEscape s) = false.
Proof.
  intros Hc. induction s as [|d s IH]; [done|]. cbn [QueryEscape].
  by rewrite structural_escape_byte.
Qed.

Lemma has_byte_pair_text c k v :
  structural c = true → c ≠ "="%char → has_byte c (pair_text k v) = false.
Proof.
  intros Hc Hne. unfold pair_text. rewrite has_byte_app. cbn [has_byte].
  rewrite !structural_QueryEscape by done. by rewrite bool_decide_false by congruence.
Qed.

(** * Reading a query string *)

Lemma split_byte_join sep a l :
  has_byte sep a = false → (∀ s, s ∈ l → has_byte sep s = false) →
  split_byte sep (join_with sep (a :: l)) = (a, l).
Proof.
  revert a. induction l as [|b l IH]; intros a Ha Hl.
  - cbn [join_with]. induction a as [|c a IHa]; [done|]. cbn [has_byte] in Ha.
    apply orb_false_iff in Ha as [Hc Ha]. cbn [split_byte]. by rewrite IHa, Hc.
  - change (join_with sep (a :: b :: l)) with (a +:+ String sep (join_with sep (b :: l)))%string.
    specialize (IH b (Hl b ltac:(set_solver)) ltac:(set_solver)).
    induction a as [|c a IHa].
    + change ("" +:+ ?t)%string with t. cbn [split_byte]. rewrite IH. by rewrite bool_decide_true.
    + cbn [has_byte] in Ha. apply orb_false_iff in Ha as [Hc Ha].
      change (String c a +:+ ?t)%string with (String c (a +:+ t)%string). cbn [split_byte].
      by rewrite IHa, Hc.
Qed.

Lemma parts_join l :
  l ≠ [] → (∀ s, s ∈ l → has_byte "&" s = false) → parts (join_with "&" l) = l.
Proof.
  destruct l as [|a l]; [done|]. intros _ Hl. unfold parts, Split.
  rewrite split_byte_join; [done|apply Hl; set_solver|set_solver].
Qed.

Lemma add_part_pair m k v : add_part m (pair_text k v) = <[k := Values_at m k ++ [v]]> m.
Proof.
  unfold add_part. rewrite has_byte_pair_text by done.
  assert (empty_str (pair_text k v) = false) as ->.
  { apply bool_decide_eq_false. unfold pair_text. by destruct (QueryEscape k). }
  cbn [orb]. unfold pair_text.
  rewrite Cut_app by by apply structural_QueryEscape. by rewrite !QueryUnescape_QueryEscape.
Qed.

Lemma add_parts_key k vs : ∀ m,
  vs ≠ [] → foldl add_part m (pair_text k <$> vs) = <[k := Values_at m k ++ vs]> m.
Proof.
  induction vs as [|v vs IH]; intros m Hvs; [done|]. cbn [fmap list_fmap foldl]. rewrite add_part_pair.
  destruct vs as [|v' vs]; [done|]. rewrite IH by done. unfold Values_at.
  rewrite lookup_insert_eq. cbn [default]. rewrite insert_insert_eq. f_equal. cbn [id]. by rewrite <-app_assoc.
Qed.

(** Values no key of which is bound to nothing. *)
Definition values_ok (m : Values) : Prop := ∀ k vs, m !! k = Some vs → vs ≠ [].

(** The values of some keys, over others. *)
Definition restrict (ks : list string) (m acc : Values) : Values :=
  map_imap (λ k vs, if bool_decide (k ∈ ks) then Some vs else None) m ∪ acc.

Lemma lookup_restrict ks m acc i :
  restrict ks m acc !! i =
  (if bool_decide (i ∈ ks) then m !! i else None) ∪ acc !! i.
Proof.
  unfold restrict. rewrite lookup_union, map_lookup_imap.
  destruct (m !! i); simpl; [done|]. by case_bool_decide.
Qed.

Lemma add_parts_keys m ks : ∀ acc,
  values_ok m → NoDup ks → (∀ k, k ∈ ks → is_Some (m !! k) ∧ acc !! k = None) →
  foldl add_part acc (k ← ks; pair_text k <$> Values_at m k) = restrict ks m acc.
Proof.
  induction ks as [|k ks IH]; intros acc Hm Hnd Hks.
  { cbn [mbind list_bind foldl]. apply map_eq. intros i. rewrite lookup_restrict.
    by destruct (acc !! i). }
  apply NoDup_cons in Hnd as [Hk Hnd]. cbn [mbind list_bind]. rewrite foldl_app.
  destruct (Hks k ltac:(set_solver)) as [[vs Hvs] Hacc].
  assert (foldl add_part acc (pair_text k <$> Values_at m k) = <[k := vs]> acc) as ->.
  { unfold Values_at. rewrite Hvs. cbn. rewrite add_parts_key by by eapply Hm.
    unfold Values_at. by rewrite Hacc. }
  setoid_rewrite IH; [|done|done|].
  - apply map_eq. intros i. rewrite !lookup_restrict.
    destruct (decide (i = k)) as [->|Hi].
    + rewrite Hvs, lookup_insert_eq, Hacc. rewrite bool_decide_false by done.
      by rewrite bool_decide_true by set_solver.
    + rewrite lookup_insert_ne by done. f_equal.
      by rewrite (bool_decide_ext (i ∈ ks) (i ∈ k :: ks)) by set_solver.
  - intros j Hj. rewrite lookup_insert_ne by by intros ->. apply Hks. set_solver.
Qed.

Lemma sorted_keys_perm m : sorted_keys m ≡ₚ (map_to_list m).*1.
Proof. apply SortFunc_perm. Qed.

Lemma elem_of_sorted_keys m k : k ∈ sorted_keys m ↔ is_Some (m !! k).
Proof.
  rewrite sorted_keys_perm. rewrite list_elem_of_fmap. split.
  - intros ([k' v] & -> & H%elem_of_map_to_list). by eexists.
  - intros [v Hv]. exists (k, v). split; [done|]. by apply elem_of_map_to_list.
Qed.

Lemma read_query_Encode m : values_ok m → read_query (Encode m) = m.
Proof.
  intros Hm. unfold read_query, Encode.
  assert (foldl add_part ∅ (k ← sorted_keys m; pair_text k <$> Values_at m k) = m) as Hfold.
  { rewrite add_parts_keys; [|done| |].
    - apply map_eq. intros k. rewrite lookup_restrict, lookup_empty.
      case_bool_decide as Hk; [by destruct (m !! k)|]. rewrite elem_of_sorted_keys in Hk.
      destruct (m !! k); [exfalso; eauto|done].
    - rewrite sorted_keys_perm. apply NoDup_fst_map_to_list.
    - intros k Hk%elem_of_sorted_keys. by rewrite lookup_empty. }
  destruct (decide ((k ← sorted_keys m; pair_text k <$> Values_at m k) = [])) as [Hnil|Hne].
  - rewrite Hnil in *. exact Hfold.
  - rewrite parts_join; [done|done|]. intros s (k & Hs & _)%list_elem_of_bind.
    apply list_elem_of_fmap in Hs as (v & -> & _). by apply has_byte_pair_text.
Qed.

(** What is read binds no key to nothing. *)
Lemma values_ok_insert m k vs : values_ok m → vs ≠ [] → values_ok (<[k := vs]> m).
Proof. intros Hm Hvs k' vs' [[_ <-]|[_ H]]%lookup_insert_Some; [done|by eapply Hm]. Qed.

Lemma read_query_ok query : values_ok (read_query query).
Proof.
  unfold read_query. assert (values_ok ∅) as H0 by by intros k vs ?%lookup_empty_Some.
  revert H0. generalize (∅ : Values). induction (parts query) as [|s l IH]; intros m Hm; [done|].
  cbn [foldl]. apply IH. unfold add_part. case_match; [done|].
  destruct (Cut _ s) as [[key value] found]. destruct (QueryUnescape key), (QueryUnescape value); [|done..].
  apply values_ok_insert; [done|]. by destruct (Values_at m _).
Qed.
Lemma ParseQuery_ok query : values_ok (ParseQuery query).
Proof.
  unfold ParseQuery. case_match; [by intros k vs ?%lookup_empty_Some|apply read_query_ok].
Qed.
