(* ===== verification/Format.v ===== *)
(** What the drivers print: [time.Duration] as text and rounded, binary64
    numbers with a fixed number of decimals, and padded integers; and the
    flags of a command line. *)

From Stdlib Require Import ZArith Lia Ascii SpecFloat.
From S2P Require Import Prelude GoLib.
Open Scope string_scope.
Open Scope list_scope.
Open Scope Z_scope.

Module Format.

Definition Millisecond : Duration := 1000000.
Definition Microsecond : Duration := 1000.

(** A text whose double quotes are written as single ones. *)
Fixpoint quoted (s : string) : string :=
  match s with
  | EmptyString => EmptyString
  | String c s =>
      String (if bool_decide (c = "'"%char) then ascii_of_N 34 else c) (quoted s)
  end.

(** The last [n] digits of a number that is not negative. *)
Fixpoint last_digits (n : nat) (z : Z) (rest : string) : string :=
  match n with
  | O => rest
  | S n => last_digits n (z / 10) (String (ascii_of_N (48 + Z.to_N (z mod 10))) rest)
  end.

(** [%0nd] of a number that is not negative. *)
Definition pad0 (n : nat) (z : Z) : string :=
  if z <? 10 ^ Z.of_nat n then last_digits n z "" else pretty z.

(** [time.Duration]'s [fmtFrac]: the digits of a fraction without the zeros it
    ends in, after a point when there are any. *)
Fixpoint frac_digits (n : nat) (v : Z) (digits : string) : string :=
  match n with
  | O => if empty_str digits then "" else String "." digits
  | S n =>
      let digit := v mod 10 in
      frac_digits n (v / 10)
        (if negb (empty_str digits) || negb (digit =? 0)
         then String (ascii_of_N (48 + Z.to_N digit)) digits else "")
  end.

(** A number of units of [10^n], with its fraction. *)
Definition in_unit (n : nat) (v : Z) : string :=
  pretty (v / 10 ^ Z.of_nat n) +:+ frac_digits n v "".

Definition micro : string := String (ascii_of_N 194) (String (ascii_of_N 181) "s").

(** [time.Duration.String]. *)
Definition Duration_String (d : Duration) : string :=
  let u := Z.abs d in
  (if d <? 0 then "-" else "") +:+
  (if u =? 0 then "0s"
   else if u <? Microsecond then pretty u +:+ "ns"
   else if u <? Millisecond then in_unit 3 u +:+ micro
   else if u <? Second then in_unit 6 u +:+ "ms"
   else
     let minutes := u / Minute in
     let hours := minutes / 60 in
     (if 0 <? hours then pretty hours +:+ "h" else "") +:+
     (if 0 <? minutes then pretty (minutes mod 60) +:+ "m" else "") +:+
     in_unit 9 (u mod Minute) +:+ "s").

(** [time.Duration.Round]: to the nearest multiple, halves away from zero,
    within 64 bits. *)
Definition Duration_Round (d m : Duration) : Duration :=
  if m <=? 0 then d
  else
    let r := Z.abs (Z.rem d m) in
    if d <? 0 then
      if r + r <? m then d + r
      else if d - m + r <? int64_min then int64_min else d - m + r
    else
      if r + r <? m then d - r
      else if int64_max <? d + m - r then int64_max else d + m - r.

(** [n / d], the half to the even number. *)
Definition div_even (n d : Z) : Z :=
  let q := n / d in
  let r := n mod d in
  match 2 * r ?= d with Lt => q | Gt => q + 1 | Eq => if Z.even q then q else q + 1 end.

(** [%.nf] of a binary64 number. *)
Definition fixed (n : nat) (x : float64) : string :=
  match x with
  | S754_nan => "NaN"
  | S754_infinity negative => if negative then "-Inf" else "+Inf"
  | S754_zero negative =>
      (if negative then "-" else "") +:+ "0" +:+ (match n with O => "" | _ => "." +:+ pad0 n 0 end)
  | S754_finite negative m e =>
      let scaled := Z.pos m * 10 ^ Z.of_nat n in
      let v := if 0 <=? e then scaled * 2 ^ e else div_even scaled (2 ^ (- e)) in
      let one := 10 ^ Z.of_nat n in
      (if negative then "-" else "") +:+ pretty (v / one) +:+
      (match n with O => "" | _ => "." +:+ pad0 n (v mod one) end)
  end.

(** [time.Duration.Seconds]. *)
Definition Duration_Seconds (d : Duration) : float64 :=
  SFadd 53 1024 (f_of_int (Z.quot d Second)) (f_div (f_of_int (Z.rem d Second)) (f_of_int 1000000000)).

(** [int(x)] of a number that fits. *)
Definition f_to_int (x : float64) : Z :=
  match x with
  | S754_finite negative m e =>
      let v := if 0 <=? e then Z.pos m * 2 ^ e else Z.pos m / 2 ^ (- e) in
      if negative then - v else v
  | _ => 0
  end.

Example durations :
  Duration_String <$> [0; 7; 1500; 2000000; 2500000; 61 * Second; 3723 * Second + 40000000; - Minute]
  = ["0s"; "7ns"; "1.5" +:+ micro; "2ms"; "2.5ms"; "1m1s"; "1h2m3.04s"; "-1m0s"].
Proof. vm_compute. reflexivity. Qed.
Example rounded : (λ d, Duration_Round d Millisecond) <$> [1499999; 1500000; -1500000; 3] = [1000000; 2000000; -2000000; 0].
Proof. vm_compute. reflexivity. Qed.
Example fixed_numbers :
  (fixed 2 (f_div (f_of_int 200) (f_of_int 3)), fixed 0 (f_div (f_of_int 5) (f_of_int 2)), fixed 2 f_zero,
   fixed 2 (f_of_int 100), fixed 0 (f_div (f_of_int (-7)) (f_of_int 2)))
  = ("66.67", "2", "0.00", "100.00", "-4").
Proof. vm_compute. reflexivity. Qed.
Example padded : pad0 4 <$> [1; 42; 1000; 12345] = ["0001"; "0042"; "1000"; "12345"].
Proof. vm_compute. reflexivity. Qed.

End Format.

(** * [flag]: the flags of a command

    The boolean flags and the flags with a value of a flag set; the value of a
    boolean flag is checked when it is read. *)
Module Flag.

(** [strconv.ParseBool] *)
Definition ParseBool (s : string) : option bool :=
  if bool_decide (s ∈ ["1"; "t"; "T"; "true"; "TRUE"; "True"]) then Some true
  else if bool_decide (s ∈ ["0"; "f"; "F"; "false"; "FALSE"; "False"]) then Some false
  else None.

Definition ErrHelp : error := ESentinel "flag.ErrHelp" "flag: help requested".

(** An argument: positional, the end of the flags, malformed, or a flag with or
    without a value. *)
Inductive Argument := Positional | Terminator | Malformed | Flagged (name : string) (value : option string).

Definition read_argument (s : string) : Argument :=
  match s with
  | String "-" (String "-" EmptyString) => Terminator
  | String "-" (String "-" name) | String "-" (String _ _ as name) =>
      match name with
      | String "-" _ | String "=" _ => Malformed
      | _ => let '(name, value, has) := Cut "="%char name in
             Flagged name (if (has : bool) then Some value else None)
      end
  | _ => Positional
  end.

(** [FlagSet.Parse] of a set whose flags are [formal], each boolean or not: the
    values given, in their order, and the arguments that are left. *)
Fixpoint Parse (formal : string → option bool) (args : list string)
    : res (list (string * string) * list string) :=
  match args with
  | [] => Ok ([], [])
  | arg :: rest =>
      let add name value (r : res (list (string * string) * list string)) :=
        match r with Ok (values, others) => Ok ((name, value) :: values, others) | Err err => Err err end in
      match read_argument arg with
      | Positional => Ok ([], args)
      | Terminator => Ok ([], rest)
      | Malformed => Err (EText "bad flag syntax: %s" [arg])
      | Flagged name value =>
          match formal name, value with
          | None, _ =>
              if bool_decide (name = "help") || bool_decide (name = "h") then Err ErrHelp
              else Err (EText "flag provided but not defined: -%s" [name])
          | Some true, None => add name "true" (Parse formal rest)
          | Some true, Some text =>
              match ParseBool text with
              | Some _ => add name text (Parse formal rest)
              | None => Err (EText "invalid boolean value %q for -%s: parse error" [text; name])
              end
          | Some false, Some text => add name text (Parse formal rest)
          | Some false, None =>
              match rest with
              | text :: rest => add name text (Parse formal rest)
              | [] => Err (EText "flag needs an argument: -%s" [name])
              end
          end
      end
  end.

(** The last value given wins. *)
Definition given (values : list (string * string)) (name fallback : string) : string :=
  fold_left (λ v '(n, value), if bool_decide (n = name) then value else v) values fallback.
Definition given_bool (values : list (string * string)) (name : string) (fallback : bool) : bool :=
  fold_left (λ v '(n, value), if bool_decide (n = name) then default v (ParseBool value) else v) values fallback.

Example parse_flags :
  let formal name := if bool_decide (name = "token") then Some false
                     else if bool_decide (name = "dry-run") then Some true else None in
  (Parse formal ["-token"; "abc"; "--dry-run=false"; "dir"; "-x"], Parse formal ["--"; "-x"],
   Parse formal ["-h"], is_ok (Parse formal ["-=x"])) =
  (Ok ([("token", "abc"); ("dry-run", "false")], ["dir"; "-x"]), Ok ([], ["-x"]), Err ErrHelp, false).
Proof. vm_compute. reflexivity. Qed.

End Flag.
