(* ===== verification/Parallel.v ===== *)
(** The pool of workers that [internal/simulator] and [internal/reliability]
    run their agents on ([parallel] and [runParallel], the same code twice).

    A producer hands indices to workers over an unbuffered channel; a worker
    that fails puts its error into a buffer of one, or drops it when the buffer
    is full; the producer stops at an error it receives, waits for the workers
    and returns it.  The goroutines interleave as a scheduler chooses; a call
    of [fn] starts with the receipt of its index and takes its effect on the
    world when it ends, so that calls that overlap take effect in the order
    they end. *)

From Stdlib Require Import ZArith Lia.
From S2P Require Import Prelude GoLib.
Open Scope string_scope.
Open Scope list_scope.
Open Scope Z_scope.

Module Parallel.

(** A worker waits for an index, runs one, or has left its loop. *)
Inductive Worker := Idle | Busy (index : Z) | Exited.

(** The producer is at its loop with the next index, at [wg.Wait()] with the
    error it will return, or has returned. *)
Inductive Phase := Feeding (index : Z) | Waiting (err : option error) | Returned (err : option error).

(** [p_runs] records the calls that have ended, in their order. *)
(** [src/internal/simulator/simulator.go:367-383] parallel *)
Record Pool := MkPool {
  p_phase : Phase;
  p_workers : list Worker;
  p_errs : option error;
  p_runs : list Z }.

(** The next communication: an index goes to a worker; the producer receives an
    error, or closes the channel at the end of its loop; a worker ends a call,
    or finds the channel closed; the producer returns. *)
Inductive Choice := Send (worker : nat) | Receive | Close | Finish (worker : nat) | Exit (worker : nat) | Return.

Definition busy_index (s : Worker) : option Z := match s with Busy i => Some i | _ => None end.
Definition is_exited (s : Worker) : bool := match s with Exited => true | _ => false end.

(** [select { case errs <- err: default: }]. *)
(** [src/internal/simulator/simulator.go:375-380] parallel *)
Definition put_err (errs : option error) (r : res unit) : option error :=
  match r, errs with Err err, None => Some err | _, _ => errs end.

Section pool.
Context {W : Type} (count : Z) (fn : Z → M W unit).

(** [None]: the communication is not possible. *)
(** [src/internal/simulator/simulator.go:372-400] parallel *)
Definition step (c : Choice) (p : Pool) (w : W) : option (Pool * W) :=
  match c, p_phase p with
  | Send k, Feeding i =>
      match i <? count, p_workers p !! k with
      | true, Some Idle =>
          Some (MkPool (Feeding (i + 1)) (<[k := Busy i]> (p_workers p)) (p_errs p) (p_runs p), w)
      | _, _ => None
      end
  | Receive, Feeding i =>
      match i <? count, p_errs p with
      | true, Some err => Some (MkPool (Waiting (Some err)) (p_workers p) None (p_runs p), w)
      | _, _ => None
      end
  | Close, Feeding i =>
      if i <? count then None
      else Some (MkPool (Waiting None) (p_workers p) (p_errs p) (p_runs p), w)
  | Finish k, _ =>
      match p_workers p !! k with
      | Some (Busy i) =>
          let '(r, w') := fn i w in
          Some (MkPool (p_phase p) (<[k := Idle]> (p_workers p)) (put_err (p_errs p) r)
                  (p_runs p ++ [i]), w')
      | _ => None
      end
  | Exit k, Waiting _ =>
      match p_workers p !! k with
      | Some Idle => Some (MkPool (p_phase p) (<[k := Exited]> (p_workers p)) (p_errs p) (p_runs p), w)
      | _ => None
      end
  | Return, Waiting err =>
      if forallb is_exited (p_workers p)
      then Some (MkPool (Returned (match err with Some _ => err | None => p_errs p end))
                   (p_workers p) (p_errs p) (p_runs p), w)
      else None
  | _, _ => None
  end.

(** [src/internal/simulator/simulator.go:364-370] parallel *)
Definition start (concurrency : Z) : Pool :=
  let concurrency := if concurrency <? 1 then 1 else concurrency in
  MkPool (Feeding 0) (repeat Idle (Z.to_nat concurrency)) None [].

(** The communications that are possible. *)
Definition choices (n : nat) : list Choice :=
  Receive :: Close :: Return :: (Send <$> seq 0 n) ++ (Finish <$> seq 0 n) ++ (Exit <$> seq 0 n).
Definition enabled (p : Pool) (w : W) : list Choice :=
  filter (λ c, is_Some (step c p w)) (choices (length (p_workers p))).

(** A scheduler picks one of them, by its position. *)
Definition Scheduler : Type := nat → nat.

Fixpoint run (fuel : nat) (schedule : Scheduler) (p : Pool) (w : W) : option (option error) * W :=
  match p_phase p with
  | Returned err => (Some err, w)
  | _ =>
      match fuel with
      | O => (None, w)
      | S fuel =>
          let possible := enabled p w in
          match possible !! (schedule fuel mod length possible)%nat ≫= λ c, step c p w with
          | Some (p, w) => run fuel schedule p w
          | None => (None, w)
          end
      end
  end.

(** Twice the calls and the workers bound the communications. *)
Definition enough (concurrency : Z) : nat := S (S (2 * Z.to_nat count + Z.to_nat (Z.max 1 concurrency))).

(** [src/internal/simulator/simulator.go:363-401] parallel *)
Definition parallel (schedule : Scheduler) (concurrency : Z) : M W unit := λ w,
  match run (enough concurrency) schedule (start concurrency) w with
  | (Some None, w') => (Ok tt, w')
  | (Some (Some err), w') => (Err err, w')
  | (None, w') => (Err (ESentinel "parallel" "deadlock"), w')
  end.

(** One communication, whichever it is. *)
Definition communicates (a b : Pool * W) : Prop := ∃ c, step c a.1 a.2 = Some b.

(** The calls one after the other: the failures and the world at the end. *)
Fixpoint run_all (order : list Z) (w : W) : list (Z * error) * W :=
  match order with
  | [] => ([], w)
  | i :: order =>
      let '(r, w) := fn i w in
      let '(failed, w) := run_all order w in
      (match r with Ok _ => failed | Err err => (i, err) :: failed end, w)
  end.

End pool.

(** * Variables the calls of a pool share *)

Section locals.
Context {W L : Type}.

Definition shared {A} (m : M W A) : M (W * L) A :=
  λ '(w, l), let '(r, w') := m w in (r, (w', l)).
Definition locally (f : L → L) : M (W * L) unit := λ '(w, l), (Ok tt, (w, f l)).
Definition with_locals (init : L) (m : M (W * L) unit) : M W L := λ w,
  let '(r, (w', l)) := m (w, init) in
  (match r with Ok _ => Ok l | Err err => Err err end, w').
End locals.

(** [make([]T, n)] of a negative length stops the program. *)
Definition makeslice_panic : error := ESentinel "runtime.Error" "makeslice: len out of range".
Definition make {W A} (zero : A) (n : Z) : M W (list A) :=
  if n <? 0 then mthrow makeslice_panic else mret (repeat zero (Z.to_nat n)).

End Parallel.
