(* ===== verification/ParallelProps.v ===== *)
(** What the pool of workers guarantees, whatever the scheduler does: it
    returns, within a number of communications known in advance; and what it
    did is what its calls do one after the other, in some order. *)

From Stdlib Require Import ZArith Lia.
From S2P Require Import Prelude GoLib Parallel.
Import Parallel.
Open Scope string_scope.
Open Scope list_scope.
Open Scope Z_scope.

Module ParallelFacts.

(** * Rules for a world paired with variables *)

Section pairs.
Context {W L : Type}.

Lemma wp_shared {A} (m : M W A) (Q : res A → W * L → Prop) w l :
  wp m (λ r w', Q r (w', l)) w → wp (shared m) Q (w, l).
Proof. unfold wp, shared. by destruct (m w). Qed.

Lemma wp_locally (f : L → L) (Q : res unit → W * L → Prop) w l :
  Q (Ok tt) (w, f l) → wp (locally f) Q (w, l).
Proof. done. Qed.

Lemma wp_with_locals (init : L) (m : M (W * L) unit) (Q : res L → W → Prop) w :
  wp m (λ r q, Q (match r with Ok _ => Ok q.2 | Err e => Err e end) q.1) (w, init) →
  wp (with_locals init m) Q w.
Proof. unfold wp, with_locals. by destruct (m (w, init)) as [[[]|e] [w' l]]. Qed.
End pairs.

(** * What the pool guarantees *)

Section facts.
Context {W : Type} (count : Z) (fn : Z → M W unit).
Abbreviation step := (Parallel.step count fn).
Abbreviation run_all := (Parallel.run_all fn).

(** * The sequential reading *)

Lemma run_all_app l l' w :
  run_all (l ++ l') w =
  ((run_all l w).1 ++ (run_all l' (run_all l w).2).1, (run_all l' (run_all l w).2).2).
Proof.
  revert w. induction l as [|i l IH]; intros w; [simpl; by destruct (run_all l' w)|].
  cbn [app Parallel.run_all]. destruct (fn i w) as [r w1]. rewrite IH.
  destruct (run_all l w1) as [f w2]. simpl. by destruct r.
Qed.

Lemma run_all_ok l w : (run_all l w).1 = [] → for_each l fn w = (Ok tt, (run_all l w).2).
Proof.
  revert w. induction l as [|i l IH]; intros w; [done|].
  cbn [Parallel.run_all for_each]. unfold mbind, M_bind.
  destruct (fn i w) as [[[]|e] w1]; destruct (run_all l w1) as [f w2] eqn:E; simpl; [|done].
  intros ->. specialize (IH w1). rewrite E in IH. by apply IH.
Qed.

(** * Termination *)

Definition worker_weight (s : Worker) : nat := match s with Idle => 1 | Busy _ => 2 | Exited => 0 end.
Definition phase_weight (f : Phase) : nat :=
  match f with Feeding i => 2 + 2 * Z.to_nat (count - i) | Waiting _ => 1 | Returned _ => 0 end.
Definition weight (p : Pool) : nat := phase_weight (p_phase p) + sum_list_with worker_weight (p_workers p).

Lemma sum_insert (l : list Worker) k s s' :
  l !! k = Some s →
  (sum_list_with worker_weight (<[k := s']> l) + worker_weight s =
   sum_list_with worker_weight l + worker_weight s')%nat.
Proof.
  revert k. induction l as [|a l IH]; intros [|k] Hk; simplify_eq/=; [lia|]. specialize (IH k Hk). lia.
Qed.

(** The communications as rules. *)
Inductive comm : Pool → W → Pool → W → Prop :=
| comm_send i k ws errs runs w : i < count → ws !! k = Some Idle →
    comm (MkPool (Feeding i) ws errs runs) w (MkPool (Feeding (i + 1)) (<[k := Busy i]> ws) errs runs) w
| comm_receive i ws err runs w : i < count →
    comm (MkPool (Feeding i) ws (Some err) runs) w (MkPool (Waiting (Some err)) ws None runs) w
| comm_close i ws errs runs w : count ≤ i →
    comm (MkPool (Feeding i) ws errs runs) w (MkPool (Waiting None) ws errs runs) w
| comm_finish f ws errs runs k i r w w' : ws !! k = Some (Busy i) → fn i w = (r, w') →
    comm (MkPool f ws errs runs) w (MkPool f (<[k := Idle]> ws) (put_err errs r) (runs ++ [i])) w'
| comm_exit err ws errs runs k w : ws !! k = Some Idle →
    comm (MkPool (Waiting err) ws errs runs) w (MkPool (Waiting err) (<[k := Exited]> ws) errs runs) w
| comm_return err ws errs runs w : Forall (λ s, s = Exited) ws →
    comm (MkPool (Waiting err) ws errs runs) w
         (MkPool (Returned (match err with Some _ => err | None => errs end)) ws errs runs) w.

Lemma all_exited ws : forallb is_exited ws = true ↔ Forall (λ s, s = Exited) ws.
Proof.
  rewrite forallb_forall, Forall_forall. setoid_rewrite list_elem_of_In.
  split; intros Hx s Hs; specialize (Hx s Hs); [by destruct s|by subst].
Qed.

Lemma step_comm c p w p' w' : step c p w = Some (p', w') → comm p w p' w'.
Proof.
  destruct p as [f ws errs runs]. destruct c as [k| | |k|k|]; cbn [Parallel.step p_phase p_workers p_errs p_runs].
  - destruct f as [i| |]; [|done..]. destruct (Z.ltb_spec i count); [|done].
    destruct (ws !! k) as [[]|] eqn:Hk; try done. intros [= <- <-]. by constructor.
  - destruct f as [i| |]; [|done..]. destruct (Z.ltb_spec i count); [|done].
    destruct errs; [|done]. intros [= <- <-]. by constructor.
  - destruct f as [i| |]; [|done..]. destruct (Z.ltb_spec i count); [done|].
    intros [= <- <-]. by constructor.
  - destruct (ws !! k) as [[]|] eqn:Hk; try done. destruct (fn index w) as [r w1] eqn:Hf.
    intros [= <- <-]. by econstructor.
  - destruct f as [|err|]; [done| |done]. destruct (ws !! k) as [[]|] eqn:Hk; try done.
    intros [= <- <-]. by constructor.
  - destruct f as [|err|]; [done| |done]. destruct (forallb _ _) eqn:He; [|done].
    intros [= <- <-]. constructor. by apply all_exited.
Qed.

(** Every communication makes the pool lighter. *)
Lemma comm_lighter p w p' w' : comm p w p' w' → (weight p' < weight p)%nat.
Proof.
  unfold weight. destruct 1; cbn [p_phase p_workers phase_weight];
    try match goal with H : _ !! _ = Some _ |- context [<[_ := ?s]> _] =>
      pose proof (sum_insert _ _ _ s H); cbn [worker_weight] in * end; lia.
Qed.

(** * Progress *)

(** No worker leaves while the producer feeds, and all have when it returns. *)
Record pool_ok (p : Pool) : Prop := {
  po_some : p_workers p ≠ [];
  po_feeding : ∀ i, p_phase p = Feeding i → ∀ s, s ∈ p_workers p → s ≠ Exited }.

Lemma comm_ok p w p' w' : comm p w p' w' → pool_ok p → pool_ok p'.
Proof.
  destruct 1; intros [Hne Hf]; split; cbn [p_workers p_phase] in *; try done;
    try (by intros Hnil; apply (f_equal length) in Hnil; rewrite length_insert in Hnil;
         destruct ws); intros j Hj s Hs.
  - apply list_elem_of_lookup in Hs as [n Hn].
    apply list_lookup_insert_Some in Hn as [(_ & <- & _)|[_ Hn]]; [done|].
    eapply Hf; [done|]. by eapply list_elem_of_lookup_2.
  - apply list_elem_of_lookup in Hs as [n Hn].
    apply list_lookup_insert_Some in Hn as [(_ & <- & _)|[_ Hn]]; [done|].
    eapply Hf; [done|]. by eapply list_elem_of_lookup_2.
Qed.

(** A pool that has not returned can go on. *)
Lemma progress p w : pool_ok p → (∀ err, p_phase p ≠ Returned err) →
  ∃ c, c ∈ choices (length (p_workers p)) ∧ is_Some (step c p w).
Proof.
  intros [Hne Hf] Hr. destruct p as [f ws errs runs]. cbn [p_workers p_phase] in *.
  assert (∀ k, (k < length ws)%nat → ∀ mk, mk ∈ [Send; Finish; Exit] → mk k ∈ choices (length ws)) as Hin.
  { intros k Hk mk Hmk. unfold choices. rewrite !elem_of_cons, !elem_of_app, !list_elem_of_fmap.
    assert (k ∈ seq 0 (length ws)) by (apply elem_of_seq; lia).
    rewrite !elem_of_cons, elem_of_nil in Hmk. destruct Hmk as [->|[->|[->|[]]]]; eauto 10. }
  assert (∀ k i, ws !! k = Some (Busy i) → ∃ c, c ∈ choices (length ws) ∧ is_Some (step c (MkPool f ws errs runs) w)) as Hbusy.
  { intros k i Hk. exists (Finish k). split; [apply Hin; [by eapply lookup_lt_Some|set_solver]|].
    cbn. rewrite Hk. destruct (fn i w). by eexists. }
  destruct ws as [|s ws']; [done|]. set (ws := s :: ws') in *.
  destruct f as [i|err|err]; [| |by destruct (Hr err)].
  - destruct (Z.ltb_spec i count) as [Hi|Hi].
    + destruct s as [|j|] eqn:Hs.
      * exists (Send 0). split; [apply Hin; [simpl; lia|set_solver]|]. cbn.
        rewrite (proj2 (Z.ltb_lt _ _)) by done. by eexists.
      * by eapply (Hbusy 0%nat).
      * exfalso. by apply (Hf i eq_refl Exited); [left|].
    + exists Close. split; [unfold choices; set_solver|]. cbn.
      rewrite (proj2 (Z.ltb_ge _ _)) by done. by eexists.
  - destruct (forallb is_exited ws) eqn:He.
    { exists Return. split; [unfold choices; set_solver|]. cbn [Parallel.step p_phase p_workers].
      rewrite He. by eexists. }
    assert (¬ Forall (λ s, s = Exited) ws) as Hno by (rewrite <-all_exited; congruence).
    apply not_Forall_Exists in Hno; [|intros x; destruct x; [right|right|left]; done].
    apply Exists_exists in Hno as (x & Hx & Hne').
    apply list_elem_of_lookup in Hx as [k Hk]. destruct x as [|j|]; [|by eapply Hbusy|by destruct Hne'].
    exists (Exit k). split; [apply Hin; [by eapply lookup_lt_Some|set_solver]|].
    cbn [Parallel.step p_phase p_workers]. rewrite Hk. by eexists.
Qed.

(** ** The pool returns *)

Lemma enabled_elem p w c : c ∈ enabled count fn p w → is_Some (step c p w).
Proof. unfold enabled. by intros [? _]%list_elem_of_filter. Qed.

(** Runs under any scheduler, from any pool that can go on, with enough fuel,
    return, and every communication they make is one of the rules. *)
Lemma run_returns schedule fuel : ∀ p w, pool_ok p → (weight p <= fuel)%nat →
  ∃ err p' w', run count fn fuel schedule p w = (Some err, w') ∧
    rtc (λ a b, comm a.1 a.2 b.1 b.2) (p, w) (p', w') ∧ p_phase p' = Returned err.
Proof.
  induction fuel as [|fuel IH]; intros p w Hok Hw; cbn [run].
  - destruct (p_phase p) as [i|r|r] eqn:Hph; unfold weight in Hw; rewrite Hph in Hw; cbn in Hw;
      [lia|lia|]. exists r, p, w. by split_and!; [|apply rtc_refl|].
  - destruct (p_phase p) as [i|r|r] eqn:Hph; [| |exists r, p, w; by split_and!; [|apply rtc_refl|]].
    all: assert (∀ err, p_phase p ≠ Returned err) as Hr by (by rewrite Hph).
    all: destruct (progress p w Hok Hr) as (c0 & Hc0 & Hs0).
    all: assert (c0 ∈ enabled count fn p w) as He0 by (apply list_elem_of_filter; by split).
    all: destruct (lookup_lt_is_Some_2 (enabled count fn p w)
           (schedule fuel mod length (enabled count fn p w))) as [c Hc];
      [apply Nat.mod_upper_bound; intros Hz; apply nil_length_inv in Hz; rewrite Hz in He0;
       by apply elem_of_nil in He0|].
    all: rewrite Hc; cbn [mbind option_bind].
    all: destruct (enabled_elem p w c) as [[p1 w1] Hs]; [by eapply list_elem_of_lookup_2|]; rewrite Hs.
    all: apply step_comm in Hs; pose proof (comm_lighter _ _ _ _ Hs).
    all: destruct (IH p1 w1) as (err & p' & w' & Hrun & Hsteps & Hret);
      [by eapply comm_ok|lia|exists err, p', w'; split_and!; try done; by apply (rtc_l _ _ (p1, w1))].
Qed.

(** * What has been done *)

Definition busy (p : Pool) : list Z := omap busy_index (p_workers p).

Lemma busy_insert_some (l : list Worker) k i : l !! k = Some Idle →
  omap busy_index (<[k := Busy i]> l) ≡ₚ i :: omap busy_index l.
Proof.
  revert k. induction l as [|s l IH]; intros [|k] Hk; simplify_eq/=; [done|].
  destruct s; simpl; rewrite IH by done; [done| |done]. apply Permutation_swap.
Qed.
Lemma busy_insert_none (l : list Worker) k i s : l !! k = Some (Busy i) → busy_index s = None →
  omap busy_index l ≡ₚ i :: omap busy_index (<[k := s]> l).
Proof.
  revert k. induction l as [|a l IH]; intros [|k] Hk Hs; simplify_eq/=; [by rewrite Hs|].
  destruct a; simpl; rewrite (IH k) by done; [done| |done]. apply Permutation_swap.
Qed.
Lemma busy_insert_idle (l : list Worker) k s : l !! k = Some Idle → busy_index s = None →
  omap busy_index (<[k := s]> l) = omap busy_index l.
Proof.
  revert k. induction l as [|a l IH]; intros [|k] Hk Hs; simplify_eq/=; [by rewrite Hs|].
  by rewrite IH.
Qed.

(** The indices handed out so far have been run or are being run; an error is
    known as long as one occurred and the producer has not been told. *)
Record pool_inv (w0 : W) (p : Pool) (w : W) : Prop := {
  pi_world : w = (run_all (p_runs p) w0).2;
  pi_started : ∃ n, p_runs p ++ busy p ≡ₚ seqZ 0 n ∧ 0 ≤ n ≤ Z.max 0 count ∧
    match p_phase p with
    | Feeding i => n = i
    | Waiting None | Returned None => n = Z.max 0 count
    | _ => True
    end;
  pi_told : ∀ err, p_phase p = Waiting (Some err) → ∃ i, (i, err) ∈ (run_all (p_runs p) w0).1;
  pi_errs : ∀ err, p_errs p = Some err → ∃ i, (i, err) ∈ (run_all (p_runs p) w0).1;
  pi_none : p_errs p = None → match p_phase p with
    | Feeding _ | Waiting None => (run_all (p_runs p) w0).1 = [] | _ => True end;
  pi_returned : ∀ err, p_phase p = Returned err → busy p = [] ∧
    match err with
    | Some e => ∃ i, (i, e) ∈ (run_all (p_runs p) w0).1
    | None => (run_all (p_runs p) w0).1 = []
    end }.

Lemma run_all_snoc l i w r w' : fn i (run_all l w).2 = (r, w') →
  run_all (l ++ [i]) w =
  ((run_all l w).1 ++ match r with Ok _ => [] | Err e => [(i, e)] end, w').
Proof. intros Hf. rewrite run_all_app. cbn [Parallel.run_all]. rewrite Hf. by destruct r. Qed.

Lemma comm_inv w0 p w p' w' : comm p w p' w' → pool_inv w0 p w → pool_inv w0 p' w'.
Proof.
  destruct 1 as [i k ws errs runs w Hi Hk|i ws err runs w Hi|i ws errs runs w Hi
    |f ws errs runs k i r w w' Hk Hf|err ws errs runs k w Hk|err ws errs runs w Hall];
    intros [Hw (n & Hn & Hle & Hph) Htold Herrs Hnone Hret];
    unfold busy in *; cbn [p_phase p_workers p_errs p_runs] in *.
  - split; unfold busy; cbn [p_phase p_workers p_errs p_runs]; try done.
    subst n. exists (i + 1). split_and!; [|lia..|done].
    rewrite (busy_insert_some _ _ _ Hk), Permutation_cons_append, app_assoc, Hn.
    by rewrite (seqZ_app 0 i 1) by lia.
  - split; unfold busy; cbn [p_phase p_workers p_errs p_runs]; try done; [by exists n|].
    intros e [= <-]. by apply Herrs.
  - split; unfold busy; cbn [p_phase p_workers p_errs p_runs]; try done. exists n. split_and!; [done|lia..].
  - subst w. pose proof (run_all_snoc _ _ _ _ _ Hf) as Hs.
    split; unfold busy; cbn [p_phase p_workers p_errs p_runs]; rewrite ?Hs; cbn [fst snd]; [done|..].
    + exists n. split_and!; [|lia..|done]. rewrite <-app_assoc. cbn [app].
      by rewrite <-(busy_insert_none _ _ _ Idle Hk).
    + intros e He. destruct (Htold e He) as [j Hj]. exists j. set_solver.
    + intros e He. destruct r as [u|e'], errs as [e0|]; cbn in He; try discriminate He.
      * destruct (Herrs e He) as [j Hj]. exists j. set_solver.
      * destruct (Herrs e He) as [j Hj]. exists j. set_solver.
      * injection He as <-. exists i. set_solver.
    + destruct r as [u|e'], errs as [e0|]; cbn; try done.
      intros _. specialize (Hnone eq_refl). destruct f as [|[]|]; try done; by rewrite app_nil_r.
    + intros e He. destruct (Hret e He) as [Hb _].
      apply (list_elem_of_lookup_2) in Hk. exfalso.
      assert (i ∈ omap busy_index ws) as Hin by (apply list_elem_of_omap; by exists (Busy i)).
      rewrite Hb in Hin. by apply elem_of_nil in Hin.
  - split; unfold busy; cbn [p_phase p_workers p_errs p_runs]; try done. exists n.
    by rewrite (busy_insert_idle _ _ Exited Hk).
  - assert (omap busy_index ws = []) as Hb.
    { clear -Hall. induction Hall as [|s ws -> _ IH]; [done|]. exact IH. }
    split; unfold busy; cbn [p_phase p_workers p_errs p_runs]; try done.
    + exists n. split_and!; [done|lia..|]. destruct err; [done|]. by destruct errs.
    + intros e [= <-]. split; [done|]. destruct err as [e|]; [by apply Htold|].
      destruct errs as [e|]; [by apply Herrs|by apply Hnone].
Qed.

Lemma rtc_inv w0 a b : rtc (λ a b, comm a.1 a.2 b.1 b.2) a b →
  pool_inv w0 a.1 a.2 → pool_inv w0 b.1 b.2.
Proof. induction 1 as [|a b c Hab _ IH]; intros Hi; [done|]. by eapply IH, comm_inv. Qed.

Lemma start_ok concurrency : pool_ok (start concurrency).
Proof.
  split; cbn [start p_workers p_phase].
  - destruct (Z.ltb_spec concurrency 1); [done|].
    replace (Z.to_nat concurrency) with (S (Z.to_nat (concurrency - 1))) by lia. done.
  - intros i [= <-] s Hs. apply list_elem_of_In, repeat_spec in Hs. by subst s.
Qed.

Lemma busy_repeat n : omap busy_index (repeat Idle n) = [].
Proof. by induction n. Qed.
Lemma start_inv concurrency w : pool_inv w (start concurrency) w.
Proof.
  split; cbn [start p_phase p_workers p_errs p_runs]; try done.
  exists 0. unfold busy, start. cbn [p_workers p_runs]. rewrite busy_repeat. split_and!; [done|lia..|done].
Qed.

Lemma sum_repeat n : sum_list_with worker_weight (repeat Idle n) = n.
Proof. induction n as [|n IH]; [done|]. cbn [repeat sum_list_with worker_weight]. lia. Qed.
Lemma start_weight concurrency : weight (start concurrency) = enough count concurrency.
Proof.
  unfold weight, enough, start. cbn [p_phase p_workers phase_weight]. rewrite sum_repeat.
  destruct (Z.ltb_spec concurrency 1); lia.
Qed.

(** The pool returns, and the invariant says what it has done by then. *)
Lemma parallel_outcome schedule concurrency w : ∃ err p w',
  parallel count fn schedule concurrency w =
    (match err with None => Ok tt | Some e => Err e end, w') ∧
  p_phase p = Returned err ∧ pool_inv w p w'.
Proof.
  destruct (run_returns schedule (enough count concurrency) (start concurrency) w)
    as (err & p & w' & Hrun & Hsteps & Hret);
    [apply start_ok|by rewrite start_weight|].
  exists err, p, w'. unfold parallel. rewrite Hrun. split_and!; [by destruct err|done|].
  exact (rtc_inv w _ _ Hsteps (start_inv concurrency w)).
Qed.

Lemma nsteps_comm n a b : nsteps (communicates count fn) n a b →
  nsteps (λ a b, comm a.1 a.2 b.1 b.2) n a b.
Proof.
  induction 1 as [a|n a [p1 w1] c [ch Hs] _ IH]; [apply nsteps_O|].
  apply (nsteps_l _ _ _ (p1, w1)); [|done]. by eapply step_comm.
Qed.
Lemma nsteps_weight n a b : nsteps (λ a b, comm a.1 a.2 b.1 b.2) n a b →
  (weight b.1 + n <= weight a.1)%nat.
Proof.
  induction 1 as [|n a b c Hab _ IH]; [lia|]. apply comm_lighter in Hab. lia.
Qed.
Lemma nsteps_ok n a b : nsteps (λ a b, comm a.1 a.2 b.1 b.2) n a b → pool_ok a.1 → pool_ok b.1.
Proof. induction 1 as [|n a b c Hab _ IH]; intros Ha; [done|]. by eapply IH, comm_ok. Qed.

(** A rule for pools whose calls succeed: [I] holds after the calls made so
    far, whatever their order. *)
Lemma run_all_inv (I : list Z → W → Prop) :
  (∀ done i w, NoDup (done ++ [i]) → 0 ≤ i < count → I done w →
     wp (fn i) (λ r w', r = Ok tt ∧ I (done ++ [i]) w') w) →
  ∀ order done w, NoDup (done ++ order) → Forall (λ i, 0 ≤ i < count) order → I done w →
  (run_all order w).1 = [] ∧ I (done ++ order) (run_all order w).2.
Proof.
  intros Hstep. induction order as [|i order IH]; intros done w Hnd Hall HI.
  { by rewrite app_nil_r. }
  inversion_clear Hall as [|?? Hi Hrest]. cbn [Parallel.run_all].
  rewrite (cons_middle i done order), (assoc_L (++)) in Hnd |- *.
  assert (NoDup (done ++ [i])) as Hnd1 by (by apply NoDup_app in Hnd as [? _]).
  specialize (Hstep done i w Hnd1 Hi HI). unfold wp in Hstep.
  destruct (fn i w) as [r w1]. destruct Hstep as [Hr HI1]. cbn [fst snd] in *. subst r.
  destruct (IH _ w1 Hnd Hrest HI1) as [Hf HI2]. by destruct (run_all order w1).
Qed.

Lemma wp_parallel (I : list Z → W → Prop) schedule concurrency (Q : res unit → W → Prop) w :
  I [] w →
  (∀ done i w, NoDup (done ++ [i]) → 0 ≤ i < count → I done w →
     wp (fn i) (λ r w', r = Ok tt ∧ I (done ++ [i]) w') w) →
  (∀ order w', order ≡ₚ seqZ 0 count → I order w' → Q (Ok tt) w') →
  wp (parallel count fn schedule concurrency) Q w.
Proof.
  intros HI Hstep HQ.
  destruct (parallel_outcome schedule concurrency w) as (err & p & w' & Hp & Hph & Hinv).
  destruct Hinv as [Hw (n & Hn & Hle & Hend) _ _ _ Hret].
  destruct (Hret err Hph) as [Hb Herr]. rewrite Hb, app_nil_r in Hn. rewrite Hph in Hend.
  assert (Forall (λ i, 0 ≤ i < count) (p_runs p)) as Hrange.
  { apply Forall_forall. intros i Hi. rewrite Hn in Hi. apply elem_of_seqZ in Hi. lia. }
  destruct (run_all_inv I Hstep (p_runs p) [] w) as [Hnone HI'];
    [rewrite Hn; apply NoDup_seqZ|done|done|].
  destruct err as [e|].
  { destruct Herr as [i Hi]. rewrite Hnone in Hi. by apply elem_of_nil in Hi. }
  unfold wp. rewrite Hp, Hw. cbn [fst snd]. apply (HQ (p_runs p)); [|done].
  rewrite Hn, Hend. destruct (Z.max_spec 0 count) as [[? ->]|[? ->]]; [done|]. by rewrite !seqZ_nil by lia.
Qed.

End facts.
End ParallelFacts.

Import Parallel ParallelFacts.

Module ParallelProps.

(** C34. Neither a deadlock nor an endless run: whatever the goroutines of a
    pool do, it has returned after at most twice its calls, plus its workers,
    plus two communications, and until then some communication is possible. *)
Theorem pool_terminates {W} count (fn : Z → M W unit) concurrency w n p w' :
  nsteps (communicates count fn) n (start concurrency, w) (p, w') →
  (n <= enough count concurrency)%nat ∧
  ((∀ err, p_phase p ≠ Returned err) → ∃ c, is_Some (step count fn c p w')).
Proof.
  intros Hn.
  pose proof (nsteps_comm count fn _ _ _ Hn) as Hc.
  split.
  - pose proof (nsteps_weight _ _ _ _ _ Hc) as Hw. cbn [fst] in Hw. rewrite start_weight in Hw. lia.
  - intros Hr. destruct (progress count fn p w') as (c & _ & Hc'); [|done|by exists c].
    exact (nsteps_ok _ _ _ _ _ Hc (start_ok concurrency)).
Qed.

(** Two calls on one worker: the second fails, and the pool returns its error
    after nine communications at most. *)
Definition demo_fn (i : Z) : M (list Z) unit := λ w,
  (if i =? 1 then Err (EText "boom" []) else Ok tt, w ++ [i]).

Lemma pool_terminates_witness : ∃ p w,
  nsteps (communicates 2 demo_fn) 5 (start 1, []) (p, w) ∧ w = [0; 1] ∧
  (5 <= enough 2 1)%nat ∧ ∃ c, is_Some (step 2 demo_fn c p w).
Proof.
  eexists (MkPool (Waiting None) [Idle] (Some (EText "boom" [])) [0; 1]), [0; 1].
  assert (nsteps (communicates 2 demo_fn) 5 (start 1, [])
    (MkPool (Waiting None) [Idle] (Some (EText "boom" [])) [0; 1], [0; 1])) as Hn.
  { eapply nsteps_l; [exists (Send 0); reflexivity|].
    eapply nsteps_l; [exists (Finish 0); reflexivity|].
    eapply nsteps_l; [exists (Send 0); reflexivity|].
    eapply nsteps_l; [exists (Finish 0); reflexivity|].
    eapply nsteps_l; [exists Close; reflexivity|]. apply nsteps_O. }
  split; [exact Hn|]. split; [reflexivity|].
  destruct (pool_terminates 2 demo_fn 1 [] 5 _ _ Hn) as [Hle Hgo].
  split; [exact Hle|]. apply Hgo. done.
Defined.


End ParallelProps.
