(* ===== verification/JsonText.v ===== *)
(** The text of raw JSON values as [encoding/json] rewrites it: [Compact], as
    every encoder applies it to a [json.RawMessage], and [Indent], as
    [MarshalIndent] applies it to its output.  Both copy the bytes of strings
    unchanged and drop the white space between tokens. *)

From Stdlib Require Import ZArith Lia Ascii.
From S2P Require Import Prelude GoLib.
Open Scope string_scope.
Open Scope list_scope.
Open Scope Z_scope.

Module JsonText.

(** Where a byte stands: between tokens, inside a string, or after a backslash
    inside a string. *)
Inductive place := Between | Inside | Escaped.

Definition next_place (p : place) (c : ascii) : place :=
  match p with
  | Between => if byte_is 34 c then Inside else Between
  | Inside => if byte_is 34 c then Between else if byte_is 92 c then Escaped else Inside
  | Escaped => Inside
  end.

Definition lower_hex (n : N) : ascii := ascii_of_N (if (n <? 10)%N then 48 + n else 87 + n).

(** ["\u00XY"], the escape of ['<'], ['>'] and ['&']. *)
Definition escape_html (c : ascii) (rest : string) : string :=
  String (ascii_of_N 92) ("u00" +:+ String (lower_hex (N_of_ascii c / 16))
                           (String (lower_hex (N_of_ascii c mod 16)) rest)).
Definition is_html (c : ascii) : bool := byte_is 60 c || byte_is 62 c || byte_is 38 c.

Fixpoint compact_from (p : place) (s : string) : string :=
  match s with
  | EmptyString => EmptyString
  | String c s' =>
      let rest := compact_from (next_place p c) s' in
      if is_html c then escape_html c rest
      else match p with
           | Between => if Json.isSpace c then rest else String c rest
           | _ =>
               match s' with
               | String d (String e s3) =>
                   if byte_is 226 c && byte_is 128 d && (byte_is 168 e || byte_is 169 e)
                   then String (ascii_of_N 92) ("u202" +:+ String (lower_hex (N_of_ascii e mod 16))
                                                  (compact_from Inside s3))
                   else String c rest
               | _ => String c rest
               end
           end
  end.

(** The encoder's text of a raw value; [null] for a nil one. *)
Definition Compact (value : string) : string :=
  if empty_str value then "null" else compact_from Between value.

Fixpoint spaces (n : nat) : string :=
  match n with O => EmptyString | S n => String " " (String " " (spaces n)) end.
Definition newline (depth : nat) (rest : string) : string :=
  String (ascii_of_N 10) (spaces depth +:+ rest).

(** [need] is [needIndent]: an opening bracket was just written. *)
Fixpoint indent_from (p : place) (need : bool) (depth : nat) (s : string) : string :=
  match s with
  | EmptyString => EmptyString
  | String c s' =>
      let p' := next_place p c in
      match p with
      | Between =>
          if Json.isSpace c then indent_from p' need depth s'
          else if byte_is 125 c || byte_is 93 c
          then if need then String c (indent_from p' false depth s')
               else newline (depth - 1) (String c (indent_from p' false (depth - 1) s'))
          else
            let depth' := if need then S depth else depth in
            let text :=
              if byte_is 123 c || byte_is 91 c then String c (indent_from p' true depth' s')
              else if byte_is 44 c then String c (newline depth' (indent_from p' false depth' s'))
              else if byte_is 58 c then String c (String " " (indent_from p' false depth' s'))
              else String c (indent_from p' false depth' s') in
            if need then newline depth' text else text
      | _ => String c (indent_from p' need depth s')
      end
  end.

(** [MarshalIndent(_, "", "  ")] of a raw value inside [depth] brackets. *)
Definition Indent (depth : nat) (value : string) : string :=
  indent_from Between false depth (Compact value).

(** ["'"] stands for the double quote in these texts. *)
Fixpoint quoted (s : string) : string :=
  match s with
  | EmptyString => EmptyString
  | String c s' => String (if byte_is 39 c then ascii_of_N 34 else c) (quoted s')
  end.

Example compact_object :
  Compact (quoted "{ 'a' : [1, 'x y<'] }") = quoted "{'a':[1,'x y\u003c']}".
Proof. reflexivity. Qed.

Example indent_object :
  Indent 0 (quoted "{'a':[1,{}]}") =
  "{" +:+ newline 1 (quoted "'a': [" +:+ newline 2 ("1," +:+ newline 2 ("{}" +:+ newline 1
    ("]" +:+ newline 0 "}")))).
Proof. reflexivity. Qed.

(** A text without strings, brackets, separators or white space, such as a
    number, is unchanged. *)
Definition plain_byte (c : ascii) : bool :=
  negb (Json.isSpace c || is_html c || byte_is 34 c || byte_is 44 c || byte_is 58 c
        || byte_is 91 c || byte_is 93 c || byte_is 123 c || byte_is 125 c).
Fixpoint plain (s : string) : bool :=
  match s with EmptyString => true | String c s' => plain_byte c && plain s' end.

Ltac plain_case Hc :=
  unfold plain_byte in Hc; apply negb_true_iff in Hc; rewrite ?orb_false_iff in Hc;
  destruct_and? Hc; repeat match goal with H : ?b = false |- _ => rewrite ?H; clear H end; simpl.

Lemma compact_plain s : plain s = true → compact_from Between s = s.
Proof.
  induction s as [|c s IH]; [done|]. cbn [plain compact_from next_place].
  intros [Hc Hs]%andb_true_iff. plain_case Hc. by rewrite IH.
Qed.

Lemma indent_plain s depth : plain s = true → indent_from Between false depth s = s.
Proof.
  induction s as [|c s IH]; [done|]. cbn [plain indent_from next_place].
  intros [Hc Hs]%andb_true_iff. plain_case Hc. by rewrite IH.
Qed.

Lemma Indent_plain value depth : value ≠ "" → plain value = true → Indent depth value = value.
Proof.
  intros Hv Hp. unfold Indent, Compact.
  rewrite (proj2 (empty_str_false value) Hv), compact_plain by done. by apply indent_plain.
Qed.

Lemma Compact_plain value : value ≠ "" → plain value = true → Compact value = value.
Proof.
  intros Hv Hp. unfold Compact.
  rewrite (proj2 (empty_str_false value) Hv). by apply compact_plain.
Qed.

End JsonText.
