(* ===== verification/FileSystem.v ===== *)
(** The file system calls of [os] the agent makes: a map from paths to
    contents, and for every call whether it fails.  A crash of the process is
    the case where every call from some point on fails: the calls the code
    still makes change nothing. *)

From Stdlib Require Import ZArith Lia Ascii.
From S2P Require Import Prelude GoLib.
Open Scope string_scope.
Open Scope list_scope.
Open Scope Z_scope.

Module FileSystem.

(** A failing call, with the bytes a failing write has written before. *)
Record Fault := MkFault { fault_error : error; fault_written : nat }.

Record FS := MkFS {
  fs_files : gmap string string;
  fs_faults : nat → option Fault;
  fs_calls : nat }.

Definition ErrNotExist : error := ESentinel "os.ErrNotExist" "file does not exist".

(** One call: it fails as the system decides, or answers. *)
Definition syscall {A} (failed : nat → gmap string string → gmap string string)
    (run : gmap string string → res A * gmap string string) : M FS A :=
  λ s,
    let '(r, files) :=
      match fs_faults s (fs_calls s) with
      | Some f => (Err (fault_error f), failed (fault_written f) (fs_files s))
      | None => run (fs_files s)
      end in
    (r, MkFS files (fs_faults s) (S (fs_calls s))).

Definition unchanged (n : nat) (files : gmap string string) : gmap string string := files.

Definition missing_or {A} (files : gmap string string) (path : string)
    (k : string → A * gmap string string) : res A * gmap string string :=
  match files !! path with
  | None => (Err ErrNotExist, files)
  | Some data => let '(a, files') := k data in (Ok a, files')
  end.

Definition ReadFile (path : string) : M FS string :=
  syscall unchanged (λ files, missing_or files path (λ data, (data, files))).
Definition Stat (path : string) : M FS unit :=
  syscall unchanged (λ files, missing_or files path (λ _, (tt, files))).
Definition MkdirAll (path : string) : M FS unit :=
  syscall unchanged (λ files, (Ok tt, files)).
(** [os.OpenFile(path, os.O_CREATE|os.O_TRUNC|os.O_WRONLY, _)] *)
Definition OpenTruncated (path : string) : M FS unit :=
  syscall unchanged (λ files, (Ok tt, <[path := ""]> files)).
(** [file.Write(data)] on a file just opened at [path]. *)
Definition Write (path data : string) : M FS unit :=
  syscall (λ n files, <[path := String.substring 0 n data]> files)
          (λ files, (Ok tt, <[path := data]> files)).
Definition Sync (path : string) : M FS unit := syscall unchanged (λ files, (Ok tt, files)).
Definition Close (path : string) : M FS unit := syscall unchanged (λ files, (Ok tt, files)).
Definition Remove (path : string) : M FS unit :=
  syscall unchanged (λ files, missing_or files path (λ _, (tt, delete path files))).
Definition Rename (from to : string) : M FS unit :=
  syscall unchanged (λ files, missing_or files from
    (λ data, (tt, <[to := data]> (delete from files)))).

(** * What each call does

    [wp_call]: the state after, for a failing and for a successful call. *)
Section rules.
Context (Q : res unit → FS → Prop).
Implicit Types s : FS.

Definition next (files : gmap string string) (s : FS) : FS :=
  MkFS files (fs_faults s) (S (fs_calls s)).

Definition no_faults (s : FS) : Prop := ∀ n, fs_faults s n = None.

Lemma wp_syscall {A} failed run (Q' : res A → FS → Prop) s :
  (∀ f, fs_faults s (fs_calls s) = Some f →
     Q' (Err (fault_error f)) (next (failed (fault_written f) (fs_files s)) s)) →
  (fs_faults s (fs_calls s) = None →
     Q' (run (fs_files s)).1 (next (run (fs_files s)).2 s)) →
  wp (syscall failed run) Q' s.
Proof.
  intros Hf Hr. unfold wp, syscall. destruct (fs_faults s (fs_calls s)) eqn:Hc; simpl.
  - by apply Hf.
  - destruct (run (fs_files s)) eqn:Heq. by apply Hr.
Qed.
End rules.

(** filepath.Ext and the strings.TrimSuffix of it *)
Fixpoint Ext (path : string) : string :=
  match path with
  | EmptyString => EmptyString
  | String c rest =>
      let e := Ext rest in
      if negb (empty_str e) then e
      else if byte_is 46 c && negb (has_byte "/"%char rest) then path else EmptyString
  end.
Definition TrimSuffix (s suffix : string) : string :=
  let n := (String.length s - String.length suffix)%nat in
  if bool_decide (String.substring n (String.length suffix) s = suffix)
  then String.substring 0 n s else s.

Example ext_examples :
  (Ext "/var/lib/snapshot.json", Ext "a.b/c", Ext "x.tar.gz", Ext "dir/.d")
  = (".json", "", ".gz", ".d").
Proof. reflexivity. Qed.

End FileSystem.
