(* ===== verification/Domain.v ===== *)
(** [internal/domain]: the records the planes exchange and their validation. *)

From Stdlib Require Import ZArith.
From S2P Require Import Prelude GoLib.
Open Scope string_scope.
Open Scope list_scope.
Open Scope Z_scope.

Module Domain.

(** A [json.RawMessage] is its bytes. *)
Definition RawMessage := string.

(** [src/internal/domain/types.go:8-15] Tenant *)
Record Tenant := MkTenant {
  t_ID : string;
  t_Name : string;
  t_Description : string;
  t_Owner : string;
  t_CreatedAt : Time;
  t_UpdatedAt : Time }.

(** [src/internal/domain/types.go:17-26] ConfigDefinition *)
Record ConfigDefinition := MkConfigDefinition {
  d_ID : string;
  d_TenantID : string;
  d_Key : string;
  d_Description : string;
  d_Schema : RawMessage;
  d_DefaultValue : RawMessage;
  d_CreatedAt : Time;
  d_UpdatedAt : Time }.

(** [src/internal/domain/types.go:28-36] ConfigVersion *)
Record ConfigVersion := MkConfigVersion {
  v_ID : string;
  v_ConfigDefinitionID : string;
  v_VersionNumber : Z;
  v_Value : RawMessage;
  v_SourceCommitSHA : string;
  v_CreatedBy : string;
  v_CreatedAt : Time }.

(** [src/internal/domain/types.go:38-38] Environment *)
Definition Environment := string.

(** [src/internal/domain/types.go:41-41] EnvironmentDevelopment *)
Definition EnvironmentDevelopment : Environment := "development".

(** [src/internal/domain/types.go:42-42] EnvironmentStaging *)
Definition EnvironmentStaging : Environment := "staging".

(** [src/internal/domain/types.go:43-43] EnvironmentProduction *)
Definition EnvironmentProduction : Environment := "production".

(** [src/internal/domain/types.go:46-52] ConfigEnvironmentState *)
Record ConfigEnvironmentState := MkConfigEnvironmentState {
  es_ConfigDefinitionID : string;
  es_Environment : Environment;
  es_StableVersionID : string;
  es_ActiveRolloutID : string;
  es_UpdatedAt : Time }.

(** [src/internal/domain/types.go:54-63] Agent *)
Record Agent := MkAgent {
  a_ID : string;
  a_Service : string;
  a_Environment : Environment;
  a_Zone : string;
  a_Instance : string;
  a_Labels : gmap string string;
  a_RegisteredAt : Time;
  a_LastSeenAt : Time }.

(** [src/internal/domain/types.go:65-70] AgentCredential *)
Record AgentCredential := MkAgentCredential {
  c_Token : string;
  c_AgentID : string;
  c_ExpiresAt : Time;
  c_CreatedAt : Time }.

(** [src/internal/domain/types.go:72-80] AgentAcknowledgement *)
Record AgentAcknowledgement := MkAgentAcknowledgement {
  k_ID : string;
  k_AgentID : string;
  k_ConfigDefinitionID : string;
  k_VersionID : string;
  k_SnapshotRevision : Z;
  k_Counted : bool;
  k_CreatedAt : Time }.

#[export] Instance agent_eq_dec : EqDecision Agent.
Proof. solve_decision. Defined.
#[export] Instance env_state_eq_dec : EqDecision ConfigEnvironmentState.
Proof. solve_decision. Defined.

(** [src/internal/domain/validation.go:11-11] ErrMissingID *)
Definition ErrMissingID := ESentinel "domain.ErrMissingID" "id is required".
(** [src/internal/domain/validation.go:12-12] ErrMissingTenantID *)
Definition ErrMissingTenantID := ESentinel "domain.ErrMissingTenantID" "tenant id is required".
(** [src/internal/domain/validation.go:13-13] ErrMissingConfigKey *)
Definition ErrMissingConfigKey := ESentinel "domain.ErrMissingConfigKey" "config key is required".
(** [src/internal/domain/validation.go:14-14] ErrMissingSchema *)
Definition ErrMissingSchema := ESentinel "domain.ErrMissingSchema" "schema is required".
(** [src/internal/domain/validation.go:15-15] ErrMissingValue *)
Definition ErrMissingValue := ESentinel "domain.ErrMissingValue" "value is required".
(** [src/internal/domain/validation.go:16-16] ErrInvalidJSON *)
Definition ErrInvalidJSON := ESentinel "domain.ErrInvalidJSON" "json is invalid".
(** [src/internal/domain/validation.go:17-17] ErrInvalidVersionNumber *)
Definition ErrInvalidVersionNumber :=
  ESentinel "domain.ErrInvalidVersionNumber" "version number must be positive".
(** [src/internal/domain/validation.go:18-18] ErrInvalidEnvironment *)
Definition ErrInvalidEnvironment :=
  ESentinel "domain.ErrInvalidEnvironment" "environment is invalid".
(** [src/internal/domain/validation.go:19-19] ErrStableVersionDuringRun *)
Definition ErrStableVersionDuringRun :=
  ESentinel "domain.ErrStableVersionDuringRun"
            "stable version cannot change while rollout is active".

(** [src/internal/domain/validation.go:22-30] Tenant.Validate *)
Definition Tenant_Validate (t : Tenant) : res unit :=
  guard_err (blank (t_ID t)) ErrMissingID;;
  guard_err (blank (t_Name t)) (EText "tenant name is required" []).

(** [src/internal/domain/validation.go:32-52] ConfigDefinition.Validate *)
Definition ConfigDefinition_Validate (d : ConfigDefinition) : res unit :=
  guard_err (blank (d_ID d)) ErrMissingID;;
  guard_err (blank (d_TenantID d)) ErrMissingTenantID;;
  guard_err (blank (d_Key d)) ErrMissingConfigKey;;
  guard_err (empty_str (d_Schema d)) ErrMissingSchema;;
  guard_err (negb (Json.Valid (d_Schema d))) (EWrap ErrInvalidJSON "schema" []);;
  guard_err (negb (empty_str (d_DefaultValue d)) && negb (Json.Valid (d_DefaultValue d)))
            (EWrap ErrInvalidJSON "default value" []).

(** [src/internal/domain/validation.go:54-71] ConfigVersion.Validate *)
Definition ConfigVersion_Validate (v : ConfigVersion) : res unit :=
  guard_err (blank (v_ID v)) ErrMissingID;;
  guard_err (blank (v_ConfigDefinitionID v)) (EText "config definition id is required" []);;
  guard_err (v_VersionNumber v <? 1) ErrInvalidVersionNumber;;
  guard_err (empty_str (v_Value v)) ErrMissingValue;;
  guard_err (negb (Json.Valid (v_Value v))) (EWrap ErrInvalidJSON "value" []).

(** [src/internal/domain/validation.go:73-80] Environment.Validate *)
Definition Environment_Validate (e : Environment) : res unit :=
  if bool_decide (e = EnvironmentDevelopment)
     || bool_decide (e = EnvironmentStaging)
     || bool_decide (e = EnvironmentProduction)
  then mret tt else mthrow ErrInvalidEnvironment.

(** [src/internal/domain/validation.go:82-90] ConfigEnvironmentState.Validate *)
Definition ConfigEnvironmentState_Validate (s : ConfigEnvironmentState) : res unit :=
  guard_err (blank (es_ConfigDefinitionID s)) (EText "config definition id is required" []);;
  Environment_Validate (es_Environment s).

(** [src/internal/domain/validation.go:92-100] ConfigEnvironmentState.WithStableVersion *)
Definition WithStableVersion (s : ConfigEnvironmentState) (versionID : string)
    : res ConfigEnvironmentState :=
  if negb (blank (es_ActiveRolloutID s)) && negb (bool_decide (es_StableVersionID s = versionID))
  then mthrow ErrStableVersionDuringRun
  else mret (MkConfigEnvironmentState (es_ConfigDefinitionID s) (es_Environment s)
               versionID (es_ActiveRolloutID s) (es_UpdatedAt s)).

End Domain.
