(* ===== verification/Guardrail.v ===== *)
(** [internal/guardrail]: rules over Prometheus samples and their evaluation,
    and the parsing of a query response once its JSON envelope is decoded.
    Then what the evaluation guarantees. *)

From Stdlib Require Import ZArith SpecFloat Lia.
From S2P Require Import Prelude GoLib.
Open Scope string_scope.
Open Scope list_scope.
Open Scope Z_scope.

Module Guardrail.

(** [src/internal/guardrail/types.go:10-10] ErrInvalidInput *)
Definition ErrInvalidInput := ESentinel "guardrail.ErrInvalidInput" "invalid input".
(** [src/internal/guardrail/types.go:11-11] ErrNoData *)
Definition ErrNoData := ESentinel "guardrail.ErrNoData" "no data".
(** [src/internal/guardrail/types.go:12-12] ErrMultipleSeries *)
Definition ErrMultipleSeries := ESentinel "guardrail.ErrMultipleSeries" "multiple series".

(** [src/internal/guardrail/types.go:15-21] Status *)
Inductive Status := StatusHealthy | StatusUnhealthy | StatusUnknown.

#[export] Instance status_eq_dec : EqDecision Status.
Proof. solve_decision. Defined.

(** An [Operator] is any string; the constants below are the valid ones. *)
(** [src/internal/guardrail/types.go:23-23] Operator *)
Definition Operator := string.
(** [src/internal/guardrail/types.go:26-26] OperatorLessThan *)
Definition OperatorLessThan : Operator := "<".
(** [src/internal/guardrail/types.go:27-27] OperatorLessThanOrEqual *)
Definition OperatorLessThanOrEqual : Operator := "<=".
(** [src/internal/guardrail/types.go:28-28] OperatorGreaterThan *)
Definition OperatorGreaterThan : Operator := ">".
(** [src/internal/guardrail/types.go:29-29] OperatorGreaterThanOrEqual *)
Definition OperatorGreaterThanOrEqual : Operator := ">=".
(** [src/internal/guardrail/types.go:30-30] OperatorEqual *)
Definition OperatorEqual : Operator := "==".
(** [src/internal/guardrail/types.go:31-31] OperatorNotEqual *)
Definition OperatorNotEqual : Operator := "!=".

(** [src/internal/guardrail/types.go:34-40] Rule *)
Record Rule := MkRule {
  g_Name : string;
  g_Query : string;
  g_Operator : Operator;
  g_Threshold : float64;
  g_ConsecutiveFailures : Z }.

(** [src/internal/guardrail/types.go:42-53] Evaluation *)
Record Evaluation := MkEvaluation {
  e_Name : string;
  e_Query : string;
  e_Status : Status;
  e_Value : float64;
  e_Threshold : float64;
  e_Operator : Operator;
  e_ConsecutiveFailures : Z;
  e_RequiredConsecutiveFailures : Z;
  e_Reason : string;
  e_ObservedAt : Time }.

(** [src/internal/guardrail/types.go:75-87] validOperator *)
Definition validOperator (operator : Operator) : bool :=
  existsb (λ o, bool_decide (operator = o))
    [OperatorLessThan; OperatorLessThanOrEqual; OperatorGreaterThan;
     OperatorGreaterThanOrEqual; OperatorEqual; OperatorNotEqual].

(** [src/internal/guardrail/types.go:55-66] Rule.Validate *)
Definition Rule_Validate (r : Rule) : res unit :=
  guard_err (empty_str (g_Name r)) (EWrap ErrInvalidInput "guardrail name is required" []);;
  guard_err (negb (validOperator (g_Operator r)))
            (EWrap ErrInvalidInput "unsupported guardrail operator %q" [g_Operator r]);;
  guard_err (g_ConsecutiveFailures r <? 0)
            (EWrap ErrInvalidInput "consecutive failures cannot be negative" []).

(** [src/internal/guardrail/types.go:68-73] Rule.requiredFailures *)
Definition requiredFailures (r : Rule) : Z :=
  if g_ConsecutiveFailures r =? 0 then 1 else g_ConsecutiveFailures r.

(** [src/internal/guardrail/evaluator.go:79-96] Compare *)
Definition Compare (value : float64) (operator : Operator) (threshold : float64) : bool :=
  if bool_decide (operator = OperatorLessThan) then f_lt value threshold
  else if bool_decide (operator = OperatorLessThanOrEqual) then f_le value threshold
  else if bool_decide (operator = OperatorGreaterThan) then f_lt threshold value
  else if bool_decide (operator = OperatorGreaterThanOrEqual) then f_le threshold value
  else if bool_decide (operator = OperatorEqual) then f_eq value threshold
  else if bool_decide (operator = OperatorNotEqual) then negb (f_eq value threshold)
  else false.

(** [src/internal/guardrail/evaluator.go:48-70] Unknown *)
Definition Unknown (rule : Rule) (previousFailures : Z) (reason : string) (observedAt : Time)
    : res Evaluation :=
  Rule_Validate rule;;
  guard_err (previousFailures <? 0)
            (EWrap ErrInvalidInput "previous failures cannot be negative" []);;
  let reason := if empty_str reason then "guardrail status is unknown" else reason in
  mret (MkEvaluation (g_Name rule) (g_Query rule) StatusUnknown f_zero (g_Threshold rule)
          (g_Operator rule) previousFailures (requiredFailures rule) reason observedAt).

(** [src/internal/guardrail/evaluator.go:9-46] Evaluate *)
Definition Evaluate (rule : Rule) (value : float64) (previousFailures : Z) (observedAt : Time)
    : res Evaluation :=
  Rule_Validate rule;;
  guard_err (previousFailures <? 0)
            (EWrap ErrInvalidInput "previous failures cannot be negative" []);;
  if f_IsNaN value || f_IsInf value
  then Unknown rule previousFailures "guardrail sample is not finite" observedAt
  else
    let passed := Compare value (g_Operator rule) (g_Threshold rule) in
    let required := requiredFailures rule in
    let result status failures reason :=
      MkEvaluation (g_Name rule) (g_Query rule) status value (g_Threshold rule)
        (g_Operator rule) failures required reason observedAt in
    if passed then mret (result StatusHealthy 0 "")
    else
      let failures := int64_wrap (previousFailures + 1) in
      if required <=? failures
      then mret (result StatusUnhealthy failures "guardrail threshold violated")
      else mret (result StatusHealthy failures
                   "guardrail threshold violated below consecutive failure threshold").

(** [src/internal/guardrail/evaluator.go:72-77] EvaluateQueryResult *)
Definition EvaluateQueryResult (rule : Rule) (query : res float64) (previousFailures : Z)
    (observedAt : Time) : res Evaluation :=
  match query with
  | Err queryErr => Unknown rule previousFailures (Error queryErr) observedAt
  | Ok value => Evaluate rule value previousFailures observedAt
  end.

(** [src/internal/guardrail/evaluator.go:98-109] AggregateStatus *)
Fixpoint AggregateStatus_loop (evaluations : list Evaluation) (status : Status) : Status :=
  match evaluations with
  | [] => status
  | evaluation :: rest =>
      if decide (e_Status evaluation = StatusUnhealthy) then StatusUnhealthy
      else if decide (e_Status evaluation = StatusUnknown)
           then AggregateStatus_loop rest StatusUnknown
           else AggregateStatus_loop rest status
  end.

(** [src/internal/guardrail/evaluator.go:98-109] AggregateStatus *)
Definition AggregateStatus (evaluations : list Evaluation) : Status :=
  AggregateStatus_loop evaluations StatusHealthy.

End Guardrail.

Import Guardrail.

Lemma loop_unhealthy es : ∀ st, st ≠ StatusUnhealthy →
  AggregateStatus_loop es st = StatusUnhealthy ↔ Exists (λ e, e_Status e = StatusUnhealthy) es.
Proof.
  induction es as [|e es IH]; intros st Hst; simpl.
  { split; [done|]. intros H; inversion H. }
  rewrite Exists_cons. case_decide; [tauto|]. case_decide; rewrite IH by done; tauto.
Qed.

Lemma loop_healthy es : ∀ st,
  AggregateStatus_loop es st = StatusHealthy ↔
  st = StatusHealthy ∧ Forall (λ e, e_Status e = StatusHealthy) es.
Proof.
  induction es as [|e es IH]; intros st; simpl.
  { split; [by intros ->|tauto]. }
  rewrite Forall_cons. destruct (e_Status e) eqn:Hs; simpl; rewrite ?IH; intuition congruence.
Qed.

Lemma AggregateStatus_unhealthy es :
  AggregateStatus es = StatusUnhealthy ↔ ∃ e, e ∈ es ∧ e_Status e = StatusUnhealthy.
Proof. unfold AggregateStatus. by rewrite loop_unhealthy, Exists_exists. Qed.

Lemma AggregateStatus_healthy es :
  AggregateStatus es = StatusHealthy ↔ Forall (λ e, e_Status e = StatusHealthy) es.
Proof. unfold AggregateStatus. rewrite loop_healthy. tauto. Qed.

(** * One evaluation *)

Lemma Unknown_status rule failures reason at_ ev :
  Unknown rule failures reason at_ = Ok ev →
  e_Status ev = StatusUnknown ∧ e_ConsecutiveFailures ev = failures.
Proof.
  unfold Unknown. intros (? & _ & (? & _ & [= <-])%res_bind_ok)%res_bind_ok. done.
Qed.

Lemma Evaluate_status rule v failures at_ ev :
  Evaluate rule v failures at_ = Ok ev →
  (e_Status ev = StatusUnknown ∧ e_ConsecutiveFailures ev = failures) ∨
  f_IsNaN v = false ∧ f_IsInf v = false ∧
  if Compare v (g_Operator rule) (g_Threshold rule)
  then e_Status ev = StatusHealthy ∧ e_ConsecutiveFailures ev = 0
  else e_ConsecutiveFailures ev = int64_wrap (failures + 1) ∧ e_Status ev ≠ StatusUnknown ∧
       (e_Status ev = StatusUnhealthy ↔ requiredFailures rule ≤ int64_wrap (failures + 1)).
Proof.
  unfold Evaluate. intros (? & _ & (? & _ & Hev)%res_bind_ok)%res_bind_ok.
  destruct (f_IsNaN v || f_IsInf v) eqn:Hf; [left; by eapply Unknown_status|right].
  apply orb_false_iff in Hf as [Hn Hi]. do 2 (split; [done|]).
  destruct (Compare _ _ _); [by injection Hev as <-|].
  destruct (Z.leb_spec (requiredFailures rule) (int64_wrap (failures + 1)));
    injection Hev as <-; (split_and!; [done|done|]); (split; [done|cbn [e_Status]; intros ?; try done; lia]).
Qed.
