(* ===== verification/Prometheus.v ===== *)
(** [internal/guardrail/prometheus.go]: the client that evaluates a guardrail's
    query.  [url.Parse], [context.WithTimeout], [strconv.ParseFloat] and the
    JSON decoder are arguments; the network is [http_Do]. *)

From Stdlib Require Import ZArith Lia Ascii.
From S2P Require Import Prelude GoLib Http Url Guardrail.
Import Url Guardrail.
Open Scope string_scope.
Open Scope list_scope.
Open Scope Z_scope.

Module Prometheus.

(** A [url.URL]: the fields the client reads or sets, and the others. *)
Record URL := MkURL {
  u_Scheme : string;
  u_Host : string;
  u_Path : string;
  u_RawQuery : string;
  u_others : list string }.

(** [url.Parse] and [u.String()]. *)
Class UrlParser := {
  url_Parse : string → res URL;
  url_String : URL → string }.

(** [strconv.ParseFloat(s, 64)]. *)
Class FloatParser := ParseFloat : string → res float64.

(** [context.WithTimeout]; cancelling the derived context has no effect on
    what the client returns. *)
Class Timeouts := WithTimeout : Context → Duration → Context.

(** The first bytes of a text: [io.LimitReader]. *)
Fixpoint limit_bytes (n : N) (s : string) : string :=
  match s with
  | EmptyString => EmptyString
  | String c s' => if (n =? 0)%N then EmptyString else String c (limit_bytes (N.pred n) s')
  end.

(** A nil pointer is [None]. *)
(** [src/internal/guardrail/prometheus.go:19-23] PrometheusClient *)
Record PrometheusClient := MkPrometheusClient {
  pc_baseURL : URL;
  pc_timeout : Duration }.

(** A [json.RawMessage] is its text. *)
Definition RawMessage := string.

(** [src/internal/guardrail/prometheus.go:101-108] prometheusResponse *)
Record prometheusResponse := MkPrometheusResponse {
  pr_Status : string;
  pr_Error : string;
  pr_ResultType : string;
  pr_Result : RawMessage }.

(** [src/internal/guardrail/prometheus.go:110-112] prometheusVectorResult *)
Record prometheusVectorResult := MkPrometheusVectorResult {
  pv_Value : list RawMessage }.

Section client.
Context `{UrlParser, FloatParser, Timeouts}.
Context `{Codec prometheusResponse, Codec (list RawMessage), Codec (list prometheusVectorResult),
  Codec string}.

(** [src/internal/guardrail/prometheus.go:25-46] NewPrometheusClient *)
Definition NewPrometheusClient (baseURL : string) (timeout : Duration) : res PrometheusClient :=
  guard_err (empty_str (TrimSpace baseURL))
            (EWrap ErrInvalidInput "prometheus base url is required" []);;
  match url_Parse baseURL with
  | Err err => mthrow (EWrap ErrInvalidInput "prometheus base url: %v" [Error err])
  | Ok parsed =>
      guard_err (empty_str (u_Scheme parsed) || empty_str (u_Host parsed))
                (EWrap ErrInvalidInput "prometheus base url must include scheme and host" []);;
      let timeout := if timeout <=? 0 then 2 * Second else timeout in
      mret (MkPrometheusClient parsed timeout)
  end.

(** [src/internal/guardrail/prometheus.go:139-153] parsePrometheusSample *)
Definition parsePrometheusSample (value : list RawMessage) : res float64 :=
  match value with
  | [_; sample] =>
      raw ← json_Unmarshal (T := string) sample;
      ParseFloat raw
  | _ => mthrow (EText "invalid prometheus sample" [])
  end.

(** [src/internal/guardrail/prometheus.go:114-137] parsePrometheusValue *)
Definition parsePrometheusValue (resultType : string) (raw : RawMessage) : res float64 :=
  if bool_decide (resultType = "scalar") then
    value ← json_Unmarshal (T := list RawMessage) raw;
    parsePrometheusSample value
  else if bool_decide (resultType = "vector") then
    values ← json_Unmarshal (T := list prometheusVectorResult) raw;
    match values with
    | [] => mthrow ErrNoData
    | [value] => parsePrometheusSample (pv_Value value)
    | _ => mthrow ErrMultipleSeries
    end
  else mthrow (EText "unsupported prometheus result type %q" [resultType]).

(** The URL of a query: the base URL with its path extended and two of its
    query values set. *)
(** [src/internal/guardrail/prometheus.go:59-66] PrometheusClient.Query *)
Definition query_endpoint (baseURL : URL) (query : string) (at_ : Time) : URL :=
  let values := Values_Set "query" query (ParseQuery (u_RawQuery baseURL)) in
  let values :=
    if time_IsZero at_ then values
    else Values_Set "time" (FormatFloat3 (f_div (f_of_int (UnixNano at_)) (f_of_int Second))) values in
  MkURL (u_Scheme baseURL) (u_Host baseURL) (TrimRight_slash (u_Path baseURL) +:+ "/api/v1/query")
        (Encode values) (u_others baseURL).

(** The answer, once it has arrived. *)
(** [src/internal/guardrail/prometheus.go:79-98] PrometheusClient.Query *)
Definition read_answer (resp : HttpResponse) : res float64 :=
  body ← hp_Body resp;
  let body := limit_bytes (2 ^ 20) body in
  guard_err (negb (hp_StatusCode resp =? StatusOK))
            (EText "prometheus query failed with status %d" [pretty (hp_StatusCode resp)]);;
  payload ← json_Unmarshal (T := prometheusResponse) body;
  if negb (bool_decide (pr_Status payload = "success")) then
    if negb (empty_str (pr_Error payload))
    then mthrow (EText "prometheus query failed: %s" [pr_Error payload])
    else mthrow (EText "prometheus query failed" [])
  else parsePrometheusValue (pr_ResultType payload) (pr_Result payload).

(** [src/internal/guardrail/prometheus.go:48-99] PrometheusClient.Query *)
Definition Query {W} `{HttpClient W} (c : option PrometheusClient) (ctx : Context)
    (query : string) (at_ : Time) : M W float64 :=
  match c with
  | None => mthrow (EWrap ErrInvalidInput "prometheus client is nil" [])
  | Some c =>
      guard_err (empty_str (TrimSpace query))
                (EWrap ErrInvalidInput "prometheus query is required" []);;
      let queryCtx := WithTimeout ctx (pc_timeout c) in
      resp ← http_Do queryCtx
        (MkHttpRequest "GET" (url_String (query_endpoint (pc_baseURL c) query at_)) ∅ "");
      lift (read_answer resp)
  end.

End client.
End Prometheus.
