(* ===== verification/PrometheusProps.v ===== *)
(** The properties of the Prometheus client, alone and behind the evaluation
    of a guardrail. *)

From Stdlib Require Import ZArith Lia Ascii SpecFloat.
From S2P Require Import Prelude GoLib Http Url Guardrail Prometheus.
Import Url Guardrail Prometheus.
Open Scope string_scope.
Open Scope list_scope.
Open Scope Z_scope.

Module PrometheusProps.

Section properties.
Context `{UrlParser, FloatParser, Timeouts}.
Context `{Codec prometheusResponse, Codec (list RawMessage), Codec (list prometheusVectorResult),
  Codec string}.

(** * What an answer says *)

(** A pair of an instant and the text of a number. *)
Definition sample_is (value : list RawMessage) (v : float64) : Prop :=
  ∃ instant sample raw, value = [instant; sample] ∧
    json_Unmarshal (T := string) sample = Ok raw ∧ ParseFloat raw = Ok v.

(** One sample: a scalar, or a vector of a single series. *)
Definition one_sample (payload : prometheusResponse) (v : float64) : Prop :=
  (pr_ResultType payload = "scalar" ∧ ∃ value,
     json_Unmarshal (T := list RawMessage) (pr_Result payload) = Ok value ∧ sample_is value v) ∨
  (pr_ResultType payload = "vector" ∧ ∃ series,
     json_Unmarshal (T := list prometheusVectorResult) (pr_Result payload) = Ok [series] ∧
     sample_is (pv_Value series) v).

Definition answers (resp : HttpResponse) (v : float64) : Prop :=
  ∃ body payload, hp_StatusCode resp = StatusOK ∧ hp_Body resp = Ok body ∧
    json_Unmarshal (T := prometheusResponse) (limit_bytes (2 ^ 20) body) = Ok payload ∧
    pr_Status payload = "success" ∧ one_sample payload v.

Lemma sample_parsed value v : parsePrometheusSample value = Ok v ↔ sample_is value v.
Proof.
  unfold sample_is. destruct value as [|instant [|sample [|? ?]]]; cbn [parsePrometheusSample].
  1,2,4: split; [done|by intros (? & ? & ? & ? & _)].
  rewrite res_bind_ok. split; [intros (raw & ? & ?); by exists instant, sample, raw|].
  intros (? & ? & raw & [= <- <-] & ? & ?). by exists raw.
Qed.

Lemma value_parsed payload v :
  parsePrometheusValue (pr_ResultType payload) (pr_Result payload) = Ok v ↔ one_sample payload v.
Proof.
  unfold parsePrometheusValue, one_sample. setoid_rewrite <-sample_parsed.
  case_bool_decide as Hs; [|case_bool_decide as Hv]; rewrite ?res_bind_ok.
  - split; [by left|]. intros [[_ ?]|[? _]]; [done|congruence].
  - split; [|intros [[? _]|(_ & series & -> & ?)]; [congruence|by exists [series]]].
    intros ([|series [|? ?]] & ? & ?); [done| |done]. right. by eauto.
  - split; [done|]. intros [[? _]|[? _]]; congruence.
Qed.

Lemma answer_read resp v : read_answer resp = Ok v ↔ answers resp v.
Proof.
  unfold read_answer, answers. rewrite res_bind_ok. setoid_rewrite res_guard_bind.
  setoid_rewrite <-value_parsed. split.
  - intros (body & Hb & Hr). destruct (Z.eqb_spec (hp_StatusCode resp) StatusOK); [|done].
    cbn [negb] in Hr. apply res_bind_ok in Hr as (payload & Hp & Hr).
    exists body, payload. case_bool_decide; [done|]. cbn [negb] in Hr. by case_match.
  - intros (body & payload & -> & Hb & Hp & Hs & Hv). exists body. split; [done|].
    cbn [negb Z.eqb StatusOK Pos.eqb]. apply res_bind_ok. exists payload. split; [done|].
    by rewrite bool_decide_true.
Qed.

Lemma endpoint_read_back baseURL query at_ :
  read_query (u_RawQuery (query_endpoint baseURL query at_)) =
  let values := <["query" := [query]]> (ParseQuery (u_RawQuery baseURL)) in
  if time_IsZero at_ then values
  else <["time" := [FormatFloat3 (f_div (f_of_int (UnixNano at_)) (f_of_int Second))]]> values.
Proof.
  cbn [query_endpoint u_RawQuery]. apply read_query_Encode.
  case_match; repeat (apply values_ok_insert; [|done]); apply ParseQuery_ok.
Qed.

Section requests.
Context {W : Type} `{HttpClient W}.
Abbreviation request c query at_ :=
  (MkHttpRequest "GET" (url_String (query_endpoint (pc_baseURL c) query at_)) ∅ "").

Lemma Query_sends c ctx query at_ (w : W) :
  empty_str (TrimSpace query) = false →
  Query (Some c) ctx query at_ w =
  match http_Do (WithTimeout ctx (pc_timeout c)) (request c query at_) w with
  | (Ok resp, w') => (read_answer resp, w')
  | (Err e, w') => (Err e, w')
  end.
Proof. intros Hq. unfold Query. rewrite Hq. reflexivity. Qed.

(** C31. A query that is not blank is sent in one request and arrives as it was
    written, whatever bytes it has, next to the parameters of the base URL;
    and the client returns a value exactly when the server answers 200 with a
    success of one sample that parses to it, within the first megabyte. *)
Theorem query_and_answer c ctx query at_ (w : W) :
  empty_str (TrimSpace query) = false →
  let sent := read_query (u_RawQuery (query_endpoint (pc_baseURL c) query at_)) in
  Values_at sent "query" = [query] ∧
  (∀ key, key ≠ "query" → key ≠ "time" →
     sent !! key = ParseQuery (u_RawQuery (pc_baseURL c)) !! key) ∧
  ∀ v w', Query (Some c) ctx query at_ w = (Ok v, w') ↔
    ∃ resp, http_Do (WithTimeout ctx (pc_timeout c)) (request c query at_) w = (Ok resp, w') ∧
            answers resp v.
Proof.
  intros Hq. cbv zeta. rewrite endpoint_read_back. cbv zeta. split_and!.
  - unfold Values_at. case_match; [|rewrite lookup_insert_ne by done]; by rewrite lookup_insert_eq.
  - intros key Hk Ht. case_match; by rewrite ?(lookup_insert_ne _ "time"), lookup_insert_ne by done.
  - intros v w'. rewrite Query_sends by done. destruct (http_Do _ _ w) as [[resp|e] w1].
    + setoid_rewrite <-answer_read. split; [intros [= Hr <-]; by exists resp|].
      intros (? & [= <- <-] & Hr). by f_equal.
    + split; [done|by intros (? & ? & _)].
Qed.

End requests.
End properties.

(** * The properties at a concrete server *)

Definition test_base : URL := MkURL "http" "prometheus:9090" "/" "dedup=true" [].
#[local] Instance test_urls : UrlParser := {|
  url_Parse _ := Ok test_base;
  url_String u := u_Scheme u +:+ "://" +:+ u_Host u +:+ u_Path u +:+ "?" +:+ u_RawQuery u |}.
#[local] Instance test_floats : FloatParser := λ s,
  if bool_decide (s = "0.25") then Ok (f_div (f_of_int 1) (f_of_int 4))
  else Err (EText "invalid syntax" []).
#[local] Instance test_timeouts : Timeouts := λ ctx _, ctx.
#[local] Instance test_responses : Codec prometheusResponse := {|
  json_Marshal _ := Ok ""; json_Unmarshal s := Ok (MkPrometheusResponse "success" "" "vector" s) |}.
#[local] Instance test_raws : Codec (list RawMessage) := {|
  json_Marshal _ := Ok ""; json_Unmarshal s := Ok ["0"; s] |}.
#[local] Instance test_vectors : Codec (list prometheusVectorResult) := {|
  json_Marshal _ := Ok ""; json_Unmarshal s := Ok [MkPrometheusVectorResult ["0"; s]] |}.
#[local] Instance test_strings : Codec string := {|
  json_Marshal s := Ok s; json_Unmarshal s := Ok s |}.
#[local] Instance test_network : HttpClient unit := λ _ _, mret (MkHttpResponse 200 "" (Ok "0.25")).

Definition test_client : PrometheusClient := MkPrometheusClient test_base (2 * Second).
Definition test_query : string := "100 * errors{path=~'/a;b&c'} % 7".

Example test_request :
  url_String (query_endpoint test_base "a b&c" 0) =
  "http://prometheus:9090/api/v1/query?dedup=true&query=a+b%26c".
Proof. vm_compute. reflexivity. Qed.

Lemma query_and_answer_witness :
  Values_at (read_query (u_RawQuery (query_endpoint test_base test_query 0))) "query" = [test_query] ∧
  ∃ resp, http_Do (WithTimeout Background (2 * Second))
            (MkHttpRequest "GET" (url_String (query_endpoint test_base test_query 0)) ∅ "") tt = (Ok resp, tt) ∧
          answers resp (f_div (f_of_int 1) (f_of_int 4)).
Proof.
  destruct (query_and_answer test_client Background test_query 0 tt eq_refl) as (Hq & _ & Ha).
  split; [exact Hq|]. apply Ha. vm_compute. reflexivity.
Defined.


End PrometheusProps.
