(* ===== verification/Registry.v ===== *)
(** [internal/configregistry]: tenants, configuration definitions, their
    versions and the stable version of each environment; the service over the
    [Store] interface, and the in-memory store that implements it. *)

From Stdlib Require Import ZArith Lia.
From S2P Require Import Prelude GoLib Host Domain.
Import Domain.
Open Scope string_scope.
Open Scope list_scope.
Open Scope Z_scope.

Module ConfigRegistry.

(** [src/internal/configregistry/errors.go:6-6] ErrAlreadyExists *)
Definition ErrAlreadyExists := ESentinel "configregistry.ErrAlreadyExists" "already exists".
(** [src/internal/configregistry/errors.go:7-7] ErrNotFound *)
Definition ErrNotFound := ESentinel "configregistry.ErrNotFound" "not found".
(** [src/internal/configregistry/errors.go:8-8] ErrInvalidInput *)
Definition ErrInvalidInput := ESentinel "configregistry.ErrInvalidInput" "invalid input".
(** [src/internal/configregistry/errors.go:9-9] ErrConflict *)
Definition ErrConflict := ESentinel "configregistry.ErrConflict" "conflict".

(** A fresh copy of the bytes; an empty slice becomes [nil], which has the
    same bytes. *)
(** [src/internal/configregistry/service.go:235-242] cloneRaw *)
Definition cloneRaw (value : RawMessage) : RawMessage :=
  if empty_str value then "" else value.

Definition clone_definition (d : ConfigDefinition) : ConfigDefinition :=
  MkConfigDefinition (d_ID d) (d_TenantID d) (d_Key d) (d_Description d)
    (cloneRaw (d_Schema d)) (cloneRaw (d_DefaultValue d)) (d_CreatedAt d) (d_UpdatedAt d).

Definition clone_version (v : ConfigVersion) : ConfigVersion :=
  MkConfigVersion (v_ID v) (v_ConfigDefinitionID v) (v_VersionNumber v)
    (cloneRaw (v_Value v)) (v_SourceCommitSHA v) (v_CreatedBy v) (v_CreatedAt v).

(** * schema.go: the JSON Schema library is a parameter *)

(** [github.com/santhosh-tekuri/jsonschema/v6] as the code calls it. *)
Class JSONSchemaLibrary := {
  js_document : Type;
  js_schema : Type;
  js_UnmarshalJSON : string → res js_document;
  js_AddResource : string → js_document → res unit;
  js_Compile : string → js_document → res js_schema;
  js_Validate : js_schema → js_document → res unit }.

(** [src/internal/configregistry/schema.go:10-13] SchemaValidator *)
Record SchemaValidator := MkSchemaValidator {
  ValidateSchema : RawMessage → res unit;
  ValidateValue : RawMessage → RawMessage → res unit }.

Section JSONSchemaValidator.
Context `{JSONSchemaLibrary}.

(** [src/internal/configregistry/schema.go:43-55] compileSchema *)
Definition compileSchema (schema : RawMessage) : res js_schema :=
  document ← js_UnmarshalJSON schema;
  js_AddResource "schema.json" document;;
  js_Compile "schema.json" document.

(** [src/internal/configregistry/schema.go:17-23] JSONSchemaValidator.ValidateSchema *)
Definition JSONSchemaValidator_ValidateSchema (schema : RawMessage) : res unit :=
  match compileSchema schema with
  | Err err => mthrow (EWrap ErrInvalidInput "schema validation failed: %v" [Error err])
  | Ok _ => mret tt
  end.

(** [src/internal/configregistry/schema.go:25-41] JSONSchemaValidator.ValidateValue *)
Definition JSONSchemaValidator_ValidateValue (schema value : RawMessage) : res unit :=
  match compileSchema schema with
  | Err err => mthrow (EWrap ErrInvalidInput "schema validation failed: %v" [Error err])
  | Ok compiled =>
      match js_UnmarshalJSON value with
      | Err err => mthrow (EWrap ErrInvalidInput "invalid config value json: %v" [Error err])
      | Ok document =>
          match js_Validate compiled document with
          | Err err =>
              mthrow (EWrap ErrInvalidInput "config value does not match schema: %v" [Error err])
          | Ok _ => mret tt
          end
      end
  end.

(** [src/internal/configregistry/schema.go:15-15] JSONSchemaValidator *)
Definition JSONSchemaValidator : SchemaValidator :=
  MkSchemaValidator JSONSchemaValidator_ValidateSchema JSONSchemaValidator_ValidateValue.

End JSONSchemaValidator.

(** * The store interface *)

(** [src/internal/configregistry/service.go:15-30] Store *)
Class Store (W : Type) := {
  CreateTenant : Context → Tenant → M W unit;
  ListTenants : Context → M W (list Tenant);
  GetTenant : Context → string → M W Tenant;
  CreateDefinition : Context → ConfigDefinition → M W unit;
  ListDefinitions : Context → string → M W (list ConfigDefinition);
  GetDefinitionByKey : Context → string → string → M W ConfigDefinition;
  CreateVersion : Context → ConfigVersion → M W ConfigVersion;
  ListVersions : Context → string → M W (list ConfigVersion);
  GetVersionByNumber : Context → string → Z → M W ConfigVersion;
  SaveEnvironmentState : Context → ConfigEnvironmentState → M W unit;
  GetEnvironmentState : Context → string → Environment → M W ConfigEnvironmentState }.

(** * The service *)

(** [src/internal/configregistry/service.go:48-53] CreateTenantInput *)
Record CreateTenantInput := MkCreateTenantInput {
  ct_ID : string; ct_Name : string; ct_Description : string; ct_Owner : string }.

(** [src/internal/configregistry/service.go:83-89] CreateDefinitionInput *)
Record CreateDefinitionInput := MkCreateDefinitionInput {
  cd_TenantID : string; cd_Key : string; cd_Description : string;
  cd_Schema : RawMessage; cd_DefaultValue : RawMessage }.

(** [src/internal/configregistry/service.go:137-143] CreateVersionInput *)
Record CreateVersionInput := MkCreateVersionInput {
  cv_TenantID : string; cv_Key : string; cv_Value : RawMessage;
  cv_SourceCommitSHA : string; cv_CreatedBy : string }.

(** [src/internal/configregistry/service.go:179-184] SetStableVersionInput *)
Record SetStableVersionInput := MkSetStableVersionInput {
  ss_TenantID : string; ss_Key : string; ss_Environment : Environment; ss_VersionNumber : Z }.

Module Service.
Section Service.
Context {W : Type} `{Env W, Store W} (validator : SchemaValidator).

(** [src/internal/configregistry/service.go:244-250] randomID *)
Definition randomID (prefix : string) : M W string := random_id prefix.

(** [src/internal/configregistry/service.go:55-73] Service.CreateTenant *)
Definition CreateTenant (ctx : Context) (input : CreateTenantInput) : M W Tenant :=
  now ← now;
  let tenant := MkTenant (ct_ID input) (ct_Name input) (ct_Description input) (ct_Owner input)
                  now now in
  match Tenant_Validate tenant with
  | Err err => mthrow (EWrapV ErrInvalidInput err)
  | Ok _ =>
      ConfigRegistry.CreateTenant ctx tenant;;
      mret tenant
  end.

(** [src/internal/configregistry/service.go:75-77] Service.ListTenants *)
Definition ListTenants (ctx : Context) : M W (list Tenant) := ConfigRegistry.ListTenants ctx.

(** [src/internal/configregistry/service.go:79-81] Service.GetTenant *)
Definition GetTenant (ctx : Context) (tenantID : string) : M W Tenant :=
  ConfigRegistry.GetTenant ctx tenantID.

(** [src/internal/configregistry/service.go:91-124] Service.CreateDefinition *)
Definition CreateDefinition (ctx : Context) (input : CreateDefinitionInput)
    : M W ConfigDefinition :=
  ConfigRegistry.GetTenant ctx (cd_TenantID input);;
  lift (ValidateSchema validator (cd_Schema input));;
  (if negb (empty_str (cd_DefaultValue input))
   then lift (ValidateValue validator (cd_Schema input) (cd_DefaultValue input))
   else mret tt);;
  now ← now;
  id ← randomID "cfg";
  let definition :=
    MkConfigDefinition id (cd_TenantID input) (cd_Key input) (cd_Description input)
      (cloneRaw (cd_Schema input)) (cloneRaw (cd_DefaultValue input)) now now in
  match ConfigDefinition_Validate definition with
  | Err err => mthrow (EWrapV ErrInvalidInput err)
  | Ok _ =>
      ConfigRegistry.CreateDefinition ctx definition;;
      mret definition
  end.

(** [src/internal/configregistry/service.go:126-131] Service.ListDefinitions *)
Definition ListDefinitions (ctx : Context) (tenantID : string) : M W (list ConfigDefinition) :=
  ConfigRegistry.GetTenant ctx tenantID;;
  ConfigRegistry.ListDefinitions ctx tenantID.

(** [src/internal/configregistry/service.go:133-135] Service.GetDefinition *)
Definition GetDefinition (ctx : Context) (tenantID key : string) : M W ConfigDefinition :=
  GetDefinitionByKey ctx tenantID key.

(** [src/internal/configregistry/service.go:145-169] Service.CreateVersion *)
Definition CreateVersion (ctx : Context) (input : CreateVersionInput) : M W ConfigVersion :=
  definition ← GetDefinitionByKey ctx (cv_TenantID input) (cv_Key input);
  lift (ValidateValue validator (d_Schema definition) (cv_Value input));;
  id ← randomID "ver";
  now ← now;
  let version := MkConfigVersion id (d_ID definition) 0 (cloneRaw (cv_Value input))
                   (cv_SourceCommitSHA input) (cv_CreatedBy input) now in
  ConfigRegistry.CreateVersion ctx version.

(** [src/internal/configregistry/service.go:171-177] Service.ListVersions *)
Definition ListVersions (ctx : Context) (tenantID key : string) : M W (list ConfigVersion) :=
  definition ← GetDefinitionByKey ctx tenantID key;
  ConfigRegistry.ListVersions ctx (d_ID definition).

(** [src/internal/configregistry/service.go:186-225] Service.SetStableVersion *)
Definition SetStableVersion (ctx : Context) (input : SetStableVersionInput)
    : M W ConfigEnvironmentState :=
  match Environment_Validate (ss_Environment input) with
  | Err err => mthrow (EWrapV ErrInvalidInput err)
  | Ok _ =>
      definition ← GetDefinitionByKey ctx (ss_TenantID input) (ss_Key input);
      version ← GetVersionByNumber ctx (d_ID definition) (ss_VersionNumber input);
      found ← try (ConfigRegistry.GetEnvironmentState ctx (d_ID definition)
                     (ss_Environment input));
      state ← (match found with
               | Ok state => mret state
               | Err err =>
                   guard_err (negb (errors_Is err ErrNotFound)) err;;
                   mret (MkConfigEnvironmentState (d_ID definition) (ss_Environment input)
                           "" "" 0)
               end);
      match WithStableVersion state (v_ID version) with
      | Err err => mthrow (EWrapV ErrConflict err)
      | Ok next =>
          now ← now;
          let next := MkConfigEnvironmentState (es_ConfigDefinitionID next)
                        (es_Environment next) (es_StableVersionID next)
                        (es_ActiveRolloutID next) now in
          match ConfigEnvironmentState_Validate next with
          | Err err => mthrow (EWrapV ErrInvalidInput err)
          | Ok _ =>
              SaveEnvironmentState ctx next;;
              mret next
          end
      end
  end.

(** [src/internal/configregistry/service.go:227-233] Service.GetEnvironmentState *)
Definition GetEnvironmentState (ctx : Context) (tenantID key : string)
    (environment : Environment) : M W ConfigEnvironmentState :=
  definition ← GetDefinitionByKey ctx tenantID key;
  ConfigRegistry.GetEnvironmentState ctx (d_ID definition) environment.

End Service.
End Service.
(** Copies have the contents of their source. *)
Lemma cloneRaw_id v : cloneRaw v = v.
Proof. unfold cloneRaw. destruct (empty_str v) eqn:E; [|done]. by apply empty_str_true in E. Qed.

Lemma clone_definition_id d : clone_definition d = d.
Proof. destruct d. unfold clone_definition; simpl. by rewrite !cloneRaw_id. Qed.

Lemma clone_version_id v : clone_version v = v.
Proof. destruct v. unfold clone_version; simpl. by rewrite cloneRaw_id. Qed.

Lemma clone_versions_id (l : list ConfigVersion) : clone_version <$> l = l.
Proof. induction l as [|v l IH]; [done|]. by rewrite fmap_cons, clone_version_id, IH. Qed.

End ConfigRegistry.
