(* ===== verification/RegistrySpec.v ===== *)
(** What the registry promises: an abstract registry, the laws a [Store] obeys
    with respect to it, and the invariants the registry service maintains over
    any store that obeys them. *)

From Stdlib Require Import ZArith Lia.
From S2P Require Import Prelude GoLib Host Domain Registry.
Import Domain ConfigRegistry.
Open Scope string_scope.
Open Scope list_scope.
Open Scope Z_scope.

Module RegistrySpec.

(** * The abstract registry *)

Record RegView := MkRegView {
  rv_tenants : gmap string Tenant;
  rv_definitions : gmap string ConfigDefinition;
  rv_versions : string → list ConfigVersion;
  rv_state : string → Environment → option ConfigEnvironmentState }.

(** Views agree where definition identifiers carry no zero byte. *)
Definition same_states (v v' : RegView) : Prop :=
  ∀ id env, no_nul id → rv_state v' id env = rv_state v id env.
Definition same_versions (v v' : RegView) : Prop :=
  ∀ id, rv_versions v' id = rv_versions v id.

Definition put_tenant (t : Tenant) (v v' : RegView) : Prop :=
  rv_tenants v' = <[t_ID t := t]> (rv_tenants v) ∧ rv_definitions v' = rv_definitions v ∧
  same_versions v v' ∧ same_states v v'.

Definition put_definition (d : ConfigDefinition) (v v' : RegView) : Prop :=
  rv_tenants v' = rv_tenants v ∧ rv_definitions v' = <[d_ID d := d]> (rv_definitions v) ∧
  same_versions v v' ∧ same_states v v'.

Definition add_version (ver : ConfigVersion) (v v' : RegView) : Prop :=
  rv_tenants v' = rv_tenants v ∧ rv_definitions v' = rv_definitions v ∧
  (∀ id, rv_versions v' id =
         if decide (id = v_ConfigDefinitionID ver) then rv_versions v id ++ [ver]
         else rv_versions v id) ∧
  same_states v v'.

Definition put_state (st : ConfigEnvironmentState) (v v' : RegView) : Prop :=
  rv_tenants v' = rv_tenants v ∧ rv_definitions v' = rv_definitions v ∧
  same_versions v v' ∧
  ∀ id env, no_nul id →
    rv_state v' id env =
    if decide (id = es_ConfigDefinitionID st ∧ env = es_Environment st) then Some st
    else rv_state v id env.

(** The definition of a tenant's key. *)
Definition defines (v : RegView) (tenantID key : string) (d : ConfigDefinition) : Prop :=
  rv_definitions v !! d_ID d = Some d ∧ d_TenantID d = tenantID ∧ d_Key d = key.

(** Well-formedness, whatever the schemas: keys are unique within a tenant,
    versions are numbered 1, 2, 3, ... and a stable version is one of the
    versions of its definition. *)
Record reg_ok (v : RegView) : Prop := {
  ok_definition : ∀ id d, rv_definitions v !! id = Some d →
    d_ID d = id ∧ no_nul id ∧ is_Some (rv_tenants v !! d_TenantID d);
  ok_unique_key : ∀ id d id' d', rv_definitions v !! id = Some d →
    rv_definitions v !! id' = Some d' →
    d_TenantID d = d_TenantID d' → d_Key d = d_Key d' → id = id';
  ok_version : ∀ id i ver, rv_versions v id !! i = Some ver →
    v_ConfigDefinitionID ver = id ∧ v_VersionNumber ver = Z.of_nat i + 1 ∧
    is_Some (rv_definitions v !! id);
  ok_stable : ∀ id env st, no_nul id → rv_state v id env = Some st →
    es_ConfigDefinitionID st = id ∧ es_Environment st = env ∧
    ∃ ver, ver ∈ rv_versions v id ∧ v_ID ver = es_StableVersionID st }.

(** Every schema is accepted and every stored value matches its schema. *)
Record reg_valid (validator : SchemaValidator) (v : RegView) : Prop := {
  valid_schema : ∀ id d, rv_definitions v !! id = Some d →
    is_ok (ValidateSchema validator (d_Schema d)) = true ∧
    (d_DefaultValue d ≠ "" →
     is_ok (ValidateValue validator (d_Schema d) (d_DefaultValue d)) = true);
  valid_version : ∀ id d ver, rv_definitions v !! id = Some d → ver ∈ rv_versions v id →
    is_ok (ValidateValue validator (d_Schema d) (v_Value ver)) = true }.

(** * The laws of a store

    [failure ctx e]: the error of a store that could not do its work, because
    the request was interrupted or the storage failed. *)

Class StoreLaws (W : Type) `{Store W} (failure : Context → error → Prop)
    (reg_inv : W → Prop) (reg_view : W → RegView) := {
  law_failure : ∀ ctx e, failure ctx e → errors_Is e ErrNotFound = false;
  law_CreateTenant : ∀ ctx t w, reg_inv w → no_nul (t_ID t) →
    wp (CreateTenant ctx t) (λ r w', reg_inv w' ∧
      match r with
      | Ok _ => rv_tenants (reg_view w) !! t_ID t = None ∧
                put_tenant t (reg_view w) (reg_view w')
      | Err e => reg_view w' = reg_view w ∧
                 (failure ctx e ∨
                  errors_Is e ErrAlreadyExists = true ∧
                  is_Some (rv_tenants (reg_view w) !! t_ID t))
      end) w;
  law_GetTenant : ∀ ctx id w, reg_inv w →
    wp (GetTenant ctx id) (λ r w', reg_inv w' ∧ reg_view w' = reg_view w ∧
      match r with
      | Ok t => rv_tenants (reg_view w) !! id = Some t
      | Err e => failure ctx e ∨
                 errors_Is e ErrNotFound = true ∧ rv_tenants (reg_view w) !! id = None
      end) w;
  law_CreateDefinition : ∀ ctx d w, reg_inv w → no_nul (d_ID d) →
    wp (CreateDefinition ctx d) (λ r w', reg_inv w' ∧
      match r with
      | Ok _ => rv_definitions (reg_view w) !! d_ID d = None ∧
                is_Some (rv_tenants (reg_view w) !! d_TenantID d) ∧
                (∀ d', ¬ defines (reg_view w) (d_TenantID d) (d_Key d) d') ∧
                put_definition d (reg_view w) (reg_view w')
      | Err _ => reg_view w' = reg_view w
      end) w;
  law_GetDefinitionByKey : ∀ ctx tenantID key w, reg_inv w → no_nul tenantID →
    wp (GetDefinitionByKey ctx tenantID key) (λ r w', reg_inv w' ∧
      reg_view w' = reg_view w ∧
      match r with
      | Ok d => defines (reg_view w) tenantID key d
      | Err e => failure ctx e ∨
                 errors_Is e ErrNotFound = true ∧
                 ∀ d, ¬ defines (reg_view w) tenantID key d
      end) w;
  law_CreateVersion : ∀ ctx ver w, reg_inv w →
    wp (CreateVersion ctx ver) (λ r w', reg_inv w' ∧
      match r with
      | Ok ver' =>
          let n := Z.of_nat (length (rv_versions (reg_view w) (v_ConfigDefinitionID ver))) + 1 in
          ver' = MkConfigVersion (v_ID ver) (v_ConfigDefinitionID ver) n (v_Value ver)
                   (v_SourceCommitSHA ver) (v_CreatedBy ver) (v_CreatedAt ver) ∧
          is_Some (rv_definitions (reg_view w) !! v_ConfigDefinitionID ver) ∧
          add_version ver' (reg_view w) (reg_view w')
      | Err _ => reg_view w' = reg_view w
      end) w;
  law_ListVersions : ∀ ctx id w, reg_inv w →
    wp (ListVersions ctx id) (λ r w', reg_inv w' ∧ reg_view w' = reg_view w ∧
      match r with
      | Ok l => l = rv_versions (reg_view w) id
      | Err e => failure ctx e ∨
                 errors_Is e ErrNotFound = true ∧ rv_definitions (reg_view w) !! id = None
      end) w;
  law_GetVersionByNumber : ∀ ctx id n w, reg_inv w →
    wp (GetVersionByNumber ctx id n) (λ r w', reg_inv w' ∧
      reg_view w' = reg_view w ∧
      match r with
      | Ok ver => 1 ≤ n ∧ rv_versions (reg_view w) id !! Z.to_nat (n - 1) = Some ver
      | Err e => failure ctx e ∨
                 errors_Is e ErrNotFound = true ∧
                 (1 ≤ n → rv_versions (reg_view w) id !! Z.to_nat (n - 1) = None)
      end) w;
  law_SaveEnvironmentState : ∀ ctx st w, reg_inv w → no_nul (es_ConfigDefinitionID st) →
    wp (SaveEnvironmentState ctx st) (λ r w', reg_inv w' ∧
      match r with
      | Ok _ => put_state st (reg_view w) (reg_view w')
      | Err e => reg_view w' = reg_view w ∧ failure ctx e
      end) w;
  law_GetEnvironmentState : ∀ ctx id env w, reg_inv w → no_nul id →
    wp (GetEnvironmentState ctx id env) (λ r w', reg_inv w' ∧
      reg_view w' = reg_view w ∧
      match r with
      | Ok st => rv_state (reg_view w) id env = Some st
      | Err e => failure ctx e ∨
                 errors_Is e ErrNotFound = true ∧ rv_state (reg_view w) id env = None
      end) w }.

(** * The invariants are kept by the writes *)

Lemma reg_valid_same validator v v' :
  rv_definitions v' = rv_definitions v → same_versions v v' →
  reg_valid validator v → reg_valid validator v'.
Proof.
  intros Hd Hv [H1 H2]. split.
  - intros id d. rewrite Hd. apply H1.
  - intros id d ver. rewrite Hd, Hv. apply H2.
Qed.

Lemma reg_ok_put_tenant t v v' : put_tenant t v v' → reg_ok v → reg_ok v'.
Proof.
  intros (Ht & Hd & Hv & Hs) [H1 H2 H3 H4]. split.
  - intros id d. rewrite Hd, Ht. intros Hl. destruct (H1 _ _ Hl) as (? & ? & ?).
    split_and!; try done. by apply lookup_insert_is_Some'; right.
  - intros id d id' d'. rewrite Hd. apply H2.
  - intros id i ver. rewrite Hv, Hd. apply H3.
  - intros id env st Hn. rewrite Hs, Hv by done. by apply H4.
Qed.

Lemma reg_ok_put_definition d v v' :
  put_definition d v v' →
  rv_definitions v !! d_ID d = None → is_Some (rv_tenants v !! d_TenantID d) →
  (∀ d', ¬ defines v (d_TenantID d) (d_Key d) d') → no_nul (d_ID d) →
  reg_ok v → reg_ok v'.
Proof.
  intros (Ht & Hd & Hv & Hs) Hnew Hten Huniq Hnn [H1 H2 H3 H4]. split.
  - intros id d0. rewrite Hd, Ht. intros [[<- <-]|[_ Hl]]%lookup_insert_Some; eauto.
  - intros id d1 id' d2. rewrite Hd.
    intros [[<- <-]|[_ L1]]%lookup_insert_Some [[<- <-]|[_ L2]]%lookup_insert_Some Eten Ekey.
    + done.
    + destruct (H1 _ _ L2) as (<- & _). exfalso. by eapply (Huniq d2).
    + destruct (H1 _ _ L1) as (<- & _). exfalso. by eapply (Huniq d1).
    + by eapply H2.
  - intros id i ver. rewrite Hv, Hd. intros Hl. destruct (H3 _ _ _ Hl) as (? & ? & ?).
    split_and!; try done. by apply lookup_insert_is_Some'; right.
  - intros id env st Hn. rewrite Hs, Hv by done. by apply H4.
Qed.

Lemma reg_valid_put_definition validator d v v' :
  put_definition d v v' → reg_ok v → rv_definitions v !! d_ID d = None →
  is_ok (ValidateSchema validator (d_Schema d)) = true →
  (d_DefaultValue d ≠ "" → is_ok (ValidateValue validator (d_Schema d) (d_DefaultValue d)) = true) →
  reg_valid validator v → reg_valid validator v'.
Proof.
  intros (Ht & Hd & Hv & Hs) Hok Hnew Hsch Hdef [H1 H2]. split.
  - intros id d0. rewrite Hd. intros [[<- <-]|[_ Hl]]%lookup_insert_Some; eauto.
  - intros id d0 ver. rewrite Hd, Hv. intros [[<- <-]|[_ Hl]]%lookup_insert_Some Hver; [|eauto].
    apply list_elem_of_lookup in Hver as [i Hi].
    destruct (ok_version _ Hok _ _ _ Hi) as (_ & _ & ? & ?). congruence.
Qed.

Lemma reg_ok_add_version ver v v' :
  add_version ver v v' → is_Some (rv_definitions v !! v_ConfigDefinitionID ver) →
  v_VersionNumber ver = Z.of_nat (length (rv_versions v (v_ConfigDefinitionID ver))) + 1 →
  reg_ok v → reg_ok v'.
Proof.
  intros (Ht & Hd & Hv & Hs) Hdef Hnum [H1 H2 H3 H4]. split.
  - intros id d. rewrite Hd, Ht. apply H1.
  - intros id d id' d'. rewrite Hd. apply H2.
  - intros id i ver'. rewrite Hv, Hd. case_decide as Hid; [|apply H3].
    intros [Hl|[Hge Hl]]%lookup_app_Some; [by apply H3|].
    apply list_lookup_singleton_Some in Hl as [Hi <-].
    split_and!; [done| |by rewrite Hid]. rewrite Hnum, <-Hid. lia.
  - intros id env st Hn. rewrite Hs by done. intros Hl.
    destruct (H4 _ _ _ Hn Hl) as (? & ? & ver' & Hin & ?). split_and!; try done.
    exists ver'. rewrite Hv. case_decide; [|done]. split; [|done]. apply elem_of_app. by left.
Qed.

Lemma reg_valid_add_version validator ver v v' d :
  add_version ver v v' → rv_definitions v !! v_ConfigDefinitionID ver = Some d →
  is_ok (ValidateValue validator (d_Schema d) (v_Value ver)) = true →
  reg_valid validator v → reg_valid validator v'.
Proof.
  intros (Ht & Hd & Hv & Hs) Hdef Hval [H1 H2]. split.
  - intros id d0. rewrite Hd. apply H1.
  - intros id d0 ver'. rewrite Hd, Hv. intros Hl. case_decide as Hid; [|by apply H2].
    rewrite elem_of_app, list_elem_of_singleton. intros [Hin| ->]; [by eapply H2|].
    subst id. by simplify_eq.
Qed.

Lemma reg_ok_put_state st v v' ver :
  put_state st v v' →
  ver ∈ rv_versions v (es_ConfigDefinitionID st) → v_ID ver = es_StableVersionID st →
  reg_ok v → reg_ok v'.
Proof.
  intros (Ht & Hd & Hv & Hs) Hver Hid [H1 H2 H3 H4]. split.
  - intros id d. rewrite Hd, Ht. apply H1.
  - intros id d id' d'. rewrite Hd. apply H2.
  - intros id i ver'. rewrite Hv, Hd. apply H3.
  - intros id env st' Hn. rewrite Hs, Hv by done. case_decide as Heq.
    + destruct Heq as [-> ->]. intros [= <-]. split_and!; [done..|]. by exists ver.
    + by apply H4.
Qed.

(** * The service over a lawful store *)

Section Service.
Context {W : Type} `{Env W, !Store W} (failure : Context → error → Prop)
  (reg_inv : W → Prop) (reg_view : W → RegView) `{!StoreLaws W failure reg_inv reg_view}.
Context (frame : ∀ v, HostFrame (λ w, reg_inv w ∧ reg_view w = v)).
Context (validator : SchemaValidator).

(** The registry's invariant: the store's own, and that what it holds is well
    formed and valid. *)
Record registry_inv (w : W) : Prop := {
  ri_store : reg_inv w;
  ri_ok : reg_ok (reg_view w);
  ri_valid : reg_valid validator (reg_view w) }.

Lemma registry_inv_same w w' :
  reg_inv w' → reg_view w' = reg_view w → registry_inv w → registry_inv w'.
Proof. intros Hi Hv [_ Hok Hval]. by split; rewrite ?Hv. Qed.

(** A call that reads the store. *)
Lemma wp_read {A} (m : M W A) (post : res A → Prop) (Q : res A → W → Prop) w :
  registry_inv w →
  wp m (λ r w', reg_inv w' ∧ reg_view w' = reg_view w ∧ post r) w →
  (∀ r w', post r → reg_view w' = reg_view w → registry_inv w' → Q r w') → wp m Q w.
Proof.
  intros Hinv Hm HQ. eapply wp_mono; [exact Hm|]. intros r w' (Hi & Hs & Hp).
  apply HQ; [done..|]. by eapply registry_inv_same.
Qed.

(** Readings of the clock and of the random source change nothing. *)
Lemma wp_registry_clock (Q : res Time → W → Prop) w :
  registry_inv w →
  (∀ t w', reg_view w' = reg_view w → registry_inv w' → Q (Ok t) w') → wp now Q w.
Proof.
  intros Hinv HQ. eapply (wp_now _ (HostFrame0 := frame (reg_view w))).
  - split; [apply Hinv|done].
  - intros t w' [Hi Hv]. apply HQ; [done|]. by eapply registry_inv_same.
Qed.

Lemma wp_registry_id prefix (Q : res string → W → Prop) w :
  registry_inv w → no_nul prefix → ascii_text prefix = true →
  (∀ id w', no_nul id → utf8_valid id = true → reg_view w' = reg_view w → registry_inv w' → Q (Ok id) w') →
  wp (random_id prefix) Q w.
Proof.
  intros Hinv Hp Ha HQ. eapply (wp_random_id _ (HostFrame0 := frame (reg_view w))).
  - split; [apply Hinv|done].
  - intros t w' [Hi Hv].
    apply HQ; [by apply random_id_no_nul|by apply random_id_utf8|done|]. by eapply registry_inv_same.
Qed.

Lemma GetDefinition_spec ctx tenantID key w :
  registry_inv w → no_nul tenantID →
  wp (Service.GetDefinition ctx tenantID key) (λ r w', registry_inv w' ∧
    reg_view w' = reg_view w ∧
    match r with
    | Ok d => defines (reg_view w) tenantID key d
    | Err e => failure ctx e ∨
               errors_Is e ErrNotFound = true ∧ ∀ d, ¬ defines (reg_view w) tenantID key d
    end) w.
Proof.
  intros Hinv Hn. eapply wp_read; [done|by apply law_GetDefinitionByKey; [apply Hinv|]|].
  intros r w' Hr Hs Hi. split_and!; [done..|exact Hr].
Qed.

Lemma CreateTenant_spec ctx input w :
  registry_inv w → no_nul (ct_ID input) →
  wp (Service.CreateTenant ctx input) (λ r w', registry_inv w' ∧
    match r with
    | Ok t => t_ID t = ct_ID input ∧ rv_tenants (reg_view w) !! t_ID t = None ∧
              put_tenant t (reg_view w) (reg_view w')
    | Err _ => reg_view w' = reg_view w
    end) w.
Proof.
  intros Hinv Hn. unfold Service.CreateTenant. wp_step. apply wp_registry_clock; [done|].
  intros t w1 Hs1 Hi1. cbv zeta. wp_step; [|wp_run; by split_and!].
  wp_step. wp_call law_CreateTenant; [apply Hi1|done|].
  rewrite Hs1. intros [[]|e] w2; simpl.
  - intros (Hi2 & Hnew & Hput). apply wp_ret. split; [|done].
    split; [done|by eapply reg_ok_put_tenant; [|apply Hinv]|].
    destruct Hput as (_ & Hd & Hv & _). by eapply reg_valid_same; [..|apply Hinv].
  - intros (Hi2 & Hv2 & _). split; [by eapply registry_inv_same|done].
Qed.

(** The default value is validated only when there is one. *)
Lemma wp_default_value schema value (Q : res unit → W → Prop) w :
  ((value ≠ "" → is_ok (ValidateValue validator schema value) = true) → Q (Ok tt) w) →
  (∀ e, Q (Err e) w) →
  wp (if negb (empty_str value) then lift (ValidateValue validator schema value)
      else mret tt) Q w.
Proof.
  intros HQ HE. destruct (empty_str value) eqn:Hemp; simpl.
  - apply wp_ret, HQ. by apply empty_str_true in Hemp.
  - apply wp_lift. destruct (ValidateValue _ _ _) as [[]|e]; [|done]. by apply HQ.
Qed.

Lemma CreateDefinition_spec ctx input w :
  registry_inv w →
  wp (Service.CreateDefinition validator ctx input) (λ r w', registry_inv w' ∧
    match r with
    | Ok d => d_TenantID d = cd_TenantID input ∧ d_Key d = cd_Key input ∧
              d_Schema d = cd_Schema input ∧ d_DefaultValue d = cd_DefaultValue input ∧
              rv_definitions (reg_view w) !! d_ID d = None ∧
              (∀ d', ¬ defines (reg_view w) (cd_TenantID input) (cd_Key input) d') ∧
              put_definition d (reg_view w) (reg_view w')
    | Err _ => reg_view w' = reg_view w
    end) w.
Proof.
  intros Hinv. unfold Service.CreateDefinition.
  wp_step. eapply wp_read; [done|apply law_GetTenant, Hinv|]. intros [ten|e] w1 Hr Hv1 Hi1; [|done].
  wp_step. wp_step. destruct (ValidateSchema _ _) as [[]|e] eqn:Hsch; [|done].
  wp_step. apply wp_default_value; [|done]. intros Hdef.
  wp_step. apply wp_registry_clock; [done|]. intros t w2 Hv2 Hi2.
  wp_step. apply wp_registry_id; [done..|]. intros id w3 Hid _ Hv3 Hi3. cbv zeta. rewrite !cloneRaw_id.
  wp_step; [|wp_run; split; [done|congruence]].
  wp_step. wp_call law_CreateDefinition; [apply Hi3|done|].
  rewrite Hv3, Hv2, Hv1. intros [[]|e'] w4; cbn [d_ID d_TenantID d_Key].
  - intros (Hi4 & Hnew & Hten & Huniq & Hput). apply wp_ret. split; [|done].
    split; [done|by eapply reg_ok_put_definition; [exact Hput|..|apply Hinv]|].
    by eapply reg_valid_put_definition; [exact Hput|apply Hinv|done|simpl; by rewrite Hsch|done|apply Hinv].
  - intros (Hi4 & Hv4). split; [|done]. eapply registry_inv_same; [done| |apply Hinv]. congruence.
Qed.

Lemma CreateVersion_spec ctx input w :
  registry_inv w → no_nul (cv_TenantID input) →
  wp (Service.CreateVersion validator ctx input) (λ r w', registry_inv w' ∧
    match r with
    | Ok ver => ∃ d, defines (reg_view w) (cv_TenantID input) (cv_Key input) d ∧
        v_ConfigDefinitionID ver = d_ID d ∧ v_Value ver = cv_Value input ∧
        v_VersionNumber ver = Z.of_nat (length (rv_versions (reg_view w) (d_ID d))) + 1 ∧
        is_ok (ValidateValue validator (d_Schema d) (cv_Value input)) = true ∧
        utf8_valid (v_ID ver) = true ∧
        add_version ver (reg_view w) (reg_view w')
    | Err _ => reg_view w' = reg_view w
    end) w.
Proof.
  intros Hinv Hn. unfold Service.CreateVersion.
  wp_step. eapply wp_read; [done|apply law_GetDefinitionByKey; [apply Hinv|done]|].
  intros [d|e] w1 Hd Hv1 Hi1; [|done].
  wp_step. wp_step. destruct (ValidateValue _ _ _) as [[]|e] eqn:Hval; [|done].
  wp_step. apply wp_registry_id; [done..|]. intros id w2 Hid Hutf Hv2 Hi2.
  wp_step. apply wp_registry_clock; [done|]. intros t w3 Hv3 Hi3. cbv zeta. rewrite cloneRaw_id.
  wp_call law_CreateVersion; [apply Hi3|].
  rewrite Hv3, Hv2, Hv1. cbn [v_ID v_ConfigDefinitionID v_Value v_SourceCommitSHA v_CreatedBy v_CreatedAt].
  intros [ver|e] w4.
  - intros (Hi4 & -> & Hsome & Hadd). destruct Hd as (Hd & Hdt & Hdk). split.
    + split; [done|by eapply reg_ok_add_version; [exact Hadd|..|apply Hinv]|].
      eapply reg_valid_add_version; [exact Hadd|exact Hd|simpl; by rewrite Hval|apply Hinv].
    + exists d. by rewrite Hval.
  - intros (Hi4 & Hv4). split; [|done]. eapply registry_inv_same; [done| |apply Hinv]. congruence.
Qed.

Lemma ListVersions_spec ctx tenantID key w :
  registry_inv w → no_nul tenantID →
  wp (Service.ListVersions ctx tenantID key) (λ r w', registry_inv w' ∧
    reg_view w' = reg_view w ∧
    match r with
    | Ok l => ∃ d, defines (reg_view w) tenantID key d ∧ l = rv_versions (reg_view w) (d_ID d)
    | Err e => failure ctx e ∨
               errors_Is e ErrNotFound = true ∧ ∀ d, ¬ defines (reg_view w) tenantID key d
    end) w.
Proof.
  intros Hinv Hn. unfold Service.ListVersions.
  wp_step. eapply wp_read; [done|apply law_GetDefinitionByKey; [apply Hinv|done]|].
  intros [d|e] w1 Hd Hv1 Hi1; [|done].
  eapply wp_read; [done|apply law_ListVersions, Hi1|]. rewrite Hv1.
  intros [l|e] w2 Hl Hv2 Hi2; split_and!; try congruence; try done; [by exists d|].
  destruct Hl as [?|[_ Hnone]]; [by left|]. destruct Hd as (? & _). congruence.
Qed.

Lemma GetEnvironmentState_spec ctx tenantID key env w :
  registry_inv w → no_nul tenantID →
  wp (Service.GetEnvironmentState ctx tenantID key env) (λ r w', registry_inv w' ∧
    reg_view w' = reg_view w ∧
    match r with
    | Ok st => ∃ d, defines (reg_view w) tenantID key d ∧
                    rv_state (reg_view w) (d_ID d) env = Some st
    | Err e => failure ctx e ∨ errors_Is e ErrNotFound = true ∧
               ∀ d, defines (reg_view w) tenantID key d → rv_state (reg_view w) (d_ID d) env = None
    end) w.
Proof.
  intros Hinv Hn. unfold Service.GetEnvironmentState.
  wp_step. eapply wp_read; [done|apply law_GetDefinitionByKey; [apply Hinv|done]|].
  intros [d|e] w1 Hd Hv1 Hi1.
  2: { split_and!; try done. destruct Hd as [?|[? Hno]]; [by left|]. right. split; [done|].
       intros d Hd. by destruct (Hno d). }
  destruct (Hd) as (Hdd & Hdt & Hdk). destruct (ok_definition _ (ri_ok _ Hinv) _ _ Hdd) as (_ & Hnn & _).
  eapply wp_read; [done|apply law_GetEnvironmentState; [apply Hi1|done]|]. rewrite Hv1.
  intros [st|e] w2 Hst Hv2 Hi2; split_and!; try congruence; try done; [by exists d|].
  destruct Hst as [?|[? Hnone]]; [by left|]. right. split; [done|].
  intros d' (Hd' & Ht' & Hk'). by rewrite <-(ok_unique_key _ (ri_ok _ Hinv) _ _ _ _ Hdd Hd') by congruence.
Qed.

(** The state an update starts from: the recorded one, or a fresh one. *)
Definition state_before (v : RegView) (id : string) (env : Environment) : ConfigEnvironmentState :=
  default (MkConfigEnvironmentState id env "" "" 0) (rv_state v id env).

Lemma wp_state_or_new {A} ctx id env (K : ConfigEnvironmentState → M W A)
    (Q : res A → W → Prop) w :
  registry_inv w → no_nul id →
  (∀ w', reg_view w' = reg_view w → registry_inv w' →
     wp (K (state_before (reg_view w) id env)) Q w') →
  (∀ e w', reg_view w' = reg_view w → registry_inv w' → Q (Err e) w') →
  wp (found ← try (GetEnvironmentState ctx id env);
      state ← (match found with
               | Ok state => mret state
               | Err err =>
                   guard_err (negb (errors_Is err ErrNotFound)) err;;
                   mret (MkConfigEnvironmentState id env "" "" 0)
               end);
      K state) Q w.
Proof.
  intros Hinv Hn HQ HE. wp_step. wp_step.
  eapply wp_read; [done|apply law_GetEnvironmentState; [apply Hinv|done]|].
  unfold state_before in HQ. intros [st|e] w1 Hst Hv1 Hi1; wp_step.
  - apply wp_ret. rewrite Hst in HQ. by apply HQ.
  - wp_step. wp_step; [by apply HE|]. apply wp_ret.
    destruct Hst as [Hf|[_ Hnone]]; [by rewrite (law_failure _ _ Hf) in *|].
    rewrite Hnone in HQ. by apply HQ.
Qed.

Lemma WithStableVersion_ok st id next :
  WithStableVersion st id = Ok next →
  next = MkConfigEnvironmentState (es_ConfigDefinitionID st) (es_Environment st) id
           (es_ActiveRolloutID st) (es_UpdatedAt st) ∧
  (blank (es_ActiveRolloutID st) = true ∨ es_StableVersionID st = id).
Proof.
  unfold WithStableVersion. destruct (blank (es_ActiveRolloutID st)); simpl.
  { intros [= <-]. auto. }
  case_bool_decide; simpl; [|done]. intros [= <-]. auto.
Qed.

Lemma state_before_key v id env :
  reg_ok v → no_nul id → es_ConfigDefinitionID (state_before v id env) = id ∧
                         es_Environment (state_before v id env) = env.
Proof.
  intros Hok Hn. unfold state_before. destruct (rv_state v id env) as [st|] eqn:Hst; [|done].
  by destruct (ok_stable _ Hok _ _ _ Hn Hst) as (? & ? & _).
Qed.

Lemma SetStableVersion_spec ctx input w :
  registry_inv w → no_nul (ss_TenantID input) →
  wp (Service.SetStableVersion ctx input) (λ r w', registry_inv w' ∧
    match r with
    | Ok st => ∃ d ver,
        defines (reg_view w) (ss_TenantID input) (ss_Key input) d ∧
        1 ≤ ss_VersionNumber input ∧
        rv_versions (reg_view w) (d_ID d) !! Z.to_nat (ss_VersionNumber input - 1) = Some ver ∧
        es_ConfigDefinitionID st = d_ID d ∧ es_Environment st = ss_Environment input ∧
        es_StableVersionID st = v_ID ver ∧
        (let before := state_before (reg_view w) (d_ID d) (ss_Environment input) in
         es_ActiveRolloutID st = es_ActiveRolloutID before ∧
         (blank (es_ActiveRolloutID before) = true ∨ es_StableVersionID before = v_ID ver)) ∧
        put_state st (reg_view w) (reg_view w')
    | Err _ => reg_view w' = reg_view w
    end) w.
Proof.
  intros Hinv Hn. unfold Service.SetStableVersion. wp_step; [|wp_run; done].
  wp_step. eapply wp_read; [done|apply law_GetDefinitionByKey; [apply Hinv|done]|].
  intros [d|e] w1 Hd Hv1 Hi1; [|done].
  destruct (ok_definition _ (ri_ok _ Hinv) _ _ (proj1 Hd)) as (_ & Hnn & _).
  wp_step. eapply wp_read; [done|apply law_GetVersionByNumber, Hi1|]. rewrite Hv1.
  intros [ver|e] w2 Hver Hv2 Hi2; [|split; [done|congruence]].
  destruct (state_before_key _ (d_ID d) (ss_Environment input) (ri_ok _ Hinv) Hnn) as [Hk1 Hk2].
  apply wp_state_or_new; [done..| |by intros e w3 ->; split; [|congruence]].
  rewrite Hv2. intros w3 Hv3 Hi3.
  destruct (WithStableVersion _ _) as [next|] eqn:Hnext; [|apply wp_throw; split; [done|congruence]].
  apply WithStableVersion_ok in Hnext as [-> Hguard].
  wp_step. apply wp_registry_clock; [done|]. intros t w4 Hv4 Hi4. cbv zeta.
  wp_step; [|apply wp_throw; split; [done|congruence]].
  wp_step. wp_call law_SaveEnvironmentState; [apply Hi4|simpl; congruence|].
  rewrite Hv4, Hv3. intros [[]|e] w5; cbn [es_ConfigDefinitionID es_Environment es_StableVersionID es_ActiveRolloutID].
  - intros [Hi5 Hput]. apply wp_ret. destruct Hver as [Hge Hver]. split.
    + split; [done|eapply reg_ok_put_state; [exact Hput| |done|apply Hinv]|].
      * simpl. rewrite Hk1. by eapply list_elem_of_lookup_2.
      * destruct Hput as (_ & Hd' & Hv' & _). by eapply reg_valid_same; [..|apply Hinv].
    + exists d, ver. split_and!; try done; by destruct Hd as (? & ? & ?).
  - intros (Hi5 & Hv5 & _). split; [|done]. eapply registry_inv_same; [done| |apply Hinv]. congruence.
Qed.

End Service.
End RegistrySpec.
