(* ===== verification/RegistryStore.v ===== *)
(** [internal/configregistry/memory_store.go]: the in-memory registry store,
    and its instance of the [Store] interface. *)

From Stdlib Require Import ZArith Lia.
From S2P Require Import Prelude GoLib Host Domain Registry.
Import Domain ConfigRegistry.
Open Scope string_scope.
Open Scope list_scope.
Open Scope Z_scope.

Module RegistryStore.

(** [src/internal/configregistry/memory_store.go:12-24] MemoryStore *)
Record MemoryStore := MkMemoryStore {
  ms_tenants : gmap string Tenant;
  ms_definitions : gmap string ConfigDefinition;
  ms_definitionsByKey : gmap string string;
  ms_versions : gmap string (list ConfigVersion);
  ms_versionsByNumber : gmap string ConfigVersion;
  ms_states : gmap string ConfigEnvironmentState }.

(** [src/internal/configregistry/memory_store.go:26-35] NewMemoryStore *)
Definition NewMemoryStore : MemoryStore := MkMemoryStore ∅ ∅ ∅ ∅ ∅ ∅.

(** [src/internal/configregistry/memory_store.go:243-245] definitionKey *)
Definition definitionKey (tenantID key : string) : string := nul_key tenantID key.

(** [src/internal/configregistry/memory_store.go:247-249] versionNumberKey *)
Definition versionNumberKey (configDefinitionID : string) (versionNumber : Z) : string :=
  nul_key configDefinitionID (pretty versionNumber).

(** [src/internal/configregistry/memory_store.go:251-253] stateKey *)
Definition stateKey (configDefinitionID : string) (environment : Environment) : string :=
  nul_key configDefinitionID environment.

(** [src/internal/configregistry/memory_store.go:255-263] cmpString *)
Definition cmpString (a b : string) : Z :=
  if str_lt a b then -1 else if str_lt b a then 1 else 0.

(** [src/internal/configregistry/memory_store.go:37-51] MemoryStore.CreateTenant *)
Definition CreateTenant (ctxErr : option error) (tenant : Tenant) : M MemoryStore unit :=
  ctx_check ctxErr;;
  s ← get_world;
  guard_err (bool_decide (is_Some (ms_tenants s !! t_ID tenant)))
            (EWrap ErrAlreadyExists "tenant %q" [t_ID tenant]);;
  modify (λ s, MkMemoryStore (<[t_ID tenant := tenant]> (ms_tenants s)) (ms_definitions s)
                 (ms_definitionsByKey s) (ms_versions s) (ms_versionsByNumber s) (ms_states s)).

(** [src/internal/configregistry/memory_store.go:53-69] MemoryStore.ListTenants *)
Definition ListTenants (ctxErr : option error) (range : RangeOrder)
    : M MemoryStore (list Tenant) :=
  ctx_check ctxErr;;
  s ← get_world;
  mret (SortFunc (λ a b, cmpString (t_ID a) (t_ID b) <=? 0)
          (map_values range (ms_tenants s))).

(** [src/internal/configregistry/memory_store.go:71-84] MemoryStore.GetTenant *)
Definition GetTenant (ctxErr : option error) (tenantID : string) : M MemoryStore Tenant :=
  ctx_check ctxErr;;
  s ← get_world;
  match ms_tenants s !! tenantID with
  | None => mthrow (EWrap ErrNotFound "tenant %q" [tenantID])
  | Some tenant => mret tenant
  end.

(** [src/internal/configregistry/memory_store.go:86-111] MemoryStore.CreateDefinition *)
Definition CreateDefinition (ctxErr : option error) (definition : ConfigDefinition)
    : M MemoryStore unit :=
  ctx_check ctxErr;;
  s ← get_world;
  guard_err (negb (bool_decide (is_Some (ms_tenants s !! d_TenantID definition))))
            (EWrap ErrNotFound "tenant %q" [d_TenantID definition]);;
  guard_err (bool_decide (is_Some (ms_definitions s !! d_ID definition)))
            (EWrap ErrAlreadyExists "definition %q" [d_ID definition]);;
  let key := definitionKey (d_TenantID definition) (d_Key definition) in
  guard_err (bool_decide (is_Some (ms_definitionsByKey s !! key)))
            (EWrap ErrAlreadyExists "config key %q" [d_Key definition]);;
  let definition := clone_definition definition in
  modify (λ s, MkMemoryStore (ms_tenants s)
                 (<[d_ID definition := definition]> (ms_definitions s))
                 (<[key := d_ID definition]> (ms_definitionsByKey s))
                 (ms_versions s) (ms_versionsByNumber s) (ms_states s)).

(** [src/internal/configregistry/memory_store.go:113-137] MemoryStore.ListDefinitions *)
Definition ListDefinitions (ctxErr : option error) (range : RangeOrder) (tenantID : string)
    : M MemoryStore (list ConfigDefinition) :=
  ctx_check ctxErr;;
  s ← get_world;
  guard_err (negb (bool_decide (is_Some (ms_tenants s !! tenantID))))
            (EWrap ErrNotFound "tenant %q" [tenantID]);;
  mret (SortFunc (λ a b, cmpString (d_Key a) (d_Key b) <=? 0)
          (clone_definition <$>
             filter (λ d, d_TenantID d = tenantID) (map_values range (ms_definitions s)))).

(** The zero value [domain.ConfigDefinition{}]. *)
Definition zero_definition : ConfigDefinition := MkConfigDefinition "" "" "" "" "" "" 0 0.

(** [src/internal/configregistry/memory_store.go:139-156] MemoryStore.GetDefinitionByKey *)
Definition GetDefinitionByKey (ctxErr : option error) (tenantID key : string)
    : M MemoryStore ConfigDefinition :=
  ctx_check ctxErr;;
  s ← get_world;
  match ms_definitionsByKey s !! definitionKey tenantID key with
  | None => mthrow (EWrap ErrNotFound "config %q" [key])
  | Some id => mret (clone_definition (default zero_definition (ms_definitions s !! id)))
  end.

(** [s.versions[id]], [nil] when the key is absent. *)
Definition versions_at (s : MemoryStore) (id : string) : list ConfigVersion :=
  default [] (ms_versions s !! id).

Definition set_number (version : ConfigVersion) (n : Z) : ConfigVersion :=
  MkConfigVersion (v_ID version) (v_ConfigDefinitionID version) n (v_Value version)
    (v_SourceCommitSHA version) (v_CreatedBy version) (v_CreatedAt version).

(** [src/internal/configregistry/memory_store.go:158-179] MemoryStore.CreateVersion *)
Definition CreateVersion (ctxErr : option error) (version : ConfigVersion)
    : M MemoryStore ConfigVersion :=
  ctx_check ctxErr;;
  s ← get_world;
  let id := v_ConfigDefinitionID version in
  guard_err (negb (bool_decide (is_Some (ms_definitions s !! id))))
            (EWrap ErrNotFound "definition %q" [id]);;
  let version := set_number version (Z.of_nat (length (versions_at s id)) + 1) in
  match ConfigVersion_Validate version with
  | Err err => mthrow (EWrapV ErrInvalidInput err)
  | Ok _ =>
      let version := clone_version version in
      modify (λ s, MkMemoryStore (ms_tenants s) (ms_definitions s) (ms_definitionsByKey s)
                     (<[id := versions_at s id ++ [version]]> (ms_versions s))
                     (<[versionNumberKey id (v_VersionNumber version) := version]>
                        (ms_versionsByNumber s))
                     (ms_states s));;
      mret version
  end.

(** [src/internal/configregistry/memory_store.go:181-198] MemoryStore.ListVersions *)
Definition ListVersions (ctxErr : option error) (configDefinitionID : string)
    : M MemoryStore (list ConfigVersion) :=
  ctx_check ctxErr;;
  s ← get_world;
  guard_err (negb (bool_decide (is_Some (ms_definitions s !! configDefinitionID))))
            (EWrap ErrNotFound "definition %q" [configDefinitionID]);;
  mret (clone_version <$> versions_at s configDefinitionID).

(** [src/internal/configregistry/memory_store.go:200-214] MemoryStore.GetVersionByNumber *)
Definition GetVersionByNumber (ctxErr : option error) (configDefinitionID : string)
    (versionNumber : Z) : M MemoryStore ConfigVersion :=
  ctx_check ctxErr;;
  s ← get_world;
  match ms_versionsByNumber s !! versionNumberKey configDefinitionID versionNumber with
  | None => mthrow (EWrap ErrNotFound "version %d" [pretty versionNumber])
  | Some version => mret (clone_version version)
  end.

(** [src/internal/configregistry/memory_store.go:216-226] MemoryStore.SaveEnvironmentState *)
Definition SaveEnvironmentState (ctxErr : option error) (state : ConfigEnvironmentState)
    : M MemoryStore unit :=
  ctx_check ctxErr;;
  modify (λ s, MkMemoryStore (ms_tenants s) (ms_definitions s) (ms_definitionsByKey s)
                 (ms_versions s) (ms_versionsByNumber s)
                 (<[stateKey (es_ConfigDefinitionID state) (es_Environment state) := state]>
                    (ms_states s))).

(** [src/internal/configregistry/memory_store.go:228-241] MemoryStore.GetEnvironmentState *)
Definition GetEnvironmentState (ctxErr : option error) (configDefinitionID : string)
    (environment : Environment) : M MemoryStore ConfigEnvironmentState :=
  ctx_check ctxErr;;
  s ← get_world;
  match ms_states s !! stateKey configDefinitionID environment with
  | None => mthrow (EWrap ErrNotFound "environment state %q" [environment])
  | Some state => mret state
  end.

(** The memory store of a world that holds one, as the service's [Store]. *)
#[export] Instance memory_store {W} `{Env W, Has MemoryStore W} : Store W := {|
  ConfigRegistry.CreateTenant ctx t := store_call ctx (λ e, CreateTenant e t);
  ConfigRegistry.ListTenants ctx := store_range ctx ListTenants;
  ConfigRegistry.GetTenant ctx id := store_call ctx (λ e, GetTenant e id);
  ConfigRegistry.CreateDefinition ctx d := store_call ctx (λ e, CreateDefinition e d);
  ConfigRegistry.ListDefinitions ctx t := store_range ctx (λ e r, ListDefinitions e r t);
  ConfigRegistry.GetDefinitionByKey ctx t k := store_call ctx (λ e, GetDefinitionByKey e t k);
  ConfigRegistry.CreateVersion ctx v := store_call ctx (λ e, CreateVersion e v);
  ConfigRegistry.ListVersions ctx id := store_call ctx (λ e, ListVersions e id);
  ConfigRegistry.GetVersionByNumber ctx id n := store_call ctx (λ e, GetVersionByNumber e id n);
  ConfigRegistry.SaveEnvironmentState ctx st := store_call ctx (λ e, SaveEnvironmentState e st);
  ConfigRegistry.GetEnvironmentState ctx id env :=
    store_call ctx (λ e, GetEnvironmentState e id env) |}.

End RegistryStore.
