(* ===== verification/RegistryMemory.v ===== *)
(** The in-memory registry store obeys the laws of [RegistrySpec.StoreLaws]. *)

From Stdlib Require Import ZArith Lia.
From S2P Require Import Prelude GoLib Host Domain Registry RegistrySpec RegistryStore.
Import Domain ConfigRegistry RegistrySpec RegistryStore.
Open Scope string_scope.
Open Scope list_scope.
Open Scope Z_scope.

Module RegistryMemory.

Definition view_of (s : MemoryStore) : RegView :=
  MkRegView (ms_tenants s) (ms_definitions s) (versions_at s)
    (λ id env, ms_states s !! stateKey id env).

(** The two index maps agree with the data they index. *)
Record mem_ok (s : MemoryStore) : Prop := {
  mo_tenant : ∀ id t, ms_tenants s !! id = Some t → no_nul id;
  mo_definition : ∀ id d, ms_definitions s !! id = Some d →
    d_ID d = id ∧ is_Some (ms_tenants s !! d_TenantID d) ∧
    ms_definitionsByKey s !! definitionKey (d_TenantID d) (d_Key d) = Some id;
  mo_key : ∀ k id, ms_definitionsByKey s !! k = Some id →
    ∃ d, ms_definitions s !! id = Some d ∧ k = definitionKey (d_TenantID d) (d_Key d);
  mo_number : ∀ id n v,
    ms_versionsByNumber s !! versionNumberKey id n = Some v ↔
    1 ≤ n ∧ versions_at s id !! Z.to_nat (n - 1) = Some v }.

Lemma registry_mem_New : mem_ok NewMemoryStore.
Proof.
  split; unfold NewMemoryStore, versions_at; simpl.
  - intros id t. by rewrite lookup_empty.
  - intros id d. by rewrite lookup_empty.
  - intros k id. by rewrite lookup_empty.
  - intros id n v. rewrite !lookup_empty. simpl. rewrite lookup_nil. split; [done|]. by intros [_ ?].
Qed.

Lemma versionNumberKey_inj id n id' n' :
  versionNumberKey id n = versionNumberKey id' n' → id = id' ∧ n = n'.
Proof.
  intros H. apply nul_key_inj_r in H as [-> H]; [|apply pretty_Z_no_nul..].
  split; [done|]. by apply (inj pretty) in H.
Qed.

Lemma is_Some_dec {A} (o : option A) : bool_decide (is_Some o) = true ∨ o = None.
Proof. destruct o; [left; by apply bool_decide_eq_true|by right]. Qed.

(** ** The methods *)

Section methods.
Context (ctx : Context) (e : option ctx_error) (He : ctx_answer ctx e).
Abbreviation err := (ctx_cause <$> e).

#[local] Ltac start := method_start He.

Lemma CreateTenant_law t s : mem_ok s → no_nul (t_ID t) →
  wp (CreateTenant err t) (λ r s', mem_ok s' ∧
    match r with
    | Ok _ => ms_tenants s !! t_ID t = None ∧ put_tenant t (view_of s) (view_of s')
    | Err er => view_of s' = view_of s ∧
        (interrupted ctx er ∨ errors_Is er ErrAlreadyExists = true ∧ is_Some (ms_tenants s !! t_ID t))
    end) s.
Proof.
  intros Hs Hn. unfold CreateTenant. start.
  wp_step. wp_step.
  - apply bool_decide_eq_true in H. auto.
  - apply bool_decide_eq_false, eq_None_not_Some in H. unfold wp; simpl.
    split; [|done]. destruct Hs as [H1 H2 H3 H4]. split; simpl; try done.
    + intros id t'. intros [[<- <-]|[_ ?]]%lookup_insert_Some; eauto.
    + intros id d Hd. destruct (H2 _ _ Hd) as (? & ? & ?). split_and!; try done.
      by apply lookup_insert_is_Some'; right.
Qed.

Lemma GetTenant_law id s : mem_ok s →
  wp (GetTenant err id) (λ r s', mem_ok s' ∧ view_of s' = view_of s ∧
    match r with
    | Ok t => ms_tenants s !! id = Some t
    | Err er => interrupted ctx er ∨ errors_Is er ErrNotFound = true ∧ ms_tenants s !! id = None
    end) s.
Proof.
  intros Hs. unfold GetTenant. start. wp_run; auto.
Qed.

Lemma CreateDefinition_law d s : mem_ok s → no_nul (d_ID d) →
  wp (CreateDefinition err d) (λ r s', mem_ok s' ∧
    match r with
    | Ok _ => ms_definitions s !! d_ID d = None ∧ is_Some (ms_tenants s !! d_TenantID d) ∧
        (∀ d', ¬ defines (view_of s) (d_TenantID d) (d_Key d) d') ∧
        put_definition d (view_of s) (view_of s')
    | Err er => view_of s' = view_of s
    end) s.
Proof.
  intros Hs Hn. unfold CreateDefinition. start.
  wp_step. wp_step; [done|]. wp_step. wp_step; [done|]. cbv zeta. wp_step. wp_step; [done|].
  apply negb_false_iff, bool_decide_eq_true in H.
  apply bool_decide_eq_false, eq_None_not_Some in H0, H1.
  rewrite clone_definition_id. unfold wp; simpl. destruct Hs as [M1 M2 M3 M4]. split.
  - split; simpl; try done.
    + intros id d0. intros [[<- <-]|[Hne Hd]]%lookup_insert_Some.
      * split_and!; [done..|by rewrite lookup_insert_eq].
      * destruct (M2 _ _ Hd) as (? & ? & ?). split_and!; [done..|].
        rewrite lookup_insert_ne; [done|congruence].
    + intros k id. intros [[<- <-]|[Hne Hk]]%lookup_insert_Some.
      * exists d. by rewrite lookup_insert_eq.
      * destruct (M3 _ _ Hk) as (d0 & Hd0 & ->). exists d0.
        rewrite lookup_insert_ne; [done|congruence].
  - split_and!; [done..| |].
    + intros d' (Hd' & Ht' & Hk'). simpl in Hd'. destruct (M2 _ _ Hd') as (_ & _ & Hb).
      rewrite Ht', Hk' in Hb. congruence.
    + done.
Qed.

Lemma GetDefinitionByKey_law tenantID key s : mem_ok s → no_nul tenantID →
  wp (GetDefinitionByKey err tenantID key) (λ r s', mem_ok s' ∧ view_of s' = view_of s ∧
    match r with
    | Ok d => defines (view_of s) tenantID key d
    | Err er => interrupted ctx er ∨
                errors_Is er ErrNotFound = true ∧ ∀ d, ¬ defines (view_of s) tenantID key d
    end) s.
Proof.
  intros Hs Hn. unfold GetDefinitionByKey. start. wp_run; split_and!; try done.
  - destruct (mo_key _ Hs _ _ Heqo) as (d & Hd & Hk). rewrite Hd. simpl.
    rewrite clone_definition_id. destruct (mo_definition _ Hs _ _ Hd) as (<- & [t Ht] & _).
    apply nul_key_inj in Hk as [-> ->]; [done..|by eapply mo_tenant].
  - right. split; [done|]. intros d (Hd & <- & <-).
    destruct (mo_definition _ Hs _ _ Hd) as (_ & _ & Hb). congruence.
Qed.

Lemma CreateVersion_law ver s : mem_ok s →
  wp (CreateVersion err ver) (λ r s', mem_ok s' ∧
    match r with
    | Ok ver' =>
        ver' = set_number ver (Z.of_nat (length (versions_at s (v_ConfigDefinitionID ver))) + 1) ∧
        is_Some (ms_definitions s !! v_ConfigDefinitionID ver) ∧
        add_version ver' (view_of s) (view_of s')
    | Err er => view_of s' = view_of s
    end) s.
Proof.
  intros Hs. unfold CreateVersion. start. cbv zeta. wp_step. wp_step; [done|].
  apply negb_false_iff, bool_decide_eq_true in H.
  wp_step; [|done]. rewrite clone_version_id. unfold wp; simpl.
  set (id := v_ConfigDefinitionID ver). set (n := Z.of_nat (length (versions_at s id)) + 1).
  set (ver' := set_number ver n).
  assert (∀ id', versions_at (MkMemoryStore (ms_tenants s) (ms_definitions s)
    (ms_definitionsByKey s) (<[id:=versions_at s id ++ [ver']]> (ms_versions s))
    (<[versionNumberKey id n:=ver']> (ms_versionsByNumber s)) (ms_states s)) id'
    = if decide (id' = id) then versions_at s id' ++ [ver'] else versions_at s id') as Hat.
  { intros id'. unfold versions_at; simpl. case_decide as Hid; [subst id'|].
    - by rewrite lookup_insert_eq. - by rewrite lookup_insert_ne. }
  destruct Hs as [M1 M2 M3 M4]. split; [|split_and!; try done].
  - split; simpl; try done. intros id' m v. rewrite Hat, lookup_insert_Some. case_decide as Hid.
    + subst id'. rewrite lookup_app_Some, list_lookup_singleton_Some. split.
      * intros [[Hk <-]|[_ [? ?]%M4]]; [|by auto].
        apply versionNumberKey_inj in Hk as [_ <-]. split; [lia|right]. split; [lia|split; [lia|done]].
      * intros [Hm [Hl|(Hge & Hz & <-)]].
        -- right. split; [|by apply M4]. intros [_ Heq]%versionNumberKey_inj.
           apply lookup_lt_Some in Hl. lia.
        -- left. split; [|done]. f_equal. lia.
    + rewrite M4. split; [|intros ?; right; split; [|done]].
      * intros [[[? _]%versionNumberKey_inj _]|[_ ?]]; [congruence|done].
      * intros [? _]%versionNumberKey_inj. congruence.
Qed.

Lemma ListVersions_law id s : mem_ok s →
  wp (ListVersions err id) (λ r s', mem_ok s' ∧ view_of s' = view_of s ∧
    match r with
    | Ok l => l = versions_at s id
    | Err er => interrupted ctx er ∨
                errors_Is er ErrNotFound = true ∧ ms_definitions s !! id = None
    end) s.
Proof.
  intros Hs. unfold ListVersions. start. wp_step. wp_step.
  - apply negb_true_iff, bool_decide_eq_false, eq_None_not_Some in H. auto 6.
  - apply wp_ret. split_and!; [done..|].
    by rewrite clone_versions_id.
Qed.

Lemma GetVersionByNumber_law id n s : mem_ok s →
  wp (GetVersionByNumber err id n) (λ r s', mem_ok s' ∧ view_of s' = view_of s ∧
    match r with
    | Ok v => 1 ≤ n ∧ versions_at s id !! Z.to_nat (n - 1) = Some v
    | Err er => interrupted ctx er ∨
        errors_Is er ErrNotFound = true ∧ (1 ≤ n → versions_at s id !! Z.to_nat (n - 1) = None)
    end) s.
Proof.
  intros Hs. unfold GetVersionByNumber. start. wp_run; (split; [done|]; split; [done|]).
  - rewrite clone_version_id. by apply (mo_number _ Hs).
  - right. split; [done|]. intros Hn. destruct (versions_at s id !! _) eqn:Hl; [|done].
    pose proof (proj2 (mo_number _ Hs _ _ _) (conj Hn Hl)). congruence.
Qed.

Lemma SaveEnvironmentState_law st s : mem_ok s → no_nul (es_ConfigDefinitionID st) →
  wp (SaveEnvironmentState err st) (λ r s', mem_ok s' ∧
    match r with
    | Ok _ => put_state st (view_of s) (view_of s')
    | Err er => view_of s' = view_of s ∧ interrupted ctx er
    end) s.
Proof.
  intros Hs Hn. unfold SaveEnvironmentState. start. unfold wp; simpl.
  split; [by destruct Hs|]. split_and!; try done.
  intros id env Hid. simpl. case_decide as Heq.
  - destruct Heq as [-> ->]. by rewrite lookup_insert_eq.
  - rewrite lookup_insert_ne; [done|].
    intros [<- <-]%nul_key_inj; tauto.
Qed.

Lemma GetEnvironmentState_law id env s : mem_ok s →
  wp (GetEnvironmentState err id env) (λ r s', mem_ok s' ∧ view_of s' = view_of s ∧
    match r with
    | Ok st => ms_states s !! stateKey id env = Some st
    | Err er => interrupted ctx er ∨
                errors_Is er ErrNotFound = true ∧ ms_states s !! stateKey id env = None
    end) s.
Proof. intros Hs. unfold GetEnvironmentState. start. wp_run; auto. Qed.

End methods.

(** ** The instance *)

Section instance.
Context {W : Type} `{Env W, !EnvLaws W, Has MemoryStore W, !HasLaws MemoryStore W,
  !HostApart MemoryStore W}.

Definition reg_inv (w : W) : Prop := mem_ok (part w).
Definition reg_view (w : W) : RegView := view_of (part w).

#[export] Instance memory_laws : StoreLaws W interrupted reg_inv reg_view.
Proof.
  split.
  - intros ctx e (n & c & _ & ->). by destruct c.
  - method_law CreateTenant_law.
  - method_law GetTenant_law.
  - method_law CreateDefinition_law.
  - method_law GetDefinitionByKey_law.
  - intros. eapply store_call_law; [intros; by eapply CreateVersion_law|].
    intros [ver'|er] w'; simpl; tauto.
  - method_law ListVersions_law.
  - method_law GetVersionByNumber_law.
  - method_law SaveEnvironmentState_law.
  - method_law GetEnvironmentState_law.
Qed.
End instance.
End RegistryMemory.
