(* ===== verification/AgentRegistry.v ===== *)
(** [internal/agentregistry]: agent registration, credentials, heartbeats and
    acknowledgement records; the service over its [Store] interface. *)

From Stdlib Require Import ZArith Lia.
From S2P Require Import Prelude GoLib Host Domain.
Import Domain.
Open Scope string_scope.
Open Scope list_scope.
Open Scope Z_scope.

Module AgentRegistry.

(** [src/internal/agentregistry/errors.go:6-6] ErrInvalidInput *)
Definition ErrInvalidInput := ESentinel "agentregistry.ErrInvalidInput" "invalid input".
(** [src/internal/agentregistry/errors.go:7-7] ErrUnauthorized *)
Definition ErrUnauthorized := ESentinel "agentregistry.ErrUnauthorized" "unauthorized".
(** [src/internal/agentregistry/errors.go:8-8] ErrForbidden *)
Definition ErrForbidden := ESentinel "agentregistry.ErrForbidden" "forbidden".
(** [src/internal/agentregistry/errors.go:9-9] ErrNotFound *)
Definition ErrNotFound := ESentinel "agentregistry.ErrNotFound" "not found".
(** [src/internal/agentregistry/errors.go:10-10] ErrExpiredCredential *)
Definition ErrExpiredCredential :=
  ESentinel "agentregistry.ErrExpiredCredential" "credential expired".

(** A copy of the map; an empty map becomes [nil], which reads the same. *)
(** [src/internal/agentregistry/service.go:184-193] cloneLabels *)
Definition cloneLabels (labels : gmap string string) : gmap string string :=
  if decide (labels = ∅) then ∅ else labels.

Definition clone_agent (a : Agent) : Agent :=
  MkAgent (a_ID a) (a_Service a) (a_Environment a) (a_Zone a) (a_Instance a)
    (cloneLabels (a_Labels a)) (a_RegisteredAt a) (a_LastSeenAt a).

(** [src/internal/agentregistry/service.go:15-23] Store *)
Class Store (W : Type) := {
  SaveAgent : Context → Agent → M W unit;
  GetAgent : Context → string → M W Agent;
  ListAgents : Context → M W (list Agent);
  SaveCredential : Context → AgentCredential → M W unit;
  GetCredential : Context → string → M W AgentCredential;
  TouchHeartbeat : Context → string → Time → M W Agent;
  SaveAcknowledgement : Context → AgentAcknowledgement → M W unit }.

(** The configuration of a service; the store, the clock and the random
    source are those of the world. *)
(** [src/internal/agentregistry/service.go:25-32] Service *)
Record Service := MkService {
  svc_bootstrapToken : string;
  svc_credentialTTL : Duration }.

(** [src/internal/agentregistry/service.go:34-46] NewService *)
Definition NewService (bootstrapToken : string) (credentialTTL : Duration) : Service :=
  MkService bootstrapToken (if credentialTTL =? 0 then 15 * Minute else credentialTTL).

(** [src/internal/agentregistry/service.go:48-56] RegisterInput *)
Record RegisterInput := MkRegisterInput {
  ri_BootstrapToken : string; ri_ID : string; ri_Service : string;
  ri_Environment : Environment; ri_Zone : string; ri_Instance : string;
  ri_Labels : gmap string string }.

(** [src/internal/agentregistry/service.go:58-61] RegisterResult *)
Record RegisterResult := MkRegisterResult {
  rr_Agent : Agent; rr_Credential : AgentCredential }.

(** [src/internal/agentregistry/service.go:149-155] AcknowledgeInput *)
Record AcknowledgeInput := MkAcknowledgeInput {
  ai_AgentID : string; ai_Token : string; ai_ConfigDefinitionID : string;
  ai_VersionID : string; ai_SnapshotRevision : Z }.

Module Svc.
Section Svc.
Context {W : Type} `{Env W, Store W} (s : Service).

(** [src/internal/agentregistry/service.go:195-201] randomID *)
Definition randomID (prefix : string) : M W string := random_id prefix.

(** [src/internal/agentregistry/service.go:63-109] Service.Register *)
Definition Register (ctx : Context) (input : RegisterInput) : M W RegisterResult :=
  guard_err (negb (empty_str (svc_bootstrapToken s))
             && negb (bool_decide (ri_BootstrapToken input = svc_bootstrapToken s)))
            ErrUnauthorized;;
  guard_err (blank (ri_Service input)) (EWrap ErrInvalidInput "service is required" []);;
  guard_err (blank (ri_Instance input)) (EWrap ErrInvalidInput "instance is required" []);;
  match Environment_Validate (ri_Environment input) with
  | Err err => mthrow (EWrapV ErrInvalidInput err)
  | Ok _ =>
      now ← now;
      agentID ← (if empty_str (ri_ID input) then randomID "agent" else mret (ri_ID input));
      let agent := MkAgent agentID (ri_Service input) (ri_Environment input) (ri_Zone input)
                     (ri_Instance input) (cloneLabels (ri_Labels input)) now now in
      token ← randomID "cred";
      let credential := MkAgentCredential token (a_ID agent)
                          (time_Add now (svc_credentialTTL s)) now in
      SaveAgent ctx agent;;
      SaveCredential ctx credential;;
      mret (MkRegisterResult agent credential)
  end.

(** [src/internal/agentregistry/service.go:111-128] Service.Verify *)
Definition Verify (ctx : Context) (token : string) : M W string :=
  guard_err (blank token) ErrUnauthorized;;
  found ← try (GetCredential ctx token);
  match found with
  | Err err =>
      guard_err (errors_Is err ErrNotFound) ErrUnauthorized;;
      mthrow err
  | Ok credential =>
      now ← now;
      guard_err (negb (time_After (c_ExpiresAt credential) now)) ErrExpiredCredential;;
      mret (c_AgentID credential)
  end.

(** [src/internal/agentregistry/service.go:130-132] Service.ListAgents *)
Definition ListAgents (ctx : Context) : M W (list Agent) := AgentRegistry.ListAgents ctx.

(** [src/internal/agentregistry/service.go:134-136] Service.GetAgent *)
Definition GetAgent (ctx : Context) (agentID : string) : M W Agent :=
  AgentRegistry.GetAgent ctx agentID.

(** [src/internal/agentregistry/service.go:138-147] Service.Heartbeat *)
Definition Heartbeat (ctx : Context) (agentID token : string) : M W Agent :=
  subject ← Verify ctx token;
  guard_err (negb (bool_decide (subject = agentID))) ErrForbidden;;
  now ← now;
  TouchHeartbeat ctx agentID now.

(** [src/internal/agentregistry/service.go:157-182] Service.Acknowledge *)
Definition Acknowledge (ctx : Context) (input : AcknowledgeInput) : M W AgentAcknowledgement :=
  subject ← Verify ctx (ai_Token input);
  guard_err (negb (bool_decide (subject = ai_AgentID input))) ErrForbidden;;
  guard_err (empty_str (ai_ConfigDefinitionID input) || empty_str (ai_VersionID input)
             || (ai_SnapshotRevision input <? 1))
            (EWrap ErrInvalidInput "acknowledgement is incomplete" []);;
  id ← randomID "ack";
  now ← now;
  let ack := MkAgentAcknowledgement id (ai_AgentID input) (ai_ConfigDefinitionID input)
               (ai_VersionID input) (ai_SnapshotRevision input) true now in
  SaveAcknowledgement ctx ack;;
  mret ack.

End Svc.
End Svc.

Lemma cloneLabels_id l : cloneLabels l = l.
Proof. unfold cloneLabels. by case_decide. Qed.

Lemma clone_agent_id a : clone_agent a = a.
Proof. destruct a. unfold clone_agent; simpl. by rewrite cloneLabels_id. Qed.

Lemma clone_agents_id (l : list Agent) : clone_agent <$> l = l.
Proof. induction l as [|a l IH]; [done|]. by rewrite fmap_cons, clone_agent_id, IH. Qed.

End AgentRegistry.
