(* ===== verification/AgentStore.v ===== *)
(** [internal/agentregistry/memory_store.go]: the in-memory agent store, and
    its instance of the [Store] interface. *)

From Stdlib Require Import ZArith Lia.
From S2P Require Import Prelude GoLib Host Domain AgentRegistry.
Import Domain AgentRegistry.
Open Scope string_scope.
Open Scope list_scope.
Open Scope Z_scope.

Module AgentStore.

(** [src/internal/agentregistry/memory_store.go:13-19] MemoryStore *)
Record MemoryStore := MkMemoryStore {
  ms_agents : gmap string Agent;
  ms_credentials : gmap string AgentCredential;
  ms_acknowledgements : gmap string AgentAcknowledgement }.

(** [src/internal/agentregistry/memory_store.go:21-27] NewMemoryStore *)
Definition NewMemoryStore : MemoryStore := MkMemoryStore ∅ ∅ ∅.

Definition set_agents (s : MemoryStore) agents : MemoryStore :=
  MkMemoryStore agents (ms_credentials s) (ms_acknowledgements s).

(** [src/internal/agentregistry/memory_store.go:29-40] MemoryStore.SaveAgent *)
Definition SaveAgent (ctxErr : option error) (agent : Agent) : M MemoryStore unit :=
  ctx_check ctxErr;;
  modify (λ s, set_agents s (<[a_ID agent := clone_agent agent]> (ms_agents s))).

(** [src/internal/agentregistry/memory_store.go:42-56] MemoryStore.GetAgent *)
Definition GetAgent (ctxErr : option error) (agentID : string) : M MemoryStore Agent :=
  ctx_check ctxErr;;
  s ← get_world;
  match ms_agents s !! agentID with
  | None => mthrow (EWrap ErrNotFound "agent %q" [agentID])
  | Some agent => mret (clone_agent agent)
  end.

(** [src/internal/agentregistry/memory_store.go:71-79] MemoryStore.ListAgents *)
Definition agent_cmp (a b : Agent) : Z :=
  if str_lt (a_ID a) (a_ID b) then -1 else if str_lt (a_ID b) (a_ID a) then 1 else 0.

(** [src/internal/agentregistry/memory_store.go:58-81] MemoryStore.ListAgents *)
Definition ListAgents (ctxErr : option error) (range : RangeOrder) : M MemoryStore (list Agent) :=
  ctx_check ctxErr;;
  s ← get_world;
  mret (SortFunc (λ a b, agent_cmp a b <=? 0)
          (clone_agent <$> map_values range (ms_agents s))).

(** [src/internal/agentregistry/memory_store.go:83-93] MemoryStore.SaveCredential *)
Definition SaveCredential (ctxErr : option error) (credential : AgentCredential)
    : M MemoryStore unit :=
  ctx_check ctxErr;;
  modify (λ s, MkMemoryStore (ms_agents s) (<[c_Token credential := credential]> (ms_credentials s))
                 (ms_acknowledgements s)).

(** [src/internal/agentregistry/memory_store.go:95-108] MemoryStore.GetCredential *)
Definition GetCredential (ctxErr : option error) (token : string)
    : M MemoryStore AgentCredential :=
  ctx_check ctxErr;;
  s ← get_world;
  match ms_credentials s !! token with
  | None => mthrow (EWrap ErrNotFound "credential" [])
  | Some credential => mret credential
  end.

Definition set_seen (a : Agent) (seenAt : Time) : Agent :=
  MkAgent (a_ID a) (a_Service a) (a_Environment a) (a_Zone a) (a_Instance a)
    (a_Labels a) (a_RegisteredAt a) seenAt.

(** [src/internal/agentregistry/memory_store.go:110-126] MemoryStore.TouchHeartbeat *)
Definition TouchHeartbeat (ctxErr : option error) (agentID : string) (seenAt : Time)
    : M MemoryStore Agent :=
  ctx_check ctxErr;;
  s ← get_world;
  match ms_agents s !! agentID with
  | None => mthrow (EWrap ErrNotFound "agent %q" [agentID])
  | Some agent =>
      modify (λ s, set_agents s (<[agentID := set_seen agent seenAt]> (ms_agents s)));;
      mret (clone_agent (set_seen agent seenAt))
  end.

(** [src/internal/agentregistry/memory_store.go:128-138] MemoryStore.SaveAcknowledgement *)
Definition SaveAcknowledgement (ctxErr : option error) (acknowledgement : AgentAcknowledgement)
    : M MemoryStore unit :=
  ctx_check ctxErr;;
  modify (λ s, MkMemoryStore (ms_agents s) (ms_credentials s)
                 (<[k_ID acknowledgement := acknowledgement]> (ms_acknowledgements s))).

#[export] Instance memory_store {W} `{Env W, Has MemoryStore W} : Store W := {|
  AgentRegistry.SaveAgent ctx a := store_call ctx (λ e, SaveAgent e a);
  AgentRegistry.GetAgent ctx id := store_call ctx (λ e, GetAgent e id);
  AgentRegistry.ListAgents ctx := store_range ctx ListAgents;
  AgentRegistry.SaveCredential ctx c := store_call ctx (λ e, SaveCredential e c);
  AgentRegistry.GetCredential ctx t := store_call ctx (λ e, GetCredential e t);
  AgentRegistry.TouchHeartbeat ctx id t := store_call ctx (λ e, TouchHeartbeat e id t);
  AgentRegistry.SaveAcknowledgement ctx k := store_call ctx (λ e, SaveAcknowledgement e k) |}.

End AgentStore.
