(* ===== verification/AgentSpec.v ===== *)
(** What the agent registry promises: the laws of its store over an abstract
    view, the specifications of the service operations, and the proof that the
    in-memory store obeys the laws. *)

From Stdlib Require Import ZArith Lia.
From S2P Require Import Prelude GoLib Sha256 Host Domain AgentRegistry AgentStore.
Import Domain AgentRegistry.
Open Scope string_scope.
Open Scope list_scope.
Open Scope Z_scope.

Module AgentSpec.

Record AgentView := MkAgentView {
  av_agents : gmap string Agent;
  av_credentials : gmap string AgentCredential;
  av_acks : gmap string AgentAcknowledgement }.

Definition put_agent (a : Agent) (v : AgentView) : AgentView :=
  MkAgentView (<[a_ID a := a]> (av_agents v)) (av_credentials v) (av_acks v).
Definition put_credential (c : AgentCredential) (v : AgentView) : AgentView :=
  MkAgentView (av_agents v) (<[c_Token c := c]> (av_credentials v)) (av_acks v).
Definition put_ack (k : AgentAcknowledgement) (v : AgentView) : AgentView :=
  MkAgentView (av_agents v) (av_credentials v) (<[k_ID k := k]> (av_acks v)).

(** The order of [ListAgents]. *)
Definition by_id (a b : Agent) : Prop := String.le (a_ID a) (a_ID b).

Class StoreLaws (W : Type) `{Store W} (failure : Context → error → Prop)
    (agent_inv : W → Prop) (agent_view : W → AgentView) := {
  law_failure : ∀ ctx e, failure ctx e → errors_Is e ErrNotFound = false;
  law_agent_id : ∀ w id a, agent_inv w → av_agents (agent_view w) !! id = Some a → a_ID a = id;
  law_SaveAgent : ∀ ctx a w, agent_inv w →
    wp (SaveAgent ctx a) (λ r w', agent_inv w' ∧
      match r with
      | Ok _ => agent_view w' = put_agent a (agent_view w)
      | Err e => agent_view w' = agent_view w ∧ failure ctx e
      end) w;
  law_GetAgent : ∀ ctx id w, agent_inv w →
    wp (GetAgent ctx id) (λ r w', agent_inv w' ∧ agent_view w' = agent_view w ∧
      match r with
      | Ok a => av_agents (agent_view w) !! id = Some a
      | Err e => failure ctx e ∨
                 errors_Is e ErrNotFound = true ∧ av_agents (agent_view w) !! id = None
      end) w;
  law_ListAgents : ∀ ctx w, agent_inv w →
    wp (ListAgents ctx) (λ r w', agent_inv w' ∧ agent_view w' = agent_view w ∧
      match r with
      | Ok l => StronglySorted by_id l ∧ NoDup (a_ID <$> l) ∧
                ∀ a, a ∈ l ↔ av_agents (agent_view w) !! a_ID a = Some a
      | Err e => failure ctx e
      end) w;
  law_SaveCredential : ∀ ctx c w, agent_inv w →
    wp (SaveCredential ctx c) (λ r w', agent_inv w' ∧
      match r with
      | Ok _ => agent_view w' = put_credential c (agent_view w)
      | Err e => agent_view w' = agent_view w ∧ failure ctx e
      end) w;
  law_GetCredential : ∀ ctx token w, agent_inv w →
    wp (GetCredential ctx token) (λ r w', agent_inv w' ∧ agent_view w' = agent_view w ∧
      match r with
      | Ok c => av_credentials (agent_view w) !! token = Some c
      | Err e => failure ctx e ∨
                 errors_Is e ErrNotFound = true ∧ av_credentials (agent_view w) !! token = None
      end) w;
  law_TouchHeartbeat : ∀ ctx id seenAt w, agent_inv w →
    wp (TouchHeartbeat ctx id seenAt) (λ r w', agent_inv w' ∧
      match r with
      | Ok a => ∃ a0, av_agents (agent_view w) !! id = Some a0 ∧ a = AgentStore.set_seen a0 seenAt ∧
                      agent_view w' = put_agent a (agent_view w)
      | Err e => agent_view w' = agent_view w ∧
                 (failure ctx e ∨
                  errors_Is e ErrNotFound = true ∧ av_agents (agent_view w) !! id = None)
      end) w;
  law_SaveAcknowledgement : ∀ ctx k w, agent_inv w →
    wp (SaveAcknowledgement ctx k) (λ r w', agent_inv w' ∧
      match r with
      | Ok _ => agent_view w' = put_ack k (agent_view w)
      | Err e => agent_view w' = agent_view w ∧ failure ctx e
      end) w }.

(** * The service over a lawful store *)

Section Service.
Context {W : Type} `{Env W, !Store W} (failure : Context → error → Prop)
  (agent_inv : W → Prop) (agent_view : W → AgentView) `{!StoreLaws W failure agent_inv agent_view}.
Context (frame : ∀ v, HostFrame (λ w, agent_inv w ∧ agent_view w = v)).
Context (s : Service).

Lemma wp_agent_clock (Q : res Time → W → Prop) w :
  agent_inv w → (∀ t w', agent_view w' = agent_view w → agent_inv w' → Q (Ok t) w') → wp now Q w.
Proof.
  intros Hi HQ. eapply (wp_now _ (HostFrame0 := frame (agent_view w))); [done|].
  intros t w' [? ?]. by apply HQ.
Qed.

Lemma wp_agent_id prefix (Q : res string → W → Prop) w :
  agent_inv w →
  (∀ b w', agent_view w' = agent_view w → agent_inv w' →
     Q (Ok (prefix +:+ "_" +:+ Sha256.hex_encode b)%string) w') →
  wp (random_id prefix) Q w.
Proof.
  intros Hi HQ. eapply (wp_random_id _ (HostFrame0 := frame (agent_view w))); [done|].
  intros t w' [? ?]. by apply HQ.
Qed.

(** A token is accepted exactly when its credential exists and had not
    expired at the moment of the check. *)
Lemma Verify_spec ctx token w :
  agent_inv w →
  wp (Svc.Verify ctx token) (λ r w', agent_inv w' ∧ agent_view w' = agent_view w ∧
    match r with
    | Ok agentID => blank token = false ∧ ∃ c checked,
        av_credentials (agent_view w) !! token = Some c ∧ c_AgentID c = agentID ∧
        checked < c_ExpiresAt c
    | Err e => failure ctx e ∨
        e = ErrUnauthorized ∧ (blank token = true ∨ av_credentials (agent_view w) !! token = None) ∨
        e = ErrExpiredCredential ∧ ∃ c checked,
          av_credentials (agent_view w) !! token = Some c ∧ c_ExpiresAt c ≤ checked
    end) w.
Proof.
  intros Hi. unfold Svc.Verify. wp_step. wp_step; [by auto 10|].
  wp_step. wp_step. wp_call law_GetCredential; [done|]. intros [c|e] w1 (Hi1 & Hv1 & Hr).
  - wp_step. apply wp_agent_clock; [done|]. intros t w2 Hv2 Hi2. wp_step. wp_step.
    + unfold time_After in H1. split_and!; [done|congruence|].
      right; right. split; [done|]. exists c, t. split; [done|lia].
    + apply wp_ret. unfold time_After in H1. split_and!; [done|congruence|done|].
      exists c, t. split_and!; [done..|lia].
  - wp_step. wp_step.
    + destruct Hr as [Hf|[_ Hnone]]; [|by auto 10].
      by rewrite (law_failure _ _ Hf) in H1.
    + apply wp_throw. destruct Hr as [Hf|[He _]]; [by auto|congruence].
Qed.

(** Only the holder of an agent's credential moves its heartbeat. *)
Lemma Heartbeat_spec ctx agentID token w :
  agent_inv w →
  wp (Svc.Heartbeat ctx agentID token) (λ r w', agent_inv w' ∧
    match r with
    | Ok a => ∃ c checked a0 seenAt,
        av_credentials (agent_view w) !! token = Some c ∧ c_AgentID c = agentID ∧
        checked < c_ExpiresAt c ∧
        av_agents (agent_view w) !! agentID = Some a0 ∧ a = AgentStore.set_seen a0 seenAt ∧
        agent_view w' = put_agent a (agent_view w)
    | Err _ => agent_view w' = agent_view w
    end) w.
Proof.
  intros Hi. unfold Svc.Heartbeat. wp_step. wp_call Verify_spec; [done|].
  intros [subject|e] w1 (Hi1 & Hv1 & Hr); [|done].
  destruct Hr as (_ & c & checked & Hc & <- & Hlt).
  wp_step. wp_step; [done|]. apply negb_false_iff, bool_decide_eq_true in H0 as <-.
  wp_step. apply wp_agent_clock; [done|]. intros t w2 Hv2 Hi2.
  wp_call law_TouchHeartbeat; [done|]. rewrite Hv2, Hv1. intros [a|e] w3 [Hi3 Hr].
  - destruct Hr as (a0 & Ha0 & -> & Hv3). split; [done|]. by exists c, checked, a0, t.
  - split; [done|]. destruct Hr. congruence.
Qed.

(** An acknowledgement is recorded for the agent that holds the token. *)
Lemma Acknowledge_spec ctx input w :
  agent_inv w →
  wp (Svc.Acknowledge ctx input) (λ r w', agent_inv w' ∧
    match r with
    | Ok k => ∃ c checked,
        av_credentials (agent_view w) !! ai_Token input = Some c ∧
        c_AgentID c = ai_AgentID input ∧ checked < c_ExpiresAt c ∧
        k_AgentID k = ai_AgentID input ∧ k_VersionID k = ai_VersionID input ∧
        k_ConfigDefinitionID k = ai_ConfigDefinitionID input ∧
        k_SnapshotRevision k = ai_SnapshotRevision input ∧ 1 ≤ k_SnapshotRevision k ∧
        agent_view w' = put_ack k (agent_view w)
    | Err _ => agent_view w' = agent_view w
    end) w.
Proof.
  intros Hi. unfold Svc.Acknowledge. wp_step. wp_call Verify_spec; [done|].
  intros [subject|e] w1 (Hi1 & Hv1 & Hr); [|done].
  destruct Hr as (_ & c & checked & Hc & <- & Hlt).
  wp_step. wp_step; [done|]. apply negb_false_iff, bool_decide_eq_true in H0.
  wp_step. wp_step; [done|].
  wp_step. apply wp_agent_id; [done|]. intros id w2 Hv2 Hi2.
  wp_step. apply wp_agent_clock; [done|]. intros t w3 Hv3 Hi3. cbv zeta.
  wp_step. wp_call law_SaveAcknowledgement; [done|]. rewrite Hv3, Hv2, Hv1.
  intros [[]|e] w4 [Hi4 Hr].
  - apply wp_ret. split; [done|]. exists c, checked. simpl. split_and!; try done.
    rewrite orb_false_iff in H1. destruct H1 as [_ H1]. lia.
  - split; [done|]. by destruct Hr.
Qed.

(** Registration requires the bootstrap token when one is configured; it
    stores the agent, then a credential for it that lives for the configured
    time.  A failure between the two writes leaves the agent alone. *)
Lemma Register_spec ctx input w :
  agent_inv w →
  wp (Svc.Register s ctx input) (λ r w', agent_inv w' ∧
    match r with
    | Ok rr =>
        (svc_bootstrapToken s = "" ∨ ri_BootstrapToken input = svc_bootstrapToken s) ∧
        is_ok (Environment_Validate (ri_Environment input)) = true ∧
        (ri_ID input ≠ "" → a_ID (rr_Agent rr) = ri_ID input) ∧
        c_AgentID (rr_Credential rr) = a_ID (rr_Agent rr) ∧
        blank (c_Token (rr_Credential rr)) = false ∧
        c_ExpiresAt (rr_Credential rr) = c_CreatedAt (rr_Credential rr) + svc_credentialTTL s ∧
        agent_view w' = put_credential (rr_Credential rr) (put_agent (rr_Agent rr) (agent_view w))
    | Err e => agent_view w' = agent_view w ∨
               failure ctx e ∧ ∃ a, agent_view w' = put_agent a (agent_view w)
    end) w.
Proof.
  intros Hi. unfold Svc.Register. wp_step. wp_step; [by auto|]. rename H0 into Htok.
  wp_step. wp_step; [by auto|]. wp_step. wp_step; [by auto|].
  destruct (Environment_Validate _) as [[]|]; [|apply wp_throw; by auto].
  wp_step. apply wp_agent_clock; [done|]. intros t w1 Hv1 Hi1.
  assert (∀ Q : res string → W → Prop,
    (∀ id w', (ri_ID input ≠ "" → id = ri_ID input) → agent_view w' = agent_view w1 → agent_inv w' → Q (Ok id) w') →
    wp (if empty_str (ri_ID input) then Svc.randomID "agent" else mret (ri_ID input)) Q w1) as Hid.
  { intros Q HQ. destruct (empty_str (ri_ID input)) eqn:E.
    - apply empty_str_true in E. apply wp_agent_id; [done|]. intros. by apply HQ.
    - by apply wp_ret, HQ. }
  wp_step. apply Hid. clear Hid. intros agentID w2 Hid Hv2 Hi2. cbv zeta.
  wp_step. apply wp_agent_id; [done|]. intros token w3 Hv3 Hi3.
  wp_step. wp_call law_SaveAgent; [done|]. rewrite Hv3, Hv2, Hv1.
  intros [[]|e] w4 [Hi4 Hv4]; [|by destruct Hv4; auto].
  wp_step. wp_call law_SaveCredential; [done|]. rewrite Hv4.
  intros [[]|e] w5 [Hi5 Hv5].
  - apply wp_ret. split; [done|]. simpl. split_and!; try done.
    apply andb_false_iff in Htok as [Htok|Htok]; apply negb_false_iff in Htok.
    + left. by apply empty_str_true.
    + right. by apply bool_decide_eq_true in Htok.
  - destruct Hv5. split; [done|]. right. eauto.
Qed.

End Service.

(** * The in-memory store *)

Section Memory.
Import AgentStore.

Definition mem_view (s : MemoryStore) : AgentView :=
  MkAgentView (ms_agents s) (ms_credentials s) (ms_acknowledgements s).

Definition mem_ok (s : MemoryStore) : Prop :=
  ∀ id a, ms_agents s !! id = Some a → a_ID a = id.

Lemma agents_mem_New : mem_ok NewMemoryStore.
Proof. intros id a. unfold NewMemoryStore; simpl. by rewrite lookup_empty. Qed.

Lemma mem_ok_insert s a : mem_ok s → mem_ok (set_agents s (<[a_ID a := a]> (ms_agents s))).
Proof. intros Hs id a'. simpl. intros [[<- <-]|[_ ?]]%lookup_insert_Some; auto. Qed.

Lemma agent_cmp_le a b : agent_cmp a b ≤ 0 ↔ by_id a b.
Proof.
  unfold agent_cmp, by_id. destruct (str_lt (a_ID a) (a_ID b)) eqn:H1.
  { apply str_lt_le in H1. split; [done|lia]. }
  destruct (str_lt (a_ID b) (a_ID a)) eqn:H2.
  - split; [lia|]. intros Hle. by rewrite (proj2 (str_not_lt _ _) Hle) in H2.
  - rewrite str_not_lt in H2. split; [done|lia].
Qed.

Abbreviation agent_le := (λ a b, Is_true (agent_cmp a b <=? 0)).

Lemma agent_le_by_id a b : agent_le a b ↔ by_id a b.
Proof. rewrite Is_true_true, Z.leb_le. apply agent_cmp_le. Qed.

#[local] Instance agent_le_trans : Transitive agent_le.
Proof. intros a b c. rewrite !agent_le_by_id. apply (transitivity (R := String.le)). Qed.
#[local] Instance agent_le_total : Total agent_le.
Proof. intros a b. rewrite !agent_le_by_id. apply (total String.le). Qed.

Section methods.
Context (ctx : Context) (e : option ctx_error) (He : ctx_answer ctx e).
Abbreviation err := (ctx_cause <$> e).
#[local] Ltac start := method_start He.

Lemma ListAgents_law range s : range_ok range → mem_ok s →
  wp (ListAgents err range) (λ r s', mem_ok s' ∧ mem_view s' = mem_view s ∧
    match r with
    | Ok l => StronglySorted by_id l ∧ NoDup (a_ID <$> l) ∧
              ∀ a, a ∈ l ↔ ms_agents s !! a_ID a = Some a
    | Err er => interrupted ctx er
    end) s.
Proof.
  intros Hr Hs. unfold ListAgents. start. apply wp_ret.
  rewrite clone_agents_id. split_and!; [done..| | |].
  - eapply StronglySorted_weaken; [intros a b; apply agent_le_by_id|apply SortFunc_sorted; apply _].
  - rewrite SortFunc_perm. apply NoDup_map_values; [done|].
    intros k k' a a' Ha Ha' Heq. by rewrite <-(Hs _ _ Ha), <-(Hs _ _ Ha').
  - intros a. rewrite SortFunc_perm, elem_of_map_values by done. split; [|eauto].
    intros [k Hk]. by rewrite (Hs _ _ Hk).
Qed.

Lemma TouchHeartbeat_law id seenAt s : mem_ok s →
  wp (TouchHeartbeat err id seenAt) (λ r s', mem_ok s' ∧
    match r with
    | Ok a => ∃ a0, ms_agents s !! id = Some a0 ∧ a = set_seen a0 seenAt ∧
                    mem_view s' = put_agent a (mem_view s)
    | Err er => mem_view s' = mem_view s ∧
        (interrupted ctx er ∨ errors_Is er ErrNotFound = true ∧ ms_agents s !! id = None)
    end) s.
Proof.
  intros Hs. unfold TouchHeartbeat. start. destruct (ms_agents s !! id) as [a|] eqn:Ha.
  - unfold wp; simpl. rewrite clone_agent_id. pose proof (Hs _ _ Ha) as Hid.
    change (a_ID a) with (a_ID (set_seen a seenAt)) in Hid. rewrite <-Hid.
    split; [by apply mem_ok_insert|]. by exists a.
  - apply wp_throw. auto.
Qed.

Lemma GetAgent_law id s : mem_ok s →
  wp (GetAgent err id) (λ r s', mem_ok s' ∧ mem_view s' = mem_view s ∧
    match r with
    | Ok a => ms_agents s !! id = Some a
    | Err er => interrupted ctx er ∨ errors_Is er ErrNotFound = true ∧ ms_agents s !! id = None
    end) s.
Proof. intros Hs. unfold GetAgent. start. wp_run; rewrite ?clone_agent_id; auto. Qed.

Lemma GetCredential_law token s : mem_ok s →
  wp (GetCredential err token) (λ r s', mem_ok s' ∧ mem_view s' = mem_view s ∧
    match r with
    | Ok c => ms_credentials s !! token = Some c
    | Err er => interrupted ctx er ∨
                errors_Is er ErrNotFound = true ∧ ms_credentials s !! token = None
    end) s.
Proof. intros Hs. unfold GetCredential. start. wp_run; auto. Qed.

Lemma SaveAgent_law a s : mem_ok s →
  wp (SaveAgent err a) (λ r s', mem_ok s' ∧
    match r with
    | Ok _ => mem_view s' = put_agent a (mem_view s)
    | Err er => mem_view s' = mem_view s ∧ interrupted ctx er
    end) s.
Proof.
  intros Hs. unfold SaveAgent. start. unfold wp; simpl. rewrite clone_agent_id.
  split; [by apply mem_ok_insert|done].
Qed.

Lemma SaveCredential_law c s : mem_ok s →
  wp (SaveCredential err c) (λ r s', mem_ok s' ∧
    match r with
    | Ok _ => mem_view s' = put_credential c (mem_view s)
    | Err er => mem_view s' = mem_view s ∧ interrupted ctx er
    end) s.
Proof. intros Hs. unfold SaveCredential. start. by unfold wp. Qed.

Lemma SaveAcknowledgement_law k s : mem_ok s →
  wp (SaveAcknowledgement err k) (λ r s', mem_ok s' ∧
    match r with
    | Ok _ => mem_view s' = put_ack k (mem_view s)
    | Err er => mem_view s' = mem_view s ∧ interrupted ctx er
    end) s.
Proof. intros Hs. unfold SaveAcknowledgement. start. by unfold wp. Qed.

End methods.

Context {W : Type} `{Env W, !EnvLaws W, Has MemoryStore W, !HasLaws MemoryStore W,
  !HostApart MemoryStore W}.

Definition agent_inv (w : W) : Prop := mem_ok (part w).
Definition agent_view (w : W) : AgentView := mem_view (part w).

#[export] Instance memory_laws : StoreLaws W interrupted agent_inv agent_view.
Proof.
  split.
  - intros ctx e (n & c & _ & ->). by destruct c.
  - intros w id a Hi Ha. by apply Hi.
  - method_law SaveAgent_law.
  - method_law GetAgent_law.
  - method_law ListAgents_law.
  - method_law SaveCredential_law.
  - method_law GetCredential_law.
  - method_law TouchHeartbeat_law.
  - method_law SaveAcknowledgement_law.
Qed.

End Memory.
End AgentSpec.
