(* ===== verification/Rollout.v ===== *)
(** [internal/rollout], the pure part: states and transitions, stage plans,
    deterministic bucketing, stage target cohorts, acknowledgement coverage,
    the stage decision and the version an agent is served. *)

From Stdlib Require Import ZArith Lia SpecFloat.
From S2P Require Import Prelude GoLib Sha256 Domain Guardrail.
Import Domain.
Open Scope string_scope.
Open Scope list_scope.
Open Scope Z_scope.

Module Rollout.

(** [src/internal/rollout/errors.go:6-6] ErrAlreadyExists *)
Definition ErrAlreadyExists := ESentinel "rollout.ErrAlreadyExists" "already exists".
(** [src/internal/rollout/errors.go:7-7] ErrNotFound *)
Definition ErrNotFound := ESentinel "rollout.ErrNotFound" "not found".
(** [src/internal/rollout/errors.go:8-8] ErrInvalidInput *)
Definition ErrInvalidInput := ESentinel "rollout.ErrInvalidInput" "invalid input".
(** [src/internal/rollout/errors.go:9-9] ErrConflict *)
Definition ErrConflict := ESentinel "rollout.ErrConflict" "conflict".

(** * state.go *)

(** [StateUnset] is [""], the zero value of the string type, which a missing
    map entry yields; the other constructors are the declared constants. *)
(** [src/internal/rollout/state.go:5-19] State *)
Inductive State :=
| StateUnset
| StatePending | StateValidating | StateReady | StateDeploying | StateEvaluating
| StatePromoting | StatePaused | StateCompleted | StateRollingBack | StateRolledBack
| StateFailed.

#[export] Instance state_eq_dec : EqDecision State.
Proof. solve_decision. Defined.

(** [src/internal/rollout/state.go:7-19] State *)
Definition State_string (s : State) : string :=
  match s with
  | StateUnset => ""
  | StatePending => "PENDING" | StateValidating => "VALIDATING" | StateReady => "READY"
  | StateDeploying => "DEPLOYING" | StateEvaluating => "EVALUATING"
  | StatePromoting => "PROMOTING" | StatePaused => "PAUSED" | StateCompleted => "COMPLETED"
  | StateRollingBack => "ROLLING_BACK" | StateRolledBack => "ROLLED_BACK"
  | StateFailed => "FAILED"
  end.

(** [src/internal/rollout/state.go:21-53] allowedTransitions *)
Definition allowedTransitions (from : State) : option (list State) :=
  match from with
  | StatePending => Some [StateValidating]
  | StateValidating => Some [StateReady]
  | StateReady => Some [StateDeploying]
  | StateDeploying => Some [StateEvaluating; StatePaused; StateRollingBack]
  | StateEvaluating => Some [StatePromoting; StatePaused; StateRollingBack; StateCompleted]
  | StatePromoting => Some [StateDeploying; StateRollingBack]
  | StatePaused => Some [StateEvaluating; StateRollingBack]
  | StateRollingBack => Some [StateRolledBack]
  | StateUnset | StateCompleted | StateRolledBack | StateFailed => None
  end.

(** [src/internal/rollout/state.go:55-62] CanTransition *)
Definition CanTransition (from to : State) : bool :=
  match allowedTransitions from with
  | None => false
  | Some next => existsb (λ s, bool_decide (s = to)) next
  end.

(** [src/internal/rollout/state.go:64-69] Transition *)
Definition Transition (from to : State) : res unit :=
  if CanTransition from to then mret tt
  else mthrow (EText "invalid rollout state transition: %s -> %s"
                     [State_string from; State_string to]).

(** [src/internal/rollout/state.go:71-73] State.Terminal *)
Definition Terminal (s : State) : bool :=
  bool_decide (s = StateCompleted) || bool_decide (s = StateRolledBack)
  || bool_decide (s = StateFailed).

(** * stage.go *)

(** [src/internal/rollout/stage.go:8-12] Stage *)
Record Stage := MkStage {
  s_ID : string;
  s_Percentage : Z;
  s_MinimumDuration : Duration }.

(** [src/internal/rollout/stage.go:14-20] DefaultStagePlan *)
Definition DefaultStagePlan : list Stage :=
  [ MkStage "stage-5" 5 Minute;
    MkStage "stage-25" 25 (2 * Minute);
    MkStage "stage-100" 100 (3 * Minute) ].

(** [src/internal/rollout/stage.go:27-39] ValidateStagePlan *)
Fixpoint ValidateStagePlan_loop (stages : list Stage) (previous : Z) : res unit :=
  match stages with
  | [] => mret tt
  | stage :: rest =>
      guard_err (empty_str (s_ID stage)) (EText "stage id is required" []);;
      guard_err ((s_Percentage stage <=? 0) || (100 <? s_Percentage stage))
                (EText "invalid stage percentage: %d" [pretty (s_Percentage stage)]);;
      guard_err (s_Percentage stage <=? previous)
                (EText "stage percentages must increase" []);;
      ValidateStagePlan_loop rest (s_Percentage stage)
  end.

(** [src/internal/rollout/stage.go:22-45] ValidateStagePlan *)
Definition ValidateStagePlan (stages : list Stage) : res unit :=
  guard_err (Nat.eqb (length stages) 0) (EText "stage plan is required" []);;
  ValidateStagePlan_loop stages 0;;
  match stages !! Nat.pred (length stages) with
  | Some final => guard_err (negb (s_Percentage final =? 100))
                            (EText "final stage must be 100 percent" [])
  | None => mret tt
  end.

(** * bucket.go *)

(** [src/internal/rollout/bucket.go:9-9] BucketCount *)
Definition BucketCount : Z := 10000.

(** [src/internal/rollout/bucket.go:11-15] AssignmentKey *)
Record AssignmentKey := MkAssignmentKey {
  ak_ConfigDefinitionID : string;
  ak_CandidateVersionID : string;
  ak_AgentID : string }.

(** [src/internal/rollout/bucket.go:17-31] Bucket *)
Definition Bucket (key : AssignmentKey) : res Z :=
  guard_err (empty_str (ak_ConfigDefinitionID key))
            (EText "config definition id is required" []);;
  guard_err (empty_str (ak_CandidateVersionID key))
            (EText "candidate version id is required" []);;
  guard_err (empty_str (ak_AgentID key)) (EText "agent id is required" []);;
  let sum := Sha256.Sum256
               (nul_key (ak_ConfigDefinitionID key)
                  (nul_key (ak_CandidateVersionID key) (ak_AgentID key))) in
  let number := Sha256.be_number (firstn 8 sum) 0 in
  mret (Z.of_N number mod BucketCount).

(** [src/internal/rollout/bucket.go:33-41] Eligible *)
Definition Eligible (bucket percentage : Z) : bool :=
  if percentage <=? 0 then false
  else if 100 <=? percentage then (0 <=? bucket) && (bucket <? BucketCount)
  else (0 <=? bucket) && (bucket <? percentage * 100).

(** * target.go *)

(** [src/internal/rollout/target.go:12-17] TargetStatus *)
Inductive TargetStatus := TargetPending | TargetAcked.

#[export] Instance target_status_eq_dec : EqDecision TargetStatus.
Proof. solve_decision. Defined.

(** [src/internal/rollout/target.go:44-50] RollbackStatus *)
Inductive RollbackStatus := RollbackStatusNone | RollbackStatusVerified | RollbackStatusPartial.

(** [src/internal/rollout/target.go:44-50] RollbackStatus *)
Definition RollbackStatus_string (s : RollbackStatus) : string :=
  match s with
  | RollbackStatusNone => "" | RollbackStatusVerified => "VERIFIED"
  | RollbackStatusPartial => "PARTIAL"
  end.

(** [src/internal/rollout/target.go:19-42] Rollout *)
Record Rollout := MkRollout {
  r_ID : string;
  r_ConfigDefinitionID : string;
  r_TenantID : string;
  r_ConfigKey : string;
  r_Environment : Environment;
  r_TargetServices : list string;
  r_StableVersionID : string;
  r_CandidateVersionID : string;
  r_CandidateVersion : Z;
  r_State : State;
  r_CurrentStageID : string;
  r_CurrentStageIndex : Z;
  r_RequiredAckPercent : float64;
  r_Guardrails : list Guardrail.Rule;
  r_GuardrailFailures : gmap string Z;
  r_StageStartedAt : Time;
  r_DeploymentTimeout : Duration;
  r_RolloutMaxDuration : Duration;
  r_RollbackTimeout : Duration;
  r_RollbackStatus : RollbackStatus;
  r_CreatedAt : Time;
  r_UpdatedAt : Time }.

(** The zero value [Rollout{}]. *)
Definition zero_Rollout : Rollout :=
  MkRollout "" "" "" "" "" [] "" "" 0 StateUnset "" 0 f_zero [] ∅ 0 0 0 0
    RollbackStatusNone 0 0.

(** The assignments [rollout.F = x] of the service: every other field keeps
    its value. *)
Definition set_progress (r : Rollout) (state : State) (stageID : string) (stageIndex : Z)
    (startedAt : Time) (status : RollbackStatus) (updatedAt : Time) : Rollout :=
  MkRollout (r_ID r) (r_ConfigDefinitionID r) (r_TenantID r) (r_ConfigKey r)
    (r_Environment r) (r_TargetServices r) (r_StableVersionID r) (r_CandidateVersionID r)
    (r_CandidateVersion r) state stageID stageIndex (r_RequiredAckPercent r)
    (r_Guardrails r) (r_GuardrailFailures r) startedAt (r_DeploymentTimeout r)
    (r_RolloutMaxDuration r) (r_RollbackTimeout r) status (r_CreatedAt r) updatedAt.

Definition set_state (r : Rollout) (state : State) (updatedAt : Time) : Rollout :=
  set_progress r state (r_CurrentStageID r) (r_CurrentStageIndex r) (r_StageStartedAt r)
    (r_RollbackStatus r) updatedAt.

Definition set_failures (r : Rollout) (failures : gmap string Z) (updatedAt : Time) : Rollout :=
  MkRollout (r_ID r) (r_ConfigDefinitionID r) (r_TenantID r) (r_ConfigKey r)
    (r_Environment r) (r_TargetServices r) (r_StableVersionID r) (r_CandidateVersionID r)
    (r_CandidateVersion r) (r_State r) (r_CurrentStageID r) (r_CurrentStageIndex r)
    (r_RequiredAckPercent r) (r_Guardrails r) failures (r_StageStartedAt r)
    (r_DeploymentTimeout r) (r_RolloutMaxDuration r) (r_RollbackTimeout r)
    (r_RollbackStatus r) (r_CreatedAt r) updatedAt.

(** [src/internal/rollout/target.go:52-62] StageTarget *)
Record StageTarget := MkStageTarget {
  st_RolloutID : string;
  st_StageID : string;
  st_AgentID : string;
  st_Bucket : Z;
  st_ExpectedVersionID : string;
  st_SnapshotRevision : Z;
  st_CreatedAt : Time;
  st_AckedAt : Time;
  st_Status : TargetStatus }.

#[export] Instance stage_target_eq_dec : EqDecision StageTarget.
Proof. solve_decision. Defined.

(** [src/internal/rollout/target.go:64-70] BuildTargetsInput *)
Record BuildTargetsInput := MkBuildTargetsInput {
  bi_Rollout : Rollout;
  bi_Stage : Stage;
  bi_Agents : list Agent;
  bi_SnapshotRevision : Z;
  bi_CreatedAt : Time }.

(** [src/internal/rollout/target.go:90-113] BuildStageTargets *)
Fixpoint BuildStageTargets_loop (input : BuildTargetsInput) (agents : list Agent)
    : res (list StageTarget) :=
  match agents with
  | [] => mret []
  | agent :: rest =>
      bucket ← Bucket (MkAssignmentKey (r_ConfigDefinitionID (bi_Rollout input))
                         (r_CandidateVersionID (bi_Rollout input)) (a_ID agent));
      targets ← BuildStageTargets_loop input rest;
      if Eligible bucket (s_Percentage (bi_Stage input))
      then mret (MkStageTarget (r_ID (bi_Rollout input)) (s_ID (bi_Stage input)) (a_ID agent)
                   bucket (r_CandidateVersionID (bi_Rollout input)) (bi_SnapshotRevision input)
                   (bi_CreatedAt input) 0 TargetPending :: targets)
      else mret targets
  end.

(** [src/internal/rollout/target.go:115-129] BuildStageTargets *)
Definition target_cmp (a b : StageTarget) : Z :=
  if st_Bucket a <? st_Bucket b then -1
  else if st_Bucket b <? st_Bucket a then 1
  else if str_lt (st_AgentID a) (st_AgentID b) then -1
  else if str_lt (st_AgentID b) (st_AgentID a) then 1
  else 0.

(** [src/internal/rollout/target.go:72-132] BuildStageTargets *)
Definition BuildStageTargets (input : BuildTargetsInput) : res (list StageTarget) :=
  guard_err (empty_str (r_ID (bi_Rollout input))) (EText "rollout id is required" []);;
  guard_err (empty_str (r_ConfigDefinitionID (bi_Rollout input)))
            (EText "config definition id is required" []);;
  guard_err (empty_str (r_CandidateVersionID (bi_Rollout input)))
            (EText "candidate version id is required" []);;
  guard_err (empty_str (s_ID (bi_Stage input))) (EText "stage id is required" []);;
  guard_err (bi_SnapshotRevision input <? 1)
            (EText "snapshot revision must be positive" []);;
  targets ← BuildStageTargets_loop input (bi_Agents input);
  mret (SortFunc (λ a b, target_cmp a b <=? 0) targets).

(** [src/internal/rollout/target.go:134-141] Ack *)
Record Ack := MkAck {
  ack_RolloutID : string;
  ack_StageID : string;
  ack_AgentID : string;
  ack_VersionID : string;
  ack_SnapshotRevision : Z;
  ack_AckedAt : Time }.

(** [src/internal/rollout/target.go:150-155] ApplyAck *)
Definition ack_matches (target : StageTarget) (ack : Ack) : bool :=
  bool_decide (st_RolloutID target = ack_RolloutID ack)
  && bool_decide (st_StageID target = ack_StageID ack)
  && bool_decide (st_ExpectedVersionID target = ack_VersionID ack)
  && (st_SnapshotRevision target =? ack_SnapshotRevision ack).

(** [src/internal/rollout/target.go:161-162] ApplyAck *)
Definition mark_acked (target : StageTarget) (at_ : Time) : StageTarget :=
  MkStageTarget (st_RolloutID target) (st_StageID target) (st_AgentID target)
    (st_Bucket target) (st_ExpectedVersionID target) (st_SnapshotRevision target)
    (st_CreatedAt target) at_ TargetAcked.

(** The slice is updated in place; the model returns the slice the caller
    sees afterwards with the Boolean.  The error result is always [nil]. *)
(** [src/internal/rollout/target.go:143-167] ApplyAck *)
Fixpoint ApplyAck (targets : list StageTarget) (ack : Ack) : list StageTarget * bool :=
  match targets with
  | [] => ([], false)
  | target :: rest =>
      if negb (bool_decide (st_AgentID target = ack_AgentID ack))
      then let '(rest', counted) := ApplyAck rest ack in (target :: rest', counted)
      else if negb (ack_matches target ack) then (targets, false)
      else if decide (st_Status target = TargetAcked) then (targets, false)
      else (mark_acked target (ack_AckedAt ack) :: rest, true)
  end.

(** [src/internal/rollout/target.go:169-173] Coverage *)
Record Coverage := MkCoverage {
  cov_Total : Z;
  cov_Acked : Z;
  cov_Percentage : float64 }.

(** [src/internal/rollout/target.go:177-181] AcknowledgementCoverage *)
Fixpoint count_acked (targets : list StageTarget) : Z :=
  match targets with
  | [] => 0
  | target :: rest =>
      (if decide (st_Status target = TargetAcked) then 1 else 0) + count_acked rest
  end.

(** [src/internal/rollout/target.go:175-186] AcknowledgementCoverage *)
Definition AcknowledgementCoverage (targets : list StageTarget) : Coverage :=
  let total := Z.of_nat (length targets) in
  let acked := count_acked targets in
  MkCoverage total acked
    (if 0 <? total then f_mul (f_div (f_of_int acked) (f_of_int total)) (f_of_int 100)
     else f_zero).

(** [src/internal/rollout/target.go:188-194] CoverageReached *)
Definition CoverageReached (targets : list StageTarget) (requiredPercentage : float64) : bool :=
  let coverage := AcknowledgementCoverage targets in
  if cov_Total coverage =? 0 then false
  else f_le requiredPercentage (cov_Percentage coverage).

(** * promotion.go *)

(** [src/internal/rollout/promotion.go:5-12] StageDecision *)
Inductive StageDecision := DecisionWait | DecisionPromote | DecisionPause | DecisionRollback.

#[export] Instance decision_eq_dec : EqDecision StageDecision.
Proof. solve_decision. Defined.

(** [src/internal/rollout/promotion.go:5-12] StageDecision *)
Definition StageDecision_string (d : StageDecision) : string :=
  match d with
  | DecisionWait => "WAIT" | DecisionPromote => "PROMOTE"
  | DecisionPause => "PAUSE" | DecisionRollback => "ROLLBACK"
  end.

(** [src/internal/rollout/promotion.go:14-21] StageProgressInput *)
Record StageProgressInput := MkStageProgressInput {
  sp_Targets : list StageTarget;
  sp_RequiredAckPercentage : float64;
  sp_StageStartedAt : Time;
  sp_Now : Time;
  sp_MinimumDuration : Duration;
  sp_DeploymentTimeout : Duration }.

(** [src/internal/rollout/promotion.go:23-34] EvaluateStageProgress *)
Definition EvaluateStageProgress (input : StageProgressInput) : StageDecision :=
  let elapsed := time_Sub (sp_Now input) (sp_StageStartedAt input) in
  let coverageReached := CoverageReached (sp_Targets input) (sp_RequiredAckPercentage input) in
  if coverageReached && (sp_MinimumDuration input <=? elapsed) then DecisionPromote
  else if negb coverageReached && (0 <? sp_DeploymentTimeout input)
          && (sp_DeploymentTimeout input <=? elapsed) then DecisionRollback
  else DecisionWait.

(** * effective.go *)

(** [src/internal/rollout/effective.go:3-8] EffectiveVersion *)
Record EffectiveVersion := MkEffectiveVersion {
  ev_VersionID : string;
  ev_AssignedRollout : string;
  ev_AssignedStage : string;
  ev_SnapshotRevision : Z }.

(** [src/internal/rollout/effective.go:61-68] servesCandidate *)
Definition servesCandidate (state : State) : bool :=
  match state with
  | StateDeploying | StateEvaluating | StatePromoting | StatePaused => true
  | _ => false
  end.

(** [src/internal/rollout/effective.go:11-11] EffectiveVersionForAgent *)
Definition stable_version (rollout : Rollout) : EffectiveVersion :=
  MkEffectiveVersion (r_StableVersionID rollout) "" "" 0.

(** [src/internal/rollout/effective.go:22-27] EffectiveVersionForAgent *)
Definition target_current (rollout : Rollout) (agentID : string) (target : StageTarget) : bool :=
  bool_decide (st_AgentID target = agentID)
  && bool_decide (st_RolloutID target = r_ID rollout)
  && bool_decide (st_StageID target = r_CurrentStageID rollout).

(** [src/internal/rollout/effective.go:39-59] rollbackVerificationVersionForAgent *)
Fixpoint rollbackVerificationVersionForAgent (rollout : Rollout) (targets : list StageTarget)
    (agentID : string) : EffectiveVersion :=
  match targets with
  | [] => stable_version rollout
  | target :: rest =>
      if negb (target_current rollout agentID target)
      then rollbackVerificationVersionForAgent rollout rest agentID
      else if negb (bool_decide (st_ExpectedVersionID target = r_StableVersionID rollout))
           then stable_version rollout
           else MkEffectiveVersion (r_StableVersionID rollout) (st_RolloutID target)
                  (st_StageID target) (st_SnapshotRevision target)
  end.

(** [src/internal/rollout/effective.go:21-36] EffectiveVersionForAgent *)
Fixpoint candidateVersionForAgent (rollout : Rollout) (targets : list StageTarget)
    (agentID : string) : EffectiveVersion :=
  match targets with
  | [] => stable_version rollout
  | target :: rest =>
      if negb (target_current rollout agentID target)
      then candidateVersionForAgent rollout rest agentID
      else MkEffectiveVersion (st_ExpectedVersionID target) (st_RolloutID target)
             (st_StageID target) (st_SnapshotRevision target)
  end.

(** [src/internal/rollout/effective.go:10-37] EffectiveVersionForAgent *)
Definition EffectiveVersionForAgent (rollout : Rollout) (targets : list StageTarget)
    (agentID : string) : EffectiveVersion :=
  if decide (r_State rollout = StateRollingBack)
  then rollbackVerificationVersionForAgent rollout targets agentID
  else if negb (servesCandidate (r_State rollout)) then stable_version rollout
  else candidateVersionForAgent rollout targets agentID.

End Rollout.
