(* ===== verification/RolloutFacts.v ===== *)
(** What the pure part of [internal/rollout] guarantees: bucketing and cohorts,
    stage plans, acknowledgement counting and the stage decision. *)

From Stdlib Require Import ZArith Lia SpecFloat.
From S2P Require Import Prelude GoLib Sha256 Domain Guardrail Rollout.
Import Domain Rollout.
Open Scope string_scope.
Open Scope list_scope.
Open Scope Z_scope.

(** * State machine *)

Lemma Transition_ok from to u : Transition from to = Ok u ↔ CanTransition from to = true.
Proof. unfold Transition. destruct u, (CanTransition from to); split; done. Qed.

Lemma Terminal_spec s :
  Terminal s = true ↔ s = StateCompleted ∨ s = StateRolledBack ∨ s = StateFailed.
Proof. destruct s; unfold Terminal; simpl; intuition congruence. Qed.

(** * Buckets *)

Definition well_identified (cfg ver : string) : Prop := cfg ≠ "" ∧ ver ≠ "".

Lemma Bucket_ok_iff key :
  (∃ b, Bucket key = Ok b) ↔
  ak_ConfigDefinitionID key ≠ "" ∧ ak_CandidateVersionID key ≠ "" ∧ ak_AgentID key ≠ "".
Proof.
  unfold Bucket. rewrite !res_guard_bind. split.
  - intros [b Hb].
    destruct (empty_str (ak_ConfigDefinitionID key)) eqn:H1; [done|].
    destruct (empty_str (ak_CandidateVersionID key)) eqn:H2; [done|].
    destruct (empty_str (ak_AgentID key)) eqn:H3; [done|].
    by rewrite empty_str_false in H1, H2, H3.
  - rewrite <-!empty_str_false. intros (-> & -> & ->). eauto.
Qed.

Lemma Bucket_bounds key b : Bucket key = Ok b → 0 ≤ b < BucketCount.
Proof.
  unfold Bucket. intros H. res_ok H. subst b. by apply Z.mod_pos_bound.
Qed.

Lemma Eligible_mono b p q : p ≤ q → Eligible b p = true → Eligible b q = true.
Proof.
  unfold Eligible, BucketCount. intros Hpq.
  destruct (p <=? 0) eqn:?; [done|]. rewrite (proj2 (Z.leb_gt q 0)) by lia.
  destruct (100 <=? p) eqn:?, (100 <=? q) eqn:?; lia.
Qed.

Lemma Eligible_spec b p :
  Eligible b p = true ↔ 0 < p ∧ 0 ≤ b < Z.min BucketCount (p * 100).
Proof.
  unfold Eligible, BucketCount.
  destruct (p <=? 0) eqn:?, (100 <=? p) eqn:?; lia.
Qed.

(** * Stage plans *)

(** The percentages rise strictly from [previous] within (0, 100]. *)
Fixpoint rising (previous : Z) (stages : list Stage) : Prop :=
  match stages with
  | [] => True
  | s :: rest =>
      s_ID s ≠ "" ∧ 0 < s_Percentage s ≤ 100 ∧ previous < s_Percentage s
      ∧ rising (s_Percentage s) rest
  end.

Lemma ValidateStagePlan_loop_ok stages : ∀ previous u,
  ValidateStagePlan_loop stages previous = Ok u ↔ rising previous stages.
Proof.
  induction stages as [|s rest IH]; intros previous u; simpl.
  { destruct u. split; done. }
  rewrite !res_guard_bind.
  destruct (empty_str (s_ID s)) eqn:H1.
  { rewrite empty_str_true in H1. split; [done|]. by intros (? & _). }
  destruct ((s_Percentage s <=? 0) || (100 <? s_Percentage s)) eqn:H2.
  { split; [done|]. intros (_ & ? & _). lia. }
  destruct (s_Percentage s <=? previous) eqn:H3.
  { split; [done|]. intros (_ & _ & ? & _). lia. }
  rewrite IH. rewrite empty_str_false in H1. split; [|tauto].
  intros ?. repeat split; try done; lia.
Qed.

Definition plan_ok (stages : list Stage) : Prop :=
  rising 0 stages ∧ ∃ front final, stages = front ++ [final] ∧ s_Percentage final = 100.

Lemma ValidateStagePlan_plan_ok stages u :
  ValidateStagePlan stages = Ok u ↔ plan_ok stages.
Proof.
  destruct u. unfold ValidateStagePlan, plan_ok. rewrite res_guard_bind.
  destruct stages as [|s0 rest].
  { simpl. split; [done|]. intros (_ & front & final & Heq & _). by destruct front. }
  cbn [length Nat.eqb]. rewrite res_bind_ok.
  destruct (exists_last (l := s0 :: rest) ltac:(done)) as (front & final & Heq).
  rewrite Heq. replace (Nat.pred (S (length rest))) with (length front).
  2: { apply (f_equal length) in Heq. rewrite length_app in Heq. simpl in Heq. lia. }
  rewrite lookup_last_snoc. split.
  - intros (u & Hr & Hp). apply ValidateStagePlan_loop_ok in Hr.
    apply res_guard_ok in Hp. split; [done|]. exists front, final. split; [done|lia].
  - intros (Hr & front' & final' & Heq' & Hp). exists tt.
    apply app_inj_tail in Heq' as [<- <-].
    split; [by apply ValidateStagePlan_loop_ok|]. apply res_guard_ok. lia.
Qed.

(** A valid plan has at most one hundred stages, and percentages identify them. *)
Lemma rising_lookup previous stages i s :
  rising previous stages → stages !! i = Some s →
  previous + Z.of_nat i < s_Percentage s ≤ 100 ∧ s_ID s ≠ "".
Proof.
  revert previous i. induction stages as [|s0 rest IH]; intros previous i; [done|].
  intros (Hid & Hr & Hp & Hrest). destruct i as [|i]; simpl.
  - intros [= <-]. split; [lia|done].
  - intros Hl. destruct (IH _ _ Hrest Hl) as [? ?]. split; [lia|done].
Qed.

Lemma rising_lt previous stages i j si sj :
  rising previous stages → stages !! i = Some si → stages !! j = Some sj → (i < j)%nat →
  s_Percentage si < s_Percentage sj.
Proof.
  revert previous i j. induction stages as [|s0 rest IH]; intros previous i j; [done|].
  intros (_ & _ & _ & Hrest) Hi Hj Hlt. destruct j as [|j]; [lia|].
  destruct i as [|i]; simpl in *.
  - injection Hi as <-. destruct (rising_lookup _ _ _ _ Hrest Hj). lia.
  - eapply IH; eauto with lia.
Qed.

(** * Stage target cohorts *)

Lemma target_cmp_le a b :
  target_cmp a b ≤ 0 ↔
  st_Bucket a < st_Bucket b ∨
  (st_Bucket a = st_Bucket b ∧ String.le (st_AgentID a) (st_AgentID b)).
Proof.
  unfold target_cmp.
  destruct (st_Bucket a <? st_Bucket b) eqn:H1; [lia|].
  destruct (st_Bucket b <? st_Bucket a) eqn:H2; [lia|].
  destruct (str_lt (st_AgentID a) (st_AgentID b)) eqn:H3.
  { apply str_lt_le in H3. split; [intros _; right; split; [lia|done]|lia]. }
  destruct (str_lt (st_AgentID b) (st_AgentID a)) eqn:H4.
  - split; [lia|]. intros [?|[_ Hle]]; [lia|].
    by rewrite (proj2 (str_not_lt _ _) Hle) in H4.
  - rewrite str_not_lt in H3, H4. split; [intros _; right; split; [lia|done]|lia].
Qed.

Abbreviation target_le := (λ a b, Is_true (target_cmp a b <=? 0)).

Lemma target_le_spec a b : target_le a b ↔ target_cmp a b ≤ 0.
Proof. rewrite Is_true_true. apply Z.leb_le. Qed.

#[export] Instance target_le_trans : Transitive target_le.
Proof.
  intros a b c. rewrite !target_le_spec, !target_cmp_le.
  intros [?|[? ?]] [?|[? ?]]; [lia..|]. right. split; [lia|]. by etrans.
Qed.

#[export] Instance target_le_total : Total target_le.
Proof.
  intros a b. rewrite !target_le_spec, !target_cmp_le.
  destruct (total String.le (st_AgentID a) (st_AgentID b)); destruct (Z.lt_trichotomy (st_Bucket a) (st_Bucket b)) as [?|[?|?]]; auto.
Qed.

Lemma target_le_antisym_agent a b : target_le a b → target_le b a → st_AgentID a = st_AgentID b.
Proof.
  rewrite !target_le_spec, !target_cmp_le.
  intros [?|[? ?]] [?|[? ?]]; [lia..|]. by apply (anti_symm String.le).
Qed.

(** The target the loop builds for an agent, when it builds one. *)
Definition agent_bucket (input : BuildTargetsInput) (agent : Agent) : res Z :=
  Bucket (MkAssignmentKey (r_ConfigDefinitionID (bi_Rollout input))
            (r_CandidateVersionID (bi_Rollout input)) (a_ID agent)).

Definition target_of (input : BuildTargetsInput) (agent : Agent) (bucket : Z) : StageTarget :=
  MkStageTarget (r_ID (bi_Rollout input)) (s_ID (bi_Stage input)) (a_ID agent) bucket
    (r_CandidateVersionID (bi_Rollout input)) (bi_SnapshotRevision input)
    (bi_CreatedAt input) 0 TargetPending.

Definition agent_target (input : BuildTargetsInput) (agent : Agent) : option StageTarget :=
  match agent_bucket input agent with
  | Ok b => if Eligible b (s_Percentage (bi_Stage input)) then Some (target_of input agent b)
            else None
  | Err _ => None
  end.

Lemma BuildStageTargets_loop_cons input a agents :
  BuildStageTargets_loop input (a :: agents) =
  (_ ← agent_bucket input a;
   ts ← BuildStageTargets_loop input agents;
   mret (omap (agent_target input) [a] ++ ts)).
Proof.
  simpl. unfold agent_target. fold (agent_bucket input a).
  destruct (agent_bucket input a); [simpl|done].
  destruct (BuildStageTargets_loop input agents); [simpl|done].
  by destruct (Eligible _ _).
Qed.

Lemma omap_cons_app {A B} (f : A → option B) x l : omap f (x :: l) = omap f [x] ++ omap f l.
Proof. simpl. by destruct (f x). Qed.

Lemma BuildStageTargets_loop_omap input agents ts :
  BuildStageTargets_loop input agents = Ok ts → ts = omap (agent_target input) agents.
Proof.
  revert ts. induction agents as [|a agents IH]; intros ts.
  { by intros [= <-]. }
  rewrite BuildStageTargets_loop_cons. intros H. res_ok H. subst ts.
  rewrite (omap_cons_app _ a agents). f_equal. by apply IH.
Qed.

Lemma BuildStageTargets_loop_total input agents :
  r_ConfigDefinitionID (bi_Rollout input) ≠ "" →
  r_CandidateVersionID (bi_Rollout input) ≠ "" →
  Forall (λ a, a_ID a ≠ "") agents →
  BuildStageTargets_loop input agents = Ok (omap (agent_target input) agents).
Proof.
  intros Hc Hv. induction 1 as [|a agents Ha _ IH]; [done|].
  rewrite BuildStageTargets_loop_cons, IH, (omap_cons_app _ a agents).
  destruct (proj2 (Bucket_ok_iff (MkAssignmentKey (r_ConfigDefinitionID (bi_Rollout input))
    (r_CandidateVersionID (bi_Rollout input)) (a_ID a)))) as [b Hb]; [done|].
  unfold agent_bucket. by rewrite Hb.
Qed.

Lemma agent_target_agent input a t : agent_target input a = Some t → st_AgentID t = a_ID a.
Proof.
  unfold agent_target. destruct (agent_bucket input a); [|done].
  destruct (Eligible _ _); [|done]. by intros [= <-].
Qed.

Lemma omap_agent_target_NoDup input agents :
  NoDup (a_ID <$> agents) → NoDup (st_AgentID <$> omap (agent_target input) agents).
Proof.
  induction agents as [|a agents IH]; simpl; [constructor|].
  rewrite NoDup_cons. intros [Hni Hnd]. destruct (agent_target input a) as [t|] eqn:Ht; [|auto].
  simpl. apply NoDup_cons. split; [|auto].
  rewrite (agent_target_agent _ _ _ Ht). intros Hin. apply Hni.
  apply list_elem_of_fmap in Hin as (t' & Heq & Ht').
  apply list_elem_of_omap in Ht' as (a' & Ha' & Hta').
  rewrite Heq, (agent_target_agent _ _ _ Hta'). by apply list_elem_of_fmap_2.
Qed.

Lemma BuildStageTargets_ok input ts :
  BuildStageTargets input = Ok ts →
  ts = SortFunc (λ a b, target_cmp a b <=? 0) (omap (agent_target input) (bi_Agents input))
  ∧ r_ID (bi_Rollout input) ≠ "" ∧ s_ID (bi_Stage input) ≠ "" ∧ 1 ≤ bi_SnapshotRevision input.
Proof.
  unfold BuildStageTargets. intros H. res_ok H.
  rewrite empty_str_false in *. subst ts. split; [|repeat split; try done; lia].
  f_equal. by apply BuildStageTargets_loop_omap.
Qed.

Lemma BuildStageTargets_elem input ts t :
  BuildStageTargets input = Ok ts →
  t ∈ ts ↔ ∃ a, a ∈ bi_Agents input ∧ agent_target input a = Some t.
Proof.
  intros H. apply BuildStageTargets_ok in H as (-> & _).
  rewrite SortFunc_perm, list_elem_of_omap. done.
Qed.

Lemma BuildStageTargets_NoDup input ts :
  NoDup (a_ID <$> bi_Agents input) → BuildStageTargets input = Ok ts →
  NoDup (st_AgentID <$> ts).
Proof.
  intros Hnd H. apply BuildStageTargets_ok in H as (-> & _).
  rewrite SortFunc_perm. by apply omap_agent_target_NoDup.
Qed.

(** Every target the function builds carries the rollout, the stage, the
    candidate version and the revision of its input, and is pending. *)
Definition fresh_target (r : Rollout) (stageID : string) (rev : Z) (t : StageTarget) : Prop :=
  st_RolloutID t = r_ID r ∧ st_StageID t = stageID ∧
  st_ExpectedVersionID t = r_CandidateVersionID r ∧ st_SnapshotRevision t = rev ∧
  st_Status t = TargetPending ∧ 0 ≤ st_Bucket t < BucketCount.

Lemma BuildStageTargets_fresh input ts :
  BuildStageTargets input = Ok ts →
  Forall (fresh_target (bi_Rollout input) (s_ID (bi_Stage input)) (bi_SnapshotRevision input)) ts.
Proof.
  intros H. apply Forall_forall. intros t Ht.
  apply (BuildStageTargets_elem _ _ t H) in Ht as (a & _ & Ht).
  unfold agent_target in Ht. destruct (agent_bucket input a) as [b|] eqn:Hb; [|done].
  destruct (Eligible b _); [|done]. injection Ht as <-.
  unfold fresh_target; simpl. repeat (split; [done|]). by eapply Bucket_bounds.
Qed.

(** Agents that share the buckets of a key and the order of arrival. *)
Lemma agent_target_separated input x y :
  NoDup (a_ID <$> bi_Agents input) →
  x ∈ omap (agent_target input) (bi_Agents input) →
  y ∈ omap (agent_target input) (bi_Agents input) →
  target_le x y → target_le y x → x = y.
Proof.
  intros Hnd Hx Hy Hxy Hyx.
  eapply (NoDup_fmap_elem_inj st_AgentID); [|done|done|].
  - by apply omap_agent_target_NoDup.
  - by apply target_le_antisym_agent.
Qed.

(** * Acknowledgements *)

(** One target of the list becomes acknowledged, nothing else changes. *)
Inductive acks_one (agentID : string) (at_ : Time) : list StageTarget → list StageTarget → Prop :=
| acks_here t rest :
    st_AgentID t = agentID → st_Status t = TargetPending →
    acks_one agentID at_ (t :: rest) (mark_acked t at_ :: rest)
| acks_later t rest rest' :
    st_AgentID t ≠ agentID → acks_one agentID at_ rest rest' →
    acks_one agentID at_ (t :: rest) (t :: rest').

Lemma ApplyAck_counted ts ack ts' :
  ApplyAck ts ack = (ts', true) → acks_one (ack_AgentID ack) (ack_AckedAt ack) ts ts'.
Proof.
  revert ts'. induction ts as [|t ts IH]; intros ts'; simpl; [done|].
  case_bool_decide as Ha; simpl.
  - destruct (ack_matches t ack); simpl; [|done].
    case_decide as Hs; [done|]. intros [= <-]. constructor; [done|].
    by destruct (st_Status t).
  - destruct (ApplyAck ts ack) as [rest' counted]. intros [= <- ->].
    constructor; auto.
Qed.

Lemma ApplyAck_not_counted ts ack ts' : ApplyAck ts ack = (ts', false) → ts' = ts.
Proof.
  revert ts'. induction ts as [|t ts IH]; intros ts'; simpl; [by intros [= <-]|].
  case_bool_decide; simpl.
  - destruct (ack_matches t ack); simpl; [|by intros [= <-]].
    case_decide; [by intros [= <-]|done].
  - destruct (ApplyAck ts ack) as [rest' counted]. intros [= <- ->]. f_equal. auto.
Qed.

(** The acknowledgement counts exactly when the first target of the agent
    carries its identity and is pending. *)
Definition first_of (agentID : string) (ts : list StageTarget) : option StageTarget :=
  head (filter (λ t, st_AgentID t = agentID) ts).

Lemma ApplyAck_counts_iff ts ack :
  (ApplyAck ts ack).2 = true ↔
  ∃ t, first_of (ack_AgentID ack) ts = Some t ∧ ack_matches t ack = true
       ∧ st_Status t = TargetPending.
Proof.
  unfold first_of. induction ts as [|t ts IH]; simpl.
  { split; [done|]. by intros (? & ? & _). }
  rewrite filter_cons. case_bool_decide as Ha.
  - rewrite (decide_True (P := st_AgentID t = _)) by done. cbn [negb]. destruct (ack_matches t ack) eqn:Hm; cbn [negb].
    + destruct (st_Status t) eqn:Hs; simpl.
      * split; [|done]. intros _. by exists t.
      * split; [done|]. intros (? & [= <-] & _ & Hp). congruence.
    + simpl. split; [done|]. intros (? & [= <-] & ? & _). congruence.
  - rewrite (decide_False (P := st_AgentID t = _)) by done. rewrite <-IH. simpl. by destruct (ApplyAck ts ack).
Qed.

Lemma count_acked_bounds ts : 0 ≤ count_acked ts ≤ Z.of_nat (length ts).
Proof. induction ts; simpl; [lia|]. case_decide; lia. Qed.

Lemma acks_one_count agentID at_ ts ts' :
  acks_one agentID at_ ts ts' → count_acked ts' = count_acked ts + 1.
Proof. induction 1 as [t rest ? Hs|t rest rest' ? ? IH]; simpl; [rewrite Hs; simpl|]; lia. Qed.

Lemma acks_one_length agentID at_ ts ts' :
  acks_one agentID at_ ts ts' → length ts' = length ts.
Proof. induction 1; simpl; lia. Qed.

(** What never changes about a frozen target. *)
Definition target_key (t : StageTarget) : string * string * string * Z * string * Z * Time :=
  (st_RolloutID t, st_StageID t, st_AgentID t, st_Bucket t, st_ExpectedVersionID t,
   st_SnapshotRevision t, st_CreatedAt t).

Lemma acks_one_keys agentID at_ ts ts' :
  acks_one agentID at_ ts ts' → target_key <$> ts' = target_key <$> ts.
Proof. induction 1; simpl; by f_equal. Qed.

Lemma acks_one_mono agentID at_ ts ts' :
  acks_one agentID at_ ts ts' →
  Forall2 (λ t t', st_Status t = TargetAcked → t' = t) ts ts'.
Proof.
  induction 1; constructor; try done; [congruence|].
  by apply Forall_Forall2_diag, Forall_true.
Qed.

(** * The stage decision *)

Lemma EvaluateStageProgress_promote input :
  EvaluateStageProgress input = DecisionPromote ↔
  CoverageReached (sp_Targets input) (sp_RequiredAckPercentage input) = true ∧
  sp_MinimumDuration input ≤ time_Sub (sp_Now input) (sp_StageStartedAt input).
Proof.
  unfold EvaluateStageProgress. destruct (CoverageReached _ _); simpl.
  - destruct (Z.leb_spec (sp_MinimumDuration input) (time_Sub (sp_Now input) (sp_StageStartedAt input)));
      split; try done. intros [_ ?]. lia.
  - destruct ((0 <? _) && _); split; try done; by intros [? _].
Qed.

Lemma EvaluateStageProgress_rollback input :
  EvaluateStageProgress input = DecisionRollback ↔
  CoverageReached (sp_Targets input) (sp_RequiredAckPercentage input) = false ∧
  0 < sp_DeploymentTimeout input ≤ time_Sub (sp_Now input) (sp_StageStartedAt input).
Proof.
  unfold EvaluateStageProgress. destruct (CoverageReached _ _); simpl.
  - destruct (_ <=? _); split; try done; by intros [? _].
  - destruct (Z.ltb_spec 0 (sp_DeploymentTimeout input)),
      (Z.leb_spec (sp_DeploymentTimeout input) (time_Sub (sp_Now input) (sp_StageStartedAt input)));
      split; simpl; try done; intros [_ ?]; lia.
Qed.

Lemma EvaluateStageProgress_never_pauses input : EvaluateStageProgress input ≠ DecisionPause.
Proof. unfold EvaluateStageProgress. by repeat case_match. Qed.

(** * The version an agent is served *)

Lemma rollback_serves_stable r ts agentID :
  ev_VersionID (rollbackVerificationVersionForAgent r ts agentID) = r_StableVersionID r.
Proof.
  induction ts as [|t ts IH]; simpl; [done|].
  destruct (target_current r agentID t); simpl; [|done].
  by case_bool_decide.
Qed.

Lemma candidateVersion_cases r ts agentID :
  candidateVersionForAgent r ts agentID = stable_version r ∨
  ∃ t, t ∈ ts ∧ target_current r agentID t = true ∧
       candidateVersionForAgent r ts agentID =
       MkEffectiveVersion (st_ExpectedVersionID t) (st_RolloutID t) (st_StageID t)
         (st_SnapshotRevision t).
Proof.
  induction ts as [|t ts IH]; simpl; [auto|].
  destruct (target_current r agentID t) eqn:Hc; simpl.
  - right. exists t. split; [by left|done].
  - destruct IH as [?|(t' & ? & ?)]; [auto|]. right. exists t'. split; [by right|done].
Qed.

(** * Percentages

    [float64(k) / float64(n) * 100] in binary64: it is one hundred exactly when
    [k] is [n]. *)

Lemma digits_iter_xO p k :
  Zpos (digits2_pos (Nat.iter k xO p)) = Zpos (digits2_pos p) + Z.of_nat k.
Proof. induction k as [|k IH]; simpl; [lia|]. simpl in IH. lia. Qed.

Lemma Pos_iter_nat (k : positive) p :
  Pos.iter xO p k = Nat.iter (Pos.to_nat k) xO p.
Proof. apply Pos2Nat.inj_iter. Qed.

Lemma round_aux_exact m e :
  Zpos (digits2_pos m) = 53 → -1074 ≤ e ≤ 971 →
  binary_round_aux 53 1024 false (Zpos m) e loc_Exact = S754_finite false m e.
Proof.
  intros Hm He. unfold binary_round_aux, shr_fexp. cbn [Zdigits2].
  assert (fexp 53 1024 (Zpos (digits2_pos m) + e) - e = 0) as Hf.
  { unfold fexp, emin. lia. }
  rewrite Hf. cbn [shr shr_m loc_of_shr_record shr_record_of_loc round_nearest_even Zdigits2].
  rewrite Hf. cbn [shr shr_m shr_record_of_loc].
  by rewrite (proj2 (Z.leb_le e (1024 - 53))) by lia.
Qed.

Lemma digits_bound p n : Zpos p < 2 ^ Z.of_nat n → Zpos (digits2_pos p) ≤ Z.of_nat n.
Proof.
  revert n. induction p as [p IH|p IH|]; intros [|n] H; try (simpl in H; lia);
    rewrite Nat2Z.inj_succ, Z.pow_succ_r in H by lia; simpl digits2_pos;
    rewrite ?Pos2Z.inj_succ.
  - specialize (IH n ltac:(lia)). lia.
  - specialize (IH n ltac:(lia)). lia.
  - lia.
Qed.

Lemma digits_spec p : 2 ^ (Zpos (digits2_pos p) - 1) ≤ Zpos p < 2 ^ Zpos (digits2_pos p).
Proof.
  induction p as [p IH|p IH|]; cbn [digits2_pos]; [..|done];
    rewrite Pos2Z.inj_succ, Z.pow_succ_r by lia;
    replace (Z.succ (Zpos (digits2_pos p)) - 1) with (Z.succ (Zpos (digits2_pos p) - 1)) by lia;
    rewrite Z.pow_succ_r by lia; lia.
Qed.

Lemma digits_unique p d : 2 ^ (d - 1) ≤ Zpos p < 2 ^ d → Zpos (digits2_pos p) = d.
Proof.
  intros [Hlo Hhi]. pose proof (digits_spec p) as [Hlo' Hhi'].
  destruct (Z.lt_trichotomy (Zpos (digits2_pos p)) d) as [Hd|[Hd|Hd]]; [|done|].
  - pose proof (Z.pow_le_mono_r 2 (Zpos (digits2_pos p)) (d - 1)). lia.
  - pose proof (Z.pow_le_mono_r 2 d (Zpos (digits2_pos p) - 1)). lia.
Qed.

(** Counts of at most 53 binary digits convert exactly. *)
Lemma f_of_int_norm p : Zpos p < 2 ^ 53 → ∃ m e, f_of_int (Zpos p) = S754_finite false m e ∧
  2 ^ 52 ≤ Zpos m < 2 ^ 53 ∧ -52 ≤ e ≤ 0 ∧ Zpos m = Zpos p * 2 ^ (- e).
Proof.
  intros Hp. pose proof (digits_bound p 53 Hp) as Hd. change (Z.of_nat 53) with 53 in Hd.
  assert (∃ m e, f_of_int (Zpos p) = S754_finite false m e ∧ Zpos (digits2_pos m) = 53 ∧
    -52 ≤ e ≤ 0 ∧ Zpos m = Zpos p * 2 ^ (- e)) as (m & e & Hf & Hm & He & Heq).
  2: { exists m, e. split; [done|]. split; [|by split]. pose proof (digits_spec m) as Hs. by rewrite Hm in Hs. }
  unfold f_of_int, binary_normalize, binary_round, shl_align.
  replace (fexp 53 1024 (Zpos (digits2_pos p) + 0)) with (Zpos (digits2_pos p) - 53)
    by (unfold fexp, emin; lia).
  destruct (Zpos (digits2_pos p) - 53 - 0) as [|k|k] eqn:Hk; [|lia|].
  - exists p, 0. split; [apply round_aux_exact; lia|]. split; [lia|]. split; [lia|]. cbn. lia.
  - exists (Pos.iter xO p k), (Zpos (digits2_pos p) - 53).
    assert (Zpos (digits2_pos (Pos.iter xO p k)) = 53) as Hdm by (rewrite Pos_iter_nat, digits_iter_xO; lia).
    split; [apply round_aux_exact; lia|]. split; [done|]. split; [lia|].
    replace (- (Zpos (digits2_pos p) - 53)) with (Zpos k) by lia. clear.
    rewrite Pos_iter_nat. rewrite <-(positive_nat_Z k). generalize (Pos.to_nat k) as n. clear.
    induction n as [|n IH]; [cbn; lia|]. change (Nat.iter (S n) xO p) with (xO (Nat.iter n xO p)).
    rewrite Nat2Z.inj_succ, Z.pow_succ_r, (Pos2Z.inj_xO (Nat.iter n xO p)), IH by lia. lia.
Qed.

Lemma f_div_self m e : f_div (S754_finite false m e) (S754_finite false m e) = f_of_int 1.
Proof.
  unfold f_div, SFdiv, SFdiv_core_binary.
  rewrite !Z.sub_diag. change (Z.min (fexp 53 1024 0) 0) with (-53).
  change (0 - -53) with 53. cbv iota beta zeta.
  assert (Z.div_eucl (Z.shiftl (Zpos m) 53) (Zpos m) = (2 ^ 53, 0)) as ->.
  { rewrite Z.shiftl_mul_pow2 by lia.
    pose proof (Z.div_mul (2 ^ 53) (Zpos m)) as H1. pose proof (Z.mod_mul (2 ^ 53) (Zpos m)) as H2.
    unfold Z.div, Z.modulo in H1, H2. rewrite (Z.mul_comm (Zpos m)).
    destruct (Z.div_eucl _ _) as [q r]. rewrite H1, H2 by lia. done. }
  unfold new_location, new_location_even, new_location_odd.
  by destruct (Z.even (Zpos m)).
Qed.

(** ** What rounding adds *)

Lemma shr_1_half r : 0 ≤ shr_m r → shr_m (shr_1 r) = shr_m r / 2.
Proof.
  destruct r as [m a b]. intros Hm. cbn [shr_m] in Hm. destruct m as [|p|p]; [done| |lia].
  destruct p as [p|p|]; cbn [shr_1 shr_m]; [| |done].
  - rewrite (Pos2Z.inj_xI p). apply (Z.div_unique _ _ _ 1); lia.
  - rewrite (Pos2Z.inj_xO p). apply (Z.div_unique _ _ _ 0); lia.
Qed.

Lemma shr_iter n r : 0 ≤ shr_m r → shr_m (SpecFloat.iter_pos shr_1 n r) = shr_m r / 2 ^ Zpos n.
Proof.
  revert r. induction n as [n IH|n IH|]; intros r Hr; cbn [SpecFloat.iter_pos].
  - assert (0 ≤ shr_m r / 2) by (apply Z.div_pos; lia). rewrite <-shr_1_half in H by done.
    assert (0 ≤ shr_m (SpecFloat.iter_pos shr_1 n (shr_1 r))) by (rewrite IH by done; apply Z.div_pos; [done|apply Z.pow_pos_nonneg; lia]).
    rewrite IH, IH, shr_1_half by done. rewrite !Z.div_div by (try apply Z.pow_nonzero; try (apply Z.pow_pos_nonneg; lia); lia).
    f_equal. rewrite Pos2Z.inj_xI. replace (2 * Zpos n + 1) with (1 + Zpos n + Zpos n) by lia.
    rewrite !Z.pow_add_r by lia. lia.
  - assert (0 ≤ shr_m (SpecFloat.iter_pos shr_1 n r)) by (rewrite IH by done; apply Z.div_pos; [done|apply Z.pow_pos_nonneg; lia]).
    rewrite IH, IH by done. rewrite !Z.div_div by (try apply Z.pow_nonzero; try (apply Z.pow_pos_nonneg; lia); lia).
    f_equal. replace (Zpos n~0) with (Zpos n + Zpos n) by lia. by rewrite Z.pow_add_r by lia.
  - by apply shr_1_half.
Qed.

Lemma shr_m_of_loc m l : shr_m (shr_record_of_loc m l) = m.
Proof. by destruct l as [|[]]. Qed.

Lemma round_even_cases m l : m ≤ round_nearest_even m l ≤ m + 1.
Proof. unfold round_nearest_even. destruct l as [|[]]; try destruct (Z.even m); lia. Qed.

(** Rounding keeps 53 digits and adds at most one to the last. *)
Lemma round_bounded mx ex lx n : 0 ≤ n → 2 ^ (52 + n) ≤ mx < 2 ^ (53 + n) → -1074 ≤ ex + n ≤ 900 →
  ∃ m e, binary_round_aux 53 1024 false mx ex lx = S754_finite false m e ∧ 2 ^ 52 ≤ Zpos m < 2 ^ 53 ∧
    ((e = ex + n ∧ Zpos m ≤ mx / 2 ^ n + 1) ∨ (e = ex + n + 1 ∧ 2 * Zpos m ≤ mx / 2 ^ n + 1)).
Proof.
  intros Hn Hmx He. assert (0 < mx) as Hpos by (pose proof (Z.pow_pos_nonneg 2 (52 + n)); lia).
  destruct mx as [|p|p]; [lia| |lia].
  assert (Zpos (digits2_pos p) = 53 + n) as Hd by (apply digits_unique; replace (53 + n - 1) with (52 + n) by lia; done).
  unfold binary_round_aux, shr_fexp at 1. cbn [Zdigits2]. rewrite Hd.
  assert (fexp 53 1024 (53 + n + ex) - ex = n) as -> by (unfold fexp, emin; lia).
  assert (∀ r, shr_m r = Zpos p → ∃ r', shr r ex n = (r', ex + n) ∧ shr_m r' = Zpos p / 2 ^ n) as Hshr.
  { intros r Hr. destruct n as [|n'|n']; [|..|lia]; cbn [shr].
    - exists r. rewrite Z.add_0_r, Z.div_1_r. by split.
    - eexists. split; [done|]. rewrite shr_iter by lia. by rewrite Hr. }
  destruct (Hshr (shr_record_of_loc (Zpos p) lx) (shr_m_of_loc _ _)) as (r' & -> & Hr'). rewrite Hr'.
  set (q := Zpos p / 2 ^ n) in *.
  assert (2 ^ 52 ≤ q < 2 ^ 53) as Hq.
  { subst q. split.
    - apply Z.div_le_lower_bound; [apply Z.pow_pos_nonneg; lia|]. rewrite <-Z.pow_add_r by lia.
      replace (n + 52) with (52 + n) by lia. lia.
    - apply Z.div_lt_upper_bound; [apply Z.pow_pos_nonneg; lia|]. rewrite <-Z.pow_add_r by lia.
      replace (n + 53) with (53 + n) by lia. lia. }
  pose proof (round_even_cases q (loc_of_shr_record r')) as Hround.
  set (y := round_nearest_even q (loc_of_shr_record r')) in *. clearbody y.
  change (2 ^ 52) with 4503599627370496 in *. change (2 ^ 53) with 9007199254740992 in *.
  destruct (Z.eq_dec y 9007199254740992) as [->|Hy].
  - unfold shr_fexp. cbn [shr_record_of_loc].
    change (Zdigits2 9007199254740992) with 54.
    assert (fexp 53 1024 (54 + (ex + n)) - (ex + n) = 1) as -> by (unfold fexp, emin; lia).
    cbn [shr SpecFloat.iter_pos shr_1 orb shr_m].
    rewrite (proj2 (Z.leb_le (ex + n + 1) (1024 - 53))) by lia.
    do 2 eexists. split; [reflexivity|]. split; [lia|]. right. lia.
  - destruct y as [|y|y]; [lia| |lia].
    assert (Zpos (digits2_pos y) = 53) as Hdy by (apply digits_unique; change (53 - 1) with 52;
      change (2 ^ 52) with 4503599627370496; change (2 ^ 53) with 9007199254740992; lia).
    unfold shr_fexp. cbn [shr_record_of_loc Zdigits2]. rewrite Hdy.
    assert (fexp 53 1024 (53 + (ex + n)) - (ex + n) = 0) as -> by (unfold fexp, emin; lia).
    cbn [shr shr_m]. rewrite (proj2 (Z.leb_le (ex + n) (1024 - 53))) by lia.
    do 2 eexists. split; [reflexivity|]. split; [lia|]. left. lia.
Qed.

(** A proper ratio of counts, rounded. *)
Lemma ratio_bounded k j : 0 < k < j → j < 2 ^ 40 → ∃ m e F,
  f_div (f_of_int k) (f_of_int j) = S754_finite false m e ∧ 2 ^ 52 ≤ Zpos m < 2 ^ 53 ∧
  53 ≤ F ≤ 105 ∧ 0 ≤ e + F ≤ 2 ∧ j * (Zpos m * 2 ^ (e + F)) ≤ k * 2 ^ F + 2 * j.
Proof.
  intros Hk Hj. destruct k as [|k|k]; [lia| |lia]. destruct j as [|j|j]; [lia| |lia].
  change (2 ^ 40) with 1099511627776 in Hj.
  destruct (f_of_int_norm k) as (m1 & e1 & -> & Hm1 & He1 & Hk1); [change (2 ^ 53) with 9007199254740992; lia|].
  destruct (f_of_int_norm j) as (m2 & e2 & -> & Hm2 & He2 & Hj2); [change (2 ^ 53) with 9007199254740992; lia|].
  assert (e1 ≤ e2) as Hle.
  { destruct (Z.le_gt_cases e1 e2) as [|Hgt]; [done|exfalso].
    replace (- e2) with (- e1 + (e1 - e2 - 1) + 1) in Hj2 by lia. rewrite !Z.pow_add_r in Hj2 by lia.
    change (2 ^ 52) with 4503599627370496 in *. change (2 ^ 53) with 9007199254740992 in *.
    assert (0 < 2 ^ (e1 - e2 - 1)) as HR by (apply Z.pow_pos_nonneg; lia).
    assert (0 < 2 ^ (- e1)) as HP by (apply Z.pow_pos_nonneg; lia).
    revert HR HP Hk1 Hj2. generalize (2 ^ (e1 - e2 - 1)) (2 ^ (- e1)). intros R P HR HP Hk1 Hj2.
    assert (Zpos k * P ≤ Zpos j * P * 1) as H1 by nia. assert (Zpos j * P * 1 ≤ Zpos j * P * R) as H2 by nia. lia. }
  pose proof (digits_unique m1 53 Hm1) as Hd1. pose proof (digits_unique m2 53 Hm2) as Hd2.
  unfold f_div, SFdiv, SFdiv_core_binary. cbn [Zdigits2]. rewrite Hd1, Hd2.
  assert (Z.min (fexp 53 1024 (53 + e1 - (53 + e2))) (e1 - e2) = e1 - e2 - 53) as -> by (unfold fexp, emin; lia).
  replace (e1 - e2 - (e1 - e2 - 53)) with 53 by lia. rewrite Z.shiftl_mul_pow2 by lia.
  pose proof (Z.div_mod (Zpos m1 * 2 ^ 53) (Zpos m2) ltac:(lia)) as Hdiv.
  pose proof (Z.mod_pos_bound (Zpos m1 * 2 ^ 53) (Zpos m2) ltac:(lia)) as Hmod.
  unfold Z.div, Z.modulo in Hdiv, Hmod. destruct (Z.div_eucl _ _) as [q r].
  set (D := e2 - e1). assert (Zpos j * q ≤ Zpos k * 2 ^ (53 + D)) as Hq.
  { assert (0 < 2 ^ (- e2)) as HP by (apply Z.pow_pos_nonneg; lia).
    replace (- e1) with (- e2 + D) in Hk1 by lia. rewrite Z.pow_add_r in Hk1 |- * by lia.
    revert HP Hk1 Hj2 Hdiv Hmod. generalize (2 ^ (- e2)) (2 ^ D). intros P R HP Hk1 Hj2 Hdiv Hmod.
    rewrite Hk1, Hj2 in Hdiv. assert (P * (Zpos j * q) ≤ P * (Zpos k * (2 ^ 53 * R))) as Hle'; [|nia]. lia. }
  change (2 ^ 52) with 4503599627370496 in *. change (2 ^ 53) with 9007199254740992 in *.
  assert (4503599627370496 ≤ q < 18014398509481984) as Hrange by nia.
  assert (∃ n, 0 ≤ n ≤ 1 ∧ 2 ^ (52 + n) ≤ q < 2 ^ (53 + n)) as (n & Hn & Hqn).
  { destruct (Z.lt_ge_cases q 9007199254740992); [exists 0|exists 1]; (split; [lia|]);
      change (2 ^ (52 + 0)) with 4503599627370496; change (2 ^ (53 + 0)) with 9007199254740992;
      change (2 ^ (52 + 1)) with 9007199254740992; change (2 ^ (53 + 1)) with 18014398509481984; lia. }
  destruct (round_bounded q (e1 - e2 - 53) (new_location (Zpos m2) r) n) as (m & e & Hf & Hm & Hcase); [lia|done|lia|].
  exists m, e, (53 + D). split; [exact Hf|]. split; [done|]. split; [lia|].
  assert (0 < 2 ^ n) as Hpow by (apply Z.pow_pos_nonneg; lia).
  assert (Zpos m * 2 ^ (e + (53 + D)) ≤ q + 2 ^ n) as Hm'.
  { pose proof (Z.mul_div_le q (2 ^ n) Hpow). destruct Hcase as [[-> Hle']|[-> Hle']].
    - replace (e1 - e2 - 53 + n + (53 + D)) with n by lia. nia.
    - replace (e1 - e2 - 53 + n + 1 + (53 + D)) with (n + 1) by lia. rewrite Z.pow_add_r by lia.
      change (2 ^ 1) with 2. nia. }
  split; [lia|]. assert (2 ^ n ≤ 2) by (replace 2 with (2 ^ 1) at 2 by done; apply Z.pow_le_mono_r; lia). nia.
Qed.

Lemma f_100 : f_of_int 100 = S754_finite false 7036874417766400 (-46).
Proof. reflexivity. Qed.

(** A number below one hundred, in the two forms the comparison looks at. *)
Lemma below_100 m e : 4503599627370496 ≤ Zpos m → (-46 ≤ e → Zpos m * 2 ^ (e + 46) < 7036874417766400) →
  f_le (S754_finite false 7036874417766400 (-46)) (S754_finite false m e) = false.
Proof.
  intros Hm Hsmall.
  unfold f_le, SFleb, SFcompare. destruct (Z.compare_spec (-46) e) as [<-|Hlt|Hgt]; [| |done].
  - specialize (Hsmall ltac:(lia)). change (-46 + 46) with 0 in Hsmall. rewrite Z.pow_0_r, Z.mul_1_r in Hsmall.
    revert Hsmall. clear. generalize 7036874417766400%positive as M. intros M Hsmall.
    assert (Pos.compare M m = Gt) as Hgt by (apply Pos.compare_gt_iff; lia).
    unfold Pos.compare in Hgt. by rewrite Hgt.
  - specialize (Hsmall ltac:(lia)). exfalso.
    assert (2 ^ 1 ≤ 2 ^ (e + 46)) by (apply Z.pow_le_mono_r; lia). change (2 ^ 1) with 2 in *. nia.
Qed.

(** The width of the product of a mantissa with that of one hundred. *)
Lemma product_width m : 4503599627370496 ≤ m < 9007199254740992 →
  ∃ n, 52 ≤ n ≤ 53 ∧ 2 ^ (52 + n) ≤ m * 7036874417766400 < 2 ^ (53 + n).
Proof.
  intros Hm. destruct (Z.lt_ge_cases (m * 7036874417766400) 40564819207303340847894502572032);
    [exists 52|exists 53]; (split; [lia|]).
  - change (2 ^ (52 + 52)) with 20282409603651670423947251286016.
    change (2 ^ (53 + 52)) with 40564819207303340847894502572032. lia.
  - change (2 ^ (52 + 53)) with 40564819207303340847894502572032.
    change (2 ^ (53 + 53)) with 81129638414606681695789005144064. lia.
Qed.

(** Less than everything is less than one hundred percent. *)
Lemma partial_percentage k j : 0 ≤ k < j → j < 2 ^ 40 →
  f_le (f_of_int 100) (f_mul (f_div (f_of_int k) (f_of_int j)) (f_of_int 100)) = false.
Proof.
  intros Hk Hj. destruct (Z.eq_dec k 0) as [->|Hk0].
  { destruct j as [|j|j]; [lia| |lia]. destruct (f_of_int_norm j) as (m & e & -> & _); [|done].
    change (2 ^ 40) with 1099511627776 in Hj. change (2 ^ 53) with 9007199254740992. lia. }
  destruct (ratio_bounded k j) as (m & e & F & -> & Hm & HF & HeF & Hratio); [lia|done|].
  rewrite f_100. unfold f_mul, SFmul.
  change (2 ^ 52) with 4503599627370496 in *. change (2 ^ 53) with 9007199254740992 in *.
  set (prod := (m * 7036874417766400)%positive). cbn [xorb].
  assert (Zpos prod = Zpos m * 7036874417766400) as Hprod by (subst prod; lia).
  destruct (product_width (Zpos m)) as (n & Hn & Hpn); [lia|]. rewrite <- Hprod in Hpn.
  destruct (round_bounded (Zpos prod) (e + -46) loc_Exact n) as (m' & e' & -> & Hm' & Hcase); [lia|done|lia|].
  change (2 ^ 52) with 4503599627370496 in Hm'.
  assert (∃ b, 0 ≤ b ≤ 1 ∧ e' = e - 46 + n + b ∧ Zpos m' * 2 ^ b ≤ Zpos prod / 2 ^ n + 1) as (b & Hb & He' & Hle).
  { destruct Hcase as [[-> ?]|[-> ?]]; [exists 0|exists 1]; split_and!; change (2 ^ 0) with 1; change (2 ^ 1) with 2; lia. }
  assert (-46 ≤ e' → Zpos m' * 2 ^ (e' + 46) < 7036874417766400) as Hsmall.
  { intros Hlow. apply Z.lt_nge. intros Hbig.
    assert (0 < 2 ^ n ≤ 9007199254740992) as Hpn' by
      (split; [apply Z.pow_pos_nonneg; lia|change 9007199254740992 with (2 ^ 53); apply Z.pow_le_mono_r; lia]).
    assert (0 < 2 ^ (e + F) ≤ 4) as HpG by
      (split; [apply Z.pow_pos_nonneg; lia|change 4 with (2 ^ 2); apply Z.pow_le_mono_r; lia]).
    assert (9007199254740992 ≤ 2 ^ F) as HpF by (change 9007199254740992 with (2 ^ 53); apply Z.pow_le_mono_r; lia).
    assert (Zpos m' * 2 ^ (e' + 46) * 2 ^ F ≤ (Zpos prod + 2 ^ n) * 2 ^ (e + F)) as Hscaled.
    { rewrite <-Z.mul_assoc, <-Z.pow_add_r by lia. replace (e' + 46 + F) with (b + n + (e + F)) by lia.
      rewrite !Z.pow_add_r, !Z.mul_assoc by lia. apply Z.mul_le_mono_nonneg_r; [lia|].
      pose proof (Z.mul_div_le (Zpos prod) (2 ^ n)). nia. }
    change (2 ^ 40) with 1099511627776 in Hj. rewrite Hprod in Hscaled.
    revert Hbig Hscaled Hratio HpG HpF Hpn'. generalize (Zpos m' * 2 ^ (e' + 46)) (2 ^ F) (2 ^ n) (2 ^ (e + F)).
    intros X P N G Hbig Hscaled Hratio HG HP HN.
    assert (7036874417766400 * P ≤ X * P) as H1 by nia.
    assert (j * (7036874417766400 * P) ≤ j * ((Zpos m * 7036874417766400 + N) * G)) as H2 by nia.
    assert (N * G ≤ 9007199254740992 * 4) as H3 by nia.
    assert (j * (N * G) ≤ j * (9007199254740992 * 4)) as H4 by nia.
    assert (k * P ≤ (j - 1) * P) as H5 by nia. lia. }
  apply below_100; [lia|exact Hsmall].
Qed.

(** Everything is exactly one hundred percent. *)
Lemma full_percentage j : 0 < j < 2 ^ 53 → f_mul (f_div (f_of_int j) (f_of_int j)) (f_of_int 100) = f_of_int 100.
Proof.
  intros Hj. destruct j as [|j|j]; [lia| |lia]. destruct (f_of_int_norm j) as (m & e & -> & _); [lia|].
  rewrite f_div_self. by vm_compute.
Qed.

(** ** The coverage of a cohort *)

(** A fully acknowledged cohort covers exactly one hundred percent. *)
Lemma full_coverage ts :
  0 < Z.of_nat (length ts) < 2 ^ 53 → count_acked ts = Z.of_nat (length ts) →
  cov_Percentage (AcknowledgementCoverage ts) = f_of_int 100.
Proof.
  intros Hlen Hall. unfold AcknowledgementCoverage; cbn [cov_Percentage].
  rewrite Hall, (proj2 (Z.ltb_lt _ _)) by lia. by apply full_percentage.
Qed.

(** A cohort that is not fully acknowledged covers less. *)
Lemma partial_coverage ts : Z.of_nat (length ts) < 2 ^ 40 → count_acked ts < Z.of_nat (length ts) →
  CoverageReached ts (f_of_int 100) = false.
Proof.
  intros Hlen Hpart. pose proof (count_acked_bounds ts). unfold CoverageReached, AcknowledgementCoverage.
  cbn [cov_Total cov_Percentage]. rewrite (proj2 (Z.eqb_neq _ _)), (proj2 (Z.ltb_lt _ _)) by lia.
  apply partial_percentage; [lia|done].
Qed.
