(* ===== verification/RolloutStore.v ===== *)
(** [internal/rollout/memory_store.go]: the in-memory rollout store.

    Every method takes the answer of its [ctx.Err()] call; the mutex makes a
    method one atomic step of the store.  A Go map whose iteration order the
    code observes takes that order as an argument. *)

From Stdlib Require Import ZArith Lia.
From S2P Require Import Prelude GoLib Domain Guardrail Rollout.
Import Domain Rollout.
Open Scope string_scope.
Open Scope list_scope.
Open Scope Z_scope.

Module RolloutStore.

(** [src/internal/rollout/memory_store.go:11-19] MemoryStore *)
Record MemoryStore := MkMemoryStore {
  ms_rollouts : gmap string Rollout;
  ms_activeRollout : gmap string string;
  ms_stages : gmap string (list Stage);
  ms_targets : gmap string (list StageTarget);
  ms_nextRevision : Z }.

(** [src/internal/rollout/memory_store.go:21-29] NewMemoryStore *)
Definition NewMemoryStore : MemoryStore := MkMemoryStore ∅ ∅ ∅ ∅ 1.

(** [src/internal/rollout/memory_store.go:220-222] rolloutActiveKey *)
Definition rolloutActiveKey (configDefinitionID environment : string) : string :=
  nul_key configDefinitionID environment.

(** [src/internal/rollout/memory_store.go:224-226] targetKey *)
Definition targetKey (rolloutID stageID : string) : string := nul_key rolloutID stageID.

(** The copy shares no slice or map with its source; its contents are equal. *)
(** [src/internal/rollout/memory_store.go:228-239] cloneRollout *)
Definition cloneRollout (rollout : Rollout) : Rollout :=
  MkRollout (r_ID rollout) (r_ConfigDefinitionID rollout) (r_TenantID rollout)
    (r_ConfigKey rollout) (r_Environment rollout) ([] ++ r_TargetServices rollout)
    (r_StableVersionID rollout) (r_CandidateVersionID rollout) (r_CandidateVersion rollout)
    (r_State rollout) (r_CurrentStageID rollout) (r_CurrentStageIndex rollout)
    (r_RequiredAckPercent rollout) ([] ++ r_Guardrails rollout) (r_GuardrailFailures rollout)
    (r_StageStartedAt rollout) (r_DeploymentTimeout rollout) (r_RolloutMaxDuration rollout)
    (r_RollbackTimeout rollout) (r_RollbackStatus rollout) (r_CreatedAt rollout)
    (r_UpdatedAt rollout).

Definition set_rollouts (s : MemoryStore) rollouts active : MemoryStore :=
  MkMemoryStore rollouts active (ms_stages s) (ms_targets s) (ms_nextRevision s).
Definition set_stages (s : MemoryStore) stages : MemoryStore :=
  MkMemoryStore (ms_rollouts s) (ms_activeRollout s) stages (ms_targets s) (ms_nextRevision s).
Definition set_targets (s : MemoryStore) targets : MemoryStore :=
  MkMemoryStore (ms_rollouts s) (ms_activeRollout s) (ms_stages s) targets (ms_nextRevision s).

(** [s.rollouts[id]], the zero value when the key is absent. *)
Definition rollout_at (s : MemoryStore) (id : string) : Rollout :=
  default zero_Rollout (ms_rollouts s !! id).

(** [src/internal/rollout/memory_store.go:31-56] MemoryStore.CreateRollout *)
Definition CreateRollout (ctxErr : option error) (rollout : Rollout) (stages : list Stage)
    : M MemoryStore unit :=
  ctx_check ctxErr;;
  s ← get_world;
  guard_err (bool_decide (is_Some (ms_rollouts s !! r_ID rollout)))
            (EWrap ErrAlreadyExists "rollout %q" [r_ID rollout]);;
  let activeKey := rolloutActiveKey (r_ConfigDefinitionID rollout) (r_Environment rollout) in
  guard_err (match ms_activeRollout s !! activeKey with
             | Some existingID => negb (Terminal (r_State (rollout_at s existingID)))
             | None => false
             end)
            (EWrap ErrConflict "active rollout exists" []);;
  modify (λ s, set_stages
    (set_rollouts s (<[r_ID rollout := cloneRollout rollout]> (ms_rollouts s))
       (if negb (Terminal (r_State rollout))
        then <[activeKey := r_ID rollout]> (ms_activeRollout s) else ms_activeRollout s))
    (<[r_ID rollout := [] ++ stages]> (ms_stages s))).

(** [src/internal/rollout/memory_store.go:58-71] MemoryStore.GetRollout *)
Definition GetRollout (ctxErr : option error) (rolloutID : string) : M MemoryStore Rollout :=
  ctx_check ctxErr;;
  s ← get_world;
  match ms_rollouts s !! rolloutID with
  | None => mthrow (EWrap ErrNotFound "rollout %q" [rolloutID])
  | Some rollout => mret (cloneRollout rollout)
  end.

(** [src/internal/rollout/memory_store.go:73-90] MemoryStore.GetActiveRollout *)
Definition GetActiveRollout (ctxErr : option error) (configDefinitionID environment : string)
    : M MemoryStore Rollout :=
  ctx_check ctxErr;;
  s ← get_world;
  match ms_activeRollout s !! nul_key configDefinitionID environment with
  | None => mthrow (EWrap ErrNotFound "active rollout" [])
  | Some rolloutID =>
      let rollout := rollout_at s rolloutID in
      guard_err (Terminal (r_State rollout)) (EWrap ErrNotFound "active rollout" []);;
      mret (cloneRollout rollout)
  end.

(** [src/internal/rollout/memory_store.go:92-109] MemoryStore.ListActiveRollouts *)
Definition ListActiveRollouts (ctxErr : option error) (range : RangeOrder)
    : M MemoryStore (list Rollout) :=
  ctx_check ctxErr;;
  s ← get_world;
  mret (cloneRollout <$>
        filter (λ r, Terminal (r_State r) = false)
          (rollout_at s <$> map_values range (ms_activeRollout s))).

(** [src/internal/rollout/memory_store.go:111-131] MemoryStore.UpdateRollout *)
Definition UpdateRollout (ctxErr : option error) (rollout : Rollout) : M MemoryStore unit :=
  ctx_check ctxErr;;
  s ← get_world;
  guard_err (negb (bool_decide (is_Some (ms_rollouts s !! r_ID rollout))))
            (EWrap ErrNotFound "rollout %q" [r_ID rollout]);;
  let activeKey := rolloutActiveKey (r_ConfigDefinitionID rollout) (r_Environment rollout) in
  modify (λ s, set_rollouts s (<[r_ID rollout := cloneRollout rollout]> (ms_rollouts s))
    (if Terminal (r_State rollout) then delete activeKey (ms_activeRollout s)
     else <[activeKey := r_ID rollout]> (ms_activeRollout s))).

(** [src/internal/rollout/memory_store.go:133-146] MemoryStore.ListStages *)
Definition ListStages (ctxErr : option error) (rolloutID : string) : M MemoryStore (list Stage) :=
  ctx_check ctxErr;;
  s ← get_world;
  match ms_stages s !! rolloutID with
  | None => mthrow (EWrap ErrNotFound "stages for rollout %q" [rolloutID])
  | Some stages => mret ([] ++ stages)
  end.

(** [src/internal/rollout/memory_store.go:148-166] MemoryStore.SaveStage *)
Definition SaveStage (ctxErr : option error) (rolloutID : string) (stage : Stage)
    : M MemoryStore unit :=
  ctx_check ctxErr;;
  s ← get_world;
  guard_err (negb (bool_decide (is_Some (ms_rollouts s !! rolloutID))))
            (EWrap ErrNotFound "rollout %q" [rolloutID]);;
  let existing := default [] (ms_stages s !! rolloutID) in
  if existsb (λ e, bool_decide (s_ID e = s_ID stage)) existing then mret tt
  else modify (λ s, set_stages s (<[rolloutID := existing ++ [stage]]> (ms_stages s))).

(** [src/internal/rollout/memory_store.go:176-179] MemoryStore.SaveStageTargets *)
Definition append_target (m : gmap string (list StageTarget)) (target : StageTarget)
    : gmap string (list StageTarget) :=
  let key := targetKey (st_RolloutID target) (st_StageID target) in
  <[key := default [] (m !! key) ++ [target]]> m.

(** [src/internal/rollout/memory_store.go:168-181] MemoryStore.SaveStageTargets *)
Definition SaveStageTargets (ctxErr : option error) (targets : list StageTarget)
    : M MemoryStore unit :=
  ctx_check ctxErr;;
  modify (λ s, set_targets s (fold_left append_target targets (ms_targets s))).

(** [src/internal/rollout/memory_store.go:183-193] MemoryStore.ReplaceStageTargets *)
Definition ReplaceStageTargets (ctxErr : option error) (rolloutID stageID : string)
    (targets : list StageTarget) : M MemoryStore unit :=
  ctx_check ctxErr;;
  modify (λ s, set_targets s (<[targetKey rolloutID stageID := [] ++ targets]> (ms_targets s))).

(** [src/internal/rollout/memory_store.go:195-205] MemoryStore.ListStageTargets *)
Definition ListStageTargets (ctxErr : option error) (rolloutID stageID : string)
    : M MemoryStore (list StageTarget) :=
  ctx_check ctxErr;;
  s ← get_world;
  mret ([] ++ default [] (ms_targets s !! targetKey rolloutID stageID)).

(** [src/internal/rollout/memory_store.go:207-218] MemoryStore.NextSnapshotRevision *)
Definition NextSnapshotRevision (ctxErr : option error) : M MemoryStore Z :=
  ctx_check ctxErr;;
  s ← get_world;
  modify (λ s, MkMemoryStore (ms_rollouts s) (ms_activeRollout s) (ms_stages s)
                 (ms_targets s) (int64_wrap (ms_nextRevision s + 1)));;
  mret (ms_nextRevision s).

End RolloutStore.
