(* ===== verification/RolloutService.v ===== *)
(** [internal/rollout/service.go]: the rollout service over the interfaces it
    declares, [Store], [Registry] and [AgentSource].

    The service holds one mutex for the whole of every operation that changes
    a rollout, so an operation is a sequence of store calls that no other
    mutating operation interleaves with. *)

From Stdlib Require Import ZArith Lia SpecFloat.
From S2P Require Import Prelude GoLib Host Domain Guardrail Registry Rollout.
Import Domain Rollout.
Open Scope string_scope.
Open Scope list_scope.
Open Scope Z_scope.

Module RolloutService.

(** * The interfaces *)

(** [src/internal/rollout/service.go:17-29] Store *)
Class Store (W : Type) := {
  store_CreateRollout : Context → Rollout → list Stage → M W unit;
  store_GetRollout : Context → string → M W Rollout;
  store_GetActiveRollout : Context → string → string → M W Rollout;
  store_ListActiveRollouts : Context → M W (list Rollout);
  store_UpdateRollout : Context → Rollout → M W unit;
  store_ListStages : Context → string → M W (list Stage);
  store_SaveStage : Context → string → Stage → M W unit;
  store_SaveStageTargets : Context → list StageTarget → M W unit;
  store_ReplaceStageTargets : Context → string → string → list StageTarget → M W unit;
  store_ListStageTargets : Context → string → string → M W (list StageTarget);
  store_NextSnapshotRevision : Context → M W Z }.

(** [src/internal/rollout/service.go:31-36] Registry *)
Class Registry (W : Type) := {
  registry_GetDefinition : Context → string → string → M W ConfigDefinition;
  registry_ListVersions : Context → string → string → M W (list ConfigVersion);
  registry_GetEnvironmentState :
    Context → string → string → Environment → M W ConfigEnvironmentState;
  registry_SetStableVersion :
    Context → ConfigRegistry.SetStableVersionInput → M W ConfigEnvironmentState }.

(** [src/internal/rollout/service.go:38-40] AgentSource *)
Class AgentSource (W : Type) := {
  agents_ListAgents : Context → M W (list Agent) }.

(** [src/internal/guardrail/prometheus.go:15-17] Queryer *)
Definition Queryer (W : Type) : Type := Context → string → Time → M W float64.

(** The store, the registry, the agents, the clock and the random source are
    those of the world; what is left is configuration. *)
(** [src/internal/rollout/service.go:42-51] Service *)
Record Service (W : Type) := MkService {
  svc_stagePlan : list Stage;
  svc_queryer : option (Queryer W) }.
Arguments svc_stagePlan {W} _.
Arguments svc_queryer {W} _.

(** [src/internal/rollout/service.go:53-62] NewService *)
Definition NewService (W : Type) : Service W := MkService W DefaultStagePlan None.

(** [src/internal/rollout/service.go:78-80] Service.SetGuardrailQueryer *)
Definition SetGuardrailQueryer {W} (s : Service W) (queryer : Queryer W) : Service W :=
  MkService W (svc_stagePlan s) (Some queryer).

(** [src/internal/rollout/service.go:64-76] CreateRolloutInput *)
Record CreateRolloutInput := MkCreateRolloutInput {
  ci_TenantID : string;
  ci_Key : string;
  ci_Environment : Environment;
  ci_CandidateVersionNumber : Z;
  ci_TargetServices : list string;
  ci_Stages : list Stage;
  ci_Guardrails : list Guardrail.Rule;
  ci_RequiredAckPercentage : float64;
  ci_DeploymentTimeout : Duration;
  ci_RolloutMaxDuration : Duration;
  ci_RollbackTimeout : Duration }.

(** [src/internal/rollout/service.go:200-206] AcknowledgeInput *)
Record AcknowledgeInput := MkAcknowledgeInput {
  ai_RolloutID : string;
  ai_StageID : string;
  ai_AgentID : string;
  ai_VersionID : string;
  ai_SnapshotRevision : Z }.

(** [src/internal/rollout/service.go:208-213] AcknowledgeResult *)
Record AcknowledgeResult := MkAcknowledgeResult {
  ar_Counted : bool;
  ar_Coverage : Coverage;
  ar_Decision : StageDecision;
  ar_Rollout : Rollout }.

(** [src/internal/rollout/service.go:472-474] rollbackVerificationStageID *)
Definition rollbackVerificationStageID (rolloutID : string) : string :=
  (rolloutID +:+ "-rollback-verification")%string.

(** [src/internal/rollout/service.go:588-600] filterAgents *)
Definition filterAgents (agents : list Agent) (environment : Environment)
    (services : list string) : list Agent :=
  filter (λ agent, a_Environment agent = environment ∧
                   (services = [] ∨ a_Service agent ∈ services)) agents.

(** [src/internal/rollout/service.go:602-609] findVersionByNumber *)
Fixpoint findVersionByNumber (versions : list ConfigVersion) (number : Z)
    : option ConfigVersion :=
  match versions with
  | [] => None
  | version :: rest =>
      if v_VersionNumber version =? number then Some version
      else findVersionByNumber rest number
  end.

(** An index out of range stops the program; [RolloutRefine] proves the
    service never reaches it. *)
Definition index_panic : error := ESentinel "runtime.Error" "index out of range".

Definition index {W A} (l : list A) (i : Z) : M W A :=
  match (if 0 <=? i then l !! Z.to_nat i else None) with
  | Some x => mret x
  | None => mthrow index_panic
  end.

(** [src/internal/rollout/service.go:99-106] Service.CreateRollout *)
Fixpoint validate_guardrails (rules : list Guardrail.Rule) : res unit :=
  match rules with
  | [] => mret tt
  | rule :: rest =>
      Guardrail.Rule_Validate rule;;
      guard_err (empty_str (Guardrail.g_Query rule))
                (EWrap ErrInvalidInput "guardrail query is required" []);;
      validate_guardrails rest
  end.

Section Service.
Context {W : Type} `{Env W, Store W, Registry W, AgentSource W} (s : Service W).

(** [src/internal/rollout/service.go:611-617] randomID *)
Definition randomID (prefix : string) : M W string := random_id prefix.

(** [src/internal/rollout/service.go:561-586] Service.activateStage *)
Definition activateStage (ctx : Context) (rollout : Rollout) (stage : Stage)
    (targetServices : list string) : M W (list StageTarget) :=
  agents ← agents_ListAgents ctx;
  let agents := filterAgents agents (r_Environment rollout) targetServices in
  revision ← store_NextSnapshotRevision ctx;
  now ← now;
  targets ← lift (BuildStageTargets (MkBuildTargetsInput rollout stage agents revision now));
  store_SaveStageTargets ctx targets;;
  mret targets.

(** [src/internal/rollout/service.go:549-559] Service.transition *)
Definition transition (ctx : Context) (rollout : Rollout) (next : State) : M W Rollout :=
  lift (Transition (r_State rollout) next);;
  now ← now;
  let rollout := set_state rollout next now in
  store_UpdateRollout ctx rollout;;
  mret rollout.

(** [src/internal/rollout/service.go:476-481] Service.startRollback *)
Definition startRollback (ctx : Context) (rollout : Rollout) : M W Rollout :=
  if decide (r_State rollout = StateRollingBack) then mret rollout
  else transition ctx rollout StateRollingBack.

(** [src/internal/rollout/service.go:437-470] Service.promote *)
Definition promote (ctx : Context) (rollout : Rollout) (stages : list Stage) : M W Rollout :=
  if r_CurrentStageIndex rollout =? Z.of_nat (length stages) - 1 then
    match Transition (r_State rollout) StateEvaluating with
    | Err err => guard_err (negb (bool_decide (r_State rollout = StateEvaluating))) err
    | Ok _ => mret tt
    end;;
    registry_SetStableVersion ctx
      (ConfigRegistry.MkSetStableVersionInput (r_TenantID rollout) (r_ConfigKey rollout)
         (r_Environment rollout) (r_CandidateVersion rollout));;
    now ← now;
    let rollout := set_state rollout StateCompleted now in
    store_UpdateRollout ctx rollout;;
    mret rollout
  else
    let nextIndex := r_CurrentStageIndex rollout + 1 in
    nextStage ← index stages nextIndex;
    startedAt ← now;
    let rollout := set_progress rollout StateDeploying (s_ID nextStage) nextIndex startedAt
                     (r_RollbackStatus rollout) startedAt in
    store_UpdateRollout ctx rollout;;
    activateStage ctx rollout nextStage (r_TargetServices rollout);;
    mret rollout.

(** [src/internal/rollout/service.go:516-527] Service.activateRollbackVerification *)
Definition rollback_target (rollout : Rollout) (revision : Z) (now : Time)
    (target : StageTarget) : StageTarget :=
  MkStageTarget (r_ID rollout) (rollbackVerificationStageID (r_ID rollout)) (st_AgentID target)
    (st_Bucket target) (r_StableVersionID rollout) revision now 0 TargetPending.

(** [src/internal/rollout/service.go:506-547] Service.activateRollbackVerification *)
Definition activateRollbackVerification (ctx : Context) (rollout : Rollout)
    (candidateTargets : list StageTarget) : M W Rollout :=
  revision ← store_NextSnapshotRevision ctx;
  now1 ← now;
  let verificationStageID := rollbackVerificationStageID (r_ID rollout) in
  let rollbackTargets := rollback_target rollout revision now1 <$> candidateTargets in
  store_SaveStage ctx (r_ID rollout) (MkStage verificationStageID 100 0);;
  store_SaveStageTargets ctx rollbackTargets;;
  let rollout := set_progress rollout (r_State rollout) verificationStageID
                   (r_CurrentStageIndex rollout) now1 (r_RollbackStatus rollout) now1 in
  store_UpdateRollout ctx rollout;;
  if Nat.eqb (length rollbackTargets) 0 then
    now2 ← now;
    let rollout := set_progress rollout StateRolledBack (r_CurrentStageID rollout)
                     (r_CurrentStageIndex rollout) (r_StageStartedAt rollout)
                     RollbackStatusVerified now2 in
    store_UpdateRollout ctx rollout;;
    mret rollout
  else mret rollout.

(** [src/internal/rollout/service.go:491-494] Service.reconcileRollback *)
Definition finish_rollback (ctx : Context) (rollout : Rollout) (status : RollbackStatus)
    : M W Rollout :=
  now ← now;
  let rollout := set_progress rollout StateRolledBack (r_CurrentStageID rollout)
                   (r_CurrentStageIndex rollout) (r_StageStartedAt rollout) status now in
  store_UpdateRollout ctx rollout;;
  mret rollout.

(** [src/internal/rollout/service.go:483-504] Service.reconcileRollback *)
Definition reconcileRollback (ctx : Context) (rollout : Rollout) (targets : list StageTarget)
    : M W Rollout :=
  let verificationStageID := rollbackVerificationStageID (r_ID rollout) in
  if negb (bool_decide (r_CurrentStageID rollout = verificationStageID))
  then activateRollbackVerification ctx rollout targets
  else if CoverageReached targets (r_RequiredAckPercent rollout)
          || Nat.eqb (length targets) 0
  then finish_rollback ctx rollout RollbackStatusVerified
  else if 0 <? r_RollbackTimeout rollout then
    now ← now;
    if r_RollbackTimeout rollout <=? time_Sub now (r_StageStartedAt rollout)
    then finish_rollback ctx rollout RollbackStatusPartial
    else mret rollout
  else mret rollout.

(** [src/internal/rollout/service.go:407-435] Service.evaluateGuardrails *)
Definition evaluateGuardrails (ctx : Context) (rollout : Rollout) (observedAt : Time)
    : M W (Guardrail.Status * Rollout) :=
  fe ← fold_m (r_Guardrails rollout) (r_GuardrailFailures rollout, [])
    (λ '(failures, evaluations) rule,
       let previousFailures := default 0 (failures !! Guardrail.g_Name rule) in
       evaluation ← (match svc_queryer s with
                     | None =>
                         lift (Guardrail.Unknown rule previousFailures
                                 "prometheus queryer is not configured" observedAt)
                     | Some query =>
                         result ← try (query ctx (Guardrail.g_Query rule) observedAt);
                         lift (Guardrail.EvaluateQueryResult rule result previousFailures
                                 observedAt)
                     end);
       mret (<[Guardrail.g_Name rule := Guardrail.e_ConsecutiveFailures evaluation]> failures,
             evaluations ++ [evaluation]));
  let '(failures, evaluations) := fe in
  let rollout := set_failures rollout failures observedAt in
  store_UpdateRollout ctx rollout;;
  mret (Guardrail.AggregateStatus evaluations, rollout).

(** [src/internal/rollout/service.go:369-405] Service.evaluateStageDecision *)
Definition evaluateStageDecision (ctx : Context) (rollout : Rollout)
    (targets : list StageTarget) (currentStage : Stage) : M W (StageDecision * Rollout) :=
  now ← now;
  if (0 <? r_RolloutMaxDuration rollout)
     && (r_RolloutMaxDuration rollout <=? time_Sub now (r_CreatedAt rollout))
  then mret (DecisionRollback, rollout)
  else
    let decision := EvaluateStageProgress
      (MkStageProgressInput targets (r_RequiredAckPercent rollout) (r_StageStartedAt rollout)
         now (s_MinimumDuration currentStage) (r_DeploymentTimeout rollout)) in
    if negb (bool_decide (decision = DecisionPromote)) then mret (decision, rollout)
    else if Nat.eqb (length (r_Guardrails rollout)) 0 then mret (DecisionPromote, rollout)
    else
      sr ← evaluateGuardrails ctx rollout now;
      let '(status, rollout) := sr in
      match status with
      | Guardrail.StatusHealthy => mret (DecisionPromote, rollout)
      | Guardrail.StatusUnhealthy => mret (DecisionRollback, rollout)
      | Guardrail.StatusUnknown => mret (DecisionPause, rollout)
      end.

(** [src/internal/rollout/service.go:354-366] Service.reconcileRollout *)
Definition apply_decision (ctx : Context) (decision : StageDecision) (rollout : Rollout)
    (stages : list Stage) : M W Rollout :=
  match decision with
  | DecisionPromote => promote ctx rollout stages
  | DecisionRollback => startRollback ctx rollout
  | DecisionPause =>
      if decide (r_State rollout = StatePaused) then mret rollout
      else transition ctx rollout StatePaused
  | DecisionWait => mret rollout
  end.

(** [src/internal/rollout/service.go:343-345] Service.reconcileRollout *)
Definition stage_index_error (rollout : Rollout) (stages : list Stage) : bool :=
  (r_CurrentStageIndex rollout <? 0)
  || (Z.of_nat (length stages) <=? r_CurrentStageIndex rollout).

(** [src/internal/rollout/service.go:330-367] Service.reconcileRollout *)
Definition reconcileRollout (ctx : Context) (rollout : Rollout) : M W Rollout :=
  targets ← store_ListStageTargets ctx (r_ID rollout) (r_CurrentStageID rollout);
  if decide (r_State rollout = StateRollingBack) then reconcileRollback ctx rollout targets
  else
    stages ← store_ListStages ctx (r_ID rollout);
    guard_err (stage_index_error rollout stages)
              (EWrap ErrInvalidInput "current stage index out of range" []);;
    currentStage ← index stages (r_CurrentStageIndex rollout);
    dr ← evaluateStageDecision ctx rollout targets currentStage;
    let '(decision, rollout) := dr in
    apply_decision ctx decision rollout stages.

(** [src/internal/rollout/service.go:310-328] Service.ReconcileActive *)
Definition ReconcileActive (ctx : Context) : M W unit :=
  active ← store_ListActiveRollouts ctx;
  for_each active (λ rollout,
    if Terminal (r_State rollout) then mret tt
    else reconcileRollout ctx rollout;; mret tt).

(** [src/internal/rollout/service.go:215-296] Service.Acknowledge *)
Definition Acknowledge (ctx : Context) (input : AcknowledgeInput) : M W AcknowledgeResult :=
  rollout ← store_GetRollout ctx (ai_RolloutID input);
  guard_err (Terminal (r_State rollout)) (EWrap ErrConflict "rollout is terminal" []);;
  targets ← store_ListStageTargets ctx (r_ID rollout) (r_CurrentStageID rollout);
  now ← now;
  let '(targets, counted) :=
    ApplyAck targets (MkAck (ai_RolloutID input) (ai_StageID input) (ai_AgentID input)
                        (ai_VersionID input) (ai_SnapshotRevision input) now) in
  (if (counted : bool)
   then store_ReplaceStageTargets ctx (r_ID rollout) (r_CurrentStageID rollout) targets
   else mret tt);;
  stages ← store_ListStages ctx (r_ID rollout);
  if decide (r_State rollout = StateRollingBack) then
    rollout ← reconcileRollback ctx rollout targets;
    mret (MkAcknowledgeResult counted (AcknowledgementCoverage targets) DecisionWait rollout)
  else
    guard_err (stage_index_error rollout stages)
              (EWrap ErrInvalidInput "current stage index out of range" []);;
    currentStage ← index stages (r_CurrentStageIndex rollout);
    dr ← evaluateStageDecision ctx rollout targets currentStage;
    let '(decision, rollout) := dr in
    rollout ← apply_decision ctx decision rollout stages;
    mret (MkAcknowledgeResult counted (AcknowledgementCoverage targets) decision rollout).

(** [src/internal/rollout/service.go:188-198] Service.GetRollout *)
Definition GetRollout (ctx : Context) (rolloutID : string)
    : M W (Rollout * list StageTarget * Coverage) :=
  rollout ← store_GetRollout ctx rolloutID;
  targets ← store_ListStageTargets ctx (r_ID rollout) (r_CurrentStageID rollout);
  mret (rollout, targets, AcknowledgementCoverage targets).

(** [src/internal/rollout/service.go:298-308] Service.ActiveRollout *)
Definition ActiveRollout (ctx : Context) (configDefinitionID : string)
    (environment : Environment) : M W (Rollout * list StageTarget) :=
  rollout ← store_GetActiveRollout ctx configDefinitionID environment;
  targets ← store_ListStageTargets ctx (r_ID rollout) (r_CurrentStageID rollout);
  mret (rollout, targets).

(** [src/internal/rollout/service.go:139-150] Service.CreateRollout *)
Definition default_duration (value preset : Duration) : Duration :=
  if value =? 0 then preset else value.

(** [src/internal/rollout/service.go:135-138] Service.CreateRollout *)
Definition default_ack (value : float64) : float64 :=
  if f_eq value f_zero then f_of_int 95 else value.

(** [src/internal/rollout/service.go:153-175] Service.CreateRollout *)
Definition new_rollout (input : CreateRolloutInput) (id : string) (definition : ConfigDefinition)
    (state : ConfigEnvironmentState) (candidate : ConfigVersion) (first : Stage) (now : Time)
    : Rollout :=
  MkRollout id (d_ID definition) (ci_TenantID input) (ci_Key input) (ci_Environment input)
    ([] ++ ci_TargetServices input) (es_StableVersionID state) (v_ID candidate)
    (v_VersionNumber candidate) StateDeploying (s_ID first) 0
    (default_ack (ci_RequiredAckPercentage input)) ([] ++ ci_Guardrails input) ∅ now
    (default_duration (ci_DeploymentTimeout input) (90 * Second))
    (default_duration (ci_RolloutMaxDuration input) (15 * Minute))
    (default_duration (ci_RollbackTimeout input) (2 * Minute))
    RollbackStatusNone now now.

(** [src/internal/rollout/service.go:86-106] Service.CreateRollout *)
Definition validate_create (input : CreateRolloutInput) (stages : list Stage) : res unit :=
  guard_err (empty_str (ci_TenantID input) || empty_str (ci_Key input))
            (EWrap ErrInvalidInput "tenant and key are required" []);;
  match Environment_Validate (ci_Environment input) with
  | Err err => mthrow (EWrapV ErrInvalidInput err)
  | Ok _ =>
      guard_err (ci_CandidateVersionNumber input <? 1)
                (EWrap ErrInvalidInput "candidate version number must be positive" []);;
      match ValidateStagePlan stages with
      | Err err => mthrow (EWrapV ErrInvalidInput err)
      | Ok _ => validate_guardrails (ci_Guardrails input)
      end
  end.

(** [src/internal/rollout/service.go:82-186] Service.CreateRollout *)
Definition CreateRollout (ctx : Context) (input : CreateRolloutInput)
    : M W (Rollout * list StageTarget) :=
  let stages := if Nat.eqb (length (ci_Stages input)) 0 then svc_stagePlan s
                else ci_Stages input in
  lift (validate_create input stages);;
  definition ← registry_GetDefinition ctx (ci_TenantID input) (ci_Key input);
  versions ← registry_ListVersions ctx (ci_TenantID input) (ci_Key input);
  match findVersionByNumber versions (ci_CandidateVersionNumber input) with
  | None => mthrow (EWrap ErrNotFound "candidate version" [])
  | Some candidate =>
      state ← registry_GetEnvironmentState ctx (ci_TenantID input) (ci_Key input)
                (ci_Environment input);
      guard_err (empty_str (es_StableVersionID state))
                (EWrap ErrInvalidInput "stable version is required" []);;
      guard_err (bool_decide (es_StableVersionID state = v_ID candidate))
                (EWrap ErrConflict "candidate is already stable" []);;
      now ← now;
      id ← randomID "rollout";
      first ← index stages 0;
      let rollout := new_rollout input id definition state candidate first now in
      store_CreateRollout ctx rollout stages;;
      targets ← activateStage ctx rollout first (ci_TargetServices input);
      mret (rollout, targets)
  end.

End Service.

(** The registry service and the agent registry satisfy the interfaces the
    rollout service declares. *)
#[export] Instance registry_service {W} `{Env W, ConfigRegistry.Store W} : Registry W := {|
  registry_GetDefinition := ConfigRegistry.Service.GetDefinition;
  registry_ListVersions := ConfigRegistry.Service.ListVersions;
  registry_GetEnvironmentState := ConfigRegistry.Service.GetEnvironmentState;
  registry_SetStableVersion := ConfigRegistry.Service.SetStableVersion |}.

End RolloutService.
