(* ===== verification/RolloutSpec.v ===== *)
(** The abstract rollout machine: what a store observer may see happen to the
    rollouts, their stages and their target cohorts, one store write at a time.

    [RolloutRefine] proves that every operation of the rollout service, cut
    short by an error at any point or not, is a sequence of these steps; the
    invariants below are proved once, by induction on the steps. *)

From Stdlib Require Import ZArith Lia.
From S2P Require Import Prelude GoLib Domain Guardrail Rollout RolloutFacts.
Import Domain Rollout.
Open Scope string_scope.
Open Scope list_scope.
Open Scope Z_scope.

Module RolloutSpec.

(** * Views: the contents of a rollout store *)

Record View := MkView {
  vw_rollouts : gmap string Rollout;
  vw_stages : gmap string (list Stage);
  vw_targets : string → string → list StageTarget }.

(** Rollout identifiers are generated without zero bytes, which makes the
    joined keys of the store unambiguous; other identifiers are not observed. *)
Definition same_view (v v' : View) : Prop :=
  vw_rollouts v' = vw_rollouts v ∧ vw_stages v' = vw_stages v ∧
  ∀ a b, no_nul a → vw_targets v' a b = vw_targets v a b.

#[export] Instance same_view_equiv : Equivalence same_view.
Proof.
  split.
  - by intros v.
  - intros v v' (H1 & H2 & H3). split_and!; [done..|]. intros. by rewrite H3.
  - intros v1 v2 v3 (H1 & H2 & H3) (H4 & H5 & H6). split_and!; [congruence..|].
    intros. by rewrite H6, H3.
Qed.

Definition put_rollout (r : Rollout) (v v' : View) : Prop :=
  vw_rollouts v' = <[r_ID r := r]> (vw_rollouts v) ∧ vw_stages v' = vw_stages v ∧
  ∀ a b, no_nul a → vw_targets v' a b = vw_targets v a b.

Definition put_stages (id : string) (stages : list Stage) (v v' : View) : Prop :=
  vw_rollouts v' = vw_rollouts v ∧ vw_stages v' = <[id := stages]> (vw_stages v) ∧
  ∀ a b, no_nul a → vw_targets v' a b = vw_targets v a b.

Definition put_new (r : Rollout) (stages : list Stage) (v v' : View) : Prop :=
  vw_rollouts v' = <[r_ID r := r]> (vw_rollouts v) ∧
  vw_stages v' = <[r_ID r := stages]> (vw_stages v) ∧
  ∀ a b, no_nul a → vw_targets v' a b = vw_targets v a b.

Definition put_targets (id stageID : string) (ts : list StageTarget) (v v' : View) : Prop :=
  vw_rollouts v' = vw_rollouts v ∧ vw_stages v' = vw_stages v ∧
  ∀ a b, no_nul a →
    vw_targets v' a b = if decide (a = id ∧ b = stageID) then ts else vw_targets v a b.

(** The configuration and environment a rollout occupies while it runs. *)
Definition slot (r : Rollout) : string := nul_key (r_ConfigDefinitionID r) (r_Environment r).

Definition live (r : Rollout) : Prop := Terminal (r_State r) = false.

Definition verification_id (id : string) : string := (id +:+ "-rollback-verification")%string.

Lemma length_str_app a b : String.length (a +:+ b)%string = (String.length a + String.length b)%nat.
Proof.
  induction a as [|c a IH]; [done|].
  change (S (String.length (a +:+ b)) = S (String.length a + String.length b)). by rewrite IH.
Qed.

(** No short identifier is that of a verification stage. *)
Lemma short_not_verification s : (String.length s < 22)%nat → ∀ id, s ≠ verification_id id.
Proof. intros Hs id ->. unfold verification_id in Hs. rewrite length_str_app in Hs. simpl in Hs. lia. Qed.

(** * The evidence a transition needs *)

(** Every guardrail was evaluated on some query answer and none failed or was
    unknown. *)
Definition guardrails_healthy (r : Rollout) (now : Time) : Prop :=
  r_Guardrails r = [] ∨
  ∃ evaluations,
    Forall2 (λ rule e, ∃ answer previous,
               Guardrail.EvaluateQueryResult rule answer previous now = Ok e)
            (r_Guardrails r) evaluations ∧
    Guardrail.AggregateStatus evaluations = Guardrail.StatusHealthy.

Definition expired (r : Rollout) (now : Time) : Prop :=
  0 < r_RolloutMaxDuration r ∧ r_RolloutMaxDuration r ≤ time_Sub now (r_CreatedAt r).

(** The stage may be left forwards: its cohort is covered, it lasted long
    enough, the rollout is not over time and the guardrails are healthy. *)
Definition may_promote (v : View) (r : Rollout) (s : Stage) (now : Time) : Prop :=
  CoverageReached (vw_targets v (r_ID r) (r_CurrentStageID r)) (r_RequiredAckPercent r) = true ∧
  s_MinimumDuration s ≤ time_Sub now (r_StageStartedAt r) ∧
  ¬ expired r now ∧ guardrails_healthy r now.

(** The rollout may be abandoned: it is over time, the cohort was not covered
    before the deployment timeout, or a guardrail failed. *)
Definition may_roll_back (v : View) (r : Rollout) (now : Time) : Prop :=
  expired r now ∨
  (CoverageReached (vw_targets v (r_ID r) (r_CurrentStageID r)) (r_RequiredAckPercent r) = false ∧
   0 < r_DeploymentTimeout r ∧ r_DeploymentTimeout r ≤ time_Sub now (r_StageStartedAt r)) ∨
  (∃ rule e answer previous, rule ∈ r_Guardrails r ∧
     Guardrail.EvaluateQueryResult rule answer previous now = Ok e ∧
     Guardrail.e_Status e = Guardrail.StatusUnhealthy).

Definition current_stage (v : View) (r : Rollout) (s : Stage) : Prop :=
  ∃ stages, vw_stages v !! r_ID r = Some stages ∧
            0 ≤ r_CurrentStageIndex r ∧ stages !! Z.to_nat (r_CurrentStageIndex r) = Some s.

(** The agents a rollout is for. *)
Definition targeted (r : Rollout) (a : Agent) : Prop :=
  a_Environment a = r_Environment r ∧
  (r_TargetServices r = [] ∨ a_Service a ∈ r_TargetServices r).

(** The cohort of a stage: the targets built from distinct agents the rollout
    is for. *)
Definition built (r : Rollout) (s : Stage) (ts : list StageTarget) : Prop :=
  ∃ agents rev created, NoDup (a_ID <$> agents) ∧ Forall (targeted r) agents ∧
    BuildStageTargets (MkBuildTargetsInput r s agents rev created) = Ok ts.

(** * Steps

    The first and third arguments name the rollout whose current stage has
    been entered but whose cohort is not written yet, if there is one: a
    cohort is written once, by the operation that entered the stage. *)

Inductive vstep : option string → View → option string → View → Prop :=
| step_create o v v' r stages :
    vw_rollouts v !! r_ID r = None →
    (∀ id' r', vw_rollouts v !! id' = Some r' → live r' → slot r' ≠ slot r) →
    no_nul (r_ID r) → plan_ok stages →
    Forall (λ s, s_ID s ≠ verification_id (r_ID r)) stages →
    r_State r = StateDeploying → r_CurrentStageIndex r = 0 → r_RollbackStatus r = RollbackStatusNone →
    r_StableVersionID r ≠ r_CandidateVersionID r →
    (∃ s, stages !! 0%nat = Some s ∧ r_CurrentStageID r = s_ID s) →
    put_new r stages v v' →
    vstep o v (Some (r_ID r)) v'
| step_activate id v v' r s ts :
    vw_rollouts v !! id = Some r → r_State r = StateDeploying → current_stage v r s →
    r_CurrentStageID r = s_ID s → built r s ts →
    put_targets id (s_ID s) (vw_targets v id (s_ID s) ++ ts) v v' →
    vstep (Some id) v None v'
| step_stutter o v v' : same_view v v' → vstep o v o v'
| step_give_up o v : vstep o v None v
| step_ack o v v' id r agentID at_ ts' :
    vw_rollouts v !! id = Some r → live r →
    acks_one agentID at_ (vw_targets v id (r_CurrentStageID r)) ts' →
    put_targets id (r_CurrentStageID r) ts' v v' →
    vstep o v o v'
| step_guardrails o v v' id r failures now :
    vw_rollouts v !! id = Some r → servesCandidate (r_State r) = true →
    put_rollout (set_failures r failures now) v v' →
    vstep o v o v'
| step_pause o v v' id r now :
    vw_rollouts v !! id = Some r → CanTransition (r_State r) StatePaused = true →
    put_rollout (set_state r StatePaused now) v v' →
    vstep o v o v'
| step_advance o v v' id r s s' decided now :
    vw_rollouts v !! id = Some r → servesCandidate (r_State r) = true →
    current_stage v r s → may_promote v r s decided →
    current_stage v (set_progress r StateDeploying (s_ID s') (r_CurrentStageIndex r + 1) now
                       (r_RollbackStatus r) now) s' →
    put_rollout (set_progress r StateDeploying (s_ID s') (r_CurrentStageIndex r + 1) now
                   (r_RollbackStatus r) now) v v' →
    vstep o v (Some id) v'
| step_complete o v v' id r s stages decided now :
    vw_rollouts v !! id = Some r → servesCandidate (r_State r) = true →
    current_stage v r s → may_promote v r s decided →
    vw_stages v !! id = Some stages → r_CurrentStageIndex r = Z.of_nat (length stages) - 1 →
    put_rollout (set_state r StateCompleted now) v v' →
    vstep o v o v'
| step_roll_back o v v' id r decided now :
    vw_rollouts v !! id = Some r → CanTransition (r_State r) StateRollingBack = true →
    may_roll_back v r decided →
    put_rollout (set_state r StateRollingBack now) v v' →
    vstep o v o v'
| step_verification_stage o v v' id r stages s :
    vw_rollouts v !! id = Some r → r_State r = StateRollingBack →
    vw_stages v !! id = Some stages → s_ID s = verification_id id →
    Forall (λ e, s_ID e ≠ s_ID s) stages →
    put_stages id (stages ++ [s]) v v' →
    vstep o v o v'
| step_verification_targets o v v' id r ts :
    vw_rollouts v !! id = Some r → r_State r = StateRollingBack →
    r_CurrentStageID r ≠ verification_id id →
    Forall (λ t, st_RolloutID t = id ∧ st_StageID t = verification_id id ∧
                 st_ExpectedVersionID t = r_StableVersionID r ∧ st_Status t = TargetPending) ts →
    st_AgentID <$> ts = st_AgentID <$> vw_targets v id (r_CurrentStageID r) →
    put_targets id (verification_id id) (vw_targets v id (verification_id id) ++ ts) v v' →
    vstep o v o v'
| step_verification_begin o v v' id r now :
    vw_rollouts v !! id = Some r → r_State r = StateRollingBack →
    r_CurrentStageID r ≠ verification_id id →
    put_rollout (set_progress r StateRollingBack (verification_id id) (r_CurrentStageIndex r)
                   now (r_RollbackStatus r) now) v v' →
    vstep o v o v'
| step_rolled_back o v v' id r status decided now :
    vw_rollouts v !! id = Some r → r_State r = StateRollingBack →
    r_CurrentStageID r = verification_id id →
    (status = RollbackStatusVerified ∧
       (CoverageReached (vw_targets v id (verification_id id)) (r_RequiredAckPercent r) = true
        ∨ vw_targets v id (verification_id id) = []) ∨
     status = RollbackStatusPartial ∧ 0 < r_RollbackTimeout r ∧
       r_RollbackTimeout r ≤ time_Sub decided (r_StageStartedAt r)) →
    put_rollout (set_progress r StateRolledBack (r_CurrentStageID r) (r_CurrentStageIndex r)
                   (r_StageStartedAt r) status now) v v' →
    vstep o v o v'.

(** The views a store reaches from an empty one. *)
Inductive reach : option string → View → Prop :=
| reach_init v :
    vw_rollouts v = ∅ → vw_stages v = ∅ → (∀ a b, no_nul a → vw_targets v a b = []) →
    reach None v
| reach_step o v o' v' : reach o v → vstep o v o' v' → reach o' v'.

(** Sequences of steps, as the closure of a relation on configurations. *)
Definition config : Type := option string * View.
Definition step (c c' : config) : Prop := vstep c.1 c.2 c'.1 c'.2.

Lemma reach_steps c c' : reach c.1 c.2 → rtc step c c' → reach c'.1 c'.2.
Proof.
  intros Hr Hs. revert Hr. induction Hs as [|c c1 c' H1 _ IH]; [done|].
  intros Hr. apply IH. by eapply reach_step.
Qed.

(** * Invariants *)

(** The service only ever leaves a rollout in one of five states. *)
Definition known_state (s : State) : Prop :=
  s = StateDeploying ∨ s = StatePaused ∨ s = StateRollingBack ∨ s = StateCompleted
  ∨ s = StateRolledBack.

Definition forward (r : Rollout) : Prop := servesCandidate (r_State r) = true.

(** What holds of a rollout, its stage list and its cohorts. *)
Record rollout_ok (v : View) (id : string) (r : Rollout) : Prop := {
  ok_id : r_ID r = id;
  ok_no_nul : no_nul id;
  ok_state : known_state (r_State r);
  ok_versions : r_StableVersionID r ≠ r_CandidateVersionID r;
  ok_stages : ∃ plan extra, vw_stages v !! id = Some (plan ++ extra) ∧ plan_ok plan ∧
    Forall (λ s, s_ID s ≠ verification_id id) plan ∧
    0 ≤ r_CurrentStageIndex r < Z.of_nat (length plan) ∧
    (forward r → extra = [] ∧
       ∃ s, plan !! Z.to_nat (r_CurrentStageIndex r) = Some s ∧ r_CurrentStageID r = s_ID s);
  ok_no_verification : forward r → vw_targets v id (verification_id id) = [];
  ok_verification : r_State r = StateRollingBack → r_CurrentStageID r ≠ verification_id id →
    (st_AgentID <$> vw_targets v id (verification_id id)) ⊆
    (st_AgentID <$> vw_targets v id (r_CurrentStageID r)) }.

Record view_ok (v : View) : Prop := {
  view_rollouts : ∀ id r, vw_rollouts v !! id = Some r → rollout_ok v id r;
  view_unknown : ∀ id b, no_nul id → vw_rollouts v !! id = None → vw_targets v id b = [];
  view_slots : ∀ id r id' r', vw_rollouts v !! id = Some r → vw_rollouts v !! id' = Some r' →
    live r → live r' → slot r = slot r' → id = id' }.

(** ** Preservation *)

Lemma rollout_ok_frame v v' id r :
  vw_stages v' !! id = vw_stages v !! id →
  (∀ b, vw_targets v' id b = vw_targets v id b) →
  rollout_ok v id r → rollout_ok v' id r.
Proof.
  intros Hs Ht [? ? ? ? Hst Hnv Hv]. split; try done.
  - by rewrite Hs.
  - by rewrite Ht.
  - by rewrite !Ht.
Qed.

Lemma view_ok_same v v' : same_view v v' → view_ok v → view_ok v'.
Proof.
  intros (Hr & Hs & Ht) [Hok Hun Hsl]. split.
  - intros id r. rewrite Hr. intros Hl. pose proof (Hok _ _ Hl) as H.
    eapply rollout_ok_frame; [by rewrite Hs| |done].
    intros b. apply Ht, (ok_no_nul _ _ _ H).
  - intros id b Hn. rewrite Hr, Ht by done. by apply Hun.
  - intros id r id' r'. rewrite Hr. apply Hsl.
Qed.

Lemma view_ok_put_rollout v v' id r r' :
  view_ok v → vw_rollouts v !! id = Some r → put_rollout r' v v' →
  r_ID r' = id → slot r' = slot r → (live r' → live r) →
  rollout_ok v id r' → view_ok v'.
Proof.
  intros [Hok Hun Hsl] Hr (Hput & Hs & Ht) <- Hslot Hlive Hok'. split.
  - intros id0 r0. rewrite Hput. intros [[<- <-]|[Hne Hl]]%lookup_insert_Some.
    + eapply rollout_ok_frame; [by rewrite Hs| |done].
      intros b. apply Ht, (ok_no_nul _ _ _ Hok').
    + pose proof (Hok _ _ Hl) as H. eapply rollout_ok_frame; [by rewrite Hs| |done].
      intros b. apply Ht, (ok_no_nul _ _ _ H).
  - intros id0 b Hn. rewrite Hput, Ht by done. intros [Hl _]%lookup_insert_None. by apply Hun.
  - intros id1 r1 id2 r2. rewrite Hput.
    intros [[<- <-]|[? H1]]%lookup_insert_Some [[<- <-]|[? H2]]%lookup_insert_Some L1 L2 HS.
    + done.
    + eapply Hsl; [exact Hr|exact H2|by apply Hlive|done|congruence].
    + eapply Hsl; [exact H1|exact Hr|done|by apply Hlive|congruence].
    + by eapply Hsl.
Qed.

(** Writing the cohort of a known rollout. *)
Lemma view_ok_put_targets v v' id r sid ts :
  view_ok v → vw_rollouts v !! id = Some r → put_targets id sid ts v v' →
  rollout_ok v' id r → view_ok v'.
Proof.
  intros [Hok Hun Hsl] Hr (Hput & Hs & Ht) Hok'. split.
  - intros id0 r0. rewrite Hput. intros Hl. destruct (decide (id0 = id)) as [->|Hne].
    { by assert (r0 = r) as -> by congruence. }
    pose proof (Hok _ _ Hl) as H. eapply rollout_ok_frame; [by rewrite Hs| |done].
    intros b. rewrite Ht by apply (ok_no_nul _ _ _ H). rewrite decide_False by tauto. done.
  - intros id0 b Hn. rewrite Hput, Ht by done. intros Hl.
    rewrite decide_False by (intros [-> _]; congruence). by apply Hun.
  - intros id1 r1 id2 r2. rewrite Hput. apply Hsl.
Qed.

(** The facts a step reads off the rollout it acts on. *)
Lemma forward_known r :
  known_state (r_State r) → forward r → r_State r = StateDeploying ∨ r_State r = StatePaused.
Proof. unfold known_state, forward. destruct (r_State r); simpl; intuition congruence. Qed.

Lemma forward_live r : forward r → live r.
Proof. unfold forward, live. by destruct (r_State r). Qed.

Lemma can_pause s : CanTransition s StatePaused = true → servesCandidate s = true ∧ Terminal s = false.
Proof. by destruct s. Qed.

Lemma can_roll_back s :
  CanTransition s StateRollingBack = true → servesCandidate s = true ∧ Terminal s = false.
Proof. by destruct s. Qed.

Lemma forward_current v id r :
  rollout_ok v id r → forward r →
  ∃ plan s, vw_stages v !! id = Some plan ∧ plan_ok plan ∧
    Forall (λ s, s_ID s ≠ verification_id id) plan ∧
    0 ≤ r_CurrentStageIndex r < Z.of_nat (length plan) ∧
    plan !! Z.to_nat (r_CurrentStageIndex r) = Some s ∧ r_CurrentStageID r = s_ID s ∧
    r_CurrentStageID r ≠ verification_id id.
Proof.
  intros H Hf. destruct (ok_stages _ _ _ H) as (plan & extra & Hs & Hp & Hv & Hi & Hc).
  destruct (Hc Hf) as (-> & s & Hl & He). rewrite app_nil_r in Hs.
  exists plan, s. split_and!; try done; [lia..|].
  rewrite He. eapply Forall_lookup_1 in Hv; eauto.
Qed.

(** A serving rollout stays well formed when it is given another state, start
    time or failure count, or when it moves to another stage of its plan. *)
Lemma rollout_ok_update v id r r' :
  rollout_ok v id r → forward r →
  r_ID r' = r_ID r → r_StableVersionID r' = r_StableVersionID r →
  r_CandidateVersionID r' = r_CandidateVersionID r → known_state (r_State r') →
  (∃ plan s, vw_stages v !! id = Some plan ∧ 0 ≤ r_CurrentStageIndex r' ∧
     plan !! Z.to_nat (r_CurrentStageIndex r') = Some s ∧ r_CurrentStageID r' = s_ID s) →
  rollout_ok v id r'.
Proof.
  intros H Hf Hid Hst Hcv Hk (plan & s & Hp & Hi & Hl & Hc).
  destruct (forward_current _ _ _ H Hf) as (plan' & s0 & Hp' & Hok & Hv & _ & _ & _ & _).
  assert (plan' = plan) as -> by congruence.
  assert (r_CurrentStageIndex r' < Z.of_nat (length plan)).
  { apply lookup_lt_Some in Hl. lia. }
  destruct H as [H1 H2 H3 H4 H5 H6 H7]. split; try congruence; try done.
  - exists plan, []. rewrite app_nil_r. split_and!; try done; try lia. eauto.
  - intros _. auto.
  - intros _ _. rewrite H6 by done. apply list_subseteq_nil.
Qed.

Lemma forward_stage v id r : rollout_ok v id r → forward r →
  ∃ plan s, vw_stages v !! id = Some plan ∧ 0 ≤ r_CurrentStageIndex r ∧
     plan !! Z.to_nat (r_CurrentStageIndex r) = Some s ∧ r_CurrentStageID r = s_ID s.
Proof.
  intros H Hf. destruct (forward_current _ _ _ H Hf) as (plan & s & ? & _ & _ & ? & ? & ? & _).
  exists plan, s. split_and!; try done; lia.
Qed.

Lemma known_deploying : known_state StateDeploying. Proof. unfold known_state; auto. Qed.
Lemma known_paused : known_state StatePaused. Proof. unfold known_state; auto. Qed.
Lemma known_rolling_back : known_state StateRollingBack. Proof. unfold known_state; auto. Qed.
Lemma known_completed : known_state StateCompleted. Proof. unfold known_state; auto. Qed.
Lemma known_rolled_back : known_state StateRolledBack. Proof. unfold known_state; auto 6. Qed.
#[local] Hint Resolve known_deploying known_paused known_rolling_back known_completed
  known_rolled_back forward_live : core.

Lemma view_ok_create v v' r stages :
  view_ok v → vw_rollouts v !! r_ID r = None →
  (∀ id' r', vw_rollouts v !! id' = Some r' → live r' → slot r' ≠ slot r) →
  no_nul (r_ID r) → plan_ok stages →
  Forall (λ s, s_ID s ≠ verification_id (r_ID r)) stages →
  r_State r = StateDeploying → r_CurrentStageIndex r = 0 →
  r_StableVersionID r ≠ r_CandidateVersionID r →
  (∃ s, stages !! 0%nat = Some s ∧ r_CurrentStageID r = s_ID s) →
  put_new r stages v v' → view_ok v'.
Proof.
  intros [Hok Hun Hsl] Hnew Hfree Hn Hplan Hver Hst Hidx Hvs (s & Hs0 & Hcur) (Hput & Hs & Ht).
  assert (0 < Z.of_nat (length stages)) by (apply lookup_lt_Some in Hs0; lia).
  split.
  - intros id0 r0. rewrite Hput. intros [[<- <-]|[Hne Hl]]%lookup_insert_Some.
    + split; try done.
      * rewrite Hst. auto.
      * exists stages, []. rewrite Hs, lookup_insert_eq, app_nil_r.
        split_and!; try done; try (rewrite Hidx; lia).
        intros _. split; [done|]. exists s. by rewrite Hidx.
      * intros _. rewrite Ht by done. by apply Hun.
      * by rewrite Hst.
    + pose proof (Hok _ _ Hl) as H0.
      eapply rollout_ok_frame; [by rewrite Hs, lookup_insert_ne| |done].
      intros b. apply Ht, (ok_no_nul _ _ _ H0).
  - intros id b Hid. rewrite Hput, Ht by done. intros [Hl _]%lookup_insert_None. by apply Hun.
  - intros id1 r1 id2 r2. rewrite Hput.
    intros [[<- <-]|[? H1]]%lookup_insert_Some [[<- <-]|[? H2]]%lookup_insert_Some L1 L2 HS.
    + done.
    + by destruct (Hfree _ _ H2 L2).
    + by destruct (Hfree _ _ H1 L1).
    + by eapply Hsl.
Qed.

Lemma acks_one_agents agentID at_ ts ts' :
  acks_one agentID at_ ts ts' → st_AgentID <$> ts' = st_AgentID <$> ts.
Proof. induction 1; simpl; by f_equal. Qed.

Lemma view_ok_ack v v' id r agentID at_ ts' :
  view_ok v → vw_rollouts v !! id = Some r →
  acks_one agentID at_ (vw_targets v id (r_CurrentStageID r)) ts' →
  put_targets id (r_CurrentStageID r) ts' v v' → view_ok v'.
Proof.
  intros Hv Hr Hack Hput. eapply view_ok_put_targets; [done..|].
  pose proof (view_rollouts _ Hv _ _ Hr) as H. destruct Hput as (_ & Hs & Ht).
  pose proof (ok_no_nul _ _ _ H) as Hn. destruct (H) as [H1 H2 H3 H4 H5 H6 H7]; split; rewrite ?Hs; try done.
  - intros Hf. rewrite Ht, decide_False; [by apply H6| |done].
    intros [_ ?]. destruct (forward_current _ _ _ H Hf) as (? & ? & ? & ? & ? & ? & ? & ? & ?). auto.
  - intros Hst Hne. rewrite !Ht by done. rewrite decide_False by (intros [_ ?]; congruence).
    rewrite decide_True by done. rewrite (acks_one_agents _ _ _ _ Hack). by apply H7.
Qed.

Lemma view_ok_activate v v' id r s ts :
  view_ok v → vw_rollouts v !! id = Some r → r_State r = StateDeploying →
  r_CurrentStageID r = s_ID s →
  put_targets id (s_ID s) (vw_targets v id (s_ID s) ++ ts) v v' → view_ok v'.
Proof.
  intros Hv Hr Hst Hc Hput. eapply view_ok_put_targets; [done..|].
  pose proof (view_rollouts _ Hv _ _ Hr) as H. destruct Hput as (_ & Hs & Ht).
  pose proof (ok_no_nul _ _ _ H) as Hn. destruct (H) as [H1 H2 H3 H4 H5 H6 H7]; split; rewrite ?Hs; try done.
  - intros Hf. rewrite Ht, decide_False; [by apply H6| |done].
    intros [_ ?]. destruct (forward_current _ _ _ H Hf) as (? & ? & ? & ? & ? & ? & ? & ? & ?).
    congruence.
  - intros Hst'. congruence.
Qed.

Lemma view_ok_verification_targets v v' id r ts :
  view_ok v → vw_rollouts v !! id = Some r → r_State r = StateRollingBack →
  r_CurrentStageID r ≠ verification_id id →
  st_AgentID <$> ts = st_AgentID <$> vw_targets v id (r_CurrentStageID r) →
  put_targets id (verification_id id) (vw_targets v id (verification_id id) ++ ts) v v' →
  view_ok v'.
Proof.
  intros Hv Hr Hst Hc Hts Hput. eapply view_ok_put_targets; [done..|].
  pose proof (view_rollouts _ Hv _ _ Hr) as H. destruct Hput as (_ & Hs & Ht).
  pose proof (ok_no_nul _ _ _ H) as Hn. destruct (H) as [H1 H2 H3 H4 H5 H6 H7]; split; rewrite ?Hs; try done.
  - unfold forward. by rewrite Hst.
  - intros _ _. rewrite !Ht by done. rewrite decide_True by done.
    rewrite decide_False by (intros [_ ?]; congruence). rewrite fmap_app, Hts.
    apply list_subseteq_app_iff_l. split; [by apply H7|reflexivity].
Qed.

Lemma view_ok_verification_stage v v' id r stages s :
  view_ok v → vw_rollouts v !! id = Some r → r_State r = StateRollingBack →
  vw_stages v !! id = Some stages → put_stages id (stages ++ [s]) v v' → view_ok v'.
Proof.
  intros [Hok Hun Hsl] Hr Hst Hstages (Hput & Hs & Ht). split.
  - intros id0 r0. rewrite Hput. intros Hl. pose proof (Hok _ _ Hl) as H.
    destruct (decide (id0 = id)) as [->|Hne].
    + assert (r0 = r) as -> by congruence.
      destruct (ok_stages _ _ _ H) as (plan & extra & Hps & Hp & Hv & Hi & Hc).
      destruct (H) as [H1 H2 H3 H4 H5 H6 H7]; split; rewrite ?Hs, ?Ht by done; try done.
      * exists plan, (extra ++ [s]). rewrite lookup_insert_eq, (assoc_L (++)).
        split_and!; try done; try lia; [congruence|].
        unfold forward. by rewrite Hst.
    + eapply rollout_ok_frame; [by rewrite Hs, lookup_insert_ne| |done].
      intros b. apply Ht, (ok_no_nul _ _ _ H).
  - intros id0 b Hn. rewrite Hput, Ht by done. by apply Hun.
  - intros id1 r1 id2 r2. rewrite Hput. apply Hsl.
Qed.

(** A rollout that is rolling back stays well formed. *)
Lemma rollout_ok_back v id r r' :
  rollout_ok v id r → r_State r = StateRollingBack →
  r_ID r' = r_ID r → r_StableVersionID r' = r_StableVersionID r →
  r_CandidateVersionID r' = r_CandidateVersionID r →
  r_State r' = StateRollingBack ∨ r_State r' = StateRolledBack →
  r_CurrentStageIndex r' = r_CurrentStageIndex r →
  r_CurrentStageID r' = verification_id id →
  rollout_ok v id r'.
Proof.
  intros H Hst Hid Hs Hc Hst' Hi Hcur. destruct (ok_stages _ _ _ H) as (plan & extra & Hps & Hp & Hv & Hx & _).
  assert (¬ forward r') as Hnf by (unfold forward; destruct Hst' as [-> | ->]; done).
  destruct H as [H1 H2 H3 H4 H5 H6 H7]. split; try congruence; try done.
  - destruct Hst' as [-> | ->]; auto.
  - exists plan, extra. rewrite Hi. split_and!; try done; lia.
Qed.

(** Close the bookkeeping premises of [view_ok_put_rollout]. *)
#[local] Ltac put_step :=
  eapply view_ok_put_rollout; [done|eassumption|eassumption|simpl; congruence|done| |].

Lemma view_ok_step o v o' v' : vstep o v o' v' → view_ok v → view_ok v'.
Proof.
  intros Hstep Hv. pose proof (view_rollouts _ Hv) as Hok.
  inversion Hstep; subst; clear Hstep;
    try match goal with
        | Hr : vw_rollouts v !! ?id = Some ?r |- _ =>
            pose proof (Hok _ _ Hr) as Hr_ok; pose proof (ok_id _ _ _ Hr_ok) as Hid
        end.
  - eapply view_ok_create; eauto.
  - by eapply view_ok_activate.
  - by eapply view_ok_same.
  - done.
  - by eapply view_ok_ack.
  - put_step; [intros _; by apply forward_live|].
    eapply rollout_ok_update; try done; [exact (ok_state _ _ _ Hr_ok)|by apply (forward_stage _ _ r)].
  - destruct (can_pause (r_State r)); [done|]. put_step; [done|].
    eapply rollout_ok_update; try done; by apply (forward_stage _ _ r).
  - put_step; [intros _; by apply forward_live|].
    match goal with H : current_stage _ _ s' |- _ => destruct H as (plan & Hp & Hi & Hl) end.
    simpl in Hp, Hi, Hl. rewrite Hid in Hp.
    eapply rollout_ok_update; try done. by exists plan, s'.
  - put_step; [intros _; by apply forward_live|].
    eapply rollout_ok_update; try done; by apply (forward_stage _ _ r).
  - destruct (can_roll_back (r_State r)); [done|]. put_step; [done|].
    eapply rollout_ok_update; try done; by apply (forward_stage _ _ r).
  - by eapply view_ok_verification_stage.
  - by eapply view_ok_verification_targets.
  - put_step; [unfold live; by rewrite H0|]. eapply rollout_ok_back; eauto.
  - put_step; [done|]. eapply rollout_ok_back; eauto.
Qed.

Lemma reach_ok o v : reach o v → view_ok v.
Proof.
  induction 1 as [v Hr Hs Ht|o v o' v' _ IH Hstep].
  - split.
    + intros id r. rewrite Hr. by intros ?%lookup_empty_Some.
    + intros id b Hn _. by apply Ht.
    + intros id r id' r'. rewrite Hr. by intros ?%lookup_empty_Some.
  - by eapply view_ok_step.
Qed.

End RolloutSpec.
