(* ===== verification/RolloutInvariants.v ===== *)
(** What the rollout machine guarantees of every store it reaches: who may be
    in a cohort, which cohorts are covered, what a finished rollout has behind
    it, and that nothing happens to it afterwards. *)

From Stdlib Require Import ZArith Lia.
From S2P Require Import Prelude GoLib Domain Guardrail Rollout RolloutFacts RolloutSpec.
Import Domain Rollout RolloutSpec.
Open Scope string_scope.
Open Scope list_scope.
Open Scope Z_scope.

Module RolloutInvariants.

(** * The fields of a rollout that no step changes *)

Definition identity (r : Rollout) :=
  (r_ID r, r_ConfigDefinitionID r, r_TenantID r, r_ConfigKey r, r_Environment r,
   r_TargetServices r, (r_StableVersionID r, r_CandidateVersionID r, r_CandidateVersion r),
   (r_RequiredAckPercent r, r_Guardrails r), (r_CreatedAt r, r_RolloutMaxDuration r)).

(** A member of a stage's cohort: its bucket is the one the assignment key
    gives, within the stage's percentage, and it expects the candidate. *)
Definition cohort_member (r : Rollout) (s : Stage) (t : StageTarget) : Prop :=
  Bucket (MkAssignmentKey (r_ConfigDefinitionID r) (r_CandidateVersionID r) (st_AgentID t))
    = Ok (st_Bucket t) ∧
  Eligible (st_Bucket t) (s_Percentage s) = true ∧
  st_ExpectedVersionID t = r_CandidateVersionID r ∧ st_RolloutID t = r_ID r.

Definition covered (r : Rollout) (ts : list StageTarget) : Prop :=
  CoverageReached ts (r_RequiredAckPercent r) = true.

(** * The invariant of one rollout *)

Record cohorts_ok (o : option string) (v : View) (id : string) (r : Rollout)
    (plan : list Stage) : Prop := {
  co_before : ∀ i s, plan !! i = Some s → Z.of_nat i < r_CurrentStageIndex r →
    covered r (vw_targets v id (s_ID s));
  co_after : ∀ i s, plan !! i = Some s → r_CurrentStageIndex r < Z.of_nat i →
    vw_targets v id (s_ID s) = [];
  co_entered : o = Some id → forward r → ∀ s, plan !! Z.to_nat (r_CurrentStageIndex r) = Some s →
    vw_targets v id (s_ID s) = [];
  co_distinct : ∀ sid, sid ≠ verification_id id → NoDup (st_AgentID <$> vw_targets v id sid) }.

Record history_ok (o : option string) (v : View) (id : string) (r : Rollout)
    (plan extra : list Stage) : Prop := {
  hi_stages : vw_stages v !! id = Some (plan ++ extra);
  hi_plan : Forall (λ s, s_ID s ≠ verification_id id) plan;
  hi_extra : Forall (λ s, s_ID s = verification_id id) extra;
  hi_index : 0 ≤ r_CurrentStageIndex r < Z.of_nat (length plan);
  hi_forward : forward r → extra = [];
  hi_current : (r_CurrentStageID r = verification_id id ∧ ¬ forward r) ∨
    ∃ s, plan !! Z.to_nat (r_CurrentStageIndex r) = Some s ∧ r_CurrentStageID r = s_ID s;
  hi_members : ∀ sid t, sid ≠ verification_id id → t ∈ vw_targets v id sid →
    ∃ s, s ∈ plan ∧ s_ID s = sid ∧ cohort_member r s t;
  hi_verification : ∀ t, t ∈ vw_targets v id (verification_id id) →
    st_ExpectedVersionID t = r_StableVersionID r;
  hi_cohorts : NoDup (s_ID <$> plan) → cohorts_ok o v id r plan;
  hi_completed : r_State r = StateCompleted →
    extra = [] ∧ r_CurrentStageIndex r = Z.of_nat (length plan) - 1 ∧
    covered r (vw_targets v id (r_CurrentStageID r)) ∧
    r_CurrentStageID r ≠ verification_id id;
  hi_status : r_State r ≠ StateRolledBack → r_RollbackStatus r = RollbackStatusNone;
  hi_rolled_back : r_State r = StateRolledBack →
    (r_RollbackStatus r = RollbackStatusVerified ∧
       (covered r (vw_targets v id (verification_id id)) ∨ vw_targets v id (verification_id id) = []))
    ∨ (r_RollbackStatus r = RollbackStatusPartial ∧ 0 < r_RollbackTimeout r) }.

Definition history (o : option string) (v : View) : Prop :=
  ∀ id r, vw_rollouts v !! id = Some r → ∃ plan extra, history_ok o v id r plan extra.

(** ** Frames *)

(** The invariant of a rollout depends on its stages and cohorts only, and on
    the pending activation only when it is its own. *)
Lemma history_ok_frame o o' v v' id r plan extra :
  vw_stages v' !! id = vw_stages v !! id →
  (∀ b, vw_targets v' id b = vw_targets v id b) →
  (o' = Some id → o = Some id) →
  history_ok o v id r plan extra → history_ok o' v' id r plan extra.
Proof.
  intros Hs Ht Ho [H1 H2 H3 H4 H5 Hcur H6 H7 H8 H9 H10 H11].
  split; rewrite ?Hs, ?Ht; try done.
  - intros sid t. rewrite Ht. apply H6.
  - intros Hnd. destruct (H8 Hnd) as [C1 C2 C3 C4]. split.
    + intros i s. rewrite Ht. apply C1.
    + intros i s. rewrite Ht. apply C2.
    + intros Ho' Hf s. rewrite Ht. by apply C3; [apply Ho|].
    + intros sid. rewrite Ht. apply C4.
Qed.

(** The rollout a step acts on, and the others. *)
Lemma history_step_on o o' v v' id r r' plan extra :
  view_ok v → history o v → vw_rollouts v !! id = Some r →
  vw_rollouts v' !! id = Some r' →
  (∀ id0, id0 ≠ id → vw_rollouts v' !! id0 = vw_rollouts v !! id0) →
  (∀ id0, id0 ≠ id → vw_stages v' !! id0 = vw_stages v !! id0) →
  (∀ id0 b, id0 ≠ id → no_nul id0 → vw_targets v' id0 b = vw_targets v id0 b) →
  (o' = Some id ∨ o' = o ∨ o' = None) →
  history_ok o' v' id r' plan extra → history o' v'.
Proof.
  intros Hv Hh Hr Hr' Hrs Hss Hts Ho Hok id0 r0 H0. destruct (decide (id0 = id)) as [->|Hne].
  { assert (r0 = r') as -> by congruence. eauto. }
  rewrite Hrs in H0 by done. destruct (Hh _ _ H0) as (plan0 & extra0 & Hh0).
  exists plan0, extra0. eapply (history_ok_frame o o'); [by apply Hss| | |exact Hh0].
  - intros b. apply Hts; [done|]. apply (ok_no_nul _ _ _ (view_rollouts _ Hv _ _ H0)).
  - intros ->. destruct Ho as [[= ->]|[<-|?]]; [done|done|congruence].
Qed.

(** A rollout record changes in place. *)
Lemma history_put_rollout o o' v v' id r r' plan extra :
  view_ok v → history o v → vw_rollouts v !! id = Some r →
  put_rollout r' v v' → r_ID r' = id → (o' = Some id ∨ o' = o ∨ o' = None) →
  history_ok o' v id r' plan extra → history o' v'.
Proof.
  intros Hv Hh Hr (Hp & Hs & Ht) <- Ho Hok.
  eapply (history_step_on o o' v v'); [done..|by rewrite Hp, lookup_insert_eq| | | |done|].
  - intros id0 Hne. by rewrite Hp, lookup_insert_ne.
  - intros id0 _. by rewrite Hs.
  - intros id0 b _ Hn. by apply Ht.
  - eapply (history_ok_frame o' o'); [by rewrite Hs| |done|exact Hok].
    intros b. apply Ht, (ok_no_nul _ _ _ (view_rollouts _ Hv _ _ Hr)).
Qed.

(** A cohort changes. *)
Lemma history_put_targets o o' v v' id r sid ts plan extra :
  view_ok v → history o v → vw_rollouts v !! id = Some r →
  put_targets id sid ts v v' → (o' = Some id ∨ o' = o ∨ o' = None) →
  history_ok o' v' id r plan extra → history o' v'.
Proof.
  intros Hv Hh Hr (Hp & Hs & Ht) Ho Hok.
  eapply (history_step_on o o' v v'); [done..|by rewrite Hp| | | |done|exact Hok].
  - intros id0 Hne. by rewrite Hp.
  - intros id0 _. by rewrite Hs.
  - intros id0 b Hne Hn. rewrite Ht by done. by rewrite decide_False by tauto.
Qed.

(** ** The update of a record

    A rollout keeps its identity; its index, when it moves, moves to the next
    stage once the current one is covered. *)
Lemma cohort_member_identity r r' s t :
  identity r' = identity r → cohort_member r s t → cohort_member r' s t.
Proof. unfold identity, cohort_member. intros [=]. by repeat (match goal with H : _ = _ |- _ => rewrite H; clear H end). Qed.

Lemma covered_identity r r' ts : identity r' = identity r → covered r ts → covered r' ts.
Proof. unfold identity, covered. intros [=]. by congruence. Qed.

(** A change of state, start time or failure count. *)
Lemma history_same_index o o' v id r r' plan extra :
  history_ok o v id r plan extra → identity r' = identity r →
  r_CurrentStageIndex r' = r_CurrentStageIndex r →
  (r_CurrentStageID r' = r_CurrentStageID r ∨
     r_CurrentStageID r' = verification_id id ∧ ¬ forward r') →
  (forward r' → forward r) → (o' = Some id → o = Some id) →
  (r_State r' = StateCompleted →
    extra = [] ∧ r_CurrentStageIndex r' = Z.of_nat (length plan) - 1 ∧
    covered r' (vw_targets v id (r_CurrentStageID r')) ∧
    r_CurrentStageID r' ≠ verification_id id) →
  (r_State r' ≠ StateRolledBack → r_RollbackStatus r' = RollbackStatusNone) →
  (r_State r' = StateRolledBack →
    (r_RollbackStatus r' = RollbackStatusVerified ∧
       (covered r' (vw_targets v id (verification_id id)) ∨ vw_targets v id (verification_id id) = []))
    ∨ (r_RollbackStatus r' = RollbackStatusPartial ∧ 0 < r_RollbackTimeout r')) →
  history_ok o' v id r' plan extra.
Proof.
  intros [H1 H2 H3 H4 H5 Hcur H6 H7 H8 H9 H10 H11] Hid Hi Hc' Hf Ho Hc Hs Hb.
  split; try done.
  - by rewrite Hi.
  - auto.
  - rewrite Hi. destruct Hc' as [-> |?]; [|by left]. destruct Hcur as [[??]|?]; [left; auto|by right].
  - intros sid t Hsid Ht. destruct (H6 sid t Hsid Ht) as (s & ? & ? & ?).
    exists s. split_and!; [done..|]. by eapply cohort_member_identity.
  - intros t Ht. rewrite (H7 t Ht). unfold identity in Hid. by injection Hid.
  - intros Hnd. destruct (H8 Hnd) as [C1 C2 C3 C4]. split; rewrite ?Hi; try done.
    + intros i s Hl Hlt. eapply covered_identity; [done|]. by eapply C1.
    + intros Ho' Hf'. apply C3; auto.
Qed.

(** ** The steps *)

Lemma history_same_view o o' v v' :
  view_ok v → history o v → same_view v v' → (o' = o ∨ o' = None) → history o' v'.
Proof.
  intros Hv Hh (Hp & Hs & Ht) Ho id r. rewrite Hp. intros Hr.
  destruct (Hh _ _ Hr) as (plan & extra & Hok). exists plan, extra.
  eapply (history_ok_frame o o'); [by rewrite Hs| | |exact Hok].
  - intros b. apply Ht, (ok_no_nul _ _ _ (view_rollouts _ Hv _ _ Hr)).
  - by destruct Ho as [-> | ->].
Qed.

Lemma history_create o v v' r stages :
  view_ok v → history o v → vw_rollouts v !! r_ID r = None → no_nul (r_ID r) →
  plan_ok stages → Forall (λ s, s_ID s ≠ verification_id (r_ID r)) stages →
  r_State r = StateDeploying → r_CurrentStageIndex r = 0 → r_RollbackStatus r = RollbackStatusNone →
  (∃ s, stages !! 0%nat = Some s ∧ r_CurrentStageID r = s_ID s) →
  put_new r stages v v' → history (Some (r_ID r)) v'.
Proof.
  intros Hv Hh Hnew Hn Hplan Hver Hst Hi Hrs Hcur (Hp & Hs & Ht) id0 r0.
  rewrite Hp. intros [[<- <-]|[Hne Hl]]%lookup_insert_Some.
  - assert (∀ b, vw_targets v' (r_ID r) b = []) as Hnil.
    { intros b. rewrite Ht by done. by apply (view_unknown _ Hv). }
    exists stages, []. destruct Hcur as (s & Hs0 & Hc).
    assert (0 < Z.of_nat (length stages)) by (apply lookup_lt_Some in Hs0; lia).
    split; rewrite ?Hi, ?Hst, ?Hnil; try done; try lia.
    + by rewrite Hs, lookup_insert_eq, app_nil_r.
    + right. by exists s.
    + intros sid t _. rewrite Hnil. by intros ?%not_elem_of_nil.
    + by intros t ?%not_elem_of_nil.
    + intros _. split; intros; rewrite ?Hnil; try done; [lia|constructor].
  - destruct (Hh _ _ Hl) as (plan & extra & Hok). exists plan, extra.
    eapply (history_ok_frame o (Some (r_ID r))); [by rewrite Hs, lookup_insert_ne| | |exact Hok].
    + intros b. apply Ht, (ok_no_nul _ _ _ (view_rollouts _ Hv _ _ Hl)).
    + by intros [= <-].
Qed.

(** What [built] gives about the members of a new cohort. *)
Lemma built_members r s ts : built r s ts →
  NoDup (st_AgentID <$> ts) ∧ Forall (cohort_member r s) ts.
Proof.
  intros (agents & rev & created & Hnd & _ & Hb). split.
  - by eapply BuildStageTargets_NoDup; [|exact Hb].
  - apply Forall_forall. intros t Ht.
    apply (BuildStageTargets_elem _ _ t Hb) in Ht as (a & _ & Ht).
    unfold agent_target, agent_bucket in Ht. simpl in Ht.
    destruct (Bucket _) as [b|] eqn:Hbk in Ht; [|done].
    destruct (Eligible b _) eqn:He; [|done]. by injection Ht as <-.
Qed.

Lemma acks_one_elem agentID at_ ts ts' t' :
  acks_one agentID at_ ts ts' → t' ∈ ts' → ∃ t, t ∈ ts ∧ target_key t' = target_key t.
Proof.
  intros Hack Ht. apply acks_one_keys in Hack.
  apply (list_elem_of_fmap_2 target_key) in Ht. rewrite Hack in Ht.
  apply list_elem_of_fmap in Ht as (t & ? & ?). eauto.
Qed.

Lemma cohort_member_key r s t t' :
  target_key t' = target_key t → cohort_member r s t → cohort_member r s t'.
Proof.
  unfold target_key, cohort_member. intros [=].
  by repeat (match goal with H : _ t' = _ |- _ => rewrite H; clear H end).
Qed.

(** Two stages of a plan with pairwise distinct ids. *)
Lemma plan_distinct (plan : list Stage) i j si sj :
  NoDup (s_ID <$> plan) → plan !! i = Some si → plan !! j = Some sj → s_ID si = s_ID sj → i = j.
Proof.
  intros Hnd Hi Hj He. eapply (NoDup_lookup (s_ID <$> plan)); [done| |].
  - by rewrite list_lookup_fmap, Hi.
  - by rewrite list_lookup_fmap, Hj, He.
Qed.

(** The cohort of the entered stage is written. *)
Lemma history_activate v v' id r s ts :
  view_ok v → history (Some id) v → vw_rollouts v !! id = Some r → r_State r = StateDeploying →
  current_stage v r s → r_CurrentStageID r = s_ID s → built r s ts →
  put_targets id (s_ID s) (vw_targets v id (s_ID s) ++ ts) v v' → history None v'.
Proof.
  intros Hv Hh Hr Hst (stages & Hps & _ & Hl) Hcur [Hnd Hm]%built_members Hput.
  pose proof (view_rollouts _ Hv _ _ Hr) as Hok. pose proof (ok_no_nul _ _ _ Hok) as Hn.
  rewrite (ok_id _ _ _ Hok) in Hps.
  destruct (Hh _ _ Hr) as (plan & extra & [H1 H2 H3 H4 H5 Hc H6 H7 H8 H9 H10 H11]).
  assert (forward r) as Hf by (unfold forward; by rewrite Hst).
  rewrite (H5 Hf), app_nil_r in H1. rewrite Hps in H1. injection H1 as ->.
  eapply history_put_targets; [done..|exact Hput|auto|].
  destruct Hput as (_ & Hs & Ht).
  assert (s_ID s ≠ verification_id id) as Hne by by eapply Forall_lookup_1 in H2.
  split; rewrite ?Hst; try done.
  - rewrite Hs, (H5 Hf). by rewrite app_nil_r.
  - intros sid t Hsid. rewrite Ht by done. case_decide as Hd; [|by apply H6].
    destruct Hd as [_ ->]. rewrite elem_of_app. intros [Hin|Hin]; [by apply H6|].
    exists s. split_and!; [by eapply list_elem_of_lookup_2|done|]. by eapply Forall_forall in Hm.
  - intros t. rewrite Ht by done. rewrite decide_False by (intros [_ ?]; congruence). apply H7.
  - intros Hdist. destruct (H8 Hdist) as [C1 C2 C3 C4]. rewrite (C3 eq_refl Hf s Hl) in Ht.
    split; try done.
    + intros i s' Hi Hlt. rewrite Ht by done. rewrite decide_False; [by eapply C1|].
      intros [_ He]. apply (plan_distinct _ _ _ _ _ Hdist Hi Hl) in He. lia.
    + intros i s' Hi Hlt. rewrite Ht by done. rewrite decide_False; [by eapply C2|].
      intros [_ He]. apply (plan_distinct _ _ _ _ _ Hdist Hi Hl) in He. lia.
    + intros sid Hsid. rewrite Ht by done. case_decide; [done|by apply C4].
  - intros _. apply H10. by rewrite Hst.
Qed.

(** A member of the current cohort acknowledges. *)
Lemma history_ack o v v' id r agentID at_ ts' :
  view_ok v → history o v → vw_rollouts v !! id = Some r → live r →
  acks_one agentID at_ (vw_targets v id (r_CurrentStageID r)) ts' →
  put_targets id (r_CurrentStageID r) ts' v v' → history o v'.
Proof.
  intros Hv Hh Hr Hlive Hack Hput.
  pose proof (ok_no_nul _ _ _ (view_rollouts _ Hv _ _ Hr)) as Hn.
  destruct (Hh _ _ Hr) as (plan & extra & [H1 H2 H3 H4 H5 Hc H6 H7 H8 H9 H10 H11]).
  eapply history_put_targets; [done..|exact Hput|auto|].
  destruct Hput as (_ & Hs & Ht).
  assert (∀ i s, NoDup (s_ID <$> plan) → plan !! i = Some s → Z.of_nat i ≠ r_CurrentStageIndex r →
            s_ID s ≠ r_CurrentStageID r) as Hother.
  { intros i s Hdist Hi Hne He. destruct Hc as [[Hc _]|(s0 & Hl & Hc)].
    - eapply Forall_lookup_1 in H2; [|exact Hi]. simpl in H2. congruence.
    - rewrite Hc in He. apply (plan_distinct _ _ _ _ _ Hdist Hi Hl) in He. lia. }
  split; try done.
  - by rewrite Hs.
  - intros sid t' Hsid. rewrite Ht by done. case_decide as Hd; [|by apply H6].
    destruct Hd as [_ ->]. intros Hin. destruct (acks_one_elem _ _ _ _ _ Hack Hin) as (t & Hin' & Hk).
    destruct (H6 _ _ Hsid Hin') as (s & ? & ? & ?). exists s. split_and!; [done..|].
    by eapply cohort_member_key.
  - intros t'. rewrite Ht by done. case_decide as Hd; [|by apply H7].
    destruct Hd as [_ Hd]. intros Hin. destruct (acks_one_elem _ _ _ _ _ Hack Hin) as (t & Hin' & Hk).
    rewrite <-Hd in Hin'. rewrite <-(H7 _ Hin'). unfold target_key in Hk. by injection Hk.
  - intros Hdist. destruct (H8 Hdist) as [C1 C2 C3 C4]. split.
    + intros i s Hi Hlt. rewrite Ht, decide_False; [by eapply C1| |done].
      intros [_ He]. eapply Hother; try done. lia.
    + intros i s Hi Hlt. rewrite Ht, decide_False; [by eapply C2| |done].
      intros [_ He]. eapply Hother; try done. lia.
    + intros Ho Hf s Hl. exfalso. destruct Hc as [[_ ?]|(s0 & Hl0 & Hc)]; [done|].
      rewrite Hc, (C3 Ho Hf s0 Hl0) in Hack. inversion Hack.
    + intros sid Hsid. rewrite Ht by done. case_decide as Hd; [|by apply C4].
      destruct Hd as [_ Hd]. rewrite (acks_one_agents _ _ _ _ Hack), <-Hd. by apply C4.
  - intros Hst. unfold live in Hlive. by rewrite Hst in Hlive.
  - intros Hst. unfold live in Hlive. by rewrite Hst in Hlive.
Qed.

(** The rollout moves to the next stage of its plan. *)
Lemma history_advance o v v' id r s s' decided now :
  view_ok v → history o v → vw_rollouts v !! id = Some r → servesCandidate (r_State r) = true →
  may_promote v r s decided →
  let r' := set_progress r StateDeploying (s_ID s') (r_CurrentStageIndex r + 1) now
              (r_RollbackStatus r) now in
  current_stage v r' s' → put_rollout r' v v' → history (Some id) v'.
Proof.
  intros Hv Hh Hr Hf (Hcov & _) r' (stages & Hps & _ & Hl') Hput.
  pose proof (view_rollouts _ Hv _ _ Hr) as Hok. pose proof (ok_id _ _ _ Hok) as Hid.
  simpl in Hps, Hl'. rewrite Hid in Hps, Hcov.
  destruct (Hh _ _ Hr) as (plan & extra & [H1 H2 H3 H4 H5 Hc H6 H7 H8 H9 H10 H11]).
  rewrite (H5 Hf), app_nil_r in H1. rewrite Hps in H1. injection H1 as ->.
  assert (Z.of_nat (Z.to_nat (r_CurrentStageIndex r + 1)) < Z.of_nat (length plan)).
  { apply lookup_lt_Some in Hl'. lia. }
  eapply (history_put_rollout _ (Some id)); [done|exact Hh|exact Hr|exact Hput|done|auto|].
  split; try done; simpl; try lia.
  - rewrite Hps, (H5 Hf). by rewrite app_nil_r.
  - intros _. auto.
  - right. by exists s'.
  - intros Hdist. destruct (H8 Hdist) as [C1 C2 C3 C4]. split; simpl; try done.
    + intros i si Hi Hlt. destruct (decide (Z.of_nat i < r_CurrentStageIndex r)).
      { by eapply C1. }
      assert (i = Z.to_nat (r_CurrentStageIndex r)) as -> by lia.
      destruct Hc as [[_ ?]|(s0 & Hl0 & Hc)]; [done|].
      rewrite Hl0 in Hi. injection Hi as ->. by rewrite <-Hc.
    + intros i si Hi Hlt. eapply C2; [done|lia].
    + intros _ _ si Hi. eapply C2; [exact Hi|lia].
  - intros _. apply H10. intros Hst. by rewrite Hst in Hf.
Qed.

Lemma history_complete o v v' id r s stages decided now :
  view_ok v → history o v → vw_rollouts v !! id = Some r → servesCandidate (r_State r) = true →
  may_promote v r s decided → vw_stages v !! id = Some stages →
  r_CurrentStageIndex r = Z.of_nat (length stages) - 1 →
  put_rollout (set_state r StateCompleted now) v v' → history o v'.
Proof.
  intros Hv Hh Hr Hf (Hcov & _) Hps Hlast Hput.
  pose proof (view_rollouts _ Hv _ _ Hr) as Hok. pose proof (ok_id _ _ _ Hok) as Hid.
  rewrite Hid in Hcov. destruct (Hh _ _ Hr) as (plan & extra & Hi).
  eapply history_put_rollout; [done..|exact Hput|done|auto|].
  eapply history_same_index; [exact Hi| | | | | | | |]; try done; simpl.
  - by left.
  - intros _. rewrite (hi_stages _ _ _ _ _ _ Hi) in Hps. injection Hps as <-.
    rewrite (hi_forward _ _ _ _ _ _ Hi), app_nil_r in Hlast by done.
    split; [by apply (hi_forward _ _ _ _ _ _ Hi)|]. split; [done|]. split; [done|].
    destruct (hi_current _ _ _ _ _ _ Hi) as [[_ ?]|(s0 & Hl & ->)]; [done|].
    eapply Forall_lookup_1 in Hl; [|exact (hi_plan _ _ _ _ _ _ Hi)]. done.
  - intros _. apply (hi_status _ _ _ _ _ _ Hi). intros Hst. by rewrite Hst in Hf.
Qed.

Lemma history_verification_stage o v v' id r stages s :
  view_ok v → history o v → vw_rollouts v !! id = Some r → r_State r = StateRollingBack →
  vw_stages v !! id = Some stages → s_ID s = verification_id id →
  put_stages id (stages ++ [s]) v v' → history o v'.
Proof.
  intros Hv Hh Hr Hst Hps Hsid (Hp & Hs & Ht).
  pose proof (view_rollouts _ Hv _ _ Hr) as Hok. pose proof (ok_no_nul _ _ _ Hok) as Hn.
  destruct (Hh _ _ Hr) as (plan & extra & Hi).
  eapply (history_step_on o o v v'); [done..|by rewrite Hp| | | |auto|].
  - intros id0 _. by rewrite Hp.
  - intros id0 Hne. by rewrite Hs, lookup_insert_ne.
  - intros id0 b _ Hn0. by apply Ht.
  - destruct Hi as [H1 H2 H3 H4 H5 Hc H6 H7 H8 H9 H10 H11].
    rewrite H1 in Hps. injection Hps as <-. instantiate (1 := extra ++ [s]). instantiate (1 := plan).
    split; rewrite ?Hs, ?lookup_insert_eq, ?Ht by done; try done.
    + by rewrite (assoc_L (++)).
    + apply Forall_app. split; [done|]. by constructor.
    + unfold forward. by rewrite Hst.
    + intros sid t. rewrite Ht by done. apply H6.
    + intros Hdist. destruct (H8 Hdist) as [C1 C2 C3 C4]. split.
      * intros i s0. rewrite Ht by done. apply C1.
      * intros i s0. rewrite Ht by done. apply C2.
      * intros Ho Hf s0. rewrite Ht by done. by apply C3.
      * intros sid. rewrite Ht by done. apply C4.
    + intros ?. congruence.
Qed.

Lemma history_verification_targets o v v' id r ts :
  view_ok v → history o v → vw_rollouts v !! id = Some r → r_State r = StateRollingBack →
  Forall (λ t, st_RolloutID t = id ∧ st_StageID t = verification_id id ∧
               st_ExpectedVersionID t = r_StableVersionID r ∧ st_Status t = TargetPending) ts →
  put_targets id (verification_id id) (vw_targets v id (verification_id id) ++ ts) v v' →
  history o v'.
Proof.
  intros Hv Hh Hr Hst Hts Hput.
  pose proof (ok_no_nul _ _ _ (view_rollouts _ Hv _ _ Hr)) as Hn.
  destruct (Hh _ _ Hr) as (plan & extra & [H1 H2 H3 H4 H5 Hc H6 H7 H8 H9 H10 H11]).
  eapply history_put_targets; [done..|exact Hput|auto|].
  destruct Hput as (_ & Hs & Ht).
  assert (∀ sid, sid ≠ verification_id id → vw_targets v' id sid = vw_targets v id sid) as Ht'.
  { intros sid Hsid. rewrite Ht, decide_False; [done| |done]. by intros [_ ?]. }
  split; rewrite ?Hst; try done.
  - by rewrite Hs.
  - intros sid t Hsid. rewrite Ht' by done. by apply H6.
  - intros t. rewrite Ht, decide_True by done. rewrite elem_of_app.
    intros [?|Hin]; [by apply H7|]. eapply Forall_forall in Hts; [|exact Hin]. tauto.
  - intros Hdist. destruct (H8 Hdist) as [C1 C2 C3 C4].
    split; [| |unfold forward; by rewrite Hst|].
    + intros i s Hi. rewrite Ht'; [by apply C1|]. by eapply Forall_lookup_1 in H2.
    + intros i s Hi. rewrite Ht'; [by apply C2|]. by eapply Forall_lookup_1 in H2.
    + intros sid Hsid. rewrite Ht' by done. by apply C4.
  - intros _. apply H10. by rewrite Hst.
Qed.

(** Close the bookkeeping of a step that keeps the index. *)
#[local] Ltac in_place Hh Hr :=
  let plan := fresh "plan" in let extra := fresh "extra" in let Hi := fresh "Hi" in
  destruct (Hh _ _ Hr) as (plan & extra & Hi);
  eapply history_put_rollout;
    [done|exact Hh|exact Hr|eassumption|simpl; congruence|auto|];
  eapply history_same_index; [exact Hi| | | | | | | |]; try done; simpl; auto;
  try (exact (hi_status _ _ _ _ _ _ Hi));
  try (intros _; apply (hi_status _ _ _ _ _ _ Hi); intros Hrb;
       match goal with H : context [r_State _] |- _ => rewrite Hrb in H; done end).

Lemma history_step o v o' v' : vstep o v o' v' → view_ok v → history o v → history o' v'.
Proof.
  intros Hstep Hv Hh. inversion Hstep; subst; clear Hstep;
    try match goal with
        | Hr : vw_rollouts v !! ?id = Some ?r |- _ =>
            pose proof (view_rollouts _ Hv _ _ Hr) as Hr_ok; pose proof (ok_id _ _ _ Hr_ok) as Hid
        end.
  - eapply history_create; eauto.
  - by eapply history_activate.
  - by eapply history_same_view; [..|by left].
  - by eapply (history_same_view o None v' v'); [..|by right].
  - by eapply history_ack.
  - in_place Hh H; intros Hst; by rewrite Hst in H0.
  - destruct (can_pause (r_State r)); [done|]. in_place Hh H.
  - by eapply history_advance.
  - by eapply history_complete.
  - destruct (can_roll_back (r_State r)); [done|]. in_place Hh H.
  - by eapply history_verification_stage.
  - by eapply history_verification_targets.
  - in_place Hh H. by right.
  - in_place Hh H. intros _. destruct H2 as [(-> & [?|?])|(-> & ? & ?)]; auto.
Qed.

Lemma reach_history o v : reach o v → history o v.
Proof.
  induction 1 as [v Hr _ _|o v o' v' Hreach IH Hstep].
  - intros id r. rewrite Hr. by intros ?%lookup_empty_Some.
  - eapply history_step; [exact Hstep|by eapply reach_ok|done].
Qed.

(** * Two-state properties *)

(** What a step may do to a rollout that exists: keep it, or move it along
    the life cycle; its identity never changes. *)
Inductive lifecycle : State → State → Prop :=
| lc_stay s : lifecycle s s
| lc_pause : lifecycle StateDeploying StatePaused
| lc_advance : lifecycle StatePaused StateDeploying
| lc_complete s : s = StateDeploying ∨ s = StatePaused → lifecycle s StateCompleted
| lc_roll_back s : s = StateDeploying ∨ s = StatePaused → lifecycle s StateRollingBack
| lc_rolled_back : lifecycle StateRollingBack StateRolledBack.

(** The record, the plan and the cohorts of a finished rollout stay. *)
Definition frozen (v v' : View) (id : string) : Prop :=
  vw_rollouts v' !! id = vw_rollouts v !! id ∧ vw_stages v' !! id = vw_stages v !! id ∧
  ∀ b, vw_targets v' id b = vw_targets v id b.

Lemma terminal_states s : Terminal s = true → s = StateCompleted ∨ s = StateRolledBack ∨ s = StateFailed.
Proof. destruct s; try done; auto. Qed.

Lemma put_rollout_lookup r v v' id r0 :
  put_rollout r v v' → vw_rollouts v !! id = Some r0 →
  vw_rollouts v' !! id = Some (if decide (r_ID r = id) then r else r0).
Proof. intros (-> & _) Hl. case_decide as Hd; [subst; by rewrite lookup_insert_eq|by rewrite lookup_insert_ne]. Qed.

Lemma vstep_rollout o v o' v' id r :
  vstep o v o' v' → view_ok v → vw_rollouts v !! id = Some r →
  ∃ r', vw_rollouts v' !! id = Some r' ∧ identity r' = identity r ∧
    lifecycle (r_State r) (r_State r') ∧ r_CurrentStageIndex r ≤ r_CurrentStageIndex r'.
Proof.
  intros Hstep Hv Hr. pose proof (ok_state _ _ _ (view_rollouts _ Hv _ _ Hr)) as Hk.
  assert (∀ v'', vw_rollouts v'' = vw_rollouts v → ∃ r', vw_rollouts v'' !! id = Some r' ∧
    identity r' = identity r ∧ lifecycle (r_State r) (r_State r') ∧
    r_CurrentStageIndex r ≤ r_CurrentStageIndex r') as Hsame.
  { intros v'' ->. exists r. split_and!; try done. constructor. }
  assert (∀ id1 r1 r', vw_rollouts v !! id1 = Some r1 → put_rollout r' v v' → r_ID r' = r_ID r1 →
    (identity r' = identity r1 ∧ (known_state (r_State r1) → lifecycle (r_State r1) (r_State r')) ∧
       r_CurrentStageIndex r1 ≤ r_CurrentStageIndex r') →
    ∃ r', vw_rollouts v' !! id = Some r' ∧ identity r' = identity r ∧
      lifecycle (r_State r) (r_State r') ∧ r_CurrentStageIndex r ≤ r_CurrentStageIndex r') as Hput.
  { intros id1 r1 r' H1 Hp Hid (Hi & Hl & Hx).
    rewrite (put_rollout_lookup _ _ _ _ _ Hp Hr), Hid, (ok_id _ _ _ (view_rollouts _ Hv _ _ H1)).
    eexists. split; [done|]. case_decide as Hd; [|by split_and!; [|constructor|]].
    subst id1. assert (r1 = r) as -> by congruence. auto. }
  inversion Hstep; subst; clear Hstep;
    try (match goal with H : same_view _ _ |- _ => apply Hsame, H end);
    try (match goal with H : put_targets _ _ _ _ _ |- _ => apply Hsame, H end);
    try (match goal with H : put_stages _ _ _ _ |- _ => apply Hsame, H end);
    try (eapply Hput; [eassumption..|done|]; split; [done|split; [|simpl; lia]]; intros Hk1; simpl).
  - match goal with H : put_new _ _ _ _ |- _ => destruct H as (Hp & _ & _) end.
    exists r. rewrite Hp, lookup_insert_ne by congruence. split_and!; try done. constructor.
  - by apply Hsame.
  - constructor.
  - destruct (can_pause (r_State r0)) as [Hs _]; [done|].
    destruct (forward_known _ Hk1 Hs) as [-> | ->]; constructor.
  - destruct (forward_known _ Hk1) as [-> | ->]; [done|constructor..].
  - constructor. by apply forward_known.
  - destruct (can_roll_back (r_State r0)) as [Hs _]; [done|]. constructor. by apply forward_known.
  - match goal with H : r_State _ = StateRollingBack |- _ => rewrite H end. constructor.
  - match goal with H : r_State _ = StateRollingBack |- _ => rewrite H end. constructor.
Qed.

Lemma vstep_frozen o v o' v' id r :
  vstep o v o' v' → view_ok v → vw_rollouts v !! id = Some r → Terminal (r_State r) = true →
  frozen v v' id.
Proof.
  intros Hstep Hv Hr Ht. pose proof (view_rollouts _ Hv _ _ Hr) as Hok.
  pose proof (ok_no_nul _ _ _ Hok) as Hn. apply terminal_states in Ht.
  assert (∀ r', put_rollout r' v v' → r_ID r' ≠ id → frozen v v' id) as Hput.
  { intros r' (Hp & Hs & Htg) Hne. split_and!; [by rewrite Hp, lookup_insert_ne|by rewrite Hs|].
    intros b. by apply Htg. }
  assert (∀ id1 b ts, put_targets id1 b ts v v' → id ≠ id1 → frozen v v' id) as Htgt.
  { intros id1 b ts (Hp & Hs & Htg) Hne. split_and!; [by rewrite Hp|by rewrite Hs|].
    intros b'. rewrite Htg by done. by rewrite decide_False by tauto. }
  assert (∀ id1 r1, vw_rollouts v !! id1 = Some r1 →
    (servesCandidate (r_State r1) = true ∨ live r1 ∨ r_State r1 = StateRollingBack ∨
     CanTransition (r_State r1) StatePaused = true ∨
     CanTransition (r_State r1) StateRollingBack = true) → id ≠ id1 ∧ r_ID r1 ≠ id) as Hother.
  { intros id1 r1 H1 Hs. assert (id ≠ id1) as Hne.
    { intros <-. assert (r1 = r) as -> by congruence. unfold live in Hs.
      destruct Ht as [Ht|[Ht|Ht]]; rewrite Ht in Hs; destruct_or! Hs; done. }
    split; [done|]. by rewrite (ok_id _ _ _ (view_rollouts _ Hv _ _ H1)). }
  inversion Hstep; subst; clear Hstep;
    try match goal with H1 : vw_rollouts v !! ?id1 = Some ?r1 |- frozen _ _ id =>
          destruct (Hother id1 r1) as [Hne Hne']; [done|tauto || (match goal with H : r_State _ = _ |- _ => rewrite H end; simpl; auto)|] end;
    try (by eapply Hput);
    try (by eapply Htgt).
  - match goal with H : put_new _ _ _ _ |- _ => destruct H as (Hp & Hs & Htg) end.
    assert (r_ID r0 ≠ id) by congruence.
    split_and!; [by rewrite Hp, lookup_insert_ne|by rewrite Hs, lookup_insert_ne|].
    intros b. by apply Htg.
  - match goal with H : same_view _ _ |- _ => destruct H as (Hp & Hs & Htg) end.
    split_and!; [by rewrite Hp|by rewrite Hs|]. intros b. by apply Htg.
  - by split_and!.
  - match goal with H : put_stages _ _ _ _ |- _ => destruct H as (Hp & Hs & Htg) end.
    split_and!; [by rewrite Hp|by rewrite Hs, lookup_insert_ne|]. intros b. by apply Htg.
Qed.

(** ** Sequences of steps *)

Lemma steps_frozen v v' id r o o' :
  rtc step (o, v) (o', v') → view_ok v → vw_rollouts v !! id = Some r →
  Terminal (r_State r) = true → frozen v v' id.
Proof.
  intros Hs. remember (o, v) as c eqn:Hc. remember (o', v') as c' eqn:Hc'.
  revert o v Hc. induction Hs as [c|c [o1 v1] c2 Hstep _ IH]; intros o v -> Hok Hr Ht.
  - injection Hc' as <- <-. by split_and!.
  - unfold step in Hstep; simpl in Hstep.
    destruct (vstep_frozen _ _ _ _ _ _ Hstep Hok Hr Ht) as (F1 & F2 & F3).
    destruct (IH Hc' o1 v1 eq_refl) as (G1 & G2 & G3);
      [by eapply view_ok_step|by rewrite F1|done|].
    split_and!; [congruence..|]. intros b. by rewrite G3.
Qed.

Lemma steps_rollout v v' id r o o' :
  rtc step (o, v) (o', v') → view_ok v → vw_rollouts v !! id = Some r →
  ∃ r', vw_rollouts v' !! id = Some r' ∧ identity r' = identity r ∧
    rtc lifecycle (r_State r) (r_State r') ∧ r_CurrentStageIndex r ≤ r_CurrentStageIndex r'.
Proof.
  intros Hs. remember (o, v) as c eqn:Hc. remember (o', v') as c' eqn:Hc'.
  revert o v r Hc. induction Hs as [c|c [o1 v1] c2 Hstep _ IH]; intros o v r -> Hok Hr.
  - injection Hc' as <- <-. by exists r.
  - unfold step in Hstep; simpl in Hstep.
    destruct (vstep_rollout _ _ _ _ _ _ Hstep Hok Hr) as (r1 & Hr1 & Hid1 & Hl1 & Hx1).
    destruct (IH Hc' o1 v1 r1 eq_refl) as (r2 & Hr2 & Hid2 & Hl2 & Hx2);
      [by eapply view_ok_step|done|].
    exists r2. split_and!; [done|congruence|by eapply rtc_l|lia].
Qed.

End RolloutInvariants.
