(* ===== verification/RolloutMemory.v ===== *)
(** The laws the rollout service relies on: those of a rollout [Store], stated
    over the views of [RolloutSpec], and that the registry, the agent source
    and the guardrail queries leave the rollout store alone.  Then that the
    in-memory rollout store obeys the laws of a [Store]. *)

From Stdlib Require Import ZArith Lia.
From S2P Require Import Prelude GoLib Host Domain Guardrail Registry Rollout RolloutFacts RolloutStore RolloutService RolloutSpec.
Import Domain Rollout RolloutService RolloutSpec.
Open Scope string_scope.
Open Scope list_scope.
Open Scope Z_scope.

Module RolloutLaws.

(** A stage of this identifier is already listed. *)
Definition listed (stages : list Stage) (stage : Stage) : bool :=
  existsb (λ e, bool_decide (s_ID e = s_ID stage)) stages.

Class StoreLaws (W : Type) `{Store W} (failure : Context → error → Prop)
    (store_inv : W → Prop) (view : W → View) := {
  law_id : ∀ w id r, store_inv w → vw_rollouts (view w) !! id = Some r → r_ID r = id;
  law_CreateRollout : ∀ ctx r stages w, store_inv w → live r →
    wp (store_CreateRollout ctx r stages) (λ res w', store_inv w' ∧
      match res with
      | Ok _ => vw_rollouts (view w) !! r_ID r = None ∧
                (∀ id' r', vw_rollouts (view w) !! id' = Some r' → live r' → slot r' ≠ slot r) ∧
                put_new r stages (view w) (view w')
      | Err e => view w' = view w ∧
          (failure ctx e ∨
           errors_Is e ErrAlreadyExists = true ∧ is_Some (vw_rollouts (view w) !! r_ID r) ∨
           errors_Is e ErrConflict = true ∧
           ∃ id' r', vw_rollouts (view w) !! id' = Some r' ∧ live r' ∧ slot r' = slot r)
      end) w;
  law_GetRollout : ∀ ctx id w, store_inv w →
    wp (store_GetRollout ctx id) (λ res w', store_inv w' ∧ view w' = view w ∧
      match res with
      | Ok r => vw_rollouts (view w) !! id = Some r
      | Err e => failure ctx e ∨
                 errors_Is e ErrNotFound = true ∧ vw_rollouts (view w) !! id = None
      end) w;
  law_GetActiveRollout : ∀ ctx cfg env w, store_inv w →
    wp (store_GetActiveRollout ctx cfg env) (λ res w', store_inv w' ∧ view w' = view w ∧
      match res with
      | Ok r => vw_rollouts (view w) !! r_ID r = Some r ∧ live r ∧ slot r = nul_key cfg env
      | Err e => failure ctx e ∨
          errors_Is e ErrNotFound = true ∧
          ∀ id r, vw_rollouts (view w) !! id = Some r → live r → slot r ≠ nul_key cfg env
      end) w;
  law_ListActiveRollouts : ∀ ctx w, store_inv w →
    wp (store_ListActiveRollouts ctx) (λ res w', store_inv w' ∧ view w' = view w ∧
      match res with
      | Ok l => NoDup (r_ID <$> l) ∧
                ∀ r, r ∈ l ↔ vw_rollouts (view w) !! r_ID r = Some r ∧ live r
      | Err e => failure ctx e
      end) w;
  law_UpdateRollout : ∀ ctx r r0 w, store_inv w →
    vw_rollouts (view w) !! r_ID r = Some r0 → live r0 → slot r = slot r0 →
    wp (store_UpdateRollout ctx r) (λ res w', store_inv w' ∧
      match res with
      | Ok _ => put_rollout r (view w) (view w')
      | Err e => view w' = view w ∧ failure ctx e
      end) w;
  law_ListStages : ∀ ctx id w, store_inv w →
    wp (store_ListStages ctx id) (λ res w', store_inv w' ∧ view w' = view w ∧
      match res with
      | Ok l => vw_stages (view w) !! id = Some l
      | Err e => failure ctx e ∨
                 errors_Is e ErrNotFound = true ∧ vw_stages (view w) !! id = None
      end) w;
  law_SaveStage : ∀ ctx id s w, store_inv w →
    wp (store_SaveStage ctx id s) (λ res w', store_inv w' ∧
      match res with
      | Ok _ =>
          let existing := default [] (vw_stages (view w) !! id) in
          if listed existing s then view w' = view w
          else put_stages id (existing ++ [s]) (view w) (view w')
      | Err e => view w' = view w ∧
          (failure ctx e ∨
           errors_Is e ErrNotFound = true ∧ vw_rollouts (view w) !! id = None)
      end) w;
  law_SaveStageTargets : ∀ ctx id stageID ts w, store_inv w → no_nul id →
    Forall (λ t, st_RolloutID t = id ∧ st_StageID t = stageID) ts →
    wp (store_SaveStageTargets ctx ts) (λ res w', store_inv w' ∧
      match res with
      | Ok _ => put_targets id stageID (vw_targets (view w) id stageID ++ ts) (view w) (view w')
      | Err e => view w' = view w ∧ failure ctx e
      end) w;
  law_ReplaceStageTargets : ∀ ctx id stageID ts w, store_inv w → no_nul id →
    wp (store_ReplaceStageTargets ctx id stageID ts) (λ res w', store_inv w' ∧
      match res with
      | Ok _ => put_targets id stageID ts (view w) (view w')
      | Err e => view w' = view w ∧ failure ctx e
      end) w;
  law_ListStageTargets : ∀ ctx id stageID w, store_inv w → no_nul id →
    wp (store_ListStageTargets ctx id stageID) (λ res w', store_inv w' ∧ view w' = view w ∧
      match res with
      | Ok ts => ts = vw_targets (view w) id stageID
      | Err e => failure ctx e
      end) w;
  law_NextSnapshotRevision : ∀ ctx w, store_inv w →
    wp (store_NextSnapshotRevision ctx) (λ res w', store_inv w' ∧ view w' = view w ∧
      match res with Ok _ => True | Err e => failure ctx e end) w }.

(** The methods of a store keep a predicate on the rest of the world. *)
Class StoreKeeps (W : Type) `{Store W} (P : W → Prop) := {
  keep_CreateRollout : ∀ ctx r stages, preserves P (store_CreateRollout ctx r stages);
  keep_GetRollout : ∀ ctx id, preserves P (store_GetRollout ctx id);
  keep_GetActiveRollout : ∀ ctx c e, preserves P (store_GetActiveRollout ctx c e);
  keep_ListActiveRollouts : ∀ ctx, preserves P (store_ListActiveRollouts ctx);
  keep_UpdateRollout : ∀ ctx r, preserves P (store_UpdateRollout ctx r);
  keep_ListStages : ∀ ctx id, preserves P (store_ListStages ctx id);
  keep_SaveStage : ∀ ctx id s, preserves P (store_SaveStage ctx id s);
  keep_SaveStageTargets : ∀ ctx ts, preserves P (store_SaveStageTargets ctx ts);
  keep_ReplaceStageTargets : ∀ ctx i s ts, preserves P (store_ReplaceStageTargets ctx i s ts);
  keep_ListStageTargets : ∀ ctx i s, preserves P (store_ListStageTargets ctx i s);
  keep_NextSnapshotRevision : ∀ ctx, preserves P (store_NextSnapshotRevision ctx) }.

(** The laws hold with any invariant the methods keep added to the store's. *)
Lemma StoreLaws_with (W : Type) `{Store W} failure store_inv view (P : W → Prop) :
  StoreLaws W failure store_inv view → StoreKeeps W P →
  StoreLaws W failure (λ w, store_inv w ∧ P w) view.
Proof.
  intros HL HK.
  split; intros;
    match goal with Hi : store_inv _ ∧ P _ |- _ => destruct Hi end;
    try (eapply wp_mono; [apply (wp_with P);
      [apply HK|assumption|apply HL; eassumption]|]; simpl; tauto).
  - by eapply law_id.
  - eapply wp_mono; [apply (wp_with P);
      [apply keep_UpdateRollout|assumption|by eapply law_UpdateRollout]|]; simpl; tauto.
Qed.

(** A computation that does not touch the rollout store. *)
Definition apart {W A} (store_inv : W → Prop) (view : W → View) (m : M W A) : Prop :=
  ∀ v, preserves (λ w, store_inv w ∧ view w = v) m.

(** The parts of the world the service calls besides its store. *)
Class ServiceLaws (W : Type) `{Env W, Registry W, AgentSource W} (s : Service W)
    (store_inv : W → Prop) (view : W → View) := {
  apart_env : ∀ v, HostFrame (λ w, store_inv w ∧ view w = v);
  apart_GetDefinition : ∀ ctx t k, apart store_inv view (registry_GetDefinition ctx t k);
  apart_ListVersions : ∀ ctx t k, apart store_inv view (registry_ListVersions ctx t k);
  apart_GetEnvironmentState : ∀ ctx t k env,
    apart store_inv view (registry_GetEnvironmentState ctx t k env);
  apart_SetStableVersion : ∀ ctx input,
    apart store_inv view (registry_SetStableVersion ctx input);
  apart_ListAgents : ∀ ctx, apart store_inv view (agents_ListAgents ctx);
  law_ListAgents : ∀ ctx w, store_inv w →
    wp (agents_ListAgents ctx)
       (λ res _, ∀ agents, res = Ok agents → NoDup (a_ID <$> agents)) w;
  apart_query : ∀ query ctx q at_, svc_queryer s = Some query →
    apart store_inv view (query ctx q at_) }.

End RolloutLaws.

Import Domain Rollout RolloutStore RolloutService RolloutSpec RolloutLaws.

Module RolloutMemory.

(** The memory store of a world that holds one, as the service's [Store]. *)
#[export] Instance memory_store {W} `{Env W, Has MemoryStore W} : Store W := {|
  store_CreateRollout ctx r stages := store_call ctx (λ e, RolloutStore.CreateRollout e r stages);
  store_GetRollout ctx id := store_call ctx (λ e, RolloutStore.GetRollout e id);
  store_GetActiveRollout ctx cfg env := store_call ctx (λ e, GetActiveRollout e cfg env);
  store_ListActiveRollouts ctx := store_range ctx ListActiveRollouts;
  store_UpdateRollout ctx r := store_call ctx (λ e, UpdateRollout e r);
  store_ListStages ctx id := store_call ctx (λ e, ListStages e id);
  store_SaveStage ctx id stage := store_call ctx (λ e, SaveStage e id stage);
  store_SaveStageTargets ctx ts := store_call ctx (λ e, SaveStageTargets e ts);
  store_ReplaceStageTargets ctx id sid ts := store_call ctx (λ e, ReplaceStageTargets e id sid ts);
  store_ListStageTargets ctx id sid := store_call ctx (λ e, ListStageTargets e id sid);
  store_NextSnapshotRevision ctx := store_call ctx NextSnapshotRevision |}.

Definition view_of (s : MemoryStore) : View :=
  MkView (ms_rollouts s) (ms_stages s) (λ a b, default [] (ms_targets s !! targetKey a b)).

(** The index of active rollouts holds exactly the live ones. *)
Record mem_ok (s : MemoryStore) : Prop := {
  mo_id : ∀ id r, ms_rollouts s !! id = Some r → r_ID r = id;
  mo_active : ∀ k id, ms_activeRollout s !! k = Some id →
    ∃ r, ms_rollouts s !! id = Some r ∧ live r ∧ slot r = k;
  mo_live : ∀ id r, ms_rollouts s !! id = Some r → live r →
    ms_activeRollout s !! slot r = Some id }.

Lemma rollouts_mem_New : mem_ok NewMemoryStore.
Proof. by split; unfold NewMemoryStore; simpl; intros ? ?; rewrite lookup_empty. Qed.

Lemma cloneRollout_id r : cloneRollout r = r.
Proof. by destruct r. Qed.

Lemma cloneRollouts_id (l : list Rollout) : cloneRollout <$> l = l.
Proof. induction l as [|r l IH]; [done|]. by rewrite fmap_cons, cloneRollout_id, IH. Qed.

Lemma mem_ok_put s r r0 active :
  mem_ok s → ms_rollouts s !! r_ID r = Some r0 → live r0 → slot r = slot r0 →
  active = (if Terminal (r_State r) then delete (slot r) (ms_activeRollout s)
            else <[slot r := r_ID r]> (ms_activeRollout s)) →
  mem_ok (set_rollouts s (<[r_ID r := r]> (ms_rollouts s)) active).
Proof.
  intros [H1 H2 H3] Hr0 Hl0 Hslot ->. pose proof (H3 _ _ Hr0 Hl0) as Hact. split; simpl.
  - intros id r'. intros [[<- <-]|[_ ?]]%lookup_insert_Some; auto.
  - intros k id. destruct (Terminal (r_State r)) eqn:Ht.
    + intros [Hne Hk]%lookup_delete_Some. destruct (H2 _ _ Hk) as (r' & Hr' & ? & Hs).
      exists r'. rewrite lookup_insert_ne; [done|]. intros Heq; subst id. congruence.
    + intros [[<- <-]|[Hne Hk]]%lookup_insert_Some.
      * exists r. by rewrite lookup_insert_eq.
      * destruct (H2 _ _ Hk) as (r' & Hr' & ? & Hs). exists r'.
        rewrite lookup_insert_ne; [done|]. intros Heq; subst id. congruence.
  - intros id r'. intros [[<- <-]|[Hne Hr']]%lookup_insert_Some Hl.
    + rewrite Hl. by rewrite lookup_insert_eq.
    + pose proof (H3 _ _ Hr' Hl) as Ha.
      assert (slot r ≠ slot r') by (rewrite Hslot; intros Heq; rewrite <-Heq in Ha; congruence).
      destruct (Terminal (r_State r)); [by rewrite lookup_delete_ne|by rewrite lookup_insert_ne].
Qed.

Section methods.
Context (ctx : Context) (e : option ctx_error) (He : ctx_answer ctx e).
Abbreviation err := (ctx_cause <$> e).
#[local] Ltac start := method_start He.

Lemma rollout_at_Some s id r : ms_rollouts s !! id = Some r → rollout_at s id = r.
Proof. unfold rollout_at. by intros ->. Qed.

Lemma CreateRollout_law r stages s : mem_ok s → live r →
  wp (RolloutStore.CreateRollout err r stages) (λ res s', mem_ok s' ∧
    match res with
    | Ok _ => ms_rollouts s !! r_ID r = None ∧
        (∀ id' r', ms_rollouts s !! id' = Some r' → live r' → slot r' ≠ slot r) ∧
        put_new r stages (view_of s) (view_of s')
    | Err er => view_of s' = view_of s ∧
        (interrupted ctx er ∨
         errors_Is er ErrAlreadyExists = true ∧ is_Some (ms_rollouts s !! r_ID r) ∨
         errors_Is er ErrConflict = true ∧
         ∃ id' r', ms_rollouts s !! id' = Some r' ∧ live r' ∧ slot r' = slot r)
    end) s.
Proof.
  intros Hs Hl. unfold RolloutStore.CreateRollout. start. wp_step. wp_step.
  { apply bool_decide_eq_true in H. auto 6. }
  apply bool_decide_eq_false, eq_None_not_Some in H. cbv zeta. wp_step. wp_step.
  { destruct (ms_activeRollout s !! _) as [id|] eqn:Ha; [|done].
    destruct (mo_active _ Hs _ _ Ha) as (r' & Hr' & ? & ?). split_and!; [done..|].
    right; right. split; [done|]. by exists id, r'. }
  rewrite Hl, cloneRollout_id. cbn [negb]. unfold wp; simpl.
  assert (ms_activeRollout s !! slot r = None) as Hfree.
  { destruct (ms_activeRollout s !! slot r) as [id|] eqn:Ha; [|done].
    destruct (mo_active _ Hs _ _ Ha) as (r' & Hr' & Hl' & ?).
    change (rolloutActiveKey _ _) with (slot r) in H0. rewrite Ha in H0.
    rewrite (rollout_at_Some _ _ _ Hr'), Hl' in H0. done. }
  assert (∀ id' r', ms_rollouts s !! id' = Some r' → live r' → slot r' ≠ slot r) as Hno.
  { intros id' r' Hr' Hl' Heq. pose proof (mo_live _ Hs _ _ Hr' Hl'). congruence. }
  split; [|done]. destruct Hs as [H1 H2 H3]. split; simpl.
  - intros id r'. intros [[<- <-]|[_ ?]]%lookup_insert_Some; auto.
  - intros k id. intros [[<- <-]|[Hne Hk]]%lookup_insert_Some.
    + exists r. by rewrite lookup_insert_eq.
    + destruct (H2 _ _ Hk) as (r' & Hr' & ?). exists r'.
      rewrite lookup_insert_ne; [done|]. congruence.
  - intros id r'. intros [[<- <-]|[Hne Hr']]%lookup_insert_Some Hl'.
    + apply lookup_insert_eq.
    + rewrite lookup_insert_ne; [by apply H3|]. intros Heq. by eapply Hno.
Qed.

Lemma GetRollout_law id s : mem_ok s →
  wp (RolloutStore.GetRollout err id) (λ res s', mem_ok s' ∧ view_of s' = view_of s ∧
    match res with
    | Ok r => ms_rollouts s !! id = Some r
    | Err er => interrupted ctx er ∨ errors_Is er ErrNotFound = true ∧ ms_rollouts s !! id = None
    end) s.
Proof. intros Hs. unfold RolloutStore.GetRollout. start. wp_run; rewrite ?cloneRollout_id; auto. Qed.

Lemma GetActiveRollout_law cfg env s : mem_ok s →
  wp (GetActiveRollout err cfg env) (λ res s', mem_ok s' ∧ view_of s' = view_of s ∧
    match res with
    | Ok r => ms_rollouts s !! r_ID r = Some r ∧ live r ∧ slot r = nul_key cfg env
    | Err er => interrupted ctx er ∨ errors_Is er ErrNotFound = true ∧
        ∀ id r, ms_rollouts s !! id = Some r → live r → slot r ≠ nul_key cfg env
    end) s.
Proof.
  intros Hs. unfold GetActiveRollout. start.
  destruct (ms_activeRollout s !! nul_key cfg env) as [id|] eqn:Ha.
  - destruct (mo_active _ Hs _ _ Ha) as (r & Hr & Hl & Hslot). cbv zeta.
    rewrite (rollout_at_Some _ _ _ Hr), Hl, cloneRollout_id. unfold wp; simpl.
    by rewrite (mo_id _ Hs _ _ Hr).
  - apply wp_throw. split_and!; [done..|]. right. split; [done|].
    intros id r Hr Hl Heq. pose proof (mo_live _ Hs _ _ Hr Hl). congruence.
Qed.

Lemma ListActiveRollouts_law range s : range_ok range → mem_ok s →
  wp (ListActiveRollouts err range) (λ res s', mem_ok s' ∧ view_of s' = view_of s ∧
    match res with
    | Ok l => NoDup (r_ID <$> l) ∧ ∀ r, r ∈ l ↔ ms_rollouts s !! r_ID r = Some r ∧ live r
    | Err er => interrupted ctx er
    end) s.
Proof.
  intros Hr Hs. unfold ListActiveRollouts. start. apply wp_ret. rewrite cloneRollouts_id.
  assert (∀ id, id ∈ map_values range (ms_activeRollout s) ↔
    ∃ r, ms_rollouts s !! id = Some r ∧ live r) as Hids.
  { intros id. rewrite elem_of_map_values by done. split.
    - intros [k Hk]. destruct (mo_active _ Hs _ _ Hk) as (r & ? & ? & _). eauto.
    - intros (r & Hid & Hl). eauto using mo_live. }
  split_and!; [done..| |].
  - assert (r_ID <$> (rollout_at s <$> map_values range (ms_activeRollout s))
      = map_values range (ms_activeRollout s)) as Heq.
    { rewrite <-list_fmap_compose. apply list_fmap_fixed. intros id [r [Hid _]]%Hids.
      simpl. rewrite (rollout_at_Some _ _ _ Hid). by apply (mo_id _ Hs). }
    eapply sublist_NoDup; [|apply fmap_sublist, sublist_filter].
    rewrite Heq, <-(list_fmap_id (map_values _ _)). apply NoDup_map_values; [done|].
    intros k k' id id' Hk Hk' Hid. cbn in Hid. subst id'.
    destruct (mo_active _ Hs _ _ Hk) as (r & Hr1 & _ & <-).
    destruct (mo_active _ Hs _ _ Hk') as (r' & Hr2 & _ & <-). congruence.
  - intros r. rewrite list_elem_of_filter, list_elem_of_fmap. split.
    + intros (Hl & id & -> & [r' [Hid ?]]%Hids). rewrite (rollout_at_Some _ _ _ Hid).
      by rewrite (mo_id _ Hs _ _ Hid).
    + intros [Hid Hl]. split; [done|]. exists (r_ID r).
      split; [by rewrite (rollout_at_Some _ _ _ Hid)|]. apply Hids. eauto.
Qed.

Lemma UpdateRollout_law r r0 s : mem_ok s →
  ms_rollouts s !! r_ID r = Some r0 → live r0 → slot r = slot r0 →
  wp (UpdateRollout err r) (λ res s', mem_ok s' ∧
    match res with
    | Ok _ => put_rollout r (view_of s) (view_of s')
    | Err er => view_of s' = view_of s ∧ interrupted ctx er
    end) s.
Proof.
  intros Hs Hr0 Hl Hslot. unfold UpdateRollout. start. wp_step. wp_step.
  { apply negb_true_iff, bool_decide_eq_false in H. rewrite Hr0 in H. by destruct H. }
  rewrite cloneRollout_id. unfold wp; simpl. split; [by eapply mem_ok_put|done].
Qed.

Lemma ListStages_law id s : mem_ok s →
  wp (ListStages err id) (λ res s', mem_ok s' ∧ view_of s' = view_of s ∧
    match res with
    | Ok l => ms_stages s !! id = Some l
    | Err er => interrupted ctx er ∨ errors_Is er ErrNotFound = true ∧ ms_stages s !! id = None
    end) s.
Proof. intros Hs. unfold ListStages. start. wp_run; auto. Qed.

Lemma SaveStage_law id stage s : mem_ok s →
  wp (SaveStage err id stage) (λ res s', mem_ok s' ∧
    match res with
    | Ok _ =>
        let existing := default [] (ms_stages s !! id) in
        if listed existing stage then view_of s' = view_of s
        else put_stages id (existing ++ [stage]) (view_of s) (view_of s')
    | Err er => view_of s' = view_of s ∧
        (interrupted ctx er ∨ errors_Is er ErrNotFound = true ∧ ms_rollouts s !! id = None)
    end) s.
Proof.
  intros Hs. unfold SaveStage. start. wp_step. wp_step.
  { apply negb_true_iff, bool_decide_eq_false, eq_None_not_Some in H. auto. }
  cbv zeta. unfold listed. destruct (existsb _ _); [by apply wp_ret|].
  unfold wp; simpl. split; [by destruct Hs|done].
Qed.

Lemma append_targets_lookup id sid ts : ∀ m,
  Forall (λ t, st_RolloutID t = id ∧ st_StageID t = sid) ts →
  ∀ k, default [] (fold_left append_target ts m !! k) =
       if decide (k = targetKey id sid) then default [] (m !! k) ++ ts else default [] (m !! k).
Proof.
  induction ts as [|t ts IH]; intros m; simpl.
  - intros _ k. rewrite app_nil_r. by case_decide.
  - intros [[<- <-] Hts]%Forall_cons k. rewrite (IH _ Hts). unfold append_target.
    case_decide as Hk; [|by rewrite lookup_insert_ne].
    rewrite Hk, lookup_insert_eq. simpl. by rewrite <-(assoc_L (++)).
Qed.

(** One cohort is written; the keys of the others are different. *)
Lemma put_targets_view id sid ts s m : no_nul id →
  (∀ k, default [] (m !! k) =
        if decide (k = targetKey id sid) then ts else default [] (ms_targets s !! k)) →
  put_targets id sid ts (view_of s) (view_of (set_targets s m)).
Proof.
  intros Hn Hm. split_and!; [done..|]. intros a b Ha. simpl. rewrite Hm.
  destruct (decide (a = id ∧ b = sid)) as [[-> ->]|Hne].
  - by rewrite decide_True.
  - rewrite decide_False; [done|]. intros [-> ->]%nul_key_inj; tauto.
Qed.

Lemma SaveStageTargets_law id sid ts s : mem_ok s → no_nul id →
  Forall (λ t, st_RolloutID t = id ∧ st_StageID t = sid) ts →
  wp (SaveStageTargets err ts) (λ res s', mem_ok s' ∧
    match res with
    | Ok _ => put_targets id sid (vw_targets (view_of s) id sid ++ ts) (view_of s) (view_of s')
    | Err er => view_of s' = view_of s ∧ interrupted ctx er
    end) s.
Proof.
  intros Hs Hn Hts. unfold SaveStageTargets. start. unfold wp; simpl.
  split; [by destruct Hs|]. apply put_targets_view; [done|].
  intros k. rewrite (append_targets_lookup id sid) by done. by case_decide as Hk; [subst k|].
Qed.

Lemma ReplaceStageTargets_law id sid ts s : mem_ok s → no_nul id →
  wp (ReplaceStageTargets err id sid ts) (λ res s', mem_ok s' ∧
    match res with
    | Ok _ => put_targets id sid ts (view_of s) (view_of s')
    | Err er => view_of s' = view_of s ∧ interrupted ctx er
    end) s.
Proof.
  intros Hs Hn. unfold ReplaceStageTargets. start. unfold wp; simpl.
  split; [by destruct Hs|]. apply put_targets_view; [done|].
  intros k. case_decide as Hk; [subst k; by rewrite lookup_insert_eq|by rewrite lookup_insert_ne].
Qed.

Lemma ListStageTargets_law id sid s : mem_ok s →
  wp (ListStageTargets err id sid) (λ res s', mem_ok s' ∧ view_of s' = view_of s ∧
    match res with
    | Ok ts => ts = vw_targets (view_of s) id sid
    | Err er => interrupted ctx er
    end) s.
Proof. intros Hs. unfold ListStageTargets. start. by apply wp_ret. Qed.

Lemma NextSnapshotRevision_law s : mem_ok s →
  wp (NextSnapshotRevision err) (λ res s', mem_ok s' ∧ view_of s' = view_of s ∧
    match res with Ok _ => True | Err er => interrupted ctx er end) s.
Proof. intros Hs. unfold NextSnapshotRevision. start. unfold wp; simpl. by destruct Hs. Qed.

End methods.

Section instance.
Context {W : Type} `{Env W, !EnvLaws W, Has MemoryStore W, !HasLaws MemoryStore W,
  !HostApart MemoryStore W}.

Definition store_inv (w : W) : Prop := mem_ok (part w).
Definition view (w : W) : View := view_of (part w).

#[export] Instance memory_laws : StoreLaws W interrupted store_inv view.
Proof.
  split.
  - intros w id r Hi Hr. by apply (mo_id _ Hi).
  - method_law CreateRollout_law.
  - method_law GetRollout_law.
  - method_law GetActiveRollout_law.
  - method_law ListActiveRollouts_law.
  - method_law UpdateRollout_law.
  - method_law ListStages_law.
  - method_law SaveStage_law.
  - method_law SaveStageTargets_law.
  - method_law ReplaceStageTargets_law.
  - method_law ListStageTargets_law.
  - method_law NextSnapshotRevision_law.
Qed.
End instance.
End RolloutMemory.
