(* ===== verification/RolloutRefine.v ===== *)
(** The rollout service refines the rollout machine: every operation, however
    it ends, takes the store through a sequence of steps of [RolloutSpec]. *)

From Stdlib Require Import ZArith Lia.
From S2P Require Import Prelude GoLib Host Domain Guardrail Registry Rollout RolloutFacts RolloutService RolloutSpec RolloutMemory.
Import Domain Rollout RolloutService RolloutSpec RolloutLaws.
Open Scope string_scope.
Open Scope list_scope.
Open Scope Z_scope.

Module RolloutRefine.
Section Refine.
Context {W : Type} `{Env W, !Store W, !Registry W, !AgentSource W} (s : Service W)
  (failure : Context → error → Prop) (store_inv : W → Prop) (view : W → View)
  `{!StoreLaws W failure store_inv view, !ServiceLaws W s store_inv view}.

(** [runs v0 id o w]: the world was reached from the view [v0] by steps that
    concern the rollout [id]; [o] is the stage entry still to be completed. *)
Record runs (v0 : View) (id : string) (o : option string) (w : W) : Prop := {
  run_inv : store_inv w;
  run_ok : view_ok (view w);
  run_steps : rtc step (None, v0) (o, view w);
  run_others : ∀ id', id' ≠ id → vw_rollouts (view w) !! id' = vw_rollouts v0 !! id' }.

Definition holds (w : W) (r : Rollout) : Prop := vw_rollouts (view w) !! r_ID r = Some r.

Lemma runs_start w id : store_inv w → view_ok (view w) → runs (view w) id None w.
Proof. by split. Qed.

Lemma runs_same v0 id o w w' :
  runs v0 id o w → store_inv w' → view w' = view w → runs v0 id o w'.
Proof. intros [? ? ? ?] Hi Hv. by split; rewrite ?Hv. Qed.

Lemma runs_step v0 id o o' w w' :
  runs v0 id o w → store_inv w' → vstep o (view w) o' (view w') →
  (∀ id', id' ≠ id → vw_rollouts (view w') !! id' = vw_rollouts (view w) !! id') →
  runs v0 id o' w'.
Proof.
  intros [? Hok Hst Hoth] Hi Hv Ho. split; [done|by eapply view_ok_step| |].
  - eapply rtc_r; [exact Hst|done].
  - intros id' Hne. by rewrite Ho, Hoth.
Qed.

Lemma runs_give_up v0 id o w : runs v0 id o w → runs v0 id None w.
Proof. intros Hr. eapply runs_step; [done|apply Hr|constructor|done]. Qed.

(** A step that stores the rollout. *)
Lemma runs_put v0 id o o' w w' r :
  runs v0 id o w → store_inv w' → put_rollout r (view w) (view w') → r_ID r = id →
  vstep o (view w) o' (view w') →
  runs v0 id o' w' ∧ holds w' r.
Proof.
  intros Hr Hi Hput <- Hv. destruct Hput as (Hp & _). split.
  - eapply runs_step; [done..|]. intros id' Hne. by rewrite Hp, lookup_insert_ne.
  - unfold holds. by rewrite Hp, lookup_insert_eq.
Qed.

(** A step that leaves the rollouts as they are. *)
Lemma runs_data v0 id o o' w w' :
  runs v0 id o w → store_inv w' → vw_rollouts (view w') = vw_rollouts (view w) →
  vstep o (view w) o' (view w') → runs v0 id o' w'.
Proof. intros. eapply runs_step; [done..|]. congruence. Qed.

(** Calls that leave the store alone. *)
Lemma wp_apart {A} (m : M W A) v0 id o (Q : res A → W → Prop) w :
  apart store_inv view m → runs v0 id o w →
  (∀ r w', runs v0 id o w' → view w' = view w → Q r w') → wp m Q w.
Proof.
  intros Hm Hr HQ. unfold wp. destruct (Hm (view w) w) as [Hi Hv]; [by split; [apply Hr|]|].
  apply HQ; [by eapply runs_same|done].
Qed.

Lemma wp_run_clock v0 id o (Q : res Time → W → Prop) w :
  runs v0 id o w →
  (∀ t w', runs v0 id o w' → view w' = view w → Q (Ok t) w') → wp now Q w.
Proof.
  intros Hr HQ. eapply (wp_now _ (HostFrame0 := apart_env (view w))).
  - by split; [apply Hr|].
  - intros t w' [Hi Hv]. apply HQ; [by eapply runs_same|done].
Qed.

Lemma wp_reading {A} (m : M W A) (post : res A → Prop) v0 id o (Q : res A → W → Prop) w :
  runs v0 id o w →
  wp m (λ r w', store_inv w' ∧ view w' = view w ∧ post r) w →
  (∀ r w', runs v0 id o w' → view w' = view w → post r → Q r w') → wp m Q w.
Proof.
  intros Hr Hm HQ. eapply wp_mono; [exact Hm|]. intros r w' (Hi & Hv & Hp).
  apply HQ; [by eapply runs_same|done..].
Qed.

(** The outcome of an operation on a rollout. *)
Definition outcome (v0 : View) (id : string) (res : res Rollout) (w : W) : Prop :=
  runs v0 id None w ∧
  match res with Ok r => holds w r ∧ r_ID r = id | Err _ => True end.

Lemma outcome_err v0 id o e w : runs v0 id o w → outcome v0 id (Err e) w.
Proof. intros Hr. split; [by eapply runs_give_up|done]. Qed.

Lemma holds_ok w r v0 id o : runs v0 id o w → holds w r → rollout_ok (view w) (r_ID r) r.
Proof. intros Hr Hh. by apply (view_rollouts _ (run_ok _ _ _ _ Hr)). Qed.

(** Storing a new version of a live rollout. *)
Lemma wp_update ctx r r0 v0 o o' (Q : res unit → W → Prop) w :
  runs v0 (r_ID r0) o w → holds w r0 → live r0 → r_ID r = r_ID r0 → slot r = slot r0 →
  (∀ w', put_rollout r (view w) (view w') → vstep o (view w) o' (view w')) →
  (∀ w', runs v0 (r_ID r0) o' w' → holds w' r → put_rollout r (view w) (view w') → Q (Ok tt) w') →
  (∀ e w', runs v0 (r_ID r0) o w' → Q (Err e) w') →
  wp (store_UpdateRollout ctx r) Q w.
Proof.
  intros Hr Hh Hl Hid Hslot Hstep HQ HE.
  eapply wp_mono; [eapply law_UpdateRollout; [apply Hr|rewrite Hid; exact Hh|done|done]|].
  intros [[]|e] w' [Hi Hput].
  - destruct (runs_put v0 (r_ID r0) o o' w w' r) as [Hr' Hh']; auto.
  - destruct Hput as [Hv _]. apply HE. by eapply runs_same.
Qed.

Lemma transition_refines ctx r next v0 w :
  runs v0 (r_ID r) None w → holds w r →
  next = StatePaused ∨ (next = StateRollingBack ∧ ∃ t, may_roll_back (view w) r t) →
  wp (transition ctx r next) (outcome v0 (r_ID r)) w.
Proof.
  intros Hr Hh Hnext. unfold transition. wp_step. wp_step.
  destruct (Transition (r_State r) next) as [u|] eqn:Ht; [|by apply (outcome_err _ _ None)].
  apply Transition_ok in Ht.
  assert (live r).
  { destruct Hnext as [-> |[-> _]]; [by apply can_pause in Ht as []|by apply can_roll_back in Ht as []]. }
  wp_step. eapply wp_run_clock; [done|]. intros t w1 Hr1 Hv1. cbv zeta.
  assert (holds w1 r) as Hh1 by (unfold holds; by rewrite Hv1).
  wp_step. eapply (wp_update _ _ r _ _ None); [done..| | |].
  - intros w' Hput. destruct Hnext as [-> |[-> [t' Ht']]].
    + by eapply step_pause.
    + rewrite <-Hv1 in Ht'. by eapply step_roll_back.
  - intros w' Hr' Hh' _. apply wp_ret. by split.
  - intros e w' Hr'. by apply (outcome_err _ _ None).
Qed.

Lemma startRollback_refines ctx r v0 w t :
  runs v0 (r_ID r) None w → holds w r → may_roll_back (view w) r t →
  wp (startRollback ctx r) (outcome v0 (r_ID r)) w.
Proof.
  intros Hr Hh Hb. unfold startRollback. case_decide.
  - apply wp_ret. by split.
  - apply transition_refines; eauto.
Qed.

Lemma filterAgents_spec agents r :
  NoDup (a_ID <$> agents) →
  NoDup (a_ID <$> filterAgents agents (r_Environment r) (r_TargetServices r)) ∧
  Forall (targeted r) (filterAgents agents (r_Environment r) (r_TargetServices r)).
Proof.
  intros Hnd. unfold filterAgents. split.
  - eapply sublist_NoDup; [exact Hnd|]. apply fmap_sublist, sublist_filter.
  - apply Forall_forall. intros a. by rewrite list_elem_of_filter; intros [? _].
Qed.

(** The cohort that entering a stage writes: that of the agents listed then. *)
Definition cohort_of (ctx : Context) (r : Rollout) (stage : Stage) (ts : list StageTarget) : Prop :=
  ∃ agents rev t w0 w1, store_inv w0 ∧ agents_ListAgents ctx w0 = (Ok agents, w1) ∧
    BuildStageTargets (MkBuildTargetsInput r stage
      (filterAgents agents (r_Environment r) (r_TargetServices r)) rev t) = Ok ts.

Definition activated (ctx : Context) (r : Rollout) (stage : Stage) (v : View)
    (res : res (list StageTarget)) (v' : View) : Prop :=
  match res with
  | Ok ts => cohort_of ctx r stage ts ∧
      put_targets (r_ID r) (s_ID stage) (vw_targets v (r_ID r) (s_ID stage) ++ ts) v v'
  | Err _ => True
  end.

Lemma activateStage_refines ctx r stage v0 w :
  runs v0 (r_ID r) (Some (r_ID r)) w → holds w r → r_State r = StateDeploying →
  current_stage (view w) r stage → r_CurrentStageID r = s_ID stage →
  wp (activateStage ctx r stage (r_TargetServices r))
     (λ res w', runs v0 (r_ID r) None w' ∧ holds w' r ∧ activated ctx r stage (view w) res (view w')) w.
Proof.
  intros Hr Hh Hst Hcs Hcur. unfold activateStage.
  pose proof (ok_no_nul _ _ _ (holds_ok _ _ _ _ _ Hr Hh)) as Hnn.
  wp_step. unfold wp at 1.
  destruct (apart_ListAgents ctx (view w) w) as [Hi1 Hv1]; [by split; [apply Hr|]|].
  pose proof (law_ListAgents ctx w (run_inv _ _ _ _ Hr)) as Hl. unfold wp in Hl.
  destruct (agents_ListAgents ctx w) as [res1 w1] eqn:Hlist. simpl in *.
  assert (runs v0 (r_ID r) (Some (r_ID r)) w1) as Hr1 by by eapply runs_same.
  assert (holds w1 r) as Hh1 by (unfold holds; by rewrite Hv1).
  destruct res1 as [agents|e]; [|by split_and!; [eapply runs_give_up|..]].
  specialize (Hl agents eq_refl). destruct (filterAgents_spec agents r Hl) as [Hnd Htg].
  cbv zeta. wp_step. eapply wp_reading; [done|by apply law_NextSnapshotRevision, Hr1|].
  intros [rev|e] w2 Hr2 Hv2 _; [|by split_and!; [eapply runs_give_up|unfold holds; rewrite Hv2|]].
  wp_step. eapply wp_run_clock; [done|]. intros t w3 Hr3 Hv3.
  assert (holds w3 r) as Hh3 by (unfold holds; by rewrite Hv3, Hv2).
  wp_step. wp_step. destruct (BuildStageTargets _) as [ts|e] eqn:Hb; [|by split_and!; [eapply runs_give_up|..]].
  wp_step. eapply wp_mono; [eapply (law_SaveStageTargets _ (r_ID r) (s_ID stage)); [apply Hr3|done|]|].
  { eapply Forall_impl; [by eapply BuildStageTargets_fresh|]. by intros x (? & ? & _). }
  intros [[]|e] w4 [Hi4 Hput].
  - apply wp_ret. assert (vw_rollouts (view w4) = vw_rollouts (view w3)) as Hro by apply Hput.
    split_and!; [|unfold holds; by rewrite Hro|].
    2: { split; [|by rewrite <-Hv1, <-Hv2, <-Hv3]. exists agents, rev, t, w, w1. by split_and!; [apply Hr|..]. }
    eapply runs_data; [exact Hr3|done|done|].
    eapply step_activate; [exact Hh3|done|..|done].
    + by rewrite Hv3, Hv2, Hv1.
    + done.
    + by eexists _, _, _.
  - destruct Hput as [Hv4 _]. split_and!; [|unfold holds; by rewrite Hv4|done].
    eapply runs_give_up, runs_same; [exact Hr3|done|done].
Qed.

Lemma wp_index {A} (l : list A) i x (Q : res A → W → Prop) w :
  0 ≤ i → l !! Z.to_nat i = Some x → Q (Ok x) w → wp (index l i) Q w.
Proof. intros Hi Hl HQ. unfold index. rewrite (proj2 (Z.leb_le 0 i)) by done. by rewrite Hl. Qed.

Lemma holds_same w w' r : holds w r → view w' = view w → holds w' r.
Proof. unfold holds. by intros ? ->. Qed.

(** What the service knows of a rollout it may promote. *)
Record promotable (w : W) (r : Rollout) (stages : list Stage) : Prop := {
  pm_holds : holds w r;
  pm_forward : forward r;
  pm_stages : vw_stages (view w) !! r_ID r = Some stages;
  pm_evidence : ∃ stage t, current_stage (view w) r stage ∧ may_promote (view w) r stage t }.

Lemma promotable_same w w' r stages :
  promotable w r stages → view w' = view w → promotable w' r stages.
Proof. intros [? ? ? ?] Hv. split; unfold holds in *; by rewrite ?Hv. Qed.

Lemma complete_refines ctx r stages v0 w :
  runs v0 (r_ID r) None w → promotable w r stages →
  r_CurrentStageIndex r = Z.of_nat (length stages) - 1 →
  wp (promote ctx r stages) (outcome v0 (r_ID r)) w.
Proof.
  intros Hr Hp Hidx. unfold promote. rewrite (proj2 (Z.eqb_eq _ _) Hidx).
  wp_step.
  eapply (wp_mono _ (λ _ w', w' = w)).
  { destruct (Transition _ _); [done|]. by destruct (bool_decide _). }
  intros [[]|e] _ ->; [|by apply (outcome_err _ _ None)].
  wp_step. eapply wp_apart; [apply (apart_SetStableVersion (s:=s))|done|].
  intros [es|e] w1 Hr1 Hv1; [|by apply (outcome_err _ _ None)].
  wp_step. eapply wp_run_clock; [done|]. intros t w2 Hr2 Hv2. cbv zeta.
  destruct (promotable_same w w2 _ _ Hp ltac:(congruence)) as [Hh Hf Hs (stage & t0 & Hcs & Hev)].
  wp_step. eapply (wp_update _ _ r _ _ None); [done|done|by apply forward_live|done..| | |].
  - intros w' Hput. by eapply step_complete.
  - intros w' Hr' Hh' _. apply wp_ret. by split.
  - intros e w' Hr'. by apply (outcome_err _ _ None).
Qed.

Lemma advance_refines ctx r stages v0 w :
  runs v0 (r_ID r) None w → promotable w r stages →
  r_CurrentStageIndex r ≠ Z.of_nat (length stages) - 1 →
  wp (promote ctx r stages) (outcome v0 (r_ID r)) w.
Proof.
  intros Hr Hp Hidx. unfold promote. rewrite (proj2 (Z.eqb_neq _ _) Hidx). cbv zeta.
  destruct (forward_current _ _ _ (holds_ok _ _ _ _ _ Hr (pm_holds _ _ _ Hp)) (pm_forward _ _ _ Hp))
    as (plan & s0 & Hpl & _ & _ & Hb & _ & _ & _).
  assert (plan = stages) as -> by (pose proof (pm_stages _ _ _ Hp); congruence).
  destruct (lookup_lt_is_Some_2 stages (Z.to_nat (r_CurrentStageIndex r + 1))) as [next Hnext]; [lia|].
  wp_step. eapply wp_index; [lia|done|].
  wp_step. eapply wp_run_clock; [done|]. intros t w1 Hr1 Hv1.
  destruct (promotable_same _ w1 _ _ Hp Hv1) as [Hh Hf Hs (stage & t0 & Hcs & Hev)].
  set (r' := set_progress _ _ _ _ _ _ _).
  assert (current_stage (view w1) r' next) as Hcs'.
  { exists stages. simpl. split_and!; [done|lia|done]. }
  wp_step. eapply (wp_update _ r' r _ _ (Some (r_ID r))); [done|done|by apply forward_live|done..| | |].
  - intros w' Hput. by eapply step_advance.
  - intros w' Hr' Hh' Hput. wp_step.
    eapply wp_mono; [eapply (activateStage_refines ctx r'); [done..| |done]|].
    + destruct Hput as (_ & Hst & _). unfold current_stage. by rewrite Hst.
    + intros [ts|e] w2 (Hr2 & Hh2 & _); [apply wp_ret; by split|by apply (outcome_err _ _ None)].
  - intros e w' Hr'. by apply (outcome_err _ _ None).
Qed.

Lemma promote_refines ctx r stages v0 w :
  runs v0 (r_ID r) None w → promotable w r stages →
  wp (promote ctx r stages) (outcome v0 (r_ID r)) w.
Proof.
  intros Hr Hp. destruct (decide (r_CurrentStageIndex r = Z.of_nat (length stages) - 1)).
  - by apply complete_refines.
  - by apply advance_refines.
Qed.

(** The evaluation of a rule on an answer to its query. *)
Definition evaluated (observedAt : Time) (rule : Guardrail.Rule) (e : Guardrail.Evaluation) : Prop :=
  ∃ answer previous, Guardrail.EvaluateQueryResult rule answer previous observedAt = Ok e.

(** A missing queryer is an unanswered query. *)
Lemma evaluate_rule ctx rule previous observedAt v0 id (Q : res Guardrail.Evaluation → W → Prop) w :
  runs v0 id None w →
  (∀ r w', runs v0 id None w' → view w' = view w →
     (∀ e, r = Ok e → evaluated observedAt rule e) → Q r w') →
  wp (match svc_queryer s with
      | None => lift (Guardrail.Unknown rule previous "prometheus queryer is not configured" observedAt)
      | Some query =>
          result ← try (query ctx (Guardrail.g_Query rule) observedAt);
          lift (Guardrail.EvaluateQueryResult rule result previous observedAt)
      end) Q w.
Proof.
  intros Hr HQ. destruct (svc_queryer s) as [query|] eqn:Hq.
  - wp_step. wp_step. eapply wp_apart; [by apply (apart_query (s:=s))|done|].
    intros answer w1 Hr1 Hv1. wp_step. apply HQ; [done..|]. intros e He. by exists answer, previous.
  - wp_step. apply HQ; [done..|]. intros e He.
    by exists (Err (EText "prometheus queryer is not configured" [])), previous.
Qed.

Lemma evaluateGuardrails_refines ctx r observedAt v0 w :
  runs v0 (r_ID r) None w → holds w r → forward r →
  wp (evaluateGuardrails s ctx r observedAt) (λ res w', runs v0 (r_ID r) None w' ∧
    match res with
    | Ok (status, r') => ∃ failures evaluations,
        r' = set_failures r failures observedAt ∧ put_rollout r' (view w) (view w') ∧
        Forall2 (evaluated observedAt) (r_Guardrails r) evaluations ∧
        status = Guardrail.AggregateStatus evaluations
    | Err _ => True
    end) w.
Proof.
  intros Hr Hh Hf. unfold evaluateGuardrails. wp_step.
  eapply (wp_fold_m _ (λ seen acc w', runs v0 (r_ID r) None w' ∧ view w' = view w ∧
                         Forall2 (evaluated observedAt) seen acc.2)).
  - intros seen rule [failures evaluations] w1 (Hr1 & Hv1 & Hall). cbv zeta.
    wp_step. apply (evaluate_rule _ _ _ _ v0 (r_ID r)); [done|].
    intros [e|err] w2 Hr2 Hv2 He; [|done].
    wp_step. split_and!; [done|congruence|]. apply Forall2_app; [done|]. auto.
  - done.
  - intros [failures evaluations] w1 (Hr1 & Hv1 & Hall). simpl in Hall.
    assert (holds w1 r) as Hh1 by by eapply holds_same.
    wp_step. eapply (wp_update _ _ r _ _ None); [done|done|by apply forward_live|done..| | |].
    + intros w' Hput. by eapply step_guardrails.
    + intros w' Hr' Hh' Hput. apply wp_ret. split; [done|]. rewrite Hv1 in Hput. eauto 6.
    + done.
Qed.

Lemma evaluated_unhealthy observedAt rules es :
  Forall2 (evaluated observedAt) rules es → Guardrail.AggregateStatus es = Guardrail.StatusUnhealthy →
  ∃ rule e answer previous, rule ∈ rules ∧
    Guardrail.EvaluateQueryResult rule answer previous observedAt = Ok e ∧
    Guardrail.e_Status e = Guardrail.StatusUnhealthy.
Proof.
  intros Hall (e & He & Hu)%AggregateStatus_unhealthy.
  apply list_elem_of_lookup in He as [i Hi].
  destruct (Forall2_lookup_r _ _ _ _ _ Hall Hi) as (rule & Hrule & answer & previous & Hev).
  exists rule, e, answer, previous. split_and!; [by eapply list_elem_of_lookup_2|done..].
Qed.

(** What the decision on a stage tells about the rollout it returns. *)
Record decided (w : W) (stages : list Stage) (d : StageDecision) (r : Rollout) : Prop := {
  dc_holds : holds w r;
  dc_forward : forward r;
  dc_promote : d = DecisionPromote → promotable w r stages;
  dc_rollback : d = DecisionRollback → ∃ t, may_roll_back (view w) r t }.

(** What an evaluation may write: the failure counts, and nothing when the
    decision is to wait. *)
Definition noted (w w' : W) (d : StageDecision) (r r' : Rollout) : Prop :=
  (r' = r ∨ ∃ failures t, r' = set_failures r failures t) ∧
  (d = DecisionWait → r' = r ∧ view w' = view w).

Lemma noted_same w w' d r : view w' = view w → noted w w' d r r.
Proof. by split; [left|]. Qed.

Lemma noted_id w w' d r r' : noted w w' d r r' → r_ID r' = r_ID r.
Proof. by intros [[->|(f & t & ->)] _]. Qed.

Lemma decided_wait w stages d r :
  holds w r → forward r → d ≠ DecisionPromote → d ≠ DecisionRollback → decided w stages d r.
Proof. by split. Qed.

(** The guardrails turn a promotion into one of three decisions. *)
Lemma decided_guardrails w w' r stage stages t failures es :
  holds w r → forward r → rollout_ok (view w) (r_ID r) r →
  vw_stages (view w) !! r_ID r = Some stages → current_stage (view w) r stage →
  CoverageReached (vw_targets (view w) (r_ID r) (r_CurrentStageID r)) (r_RequiredAckPercent r) = true →
  s_MinimumDuration stage ≤ time_Sub t (r_StageStartedAt r) → ¬ expired r t →
  put_rollout (set_failures r failures t) (view w) (view w') →
  Forall2 (evaluated t) (r_Guardrails r) es →
  decided w' stages
    (match Guardrail.AggregateStatus es with
     | Guardrail.StatusHealthy => DecisionPromote
     | Guardrail.StatusUnhealthy => DecisionRollback
     | Guardrail.StatusUnknown => DecisionPause
     end) (set_failures r failures t).
Proof.
  intros Hh Hf Hok Hs Hcs Hcov Hmin Hexp (Hp & Hst & Ht) Hall.
  split; [by unfold holds; rewrite Hp; apply lookup_insert_eq|done|..];
    destruct (Guardrail.AggregateStatus es) eqn:Ha; try done; intros _.
  - split; [by unfold holds; rewrite Hp; apply lookup_insert_eq|done|by rewrite Hst|].
    exists stage, t. split; [by unfold current_stage; rewrite Hst|].
    split_and!; [|done|done|].
    + simpl. by rewrite Ht by apply (ok_no_nul _ _ _ Hok).
    + right. by exists es.
  - exists t. right; right. by destruct (evaluated_unhealthy _ _ _ Hall Ha) as (rule & e & a & p & ?); exists rule, e, a, p.
Qed.

Lemma evaluateStageDecision_refines ctx r stage stages v0 w :
  runs v0 (r_ID r) None w → holds w r → forward r →
  vw_stages (view w) !! r_ID r = Some stages → current_stage (view w) r stage →
  wp (evaluateStageDecision s ctx r (vw_targets (view w) (r_ID r) (r_CurrentStageID r)) stage)
     (λ res w', runs v0 (r_ID r) None w' ∧
        match res with
        | Ok (d, r') => noted w w' d r r' ∧ decided w' stages d r' ∧
                        vw_stages (view w') = vw_stages (view w)
        | Err _ => True
        end) w.
Proof.
  intros Hr Hh Hf Hs Hcs. unfold evaluateStageDecision.
  wp_step. eapply wp_run_clock; [done|]. intros t w1 Hr1 Hv1.
  assert (holds w1 r) as Hh1 by by eapply holds_same.
  wp_step.
  { apply wp_ret. split; [done|]. split_and!; [by apply noted_same| |by rewrite Hv1]. split; [done..|].
    intros _. exists t. left. unfold expired. lia. }
  rename Heqb into Hexp. assert (¬ expired r t) as Hne by (unfold expired; lia). cbv zeta.
  set (progress := MkStageProgressInput _ _ _ _ _ _).
  destruct (EvaluateStageProgress progress) eqn:Hd; cbn [bool_decide decide negb].
  - apply wp_ret. split; [done|]. split_and!; [by apply noted_same|by apply decided_wait|by rewrite Hv1].
  - apply EvaluateStageProgress_promote in Hd as [Hcov Hmin]. simpl in Hcov, Hmin.
    destruct (r_Guardrails r) eqn:Hg; simpl.
    + apply wp_ret. split; [done|]. split_and!; [by apply noted_same| |by rewrite Hv1]. split; [done..| |done].
      intros _. split; [done|done|by rewrite Hv1|]. exists stage, t. rewrite Hv1.
      split; [done|]. split_and!; [done..|]. by left.
    + wp_step. wp_call (evaluateGuardrails_refines ctx r t v0); [done..|].
      intros [[status r']|e] w2 [Hr2 Hres]; [|done].
      destruct Hres as (failures & es & -> & Hput & Hall & ->).
      pose proof (holds_ok _ _ _ _ _ Hr1 Hh1) as Hok.
      assert (vw_stages (view w2) = vw_stages (view w)) as Hst.
      { destruct Hput as (_ & -> & _). by rewrite Hv1. }
      rewrite <-Hv1 in Hs, Hcs, Hcov.
      pose proof (decided_guardrails w1 w2 r stage stages t failures es
        Hh1 Hf Hok Hs Hcs Hcov Hmin Hne Hput Hall) as Hdec.
      destruct (Guardrail.AggregateStatus es); apply wp_ret;
        (split_and!; [done|split; [right; by exists failures, t|done]|done..]).
  - by apply EvaluateStageProgress_never_pauses in Hd.
  - apply EvaluateStageProgress_rollback in Hd as [Hcov Hto]. simpl in Hcov, Hto.
    apply wp_ret. split; [done|]. split_and!; [by apply noted_same| |by rewrite Hv1]. split; [done..|].
    intros _. exists t. right; left. rewrite Hv1. split_and!; [done|lia..].
Qed.

Lemma apply_decision_refines ctx d r stages v0 w :
  runs v0 (r_ID r) None w → decided w stages d r →
  wp (apply_decision ctx d r stages) (outcome v0 (r_ID r)) w.
Proof.
  intros Hr [Hh Hf Hp Hb]. destruct d; simpl.
  - apply wp_ret. by split.
  - by apply promote_refines; auto.
  - wp_step; [apply wp_ret; by split|]. apply transition_refines; auto.
  - destruct Hb as [t Ht]; [done|]. by eapply startRollback_refines.
Qed.

(** What acting on a decision makes of a rollout. *)
Definition acted (d : StageDecision) (stages : list Stage) (r r' : Rollout) : Prop :=
  match d with
  | DecisionWait => r' = r
  | DecisionPause => r_State r' = StatePaused ∧ r_CurrentStageIndex r' = r_CurrentStageIndex r
  | DecisionRollback =>
      r_State r' = StateRollingBack ∧ r_CurrentStageIndex r' = r_CurrentStageIndex r
  | DecisionPromote =>
      (r_CurrentStageIndex r = Z.of_nat (length stages) - 1 ∧ r_State r' = StateCompleted ∧
       r_CurrentStageIndex r' = r_CurrentStageIndex r) ∨
      ∃ next, stages !! Z.to_nat (r_CurrentStageIndex r + 1) = Some next ∧
        r_State r' = StateDeploying ∧ r_CurrentStageIndex r' = r_CurrentStageIndex r + 1 ∧
        r_CurrentStageID r' = s_ID next
  end.

Lemma transition_acts ctx r next w :
  wp (transition ctx r next)
     (λ res _, ∀ r', res = Ok r' → r_State r' = next ∧ r_CurrentStageIndex r' = r_CurrentStageIndex r) w.
Proof.
  unfold transition. wp_step. apply wp_any. intros [[]|e] w1; [|done].
  wp_step. apply wp_any. intros [t|e] w2; [|done]. cbv zeta.
  wp_step. apply wp_any. intros [[]|e] w3; [|done]. wp_step. by intros r' [= <-].
Qed.

Lemma promote_acts ctx r stages w :
  wp (promote ctx r stages) (λ res _, ∀ r', res = Ok r' → acted DecisionPromote stages r r') w.
Proof.
  unfold promote. wp_step.
  - wp_step. apply wp_any. intros [[]|e] w1; [|done].
    wp_step. apply wp_any. intros [es|e] w2; [|done].
    wp_step. apply wp_any. intros [t|e] w3; [|done]. cbv zeta.
    wp_step. apply wp_any. intros [[]|e] w4; [|done]. wp_step. intros r' [= <-]. left.
    split_and!; [lia|done..].
  - cbv zeta. wp_step. unfold index. wp_step; [|by wp_step].
    wp_step. wp_step. apply wp_any. intros [t|e] w3; [|done].
    wp_step. apply wp_any. intros [[]|e] w4; [|done].
    wp_step. apply wp_any. intros [ts|e] w5; [|done]. wp_step. intros r' [= <-]. right.
    exists s0. split_and!; try done. by destruct (0 <=? r_CurrentStageIndex r + 1).
Qed.

Lemma apply_decision_acts ctx d r stages w :
  wp (apply_decision ctx d r stages) (λ res _, ∀ r', res = Ok r' → acted d stages r r') w.
Proof.
  destruct d; simpl.
  - apply wp_ret. by intros r' [= <-].
  - apply promote_acts.
  - wp_step; [apply wp_ret; by intros r' [= <-]|]. apply transition_acts.
  - unfold startRollback. wp_step; [apply wp_ret; by intros r' [= <-]|]. apply transition_acts.
Qed.

(** ** Rolling back *)

Lemma finish_rollback_refines ctx r status v0 w :
  runs v0 (r_ID r) None w → holds w r → r_State r = StateRollingBack →
  r_CurrentStageID r = verification_id (r_ID r) →
  (status = RollbackStatusVerified ∧
     (CoverageReached (vw_targets (view w) (r_ID r) (verification_id (r_ID r)))
        (r_RequiredAckPercent r) = true
      ∨ vw_targets (view w) (r_ID r) (verification_id (r_ID r)) = []) ∨
   status = RollbackStatusPartial ∧ 0 < r_RollbackTimeout r ∧
     ∃ t, r_RollbackTimeout r ≤ time_Sub t (r_StageStartedAt r)) →
  wp (finish_rollback ctx r status) (outcome v0 (r_ID r)) w.
Proof.
  intros Hr Hh Hst Hcur Hev. unfold finish_rollback.
  wp_step. eapply wp_run_clock; [done|]. intros t w1 Hr1 Hv1. cbv zeta.
  assert (holds w1 r) as Hh1 by by eapply holds_same.
  wp_step. eapply (wp_update _ _ r _ _ None);
    [done|done|unfold live; by rewrite Hst|done..| | |].
  - intros w' Hput. rewrite <-Hv1 in Hev.
    destruct Hev as [Hev|(-> & Hto & t' & Hev)].
    + eapply (step_rolled_back _ _ _ _ _ _ t t); eauto.
    + eapply (step_rolled_back _ _ _ _ _ _ t' t); eauto.
  - intros w' Hr' Hh' _. apply wp_ret. by split.
  - intros e w' Hr'. by apply (outcome_err _ _ None).
Qed.

(** The verification stage is added to the list once. *)
Lemma save_verification_stage ctx r v0 (Q : res unit → W → Prop) w :
  runs v0 (r_ID r) None w → holds w r → r_State r = StateRollingBack →
  (∀ w', runs v0 (r_ID r) None w' → vw_rollouts (view w') = vw_rollouts (view w) →
     (∀ b, vw_targets (view w') (r_ID r) b = vw_targets (view w) (r_ID r) b) → Q (Ok tt) w') →
  (∀ e w', runs v0 (r_ID r) None w' → Q (Err e) w') →
  wp (store_SaveStage ctx (r_ID r) (MkStage (rollbackVerificationStageID (r_ID r)) 100 0)) Q w.
Proof.
  intros Hr Hh Hst HQ HE. pose proof (holds_ok _ _ _ _ _ Hr Hh) as Hok.
  destruct (ok_stages _ _ _ Hok) as (plan & extra & Hs & _).
  eapply wp_mono; [apply law_SaveStage, Hr|]. intros [[]|e] w' [Hi Hres].
  - cbv zeta in Hres. rewrite Hs in Hres. simpl in Hres.
    destruct (listed _ _) eqn:Hl.
    + apply HQ; [by eapply runs_same|by rewrite Hres|intros; by rewrite Hres].
    + pose proof Hres as (Hro & _ & Ht). apply HQ; [|done|].
      * eapply runs_data; [exact Hr|done|done|]. refine (step_verification_stage _ _ _ _ _ _ _ Hh Hst Hs _ _ Hres); [done|].
        apply Forall_forall. intros st Hin Heq. simpl in Heq.
        apply not_true_iff_false in Hl. apply Hl, existsb_exists. exists st.
        split; [by apply list_elem_of_In|]. by apply bool_decide_eq_true.
      * intros b. apply Ht, (ok_no_nul _ _ _ Hok).
  - destruct Hres as [Hv _]. apply HE. by eapply runs_same.
Qed.

(** An empty cohort leaves nothing to verify. *)
Lemma no_verification_targets v id r :
  rollout_ok v id r → r_State r = StateRollingBack → r_CurrentStageID r ≠ verification_id id →
  vw_targets v id (r_CurrentStageID r) = [] → vw_targets v id (verification_id id) = [].
Proof.
  intros Hok Hst Hne Hnil. pose proof (ok_verification _ _ _ Hok Hst Hne) as Hsub.
  rewrite Hnil in Hsub. simpl in Hsub. destruct (vw_targets v id (verification_id id)) as [|t l]; [done|].
  exfalso. apply (not_elem_of_nil (st_AgentID t)), Hsub. simpl. by left.
Qed.

Lemma activateRollbackVerification_refines ctx r v0 w :
  runs v0 (r_ID r) None w → holds w r → r_State r = StateRollingBack →
  r_CurrentStageID r ≠ verification_id (r_ID r) →
  wp (activateRollbackVerification ctx r (vw_targets (view w) (r_ID r) (r_CurrentStageID r)))
     (outcome v0 (r_ID r)) w.
Proof.
  intros Hr Hh Hst Hcur. unfold activateRollbackVerification.
  pose proof (holds_ok _ _ _ _ _ Hr Hh) as Hok. pose proof (ok_no_nul _ _ _ Hok) as Hnn.
  wp_step. eapply wp_reading; [done|by apply law_NextSnapshotRevision, Hr|].
  intros [rev|e] w1 Hr1 Hv1 _; [|by apply (outcome_err _ _ None)].
  wp_step. eapply wp_run_clock; [done|]. intros t w2 Hr2 Hv2. cbv zeta.
  set (ts := rollback_target r rev t <$> _).
  assert (holds w2 r) as Hh2 by (eapply holds_same; [done|congruence]).
  wp_step. apply (save_verification_stage _ _ v0); [done..| |by intros; apply (outcome_err _ _ None)].
  rewrite Hv2, Hv1. intros w3 Hr3 Hro3 Ht3.
  assert (holds w3 r) as Hh3 by (unfold holds; by rewrite Hro3).
  wp_step. eapply wp_mono.
  { apply (law_SaveStageTargets _ (r_ID r) (verification_id (r_ID r))); [apply Hr3|done|].
    apply Forall_fmap, Forall_true. by split. }
  intros [[]|e] w4 [Hi4 Hput4].
  2: { destruct Hput4. apply (outcome_err _ _ None). by eapply runs_same. }
  assert (runs v0 (r_ID r) None w4) as Hr4.
  { eapply runs_data; [exact Hr3|done|apply Hput4|].
    eapply step_verification_targets; [exact Hh3|done|done|..|exact Hput4].
    - apply Forall_fmap, Forall_true. by intros x.
    - unfold ts. rewrite <-list_fmap_compose, Ht3. apply list_fmap_ext. done. }
  assert (holds w4 r) as Hh4 by (unfold holds; destruct Hput4 as (-> & _); done).
  wp_step. eapply (wp_update _ _ r _ _ None); [done|done|unfold live; by rewrite Hst|done..| | |].
  { intros w' Hput. rewrite Hst in Hput. by eapply step_verification_begin. }
  2: { intros. by apply (outcome_err _ _ None). }
  intros w5 Hr5 Hh5 Hput5.
  destruct (Nat.eqb_spec (length ts) 0) as [Hlen|]; [|apply wp_ret; by split].
  apply (finish_rollback_refines ctx (set_progress r (r_State r) (verification_id (r_ID r))
    (r_CurrentStageIndex r) t (r_RollbackStatus r) t)); try done.
  left. split; [done|]. right. simpl.
  destruct Hput5 as (_ & _ & ->); [|done]. destruct Hput4 as (_ & _ & ->); [|done].
  rewrite decide_True by done. rewrite Ht3. apply nil_length_inv in Hlen. rewrite Hlen, app_nil_r.
  apply (no_verification_targets _ _ r); [done..|]. by apply fmap_nil_inv in Hlen.
Qed.

Lemma reconcileRollback_refines ctx r v0 w :
  runs v0 (r_ID r) None w → holds w r → r_State r = StateRollingBack →
  wp (reconcileRollback ctx r (vw_targets (view w) (r_ID r) (r_CurrentStageID r)))
     (outcome v0 (r_ID r)) w.
Proof.
  intros Hr Hh Hst. unfold reconcileRollback. cbv zeta.
  change (rollbackVerificationStageID (r_ID r)) with (verification_id (r_ID r)).
  case_bool_decide as Hcur; cbn [negb]; [|by apply activateRollbackVerification_refines].
  rewrite Hcur. wp_step.
  { apply finish_rollback_refines; [done..|]. left. split; [done|].
    apply orb_true_iff in Heqb as [?|?%Nat.eqb_eq%nil_length_inv]; auto. }
  wp_step; [|apply wp_ret; by split].
  wp_step. eapply wp_run_clock; [done|]. intros t w1 Hr1 Hv1. wp_step.
  - apply finish_rollback_refines; [done|by eapply holds_same|done..|].
    right. split_and!; [done|lia|]. exists t. lia.
  - apply wp_ret. split; [done|]. split; [by eapply holds_same|done].
Qed.

(** ** Whole operations *)

(** The part of [Acknowledge] and [reconcileRollout] after the cohort is read:
    decide on the current stage, then act. *)
Lemma decide_on_stage {A} ctx r stages (K : StageDecision → Rollout → M W A)
    (Q : res A → W → Prop) v0 w :
  runs v0 (r_ID r) None w → holds w r → forward r →
  vw_stages (view w) !! r_ID r = Some stages →
  (∀ d r' w', runs v0 (r_ID r) None w' → noted w w' d r r' → decided w' stages d r' →
     wp (K d r') Q w') →
  (∀ e w', runs v0 (r_ID r) None w' → Q (Err e) w') →
  wp (guard_err (stage_index_error r stages)
        (EWrap ErrInvalidInput "current stage index out of range" []);;
      currentStage ← index stages (r_CurrentStageIndex r);
      dr ← evaluateStageDecision s ctx r
             (vw_targets (view w) (r_ID r) (r_CurrentStageID r)) currentStage;
      let '(d, r') := dr in K d r') Q w.
Proof.
  intros Hr Hh Hf Hs HK HE. wp_step. wp_step; [by apply HE|].
  unfold stage_index_error in *. apply orb_false_iff in H0 as [Hlo Hhi].
  destruct (lookup_lt_is_Some_2 stages (Z.to_nat (r_CurrentStageIndex r))) as [stage Hstage]; [lia|].
  wp_step. eapply wp_index; [lia|done|].
  wp_step. eapply wp_mono; [eapply (evaluateStageDecision_refines ctx r stage stages v0); try done|].
  { exists stages. split_and!; [done|lia|done]. }
  intros [[d r']|e] w1 [Hr1 Hres]; [|by apply HE].
  destruct Hres as (Hid & Hdec & _). by apply HK.
Qed.

Lemma live_not_back r v id :
  rollout_ok v id r → live r → r_State r ≠ StateRollingBack → forward r.
Proof.
  intros Hok. pose proof (ok_state _ _ _ Hok) as Hk. unfold live, forward, known_state in *.
  by destruct Hk as [E|[E|[E|[E|E]]]]; rewrite E.
Qed.

Lemma reconcileRollout_refines ctx r v0 w :
  runs v0 (r_ID r) None w → holds w r → live r →
  wp (reconcileRollout s ctx r) (outcome v0 (r_ID r)) w.
Proof.
  intros Hr Hh Hl. unfold reconcileRollout. pose proof (holds_ok _ _ _ _ _ Hr Hh) as Hok.
  wp_step. eapply wp_reading; [done|apply law_ListStageTargets; [apply Hr|apply (ok_no_nul _ _ _ Hok)]|].
  intros [ts|e] w1 Hr1 Hv1 Hts; [|by apply (outcome_err _ _ None)]. subst ts. rewrite <-Hv1.
  assert (holds w1 r) as Hh1 by by eapply holds_same.
  wp_step; [by apply reconcileRollback_refines|].
  wp_step. eapply wp_reading; [done|apply law_ListStages, Hr1|].
  intros [stages|e] w2 Hr2 Hv2 Hs; [|by apply (outcome_err _ _ None)]. rewrite <-Hv2 in Hs |- *.
  assert (holds w2 r) as Hh2 by by eapply holds_same.
  eapply (decide_on_stage ctx r stages _ _ v0); try done.
  - by eapply live_not_back.
  - intros d r' w3 Hr3 Hn Hdec. rewrite <-(noted_id _ _ _ _ _ Hn) in Hr3 |- *.
    by apply apply_decision_refines.
Qed.

(** [refines m w]: from [w], [m] is a sequence of steps and keeps the
    invariants, whatever its result. *)
Definition refines {A} (m : M W A) (w : W) : Prop :=
  wp m (λ _ w', store_inv w' ∧ view_ok (view w') ∧ rtc step (None, view w) (None, view w')) w.

Lemma runs_refines v0 id w :
  runs v0 id None w → store_inv w ∧ view_ok (view w) ∧ rtc step (None, v0) (None, view w).
Proof. by intros [? ? ? ?]. Qed.

Lemma ReconcileActive_refines ctx w :
  store_inv w → view_ok (view w) → refines (ReconcileActive s ctx) w.
Proof.
  intros Hi Hok. unfold refines, ReconcileActive. wp_step.
  eapply wp_mono; [by apply law_ListActiveRollouts|]. intros [active|e] w0 (Hi0 & Hv0 & Hact).
  2: { rewrite Hv0. by split_and!; [| |apply rtc_refl]. }
  destruct Hact as [Hnd Hact].
  apply (wp_for_each _ (λ rest w', store_inv w' ∧ view_ok (view w') ∧
           rtc step (None, view w) (None, view w') ∧ NoDup (r_ID <$> rest) ∧
           Forall (λ r, holds w' r ∧ live r) rest)).
  - rewrite Hv0. split_and!; [done..|apply rtc_refl|done|].
    apply Forall_forall. intros r Hr. unfold holds. rewrite Hv0. by apply Hact.
  - intros r rest w1 (Hi1 & Hok1 & Hst1 & Hnd1 & Hall).
    apply Forall_cons in Hall as [[Hh Hl] Hall]. simpl in Hnd1. apply NoDup_cons in Hnd1 as [Hni Hnd1].
    rewrite Hl. wp_step. wp_call (reconcileRollout_refines ctx r (view w1)); [by apply runs_start|done..|].
    intros res w2 [[Hi2 Hok2 Hst2 Hoth] _].
    assert (rtc step (None, view w) (None, view w2)) as Hst by by etrans.
    destruct res as [r'|e]; [|done]. apply wp_ret. split_and!; [done..|].
    apply Forall_forall. intros r1 Hin. destruct (proj1 (Forall_forall _ _) Hall r1 Hin) as [Hh1 Hl1].
    split; [|done]. unfold holds. rewrite Hoth; [done|]. intros Heq. apply Hni. rewrite <-Heq.
    by apply list_elem_of_fmap_2.
  - intros w1 (? & ? & ? & _). done.
Qed.

(** Recording an acknowledgement. *)
Lemma save_ack ctx r ack (Q : res unit → W → Prop) v0 w :
  let ts := vw_targets (view w) (r_ID r) (r_CurrentStageID r) in
  runs v0 (r_ID r) None w → holds w r → live r →
  (∀ w', runs v0 (r_ID r) None w' → holds w' r → vw_stages (view w') = vw_stages (view w) →
     vw_targets (view w') (r_ID r) (r_CurrentStageID r) = (ApplyAck ts ack).1 → Q (Ok tt) w') →
  (∀ e w', runs v0 (r_ID r) None w' → Q (Err e) w') →
  wp (if (ApplyAck ts ack).2
      then store_ReplaceStageTargets ctx (r_ID r) (r_CurrentStageID r) (ApplyAck ts ack).1
      else mret tt) Q w.
Proof.
  intros ts Hr Hh Hl HQ HE. pose proof (ok_no_nul _ _ _ (holds_ok _ _ _ _ _ Hr Hh)) as Hnn.
  destruct (ApplyAck ts ack) as [ts' counted] eqn:Hack; simpl in *. destruct counted.
  - eapply wp_mono; [by apply law_ReplaceStageTargets; [apply Hr|]|]. intros [[]|e] w1 [Hi1 Hput].
    + pose proof Hput as (Hro & Hs & Ht). apply HQ.
      * eapply runs_data; [done|done|done|]. eapply step_ack; [exact Hh|done| |done].
        by eapply ApplyAck_counted.
      * unfold holds. by rewrite Hro.
      * done.
      * rewrite Ht by done. by rewrite decide_True.
    + destruct Hput. apply HE. by eapply runs_same.
  - apply wp_ret. apply ApplyAck_not_counted in Hack. subst ts'. by apply HQ.
Qed.

(** What a successful acknowledgement did: it was applied to the cohort of the
    current stage of a live rollout, the decision taken on the result was acted
    on, and the rollout it returns is the one stored. *)
Definition acknowledged (v : View) (input : AcknowledgeInput) (out : AcknowledgeResult) (v' : View)
    : Prop :=
  ∃ r stages at_,
    vw_rollouts v !! ai_RolloutID input = Some r ∧ live r ∧ vw_stages v !! r_ID r = Some stages ∧
    let '(cohort, counted) := ApplyAck (vw_targets v (r_ID r) (r_CurrentStageID r))
      (MkAck (ai_RolloutID input) (ai_StageID input) (ai_AgentID input) (ai_VersionID input)
         (ai_SnapshotRevision input) at_) in
    ar_Counted out = counted ∧ ar_Coverage out = AcknowledgementCoverage cohort ∧
    r_ID (ar_Rollout out) = r_ID r ∧ vw_rollouts v' !! r_ID r = Some (ar_Rollout out) ∧
    (r_State r = StateRollingBack → ar_Decision out = DecisionWait) ∧
    (forward r →
       (∃ r1, (r1 = r ∨ ∃ failures t, r1 = set_failures r failures t) ∧
          acted (ar_Decision out) stages r1 (ar_Rollout out)) ∧
       (ar_Decision out = DecisionWait →
          vw_targets v' (r_ID r) (r_CurrentStageID r) = cohort)).

Definition acknowledges (input : AcknowledgeInput) (v0 : View) (res : res AcknowledgeResult)
    (w : W) : Prop :=
  (store_inv w ∧ view_ok (view w) ∧ rtc step (None, v0) (None, view w)) ∧
  ∀ out, res = Ok out → acknowledged v0 input out (view w).

Lemma acknowledges_err input v0 id e w :
  runs v0 id None w → acknowledges input v0 (Err e) w.
Proof. intros Hr. split; [by eapply runs_refines|done]. Qed.

(** After the acknowledgement is recorded: the rollback goes on, or the stage
    is decided on. *)
Lemma acknowledge_and_decide ctx input v0 r stages counted w :
  let cohort := vw_targets (view w) (r_ID r) (r_CurrentStageID r) in
  runs v0 (r_ID r) None w → holds w r → live r → vw_stages (view w) !! r_ID r = Some stages →
  (∀ out w', store_inv w' → ar_Counted out = counted → ar_Coverage out = AcknowledgementCoverage cohort →
     r_ID (ar_Rollout out) = r_ID r → holds w' (ar_Rollout out) →
     (r_State r = StateRollingBack → ar_Decision out = DecisionWait) →
     (forward r →
       (∃ r1, (r1 = r ∨ ∃ failures t, r1 = set_failures r failures t) ∧
          acted (ar_Decision out) stages r1 (ar_Rollout out)) ∧
       (ar_Decision out = DecisionWait →
          vw_targets (view w') (r_ID r) (r_CurrentStageID r) = cohort)) →
     acknowledged v0 input out (view w')) →
  wp (if decide (r_State r = StateRollingBack) then
        rollout ← reconcileRollback ctx r cohort;
        mret (MkAcknowledgeResult counted (AcknowledgementCoverage cohort) DecisionWait rollout)
      else
        guard_err (stage_index_error r stages)
                  (EWrap ErrInvalidInput "current stage index out of range" []);;
        currentStage ← index stages (r_CurrentStageIndex r);
        dr ← evaluateStageDecision s ctx r cohort currentStage;
        let '(decision, r') := dr in
        r'' ← apply_decision ctx decision r' stages;
        mret (MkAcknowledgeResult counted (AcknowledgementCoverage cohort) decision r''))
     (acknowledges input v0) w.
Proof.
  intros cohort Hr Hh Hl Hs HQ. wp_step.
  - wp_step. wp_call (reconcileRollback_refines ctx r v0); [done..|].
    intros [r'|err] w1 [Hr1 Ho]; [|by eapply acknowledges_err].
    destruct Ho as [Hh1 Hid]. apply wp_ret. split; [by eapply runs_refines|]. intros out [= <-].
    apply HQ; try done; [apply Hr1|]. intros Hf. by unfold forward in Hf; rewrite e in Hf.
  - assert (forward r) as Hf by by eapply live_not_back; [eapply holds_ok|..].
    eapply (decide_on_stage ctx r stages _ _ v0); [done..| |by intros; eapply acknowledges_err].
    intros d r' w1 Hr1 Hn Hdec. pose proof (noted_id _ _ _ _ _ Hn) as Hid. rewrite <-Hid in Hr1. wp_step.
    pose proof (apply_decision_refines ctx d r' stages v0 w1 Hr1 Hdec) as Href.
    pose proof (apply_decision_acts ctx d r' stages w1) as Hact.
    assert (d = DecisionWait → (apply_decision ctx d r' stages w1).2 = w1) as Hwait by by intros ->.
    unfold wp in *. destruct (apply_decision ctx d r' stages w1) as [[r''|e] w2]; simpl in *.
    2: { by eapply acknowledges_err, Href. }
    destruct Href as [Hr2 [Hh2 Hid2]]. split; [by eapply runs_refines|]. intros out [= <-].
    apply HQ; simpl; try done; [apply Hr2|congruence|].
    intros _. split.
    + exists r'. split; [by apply Hn|by apply Hact].
    + intros Hd. rewrite (Hwait Hd). destruct Hn as [_ Hn]. by destruct (Hn Hd) as [_ ->].
Qed.

Lemma Acknowledge_effect ctx input w :
  store_inv w → view_ok (view w) → wp (Acknowledge s ctx input) (acknowledges input (view w)) w.
Proof.
  intros Hi Hok. unfold Acknowledge. wp_step.
  eapply wp_mono; [by apply law_GetRollout|]. intros [r|e] w0 (Hi0 & Hv0 & Hres).
  2: { split; [rewrite Hv0; by split_and!; [| |apply rtc_refl]|done]. }
  assert (r_ID r = ai_RolloutID input) as Hid by (eapply law_id; [|done]; done).
  assert (runs (view w) (r_ID r) None w0) as Hr0.
  { eapply runs_same; [by apply runs_start|done|done]. }
  assert (holds w0 r) as Hh0 by (unfold holds; by rewrite Hv0, Hid).
  wp_step. wp_step; [by eapply acknowledges_err|]. rename H0 into Hl.
  wp_step. eapply wp_reading; [done|apply law_ListStageTargets; [done|]|].
  { apply (ok_no_nul _ _ _ (holds_ok _ _ _ _ _ Hr0 Hh0)). }
  intros [ts|e] w1 Hr1 Hv1 Hts; [|by eapply acknowledges_err]. rewrite <-Hv1 in Hts. subst ts.
  assert (holds w1 r) as Hh1 by by eapply holds_same.
  wp_step. eapply wp_run_clock; [done|]. intros t w2 Hr2 Hv2. rewrite <-Hv2.
  assert (holds w2 r) as Hh2 by by eapply holds_same.
  assert (view w2 = view w) as Hvw by congruence.
  set (ack := MkAck _ _ _ _ _ _). set (ts := vw_targets _ _ _).
  rewrite (surjective_pairing (ApplyAck ts ack)).
  wp_step. apply (save_ack ctx r ack _ (view w)); [done..| |by intros; eapply acknowledges_err].
  intros w3 Hr3 Hh3 Hs3 Ht3. fold ts in Ht3. rewrite <-Ht3.
  wp_step. eapply wp_reading; [done|apply law_ListStages, Hr3|].
  intros [stages|e] w4 Hr4 Hv4 Hs; [|by eapply acknowledges_err]. rewrite <-Hv4 in Hs, Ht3 |- *.
  assert (holds w4 r) as Hh4 by by eapply holds_same.
  apply acknowledge_and_decide; [done..|].
  intros out w5 Hi5 Hc Hcov Hid' Hh5 Hback Hfwd. exists r, stages, t.
  split; [done|]. split; [done|]. split; [by rewrite <-Hvw, <-Hs3, <-Hv4|].
  fold ack. rewrite <-Hvw. fold ts. rewrite (surjective_pairing (ApplyAck ts ack)), <-Ht3.
  split_and!; try done. unfold holds in Hh5. congruence.
Qed.

Lemma Acknowledge_refines ctx input w :
  store_inv w → view_ok (view w) → refines (Acknowledge s ctx input) w.
Proof. intros Hi Hok. eapply wp_mono; [by apply Acknowledge_effect|]. by intros res w' [? _]. Qed.

(** ** Creation *)

(** The stages a request asks for, or the service's own plan. *)
Definition plan_of (input : CreateRolloutInput) : list Stage :=
  if Nat.eqb (length (ci_Stages input)) 0 then svc_stagePlan s else ci_Stages input.

(** No stage carries the name reserved for the verification of a rollback. *)
Definition unreserved (stages : list Stage) : Prop :=
  Forall (λ st, ∀ p, s_ID st ≠ verification_id p) stages.

Lemma validate_create_ok input stages u :
  validate_create input stages = Ok u →
  ci_TenantID input ≠ "" ∧ ci_Key input ≠ "" ∧
  is_ok (Environment_Validate (ci_Environment input)) = true ∧
  1 ≤ ci_CandidateVersionNumber input ∧ plan_ok stages ∧
  validate_guardrails (ci_Guardrails input) = Ok u.
Proof.
  unfold validate_create. rewrite !res_guard_bind.
  destruct (empty_str (ci_TenantID input)) eqn:Ht; [done|].
  destruct (empty_str (ci_Key input)) eqn:Hk; [done|]. cbn [orb].
  destruct (Environment_Validate _) as [[]|]; [|done].
  destruct (ci_CandidateVersionNumber input <? 1) eqn:Hn; [done|].
  destruct (ValidateStagePlan stages) as [[]|] eqn:Hp; [|done]. intros Hg.
  rewrite empty_str_false in Ht, Hk. apply ValidateStagePlan_plan_ok in Hp.
  split_and!; try done; lia.
Qed.

Lemma plan_ok_first stages : plan_ok stages → ∃ first, stages !! 0%nat = Some first.
Proof.
  intros (_ & front & final & -> & _). destruct front as [|f front]; [by exists final|by exists f].
Qed.

(** What a successful [CreateRollout] left behind. *)
Definition created (ctx : Context) (v : View) (r : Rollout) (stages : list Stage)
    (ts : list StageTarget) (v' : View) : Prop :=
  vw_rollouts v !! r_ID r = None ∧ vw_rollouts v' = <[r_ID r := r]> (vw_rollouts v) ∧
  vw_stages v' !! r_ID r = Some stages ∧ plan_ok stages ∧
  (∀ id' r', vw_rollouts v !! id' = Some r' → live r' → slot r' ≠ slot r) ∧
  ∃ first, stages !! 0%nat = Some first ∧ r_CurrentStageID r = s_ID first ∧
    cohort_of ctx r first ts ∧ vw_targets v' (r_ID r) (s_ID first) = ts.

(** The last steps of [CreateRollout]: the rollout is stored with its stages,
    then its first stage is entered. *)
Lemma create_and_activate ctx r stages first w :
  store_inv w → view_ok (view w) → no_nul (r_ID r) → plan_ok stages → unreserved stages →
  stages !! 0%nat = Some first → r_State r = StateDeploying → r_CurrentStageIndex r = 0 →
  r_RollbackStatus r = RollbackStatusNone → r_StableVersionID r ≠ r_CandidateVersionID r →
  r_CurrentStageID r = s_ID first →
  wp (store_CreateRollout ctx r stages;;
      targets ← activateStage ctx r first (r_TargetServices r);
      mret (r, targets))
     (λ res w', store_inv w' ∧ view_ok (view w') ∧ rtc step (None, view w) (None, view w') ∧
        match res with Ok (r', ts) => r' = r ∧ created ctx (view w) r stages ts (view w') | Err _ => True end) w.
Proof.
  intros Hi Hok Hn Hp Hun Hfirst Hst Hidx Hrb Hvs Hcur. wp_step.
  assert (live r) by (unfold live; by rewrite Hst).
  eapply wp_mono; [by apply law_CreateRollout|]. intros [[]|e] w1 [Hi1 Hres].
  2: { destruct Hres as [-> _]. by split_and!; [| |apply rtc_refl|]. }
  destruct Hres as (Hnew & Hfree & Hput).
  assert (vstep None (view w) (Some (r_ID r)) (view w1)) as Hstep.
  { eapply step_create; try done; [|by exists first].
    eapply Forall_impl; [exact Hun|]. intros st Hs. apply Hs. }
  assert (runs (view w) (r_ID r) (Some (r_ID r)) w1) as Hr1.
  { eapply runs_step; [by apply runs_start|done..|].
    destruct Hput as (Hp1 & _). intros id' Hne. by rewrite Hp1, lookup_insert_ne. }
  assert (holds w1 r) as Hh1 by (unfold holds; destruct Hput as (-> & _); apply lookup_insert_eq).
  wp_step. eapply wp_mono; [apply (activateStage_refines ctx r first (view w)); try done|].
  { exists stages. rewrite Hidx. destruct Hput as (_ & -> & _). by rewrite lookup_insert_eq. }
  intros [ts|e] w2 ([Hi2 Hok2 Hst2 _] & Hh2 & Hact); [|by split_and!].
  apply wp_ret. split_and!; try done. destruct Hact as [Hco (Hro & Hsg & Htg)].
  destruct Hput as (Hro1 & Hsg1 & Htg1). unfold created. rewrite Hro, Hsg, Hro1, Hsg1.
  split_and!; try done; [apply lookup_insert_eq|].
  exists first. split_and!; [done..|]. rewrite Htg by done. rewrite decide_True by done.
  rewrite Htg1 by done. by rewrite (view_unknown _ Hok).
Qed.

(** The requests to the registry before the rollout is stored. *)
Lemma wp_aside {A} (m : M W A) (Q : res A → W → Prop) w :
  apart store_inv view m → store_inv w →
  (∀ r w', store_inv w' → view w' = view w → Q r w') → wp m Q w.
Proof.
  intros Hm Hi HQ. unfold wp. destruct (Hm (view w) w) as [Hi' Hv]; [by split|]. by apply HQ.
Qed.

Lemma apart_now : apart store_inv view now.
Proof. intros v. apply preserves_now, apart_env. Qed.

Lemma CreateRollout_effect ctx input w :
  store_inv w → view_ok (view w) → unreserved (plan_of input) →
  wp (CreateRollout s ctx input)
     (λ res w', (store_inv w' ∧ view_ok (view w') ∧ rtc step (None, view w) (None, view w')) ∧
        ∀ r ts, res = Ok (r, ts) → created ctx (view w) r (plan_of input) ts (view w')) w.
Proof.
  intros Hi Hok Hun. unfold CreateRollout. cbv zeta. fold (plan_of input).
  assert (∀ e w', store_inv w' → view w' = view w →
    (store_inv w' ∧ view_ok (view w') ∧ rtc step (None, view w) (None, view w')) ∧
    ∀ r ts, (Err e : res (Rollout * list StageTarget)) = Ok (r, ts) → created ctx (view w) r (plan_of input) ts (view w')) as Hsame.
  { intros e w' Hi' ->. split; [by split_and!; [| |apply rtc_refl]|done]. }
  wp_step. wp_step. destruct (validate_create _ _) as [u|e] eqn:Hv; [|by apply Hsame].
  apply validate_create_ok in Hv as (_ & _ & _ & _ & Hplan & _).
  wp_step. apply wp_aside; [apply (apart_GetDefinition (s:=s))|done|]. intros [d|e] w1 Hi1 Hv1; [|by apply Hsame].
  wp_step. apply wp_aside; [apply (apart_ListVersions (s:=s))|done|]. intros [vs|e] w2 Hi2 Hv2; [|apply Hsame; congruence].
  destruct (findVersionByNumber vs _) as [candidate|]; [|apply wp_throw, Hsame; congruence].
  wp_step. apply wp_aside; [apply (apart_GetEnvironmentState (s:=s))|done|]. intros [st|e] w3 Hi3 Hv3; [|apply Hsame; congruence].
  wp_step. wp_step; [apply Hsame; congruence|].
  wp_step. wp_step; [apply Hsame; congruence|]. rename H1 into Hne. apply bool_decide_eq_false in Hne.
  wp_step. apply wp_aside; [apply apart_now|done|]. intros [t|e] w4 Hi4 Hv4; [|apply Hsame; congruence].
  wp_step. eapply (wp_random_id _ (HostFrame0 := apart_env (view w4))); [done|].
  intros b w5 [Hi5 Hv5]. assert (view w5 = view w) as Hvw by congruence.
  destruct (plan_ok_first _ Hplan) as [first Hfirst].
  wp_step. eapply wp_index; [done|exact Hfirst|].
  eapply wp_mono; [apply (create_and_activate ctx (new_rollout _ _ _ _ _ _ _) (plan_of input) first)|];
    try done; [by rewrite Hvw|by apply random_id_no_nul|].
  rewrite Hvw. intros [[r ts]|e] w6 (? & ? & ? & Hres); (split; [done|]); [|done].
  destruct Hres as [-> Hc]. by intros r' ts' [= <- <-].
Qed.

Lemma CreateRollout_refines ctx input w :
  store_inv w → view_ok (view w) → unreserved (plan_of input) →
  refines (CreateRollout s ctx input) w.
Proof.
  intros Hi Hok Hun. eapply wp_mono; [by apply CreateRollout_effect|]. by intros res w' [? _].
Qed.

(** Reads change nothing. *)
Lemma GetRollout_refines ctx id w :
  store_inv w → view_ok (view w) →
  wp (GetRollout ctx id) (λ res w', store_inv w' ∧ view w' = view w ∧
    match res with
    | Ok (r, ts, cov) => vw_rollouts (view w) !! id = Some r ∧
        ts = vw_targets (view w) id (r_CurrentStageID r) ∧ cov = AcknowledgementCoverage ts
    | Err e => failure ctx e ∨
               errors_Is e ErrNotFound = true ∧ vw_rollouts (view w) !! id = None
    end) w.
Proof.
  intros Hi Hok. unfold GetRollout. wp_step. eapply wp_mono; [by apply law_GetRollout|].
  intros [r|e] w1 (Hi1 & Hv1 & Hr); [|done].
  pose proof (view_rollouts _ Hok _ _ Hr) as Hrok. pose proof (ok_id _ _ _ Hrok) as Hid.
  wp_step. eapply wp_mono; [apply law_ListStageTargets; [done|rewrite Hid; apply Hrok]|].
  rewrite Hv1, Hid. intros [ts|e] w2 (Hi2 & Hv2 & Hts); [|by auto].
  apply wp_ret. by split_and!.
Qed.

Lemma ActiveRollout_refines ctx cfg env w :
  store_inv w → view_ok (view w) →
  wp (ActiveRollout ctx cfg env) (λ res w', store_inv w' ∧ view w' = view w ∧
    match res with
    | Ok (r, ts) => vw_rollouts (view w) !! r_ID r = Some r ∧ live r ∧ slot r = nul_key cfg env ∧
                    ts = vw_targets (view w) (r_ID r) (r_CurrentStageID r)
    | Err e => failure ctx e ∨ errors_Is e ErrNotFound = true ∧
        ∀ id r, vw_rollouts (view w) !! id = Some r → live r → slot r ≠ nul_key cfg env
    end) w.
Proof.
  intros Hi Hok. unfold ActiveRollout. wp_step. eapply wp_mono; [by apply law_GetActiveRollout|].
  intros [r|e] w1 (Hi1 & Hv1 & Hr); [|done]. destruct Hr as (Hr & Hl & Hslot).
  pose proof (view_rollouts _ Hok _ _ Hr) as Hrok.
  wp_step. eapply wp_mono; [apply law_ListStageTargets; [done|apply Hrok]|].
  rewrite Hv1. intros [ts|e] w2 (Hi2 & Hv2 & Hts); [|by auto].
  apply wp_ret. by split_and!.
Qed.

End Refine.
End RolloutRefine.
