(* ===== verification/RolloutProgress.v ===== *)
(** Rollouts do not hang: reconciled once its limit has passed, an unfinished
    rollout moves one phase towards its end, and nothing in the service can
    fail on the way. *)

From Stdlib Require Import ZArith Lia.
From S2P Require Import Prelude GoLib Host Domain Guardrail Registry Rollout RolloutFacts RolloutService RolloutSpec RolloutMemory RolloutRefine.
Import Domain Rollout RolloutService RolloutSpec RolloutLaws RolloutRefine.
Open Scope string_scope.
Open Scope list_scope.
Open Scope Z_scope.

Module RolloutProgress.

(** How many limits a rollout may still have to wait for: the rollout's, the
    start of the verification of its rollback, and that verification's. *)
Definition phase (r : Rollout) : nat :=
  match r_State r with
  | StateCompleted | StateRolledBack | StateFailed => 0
  | StateRollingBack => if decide (r_CurrentStageID r = verification_id (r_ID r)) then 1 else 2
  | _ => 3
  end.

(** The limit of the phase is set, and passed at [T]. *)
Definition due (T : Time) (r : Rollout) : Prop :=
  (forward r → 0 < r_RolloutMaxDuration r ≤ int64_max ∧
     r_CreatedAt r + r_RolloutMaxDuration r ≤ T) ∧
  (r_State r = StateRollingBack → r_CurrentStageID r = verification_id (r_ID r) →
     0 < r_RollbackTimeout r ≤ int64_max ∧
     r_StageStartedAt r + r_RollbackTimeout r ≤ T).

Lemma time_Sub_past T t u d :
  0 < d ≤ int64_max → u + d ≤ T → T ≤ t → (d <=? time_Sub t u) = true.
Proof.
  intros Hd H1 H2. apply Z.leb_le, time_Sub_ge; [|lia].
  unfold int64_ok, int64_min, int64_max in *. lia.
Qed.

Lemma phase_live r : phase r = 0%nat ↔ Terminal (r_State r) = true.
Proof. unfold phase. destruct (r_State r); simpl; try case_decide; by split. Qed.

Lemma phase_bound r : (phase r ≤ 3)%nat.
Proof. unfold phase. destruct (r_State r); try case_decide; lia. Qed.

Lemma abandoned r :
  r_State r = StateRollingBack → r_CurrentStageID r ≠ verification_id (r_ID r) → phase r = 2%nat.
Proof. intros Hst Hc. unfold phase. rewrite Hst. by rewrite decide_False. Qed.

Lemma verifying r r' :
  r_State r' = StateRollingBack → r_ID r' = r_ID r → r_CurrentStageID r' = verification_id (r_ID r) →
  phase r' = 1%nat.
Proof. intros Hst Hid Hc. unfold phase. rewrite Hst. by rewrite decide_True by congruence. Qed.

Section Progress.
Context {W : Type} `{Env W, !Store W, !Registry W, !AgentSource W} (s : Service W)
  (failure : Context → error → Prop) (store_inv : W → Prop) (view : W → View)
  `{!StoreLaws W failure store_inv view, !ServiceLaws W s store_inv view}.
(** The request is not interrupted and the storage works. *)
Context (ctx : Context) (works : ∀ e, ¬ failure ctx e).
(** From here on every reading of the clock is at least [T]. *)
Context (T : Time) (late : W → Prop) (late_frame : HostFrame late)
  (late_now : ∀ w, late w → T ≤ (env_now w).1) (late_store : StoreKeeps W late).

Abbreviation holds := (holds view).

(** What is kept between two calls: the view [v] of the store. *)
Record quiet (v : View) (w : W) : Prop := {
  q_inv : store_inv w;
  q_late : late w;
  q_view : view w = v }.

Lemma wp_late_now v (Q : res Time → W → Prop) w :
  quiet v w → (∀ t w', T ≤ t → quiet v w' → Q (Ok t) w') → wp now Q w.
Proof.
  intros [Hi Hl Hv] HQ. unfold wp, now. pose proof (late_now w Hl) as Ht.
  pose proof (frame_now (P := late) w Hl) as Hl'.
  destruct (frame_now (HostFrame := apart_env v) w (conj Hi Hv)) as [Hi' Hv'].
  destruct (env_now w) as [t w']. simpl in *. by apply HQ.
Qed.

(** A store call that keeps the clock, and the law of it. *)
Lemma wp_late {A} (m : M W A) (Q post : res A → W → Prop) v w :
  quiet v w → preserves late m → wp m post w →
  (∀ r w', late w' → post r w' → Q r w') → wp m Q w.
Proof.
  intros [_ Hl _] Hk Hm HQ. eapply wp_mono; [by apply (wp_with late m post)|].
  intros r w' [??]. by apply HQ.
Qed.

Lemma wp_late_update v r r0 (Q : res unit → W → Prop) w :
  quiet v w → vw_rollouts v !! r_ID r = Some r0 → live r0 → slot r = slot r0 →
  (∀ v' w', quiet v' w' → put_rollout r v v' → Q (Ok tt) w') →
  wp (store_UpdateRollout ctx r) Q w.
Proof.
  intros Hq Hr Hl Hs HQ. eapply (wp_late _ Q); [exact Hq|apply keep_UpdateRollout| |].
  { apply (law_UpdateRollout ctx r r0); [apply Hq|by rewrite (q_view _ _ Hq)|done..]. }
  intros [[]|e] w' Hl' [Hi Hput]; [|by destruct (works e); apply Hput].
  rewrite (q_view _ _ Hq) in Hput. by eapply HQ.
Qed.

(** A rollout read from the view [v] that moved one phase down. *)
Definition moved (r : Rollout) (res : res Rollout) (w : W) : Prop :=
  late w ∧ ∃ r', res = Ok r' ∧ r_ID r' = r_ID r ∧ (phase r' < phase r)%nat.

Lemma startRollback_moves v r w :
  quiet v w → vw_rollouts v !! r_ID r = Some r → r_State r = StateDeploying ∨ r_State r = StatePaused →
  wp (startRollback ctx r) (moved r) w.
Proof.
  intros Hq Hr Hst. unfold startRollback. rewrite decide_False by (destruct Hst; congruence).
  unfold transition. wp_step. wp_step.
  assert (Transition (r_State r) StateRollingBack = Ok tt) as -> by by destruct Hst as [-> | ->].
  wp_step. apply (wp_late_now v); [done|]. intros t w1 _ Hq1. cbv zeta.
  wp_step. apply (wp_late_update v _ r); [done|done|by destruct Hst as [E|E]; unfold live; rewrite E|done|].
  intros v' w2 Hq2 _. wp_step. split; [apply Hq2|]. eexists. split_and!; [done|done|].
  unfold phase at 1. simpl. destruct Hst as [E|E]; unfold phase; rewrite E; case_decide; lia.
Qed.

Lemma finish_rollback_moves v r status w :
  quiet v w → vw_rollouts v !! r_ID r = Some r → r_State r = StateRollingBack →
  wp (finish_rollback ctx r status) (moved r) w.
Proof.
  intros Hq Hr Hst. unfold finish_rollback.
  wp_step. apply (wp_late_now v); [done|]. intros t w1 _ Hq1. cbv zeta.
  wp_step. apply (wp_late_update v _ r); [done|done|by unfold live; rewrite Hst|done|].
  intros v' w2 Hq2 _. wp_step. split; [apply Hq2|]. eexists. split_and!; [done|done|].
  unfold phase. rewrite Hst. simpl. case_decide; lia.
Qed.

Lemma activateRollbackVerification_moves v r ts w :
  quiet v w → view_ok v → vw_rollouts v !! r_ID r = Some r → r_State r = StateRollingBack →
  r_CurrentStageID r ≠ verification_id (r_ID r) →
  wp (activateRollbackVerification ctx r ts) (moved r) w.
Proof.
  intros Hq Hok Hr Hst Hcur. unfold activateRollbackVerification.
  pose proof (ok_no_nul _ _ _ (view_rollouts _ Hok _ _ Hr)) as Hnn.
  wp_step. eapply (wp_late _ _); [exact Hq|apply keep_NextSnapshotRevision|apply law_NextSnapshotRevision, Hq|].
  intros [rev|e] w1 Hl1 (Hi1 & Hv1 & Hrev); [clear Hrev|by destruct (works e)].
  assert (quiet v w1) as Hq1 by (split; [done..|by rewrite Hv1; apply Hq]).
  wp_step. apply (wp_late_now v); [done|]. intros t w2 _ Hq2. cbv zeta.
  wp_step. eapply (wp_late _ _); [exact Hq2|apply keep_SaveStage|apply law_SaveStage, Hq2|].
  intros [[]|e] w3 Hl3 [Hi3 Hres].
  2: { destruct Hres as (_ & [Hf|[_ Hno]]); [by destruct (works e)|]. rewrite (q_view _ _ Hq2) in Hno. congruence. }
  assert (vw_rollouts (view w3) = vw_rollouts v) as Hr3.
  { rewrite <-(q_view _ _ Hq2). cbv zeta in Hres. destruct (listed _ _); [by rewrite Hres|apply Hres]. }
  wp_step. eapply (wp_late _ _); [by split|apply keep_SaveStageTargets| |].
  { apply (law_SaveStageTargets ctx (r_ID r) (verification_id (r_ID r))); [done|done|].
    apply Forall_fmap, Forall_true. by split. }
  intros [[]|e] w4 Hl4 [Hi4 Hres4]; [|by destruct (works e); apply Hres4].
  destruct Hres4 as (Hr4 & _ & _).
  wp_step. apply (wp_late_update (view w4) _ r); [by split|simpl; by rewrite Hr4, Hr3|by unfold live; rewrite Hst|done|].
  intros v' w5 Hq5 (Hr5 & _). wp_step.
  - assert (wp (finish_rollback ctx (set_progress r (r_State r) (verification_id (r_ID r))
      (r_CurrentStageIndex r) t (r_RollbackStatus r) t) RollbackStatusVerified) (moved r) w5) as Hf; [|exact Hf].
    eapply wp_mono; [apply (finish_rollback_moves v'); [done|by rewrite Hr5; apply lookup_insert_eq|done]|].
    intros res w6 (Hl6 & r' & -> & Hid & Hph). split; [done|]. exists r'. split_and!; [done|done|].
    rewrite (verifying r (set_progress r _ _ _ _ _ _)) in Hph by done. rewrite (abandoned r) by done. lia.
  - wp_step. split; [apply Hq5|]. eexists. split_and!; [done|done|].
    rewrite (verifying r (set_progress r _ _ _ _ _ _)), (abandoned r) by done. lia.
Qed.

Lemma reconcileRollback_moves v r ts w :
  quiet v w → view_ok v → vw_rollouts v !! r_ID r = Some r → r_State r = StateRollingBack →
  due T r → wp (reconcileRollback ctx r ts) (moved r) w.
Proof.
  intros Hq Hok Hr Hst [_ Hdue]. unfold reconcileRollback. cbv zeta.
  change (rollbackVerificationStageID (r_ID r)) with (verification_id (r_ID r)).
  case_bool_decide as Hcur; cbn [negb]; [|by eapply activateRollbackVerification_moves].
  destruct (Hdue Hst Hcur) as (H0 & Hpast).
  wp_step; [by apply (finish_rollback_moves v)|]. wp_step; [|lia].
  wp_step. apply (wp_late_now v); [done|]. intros t w1 Ht Hq1.
  rewrite (time_Sub_past T) by done. by apply (finish_rollback_moves v).
Qed.

Lemma reconcileRollout_moves v r w :
  quiet v w → view_ok v → vw_rollouts v !! r_ID r = Some r → live r → due T r →
  wp (reconcileRollout s ctx r) (moved r) w.
Proof.
  intros Hq Hok Hr Hl Hdue. unfold reconcileRollout.
  pose proof (view_rollouts _ Hok _ _ Hr) as Hrok.
  wp_step. eapply (wp_late _ _); [exact Hq|apply keep_ListStageTargets| |].
  { apply law_ListStageTargets; [apply Hq|apply (ok_no_nul _ _ _ Hrok)]. }
  intros [ts|e] w1 Hl1 (Hi1 & Hv1 & Hts); [|by destruct (works e)].
  assert (quiet v w1) as Hq1 by (split; [done..|by rewrite Hv1; apply Hq]).
  wp_step; [by eapply reconcileRollback_moves|].
  assert (forward r) as Hf by by eapply live_not_back.
  destruct (forward_current _ _ _ Hrok Hf) as (plan & st & Hplan & _ & _ & Hidx & Hst & _).
  wp_step. eapply (wp_late _ _); [exact Hq1|apply keep_ListStages|apply law_ListStages, Hq1|].
  intros [stages|e] w2 Hl2 (Hi2 & Hv2 & Hs).
  2: { destruct Hs as [?|[_ Hno]]; [by destruct (works e)|]. rewrite (q_view _ _ Hq1) in Hno. congruence. }
  rewrite (q_view _ _ Hq1), Hplan in Hs. injection Hs as <-.
  assert (quiet v w2) as Hq2 by (split; [done..|by rewrite Hv2; apply Hq1]).
  wp_step. wp_step.
  { unfold stage_index_error in *. apply orb_true_iff in H0 as [?|?]; lia. }
  wp_step. eapply wp_index; [lia|exact Hst|].
  unfold evaluateStageDecision. wp_step. wp_step. apply (wp_late_now v); [done|]. intros t w3 Ht Hq3.
  destruct Hdue as [Hdue _]. destruct (Hdue Hf) as (H0' & Hpast).
  rewrite (proj2 (Z.ltb_lt _ _)) by apply H0'. rewrite (time_Sub_past T) by done. simpl.
  wp_step. unfold apply_decision. apply (startRollback_moves v); [done..|].
  eapply forward_known; [apply (ok_state _ _ _ Hrok)|done].
Qed.

(** One pass over all the rollouts. *)
Lemma ReconcileActive_moves w :
  store_inv w → view_ok (view w) → late w →
  (∀ id r, vw_rollouts (view w) !! id = Some r → live r → due T r) →
  wp (ReconcileActive s ctx) (λ res w', res = Ok tt ∧ store_inv w' ∧ view_ok (view w') ∧ late w' ∧
    ∀ id r, vw_rollouts (view w) !! id = Some r →
      ∃ r', vw_rollouts (view w') !! id = Some r' ∧
        (live r → (phase r' < phase r)%nat) ∧ (¬ live r → r' = r)) w.
Proof.
  intros Hi Hok Hl Hdue. unfold ReconcileActive. wp_step.
  eapply (wp_late _ _); [by split|apply keep_ListActiveRollouts|by apply law_ListActiveRollouts|].
  intros [active|e] w0 Hl0 (Hi0 & Hv0 & Hact); [|by destruct (works e)].
  destruct Hact as [Hnd Hact].
  apply (wp_for_each _ (λ rest w', store_inv w' ∧ view_ok (view w') ∧ late w' ∧ NoDup (r_ID <$> rest) ∧
    (∀ r, r ∈ rest → holds w' r ∧ live r ∧ due T r ∧ holds w r) ∧
    ∀ id r, vw_rollouts (view w) !! id = Some r → r ∉ rest →
      ∃ r', vw_rollouts (view w') !! id = Some r' ∧
        (live r → (phase r' < phase r)%nat) ∧ (¬ live r → r' = r))).
  - unfold RolloutRefine.holds. rewrite Hv0. split_and!; [done..| |].
    + intros r [Hr Hlive]%Hact. split_and!; [done..|by eapply Hdue|done].
    + intros id r Hr Hni. exists r. split_and!; [done| |done]. intros Hlive. destruct Hni.
      apply Hact. split; [|done]. by rewrite (law_id _ _ _ Hi Hr).
  - intros r rest w1 (Hi1 & Hok1 & Hl1 & Hnd1 & Hrest & Hdone).
    destruct (Hrest r) as (Hh & Hlive & Hd & Hw); [by left|]. simpl in Hnd1.
    apply NoDup_cons in Hnd1 as [Hni Hnd1]. rewrite Hlive. wp_step.
    pose proof (reconcileRollout_refines s failure store_inv view ctx r (view w1) w1
      (runs_start _ _ _ _ Hi1 Hok1) Hh Hlive) as Href.
    pose proof (reconcileRollout_moves (view w1) r w1 (Build_quiet _ _ Hi1 Hl1 eq_refl) Hok1 Hh Hlive Hd) as Hmv.
    unfold wp in *. destruct (reconcileRollout s ctx r w1) as [res w2]. simpl in Href, Hmv |- *.
    destruct Hmv as (Hl2 & r' & -> & Hid & Hph). destruct Href as [[Hi2 Hok2 _ Hoth] [Hh2 _]].
    simpl. split_and!; [done..| |].
    + intros r1 Hin. destruct (Hrest r1) as (Hh1 & Hlive1 & Hd1 & Hw1); [by right|]. split_and!; [|done..].
      unfold RolloutRefine.holds. rewrite Hoth; [done|]. intros Heq. apply Hni.
      rewrite <-Heq. by apply list_elem_of_fmap_2.
    + intros id r1 Hr1 Hni1. destruct (decide (id = r_ID r)) as [-> |Hne].
      * assert (r1 = r) as -> by (unfold RolloutRefine.holds in Hw; congruence).
        exists r'. unfold RolloutRefine.holds in Hh2. rewrite Hid in Hh2. by split_and!.
      * destruct (Hdone id r1 Hr1) as (r2 & Hr2 & ?).
        { intros [->|?]%elem_of_cons; [|done]. apply Hne. by rewrite (law_id _ _ _ Hi Hr1). }
        exists r2. by rewrite Hoth.
  - intros w1 (Hi1 & Hok1 & Hl1 & _ & _ & Hdone). split_and!; [done..|].
    intros id r Hr. apply Hdone; [done|apply not_elem_of_nil].
Qed.

End Progress.
End RolloutProgress.
