(* ===== verification/Sql.v ===== *)
(** What [internal/storage/postgres] uses of PostgreSQL and of its driver: the
    tables of [src/migrations], the errors of a statement, column types, and
    the connection over which statements and transactions run.  The server's
    own choices are the class [Postgres]: the text it keeps of a JSON value,
    the resolution of its timestamps, its collation, the order of a scan, and
    the statements that are interrupted. *)

From Stdlib Require Import ZArith Lia.
From S2P Require Import Prelude GoLib Domain Guardrail Rollout.
Import Domain Rollout.
Open Scope string_scope.
Open Scope list_scope.
Open Scope Z_scope.

Module Sql.

(** * Errors *)

(** [pgx.ErrNoRows]: the statement returned no row to scan. *)
Definition ErrNoRows : error := ESentinel "pgx.ErrNoRows" "no rows in result set".

(** A [*pgconn.PgError], with its code and its constraint. *)
Definition PgError (code constraint : string) : error :=
  EForeign "pgconn.PgError" ("SQLSTATE " +:+ code)%string [code; constraint].

(** [errors.As(err, &pgErr)]. *)
Fixpoint as_PgError (e : error) : option (string * string) :=
  match e with
  | EForeign kind _ [code; constraint] =>
      if bool_decide (kind = "pgconn.PgError") then Some (code, constraint) else None
  | EWrap c _ _ | EWrapV c _ => as_PgError c
  | _ => None
  end.

Definition unique_violation := PgError "23505".
Definition foreign_key_violation := PgError "23503".
Definition check_violation := PgError "23514".
Definition not_null_violation := PgError "23502" "".

(** * The tables

    A row has the columns of its table; a table whose columns are the fields
    of a domain record uses that record.  Every table is indexed by its
    primary key. *)

(** [src/migrations/000002_config_registry.sql:10-20] config_definitions *)
Record DefinitionRow := MkDefinitionRow {
  dw_id : string; dw_tenant_id : string; dw_config_key : string; dw_description : string;
  dw_schema : string; dw_default_value : option string;
  dw_created_at : Time; dw_updated_at : Time }.

(** [src/migrations/000002_config_registry.sql:33-40] config_environment_states *)
Record StateRow := MkStateRow {
  sw_config_definition_id : string; sw_environment : string;
  sw_stable_version_id : option string; sw_active_rollout_id : string; sw_updated_at : Time }.

(** [src/migrations/000003_agents.sql:1-10] agents *)
Record AgentRow := MkAgentRow {
  aw_id : string; aw_service : string; aw_environment : string; aw_zone : string;
  aw_instance : string; aw_labels : string; aw_registered_at : Time; aw_last_seen_at : Time }.

(** [src/migrations/000004_rollouts.sql:1-31] rollouts *)
Record RolloutRow := MkRolloutRow {
  rw_id : string; rw_tenant_id : string; rw_config_definition_id : string;
  rw_config_key : string; rw_environment : string; rw_target_services : string;
  rw_stable_version_id : string; rw_candidate_version_id : string;
  rw_candidate_version_number : Z; rw_state : string; rw_current_stage_id : string;
  rw_current_stage_index : Z; rw_required_ack_percentage : float64;
  rw_guardrails : string; rw_guardrail_failures : string; rw_stage_started_at : Time;
  rw_deployment_timeout_seconds : Z; rw_rollout_max_duration_seconds : Z;
  rw_rollback_timeout_seconds : Z; rw_rollback_status : string;
  rw_created_at : Time; rw_updated_at : Time }.

(** [src/migrations/000004_rollouts.sql:33-43] rollout_stages *)
Record StageRow := MkStageRow {
  gw_id : string; gw_rollout_id : string; gw_stage_order : Z; gw_percentage : Z;
  gw_minimum_duration_seconds : Z }.

(** [src/migrations/000004_rollouts.sql:45-57] rollout_stage_targets *)
Record TargetRow := MkTargetRow {
  tw_rollout_id : string; tw_stage_id : string; tw_agent_id : string; tw_bucket : Z;
  tw_expected_version_id : string; tw_snapshot_revision : Z; tw_status : string;
  tw_created_at : Time; tw_acked_at : option Time }.

Record Database := MkDatabase {
  db_tenants : gmap string Tenant;
  db_definitions : gmap string DefinitionRow;
  db_versions : gmap string ConfigVersion;
  db_states : gmap (string * string) StateRow;
  db_agents : gmap string AgentRow;
  db_credentials : gmap string AgentCredential;
  db_acknowledgements : gmap string AgentAcknowledgement;
  db_rollouts : gmap string RolloutRow;
  db_stages : gmap string StageRow;
  db_targets : gmap (string * string * string) TargetRow;
  db_revision : Z }.

(** The migrated database: empty tables, the sequence at its start. *)
Definition migrated : Database := MkDatabase ∅ ∅ ∅ ∅ ∅ ∅ ∅ ∅ ∅ ∅ 1.

Definition set_tenants t (d : Database) : Database :=
  MkDatabase t (db_definitions d) (db_versions d) (db_states d) (db_agents d) (db_credentials d)
    (db_acknowledgements d) (db_rollouts d) (db_stages d) (db_targets d) (db_revision d).
Definition set_definitions t (d : Database) : Database :=
  MkDatabase (db_tenants d) t (db_versions d) (db_states d) (db_agents d) (db_credentials d)
    (db_acknowledgements d) (db_rollouts d) (db_stages d) (db_targets d) (db_revision d).
Definition set_versions t (d : Database) : Database :=
  MkDatabase (db_tenants d) (db_definitions d) t (db_states d) (db_agents d) (db_credentials d)
    (db_acknowledgements d) (db_rollouts d) (db_stages d) (db_targets d) (db_revision d).
Definition set_states t (d : Database) : Database :=
  MkDatabase (db_tenants d) (db_definitions d) (db_versions d) t (db_agents d) (db_credentials d)
    (db_acknowledgements d) (db_rollouts d) (db_stages d) (db_targets d) (db_revision d).
Definition set_agents t (d : Database) : Database :=
  MkDatabase (db_tenants d) (db_definitions d) (db_versions d) (db_states d) t (db_credentials d)
    (db_acknowledgements d) (db_rollouts d) (db_stages d) (db_targets d) (db_revision d).
Definition set_credentials t (d : Database) : Database :=
  MkDatabase (db_tenants d) (db_definitions d) (db_versions d) (db_states d) (db_agents d) t
    (db_acknowledgements d) (db_rollouts d) (db_stages d) (db_targets d) (db_revision d).
Definition set_acknowledgements t (d : Database) : Database :=
  MkDatabase (db_tenants d) (db_definitions d) (db_versions d) (db_states d) (db_agents d)
    (db_credentials d) t (db_rollouts d) (db_stages d) (db_targets d) (db_revision d).
Definition set_rollouts t (d : Database) : Database :=
  MkDatabase (db_tenants d) (db_definitions d) (db_versions d) (db_states d) (db_agents d)
    (db_credentials d) (db_acknowledgements d) t (db_stages d) (db_targets d) (db_revision d).
Definition set_stages t (d : Database) : Database :=
  MkDatabase (db_tenants d) (db_definitions d) (db_versions d) (db_states d) (db_agents d)
    (db_credentials d) (db_acknowledgements d) (db_rollouts d) t (db_targets d) (db_revision d).
Definition set_targets t (d : Database) : Database :=
  MkDatabase (db_tenants d) (db_definitions d) (db_versions d) (db_states d) (db_agents d)
    (db_credentials d) (db_acknowledgements d) (db_rollouts d) (db_stages d) t (db_revision d).
Definition set_revision r (d : Database) : Database :=
  MkDatabase (db_tenants d) (db_definitions d) (db_versions d) (db_states d) (db_agents d)
    (db_credentials d) (db_acknowledgements d) (db_rollouts d) (db_stages d) (db_targets d) r.

(** * The server *)

(** [pg_jsonb] is the text a [JSONB] column returns for a text it was given,
    or the code of the error; [pg_timestamp] the instant a [TIMESTAMPTZ] column
    keeps; [pg_text_le] the order of the database's collation; [pg_scan n] the
    order in which the [n]-th statement finds the rows of a table.  [pg_trip
    ctx n] is the error of the [n]-th exchange with the server, if it is
    interrupted, and whether the server had done its work by then. *)
Class Postgres := {
  pg_jsonb : string → result_ string string;
  pg_timestamp : Time → Time;
  pg_text_le : string → string → bool;
  pg_scan : nat → RangeOrder;
  pg_trip : Context → nat → option (error * bool) }.

(** A connection of the pool: the committed database, the copy an open
    transaction works on, and the number of exchanges so far. *)
Record Conn := MkConn { cn_db : Database; cn_tx : option Database; cn_trips : nat }.

Section server.
Context `{Postgres}.

(** A statement sees the database and either changes it or fails; a failed
    statement changes nothing. *)
Abbreviation Stmt := (M Database).

(** ** Column types *)

(** [TEXT]: valid UTF-8 without zero bytes. *)
Definition text (s : string) : Stmt string :=
  if utf8_valid s && negb (has_byte NUL s) then mret s else mthrow (PgError "22021" "").

(** [INTEGER]: the driver refuses what does not fit 32 bits. *)
Definition int4_max : Z := 2 ^ 31 - 1.
Definition int4 (z : Z) : Stmt Z :=
  if (- 2 ^ 31 <=? z) && (z <=? int4_max) then mret z
  else mthrow (EForeign "pgtype" "greater than maximum value for int4" []).

Definition jsonb (s : string) : Stmt string :=
  match pg_jsonb s with Ok t => mret t | Err code => mthrow (PgError code "") end.
Definition not_null {A} (v : option A) : Stmt A :=
  match v with Some a => mret a | None => mthrow not_null_violation end.
Definition timestamptz (t : Time) : Stmt Time := mret (pg_timestamp t).

(** A parameter that may be [NULL]. *)
Definition nullable {A} (column : A → Stmt A) (v : option A) : Stmt (option A) :=
  match v with Some a => a ← column a; mret (Some a) | None => mret None end.

(** ** Constraints *)

Definition has_row {K A} `{Countable K} (table : gmap K A) (k : K) : bool :=
  bool_decide (is_Some (table !! k)).
Definition some_row {K A} `{Countable K} (p : A → bool) (table : gmap K A) : bool :=
  existsb p (map_to_list table).*2.

Definition unique (taken : bool) (constraint : string) : Stmt unit :=
  guard_err taken (unique_violation constraint).
Definition references {A} (table : gmap string A) (key constraint : string) : Stmt unit :=
  guard_err (negb (has_row table key)) (foreign_key_violation constraint).
Definition check (holds : bool) (constraint : string) : Stmt unit :=
  guard_err (negb holds) (check_violation constraint).

(** ** Exchanges *)

Definition this_db (w : Conn) : Database := default (cn_db w) (cn_tx w).
Definition trip (w : Conn) : Conn := MkConn (cn_db w) (cn_tx w) (S (cn_trips w)).
Definition put_db (d : Database) (w : Conn) : Conn :=
  match cn_tx w with
  | Some _ => MkConn (cn_db w) (Some d) (cn_trips w)
  | None => MkConn d None (cn_trips w)
  end.

(** [Exec], [Query] and [QueryRow(..).Scan]: one statement, in the open
    transaction or on its own. *)
Definition Exec {A} (ctx : Context) (stmt : Stmt A) : M Conn A := λ w,
  let performed := match stmt (this_db w) with
                   | (Ok _, d) => put_db d w
                   | (Err _, _) => w
                   end in
  match pg_trip ctx (cn_trips w) with
  | Some (err, false) => (Err err, trip w)
  | Some (err, true) => (Err err, trip performed)
  | None => ((stmt (this_db w)).1, trip performed)
  end.

(** A query whose result depends on the order of the scan. *)
Definition Query {A} (ctx : Context) (stmt : RangeOrder → Stmt A) : M Conn A := λ w,
  Exec ctx (stmt (pg_scan (cn_trips w))) w.

Definition Begin (ctx : Context) : M Conn unit := λ w,
  match pg_trip ctx (cn_trips w) with
  | Some (err, _) => (Err err, trip w)
  | None => (Ok tt, MkConn (cn_db w) (Some (cn_db w)) (S (cn_trips w)))
  end.

Definition Commit (ctx : Context) : M Conn unit := λ w,
  let committed := MkConn (this_db w) None (S (cn_trips w)) in
  match pg_trip ctx (cn_trips w) with
  | Some (err, false) => (Err err, trip w)
  | Some (err, true) => (Err err, committed)
  | None => (Ok tt, committed)
  end.

(** [defer tx.Rollback(ctx)]: the changes of a transaction that was not
    committed are forgotten, whatever the outcome of the rollback. *)
Definition defer_Rollback {A} (m : M Conn A) : M Conn A := λ w,
  let '(r, w') := m w in (r, MkConn (cn_db w') None (cn_trips w')).

(** [if err != nil { return f(err) }]. *)
Definition mapped {W A} (f : error → error) (m : M W A) : M W A := λ w,
  match m w with (Err e, w') => (Err (f e), w') | r => r end.

(** [SELECT .. FROM table WHERE p ORDER BY le]. *)
Definition select {A} (scan : RangeOrder) (table : gmap string A) (p : A → bool)
    (le : A → A → bool) : list A :=
  SortFunc le (filter (λ a, p a = true) (map_values scan table)).
Definition select_row {A} (rows : list A) : Stmt A :=
  match rows with row :: _ => mret row | [] => mthrow ErrNoRows end.

End server.
End Sql.
