(* ===== verification/Postgres.v ===== *)
(** [internal/storage/postgres/store.go]: the store of the registry, of the
    agents and of the rollouts over PostgreSQL.  A SQL statement is the
    definition named after it: its parameters in the order of [$1 .. $n], the
    types of their columns, the constraints of [src/migrations] in the order
    the server checks them, and its effect on the tables.  A row that is read
    has the columns of its [SELECT], which the [scan] functions take apart. *)

From Stdlib Require Import ZArith Lia.
From S2P Require Import Prelude GoLib Http Domain Guardrail Registry AgentRegistry Rollout Sql.
Import Domain Rollout Sql.
Open Scope string_scope.
Open Scope list_scope.
Open Scope Z_scope.

Module Postgres.

(** * Conversions *)

(** A nil raw message is the empty text. *)
(** [src/internal/storage/postgres/store.go:826-831] nullableJSON *)
Definition nullableJSON (value : RawMessage) : option string :=
  if empty_str value then None else Some value.

(** [src/internal/storage/postgres/store.go:833-838] nullableString *)
Definition nullableString (value : string) : option string :=
  if empty_str value then None else Some value.

(** [src/internal/storage/postgres/store.go:840-845] nullableTime *)
Definition nullableTime (value : Time) : option Time :=
  if time_IsZero value then None else Some value.

(** [src/internal/storage/postgres/store.go:847-856] jsonValue *)
Definition jsonValue {A} `{Codec A} (value : A) (fallback : string) : string :=
  match json_Marshal value with
  | Err _ => fallback
  | Ok encoded => if bool_decide (encoded = "null") then fallback else encoded
  end.

(** [src/internal/storage/postgres/store.go:858-863] durationSeconds *)
Definition durationSeconds (value : Duration) : Z :=
  if value <=? 0 then 0 else Z.quot value Second.

(** [src/internal/storage/postgres/store.go:865-886] mapError *)
Definition mapError (err : error) : error :=
  if errors_Is err ErrNoRows then ConfigRegistry.ErrNotFound
  else match as_PgError err with
       | Some (code, constraint) =>
           if bool_decide (code = "23505") then EWrap ConfigRegistry.ErrAlreadyExists "%s" [constraint]
           else if bool_decide (code = "23503") then EWrap ConfigRegistry.ErrNotFound "%s" [constraint]
           else if bool_decide (code = "23514") || bool_decide (code = "22P02")
           then EWrap ConfigRegistry.ErrInvalidInput "%s" [constraint]
           else err
       | None => err
       end.

(** [src/internal/storage/postgres/store.go:888-907] mapAgentError *)
Definition mapAgentError (err : error) : error :=
  if errors_Is err ErrNoRows then AgentRegistry.ErrNotFound
  else match as_PgError err with
       | Some (code, constraint) =>
           if bool_decide (code = "23503") then EWrap AgentRegistry.ErrNotFound "%s" [constraint]
           else if bool_decide (code = "23514") || bool_decide (code = "22P02")
           then EWrap AgentRegistry.ErrInvalidInput "%s" [constraint]
           else err
       | None => err
       end.

(** [src/internal/storage/postgres/store.go:909-930] mapRolloutError *)
Definition mapRolloutError (err : error) : error :=
  if errors_Is err ErrNoRows then Rollout.ErrNotFound
  else match as_PgError err with
       | Some (code, constraint) =>
           if bool_decide (code = "23505") then EWrap Rollout.ErrConflict "%s" [constraint]
           else if bool_decide (code = "23503") then EWrap Rollout.ErrNotFound "%s" [constraint]
           else if bool_decide (code = "23514") || bool_decide (code = "22P02")
           then EWrap Rollout.ErrInvalidInput "%s" [constraint]
           else err
       | None => err
       end.

(** The scan of [rows.Next()] until the end: [return nil, err] at the first
    row that cannot be scanned. *)
Fixpoint scan_rows {R A} (scan : R → res A) (rows : list R) : res (list A) :=
  match rows with
  | [] => mret []
  | row :: rest => a ← scan row; l ← scan_rows scan rest; mret (a :: l)
  end.

Definition environment_ok (e : string) : bool :=
  bool_decide (e ∈ ["development"; "staging"; "production"]).
Definition state_ok (s : string) : bool :=
  bool_decide (s ∈ ["PENDING"; "VALIDATING"; "READY"; "DEPLOYING"; "EVALUATING"; "PROMOTING";
                    "PAUSED"; "COMPLETED"; "ROLLING_BACK"; "ROLLED_BACK"; "FAILED"]).
Definition active_state (s : string) : bool :=
  bool_decide (s ∈ ["PENDING"; "VALIDATING"; "READY"; "DEPLOYING"; "EVALUATING"; "PROMOTING";
                    "PAUSED"; "ROLLING_BACK"]).

Section store.
Context `{Sql.Postgres}.
Abbreviation Stmt := (M Database).

(** * The pool *)

(** [pool.Ping(ctx)]. *)
(** [src/internal/storage/postgres/store.go:40-42] Store.Check *)
Definition Check (ctx : Context) : M Conn unit := Exec ctx (mret tt).

(** [pool] is the result of [pgxpool.New]; the store runs over its
    connections. *)
(** [src/internal/storage/postgres/store.go:24-34] NewStore *)
Definition NewStore (ctx : Context) (pool : res Conn) : res Conn :=
  pool ← pool;
  match Check ctx pool with
  | (Err err, _) => mthrow err
  | (Ok _, pool) => mret pool
  end.

(** * Tenants *)

(** [src/internal/storage/postgres/store.go:143-145] CreateTenant *)
Definition insert_tenant (id name description owner : string) (created_at updated_at : Time)
    : Stmt unit :=
  id ← text id; name ← text name; description ← text description; owner ← text owner;
  created_at ← timestamptz created_at; updated_at ← timestamptz updated_at;
  db ← get_world;
  unique (has_row (db_tenants db) id) "tenants_pkey";;
  modify (set_tenants (<[id := MkTenant id name description owner created_at updated_at]>
                         (db_tenants db))).

(** [src/internal/storage/postgres/store.go:141-147] Store.CreateTenant *)
Definition CreateTenant (ctx : Context) (tenant : Tenant) : M Conn unit :=
  mapped mapError
    (Exec ctx (insert_tenant (t_ID tenant) (t_Name tenant) (t_Description tenant) (t_Owner tenant)
                 (t_CreatedAt tenant) (t_UpdatedAt tenant))).

Definition tenant_columns (t : Tenant) : string * string * string * string * Time * Time :=
  (t_ID t, t_Name t, t_Description t, t_Owner t, t_CreatedAt t, t_UpdatedAt t).

(** [src/internal/storage/postgres/store.go:675-679] scanTenant *)
Definition scanTenant (row : string * string * string * string * Time * Time) : res Tenant :=
  let '(ID, Name, Description, Owner, CreatedAt, UpdatedAt) := row in
  mret (MkTenant ID Name Description Owner CreatedAt UpdatedAt).

(** [src/internal/storage/postgres/store.go:149-169] Store.ListTenants *)
Definition ListTenants (ctx : Context) : M Conn (list Tenant) :=
  rows ← mapped mapError (Query ctx (λ scan, db ← get_world;
    mret (tenant_columns <$> select scan (db_tenants db) (λ _, true)
                               (λ a b, pg_text_le (t_ID a) (t_ID b)))));
  lift (scan_rows scanTenant rows).

(** [src/internal/storage/postgres/store.go:171-180] Store.GetTenant *)
Definition GetTenant (ctx : Context) (tenantID : string) : M Conn Tenant :=
  row ← mapped mapError (mapped mapError (Query ctx (λ scan,
    tenantID ← text tenantID; db ← get_world;
    select_row (tenant_columns <$>
      select scan (db_tenants db) (λ t, bool_decide (t_ID t = tenantID)) (λ _ _, true)))));
  lift (scanTenant row).

(** * Definitions *)

(** [src/internal/storage/postgres/store.go:184-188] CreateDefinition *)
Definition insert_definition (id tenant_id config_key description schema : string)
    (default_value : option string) (created_at updated_at : Time) : Stmt unit :=
  id ← text id; tenant_id ← text tenant_id; config_key ← text config_key;
  description ← text description;
  schema ← (schema ← nullable jsonb (nullableJSON schema); not_null schema);
  default_value ← nullable jsonb default_value;
  created_at ← timestamptz created_at; updated_at ← timestamptz updated_at;
  db ← get_world;
  unique (has_row (db_definitions db) id) "config_definitions_pkey";;
  unique (some_row (λ d, bool_decide (dw_tenant_id d = tenant_id ∧ dw_config_key d = config_key))
            (db_definitions db)) "config_definitions_tenant_id_config_key_key";;
  references (db_tenants db) tenant_id "config_definitions_tenant_id_fkey";;
  modify (set_definitions
    (<[id := MkDefinitionRow id tenant_id config_key description schema default_value
               created_at updated_at]> (db_definitions db))).

(** [src/internal/storage/postgres/store.go:182-190] Store.CreateDefinition *)
Definition CreateDefinition (ctx : Context) (definition : ConfigDefinition) : M Conn unit :=
  mapped mapError
    (Exec ctx (insert_definition (d_ID definition) (d_TenantID definition) (d_Key definition)
                 (d_Description definition) (d_Schema definition)
                 (nullableJSON (d_DefaultValue definition))
                 (d_CreatedAt definition) (d_UpdatedAt definition))).

Definition definition_columns (d : DefinitionRow)
    : string * string * string * string * string * option string * Time * Time :=
  (dw_id d, dw_tenant_id d, dw_config_key d, dw_description d, dw_schema d,
   dw_default_value d, dw_created_at d, dw_updated_at d).

(** [src/internal/storage/postgres/store.go:681-694] scanDefinition *)
Definition scanDefinition
    (row : string * string * string * string * string * option string * Time * Time)
    : res ConfigDefinition :=
  let '(ID, TenantID, Key, Description, Schema, DefaultValue, CreatedAt, UpdatedAt) := row in
  mret (MkConfigDefinition ID TenantID Key Description Schema (default "" DefaultValue)
          CreatedAt UpdatedAt).

(** [src/internal/storage/postgres/store.go:192-213] Store.ListDefinitions *)
Definition ListDefinitions (ctx : Context) (tenantID : string) : M Conn (list ConfigDefinition) :=
  rows ← mapped mapError (Query ctx (λ scan,
    tenantID ← text tenantID; db ← get_world;
    mret (definition_columns <$>
      select scan (db_definitions db) (λ d, bool_decide (dw_tenant_id d = tenantID))
        (λ a b, pg_text_le (dw_config_key a) (dw_config_key b)))));
  lift (scan_rows scanDefinition rows).

(** [src/internal/storage/postgres/store.go:215-224] Store.GetDefinitionByKey *)
Definition GetDefinitionByKey (ctx : Context) (tenantID key : string) : M Conn ConfigDefinition :=
  row ← mapped mapError (mapped mapError (Query ctx (λ scan,
    tenantID ← text tenantID; key ← text key; db ← get_world;
    select_row (definition_columns <$>
      select scan (db_definitions db)
        (λ d, bool_decide (dw_tenant_id d = tenantID ∧ dw_config_key d = key)) (λ _ _, true)))));
  lift (scanDefinition row).

(** * Versions *)

(** [src/internal/storage/postgres/store.go:234-239] CreateVersion *)
Definition lock_definition (id : string) : Stmt string :=
  id ← text id; db ← get_world;
  match db_definitions db !! id with Some d => mret (dw_id d) | None => mthrow ErrNoRows end.

Definition versions_of (db : Database) (id : string) : list ConfigVersion :=
  filter (λ v, v_ConfigDefinitionID v = id) (map_to_list (db_versions db)).*2.
Definition max_of (l : list Z) : Z := foldr Z.max 0 l.

(** The result of an [INTEGER] addition. *)
Definition int4_sum (z : Z) : Stmt Z :=
  if z <=? int4_max then mret z else mthrow (PgError "22003" "").

(** [src/internal/storage/postgres/store.go:243-247] CreateVersion *)
Definition next_version_number (id : string) : Stmt Z :=
  id ← text id; db ← get_world;
  int4_sum (max_of (v_VersionNumber <$> versions_of db id) + 1).

(** [src/internal/storage/postgres/store.go:252-256] CreateVersion *)
Definition insert_version (id config_definition_id : string) (version_number : Z)
    (value source_commit_sha created_by : string) (created_at : Time) : Stmt unit :=
  id ← text id; config_definition_id ← text config_definition_id;
  version_number ← int4 version_number;
  value ← (value ← nullable jsonb (nullableJSON value); not_null value);
  source_commit_sha ← text source_commit_sha; created_by ← text created_by;
  created_at ← timestamptz created_at;
  db ← get_world;
  check (0 <? version_number) "config_versions_version_number_check";;
  unique (has_row (db_versions db) id) "config_versions_pkey";;
  unique (existsb (λ v, v_VersionNumber v =? version_number) (versions_of db config_definition_id))
    "config_versions_config_definition_id_version_number_key";;
  references (db_definitions db) config_definition_id "config_versions_config_definition_id_fkey";;
  modify (set_versions
    (<[id := MkConfigVersion id config_definition_id version_number value source_commit_sha
               created_by created_at]> (db_versions db))).

Definition set_number (version : ConfigVersion) (n : Z) : ConfigVersion :=
  MkConfigVersion (v_ID version) (v_ConfigDefinitionID version) n (v_Value version)
    (v_SourceCommitSHA version) (v_CreatedBy version) (v_CreatedAt version).

(** [src/internal/storage/postgres/store.go:226-264] Store.CreateVersion *)
Definition CreateVersion (ctx : Context) (version : ConfigVersion) : M Conn ConfigVersion :=
  mapped mapError (Begin ctx);;
  defer_Rollback (
    _ ← mapped mapError (Exec ctx (lock_definition (v_ConfigDefinitionID version)));
    n ← mapped mapError (Exec ctx (next_version_number (v_ConfigDefinitionID version)));
    let version := set_number version n in
    mapped mapError
      (Exec ctx (insert_version (v_ID version) (v_ConfigDefinitionID version)
                   (v_VersionNumber version) (v_Value version) (v_SourceCommitSHA version)
                   (v_CreatedBy version) (v_CreatedAt version)));;
    mapped mapError (Commit ctx);;
    mret version).

Definition version_columns (v : ConfigVersion) : string * string * Z * string * string * string * Time :=
  (v_ID v, v_ConfigDefinitionID v, v_VersionNumber v, v_Value v, v_SourceCommitSHA v,
   v_CreatedBy v, v_CreatedAt v).

(** [src/internal/storage/postgres/store.go:696-708] scanVersion *)
Definition scanVersion (row : string * string * Z * string * string * string * Time)
    : res ConfigVersion :=
  let '(ID, ConfigDefinitionID, VersionNumber, Value, SourceCommitSHA, CreatedBy, CreatedAt) := row in
  mret (MkConfigVersion ID ConfigDefinitionID VersionNumber Value SourceCommitSHA CreatedBy CreatedAt).

(** [src/internal/storage/postgres/store.go:266-287] Store.ListVersions *)
Definition ListVersions (ctx : Context) (configDefinitionID : string) : M Conn (list ConfigVersion) :=
  rows ← mapped mapError (Query ctx (λ scan,
    id ← text configDefinitionID; db ← get_world;
    mret (version_columns <$>
      select scan (db_versions db) (λ v, bool_decide (v_ConfigDefinitionID v = id))
        (λ a b, v_VersionNumber a <=? v_VersionNumber b))));
  lift (scan_rows scanVersion rows).

(** [src/internal/storage/postgres/store.go:289-298] Store.GetVersionByNumber *)
Definition GetVersionByNumber (ctx : Context) (configDefinitionID : string) (versionNumber : Z)
    : M Conn ConfigVersion :=
  row ← mapped mapError (mapped mapError (Query ctx (λ scan,
    id ← text configDefinitionID; n ← int4 versionNumber; db ← get_world;
    select_row (version_columns <$>
      select scan (db_versions db)
        (λ v, bool_decide (v_ConfigDefinitionID v = id ∧ v_VersionNumber v = n)) (λ _ _, true)))));
  lift (scanVersion row).

(** * Environment states *)

Definition optional_references {A} (table : gmap string A) (key : option string)
    (constraint : string) : Stmt unit :=
  match key with Some k => references table k constraint | None => mret tt end.

(** [src/internal/storage/postgres/store.go:302-311] SaveEnvironmentState *)
Definition upsert_state (config_definition_id environment : string)
    (stable_version_id : option string) (active_rollout_id : string) (updated_at : Time)
    : Stmt unit :=
  config_definition_id ← text config_definition_id; environment ← text environment;
  stable_version_id ← nullable text stable_version_id;
  active_rollout_id ← text active_rollout_id; updated_at ← timestamptz updated_at;
  db ← get_world;
  check (environment_ok environment) "config_environment_states_environment_check";;
  references (db_definitions db) config_definition_id
    "config_environment_states_config_definition_id_fkey";;
  optional_references (db_versions db) stable_version_id
    "config_environment_states_stable_version_id_fkey";;
  modify (set_states
    (<[(config_definition_id, environment) := MkStateRow config_definition_id environment
         stable_version_id active_rollout_id updated_at]> (db_states db))).

(** [src/internal/storage/postgres/store.go:300-313] Store.SaveEnvironmentState *)
Definition SaveEnvironmentState (ctx : Context) (state : ConfigEnvironmentState) : M Conn unit :=
  mapped mapError
    (Exec ctx (upsert_state (es_ConfigDefinitionID state) (es_Environment state)
                 (nullableString (es_StableVersionID state)) (es_ActiveRolloutID state)
                 (es_UpdatedAt state))).

Definition state_columns (s : StateRow) : string * string * option string * string * Time :=
  (sw_config_definition_id s, sw_environment s, sw_stable_version_id s,
   sw_active_rollout_id s, sw_updated_at s).

(** [src/internal/storage/postgres/store.go:710-726] scanEnvironmentState *)
Definition scanEnvironmentState (row : string * string * option string * string * Time)
    : res ConfigEnvironmentState :=
  let '(ConfigDefinitionID, environment, stableVersionID, ActiveRolloutID, UpdatedAt) := row in
  mret (MkConfigEnvironmentState ConfigDefinitionID environment
          (match stableVersionID with Some id => id | None => "" end) ActiveRolloutID UpdatedAt).

(** [src/internal/storage/postgres/store.go:315-324] Store.GetEnvironmentState *)
Definition GetEnvironmentState (ctx : Context) (configDefinitionID : string)
    (environment : Environment) : M Conn ConfigEnvironmentState :=
  row ← mapped mapError (mapped mapError (Exec ctx (
    id ← text configDefinitionID; environment ← text environment; db ← get_world;
    match db_states db !! (id, environment) with
    | Some s => mret (state_columns s)
    | None => mthrow ErrNoRows
    end)));
  lift (scanEnvironmentState row).

(** * Agents *)

Section agents.
Context `{Codec (gmap string string)}.

(** The registration time of a known agent is kept. *)
(** [src/internal/storage/postgres/store.go:51-61] SaveAgent *)
Definition upsert_agent (id service environment zone instance labels : string)
    (registered_at last_seen_at : Time) : Stmt unit :=
  id ← text id; service ← text service; environment ← text environment; zone ← text zone;
  instance ← text instance; labels ← jsonb labels;
  registered_at ← timestamptz registered_at; last_seen_at ← timestamptz last_seen_at;
  db ← get_world;
  check (environment_ok environment) "agents_environment_check";;
  let registered_at := match db_agents db !! id with
                       | Some a => aw_registered_at a
                       | None => registered_at
                       end in
  modify (set_agents
    (<[id := MkAgentRow id service environment zone instance labels registered_at last_seen_at]>
       (db_agents db))).

(** [src/internal/storage/postgres/store.go:44-63] Store.SaveAgent *)
Definition SaveAgent (ctx : Context) (agent : Agent) : M Conn unit :=
  match json_Marshal (a_Labels agent) with
  | Err _ => mthrow (EWrap AgentRegistry.ErrInvalidInput "labels" [])
  | Ok labels =>
      mapped mapAgentError
        (Exec ctx (upsert_agent (a_ID agent) (a_Service agent) (a_Environment agent)
                     (a_Zone agent) (a_Instance agent) labels
                     (a_RegisteredAt agent) (a_LastSeenAt agent)))
  end.

Definition agent_columns (a : AgentRow)
    : string * string * string * string * string * string * Time * Time :=
  (aw_id a, aw_service a, aw_environment a, aw_zone a, aw_instance a, aw_labels a,
   aw_registered_at a, aw_last_seen_at a).

(** [src/internal/storage/postgres/store.go:643-667] scanAgent *)
Definition scanAgent (row : string * string * string * string * string * string * Time * Time)
    : res Agent :=
  let '(ID, Service, environment, Zone, Instance, labels, RegisteredAt, LastSeenAt) := row in
  Labels ← (if empty_str labels then mret ∅ else json_Unmarshal labels);
  mret (MkAgent ID Service environment Zone Instance Labels RegisteredAt LastSeenAt).

Definition scan_agent_row (row : string * string * string * string * string * string * Time * Time)
    : M Conn Agent :=
  mapped mapAgentError (lift (scanAgent row)).

(** [src/internal/storage/postgres/store.go:65-74] Store.GetAgent *)
Definition GetAgent (ctx : Context) (agentID : string) : M Conn Agent :=
  row ← mapped mapAgentError (mapped mapAgentError (Query ctx (λ scan,
    agentID ← text agentID; db ← get_world;
    select_row (agent_columns <$>
      select scan (db_agents db) (λ a, bool_decide (aw_id a = agentID)) (λ _ _, true)))));
  scan_agent_row row.

(** [src/internal/storage/postgres/store.go:76-96] Store.ListAgents *)
Definition ListAgents (ctx : Context) : M Conn (list Agent) :=
  rows ← mapped mapAgentError (Query ctx (λ scan, db ← get_world;
    mret (agent_columns <$> select scan (db_agents db) (λ _, true)
                              (λ a b, pg_text_le (aw_id a) (aw_id b)))));
  lift (scan_rows scanAgent rows).

(** [src/internal/storage/postgres/store.go:100-102] SaveCredential *)
Definition insert_credential (token agent_id : string) (expires_at created_at : Time) : Stmt unit :=
  token ← text token; agent_id ← text agent_id;
  expires_at ← timestamptz expires_at; created_at ← timestamptz created_at;
  db ← get_world;
  unique (has_row (db_credentials db) token) "agent_credentials_pkey";;
  references (db_agents db) agent_id "agent_credentials_agent_id_fkey";;
  modify (set_credentials (<[token := MkAgentCredential token agent_id expires_at created_at]>
                             (db_credentials db))).

(** [src/internal/storage/postgres/store.go:98-104] Store.SaveCredential *)
Definition SaveCredential (ctx : Context) (credential : AgentCredential) : M Conn unit :=
  mapped mapAgentError
    (Exec ctx (insert_credential (c_Token credential) (c_AgentID credential)
                 (c_ExpiresAt credential) (c_CreatedAt credential))).

Definition credential_columns (c : AgentCredential) : string * string * Time * Time :=
  (c_Token c, c_AgentID c, c_ExpiresAt c, c_CreatedAt c).

(** [src/internal/storage/postgres/store.go:669-673] scanCredential *)
Definition scanCredential (row : string * string * Time * Time) : res AgentCredential :=
  let '(Token, AgentID, ExpiresAt, CreatedAt) := row in
  mret (MkAgentCredential Token AgentID ExpiresAt CreatedAt).

(** [src/internal/storage/postgres/store.go:106-115] Store.GetCredential *)
Definition GetCredential (ctx : Context) (token : string) : M Conn AgentCredential :=
  row ← mapped mapAgentError (mapped mapAgentError (Query ctx (λ scan,
    token ← text token; db ← get_world;
    select_row (credential_columns <$>
      select scan (db_credentials db) (λ c, bool_decide (c_Token c = token)) (λ _ _, true)))));
  lift (scanCredential row).

(** [src/internal/storage/postgres/store.go:119-123] TouchHeartbeat *)
Definition update_last_seen (id : string) (last_seen_at : Time) : Stmt AgentRow :=
  id ← text id; last_seen_at ← timestamptz last_seen_at;
  db ← get_world;
  match db_agents db !! id with
  | None => mthrow ErrNoRows
  | Some a =>
      let a := MkAgentRow (aw_id a) (aw_service a) (aw_environment a) (aw_zone a) (aw_instance a)
                 (aw_labels a) (aw_registered_at a) last_seen_at in
      modify (set_agents (<[id := a]> (db_agents db)));; mret a
  end.

(** [src/internal/storage/postgres/store.go:117-127] Store.TouchHeartbeat *)
Definition TouchHeartbeat (ctx : Context) (agentID : string) (seenAt : Time) : M Conn Agent :=
  a ← mapped mapAgentError (mapped mapAgentError (Exec ctx (update_last_seen agentID seenAt)));
  scan_agent_row (agent_columns a).

(** [src/internal/storage/postgres/store.go:131-137] SaveAcknowledgement *)
Definition insert_acknowledgement (id agent_id config_definition_id version_id : string)
    (snapshot_revision : Z) (counted : bool) (created_at : Time) : Stmt unit :=
  id ← text id; agent_id ← text agent_id; config_definition_id ← text config_definition_id;
  version_id ← text version_id; created_at ← timestamptz created_at;
  db ← get_world;
  check (0 <? snapshot_revision) "agent_acknowledgements_snapshot_revision_check";;
  if some_row (λ k, bool_decide (k_AgentID k = agent_id
                    ∧ k_ConfigDefinitionID k = config_definition_id
                    ∧ k_VersionID k = version_id ∧ k_SnapshotRevision k = snapshot_revision))
       (db_acknowledgements db)
  then mret tt
  else
    unique (has_row (db_acknowledgements db) id) "agent_acknowledgements_pkey";;
    references (db_agents db) agent_id "agent_acknowledgements_agent_id_fkey";;
    references (db_definitions db) config_definition_id
      "agent_acknowledgements_config_definition_id_fkey";;
    references (db_versions db) version_id "agent_acknowledgements_version_id_fkey";;
    modify (set_acknowledgements
      (<[id := MkAgentAcknowledgement id agent_id config_definition_id version_id
                 snapshot_revision counted created_at]> (db_acknowledgements db))).

(** [src/internal/storage/postgres/store.go:129-139] Store.SaveAcknowledgement *)
Definition SaveAcknowledgement (ctx : Context) (acknowledgement : AgentAcknowledgement)
    : M Conn unit :=
  mapped mapAgentError
    (Exec ctx (insert_acknowledgement (k_ID acknowledgement) (k_AgentID acknowledgement)
                 (k_ConfigDefinitionID acknowledgement) (k_VersionID acknowledgement)
                 (k_SnapshotRevision acknowledgement) (k_Counted acknowledgement)
                 (k_CreatedAt acknowledgement))).
End agents.

(** * Rollouts *)

Section rollouts.
Context `{Codec (list string), Codec (list Guardrail.Rule), Codec (gmap string Z)}.

(** The constraints of a row of [rollouts], apart from its identifier. *)
Definition check_rollout (r : RolloutRow) (db : Database) : Stmt unit :=
  check (0 <? rw_candidate_version_number r) "rollouts_candidate_version_number_check";;
  check (0 <=? rw_current_stage_index r) "rollouts_current_stage_index_check";;
  check (0 <=? rw_deployment_timeout_seconds r) "rollouts_deployment_timeout_seconds_check";;
  check (environment_ok (rw_environment r)) "rollouts_environment_check";;
  check (bool_decide (rw_rollback_status r ∈ [""; "VERIFIED"; "PARTIAL"]))
    "rollouts_rollback_status_check";;
  check (0 <=? rw_rollback_timeout_seconds r) "rollouts_rollback_timeout_seconds_check";;
  check (0 <=? rw_rollout_max_duration_seconds r) "rollouts_rollout_max_duration_seconds_check";;
  check (state_ok (rw_state r)) "rollouts_state_check".

(** The partial unique index: another active row of the definition and the
    environment. *)
Definition active_elsewhere (r : RolloutRow) (db : Database) : bool :=
  active_state (rw_state r) &&
  some_row (λ r', bool_decide (rw_id r' ≠ rw_id r)
                  && bool_decide (rw_config_definition_id r' = rw_config_definition_id r
                                  ∧ rw_environment r' = rw_environment r)
                  && active_state (rw_state r')) (db_rollouts db).

Definition rollout_references (r : RolloutRow) (db : Database) : Stmt unit :=
  references (db_tenants db) (rw_tenant_id r) "rollouts_tenant_id_fkey";;
  references (db_definitions db) (rw_config_definition_id r) "rollouts_config_definition_id_fkey";;
  references (db_versions db) (rw_stable_version_id r) "rollouts_stable_version_id_fkey";;
  references (db_versions db) (rw_candidate_version_id r) "rollouts_candidate_version_id_fkey".

(** The parameters [$1 .. $n] of the two statements that write a rollout. *)
(** [src/internal/storage/postgres/store.go:364-364] CreateRollout *)
Definition rollout_params (targetServices : string) (rollout : Rollout) : Stmt RolloutRow :=
  id ← text (r_ID rollout); tenant_id ← text (r_TenantID rollout);
  config_definition_id ← text (r_ConfigDefinitionID rollout);
  config_key ← text (r_ConfigKey rollout); environment ← text (r_Environment rollout);
  target_services ← jsonb targetServices;
  stable_version_id ← text (r_StableVersionID rollout);
  candidate_version_id ← text (r_CandidateVersionID rollout);
  candidate_version_number ← int4 (r_CandidateVersion rollout);
  state ← text (State_string (r_State rollout));
  current_stage_id ← text (r_CurrentStageID rollout);
  current_stage_index ← int4 (r_CurrentStageIndex rollout);
  guardrails ← jsonb (jsonValue (r_Guardrails rollout) "[]");
  guardrail_failures ← jsonb (jsonValue (r_GuardrailFailures rollout) "{}");
  stage_started_at ← timestamptz (r_StageStartedAt rollout);
  deployment_timeout_seconds ← int4 (durationSeconds (r_DeploymentTimeout rollout));
  rollout_max_duration_seconds ← int4 (durationSeconds (r_RolloutMaxDuration rollout));
  rollback_timeout_seconds ← int4 (durationSeconds (r_RollbackTimeout rollout));
  rollback_status ← text (RollbackStatus_string (r_RollbackStatus rollout));
  created_at ← timestamptz (r_CreatedAt rollout);
  updated_at ← timestamptz (r_UpdatedAt rollout);
  mret (MkRolloutRow id tenant_id config_definition_id config_key environment target_services
    stable_version_id candidate_version_id candidate_version_number state current_stage_id
    current_stage_index (r_RequiredAckPercent rollout) guardrails guardrail_failures
    stage_started_at deployment_timeout_seconds rollout_max_duration_seconds
    rollback_timeout_seconds rollback_status created_at updated_at).

(** [src/internal/storage/postgres/store.go:339-364] CreateRollout *)
Definition insert_rollout (targetServices : string) (rollout : Rollout) : Stmt unit :=
  row ← rollout_params targetServices rollout;
  db ← get_world;
  check_rollout row db;;
  unique (has_row (db_rollouts db) (rw_id row)) "rollouts_pkey";;
  unique (active_elsewhere row db) "one_active_rollout_per_config_environment";;
  rollout_references row db;;
  modify (set_rollouts (<[rw_id row := row]> (db_rollouts db))).

(** The constraints of a new row of [rollout_stages]. *)
Definition add_stage (row : StageRow) (db : Database) : Stmt unit :=
  check (0 <=? gw_minimum_duration_seconds row) "rollout_stages_minimum_duration_seconds_check";;
  check ((0 <? gw_percentage row) && (gw_percentage row <=? 100)) "rollout_stages_percentage_check";;
  check (0 <? gw_stage_order row) "rollout_stages_stage_order_check";;
  unique (has_row (db_stages db) (gw_id row)) "rollout_stages_pkey";;
  unique (some_row (λ g, bool_decide (gw_rollout_id g = gw_rollout_id row
                                      ∧ gw_stage_order g = gw_stage_order row)) (db_stages db))
    "rollout_stages_rollout_id_stage_order_key";;
  references (db_rollouts db) (gw_rollout_id row) "rollout_stages_rollout_id_fkey";;
  modify (set_stages (<[gw_id row := row]> (db_stages db))).

(** [src/internal/storage/postgres/store.go:371-375] CreateRollout *)
Definition insert_stage (id rollout_id : string) (stage_order percentage seconds : Z) : Stmt unit :=
  id ← text id; rollout_id ← text rollout_id; stage_order ← int4 stage_order;
  percentage ← int4 percentage; seconds ← int4 seconds;
  db ← get_world;
  add_stage (MkStageRow id rollout_id stage_order percentage seconds) db.

(** [src/internal/storage/postgres/store.go:369-379] CreateRollout *)
Fixpoint insert_stages (ctx : Context) (rolloutID : string) (i : Z) (stages : list Stage)
    : M Conn unit :=
  match stages with
  | [] => mret tt
  | stage :: rest =>
      mapped mapRolloutError
        (Exec ctx (insert_stage (s_ID stage) rolloutID (i + 1) (s_Percentage stage)
                     (durationSeconds (s_MinimumDuration stage))));;
      insert_stages ctx rolloutID (i + 1) rest
  end.

(** [src/internal/storage/postgres/store.go:326-385] Store.CreateRollout *)
Definition CreateRollout (ctx : Context) (rollout : Rollout) (stages : list Stage)
    : M Conn unit :=
  match json_Marshal (r_TargetServices rollout) with
  | Err _ => mthrow (EWrap Rollout.ErrInvalidInput "target services" [])
  | Ok targetServices =>
      mapped mapRolloutError (Begin ctx);;
      defer_Rollback (
        mapped mapRolloutError (Exec ctx (insert_rollout targetServices rollout));;
        insert_stages ctx (r_ID rollout) 0 stages;;
        mapped mapRolloutError (Commit ctx))
  end.

(** The text of a rollout's row, in the order of the select list. *)
(** [src/internal/storage/postgres/store.go:588-615] rolloutSelectSQL *)
Definition rollout_columns (r : RolloutRow) :=
  (rw_id r, rw_tenant_id r, rw_config_definition_id r, rw_config_key r, rw_environment r,
   rw_target_services r, rw_stable_version_id r, rw_candidate_version_id r,
   rw_candidate_version_number r, rw_state r, rw_current_stage_id r, rw_current_stage_index r,
   rw_required_ack_percentage r, rw_guardrails r, rw_guardrail_failures r,
   rw_stage_started_at r, rw_deployment_timeout_seconds r, rw_rollout_max_duration_seconds r,
   rw_rollback_timeout_seconds r, rw_rollback_status r, rw_created_at r, rw_updated_at r).

(** The constant of a text the [CHECK] constraint allows. *)
Definition State_of (s : string) : State :=
  match list_find (λ st, State_string st = s)
          [StatePending; StateValidating; StateReady; StateDeploying; StateEvaluating;
           StatePromoting; StatePaused; StateCompleted; StateRollingBack; StateRolledBack;
           StateFailed] with
  | Some (_, st) => st
  | None => StateUnset
  end.
Definition RollbackStatus_of (s : string) : RollbackStatus :=
  if bool_decide (s = "VERIFIED") then RollbackStatusVerified
  else if bool_decide (s = "PARTIAL") then RollbackStatusPartial else RollbackStatusNone.

(** [if len(data) > 0 { json.Unmarshal(data, &field) }] into a zero field. *)
Definition unmarshal_field {A} `{Codec A} (zero : A) (data : string) : res A :=
  if empty_str data then mret zero else json_Unmarshal data.

(** [src/internal/storage/postgres/store.go:728-788] scanRollout *)
Definition scanRollout (row : string * string * string * string * string * string * string
    * string * Z * string * string * Z * float64 * string * string * Time * Z * Z * Z * string
    * Time * Time) : res Rollout :=
  let '(ID, TenantID, ConfigDefinitionID, ConfigKey, environment, targetServices,
        StableVersionID, CandidateVersionID, CandidateVersion, state, CurrentStageID,
        CurrentStageIndex, RequiredAckPercent, guardrails, guardrailFailures, StageStartedAt,
        deploymentTimeoutSeconds, rolloutMaxDurationSeconds, rollbackTimeoutSeconds,
        rollbackStatus, CreatedAt, UpdatedAt) := row in
  TargetServices ← unmarshal_field [] targetServices;
  Guardrails ← unmarshal_field [] guardrails;
  GuardrailFailures ← unmarshal_field ∅ guardrailFailures;
  mret (MkRollout ID ConfigDefinitionID TenantID ConfigKey environment TargetServices
    StableVersionID CandidateVersionID CandidateVersion (State_of state) CurrentStageID
    CurrentStageIndex RequiredAckPercent Guardrails GuardrailFailures StageStartedAt
    (int64_wrap (deploymentTimeoutSeconds * Second))
    (int64_wrap (rolloutMaxDurationSeconds * Second))
    (int64_wrap (rollbackTimeoutSeconds * Second))
    (RollbackStatus_of rollbackStatus) CreatedAt UpdatedAt).

Definition scan_rollout_row row : M Conn Rollout := mapped mapRolloutError (lift (scanRollout row)).

(** [src/internal/storage/postgres/store.go:387-394] Store.GetRollout *)
Definition GetRollout (ctx : Context) (rolloutID : string) : M Conn Rollout :=
  row ← mapped mapRolloutError (mapped mapRolloutError (Query ctx (λ scan,
    id ← text rolloutID; db ← get_world;
    select_row (rollout_columns <$>
      select scan (db_rollouts db) (λ r, bool_decide (rw_id r = id)) (λ _ _, true)))));
  scan_rollout_row row.

(** [src/internal/storage/postgres/store.go:396-407] Store.GetActiveRollout *)
Definition GetActiveRollout (ctx : Context) (configDefinitionID environment : string)
    : M Conn Rollout :=
  row ← mapped mapRolloutError (mapped mapRolloutError (Query ctx (λ scan,
    id ← text configDefinitionID; environment ← text environment; db ← get_world;
    select_row (rollout_columns <$>
      select scan (db_rollouts db)
        (λ r, bool_decide (rw_config_definition_id r = id ∧ rw_environment r = environment)
              && active_state (rw_state r))
        (λ a b, rw_created_at b <=? rw_created_at a)))));
  scan_rollout_row row.

(** [src/internal/storage/postgres/store.go:409-428] Store.ListActiveRollouts *)
Definition ListActiveRollouts (ctx : Context) : M Conn (list Rollout) :=
  rows ← mapped mapRolloutError (Query ctx (λ scan, db ← get_world;
    mret (rollout_columns <$>
      select scan (db_rollouts db) (λ r, active_state (rw_state r))
        (λ a b, rw_created_at a <=? rw_created_at b))));
  lift (scan_rows scanRollout rows).

Definition keep_created (created_at : Time) (r : RolloutRow) : RolloutRow :=
  MkRolloutRow (rw_id r) (rw_tenant_id r) (rw_config_definition_id r) (rw_config_key r)
    (rw_environment r) (rw_target_services r) (rw_stable_version_id r)
    (rw_candidate_version_id r) (rw_candidate_version_number r) (rw_state r)
    (rw_current_stage_id r) (rw_current_stage_index r) (rw_required_ack_percentage r)
    (rw_guardrails r) (rw_guardrail_failures r) (rw_stage_started_at r)
    (rw_deployment_timeout_seconds r) (rw_rollout_max_duration_seconds r)
    (rw_rollback_timeout_seconds r) (rw_rollback_status r) created_at (rw_updated_at r).

(** The number of rows updated; [created_at] is not among the columns set. *)
(** [src/internal/storage/postgres/store.go:437-459] UpdateRollout *)
Definition update_rollout (targetServices : string) (rollout : Rollout) : Stmt Z :=
  row ← rollout_params targetServices rollout;
  db ← get_world;
  match db_rollouts db !! rw_id row with
  | None => mret 0
  | Some old =>
      let row := keep_created (rw_created_at old) row in
      check_rollout row db;;
      unique (active_elsewhere row db) "one_active_rollout_per_config_environment";;
      rollout_references row db;;
      modify (set_rollouts (<[rw_id row := row]> (db_rollouts db)));;
      mret 1
  end.

(** [src/internal/storage/postgres/store.go:430-467] Store.UpdateRollout *)
Definition UpdateRollout (ctx : Context) (rollout : Rollout) : M Conn unit :=
  match json_Marshal (r_TargetServices rollout) with
  | Err _ => mthrow (EWrap Rollout.ErrInvalidInput "target services" [])
  | Ok targetServices =>
      affected ← mapped mapRolloutError (Exec ctx (update_rollout targetServices rollout));
      guard_err (affected =? 0) Rollout.ErrNotFound
  end.

(** * Stages and targets *)

Definition stage_columns (g : StageRow) : string * Z * Z :=
  (gw_id g, gw_percentage g, gw_minimum_duration_seconds g).

(** [src/internal/storage/postgres/store.go:790-799] scanStage *)
Definition scanStage (row : string * Z * Z) : res Stage :=
  let '(ID, Percentage, minimumDurationSeconds) := row in
  mret (MkStage ID Percentage (int64_wrap (minimumDurationSeconds * Second))).

(** [src/internal/storage/postgres/store.go:469-490] Store.ListStages *)
Definition ListStages (ctx : Context) (rolloutID : string) : M Conn (list Stage) :=
  rows ← mapped mapRolloutError (Query ctx (λ scan,
    id ← text rolloutID; db ← get_world;
    mret (stage_columns <$>
      select scan (db_stages db) (λ g, bool_decide (gw_rollout_id g = id))
        (λ a b, gw_stage_order a <=? gw_stage_order b))));
  lift (scan_rows scanStage rows).

Definition stages_of (db : Database) (rollout_id : string) : list StageRow :=
  filter (λ g, gw_rollout_id g = rollout_id) (map_to_list (db_stages db)).*2.

(** [src/internal/storage/postgres/store.go:494-506] SaveStage *)
Definition upsert_stage (id rollout_id : string) (percentage seconds : Z) : Stmt unit :=
  id ← text id; rollout_id ← text rollout_id; percentage ← int4 percentage; seconds ← int4 seconds;
  db ← get_world;
  stage_order ← int4_sum (max_of (gw_stage_order <$> stages_of db rollout_id) + 1);
  let row := MkStageRow id rollout_id stage_order percentage seconds in
  if has_row (db_stages db) id
     && (0 <=? seconds) && (0 <? percentage) && (percentage <=? 100)
  then mret tt else add_stage row db.

(** [src/internal/storage/postgres/store.go:492-508] Store.SaveStage *)
Definition SaveStage (ctx : Context) (rolloutID : string) (stage : Stage) : M Conn unit :=
  mapped mapRolloutError
    (Exec ctx (upsert_stage (s_ID stage) rolloutID (s_Percentage stage)
                 (durationSeconds (s_MinimumDuration stage)))).

Definition TargetStatus_string (s : TargetStatus) : string :=
  match s with TargetPending => "PENDING" | TargetAcked => "ACKED" end.
Definition TargetStatus_of (s : string) : TargetStatus :=
  if bool_decide (s = "ACKED") then TargetAcked else TargetPending.

(** [src/internal/storage/postgres/store.go:619-639] insertStageTarget *)
Definition upsert_target (rollout_id stage_id agent_id : string) (bucket : Z)
    (expected_version_id : string) (snapshot_revision : Z) (status : string)
    (created_at : Time) (acked_at : option Time) : Stmt unit :=
  rollout_id ← text rollout_id; stage_id ← text stage_id; agent_id ← text agent_id;
  bucket ← int4 bucket; expected_version_id ← text expected_version_id; status ← text status;
  created_at ← timestamptz created_at; acked_at ← nullable timestamptz acked_at;
  db ← get_world;
  check ((0 <=? bucket) && (bucket <? 10000)) "rollout_stage_targets_bucket_check";;
  check (0 <? snapshot_revision) "rollout_stage_targets_snapshot_revision_check";;
  check (bool_decide (status ∈ ["PENDING"; "ACKED"])) "rollout_stage_targets_status_check";;
  references (db_rollouts db) rollout_id "rollout_stage_targets_rollout_id_fkey";;
  references (db_stages db) stage_id "rollout_stage_targets_stage_id_fkey";;
  references (db_agents db) agent_id "rollout_stage_targets_agent_id_fkey";;
  references (db_versions db) expected_version_id "rollout_stage_targets_expected_version_id_fkey";;
  modify (set_targets
    (<[(rollout_id, stage_id, agent_id) := MkTargetRow rollout_id stage_id agent_id bucket
         expected_version_id snapshot_revision status created_at acked_at]> (db_targets db))).

(** The pool and a transaction run the statement alike. *)
(** [src/internal/storage/postgres/store.go:617-641] insertStageTarget *)
Definition insertStageTarget (ctx : Context) (target : StageTarget) : M Conn unit :=
  mapped mapRolloutError
    (Exec ctx (upsert_target (st_RolloutID target) (st_StageID target) (st_AgentID target)
                 (st_Bucket target) (st_ExpectedVersionID target) (st_SnapshotRevision target)
                 (TargetStatus_string (st_Status target)) (st_CreatedAt target)
                 (nullableTime (st_AckedAt target)))).

(** [src/internal/storage/postgres/store.go:510-517] Store.SaveStageTargets *)
Definition SaveStageTargets (ctx : Context) (targets : list StageTarget) : M Conn unit :=
  for_each targets (insertStageTarget ctx).

(** [src/internal/storage/postgres/store.go:527-529] ReplaceStageTargets *)
Definition delete_targets (rollout_id stage_id : string) : Stmt unit :=
  rollout_id ← text rollout_id; stage_id ← text stage_id;
  db ← get_world;
  modify (set_targets
    (filter (λ kt, ¬ (tw_rollout_id kt.2 = rollout_id ∧ tw_stage_id kt.2 = stage_id))
       (db_targets db))).

(** [src/internal/storage/postgres/store.go:519-543] Store.ReplaceStageTargets *)
Definition ReplaceStageTargets (ctx : Context) (rolloutID stageID : string)
    (targets : list StageTarget) : M Conn unit :=
  mapped mapRolloutError (Begin ctx);;
  defer_Rollback (
    mapped mapRolloutError (Exec ctx (delete_targets rolloutID stageID));;
    for_each targets (insertStageTarget ctx);;
    mapped mapRolloutError (Commit ctx)).

Definition target_columns (t : TargetRow)
    : string * string * string * Z * string * Z * Time * option Time * string :=
  (tw_rollout_id t, tw_stage_id t, tw_agent_id t, tw_bucket t, tw_expected_version_id t,
   tw_snapshot_revision t, tw_created_at t, tw_acked_at t, tw_status t).

(** [src/internal/storage/postgres/store.go:801-824] scanStageTarget *)
Definition scanStageTarget
    (row : string * string * string * Z * string * Z * Time * option Time * string)
    : res StageTarget :=
  let '(RolloutID, StageID, AgentID, Bucket, ExpectedVersionID, SnapshotRevision, CreatedAt,
        ackedAt, status) := row in
  mret (MkStageTarget RolloutID StageID AgentID Bucket ExpectedVersionID SnapshotRevision
          CreatedAt (match ackedAt with Some t => t | None => 0 end) (TargetStatus_of status)).

Definition target_le (a b : TargetRow) : bool :=
  if tw_bucket a =? tw_bucket b then pg_text_le (tw_agent_id a) (tw_agent_id b)
  else tw_bucket a <=? tw_bucket b.
Definition targets_of (db : Database) (rollout_id stage_id : string) : list TargetRow :=
  filter (λ t, tw_rollout_id t = rollout_id ∧ tw_stage_id t = stage_id)
    (map_to_list (db_targets db)).*2.

(** [src/internal/storage/postgres/store.go:545-566] Store.ListStageTargets *)
Definition ListStageTargets (ctx : Context) (rolloutID stageID : string)
    : M Conn (list StageTarget) :=
  rows ← mapped mapRolloutError (Exec ctx (
    rollout_id ← text rolloutID; stage_id ← text stageID; db ← get_world;
    mret (target_columns <$> SortFunc target_le (targets_of db rollout_id stage_id))));
  lift (scan_rows scanStageTarget rows).

(** [src/internal/storage/postgres/store.go:570-570] NextSnapshotRevision *)
Definition nextval : Stmt Z :=
  db ← get_world;
  guard_err (int64_max <? db_revision db) (PgError "2200H" "");;
  modify (set_revision (db_revision db + 1));;
  mret (db_revision db).

(** [src/internal/storage/postgres/store.go:568-574] Store.NextSnapshotRevision *)
Definition NextSnapshotRevision (ctx : Context) : M Conn Z :=
  mapped mapRolloutError (Exec ctx nextval).
End rollouts.
End store.
End Postgres.
