(* ===== verification/PostgresFacts.v ===== *)
(** Reasoning about the statements of the PostgreSQL store: what a statement
    that succeeds has done, what an exchange or a transaction leaves behind,
    and the constraints of the schema as an invariant of the database. *)

From Stdlib Require Import ZArith Lia.
From S2P Require Import Prelude GoLib Host Http Domain Guardrail Registry AgentRegistry Rollout Sql Postgres.
Import Domain Rollout Sql Postgres.
Open Scope string_scope.
Open Scope list_scope.
Open Scope Z_scope.

Module PostgresFacts.

(** * What the server promises *)

(** The error of an interrupted exchange: it is none of those the store gives
    a meaning to. *)
Definition interruption (e : error) : Prop :=
  errors_Is e ErrNoRows = false ∧
  (∀ code constraint, as_PgError e = Some (code, constraint) →
     code ∉ ["23505"; "23503"; "23514"; "22P02"]) ∧
  errors_Is e ConfigRegistry.ErrNotFound = false ∧
  errors_Is e AgentRegistry.ErrNotFound = false ∧
  errors_Is e Rollout.ErrNotFound = false ∧ errors_Is e Rollout.ErrConflict = false.

(** A scan returns the rows it should, in some order; the collation orders
    texts; a timestamp is kept to the microsecond. *)
Class PostgresLaws `{Sql.Postgres} := {
  pg_scan_ok : ∀ n, range_ok (pg_scan n);
  pg_text_refl : ∀ a b, pg_text_le a b = true ∨ pg_text_le b a = true;
  pg_text_trans : ∀ a b c, pg_text_le a b = true → pg_text_le b c = true → pg_text_le a c = true;
  pg_text_antisym : ∀ a b, pg_text_le a b = true → pg_text_le b a = true → a = b;
  pg_timestamp_zero : pg_timestamp 0 = 0;
  pg_timestamp_near : ∀ t, pg_timestamp t ≤ t < pg_timestamp t + 1000;
  pg_timestamp_idem : ∀ t, pg_timestamp (pg_timestamp t) = pg_timestamp t;
  pg_trip_interruption : ∀ ctx n e b, pg_trip ctx n = Some (e, b) → interruption e }.

(** * Statements

    [yields stmt P d]: if [stmt] succeeds on [d], its result and the database
    it leaves satisfy [P]. *)

Definition yields {A} (stmt : M Database A) (P : A → Database → Prop) (d : Database) : Prop :=
  ∀ a d', stmt d = (Ok a, d') → P a d'.

Section yields.
Context `{Sql.Postgres}.

Lemma yields_ret {A} (a : A) (P : A → Database → Prop) d : P a d → yields (mret a) P d.
Proof. intros HP a' d' [= <- <-]. done. Qed.
Lemma yields_throw {A} (e : error) (P : A → Database → Prop) d : yields (mthrow e) P d.
Proof. intros a d' Heq. done. Qed.
Lemma yields_bind {A B} (m : M Database A) (k : A → M Database B) P d :
  yields m (λ a d', yields (k a) P d') d → yields (m ≫= k) P d.
Proof.
  intros Hm b d'. unfold mbind, M_bind. destruct (m d) as [[a|e] d1] eqn:Hd; [|done].
  apply (Hm a d1 Hd).
Qed.
Lemma yields_mono {A} (m : M Database A) (P P' : A → Database → Prop) d :
  yields m P d → (∀ a d', P a d' → P' a d') → yields m P' d.
Proof. intros Hm HP a d' Heq. by apply HP, Hm. Qed.
Lemma yields_guard c (e : error) (P : unit → Database → Prop) d :
  (c = false → P tt d) → yields (guard_err c e) P d.
Proof. destruct c; [by intros _ ? ?|]. intros HP [] d' [= <-]. by apply HP. Qed.
Lemma yields_get (P : Database → Database → Prop) d : P d d → yields get_world P d.
Proof. intros HP a d' [= <- <-]. done. Qed.
Lemma yields_modify f (P : unit → Database → Prop) d : P tt (f d) → yields (modify f) P d.
Proof. intros HP a d' [= <- <-]. done. Qed.

Definition text_ok (s : string) : bool := utf8_valid s && negb (has_byte NUL s).
Lemma yields_text s P d : (text_ok s = true → P s d) → yields (text s) P d.
Proof. unfold text, text_ok. destruct (_ && _); [|by intros _ ? ?]. intros HP. by apply yields_ret, HP. Qed.
Lemma yields_int4 z P d : (- 2 ^ 31 ≤ z ≤ int4_max → P z d) → yields (int4 z) P d.
Proof.
  unfold int4. destruct ((- 2 ^ 31 <=? z) && (z <=? int4_max)) eqn:Hz; [|by intros _ ? ?].
  intros HP. apply yields_ret, HP. unfold int4_max in *. lia.
Qed.
Lemma yields_int4_sum z P d : (z ≤ int4_max → P z d) → yields (int4_sum z) P d.
Proof.
  unfold int4_sum. destruct (z <=? int4_max) eqn:Hz; [|by intros _ ? ?].
  intros HP. apply yields_ret, HP. lia.
Qed.
Lemma yields_jsonb s P d : (∀ t, pg_jsonb s = Ok t → P t d) → yields (jsonb s) P d.
Proof. unfold jsonb. destruct (pg_jsonb s); [|by intros _ ? ?]. intros HP. by apply yields_ret, HP. Qed.
Lemma yields_timestamptz t P d : P (pg_timestamp t) d → yields (timestamptz t) P d.
Proof. apply yields_ret. Qed.
Lemma yields_not_null {A} (v : option A) P d :
  (∀ a, v = Some a → P a d) → yields (not_null v) P d.
Proof. destruct v; intros HP; [by apply yields_ret, HP|by intros ? ?]. Qed.
Lemma yields_nullable {A} (column : A → M Database A) v P d :
  (v = None → P None d) → (∀ a, v = Some a → yields (column a) (λ a' d', P (Some a') d') d) →
  yields (nullable column v) P d.
Proof.
  destruct v as [a|]; intros HN HS; [|by apply yields_ret, HN].
  apply yields_bind. eapply yields_mono; [by apply HS|]. intros a' d' HP. by apply yields_ret.
Qed.
Lemma yields_unique taken c P d : (taken = false → P tt d) → yields (unique taken c) P d.
Proof. apply yields_guard. Qed.
Lemma yields_check holds c P d : (holds = true → P tt d) → yields (check holds c) P d.
Proof. intros HP. apply yields_guard. intros Hc. by apply HP, negb_false_iff. Qed.
Lemma yields_references {A} (table : gmap string A) key c P d :
  (is_Some (table !! key) → P tt d) → yields (references table key c) P d.
Proof.
  intros HP. apply yields_guard. intros Hc%negb_false_iff.
  apply HP. by apply bool_decide_eq_true in Hc.
Qed.
Lemma yields_optional_references {A} (table : gmap string A) key c P d :
  (match key with Some k => is_Some (table !! k) | None => True end → P tt d) →
  yields (optional_references table key c) P d.
Proof. destruct key; [apply yields_references|]. intros HP. by apply yields_ret, HP. Qed.
Lemma yields_select_row {A} (l : list A) P d :
  (∀ a l', l = a :: l' → P a d) → yields (select_row l) P d.
Proof. destruct l as [|a l]; intros HP; [by intros ? ?|]. by eapply yields_ret, HP. Qed.
Lemma yields_if {A} (b : bool) (m1 m2 : M Database A) P d :
  (b = true → yields m1 P d) → (b = false → yields m2 P d) → yields (if b then m1 else m2) P d.
Proof. destruct b; auto. Qed.
End yields.

Ltac yields_step :=
  lazymatch goal with
  | |- yields (mbind _ _) _ _ => apply yields_bind
  | |- yields (mret _) _ _ => apply yields_ret
  | |- yields (mthrow _) _ _ => apply yields_throw
  | |- yields get_world _ _ => apply yields_get
  | |- yields (modify _) _ _ => apply yields_modify
  | |- yields (text _) _ _ => apply yields_text; intros ?
  | |- yields (int4 _) _ _ => apply yields_int4; intros ?
  | |- yields (int4_sum _) _ _ => apply yields_int4_sum; intros ?
  | |- yields (jsonb _) _ _ => apply yields_jsonb; intros ? ?
  | |- yields (timestamptz _) _ _ => apply yields_timestamptz
  | |- yields (not_null _) _ _ => apply yields_not_null; intros ? ?; try discriminate
  | |- yields (nullable _ _) _ _ => apply yields_nullable; intros
  | |- yields (unique _ _) _ _ => apply yields_unique; intros ?
  | |- yields (check _ _) _ _ => apply yields_check; intros ?
  | |- yields (references _ _ _) _ _ => apply yields_references; intros ?
  | |- yields (optional_references _ _ _) _ _ => apply yields_optional_references; intros ?
  | |- yields (select_row _) _ _ => apply yields_select_row; intros ? ? ?
  | |- yields (guard_err _ _) _ _ => apply yields_guard; intros ?
  | |- yields (if _ then _ else _) _ _ => apply yields_if; intros ?
  | |- yields (match ?x with _ => _ end) _ _ => destruct x eqn:?
  end.
Ltac yields_run := repeat (cbv beta zeta; yields_step).

(** * Exchanges and transactions *)

Section conn.
Context `{Sql.Postgres}.

Lemma wp_Exec {A} ctx (stmt : M Database A) (Q : res A → Conn → Prop) w :
  (∀ err b, pg_trip ctx (cn_trips w) = Some (err, b) → Q (Err err) (trip w)) →
  (∀ err a d, pg_trip ctx (cn_trips w) = Some (err, true) → stmt (this_db w) = (Ok a, d) →
     Q (Err err) (trip (put_db d w))) →
  (∀ a d, stmt (this_db w) = (Ok a, d) → Q (Ok a) (trip (put_db d w))) →
  (∀ e d, stmt (this_db w) = (Err e, d) → Q (Err e) (trip w)) → wp (Exec ctx stmt) Q w.
Proof.
  intros H1 H2 H3 H4. unfold wp, Exec.
  destruct (pg_trip ctx (cn_trips w)) as [[err b]|] eqn:Ht;
    destruct (stmt (this_db w)) as [[a|e] d] eqn:Hs; cbn [fst snd];
    try (destruct b; cbn [fst snd]); eauto.
Qed.

Lemma wp_mapped {W A} f (m : M W A) (Q : res A → W → Prop) w :
  wp m (λ r w', Q (match r with Err e => Err (f e) | r => r end) w') w → wp (mapped f m) Q w.
Proof. unfold wp, mapped. by destruct (m w) as [[a|e] w']. Qed.

(** No exchange of the operation is interrupted. *)
Definition uninterrupted (ctx : Context) : Prop := ∀ n, pg_trip ctx n = None.

Lemma Exec_runs {A} ctx (stmt : M Database A) w a d :
  uninterrupted ctx → stmt (this_db w) = (Ok a, d) → Exec ctx stmt w = (Ok a, trip (put_db d w)).
Proof. intros Hc Hs. unfold Exec. by rewrite Hc, Hs. Qed.
Lemma Exec_fails {A} ctx (stmt : M Database A) w e d :
  uninterrupted ctx → stmt (this_db w) = (Err e, d) → Exec ctx stmt w = (Err e, trip w).
Proof. intros Hc Hs. unfold Exec. by rewrite Hc, Hs. Qed.

(** ** What is kept *)

(** [P] holds of the committed database and of the open transaction's. *)
Definition conn_inv (P : Database → Prop) (w : Conn) : Prop :=
  P (cn_db w) ∧ ∀ d, cn_tx w = Some d → P d.
Definition keeps_rows {A} (P : Database → Prop) (stmt : M Database A) : Prop :=
  ∀ d, P d → yields stmt (λ _ d', P d') d.

Lemma conn_inv_this P w : conn_inv P w → P (this_db w).
Proof. intros [Hd Ht]. unfold this_db. destruct (cn_tx w); simpl; auto. Qed.
Lemma conn_inv_put P d w : conn_inv P w → P d → conn_inv P (put_db d w).
Proof.
  intros [Hd Ht] HP. unfold put_db. destruct (cn_tx w); split; simpl; try done.
  by intros ? [= <-].
Qed.

Lemma keep_Exec {A} P ctx (stmt : M Database A) :
  keeps_rows P stmt → preserves (conn_inv P) (Exec ctx stmt).
Proof.
  intros Hs w Hw. apply (wp_Exec ctx stmt (λ _ w', conn_inv P w')); try done.
  - intros err a d _ Heq. apply conn_inv_put; [done|]. by eapply (Hs _ (conn_inv_this _ _ Hw)).
  - intros a d Heq. apply (conn_inv_put P d w Hw). by eapply (Hs _ (conn_inv_this _ _ Hw)).
Qed.
Lemma keep_Query {A} P ctx (stmt : RangeOrder → M Database A) :
  (∀ scan, keeps_rows P (stmt scan)) → preserves (conn_inv P) (Query ctx stmt).
Proof. intros Hs w. by apply keep_Exec. Qed.
Lemma keep_Begin P ctx : preserves (conn_inv P) (Begin ctx).
Proof.
  intros w [Hd Ht]. unfold Begin. destruct (pg_trip _ _) as [[]|]; split; simpl; try done.
  by intros ? [= <-].
Qed.
Lemma keep_Commit P ctx : preserves (conn_inv P) (Commit ctx).
Proof.
  intros w Hw. pose proof (conn_inv_this _ _ Hw). unfold Commit.
  destruct (pg_trip _ _) as [[e []]|]; simpl; [by split|exact Hw|by split].
Qed.
Lemma keep_defer {A} P (m : M Conn A) :
  preserves (conn_inv P) m → preserves (conn_inv P) (defer_Rollback m).
Proof.
  intros Hm w Hw. specialize (Hm w Hw). unfold defer_Rollback.
  destruct (m w) as [r w']. split; simpl; [exact (proj1 Hm)|done].
Qed.
Lemma keep_mapped {W A} (P : W → Prop) f (m : M W A) :
  preserves P m → preserves P (mapped f m).
Proof. intros Hm w Hw. specialize (Hm w Hw). unfold mapped. by destruct (m w) as [[]]. Qed.

End conn.

Ltac conn_step :=
  lazymatch goal with
  | |- preserves _ (mapped _ _) => apply keep_mapped
  | |- preserves _ (Exec _ _) => apply keep_Exec
  | |- preserves _ (Query _ _) => apply keep_Query; intros ?
  | |- preserves _ (Begin _) => apply keep_Begin
  | |- preserves _ (Commit _) => apply keep_Commit
  | |- preserves _ (defer_Rollback _) => apply keep_defer
  | |- preserves _ (mbind _ _) => apply preserves_bind; [|intros ?]
  | |- preserves _ (mret _) => apply preserves_ret
  | |- preserves _ (mthrow _) => apply preserves_throw
  | |- preserves _ (lift _) => apply preserves_lift
  | |- preserves _ (guard_err _ _) => apply preserves_guard
  | |- preserves _ (for_each _ _) => apply preserves_for_each; intros ?
  | |- preserves _ (match ?x with _ => _ end) => destruct x
  end.

(** * The constraints of the schema *)

Section constraints.

(** The rows of a table are those of another one, or more. *)
Definition grows {A} (t t' : gmap string A) : Prop := ∀ k, is_Some (t !! k) → is_Some (t' !! k).
Lemma grows_refl {A} (t : gmap string A) : grows t t.
Proof. by intros k. Qed.
Lemma grows_insert {A} k x (t : gmap string A) : grows t (<[k := x]> t).
Proof. intros k' Hk. apply lookup_insert_is_Some'. by right. Qed.

Definition refers {A} (table : gmap string A) (k : string) : Prop := is_Some (table !! k).

Record definitions_ok (tenants : gmap string Tenant) (defs : gmap string DefinitionRow) : Prop := {
  df_row : ∀ id r, defs !! id = Some r → dw_id r = id ∧ refers tenants (dw_tenant_id r);
  df_key : ∀ id id' r r', defs !! id = Some r → defs !! id' = Some r' →
    dw_tenant_id r = dw_tenant_id r' → dw_config_key r = dw_config_key r' → id = id' }.

Record versions_ok (defs : gmap string DefinitionRow) (vers : gmap string ConfigVersion) : Prop := {
  vs_row : ∀ id v, vers !! id = Some v →
    v_ID v = id ∧ 0 < v_VersionNumber v ∧ refers defs (v_ConfigDefinitionID v);
  vs_number : ∀ id id' v v', vers !! id = Some v → vers !! id' = Some v' →
    v_ConfigDefinitionID v = v_ConfigDefinitionID v' → v_VersionNumber v = v_VersionNumber v' →
    id = id' }.

Definition states_ok (defs : gmap string DefinitionRow) (vers : gmap string ConfigVersion)
    (states : gmap (string * string) StateRow) : Prop :=
  ∀ k s, states !! k = Some s →
    k = (sw_config_definition_id s, sw_environment s) ∧ environment_ok (sw_environment s) = true ∧
    refers defs (sw_config_definition_id s) ∧
    ∀ id, sw_stable_version_id s = Some id → refers vers id.

Definition agents_ok (agents : gmap string AgentRow) : Prop :=
  ∀ id a, agents !! id = Some a → aw_id a = id ∧ environment_ok (aw_environment a) = true.

Definition credentials_ok (agents : gmap string AgentRow) (creds : gmap string AgentCredential) : Prop :=
  ∀ token c, creds !! token = Some c → c_Token c = token ∧ refers agents (c_AgentID c).

Definition same_ack (k k' : AgentAcknowledgement) : Prop :=
  k_AgentID k = k_AgentID k' ∧ k_ConfigDefinitionID k = k_ConfigDefinitionID k' ∧
  k_VersionID k = k_VersionID k' ∧ k_SnapshotRevision k = k_SnapshotRevision k'.
Record acknowledgements_ok (agents : gmap string AgentRow) (defs : gmap string DefinitionRow)
    (vers : gmap string ConfigVersion) (acks : gmap string AgentAcknowledgement) : Prop := {
  ak_row : ∀ id k, acks !! id = Some k →
    k_ID k = id ∧ 0 < k_SnapshotRevision k ∧ refers agents (k_AgentID k) ∧
    refers defs (k_ConfigDefinitionID k) ∧ refers vers (k_VersionID k);
  ak_once : ∀ id id' k k', acks !! id = Some k → acks !! id' = Some k' → same_ack k k' → id = id' }.

(** The [CHECK] constraints of a rollout. *)
Definition rollout_checked (r : RolloutRow) : Prop :=
  0 < rw_candidate_version_number r ∧ 0 ≤ rw_current_stage_index r ∧
  0 ≤ rw_deployment_timeout_seconds r ∧ environment_ok (rw_environment r) = true ∧
  rw_rollback_status r ∈ [""; "VERIFIED"; "PARTIAL"] ∧ 0 ≤ rw_rollback_timeout_seconds r ∧
  0 ≤ rw_rollout_max_duration_seconds r ∧ state_ok (rw_state r) = true.
Record rollouts_ok (tenants : gmap string Tenant) (defs : gmap string DefinitionRow)
    (vers : gmap string ConfigVersion) (rolls : gmap string RolloutRow) : Prop := {
  ro_row : ∀ id r, rolls !! id = Some r →
    rw_id r = id ∧ rollout_checked r ∧ refers tenants (rw_tenant_id r) ∧
    refers defs (rw_config_definition_id r) ∧ refers vers (rw_stable_version_id r) ∧
    refers vers (rw_candidate_version_id r);
  ro_active : ∀ id id' r r', rolls !! id = Some r → rolls !! id' = Some r' →
    active_state (rw_state r) = true → active_state (rw_state r') = true →
    rw_config_definition_id r = rw_config_definition_id r' →
    rw_environment r = rw_environment r' → id = id' }.

Record stages_ok (rolls : gmap string RolloutRow) (stages : gmap string StageRow) : Prop := {
  sg_row : ∀ id g, stages !! id = Some g →
    gw_id g = id ∧ refers rolls (gw_rollout_id g) ∧ 0 < gw_stage_order g ∧
    0 < gw_percentage g ≤ 100 ∧ 0 ≤ gw_minimum_duration_seconds g;
  sg_order : ∀ id id' g g', stages !! id = Some g → stages !! id' = Some g' →
    gw_rollout_id g = gw_rollout_id g' → gw_stage_order g = gw_stage_order g' → id = id' }.

Definition targets_ok (rolls : gmap string RolloutRow) (stages : gmap string StageRow)
    (agents : gmap string AgentRow) (vers : gmap string ConfigVersion)
    (targets : gmap (string * string * string) TargetRow) : Prop :=
  ∀ k t, targets !! k = Some t →
    k = (tw_rollout_id t, tw_stage_id t, tw_agent_id t) ∧ 0 ≤ tw_bucket t < 10000 ∧
    0 < tw_snapshot_revision t ∧ tw_status t ∈ ["PENDING"; "ACKED"] ∧
    refers rolls (tw_rollout_id t) ∧ refers stages (tw_stage_id t) ∧
    refers agents (tw_agent_id t) ∧ refers vers (tw_expected_version_id t).

Record db_ok (d : Database) : Prop := {
  ok_tenants : ∀ id t, db_tenants d !! id = Some t → t_ID t = id;
  ok_definitions : definitions_ok (db_tenants d) (db_definitions d);
  ok_versions : versions_ok (db_definitions d) (db_versions d);
  ok_states : states_ok (db_definitions d) (db_versions d) (db_states d);
  ok_agents : agents_ok (db_agents d);
  ok_credentials : credentials_ok (db_agents d) (db_credentials d);
  ok_acknowledgements : acknowledgements_ok (db_agents d) (db_definitions d) (db_versions d)
                          (db_acknowledgements d);
  ok_rollouts : rollouts_ok (db_tenants d) (db_definitions d) (db_versions d) (db_rollouts d);
  ok_stages : stages_ok (db_rollouts d) (db_stages d);
  ok_targets : targets_ok (db_rollouts d) (db_stages d) (db_agents d) (db_versions d) (db_targets d);
  ok_revision : 1 ≤ db_revision d }.

Lemma migrated_ok : db_ok migrated.
Proof.
  split; try split; try done; try (by intros ? ? ?; rewrite lookup_empty);
    try (by intros ? ? ? ?; rewrite lookup_empty).
Qed.

(** ** A parent table that grows, a row that is written *)

Lemma definitions_ok_grow tenants tenants' defs :
  grows tenants tenants' → definitions_ok tenants defs → definitions_ok tenants' defs.
Proof.
  intros Hg [H1 H2]. split; [|done]. intros id r Hr. destruct (H1 _ _ Hr). split; [done|by apply Hg].
Qed.
Lemma versions_ok_grow defs defs' vers :
  grows defs defs' → versions_ok defs vers → versions_ok defs' vers.
Proof.
  intros Hg [H1 H2]. split; [|done]. intros id r Hr. destruct (H1 _ _ Hr) as (?&?&?).
  split_and!; [done..|by apply Hg].
Qed.
Lemma states_ok_grow defs defs' vers vers' states :
  grows defs defs' → grows vers vers' → states_ok defs vers states → states_ok defs' vers' states.
Proof.
  intros Hd Hv Hok k s Hs. destruct (Hok _ _ Hs) as (?&?&?&Hst). split_and!; [done..|by apply Hd|].
  intros id Hid. by apply Hv, Hst.
Qed.
Lemma credentials_ok_grow agents agents' creds :
  grows agents agents' → credentials_ok agents creds → credentials_ok agents' creds.
Proof. intros Hg Hok k c Hc. destruct (Hok _ _ Hc). split; [done|by apply Hg]. Qed.
Lemma acknowledgements_ok_grow agents agents' defs defs' vers vers' acks :
  grows agents agents' → grows defs defs' → grows vers vers' →
  acknowledgements_ok agents defs vers acks → acknowledgements_ok agents' defs' vers' acks.
Proof.
  intros Ha Hd Hv [H1 H2]. split; [|done]. intros id k Hk. destruct (H1 _ _ Hk) as (?&?&?&?&?).
  split_and!; [done..|by apply Ha|by apply Hd|by apply Hv].
Qed.
Lemma rollouts_ok_grow tenants tenants' defs defs' vers vers' rolls :
  grows tenants tenants' → grows defs defs' → grows vers vers' →
  rollouts_ok tenants defs vers rolls → rollouts_ok tenants' defs' vers' rolls.
Proof.
  intros Ht Hd Hv [H1 H2]. split; [|done]. intros id r Hr. destruct (H1 _ _ Hr) as (?&?&?&?&?&?).
  split_and!; [done..|by apply Ht|by apply Hd|by apply Hv|by apply Hv].
Qed.
Lemma stages_ok_grow rolls rolls' stages :
  grows rolls rolls' → stages_ok rolls stages → stages_ok rolls' stages.
Proof.
  intros Hg [H1 H2]. split; [|done]. intros id r Hr. destruct (H1 _ _ Hr) as (?&?&?).
  split_and!; [done|by apply Hg|tauto..].
Qed.
Lemma targets_ok_grow rolls rolls' stages stages' agents agents' vers vers' targets :
  grows rolls rolls' → grows stages stages' → grows agents agents' → grows vers vers' →
  targets_ok rolls stages agents vers targets → targets_ok rolls' stages' agents' vers' targets.
Proof.
  intros Hr Hs Ha Hv Hok k t Ht. destruct (Hok _ _ Ht) as (?&?&?&?&?&?&?&?).
  repeat (split; [done|]). split_and!; [by apply Hr|by apply Hs|by apply Ha|by apply Hv].
Qed.

(** A row is inserted or replaced; [fresh] compares it with the others. *)
Lemma rows_insert {K A} `{Countable K} (R : K → A → Prop) (table : gmap K A) k x :
  (∀ k x, table !! k = Some x → R k x) → R k x → ∀ k' x', <[k := x]> table !! k' = Some x' → R k' x'.
Proof. intros Hok Hx k' x'. intros [[<- <-]|[_ ?]]%lookup_insert_Some; auto. Qed.

Lemma unique_insert {A} (R : A → A → Prop) (table : gmap string A) k x :
  (∀ x y, R x y → R y x) →
  (∀ i j x y, table !! i = Some x → table !! j = Some y → R x y → i = j) →
  (∀ j y, table !! j = Some y → R x y → j = k) →
  ∀ i j y z, <[k := x]> table !! i = Some y → <[k := x]> table !! j = Some z → R y z → i = j.
Proof.
  intros Hsym Hold Hnew i j y z.
  intros [[<- <-]|[_ Hi]]%lookup_insert_Some [[<- <-]|[_ Hj]]%lookup_insert_Some HR; eauto.
  symmetry. eauto.
Qed.

(** [some_row p table = false]: no row satisfies [p]. *)
Lemma some_row_false {K A} `{Countable K} (p : A → bool) (table : gmap K A) :
  some_row p table = false ↔ ∀ k x, table !! k = Some x → p x = false.
Proof.
  unfold some_row. rewrite <-not_true_iff_false, existsb_exists. split.
  - intros Hno k x Hx. apply not_true_iff_false. intros Hp. apply Hno. exists x. split; [|done].
    apply list_elem_of_In, list_elem_of_fmap. exists (k, x). split; [done|by apply elem_of_map_to_list].
  - intros Hall (x & Hin & Hp). apply list_elem_of_In, list_elem_of_fmap in Hin as ([k x'] & -> & Hk).
    apply elem_of_map_to_list in Hk. cbn [snd] in Hp. by rewrite (Hall _ _ Hk) in Hp.
Qed.

Lemma has_row_false {A} (table : gmap string A) k : has_row table k = false ↔ table !! k = None.
Proof. unfold has_row. by rewrite bool_decide_eq_false, eq_None_not_Some. Qed.

End constraints.
End PostgresFacts.
