(* ===== verification/PostgresInvariants.v ===== *)
(** Every operation of the PostgreSQL store keeps the constraints of the
    schema, whatever its arguments and the interruptions. *)

From Stdlib Require Import ZArith Lia.
From S2P Require Import Prelude GoLib Host Http Domain Guardrail Registry AgentRegistry Rollout Sql Postgres PostgresFacts.
Import Domain Rollout Sql Postgres PostgresFacts.
Open Scope string_scope.
Open Scope list_scope.
Open Scope Z_scope.

Module PostgresInvariants.

Create HintDb tables.
#[export] Hint Resolve grows_refl grows_insert definitions_ok_grow versions_ok_grow
  states_ok_grow credentials_ok_grow acknowledgements_ok_grow rollouts_ok_grow stages_ok_grow
  targets_ok_grow : tables.

(** The tables that a statement did not write are as they were, up to the rows
    their parents gained. *)
Ltac tables Hok :=
  let H := fresh in pose proof Hok as H; destruct H; split; simpl; eauto 3 with tables.

(** The goal is about the rows of a table that gained one: that row. *)
Ltac new_row :=
  let k := fresh "k" in let x := fresh "x" in
  intros k x; intros [[<- <-]|[_ ?]]%lookup_insert_Some; [|solve [eauto]].

(** ** One row more *)

Lemma definitions_ok_insert tenants defs r :
  definitions_ok tenants defs → refers tenants (dw_tenant_id r) →
  some_row (λ d, bool_decide (dw_tenant_id d = dw_tenant_id r ∧ dw_config_key d = dw_config_key r))
    defs = false →
  definitions_ok tenants (<[dw_id r := r]> defs).
Proof.
  intros [H1 H2] Hr Hno. rewrite some_row_false in Hno. split.
  - by apply (rows_insert (λ id r, dw_id r = id ∧ _)).
  - intros i j x y Hi Hj Ht Hk.
    refine (unique_insert (λ x y, dw_tenant_id x = dw_tenant_id y ∧ dw_config_key x = dw_config_key y)
              defs (dw_id r) r _ _ _ i j x y Hi Hj (conj Ht Hk)).
    + intros ? ? []; done.
    + intros ? ? ? ? ? ? []. by eapply H2.
    + intros k z Hz [??]. specialize (Hno _ _ Hz). apply bool_decide_eq_false in Hno. destruct Hno; split; congruence.
Qed.

Lemma versions_ok_insert defs vers v :
  versions_ok defs vers → refers defs (v_ConfigDefinitionID v) → 0 < v_VersionNumber v →
  (∀ id v', vers !! id = Some v' → v_ConfigDefinitionID v' = v_ConfigDefinitionID v →
     v_VersionNumber v' ≠ v_VersionNumber v) →
  versions_ok defs (<[v_ID v := v]> vers).
Proof.
  intros [H1 H2] Hr Hp Hno. split.
  - by apply (rows_insert (λ id v, v_ID v = id ∧ _)).
  - intros i j x y Hi Hj Ht Hk.
    refine (unique_insert (λ x y, v_ConfigDefinitionID x = v_ConfigDefinitionID y
                                  ∧ v_VersionNumber x = v_VersionNumber y)
              vers (v_ID v) v _ _ _ i j x y Hi Hj (conj Ht Hk)).
    + intros ? ? []; done.
    + intros ? ? ? ? ? ? []. by eapply H2.
    + intros k z Hz [??]. by destruct (Hno _ _ Hz).
Qed.

Lemma acknowledgements_ok_insert agents defs vers acks k :
  acknowledgements_ok agents defs vers acks → 0 < k_SnapshotRevision k →
  refers agents (k_AgentID k) → refers defs (k_ConfigDefinitionID k) → refers vers (k_VersionID k) →
  (∀ id k', acks !! id = Some k' → ¬ same_ack k k') →
  acknowledgements_ok agents defs vers (<[k_ID k := k]> acks).
Proof.
  intros [H1 H2] Hp Ha Hd Hv Hno. split.
  - by apply (rows_insert (λ id k, k_ID k = id ∧ _)).
  - apply unique_insert.
    + by intros ? ? (?&?&?&?).
    + eauto.
    + intros j y Hy Hs. by destruct (Hno _ _ Hy).
Qed.

(** The partial unique index. *)
Lemma active_elsewhere_false r db :
  active_elsewhere r db = false → ∀ id r', db_rollouts db !! id = Some r' →
  rw_id r' ≠ rw_id r → active_state (rw_state r) = true → active_state (rw_state r') = true →
  rw_config_definition_id r' = rw_config_definition_id r → rw_environment r' ≠ rw_environment r.
Proof.
  intros Hno id r' Hr' Hid Hr Hs Hc He. unfold active_elsewhere in Hno. rewrite Hr in Hno.
  cbn [andb] in Hno. rewrite some_row_false in Hno. specialize (Hno _ _ Hr').
  rewrite Hs, !bool_decide_eq_true_2 in Hno; done.
Qed.

Lemma rollouts_ok_insert db r :
  rollouts_ok (db_tenants db) (db_definitions db) (db_versions db) (db_rollouts db) →
  rollout_checked r → refers (db_tenants db) (rw_tenant_id r) →
  refers (db_definitions db) (rw_config_definition_id r) →
  refers (db_versions db) (rw_stable_version_id r) →
  refers (db_versions db) (rw_candidate_version_id r) →
  active_elsewhere r db = false →
  rollouts_ok (db_tenants db) (db_definitions db) (db_versions db)
    (<[rw_id r := r]> (db_rollouts db)).
Proof.
  intros [H1 H2] Hc Ht Hd Hs Hv Hno. pose proof (active_elsewhere_false _ _ Hno) as Hel. split.
  - by apply (rows_insert (λ id r, rw_id r = id ∧ _)).
  - intros i j x y Hi Hj Hx Hy Hxy Hxy'.
    refine (unique_insert (λ x y, active_state (rw_state x) = true ∧ active_state (rw_state y) = true ∧
        rw_config_definition_id x = rw_config_definition_id y ∧ rw_environment x = rw_environment y)
      (db_rollouts db) (rw_id r) r _ _ _ i j x y Hi Hj _); [by intros ? ? (?&?&?&?)| | |done].
    + intros ? ? ? ? ? ? (?&?&?&?). by eapply H2.
    + intros k z Hz (?&?&?&?). destruct (H1 _ _ Hz) as (<-&_).
      destruct (decide (rw_id z = rw_id r)); [done|]. exfalso. by eapply (Hel _ z).
Qed.

Lemma stages_ok_insert rolls stages g :
  stages_ok rolls stages → refers rolls (gw_rollout_id g) → 0 < gw_stage_order g →
  0 < gw_percentage g ≤ 100 → 0 ≤ gw_minimum_duration_seconds g →
  some_row (λ g', bool_decide (gw_rollout_id g' = gw_rollout_id g
                               ∧ gw_stage_order g' = gw_stage_order g)) stages = false →
  stages_ok rolls (<[gw_id g := g]> stages).
Proof.
  intros [H1 H2] Hr Ho Hp Hm Hno. rewrite some_row_false in Hno. split.
  - by apply (rows_insert (λ id g, gw_id g = id ∧ _)).
  - intros i j x y Hi Hj Hxy Hxy'.
    refine (unique_insert (λ x y, gw_rollout_id x = gw_rollout_id y ∧ gw_stage_order x = gw_stage_order y)
      stages (gw_id g) g _ _ _ i j x y Hi Hj (conj Hxy Hxy')); [by intros ? ? []| |].
    + intros ? ? ? ? ? ? []. by eapply H2.
    + intros k z Hz [??]. specialize (Hno _ _ Hz). apply bool_decide_eq_false in Hno. destruct Hno; split; congruence.
Qed.

Section statements.
Context `{Sql.Postgres}.

Lemma keep_read {A} P (f : Database → A) : keeps_rows P (d ← get_world; mret (f d)).
Proof. intros d Hd. by yields_run. Qed.

Lemma keep_insert_tenant a1 a2 a3 a4 a5 a6 : keeps_rows db_ok (insert_tenant a1 a2 a3 a4 a5 a6).
Proof.
  intros d Hok. unfold insert_tenant. yields_run. tables Hok.
  by apply (rows_insert (λ id t, t_ID t = id)).
Qed.

Lemma keep_insert_definition a1 a2 a3 a4 a5 a6 a7 a8 :
  keeps_rows db_ok (insert_definition a1 a2 a3 a4 a5 a6 a7 a8).
Proof.
  intros d Hok. unfold insert_definition. yields_run; tables Hok.
  all: by apply (definitions_ok_insert _ _ (MkDefinitionRow _ _ _ _ _ _ _ _)).
Qed.

Lemma versions_of_elem db id v :
  v ∈ versions_of db id ↔ v_ConfigDefinitionID v = id ∧ ∃ k, db_versions db !! k = Some v.
Proof.
  unfold versions_of. rewrite list_elem_of_filter, list_elem_of_fmap. split.
  - intros [? ([k v'] & -> & Hk)]. apply elem_of_map_to_list in Hk. eauto.
  - intros [? [k Hk]]. split; [done|]. exists (k, v). split; [done|]. by apply elem_of_map_to_list.
Qed.

Lemma number_free db id n :
  existsb (λ v, v_VersionNumber v =? n) (versions_of db id) = false →
  ∀ k v, db_versions db !! k = Some v → v_ConfigDefinitionID v = id → v_VersionNumber v ≠ n.
Proof.
  intros Hno k v Hk Hid Hn. apply not_true_iff_false in Hno. apply Hno, existsb_exists.
  exists v. split; [|lia]. apply list_elem_of_In, versions_of_elem. eauto.
Qed.

Lemma keep_insert_version a1 a2 a3 a4 a5 a6 a7 :
  keeps_rows db_ok (insert_version a1 a2 a3 a4 a5 a6 a7).
Proof.
  intros d Hok. unfold insert_version. yields_run; tables Hok.
  all: apply (versions_ok_insert _ _ (MkConfigVersion _ _ _ _ _ _ _)); try done; simpl; [lia|].
  all: by eapply number_free.
Qed.

Lemma keep_lock_definition id : keeps_rows db_ok (lock_definition id).
Proof. intros d Hok. unfold lock_definition. by yields_run. Qed.
Lemma keep_next_version_number id : keeps_rows db_ok (next_version_number id).
Proof. intros d Hok. unfold next_version_number. by yields_run. Qed.

Lemma keep_upsert_state a1 a2 a3 a4 a5 : keeps_rows db_ok (upsert_state a1 a2 a3 a4 a5).
Proof.
  intros d Hok. unfold upsert_state. yields_run; tables Hok.
  all: new_row; split_and!; try done. all: by intros ? [= <-].
Qed.

Lemma keep_upsert_agent a1 a2 a3 a4 a5 a6 a7 a8 :
  keeps_rows db_ok (upsert_agent a1 a2 a3 a4 a5 a6 a7 a8).
Proof.
  intros d Hok. unfold upsert_agent. yields_run; tables Hok.
  all: by new_row.
Qed.

Lemma keep_insert_credential a1 a2 a3 a4 : keeps_rows db_ok (insert_credential a1 a2 a3 a4).
Proof.
  intros d Hok. unfold insert_credential. yields_run; tables Hok.
  by new_row.
Qed.

Lemma keep_update_last_seen a1 a2 : keeps_rows db_ok (update_last_seen a1 a2).
Proof.
  intros d Hok. unfold update_last_seen. yields_run; tables Hok.
  new_row. simpl. by eapply (ok_agents _ Hok).
Qed.

Lemma keep_insert_acknowledgement a1 a2 a3 a4 a5 a6 a7 :
  keeps_rows db_ok (insert_acknowledgement a1 a2 a3 a4 a5 a6 a7).
Proof.
  intros d Hok. unfold insert_acknowledgement. yields_run; [done|]. tables Hok.
  apply (acknowledgements_ok_insert _ _ _ _ (MkAgentAcknowledgement _ _ _ _ _ _ _)); try done.
  - simpl. lia.
  - rewrite some_row_false in *. intros id k' Hk (?&?&?&?).
    match goal with Hno : ∀ _ _, _ → bool_decide _ = false |- _ =>
      specialize (Hno _ _ Hk); apply bool_decide_eq_false in Hno; destruct Hno end.
    by simpl in *; subst.
Qed.

Lemma keep_check_rollout r db (P : unit → Database → Prop) d :
  (rollout_checked r → P tt d) → yields (check_rollout r db) P d.
Proof.
  intros HP. unfold check_rollout. yields_run. apply HP.
  repeat match goal with H : bool_decide _ = true |- _ => apply bool_decide_eq_true in H end.
  unfold rollout_checked. split_and!; solve [done|lia].
Qed.
Lemma yields_rollout_references r db (P : unit → Database → Prop) d :
  (refers (db_tenants db) (rw_tenant_id r) → refers (db_definitions db) (rw_config_definition_id r) →
   refers (db_versions db) (rw_stable_version_id r) →
   refers (db_versions db) (rw_candidate_version_id r) → P tt d) →
  yields (rollout_references r db) P d.
Proof. intros HP. unfold rollout_references. yields_run. by apply HP. Qed.

Section rollouts.
Context `{Codec (list string), Codec (list Guardrail.Rule), Codec (gmap string Z)}.

Lemma yields_rollout_params ts r (P : RolloutRow → Database → Prop) d :
  (∀ row, rw_id row = r_ID r → P row d) → yields (rollout_params ts r) P d.
Proof. intros HP. unfold rollout_params. yields_run. by apply HP. Qed.

Lemma keep_insert_rollout ts r : keeps_rows db_ok (insert_rollout ts r).
Proof.
  intros d Hok. unfold insert_rollout. yields_run. apply yields_rollout_params. intros row _.
  yields_run. apply keep_check_rollout. intros Hc. yields_run. apply yields_rollout_references.
  intros. yields_run. tables Hok. by apply rollouts_ok_insert.
Qed.

Lemma keep_update_rollout ts r : keeps_rows db_ok (update_rollout ts r).
Proof.
  intros d Hok. unfold update_rollout. yields_run. apply yields_rollout_params. intros row _.
  yields_run; [|done]. apply keep_check_rollout. intros Hc. yields_run.
  apply yields_rollout_references. intros. yields_run. tables Hok.
  by apply (rollouts_ok_insert _ (keep_created _ row)).
Qed.

Lemma keep_add_stage row d : db_ok d → yields (add_stage row d) (λ _ d', db_ok d') d.
Proof.
  intros Hok. unfold add_stage. yields_run. tables Hok.
  apply stages_ok_insert; try done; lia.
Qed.
Lemma keep_insert_stage a1 a2 a3 a4 a5 : keeps_rows db_ok (insert_stage a1 a2 a3 a4 a5).
Proof. intros d Hok. unfold insert_stage. yields_run. by apply keep_add_stage. Qed.
Lemma keep_upsert_stage a1 a2 a3 a4 : keeps_rows db_ok (upsert_stage a1 a2 a3 a4).
Proof. intros d Hok. unfold upsert_stage. yields_run; [done|]. by apply keep_add_stage. Qed.

Lemma keep_upsert_target a1 a2 a3 a4 a5 a6 a7 a8 a9 :
  keeps_rows db_ok (upsert_target a1 a2 a3 a4 a5 a6 a7 a8 a9).
Proof.
  intros d Hok. unfold upsert_target. yields_run; tables Hok.
  all: match goal with H : bool_decide _ = true |- _ => apply bool_decide_eq_true in H end.
  all: new_row; simpl; split_and!; solve [done|lia].
Qed.
Lemma keep_delete_targets a1 a2 : keeps_rows db_ok (delete_targets a1 a2).
Proof.
  intros d Hok. unfold delete_targets. yields_run. tables Hok.
  intros k t [Ht _]%map_lookup_filter_Some. by apply (ok_targets _ Hok).
Qed.
Lemma keep_nextval : keeps_rows db_ok nextval.
Proof. intros d Hok. unfold nextval. yields_run. tables Hok. pose proof (ok_revision _ Hok). lia. Qed.
End rollouts.
End statements.
End PostgresInvariants.
