(* ===== verification/PostgresSpec.v ===== *)
(** What the operations of the PostgreSQL store do: queries by key and in
    order, transactions that happen entirely or not at all, and the statements
    that are known to succeed. *)

From Stdlib Require Import ZArith Lia.
From S2P Require Import Prelude GoLib Host Http Domain Guardrail Registry AgentRegistry Rollout Sql Postgres PostgresFacts PostgresInvariants.
Import Domain Rollout Sql Postgres PostgresFacts PostgresInvariants.
Open Scope string_scope.
Open Scope list_scope.
Open Scope Z_scope.

Module PostgresSpec.

(** * Queries *)

Section select.
Context {A : Type} (scan : RangeOrder) (Hscan : range_ok scan).
Implicit Types (table : gmap string A) (p : A → bool) (le : A → A → bool).

Lemma elem_of_select table p le x :
  x ∈ select scan table p le ↔ p x = true ∧ ∃ k, table !! k = Some x.
Proof. unfold select. by rewrite SortFunc_perm, list_elem_of_filter, elem_of_map_values. Qed.

Lemma NoDup_select table p le (key : A → string) :
  (∀ k x, table !! k = Some x → key x = k) → NoDup (key <$> select scan table p le).
Proof.
  intros Hkey. unfold select. rewrite SortFunc_perm.
  eapply sublist_NoDup; [|apply fmap_sublist, sublist_filter].
  apply NoDup_map_values; [done|]. intros k k' x x' Hk Hk' Hx.
  rewrite <-(Hkey _ _ Hk), <-(Hkey _ _ Hk'). done.
Qed.

(** At most one row satisfies the condition. *)
Lemma select_none table p le : (∀ k x, table !! k = Some x → p x = false) → select scan table p le = [].
Proof.
  intros Hno. destruct (select scan table p le) as [|x l] eqn:Hl; [done|].
  assert (x ∈ select scan table p le) as [Hp [k Hk]]%elem_of_select by (rewrite Hl; by left).
  rewrite (Hno _ _ Hk) in Hp. done.
Qed.

Lemma select_one table p le (key : A → string) k x :
  (∀ k x, table !! k = Some x → key x = k) → table !! k = Some x → p x = true →
  (∀ k' x', table !! k' = Some x' → p x' = true → k' = k) → select scan table p le = [x].
Proof.
  intros Hkey Hx Hp Hone. pose proof (NoDup_select table p le key Hkey) as Hnd.
  assert (∀ y, y ∈ select scan table p le ↔ y = x) as Hmem.
  { intros y. rewrite elem_of_select. split.
    - intros [Hy [k' Hk']]. pose proof (Hone _ _ Hk' Hy). congruence.
    - intros ->. eauto. }
  apply Permutation_singleton_r. apply NoDup_Permutation.
  - by eapply NoDup_fmap_1.
  - apply NoDup_singleton.
  - intros y. by rewrite Hmem, list_elem_of_singleton.
Qed.

(** The row of a key. *)
Lemma select_key table le (key : A → string) k :
  (∀ k x, table !! k = Some x → key x = k) →
  select scan table (λ x, bool_decide (key x = k)) le = option_list (table !! k).
Proof.
  intros Hkey. destruct (table !! k) as [x|] eqn:Hk; simpl.
  - eapply select_one; [done|done|by apply bool_decide_eq_true; eauto|].
    intros k' x' Hx' Heq%bool_decide_eq_true. rewrite <-Heq. symmetry. eauto.
  - apply select_none. intros k' x' Hx'. apply bool_decide_eq_false. intros <-.
    rewrite (Hkey _ _ Hx') in Hk. congruence.
Qed.
End select.

(** An order by a number that tells the selected rows apart. *)
Section ordered.
Context {A : Type} (scan : RangeOrder) (Hscan : range_ok scan) (rank : A → Z).
Abbreviation by_rank := (λ a b : A, rank a <=? rank b).

Lemma by_rank_trans : Transitive (λ a b, Is_true (by_rank a b)).
Proof. intros a b c. rewrite !Is_true_true, !Z.leb_le. lia. Qed.
Lemma by_rank_total : Total (λ a b, Is_true (by_rank a b)).
Proof. intros a b. rewrite !Is_true_true, !Z.leb_le. lia. Qed.

Lemma select_ordered (table : gmap string A) p l :
  (∀ x, x ∈ l ↔ p x = true ∧ ∃ k, table !! k = Some x) →
  (∀ k k' x, table !! k = Some x → table !! k' = Some x → k = k') →
  StronglySorted (λ a b, rank a < rank b) l →
  select scan table p by_rank = l.
Proof.
  intros Hmem Hinj Hs. unfold select.
  assert (filter (λ a, p a = true) (map_values scan table) ≡ₚ l) as Hp.
  { apply NoDup_Permutation.
    - eapply sublist_NoDup; [|apply sublist_filter].
      rewrite <-(list_fmap_id (map_values _ _)). apply NoDup_map_values; [done|].
      intros k k' x x' Hk Hk' Hx. cbn in Hx. subst x'. by eapply Hinj.
    - clear Hmem. induction Hs as [|x l _ IH Hx]; [constructor|]. constructor; [|done].
      intros Hin. rewrite Forall_forall in Hx. specialize (Hx x Hin). lia.
    - intros x. by rewrite Hmem, list_elem_of_filter, elem_of_map_values. }
  apply SortFunc_canonical; [exact by_rank_trans|exact by_rank_total| |exact (Permutation_sym Hp)|].
  - intros x y Hx Hy. rewrite Hp in Hx, Hy. clear Hmem Hp. rewrite !Is_true_true, !Z.leb_le.
    induction Hs as [|z l _ IH Hz]; [by apply elem_of_nil in Hx|]. rewrite Forall_forall in Hz.
    apply elem_of_cons in Hx as [->|Hx]; apply elem_of_cons in Hy as [->|Hy]; intros; [done|..].
    + specialize (Hz _ Hy). lia.
    + specialize (Hz _ Hx). lia.
    + by apply IH.
  - eapply StronglySorted_weaken; [|exact Hs]. intros a b Hab. cbv beta in *. apply Is_true_true, Z.leb_le. lia.
Qed.
End ordered.

(** * Transactions *)

Section transactions.
Context `{Sql.Postgres}.

(** No transaction is open and the database is [d]. *)
Definition outside (d : Database) (w : Conn) : Prop := cn_db w = d ∧ cn_tx w = None.
(** A transaction begun on [d0] has reached [d]. *)
Definition in_tx (d0 d : Database) (w : Conn) : Prop := cn_db w = d0 ∧ cn_tx w = Some d.

Lemma wp_Exec_outside {A} ctx (stmt : M Database A) (Q : res A → Conn → Prop) d w :
  outside d w →
  (∀ err b n w', pg_trip ctx n = Some (err, b) → outside d w' → Q (Err err) w') →
  (∀ e d' w', stmt d = (Err e, d') → outside d w' → Q (Err e) w') →
  (∀ err a n d' w', pg_trip ctx n = Some (err, true) → stmt d = (Ok a, d') → outside d' w' →
     Q (Err err) w') →
  (∀ a d' w', stmt d = (Ok a, d') → outside d' w' → Q (Ok a) w') → wp (Exec ctx stmt) Q w.
Proof.
  intros [<- Htx] H1 H2 H3 H4.
  assert (this_db w = cn_db w) as Hdb by (unfold this_db; by rewrite Htx).
  assert (∀ d', outside d' (trip (put_db d' w))) as Hput
    by (intros d'; unfold put_db, trip, outside; by rewrite Htx).
  apply wp_Exec; rewrite ?Hdb.
  - intros err b Ht. by eapply H1.
  - intros err a d' Ht Hs. by eapply H3.
  - intros a d' Hs. by eapply H4.
  - intros e d' Hs. by eapply H2.
Qed.

Lemma wp_Exec_in_tx {A} ctx (stmt : M Database A) (Q : res A → Conn → Prop) d0 d w :
  in_tx d0 d w →
  (∀ e d' w', in_tx d0 d' w' → Q (Err e) w') →
  (∀ a d' w', stmt d = (Ok a, d') → in_tx d0 d' w' → Q (Ok a) w') → wp (Exec ctx stmt) Q w.
Proof.
  intros [<- Htx] H1 H2.
  assert (this_db w = d) as Hdb by (unfold this_db; by rewrite Htx).
  assert (∀ d', in_tx (cn_db w) d' (trip (put_db d' w))) as Hput
    by (intros d'; unfold put_db, trip, in_tx; by rewrite Htx).
  apply wp_Exec; rewrite ?Hdb; intros; try (by eapply H1; split); try (by eapply H1, Hput).
  by eapply H2.
Qed.

Lemma wp_Begin ctx (Q : res unit → Conn → Prop) d w :
  outside d w →
  (∀ e w', outside d w' → Q (Err e) w') → (∀ w', in_tx d d w' → Q (Ok tt) w') →
  wp (Begin ctx) Q w.
Proof.
  intros [<- Htx] H1 H2. unfold wp, Begin.
  destruct (pg_trip _ _) as [[err b]|]; simpl; [by apply H1|by apply H2].
Qed.

(** The outcome of a commit whose answer is lost is either. *)
Lemma wp_Commit ctx (Q : res unit → Conn → Prop) d0 d w :
  in_tx d0 d w →
  (∀ e w', cn_db w' = d0 ∨ cn_db w' = d → Q (Err e) w') →
  (∀ w', cn_db w' = d → Q (Ok tt) w') → wp (Commit ctx) Q w.
Proof.
  intros [<- Htx] H1 H2. unfold wp, Commit.
  assert (this_db w = d) as -> by (unfold this_db; by rewrite Htx).
  destruct (pg_trip _ _) as [[err []]|]; simpl; [by apply H1; right|by apply H1; left|by apply H2].
Qed.

Lemma wp_defer {A} (m : M Conn A) (Q : res A → Conn → Prop) w :
  wp m (λ r w', ∀ n, Q r (MkConn (cn_db w') None n)) w → wp (defer_Rollback m) Q w.
Proof. unfold wp, defer_Rollback. destruct (m w) as [r w']; simpl. auto. Qed.

Lemma wp_Query {A} ctx (stmt : RangeOrder → M Database A) (Q : res A → Conn → Prop) w :
  wp (Exec ctx (stmt (pg_scan (cn_trips w)))) Q w → wp (Query ctx stmt) Q w.
Proof. done. Qed.

(** A query that is not interrupted reads the database. *)
Lemma wp_Query_reads `{!PostgresLaws} {A} ctx (stmt : RangeOrder → M Database A)
    (Q : res A → Conn → Prop) d w :
  uninterrupted ctx → outside d w →
  (∀ scan, range_ok scan → yields (stmt scan) (λ _ d', d' = d) d) →
  (∀ scan w', range_ok scan → outside d w' → Q (stmt scan d).1 w') → wp (Query ctx stmt) Q w.
Proof.
  intros Hctx Hw Hread HQ. pose proof (pg_scan_ok (cn_trips w)) as Hs. apply wp_Query. eapply wp_Exec_outside; [done|..].
  - intros err b n w' Ht. by rewrite Hctx in Ht.
  - intros e d' w' He Hw'. specialize (HQ _ w' Hs Hw'). by rewrite He in HQ.
  - intros err a n d' w' Ht. by rewrite Hctx in Ht.
  - intros a d' w' Ha Hw'. assert (d' = d) as -> by (by eapply Hread).
    specialize (HQ _ w' Hs Hw'). by rewrite Ha in HQ.
Qed.

(** ** Versions *)

Lemma max_of_nonneg l : 0 ≤ max_of l.
Proof. induction l; simpl; lia. Qed.
Lemma max_of_ge l z : z ∈ l → z ≤ max_of l.
Proof.
  induction l as [|y l IH]; [by intros ?%elem_of_nil|]. simpl.
  intros [->|Hz]%elem_of_cons; [lia|]. specialize (IH Hz). lia.
Qed.
Lemma max_of_elem l : max_of l = 0 ∨ max_of l ∈ l.
Proof.
  induction l as [|y l IH]; [by left|]. simpl. destruct (Z.max_spec y (max_of l)) as [[_ ->]|[_ ->]].
  - destruct IH; [by left|]. right. by right.
  - right. by left.
Qed.

Definition next_number (d : Database) (id : string) : Z :=
  max_of (v_VersionNumber <$> versions_of d id) + 1.

Definition stored_version (v : ConfigVersion) (value : string) : ConfigVersion :=
  MkConfigVersion (v_ID v) (v_ConfigDefinitionID v) (v_VersionNumber v) value
    (v_SourceCommitSHA v) (v_CreatedBy v) (pg_timestamp (v_CreatedAt v)).

(** [d'] is [d] with the row of [v]. *)
Definition version_added (d : Database) (v : ConfigVersion) (d' : Database) : Prop :=
  v_Value v ≠ "" ∧ refers (db_definitions d) (v_ConfigDefinitionID v) ∧
  db_versions d !! v_ID v = None ∧
  ∃ value, pg_jsonb (v_Value v) = Ok value ∧
           d' = set_versions (<[v_ID v := stored_version v value]> (db_versions d)) d.

Lemma insert_version_yields v d :
  yields (insert_version (v_ID v) (v_ConfigDefinitionID v) (v_VersionNumber v) (v_Value v)
            (v_SourceCommitSHA v) (v_CreatedBy v) (v_CreatedAt v))
    (λ _ d', version_added d v d') d.
Proof.
  unfold insert_version. yields_run.
  all: unfold nullableJSON in *; destruct (empty_str (v_Value v)) eqn:He; simplify_eq.
  all: split; [by apply empty_str_false|]. all: rewrite has_row_false in *; eauto 6.
Qed.

Lemma CreateVersion_numbers ctx ver d w :
  outside d w →
  wp (CreateVersion ctx ver) (λ r w',
    let ver' := set_number ver (next_number d (v_ConfigDefinitionID ver)) in
    cn_tx w' = None ∧
    match r with
    | Ok v => v = ver' ∧ version_added d ver' (cn_db w')
    | Err _ => cn_db w' = d ∨ version_added d ver' (cn_db w')
    end) w.
Proof.
  intros Hw. unfold CreateVersion. wp_step. apply wp_mapped. eapply wp_Begin; [done| |].
  { intros e w1 [H1 H2]. auto. }
  intros w1 Hw1. apply wp_defer. wp_step. apply wp_mapped.
  eapply wp_Exec_in_tx; [done|intros e d1 w2 [? _]; by auto|]. intros id d1 w2 Hl Hw2.
  assert (d1 = d) as ->.
  { refine ((_ : yields (lock_definition _) (λ _ d', d' = d) d) _ _ Hl).
    unfold lock_definition. by yields_run. }
  wp_step. apply wp_mapped. eapply wp_Exec_in_tx; [done|intros e d2 w3 [? _]; by auto|].
  intros n d2 w3 Hn Hw3.
  assert (n = next_number d (v_ConfigDefinitionID ver) ∧ d2 = d) as [-> ->].
  { refine ((_ : yields (next_version_number _) (λ n d', n = _ ∧ d' = d) d) _ _ Hn).
    unfold next_version_number. by yields_run. }
  cbv zeta. wp_step. apply wp_mapped.
  eapply wp_Exec_in_tx; [done|intros e d3 w4 [? _]; by auto|]. intros [] d3 w4 Hi Hw4.
  apply insert_version_yields in Hi. wp_step. apply wp_mapped.
  eapply wp_Commit; [done|intros e w5 [Heq|Heq] n; simpl; rewrite Heq; auto|].
  intros w5 <-. wp_step. done.
Qed.

(** ** Statements that succeed *)

Lemma run_bind {A B} (m : M Database A) (k : A → M Database B) d a d1 r :
  m d = (Ok a, d1) → k a d1 = r → (m ≫= k) d = r.
Proof. intros Hm Hk. unfold mbind, M_bind. by rewrite Hm. Qed.
Lemma run_text s d : text_ok s = true → text s d = (Ok s, d).
Proof. unfold text, text_ok. by intros ->. Qed.
Lemma run_int4 z d : - 2 ^ 31 ≤ z ≤ int4_max → int4 z d = (Ok z, d).
Proof. intros Hz. unfold int4. by rewrite (proj2 (andb_true_iff _ _)) by (unfold int4_max in *; lia). Qed.
Lemma run_jsonb s t d : pg_jsonb s = Ok t → jsonb s d = (Ok t, d).
Proof. unfold jsonb. by intros ->. Qed.
Lemma run_unique taken c d : taken = false → unique taken c d = (Ok tt, d).
Proof. by intros ->. Qed.
Lemma run_check holds c d : holds = true → check holds c d = (Ok tt, d).
Proof. by intros ->. Qed.
Lemma run_references {A} (table : gmap string A) k c d :
  refers table k → references table k c d = (Ok tt, d).
Proof. intros Hk. unfold references, has_row. by rewrite bool_decide_eq_true_2. Qed.

End transactions.

Ltac run_step :=
  lazymatch goal with
  | |- mbind _ (text _) _ = _ => eapply run_bind; [apply run_text|]
  | |- mbind _ (int4 _) _ = _ => eapply run_bind; [apply run_int4|]
  | |- mbind _ (jsonb _) _ = _ => eapply run_bind; [apply run_jsonb|]
  | |- mbind _ (timestamptz _) _ = _ => eapply run_bind; [reflexivity|]
  | |- mbind _ get_world _ = _ => eapply run_bind; [reflexivity|]
  | |- mbind _ (unique _ _) _ = _ => eapply run_bind; [apply run_unique|]
  | |- mbind _ (check _ _) _ = _ => eapply run_bind; [apply run_check|]
  | |- mbind _ (references _ _ _) _ = _ => eapply run_bind; [apply run_references|]
  end.
Ltac run_stmt := repeat (cbv beta; run_step).
End PostgresSpec.
