(* ===== verification/PostgresRollouts.v ===== *)
(** The rollouts of the PostgreSQL store: creating one writes its row and its
    stages entirely or not at all, a cohort is replaced likewise, and what is
    read back is what was written, to the resolution of the columns. *)

From Stdlib Require Import ZArith Lia.
From S2P Require Import Prelude GoLib Host Http Domain Guardrail Registry AgentRegistry Rollout Sql Postgres PostgresFacts PostgresInvariants PostgresSpec.
Import Domain Rollout Sql Postgres PostgresFacts PostgresInvariants PostgresSpec.
Open Scope string_scope.
Open Scope list_scope.
Open Scope Z_scope.

Module PostgresRollouts.

(** * What the columns keep of a value *)

(** A [JSONB] column keeps the values of a type that are [portable]. *)
Class JsonColumn (A : Type) `{Codec A, Sql.Postgres} (portable : A → Prop) (fallback : string)
    (zero : A) := {
  column_value : ∀ x, portable x → ∃ s t, json_Marshal x = Ok s ∧ pg_jsonb s = Ok t ∧
    unmarshal_field zero t = Ok x;
  column_null : ∀ x, json_Marshal x = Ok "null" → x = zero;
  column_fallback : ∃ t, pg_jsonb fallback = Ok t ∧ unmarshal_field zero t = Ok zero }.

Lemma jsonValue_column {A} `{JsonColumn A portable fallback zero} x :
  portable x → ∃ t, pg_jsonb (jsonValue x fallback) = Ok t ∧ unmarshal_field zero t = Ok x.
Proof.
  intros Hx. destruct (column_value _ Hx) as (s & t & Hs & Ht & Hu). unfold jsonValue. rewrite Hs.
  case_bool_decide as Hn; [subst s|by eauto].
  pose proof (column_null _ Hs) as ->. apply column_fallback.
Qed.

(** A duration is kept in whole seconds, and not below zero. *)
Definition whole_seconds (d : Duration) : Duration := durationSeconds d * Second.

Lemma whole_seconds_exact n : 0 ≤ n → whole_seconds (n * Second) = n * Second.
Proof.
  intros Hn. unfold whole_seconds, durationSeconds. destruct (n * Second <=? 0) eqn:Hz.
  - unfold Second in *. lia.
  - by rewrite Z.quot_mul by done.
Qed.
Lemma durationSeconds_nonneg d : 0 ≤ durationSeconds d.
Proof.
  unfold durationSeconds. destruct (d <=? 0) eqn:Hd; [lia|]. apply Z.quot_pos; [lia|done].
Qed.
Lemma whole_seconds_near d : 0 ≤ d → whole_seconds d ≤ d < whole_seconds d + Second.
Proof.
  intros Hd. unfold whole_seconds, durationSeconds. destruct (d <=? 0) eqn:Hz.
  - unfold Second. lia.
  - rewrite Z.quot_div_nonneg by (unfold Second; lia). unfold Second in *.
    pose proof (Z.div_mod d 1000000000 ltac:(done)). pose proof (Z.mod_pos_bound d 1000000000 ltac:(done)).
    lia.
Qed.
(** The seconds of an [INTEGER] column are a duration. *)
Lemma scanned_seconds d :
  durationSeconds d ≤ int4_max → int64_wrap (durationSeconds d * Second) = whole_seconds d.
Proof.
  intros Hd. pose proof (durationSeconds_nonneg d). apply int64_wrap_id.
  unfold whole_seconds, int64_ok, int64_min, int64_max, Second, int4_max in *. lia.
Qed.

Lemma State_of_string s : s ≠ StateUnset → State_of (State_string s) = s.
Proof. by destruct s. Qed.
Lemma RollbackStatus_of_string s : RollbackStatus_of (RollbackStatus_string s) = s.
Proof. by destruct s. Qed.
Lemma TargetStatus_of_string s : TargetStatus_of (TargetStatus_string s) = s.
Proof. by destruct s. Qed.
Lemma active_state_string s : s ≠ StateUnset → active_state (State_string s) = negb (Terminal s).
Proof. by destruct s. Qed.
Lemma state_ok_string s : s ≠ StateUnset → state_ok (State_string s) = true.
Proof. by destruct s. Qed.
Lemma State_string_ok s : text_ok (State_string s) = true.
Proof. by destruct s. Qed.
Lemma RollbackStatus_string_ok s : text_ok (RollbackStatus_string s) = true.
Proof. by destruct s. Qed.

Section rows.
Context `{Sql.Postgres}.

(** The row of a rollout with the texts of its JSON columns. *)
Definition row_of (services guardrails failures : string) (r : Rollout) : RolloutRow :=
  MkRolloutRow (r_ID r) (r_TenantID r) (r_ConfigDefinitionID r) (r_ConfigKey r)
    (r_Environment r) services (r_StableVersionID r) (r_CandidateVersionID r)
    (r_CandidateVersion r) (State_string (r_State r)) (r_CurrentStageID r)
    (r_CurrentStageIndex r) (r_RequiredAckPercent r) guardrails failures
    (pg_timestamp (r_StageStartedAt r)) (durationSeconds (r_DeploymentTimeout r))
    (durationSeconds (r_RolloutMaxDuration r)) (durationSeconds (r_RollbackTimeout r))
    (RollbackStatus_string (r_RollbackStatus r)) (pg_timestamp (r_CreatedAt r))
    (pg_timestamp (r_UpdatedAt r)).

(** What is read back of a rollout. *)
Definition stored_rollout (r : Rollout) : Rollout :=
  MkRollout (r_ID r) (r_ConfigDefinitionID r) (r_TenantID r) (r_ConfigKey r) (r_Environment r)
    (r_TargetServices r) (r_StableVersionID r) (r_CandidateVersionID r) (r_CandidateVersion r)
    (r_State r) (r_CurrentStageID r) (r_CurrentStageIndex r) (r_RequiredAckPercent r)
    (r_Guardrails r) (r_GuardrailFailures r) (pg_timestamp (r_StageStartedAt r))
    (whole_seconds (r_DeploymentTimeout r)) (whole_seconds (r_RolloutMaxDuration r))
    (whole_seconds (r_RollbackTimeout r)) (r_RollbackStatus r) (pg_timestamp (r_CreatedAt r))
    (pg_timestamp (r_UpdatedAt r)).

Definition stage_row (rolloutID : string) (i : Z) (s : Stage) : StageRow :=
  MkStageRow (s_ID s) rolloutID (i + 1) (s_Percentage s) (durationSeconds (s_MinimumDuration s)).
Definition stored_stage (s : Stage) : Stage :=
  MkStage (s_ID s) (s_Percentage s) (whole_seconds (s_MinimumDuration s)).
Fixpoint stage_rows (rolloutID : string) (i : Z) (stages : list Stage) : list StageRow :=
  match stages with
  | [] => []
  | s :: rest => stage_row rolloutID i s :: stage_rows rolloutID (i + 1) rest
  end.
Fixpoint add_stages (rows : list StageRow) (table : gmap string StageRow) : gmap string StageRow :=
  match rows with [] => table | g :: rest => add_stages rest (<[gw_id g := g]> table) end.

Definition target_key (t : StageTarget) : string * string * string :=
  (st_RolloutID t, st_StageID t, st_AgentID t).
Definition target_row (t : StageTarget) : TargetRow :=
  MkTargetRow (st_RolloutID t) (st_StageID t) (st_AgentID t) (st_Bucket t)
    (st_ExpectedVersionID t) (st_SnapshotRevision t) (TargetStatus_string (st_Status t))
    (pg_timestamp (st_CreatedAt t)) (pg_timestamp <$> nullableTime (st_AckedAt t)).
Definition stored_target (t : StageTarget) : StageTarget :=
  MkStageTarget (st_RolloutID t) (st_StageID t) (st_AgentID t) (st_Bucket t)
    (st_ExpectedVersionID t) (st_SnapshotRevision t) (pg_timestamp (st_CreatedAt t))
    (pg_timestamp (st_AckedAt t)) (st_Status t).
Definition put_target (table : gmap (string * string * string) TargetRow) (t : StageTarget)
    : gmap (string * string * string) TargetRow := <[target_key t := target_row t]> table.
Definition without_cohort (rolloutID stageID : string)
    (table : gmap (string * string * string) TargetRow) :=
  filter (λ kt, ¬ (tw_rollout_id kt.2 = rolloutID ∧ tw_stage_id kt.2 = stageID)) table.

(** * Cohorts *)

Lemma insertStageTarget_in_tx ctx t d0 d w (Q : res unit → Conn → Prop) :
  in_tx d0 d w →
  (∀ e d' w', in_tx d0 d' w' → Q (Err e) w') →
  (∀ w', in_tx d0 (set_targets (put_target (db_targets d) t) d) w' → Q (Ok tt) w') →
  wp (insertStageTarget ctx t) Q w.
Proof.
  intros Hw H1 H2. apply wp_mapped.
  eapply wp_Exec_in_tx; [done|intros e d' w' ?; by eapply H1|]. intros [] d' w' Hs Hw'.
  apply H2. assert (d' = set_targets (put_target (db_targets d) t) d) as <-; [|done].
  refine ((_ : yields (upsert_target _ _ _ _ _ _ _ _ _) (λ _ d', d' = _) d) _ _ Hs).
  unfold upsert_target, put_target, target_key, target_row, nullableTime. yields_run.
  all: destruct (time_IsZero (st_AckedAt t)); simplify_eq; done.
Qed.

Lemma insert_targets_in_tx ctx ts d0 (Q : res unit → Conn → Prop) : ∀ d w,
  in_tx d0 d w →
  (∀ e d' w', in_tx d0 d' w' → Q (Err e) w') →
  (∀ w', in_tx d0 (set_targets (foldl put_target (db_targets d) ts) d) w' → Q (Ok tt) w') →
  wp (for_each ts (insertStageTarget ctx)) Q w.
Proof.
  induction ts as [|t ts IH]; intros d w Hw H1 H2; cbn [for_each foldl].
  { apply wp_ret, H2. by destruct d. }
  wp_step. eapply insertStageTarget_in_tx; [done|done|]. intros w1 Hw1. by apply (IH _ w1 Hw1).
Qed.

(** The rows of a cohort are replaced in one transaction: an error leaves them
    all, or, when the answer to the commit is lost, none. *)
Lemma ReplaceStageTargets_spec ctx rolloutID stageID ts d w :
  outside d w →
  wp (ReplaceStageTargets ctx rolloutID stageID ts) (λ r w',
    let d' := set_targets (foldl put_target (without_cohort rolloutID stageID (db_targets d)) ts) d in
    cn_tx w' = None ∧
    match r with Ok _ => cn_db w' = d' | Err _ => cn_db w' = d ∨ cn_db w' = d' end) w.
Proof.
  intros Hw. unfold ReplaceStageTargets. wp_step. apply wp_mapped. eapply wp_Begin; [done| |].
  { intros e w1 [? ?]. auto. }
  intros w1 Hw1. apply wp_defer. wp_step. apply wp_mapped.
  eapply wp_Exec_in_tx; [done|intros e d1 w2 [? _]; by auto|]. intros [] d1 w2 Hdel Hw2.
  assert (d1 = set_targets (without_cohort rolloutID stageID (db_targets d)) d) as ->.
  { refine ((_ : yields (delete_targets _ _) (λ _ d', d' = _) d) _ _ Hdel).
    unfold delete_targets. by yields_run. }
  wp_step. eapply insert_targets_in_tx; [exact Hw2|intros e d3 w3 [? _]; by auto|]. intros w3 Hw3.
  apply wp_mapped. eapply wp_Commit; [exact Hw3|intros e w5 Heq n; split; [done|exact Heq]|].
  intros w5 Heq n. by split.
Qed.

(** Without a transaction the targets that come first may be all that is
    written. *)
Lemma SaveStageTargets_spec ctx ts : ∀ d w,
  outside d w →
  wp (SaveStageTargets ctx ts) (λ r w', cn_tx w' = None ∧
    ∃ n, cn_db w' = set_targets (foldl put_target (db_targets d) (take n ts)) d ∧
         (r = Ok tt → n = length ts)) w.
Proof.
  unfold SaveStageTargets. induction ts as [|t ts IH]; intros d w Hw; cbn [for_each].
  { apply wp_ret. destruct Hw as [<- ?]. split; [done|]. exists 0%nat. by destruct (cn_db w). }
  wp_step. unfold insertStageTarget at 1. apply wp_mapped.
  assert (∀ a d', upsert_target (st_RolloutID t) (st_StageID t) (st_AgentID t) (st_Bucket t)
    (st_ExpectedVersionID t) (st_SnapshotRevision t) (TargetStatus_string (st_Status t))
    (st_CreatedAt t) (nullableTime (st_AckedAt t)) d = (Ok a, d') →
    d' = set_targets (put_target (db_targets d) t) d) as Hput.
  { change (yields (upsert_target (st_RolloutID t) (st_StageID t) (st_AgentID t) (st_Bucket t)
      (st_ExpectedVersionID t) (st_SnapshotRevision t) (TargetStatus_string (st_Status t))
      (st_CreatedAt t) (nullableTime (st_AckedAt t)))
      (λ _ d', d' = set_targets (put_target (db_targets d) t) d) d).
    unfold upsert_target, put_target, target_key, target_row, nullableTime. yields_run.
    all: destruct (time_IsZero (st_AckedAt t)); simplify_eq; done. }
  assert (∀ w' n, outside d w' → n = 0%nat →
    cn_db w' = set_targets (foldl put_target (db_targets d) (take n (t :: ts))) d) as Hnone.
  { intros w' n [<- _] ->. simpl. by destruct (cn_db w'). }
  eapply wp_Exec_outside; [exact Hw|..].
  - intros err b n w' _ Hw'. split; [apply Hw'|]. exists 0%nat. split; [by apply Hnone|done].
  - intros e d' w' _ Hw'. split; [apply Hw'|]. exists 0%nat. split; [by apply Hnone|done].
  - intros err a n d' w' _ Hs%Hput [Hdb Htx]. split; [done|]. exists 1%nat. split; [|done].
    by rewrite Hdb, Hs.
  - intros a d' w' Hs%Hput Hw'. subst d'. eapply wp_mono; [by apply IH|].
    intros r w2 [Htx (n & Hn & Hlen)]. split; [done|]. exists (S n). split; [exact Hn|].
    intros Hr. simpl. by rewrite (Hlen Hr).
Qed.

(** ** The rows of a cohort *)

Lemma foldl_put_lookup ts : ∀ table k row, NoDup (target_key <$> ts) →
  foldl put_target table ts !! k = Some row ↔
  (∃ t, t ∈ ts ∧ k = target_key t ∧ row = target_row t) ∨
  table !! k = Some row ∧ k ∉ target_key <$> ts.
Proof.
  induction ts as [|t ts IH]; intros table k row Hnd; cbn [foldl].
  { split; [intros ?; right; split; [done|apply not_elem_of_nil]|].
    by intros [(? & ?%elem_of_nil & _)|[? _]]. }
  apply NoDup_cons in Hnd as [Hnin Hnd]. rewrite (IH _ _ _ Hnd). unfold put_target at 1.
  rewrite lookup_insert_Some, fmap_cons, not_elem_of_cons. split.
  - intros [(u & Hu & ? & ?)|[[[<- <-]|[? ?]] ?]].
    + left. exists u. split; [by right|done].
    + left. exists t. split; [by left|done].
    + right. auto.
  - intros [(u & [->|Hu]%elem_of_cons & -> & ->)|(? & ? & ?)].
    + right. auto.
    + left. eauto.
    + right. split; [|done]. right. split; [|done]. congruence.
Qed.

(** [d'] is [d] with the cohort of a stage replaced by [ts]. *)
Definition cohort_replaced (d : Database) (rolloutID stageID : string) (ts : list StageTarget)
    (d' : Database) : Prop :=
  d' = set_targets (db_targets d') d ∧
  ∀ k row, db_targets d' !! k = Some row ↔
    (∃ t, t ∈ ts ∧ k = target_key t ∧ row = target_row t) ∨
    db_targets d !! k = Some row ∧ ¬ (tw_rollout_id row = rolloutID ∧ tw_stage_id row = stageID).

Lemma cohort_replaced_set d rolloutID stageID ts :
  db_ok d → NoDup (st_AgentID <$> ts) →
  Forall (λ t, st_RolloutID t = rolloutID ∧ st_StageID t = stageID) ts →
  cohort_replaced d rolloutID stageID ts
    (set_targets (foldl put_target (without_cohort rolloutID stageID (db_targets d)) ts) d).
Proof.
  intros Hok Hnd Hts. split; [done|]. intros k row. cbn [db_targets set_targets].
  assert (NoDup (target_key <$> ts)) as Hk.
  { clear Hts. induction ts as [|t ts IH]; [constructor|]. apply NoDup_cons in Hnd as [Hn Hnd].
    constructor; [|by apply IH]. intros (u & Hu & Hin)%list_elem_of_fmap. apply Hn, list_elem_of_fmap.
    exists u. split; [|done]. by injection Hu. }
  rewrite (foldl_put_lookup ts) by done. unfold without_cohort. rewrite map_lookup_filter_Some. cbn [snd].
  split; (intros [?|[? ?]]; [by left|right]).
  - tauto.
  - split; [done|]. intros (t & -> & Hin)%list_elem_of_fmap.
    destruct (ok_targets _ Hok _ _ ltac:(eassumption)) as ([= ? ? ?] & _).
    rewrite Forall_forall in Hts. destruct (Hts t Hin) as [? ?].
    match goal with Hno : ¬ _ |- _ => apply Hno; split; congruence end.
Qed.

Definition scanned_target (row : TargetRow) : StageTarget :=
  MkStageTarget (tw_rollout_id row) (tw_stage_id row) (tw_agent_id row) (tw_bucket row)
    (tw_expected_version_id row) (tw_snapshot_revision row) (tw_created_at row)
    (default 0 (tw_acked_at row)) (TargetStatus_of (tw_status row)).

Lemma scan_target_rows rows :
  scan_rows scanStageTarget (target_columns <$> rows) = Ok (scanned_target <$> rows).
Proof.
  induction rows as [|row rows IH]; [done|]. rewrite !fmap_cons. cbn [scan_rows]. rewrite IH.
  by destruct row as [? ? ? ? ? ? ? ? []].
Qed.

Lemma scanned_target_row `{!PostgresLaws} t : scanned_target (target_row t) = stored_target t.
Proof.
  unfold scanned_target, target_row, stored_target; cbn -[TargetStatus_of TargetStatus_string].
  rewrite TargetStatus_of_string. f_equal. unfold nullableTime, time_IsZero.
  destruct (st_AckedAt t =? 0) eqn:Hz; [|done]. apply Z.eqb_eq in Hz as ->. cbn.
  by rewrite pg_timestamp_zero.
Qed.

(** The cohort that is read back. *)
Lemma ListStageTargets_reads `{!PostgresLaws} ctx rolloutID stageID ts d0 d w :
  uninterrupted ctx → outside d w → db_ok d → cohort_replaced d0 rolloutID stageID ts d →
  NoDup (st_AgentID <$> ts) →
  Forall (λ t, st_RolloutID t = rolloutID ∧ st_StageID t = stageID) ts →
  text_ok rolloutID = true → text_ok stageID = true →
  wp (ListStageTargets ctx rolloutID stageID) (λ res w',
    (∃ l, res = Ok l ∧ l ≡ₚ stored_target <$> ts) ∧ outside d w') w.
Proof.
  intros Hctx Hw Hok [Hd Hrows] Hnd Hts Ht1 Ht2. unfold ListStageTargets.
  assert (targets_of d rolloutID stageID ≡ₚ target_row <$> ts) as Hp.
  { unfold targets_of. apply NoDup_Permutation.
    - eapply sublist_NoDup; [|apply sublist_filter]. apply NoDup_fmap_2_strong; [|apply NoDup_map_to_list].
      intros [k r] [k' r'] Hk%elem_of_map_to_list Hk'%elem_of_map_to_list Heq. simpl in Heq. subst r'.
      destruct (ok_targets _ Hok _ _ Hk) as [-> _]. by destruct (ok_targets _ Hok _ _ Hk') as [-> _].
    - apply (NoDup_fmap_1 tw_agent_id). rewrite <-list_fmap_compose. exact Hnd.
    - intros row. rewrite list_elem_of_filter, !list_elem_of_fmap. split.
      + intros [[Hr Hs] ([k row'] & -> & Hk%elem_of_map_to_list)]. simpl in *.
        apply Hrows in Hk as [(t & Hin & _ & ->)|[_ Hno]]; [by exists t|tauto].
      + intros (t & -> & Hin). rewrite Forall_forall in Hts. destruct (Hts t Hin) as [<- <-].
        split; [done|]. exists (target_key t, target_row t). split; [done|].
        apply elem_of_map_to_list, Hrows. left. by exists t. }
  wp_step. apply wp_mapped. eapply wp_Exec_outside; [exact Hw|..].
  - intros err b n w' Ht. by rewrite Hctx in Ht.
  - intros e d' w' He _. exfalso. revert He. unfold mbind, M_bind.
    by rewrite (run_text _ _ Ht1), (run_text _ _ Ht2).
  - intros err a n d' w' Ht. by rewrite Hctx in Ht.
  - intros a d' w' Ha Hw'.
    assert (a = target_columns <$> SortFunc target_le (targets_of d rolloutID stageID) ∧ d' = d) as [-> ->].
    { refine ((_ : yields _ (λ a d', a = _ ∧ d' = d) d) _ _ Ha). by yields_run. }
    apply wp_lift. rewrite scan_target_rows. split; [|done]. eexists. split; [done|].
    rewrite SortFunc_perm, Hp, <-list_fmap_compose. apply Permutation_refl'.
    apply list_fmap_ext. intros i t _. apply scanned_target_row.
Qed.

(** * Creating a rollout *)

Section rollouts.
Context `{Codec (list string), Codec (list Guardrail.Rule), Codec (gmap string Z)}.

(** [row] is what the columns keep of [r]. *)
Definition row_for (r : Rollout) (row : RolloutRow) : Prop :=
  ∃ encoded services guardrails failures,
    json_Marshal (r_TargetServices r) = Ok encoded ∧ pg_jsonb encoded = Ok services ∧
    pg_jsonb (jsonValue (r_Guardrails r) "[]") = Ok guardrails ∧
    pg_jsonb (jsonValue (r_GuardrailFailures r) "{}") = Ok failures ∧
    row = row_of services guardrails failures r.

Lemma rollout_params_yields encoded r (P : RolloutRow → Database → Prop) d :
  json_Marshal (r_TargetServices r) = Ok encoded →
  (∀ row, row_for r row → durationSeconds (r_DeploymentTimeout r) ≤ int4_max →
     durationSeconds (r_RolloutMaxDuration r) ≤ int4_max →
     durationSeconds (r_RollbackTimeout r) ≤ int4_max → P row d) →
  yields (rollout_params encoded r) P d.
Proof.
  intros Hm HP. unfold rollout_params. yields_run. apply HP; [|lia..]. unfold row_for, row_of. eauto 10.
Qed.

(** [d'] is [d] with the row of [r] and the rows of its stages. *)
Definition rollout_added (d : Database) (r : Rollout) (stages : list Stage) (d' : Database) : Prop :=
  db_rollouts d !! r_ID r = None ∧
  (∃ row, row_for r row ∧ active_elsewhere row d = false ∧
     d' = set_stages (add_stages (stage_rows (r_ID r) 0 stages) (db_stages d))
            (set_rollouts (<[r_ID r := row]> (db_rollouts d)) d)) ∧
  NoDup (s_ID <$> stages) ∧ (∀ s, s ∈ stages → db_stages d !! s_ID s = None) ∧
  (∀ s, s ∈ stages → durationSeconds (s_MinimumDuration s) ≤ int4_max).

Lemma insert_rollout_yields encoded r d :
  json_Marshal (r_TargetServices r) = Ok encoded →
  yields (insert_rollout encoded r) (λ _ d',
    ∃ row, row_for r row ∧ active_elsewhere row d = false ∧
      db_rollouts d !! r_ID r = None ∧ d' = set_rollouts (<[r_ID r := row]> (db_rollouts d)) d) d.
Proof.
  intros Hm. unfold insert_rollout. yields_run. apply (rollout_params_yields _ _ _ _ Hm).
  intros row Hrow _ _ _. assert (rw_id row = r_ID r) as Hid.
  { destruct Hrow as (? & ? & ? & ? & _ & _ & _ & _ & ->). done. }
  yields_run. apply keep_check_rollout. intros _. yields_run. apply yields_rollout_references.
  intros. yields_run. rewrite Hid, has_row_false in *. by exists row.
Qed.

Lemma insert_stage_yields s rolloutID i d :
  yields (insert_stage (s_ID s) rolloutID (i + 1) (s_Percentage s) (durationSeconds (s_MinimumDuration s)))
    (λ _ d', db_stages d !! s_ID s = None ∧ durationSeconds (s_MinimumDuration s) ≤ int4_max ∧
             d' = set_stages (<[s_ID s := stage_row rolloutID i s]> (db_stages d)) d) d.
Proof.
  unfold insert_stage, add_stage. yields_run. rewrite has_row_false in *. split; [done|]. split; [lia|done].
Qed.

Lemma insert_stages_spec ctx rolloutID d0 (Q : res unit → Conn → Prop) stages : ∀ i d w,
  in_tx d0 d w →
  (∀ e d' w', in_tx d0 d' w' → Q (Err e) w') →
  (∀ w', NoDup (s_ID <$> stages) → (∀ s, s ∈ stages → db_stages d !! s_ID s = None) →
     (∀ s, s ∈ stages → durationSeconds (s_MinimumDuration s) ≤ int4_max) →
     in_tx d0 (set_stages (add_stages (stage_rows rolloutID i stages) (db_stages d)) d) w' →
     Q (Ok tt) w') →
  wp (insert_stages ctx rolloutID i stages) Q w.
Proof.
  induction stages as [|s stages IH]; intros i d w Hw HE HK; cbn [insert_stages].
  { apply wp_ret, HK; [constructor|by intros ? ?%elem_of_nil..|]. by destruct d. }
  wp_step. apply wp_mapped. eapply wp_Exec_in_tx; [done|intros e d' w' ?; by eapply HE|].
  intros [] d' w1 (Hnew & Hdur & ->)%insert_stage_yields Hw1.
  apply (IH (i + 1) _ w1 Hw1 HE). intros w' Hnd Hfree Hds Hw'. apply HK; [..|exact Hw'].
  - apply NoDup_cons. split; [|done]. intros (s' & Hs' & Hin)%list_elem_of_fmap.
    specialize (Hfree s' Hin). cbn in Hfree. rewrite <-Hs', lookup_insert_eq in Hfree. done.
  - intros s' [->|Hin]%elem_of_cons; [done|]. specialize (Hfree s' Hin). cbn in Hfree.
    by apply lookup_insert_None in Hfree as [? _].
  - intros s' [->|Hin]%elem_of_cons; [done|]. by apply Hds.
Qed.

(** A rollout and its stages are written in one transaction. *)
Lemma CreateRollout_spec ctx r stages d w :
  outside d w →
  wp (CreateRollout ctx r stages) (λ res w', cn_tx w' = None ∧
    match res with
    | Ok _ => rollout_added d r stages (cn_db w')
    | Err _ => cn_db w' = d ∨ rollout_added d r stages (cn_db w')
    end) w.
Proof.
  intros Hw. unfold CreateRollout. destruct (json_Marshal _) as [encoded|e] eqn:Hm.
  2:{ apply wp_throw. destruct Hw. auto. }
  wp_step. apply wp_mapped. eapply wp_Begin; [done|intros e w1 [? ?]; by auto|].
  intros w1 Hw1. apply wp_defer. wp_step. apply wp_mapped.
  eapply wp_Exec_in_tx; [done|intros e d1 w2 [? _]; by auto|].
  intros [] d1 w2 (row & Hrow & Hact & Hnew & ->)%insert_rollout_yields Hw2; [|done].
  wp_step. eapply insert_stages_spec; [exact Hw2|intros e d3 w3 [? _]; by auto|].
  intros w3 Hnd Hfree Hds Hw3.
  assert (∀ w, cn_db w = set_stages (add_stages (stage_rows (r_ID r) 0 stages) (db_stages d))
     (set_rollouts (<[r_ID r:=row]> (db_rollouts d)) d) → rollout_added d r stages (cn_db w)) as Hadd.
  { intros w4 ->. split; [done|]. split; [by exists row|done]. }
  apply wp_mapped. eapply wp_Commit; [exact Hw3|..].
  - intros e w5 Heq n. split; [done|]. destruct Heq; [by left|right; by apply Hadd].
  - intros w5 Heq n. split; [done|by apply Hadd].
Qed.

(** ** Creating one succeeds *)

Context (services_ok : list string → Prop) (guardrails_ok : list Guardrail.Rule → Prop)
  (failures_ok : gmap string Z → Prop).
Context `{!JsonColumn (list string) services_ok "[]" [],
  !JsonColumn (list Guardrail.Rule) guardrails_ok "[]" [],
  !JsonColumn (gmap string Z) failures_ok "{}" ∅}.

(** The columns can hold the rollout. *)
Record storable_rollout (r : Rollout) : Prop := {
  sr_texts : Forall (λ s, text_ok s = true)
    [r_ID r; r_TenantID r; r_ConfigDefinitionID r; r_ConfigKey r; r_Environment r;
     r_StableVersionID r; r_CandidateVersionID r; r_CurrentStageID r];
  sr_services : services_ok (r_TargetServices r);
  sr_guardrails : guardrails_ok (r_Guardrails r);
  sr_failures : failures_ok (r_GuardrailFailures r);
  sr_version : 1 ≤ r_CandidateVersion r ≤ int4_max;
  sr_index : 0 ≤ r_CurrentStageIndex r ≤ int4_max;
  sr_durations : Forall (λ d, durationSeconds d ≤ int4_max)
    [r_DeploymentTimeout r; r_RolloutMaxDuration r; r_RollbackTimeout r];
  sr_environment : environment_ok (r_Environment r) = true;
  sr_state : r_State r ≠ StateUnset }.
Record storable_stage (s : Stage) : Prop := {
  ss_text : text_ok (s_ID s) = true;
  ss_percentage : 1 ≤ s_Percentage s ≤ 100;
  ss_duration : durationSeconds (s_MinimumDuration s) ≤ int4_max }.

(** What the rollout refers to is in the database. *)
Definition references_known (d : Database) (r : Rollout) : Prop :=
  refers (db_tenants d) (r_TenantID r) ∧ refers (db_definitions d) (r_ConfigDefinitionID r) ∧
  refers (db_versions d) (r_StableVersionID r) ∧ refers (db_versions d) (r_CandidateVersionID r).

(** No other rollout of its definition and environment is active. *)
Definition slot_free (d : Database) (r : Rollout) : Prop :=
  ∀ id r', db_rollouts d !! id = Some r' → active_state (rw_state r') = true →
    rw_config_definition_id r' = r_ConfigDefinitionID r → rw_environment r' ≠ r_Environment r.

Lemma rollout_params_run r : storable_rollout r →
  ∃ encoded row, json_Marshal (r_TargetServices r) = Ok encoded ∧ row_for r row ∧
    ∀ d, rollout_params encoded r d = (Ok row, d).
Proof.
  intros [Ht Hs Hg Hf Hv Hi Hd _ _].
  destruct (column_value _ Hs) as (encoded & services & Hm & Hj & _).
  destruct (jsonValue_column _ Hg) as (guardrails & Hg' & _).
  destruct (jsonValue_column _ Hf) as (failures & Hf' & _).
  exists encoded, (row_of services guardrails failures r). split_and!; [done|by exists encoded, services, guardrails, failures|].
  intros d. rewrite !Forall_cons in Ht. rewrite !Forall_cons in Hd. destruct Ht as (?&?&?&?&?&?&?&?&_), Hd as (?&?&?&_).
  pose proof (durationSeconds_nonneg (r_DeploymentTimeout r)).
  pose proof (durationSeconds_nonneg (r_RolloutMaxDuration r)).
  pose proof (durationSeconds_nonneg (r_RollbackTimeout r)).
  unfold rollout_params. run_stmt; try done; try (unfold int4_max in *; lia).
  - apply State_string_ok.
  - apply RollbackStatus_string_ok.
Qed.

Lemma insert_rollout_run r d : storable_rollout r → references_known d r → slot_free d r →
  db_rollouts d !! r_ID r = None →
  ∃ encoded row, json_Marshal (r_TargetServices r) = Ok encoded ∧
    insert_rollout encoded r d = (Ok tt, set_rollouts (<[r_ID r := row]> (db_rollouts d)) d).
Proof.
  intros Hr (Ht & Hd & Hs & Hv) Hslot Hnew.
  destruct (rollout_params_run r Hr) as (encoded & row & Hm & Hrow & Hrun).
  exists encoded, row. split; [done|]. unfold insert_rollout.
  eapply run_bind; [apply Hrun|]. eapply run_bind; [reflexivity|].
  destruct Hrow as (e & ts & gs & fs & _ & _ & _ & _ & ->). destruct Hr as [Htx _ _ _ Hver Hi Hdur Henv Hst].
  eapply run_bind.
  { unfold check_rollout. run_stmt; try apply run_check; cbn [row_of rw_candidate_version_number
      rw_current_stage_index rw_deployment_timeout_seconds rw_environment rw_rollback_status
      rw_rollback_timeout_seconds rw_rollout_max_duration_seconds rw_state];
      try (apply Z.leb_le, durationSeconds_nonneg); try done; try lia.
    - by destruct (r_RollbackStatus r).
    - by apply state_ok_string. }
  eapply run_bind; [apply run_unique, has_row_false, Hnew|]. eapply run_bind; [apply run_unique|].
  { unfold active_elsewhere. destruct (active_state _); [|done]. cbn [andb]. apply some_row_false.
    intros id r' Hr'. destruct (active_state (rw_state r')) eqn:Ha; [|by rewrite andb_false_r].
    rewrite andb_true_r. apply andb_false_iff. right. apply bool_decide_eq_false.
    intros [Hc He]. by eapply Hslot. }
  eapply run_bind; [|reflexivity]. unfold rollout_references. run_stmt; try done. by apply run_references.
Qed.

Lemma insert_stages_run ctx r d0 stages : uninterrupted ctx →
  Forall storable_stage stages → NoDup (s_ID <$> stages) →
  ∀ i d w, in_tx d0 d w → refers (db_rollouts d) r → 0 ≤ i → i + Z.of_nat (length stages) ≤ int4_max →
  (∀ s, s ∈ stages → db_stages d !! s_ID s = None) →
  (∀ id g, db_stages d !! id = Some g → gw_rollout_id g = r → gw_stage_order g ≤ i) →
  text_ok r = true →
  wp (insert_stages ctx r i stages)
    (λ res w', res = Ok tt ∧
       in_tx d0 (set_stages (add_stages (stage_rows r i stages) (db_stages d)) d) w') w.
Proof.
  intros Hctx. induction 1 as [|s stages Hs _ IH]; intros Hnd i d w Hw Hr Hi Hlen Hfree Hord Htx;
    cbn [insert_stages].
  { apply wp_ret. split; [done|]. by destruct d. }
  apply NoDup_cons in Hnd as [Hnin Hnd]. cbn [length] in Hlen.
  assert (insert_stage (s_ID s) r (i + 1) (s_Percentage s) (durationSeconds (s_MinimumDuration s)) d
    = (Ok tt, set_stages (<[s_ID s := stage_row r i s]> (db_stages d)) d)) as Hrun.
  { destruct Hs as [H3 H4 H5]. pose proof (durationSeconds_nonneg (s_MinimumDuration s)).
    unfold insert_stage. run_stmt; try done; try (unfold int4_max in *; lia).
    unfold add_stage. run_stmt; simpl; try done; try lia.
    - apply has_row_false, Hfree. by left.
    - apply some_row_false. intros id g Hg. apply bool_decide_eq_false. intros [Hg1 Hg2].
      specialize (Hord _ _ Hg Hg1). simpl in Hg2. lia. }
  destruct Hw as [<- Htxd].
  assert (this_db w = d) as Hthis by (unfold this_db; by rewrite Htxd).
  rewrite <-Hthis in Hrun at 1. wp_step. apply wp_mapped. unfold wp.
  rewrite (Exec_runs _ _ _ _ _ Hctx Hrun). cbn [fst snd].
  set (d1 := set_stages (<[s_ID s := stage_row r i s]> (db_stages d)) d).
  assert (in_tx (cn_db w) d1 (trip (put_db d1 w))) as Hw1
    by (unfold put_db, trip, in_tx; by rewrite Htxd).
  refine (IH Hnd (i + 1) d1 _ Hw1 _ _ _ _ _ _).
  - done.
  - lia.
  - lia.
  - intros s' Hin. cbn. apply lookup_insert_None. split; [apply Hfree; by right|].
    intros Heq. apply Hnin, list_elem_of_fmap. by exists s'.
  - intros id g. cbn. intros [[_ <-]|[_ Hg]]%lookup_insert_Some Hgr; simpl; [lia|].
    specialize (Hord _ _ Hg Hgr). lia.
  - done.
Qed.

Lemma CreateRollout_runs ctx r stages d w :
  uninterrupted ctx → outside d w → db_ok d → storable_rollout r → references_known d r →
  slot_free d r → db_rollouts d !! r_ID r = None → Forall storable_stage stages →
  NoDup (s_ID <$> stages) → (∀ s, s ∈ stages → db_stages d !! s_ID s = None) →
  Z.of_nat (length stages) ≤ int4_max →
  wp (CreateRollout ctx r stages) (λ res w', res = Ok tt ∧ cn_tx w' = None ∧
    rollout_added d r stages (cn_db w')) w.
Proof.
  intros Hctx Hw Hok Hr Href Hslot Hnew Hst Hnd Hfree Hlen.
  cut (wp (CreateRollout ctx r stages) (λ res _, res = Ok tt) w).
  { intros Hres. pose proof (CreateRollout_spec ctx r stages d w Hw) as Hspec. unfold wp in *.
    rewrite Hres in Hspec. by split. }
  destruct (insert_rollout_run r d Hr Href Hslot Hnew) as (encoded & row & Hm & Hrun).
  unfold CreateRollout. rewrite Hm. wp_step. apply wp_mapped.
  destruct Hw as [<- Htx]. unfold Begin, wp at 1. rewrite Hctx. cbn [fst snd].
  apply wp_defer. wp_step. apply wp_mapped. unfold wp at 1.
  rewrite (Exec_runs _ _ _ _ _ Hctx (Hrun : insert_rollout encoded r (this_db (MkConn _ (Some _) _)) = _)).
  cbn [fst snd]. wp_step. eapply wp_mono.
  - apply (insert_stages_run ctx (r_ID r) (cn_db w) stages Hctx Hst Hnd 0
      (set_rollouts (<[r_ID r := row]> (db_rollouts (cn_db w))) (cn_db w))).
    + by split.
    + cbn. unfold refers. by rewrite lookup_insert_eq.
    + done.
    + done.
    + exact Hfree.
    + intros id g Hg Hgr. destruct (sg_row _ _ (ok_stages _ Hok) _ _ Hg) as (_ & [? Hs] & _).
      rewrite Hgr in Hs. congruence.
    + pose proof (sr_texts _ Hr) as Ht. by apply Forall_cons in Ht as [? _].
  - intros res w' [-> _]. apply wp_mapped. unfold Commit, wp. by rewrite Hctx.
Qed.

(** ** Reading it back *)

Lemma scanRollout_row_for r row : storable_rollout r → row_for r row →
  scanRollout (rollout_columns row) = Ok (stored_rollout r).
Proof.
  intros Hr (encoded & services & guardrails & failures & Hm & Hs & Hg & Hf & ->).
  destruct (column_value _ (sr_services _ Hr)) as (e' & t' & Hm' & Hs' & Hu).
  assert (e' = encoded) as -> by congruence. assert (t' = services) as -> by congruence.
  destruct (jsonValue_column _ (sr_guardrails _ Hr)) as (t2 & Hg' & Hu2).
  assert (t2 = guardrails) as -> by congruence.
  destruct (jsonValue_column _ (sr_failures _ Hr)) as (t3 & Hf' & Hu3).
  assert (t3 = failures) as -> by congruence.
  pose proof (sr_durations _ Hr) as Hd. rewrite !Forall_cons in Hd. destruct Hd as (?&?&?&_).
  unfold rollout_columns, row_of, scanRollout; cbn -[unmarshal_field State_of RollbackStatus_of
    State_string RollbackStatus_string int64_wrap Z.mul].
  rewrite Hu, Hu2, Hu3. cbn -[unmarshal_field State_of RollbackStatus_of
    State_string RollbackStatus_string int64_wrap Z.mul].
  rewrite !scanned_seconds, State_of_string, RollbackStatus_of_string by first [done|apply Hr].
  done.
Qed.

Context `{!PostgresLaws}.

(** The statement of [GetRollout] reads the row of the identifier. *)
Lemma select_rollout_run scan id d :
  range_ok scan → db_ok d → text_ok id = true →
  (id ← text id; db ← get_world; select_row (rollout_columns <$>
    select scan (db_rollouts db) (λ r, bool_decide (rw_id r = id)) (λ _ _, true))) d
  = (match db_rollouts d !! id with
     | Some row => Ok (rollout_columns row) | None => Err ErrNoRows end, d).
Proof.
  intros Hscan Hok Htx. unfold mbind at 1, M_bind at 1. rewrite (run_text _ _ Htx).
  unfold mbind, M_bind, get_world. rewrite (select_key _ Hscan _ _ rw_id).
  - by destruct (db_rollouts d !! id).
  - intros k x Hx. by apply (ro_row _ _ _ _ (ok_rollouts _ Hok)).
Qed.

Lemma GetRollout_reads ctx id d w r row :
  uninterrupted ctx → outside d w → db_ok d → db_rollouts d !! id = Some row →
  row_for r row → storable_rollout r → text_ok id = true →
  wp (GetRollout ctx id) (λ res w', res = Ok (stored_rollout r) ∧ outside d w') w.
Proof.
  intros Hctx Hw Hok Hrow Hfor Hr Htx. unfold GetRollout. wp_step. do 2 apply wp_mapped.
  eapply wp_Query_reads; [done|done|intros; by yields_run|]. intros scan w' Hscan Hw'.
  rewrite (select_rollout_run scan id d Hscan Hok Htx), Hrow.
  cbn [fst]. unfold scan_rollout_row. apply wp_mapped, wp_lift.
  by rewrite (scanRollout_row_for r).
Qed.

Lemma GetRollout_missing ctx id d w :
  uninterrupted ctx → outside d w → db_ok d → db_rollouts d !! id = None → text_ok id = true →
  wp (GetRollout ctx id) (λ res w', res = Err Rollout.ErrNotFound ∧ outside d w') w.
Proof.
  intros Hctx Hw Hok Hrow Htx. unfold GetRollout. wp_step. do 2 apply wp_mapped.
  eapply wp_Query_reads; [done|done|intros; by yields_run|]. intros scan w' Hscan Hw'.
  by rewrite (select_rollout_run scan id d Hscan Hok Htx), Hrow.
Qed.

(** An interruption is reported as it is. *)
Lemma mapRolloutError_interruption e : interruption e → mapRolloutError e = e.
Proof.
  intros (Hrows & Hcode & _). unfold mapRolloutError. rewrite Hrows.
  destruct (as_PgError e) as [[code constraint]|] eqn:He; [|done].
  specialize (Hcode _ _ eq_refl). rewrite !not_elem_of_cons in Hcode. destruct Hcode as (?&?&?&?&_).
  by rewrite !bool_decide_eq_false_2.
Qed.

Lemma GetRollout_errors ctx id d w :
  outside d w → db_ok d → text_ok id = true →
  wp (GetRollout ctx id) (λ res w', outside d w' ∧
    match res with
    | Ok r => ∃ row, db_rollouts d !! id = Some row ∧ scanRollout (rollout_columns row) = Ok r
    | Err e => e = Rollout.ErrNotFound ∧ db_rollouts d !! id = None ∨
               interruption e ∨
               ∃ row e', db_rollouts d !! id = Some row ∧
                 scanRollout (rollout_columns row) = Err e' ∧ e = mapRolloutError e'
    end) w.
Proof.
  intros Hw Hok Htx. unfold GetRollout. wp_step. do 2 apply wp_mapped.
  apply wp_Query. cbv beta. pose proof (pg_scan_ok (cn_trips w)) as Hscan.
  pose proof (select_rollout_run _ id d Hscan Hok Htx) as Hrun.
  eapply wp_Exec_outside; [exact Hw| |rewrite Hrun..].
  - intros err b n w' Ht Hw'. pose proof (pg_trip_interruption _ _ _ _ Ht) as Hi.
    rewrite !mapRolloutError_interruption by (rewrite ?mapRolloutError_interruption; done). auto.
  - intros e d' w' He Hw'. destruct (db_rollouts d !! id) eqn:Hrow; [done|]. injection He as <- _. auto.
  - intros err a n d' w' Ht Ha Hw'. pose proof (pg_trip_interruption _ _ _ _ Ht) as Hi.
    rewrite !mapRolloutError_interruption by (rewrite ?mapRolloutError_interruption; done).
    injection Ha as _ <-. auto.
  - intros a d' w' Ha Hw'. destruct (db_rollouts d !! id) as [row|] eqn:Hrow; [|done].
    injection Ha as <- <-. unfold scan_rollout_row. apply wp_mapped, wp_lift. split; [done|].
    destruct (scanRollout _) as [r|e] eqn:Hs; [by exists row|]. right; right. by exists row, e.
Qed.

(** A stage identifier that another rollout uses. *)
Lemma CreateRollout_stage_taken ctx r s rest d w :
  uninterrupted ctx → outside d w → storable_rollout r → references_known d r → slot_free d r →
  db_rollouts d !! r_ID r = None → storable_stage s → is_Some (db_stages d !! s_ID s) →
  wp (CreateRollout ctx r (s :: rest)) (λ res w',
    res = Err (EWrap Rollout.ErrConflict "%s" ["rollout_stages_pkey"]) ∧ outside d w') w.
Proof.
  intros Hctx Hw Hr Href Hslot Hnew Hs Htaken.
  destruct (insert_rollout_run r d Hr Href Hslot Hnew) as (encoded & row & Hm & Hrun).
  unfold CreateRollout. rewrite Hm. wp_step. apply wp_mapped.
  destruct Hw as [<- Htx]. unfold Begin, wp at 1. rewrite Hctx. cbn [fst snd].
  apply wp_defer. wp_step. apply wp_mapped. unfold wp at 1.
  rewrite (Exec_runs _ _ _ _ _ Hctx (Hrun : insert_rollout encoded r (this_db (MkConn _ (Some _) _)) = _)).
  cbn [fst snd]. wp_step. cbn [insert_stages]. wp_step. apply wp_mapped. unfold wp at 1.
  pose proof (sr_texts _ Hr) as Ht. apply Forall_cons in Ht as [Hid _]. destruct Hs as [Hsid Hp Hd].
  assert (∃ d', insert_stage (s_ID s) (r_ID r) (0 + 1) (s_Percentage s)
      (durationSeconds (s_MinimumDuration s)) (set_rollouts (<[r_ID r := row]> (db_rollouts (cn_db w))) (cn_db w))
    = (Err (unique_violation "rollout_stages_pkey"), d')) as [d' Hins].
  { pose proof (durationSeconds_nonneg (s_MinimumDuration s)). eexists. unfold insert_stage.
    run_stmt; try done; try (unfold int4_max in *; lia). unfold add_stage.
    eapply run_bind; [apply run_check; simpl; lia|]. eapply run_bind; [apply run_check; simpl; lia|].
    eapply run_bind; [apply run_check; done|]. unfold mbind, M_bind, unique, has_row. cbn [gw_id].
    rewrite bool_decide_eq_true_2 by done. reflexivity. }
  rewrite (Exec_fails _ _ _ _ _ Hctx (Hins : insert_stage _ _ _ _ _ (this_db (trip (put_db _ (MkConn _ (Some _) _)))) = _)).
  done.
Qed.

(** The rows of the stages of a new rollout are those written with it. *)
Lemma add_stages_lookup rolloutID stages : ∀ i table id g,
  NoDup (s_ID <$> stages) →
  add_stages (stage_rows rolloutID i stages) table !! id = Some g ↔
  g ∈ stage_rows rolloutID i stages ∧ gw_id g = id ∨
  table !! id = Some g ∧ id ∉ s_ID <$> stages.
Proof.
  induction stages as [|s stages IH]; intros i table id g Hnd; cbn [stage_rows add_stages].
  { split; [intros ?; right; split; [done|apply not_elem_of_nil]|].
    by intros [[?%elem_of_nil ?]|[? _]]. }
  apply NoDup_cons in Hnd as [Hnin Hnd]. rewrite IH by done.
  rewrite lookup_insert_Some, fmap_cons, not_elem_of_cons, elem_of_cons. split.
  - intros [[? ?]|[[[<- <-]|[? ?]] ?]]; [by left; split; [right|]|left|right].
    + split; [by left|done].
    + done.
  - intros [[[->|?] <-]|(? & ? & ?)]; [right|by left|right].
    + split; [by left|done].
    + split; [right; split; [|done]|done]. cbn. congruence.
Qed.

Lemma stage_rows_rollout rolloutID stages : ∀ i g,
  g ∈ stage_rows rolloutID i stages → gw_rollout_id g = rolloutID ∧ i < gw_stage_order g.
Proof.
  induction stages as [|s stages IH]; intros i g; cbn [stage_rows]; [by intros ?%elem_of_nil|].
  intros [->|Hg]%elem_of_cons; [simpl; split; [done|lia]|].
  destruct (IH _ _ Hg). split; [done|lia].
Qed.
Lemma stage_rows_sorted rolloutID stages : ∀ i,
  StronglySorted (λ a b, gw_stage_order a < gw_stage_order b) (stage_rows rolloutID i stages).
Proof.
  induction stages as [|s stages IH]; intros i; cbn [stage_rows]; constructor; [done|].
  apply Forall_forall. intros g Hg. destruct (stage_rows_rollout _ _ _ _ Hg). simpl. lia.
Qed.

Lemma scan_stage_rows rolloutID stages : ∀ i,
  (∀ s, s ∈ stages → durationSeconds (s_MinimumDuration s) ≤ int4_max) →
  scan_rows scanStage (stage_columns <$> stage_rows rolloutID i stages) = Ok (stored_stage <$> stages).
Proof.
  induction stages as [|s stages IH]; intros i Hd; [done|]. cbn [stage_rows].
  rewrite !fmap_cons. cbn [scan_rows]. rewrite IH by (intros; apply Hd; by right).
  unfold scanStage, stage_columns, stage_row; cbn -[int64_wrap Z.mul].
  rewrite scanned_seconds by (apply Hd; by left). done.
Qed.

Lemma ListStages_reads ctx d0 r stages d w :
  uninterrupted ctx → outside d w → db_ok d0 → rollout_added d0 r stages d → db_ok d →
  text_ok (r_ID r) = true →
  wp (ListStages ctx (r_ID r)) (λ res w', res = Ok (stored_stage <$> stages) ∧ outside d w') w.
Proof.
  intros Hctx Hw Hok0 (Hnew & (row & _ & _ & Hd) & Hnd & Hfree & Hds) Hok Htx.
  unfold ListStages. wp_step. apply wp_mapped.
  eapply wp_Query_reads; [done|done|intros; by yields_run|]. intros scan w' Hscan Hw'.
  assert ((id ← text (r_ID r); db ← get_world; mret (stage_columns <$>
      select scan (db_stages db) (λ g, bool_decide (gw_rollout_id g = id))
        (λ a b, gw_stage_order a <=? gw_stage_order b))) d
    = (Ok (stage_columns <$> stage_rows (r_ID r) 0 stages), d)) as ->.
  { run_stmt; [done|]. rewrite (select_ordered _ Hscan gw_stage_order _ _ (stage_rows (r_ID r) 0 stages)).
    - done.
    - intros g. rewrite bool_decide_eq_true. subst d. cbn [db_stages set_stages]. split.
      + intros Hg. destruct (stage_rows_rollout _ _ _ _ Hg). split; [done|].
        exists (gw_id g). apply add_stages_lookup; [done|]. by left.
      + intros [Hgr [k Hk]]. apply add_stages_lookup in Hk as [[? _]|[Hk _]]; [done| |done].
        destruct (sg_row _ _ (ok_stages _ Hok0) _ _ Hk) as (_ & [? Hs] & _).
        rewrite Hgr in Hs. congruence.
    - intros k k' g Hk Hk'. destruct (sg_row _ _ (ok_stages _ Hok) _ _ Hk) as [<- _].
      by destruct (sg_row _ _ (ok_stages _ Hok) _ _ Hk') as [<- _].
    - apply stage_rows_sorted. }
  cbn [fst]. apply wp_lift. by rewrite scan_stage_rows.
Qed.
End rollouts.
End rows.
End PostgresRollouts.
