(* ===== verification/PostgresConcurrency.v ===== *)
(** Histories of the PostgreSQL store: every call, with any arguments and any
    interruptions, leaves no transaction open and keeps the constraints of the
    schema and the numbering of versions.  Then the transactions that number
    the versions of a configuration, interleaved. *)

From Stdlib Require Import ZArith Lia.
From S2P Require Import Prelude GoLib Host Http Domain Guardrail Registry AgentRegistry Rollout Sql Postgres PostgresFacts PostgresInvariants PostgresSpec.
Import Domain Rollout Sql Postgres PostgresFacts PostgresInvariants PostgresSpec.
Open Scope string_scope.
Open Scope list_scope.
Open Scope Z_scope.

Module PostgresHistory.

Section history.
Context `{Sql.Postgres, Codec (gmap string string), Codec (list string),
  Codec (list Guardrail.Rule), Codec (gmap string Z)}.

(** The methods of the store. *)
Inductive operation : ∀ A, M Conn A → Prop :=
| op_Check ctx : operation _ (Check ctx)
| op_SaveAgent ctx a : operation _ (SaveAgent ctx a)
| op_GetAgent ctx id : operation _ (GetAgent ctx id)
| op_ListAgents ctx : operation _ (ListAgents ctx)
| op_SaveCredential ctx c : operation _ (SaveCredential ctx c)
| op_GetCredential ctx token : operation _ (GetCredential ctx token)
| op_TouchHeartbeat ctx id t : operation _ (TouchHeartbeat ctx id t)
| op_SaveAcknowledgement ctx k : operation _ (SaveAcknowledgement ctx k)
| op_CreateTenant ctx t : operation _ (CreateTenant ctx t)
| op_ListTenants ctx : operation _ (ListTenants ctx)
| op_GetTenant ctx id : operation _ (GetTenant ctx id)
| op_CreateDefinition ctx d : operation _ (CreateDefinition ctx d)
| op_ListDefinitions ctx id : operation _ (ListDefinitions ctx id)
| op_GetDefinitionByKey ctx id key : operation _ (GetDefinitionByKey ctx id key)
| op_CreateVersion ctx v : operation _ (CreateVersion ctx v)
| op_ListVersions ctx id : operation _ (ListVersions ctx id)
| op_GetVersionByNumber ctx id n : operation _ (GetVersionByNumber ctx id n)
| op_SaveEnvironmentState ctx s : operation _ (SaveEnvironmentState ctx s)
| op_GetEnvironmentState ctx id e : operation _ (GetEnvironmentState ctx id e)
| op_CreateRollout ctx r stages : operation _ (CreateRollout ctx r stages)
| op_GetRollout ctx id : operation _ (GetRollout ctx id)
| op_GetActiveRollout ctx id e : operation _ (GetActiveRollout ctx id e)
| op_ListActiveRollouts ctx : operation _ (ListActiveRollouts ctx)
| op_UpdateRollout ctx r : operation _ (UpdateRollout ctx r)
| op_ListStages ctx id : operation _ (ListStages ctx id)
| op_SaveStage ctx id s : operation _ (SaveStage ctx id s)
| op_SaveStageTargets ctx ts : operation _ (SaveStageTargets ctx ts)
| op_ReplaceStageTargets ctx id s ts : operation _ (ReplaceStageTargets ctx id s ts)
| op_ListStageTargets ctx id s : operation _ (ListStageTargets ctx id s)
| op_NextSnapshotRevision ctx : operation _ (NextSnapshotRevision ctx).

(** A connection on which methods have been called, on a migrated database. *)
Inductive history : Conn → Prop :=
| opened n : history (MkConn migrated None n)
| called A (m : M Conn A) w : operation A m → history w → history (m w).2.

(** ** No transaction stays open *)

Definition no_tx (w : Conn) : Prop := cn_tx w = None.

Lemma no_tx_Exec {A} ctx (stmt : M Database A) : preserves no_tx (Exec ctx stmt).
Proof.
  intros w Hw. unfold no_tx in *. apply (wp_Exec ctx stmt (λ _ w', cn_tx w' = None)); intros;
    unfold trip, put_db; by rewrite ?Hw.
Qed.
Lemma no_tx_Query {A} ctx (stmt : RangeOrder → M Database A) : preserves no_tx (Query ctx stmt).
Proof. intros w. apply no_tx_Exec. Qed.
Lemma no_tx_transaction {A} f ctx (m : M Conn A) :
  preserves no_tx (mapped f (Begin ctx);; defer_Rollback m).
Proof.
  intros w Hw. unfold no_tx, mbind, M_bind, mapped, Begin, defer_Rollback in *.
  destruct (pg_trip _ _) as [[e b]|]; [done|]. by destruct (m _).
Qed.

Ltac no_tx_step :=
  lazymatch goal with
  | |- preserves _ (mapped _ (Begin _);; defer_Rollback _) => apply no_tx_transaction
  | |- preserves _ (Exec _ _) => apply no_tx_Exec
  | |- preserves _ (Query _ _) => apply no_tx_Query
  | |- _ => conn_step
  end.

Lemma operation_no_tx A (m : M Conn A) : operation A m → preserves no_tx m.
Proof.
  destruct 1; unfold Check, SaveAgent, GetAgent, ListAgents, SaveCredential, GetCredential,
    TouchHeartbeat, SaveAcknowledgement, CreateTenant, ListTenants, GetTenant, CreateDefinition,
    ListDefinitions, GetDefinitionByKey, CreateVersion, ListVersions, GetVersionByNumber,
    SaveEnvironmentState, GetEnvironmentState, CreateRollout, GetRollout, GetActiveRollout,
    ListActiveRollouts, UpdateRollout, ListStages, SaveStage, SaveStageTargets,
    ReplaceStageTargets, ListStageTargets, NextSnapshotRevision, insertStageTarget,
    scan_agent_row, scan_rollout_row; repeat no_tx_step.
Qed.

(** ** The constraints *)

Lemma keep_insert_stages P ctx id stages : ∀ i,
  (∀ a1 a2 a3 a4 a5, keeps_rows P (insert_stage a1 a2 a3 a4 a5)) →
  preserves (conn_inv P) (insert_stages ctx id i stages).
Proof.
  induction stages as [|s stages IH]; intros i Hs; cbn [insert_stages]; repeat conn_step; [done|].
  by apply IH.
Qed.

#[local] Hint Resolve keep_insert_tenant keep_insert_definition keep_insert_version
  keep_lock_definition keep_next_version_number keep_upsert_state keep_upsert_agent
  keep_insert_credential keep_update_last_seen keep_insert_acknowledgement keep_insert_rollout
  keep_update_rollout keep_insert_stage keep_upsert_stage keep_upsert_target keep_delete_targets
  keep_nextval keep_insert_stages : tables.

(** A statement that only reads. *)
Ltac only_reads := intros ? ?; yields_run; done.

Lemma operation_keeps A (m : M Conn A) : operation A m → preserves (conn_inv db_ok) m.
Proof.
  destruct 1; unfold Check, SaveAgent, GetAgent, ListAgents, SaveCredential, GetCredential,
    TouchHeartbeat, SaveAcknowledgement, CreateTenant, ListTenants, GetTenant, CreateDefinition,
    ListDefinitions, GetDefinitionByKey, CreateVersion, ListVersions, GetVersionByNumber,
    SaveEnvironmentState, GetEnvironmentState, CreateRollout, GetRollout, GetActiveRollout,
    ListActiveRollouts, UpdateRollout, ListStages, SaveStage, SaveStageTargets,
    ReplaceStageTargets, ListStageTargets, NextSnapshotRevision, insertStageTarget,
    scan_agent_row, scan_rollout_row; cbv zeta; repeat conn_step;
    first [solve [auto with tables]|only_reads].
Qed.

(** ** The numbering of versions *)

(** The versions of a definition are numbered without gaps. *)
Definition numbered (d : Database) : Prop :=
  ∀ k v n, db_versions d !! k = Some v → 1 ≤ n ≤ v_VersionNumber v →
    ∃ k' v', db_versions d !! k' = Some v' ∧
             v_ConfigDefinitionID v' = v_ConfigDefinitionID v ∧ v_VersionNumber v' = n.

Lemma numbered_added d v d' :
  numbered d → version_added d (set_number v (next_number d (v_ConfigDefinitionID v))) d' →
  numbered d'.
Proof.
  intros Hn (_ & _ & Hnew & value & _ & ->) k w n. cbn [db_versions set_versions]. cbn in Hnew.
  assert (∀ k' v', db_versions d !! k' = Some v' →
    <[v_ID v := stored_version (set_number v (next_number d (v_ConfigDefinitionID v))) value]>
      (db_versions d) !! k' = Some v') as Hold.
  { intros k' v' Hk'. rewrite lookup_insert_ne; [done|]. congruence. }
  intros [[<- <-]|[_ Hk]]%lookup_insert_Some Hrange.
  - simpl in Hrange. unfold next_number in Hrange at 1.
    destruct (decide (n = next_number d (v_ConfigDefinitionID v))) as [->|Hne].
    { eexists (v_ID v), _. by rewrite lookup_insert_eq. }
    unfold next_number in Hne.
    destruct (max_of_elem (v_VersionNumber <$> versions_of d (v_ConfigDefinitionID v))) as [Hz|Hin]; [lia|].
    apply list_elem_of_fmap in Hin as (u & Hu & [Hud [k Hk]]%versions_of_elem).
    destruct (Hn _ _ n Hk) as (k' & v' & Hk' & Hd' & Hn'); [lia|].
    exists k', v'. split; [by apply Hold|]. simpl. split; [congruence|done].
  - destruct (Hn _ _ _ Hk Hrange) as (k' & v' & Hk' & ? & ?). exists k', v'. auto.
Qed.

(** A method that leaves the table of versions alone. *)
Lemma numbered_kept {A} (m : M Conn A) w :
  (∀ vs, preserves (conn_inv (λ d, db_versions d = vs)) m) →
  no_tx w → numbered (cn_db w) → numbered (cn_db (m w).2).
Proof.
  intros Hm Htx Hn. assert (conn_inv (λ d, db_versions d = db_versions (cn_db w)) w) as Hw.
  { split; [done|]. unfold no_tx in Htx. by rewrite Htx. }
  apply (Hm _ w) in Hw as [Hv _]. intros k v n. rewrite Hv. apply Hn.
Qed.

Ltac same_versions :=
  intros ? ?;
  unfold insert_tenant, insert_definition, upsert_state, upsert_agent, insert_credential,
    update_last_seen, insert_acknowledgement, insert_rollout, update_rollout, rollout_params,
    check_rollout, rollout_references, insert_stage, upsert_stage, add_stage, upsert_target,
    delete_targets, nextval; yields_run; done.

Lemma operation_numbered A (m : M Conn A) w :
  operation A m → no_tx w → numbered (cn_db w) → numbered (cn_db (m w).2).
Proof.
  intros Hop Htx Hn. destruct Hop;
    lazymatch goal with
    | |- numbered (cn_db (CreateVersion ?ctx ?v w).2) =>
        pose proof (CreateVersion_numbers ctx v (cn_db w) w (conj eq_refl Htx)) as Hs;
        unfold wp in Hs; cbv zeta in Hs; destruct Hs as [_ Hs];
        destruct (CreateVersion ctx v w).1;
        [destruct Hs as [_ Hs]; by eapply numbered_added
        |destruct Hs as [->|Hs]; [done|by eapply numbered_added]]
    | |- _ => apply numbered_kept; [|done..]; intros vs;
        unfold Check, SaveAgent, GetAgent, ListAgents, SaveCredential, GetCredential,
          TouchHeartbeat, SaveAcknowledgement, CreateTenant, ListTenants, GetTenant,
          CreateDefinition, ListDefinitions, GetDefinitionByKey, ListVersions,
          GetVersionByNumber, SaveEnvironmentState, GetEnvironmentState, CreateRollout, GetRollout,
          GetActiveRollout, ListActiveRollouts, UpdateRollout, ListStages, SaveStage,
          SaveStageTargets, ReplaceStageTargets, ListStageTargets, NextSnapshotRevision,
          insertStageTarget, scan_agent_row, scan_rollout_row; repeat conn_step;
        first [solve [apply keep_insert_stages; intros; same_versions]|same_versions]
    end.
Qed.

(** Whatever was called. *)
Lemma history_ok w : history w → no_tx w ∧ db_ok (cn_db w) ∧ numbered (cn_db w).
Proof.
  induction 1 as [n|A m w Hop _ (Htx & Hok & Hn)].
  { split_and!; [done|apply migrated_ok|]. intros k v i. cbn. by rewrite lookup_empty. }
  split; [by apply (operation_no_tx _ _ Hop)|]. split; [|by eapply operation_numbered].
  apply (operation_keeps _ _ Hop). split; [done|]. unfold no_tx in Htx. by rewrite Htx.
Qed.
End history.
End PostgresHistory.

Import Domain Sql Postgres PostgresFacts PostgresInvariants PostgresSpec PostgresHistory.

Module PostgresConcurrency.

Section concurrency.
Context `{Sql.Postgres}.

(** Where a transaction stands: the statements it has executed. *)
(** [src/internal/storage/postgres/store.go:226-264] Store.CreateVersion *)
Inductive VersionTx :=
| TxBegun (version : ConfigVersion)
| TxLocked (version : ConfigVersion)
| TxNumbered (version : ConfigVersion)
| TxInserted (version : ConfigVersion)
| TxCommitted (version : ConfigVersion)
| TxAborted.

(** The row of [config_definitions] a transaction has locked. *)
Definition locks (t : VersionTx) : option string :=
  match t with
  | TxLocked v | TxNumbered v | TxInserted v => Some (v_ConfigDefinitionID v)
  | _ => None
  end.
Definition pending_row (t : VersionTx) : option string :=
  match t with TxInserted v => Some (v_ID v) | _ => None end.

Record Shared := MkShared { sh_db : Database; sh_txs : gmap nat VersionTx }.

Definition insert_of (v : ConfigVersion) : M Database unit :=
  insert_version (v_ID v) (v_ConfigDefinitionID v) (v_VersionNumber v) (v_Value v)
    (v_SourceCommitSHA v) (v_CreatedBy v) (v_CreatedAt v).

Definition put_tx (i : nat) (t : VersionTx) (s : Shared) : Shared :=
  MkShared (sh_db s) (<[i := t]> (sh_txs s)).

(** One statement of one transaction, or a change of the database by another
    client that does not create versions. *)
Inductive step (s : Shared) : Shared → Prop :=
| step_begin i version : sh_txs s !! i = None → step s (put_tx i (TxBegun version) s)
| step_lock i version id :
    sh_txs s !! i = Some (TxBegun version) →
    lock_definition (v_ConfigDefinitionID version) (sh_db s) = (Ok id, sh_db s) →
    (∀ j t, sh_txs s !! j = Some t → locks t ≠ Some (v_ConfigDefinitionID version)) →
    step s (put_tx i (TxLocked version) s)
| step_number i version n :
    sh_txs s !! i = Some (TxLocked version) →
    next_version_number (v_ConfigDefinitionID version) (sh_db s) = (Ok n, sh_db s) →
    step s (put_tx i (TxNumbered (set_number version n)) s)
| step_insert i version d :
    sh_txs s !! i = Some (TxNumbered version) →
    insert_of version (sh_db s) = (Ok tt, d) →
    (∀ j t, sh_txs s !! j = Some t → pending_row t ≠ Some (v_ID version)) →
    step s (put_tx i (TxInserted version) s)
| step_commit i version d :
    sh_txs s !! i = Some (TxInserted version) →
    insert_of version (sh_db s) = (Ok tt, d) →
    step s (put_tx i (TxCommitted version) (MkShared d (sh_txs s)))
| step_abort i t : sh_txs s !! i = Some t → (∀ v, t ≠ TxCommitted v) →
    step s (put_tx i TxAborted s)
| step_other d : db_versions d = db_versions (sh_db s) →
    grows (db_definitions (sh_db s)) (db_definitions d) → db_ok d →
    step s (MkShared d (sh_txs s)).

(** The next number of a definition depends on its own versions only. *)
Lemma max_of_perm l l' : l ≡ₚ l' → max_of l = max_of l'.
Proof. induction 1; simpl; lia. Qed.

Lemma versions_of_insert d v value id :
  db_versions d !! v_ID v = None → v_ConfigDefinitionID v ≠ id →
  versions_of (set_versions (<[v_ID v := stored_version v value]> (db_versions d)) d) id
  ≡ₚ versions_of d id.
Proof.
  intros Hnew Hne. unfold versions_of. cbn [db_versions set_versions].
  rewrite map_to_list_insert by done. rewrite fmap_cons, filter_cons_False; [done|]. simpl. done.
Qed.

Lemma next_number_other d v d' id :
  version_added d v d' → v_ConfigDefinitionID v ≠ id → next_number d' id = next_number d id.
Proof.
  intros (_ & _ & Hnew & value & _ & ->) Hne. unfold next_number. f_equal. apply max_of_perm.
  by rewrite (versions_of_insert _ _ _ _ Hnew Hne).
Qed.

Lemma next_number_same d d' id : db_versions d' = db_versions d → next_number d' id = next_number d id.
Proof. intros Hv. unfold next_number, versions_of. by rewrite Hv. Qed.

(** ** When the row can be inserted *)

Definition insertable (v : ConfigVersion) : Prop :=
  Forall (λ s, text_ok s = true)
    [v_ID v; v_ConfigDefinitionID v; v_SourceCommitSHA v; v_CreatedBy v] ∧
  0 < v_VersionNumber v ≤ int4_max ∧ v_Value v ≠ "" ∧ ∃ value, pg_jsonb (v_Value v) = Ok value.

Definition number_taken (d : Database) (v : ConfigVersion) : bool :=
  existsb (λ u, v_VersionNumber u =? v_VersionNumber v) (versions_of d (v_ConfigDefinitionID v)).

Lemma insert_of_ok v d d' :
  insert_of v d = (Ok tt, d') →
  insertable v ∧ db_versions d !! v_ID v = None ∧ refers (db_definitions d) (v_ConfigDefinitionID v).
Proof.
  assert (yields (insert_of v) (λ _ _, insertable v ∧ db_versions d !! v_ID v = None ∧
    refers (db_definitions d) (v_ConfigDefinitionID v)) d) as Hy.
  { unfold insert_of, insert_version. yields_run.
    all: unfold nullableJSON in *; destruct (empty_str (v_Value v)) eqn:He; simplify_eq.
    all: rewrite has_row_false in *; split_and!; try done.
    all: unfold insertable; rewrite !Forall_cons; split_and!; try done; [lia..|by apply empty_str_false|eauto]. }
  intros Heq. by apply Hy in Heq.
Qed.

Lemma insert_of_run v d :
  insertable v → db_versions d !! v_ID v = None → refers (db_definitions d) (v_ConfigDefinitionID v) →
  number_taken d v = false → ∃ d', insert_of v d = (Ok tt, d').
Proof.
  intros (Ht & Hn & Hv & value & Hj) Hnew Href Hfree.
  rewrite !Forall_cons in Ht. destruct Ht as (?&?&?&?&_).
  eexists. unfold insert_of, insert_version.
  eapply run_bind; [by apply run_text|]. eapply run_bind; [by apply run_text|].
  eapply run_bind; [apply run_int4; unfold int4_max in *; lia|].
  eapply run_bind.
  { unfold nullableJSON, nullable. rewrite (proj2 (empty_str_false _) Hv).
    unfold mbind, M_bind. rewrite (run_jsonb _ _ _ Hj). reflexivity. }
  run_stmt; [done..| | |exact Hfree|done|reflexivity]; [lia|by apply has_row_false].
Qed.

(** A number that no version of the definition has yet. *)
Lemma number_above d v :
  v_VersionNumber v = next_number d (v_ConfigDefinitionID v) → number_taken d v = false.
Proof.
  intros Hv. apply not_true_iff_false. unfold number_taken. rewrite existsb_exists.
  intros (u & Hu%list_elem_of_In & Heq%Z.eqb_eq). unfold next_number in Hv.
  assert (v_VersionNumber u ≤ max_of (v_VersionNumber <$> versions_of d (v_ConfigDefinitionID v))).
  { apply max_of_ge, list_elem_of_fmap. eauto. }
  lia.
Qed.

(** The errors of a statement. *)
Definition fails_with {A} (stmt : M Database A) (P : error → Prop) (d : Database) : Prop :=
  ∀ e d', stmt d = (Err e, d') → P e.
Lemma fails_bind {A B} (m : M Database A) (k : A → M Database B) P d :
  fails_with m P d → yields m (λ a d', fails_with (k a) P d') d → fails_with (m ≫= k) P d.
Proof.
  intros Hm Hk e d'. unfold mbind, M_bind. destruct (m d) as [[a|e'] d1] eqn:Hd; [by apply (Hk a d1)|].
  intros [= <- <-]. by eapply Hm.
Qed.

(** A statement that cannot report [e]. *)
#[local] Ltac other_error :=
  intros ? ?; unfold text, int4, jsonb, nullable, nullableJSON, mbind, M_bind, timestamptz, not_null, check, unique, references, guard_err,
    get_world, modify, mret, M_ret, mthrow, M_throw;
  repeat case_match; intros; simplify_eq; done.
#[local] Ltac fails_run :=
  repeat (cbv beta zeta; first [apply fails_bind; [other_error|] | yields_step | other_error]).

Lemma insert_number_free v d d' :
  number_taken d v = false →
  insert_of v d ≠
    (Err (unique_violation "config_versions_config_definition_id_version_number_key"), d').
Proof.
  intros Hfree Heq.
  assert (fails_with (insert_of v)
    (λ e, e ≠ unique_violation "config_versions_config_definition_id_version_number_key") d) as Hf;
    [|by eapply Hf].
  clear Heq. unfold insert_of, insert_version, number_taken in *. fails_run.
  all: apply fails_bind; [unfold unique; rewrite Hfree; by intros ? ?|]; fails_run.
Qed.

Lemma insert_of_yields v d d' : insert_of v d = (Ok tt, d') → version_added d v d'.
Proof. apply insert_version_yields. Qed.

(** ** What holds between any two statements *)

(** A transaction that has its number holds the lock of its definition, and the
    number is the next one; a row that was inserted can be committed. *)
Record shared_ok (s : Shared) : Prop := {
  so_db : db_ok (sh_db s);
  so_numbered : numbered (sh_db s);
  so_lock : ∀ i j t t' id, sh_txs s !! i = Some t → sh_txs s !! j = Some t' →
    locks t = Some id → locks t' = Some id → i = j;
  so_next : ∀ i v, sh_txs s !! i = Some (TxNumbered v) ∨ sh_txs s !! i = Some (TxInserted v) →
    v_VersionNumber v = next_number (sh_db s) (v_ConfigDefinitionID v);
  so_pending : ∀ i j t t' id, sh_txs s !! i = Some t → sh_txs s !! j = Some t' →
    pending_row t = Some id → pending_row t' = Some id → i = j;
  so_ready : ∀ i v, sh_txs s !! i = Some (TxInserted v) →
    insertable v ∧ db_versions (sh_db s) !! v_ID v = None ∧
    refers (db_definitions (sh_db s)) (v_ConfigDefinitionID v);
  so_committed : ∀ i v, sh_txs s !! i = Some (TxCommitted v) →
    ∃ u, db_versions (sh_db s) !! v_ID v = Some u ∧
         v_ConfigDefinitionID u = v_ConfigDefinitionID v ∧ v_VersionNumber u = v_VersionNumber v;
  so_distinct : ∀ i j v v', sh_txs s !! i = Some (TxCommitted v) →
    sh_txs s !! j = Some (TxCommitted v') → v_ID v = v_ID v' → i = j }.

(** The state of one transaction changes, and not the database. *)
Lemma put_tx_ok i t s :
  shared_ok s →
  (∀ id, locks t = Some id → ∀ j t', j ≠ i → sh_txs s !! j = Some t' → locks t' ≠ Some id) →
  (∀ id, pending_row t = Some id → ∀ j t', j ≠ i → sh_txs s !! j = Some t' → pending_row t' ≠ Some id) →
  (∀ v, t = TxNumbered v ∨ t = TxInserted v →
     v_VersionNumber v = next_number (sh_db s) (v_ConfigDefinitionID v)) →
  (∀ v, t = TxInserted v → insertable v ∧ db_versions (sh_db s) !! v_ID v = None ∧
     refers (db_definitions (sh_db s)) (v_ConfigDefinitionID v)) →
  (∀ v, t ≠ TxCommitted v) →
  shared_ok (put_tx i t s).
Proof.
  intros [H1 H2 H3 H4 H5 H6 H7 H8] Hl Hp Hn Hr Hc. split; try done; cbn [put_tx sh_db sh_txs].
  - intros j k u u' id. intros [[<- <-]|[? Hj]]%lookup_insert_Some [[<- <-]|[? Hk]]%lookup_insert_Some Hu Hu'.
    + done.
    + by destruct (Hl _ Hu k u' ltac:(done) Hk).
    + by destruct (Hl _ Hu' j u ltac:(done) Hj).
    + by eapply H3.
  - intros j v [[[<- ?]|[? Hj]]%lookup_insert_Some|[[<- ?]|[? Hj]]%lookup_insert_Some]; eauto.
  - intros j k u u' id. intros [[<- <-]|[? Hj]]%lookup_insert_Some [[<- <-]|[? Hk]]%lookup_insert_Some Hu Hu'.
    + done.
    + by destruct (Hp _ Hu k u' ltac:(done) Hk).
    + by destruct (Hp _ Hu' j u ltac:(done) Hj).
    + by eapply H5.
  - intros j v [[<- ?]|[? Hj]]%lookup_insert_Some; eauto.
  - intros j v [[<- Ht]|[? Hj]]%lookup_insert_Some; [by destruct (Hc v)|eauto].
  - intros j k v v' [[<- Ht]|[? Hj]]%lookup_insert_Some; [by destruct (Hc v)|].
    intros [[<- Ht]|[? Hk]]%lookup_insert_Some; [by destruct (Hc v')|eauto].
Qed.

(** The database changes, and not its versions. *)
Lemma other_ok d s :
  shared_ok s → db_versions d = db_versions (sh_db s) →
  grows (db_definitions (sh_db s)) (db_definitions d) → db_ok d →
  shared_ok (MkShared d (sh_txs s)).
Proof.
  intros [H1 H2 H3 H4 H5 H6 H7 H8] Hv Hg Hok. split; cbn [sh_db sh_txs]; try done.
  - intros k v n. rewrite Hv. apply H2.
  - intros i v Hi. rewrite (next_number_same (sh_db s)) by done. by eapply H4.
  - intros i v Hi. rewrite Hv. destruct (H6 _ _ Hi) as (? & ? & ?). split_and!; [done..|by apply Hg].
  - intros i v Hi. rewrite Hv. eauto.
Qed.

(** A transaction commits its row. *)
Lemma commit_ok i v d s :
  shared_ok s → sh_txs s !! i = Some (TxInserted v) → insert_of v (sh_db s) = (Ok tt, d) →
  shared_ok (put_tx i (TxCommitted v) (MkShared d (sh_txs s))).
Proof.
  intros [H1 H2 H3 H4 H5 H6 H7 H8] Hi Hins. pose proof (insert_of_yields _ _ _ Hins) as Hadd.
  pose proof (H4 i v (or_intror Hi)) as Hnum.
  assert (∀ j t w, j ≠ i → sh_txs s !! j = Some t → t = TxNumbered w ∨ t = TxInserted w →
    v_ConfigDefinitionID w ≠ v_ConfigDefinitionID v) as Hother.
  { intros j t w Hne Hj Ht Heq. apply Hne. eapply (H3 j i _ _ (v_ConfigDefinitionID v) Hj Hi); [|done].
    destruct Ht as [-> | ->]; simpl; congruence. }
  assert (db_ok d) as Hok by (eapply keep_insert_version; [exact H1|exact Hins]).
  assert (numbered d) as Hn.
  { apply (numbered_added (sh_db s) v); [done|].
    assert (set_number v (next_number (sh_db s) (v_ConfigDefinitionID v)) = v) as ->; [|done].
    rewrite <-Hnum. by destruct v. }
  destruct Hadd as (Hv & Href & Hnew & value & Hj & ->).
  assert (version_added (sh_db s) v (set_versions (<[v_ID v := stored_version v value]>
    (db_versions (sh_db s))) (sh_db s))) as Hadd by (split_and!; eauto).
  split; cbn [put_tx sh_db sh_txs]; try done.
  - intros j k u u' id. intros [[<- <-]|[? Hj']]%lookup_insert_Some; [done|].
    intros [[<- <-]|[? Hk]]%lookup_insert_Some; [done|eauto].
  - intros j w [[[<- ?]|[? Hj']]%lookup_insert_Some|[[<- ?]|[? Hj']]%lookup_insert_Some]; try done;
      (rewrite (next_number_other (sh_db s) v) by first [done|by apply not_eq_sym; eapply Hother; eauto]);
      eauto.
  - intros j k u u' id. intros [[<- <-]|[? Hj']]%lookup_insert_Some; [done|].
    intros [[<- <-]|[? Hk]]%lookup_insert_Some; [done|eauto].
  - intros j w [[<- ?]|[? Hj']]%lookup_insert_Some; [done|].
    destruct (H6 _ _ Hj') as (? & ? & ?). split_and!; [done| |done].
    cbn. apply lookup_insert_None. split; [done|]. intros Heq.
    eapply (H5 j i (TxInserted w) (TxInserted v) (v_ID v)) in Hj'; [done|done| |done]. simpl. congruence.
  - intros j w [[<- Hw]|[? Hj']]%lookup_insert_Some; cbn.
    + injection Hw as <-. eexists. by rewrite lookup_insert_eq.
    + destruct (H7 _ _ Hj') as (u & Hu & ? & ?). exists u. split; [|done].
      rewrite lookup_insert_ne; [done|]. congruence.
  - intros j k w w' [[<- Hw]|[? Hj']]%lookup_insert_Some [[<- Hw']|[? Hk']]%lookup_insert_Some Heq; [done|..].
    + injection Hw as <-. destruct (H7 _ _ Hk') as (u & Hu & _). congruence.
    + injection Hw' as <-. destruct (H7 _ _ Hj') as (u & Hu & _). congruence.
    + by eapply H8.
Qed.

(** What the new state of the transaction rules out. *)
#[local] Ltac other_states :=
  first [by intros ? [=] | by intros ? [[=]|[=]] | by intros ? ?].

Lemma step_ok s s' : step s s' → shared_ok s → shared_ok s'.
Proof.
  intros Hstep Hok. destruct Hstep as [i version Hnone|i version id Hi Hrun Hfree
    |i version n Hi Hrun|i version d Hi Hrun Hfree|i version d Hi Hrun|i t Hi Hnc|d Hv Hg Hd].
  - apply put_tx_ok; [done|other_states..].
  - apply put_tx_ok; [done| |other_states..]. intros id' [= <-] j t' _ Hj. by eapply Hfree.
  - assert (n = next_number (sh_db s) (v_ConfigDefinitionID version)) as ->.
    { refine ((_ : yields (next_version_number _) (λ n _, n = _) _) _ _ Hrun).
      unfold next_version_number. by yields_run. }
    apply put_tx_ok; [done| |other_states| |other_states..].
    + intros id [= <-] j t' Hne Hj Hl. apply Hne. by eapply (so_lock _ Hok j i).
    + by intros v [[= <-]|[=]].
  - destruct (insert_of_ok _ _ _ Hrun) as (? & ? & ?). apply put_tx_ok; [done|..|other_states].
    + intros id [= <-] j t' Hne Hj Hl. apply Hne. by eapply (so_lock _ Hok j i).
    + intros id [= <-] j t' _ Hj. by eapply Hfree.
    + intros v [[=]|[= <-]]. apply (so_next _ Hok i). by left.
    + by intros v [= <-].
  - by apply commit_ok.
  - apply put_tx_ok; [done|other_states..].
  - by apply other_ok.
Qed.

Lemma shared_start d : db_ok d → numbered d → shared_ok (MkShared d ∅).
Proof.
  intros Hd Hn. split; cbn; try done; intros *; rewrite ?lookup_empty; try done. by intros [|].
Qed.

Lemma reachable_ok d s : db_ok d → numbered d → rtc step (MkShared d ∅) s → shared_ok s.
Proof.
  intros Hd Hn Hs. pose proof (shared_start d Hd Hn) as Hok. revert Hok.
  induction Hs as [|s1 s2 s3 Hstep _ IH]; [done|]. intros Hok. by eapply IH, step_ok.
Qed.
End concurrency.
End PostgresConcurrency.
