(* ===== verification/PostgresDemo.v ===== *)
(** A concrete server for the PostgreSQL store, columns that keep the values
    of a small encoding, and a database built by calling the store. *)

From Stdlib Require Import ZArith Lia.
From S2P Require Import Prelude GoLib Host Http JsonText Domain Guardrail Registry AgentRegistry Rollout Sql Postgres PostgresFacts PostgresInvariants PostgresSpec PostgresRollouts PostgresConcurrency.
Import Domain Rollout Sql Postgres PostgresFacts PostgresSpec PostgresRollouts PostgresHistory.
Open Scope string_scope.
Open Scope list_scope.
Open Scope Z_scope.

Module PostgresDemo.

(** JSON without white space, microseconds, byte order; a request that was
    cancelled is interrupted. *)
#[export] Instance test_server : Sql.Postgres := {|
  pg_jsonb s := if Json.Valid s then Ok (JsonText.Compact s) else Err "22P02";
  pg_timestamp t := t / 1000 * 1000;
  pg_text_le := String.leb;
  pg_scan _ := λ l, l;
  pg_trip ctx n := (λ c, (ctx_cause c, false)) <$> ctx n |}.

Lemma ctx_cause_interruption c : interruption (ctx_cause c).
Proof. by destruct c. Qed.

#[export] Instance test_server_laws : PostgresLaws.
Proof.
  split.
  - by intros n l.
  - intros a b. cbn. destruct (String.leb_total a b) as [?|?]; auto.
  - intros a b c. cbn. rewrite <-!Is_true_true. apply String.le_po.
  - intros a b. cbn. rewrite <-!Is_true_true. apply String.le_po.
  - done.
  - intros t. cbn. pose proof (Z.div_mod t 1000 ltac:(done)).
    pose proof (Z.mod_pos_bound t 1000 ltac:(done)). lia.
  - intros t. cbn. by rewrite Z.div_mul.
  - intros ctx n e b. cbn. destruct (ctx n); [|done]. intros [= <- <-]. apply ctx_cause_interruption.
Qed.

(** The values of the encodings, by name. *)
Definition table_codec {A} `{EqDecision A} (values : list (A * string)) : Codec A := {|
  json_Marshal x :=
    match list_find (λ p, p.1 = x) values with
    | Some (_, p) => Ok p.2 | None => Err (EText "json: unsupported value" []) end;
  json_Unmarshal s :=
    match list_find (λ p, p.2 = s) values with
    | Some (_, p) => Ok p.1 | None => Err (EText "json: cannot unmarshal" []) end |}.

#[export] Instance labels_codec : Codec (gmap string string) :=
  table_codec [(∅, "{}")].
#[export] Instance services_codec : Codec (list string) :=
  table_codec [([], "[]"); (["payments"], JsonText.quoted "['payments']")].
#[export] Instance rules_codec : Codec (list Guardrail.Rule) := {|
  json_Marshal l := match l with [] => Ok "[]" | _ => Err (EText "json: unsupported value" []) end;
  json_Unmarshal s := if bool_decide (s = "[]") then Ok [] else Err (EText "json: cannot unmarshal" []) |}.
#[export] Instance failures_codec : Codec (gmap string Z) :=
  table_codec [(∅, "{}"); (<["errors" := 1]> ∅, JsonText.quoted "{'errors':1}")].

Definition services_ok (l : list string) : Prop := l ∈ [[]; ["payments"]].
Definition failures_ok (m : gmap string Z) : Prop := m ∈ [∅; <["errors" := 1]> ∅].

#[export] Instance services_column : JsonColumn (list string) services_ok "[]" [].
Proof.
  split.
  - intros l. unfold services_ok. rewrite !elem_of_cons. intros [->|[->|?%elem_of_nil]]; [..|done].
    + exists "[]", "[]". done.
    + exists (JsonText.quoted "['payments']"), (JsonText.quoted "['payments']"). done.
  - intros x. unfold json_Marshal, services_codec, table_codec.
    destruct (list_find _ _) as [[i p]|] eqn:Hf; [|done].
    apply list_find_Some in Hf as (Hi & <- & _). destruct i as [|[|i]]; [| |done];
      injection Hi as <-; done.
  - by exists "[]".
Qed.
#[export] Instance rules_column : JsonColumn (list Guardrail.Rule) (λ l, l = []) "[]" [].
Proof.
  split.
  - intros l ->. by exists "[]", "[]".
  - by intros [|? ?].
  - by exists "[]".
Qed.
#[export] Instance failures_column : JsonColumn (gmap string Z) failures_ok "{}" ∅.
Proof.
  split.
  - intros l. unfold failures_ok. rewrite !elem_of_cons. intros [->|[->|?%elem_of_nil]]; [..|done].
    + exists "{}", "{}". done.
    + exists (JsonText.quoted "{'errors':1}"), (JsonText.quoted "{'errors':1}"). done.
  - intros x. unfold json_Marshal, failures_codec, table_codec.
    destruct (list_find _ _) as [[i p]|] eqn:Hf; [|done].
    apply list_find_Some in Hf as (Hi & <- & _). destruct i as [|[|i]]; [| |done];
      injection Hi as <-; done.
  - by exists "{}".
Qed.

(** ** A database *)

Definition acme : Tenant := MkTenant "acme" "Acme" "" "ops" 5000 5000.
Definition timeout : ConfigDefinition :=
  MkConfigDefinition "cfg" "acme" "timeout" "" "true" "" 6000 6000.
Definition version (id value : string) : ConfigVersion :=
  MkConfigVersion id "cfg" 0 value "" "ops" 7000.
Definition instance_1 : Agent :=
  MkAgent "agent-1" "payments" "production" "" "i-1" ∅ 8000 8000.

Definition call {A} (m : M Conn A) (w : Conn) : Conn := (m w).2.
Definition opened_conn : Conn := MkConn migrated None 0.
Definition prepared : Conn :=
  call (SaveAgent Background instance_1)
    (call (CreateVersion Background (version "v2" "2000"))
      (call (CreateVersion Background (version "v1" "1500"))
        (call (CreateDefinition Background timeout)
          (call (CreateTenant Background acme) opened_conn)))).

Lemma prepared_history : history prepared.
Proof.
  exact (called _ _ _ (op_SaveAgent Background instance_1)
    (called _ _ _ (op_CreateVersion Background (version "v2" "2000"))
      (called _ _ _ (op_CreateVersion Background (version "v1" "1500"))
        (called _ _ _ (op_CreateDefinition Background timeout)
          (called _ _ _ (op_CreateTenant Background acme) (opened 0)))))).
Qed.

Example prepared_numbers :
  SortFunc Z.leb (v_VersionNumber <$> (map_to_list (db_versions (cn_db prepared))).*2) = [1; 2].
Proof. vm_compute. reflexivity. Qed.

(** A rollout over the default stages, with times below the resolution. *)
Definition rollout (id : string) : Rollout :=
  MkRollout id "cfg" "acme" "timeout" "production" ["payments"] "v1" "v2" 2 StateDeploying
    "stage-5" 0 (f_of_int 95) [] ∅ 9000123 (90 * Second + 5) (900 * Second) (120 * Second)
    RollbackStatusNone 9000123 9000456.

Lemma rollout_storable id :
  text_ok id = true → storable_rollout services_ok (λ l, l = []) failures_ok (rollout id).
Proof.
  intros Hid. split; try done.
  - repeat constructor; done.
  - by right; left.
  - by left.
  - repeat constructor; vm_compute; congruence.
Qed.
Lemma default_plan_storable : Forall storable_stage DefaultStagePlan.
Proof. repeat constructor; vm_compute; congruence. Qed.
Lemma background_uninterrupted : uninterrupted Background.
Proof. by intros n. Qed.

(** The same for another environment. *)
Definition staged (id : string) : Rollout :=
  MkRollout id "cfg" "acme" "timeout" "staging" ["payments"] "v1" "v2" 2 StateDeploying
    "stage-5" 0 (f_of_int 95) [] ∅ 9000123 (90 * Second) (900 * Second) (120 * Second)
    RollbackStatusNone 9000123 9000456.
Lemma staged_storable id :
  text_ok id = true → storable_rollout services_ok (λ l, l = []) failures_ok (staged id).
Proof.
  intros Hid. split; try done.
  - repeat constructor; done.
  - by right; left.
  - by left.
  - repeat constructor; vm_compute; congruence.
Qed.

Definition with_rollout : Conn := call (CreateRollout Background (rollout "r1") DefaultStagePlan) prepared.
Lemma with_rollout_history : history with_rollout.
Proof. exact (called _ _ _ (op_CreateRollout _ _ _) prepared_history). Qed.

Definition target : StageTarget :=
  MkStageTarget "r1" "stage-5" "agent-1" 17 "v2" 3 9000123 0 TargetPending.

(** Facts of a concrete database are decided. *)
Lemma has_row_refers {A} (table : gmap string A) k : has_row table k = true → refers table k.
Proof. intros Hk. by apply bool_decide_eq_true in Hk. Qed.

Definition slot_free_dec (d : Database) (r : Rollout) : bool :=
  bool_decide (map_Forall (λ _ r', ¬ (active_state (rw_state r') = true ∧
    rw_config_definition_id r' = r_ConfigDefinitionID r ∧ rw_environment r' = r_Environment r))
    (db_rollouts d)).
Lemma slot_free_decided d r : slot_free_dec d r = true → slot_free d r.
Proof.
  intros Hd%bool_decide_eq_true id r' Hr' Ha Hc He. by apply (Hd id r').
Qed.
Definition references_dec (d : Database) (r : Rollout) : bool :=
  has_row (db_tenants d) (r_TenantID r) && has_row (db_definitions d) (r_ConfigDefinitionID r)
  && has_row (db_versions d) (r_StableVersionID r) && has_row (db_versions d) (r_CandidateVersionID r).
Lemma references_decided d r : references_dec d r = true → references_known d r.
Proof. unfold references_dec. rewrite !andb_true_iff. intros [[[]]]. split_and!; by apply has_row_refers. Qed.

(** ** Two transactions that create a version *)

Definition define_only : Conn :=
  call (CreateDefinition Background timeout) (call (CreateTenant Background acme) opened_conn).
Lemma define_only_history : history define_only.
Proof.
  exact (called _ _ _ (op_CreateDefinition Background timeout)
    (called _ _ _ (op_CreateTenant Background acme) (opened 0))).
Qed.

End PostgresDemo.
