(* ===== verification/PostgresProps.v ===== *)
(** The properties of the PostgreSQL store. *)

From Stdlib Require Import ZArith Lia.
From S2P Require Import Prelude GoLib Host Http Domain Guardrail Registry AgentRegistry Rollout Sql Postgres PostgresFacts PostgresInvariants PostgresSpec PostgresRollouts PostgresConcurrency PostgresDemo.
Import Domain Rollout Sql Postgres PostgresFacts PostgresInvariants PostgresSpec PostgresRollouts PostgresHistory PostgresConcurrency.
Open Scope string_scope.
Open Scope list_scope.
Open Scope Z_scope.

Module PostgresProps.

Section properties.
Context `{Sql.Postgres, !PostgresLaws, Codec (gmap string string), Codec (list string),
  Codec (list Guardrail.Rule), Codec (gmap string Z)}.
Context (services_ok : list string → Prop) (guardrails_ok : list Guardrail.Rule → Prop)
  (failures_ok : gmap string Z → Prop).
Context `{!JsonColumn (list string) services_ok "[]" [],
  !JsonColumn (list Guardrail.Rule) guardrails_ok "[]" [],
  !JsonColumn (gmap string Z) failures_ok "{}" ∅}.
Abbreviation storable := (storable_rollout services_ok guardrails_ok failures_ok).

(** C16. Whatever methods of the PostgreSQL store are called, with whatever
    arguments and interruptions, from a migrated database on: no transaction
    stays open, every constraint of the schema holds (keys, references,
    checks, one definition per key, one version per number, one active rollout
    per definition and environment), and the versions of a definition are
    numbered 1, 2, 3, ... without gaps. *)
Theorem constraints_hold w :
  history w → cn_tx w = None ∧ db_ok (cn_db w) ∧ numbered (cn_db w).
Proof. apply history_ok. Qed.

(** C20. Interleaved [CreateVersion] transactions: because each locks its
    definition before it takes the maximum, two that commit under one
    definition get different numbers, the numbers stay without gaps, no insert
    is refused because its number is taken, and a transaction that has
    inserted its row can commit it. *)
Theorem concurrent_versions d s :
  db_ok d → numbered d → rtc PostgresConcurrency.step (MkShared d ∅) s →
  numbered (sh_db s) ∧
  (∀ i j v v', sh_txs s !! i = Some (TxCommitted v) → sh_txs s !! j = Some (TxCommitted v') →
     i ≠ j → v_ConfigDefinitionID v = v_ConfigDefinitionID v' →
     v_VersionNumber v ≠ v_VersionNumber v') ∧
  (∀ i v d', sh_txs s !! i = Some (TxNumbered v) →
     insert_of v (sh_db s) ≠
       (Err (unique_violation "config_versions_config_definition_id_version_number_key"), d')) ∧
  (∀ i v, sh_txs s !! i = Some (TxInserted v) → ∃ d', insert_of v (sh_db s) = (Ok tt, d')).
Proof.
  intros Hd Hn Hs. pose proof (reachable_ok _ _ Hd Hn Hs) as Hok. split_and!.
  - apply Hok.
  - intros i j v v' Hi Hj Hne Hdef Hnum. apply Hne.
    destruct (so_committed _ Hok _ _ Hi) as (u & Hu & Hud & Hun).
    destruct (so_committed _ Hok _ _ Hj) as (u' & Hu' & Hud' & Hun').
    eapply (so_distinct _ Hok i j); [done..|].
    eapply (vs_number _ _ (ok_versions _ (so_db _ Hok))); [exact Hu|exact Hu'|congruence..].
  - intros i v d' Hi. apply insert_number_free, number_above, (so_next _ Hok i). by left.
  - intros i v Hi. destruct (so_ready _ Hok _ _ Hi) as (? & ? & ?).
    apply insert_of_run; [done..|]. apply number_above, (so_next _ Hok i). by right.
Qed.

(** C18. [CreateRollout] writes the rollout and all its stages, or nothing: when it
    fails the database is as before, or, if only the answer to the commit was
    lost, as if it had succeeded. *)
Theorem rollout_all_or_nothing ctx r stages d w :
  outside d w →
  wp (CreateRollout ctx r stages) (λ res w', cn_tx w' = None ∧
    match res with
    | Ok _ => rollout_added d r stages (cn_db w')
    | Err _ => cn_db w' = d ∨ rollout_added d r stages (cn_db w')
    end) w.
Proof. apply CreateRollout_spec. Qed.

(** C19. A rollout that the columns can hold, with known references, a free slot
    and new identifiers, is created, and is read back by [GetRollout] as it
    was written, its times at the resolution of [TIMESTAMPTZ] and its
    durations in whole seconds; [ListStages] lists its stages in their order. *)
Theorem rollout_roundtrip ctx r stages d w :
  uninterrupted ctx → outside d w → db_ok d → storable r → references_known d r →
  slot_free d r → db_rollouts d !! r_ID r = None → Forall storable_stage stages →
  NoDup (s_ID <$> stages) → (∀ s, s ∈ stages → db_stages d !! s_ID s = None) →
  Z.of_nat (length stages) ≤ int4_max →
  wp (_ ← CreateRollout ctx r stages; r' ← GetRollout ctx (r_ID r);
      stages' ← ListStages ctx (r_ID r); mret (r', stages'))
     (λ res _, res = Ok (stored_rollout r, stored_stage <$> stages)) w.
Proof.
  intros Hctx Hw Hok Hr Href Hslot Hnew Hst Hnd Hfree Hlen.
  assert (conn_inv db_ok w) as Hinv by (destruct Hw as [<- Htx]; split; [done|by rewrite Htx]).
  wp_step. eapply wp_mono; [apply (wp_with (conn_inv db_ok)); [apply operation_keeps; constructor|done|];
    by apply (CreateRollout_runs services_ok guardrails_ok failures_ok)|].
  intros res w1 ([Hok1 _] & -> & Htx & Hadd).
  pose proof Hadd as (_ & (row & Hrow & _ & Hd) & _).
  pose proof (sr_texts _ _ _ _ Hr) as Ht. apply Forall_cons in Ht as [Hid _].
  wp_step. eapply wp_mono; [apply (GetRollout_reads services_ok guardrails_ok failures_ok ctx _ (cn_db w1) w1 r row);
    [done|by split|done| |done..]|].
  { rewrite Hd. cbn. apply lookup_insert_eq. }
  intros res w2 [-> Hw2]. wp_step.
  eapply wp_mono; [by eapply (ListStages_reads ctx d r stages)|].
  by intros res w3 [-> _].
Qed.

(** [ReplaceStageTargets] replaces the cohort of a stage in one transaction:
    when it succeeds the other cohorts and tables are as before and
    [ListStageTargets] lists exactly the targets it was given; when it fails
    the database is as before, or, if only the answer to the commit was lost,
    as if it had succeeded. *)
Theorem cohort_replacement ctx rolloutID stageID ts d w :
  outside d w → db_ok d → NoDup (st_AgentID <$> ts) →
  Forall (λ t, st_RolloutID t = rolloutID ∧ st_StageID t = stageID) ts →
  text_ok rolloutID = true → text_ok stageID = true →
  wp (ReplaceStageTargets ctx rolloutID stageID ts) (λ r w', cn_tx w' = None ∧
    match r with
    | Ok _ => cohort_replaced d rolloutID stageID ts (cn_db w') ∧
        ∀ ctx', uninterrupted ctx' →
          ∃ l, (ListStageTargets ctx' rolloutID stageID w').1 = Ok l ∧ l ≡ₚ stored_target <$> ts
    | Err _ => cn_db w' = d ∨ cohort_replaced d rolloutID stageID ts (cn_db w')
    end) w.
Proof.
  intros Hw Hok Hnd Hts Ht1 Ht2.
  assert (conn_inv db_ok w) as Hinv by (destruct Hw as [<- Htx]; split; [done|by rewrite Htx]).
  pose proof (cohort_replaced_set d rolloutID stageID ts Hok Hnd Hts) as Hset.
  eapply wp_mono; [apply (wp_with (conn_inv db_ok));
    [apply operation_keeps; constructor|done|by apply ReplaceStageTargets_spec]|].
  cbv zeta. intros [[]|e] w' ([Hok' _] & Htx & Hdb); split; [done| |done|].
  - rewrite Hdb in *. split; [done|]. intros ctx' Hctx.
    pose proof (ListStageTargets_reads ctx' rolloutID stageID ts d _ w' Hctx (conj Hdb Htx) Hok' Hset
      Hnd Hts Ht1 Ht2) as [Hl _]. exact Hl.
  - destruct Hdb as [->| ->]; auto.
Qed.

(** C21. The identifier of a stage is a key of the whole table: a plan whose first
    stage has the identifier of a stage of any rollout is refused as a
    conflict and nothing is written. *)
Theorem stage_identifiers_are_global ctx r s rest d w :
  uninterrupted ctx → outside d w → storable r → references_known d r → slot_free d r →
  db_rollouts d !! r_ID r = None → storable_stage s → is_Some (db_stages d !! s_ID s) →
  wp (CreateRollout ctx r (s :: rest)) (λ res w',
    res = Err (EWrap Rollout.ErrConflict "%s" ["rollout_stages_pkey"]) ∧ outside d w') w.
Proof. by apply (CreateRollout_stage_taken services_ok guardrails_ok failures_ok). Qed.

(** What [GetRollout] reports when it fails: that there is no such rollout
    only when there is none; an interruption as it is; or that a column could
    not be decoded. *)
Theorem rollout_read_errors ctx id d w :
  outside d w → db_ok d → text_ok id = true →
  wp (GetRollout ctx id) (λ res w', outside d w' ∧
    match res with
    | Ok r => ∃ row, db_rollouts d !! id = Some row ∧ scanRollout (rollout_columns row) = Ok r
    | Err e => e = Rollout.ErrNotFound ∧ db_rollouts d !! id = None ∨
               interruption e ∨
               ∃ row e', db_rollouts d !! id = Some row ∧
                 scanRollout (rollout_columns row) = Err e' ∧ e = mapRolloutError e'
    end) w.
Proof. by apply GetRollout_errors. Qed.

End properties.

(** * The properties at concrete inputs *)

Import PostgresDemo.
Abbreviation prepared_db := (cn_db prepared).
Abbreviation rollout_db := (cn_db with_rollout).

Lemma constraints_hold_witness : db_ok prepared_db ∧ numbered prepared_db.
Proof. destruct (constraints_hold prepared prepared_history) as (_ & Hok & Hn). by split. Defined.

Lemma rollout_all_or_nothing_witness :
  ∃ w', CreateRollout Background (rollout "r1") DefaultStagePlan prepared = (Ok tt, w') ∧
        rollout_added prepared_db (rollout "r1") DefaultStagePlan (cn_db w').
Proof.
  pose proof (rollout_all_or_nothing Background (rollout "r1") DefaultStagePlan prepared_db prepared
    (conj eq_refl eq_refl)) as Hwp.
  destruct (wp_succeeds _ _ (λ _, true) _ Hwp) as (r & w' & Hr & _ & _ & Hpost); [vm_compute; reflexivity|].
  destruct r. exists w'. split; [exact Hr|exact Hpost].
Defined.

Lemma rollout_roundtrip_witness :
  ((_ ← CreateRollout Background (rollout "r1") DefaultStagePlan;
    r' ← GetRollout Background "r1"; stages' ← ListStages Background "r1";
    mret (r', stages')) prepared).1
  = Ok (stored_rollout (rollout "r1"), stored_stage <$> DefaultStagePlan).
Proof.
  apply (rollout_roundtrip services_ok (λ l, l = []) failures_ok Background (rollout "r1")
    DefaultStagePlan prepared_db prepared).
  - exact background_uninterrupted.
  - by split.
  - by destruct (history_ok prepared prepared_history) as (_ & ? & _).
  - by apply rollout_storable.
  - apply references_decided. vm_compute. reflexivity.
  - apply slot_free_decided. vm_compute. reflexivity.
  - vm_compute. reflexivity.
  - exact default_plan_storable.
  - apply (bool_decide_unpack _). vm_compute. exact I.
  - intros s Hs. apply (Forall_forall (λ s, db_stages prepared_db !! s_ID s = None) DefaultStagePlan); [|done].
    repeat constructor; vm_compute; reflexivity.
  - done.
Defined.

Lemma cohort_replacement_witness :
  ∃ w', ReplaceStageTargets Background "r1" "stage-5" [target] with_rollout = (Ok tt, w') ∧
        cohort_replaced rollout_db "r1" "stage-5" [target] (cn_db w') ∧
        ∃ l, (ListStageTargets Background "r1" "stage-5" w').1 = Ok l ∧ l ≡ₚ [stored_target target].
Proof.
  assert (db_ok rollout_db) as Hok by (by destruct (history_ok with_rollout with_rollout_history) as (_ & ? & _)).
  pose proof (cohort_replacement Background "r1" "stage-5" [target] rollout_db with_rollout
    (conj eq_refl eq_refl) Hok ltac:(apply NoDup_singleton) ltac:(by repeat constructor)
    ltac:(done) ltac:(done)) as Hwp.
  destruct (wp_succeeds _ _ (λ _, true) _ Hwp) as (r & w' & Hr & _ & _ & Hpost & Hread); [vm_compute; reflexivity|].
  destruct r. exists w'. split; [exact Hr|]. split; [exact Hpost|].
  exact (Hread Background background_uninterrupted).
Defined.

Lemma stage_identifiers_are_global_witness :
  (CreateRollout Background (staged "r2") DefaultStagePlan with_rollout).1
  = Err (EWrap Rollout.ErrConflict "%s" ["rollout_stages_pkey"]).
Proof.
  apply (stage_identifiers_are_global services_ok (λ l, l = []) failures_ok Background (staged "r2")
    (MkStage "stage-5" 5 Minute) (tail DefaultStagePlan) rollout_db with_rollout).
  - exact background_uninterrupted.
  - by split.
  - by apply staged_storable.
  - apply references_decided. vm_compute. reflexivity.
  - apply slot_free_decided. vm_compute. reflexivity.
  - vm_compute. reflexivity.
  - by split.
  - apply has_row_refers. vm_compute. reflexivity.
Defined.

Lemma rollout_read_errors_witness :
  (GetRollout Background "r9" with_rollout).1 = Err Rollout.ErrNotFound ∧
  db_rollouts rollout_db !! "r9" = None.
Proof.
  assert (db_ok rollout_db) as Hok by (by destruct (history_ok with_rollout with_rollout_history) as (_ & ? & _)).
  pose proof (rollout_read_errors Background "r9" rollout_db with_rollout (conj eq_refl eq_refl) Hok
    ltac:(done)) as [_ Hres].
  assert (db_rollouts rollout_db !! "r9" = None) as Hnone by (vm_compute; reflexivity).
  assert ((GetRollout Background "r9" with_rollout).1 = Err Rollout.ErrNotFound) as Herr
    by (vm_compute; reflexivity).
  rewrite Herr in Hres. destruct Hres as [[? _]|[[? _]|(? & ? & ? & _)]]; [by split|by split|congruence].
Defined.

(** Two transactions number versions of the same definition one after the
    other, although both began first. *)
Definition tx_db : Database := cn_db define_only.
Definition first := set_number (version "v1" "1500") 1.
Definition second := set_number (version "v2" "2000") 2.
Definition after_first : Database := (insert_of first tx_db).2.
Definition after_second : Database := (insert_of second after_first).2.
Definition both_begun : Shared :=
  put_tx 1 (TxBegun (version "v2" "2000")) (put_tx 0 (TxBegun (version "v1" "1500")) (MkShared tx_db ∅)).
Definition first_inserted : Shared :=
  put_tx 0 (TxInserted first) (put_tx 0 (TxNumbered first) (put_tx 0 (TxLocked (version "v1" "1500"))
    both_begun)).
Definition first_committed : Shared :=
  put_tx 0 (TxCommitted first) (MkShared after_first (sh_txs first_inserted)).
Definition second_inserted : Shared :=
  put_tx 1 (TxInserted second) (put_tx 1 (TxNumbered second) (put_tx 1 (TxLocked (version "v2" "2000"))
    first_committed)).
Definition committed : Shared :=
  put_tx 1 (TxCommitted second) (MkShared after_second (sh_txs second_inserted)).

Ltac other_txs :=
  intros j t Hj; unfold second_inserted, first_committed, first_inserted, both_begun, put_tx in Hj; cbn [sh_txs] in Hj;
  repeat (apply lookup_insert_Some in Hj as [[Hi <-]|[? Hj]]; [first [done|congruence]|]); by apply lookup_empty_Some in Hj.

Lemma committed_reachable : rtc PostgresConcurrency.step (MkShared tx_db ∅) committed.
Proof.
  eapply rtc_l; [apply (step_begin _ 0 (version "v1" "1500")); done|].
  eapply rtc_l; [apply (step_begin _ 1 (version "v2" "2000")); done|].
  eapply rtc_l; [apply (step_lock _ 0 (version "v1" "1500") "cfg"); [done|vm_compute; reflexivity|other_txs]|].
  eapply rtc_l; [apply (step_number _ 0 (version "v1" "1500") 1); [done|vm_compute; reflexivity]|].
  eapply rtc_l; [apply (step_insert _ 0 first after_first); [done|vm_compute; reflexivity|other_txs]|].
  eapply rtc_l; [apply (step_commit _ 0 first after_first); [done|vm_compute; reflexivity]|].
  eapply rtc_l; [apply (step_lock _ 1 (version "v2" "2000") "cfg"); [done|vm_compute; reflexivity|other_txs]|].
  eapply rtc_l; [apply (step_number _ 1 (version "v2" "2000") 2); [done|vm_compute; reflexivity]|].
  eapply rtc_l; [apply (step_insert _ 1 second after_second); [done|vm_compute; reflexivity|other_txs]|].
  eapply rtc_l; [apply (step_commit _ 1 second after_second); [done|vm_compute; reflexivity]|].
  apply rtc_refl.
Qed.

Lemma concurrent_versions_witness :
  numbered after_second ∧ v_VersionNumber first ≠ v_VersionNumber second.
Proof.
  destruct (history_ok define_only define_only_history) as (_ & Hok & Hn).
  destruct (concurrent_versions tx_db committed Hok Hn committed_reachable) as (Hnum & Hdiff & _).
  split; [exact Hnum|]. apply (Hdiff 0%nat 1%nat); done.
Defined.

End PostgresProps.
