(* ===== verification/DataPlane.v ===== *)
(** [internal/dataplane]: snapshots, their checksums and entity tags, the
    credential verifiers, the seeded and the dynamic snapshot stores, and the
    snapshot handler. *)

From Stdlib Require Import ZArith Lia.
From S2P Require Import Prelude GoLib Sha256 Host Http Mux Health Domain Registry AgentRegistry Rollout RolloutService.
Import Domain Rollout.
Open Scope string_scope.
Open Scope list_scope.
Open Scope Z_scope.

Module DataPlane.

(** [src/internal/dataplane/snapshot.go:32-35] Assignment *)
Record Assignment := MkAssignment { as_RolloutID : string; as_StageID : string }.

(** [src/internal/dataplane/snapshot.go:22-30] SnapshotItem *)
Record SnapshotItem := MkSnapshotItem {
  si_ConfigDefinitionID : string;
  si_Key : string;
  si_VersionID : string;
  si_Version : Z;
  si_Value : RawMessage;
  si_Checksum : string;
  si_Assignment : Assignment }.

(** [src/internal/dataplane/snapshot.go:16-20] Snapshot *)
Record Snapshot := MkSnapshot {
  sn_Revision : Z;
  sn_GeneratedAt : Time;
  sn_Configs : list SnapshotItem }.

(** [src/internal/dataplane/snapshot.go:47-50] Checksum *)
Definition Checksum (value : RawMessage) : string := Sha256.hex_encode (Sha256.Sum256 value).

(** [src/internal/dataplane/snapshot.go:62-69] cloneRaw *)
Definition cloneRaw (value : RawMessage) : RawMessage :=
  if empty_str value then "" else value.

Definition clone_item (item : SnapshotItem) : SnapshotItem :=
  MkSnapshotItem (si_ConfigDefinitionID item) (si_Key item) (si_VersionID item)
    (si_Version item) (cloneRaw (si_Value item)) (si_Checksum item) (si_Assignment item).

(** [src/internal/dataplane/snapshot.go:52-60] CloneSnapshot *)
Definition CloneSnapshot (snapshot : Snapshot) : Snapshot :=
  MkSnapshot (sn_Revision snapshot) (sn_GeneratedAt snapshot)
    (clone_item <$> sn_Configs snapshot).

(** [src/internal/dataplane/snapshot.go:37-45] Snapshot.ETag *)
Definition ETag `{Codec Snapshot} (s : Snapshot) : res string :=
  payload ← json_Marshal s;
  let sum := Sha256.Sum256 payload in
  mret (String (Ascii.ascii_of_N 34) ("snapshot-" +:+ Sha256.hex_encode sum)
        +:+ String (Ascii.ascii_of_N 34) "")%string.

(** * auth.go *)

(** [src/internal/dataplane/auth.go:11-11] ErrMissingCredential *)
Definition ErrMissingCredential := ESentinel "dataplane.ErrMissingCredential" "missing credential".
(** [src/internal/dataplane/auth.go:12-12] ErrInvalidCredential *)
Definition ErrInvalidCredential := ESentinel "dataplane.ErrInvalidCredential" "invalid credential".
(** [src/internal/dataplane/auth.go:13-13] ErrForbidden *)
Definition ErrForbidden :=
  ESentinel "dataplane.ErrForbidden" "credential subject does not match agent".
(** [src/internal/dataplane/auth.go:14-14] ErrSnapshotNotFound *)
Definition ErrSnapshotNotFound := ESentinel "dataplane.ErrSnapshotNotFound" "snapshot not found".

(** A [CredentialVerifier] is its method. *)
(** [src/internal/dataplane/auth.go:17-19] CredentialVerifier *)
Definition CredentialVerifier (W : Type) : Type := Context → string → M W string.

(** [src/internal/dataplane/auth.go:33-45] AgentCredentialVerifier.Verify *)
Definition AgentCredentialVerifier {W} (verify : CredentialVerifier W) : CredentialVerifier W :=
  λ ctx token,
    found ← try (verify ctx token);
    match found with
    | Ok agentID => mret agentID
    | Err err =>
        if errors_Is err AgentRegistry.ErrUnauthorized then mthrow ErrInvalidCredential
        else if errors_Is err AgentRegistry.ErrExpiredCredential then mthrow ErrInvalidCredential
        else mthrow err
    end.

(** [src/internal/dataplane/auth.go:59-73] StaticCredentialVerifier.Verify *)
Definition StaticCredentialVerifier {W} `{Env W} (tokens : gmap string string)
    : CredentialVerifier W :=
  λ ctx token,
    ctxErr ← ctx_Err ctx;
    ctx_check ctxErr;;
    guard_err (empty_str token) ErrMissingCredential;;
    match tokens !! token with
    | None => mthrow ErrInvalidCredential
    | Some agentID => mret agentID
    end.

(** * memory_store.go *)

(** [src/internal/dataplane/snapshot.go:12-14] SnapshotStore *)
Definition SnapshotStore (W : Type) : Type := Context → string → M W Snapshot.

(** [src/internal/dataplane/memory_store.go:8-11] MemorySnapshotStore *)
Record MemorySnapshotStore := MkMemorySnapshotStore { ss_snapshots : gmap string Snapshot }.

(** [src/internal/dataplane/memory_store.go:13-15] NewMemorySnapshotStore *)
Definition NewMemorySnapshotStore : MemorySnapshotStore := MkMemorySnapshotStore ∅.

(** [src/internal/dataplane/memory_store.go:17-22] MemorySnapshotStore.PutSnapshot *)
Definition PutSnapshot (agentID : string) (snapshot : Snapshot) : M MemorySnapshotStore unit :=
  modify (λ s, MkMemorySnapshotStore (<[agentID := CloneSnapshot snapshot]> (ss_snapshots s))).

(** [src/internal/dataplane/memory_store.go:24-37] MemorySnapshotStore.GetSnapshot *)
Definition MemoryGetSnapshot (ctxErr : option error) (agentID : string)
    : M MemorySnapshotStore Snapshot :=
  ctx_check ctxErr;;
  s ← get_world;
  match ss_snapshots s !! agentID with
  | None => mthrow ErrSnapshotNotFound
  | Some snapshot => mret (CloneSnapshot snapshot)
  end.

(** * dynamic_store.go *)

(** [src/internal/dataplane/dynamic_store.go:14-19] RegistrySnapshotSource *)
Class RegistrySnapshotSource (W : Type) := {
  registry_ListTenants : Context → M W (list Tenant);
  registry_ListDefinitions : Context → string → M W (list ConfigDefinition);
  registry_ListVersions : Context → string → string → M W (list ConfigVersion);
  registry_GetEnvironmentState :
    Context → string → string → Environment → M W ConfigEnvironmentState }.

(** [src/internal/dataplane/dynamic_store.go:21-23] AgentSnapshotSource *)
Class AgentSnapshotSource (W : Type) := {
  agents_GetAgent : Context → string → M W Agent }.

(** [src/internal/dataplane/dynamic_store.go:25-27] ActiveRolloutSource *)
Class ActiveRolloutSource (W : Type) := {
  rollouts_ActiveRollout : Context → string → Environment → M W (Rollout * list StageTarget) }.

(** [src/internal/dataplane/dynamic_store.go:165-172] findVersionByID *)
Fixpoint findVersionByID (versions : list ConfigVersion) (versionID : string)
    : option ConfigVersion :=
  match versions with
  | [] => None
  | version :: rest =>
      if bool_decide (v_ID version = versionID) then Some version
      else findVersionByID rest versionID
  end.

Section DynamicSnapshotStore.
Context {W : Type} `{Env W, RegistrySnapshotSource W, AgentSnapshotSource W,
  ActiveRolloutSource W}.

(** [src/internal/dataplane/dynamic_store.go:115-130] DynamicSnapshotStore.snapshotItem *)
Definition effective_assignment (ctx : Context) (definition : ConfigDefinition) (agent : Agent)
    (state : ConfigEnvironmentState) : M W (string * Assignment * Z) :=
  found ← try (rollouts_ActiveRollout ctx (d_ID definition) (a_Environment agent));
  match found with
  | Err err =>
      guard_err (negb (errors_Is err ErrNotFound)) err;;
      mret (es_StableVersionID state, MkAssignment "" "", 1)
  | Ok (active, targets) =>
      let effective := EffectiveVersionForAgent active targets (a_ID agent) in
      if negb (empty_str (ev_AssignedRollout effective))
      then mret (ev_VersionID effective,
                 MkAssignment (ev_AssignedRollout effective) (ev_AssignedStage effective),
                 ev_SnapshotRevision effective)
      else mret (ev_VersionID effective, MkAssignment "" "", 1)
  end.

(** [ok] is whether there is an item. *)
(** [src/internal/dataplane/dynamic_store.go:94-146] DynamicSnapshotStore.snapshotItem *)
Definition snapshotItem (ctx : Context) (tenantID : string) (definition : ConfigDefinition)
    (agent : Agent) : M W (option (SnapshotItem * Z)) :=
  found ← try (registry_GetEnvironmentState ctx tenantID (d_Key definition)
                 (a_Environment agent));
  match found with
  | Err err =>
      guard_err (negb (errors_Is err ConfigRegistry.ErrNotFound)) err;;
      mret None
  | Ok state =>
      if empty_str (es_StableVersionID state) then mret None
      else
        versions ← registry_ListVersions ctx tenantID (d_Key definition);
        var ← effective_assignment ctx definition agent state;
        let '(versionID, assignment, revision) := var in
        match findVersionByID versions versionID with
        | None => mret None
        | Some version =>
            mret (Some (MkSnapshotItem (d_ID definition) (d_Key definition) (v_ID version)
                          (v_VersionNumber version) (cloneRaw (v_Value version))
                          (Checksum (v_Value version)) assignment, revision))
        end
  end.

(** [src/internal/dataplane/dynamic_store.go:148-163] DynamicSnapshotStore.snapshotTenants *)
Definition snapshotTenants (tenants : list string) (ctx : Context) : M W (list string) :=
  if negb (Nat.eqb (length tenants) 0) then mret ([] ++ tenants)
  else
    tenants ← registry_ListTenants ctx;
    mret (t_ID <$> tenants).

(** One iteration over a definition: the larger revision, the item appended. *)
(** [src/internal/dataplane/dynamic_store.go:72-84] DynamicSnapshotStore.GetSnapshot *)
Definition add_item (ctx : Context) (tenantID : string) (agent : Agent)
    (acc : Z * list SnapshotItem) (definition : ConfigDefinition)
    : M W (Z * list SnapshotItem) :=
  found ← snapshotItem ctx tenantID definition agent;
  match found with
  | None => mret acc
  | Some (item, itemRevision) =>
      let '(revision, items) := acc in
      mret (if revision <? itemRevision then itemRevision else revision, items ++ [item])
  end.

(** [src/internal/dataplane/dynamic_store.go:63-85] DynamicSnapshotStore.GetSnapshot *)
Definition add_tenant (ctx : Context) (agent : Agent) (acc : Z * list SnapshotItem)
    (tenantID : string) : M W (Z * list SnapshotItem) :=
  found ← try (registry_ListDefinitions ctx tenantID);
  match found with
  | Err err =>
      guard_err (negb (errors_Is err ConfigRegistry.ErrNotFound)) err;;
      mret acc
  | Ok definitions => fold_m definitions acc (add_item ctx tenantID agent)
  end.

(** [src/internal/dataplane/dynamic_store.go:47-92] DynamicSnapshotStore.GetSnapshot *)
Definition GetSnapshot (tenants : list string) : SnapshotStore W := λ ctx agentID,
  found ← try (agents_GetAgent ctx agentID);
  match found with
  | Err err =>
      guard_err (errors_Is err AgentRegistry.ErrNotFound) ErrSnapshotNotFound;;
      mthrow err
  | Ok agent =>
      tenants ← snapshotTenants tenants ctx;
      acc ← fold_m tenants (1, []) (add_tenant ctx agent);
      let '(revision, items) := acc in
      now ← now;
      mret (MkSnapshot revision now items)
  end.

End DynamicSnapshotStore.

(** * handler.go *)

(** [src/internal/dataplane/handler.go:97-100] errorResponse *)
Record errorResponse := MkErrorResponse { er_Error : string; er_Message : string }.

Inductive Payload := PSnapshot (s : Snapshot) | PError (e : errorResponse).

Definition respond_error (status : Z) (code message : string) : Response Payload :=
  MkResponse status "" (Some (PError (MkErrorResponse code message))).

(** [src/internal/dataplane/handler.go:66-76] bearerToken *)
Definition bearerToken (header : string) : string := bearer_token header.

(** [src/internal/dataplane/handler.go:78-89] writeError *)
Definition writeError (err : error) : Response Payload :=
  if errors_Is err ErrMissingCredential || errors_Is err ErrInvalidCredential
  then respond_error StatusUnauthorized "unauthorized" (Error err)
  else if errors_Is err ErrForbidden
  then respond_error StatusForbidden "forbidden" (Error err)
  else if errors_Is err ErrSnapshotNotFound
  then respond_error StatusNotFound "not_found" (Error err)
  else respond_error StatusInternalServerError "internal_error" "request failed".

(** [src/internal/dataplane/handler.go:32-64] Handler.getSnapshot *)
Definition getSnapshot {W} `{Codec Snapshot} (store : SnapshotStore W)
    (verifier : CredentialVerifier W) (ctx : Context) (r : Request) : M W (Response Payload) :=
  let requestedAgentID := PathValue r "agentID" in
  subject ← try (verifier ctx (bearerToken (Header r "Authorization")));
  match subject with
  | Err err => mret (writeError err)
  | Ok subjectAgentID =>
      if negb (bool_decide (subjectAgentID = requestedAgentID))
      then mret (writeError ErrForbidden)
      else
        found ← try (store ctx requestedAgentID);
        match found with
        | Err err => mret (writeError err)
        | Ok snapshot =>
            match ETag snapshot with
            | Err _ => mret (respond_error StatusInternalServerError "internal_error"
                               "snapshot etag failed")
            | Ok etag =>
                if bool_decide (Header r "If-None-Match" = etag)
                then mret (MkResponse StatusNotModified etag None)
                else mret (MkResponse StatusOK etag (Some (PSnapshot snapshot)))
            end
        end
  end.

(** [src/internal/dataplane/handler.go:12-15] Handler *)
Record Handler (W : Type) := MkHandler {
  h_store : SnapshotStore W;
  h_verifier : CredentialVerifier W }.
Arguments MkHandler {W} _ _.
Arguments h_store {W} _.
Arguments h_verifier {W} _.

Inductive Route := GetSnapshot_.

(** [src/internal/dataplane/handler.go:28-28] NewHandler *)
Definition routes : list (Mux.pattern Route) :=
  [ Mux.MkPattern "GET" [Mux.Lit "v1"; Mux.Lit "agents"; Mux.Wild "agentID"; Mux.Lit "snapshot"]
      GetSnapshot_ ].

(** [src/internal/dataplane/handler.go:17-30] NewHandler *)
Definition NewHandler {W} `{Env W, Codec Snapshot} (store : SnapshotStore W)
    (verifier : CredentialVerifier W) : Health.ServeHTTP W Payload :=
  let h := MkHandler store verifier in
  Health.ServeMux (Health.NewHandler "data-plane" (Some Health.StaticChecker)) routes
    (λ route ctx r, match route with GetSnapshot_ => getSnapshot (h_store h) (h_verifier h) ctx r end).

(** * The services behind the sources *)

#[export] Instance registry_source {W} `{Env W, ConfigRegistry.Store W} : RegistrySnapshotSource W := {|
  registry_ListTenants := ConfigRegistry.Service.ListTenants;
  registry_ListDefinitions := ConfigRegistry.Service.ListDefinitions;
  registry_ListVersions := ConfigRegistry.Service.ListVersions;
  registry_GetEnvironmentState := ConfigRegistry.Service.GetEnvironmentState |}.

#[export] Instance agent_source {W} `{AgentRegistry.Store W} : AgentSnapshotSource W := {|
  agents_GetAgent := AgentRegistry.Svc.GetAgent |}.

#[export] Instance rollout_source {W} `{RolloutService.Store W} : ActiveRolloutSource W := {|
  rollouts_ActiveRollout := RolloutService.ActiveRollout |}.

End DataPlane.
