(* ===== verification/Agent.v ===== *)
(** [internal/agent]: the snapshot cache of an agent and its file, the HTTP
    clients of the two planes, the sync loop, and the local handler. *)

From Stdlib Require Import ZArith Lia Ascii.
From S2P Require Import Prelude GoLib Host Http Mux Health JsonText FileSystem Domain DataPlane.
Import DataPlane FileSystem.
Open Scope string_scope.
Open Scope list_scope.
Open Scope Z_scope.

Module Agent.

(** * cache.go *)

(** [src/internal/agent/cache.go:17-17] ErrNoSnapshot *)
Definition ErrNoSnapshot := ESentinel "agent.ErrNoSnapshot" "no snapshot is available".
(** [src/internal/agent/cache.go:18-18] ErrConfigNotFound *)
Definition ErrConfigNotFound := ESentinel "agent.ErrConfigNotFound" "config not found".
(** [src/internal/agent/cache.go:19-19] ErrBadChecksum *)
Definition ErrBadChecksum := ESentinel "agent.ErrBadChecksum" "snapshot checksum is invalid".

(** The checksums of the items, in their order. *)
(** [src/internal/agent/cache.go:150-154] ValidateSnapshot *)
Fixpoint validate_items (items : list SnapshotItem) : res unit :=
  match items with
  | [] => mret tt
  | item :: rest =>
      guard_err (negb (bool_decide (si_Checksum item = Checksum (si_Value item))))
        (EWrap ErrBadChecksum "%s" [si_Key item]);;
      validate_items rest
  end.

(** [src/internal/agent/cache.go:146-156] ValidateSnapshot *)
Definition ValidateSnapshot (snapshot : Snapshot) : res unit :=
  guard_err (sn_Revision snapshot <? 1) (EWrap ErrNoSnapshot "revision must be positive" []);;
  validate_items (sn_Configs snapshot).

(** The cache in memory, and the file system under it. *)
(** [src/internal/agent/cache.go:22-26] SnapshotCache *)
Record SnapshotCache := MkSnapshotCache {
  c_fs : FS;
  c_snapshot : option Snapshot }.

#[export] Instance cache_fs : Has FS SnapshotCache := {|
  part := c_fs;
  set_part fs c := MkSnapshotCache fs (c_snapshot c) |}.

Definition set_snapshot (snapshot : Snapshot) : M SnapshotCache unit :=
  modify (λ c, MkSnapshotCache (c_fs c) (Some (CloneSnapshot snapshot))).

(** [src/internal/agent/cache.go:110-116] previousPath *)
Definition previousPath (path : string) : string :=
  let extension := Ext path in
  if empty_str extension then path +:+ ".previous"
  else TrimSuffix path extension +:+ ".previous" +:+ extension.

Section Cache.
Context `{Codec Snapshot} (json_MarshalIndent : Snapshot → res string) (path : string).

(** [src/internal/agent/cache.go:32-54] SnapshotCache.Load *)
Definition Load (ctxErr : option error) : M SnapshotCache unit :=
  ctx_check ctxErr;;
  data ← zoom (ReadFile path);
  snapshot ← lift (json_Unmarshal data);
  lift (ValidateSnapshot snapshot);;
  set_snapshot snapshot.

Definition tmpPath : string := path +:+ ".tmp".

(** [src/internal/agent/cache.go:74-89] SnapshotCache.Save *)
Definition write_tmp (data : string) : M SnapshotCache unit :=
  zoom (OpenTruncated tmpPath);;
  written ← try (zoom (Write tmpPath data));
  match written with
  | Err err => try (zoom (Close tmpPath));; mthrow err
  | Ok _ =>
      synced ← try (zoom (Sync tmpPath));
      match synced with
      | Err err => try (zoom (Close tmpPath));; mthrow err
      | Ok _ => zoom (Close tmpPath)
      end
  end.

(** [src/internal/agent/cache.go:92-100] SnapshotCache.Save *)
Definition rename_in_place : M SnapshotCache unit :=
  let previous := previousPath path in
  found ← try (zoom (Stat path));
  (if is_ok found then zoom (Rename path previous) else mret tt);;
  renamed ← try (zoom (Rename tmpPath path));
  match renamed with
  | Err err => try (zoom (Rename previous path));; mthrow err
  | Ok _ => mret tt
  end.

(** [src/internal/agent/cache.go:90-100] SnapshotCache.Save *)
Definition install : M SnapshotCache unit :=
  try (zoom (Remove (previousPath path)));; rename_in_place.

(** [src/internal/agent/cache.go:56-107] SnapshotCache.Save *)
Definition Save (snapshot : Snapshot) (ctxErr : option error) : M SnapshotCache unit :=
  ctx_check ctxErr;;
  lift (ValidateSnapshot snapshot);;
  data ← lift (json_MarshalIndent snapshot);
  zoom (MkdirAll path);;
  write_tmp data;;
  install;;
  set_snapshot snapshot.

End Cache.

(** [src/internal/agent/cache.go:118-126] SnapshotCache.Snapshot *)
Definition CacheSnapshot : M SnapshotCache Snapshot :=
  c ← get_world;
  match c_snapshot c with
  | None => mthrow ErrNoSnapshot
  | Some snapshot => mret (CloneSnapshot snapshot)
  end.

Fixpoint find_item (key : string) (items : list SnapshotItem) : option SnapshotItem :=
  match items with
  | [] => None
  | item :: rest => if bool_decide (si_Key item = key) then Some item else find_item key rest
  end.

(** [src/internal/agent/cache.go:128-140] SnapshotCache.Config *)
Definition Config (key : string) : M SnapshotCache SnapshotItem :=
  snapshot ← CacheSnapshot;
  match find_item key (sn_Configs snapshot) with
  | Some item => mret item
  | None => mthrow (EWrap ErrConfigNotFound "%s" [key])
  end.

(** [src/internal/agent/cache.go:142-145] SnapshotCache.Check *)
Definition Check_ : M SnapshotCache unit := CacheSnapshot;; mret tt.

(** * client.go *)

(** What a client hands to [http.Client.Do] and reads of its answer; reading
    the body may fail. *)
(** [src/internal/agent/client.go:16-21] SnapshotClient *)
Record SnapshotClient := MkSnapshotClient {
  sc_BaseURL : string;
  sc_AgentID : string;
  sc_Token : string }.

(** [src/internal/agent/client.go:23-27] FetchResult *)
Record FetchResult := MkFetchResult {
  fr_Snapshot : Snapshot;
  fr_ETag : string;
  fr_Changed : bool }.

(** [src/internal/agent/client.go:78-86] RegisterInput *)
Record RegisterInput := MkRegisterInput {
  ri_BootstrapToken : string;
  ri_ID : string;
  ri_Service : string;
  ri_Environment : string;
  ri_Zone : string;
  ri_Instance : string;
  ri_Labels : gmap string string }.

(** [src/internal/agent/client.go:135-140] registerResponse *)
Record registerResponse := MkRegisterResponse {
  rr_Agent_ID : string;
  rr_InstanceCredential : string }.

(** [src/internal/agent/client.go:88-91] RegisterResult *)
Record RegisterResult := MkRegisterResult {
  rg_AgentID : string;
  rg_InstanceCredential : string }.

(** The body of an acknowledgement; the rollout's fields may be missing. *)
(** [src/internal/agent/client.go:153-161] ControlPlaneAcknowledger.Acknowledge *)
Record AckPayload := MkAckPayload {
  ap_config_definition_id : string;
  ap_version_id : string;
  ap_snapshot_revision : Z;
  ap_rollout : option (string * string) }.

(** [src/internal/agent/client.go:153-161] ControlPlaneAcknowledger.Acknowledge *)
Definition ack_payload (item : SnapshotItem) (revision : Z) : AckPayload :=
  let a := si_Assignment item in
  MkAckPayload (si_ConfigDefinitionID item) (si_VersionID item) revision
    (if negb (empty_str (as_RolloutID a)) && negb (empty_str (as_StageID a))
     then Some (as_RolloutID a, as_StageID a) else None).

(** The request of one poll. *)
(** [src/internal/agent/client.go:35-43] SnapshotClient.Fetch *)
Definition fetch_request (c : SnapshotClient) (etag : string) : HttpRequest :=
  let url := TrimRight_slash (sc_BaseURL c) +:+ "/v1/agents/" +:+ sc_AgentID c +:+ "/snapshot" in
  let headers := <["Authorization" := "Bearer " +:+ sc_Token c]> ∅ in
  let headers := if negb (empty_str etag) then <["If-None-Match" := etag]> headers else headers in
  MkHttpRequest "GET" url headers "".

(** The request of one acknowledgement. *)
(** [src/internal/agent/client.go:167-173] ControlPlaneAcknowledger.Acknowledge *)
Definition ack_request (BaseURL agentID token body : string) : HttpRequest :=
  let url := TrimRight_slash BaseURL +:+ "/v1/agents/" +:+ agentID +:+ "/acknowledgements" in
  let headers := <["Content-Type" := "application/json"]>
                   (<["Authorization" := "Bearer " +:+ token]> ∅) in
  MkHttpRequest "POST" url headers body.

Section Clients.
Context {W : Type} `{HttpClient W, Codec Snapshot, Codec RegisterInput, Codec registerResponse,
  Codec AckPayload}.

(** An unexpected status: the first 512 bytes of the body are reported. *)
Definition status_error {A} (what : string) (resp : HttpResponse) : M W A :=
  body ← lift (hp_Body resp);
  mthrow (EText (what +:+ " failed: status=%d body=%s")
            [pretty (hp_StatusCode resp); String.substring 0 512 body]).

(** [src/internal/agent/client.go:29-67] SnapshotClient.Fetch *)
Definition Fetch (c : SnapshotClient) (ctx : Context) (etag : string) : M W FetchResult :=
  resp ← http_Do ctx (fetch_request c etag);
  if hp_StatusCode resp =? StatusNotModified
  then mret (MkFetchResult (MkSnapshot 0 0 []) etag false)
  else if negb (hp_StatusCode resp =? StatusOK) then status_error "snapshot request" resp
  else
    body ← lift (hp_Body resp);
    snapshot ← lift (json_Unmarshal body);
    mret (MkFetchResult snapshot (hp_ETag resp) true).

(** [src/internal/agent/client.go:93-133] RegistrationClient.Register *)
Definition Register (BaseURL : string) (ctx : Context) (input : RegisterInput)
    : M W RegisterResult :=
  body ← lift (json_Marshal input);
  let url := TrimRight_slash BaseURL +:+ "/v1/agents/register" in
  resp ← http_Do ctx (MkHttpRequest "POST" url
    (<["Content-Type" := "application/json"]> ∅) body);
  if negb (hp_StatusCode resp =? StatusCreated) then status_error "agent registration" resp
  else
    body ← lift (hp_Body resp);
    payload ← lift (json_Unmarshal body);
    mret (MkRegisterResult (rr_Agent_ID payload) (rr_InstanceCredential payload)).

(** [src/internal/agent/client.go:147-189] ControlPlaneAcknowledger.Acknowledge *)
Definition Acknowledge (BaseURL : string) (ctx : Context) (agentID token : string)
    (item : SnapshotItem) (revision : Z) : M W unit :=
  body ← lift (json_Marshal (ack_payload item revision));
  resp ← http_Do ctx (ack_request BaseURL agentID token body);
  if negb (hp_StatusCode resp =? StatusCreated) then status_error "acknowledgement" resp
  else mret tt.

End Clients.

(** * syncer.go *)

(** [src/internal/agent/client.go:69-71] Acknowledger *)
Definition Acknowledger (W : Type) : Type :=
  Context → string → string → SnapshotItem → Z → M W unit.

(** The field [etag] is the state of a syncer; the cache is a part of the
    world it runs in. *)
(** [src/internal/agent/syncer.go:9-15] Syncer *)
Record Syncer (W : Type) := MkSyncer {
  sy_Client : SnapshotClient;
  sy_Cache_path : string;
  sy_Acknowledger : option (Acknowledger W);
  sy_PollInterval : Duration }.
Arguments MkSyncer {W} _ _ _ _.
Arguments sy_Client {W} _.
Arguments sy_Cache_path {W} _.
Arguments sy_Acknowledger {W} _.
Arguments sy_PollInterval {W} _.

Record Etag := MkEtag { etag : string }.

Section Sync.
Context {W : Type} `{Env W, HttpClient W, Codec Snapshot, Has SnapshotCache W, Has Etag W}.
Context (json_MarshalIndent : Snapshot → res string).

(** [src/internal/agent/syncer.go:29-35] Syncer.SyncOnce *)
Definition acknowledge_items (s : Syncer W) (ctx : Context) (snapshot : Snapshot) : M W unit :=
  match sy_Acknowledger s with
  | None => mret tt
  | Some acknowledge =>
      for_each (sn_Configs snapshot) (λ item,
        acknowledge ctx (sc_AgentID (sy_Client s)) (sc_Token (sy_Client s)) item
          (sn_Revision snapshot))
  end.

(** [src/internal/agent/syncer.go:17-38] Syncer.SyncOnce *)
Definition SyncOnce (s : Syncer W) (ctx : Context) : M W unit :=
  current ← gets (λ w, etag (part w));
  result ← Fetch (sy_Client s) ctx current;
  if negb (fr_Changed result) then mret tt
  else
    store_call ctx (Save json_MarshalIndent (sy_Cache_path s) (fr_Snapshot result));;
    modify (set_part (MkEtag (fr_ETag result)));;
    acknowledge_items s ctx (fr_Snapshot result).

(** [draw n] is [rand.Int64N(n)]; it panics ([None]) unless [n] is positive. *)
(** [src/internal/agent/syncer.go:61-68] jitter *)
Definition jitter (draw : Z → Z) (interval : Duration) : option Duration :=
  let delta := Z.quot interval 5 in
  if delta =? 0 then Some interval
  else
    let n := int64_wrap (delta * 2 + 1) in
    if n <=? 0 then None
    else Some (int64_wrap (interval + int64_wrap (draw n - delta))).

(** How the wait of an iteration ends. *)
Inductive Wait := TimerFired | CtxDone (err : ctx_error).

(** The loop over the waits of its iterations; [None] while it runs. *)
(** [src/internal/agent/syncer.go:40-59] Syncer.Run *)
Fixpoint Run (s : Syncer W) (ctx : Context) (waits : list Wait) : M W (option error) :=
  match waits with
  | [] => mret None
  | wait :: rest =>
      try (SyncOnce s ctx);;
      match wait with
      | CtxDone err => mret (Some (ctx_cause err))
      | TimerFired => Run s ctx rest
      end
  end.

End Sync.

(** * handler.go *)

(** [src/internal/agent/handler.go:68-72] configResponse *)
Record configResponse := MkConfigResponse {
  cr_Key : string;
  cr_Version : Z;
  cr_Value : Domain.RawMessage }.

(** [src/internal/agent/handler.go:74-77] errorResponse *)
Record errorResponse := MkErrorResponse { er_Error : string; er_Message : string }.

Inductive AgentPayload :=
| PAgentSnapshot (s : Snapshot)
| PConfig (c : configResponse)
| PAgentError (e : errorResponse).

(** [src/internal/agent/handler.go:62-66] writeAgentJSON *)
Definition writeAgentJSON (status : Z) (payload : AgentPayload) : Response AgentPayload :=
  MkResponse status "" (Some payload).

(** [src/internal/agent/handler.go:51-60] writeAgentError *)
Definition writeAgentError (err : error) : Response AgentPayload :=
  if errors_Is err ErrNoSnapshot
  then writeAgentJSON StatusServiceUnavailable (PAgentError (MkErrorResponse "not_ready" (Error err)))
  else if errors_Is err ErrConfigNotFound
  then writeAgentJSON StatusNotFound (PAgentError (MkErrorResponse "not_found" (Error err)))
  else writeAgentJSON StatusInternalServerError (PAgentError (MkErrorResponse "internal_error" "request failed")).

(** [src/internal/agent/handler.go:28-35] Handler.getSnapshot *)
Definition handle_getSnapshot (r : Request) : M SnapshotCache (Response AgentPayload) :=
  found ← try CacheSnapshot;
  match found with
  | Err err => mret (writeAgentError err)
  | Ok snapshot => mret (writeAgentJSON StatusOK (PAgentSnapshot snapshot))
  end.

(** [src/internal/agent/handler.go:37-49] Handler.getConfig *)
Definition handle_getConfig (r : Request) : M SnapshotCache (Response AgentPayload) :=
  found ← try (Config (PathValue r "key"));
  match found with
  | Err err => mret (writeAgentError err)
  | Ok item => mret (writeAgentJSON StatusOK
      (PConfig (MkConfigResponse (si_Key item) (si_Version item) (si_Value item))))
  end.

Inductive LocalRoute := GetSnapshot_ | GetConfig_.

(** [src/internal/agent/handler.go:23-24] NewHandler *)
Definition local_routes : list (Mux.pattern LocalRoute) :=
  [ Mux.MkPattern "GET" [Mux.Lit "v1"; Mux.Lit "snapshot"] GetSnapshot_;
    Mux.MkPattern "GET" [Mux.Lit "v1"; Mux.Lit "config"; Mux.Wild "key"] GetConfig_ ].

(** [src/internal/agent/handler.go:23-24] NewHandler *)
Definition handle_local (route : LocalRoute) (r : Request) : M SnapshotCache (Response AgentPayload) :=
  match route with GetSnapshot_ => handle_getSnapshot r | GetConfig_ => handle_getConfig r end.

(** The handler reads the cache of the process; it is ready when the cache
    is. *)
(** [src/internal/agent/handler.go:15-26] NewHandler *)
Definition NewHandler {W} `{Env W, Has SnapshotCache W} : Health.ServeHTTP W AgentPayload :=
  Health.ServeMux (Health.NewHandler "agent" (Some (λ _, zoom Check_))) local_routes
    (λ route _ r, zoom (handle_local route r)).

End Agent.
