(* ===== verification/ControlPlane.v ===== *)
(** [internal/controlplane/handler.go]: the HTTP interface of the control
    plane.  A handler decodes the request, calls one service and writes one
    response; the acknowledgement handler calls two. *)

From Stdlib Require Import ZArith Lia Ascii SpecFloat.
From S2P Require Import Prelude GoLib Host Http Mux Health Domain Guardrail Registry AgentRegistry Rollout RolloutService.
Import Domain Rollout.
Open Scope string_scope.
Open Scope list_scope.
Open Scope Z_scope.

Module ControlPlane.

(** * Requests *)

(** [src/internal/controlplane/handler.go:421-426] createTenantRequest *)
Record createTenantRequest := MkCreateTenantRequest {
  tq_ID : string;
  tq_Name : string;
  tq_Description : string;
  tq_Owner : string }.

(** [src/internal/controlplane/handler.go:428-433] createDefinitionRequest *)
Record createDefinitionRequest := MkCreateDefinitionRequest {
  dq_Key : string;
  dq_Description : string;
  dq_Schema : RawMessage;
  dq_Default : RawMessage }.

(** [src/internal/controlplane/handler.go:435-439] createVersionRequest *)
Record createVersionRequest := MkCreateVersionRequest {
  vq_Value : RawMessage;
  vq_SourceCommitSHA : string;
  vq_CreatedBy : string }.

(** [src/internal/controlplane/handler.go:441-443] setStableVersionRequest *)
Record setStableVersionRequest := MkSetStableVersionRequest {
  sq_VersionNumber : Z }.

(** [src/internal/controlplane/handler.go:445-453] registerAgentRequest *)
Record registerAgentRequest := MkRegisterAgentRequest {
  rq_BootstrapToken : string;
  rq_ID : string;
  rq_Service : string;
  rq_Environment : string;
  rq_Zone : string;
  rq_Instance : string;
  rq_Labels : gmap string string }.

(** [src/internal/controlplane/handler.go:455-461] acknowledgementRequest *)
Record acknowledgementRequest := MkAcknowledgementRequest {
  aq_ConfigDefinitionID : string;
  aq_VersionID : string;
  aq_SnapshotRevision : Z;
  aq_RolloutID : string;
  aq_StageID : string }.

(** [src/internal/controlplane/handler.go:477-481] createRolloutStage *)
Record createRolloutStage := MkCreateRolloutStage {
  gs_ID : string;
  gs_Percentage : Z;
  gs_MinimumDurationSeconds : Z }.

(** [src/internal/controlplane/handler.go:483-489] createGuardrail *)
Record createGuardrail := MkCreateGuardrail {
  gr_Name : string;
  gr_Query : string;
  gr_Operator : string;
  gr_Threshold : float64;
  gr_ConsecutiveFailures : Z }.

(** [src/internal/controlplane/handler.go:463-475] createRolloutRequest *)
Record createRolloutRequest := MkCreateRolloutRequest {
  cq_TenantID : string;
  cq_Key : string;
  cq_Environment : string;
  cq_CandidateVersion : Z;
  cq_TargetServices : list string;
  cq_Stages : list createRolloutStage;
  cq_Guardrails : list createGuardrail;
  cq_RequiredAckPercentage : float64;
  cq_DeploymentTimeoutSeconds : Z;
  cq_RolloutMaxDurationSeconds : Z;
  cq_RollbackTimeoutSeconds : Z }.

(** * Responses *)

(** [src/internal/controlplane/handler.go:491-498] tenantResponse *)
Record tenantResponse := MkTenantResponse {
  tr_ID : string;
  tr_Name : string;
  tr_Description : string;
  tr_Owner : string;
  tr_CreatedAt : string;
  tr_UpdatedAt : string }.

(** [src/internal/controlplane/handler.go:500-509] definitionResponse *)
Record definitionResponse := MkDefinitionResponse {
  dr_ID : string;
  dr_TenantID : string;
  dr_Key : string;
  dr_Description : string;
  dr_Schema : RawMessage;
  dr_DefaultValue : RawMessage;
  dr_CreatedAt : string;
  dr_UpdatedAt : string }.

(** [src/internal/controlplane/handler.go:511-519] versionResponse *)
Record versionResponse := MkVersionResponse {
  vr_ID : string;
  vr_ConfigDefinitionID : string;
  vr_VersionNumber : Z;
  vr_Value : RawMessage;
  vr_SourceCommitSHA : string;
  vr_CreatedBy : string;
  vr_CreatedAt : string }.

(** [src/internal/controlplane/handler.go:521-527] environmentStateResponse *)
Record environmentStateResponse := MkEnvironmentStateResponse {
  er_ConfigDefinitionID : string;
  er_Environment : string;
  er_StableVersionID : string;
  er_ActiveRolloutID : string;
  er_UpdatedAt : string }.

(** [src/internal/controlplane/handler.go:535-544] agentResponse *)
Record agentResponse := MkAgentResponse {
  ar_ID : string;
  ar_Service : string;
  ar_Environment : string;
  ar_Zone : string;
  ar_Instance : string;
  ar_Labels : gmap string string;
  ar_RegisteredAt : string;
  ar_LastSeenAt : string }.

(** [src/internal/controlplane/handler.go:529-533] registerAgentResponse *)
Record registerAgentResponse := MkRegisterAgentResponse {
  ra_Agent : agentResponse;
  ra_InstanceCredential : string;
  ra_ExpiresAt : string }.

(** [src/internal/controlplane/handler.go:579-583] coverageResponse *)
Record coverageResponse := MkCoverageResponse {
  cr_Total : Z;
  cr_Acked : Z;
  cr_Percentage : float64 }.

(** [src/internal/controlplane/handler.go:557-561] rolloutAckResponse *)
Record rolloutAckResponse := MkRolloutAckResponse {
  rar_Counted : bool;
  rar_Decision : string;
  rar_Coverage : coverageResponse }.

(** [src/internal/controlplane/handler.go:546-555] acknowledgementResponse *)
Record acknowledgementResponse := MkAcknowledgementResponse {
  kr_ID : string;
  kr_AgentID : string;
  kr_ConfigDefinitionID : string;
  kr_VersionID : string;
  kr_SnapshotRevision : Z;
  kr_Counted : bool;
  kr_CreatedAt : string;
  kr_Rollout : option rolloutAckResponse }.

(** [src/internal/controlplane/handler.go:563-577] rolloutResponse *)
Record rolloutResponse := MkRolloutResponse {
  rr_ID : string;
  rr_ConfigDefinitionID : string;
  rr_TenantID : string;
  rr_Key : string;
  rr_Environment : string;
  rr_StableVersionID : string;
  rr_CandidateVersionID : string;
  rr_CandidateVersion : Z;
  rr_State : string;
  rr_CurrentStageID : string;
  rr_RollbackStatus : string;
  rr_Coverage : coverageResponse;
  rr_Targets : Z }.

(** [src/internal/controlplane/handler.go:585-588] errorResponse *)
Record errorResponse := MkErrorResponse {
  ee_Error : string;
  ee_Message : string }.

Inductive Payload :=
| PTenant (t : tenantResponse)
| PTenants (l : list tenantResponse)
| PDefinition (d : definitionResponse)
| PDefinitions (l : list definitionResponse)
| PVersion (v : versionResponse)
| PVersions (l : list versionResponse)
| PEnvironmentState (e : environmentStateResponse)
| PRegistered (r : registerAgentResponse)
| PAgent (a : agentResponse)
| PAcknowledgement (k : acknowledgementResponse)
| PRollout (r : rolloutResponse)
| PError (e : errorResponse).

(** [src/internal/controlplane/handler.go:590-599] tenantResponseFromDomain *)
Definition tenantResponseFromDomain (tenant : Tenant) : tenantResponse :=
  MkTenantResponse (t_ID tenant) (t_Name tenant) (t_Description tenant) (t_Owner tenant)
    (Format_RFC3339 (t_CreatedAt tenant)) (Format_RFC3339 (t_UpdatedAt tenant)).

(** [src/internal/controlplane/handler.go:601-612] definitionResponseFromDomain *)
Definition definitionResponseFromDomain (d : ConfigDefinition) : definitionResponse :=
  MkDefinitionResponse (d_ID d) (d_TenantID d) (d_Key d) (d_Description d) (d_Schema d)
    (d_DefaultValue d) (Format_RFC3339 (d_CreatedAt d)) (Format_RFC3339 (d_UpdatedAt d)).

(** [src/internal/controlplane/handler.go:614-624] versionResponseFromDomain *)
Definition versionResponseFromDomain (v : ConfigVersion) : versionResponse :=
  MkVersionResponse (v_ID v) (v_ConfigDefinitionID v) (v_VersionNumber v) (v_Value v)
    (v_SourceCommitSHA v) (v_CreatedBy v) (Format_RFC3339 (v_CreatedAt v)).

(** [src/internal/controlplane/handler.go:626-634] environmentStateResponseFromDomain *)
Definition environmentStateResponseFromDomain (state : ConfigEnvironmentState)
    : environmentStateResponse :=
  MkEnvironmentStateResponse (es_ConfigDefinitionID state) (es_Environment state)
    (es_StableVersionID state) (es_ActiveRolloutID state) (Format_RFC3339 (es_UpdatedAt state)).

(** [src/internal/controlplane/handler.go:644-655] agentResponseFromDomain *)
Definition agentResponseFromDomain (agent : Agent) : agentResponse :=
  MkAgentResponse (a_ID agent) (a_Service agent) (a_Environment agent) (a_Zone agent)
    (a_Instance agent) (a_Labels agent) (Format_RFC3339 (a_RegisteredAt agent))
    (Format_RFC3339 (a_LastSeenAt agent)).

(** [src/internal/controlplane/handler.go:636-642] registerAgentResponseFromDomain *)
Definition registerAgentResponseFromDomain (result : AgentRegistry.RegisterResult)
    : registerAgentResponse :=
  MkRegisterAgentResponse (agentResponseFromDomain (AgentRegistry.rr_Agent result))
    (c_Token (AgentRegistry.rr_Credential result))
    (Format_RFC3339 (c_ExpiresAt (AgentRegistry.rr_Credential result))).

(** [src/internal/controlplane/handler.go:687-693] coverageResponseFromDomain *)
Definition coverageResponseFromDomain (coverage : Coverage) : coverageResponse :=
  MkCoverageResponse (cov_Total coverage) (cov_Acked coverage) (cov_Percentage coverage).

(** The handler sets [Rollout] on the response afterwards. *)
(** [src/internal/controlplane/handler.go:657-667] acknowledgementResponseFromDomain *)
Definition acknowledgementResponseFromDomain (ack : AgentAcknowledgement)
    (rollout : option rolloutAckResponse) : acknowledgementResponse :=
  MkAcknowledgementResponse (k_ID ack) (k_AgentID ack) (k_ConfigDefinitionID ack) (k_VersionID ack)
    (k_SnapshotRevision ack) (k_Counted ack) (Format_RFC3339 (k_CreatedAt ack)) rollout.

(** [src/internal/controlplane/handler.go:669-685] rolloutResponseFromDomain *)
Definition rolloutResponseFromDomain (r : Rollout) (targets : list StageTarget) (coverage : Coverage)
    : rolloutResponse :=
  MkRolloutResponse (r_ID r) (r_ConfigDefinitionID r) (r_TenantID r) (r_ConfigKey r)
    (r_Environment r) (r_StableVersionID r) (r_CandidateVersionID r) (r_CandidateVersion r)
    (State_string (r_State r)) (r_CurrentStageID r) (RollbackStatus_string (r_RollbackStatus r))
    (coverageResponseFromDomain coverage) (Z.of_nat (length targets)).

(** The product of two [int64] wraps around. *)
(** [src/internal/controlplane/handler.go:729-734] durationSeconds *)
Definition durationSeconds (seconds : Z) : Duration :=
  if seconds <=? 0 then 0 else int64_wrap (seconds * Second).

(** [src/internal/controlplane/handler.go:695-709] stagesFromRequest *)
Definition stagesFromRequest (stages : list createRolloutStage) : list Stage :=
  (λ stage, MkStage (gs_ID stage) (gs_Percentage stage)
               (durationSeconds (gs_MinimumDurationSeconds stage))) <$> stages.

(** [src/internal/controlplane/handler.go:711-727] guardrailsFromRequest *)
Definition guardrailsFromRequest (guardrails : list createGuardrail) : list Guardrail.Rule :=
  (λ rule, Guardrail.MkRule (gr_Name rule) (gr_Query rule) (gr_Operator rule)
              (gr_Threshold rule) (gr_ConsecutiveFailures rule)) <$> guardrails.

(** [src/internal/controlplane/handler.go:736-746] bearerToken *)
Definition bearerToken (header : string) : string :=
  bearer_token header.

(** * Errors *)

(** [src/internal/controlplane/handler.go:415-419] writeJSON *)
Definition writeJSON (status : Z) (payload : Payload) : Response Payload :=
  MkResponse status "" (Some payload).

Definition write_failure (status : Z) (code message : string) : Response Payload :=
  writeJSON status (PError (MkErrorResponse code message)).

(** [src/internal/controlplane/handler.go:372-385] writeError *)
Definition writeError (err : error) : Response Payload :=
  if errors_Is err ConfigRegistry.ErrInvalidInput
  then write_failure StatusBadRequest "invalid_input" (Error err)
  else if errors_Is err ConfigRegistry.ErrNotFound
  then write_failure StatusNotFound "not_found" (Error err)
  else if errors_Is err ConfigRegistry.ErrAlreadyExists
  then write_failure StatusConflict "already_exists" (Error err)
  else if errors_Is err ConfigRegistry.ErrConflict
  then write_failure StatusConflict "conflict" (Error err)
  else write_failure StatusInternalServerError "internal_error" "request failed".

(** [src/internal/controlplane/handler.go:387-400] writeAgentError *)
Definition writeAgentError (err : error) : Response Payload :=
  if errors_Is err AgentRegistry.ErrInvalidInput
  then write_failure StatusBadRequest "invalid_input" (Error err)
  else if errors_Is err AgentRegistry.ErrUnauthorized || errors_Is err AgentRegistry.ErrExpiredCredential
  then write_failure StatusUnauthorized "unauthorized" (Error err)
  else if errors_Is err AgentRegistry.ErrForbidden
  then write_failure StatusForbidden "forbidden" (Error err)
  else if errors_Is err AgentRegistry.ErrNotFound
  then write_failure StatusNotFound "not_found" (Error err)
  else write_failure StatusInternalServerError "internal_error" "request failed".

(** [src/internal/controlplane/handler.go:402-413] writeRolloutError *)
Definition writeRolloutError (err : error) : Response Payload :=
  if errors_Is err Rollout.ErrInvalidInput
  then write_failure StatusBadRequest "invalid_input" (Error err)
  else if errors_Is err Rollout.ErrNotFound
  then write_failure StatusNotFound "not_found" (Error err)
  else if errors_Is err Rollout.ErrAlreadyExists || errors_Is err Rollout.ErrConflict
  then write_failure StatusConflict "conflict" (Error err)
  else write_failure StatusInternalServerError "internal_error" "request failed".

(** * Handlers *)

(** The services behind the handler; a [nil] one is absent. *)
(** [src/internal/controlplane/handler.go:18-22] Handler *)
Record Handler (W : Type) := MkHandler {
  h_registry : ConfigRegistry.SchemaValidator;
  h_agents : option AgentRegistry.Service;
  h_rollouts : option (RolloutService.Service W) }.
Arguments h_registry {W} _.
Arguments h_agents {W} _.
Arguments h_rollouts {W} _.

(** [json.Decoder] with [DisallowUnknownFields]. *)
Class RequestDecoder (T : Type) := json_DecodeStrict : string → res T.

(** The patterns of the mux are disjoint: a request runs one handler. *)
Inductive Route :=
| CreateTenant_ | ListTenants_ | GetTenant_ | CreateDefinition_ | ListDefinitions_
| GetDefinition_ | CreateVersion_ | ListVersions_ | SetStableVersion_ | GetStableVersion_
| RegisterAgent_ | AgentHeartbeat_ | AgentAcknowledgement_ | CreateRollout_ | GetRollout_.

(** [src/internal/controlplane/handler.go:41-60] NewHandlerWithServices *)
Definition routes : list (Mux.pattern Route) :=
  let lit := Mux.Lit in let wild := Mux.Wild in
  let tenants := [lit "v1"; lit "tenants"] in
  let tenant := tenants ++ [wild "tenant"] in
  let configs := tenant ++ [lit "configs"] in
  let config := configs ++ [wild "key"] in
  let versions := config ++ [lit "versions"] in
  let stable := config ++ [lit "environments"; wild "environment"; lit "stable"] in
  let agent := [lit "v1"; lit "agents"; wild "agentID"] in
  let rollouts := [lit "v1"; lit "rollouts"] in
  [ Mux.MkPattern "POST" tenants CreateTenant_;
    Mux.MkPattern "GET" tenants ListTenants_;
    Mux.MkPattern "GET" tenant GetTenant_;
    Mux.MkPattern "POST" configs CreateDefinition_;
    Mux.MkPattern "GET" configs ListDefinitions_;
    Mux.MkPattern "GET" config GetDefinition_;
    Mux.MkPattern "POST" versions CreateVersion_;
    Mux.MkPattern "GET" versions ListVersions_;
    Mux.MkPattern "POST" stable SetStableVersion_;
    Mux.MkPattern "GET" stable GetStableVersion_;
    Mux.MkPattern "POST" [lit "v1"; lit "agents"; lit "register"] RegisterAgent_;
    Mux.MkPattern "POST" (agent ++ [lit "heartbeat"]) AgentHeartbeat_;
    Mux.MkPattern "POST" (agent ++ [lit "acknowledgements"]) AgentAcknowledgement_;
    Mux.MkPattern "POST" rollouts CreateRollout_;
    Mux.MkPattern "GET" (rollouts ++ [wild "rolloutID"]) GetRollout_ ].

Section Handlers.
Context {W : Type} `{Env W, ConfigRegistry.Store W, AgentRegistry.Store W, RolloutService.Store W,
  RolloutService.Registry W, RolloutService.AgentSource W}.
Context `{RequestDecoder createTenantRequest, RequestDecoder createDefinitionRequest,
  RequestDecoder createVersionRequest, RequestDecoder setStableVersionRequest,
  RequestDecoder registerAgentRequest, RequestDecoder acknowledgementRequest,
  RequestDecoder createRolloutRequest}.
Context (h : Handler W).

(** The rest of the handler runs on the decoded request. *)
(** [src/internal/controlplane/handler.go:360-370] decodeRequest *)
Definition decodeRequest {T} `{RequestDecoder T} (r : Request)
    (k : T → M W (Response Payload)) : M W (Response Payload) :=
  match json_DecodeStrict (rq_body r) with
  | Err err => mret (write_failure StatusBadRequest "invalid_json" (Error err))
  | Ok req => k req
  end.

(** [if err != nil { write(w, err); return }], then the response. *)
Definition reply {A} (write : error → Response Payload) (call : M W A)
    (k : A → Response Payload) : M W (Response Payload) :=
  result ← try call;
  match result with
  | Err err => mret (write err)
  | Ok a => mret (k a)
  end.

Definition unavailable (service : string) : M W (Response Payload) :=
  mret (write_failure StatusServiceUnavailable "unavailable" (service +:+ " is unavailable")).

(** [src/internal/controlplane/handler.go:65-83] createTenant *)
Definition createTenant (ctx : Context) (r : Request) : M W (Response Payload) :=
  decodeRequest r (λ req : createTenantRequest,
    reply writeError
      (ConfigRegistry.Service.CreateTenant ctx
         (ConfigRegistry.MkCreateTenantInput (tq_ID req) (tq_Name req) (tq_Description req)
            (tq_Owner req)))
      (λ tenant, writeJSON StatusCreated (PTenant (tenantResponseFromDomain tenant)))).

(** [src/internal/controlplane/handler.go:85-97] listTenants *)
Definition listTenants (ctx : Context) (r : Request) : M W (Response Payload) :=
  reply writeError (ConfigRegistry.Service.ListTenants ctx)
    (λ tenants, writeJSON StatusOK (PTenants (tenantResponseFromDomain <$> tenants))).

(** [src/internal/controlplane/handler.go:99-106] getTenant *)
Definition getTenant (ctx : Context) (r : Request) : M W (Response Payload) :=
  reply writeError (ConfigRegistry.Service.GetTenant ctx (PathValue r "tenant"))
    (λ tenant, writeJSON StatusOK (PTenant (tenantResponseFromDomain tenant))).

(** [src/internal/controlplane/handler.go:108-127] createDefinition *)
Definition createDefinition (ctx : Context) (r : Request) : M W (Response Payload) :=
  decodeRequest r (λ req : createDefinitionRequest,
    reply writeError
      (ConfigRegistry.Service.CreateDefinition (h_registry h) ctx
         (ConfigRegistry.MkCreateDefinitionInput (PathValue r "tenant") (dq_Key req)
            (dq_Description req) (dq_Schema req) (dq_Default req)))
      (λ definition,
         writeJSON StatusCreated (PDefinition (definitionResponseFromDomain definition)))).

(** [src/internal/controlplane/handler.go:129-141] listDefinitions *)
Definition listDefinitions (ctx : Context) (r : Request) : M W (Response Payload) :=
  reply writeError (ConfigRegistry.Service.ListDefinitions ctx (PathValue r "tenant"))
    (λ definitions,
       writeJSON StatusOK (PDefinitions (definitionResponseFromDomain <$> definitions))).

(** [src/internal/controlplane/handler.go:143-150] getDefinition *)
Definition getDefinition (ctx : Context) (r : Request) : M W (Response Payload) :=
  reply writeError
    (ConfigRegistry.Service.GetDefinition ctx (PathValue r "tenant") (PathValue r "key"))
    (λ definition, writeJSON StatusOK (PDefinition (definitionResponseFromDomain definition))).

(** [src/internal/controlplane/handler.go:152-171] createVersion *)
Definition createVersion (ctx : Context) (r : Request) : M W (Response Payload) :=
  decodeRequest r (λ req : createVersionRequest,
    reply writeError
      (ConfigRegistry.Service.CreateVersion (h_registry h) ctx
         (ConfigRegistry.MkCreateVersionInput (PathValue r "tenant") (PathValue r "key")
            (vq_Value req) (vq_SourceCommitSHA req) (vq_CreatedBy req)))
      (λ version, writeJSON StatusCreated (PVersion (versionResponseFromDomain version)))).

(** [src/internal/controlplane/handler.go:173-185] listVersions *)
Definition listVersions (ctx : Context) (r : Request) : M W (Response Payload) :=
  reply writeError
    (ConfigRegistry.Service.ListVersions ctx (PathValue r "tenant") (PathValue r "key"))
    (λ versions, writeJSON StatusOK (PVersions (versionResponseFromDomain <$> versions))).

(** [src/internal/controlplane/handler.go:187-205] setStableVersion *)
Definition setStableVersion (ctx : Context) (r : Request) : M W (Response Payload) :=
  decodeRequest r (λ req : setStableVersionRequest,
    reply writeError
      (ConfigRegistry.Service.SetStableVersion ctx
         (ConfigRegistry.MkSetStableVersionInput (PathValue r "tenant") (PathValue r "key")
            (PathValue r "environment") (sq_VersionNumber req)))
      (λ state,
         writeJSON StatusOK (PEnvironmentState (environmentStateResponseFromDomain state)))).

(** [src/internal/controlplane/handler.go:207-220] getStableVersion *)
Definition getStableVersion (ctx : Context) (r : Request) : M W (Response Payload) :=
  reply writeError
    (ConfigRegistry.Service.GetEnvironmentState ctx (PathValue r "tenant") (PathValue r "key")
       (PathValue r "environment"))
    (λ state, writeJSON StatusOK (PEnvironmentState (environmentStateResponseFromDomain state))).

(** [src/internal/controlplane/handler.go:222-248] registerAgent *)
Definition registerAgent (ctx : Context) (r : Request) : M W (Response Payload) :=
  match h_agents h with
  | None => unavailable "agent registry"
  | Some agents =>
      decodeRequest r (λ req : registerAgentRequest,
        reply writeAgentError
          (AgentRegistry.Svc.Register agents ctx
             (AgentRegistry.MkRegisterInput (rq_BootstrapToken req) (rq_ID req) (rq_Service req)
                (rq_Environment req) (rq_Zone req) (rq_Instance req) (rq_Labels req)))
          (λ result,
             writeJSON StatusCreated (PRegistered (registerAgentResponseFromDomain result))))
  end.

(** [src/internal/controlplane/handler.go:250-263] agentHeartbeat *)
Definition agentHeartbeat (ctx : Context) (r : Request) : M W (Response Payload) :=
  match h_agents h with
  | None => unavailable "agent registry"
  | Some _ =>
      reply writeAgentError
        (AgentRegistry.Svc.Heartbeat ctx (PathValue r "agentID")
           (bearerToken (Header r "Authorization")))
        (λ agent, writeJSON StatusOK (PAgent (agentResponseFromDomain agent)))
  end.

(** The part of [agentAcknowledgement] that follows a recorded acknowledgement. *)
(** [src/internal/controlplane/handler.go:288-310] rollout_acknowledgement *)
Definition rollout_acknowledgement (ctx : Context) (agentID : string)
    (req : acknowledgementRequest) (ack : AgentAcknowledgement) : M W (Response Payload) :=
  match h_rollouts h with
  | Some rollouts =>
      if negb (empty_str (aq_RolloutID req)) && negb (empty_str (aq_StageID req)) then
        reply writeRolloutError
          (RolloutService.Acknowledge rollouts ctx
             (RolloutService.MkAcknowledgeInput (aq_RolloutID req) (aq_StageID req) agentID
                (aq_VersionID req) (aq_SnapshotRevision req)))
          (λ result,
             writeJSON StatusCreated (PAcknowledgement (acknowledgementResponseFromDomain ack
               (Some (MkRolloutAckResponse (RolloutService.ar_Counted result)
                        (StageDecision_string (RolloutService.ar_Decision result))
                        (coverageResponseFromDomain (RolloutService.ar_Coverage result)))))))
      else mret (writeJSON StatusCreated
                   (PAcknowledgement (acknowledgementResponseFromDomain ack None)))
  | None => mret (writeJSON StatusCreated
                    (PAcknowledgement (acknowledgementResponseFromDomain ack None)))
  end.

(** [src/internal/controlplane/handler.go:265-311] agentAcknowledgement *)
Definition agentAcknowledgement (ctx : Context) (r : Request) : M W (Response Payload) :=
  match h_agents h with
  | None => unavailable "agent registry"
  | Some _ =>
      decodeRequest r (λ req : acknowledgementRequest,
        recorded ← try (AgentRegistry.Svc.Acknowledge ctx
          (AgentRegistry.MkAcknowledgeInput (PathValue r "agentID")
             (bearerToken (Header r "Authorization")) (aq_ConfigDefinitionID req)
             (aq_VersionID req) (aq_SnapshotRevision req)));
        match recorded with
        | Err err => mret (writeAgentError err)
        | Ok ack => rollout_acknowledgement ctx (PathValue r "agentID") req ack
        end)
  end.

(** [src/internal/controlplane/handler.go:324-336] create_rollout_input *)
Definition create_rollout_input (req : createRolloutRequest) : RolloutService.CreateRolloutInput :=
  RolloutService.MkCreateRolloutInput (cq_TenantID req) (cq_Key req) (cq_Environment req)
    (cq_CandidateVersion req) (cq_TargetServices req) (stagesFromRequest (cq_Stages req))
    (guardrailsFromRequest (cq_Guardrails req)) (cq_RequiredAckPercentage req)
    (durationSeconds (cq_DeploymentTimeoutSeconds req))
    (durationSeconds (cq_RolloutMaxDurationSeconds req))
    (durationSeconds (cq_RollbackTimeoutSeconds req)).

(** [src/internal/controlplane/handler.go:313-343] createRollout *)
Definition createRollout (ctx : Context) (r : Request) : M W (Response Payload) :=
  match h_rollouts h with
  | None => unavailable "rollout service"
  | Some rollouts =>
      decodeRequest r (λ req : createRolloutRequest,
        reply writeRolloutError
          (RolloutService.CreateRollout rollouts ctx (create_rollout_input req))
          (λ '(created, targets),
             writeJSON StatusCreated (PRollout (rolloutResponseFromDomain created targets
               (AcknowledgementCoverage targets)))))
  end.

(** [src/internal/controlplane/handler.go:345-358] getRollout *)
Definition getRollout (ctx : Context) (r : Request) : M W (Response Payload) :=
  match h_rollouts h with
  | None => unavailable "rollout service"
  | Some _ =>
      reply writeRolloutError (RolloutService.GetRollout ctx (PathValue r "rolloutID"))
        (λ '(got, targets, coverage),
           writeJSON StatusOK (PRollout (rolloutResponseFromDomain got targets coverage)))
  end.

(** [src/internal/controlplane/handler.go:41-62] NewHandlerWithServices *)
Definition handle (route : Route) (ctx : Context) (r : Request) : M W (Response Payload) :=
  match route with
  | CreateTenant_ => createTenant ctx r
  | ListTenants_ => listTenants ctx r
  | GetTenant_ => getTenant ctx r
  | CreateDefinition_ => createDefinition ctx r
  | ListDefinitions_ => listDefinitions ctx r
  | GetDefinition_ => getDefinition ctx r
  | CreateVersion_ => createVersion ctx r
  | ListVersions_ => listVersions ctx r
  | SetStableVersion_ => setStableVersion ctx r
  | GetStableVersion_ => getStableVersion ctx r
  | RegisterAgent_ => registerAgent ctx r
  | AgentHeartbeat_ => agentHeartbeat ctx r
  | AgentAcknowledgement_ => agentAcknowledgement ctx r
  | CreateRollout_ => createRollout ctx r
  | GetRollout_ => getRollout ctx r
  end.

End Handlers.

(** * The whole interface *)

Section NewHandler.
Context {W : Type} `{Env W, ConfigRegistry.Store W, AgentRegistry.Store W, RolloutService.Store W,
  RolloutService.Registry W, RolloutService.AgentSource W}.
Context `{RequestDecoder createTenantRequest, RequestDecoder createDefinitionRequest,
  RequestDecoder createVersionRequest, RequestDecoder setStableVersionRequest,
  RequestDecoder registerAgentRequest, RequestDecoder acknowledgementRequest,
  RequestDecoder createRolloutRequest}.

(** [src/internal/controlplane/handler.go:32-63] NewHandlerWithServices *)
Definition NewHandlerWithServices (registry : ConfigRegistry.SchemaValidator)
    (agents : option AgentRegistry.Service) (rollouts : option (RolloutService.Service W))
    (ready : option (Health.Checker W)) : Health.ServeHTTP W Payload :=
  Health.ServeMux (Health.NewHandler "control-plane" ready) routes
    (handle (MkHandler W registry agents rollouts)).

(** [src/internal/controlplane/handler.go:28-30] NewHandlerWithReadiness *)
Definition NewHandlerWithReadiness registry agents ready : Health.ServeHTTP W Payload :=
  NewHandlerWithServices registry agents None ready.

(** [src/internal/controlplane/handler.go:24-26] NewHandler *)
Definition NewHandler registry : Health.ServeHTTP W Payload :=
  NewHandlerWithReadiness registry None (Some Health.StaticChecker).
End NewHandler.

End ControlPlane.
