(* ===== verification/PlaneKeep.v ===== *)
(** What the services and the handlers keep: a predicate on the world that
    every method of the stores keeps, and that the host's readings leave
    alone, is kept by every operation of the registry, of the agent registry
    and of the rollout service, by every request of the control plane and by
    every snapshot the data plane computes. *)

From Stdlib Require Import ZArith Lia.
From S2P Require Import Prelude GoLib Host Http Domain Guardrail Registry AgentRegistry Rollout RolloutService RolloutSpec RolloutMemory DataPlane ControlPlane.
Import Domain Rollout RolloutLaws.
Open Scope string_scope.
Open Scope list_scope.
Open Scope Z_scope.

Module PlaneKeep.

Class RegistryKeeps (W : Type) `{ConfigRegistry.Store W} (P : W → Prop) := {
  keep_CreateTenant ctx t : preserves P (ConfigRegistry.CreateTenant ctx t);
  keep_ListTenants ctx : preserves P (ConfigRegistry.ListTenants ctx);
  keep_GetTenant ctx id : preserves P (ConfigRegistry.GetTenant ctx id);
  keep_CreateDefinition ctx d : preserves P (ConfigRegistry.CreateDefinition ctx d);
  keep_ListDefinitions ctx id : preserves P (ConfigRegistry.ListDefinitions ctx id);
  keep_GetDefinitionByKey ctx id key : preserves P (ConfigRegistry.GetDefinitionByKey ctx id key);
  keep_CreateVersion ctx v : preserves P (ConfigRegistry.CreateVersion ctx v);
  keep_ListVersions ctx id : preserves P (ConfigRegistry.ListVersions ctx id);
  keep_GetVersionByNumber ctx id n : preserves P (ConfigRegistry.GetVersionByNumber ctx id n);
  keep_SaveEnvironmentState ctx s : preserves P (ConfigRegistry.SaveEnvironmentState ctx s);
  keep_GetEnvironmentState ctx id e : preserves P (ConfigRegistry.GetEnvironmentState ctx id e) }.

Class AgentsKeep (W : Type) `{AgentRegistry.Store W} (P : W → Prop) := {
  keep_SaveAgent ctx a : preserves P (AgentRegistry.SaveAgent ctx a);
  keep_GetAgent ctx id : preserves P (AgentRegistry.GetAgent ctx id);
  keep_ListAgents ctx : preserves P (AgentRegistry.ListAgents ctx);
  keep_SaveCredential ctx c : preserves P (AgentRegistry.SaveCredential ctx c);
  keep_GetCredential ctx token : preserves P (AgentRegistry.GetCredential ctx token);
  keep_TouchHeartbeat ctx id t : preserves P (AgentRegistry.TouchHeartbeat ctx id t);
  keep_SaveAcknowledgement ctx k : preserves P (AgentRegistry.SaveAcknowledgement ctx k) }.

Lemma preserves_fold_m {E W A B} (P : W → Prop) (l : list A) (body : B → A → M_ E W B) :
  (∀ acc x, preserves P (body acc x)) → ∀ acc, preserves P (fold_m l acc body).
Proof.
  intros Hb. induction l as [|x l IH]; intros acc; [apply preserves_ret|].
  apply preserves_bind; [apply Hb|done].
Qed.

Create HintDb stores.
#[export] Hint Resolve keep_CreateTenant keep_ListTenants keep_GetTenant keep_CreateDefinition
  keep_ListDefinitions keep_GetDefinitionByKey keep_CreateVersion keep_ListVersions
  keep_GetVersionByNumber keep_SaveEnvironmentState keep_GetEnvironmentState keep_SaveAgent
  keep_GetAgent keep_ListAgents keep_SaveCredential keep_GetCredential keep_TouchHeartbeat
  keep_SaveAcknowledgement keep_CreateRollout keep_GetRollout keep_GetActiveRollout
  keep_ListActiveRollouts keep_UpdateRollout keep_ListStages keep_SaveStage keep_SaveStageTargets
  keep_ReplaceStageTargets keep_ListStageTargets keep_NextSnapshotRevision
  preserves_now preserves_random_id : stores.

(** Walk through an operation down to the methods it calls. *)
Ltac keeps_step :=
  lazymatch goal with
  | |- preserves _ (mbind _ _) => apply preserves_bind; [|intros ?]
  | |- preserves _ (mret _) => apply preserves_ret
  | |- preserves _ (mthrow _) => apply preserves_throw
  | |- preserves _ (lift _) => apply preserves_lift
  | |- preserves _ (guard_err _ _) => apply preserves_guard
  | |- preserves _ (try _) => apply preserves_try
  | |- preserves _ (for_each _ _) => apply preserves_for_each; intros ?
  | |- preserves _ (fold_m _ _ _) => apply preserves_fold_m; intros ? ?
  | |- preserves _ (if ?b then _ else _) => destruct b
  | |- preserves _ (match ?x with _ => _ end) => destruct x
  | |- preserves _ (let '_ := ?x in _) => destruct x
  | |- _ => solve [eauto with stores]
  end.
Ltac keeps := intros; cbv zeta; repeat (keeps_step; cbv zeta).

Section keep.
Context {W : Type} `{Env W, ConfigRegistry.Store W, AgentRegistry.Store W, RolloutService.Store W}.
Context (P : W → Prop) `{!HostFrame P, !RegistryKeeps W P, !AgentsKeep W P, !StoreKeeps W P}.

(** * The registry *)

Lemma keep_registry_CreateTenant ctx input :
  preserves P (ConfigRegistry.Service.CreateTenant ctx input).
Proof. unfold ConfigRegistry.Service.CreateTenant. keeps. Qed.
Lemma keep_registry_CreateDefinition v ctx input :
  preserves P (ConfigRegistry.Service.CreateDefinition v ctx input).
Proof. unfold ConfigRegistry.Service.CreateDefinition, ConfigRegistry.Service.randomID. keeps. Qed.
Lemma keep_registry_ListDefinitions ctx t : preserves P (ConfigRegistry.Service.ListDefinitions ctx t).
Proof. unfold ConfigRegistry.Service.ListDefinitions. keeps. Qed.
Lemma keep_registry_CreateVersion v ctx input :
  preserves P (ConfigRegistry.Service.CreateVersion v ctx input).
Proof. unfold ConfigRegistry.Service.CreateVersion, ConfigRegistry.Service.randomID. keeps. Qed.
Lemma keep_registry_ListVersions ctx t k : preserves P (ConfigRegistry.Service.ListVersions ctx t k).
Proof. unfold ConfigRegistry.Service.ListVersions. keeps. Qed.
Lemma keep_registry_SetStableVersion ctx input :
  preserves P (ConfigRegistry.Service.SetStableVersion ctx input).
Proof. unfold ConfigRegistry.Service.SetStableVersion. keeps. Qed.
Lemma keep_registry_GetEnvironmentState ctx t k env :
  preserves P (ConfigRegistry.Service.GetEnvironmentState ctx t k env).
Proof. unfold ConfigRegistry.Service.GetEnvironmentState. keeps. Qed.

(** * The agent registry *)

Lemma keep_agents_Register s ctx input : preserves P (AgentRegistry.Svc.Register s ctx input).
Proof. unfold AgentRegistry.Svc.Register, AgentRegistry.Svc.randomID. keeps. Qed.
Lemma keep_agents_Verify ctx token : preserves P (AgentRegistry.Svc.Verify ctx token).
Proof. unfold AgentRegistry.Svc.Verify. keeps. Qed.
#[local] Hint Resolve keep_agents_Verify : stores.
Lemma keep_agents_Heartbeat ctx id token : preserves P (AgentRegistry.Svc.Heartbeat ctx id token).
Proof. unfold AgentRegistry.Svc.Heartbeat. keeps. Qed.
Lemma keep_agents_Acknowledge ctx input : preserves P (AgentRegistry.Svc.Acknowledge ctx input).
Proof. unfold AgentRegistry.Svc.Acknowledge, AgentRegistry.Svc.randomID. keeps. Qed.

(** * The rollout service *)

Context `{RolloutService.Registry W, RolloutService.AgentSource W} (s : RolloutService.Service W).
Hypothesis registry_keeps :
  (∀ ctx t k, preserves P (RolloutService.registry_GetDefinition ctx t k)) ∧
  (∀ ctx t k, preserves P (RolloutService.registry_ListVersions ctx t k)) ∧
  (∀ ctx t k env, preserves P (RolloutService.registry_GetEnvironmentState ctx t k env)) ∧
  (∀ ctx input, preserves P (RolloutService.registry_SetStableVersion ctx input)).
Hypothesis agents_keep : ∀ ctx, preserves P (RolloutService.agents_ListAgents ctx).
Hypothesis queries_keep : ∀ query ctx q at_,
  RolloutService.svc_queryer s = Some query → preserves P (query ctx q at_).

Lemma registry_keeps_1 ctx t k : preserves P (RolloutService.registry_GetDefinition ctx t k).
Proof. apply registry_keeps. Qed.
Lemma registry_keeps_2 ctx t k : preserves P (RolloutService.registry_ListVersions ctx t k).
Proof. apply registry_keeps. Qed.
Lemma registry_keeps_3 ctx t k env :
  preserves P (RolloutService.registry_GetEnvironmentState ctx t k env).
Proof. apply registry_keeps. Qed.
Lemma registry_keeps_4 ctx input : preserves P (RolloutService.registry_SetStableVersion ctx input).
Proof. apply registry_keeps. Qed.
#[local] Hint Resolve registry_keeps_1 registry_keeps_2 registry_keeps_3 registry_keeps_4
  agents_keep : stores.

Lemma keep_index {A} (l : list A) i : preserves P (RolloutService.index l i).
Proof. unfold RolloutService.index. destruct (if 0 <=? i then l !! Z.to_nat i else None); [apply preserves_ret|apply preserves_throw]. Qed.
#[local] Hint Resolve keep_index : stores.

Lemma keep_activateStage ctx r g services : preserves P (RolloutService.activateStage ctx r g services).
Proof. unfold RolloutService.activateStage. keeps. Qed.
Lemma keep_transition ctx r next : preserves P (RolloutService.transition ctx r next).
Proof. unfold RolloutService.transition. keeps. Qed.
#[local] Hint Resolve keep_activateStage keep_transition : stores.
Lemma keep_startRollback ctx r : preserves P (RolloutService.startRollback ctx r).
Proof. unfold RolloutService.startRollback. keeps. Qed.
Lemma keep_promote ctx r stages : preserves P (RolloutService.promote ctx r stages).
Proof. unfold RolloutService.promote. keeps. Qed.
Lemma keep_finish_rollback ctx r status : preserves P (RolloutService.finish_rollback ctx r status).
Proof. unfold RolloutService.finish_rollback. keeps. Qed.
Lemma keep_verification ctx r ts : preserves P (RolloutService.activateRollbackVerification ctx r ts).
Proof. unfold RolloutService.activateRollbackVerification. keeps. Qed.
#[local] Hint Resolve keep_startRollback keep_promote keep_finish_rollback keep_verification : stores.
Lemma keep_reconcileRollback ctx r ts : preserves P (RolloutService.reconcileRollback ctx r ts).
Proof. unfold RolloutService.reconcileRollback. keeps. Qed.
Lemma keep_evaluateGuardrails ctx r at_ : preserves P (RolloutService.evaluateGuardrails s ctx r at_).
Proof.
  unfold RolloutService.evaluateGuardrails. apply preserves_bind; [|intros [failures evaluations]; keeps].
  apply preserves_fold_m. intros [failures evaluations] rule. cbv zeta.
  apply preserves_bind; [|intros ?; apply preserves_ret].
  destruct (RolloutService.svc_queryer s) as [query|] eqn:Hq; [|apply preserves_lift].
  apply preserves_bind; [by apply preserves_try, queries_keep|intros ?; apply preserves_lift].
Qed.
#[local] Hint Resolve keep_reconcileRollback keep_evaluateGuardrails : stores.
Lemma keep_evaluateStageDecision ctx r ts g :
  preserves P (RolloutService.evaluateStageDecision s ctx r ts g).
Proof. unfold RolloutService.evaluateStageDecision. keeps. Qed.
Lemma keep_apply_decision ctx d r stages : preserves P (RolloutService.apply_decision ctx d r stages).
Proof. unfold RolloutService.apply_decision. keeps. Qed.
#[local] Hint Resolve keep_evaluateStageDecision keep_apply_decision : stores.
Lemma keep_reconcileRollout ctx r : preserves P (RolloutService.reconcileRollout s ctx r).
Proof. unfold RolloutService.reconcileRollout. keeps. Qed.
#[local] Hint Resolve keep_reconcileRollout : stores.
Lemma keep_ReconcileActive ctx : preserves P (RolloutService.ReconcileActive s ctx).
Proof. unfold RolloutService.ReconcileActive. keeps. Qed.
Lemma keep_rollouts_Acknowledge ctx input : preserves P (RolloutService.Acknowledge s ctx input).
Proof. unfold RolloutService.Acknowledge. keeps. Qed.
Lemma keep_rollouts_GetRollout ctx id : preserves P (RolloutService.GetRollout ctx id).
Proof. unfold RolloutService.GetRollout. keeps. Qed.
Lemma keep_rollouts_ActiveRollout ctx id env : preserves P (RolloutService.ActiveRollout ctx id env).
Proof. unfold RolloutService.ActiveRollout. keeps. Qed.
Lemma keep_rollouts_CreateRollout ctx input : preserves P (RolloutService.CreateRollout s ctx input).
Proof. unfold RolloutService.CreateRollout, RolloutService.randomID. keeps. Qed.
End keep.

(** * The planes *)

Section planes.
Context {W : Type} `{Env W, ConfigRegistry.Store W, AgentRegistry.Store W, RolloutService.Store W}.
Context (P : W → Prop) `{!HostFrame P, !RegistryKeeps W P, !AgentsKeep W P, !StoreKeeps W P}.
#[local] Existing Instance RolloutService.registry_service.
#[local] Existing Instance DataPlane.registry_source.
#[local] Existing Instance DataPlane.agent_source.
#[local] Existing Instance DataPlane.rollout_source.
#[local] Instance agent_source : RolloutService.AgentSource W := {|
  RolloutService.agents_ListAgents := AgentRegistry.Svc.ListAgents |}.
Context `{ControlPlane.RequestDecoder ControlPlane.createTenantRequest,
  ControlPlane.RequestDecoder ControlPlane.createDefinitionRequest,
  ControlPlane.RequestDecoder ControlPlane.createVersionRequest,
  ControlPlane.RequestDecoder ControlPlane.setStableVersionRequest,
  ControlPlane.RequestDecoder ControlPlane.registerAgentRequest,
  ControlPlane.RequestDecoder ControlPlane.acknowledgementRequest,
  ControlPlane.RequestDecoder ControlPlane.createRolloutRequest, Codec DataPlane.Snapshot}.

(** The queries of guardrails keep it too. *)
Definition queries_keep (s : RolloutService.Service W) : Prop :=
  ∀ query ctx q at_, RolloutService.svc_queryer s = Some query → preserves P (query ctx q at_).

Lemma registry_service_keeps :
  (∀ ctx t k, preserves P (RolloutService.registry_GetDefinition ctx t k)) ∧
  (∀ ctx t k, preserves P (RolloutService.registry_ListVersions ctx t k)) ∧
  (∀ ctx t k env, preserves P (RolloutService.registry_GetEnvironmentState ctx t k env)) ∧
  (∀ ctx input, preserves P (RolloutService.registry_SetStableVersion ctx input)).
Proof.
  split_and!; intros; cbn [RolloutService.registry_GetDefinition RolloutService.registry_ListVersions
    RolloutService.registry_GetEnvironmentState RolloutService.registry_SetStableVersion
    RolloutService.registry_service].
  - apply keep_GetDefinitionByKey.
  - by apply keep_registry_ListVersions.
  - by apply keep_registry_GetEnvironmentState.
  - by apply keep_registry_SetStableVersion.
Qed.
Lemma agent_source_keeps ctx : preserves P (RolloutService.agents_ListAgents ctx).
Proof. apply keep_ListAgents. Qed.
#[local] Hint Resolve registry_service_keeps agent_source_keeps : stores.

Lemma preserves_reply {A} write (call : M W A) k :
  preserves P call → preserves P (ControlPlane.reply write call k).
Proof. intros Hc. unfold ControlPlane.reply. keeps. Qed.

Lemma preserves_decode {T} `{ControlPlane.RequestDecoder T} r (k : T → M W (Response ControlPlane.Payload)) :
  (∀ req, preserves P (k req)) → preserves P (ControlPlane.decodeRequest r k).
Proof. intros Hk. unfold ControlPlane.decodeRequest. destruct (ControlPlane.json_DecodeStrict _); [apply Hk|apply preserves_ret]. Qed.

Ltac handler_step :=
  lazymatch goal with
  | |- preserves _ (ControlPlane.reply _ _ _) => apply preserves_reply
  | |- preserves _ (ControlPlane.decodeRequest _ _) => apply preserves_decode; intros ?
  | |- preserves _ (ControlPlane.unavailable _) => apply preserves_ret
  | |- preserves _ (match ?x with _ => _ end) => destruct x eqn:?
  | |- preserves _ (mret _) => apply preserves_ret
  | |- preserves _ (mbind _ _) => apply preserves_bind; [apply preserves_try|intros ?]
  end.

(** Every request the control plane serves. *)
Lemma keep_handle h route ctx r :
  (∀ s, ControlPlane.h_rollouts h = Some s → queries_keep s) →
  preserves P (ControlPlane.handle h route ctx r).
Proof.
  intros Hq. destruct route; cbn [ControlPlane.handle];
    unfold ControlPlane.createTenant, ControlPlane.listTenants, ControlPlane.getTenant,
      ControlPlane.createDefinition, ControlPlane.listDefinitions, ControlPlane.getDefinition,
      ControlPlane.createVersion, ControlPlane.listVersions, ControlPlane.setStableVersion,
      ControlPlane.getStableVersion, ControlPlane.registerAgent, ControlPlane.agentHeartbeat,
      ControlPlane.agentAcknowledgement, ControlPlane.rollout_acknowledgement,
      ControlPlane.createRollout, ControlPlane.getRollout;
    repeat handler_step;
    first [ by apply keep_registry_CreateTenant | apply keep_ListTenants | apply keep_GetTenant
          | by apply keep_registry_CreateDefinition | by apply keep_registry_ListDefinitions
          | apply keep_GetDefinitionByKey | by apply keep_registry_CreateVersion
          | by apply keep_registry_ListVersions | by apply keep_registry_SetStableVersion
          | by apply keep_registry_GetEnvironmentState | by apply keep_agents_Register
          | by apply keep_agents_Heartbeat | by apply keep_agents_Acknowledge
          | by apply keep_rollouts_GetRollout
          | apply keep_rollouts_Acknowledge; first [exact (Hq _ eq_refl)|eauto with stores]
          | apply keep_rollouts_CreateRollout; first [exact (Hq _ eq_refl)|eauto with stores] ].
Qed.

(** Every pass over the active rollouts. *)
Lemma keep_reconcile (s : RolloutService.Service W) ctx :
  queries_keep s → preserves P (RolloutService.ReconcileActive s ctx).
Proof. intros Hq. apply keep_ReconcileActive; first [exact Hq|eauto with stores]. Qed.

(** Every snapshot, and every request for one. *)
Lemma keep_snapshot tenants ctx id : preserves P (DataPlane.GetSnapshot tenants ctx id).
Proof.
  unfold DataPlane.GetSnapshot, DataPlane.snapshotTenants, DataPlane.add_tenant, DataPlane.add_item,
    DataPlane.snapshotItem, DataPlane.effective_assignment.
  keeps.
  all: first [apply keep_GetAgent|apply keep_ListTenants|by apply keep_registry_ListDefinitions
    |by apply keep_registry_GetEnvironmentState|by apply keep_registry_ListVersions
    |by apply keep_rollouts_ActiveRollout].
Qed.
Lemma keep_getSnapshot tenants ctx r :
  preserves P (DataPlane.getSnapshot (DataPlane.GetSnapshot tenants)
                 (DataPlane.AgentCredentialVerifier AgentRegistry.Svc.Verify) ctx r).
Proof.
  unfold DataPlane.getSnapshot, DataPlane.AgentCredentialVerifier. keeps.
  all: first [by apply keep_agents_Verify|apply keep_snapshot].
Qed.
End planes.
End PlaneKeep.
