(* ===== verification/PostgresStores.v ===== *)
(** The PostgreSQL store behind the interfaces of the services: the instances
    the commands wire when a database is configured, and what all of them
    keep, whatever is called: the histories of the store. *)

From Stdlib Require Import ZArith Lia.
From S2P Require Import Prelude GoLib Host Http Domain Guardrail Registry AgentRegistry Rollout RolloutService RolloutSpec RolloutMemory Sql Postgres PostgresConcurrency DataPlane ControlPlane PlaneKeep.
Import Domain Rollout Sql RolloutLaws PlaneKeep.
Open Scope string_scope.
Open Scope list_scope.
Open Scope Z_scope.

Module PostgresStores.

Section stores.
Context {W : Type} `{Env W, Has Conn W, Sql.Postgres, Codec (gmap string string),
  Codec (list string), Codec (list Guardrail.Rule), Codec (gmap string Z)}.

(** [src/internal/storage/postgres/store.go:20-22] Store *)
Definition registry_store : ConfigRegistry.Store W := {|
  ConfigRegistry.CreateTenant ctx t := zoom (Postgres.CreateTenant ctx t);
  ConfigRegistry.ListTenants ctx := zoom (Postgres.ListTenants ctx);
  ConfigRegistry.GetTenant ctx id := zoom (Postgres.GetTenant ctx id);
  ConfigRegistry.CreateDefinition ctx d := zoom (Postgres.CreateDefinition ctx d);
  ConfigRegistry.ListDefinitions ctx id := zoom (Postgres.ListDefinitions ctx id);
  ConfigRegistry.GetDefinitionByKey ctx id key := zoom (Postgres.GetDefinitionByKey ctx id key);
  ConfigRegistry.CreateVersion ctx v := zoom (Postgres.CreateVersion ctx v);
  ConfigRegistry.ListVersions ctx id := zoom (Postgres.ListVersions ctx id);
  ConfigRegistry.GetVersionByNumber ctx id n := zoom (Postgres.GetVersionByNumber ctx id n);
  ConfigRegistry.SaveEnvironmentState ctx s := zoom (Postgres.SaveEnvironmentState ctx s);
  ConfigRegistry.GetEnvironmentState ctx id e := zoom (Postgres.GetEnvironmentState ctx id e) |}.

Definition agents_store : AgentRegistry.Store W := {|
  AgentRegistry.SaveAgent ctx a := zoom (Postgres.SaveAgent ctx a);
  AgentRegistry.GetAgent ctx id := zoom (Postgres.GetAgent ctx id);
  AgentRegistry.ListAgents ctx := zoom (Postgres.ListAgents ctx);
  AgentRegistry.SaveCredential ctx c := zoom (Postgres.SaveCredential ctx c);
  AgentRegistry.GetCredential ctx token := zoom (Postgres.GetCredential ctx token);
  AgentRegistry.TouchHeartbeat ctx id t := zoom (Postgres.TouchHeartbeat ctx id t);
  AgentRegistry.SaveAcknowledgement ctx k := zoom (Postgres.SaveAcknowledgement ctx k) |}.

Definition rollouts_store : RolloutService.Store W := {|
  RolloutService.store_CreateRollout ctx r stages := zoom (Postgres.CreateRollout ctx r stages);
  RolloutService.store_GetRollout ctx id := zoom (Postgres.GetRollout ctx id);
  RolloutService.store_GetActiveRollout ctx id e := zoom (Postgres.GetActiveRollout ctx id e);
  RolloutService.store_ListActiveRollouts ctx := zoom (Postgres.ListActiveRollouts ctx);
  RolloutService.store_UpdateRollout ctx r := zoom (Postgres.UpdateRollout ctx r);
  RolloutService.store_ListStages ctx id := zoom (Postgres.ListStages ctx id);
  RolloutService.store_SaveStage ctx id s := zoom (Postgres.SaveStage ctx id s);
  RolloutService.store_SaveStageTargets ctx ts := zoom (Postgres.SaveStageTargets ctx ts);
  RolloutService.store_ReplaceStageTargets ctx id s ts := zoom (Postgres.ReplaceStageTargets ctx id s ts);
  RolloutService.store_ListStageTargets ctx id s := zoom (Postgres.ListStageTargets ctx id s);
  RolloutService.store_NextSnapshotRevision ctx := zoom (Postgres.NextSnapshotRevision ctx) |}.

(** Every state of the connection is that of a history. *)
Definition recorded (w : W) : Prop := PostgresHistory.history (part (S := Conn) w).

Context `{!HasLaws Conn W, !HostApart Conn W}.

Lemma recorded_zoom {A} (m : M Conn A) :
  PostgresHistory.operation A m → preserves recorded (zoom m).
Proof.
  intros Hop w Hw. unfold recorded, zoom in *.
  pose proof (PostgresHistory.called A m _ Hop Hw) as Hc.
  destruct (m (part w)) as [r c]. simpl in *. by rewrite part_set.
Qed.

#[export] Instance recorded_frame : HostFrame recorded.
Proof.
  split; intros; unfold recorded in *;
    match goal with H : PostgresHistory.history (part ?w) |- _ =>
      pose proof (host_apart (part (S := Conn) w)) as Hf end.
  - by rewrite (frame_now (HostFrame := Hf)).
  - by rewrite (frame_random (HostFrame := Hf)).
  - by rewrite (frame_range (HostFrame := Hf)).
  - by rewrite (frame_ctx (HostFrame := Hf)).
Qed.

#[local] Existing Instances registry_store agents_store rollouts_store.

#[export] Instance registry_keeps : RegistryKeeps W recorded.
Proof. split; intros; apply recorded_zoom; constructor. Qed.
#[export] Instance agents_keep : AgentsKeep W recorded.
Proof. split; intros; apply recorded_zoom; constructor. Qed.
#[export] Instance rollouts_keep : StoreKeeps W recorded.
Proof. split; intros; apply recorded_zoom; constructor. Qed.
End stores.
End PostgresStores.
