(* ===== verification/System.v ===== *)
(** A concrete deployment: one process with the in-memory stores, its clock,
    random source and map iteration orders given as streams.  The interfaces
    of the services are instantiated here, and their laws discharged. *)

From Stdlib Require Import ZArith Lia.
From S2P Require Import Prelude GoLib Host Domain Guardrail Registry RegistrySpec RegistryStore RegistryMemory AgentRegistry AgentStore AgentSpec Rollout RolloutFacts RolloutStore RolloutService RolloutSpec RolloutMemory RolloutRefine.
Import Domain.
Open Scope string_scope.
Open Scope list_scope.
Open Scope Z_scope.

Module System.

(** An order of iteration over a map. *)
Record MapOrder := MkMapOrder { order : RangeOrder; order_ok : range_ok order }.

Lemma range_ok_id : range_ok (λ l, l).
Proof. by intros l. Qed.
Definition key_order : MapOrder := MkMapOrder (λ l, l) range_ok_id.

(** What a process reads from its host, and how often it has. *)
Record HostState := MkHost {
  h_clock : nat → Time;
  h_entropy : nat → list N;
  h_order : nat → MapOrder;
  h_clock_reads : nat;
  h_draws : nat;
  h_ranges : nat;
  h_ctx_calls : nat }.

Record World := MkWorld {
  w_host : HostState;
  w_registry : RegistryStore.MemoryStore;
  w_agents : AgentStore.MemoryStore;
  w_rollouts : RolloutStore.MemoryStore }.

Definition set_host (h : HostState) (w : World) : World :=
  MkWorld h (w_registry w) (w_agents w) (w_rollouts w).

#[export] Instance world_env : Env World := {|
  env_now w := let h := w_host w in
    (h_clock h (h_clock_reads h),
     set_host (MkHost (h_clock h) (h_entropy h) (h_order h) (S (h_clock_reads h)) (h_draws h)
                 (h_ranges h) (h_ctx_calls h)) w);
  env_random n w := let h := w_host w in
    (firstn n (h_entropy h (h_draws h)),
     set_host (MkHost (h_clock h) (h_entropy h) (h_order h) (h_clock_reads h) (S (h_draws h))
                 (h_ranges h) (h_ctx_calls h)) w);
  env_range w := let h := w_host w in
    (order (h_order h (h_ranges h)),
     set_host (MkHost (h_clock h) (h_entropy h) (h_order h) (h_clock_reads h) (h_draws h)
                 (S (h_ranges h)) (h_ctx_calls h)) w);
  env_ctx ctx w := let h := w_host w in
    (ctx (h_ctx_calls h),
     set_host (MkHost (h_clock h) (h_entropy h) (h_order h) (h_clock_reads h) (h_draws h)
                 (h_ranges h) (S (h_ctx_calls h))) w) |}.

#[export] Instance world_env_laws : EnvLaws World.
Proof.
  split.
  - intros w. apply order_ok.
  - intros ctx w c Hc. by exists (h_ctx_calls (w_host w)).
Qed.

#[export] Instance has_registry : Has RegistryStore.MemoryStore World := {|
  part := w_registry;
  set_part s w := MkWorld (w_host w) s (w_agents w) (w_rollouts w) |}.
#[export] Instance has_agents : Has AgentStore.MemoryStore World := {|
  part := w_agents;
  set_part s w := MkWorld (w_host w) (w_registry w) s (w_rollouts w) |}.
#[export] Instance has_rollouts : Has RolloutStore.MemoryStore World := {|
  part := w_rollouts;
  set_part s w := MkWorld (w_host w) (w_registry w) (w_agents w) s |}.

#[export] Instance has_registry_laws : HasLaws RegistryStore.MemoryStore World.
Proof. split; by try (intros []). Qed.
#[export] Instance has_agents_laws : HasLaws AgentStore.MemoryStore World.
Proof. split; by try (intros []). Qed.
#[export] Instance has_rollouts_laws : HasLaws RolloutStore.MemoryStore World.
Proof. split; by try (intros []). Qed.

#[export] Instance registry_apart : HostApart RegistryStore.MemoryStore World.
Proof. by split. Qed.
#[export] Instance agents_apart : HostApart AgentStore.MemoryStore World.
Proof. by split. Qed.
#[export] Instance rollouts_apart : HostApart RolloutStore.MemoryStore World.
Proof. by split. Qed.

#[export] Existing Instance RegistryStore.memory_store.
#[export] Existing Instance AgentStore.memory_store.
#[export] Existing Instance RolloutMemory.memory_store.
#[export] Existing Instance RolloutService.registry_service.
#[export] Existing Instance RegistryMemory.memory_laws.
#[export] Existing Instance AgentSpec.memory_laws.
#[export] Existing Instance RolloutMemory.memory_laws.

#[export] Instance rollouts_registry :
  Disjoint RolloutStore.MemoryStore RegistryStore.MemoryStore World.
Proof. by intros t w. Qed.
#[export] Instance rollouts_agents :
  Disjoint RolloutStore.MemoryStore AgentStore.MemoryStore World.
Proof. by intros t w. Qed.
#[export] Instance registry_rollouts :
  Disjoint RegistryStore.MemoryStore RolloutStore.MemoryStore World.
Proof. by intros t w. Qed.
#[export] Instance registry_agents :
  Disjoint RegistryStore.MemoryStore AgentStore.MemoryStore World.
Proof. by intros t w. Qed.
#[export] Instance agents_rollouts :
  Disjoint AgentStore.MemoryStore RolloutStore.MemoryStore World.
Proof. by intros t w. Qed.
#[export] Instance agents_registry :
  Disjoint AgentStore.MemoryStore RegistryStore.MemoryStore World.
Proof. by intros t w. Qed.

(** The agents of the rollout service are those of the agent registry. *)
#[export] Instance agent_source : RolloutService.AgentSource World := {|
  RolloutService.agents_ListAgents := AgentRegistry.Svc.ListAgents |}.

(** A fresh process. *)
Definition boot (h : HostState) : World :=
  MkWorld h RegistryStore.NewMemoryStore AgentStore.NewMemoryStore RolloutStore.NewMemoryStore.

(** * The laws of the services' interfaces *)

Abbreviation reg_inv := (RegistryMemory.reg_inv (W := World)).
Abbreviation reg_view := (RegistryMemory.reg_view (W := World)).
Abbreviation agent_inv := (AgentSpec.agent_inv (W := World)).
Abbreviation agent_view := (AgentSpec.agent_view (W := World)).
Abbreviation view := (RolloutMemory.view (W := World)).

(** The rollout store's invariant, with that of the agents it reads. *)
Definition store_inv (w : World) : Prop := RolloutMemory.store_inv w ∧ agent_inv w.

#[export] Instance store_keeps_agents : RolloutLaws.StoreKeeps World agent_inv.
Proof. split; intros; apply (preserves_part AgentSpec.mem_ok); keep. Qed.

#[export] Instance store_laws :
  RolloutLaws.StoreLaws World interrupted store_inv view.
Proof. apply RolloutLaws.StoreLaws_with; apply _. Qed.

(** What leaves the rollout store and the agents alone is apart. *)
Definition keeps_both {A} (m : M World A) : Prop :=
  (∀ s : RolloutStore.MemoryStore, preserves (λ w : World, part w = s) m) ∧
  (∀ s : AgentStore.MemoryStore, preserves (λ w : World, part w = s) m).

Lemma apart_of_keep {A} (m : M World A) :
  keeps_both m → RolloutLaws.apart store_inv view m.
Proof.
  intros [H1 H2] v w [[Hi Ha] Hv].
  split; [split|].
  - by apply (preserves_part RolloutMemory.mem_ok).
  - by apply (preserves_part AgentSpec.mem_ok).
  - by apply (preserves_part (λ s, RolloutMemory.view_of s = v)).
Qed.

(** The queries of a guardrail leave the process's stores alone. *)
Definition queries_apart (s : RolloutService.Service World) : Prop :=
  ∀ query ctx q at_, RolloutService.svc_queryer s = Some query → keeps_both (query ctx q at_).

Lemma distinct_agents ctx w : agent_inv w →
  wp (AgentRegistry.Svc.ListAgents ctx) (λ r w', agent_inv w' ∧ agent_view w' = agent_view w ∧
    ∀ l, r = Ok l → NoDup (a_ID <$> l)) w.
Proof.
  intros Hi. eapply wp_mono; [by apply AgentSpec.law_ListAgents|].
  intros [l|e] w' (Hi' & Hv & Hl); split_and!; try done. intros l' [= <-]. apply Hl.
Qed.

#[local] Ltac apart := intros; apply apart_of_keep; split; keep.

Lemma service_laws s :
  queries_apart s → RolloutLaws.ServiceLaws World s store_inv view.
Proof.
  intros Hq. split.
  - split; by intros.
  - intros. simpl. unfold ConfigRegistry.Service.GetDefinition. apart.
  - intros. simpl. unfold ConfigRegistry.Service.ListVersions. apart.
  - intros. simpl. unfold ConfigRegistry.Service.GetEnvironmentState. apart.
  - intros. simpl. unfold ConfigRegistry.Service.SetStableVersion. apart.
  - intros ctx v w [[Hi Ha] Hv].
    destruct (distinct_agents ctx w Ha) as (Ha' & _). split; [split|].
    + by apply (preserves_part RolloutMemory.mem_ok); [unfold AgentRegistry.Svc.ListAgents; keep|].
    + done.
    + by apply (preserves_part (λ s, RolloutMemory.view_of s = v)); [unfold AgentRegistry.Svc.ListAgents; keep|].
  - intros ctx w [Hi Ha]. eapply wp_mono; [by apply distinct_agents|]. simpl. tauto.
  - intros. apply apart_of_keep. by apply Hq.
Qed.

(** The host's readings leave every part alone. *)
Lemma registry_frame v : HostFrame (λ w : World, reg_inv w ∧ reg_view w = v).
Proof. by split. Qed.
Lemma agents_frame v : HostFrame (λ w : World, agent_inv w ∧ agent_view w = v).
Proof. by split. Qed.

(** ** A fresh process satisfies every invariant *)

Lemma boot_store_inv h : store_inv (boot h).
Proof. split; [apply RolloutMemory.rollouts_mem_New|apply AgentSpec.agents_mem_New]. Qed.

Lemma boot_reach h : RolloutSpec.reach None (view (boot h)).
Proof. by constructor. Qed.

Lemma boot_view_ok h : RolloutSpec.view_ok (view (boot h)).
Proof. eapply RolloutSpec.reach_ok, boot_reach. Qed.

Lemma boot_reg_inv h : reg_inv (boot h).
Proof. apply RegistryMemory.registry_mem_New. Qed.

Lemma new_service_queries : queries_apart (RolloutService.NewService World).
Proof. by intros query ctx q at_. Qed.

End System.
