(* ===== verification/DataPlaneFacts.v ===== *)
(** What the data plane serves: well-formed snapshots, the version the
    rollouts give each agent, to the agent that holds the credential. *)

From Stdlib Require Import ZArith Lia.
From S2P Require Import Prelude GoLib Host Http Domain Registry RegistrySpec AgentRegistry AgentSpec Rollout RolloutFacts RolloutService RolloutSpec RolloutInvariants RolloutMemory RolloutRefine DataPlane Agent System.
Import Domain Rollout DataPlane RolloutSpec RolloutInvariants System.
Open Scope string_scope.
Open Scope list_scope.
Open Scope Z_scope.

Module DataPlaneFacts.

(** A call about which nothing is known. *)
Definition checksum_ok (item : SnapshotItem) : Prop := si_Checksum item = Checksum (si_Value item).

Lemma validate_items_ok items : Agent.validate_items items = Ok tt ↔ Forall checksum_ok items.
Proof.
  induction items as [|item items IH]; simpl; [by split|].
  rewrite res_guard_bind, Forall_cons, <-IH. unfold checksum_ok.
  case_bool_decide; simpl.
  - split; [by split|by intros [_ ?]].
  - split; [done|by intros [? _]].
Qed.

Lemma ValidateSnapshot_ok s :
  Agent.ValidateSnapshot s = Ok tt ↔ 1 ≤ sn_Revision s ∧ Forall checksum_ok (sn_Configs s).
Proof.
  unfold Agent.ValidateSnapshot. rewrite res_guard_bind, <-validate_items_ok.
  destruct (sn_Revision s <? 1) eqn:E.
  - split; [done|intros [? _]; lia].
  - split; [intros ?; split; [lia|done]|by intros [_ ?]].
Qed.

Lemma cloneRaw_same v : cloneRaw v = v.
Proof. unfold cloneRaw. destruct (empty_str v) eqn:E; [|done]. by apply empty_str_true in E. Qed.

Lemma CloneSnapshot_same s : CloneSnapshot s = s.
Proof.
  destruct s as [rev t items]. unfold CloneSnapshot; simpl. f_equal.
  apply list_fmap_fixed. intros [] _. unfold clone_item; simpl. by rewrite cloneRaw_same.
Qed.

(** * The dynamic store over any sources *)
Section Sources.
Context {W : Type} `{Env W, RegistrySnapshotSource W, AgentSnapshotSource W, ActiveRolloutSource W}.

Definition items_ok (acc : Z * list SnapshotItem) : Prop := 1 ≤ acc.1 ∧ Forall checksum_ok acc.2.

Lemma snapshotItem_checksum ctx tenantID definition agent w :
  wp (snapshotItem ctx tenantID definition agent)
     (λ r _, ∀ item rev, r = Ok (Some (item, rev)) → checksum_ok item) w.
Proof.
  unfold snapshotItem. wp_step. wp_step. apply wp_any. intros [st|e] w1.
  2: { wp_step. wp_step; [done|]. by wp_step. }
  wp_step; [by wp_step|]. wp_step. apply wp_any. intros [vs|e] w2; [|done].
  wp_step. apply wp_any. intros [[[vid asg] rev]|e] w3; [|done].
  wp_step; wp_step; [|done]. intros item rev' [= <- <-]. unfold checksum_ok; simpl.
  by rewrite cloneRaw_same.
Qed.

Lemma add_item_ok ctx tenantID agent acc d w :
  items_ok acc →
  wp (add_item ctx tenantID agent acc d) (λ r _, ∀ acc', r = Ok acc' → items_ok acc') w.
Proof.
  intros [Hr Hi]. unfold add_item. wp_step. wp_call snapshotItem_checksum.
  intros [[[item rev]|]|e] w1 Hc; [|by wp_step; intros ? [= <-]|done].
  destruct acc as [revision items]. wp_step. intros ? [= <-]. simpl in *. split; simpl.
  - destruct (revision <? rev) eqn:?; lia.
  - apply Forall_app. split; [done|]. constructor; [by eapply Hc|constructor].
Qed.

Lemma add_tenant_ok ctx agent acc tenantID w :
  items_ok acc →
  wp (add_tenant ctx agent acc tenantID) (λ r _, ∀ acc', r = Ok acc' → items_ok acc') w.
Proof.
  intros Hacc. unfold add_tenant. wp_step. wp_step. apply wp_any. intros [ds|e] w1.
  - apply (wp_fold_m _ (λ _ acc _, items_ok acc)) with (seen := []); [|done|by intros ? ? ? ? [= <-]].
    intros seen d acc' w' Hacc'. wp_call add_item_ok; [done|].
    intros [a|e] w2 Ha; [by apply Ha|done].
  - wp_step. wp_step; [done|]. wp_step. by intros ? [= <-].
Qed.

Lemma GetSnapshot_ok tenants ctx agentID w :
  wp (GetSnapshot tenants ctx agentID)
     (λ r _, ∀ s, r = Ok s → 1 ≤ sn_Revision s ∧ Forall checksum_ok (sn_Configs s)) w.
Proof.
  unfold GetSnapshot. wp_step. wp_step. apply wp_any. intros [agent|e] w1.
  2: { wp_step. by wp_step. }
  wp_step. apply wp_any. intros [ts|e] w2; [|done].
  wp_step.
  apply (wp_fold_m _ (λ _ acc _, items_ok acc)) with (seen := []); [| |].
  - intros seen t acc w' Hacc. wp_call add_tenant_ok; [done|].
    intros [a|e] w3 Ha; [by apply Ha|done].
  - split; simpl; [lia|constructor].
  - intros [rev items] w3 Hacc. wp_step. apply wp_any. intros [t|e] w4; [|done].
    wp_step. by intros ? [= <-].
Qed.

End Sources.

(** * The versions an agent is served while a rollout runs *)

(** The version is the stable one, or the candidate for a member of the
    current cohort of a rollout that still serves it. *)
Definition served (v : View) (r : Rollout) (agentID versionID : string) : Prop :=
  versionID = r_StableVersionID r ∨
  versionID = r_CandidateVersionID r ∧ servesCandidate (r_State r) = true ∧
  ∃ stages s b, vw_stages v !! r_ID r = Some stages ∧ s ∈ stages ∧ s_ID s = r_CurrentStageID r ∧
    Bucket (MkAssignmentKey (r_ConfigDefinitionID r) (r_CandidateVersionID r) agentID) = Ok b ∧
    Eligible b (s_Percentage s) = true.

Lemma effective_served o v id r agentID :
  history o v → vw_rollouts v !! id = Some r → r_ID r = id →
  served v r agentID
    (ev_VersionID (EffectiveVersionForAgent r (vw_targets v id (r_CurrentStageID r)) agentID)).
Proof.
  intros Hh Hr Hid. unfold EffectiveVersionForAgent.
  case_decide as Hst; [left; apply rollback_serves_stable|].
  destruct (servesCandidate (r_State r)) eqn:Hs; simpl; [|by left].
  destruct (candidateVersion_cases r (vw_targets v id (r_CurrentStageID r)) agentID)
    as [-> |(t & Hin & Hc & ->)]; [by left|]. simpl.
  destruct (Hh _ _ Hr) as (plan & extra & Hok).
  unfold target_current in Hc. rewrite !andb_true_iff, !bool_decide_eq_true in Hc.
  destruct Hc as [[Ha _] _].
  destruct (hi_current _ _ _ _ _ _ Hok) as [[_ ?]|(s0 & Hl & Hcur)]; [done|].
  assert (r_CurrentStageID r ≠ verification_id id) as Hne.
  { rewrite Hcur. eapply Forall_lookup_1 in Hl; [|exact (hi_plan _ _ _ _ _ _ Hok)]. done. }
  destruct (hi_members _ _ _ _ _ _ Hok _ _ Hne Hin) as (s & Hs' & Hsid & Hb & He & Hx & _).
  right. rewrite Hx, <-Ha. split_and!; [done..|].
  exists (plan ++ extra), s, (st_Bucket t). rewrite Hid. split_and!; try done.
  - apply (hi_stages _ _ _ _ _ _ Hok).
  - apply elem_of_app. by left.
Qed.

(** * The data plane on the control plane's process *)

Lemma keeps_view {A} (m : M World A) (Q : res A → World → Prop) w :
  keeps_both m → store_inv w →
  (∀ r w', store_inv w' → view w' = view w → Q r w') → wp m Q w.
Proof.
  intros Hk Hi HQ. destruct (apart_of_keep m Hk (view w) w) as [Hi' Hv]; [by split|].
  unfold wp. by apply HQ.
Qed.

Lemma findVersionByID_id l vid c : findVersionByID l vid = Some c → v_ID c = vid.
Proof. induction l as [|x l IH]; simpl; [done|]. case_bool_decide; [by intros [= <-]|apply IH]. Qed.

Lemma effective_assignment_served ctx definition agent st o w r :
  store_inv w → view_ok (view w) → history o (view w) →
  vw_rollouts (view w) !! r_ID r = Some r → live r →
  slot r = nul_key (d_ID definition) (a_Environment agent) →
  wp (effective_assignment ctx definition agent st)
     (λ res w', store_inv w' ∧ view w' = view w ∧
        ∀ vid asg rev, res = Ok (vid, asg, rev) → served (view w) r (a_ID agent) vid) w.
Proof.
  intros Hi Hok Hh Hr Hl Hslot. unfold effective_assignment. wp_step. wp_step.
  eapply wp_mono; [by apply (RolloutRefine.ActiveRollout_refines interrupted store_inv view)|].
  intros [[r' ts]|e] w1 (Hi1 & Hv1 & Hres).
  - destruct Hres as (Hr' & Hl' & Hslot' & ->).
    assert (r' = r) as ->.
    { pose proof (view_slots _ Hok _ _ _ _ Hr' Hr Hl' Hl) as Hid.
      rewrite Hid in Hr' by congruence. congruence. }
    pose proof (effective_served o (view w) (r_ID r) r (a_ID agent) Hh Hr eq_refl) as Hs.
    cbv zeta. wp_step; wp_step; (split_and!; [done..|]); by intros vid asg rev [= <- _ _].
  - wp_step. wp_step; [by split_and!|]. exfalso.
    apply negb_false_iff in H. destruct Hres as [(n & c & _ & ->)|[_ Hno]].
    + by destruct c.
    + by apply (Hno (r_ID r) r).
Qed.

Lemma snapshotItem_served ctx tenantID definition agent o w r :
  store_inv w → view_ok (view w) → history o (view w) →
  vw_rollouts (view w) !! r_ID r = Some r → live r →
  slot r = nul_key (d_ID definition) (a_Environment agent) →
  wp (snapshotItem ctx tenantID definition agent)
     (λ res w', store_inv w' ∧ view w' = view w ∧
        ∀ item rev, res = Ok (Some (item, rev)) →
          served (view w) r (a_ID agent) (si_VersionID item)) w.
Proof.
  intros Hi Hok Hh Hr Hl Hslot. unfold snapshotItem. wp_step. wp_step.
  apply keeps_view; [|done|].
  { simpl. unfold ConfigRegistry.Service.GetEnvironmentState. split; keep. }
  intros [st|e] w1 Hi1 Hv1.
  2: { wp_step. wp_step; [by split_and!|]. wp_step. by split_and!. }
  wp_step; [by wp_step; split_and!|]. wp_step.
  apply keeps_view; [|done|].
  { simpl. unfold ConfigRegistry.Service.ListVersions. split; keep. }
  intros [vs|e] w2 Hi2 Hv2; [|split_and!; [done|congruence|done]].
  assert (view w2 = view w) as Hv by congruence.
  wp_step. wp_call effective_assignment_served; [done|by rewrite Hv..|done|done|].
  rewrite Hv. intros [[[vid asg] rev]|e] w3 (Hi3 & Hv3 & Hs); [|done].
  destruct (findVersionByID vs vid) as [version|] eqn:Hf; wp_step; (split_and!; [done..|]); [|done].
  intros item rev' [= <- _]. simpl. rewrite (findVersionByID_id _ _ _ Hf). by eapply Hs.
Qed.

End DataPlaneFacts.
