(* ===== verification/AgentFacts.v ===== *)
(** The snapshot cache: what its file holds whatever system call fails or the
    process crashes at, what survives a restart, and what the sync loop keeps
    true of it. *)

From Stdlib Require Import ZArith Lia Ascii.
From S2P Require Import Prelude GoLib Host Http Mux Health JsonText FileSystem Domain DataPlane DataPlaneFacts Agent.
Import DataPlane FileSystem Agent DataPlaneFacts.
Open Scope string_scope.
Open Scope list_scope.
Open Scope Z_scope.

Module AgentFacts.

(** * The paths of a cache are different *)

Lemma str_length_app a b : String.length (a +:+ b) = (String.length a + String.length b)%nat.
Proof. induction a as [|c a IH]; simpl; [done|]. by rewrite IH. Qed.

Lemma substring_prefix a b : String.substring 0 (String.length a) (a +:+ b) = a.
Proof. induction a as [|c a IH]; simpl; [by destruct b|]. by rewrite IH. Qed.

Lemma substring_suffix a b : String.substring (String.length a) (String.length b) (a +:+ b) = b.
Proof.
  assert (∀ s, String.substring 0 (String.length s) s = s) as Hall.
  { induction s as [|c s IH]; simpl; [done|]. by rewrite IH. }
  induction a as [|c a IH]; simpl; [apply Hall|done].
Qed.

Lemma Ext_suffix path : ∃ base, path = base +:+ Ext path.
Proof.
  induction path as [|c path [base IH]]; [by exists ""|]. simpl.
  destruct (empty_str (Ext path)) eqn:E; simpl.
  - destruct (byte_is 46 c && negb (has_byte "/" path)); [by exists ""|].
    exists (String c path). by rewrite str_app_nil_r.
  - exists (String c base). exact (f_equal (String c) IH).
Qed.

Lemma TrimSuffix_app a b : TrimSuffix (a +:+ b) b = a.
Proof.
  unfold TrimSuffix. rewrite str_length_app, Nat.add_sub.
  rewrite substring_suffix, bool_decide_true by done. apply substring_prefix.
Qed.

Lemma previousPath_length path :
  String.length (previousPath path) = (String.length path + 9)%nat.
Proof.
  unfold previousPath. destruct (empty_str (Ext path)).
  - by rewrite str_length_app.
  - destruct (Ext_suffix path) as [base Hb]. remember (Ext path) as e eqn:He. clear He.
    subst path. rewrite TrimSuffix_app, !str_length_app. simpl. lia.
Qed.

Lemma paths_distinct path :
  path ≠ tmpPath path ∧ path ≠ previousPath path ∧ tmpPath path ≠ previousPath path.
Proof.
  assert (String.length (tmpPath path) = (String.length path + 4)%nat) as Ht.
  { unfold tmpPath. by rewrite str_length_app. }
  pose proof (previousPath_length path) as Hp.
  split_and!; intros Heq; rewrite <-?Heq in *; lia.
Qed.

(** * System calls on the cache's part *)

Definition files (c : SnapshotCache) : gmap string string := fs_files (c_fs c).

(** The cache with other files. *)
Definition with_files (f : gmap string string) (c c' : SnapshotCache) : Prop :=
  files c' = f ∧ c_snapshot c' = c_snapshot c ∧
  (no_faults (c_fs c) → no_faults (c_fs c')).

Lemma wp_call_fs {A} failed run (Q : res A → SnapshotCache → Prop) c :
  (∀ e n c', ¬ no_faults (c_fs c) → with_files (failed n (files c)) c c' → Q (Err e) c') →
  (∀ c', with_files (run (files c)).2 c c' → Q (run (files c)).1 c') →
  wp (zoom (syscall failed run)) Q c.
Proof.
  intros Hf Hr. apply wp_zoom. apply wp_syscall.
  - intros f Hfault. apply (Hf _ (fault_written f)).
    + intros Hn. by rewrite Hn in Hfault.
    + by split_and!.
  - intros _. by apply Hr; split_and!.
Qed.

(** One path is written, nothing else. *)
Definition only (p : string) (f f' : gmap string string) : Prop :=
  ∀ p', p' ≠ p → f' !! p' = f !! p'.

Section Save.
Context (path data : string).
Abbreviation tmp := (tmpPath path).
Abbreviation previous := (previousPath path).

(** A call that changes no file, its result dropped. *)
Lemma wp_close_and_fail err (Q : res unit → SnapshotCache → Prop) c :
  (∀ c', files c' = files c → c_snapshot c' = c_snapshot c → Q (Err err) c') →
  wp (try (zoom (Close tmp));; mthrow err) Q c.
Proof.
  intros HQ. wp_step. wp_step.
  apply wp_call_fs; [intros e n c' _ (Hf & Hs & _)|intros c' (Hf & Hs & _)]; by apply HQ.
Qed.

Lemma write_tmp_spec c :
  wp (write_tmp path data) (λ r c', c_snapshot c' = c_snapshot c ∧
    only tmp (files c) (files c') ∧ (no_faults (c_fs c) → no_faults (c_fs c') ∧ r = Ok tt) ∧
    ∀ u, r = Ok u → files c' !! tmp = Some data) c.
Proof.
  unfold write_tmp. wp_step.
  apply wp_call_fs; [intros e n c1 Hn (Hf & Hs & _)|intros c1 (Hf & Hs & Hn)]; simpl in Hf |- *.
  { split_and!; try done. intros p _. by rewrite Hf. }
  assert (∀ s, only tmp (files c) (<[tmp:=s]> (files c1))) as Ho.
  { intros s p Hp. by rewrite Hf, !lookup_insert_ne. }
  wp_step. wp_step.
  apply wp_call_fs; [intros e n c2 Hn2 (Hf2 & Hs2 & _)|intros c2 (Hf2 & Hs2 & Hn2)]; simpl in Hf2 |- *.
  { apply wp_close_and_fail. intros c3 Hf3 Hs3. rewrite Hf3, Hf2.
    split_and!; [congruence|done|intros Hn'; by destruct Hn2; auto|done]. }
  wp_step. wp_step.
  apply wp_call_fs; [intros e n c3 Hn3 (Hf3 & Hs3 & _)|intros c3 (Hf3 & Hs3 & Hn3)]; simpl in Hf3 |- *.
  { apply wp_close_and_fail. intros c4 Hf4 Hs4. unfold unchanged in Hf3. rewrite Hf4, Hf3, Hf2.
    split_and!; [congruence|done|intros Hn'; destruct Hn3; auto|done]. }
  apply wp_call_fs; [intros e n c4 Hn4 (Hf4 & Hs4 & _)|intros c4 (Hf4 & Hs4 & Hn4)]; simpl in Hf4 |- *;
    unfold unchanged in *; rewrite Hf4, Hf3, Hf2.
  - split_and!; [congruence|done|intros Hn'; destruct Hn4; auto|done].
  - split_and!; [congruence|done|intros ?; split; [by auto 10|done]|]. intros _ _. apply lookup_insert_eq.
Qed.

(** After the temporary file is complete: [path] is never left with anything
    but a whole old or new file, and its old contents are kept until the new
    ones are in place. *)
Definition installed (c : SnapshotCache) (r : res unit) (c' : SnapshotCache) : Prop :=
  c_snapshot c' = c_snapshot c ∧
  (no_faults (c_fs c) → no_faults (c_fs c') ∧ r = Ok tt) ∧
  (∀ p, p ≠ path → p ≠ tmp → p ≠ previous → files c' !! p = files c !! p) ∧
  (files c' !! previous = files c !! previous ∨ files c' !! previous = files c !! path
     ∨ files c' !! previous = None) ∧
  match r with
  | Ok _ => files c' !! path = Some data
  | Err _ => files c' !! path = files c !! path ∨
      files c' !! path = None ∧ files c' !! previous = files c !! path ∨
      (∃ old, files c !! previous = Some old ∧ files c' !! path = Some old)
  end.

(** The state before the last renames, relative to the state before [install]. *)
Definition moving (c c1 : SnapshotCache) : Prop :=
  c_snapshot c1 = c_snapshot c ∧ (no_faults (c_fs c) → no_faults (c_fs c1)) ∧
  files c1 !! tmp = Some data ∧
  (∀ p, p ≠ path → p ≠ tmp → p ≠ previous → files c1 !! p = files c !! p) ∧
  (files c1 !! path = files c !! path ∧
     (files c1 !! previous = files c !! previous ∨ files c1 !! previous = None) ∨
   files c1 !! path = None ∧ files c1 !! previous = files c !! path).

Lemma last_rename_spec c c1 :
  moving c c1 →
  wp (renamed ← try (zoom (Rename tmp path));
      match renamed with
      | Err err => try (zoom (Rename previous path));; mthrow err
      | Ok _ => mret tt
      end) (installed c) c1.
Proof.
  intros (Hs1 & Hn1 & Htmp & Hoth & Hcase). destruct (paths_distinct path) as (Hpt & Hpp & Htp).
  wp_step. wp_step. apply wp_call_fs; [intros e n c2 Hn2 (Hf2 & Hs2 & _)|intros c2 (Hf2 & Hs2 & Hn2)]; simpl in Hf2 |- *; unfold unchanged in *.
  - wp_step. wp_step.
    apply wp_call_fs; [intros e' n' c3 _ (Hf3 & Hs3 & _)|intros c3 (Hf3 & Hs3 & _)]; wp_step;
      simpl in Hf3; unfold unchanged in *.
    + unfold installed. rewrite Hf3, Hf2. split_and!; [congruence|intros ?; by destruct Hn2; auto|done|..].
      * destruct Hcase as [[_ [?|?]]|[_ ?]]; auto.
      * destruct Hcase as [[? _]|?]; auto.
    + unfold missing_or in Hf3. rewrite Hf2 in Hf3.
      destruct (files c1 !! previous) as [old|] eqn:Hold; simpl in Hf3; unfold installed; rewrite Hf3.
      * split_and!; [congruence|intros ?; by destruct Hn2; auto|..].
        -- intros p ???. by rewrite lookup_insert_ne, lookup_delete_ne by done; auto.
        -- right; right. by rewrite lookup_insert_ne, lookup_delete_eq.
        -- rewrite lookup_insert_eq. destruct Hcase as [[_ [<-|?]]|[_ <-]]; try congruence; eauto.
      * split_and!; [congruence|intros ?; by destruct Hn2; auto|done|..].
        -- auto.
        -- destruct Hcase as [[? _]|[? ?]]; auto. right; left. split; congruence.
  - unfold missing_or in Hf2 |- *. rewrite Htmp in Hf2 |- *. simpl in Hf2 |- *.
    wp_step. unfold installed. rewrite Hf2. split_and!; [congruence|by auto|..].
    + intros p ???. by rewrite lookup_insert_ne, lookup_delete_ne by done; auto.
    + rewrite lookup_insert_ne, lookup_delete_ne by done.
      destruct Hcase as [[_ [?|?]]|[_ ?]]; auto.
    + apply lookup_insert_eq.
Qed.

Lemma rename_in_place_spec c c1 :
  c_snapshot c1 = c_snapshot c → (no_faults (c_fs c) → no_faults (c_fs c1)) →
  files c1 !! tmp = Some data →
  (∀ p, p ≠ path → p ≠ tmp → p ≠ previous → files c1 !! p = files c !! p) →
  files c1 !! path = files c !! path →
  (files c1 !! previous = files c !! previous ∨ files c1 !! previous = None) →
  wp (rename_in_place path) (installed c) c1.
Proof.
  intros Hs1 Hn1 Htmp Hoth Hpath Hprev. destruct (paths_distinct path) as (Hpt & Hpp & Htp).
  unfold rename_in_place. wp_step. wp_step.
  assert (∀ r c2, c_snapshot c2 = c_snapshot c → (no_faults (c_fs c) → no_faults (c_fs c2)) →
    files c2 = files c1 → (is_ok (r : res unit) = true → is_Some (files c !! path)) →
    wp (if is_ok r then zoom (Rename path previous) else mret tt)
      (λ r' c3, match r' with Ok _ => moving c c3 | Err _ => installed c r' c3 end) c2) as Hmove.
  { intros r c2 Hs2 Hn2 Hf2 Hsome. destruct (is_ok r).
    - apply wp_call_fs; [intros e n c3 Hn3 (Hf3 & Hs3 & _)|intros c3 (Hf3 & Hs3 & Hn3)].
      + simpl in Hf3. unfold installed. rewrite Hf3, Hf2.
        split_and!; [congruence|intros ?; by destruct Hn3; auto|done|by destruct Hprev; auto|by left].
      + unfold missing_or in Hf3 |- *. rewrite Hf2, Hpath in Hf3. rewrite Hf2, Hpath.
        destruct Hsome as [old Hold]; [done|]. rewrite Hold in Hf3 |- *. simpl in Hf3 |- *.
        * unfold moving. rewrite Hf3. split_and!; [congruence|by auto|..].
          -- by rewrite lookup_insert_ne, lookup_delete_ne.
          -- intros p ???. by rewrite lookup_insert_ne, lookup_delete_ne by done; auto.
          -- right. split; [by rewrite lookup_insert_ne, lookup_delete_eq|].
             by rewrite lookup_insert_eq.
    - apply wp_ret. unfold moving. rewrite Hf2. split_and!; auto. }
  apply wp_call_fs; [intros e n c2 Hn2 (Hf2 & Hs2 & _)|intros c2 (Hf2 & Hs2 & Hn2)].
  - wp_step. wp_call (Hmove (Err e) c2); [congruence|intros ?; by destruct Hn2; auto|done|done|].
    intros [[]|e'] c3 Hc3; [by apply last_rename_spec|done].
  - wp_step. simpl in Hf2.
    assert (files c2 = files c1) as Hf by (unfold missing_or in Hf2; by destruct (files c1 !! path)).
    wp_call (Hmove (missing_or (files c1) path (λ _, (tt, files c1))).1 c2); [congruence|by auto|done| |].
    + unfold missing_or. rewrite Hpath. by destruct (files c !! path).
    + intros [[]|e'] c3 Hc3; [by apply last_rename_spec|done].
Qed.

Lemma install_spec c : files c !! tmp = Some data → wp (install path) (installed c) c.
Proof.
  intros Htmp. destruct (paths_distinct path) as (Hpt & Hpp & Htp). unfold install.
  wp_step. wp_step.
  apply wp_call_fs; [intros e n c1 Hn (Hf & Hs & _)|intros c1 (Hf & Hs & Hn)]; simpl in Hf |- *;
    unfold unchanged in *.
  - apply rename_in_place_spec; try (by rewrite Hf); [done|done|rewrite Hf; auto].
  - unfold missing_or in Hf.
    destruct (files c !! previous) as [old|] eqn:Hold; simpl in Hf;
      apply rename_in_place_spec; try done; rewrite Hf; try done; try auto.
    + by rewrite lookup_delete_ne.
    + intros p ???. by rewrite lookup_delete_ne.
    + by rewrite lookup_delete_ne.
    + right. apply lookup_delete_eq.
Qed.
End Save.

(** * Save and Load *)
Section SaveLoad.
Context `{Codec Snapshot} (json_MarshalIndent : Snapshot → res string) (path : string).
Abbreviation previous := (previousPath path).
Abbreviation Save := (Save json_MarshalIndent path).
Abbreviation Load := (Load path).

(** What [Save] may leave behind, [data] being the new contents of the file. *)
Definition saved (snapshot : Snapshot) (data : string) (c : SnapshotCache) (r : res unit)
    (c' : SnapshotCache) : Prop :=
  (∀ p, p ≠ path → p ≠ tmpPath path → p ≠ previous → files c' !! p = files c !! p) ∧
  (files c' !! previous = files c !! previous ∨ files c' !! previous = files c !! path
     ∨ files c' !! previous = None) ∧
  match r with
  | Ok _ => files c' !! path = Some data ∧ c_snapshot c' = Some snapshot
  | Err _ => c_snapshot c' = c_snapshot c ∧
      (files c' !! path = files c !! path ∨
       files c' !! path = None ∧ files c' !! previous = files c !! path ∨
       ∃ old, files c !! previous = Some old ∧ files c' !! path = Some old)
  end.

Lemma saved_nothing snapshot data c err c' :
  files c' = files c → c_snapshot c' = c_snapshot c → saved snapshot data c (Err err) c'.
Proof. intros Hf Hs. unfold saved. rewrite Hf. split_and!; auto. Qed.

Lemma Save_spec snapshot ctxErr c :
  wp (Save snapshot ctxErr) (λ r c',
    (∀ u, r = Ok u → ValidateSnapshot snapshot = Ok tt ∧ ∃ data, json_MarshalIndent snapshot = Ok data) ∧
    (ctxErr = None → ValidateSnapshot snapshot = Ok tt → no_faults (c_fs c) →
      ∀ data, json_MarshalIndent snapshot = Ok data → r = Ok tt ∧ no_faults (c_fs c')) ∧
    saved snapshot (default "" (match json_MarshalIndent snapshot with Ok d => Some d | _ => None end))
      c r c') c.
Proof.
  destruct (paths_distinct path) as (Hpt & Hpp & Htp). unfold Agent.Save. wp_step.
  unfold ctx_check. destruct ctxErr as [e|].
  { wp_step. split_and!; [done|done|by apply saved_nothing]. }
  wp_step. wp_step. wp_step. destruct (ValidateSnapshot snapshot) as [[]|e] eqn:Hval.
  2: { split_and!; [done|done|by apply saved_nothing]. }
  wp_step. wp_step. destruct (json_MarshalIndent snapshot) as [data|e] eqn:Hdata; simpl.
  2: { split_and!; [done|done|by apply saved_nothing]. }
  wp_step. apply wp_call_fs; [intros e n c1 Hn1 (Hf1 & Hs1 & _)|intros c1 (Hf1 & Hs1 & Hn1)];
    simpl in Hf1 |- *; unfold unchanged in *.
  { split_and!; [done|done|by apply saved_nothing]. }
  wp_step. wp_call write_tmp_spec. rewrite Hs1, Hf1. intros [[]|e] c2 (Hs2 & Ho2 & Hn2 & Hd2).
  2: { split_and!; [done|intros _ _ Hn; by destruct (Hn2 (Hn1 Hn))|].
       unfold saved. rewrite !Ho2 by done. split_and!; auto. }
  specialize (Hd2 tt eq_refl).
  wp_step. wp_call install_spec; [exact Hd2|]. intros r c3 (Hs3 & Hn3 & Hoth & Hprev & Hr).
  assert (∀ p, p ≠ path → p ≠ tmpPath path → p ≠ previous → files c3 !! p = files c !! p) as Hoth'.
  { intros p ???. rewrite Hoth by done. by apply Ho2. }
  rewrite !Ho2 in Hprev by done. destruct r as [[]|e].
  - unfold wp; simpl. split_and!; [eauto| |].
    + intros _ _ Hn data' _. split; [done|]. simpl. apply Hn3, Hn2, Hn1, Hn.
    + unfold saved. split_and!; try done. simpl. by rewrite CloneSnapshot_same.
  - rewrite !Ho2 in Hr by done. split_and!; [done| |].
    + intros _ _ Hn. by destruct (Hn3 (proj1 (Hn2 (Hn1 Hn)))).
    + unfold saved. split_and!; try done. congruence.
Qed.

(** A restarted agent reads what is at [path]. *)
Lemma Load_spec c data :
  files c !! path = Some data → no_faults (c_fs c) →
  wp (Load None) (λ r c',
    match json_Unmarshal data with
    | Err e => r = Err e ∧ c_snapshot c' = c_snapshot c
    | Ok snapshot =>
        r = ValidateSnapshot snapshot ∧
        c_snapshot c' = if is_ok (ValidateSnapshot snapshot) then Some snapshot else c_snapshot c
    end) c.
Proof.
  intros Hdata Hn. unfold Agent.Load, ctx_check. wp_step. wp_step.
  wp_step. apply wp_call_fs; [intros e n c1 Hn1; by destruct Hn1|intros c1 (Hf & Hs & _)].
  unfold missing_or. rewrite Hdata. simpl.
  wp_step. wp_step. destruct (json_Unmarshal data) as [snapshot|e]; [|done].
  wp_step. wp_step. destruct (ValidateSnapshot snapshot) as [[]|e]; simpl; [|done].
  unfold wp; simpl. by rewrite CloneSnapshot_same.
Qed.

End SaveLoad.

(** What a value becomes in the file: the raw values of a snapshot are inside
    three brackets of its text. *)
Definition reindent (s : Snapshot) : Snapshot :=
  MkSnapshot (sn_Revision s) (sn_GeneratedAt s)
    ((λ item, MkSnapshotItem (si_ConfigDefinitionID item) (si_Key item) (si_VersionID item)
                (si_Version item) (JsonText.Indent 3 (si_Value item)) (si_Checksum item)
                (si_Assignment item)) <$> sn_Configs s).

(** What a value becomes on the wire. *)
Definition compacted (s : Snapshot) : Snapshot :=
  MkSnapshot (sn_Revision s) (sn_GeneratedAt s)
    ((λ item, MkSnapshotItem (si_ConfigDefinitionID item) (si_Key item) (si_VersionID item)
                (si_Version item) (JsonText.Compact (si_Value item)) (si_Checksum item)
                (si_Assignment item)) <$> sn_Configs s).

Definition plain_values (s : Snapshot) : Prop :=
  Forall (λ item, si_Value item ≠ "" ∧ JsonText.plain (si_Value item) = true) (sn_Configs s).

Lemma reindent_plain s : plain_values s → reindent s = s.
Proof.
  destruct s as [rev t items]. unfold plain_values, reindent; simpl. intros Hp. f_equal.
  apply list_fmap_fixed. intros item Hin. eapply Forall_forall in Hp; [|exact Hin].
  destruct Hp as [??], item; simpl in *. by rewrite JsonText.Indent_plain.
Qed.

Lemma compacted_plain s : plain_values s → compacted s = s.
Proof.
  destruct s as [rev t items]. unfold plain_values, compacted; simpl. intros Hp. f_equal.
  apply list_fmap_fixed. intros item Hin. eapply Forall_forall in Hp; [|exact Hin].
  destruct Hp as [??], item; simpl in *. by rewrite JsonText.Compact_plain.
Qed.

(** * The sync loop *)
Section Sync.
Context {W : Type} `{Env W, HttpClient W, Codec Snapshot, Has SnapshotCache W, Has Etag W,
  !EnvLaws W, !HasLaws SnapshotCache W, !HostApart SnapshotCache W,
  !Disjoint SnapshotCache Etag W}.
Context (json_MarshalIndent : Snapshot → res string) (s : Syncer W).
(** The network does not reach into the agent's cache. *)
Context (network : ∀ (c : SnapshotCache) ctx req, preserves (λ w : W, part w = c) (http_Do ctx req)).
Context (acknowledger : ∀ (c : SnapshotCache) acknowledge ctx a t item rev, sy_Acknowledger s = Some acknowledge →
  preserves (λ w : W, part w = c) (acknowledge ctx a t item rev)).

Definition cache_valid (c : SnapshotCache) : Prop :=
  ∀ snapshot, c_snapshot c = Some snapshot → ValidateSnapshot snapshot = Ok tt.

Lemma Fetch_keeps client ctx tag (c : SnapshotCache) :
  preserves (λ w : W, part w = c) (Fetch client ctx tag).
Proof.
  unfold Fetch. apply preserves_bind; [apply network|]. intros resp.
  unfold status_error. keep.
Qed.

Lemma acknowledge_keeps ctx snapshot (c : SnapshotCache) :
  preserves (λ w : W, part w = c) (acknowledge_items s ctx snapshot).
Proof.
  unfold acknowledge_items. destruct (sy_Acknowledger s) as [a|] eqn:Ha; [|apply preserves_ret].
  apply preserves_for_each. intros item. by apply acknowledger.
Qed.

Lemma Save_valid snapshot e c :
  cache_valid c → wp (Save json_MarshalIndent (sy_Cache_path s) snapshot e) (λ _ c', cache_valid c') c.
Proof.
  intros Hc. wp_call Save_spec. intros r c' (Hok & _ & (_ & _ & Hr)) snap Hsnap.
  destruct r as [[]|err]; destruct Hr as [Hr1 Hr2].
  - destruct (Hok tt eq_refl) as [Hv _]. congruence.
  - apply Hc. congruence.
Qed.

(** A snapshot is never dropped. *)
Lemma Save_ready snapshot e c :
  is_Some (c_snapshot c) →
  wp (Save json_MarshalIndent (sy_Cache_path s) snapshot e) (λ _ c', is_Some (c_snapshot c')) c.
Proof.
  intros Hc. wp_call Save_spec. intros r c' (_ & _ & (_ & _ & Hr)).
  destruct r as [[]|err]; destruct Hr as [Hr1 Hr2]; [by rewrite Hr2|by rewrite Hr1].
Qed.

(** What [Save] keeps of the cache, a pass keeps. *)
Lemma SyncOnce_keeps (I : SnapshotCache → Prop) ctx :
  (∀ snapshot e c, I c → wp (Save json_MarshalIndent (sy_Cache_path s) snapshot e) (λ _ c', I c') c) →
  preserves (λ w, I (part w)) (SyncOnce json_MarshalIndent s ctx).
Proof.
  intros HI. unfold SyncOnce. apply preserves_bind; [by intros w Hw|]. intros tag.
  apply preserves_bind; [apply preserves_part; intros c; apply Fetch_keeps|]. intros fetched.
  apply preserves_if; [apply preserves_ret|].
  apply preserves_bind.
  - intros w Hw. change (wp (store_call ctx (Save json_MarshalIndent (sy_Cache_path s)
      (fr_Snapshot fetched))) (λ _ w', I (part w')) w).
    eapply store_call_law; [intros e _; by apply HI|by intros].
  - intros _. apply preserves_bind.
    + intros w Hw. simpl. by rewrite disjoint.
    + intros _. apply preserves_part. intros c. apply acknowledge_keeps.
Qed.

Lemma SyncOnce_valid ctx : preserves (λ w, cache_valid (part w)) (SyncOnce json_MarshalIndent s ctx).
Proof. apply SyncOnce_keeps, Save_valid. Qed.

End Sync.

(** * The local interface *)

Section Local.
Context {W : Type} `{Env W, Has SnapshotCache W, !EnvLaws W, !HasLaws SnapshotCache W,
  !HostApart SnapshotCache W}.

Lemma find_item_some key items item :
  find_item key items = Some item → item ∈ items ∧ si_Key item = key.
Proof.
  induction items as [|i items IH]; [done|]. cbn. case_bool_decide.
  - intros [= <-]. by split; [left|].
  - intros Hi. destruct (IH Hi). by split; [right|].
Qed.

Lemma CacheSnapshot_run c :
  CacheSnapshot c = (match c_snapshot c with
                     | None => Err ErrNoSnapshot
                     | Some snapshot => Ok snapshot
                     end, c).
Proof.
  destruct c as [fs [snapshot|]]; [|done].
  by rewrite <-(CloneSnapshot_same snapshot) at 2.
Qed.

Lemma Config_run key c :
  Config key c = (match c_snapshot c with
                  | None => Err ErrNoSnapshot
                  | Some snapshot =>
                      match find_item key (sn_Configs snapshot) with
                      | Some item => Ok item
                      | None => Err (EWrap ErrConfigNotFound "%s" [key])
                      end
                  end, c).
Proof.
  unfold Config, mbind, M_bind. rewrite CacheSnapshot_run.
  destruct (c_snapshot c) as [snapshot|]; [|done]. by destruct (find_item _ _).
Qed.

Lemma preserves_reader {A} (m : M SnapshotCache A) (c : SnapshotCache) :
  (∀ c, (m c).2 = c) → preserves (λ w : W, part w = c) (zoom m).
Proof. intros Hm w <-. unfold zoom. specialize (Hm (part w)). destruct (m _). simpl in *. by rewrite part_set. Qed.

Lemma handle_local_run route r c :
  handle_local route r c =
  (Ok match route, c_snapshot c with
      | _, None => writeAgentError ErrNoSnapshot
      | GetSnapshot_, Some snapshot => writeAgentJSON StatusOK (PAgentSnapshot snapshot)
      | GetConfig_, Some snapshot =>
          match find_item (PathValue r "key") (sn_Configs snapshot) with
          | None => writeAgentError (EWrap ErrConfigNotFound "%s" [PathValue r "key"])
          | Some item => writeAgentJSON StatusOK
              (PConfig (MkConfigResponse (si_Key item) (si_Version item) (si_Value item)))
          end
      end, c).
Proof.
  destruct route; cbn [handle_local]; unfold handle_getSnapshot, handle_getConfig, try, mbind, M_bind.
  - rewrite CacheSnapshot_run. by destruct (c_snapshot c).
  - rewrite Config_run. destruct (c_snapshot c) as [snapshot|]; [|done]. by destruct (find_item _ _).
Qed.

Lemma Check_run c :
  Check_ c = (match c_snapshot c with None => Err ErrNoSnapshot | Some _ => Ok tt end, c).
Proof. unfold Check_, mbind, M_bind. rewrite CacheSnapshot_run. by destruct (c_snapshot c). Qed.

(** A request to the local interface leaves the cache alone. *)
Lemma local_keeps (c : SnapshotCache) ctx method path headers body m :
  NewHandler (W := W) ctx method path headers body = Some m → preserves (λ w : W, part w = c) m.
Proof.
  apply (Health.preserves_ServeMux _ _ _ (λ w : W, part w = c) (HostFrame0 := host_apart c)).
  - intros ctx'. apply preserves_reader. intros c'. by rewrite Check_run.
  - intros route ctx' r. apply preserves_reader. intros c'. by rewrite handle_local_run.
Qed.

Lemma serve_local ctx method path headers body route values :
  Mux.dispatch Health.routes method path = None →
  Mux.dispatch local_routes method path = Some (route, values) →
  ∃ m, NewHandler (W := W) ctx method path headers body = Some m ∧
    ∀ w, wp m (λ res w', part w' = part (S := SnapshotCache) w ∧ ∃ resp,
      (handle_local route (MkRequest values headers body) (part w)).1 = Ok resp ∧
      res = Ok (Health.tagged inr resp)) w.
Proof.
  intros Hprobe Hroute. unfold NewHandler, Health.ServeMux.
  rewrite Health.dispatch_mount, Hprobe, Hroute. eexists. split; [done|]. intros w.
  cbn [Health.serve_mounted]. wp_step. apply wp_zoom. rewrite handle_local_run.
  unfold wp at 1. rewrite handle_local_run. cbn [fst snd]. wp_step.
  split; [by rewrite part_set|by eexists].
Qed.

Lemma serve_ready ctx headers body :
  ∃ m, NewHandler (W := W) ctx "GET" "/readyz" headers body = Some m ∧
    ∀ w, wp m (λ res w', part w' = part (S := SnapshotCache) w ∧ ∃ resp, res = Ok resp ∧
      rs_status resp = if c_snapshot (part w) is Some _ then 200 else 503) w.
Proof.
  unfold NewHandler, Health.ServeMux. rewrite Health.dispatch_mount. eexists. split; [done|]. intros w.
  cbn [Health.serve_mounted]. wp_step. cbn [Mux.pt_route Health.handle].
  unfold Health.handleReady. cbn [Health.NewHandler Health.h_ready]. wp_step. wp_step. apply wp_zoom.
  unfold wp at 1. rewrite Check_run. cbn [fst snd]. wp_step.
  apply (wp_now (λ w' : W, part w' = part (S := SnapshotCache) w) (HostFrame0 := host_apart _));
    [by rewrite part_set|].
  intros t w' Hw'. destruct (c_snapshot (part w)); wp_step; wp_step; (split; [done|by eexists]).
Qed.

End Local.
End AgentFacts.
