(* ===== verification/Commands.v ===== *)
(** [internal/runtime], the level of [internal/logging], and [cmd/control-plane], [cmd/data-plane] and
    [cmd/agent]: the stores, services, identities and loops a process gets from
    its environment.  The choice of a store is a record of the interfaces'
    instances; leaving with [os.Exit] is [None].  The HTTP server and its
    shutdown are a small state machine ([Server]).  [time.ParseDuration],
    connecting, [os.Hostname] and [context.WithTimeout] are arguments, and
    logging has no effect here. *)

From Stdlib Require Import ZArith Lia Ascii.
From S2P Require Import Prelude GoLib Host Http Domain Guardrail Prometheus Registry RegistryStore AgentRegistry AgentStore Rollout RolloutStore RolloutService RolloutMemory Sql Postgres Health DataPlane Agent ControlPlane PlaneKeep PostgresStores.
Open Scope string_scope.
Open Scope list_scope.
Open Scope Z_scope.

Module Runtime.

(** [os.Getenv]: an absent variable is empty. *)
Definition Environ : Type := string → string.

(** [time.ParseDuration]. *)
Class DurationParser := ParseDuration : string → res Duration.

Section env.
Context (os_Getenv : Environ).

(** [src/internal/runtime/env.go:8-14] EnvString *)
Definition EnvString (key fallback : string) : string :=
  let value := os_Getenv key in
  if empty_str value then fallback else value.

(** [src/internal/runtime/env.go:16-28] EnvDuration *)
Definition EnvDuration `{DurationParser} (key : string) (fallback : Duration) : Duration :=
  let value := os_Getenv key in
  if empty_str value then fallback
  else match ParseDuration value with
       | Err _ => fallback
       | Ok duration => duration
       end.
End env.

(** * internal/logging *)

Inductive Level := LevelInfo | LevelDebug.

(** [src/internal/logging/logging.go:10-13] New *)
Definition log_level (os_Getenv : Environ) : Level :=
  if EqualFold (os_Getenv "LOG_LEVEL") "debug" then LevelDebug else LevelInfo.

(** A logger writes the records of its level and above to the standard output,
    each with its attributes. *)
Record Logger := MkLogger { lg_level : Level; lg_with : list (string * string) }.

(** [src/internal/logging/logging.go:9-20] New *)
Definition New (os_Getenv : Environ) (service : string) : Logger :=
  MkLogger (log_level os_Getenv) [("service", service)].

End Runtime.

(** * The HTTP server of a service

    [ListenAndServe] runs in a goroutine of its own and hands its error over a
    channel of one place; [RunHTTPServer] waits for it or for the end of the
    context, whichever it sees first. *)
Module Server.
Import Runtime.

(** [src/internal/runtime/server.go:11-18] HTTPServerConfig *)
Record HTTPServerConfig := MkHTTPServerConfig {
  hc_ServiceName : string;
  hc_Addr : string;
  hc_ReadTimeout : Duration;
  hc_WriteTimeout : Duration;
  hc_IdleTimeout : Duration;
  hc_ShutdownTimeout : Duration }.

(** The time [Shutdown] is given. *)
(** [src/internal/runtime/server.go:21-23] RunHTTPServer *)
Definition shutdown_timeout (cfg : HTTPServerConfig) : Duration :=
  if hc_ShutdownTimeout cfg =? 0 then 10 * Second else hc_ShutdownTimeout cfg.

(** The [http.Server] that listens. *)
Record HTTPServer (Handler : Type) := MkHTTPServer {
  hs_Addr : string;
  hs_Handler : Handler;
  hs_ReadTimeout : Duration;
  hs_WriteTimeout : Duration;
  hs_IdleTimeout : Duration }.
Arguments MkHTTPServer {Handler} _ _ _ _ _.
Arguments hs_Handler {Handler} _.

(** [src/internal/runtime/server.go:25-31] RunHTTPServer *)
Definition http_server {Handler} (cfg : HTTPServerConfig) (handler : Handler) : HTTPServer Handler :=
  MkHTTPServer (hc_Addr cfg) handler (hc_ReadTimeout cfg) (hc_WriteTimeout cfg) (hc_IdleTimeout cfg).

Definition ErrServerClosed : error := ESentinel "http.ErrServerClosed" "http: Server closed".

(** Where the function is: at its [select], in [Shutdown], at the last receive,
    or returned. *)
Inductive Phase := Selecting | ShuttingDown | Draining | Returned (err : option error).

(** [src/internal/runtime/server.go:33-41] RunHTTPServer *)
Record Serving := MkServing {
  sg_listening : bool;
  sg_errc : option (option error);
  sg_phase : Phase }.

Definition serving : Serving := MkServing true None Selecting.

(** What happens next: [ListenAndServe] returns, the context is done, or
    [Shutdown] returns; or the function receives from the channel. *)
Inductive Event := Listened (err : error) | ContextDone | ShutDown (err : option error) | Receive.

(** [None]: the event cannot happen now.  [ListenAndServe] returns
    [ErrServerClosed] once [Shutdown] has been called, and not before. *)
(** [src/internal/runtime/server.go:33-55] RunHTTPServer *)
Definition serve (e : Event) (s : Serving) : option Serving :=
  match e, sg_phase s with
  | Listened err, phase =>
      let closed := errors_Is err ErrServerClosed in
      if sg_listening s
         && (negb closed || match phase with Selecting => false | _ => true end)
      then Some (MkServing false (Some (if closed then None else Some err)) phase)
      else None
  | ContextDone, Selecting => Some (MkServing (sg_listening s) (sg_errc s) ShuttingDown)
  | ShutDown (Some err), ShuttingDown =>
      Some (MkServing (sg_listening s) (sg_errc s) (Returned (Some err)))
  | ShutDown None, ShuttingDown => Some (MkServing (sg_listening s) (sg_errc s) Draining)
  | Receive, (Selecting | Draining) =>
      match sg_errc s with
      | Some err => Some (MkServing (sg_listening s) None (Returned err))
      | None => None
      end
  | _, _ => None
  end.

Inductive serves : Serving → list Event → Serving → Prop :=
| serves_nil s : serves s [] s
| serves_cons s e s' events s'' : serve e s = Some s' → serves s' events s'' → serves s (e :: events) s''.

End Server.

Import Domain Rollout Sql Runtime.

Module Commands.

(** * The servers and the exit of the services *)

Section servers.
Context (os_Getenv : Environ).

(** [src/cmd/control-plane/main.go:29-36] main *)
Definition control_plane_config `{DurationParser} : Server.HTTPServerConfig :=
  Server.MkHTTPServerConfig "control-plane" (EnvString os_Getenv "CONTROL_PLANE_ADDR" ":8080")
    (EnvDuration os_Getenv "CONTROL_PLANE_READ_TIMEOUT" (5 * Second))
    (EnvDuration os_Getenv "CONTROL_PLANE_WRITE_TIMEOUT" (10 * Second))
    (EnvDuration os_Getenv "CONTROL_PLANE_IDLE_TIMEOUT" (60 * Second))
    (EnvDuration os_Getenv "CONTROL_PLANE_SHUTDOWN_TIMEOUT" (10 * Second)).

(** [src/cmd/data-plane/main.go:29-36] main *)
Definition data_plane_config `{DurationParser} : Server.HTTPServerConfig :=
  Server.MkHTTPServerConfig "data-plane" (EnvString os_Getenv "DATA_PLANE_ADDR" ":8081")
    (EnvDuration os_Getenv "DATA_PLANE_READ_TIMEOUT" (5 * Second))
    (EnvDuration os_Getenv "DATA_PLANE_WRITE_TIMEOUT" (10 * Second))
    (EnvDuration os_Getenv "DATA_PLANE_IDLE_TIMEOUT" (60 * Second))
    (EnvDuration os_Getenv "DATA_PLANE_SHUTDOWN_TIMEOUT" (10 * Second)).

(** [src/cmd/agent/main.go:23-30] main *)
Definition agent_config `{DurationParser} : Server.HTTPServerConfig :=
  Server.MkHTTPServerConfig "agent" (EnvString os_Getenv "AGENT_ADDR" ":8082")
    (EnvDuration os_Getenv "AGENT_READ_TIMEOUT" (5 * Second))
    (EnvDuration os_Getenv "AGENT_WRITE_TIMEOUT" (10 * Second))
    (EnvDuration os_Getenv "AGENT_IDLE_TIMEOUT" (60 * Second))
    (EnvDuration os_Getenv "AGENT_SHUTDOWN_TIMEOUT" (10 * Second)).

(** The exit code of a service, by what [RunHTTPServer] returned. *)
(** [src/cmd/control-plane/main.go:50-53] main *)
Definition exit_code (stopped : option error) : Z :=
  match stopped with Some _ => 1 | None => 0 end.
End servers.

(** What [main] has built when it calls [RunHTTPServer]. *)
Record service (W B : Type) := MkService {
  sv_logger : Logger;
  sv_config : Server.HTTPServerConfig;
  sv_handler : Health.ServeHTTP W B }.
Arguments MkService {W B} _ _ _.
Arguments sv_logger {W B} _.
Arguments sv_config {W B} _.
Arguments sv_handler {W B} _.

(** * cmd/control-plane *)

(** [src/cmd/control-plane/main.go:74-79] stores *)
Record stores (W : Type) := MkStores {
  st_registry : ConfigRegistry.Store W;
  st_agents : AgentRegistry.Store W;
  st_rollouts : RolloutService.Store W;
  st_readiness : Health.Checker W }.
Arguments MkStores {W} _ _ _ _.
Arguments st_registry {W} _.
Arguments st_agents {W} _.
Arguments st_rollouts {W} _.
Arguments st_readiness {W} _.

(** How a loop over a ticker goes on: a tick, or the end of the process. *)
Inductive Wait := Tick | Done.

Section control_plane.
Context (os_Getenv : Environ) `{DurationParser, Prometheus.UrlParser, Prometheus.FloatParser,
  Prometheus.Timeouts, Codec Prometheus.prometheusResponse, Codec (list Prometheus.RawMessage),
  Codec (list Prometheus.prometheusVectorResult), Codec string}.
Context {W : Type} `{Env W, HttpClient W}.

(** [src/cmd/control-plane/main.go:56-72] configureGuardrails *)
Definition configureGuardrails (rollouts : RolloutService.Service W) : RolloutService.Service W :=
  let prometheusURL := os_Getenv "PROMETHEUS_URL" in
  if empty_str prometheusURL then rollouts
  else match Prometheus.NewPrometheusClient prometheusURL
               (EnvDuration os_Getenv "PROMETHEUS_QUERY_TIMEOUT" (2 * Second)) with
       | Err _ => rollouts
       | Ok client => RolloutService.SetGuardrailQueryer rollouts (Prometheus.Query (Some client))
       end.

Section openStores.
Context `{Has RegistryStore.MemoryStore W, Has AgentStore.MemoryStore W,
  Has RolloutStore.MemoryStore W, Has Conn W, Sql.Postgres, Codec (gmap string string),
  Codec (list string), Codec (list Guardrail.Rule), Codec (gmap string Z)}.
Context (connect : Context → string → M W unit).

(** [src/cmd/control-plane/main.go:85-90] openStores *)
Definition memory_stores : stores W :=
  MkStores RegistryStore.memory_store AgentStore.memory_store RolloutMemory.memory_store
    Health.StaticChecker.

(** [src/cmd/control-plane/main.go:103-108] openStores *)
Definition postgres_stores : stores W :=
  MkStores PostgresStores.registry_store PostgresStores.agents_store PostgresStores.rollouts_store
    (λ ctx, zoom (Postgres.Check ctx)).

(** [src/cmd/control-plane/main.go:81-109] openStores *)
Definition openStores (ctx : Context) : M W (option (stores W)) :=
  let databaseURL := os_Getenv "DATABASE_URL" in
  if empty_str databaseURL then mret (Some memory_stores)
  else
    let connectCtx := Prometheus.WithTimeout ctx (10 * Second) in
    connected ← try (connect connectCtx databaseURL);
    match connected with
    | Err _ => mret None
    | Ok _ => mret (Some postgres_stores)
    end.
End openStores.

(** The handler [main] builds over the stores. *)
(** [src/cmd/control-plane/main.go:40-49] main *)
Definition control_plane (validator : ConfigRegistry.SchemaValidator) : ControlPlane.Handler W :=
  ControlPlane.MkHandler W validator
    (Some (AgentRegistry.NewService (EnvString os_Getenv "AGENT_BOOTSTRAP_TOKEN" "dev-bootstrap-token")
             (EnvDuration os_Getenv "AGENT_CREDENTIAL_TTL" (15 * Minute))))
    (Some (configureGuardrails (RolloutService.NewService W))).

(** The loop of the reconciler over what wakes it; the error of a pass is
    logged. *)
(** [src/cmd/control-plane/main.go:117-131] startRolloutReconciler *)
Fixpoint reconciler (reconcile : Context → M W unit) (ctx : Context) (waits : list Wait) : M W unit :=
  match waits with
  | [] | Done :: _ => mret tt
  | Tick :: waits => try (reconcile ctx);; reconciler reconcile ctx waits
  end.

(** [src/cmd/control-plane/main.go:111-132] startRolloutReconciler *)
Definition startRolloutReconciler (reconcile : Context → M W unit) (ctx : Context)
    (waits : list Wait) : M W unit :=
  if EnvDuration os_Getenv "ROLLOUT_RECONCILE_INTERVAL" (2 * Second) <=? 0 then mret tt
  else reconciler reconcile ctx waits.

Section main.
Context `{ControlPlane.RequestDecoder ControlPlane.createTenantRequest,
  ControlPlane.RequestDecoder ControlPlane.createDefinitionRequest,
  ControlPlane.RequestDecoder ControlPlane.createVersionRequest,
  ControlPlane.RequestDecoder ControlPlane.setStableVersionRequest,
  ControlPlane.RequestDecoder ControlPlane.registerAgentRequest,
  ControlPlane.RequestDecoder ControlPlane.acknowledgementRequest,
  ControlPlane.RequestDecoder ControlPlane.createRolloutRequest}.
Context (validator : ConfigRegistry.SchemaValidator).
#[local] Existing Instances RolloutService.registry_service PlaneKeep.agent_source.

(** The interface over some stores. *)
(** [src/cmd/control-plane/main.go:40-49] main *)
Definition control_plane_handler (st : stores W) : Health.ServeHTTP W ControlPlane.Payload :=
  let registry_store := st_registry st in
  let agents_store := st_agents st in
  let rollouts_store := st_rollouts st in
  let h := control_plane validator in
  ControlPlane.NewHandlerWithServices (ControlPlane.h_registry h) (ControlPlane.h_agents h)
    (ControlPlane.h_rollouts h) (Some (st_readiness st)).

Context `{Has RegistryStore.MemoryStore W, Has AgentStore.MemoryStore W,
  Has RolloutStore.MemoryStore W, Has Conn W, Sql.Postgres, Codec (gmap string string),
  Codec (list string), Codec (list Guardrail.Rule), Codec (gmap string Z)}.
Context (connect : Context → string → M W unit).

(** The service [main] starts; [None] when its stores do not open. *)
(** [src/cmd/control-plane/main.go:22-54] main *)
Definition control_plane_main (ctx : Context) : M W (option (service W ControlPlane.Payload)) :=
  st ← openStores connect ctx;
  mret (st ← st;
        Some (MkService (New os_Getenv "control-plane") (control_plane_config os_Getenv)
                (control_plane_handler st))).
End main.
End control_plane.

(** * cmd/data-plane *)

Section data_plane.
Context (os_Getenv : Environ).

(** A nil map is empty. *)
(** [src/cmd/data-plane/main.go:74-81] agentTokens *)
Definition agentTokens : gmap string string :=
  let agentID := os_Getenv "DATA_PLANE_AGENT_ID" in
  let token := os_Getenv "DATA_PLANE_AGENT_TOKEN" in
  if empty_str agentID || empty_str token then ∅ else <[token := agentID]> ∅.

(** [src/cmd/data-plane/main.go:83-101] tenantFilter *)
Definition tenantFilter : list string :=
  let raw := os_Getenv "DATA_PLANE_TENANTS" in
  let raw := if empty_str raw then os_Getenv "DATA_PLANE_TENANT_ID" else raw in
  if empty_str raw then []
  else filter (λ tenant, tenant ≠ "") (TrimSpace <$> Split ","%char raw).

(** [src/cmd/data-plane/main.go:117-130] seedSnapshot *)
Definition seeded_snapshot (key raw : string) (now : Time) : DataPlane.Snapshot :=
  DataPlane.MkSnapshot 1 now
    [DataPlane.MkSnapshotItem (EnvString os_Getenv "DATA_PLANE_CONFIG_DEFINITION_ID" "cfg-dev") key
       (EnvString os_Getenv "DATA_PLANE_CONFIG_VERSION_ID" "ver-dev") 1 raw (DataPlane.Checksum raw)
       (DataPlane.MkAssignment "" "")].

Context {W : Type} `{Env W, Has DataPlane.MemorySnapshotStore W}.

(** [src/cmd/data-plane/main.go:103-131] seedSnapshot *)
Definition seedSnapshot : M W unit :=
  let agentID := os_Getenv "DATA_PLANE_AGENT_ID" in
  let key := os_Getenv "DATA_PLANE_CONFIG_KEY" in
  let value := os_Getenv "DATA_PLANE_CONFIG_VALUE" in
  if empty_str agentID || empty_str key || empty_str value then mret tt
  else if negb (Json.Valid value) then mret tt
  else
    now ← now;
    zoom (DataPlane.PutSnapshot agentID (seeded_snapshot key value now)).

Definition memory_snapshots : DataPlane.SnapshotStore W :=
  λ ctx agentID, store_call ctx (λ ctxErr, DataPlane.MemoryGetSnapshot ctxErr agentID).

Context `{Prometheus.Timeouts, ConfigRegistry.Store W, AgentRegistry.Store W,
  RolloutService.Store W}.
Context (connect : Context → string → M W unit).
#[local] Existing Instance DataPlane.registry_source.
#[local] Existing Instance DataPlane.agent_source.
#[local] Existing Instance DataPlane.rollout_source.

(** [src/cmd/data-plane/main.go:48-72] openDataPlaneDependencies *)
Definition openDataPlaneDependencies (ctx : Context)
    : M W (option (DataPlane.SnapshotStore W * DataPlane.CredentialVerifier W)) :=
  let databaseURL := os_Getenv "DATABASE_URL" in
  if empty_str databaseURL then
    seedSnapshot;;
    mret (Some (memory_snapshots, DataPlane.StaticCredentialVerifier agentTokens))
  else
    let connectCtx := Prometheus.WithTimeout ctx (10 * Second) in
    connected ← try (connect connectCtx databaseURL);
    match connected with
    | Err _ => mret None
    | Ok _ => mret (Some (DataPlane.GetSnapshot tenantFilter,
                          DataPlane.AgentCredentialVerifier AgentRegistry.Svc.Verify))
    end.

(** [src/cmd/data-plane/main.go:22-46] main *)
Definition data_plane_main `{DurationParser, Codec DataPlane.Snapshot} (ctx : Context)
    : M W (option (service W DataPlane.Payload)) :=
  deps ← openDataPlaneDependencies ctx;
  mret ('(store, verifier) ← deps;
        Some (MkService (New os_Getenv "data-plane") (data_plane_config os_Getenv)
                (DataPlane.NewHandler store verifier))).
End data_plane.

(** * cmd/agent *)

(** [src/cmd/agent/main.go:47-50] agentIdentity *)
Record agentIdentity := MkAgentIdentity { id_id : string; id_credential : string }.

Section agent.
Context (os_Getenv : Environ) (os_Hostname : res string) `{DurationParser}.
Context {W : Type} `{Env W, HttpClient W, Codec DataPlane.Snapshot, Codec Agent.RegisterInput,
  Codec Agent.registerResponse, Codec Agent.AckPayload, Has Agent.SnapshotCache W}.

(** [src/cmd/agent/main.go:118-124] hostname *)
Definition hostname : string :=
  match os_Hostname with
  | Err _ => "agent-local"
  | Ok name => if empty_str name then "agent-local" else name
  end.

(** [src/cmd/agent/main.go:52-56] loadCache *)
Definition loadCache (ctx : Context) (path : string) : M W unit :=
  loaded ← try (store_call ctx (Agent.Load path));
  match loaded with Err _ => mret tt | Ok _ => mret tt end.

(** [src/cmd/agent/main.go:107-116] registerAgent *)
Definition registerAgent (ctx : Context) (controlPlaneURL agentID : string)
    : M W Agent.RegisterResult :=
  Agent.Register controlPlaneURL ctx
    (Agent.MkRegisterInput (os_Getenv "AGENT_BOOTSTRAP_TOKEN") agentID
       (EnvString os_Getenv "AGENT_SERVICE" (EnvString os_Getenv "SERVICE_NAME" "payment-service"))
       (EnvString os_Getenv "AGENT_ENVIRONMENT" (EnvString os_Getenv "ENVIRONMENT" "production"))
       (os_Getenv "AGENT_ZONE") (EnvString os_Getenv "AGENT_INSTANCE" agentID) ∅).

(** [src/cmd/agent/main.go:58-75] resolveIdentity *)
Definition resolveIdentity (ctx : Context) (controlPlaneURL : string) : M W agentIdentity :=
  let identity := MkAgentIdentity (EnvString os_Getenv "AGENT_ID" hostname)
                    (os_Getenv "AGENT_INSTANCE_CREDENTIAL") in
  if negb (empty_str (id_credential identity)) || empty_str controlPlaneURL then mret identity
  else
    result ← try (registerAgent ctx controlPlaneURL (id_id identity));
    match result with
    | Err _ => mret identity
    | Ok result => mret (MkAgentIdentity (Agent.rg_AgentID result) (Agent.rg_InstanceCredential result))
    end.

(** [src/cmd/agent/main.go:100-105] acknowledger *)
Definition acknowledger (controlPlaneURL : string) : option (Agent.Acknowledger W) :=
  if empty_str controlPlaneURL then None else Some (Agent.Acknowledge controlPlaneURL).

(** The syncer whose loop runs, if one does. *)
(** [src/cmd/agent/main.go:77-98] startRemoteSync *)
Definition startRemoteSync (dataPlaneURL controlPlaneURL : string) (identity : agentIdentity)
    (path : string) : option (Agent.Syncer W) :=
  if empty_str dataPlaneURL || empty_str (id_id identity) || empty_str (id_credential identity)
  then None
  else Some (Agent.MkSyncer
    (Agent.MkSnapshotClient dataPlaneURL (id_id identity) (id_credential identity)) path
    (acknowledger controlPlaneURL) (EnvDuration os_Getenv "AGENT_POLL_INTERVAL" (2 * Second))).

(** [src/cmd/agent/main.go:32-38] main *)
Definition start_agent (ctx : Context) : M W (option (Agent.Syncer W)) :=
  let path := EnvString os_Getenv "AGENT_CACHE_PATH" "var/safeconfig/snapshot.json" in
  loadCache ctx path;;
  let dataPlaneURL := os_Getenv "DATA_PLANE_URL" in
  let controlPlaneURL := os_Getenv "CONTROL_PLANE_URL" in
  identity ← resolveIdentity ctx controlPlaneURL;
  mret (startRemoteSync dataPlaneURL controlPlaneURL identity path).

(** The service, and the sync loop next to it. *)
(** [src/cmd/agent/main.go:16-45] main *)
Definition agent_main (ctx : Context)
    : M W (service W Agent.AgentPayload * option (Agent.Syncer W)) :=
  syncer ← start_agent ctx;
  mret (MkService (New os_Getenv "agent") (agent_config os_Getenv) Agent.NewHandler, syncer).
End agent.

End Commands.
