(* ===== verification/ConfigCode.v ===== *)
(** [internal/configcode/manifest.go] and [validator.go]: manifests, their
    decoding from YAML, the files they are loaded from, and their validation.

    The YAML library is a parameter ([Yaml]), as are the answers of the file
    system ([FileTree]) and the JSON encoding of a decoded value. *)

From Stdlib Require Import ZArith Lia SpecFloat Ascii.
From S2P Require Import Prelude GoLib Domain Guardrail Registry Rollout FileSystem.
Open Scope string_scope.
Open Scope list_scope.
Open Scope Z_scope.

Module ConfigCode.

(** * manifest.go *)

(** [src/internal/configcode/manifest.go:13-13] APIVersion *)
Definition APIVersion : string := "safeconfig.dev/v1alpha1".

(** [src/internal/configcode/manifest.go:15-15] Kind *)
Definition Kind := string.
(** [src/internal/configcode/manifest.go:18-18] KindTenant *)
Definition KindTenant : Kind := "Tenant".
(** [src/internal/configcode/manifest.go:19-19] KindConfigDefinition *)
Definition KindConfigDefinition : Kind := "ConfigDefinition".
(** [src/internal/configcode/manifest.go:20-20] KindConfigVersion *)
Definition KindConfigVersion : Kind := "ConfigVersion".
(** [src/internal/configcode/manifest.go:21-21] KindStableVersion *)
Definition KindStableVersion : Kind := "StableVersion".
(** [src/internal/configcode/manifest.go:22-22] KindRollout *)
Definition KindRollout : Kind := "Rollout".

(** The five kinds, for a case analysis that follows the code's [switch]. *)
Inductive kind_case := IsTenant | IsConfigDefinition | IsConfigVersion | IsStableVersion
  | IsRollout | IsOther.
Definition kind_of (k : Kind) : kind_case :=
  if bool_decide (k = KindTenant) then IsTenant
  else if bool_decide (k = KindConfigDefinition) then IsConfigDefinition
  else if bool_decide (k = KindConfigVersion) then IsConfigVersion
  else if bool_decide (k = KindStableVersion) then IsStableVersion
  else if bool_decide (k = KindRollout) then IsRollout
  else IsOther.

(** A [RawJSON] is its bytes; a nil one is empty. *)
(** [src/internal/configcode/manifest.go:99-99] RawJSON *)
Definition RawJSON := string.

(** [src/internal/configcode/manifest.go:101-106] RawJSON.MarshalJSON *)
Definition RawJSON_MarshalJSON (r : RawJSON) : res string :=
  if empty_str r then mret "null" else mret r.

(** [src/internal/configcode/manifest.go:108-114] RawJSON.UnmarshalJSON *)
Definition RawJSON_UnmarshalJSON (data : string) : res RawJSON :=
  guard_err (negb (Json.Valid data)) (EText "invalid json" []);;
  mret data.

(** [src/internal/configcode/manifest.go:260-265] RawJSON.Valid *)
Definition RawJSON_Valid (r : RawJSON) : bool :=
  if empty_str r then false else Json.Valid r.

(** [src/internal/configcode/manifest.go:38-40] Metadata *)
Record Metadata := MkMetadata { md_Name : string }.

(** [src/internal/configcode/manifest.go:42-46] TenantSpec *)
Record TenantSpec := MkTenantSpec {
  ts_Name : string;
  ts_Description : string;
  ts_Owner : string }.

(** [src/internal/configcode/manifest.go:48-54] ConfigDefinitionSpec *)
Record ConfigDefinitionSpec := MkConfigDefinitionSpec {
  ds_Tenant : string;
  ds_Key : string;
  ds_Description : string;
  ds_Schema : RawJSON;
  ds_Default : RawJSON }.

(** [src/internal/configcode/manifest.go:56-62] ConfigVersionSpec *)
Record ConfigVersionSpec := MkConfigVersionSpec {
  vs_Tenant : string;
  vs_Key : string;
  vs_Value : RawJSON;
  vs_SourceCommitSHA : string;
  vs_CreatedBy : string }.

(** [src/internal/configcode/manifest.go:64-69] StableVersionSpec *)
Record StableVersionSpec := MkStableVersionSpec {
  sv_Tenant : string;
  sv_Key : string;
  sv_Environment : string;
  sv_VersionRef : string }.

(** [src/internal/configcode/manifest.go:85-89] RolloutStage *)
Record RolloutStage := MkRolloutStage {
  rs_ID : string;
  rs_Percentage : Z;
  rs_MinimumDurationSeconds : Z }.

(** [src/internal/configcode/manifest.go:91-97] GuardrailRule *)
Record GuardrailRule := MkGuardrailRule {
  gu_Name : string;
  gu_Query : string;
  gu_Operator : string;
  gu_Threshold : float64;
  gu_ConsecutiveFailures : Z }.

(** [src/internal/configcode/manifest.go:71-83] RolloutSpec *)
Record RolloutSpec := MkRolloutSpec {
  ro_Tenant : string;
  ro_Key : string;
  ro_Environment : string;
  ro_CandidateVersionRef : string;
  ro_TargetServices : list string;
  ro_Stages : list RolloutStage;
  ro_Guardrails : list GuardrailRule;
  ro_RequiredAckPercentage : float64;
  ro_DeploymentTimeoutSeconds : Z;
  ro_RolloutMaxDurationSeconds : Z;
  ro_RollbackTimeoutSeconds : Z }.

(** [src/internal/configcode/manifest.go:25-36] Manifest *)
Record Manifest := MkManifest {
  m_APIVersion : string;
  m_Kind : Kind;
  m_Metadata : Metadata;
  m_Spec : RawJSON;
  m_Tenant : TenantSpec;
  m_ConfigDefinition : ConfigDefinitionSpec;
  m_ConfigVersion : ConfigVersionSpec;
  m_StableVersion : StableVersionSpec;
  m_Rollout : RolloutSpec }.
Definition m_Name (m : Manifest) : string := md_Name (m_Metadata m).

(** The zero values. *)
Definition zero_TenantSpec := MkTenantSpec "" "" "".
Definition zero_DefinitionSpec := MkConfigDefinitionSpec "" "" "" "" "".
Definition zero_VersionSpec := MkConfigVersionSpec "" "" "" "" "".
Definition zero_StableSpec := MkStableVersionSpec "" "" "" "".
Definition zero_RolloutSpec := MkRolloutSpec "" "" "" "" [] [] [] f_zero 0 0 0.
Definition zero_Manifest : Manifest :=
  MkManifest "" "" (MkMetadata "") "" zero_TenantSpec zero_DefinitionSpec zero_VersionSpec
    zero_StableSpec zero_RolloutSpec.

(** ** Values decoded into [any] *)

(** A scalar with the text [fmt.Sprint] prints for it.  The entries of a map
    are listed in the order of an iteration over it. *)
Inductive Any :=
| AScalar (printed : string)
| ASlice (items : list Any)
| AMapAny (entries : list (Any * Any))
| AMapString (entries : list (string * Any)).

(** [result[key] = value] on a map listed with its entries. *)
Fixpoint entry_set (key : string) (value : Any) (entries : list (string * Any))
    : list (string * Any) :=
  match entries with
  | [] => [(key, value)]
  | (k, v) :: rest =>
      if bool_decide (k = key) then (key, value) :: rest else (k, v) :: entry_set key value rest
  end.

Section Normalize.
Context (Sprint : Any → string).

(** [src/internal/configcode/manifest.go:235-258] normalizeYAML *)
Fixpoint normalizeYAML (value : Any) : Any :=
  match value with
  | AMapAny typed =>
      AMapString (fold_left (λ result '(key, val), entry_set (Sprint key) val result)
                    (map (λ '(key, val), (key, normalizeYAML val)) typed) [])
  | AMapString typed =>
      AMapString (fold_left (λ result '(key, val), entry_set key val result)
                    (map (λ '(key, val), (key, normalizeYAML val)) typed) [])
  | ASlice typed => ASlice (map normalizeYAML typed)
  | AScalar _ => value
  end.
End Normalize.

(** ** The YAML library *)

(** [src/internal/configcode/manifest.go:131-135] Manifest.UnmarshalYAML *)
Record header := MkHeader {
  hd_APIVersion : string;
  hd_Kind : Kind;
  hd_Metadata : Metadata }.

(** [gopkg.in/yaml.v3] as the code calls it: a [yaml.Node], [Node.Decode] at
    each type, and the documents of a text with the error that ends them, if
    it is not the end of the file.  A null document has no node: it leaves the
    target as it is.  [yaml_report] is how [Decode] reports an error of an
    [UnmarshalYAML] method.  [any_Marshal] is [json.Marshal] of a decoded
    value, [json_any] is [json.Unmarshal] into [any]. *)
Class Yaml := {
  Node : Type;
  node_Value : Node → string;
  node_Content : Node → list Node;
  decode_header : Node → res header;
  decode_any : Node → res Any;
  decode_TenantSpec : Node → res TenantSpec;
  decode_ConfigDefinitionSpec : Node → res ConfigDefinitionSpec;
  decode_ConfigVersionSpec : Node → res ConfigVersionSpec;
  decode_StableVersionSpec : Node → res StableVersionSpec;
  decode_RolloutSpec : Node → res RolloutSpec;
  yaml_documents : string → list (option Node) * option error;
  yaml_report : error → error;
  Sprint : Any → string;
  any_Marshal : Any → res string }.

(** [json.Unmarshal] into [any], and [reflect.DeepEqual] of two results. *)
Class JsonAny := {
  json_any : Type;
  json_any_eq : EqDecision json_any;
  json_Unmarshal_any : string → res json_any }.
#[export] Existing Instance json_any_eq.

(** [src/internal/configcode/manifest.go:267-277] RawJSON.EqualJSON *)
Definition EqualJSON `{JsonAny} (r other : RawJSON) : bool :=
  match json_Unmarshal_any r with
  | Err _ => bool_decide (TrimSpace r = TrimSpace other)
  | Ok a =>
      match json_Unmarshal_any other with
      | Err _ => bool_decide (TrimSpace r = TrimSpace other)
      | Ok b => bool_decide (a = b)
      end
  end.

Section Decode.
Context `{Yaml}.

(** [src/internal/configcode/manifest.go:223-233] yamlNodeToJSON *)
Definition yamlNodeToJSON (node : Node) : res RawJSON :=
  decoded ← decode_any node;
  any_Marshal (normalizeYAML Sprint decoded).

(** [src/internal/configcode/manifest.go:116-128] RawJSON.UnmarshalYAML *)
Definition RawJSON_UnmarshalYAML (value : Node) : res RawJSON :=
  decoded ← decode_any value;
  let normalized := normalizeYAML Sprint decoded in
  data ← any_Marshal normalized;
  mret data.

(** The value of the first ["spec"] key of a mapping. *)
(** [src/internal/configcode/manifest.go:141-147] Manifest.UnmarshalYAML *)
Fixpoint find_spec (content : list Node) : option Node :=
  match content with
  | key :: value :: rest => if bool_decide (node_Value key = "spec") then Some value else find_spec rest
  | _ => None
  end.

(** [src/internal/configcode/manifest.go:152-192] Manifest.UnmarshalYAML *)
Definition decode_spec (h : header) (specNode : Node) : res (RawJSON → Manifest) :=
  let manifest t d v s r := λ raw,
    MkManifest (hd_APIVersion h) (hd_Kind h) (hd_Metadata h) raw t d v s r in
  match kind_of (hd_Kind h) with
  | IsTenant =>
      spec ← decode_TenantSpec specNode;
      mret (manifest spec zero_DefinitionSpec zero_VersionSpec zero_StableSpec zero_RolloutSpec)
  | IsConfigDefinition =>
      spec ← decode_ConfigDefinitionSpec specNode;
      mret (manifest zero_TenantSpec spec zero_VersionSpec zero_StableSpec zero_RolloutSpec)
  | IsConfigVersion =>
      spec ← decode_ConfigVersionSpec specNode;
      mret (manifest zero_TenantSpec zero_DefinitionSpec spec zero_StableSpec zero_RolloutSpec)
  | IsStableVersion =>
      spec ← decode_StableVersionSpec specNode;
      mret (manifest zero_TenantSpec zero_DefinitionSpec zero_VersionSpec spec zero_RolloutSpec)
  | IsRollout =>
      spec ← decode_RolloutSpec specNode;
      mret (manifest zero_TenantSpec zero_DefinitionSpec zero_VersionSpec zero_StableSpec spec)
  | IsOther =>
      decode_any specNode;;
      mret (manifest zero_TenantSpec zero_DefinitionSpec zero_VersionSpec zero_StableSpec
              zero_RolloutSpec)
  end.

(** [src/internal/configcode/manifest.go:130-200] Manifest.UnmarshalYAML *)
Definition Manifest_UnmarshalYAML (value : Node) : res Manifest :=
  h ← decode_header value;
  match find_spec (node_Content value) with
  | None => mthrow (EText "spec is required" [])
  | Some specNode =>
      m ← decode_spec h specNode;
      rawSpec ← yamlNodeToJSON specNode;
      mret (m rawSpec)
  end.

(** [src/internal/configcode/manifest.go:215-217] DecodeManifests *)
Definition empty_manifest (m : Manifest) : bool :=
  empty_str (m_APIVersion m) && empty_str (m_Kind m) && empty_str (m_Name m) && empty_str (m_Spec m).

(** [src/internal/configcode/manifest.go:207-220] DecodeManifests *)
Fixpoint decode_documents (documents : list (option Node)) : res (list Manifest) :=
  match documents with
  | [] => mret []
  | document :: rest =>
      manifest ← (match document with
                  | None => mret zero_Manifest
                  | Some node =>
                      match Manifest_UnmarshalYAML node with
                      | Err err => mthrow (yaml_report err)
                      | Ok m => mret m
                      end
                  end);
      manifests ← decode_documents rest;
      mret (if empty_manifest manifest then manifests else manifest :: manifests)
  end.

(** [src/internal/configcode/manifest.go:202-221] DecodeManifests *)
Definition DecodeManifests (text : string) : res (list Manifest) :=
  let '(documents, failure) := yaml_documents text in
  manifests ← decode_documents documents;
  match failure with Some err => mthrow err | None => mret manifests end.

End Decode.

(** * validator.go *)

(** [src/internal/configcode/validator.go:17-21] Diagnostic *)
Record Diagnostic := MkDiagnostic {
  dg_Path : string;
  dg_Document : Z;
  dg_Message : string }.

(** [src/internal/configcode/validator.go:23-28] Diagnostic.String *)
Definition Diagnostic_String (d : Diagnostic) : string :=
  if 0 <? dg_Document d
  then sprintf "%s document %d: %s" [dg_Path d; pretty (dg_Document d); dg_Message d]
  else sprintf "%s: %s" [dg_Path d; dg_Message d].

(** [src/internal/configcode/validator.go:30-34] Report *)
Record Report := MkReport {
  rp_Files : Z;
  rp_Manifests : Z;
  rp_Errors : list Diagnostic }.

(** [src/internal/configcode/validator.go:36-38] Report.OK *)
Definition Report_OK (r : Report) : bool := Nat.eqb (length (rp_Errors r)) 0.

(** [src/internal/configcode/validator.go:217-221] ManifestDocument *)
Record ManifestDocument := MkManifestDocument {
  mo_Path : string;
  mo_Document : Z;
  mo_Manifest : Manifest }.

(** [src/internal/configcode/validator.go:342-344] configKey *)
Definition configKey (tenant key : string) : string := tenant +:+ "/" +:+ key.

(** [src/internal/configcode/validator.go:211-215] validationState *)
Record validationState := MkValidationState {
  vt_definitions : gmap string ConfigDefinitionSpec;
  vt_versionRefs : gmap string ConfigVersionSpec;
  vt_versionNameCounts : gmap string Z }.

(** [src/internal/configcode/validator.go:230-242] buildValidationState *)
Definition add_document (state : validationState) (document : ManifestDocument)
    : validationState :=
  let m := mo_Manifest document in
  match kind_of (m_Kind m) with
  | IsConfigDefinition =>
      let spec := m_ConfigDefinition m in
      if negb (blank (ds_Tenant spec)) && negb (blank (ds_Key spec))
         && negb (empty_str (ds_Schema spec))
      then MkValidationState (<[configKey (ds_Tenant spec) (ds_Key spec) := spec]> (vt_definitions state))
             (vt_versionRefs state) (vt_versionNameCounts state)
      else state
  | IsConfigVersion =>
      let spec := m_ConfigVersion m in
      let counts := <[m_Name m := default 0 (vt_versionNameCounts state !! m_Name m) + 1]>
                      (vt_versionNameCounts state) in
      MkValidationState (vt_definitions state)
        (if negb (blank (vs_Tenant spec)) && negb (blank (vs_Key spec))
         then <[m_Name m := spec]> (vt_versionRefs state) else vt_versionRefs state)
        counts
  | _ => state
  end.

(** [src/internal/configcode/validator.go:223-245] buildValidationState *)
Definition buildValidationState (documents : list ManifestDocument) : validationState :=
  fold_left add_document documents (MkValidationState ∅ ∅ ∅).

(** [if cond { add(format, args...) }]: the message it adds, if any. *)
Definition add_if (cond : bool) (format : string) (args : list string) : list string :=
  if cond then [sprintf format args] else [].
(** [if err := ...; err != nil { add(format, args..., err) }]. *)
Definition add_err {A} (r : res A) (format : string) (args : list string) : list string :=
  match r with Err err => [sprintf format (args ++ [Error err])] | Ok _ => [] end.

(** [src/internal/configcode/validator.go:247-257] validateTenantKeyEnvironment *)
Definition validateTenantKeyEnvironment (tenant key environment : string) : list string :=
  add_if (blank tenant) "spec.tenant is required" []
  ++ add_if (blank key) "spec.key is required" []
  ++ add_err (Domain.Environment_Validate environment) "spec.environment is invalid: %v" [].

Section Validate.
Context (validator : ConfigRegistry.SchemaValidator) (state : validationState).

(** [src/internal/configcode/validator.go:82-87] Validator.validateManifest *)
Definition validate_tenant (m : Manifest) : list string :=
  if blank (m_Name m) then []
  else add_if (blank (ts_Name (m_Tenant m))) "spec.name is required" [].

(** [src/internal/configcode/validator.go:89-110] Validator.validateManifest *)
Definition validate_definition (m : Manifest) : list string :=
  let spec := m_ConfigDefinition m in
  add_if (blank (ds_Tenant spec)) "spec.tenant is required" []
  ++ add_if (blank (ds_Key spec)) "spec.key is required" []
  ++ (if empty_str (ds_Schema spec) then add_if true "spec.schema is required" []
      else
        add_err (ConfigRegistry.ValidateSchema validator (ds_Schema spec))
          "spec.schema is invalid: %v" []
        ++ (if empty_str (ds_Default spec) then []
            else if negb (RawJSON_Valid (ds_Default spec))
            then add_if true "spec.default must be valid JSON-compatible YAML" []
            else add_err (ConfigRegistry.ValidateValue validator (ds_Schema spec) (ds_Default spec))
                   "spec.default does not match spec.schema: %v" [])).

(** [src/internal/configcode/validator.go:112-137] Validator.validateManifest *)
Definition validate_version (m : Manifest) : list string :=
  let spec := m_ConfigVersion m in
  let definition := vt_definitions state !! configKey (vs_Tenant spec) (vs_Key spec) in
  add_if (1 <? default 0 (vt_versionNameCounts state !! m_Name m))
    "ConfigVersion metadata.name %q must be unique" [m_Name m]
  ++ add_if (blank (vs_Tenant spec)) "spec.tenant is required" []
  ++ add_if (blank (vs_Key spec)) "spec.key is required" []
  ++ add_if (negb (bool_decide (is_Some definition)))
       "matching ConfigDefinition for %s/%s is required" [vs_Tenant spec; vs_Key spec]
  ++ (if empty_str (vs_Value spec) then add_if true "spec.value is required" []
      else
        add_if (negb (RawJSON_Valid (vs_Value spec)))
          "spec.value must be valid JSON-compatible YAML" []
        ++ match definition with
           | Some d =>
               if RawJSON_Valid (vs_Value spec)
               then add_err (ConfigRegistry.ValidateValue validator (ds_Schema d) (vs_Value spec))
                      "spec.value does not match matching ConfigDefinition schema: %v" []
               else []
           | None => []
           end).

(** [spec.versionRef] and [spec.candidateVersionRef] are checked alike. *)
(** [src/internal/configcode/validator.go:151-157] Validator.validateManifest *)
Definition validate_ref (field ref tenant key : string) : list string :=
  if blank ref then [field +:+ " is required"]
  else match vt_versionRefs state !! ref with
       | None => add_if true (field +:+ " %q does not match a ConfigVersion metadata.name") [ref]
       | Some version =>
           add_if (negb (bool_decide (vs_Tenant version = tenant))
                   || negb (bool_decide (vs_Key version = key)))
             (field +:+ " %q points to %s/%s, not %s/%s")
             [ref; vs_Tenant version; vs_Key version; tenant; key]
       end.

(** [src/internal/configcode/validator.go:138-147] Validator.validateManifest *)
Definition validate_stable (m : Manifest) : list string :=
  let spec := m_StableVersion m in
  validateTenantKeyEnvironment (sv_Tenant spec) (sv_Key spec) (sv_Environment spec)
  ++ validate_ref "spec.versionRef" (sv_VersionRef spec) (sv_Tenant spec) (sv_Key spec).

(** [src/internal/configcode/validator.go:158-169] Validator.validateManifest *)
Definition validate_stages (stages : list RolloutStage) : list string :=
  if Nat.eqb (length stages) 0 then []
  else
    flat_map (λ stage, add_if (rs_MinimumDurationSeconds stage <? 0)
                         "stage %q minimumDurationSeconds cannot be negative" [rs_ID stage]) stages
    ++ add_err (Rollout.ValidateStagePlan
                  ((λ stage, Rollout.MkStage (rs_ID stage) (rs_Percentage stage) 0) <$> stages))
         "spec.stages is invalid: %v" [].

(** [src/internal/configcode/validator.go:174-180] Validator.validateManifest *)
Definition guardrail_rule (rule : GuardrailRule) : Guardrail.Rule :=
  Guardrail.MkRule (gu_Name rule) (gu_Query rule) (gu_Operator rule) (gu_Threshold rule)
    (gu_ConsecutiveFailures rule).

(** [src/internal/configcode/validator.go:170-184] Validator.validateManifest *)
Definition validate_guardrail (rule : GuardrailRule) : list string :=
  add_if (blank (gu_Query rule)) "guardrail %q query is required" [gu_Name rule]
  ++ add_err (Guardrail.Rule_Validate (guardrail_rule rule)) "guardrail %q is invalid: %v"
       [gu_Name rule].

(** [src/internal/configcode/validator.go:148-196] Validator.validateManifest *)
Definition validate_rollout (m : Manifest) : list string :=
  let spec := m_Rollout m in
  validateTenantKeyEnvironment (ro_Tenant spec) (ro_Key spec) (ro_Environment spec)
  ++ validate_ref "spec.candidateVersionRef" (ro_CandidateVersionRef spec) (ro_Tenant spec) (ro_Key spec)
  ++ validate_stages (ro_Stages spec)
  ++ flat_map validate_guardrail (ro_Guardrails spec)
  ++ add_if (f_lt (ro_RequiredAckPercentage spec) f_zero
             || f_lt (f_of_int 100) (ro_RequiredAckPercentage spec))
       "spec.requiredAckPercentage must be between 0 and 100" []
  ++ add_if (ro_DeploymentTimeoutSeconds spec <? 0)
       "spec.deploymentTimeoutSeconds cannot be negative" []
  ++ add_if (ro_RolloutMaxDurationSeconds spec <? 0)
       "spec.rolloutMaxDurationSeconds cannot be negative" []
  ++ add_if (ro_RollbackTimeoutSeconds spec <? 0)
       "spec.rollbackTimeoutSeconds cannot be negative" [].

(** [src/internal/configcode/validator.go:73-201] Validator.validateManifest *)
Definition manifest_messages (m : Manifest) : list string :=
  add_if (negb (bool_decide (m_APIVersion m = APIVersion))) "apiVersion must be %q" [APIVersion]
  ++ add_if (blank (m_Name m)) "metadata.name is required" []
  ++ match kind_of (m_Kind m) with
     | IsTenant => validate_tenant m
     | IsConfigDefinition => validate_definition m
     | IsConfigVersion => validate_version m
     | IsStableVersion => validate_stable m
     | IsRollout => validate_rollout m
     | IsOther =>
         add_if true
           "kind must be one of Tenant, ConfigDefinition, ConfigVersion, StableVersion, Rollout" []
     end.

(** [src/internal/configcode/validator.go:63-72] Validator.validateManifest *)
Definition validateManifest (path : string) (document : Z) (manifest : Manifest) : list Diagnostic :=
  MkDiagnostic path document <$> manifest_messages manifest.

End Validate.

(** ** Files *)

(** The answers of the operating system: [os.Stat] (whether the path is a
    directory), the files and directories [filepath.WalkDir] visits, each with
    the error of reading it, and [os.ReadFile]. *)
Record FileTree := MkFileTree {
  ft_Stat : string → res bool;
  ft_WalkDir : string → list (string * res bool);
  ft_ReadFile : string → res string }.

(** [strings.ToLower] agrees with the ASCII one here: no other letter has [y],
    [a], [m] or [l] as its lower case. *)
(** [src/internal/configcode/validator.go:337-340] isYAML *)
Definition isYAML (path : string) : bool :=
  let ext := lower (FileSystem.Ext path) in
  bool_decide (ext = ".yaml") || bool_decide (ext = ".yml").

(** [sort.Strings]. *)
Definition sort_strings (l : list string) : list string := SortFunc String.leb l.

Section Load.
Context `{Yaml} (tree : FileTree).

(** [src/internal/configcode/validator.go:326-335] readManifestFile *)
Definition readManifestFile (path : string) : res (list Manifest) :=
  data ← ft_ReadFile tree path;
  if blank data then mret [] else DecodeManifests data.

(** The callback of [WalkDir] never returns an error, so that the walk does
    not stop before its end. *)
(** [src/internal/configcode/validator.go:302-314] collectManifestFiles *)
Definition visit (acc : list string * list Diagnostic) (entry : string * res bool)
    : list string * list Diagnostic :=
  let '(files, diagnostics) := acc in
  let '(file, isDir) := entry in
  match isDir with
  | Err err => (files, diagnostics ++ [MkDiagnostic file 0 (Error err)])
  | Ok true => (files, diagnostics)
  | Ok false => (if isYAML file then files ++ [file] else files, diagnostics)
  end.

(** [src/internal/configcode/validator.go:290-318] collectManifestFiles *)
Definition collect_path (acc : list string * list Diagnostic) (path : string)
    : list string * list Diagnostic :=
  let '(files, diagnostics) := acc in
  match ft_Stat tree path with
  | Err err => (files, diagnostics ++ [MkDiagnostic path 0 (Error err)])
  | Ok false => (if isYAML path then files ++ [path] else files, diagnostics)
  | Ok true => fold_left visit (ft_WalkDir tree path) acc
  end.

(** [src/internal/configcode/validator.go:283-324] collectManifestFiles *)
Definition collectManifestFiles (paths : list string) : list string * list Diagnostic :=
  let paths := if Nat.eqb (length paths) 0 then ["config"] else paths in
  let '(files, diagnostics) := fold_left collect_path paths ([], []) in
  (sort_strings files,
   if Nat.eqb (length files) 0 && Nat.eqb (length diagnostics) 0
   then [MkDiagnostic (String.concat "," paths) 0 "no YAML manifest files found"]
   else diagnostics).

(** [src/internal/configcode/validator.go:272-278] LoadManifestDocuments *)
Definition number_documents (file : string) (manifests : list Manifest) : list ManifestDocument :=
  imap (λ i manifest, MkManifestDocument file (Z.of_nat i + 1) manifest) manifests.

(** [src/internal/configcode/validator.go:266-279] LoadManifestDocuments *)
Definition load_file (acc : list ManifestDocument * list Diagnostic) (file : string)
    : list ManifestDocument * list Diagnostic :=
  let '(documents, diagnostics) := acc in
  match readManifestFile file with
  | Err err => (documents, diagnostics ++ [MkDiagnostic file 0 (Error err)])
  | Ok manifests => (documents ++ number_documents file manifests, diagnostics)
  end.

(** [src/internal/configcode/validator.go:259-281] LoadManifestDocuments *)
Definition LoadManifestDocuments (paths : list string)
    : list ManifestDocument * list string * list Diagnostic :=
  let '(files, diagnostics) := collectManifestFiles paths in
  if negb (Nat.eqb (length diagnostics) 0) then ([], files, diagnostics)
  else
    let '(documents, diagnostics) := fold_left load_file files ([], []) in
    (documents, files, diagnostics).

(** The validator of the value, or the JSON Schema one. *)
(** [src/internal/configcode/validator.go:204-209] Validator.schemaValidator *)
Definition schemaValidator `{ConfigRegistry.JSONSchemaLibrary}
    (validator : option ConfigRegistry.SchemaValidator) : ConfigRegistry.SchemaValidator :=
  default ConfigRegistry.JSONSchemaValidator validator.

(** [src/internal/configcode/validator.go:56-59] Validator.ValidatePaths *)
Definition validate_documents (validator : ConfigRegistry.SchemaValidator)
    (documents : list ManifestDocument) : list Diagnostic :=
  let state := buildValidationState documents in
  flat_map (λ document,
    validateManifest validator state (mo_Path document) (mo_Document document)
      (mo_Manifest document)) documents.

(** [src/internal/configcode/validator.go:44-61] Validator.ValidatePaths *)
Definition ValidatePaths (validator : ConfigRegistry.SchemaValidator) (paths : list string) : Report :=
  let '(documents, files, diagnostics) := LoadManifestDocuments paths in
  if negb (Nat.eqb (length diagnostics) 0)
  then MkReport (Z.of_nat (length files)) 0 diagnostics
  else MkReport (Z.of_nat (length files)) (Z.of_nat (length documents))
         (diagnostics ++ validate_documents validator documents).

End Load.

End ConfigCode.
