(* ===== verification/ConfigApply.v ===== *)
(** [internal/configcode/apply.go]: applying manifests to a control plane over
    HTTP, the two commands of [cmd/cfgctl], and its command line ([Cfgctl]).

    The network is [HttpClient]; the JSON decoders and encoders of the bodies
    are parameters.  The code returns a step together with an error: [Outcome]
    is that pair. *)

From Stdlib Require Import ZArith Lia SpecFloat Ascii.
From S2P Require Import Prelude GoLib Host Http Format Mux Domain Registry ConfigCode.
Import ConfigCode.
Open Scope string_scope.
Open Scope list_scope.
Open Scope Z_scope.

Module ConfigApply.

(** * Options and reports *)

(** The HTTP client is the one of the world. *)
(** [src/internal/configcode/apply.go:15-21] ApplyOptions *)
Record ApplyOptions := MkApplyOptions {
  ao_BaseURL : string;
  ao_Token : string;
  ao_DryRun : bool;
  ao_IncludeRollouts : bool }.

(** [src/internal/configcode/apply.go:27-33] ApplyStep *)
Record ApplyStep := MkApplyStep {
  sp_Kind : Kind;
  sp_Name : string;
  sp_Action : string;
  sp_Status : string;
  sp_Message : string }.
Definition zero_ApplyStep : ApplyStep := MkApplyStep "" "" "" "" "".

(** [src/internal/configcode/apply.go:23-25] ApplyReport *)
Record ApplyReport := MkApplyReport { ar_Steps : list ApplyStep }.

(** * Bodies *)

(** [src/internal/configcode/apply.go:393-398] createTenantRequest *)
Record createTenantRequest := MkCreateTenantRequest {
  tq_ID : string; tq_Name : string; tq_Description : string; tq_Owner : string }.

(** [src/internal/configcode/apply.go:400-405] createDefinitionRequest *)
Record createDefinitionRequest := MkCreateDefinitionRequest {
  dq_Key : string; dq_Description : string; dq_Schema : RawJSON; dq_Default : RawJSON }.

(** [src/internal/configcode/apply.go:407-411] createVersionRequest *)
Record createVersionRequest := MkCreateVersionRequest {
  vq_Value : RawJSON; vq_SourceCommitSHA : string; vq_CreatedBy : string }.

(** [src/internal/configcode/apply.go:413-415] setStableVersionRequest *)
Record setStableVersionRequest := MkSetStableVersionRequest { sq_VersionNumber : Z }.

(** [src/internal/configcode/apply.go:417-429] createRolloutRequest *)
Record createRolloutRequest := MkCreateRolloutRequest {
  cq_TenantID : string;
  cq_Key : string;
  cq_Environment : string;
  cq_CandidateVersion : Z;
  cq_TargetServices : list string;
  cq_Stages : list RolloutStage;
  cq_Guardrails : list GuardrailRule;
  cq_RequiredAckPercentage : float64;
  cq_DeploymentTimeoutSeconds : Z;
  cq_RolloutMaxDurationSeconds : Z;
  cq_RollbackTimeoutSeconds : Z }.

(** [src/internal/configcode/apply.go:431-433] tenantResponse *)
Record tenantResponse := MkTenantResponse { tr_ID : string }.

(** [src/internal/configcode/apply.go:435-438] definitionResponse *)
Record definitionResponse := MkDefinitionResponse {
  dr_Schema : RawJSON; dr_DefaultValue : RawJSON }.

(** [src/internal/configcode/apply.go:440-444] versionResponse *)
Record versionResponse := MkVersionResponse {
  vr_ID : string; vr_VersionNumber : Z; vr_Value : RawJSON }.

(** [src/internal/configcode/apply.go:446-448] environmentStateResponse *)
Record environmentStateResponse := MkEnvironmentStateResponse { er_StableVersionID : string }.

(** [json.NewDecoder(..).Decode] and [json.Marshal] at a type. *)
Class Decoder (T : Type) := json_Decode : string → res T.
Class Encoder (T : Type) := json_Encode : T → res string.

(** The versions of the manifests applied so far, by their names. *)
(** [src/internal/configcode/apply.go:39-41] applyState *)
Definition applyState := gmap string versionResponse.

(** * Planning *)

(** [src/internal/configcode/apply.go:364-373] plannedAction *)
Definition plannedAction (kind : Kind) : string :=
  match kind_of kind with
  | IsStableVersion => "set"
  | IsRollout => "start"
  | _ => "create"
  end.

(** [src/internal/configcode/apply.go:354-354] orderDocuments *)
Definition apply_order : list Kind :=
  [KindTenant; KindConfigDefinition; KindConfigVersion; KindStableVersion; KindRollout].

(** [src/internal/configcode/apply.go:352-362] orderDocuments *)
Definition orderDocuments (documents : list ManifestDocument) : list ManifestDocument :=
  flat_map (λ kind, filter (λ document, m_Kind (mo_Manifest document) = kind) documents) apply_order.

(** [src/internal/configcode/apply.go:379-381] escape *)
Definition escape (value : string) : string := Mux.PathEscape value.

(** [src/internal/configcode/apply.go:140-140] applyDefinition *)
Definition configPath (tenant key : string) : string :=
  "/v1/tenants/" +:+ escape tenant +:+ "/configs/" +:+ escape key.

(** [src/internal/configcode/apply.go:375-377] stablePath *)
Definition stablePath (tenant key environment : string) : string :=
  "/v1/tenants/" +:+ escape tenant +:+ "/configs/" +:+ escape key +:+ "/environments/"
  +:+ escape environment +:+ "/stable".

(** [src/internal/configcode/apply.go:385-391] diagnosticsError.Error *)
Definition diagnosticsError (diagnostics : list Diagnostic) : error :=
  EText (String.concat (String (ascii_of_N 10) "") (Diagnostic_String <$> diagnostics)) [].

(** * The client *)

Definition Outcome : Type := ApplyStep * option error.

Section Apply.
Context {W : Type} `{HttpClient W, JsonAny}.
Context `{Decoder tenantResponse, Decoder definitionResponse, Decoder versionResponse,
  Decoder (list versionResponse), Decoder environmentStateResponse}.
Context `{Encoder createTenantRequest, Encoder createDefinitionRequest,
  Encoder createVersionRequest, Encoder setStableVersionRequest, Encoder createRolloutRequest}.
Context (a : ApplyOptions).

(** [src/internal/configcode/apply.go:342-344] Applier.url *)
Definition url (path : string) : string := TrimRight_slash (ao_BaseURL a) +:+ path.

(** [src/internal/configcode/apply.go:346-350] Applier.authorize *)
Definition authorize (headers : gmap string string) : gmap string string :=
  if negb (blank (ao_Token a)) then <["Authorization" := "Bearer " +:+ ao_Token a]> headers
  else headers.

(** [src/internal/configcode/apply.go:277-281] Applier.get *)
Definition get_request (path : string) : HttpRequest :=
  MkHttpRequest "GET" (url path) (authorize ∅) "".

(** [src/internal/configcode/apply.go:304-309] Applier.post *)
Definition post_request (path body : string) : HttpRequest :=
  MkHttpRequest "POST" (url path) (authorize (<["Content-Type" := "application/json"]> ∅)) body.

(** [dst] is the zero value the caller declares; it is returned unless the
    status is 200. *)
(** [src/internal/configcode/apply.go:276-297] Applier.get *)
Definition get {T} `{Decoder T} (dst : T) (ctx : Context) (path : string) : M W (Z * T) :=
  resp ← http_Do ctx (get_request path);
  if hp_StatusCode resp =? StatusOK then
    body ← lift (hp_Body resp);
    dst ← lift (json_Decode body);
    mret (hp_StatusCode resp, dst)
  else
    lift (hp_Body resp);;
    mret (hp_StatusCode resp, dst).

(** The body of the answer, if its status is the expected one. *)
(** [src/internal/configcode/apply.go:299-333] Applier.post *)
Definition post {T} `{Encoder T} (ctx : Context) (path : string) (payload : T)
    (expectedStatus : Z) : M W string :=
  body ← lift (json_Encode payload);
  resp ← http_Do ctx (post_request path body);
  if negb (hp_StatusCode resp =? expectedStatus) then
    body ← lift (hp_Body resp);
    mthrow (EText "POST %s returned status %d: %s"
              [path; pretty (hp_StatusCode resp); TrimSpace (String.substring 0 2048 body)])
  else lift (hp_Body resp).

Definition bad_status {A} (format : string) (args : list string) (status : Z) : M W A :=
  mthrow (EText (format +:+ " returned status %d") (args ++ [pretty status])).

Definition start_step (manifest : Manifest) (action : string) : ApplyStep :=
  MkApplyStep (m_Kind manifest) (m_Name manifest) action "" "".
Definition finish (step : ApplyStep) (status message : string) : ApplyStep :=
  MkApplyStep (sp_Kind step) (sp_Name step) (sp_Action step) status message.

(** [return step, err] or the finished step. *)
Definition outcome (step : ApplyStep) (m : M W ApplyStep) : M W Outcome :=
  result ← try m;
  mret match result with Ok done => (done, None) | Err err => (step, Some err) end.

(** [src/internal/configcode/apply.go:105-134] Applier.applyTenant *)
Definition applyTenant (ctx : Context) (manifest : Manifest) : M W Outcome :=
  let name := m_Name manifest in
  let step := start_step manifest "create" in
  outcome step (
    found ← get (MkTenantResponse "") ctx ("/v1/tenants/" +:+ escape name);
    let '(status, _) := found in
    if status =? StatusOK then mret (finish step "skipped" "tenant already exists")
    else if negb (status =? StatusNotFound) then bad_status "get tenant %q" [name] status
    else
      let spec := m_Tenant manifest in
      post ctx "/v1/tenants"
        (MkCreateTenantRequest name (ts_Name spec) (ts_Description spec) (ts_Owner spec))
        StatusCreated;;
      mret (finish step "applied" "tenant created")).

(** [src/internal/configcode/apply.go:136-171] Applier.applyDefinition *)
Definition applyDefinition (ctx : Context) (manifest : Manifest) : M W Outcome :=
  let spec := m_ConfigDefinition manifest in
  let step := start_step manifest "create" in
  outcome step (
    found ← get (MkDefinitionResponse "" "") ctx (configPath (ds_Tenant spec) (ds_Key spec));
    let '(status, existing) := found in
    if status =? StatusOK then
      guard_err (negb (EqualJSON (dr_Schema existing) (ds_Schema spec)))
        (EText "config definition %s/%s already exists with different schema"
           [ds_Tenant spec; ds_Key spec]);;
      guard_err (negb (empty_str (ds_Default spec))
                 && negb (EqualJSON (dr_DefaultValue existing) (ds_Default spec)))
        (EText "config definition %s/%s already exists with different default"
           [ds_Tenant spec; ds_Key spec]);;
      mret (finish step "skipped" "config definition already exists")
    else if negb (status =? StatusNotFound)
    then bad_status "get config definition %s/%s" [ds_Tenant spec; ds_Key spec] status
    else
      post ctx ("/v1/tenants/" +:+ escape (ds_Tenant spec) +:+ "/configs")
        (MkCreateDefinitionRequest (ds_Key spec) (ds_Description spec) (ds_Schema spec)
           (ds_Default spec)) StatusCreated;;
      mret (finish step "applied" "config definition created")).

(** [src/internal/configcode/apply.go:264-274] Applier.listVersions *)
Definition listVersions (ctx : Context) (tenant key : string) : M W (list versionResponse) :=
  found ← get [] ctx (configPath tenant key +:+ "/versions");
  let '(status, versions) := found in
  if negb (status =? StatusOK)
  then bad_status "list config versions %s/%s" [tenant; key] status
  else mret versions.

(** [src/internal/configcode/apply.go:180-187] Applier.applyVersion *)
Fixpoint find_equal (value : RawJSON) (versions : list versionResponse) : option versionResponse :=
  match versions with
  | [] => None
  | version :: rest =>
      if EqualJSON (vr_Value version) value then Some version else find_equal value rest
  end.

(** The version a manifest stands for, and whether it had to be created. *)
(** [src/internal/configcode/apply.go:176-197] Applier.applyVersion *)
Definition resolve_version (ctx : Context) (spec : ConfigVersionSpec)
    : M W (versionResponse * bool) :=
  versions ← listVersions ctx (vs_Tenant spec) (vs_Key spec);
  match find_equal (vs_Value spec) versions with
  | Some version => mret (version, false)
  | None =>
      body ← post ctx (configPath (vs_Tenant spec) (vs_Key spec) +:+ "/versions")
        (MkCreateVersionRequest (vs_Value spec) (vs_SourceCommitSHA spec) (vs_CreatedBy spec))
        StatusCreated;
      created ← lift (json_Decode body);
      mret (created, true)
  end.

(** [src/internal/configcode/apply.go:173-202] Applier.applyVersion *)
Definition applyVersion (ctx : Context) (manifest : Manifest) (state : applyState)
    : M W (Outcome * applyState) :=
  let step := start_step manifest "create" in
  resolved ← try (resolve_version ctx (m_ConfigVersion manifest));
  mret match resolved with
  | Err err => (step, Some err, state)
  | Ok (version, created) =>
      (if (created : bool)
       then finish step "applied" (sprintf "config version %d created" [pretty (vr_VersionNumber version)])
       else finish step "skipped"
              (sprintf "matching config version already exists as version %d"
                 [pretty (vr_VersionNumber version)]),
       None, <[m_Name manifest := version]> state)
  end.

(** [src/internal/configcode/apply.go:204-234] Applier.applyStableVersion *)
Definition applyStableVersion (ctx : Context) (manifest : Manifest) (state : applyState)
    : M W Outcome :=
  let spec := m_StableVersion manifest in
  let step := start_step manifest "set" in
  let path := stablePath (sv_Tenant spec) (sv_Key spec) (sv_Environment spec) in
  outcome step (
    match state !! sv_VersionRef spec with
    | None => mthrow (EText "versionRef %q was not applied" [sv_VersionRef spec])
    | Some desiredVersion =>
        found ← get (MkEnvironmentStateResponse "") ctx path;
        let '(status, envState) := found in
        if (status =? StatusOK) && bool_decide (er_StableVersionID envState = vr_ID desiredVersion)
        then mret (finish step "skipped" "stable version already set")
        else if negb (status =? StatusOK) && negb (status =? StatusNotFound)
        then bad_status "get stable version %s/%s/%s"
               [sv_Tenant spec; sv_Key spec; sv_Environment spec] status
        else
          post ctx path (MkSetStableVersionRequest (vr_VersionNumber desiredVersion)) StatusOK;;
          mret (finish step "applied" "stable version set")
    end).

(** [src/internal/configcode/apply.go:243-255] Applier.applyRollout *)
Definition rollout_request (spec : RolloutSpec) (candidateVersion : versionResponse)
    : createRolloutRequest :=
  MkCreateRolloutRequest (ro_Tenant spec) (ro_Key spec) (ro_Environment spec)
    (vr_VersionNumber candidateVersion) (ro_TargetServices spec) (ro_Stages spec)
    (ro_Guardrails spec) (ro_RequiredAckPercentage spec) (ro_DeploymentTimeoutSeconds spec)
    (ro_RolloutMaxDurationSeconds spec) (ro_RollbackTimeoutSeconds spec).

(** [src/internal/configcode/apply.go:236-262] Applier.applyRollout *)
Definition applyRollout (ctx : Context) (manifest : Manifest) (state : applyState) : M W Outcome :=
  let spec := m_Rollout manifest in
  let step := start_step manifest "start" in
  outcome step (
    match state !! ro_CandidateVersionRef spec with
    | None => mthrow (EText "candidateVersionRef %q was not applied" [ro_CandidateVersionRef spec])
    | Some candidateVersion =>
        post ctx "/v1/rollouts" (rollout_request spec candidateVersion) StatusCreated;;
        mret (finish step "applied" "rollout started")
    end).

(** [src/internal/configcode/apply.go:69-103] Applier.applyDocument *)
Definition applyDocument (ctx : Context) (manifest : Manifest) (state : applyState)
    : M W (Outcome * applyState) :=
  let keep (m : M W Outcome) : M W (Outcome * applyState) := o ← m; mret (o, state) in
  if ao_DryRun a then
    mret (MkApplyStep (m_Kind manifest) (m_Name manifest) (plannedAction (m_Kind manifest))
            "planned" "dry run", None, state)
  else
    match kind_of (m_Kind manifest) with
    | IsTenant => keep (applyTenant ctx manifest)
    | IsConfigDefinition => keep (applyDefinition ctx manifest)
    | IsConfigVersion => applyVersion ctx manifest state
    | IsStableVersion => keep (applyStableVersion ctx manifest state)
    | IsRollout =>
        if negb (ao_IncludeRollouts a)
        then mret (MkApplyStep (m_Kind manifest) (m_Name manifest) "start" "skipped"
                     "rollout requires --include-rollouts", None, state)
        else keep (applyRollout ctx manifest state)
    | IsOther => mret (zero_ApplyStep, Some (EText "unsupported manifest kind %q" [m_Kind manifest]),
                       state)
    end.

(** The loop stops at the first error, after recording its step. *)
(** [src/internal/configcode/apply.go:59-66] Applier.ApplyDocuments *)
Fixpoint apply_each (ctx : Context) (documents : list ManifestDocument) (state : applyState)
    (steps : list ApplyStep) : M W (ApplyReport * option error) :=
  match documents with
  | [] => mret (MkApplyReport steps, None)
  | document :: rest =>
      applied ← applyDocument ctx (mo_Manifest document) state;
      let '(step, failure, state) := applied in
      match failure with
      | Some err => mret (MkApplyReport (steps ++ [step]), Some err)
      | None => apply_each ctx rest state (steps ++ [step])
      end
  end.

(** [src/internal/configcode/apply.go:51-67] Applier.ApplyDocuments *)
Definition ApplyDocuments (ctx : Context) (documents : list ManifestDocument)
    : M W (ApplyReport * option error) :=
  if blank (ao_BaseURL a) && negb (ao_DryRun a)
  then mret (MkApplyReport [], Some (EText "control-plane URL is required" []))
  else apply_each ctx (orderDocuments documents) ∅ [].

(** [src/internal/configcode/apply.go:43-49] Applier.ApplyPaths *)
Definition ApplyPaths `{Yaml} (tree : FileTree) (ctx : Context) (paths : list string)
    : M W (ApplyReport * option error) :=
  let '(documents, _, diagnostics) := LoadManifestDocuments tree paths in
  if negb (Nat.eqb (length diagnostics) 0)
  then mret (MkApplyReport [], Some (diagnosticsError diagnostics))
  else ApplyDocuments ctx documents.

(** ** cmd/cfgctl *)

(** The lines a command prints to each stream, without their line ends, and its
    error; the flags are parsed and the streams accept what is written.  The
    two loads of the files see the trees [first] and [second]. *)
Record Printed := MkPrinted {
  pr_stdout : list string;
  pr_stderr : list string;
  pr_error : option error }.

(** [src/cmd/cfgctl/main.go:72-74] runApply *)
Definition validation_failed (report : Report) : option error :=
  if Report_OK report then None
  else Some (EText "validation failed: %d error(s)" [pretty (Z.of_nat (length (rp_Errors report)))]).

(** [src/cmd/cfgctl/main.go:89-89] runApply *)
Definition print_step (step : ApplyStep) : string :=
  sprintf "%s %s %s: %s" [sp_Status step; sp_Action step; sp_Kind step; sp_Name step].

(** [src/cmd/cfgctl/main.go:46-55] runValidate *)
Definition runValidate `{Yaml} (validator : ConfigRegistry.SchemaValidator) (tree : FileTree)
    (paths : list string) : Printed :=
  let report := ValidatePaths tree validator paths in
  let stderr := Diagnostic_String <$> rp_Errors report in
  match validation_failed report with
  | Some err => MkPrinted [] stderr (Some err)
  | None =>
      MkPrinted [sprintf "validated %d manifest(s) in %d file(s)"
                   [pretty (rp_Manifests report); pretty (rp_Files report)]] stderr None
  end.

(** [src/cmd/cfgctl/main.go:68-94] runApply *)
Definition runApply `{Yaml} (validator : ConfigRegistry.SchemaValidator) (first second : FileTree)
    (paths : list string) : M W Printed :=
  let report := ValidatePaths first validator paths in
  let stderr := Diagnostic_String <$> rp_Errors report in
  match validation_failed report with
  | Some err => mret (MkPrinted [] stderr (Some err))
  | None =>
      applied ← ApplyPaths second Background paths;
      let '(applyReport, failure) := applied in
      match failure with
      | Some err => mret (MkPrinted [] stderr (Some err))
      | None =>
          mret (MkPrinted
            ((print_step <$> ar_Steps applyReport)
             ++ [sprintf "processed %d step(s)" [pretty (Z.of_nat (length (ar_Steps applyReport)))]])
            stderr None)
      end
  end.

End Apply.

End ConfigApply.

(** * The command line of cmd/cfgctl *)
Module Cfgctl.
Import ConfigApply.

(** [src/cmd/cfgctl/main.go:103-111] printUsage *)
Definition usage_lines : list string :=
  [ "Usage:";
    "  cfgctl validate [file-or-directory ...]";
    "  cfgctl apply [--dry-run] [--include-rollouts] [--control-plane-url URL] [--token TOKEN] [file-or-directory ...]" ].

(** [src/cmd/cfgctl/main.go:96-101] usageError *)
Definition usageError : Printed :=
  MkPrinted [] usage_lines (Some (EText "usage: cfgctl <command> [options]" [])).

(** The flags of [apply]; [true] for the boolean ones. *)
(** [src/cmd/cfgctl/main.go:60-66] runApply *)
Definition apply_flags (name : string) : option bool :=
  if bool_decide (name ∈ ["control-plane-url"; "token"]) then Some false
  else if bool_decide (name ∈ ["dry-run"; "include-rollouts"]) then Some true
  else None.

(** [src/cmd/cfgctl/main.go:60-83] runApply *)
Definition apply_options (os_Getenv : string → string) (values : list (string * string)) : ApplyOptions :=
  MkApplyOptions (Flag.given values "control-plane-url" (os_Getenv "SAFECONFIG_CONTROL_PLANE_URL"))
    (Flag.given values "token" (os_Getenv "SAFECONFIG_TOKEN"))
    (Flag.given_bool values "dry-run" false) (Flag.given_bool values "include-rollouts" false).

Section command_line.
Context {W : Type} `{HttpClient W, JsonAny, Yaml}.
Context `{Decoder tenantResponse, Decoder definitionResponse, Decoder versionResponse,
  Decoder (list versionResponse), Decoder environmentStateResponse}.
Context `{Encoder createTenantRequest, Encoder createDefinitionRequest,
  Encoder createVersionRequest, Encoder setStableVersionRequest, Encoder createRolloutRequest}.
(** What the flag set prints when it refuses its arguments. *)
Context (flag_output : error → list string) (os_Getenv : string → string)
  (validator : ConfigRegistry.SchemaValidator) (first second : FileTree).

Definition refused (err : error) : Printed := MkPrinted [] (flag_output err) (Some err).

(** [src/cmd/cfgctl/main.go:39-55] runValidate *)
Definition validate_command (args : list string) : Printed :=
  match Flag.Parse (λ _, None) args with
  | Err err => refused err
  | Ok (_, paths) => runValidate validator first paths
  end.

(** [src/cmd/cfgctl/main.go:57-94] runApply *)
Definition apply_command (args : list string) : M W Printed :=
  match Flag.Parse apply_flags args with
  | Err err => mret (refused err)
  | Ok (values, paths) => runApply (apply_options os_Getenv values) validator first second paths
  end.

(** [src/cmd/cfgctl/main.go:22-37] run *)
Definition run (args : list string) : M W Printed :=
  match args with
  | [] => mret usageError
  | command :: args =>
      if bool_decide (command = "validate") then mret (validate_command args)
      else if bool_decide (command = "apply") then apply_command args
      else if bool_decide (command ∈ ["help"; "-h"; "--help"]) then mret (MkPrinted usage_lines [] None)
      else mret usageError
  end.

(** The exit code, and what the process has printed. *)
(** [src/cmd/cfgctl/main.go:13-20] main *)
Definition main (args : list string) : M W (Z * list string * list string) :=
  printed ← run args;
  mret match pr_error printed with
       | Some err => (1, pr_stdout printed, pr_stderr printed ++ [Error err])
       | None => (0, pr_stdout printed, pr_stderr printed)
       end.

(** Invalid manifests are not applied, and leave the world alone. *)
Lemma invalid_not_applied args values paths w :
  Flag.Parse apply_flags args = Ok (values, paths) →
  Report_OK (ValidatePaths first validator paths) = false →
  ∃ stderr, main ("apply" :: args) w = (Ok (1, [], stderr), w).
Proof.
  intros Hp Hr. unfold main, run, apply_command, mbind, M_bind. cbn. rewrite Hp.
  unfold runApply, validation_failed. rewrite Hr. by eexists.
Qed.
End command_line.

End Cfgctl.
