(* ===== verification/ConfigFacts.v ===== *)
(** What the validation of manifests establishes: the documents a reference
    names, and the order in which documents are applied. *)

From Stdlib Require Import ZArith Lia Ascii.
From S2P Require Import Prelude GoLib Domain Registry ConfigCode ConfigApply.
Import ConfigCode ConfigApply.
Open Scope string_scope.
Open Scope list_scope.
Open Scope Z_scope.

Module ConfigFacts.

(** * Kinds *)

Definition kind_name (c : kind_case) : option Kind :=
  match c with
  | IsTenant => Some KindTenant
  | IsConfigDefinition => Some KindConfigDefinition
  | IsConfigVersion => Some KindConfigVersion
  | IsStableVersion => Some KindStableVersion
  | IsRollout => Some KindRollout
  | IsOther => None
  end.

Lemma kind_of_name k c : kind_of k = c → c ≠ IsOther → kind_name c = Some k.
Proof.
  unfold kind_of. intros <-. repeat case_bool_decide; subst; try done.
Qed.
Lemma kind_of_known k c : kind_name c = Some k → kind_of k = c.
Proof. destruct c; simpl; intros H; simplify_eq; reflexivity. Qed.
Lemma kind_of_other k : kind_of k = IsOther ↔ k ∉ apply_order.
Proof.
  unfold kind_of, apply_order. rewrite !not_elem_of_cons.
  split.
  - intros H. repeat case_bool_decide; try done. split_and!; try done. apply not_elem_of_nil.
  - intros (? & ? & ? & ? & ? & _). by rewrite !bool_decide_false.
Qed.

Abbreviation doc_kind d := (kind_of (m_Kind (mo_Manifest d))).
Abbreviation doc_name d := (m_Name (mo_Manifest d)).

(** * The order of application *)

Definition kind_rank (k : Kind) : nat :=
  match kind_of k with
  | IsTenant => 0 | IsConfigDefinition => 1 | IsConfigVersion => 2
  | IsStableVersion => 3 | IsRollout => 4 | IsOther => 5
  end.
Definition rank (d : ManifestDocument) : nat := kind_rank (m_Kind (mo_Manifest d)).
Definition known (d : ManifestDocument) : Prop := m_Kind (mo_Manifest d) ∈ apply_order.
#[export] Instance known_dec d : Decision (known d).
Proof. unfold known. apply _. Defined.

Definition of_kind (k : Kind) (documents : list ManifestDocument) : list ManifestDocument :=
  filter (λ d, m_Kind (mo_Manifest d) = k) documents.

Lemma orderDocuments_eq documents :
  orderDocuments documents =
  of_kind KindTenant documents ++ of_kind KindConfigDefinition documents
  ++ of_kind KindConfigVersion documents ++ of_kind KindStableVersion documents
  ++ of_kind KindRollout documents.
Proof. unfold orderDocuments, apply_order. simpl. by rewrite app_nil_r. Qed.

Lemma elem_of_orderDocuments d documents :
  d ∈ orderDocuments documents ↔ d ∈ documents ∧ known d.
Proof.
  rewrite orderDocuments_eq. unfold known, apply_order, of_kind.
  rewrite !elem_of_app, !list_elem_of_filter, !elem_of_cons, elem_of_nil. tauto.
Qed.

Lemma of_kind_of_kind k k' documents :
  of_kind k (of_kind k' documents) = if decide (k = k') then of_kind k documents else [].
Proof.
  unfold of_kind. rewrite list_filter_filter. case_decide as Hk; [subst k'|].
  - apply list_filter_iff. tauto.
  - induction documents as [|d l IH]; [done|]. rewrite filter_cons_False; [done|].
    intros [-> ?]. done.
Qed.

(** Within a kind the order of the documents is kept. *)
Lemma of_kind_orderDocuments k documents :
  k ∈ apply_order → of_kind k (orderDocuments documents) = of_kind k documents.
Proof.
  intros Hk. rewrite orderDocuments_eq. unfold of_kind at 1. rewrite !filter_app.
  fold (of_kind k (of_kind KindTenant documents)).
  fold (of_kind k (of_kind KindConfigDefinition documents)).
  fold (of_kind k (of_kind KindConfigVersion documents)).
  fold (of_kind k (of_kind KindStableVersion documents)).
  fold (of_kind k (of_kind KindRollout documents)).
  rewrite !of_kind_of_kind. unfold apply_order in Hk.
  set_unfold in Hk. destruct_or? Hk; subst k; simpl; by rewrite ?app_nil_r.
Qed.

Lemma orderDocuments_perm documents : orderDocuments documents ≡ₚ filter known documents.
Proof.
  induction documents as [|d l IH]; [done|].
  rewrite orderDocuments_eq in *. unfold of_kind in *.
  destruct (decide (known d)) as [Hk|Hk].
  - rewrite (filter_cons_True known) by done. rewrite <-IH.
    unfold known, apply_order in Hk. set_unfold in Hk.
    destruct_or? Hk; rewrite !filter_cons, Hk; simpl; solve_Permutation.
  - rewrite (filter_cons_False known) by done. rewrite <-IH.
    unfold known, apply_order in Hk. set_unfold in Hk.
    rewrite !filter_cons, !decide_False by tauto. done.
Qed.

Lemma sorted_by_kind documents kinds :
  StronglySorted (λ k k', (kind_rank k ≤ kind_rank k')%nat) kinds →
  StronglySorted (λ d d', (rank d ≤ rank d')%nat) (flat_map (λ k, of_kind k documents) kinds).
Proof.
  induction 1 as [|k kinds _ IH Hk]; simpl; [constructor|].
  assert (Forall (λ d, (kind_rank k ≤ rank d)%nat) (flat_map (λ k, of_kind k documents) kinds)) as Hge.
  { apply Forall_flat_map. eapply Forall_impl; [exact Hk|]. intros k' Hle.
    apply Forall_forall. intros d [<- _]%list_elem_of_filter. exact Hle. }
  assert (Forall (λ d, rank d = kind_rank k) (of_kind k documents)) as Heq.
  { apply Forall_forall. intros d [Hd _]%list_elem_of_filter. unfold rank. by rewrite Hd. }
  induction Heq as [|d l Hd Heq IHl]; [done|]. simpl. constructor; [done|].
  apply Forall_app. rewrite Hd. split; [|done].
  eapply Forall_impl; [exact Heq|]. intros d' ->. done.
Qed.

Lemma orderDocuments_sorted documents :
  StronglySorted (λ d d', (rank d ≤ rank d')%nat) (orderDocuments documents).
Proof.
  apply (sorted_by_kind documents apply_order).
  repeat (constructor; [|repeat (constructor; [vm_compute; lia|]); constructor]). constructor.
Qed.

(** * The state of the validation *)

Definition version_named (n : string) (d : ManifestDocument) : Prop :=
  m_Kind (mo_Manifest d) = KindConfigVersion ∧ doc_name d = n.
#[export] Instance version_named_dec n d : Decision (version_named n d).
Proof. unfold version_named. apply _. Defined.

Lemma build_snoc documents d :
  buildValidationState (documents ++ [d]) = add_document (buildValidationState documents) d.
Proof. unfold buildValidationState. by rewrite fold_left_app. Qed.

(** What one document adds to each map. *)
Lemma versionRefs_step state d n spec :
  vt_versionRefs (add_document state d) !! n = Some spec →
  vt_versionRefs state !! n = Some spec ∨ version_named n d ∧ m_ConfigVersion (mo_Manifest d) = spec.
Proof.
  unfold add_document, version_named; cbv zeta; destruct (doc_kind d) eqn:Hk; simpl; try (by left).
  - by repeat case_match; left.
  - case_match; [|by left]. simpl. intros [[<- <-]|[_ Hl]]%lookup_insert_Some; [right|by left].
    apply kind_of_name in Hk; [|done]. by simplify_eq/=.
Qed.
Lemma definitions_step state d k spec :
  vt_definitions (add_document state d) !! k = Some spec →
  vt_definitions state !! k = Some spec ∨
  m_Kind (mo_Manifest d) = KindConfigDefinition ∧ m_ConfigDefinition (mo_Manifest d) = spec ∧
  k = configKey (ds_Tenant spec) (ds_Key spec).
Proof.
  unfold add_document; cbv zeta; destruct (doc_kind d) eqn:Hk; simpl; try (by left).
  case_match; [|by left]. simpl. intros [[<- <-]|[_ Hl]]%lookup_insert_Some; [right|by left].
  apply kind_of_name in Hk; [|done]. by simplify_eq/=.
Qed.
Lemma counts_step state d n :
  default 0 (vt_versionNameCounts (add_document state d) !! n) =
  default 0 (vt_versionNameCounts state !! n) + (if decide (version_named n d) then 1 else 0).
Proof.
  unfold add_document; cbv zeta; destruct (doc_kind d) eqn:Hk; simpl;
    try (rewrite decide_False; [repeat case_match; simpl; lia|];
         intros [Hv _]; rewrite Hv in Hk; discriminate Hk).
  assert (m_Kind (mo_Manifest d) = KindConfigVersion) as Hv.
  { apply kind_of_name in Hk; [|done]. by simplify_eq/=. }
  destruct (decide (doc_name d = n)) as [<-|Hn].
  - rewrite lookup_insert_eq, decide_True by done. done.
  - rewrite lookup_insert_ne, decide_False by (done || by intros []). lia.
Qed.

Lemma versionRefs_sound documents n spec :
  vt_versionRefs (buildValidationState documents) !! n = Some spec →
  ∃ d, d ∈ documents ∧ version_named n d ∧ m_ConfigVersion (mo_Manifest d) = spec.
Proof.
  induction documents as [|d l IH] using rev_ind; [done|]. rewrite build_snoc.
  intros [Hl|[Hn Hs]]%versionRefs_step.
  - destruct (IH Hl) as (d' & ? & ?). exists d'. rewrite elem_of_app. tauto.
  - exists d. rewrite elem_of_app, list_elem_of_singleton. tauto.
Qed.
Lemma definitions_sound documents k spec :
  vt_definitions (buildValidationState documents) !! k = Some spec →
  ∃ d, d ∈ documents ∧ m_Kind (mo_Manifest d) = KindConfigDefinition ∧
       m_ConfigDefinition (mo_Manifest d) = spec ∧ k = configKey (ds_Tenant spec) (ds_Key spec).
Proof.
  induction documents as [|d l IH] using rev_ind; [done|]. rewrite build_snoc.
  intros [Hl|Hd]%definitions_step.
  - destruct (IH Hl) as (d' & ? & ?). exists d'. rewrite elem_of_app. tauto.
  - exists d. rewrite elem_of_app, list_elem_of_singleton. tauto.
Qed.
Lemma counts_length documents n :
  default 0 (vt_versionNameCounts (buildValidationState documents) !! n) =
  Z.of_nat (length (filter (version_named n) documents)).
Proof.
  induction documents as [|d l IH] using rev_ind; [done|].
  rewrite build_snoc, counts_step, IH, filter_app, length_app, filter_cons, filter_nil.
  case_decide; simpl; lia.
Qed.

(** * Validated documents *)

Lemma add_if_nil c f args : add_if c f args = [] ↔ c = false.
Proof. by destruct c. Qed.
Lemma add_err_nil {A} (r : res A) f args : add_err r f args = [] ↔ is_ok r = true.
Proof. by destruct r. Qed.
Lemma add_if_true f args : add_if true f args = [] ↔ False.
Proof. by split. Qed.
Lemma flat_map_nil {A B} (f : A → list B) l : flat_map f l = [] ↔ ∀ x, x ∈ l → f x = [].
Proof.
  induction l as [|x l IH]; simpl.
  { split; [|done]. intros _ x Hx. by apply elem_of_nil in Hx. }
  rewrite app_nil, IH. split.
  - intros [Hx Hl] y [->|Hy]%elem_of_cons; auto.
  - intros Hall. split; [|intros y Hy]; apply Hall, elem_of_cons; auto.
Qed.

(** [no_messages H] turns [H], an empty list of messages, into the negated
    conditions of the messages. *)
Ltac no_messages H :=
  rewrite ?app_nil, ?add_if_nil, ?add_err_nil, ?flat_map_nil, ?orb_false_iff,
    ?negb_false_iff, ?bool_decide_eq_true, ?bool_decide_eq_false in H.

Definition validated (validator : ConfigRegistry.SchemaValidator) (documents : list ManifestDocument)
    : Prop := validate_documents validator documents = [].

Section Validated.
Context (validator : ConfigRegistry.SchemaValidator) (documents : list ManifestDocument).
Abbreviation state := (buildValidationState documents).

Lemma validated_iff :
  validated validator documents ↔
  ∀ d, d ∈ documents → manifest_messages validator state (mo_Manifest d) = [].
Proof.
  unfold validated, validate_documents. rewrite flat_map_nil. unfold validateManifest.
  split; intros H d Hd; specialize (H d Hd).
  - by destruct (manifest_messages _ _ _).
  - by rewrite H.
Qed.

Lemma validated_manifest d :
  validated validator documents → d ∈ documents →
  known d ∧ blank (doc_name d) = false ∧
  match doc_kind d with
  | IsTenant => validate_tenant (mo_Manifest d) = []
  | IsConfigDefinition => validate_definition validator (mo_Manifest d) = []
  | IsConfigVersion => validate_version validator state (mo_Manifest d) = []
  | IsStableVersion => validate_stable state (mo_Manifest d) = []
  | IsRollout => validate_rollout state (mo_Manifest d) = []
  | IsOther => False
  end.
Proof.
  rewrite validated_iff. intros Hv Hd. specialize (Hv d Hd). unfold manifest_messages in Hv.
  no_messages Hv. destruct Hv as (_ & Hn & Hk). split; [|by destruct (doc_kind d)].
  unfold known. destruct (decide (m_Kind (mo_Manifest d) ∈ apply_order)) as [|Hno]; [done|].
  apply kind_of_other in Hno. rewrite Hno in Hk. discriminate Hk.
Qed.

(** The name of a version is the name of one document only. *)
Lemma version_unique n d d' :
  validated validator documents → d ∈ documents → d' ∈ documents →
  version_named n d → version_named n d' → d = d'.
Proof.
  intros Hv Hd Hd' Hn Hn'.
  destruct (validated_manifest d Hv Hd) as (_ & _ & Hm).
  rewrite (proj1 Hn) in Hm. change (kind_of KindConfigVersion) with IsConfigVersion in Hm.
  cbv beta iota in Hm. unfold validate_version in Hm. no_messages Hm.
  destruct Hm as [Hc _]. rewrite (proj2 Hn), counts_length, Z.ltb_ge in Hc.
  assert (d ∈ filter (version_named n) documents) as H1 by (by apply list_elem_of_filter).
  assert (d' ∈ filter (version_named n) documents) as H2 by (by apply list_elem_of_filter).
  destruct (filter (version_named n) documents) as [|x [|y l]]; cbn [length] in Hc;
    [by apply elem_of_nil in H1| |lia].
  apply list_elem_of_singleton in H1, H2. congruence.
Qed.

(** A reference names a version of the same tenant and key. *)
Lemma reference_resolves field ref tenant key :
  validate_ref state field ref tenant key = [] →
  ∃ d, d ∈ documents ∧ version_named ref d ∧
       vs_Tenant (m_ConfigVersion (mo_Manifest d)) = tenant ∧
       vs_Key (m_ConfigVersion (mo_Manifest d)) = key.
Proof.
  unfold validate_ref. destruct (blank ref); [done|].
  destruct (vt_versionRefs state !! ref) as [spec|] eqn:Hr; [|done].
  apply versionRefs_sound in Hr as (d & Hd & Hn & <-).
  intros Hm. no_messages Hm. exists d. tauto.
Qed.

End Validated.

(** * Normalised values *)

Section Any_induction.
Context (P : Any → Prop) (Hscalar : ∀ s, P (AScalar s)) (Hslice : ∀ l, Forall P l → P (ASlice l))
  (Hany : ∀ l, Forall (λ e, P e.2) l → P (AMapAny l))
  (Hstring : ∀ l, Forall (λ e, P e.2) l → P (AMapString l)).

(** Induction that reaches the elements of slices and the values of maps. *)
Fixpoint Any_induction (v : Any) : P v :=
  match v with
  | AScalar s => Hscalar s
  | ASlice l =>
      Hslice l ((fix go l := match l return Forall P l with
                             | [] => Forall_nil_2 P
                             | x :: l => Forall_cons_2 P x l (Any_induction x) (go l)
                             end) l)
  | AMapAny l =>
      Hany l ((fix go l := match l return Forall (λ e, P e.2) l with
                           | [] => Forall_nil_2 _
                           | e :: l => Forall_cons_2 _ e l (Any_induction e.2) (go l)
                           end) l)
  | AMapString l =>
      Hstring l ((fix go l := match l return Forall (λ e, P e.2) l with
                              | [] => Forall_nil_2 _
                              | e :: l => Forall_cons_2 _ e l (Any_induction e.2) (go l)
                              end) l)
  end.
End Any_induction.

(** A value [json.Marshal] accepts: every map is keyed by strings, each once. *)
Inductive json_ready : Any → Prop :=
| ready_scalar s : json_ready (AScalar s)
| ready_slice l : Forall json_ready l → json_ready (ASlice l)
| ready_map l : NoDup l.*1 → Forall (λ e, json_ready e.2) l → json_ready (AMapString l).

Lemma entry_set_keys k v l : k ∈ l.*1 → (entry_set k v l).*1 = l.*1.
Proof.
  induction l as [|[k' v'] l IH]; simpl; [set_solver|]. intros Hk.
  case_bool_decide as Heq; [by subst|]. simpl. f_equal. apply IH.
  apply elem_of_cons in Hk as [->|]; done.
Qed.
Lemma entry_set_new k v l : k ∉ l.*1 → entry_set k v l = l ++ [(k, v)].
Proof.
  induction l as [|[k' v'] l IH]; simpl; [done|]. rewrite not_elem_of_cons. intros [Hne Hk].
  rewrite bool_decide_false by congruence. by rewrite IH.
Qed.
Lemma entry_set_values (P : Any → Prop) k v l :
  P v → Forall (λ e, P e.2) l → Forall (λ e, P e.2) (entry_set k v l).
Proof.
  intros Hv. induction 1 as [|[k' v'] l Hv' Hl IH]; simpl; [by repeat constructor|].
  case_bool_decide; by constructor.
Qed.
Lemma entry_set_NoDup k v l : NoDup l.*1 → NoDup (entry_set k v l).*1.
Proof.
  intros Hnd. destruct (decide (k ∈ l.*1)) as [Hk|Hk]; [by rewrite entry_set_keys|].
  rewrite entry_set_new, fmap_app by done. apply NoDup_app. split_and!; [done| |apply NoDup_singleton].
  intros x Hx ->%list_elem_of_singleton. done.
Qed.

(** The map a loop of insertions builds. *)
Lemma inserted_ready {K} (key : K → string) (typed : list (K * Any)) : ∀ result,
  NoDup result.*1 → Forall (λ e, json_ready e.2) result →
  Forall (λ e, json_ready e.2) typed →
  let m := fold_left (λ result '(k, val), entry_set (key k) val result) typed result in
  NoDup m.*1 ∧ Forall (λ e, json_ready e.2) m.
Proof.
  induction typed as [|[k v] typed IH]; intros result Hnd Hr Ht; [done|]. simpl.
  apply Forall_cons in Ht as [Hv Ht]. apply IH; [by apply entry_set_NoDup| |done].
  by apply entry_set_values.
Qed.

Lemma normalizeYAML_ready Sprint v : json_ready (normalizeYAML Sprint v).
Proof.
  induction v as [s|l IH|l IH|l IH] using Any_induction; simpl.
  - constructor.
  - constructor. induction IH; simpl; by constructor.
  - assert (Forall (λ e, json_ready e.2) (map (λ '(key, val), (key, normalizeYAML Sprint val)) l)) as Hl.
    { induction IH as [|[k v] l Hv _ IHl]; simpl; by constructor. }
    destruct (inserted_ready Sprint _ [] (NoDup_nil_2) (Forall_nil_2 _) Hl). by constructor.
  - assert (Forall (λ e, json_ready e.2) (map (λ '(key, val), (key, normalizeYAML Sprint val)) l)) as Hl.
    { induction IH as [|[k v] l Hv _ IHl]; simpl; by constructor. }
    destruct (inserted_ready (λ k : string, k) _ [] (NoDup_nil_2) (Forall_nil_2 _) Hl). by constructor.
Qed.

(** Inserting the entries of a map with distinct keys lists them again. *)
Lemma inserted_same (l : list (string * Any)) : ∀ result,
  NoDup (result ++ l).*1 →
  fold_left (λ result '(k, val), entry_set k val result) l result = result ++ l.
Proof.
  induction l as [|[k v] l IH]; intros result Hnd; simpl; [by rewrite app_nil_r|].
  rewrite entry_set_new.
  - rewrite IH, <-(assoc_L (++)); [done|]. by rewrite <-(assoc_L (++)).
  - rewrite fmap_app in Hnd. apply NoDup_app in Hnd as (_ & Hd & _). intros Hk.
    apply (Hd k Hk). simpl. by left.
Qed.

(** A value that is ready is left as it is. *)
Lemma normalizeYAML_fixed Sprint v : json_ready v → normalizeYAML Sprint v = v.
Proof.
  induction v as [s|l IH|l IH|l IH] using Any_induction; inversion 1 as [|l' Hl|l' Hnd Hl]; subst; simpl.
  - done.
  - f_equal. rewrite <-(map_id l) at 2. apply map_ext_in. intros x Hx%list_elem_of_In.
    eapply Forall_forall in IH, Hl; eauto.
  - assert (map (λ '(key, val), (key, normalizeYAML Sprint val)) l = l) as ->.
    { clear -IH Hl. induction l as [|[k x] l IHl]; [done|].
      apply Forall_cons in IH as [Hx IH], Hl as [Hr Hl]. simpl. f_equal; [|by apply IHl].
      f_equal. by apply Hx. }
    by rewrite inserted_same.
Qed.

End ConfigFacts.
