(* ===== verification/ConfigSpec.v ===== *)
(** Applying manifests, against an interface: what the control plane promises
    a client ([ControlPlaneApi]), what it means for a registry to hold the
    documents ([holds]), and that an application that succeeds makes the
    registry hold them, after which another one writes nothing. *)

From Stdlib Require Import ZArith Lia Ascii.
From S2P Require Import Prelude GoLib Host Http Mux JsonText Domain Registry RegistrySpec ConfigCode ConfigApply ConfigFacts.
Import Domain ConfigCode ConfigApply ConfigFacts RegistrySpec.
Open Scope string_scope.
Open Scope list_scope.
Open Scope Z_scope.

Module ConfigSpec.

(** A name that reaches the handlers and the registry as it is, in a path and
    in a JSON body. *)
Definition addressable (s : string) : Prop :=
  Mux.routable s ∧ no_nul s ∧ utf8_valid s = true.
#[export] Instance addressable_dec s : Decision (addressable s).
Proof. unfold addressable, no_nul. apply _. Defined.

(** A JSON text [json.Unmarshal] accepts. *)
Definition readable `{JsonAny} (s : RawJSON) : Prop := is_ok (json_Unmarshal_any s) = true.
#[export] Instance readable_dec `{JsonAny} s : Decision (readable s).
Proof. unfold readable. apply _. Defined.

(** Compacting a text does not change its value; the empty text has none. *)
Class JsonAnyLaws `{JsonAny} := {
  json_empty : is_ok (json_Unmarshal_any "") = false;
  json_compact : ∀ s x, json_Unmarshal_any s = Ok x → json_Unmarshal_any (JsonText.Compact s) = Ok x }.

(** A raw value as a response shows it; one that is omitted when empty. *)
Definition shown_default (value : RawMessage) : RawJSON :=
  if empty_str value then "" else JsonText.Compact value.

Section Spec.
Context {W : Type} `{HttpClient W, JsonAny}.
Context `{Decoder tenantResponse, Decoder definitionResponse, Decoder versionResponse,
  Decoder (list versionResponse), Decoder environmentStateResponse}.
Context `{Encoder createTenantRequest, Encoder createDefinitionRequest,
  Encoder createVersionRequest, Encoder setStableVersionRequest, Encoder createRolloutRequest}.

(** * The interface *)

Definition same_version (r : versionResponse) (v : ConfigVersion) : Prop :=
  vr_ID r = v_ID v ∧ vr_VersionNumber r = v_VersionNumber v ∧ vr_Value r = JsonText.Compact (v_Value v).
Definition same_definition (r : definitionResponse) (d : ConfigDefinition) : Prop :=
  dr_Schema r = JsonText.Compact (d_Schema d) ∧
  dr_DefaultValue r = shown_default (d_DefaultValue d).

(** [api_inv]: the worlds in which the control plane is in order; [api_view]:
    its registry.  A read leaves the registry alone; a call that fails on the
    way back may have had its effect, so that nothing is said of it. *)
Class ControlPlaneApi (a : ApplyOptions) (api_inv : W → Prop) (api_view : W → RegView) := {
  api_ok : ∀ w, api_inv w → reg_ok (api_view w);
  api_GetTenant : ∀ ctx name w, api_inv w → addressable name →
    wp (get a (MkTenantResponse "") ctx ("/v1/tenants/" +:+ escape name)) (λ r w',
      match r with
      | Ok (status, _) => api_inv w' ∧ api_view w' = api_view w ∧
          (status = StatusOK → is_Some (rv_tenants (api_view w) !! name)) ∧
          (status = StatusNotFound → rv_tenants (api_view w) !! name = None)
      | Err _ => api_view w' = api_view w
      end) w;
  api_CreateTenant : ∀ ctx q w, api_inv w → addressable (tq_ID q) →
    wp (post a ctx "/v1/tenants" q StatusCreated) (λ r w',
      match r with
      | Ok _ => api_inv w' ∧ ∃ t, t_ID t = tq_ID q ∧ put_tenant t (api_view w) (api_view w')
      | Err _ => True
      end) w;
  api_GetDefinition : ∀ ctx tenant key w, api_inv w → addressable tenant → addressable key →
    wp (get a (MkDefinitionResponse "" "") ctx (configPath tenant key)) (λ r w',
      match r with
      | Ok (status, found) => api_inv w' ∧ api_view w' = api_view w ∧
          (status = StatusOK →
             ∃ d, defines (api_view w) tenant key d ∧ same_definition found d) ∧
          (status = StatusNotFound → ∀ d, ¬ defines (api_view w) tenant key d)
      | Err _ => api_view w' = api_view w
      end) w;
  api_CreateDefinition : ∀ ctx tenant q w, api_inv w → addressable tenant →
    addressable (dq_Key q) →
    wp (post a ctx ("/v1/tenants/" +:+ escape tenant +:+ "/configs") q StatusCreated) (λ r w',
      match r with
      | Ok _ => api_inv w' ∧ ∃ d, d_TenantID d = tenant ∧ d_Key d = dq_Key q ∧
          rv_definitions (api_view w) !! d_ID d = None ∧
          d_Schema d = JsonText.Compact (dq_Schema q) ∧
          d_DefaultValue d = shown_default (dq_Default q) ∧
          put_definition d (api_view w) (api_view w')
      | Err _ => True
      end) w;
  api_ListVersions : ∀ ctx tenant key w, api_inv w → addressable tenant → addressable key →
    wp (get a [] ctx (configPath tenant key +:+ "/versions")) (λ r w',
      match r with
      | Ok (status, found) => api_inv w' ∧ api_view w' = api_view w ∧
          (status = StatusOK → ∃ d, defines (api_view w) tenant key d ∧
             Forall2 same_version found (rv_versions (api_view w) (d_ID d)))
      | Err _ => api_view w' = api_view w
      end) w;
  api_CreateVersion : ∀ ctx tenant key q w, api_inv w → addressable tenant → addressable key →
    wp (post a ctx (configPath tenant key +:+ "/versions") q StatusCreated) (λ r w',
      match r with
      | Ok body => api_inv w' ∧ ∃ d ver, defines (api_view w) tenant key d ∧
          v_ConfigDefinitionID ver = d_ID d ∧ v_Value ver = JsonText.Compact (vq_Value q) ∧
          add_version ver (api_view w) (api_view w') ∧
          ∀ created, json_Decode body = Ok created → same_version created ver
      | Err _ => True
      end) w;
  api_GetStable : ∀ ctx tenant key env w, api_inv w →
    addressable tenant → addressable key → addressable env →
    wp (get a (MkEnvironmentStateResponse "") ctx (stablePath tenant key env)) (λ r w',
      match r with
      | Ok (status, found) => api_inv w' ∧ api_view w' = api_view w ∧
          (status = StatusOK → ∃ d st, defines (api_view w) tenant key d ∧
             rv_state (api_view w) (d_ID d) env = Some st ∧
             er_StableVersionID found = es_StableVersionID st) ∧
          (status = StatusNotFound → ∀ d, defines (api_view w) tenant key d →
             rv_state (api_view w) (d_ID d) env = None)
      | Err _ => api_view w' = api_view w
      end) w;
  api_SetStable : ∀ ctx tenant key env q w, api_inv w →
    addressable tenant → addressable key → addressable env →
    wp (post a ctx (stablePath tenant key env) q StatusOK) (λ r w',
      match r with
      | Ok _ => api_inv w' ∧ ∃ d ver st, defines (api_view w) tenant key d ∧
          ver ∈ rv_versions (api_view w) (d_ID d) ∧ v_VersionNumber ver = sq_VersionNumber q ∧
          es_ConfigDefinitionID st = d_ID d ∧ es_Environment st = env ∧
          es_StableVersionID st = v_ID ver ∧ put_state st (api_view w) (api_view w')
      | Err _ => True
      end) w }.

(** * Registries that hold documents *)

(** The first version whose value is shown as equal to the given one. *)
Definition first_equal (value : RawJSON) (versions : list ConfigVersion) : option ConfigVersion :=
  head (filter (λ v, EqualJSON (JsonText.Compact (v_Value v)) value = true) versions).

(** The registry has the version a manifest stands for. *)
Definition has_version (v : RegView) (spec : ConfigVersionSpec) (ver : ConfigVersion) : Prop :=
  ∃ d, defines v (vs_Tenant spec) (vs_Key spec) d ∧
       first_equal (vs_Value spec) (rv_versions v (d_ID d)) = Some ver.

Definition has_stable (v : RegView) (spec : StableVersionSpec) (ver : ConfigVersion) : Prop :=
  ∃ d st, defines v (sv_Tenant spec) (sv_Key spec) d ∧
          rv_state v (d_ID d) (sv_Environment spec) = Some st ∧
          es_StableVersionID st = v_ID ver.

(** [holds documents v d]: the registry [v] is as the document [d] of
    [documents] asks.  Rollouts are not part of the registry. *)
Definition holds (documents : list ManifestDocument) (v : RegView) (d : ManifestDocument) : Prop :=
  match doc_kind d with
  | IsTenant => is_Some (rv_tenants v !! doc_name d)
  | IsConfigDefinition =>
      let spec := m_ConfigDefinition (mo_Manifest d) in
      ∃ def, defines v (ds_Tenant spec) (ds_Key spec) def ∧
             EqualJSON (JsonText.Compact (d_Schema def)) (ds_Schema spec) = true ∧
             (ds_Default spec ≠ "" →
              EqualJSON (shown_default (d_DefaultValue def)) (ds_Default spec) = true)
  | IsConfigVersion => ∃ ver, has_version v (m_ConfigVersion (mo_Manifest d)) ver
  | IsStableVersion =>
      let spec := m_StableVersion (mo_Manifest d) in
      ∃ vd ver, vd ∈ documents ∧ version_named (sv_VersionRef spec) vd ∧
                has_version v (m_ConfigVersion (mo_Manifest vd)) ver ∧ has_stable v spec ver
  | IsRollout | IsOther => True
  end.

(** The names of a document that become parts of a path are carried by it, and
    its values can be read back. *)
Definition portable_document (d : ManifestDocument) : Prop :=
  match doc_kind d with
  | IsTenant => addressable (doc_name d)
  | IsConfigDefinition =>
      let spec := m_ConfigDefinition (mo_Manifest d) in
      addressable (ds_Tenant spec) ∧ addressable (ds_Key spec) ∧ readable (ds_Schema spec) ∧
      (ds_Default spec = "" ∨ readable (ds_Default spec))
  | IsConfigVersion =>
      let spec := m_ConfigVersion (mo_Manifest d) in
      addressable (vs_Tenant spec) ∧ addressable (vs_Key spec) ∧ readable (vs_Value spec)
  | IsStableVersion =>
      let spec := m_StableVersion (mo_Manifest d) in
      addressable (sv_Tenant spec) ∧ addressable (sv_Key spec) ∧ addressable (sv_Environment spec)
  | IsRollout | IsOther => True
  end.
#[export] Instance portable_document_dec d : Decision (portable_document d).
Proof. unfold portable_document. destruct (doc_kind d); apply _. Defined.

(** No two documents set the stable version of an environment differently. *)
Definition one_stable (documents : list ManifestDocument) : Prop :=
  ∀ d d', d ∈ documents → d' ∈ documents →
    m_Kind (mo_Manifest d) = KindStableVersion → m_Kind (mo_Manifest d') = KindStableVersion →
    let s := m_StableVersion (mo_Manifest d) in let s' := m_StableVersion (mo_Manifest d') in
    sv_Tenant s = sv_Tenant s' → sv_Key s = sv_Key s' → sv_Environment s = sv_Environment s' →
    sv_VersionRef s = sv_VersionRef s'.

(** ** Comparison of JSON texts *)

Lemma EqualJSON_sent `{!JsonAnyLaws} s :
  readable s → EqualJSON (JsonText.Compact (JsonText.Compact s)) s = true.
Proof.
  unfold readable, EqualJSON. destruct (json_Unmarshal_any s) as [x|e] eqn:Hs; [|done]. intros _.
  rewrite (json_compact _ _ (json_compact _ _ Hs)). by apply bool_decide_eq_true.
Qed.

Lemma shown_default_sent `{!JsonAnyLaws} s :
  s ≠ "" → readable s → EqualJSON (shown_default (shown_default s)) s = true.
Proof.
  intros Hne Hs. unfold shown_default at 2. rewrite (proj2 (empty_str_false _) Hne).
  unfold shown_default. destruct (empty_str (JsonText.Compact s)) eqn:E; [|by apply EqualJSON_sent].
  exfalso. unfold readable in Hs. destruct (json_Unmarshal_any s) as [x|] eqn:Hx; [|done].
  apply json_compact in Hx. apply empty_str_true in E. rewrite E in Hx.
  pose proof json_empty as Hno. by rewrite Hx in Hno.
Qed.

Lemma first_equal_app value l l' ver :
  first_equal value l = Some ver → first_equal value (l ++ l') = Some ver.
Proof.
  unfold first_equal. rewrite filter_app. by destruct (filter _ l).
Qed.

Lemma first_equal_snoc value l ver :
  first_equal value l = None → EqualJSON (JsonText.Compact (v_Value ver)) value = true →
  first_equal value (l ++ [ver]) = Some ver.
Proof.
  unfold first_equal. rewrite filter_app. destruct (filter _ l); [|done]. intros _ Heq.
  by rewrite filter_cons_True.
Qed.

Lemma find_equal_first value found versions :
  Forall2 same_version found versions →
  match find_equal value found with
  | Some r => ∃ ver, first_equal value versions = Some ver ∧ same_version r ver
  | None => first_equal value versions = None
  end.
Proof.
  unfold first_equal. induction 1 as [|r v found versions Hrv _ IH]; [done|]. simpl.
  pose proof Hrv as (_ & _ & ->).
  destruct (EqualJSON (JsonText.Compact (v_Value v)) value) eqn:E.
  - rewrite filter_cons_True by done. eauto.
  - rewrite filter_cons_False by congruence. done.
Qed.

(** * Registries that grow *)

(** What the first three phases leave in place: tenants, definitions, and the
    versions with their order. *)
Definition grows (v v' : RegView) : Prop :=
  (∀ id, is_Some (rv_tenants v !! id) → is_Some (rv_tenants v' !! id)) ∧
  (∀ id d, rv_definitions v !! id = Some d → rv_definitions v' !! id = Some d) ∧
  (∀ id, ∃ more, rv_versions v' id = rv_versions v id ++ more).

#[export] Instance grows_refl : Reflexive grows.
Proof. intros v. split_and!; eauto. intros id. exists []. by rewrite app_nil_r. Qed.

Lemma grows_put_tenant t v v' : put_tenant t v v' → grows v v'.
Proof.
  intros (Ht & Hd & Hv & _). split_and!.
  - intros id. rewrite Ht. intros Hs. by apply lookup_insert_is_Some'; right.
  - intros id d. by rewrite Hd.
  - intros id. exists []. by rewrite Hv, app_nil_r.
Qed.
Lemma grows_put_definition d v v' :
  rv_definitions v !! d_ID d = None → put_definition d v v' → grows v v'.
Proof.
  intros Hnew (Ht & Hd & Hv & _). split_and!.
  - intros id. by rewrite Ht.
  - intros id d'. rewrite Hd, lookup_insert_Some. intros Hl. right. split; [congruence|done].
  - intros id. exists []. by rewrite Hv, app_nil_r.
Qed.
Lemma grows_add_version ver v v' : add_version ver v v' → grows v v'.
Proof.
  intros (Ht & Hd & Hv & _). split_and!.
  - intros id. by rewrite Ht.
  - intros id d. by rewrite Hd.
  - intros id. rewrite Hv. case_decide; [by exists [ver]|exists []; by rewrite app_nil_r].
Qed.
Lemma grows_put_state st v v' : put_state st v v' → grows v v'.
Proof.
  intros (Ht & Hd & Hv & _). split_and!.
  - intros id. by rewrite Ht.
  - intros id d. by rewrite Hd.
  - intros id. exists []. by rewrite Hv, app_nil_r.
Qed.

Lemma grows_defines v v' tenant key d : grows v v' → defines v tenant key d → defines v' tenant key d.
Proof. intros (_ & Hd & _) (? & ? & ?). split_and!; eauto. Qed.
Lemma grows_has_version v v' spec ver : grows v v' → has_version v spec ver → has_version v' spec ver.
Proof.
  intros Hg (d & Hd & Hf). exists d. split; [by eapply grows_defines|].
  destruct Hg as (_ & _ & Hv). destruct (Hv (d_ID d)) as [more ->]. by apply first_equal_app.
Qed.

Lemma defines_unique v tenant key d d' :
  reg_ok v → defines v tenant key d → defines v tenant key d' → d = d'.
Proof.
  intros Hok (Hl & ? & ?) (Hl' & ? & ?).
  assert (d_ID d = d_ID d') as He by (eapply (ok_unique_key _ Hok); [exact Hl|exact Hl'|congruence|congruence]).
  rewrite He in Hl. congruence.
Qed.
Lemma has_version_unique v spec ver ver' :
  reg_ok v → has_version v spec ver → has_version v spec ver' → ver = ver'.
Proof.
  intros Hok (d & Hd & Hf) (d' & Hd' & Hf').
  rewrite (defines_unique _ _ _ _ _ Hok Hd Hd') in Hf. congruence.
Qed.

End Spec.

End ConfigSpec.
