(* ===== verification/ConfigConverge.v ===== *)
(** An application of validated manifests that succeeds leaves a registry that
    holds them, and an application to such a registry writes nothing. *)

From Stdlib Require Import ZArith Lia Ascii.
From S2P Require Import Prelude GoLib Host Http Mux JsonText Domain Registry RegistrySpec ConfigCode ConfigApply ConfigFacts ConfigSpec.
Import Domain ConfigCode ConfigApply ConfigFacts RegistrySpec ConfigSpec.
Open Scope string_scope.
Open Scope list_scope.
Open Scope Z_scope.

Module ConfigConverge.

Section Converge.
Context {W : Type} `{HttpClient W, JsonAny, !JsonAnyLaws}.
Context `{Decoder tenantResponse, Decoder definitionResponse, Decoder versionResponse,
  Decoder (list versionResponse), Decoder environmentStateResponse}.
Context `{Encoder createTenantRequest, Encoder createDefinitionRequest,
  Encoder createVersionRequest, Encoder setStableVersionRequest, Encoder createRolloutRequest}.
Context (a : ApplyOptions) (api_inv : W → Prop) (api_view : W → RegView)
  `{!ControlPlaneApi a api_inv api_view}.
Context (validator : ConfigRegistry.SchemaValidator) (documents : list ManifestDocument).
Context (Hvalid : validated validator documents) (Hone : one_stable documents)
  (Haddr : Forall portable_document documents).

(** The versions the state of the application refers to. *)
Definition resolved (v : RegView) (state : applyState) : Prop :=
  ∀ name r, state !! name = Some r →
    ∃ vd ver, vd ∈ documents ∧ version_named name vd ∧
      has_version v (m_ConfigVersion (mo_Manifest vd)) ver ∧
      vr_ID r = v_ID ver ∧ vr_VersionNumber r = v_VersionNumber ver.

Lemma resolved_grows v v' state : grows v v' → resolved v state → resolved v' state.
Proof.
  intros Hg Hr name r Hl. destruct (Hr name r Hl) as (vd & ver & ? & ? & ? & ? & ?).
  exists vd, ver. split_and!; try done. by eapply grows_has_version.
Qed.

(** Documents of the first three kinds stay held while the registry grows. *)
Lemma holds_grows v v' d :
  grows v v' → (rank d ≤ 2)%nat → holds documents v d → holds documents v' d.
Proof.
  intros Hg. unfold rank, kind_rank, holds. destruct (doc_kind d); try lia; intros _.
  - by apply Hg.
  - intros (def & ? & ? & ?). exists def. split_and!; try done. by eapply grows_defines.
  - intros [ver ?]. exists ver. by eapply grows_has_version.
Qed.

(** What one document does, when it succeeds. *)
Definition applied (v v' : RegView) (state : applyState) (d : ManifestDocument) : Prop :=
  grows v v' ∧ resolved v' state ∧ holds documents v' d ∧
  ∀ d', d' ∈ documents → (rank d' ≤ rank d)%nat → holds documents v d' → holds documents v' d'.

Lemma applied_small v v' state d :
  (rank d ≤ 2)%nat → grows v v' → resolved v' state → holds documents v' d →
  applied v v' state d.
Proof.
  intros Hr Hg Hs Hh. split_and!; try done. intros d' _ Hle. apply holds_grows; [done|lia].
Qed.

(** The outcome of a document: nothing is said of a failure. *)
Definition good (w : W) (d : ManifestDocument) (o : res (Outcome * applyState)) (w' : W) : Prop :=
  match o with
  | Ok (_, None, state) => api_inv w' ∧ applied (api_view w) (api_view w') state d
  | _ => True
  end.

Lemma portable_of d : d ∈ documents → portable_document d.
Proof. intros Hd. by eapply Forall_forall in Haddr. Qed.

Ltac use_api law :=
  eapply wp_mono; [eapply law; solve [eassumption | eauto]|]; cbv beta.

(** [outcome step m] succeeds when [m] does. *)
Lemma wp_outcome step (m : M W ApplyStep) (Q : res Outcome → W → Prop) w :
  wp m (λ r w', Q (Ok match r with Ok done => (done, None) | Err e => (step, Some e) end) w') w →
  wp (outcome step m) Q w.
Proof. intros Hm. unfold outcome. wp_step. wp_step. eapply wp_mono; [exact Hm|]. intros r w' HQ. by destruct r. Qed.

(** A fresh [M W Outcome] kept with the state. *)
Abbreviation kept m state := (o ← m; mret (o, state) : M W (Outcome * applyState)).

Lemma wp_kept (m : M W Outcome) (state : applyState) (Q : res (Outcome * applyState) → W → Prop) w :
  wp m (λ r w', match r with Ok o => Q (Ok (o, state)) w' | Err e => Q (Err e) w' end) w →
  wp (kept m state) Q w.
Proof. intros Hm. wp_step. eapply wp_mono; [exact Hm|]. by intros [o|e]. Qed.

Section Step.
Context (ctx : Context) (d : ManifestDocument) (state : applyState) (w : W).
Context (Hd : d ∈ documents) (Hinv : api_inv w) (Hres : resolved (api_view w) state).
Abbreviation m := (mo_Manifest d).

Lemma step_tenant :
  doc_kind d = IsTenant → wp (kept (applyTenant a ctx m) state) (good w d) w.
Proof.
  intros Hk. pose proof (portable_of d Hd) as Ha. unfold portable_document in Ha.
  rewrite Hk in Ha.
  assert (∀ v', grows (api_view w) v' → is_Some (rv_tenants v' !! doc_name d) →
    applied (api_view w) v' state d) as Hdone.
  { intros v' Hg Hs. apply applied_small; [unfold rank, kind_rank; rewrite Hk; lia|done| |].
    - by eapply resolved_grows.
    - unfold holds. by rewrite Hk. }
  apply wp_kept, wp_outcome. wp_step. use_api api_GetTenant.
  intros [[status found]|e] w1; [|done]. intros (Hi & Hv & H200 & H404). simpl.
  destruct (status =? StatusOK) eqn:E1.
  { apply wp_ret. simpl. split; [done|]. rewrite Hv. apply Hdone; [reflexivity|apply H200; lia]. }
  destruct (status =? StatusNotFound) eqn:E2; simpl; [|by apply wp_throw].
  wp_step. use_api api_CreateTenant. intros [body|e] w2; [|done]. intros [Hi2 (t & Ht & Hput)].
  apply wp_ret. simpl. split; [done|]. rewrite <-Hv. rewrite Hv in Hput |- *.
  apply Hdone; [by eapply grows_put_tenant|].
  destruct Hput as (-> & _). apply lookup_insert_is_Some. left. exact Ht.
Qed.

Lemma step_definition :
  doc_kind d = IsConfigDefinition → wp (kept (applyDefinition a ctx m) state) (good w d) w.
Proof.
  intros Hk. pose proof (portable_of d Hd) as Ha. unfold portable_document in Ha.
  rewrite Hk in Ha. destruct Ha as (Hat & Hak & Has & Had).
  set (spec := m_ConfigDefinition m) in *.
  assert (∀ v' def, grows (api_view w) v' → defines v' (ds_Tenant spec) (ds_Key spec) def →
    EqualJSON (JsonText.Compact (d_Schema def)) (ds_Schema spec) = true →
    (ds_Default spec ≠ "" →
     EqualJSON (shown_default (d_DefaultValue def)) (ds_Default spec) = true) →
    applied (api_view w) v' state d) as Hdone.
  { intros v' def Hg ???. apply applied_small; [unfold rank, kind_rank; rewrite Hk; lia|done| |].
    - by eapply resolved_grows.
    - unfold holds. rewrite Hk. by exists def. }
  apply wp_kept, wp_outcome. fold spec. wp_step. use_api api_GetDefinition.
  intros [[status found]|e] w1; [|done]. intros (Hi & Hv & H200 & H404). simpl.
  destruct (status =? StatusOK) eqn:E1.
  { destruct H200 as (def & Hdef & Hs & Hdv); [lia|].
    wp_step. apply wp_guard; [done|intros Hsame]. wp_step. apply wp_guard; [done|intros Hdef'].
    apply wp_ret. simpl. split; [done|].
    rewrite Hv. eapply Hdone; [reflexivity|exact Hdef| |].
    - rewrite <-Hs. by apply negb_false_iff.
    - intros Hne. apply andb_false_iff in Hdef' as [Hf|Hf].
      + by apply negb_false_iff, empty_str_true in Hf.
      + rewrite <-Hdv. by apply negb_false_iff. }
  destruct (status =? StatusNotFound) eqn:E2; simpl; [|by apply wp_throw].
  wp_step. use_api api_CreateDefinition. intros [body|e] w2; [|done]. simpl.
  intros [Hi2 (def & Ht & Hkey & Hnew & Hs & Hdv & Hput)].
  apply wp_ret. simpl. split; [done|]. rewrite Hv in Hput, Hnew.
  apply (Hdone _ def); [by eapply grows_put_definition| | |].
  - destruct Hput as (_ & Hdefs & _). split_and!; [|done|done]. by rewrite Hdefs, lookup_insert_eq.
  - rewrite Hs. by apply EqualJSON_sent.
  - intros Hne. rewrite Hdv. simpl. destruct Had as [|Had]; [done|].
    by apply shown_default_sent.
Qed.

Lemma step_version :
  doc_kind d = IsConfigVersion → wp (applyVersion a ctx m state) (good w d) w.
Proof.
  intros Hk. pose proof (portable_of d Hd) as Ha. unfold portable_document in Ha.
  rewrite Hk in Ha. destruct Ha as (Hat & Hak & Has).
  set (spec := m_ConfigVersion m) in *.
  assert (∀ v' r ver, grows (api_view w) v' → has_version v' spec ver → vr_ID r = v_ID ver →
    vr_VersionNumber r = v_VersionNumber ver →
    applied (api_view w) v' (<[doc_name d := r]> state) d) as Hdone.
  { intros v' r ver Hg Hver ??. apply applied_small; [unfold rank, kind_rank; rewrite Hk; lia|done| |].
    - intros name r' [[<- <-]|[_ Hl]]%lookup_insert_Some; [|by eapply resolved_grows].
      exists d, ver. split_and!; try done. apply kind_of_name in Hk; [|done].
      split; [by simplify_eq/=|done].
    - unfold holds. rewrite Hk. by exists ver. }
  unfold applyVersion. fold spec. wp_step. wp_step. unfold resolve_version. wp_step.
  unfold listVersions. wp_step. use_api api_ListVersions.
  intros [[status found]|e] w1; [|done]. intros (Hi & Hv & H200). simpl.
  destruct (status =? StatusOK) eqn:E1; simpl; [|by apply wp_throw].
  apply wp_ret. destruct H200 as (def & Hdef & Hall); [lia|].
  pose proof (find_equal_first (vs_Value spec) _ _ Hall) as Hfind.
  destruct (find_equal (vs_Value spec) found) as [r|].
  { destruct Hfind as (ver & Hf & Hid & Hnum & _). apply wp_ret, wp_ret. simpl. split; [done|].
    rewrite Hv. apply (Hdone _ _ ver); try done. by exists def. }
  wp_step. use_api api_CreateVersion. intros [body|e] w2; [|done]. simpl.
  intros [Hi2 (def' & ver & Hdef' & Hvid & Hj & Hadd & Hdec)].
  wp_step. apply wp_lift. destruct (json_Decode body) as [created|e]; [|done].
  destruct (Hdec created eq_refl) as (Hid & Hnum & _).
  apply wp_ret. simpl. split; [done|]. rewrite Hv in Hadd, Hdef'.
  apply (Hdone _ _ ver); [by eapply grows_add_version| |done|done].
  rewrite (defines_unique _ _ _ _ _ (api_ok _ Hinv) Hdef' Hdef) in Hvid.
  exists def. split; [by eapply grows_defines; [eapply grows_add_version|]|].
  destruct Hadd as (_ & _ & Hvs & _). rewrite Hvs, decide_True by congruence.
  apply first_equal_snoc; [done|]. rewrite Hj. by apply EqualJSON_sent.
Qed.

(** The document of the version a stable version refers to. *)
Lemma stable_reference vd :
  doc_kind d = IsStableVersion → vd ∈ documents →
  version_named (sv_VersionRef (m_StableVersion m)) vd →
  vs_Tenant (m_ConfigVersion (mo_Manifest vd)) = sv_Tenant (m_StableVersion m) ∧
  vs_Key (m_ConfigVersion (mo_Manifest vd)) = sv_Key (m_StableVersion m).
Proof.
  intros Hk Hvd Hn. destruct (validated_manifest _ _ d Hvalid Hd) as (_ & _ & Hm).
  rewrite Hk in Hm. unfold validate_stable in Hm. apply app_nil in Hm as [_ Hm].
  apply reference_resolves in Hm as (vd' & Hvd' & Hn' & ? & ?).
  by rewrite (version_unique _ _ _ _ _ Hvalid Hvd Hvd' Hn Hn').
Qed.

End Step.

(** A version is found by its number. *)
Lemma version_by_number v spec ver def ver' :
  reg_ok v → has_version v spec ver → defines v (vs_Tenant spec) (vs_Key spec) def →
  ver' ∈ rv_versions v (d_ID def) → v_VersionNumber ver' = v_VersionNumber ver → ver' = ver.
Proof.
  intros Hok (def' & Hdef' & Hf) Hdef Hin Hnum.
  rewrite (defines_unique _ _ _ _ _ Hok Hdef' Hdef) in Hf.
  assert (ver ∈ rv_versions v (d_ID def)) as Hin2.
  { unfold first_equal in Hf. apply head_Some_elem_of in Hf. by apply list_elem_of_filter in Hf as []. }
  apply list_elem_of_lookup in Hin as [i Hi], Hin2 as [j Hj].
  destruct (ok_version _ Hok _ _ _ Hi) as (_ & Hni & _), (ok_version _ Hok _ _ _ Hj) as (_ & Hnj & _).
  assert (i = j) as <- by lia. congruence.
Qed.

(** Setting a stable version keeps what the other documents ask. *)
Lemma stable_applied v v' d state vd ver def st :
  reg_ok v → d ∈ documents → doc_kind d = IsStableVersion →
  vd ∈ documents → version_named (sv_VersionRef (m_StableVersion (mo_Manifest d))) vd →
  has_version v (m_ConfigVersion (mo_Manifest vd)) ver →
  defines v (sv_Tenant (m_StableVersion (mo_Manifest d))) (sv_Key (m_StableVersion (mo_Manifest d))) def →
  es_ConfigDefinitionID st = d_ID def →
  es_Environment st = sv_Environment (m_StableVersion (mo_Manifest d)) →
  es_StableVersionID st = v_ID ver → put_state st v v' →
  resolved v state → applied v v' state d.
Proof.
  intros Hok Hd Hk Hvd Hn Hver Hdef Hid Henv Hst Hput Hres.
  pose proof (grows_put_state _ _ _ Hput) as Hg.
  assert (∀ id env, no_nul id → rv_state v' id env =
    if decide (id = d_ID def ∧ env = es_Environment st) then Some st else rv_state v id env) as Hstate.
  { rewrite <-Hid. apply Hput. }
  assert (∀ t k def', defines v t k def' → no_nul (d_ID def')) as Hnn.
  { intros t k def' (Hl & _). by apply (ok_definition _ Hok) in Hl as (_ & ? & _). }
  split_and!; [done|by eapply resolved_grows| |].
  - unfold holds. rewrite Hk. exists vd, ver. split_and!; try done; [by eapply grows_has_version|].
    exists def, st. split_and!; [by eapply grows_defines| |done].
    rewrite Hstate by eauto. by rewrite decide_True.
  - intros d' Hd' Hle Hh. destruct (decide (rank d' ≤ 2)%nat) as [Hsmall|Hbig]; [by eapply holds_grows|].
    assert (doc_kind d' = IsStableVersion) as Hk'.
    { unfold rank, kind_rank in Hle, Hbig. rewrite Hk in Hle. destruct (doc_kind d'); lia || done. }
    unfold holds in Hh |- *. rewrite Hk' in Hh |- *.
    destruct Hh as (vd' & ver' & Hvd' & Hn' & Hver' & (def' & st' & Hdef' & Hst' & Hid')).
    exists vd', ver'. split_and!; try done; [by eapply grows_has_version|].
    assert (defines v' (sv_Tenant (m_StableVersion (mo_Manifest d')))
              (sv_Key (m_StableVersion (mo_Manifest d'))) def') as Hdef2 by (by eapply grows_defines).
    unfold has_stable. exists def'. setoid_rewrite Hstate; [|by eauto].
    case_decide as Hsame; [|by exists st'].
    exists st. split_and!; [done|done|]. rewrite Hst. f_equal.
    destruct Hsame as [Hsd Hse].
    assert (def' = def) as ->.
    { destruct Hdef as (Hl & _), Hdef' as (Hl' & _). rewrite Hsd in Hl'. congruence. }
    assert (sv_VersionRef (m_StableVersion (mo_Manifest d')) =
            sv_VersionRef (m_StableVersion (mo_Manifest d))) as Href.
    { destruct Hdef as (_ & ? & ?), Hdef' as (_ & ? & ?).
      apply kind_of_name in Hk, Hk'; try done. simplify_eq/=. eapply Hone; congruence. }
    rewrite Href in Hn'.
    rewrite (version_unique _ _ _ _ _ Hvalid Hvd' Hvd Hn' Hn) in Hver'.
    by eapply has_version_unique.
Qed.

Lemma step_stable ctx d state w :
  d ∈ documents → api_inv w → resolved (api_view w) state → doc_kind d = IsStableVersion →
  wp (kept (applyStableVersion a ctx (mo_Manifest d) state) state) (good w d) w.
Proof.
  intros Hd Hinv Hres Hk. pose proof (portable_of d Hd) as Ha.
  unfold portable_document in Ha. rewrite Hk in Ha. destruct Ha as (Hat & Hak & Hae).
  set (spec := m_StableVersion (mo_Manifest d)) in *. pose proof (api_ok _ Hinv) as Hok.
  apply wp_kept, wp_outcome. fold spec.
  destruct (state !! sv_VersionRef spec) as [r|] eqn:Hr; [|by apply wp_throw].
  destruct (Hres _ _ Hr) as (vd & ver & Hvd & Hn & Hver & Hid & Hnum).
  destruct (stable_reference d Hd vd Hk Hvd Hn) as [Htn Hky]. fold spec in Htn, Hky.
  wp_step. use_api api_GetStable. intros [[status found]|e] w1; [|done].
  intros (Hi & Hv & H200 & H404). simpl.
  destruct ((status =? StatusOK) && bool_decide (er_StableVersionID found = vr_ID r)) eqn:E1.
  { apply andb_true_iff in E1 as [E1 E2]. apply bool_decide_eq_true in E2.
    destruct H200 as (def & st & Hdef & Hst & Hes); [lia|]. apply wp_ret. simpl. split; [done|].
    rewrite Hv. split_and!; [reflexivity|done| |done].
    unfold holds. rewrite Hk. exists vd, ver. split_and!; try done.
    exists def, st. split_and!; [done|done|congruence]. }
  destruct (negb (status =? StatusOK) && negb (status =? StatusNotFound)); [by apply wp_throw|].
  wp_step. use_api api_SetStable. intros [body|e] w2; [|done]. simpl.
  intros [Hi2 (def & ver' & st & Hdef & Hin & Hn' & Hsid & Hsenv & Hstable & Hput)].
  apply wp_ret. simpl. split; [done|]. rewrite Hv in Hdef, Hin, Hput.
  eapply stable_applied; try done.
  rewrite Hstable. f_equal. eapply version_by_number; try done; [by rewrite Htn, Hky|].
  simpl in Hn'. congruence.
Qed.

(** ** The whole application *)

Context (Hdry : ao_DryRun a = false) (Hroll : ao_IncludeRollouts a = false).

Lemma resolved_empty v : resolved v ∅.
Proof. by intros name r ?%(lookup_empty_Some (M := gmap string)). Qed.

Lemma step_document ctx d state w :
  d ∈ documents → api_inv w → resolved (api_view w) state →
  wp (applyDocument a ctx (mo_Manifest d) state) (good w d) w.
Proof.
  intros Hd Hinv Hres. unfold applyDocument. rewrite Hdry, Hroll. cbn [negb].
  destruct (doc_kind d) eqn:Hk.
  - by apply step_tenant.
  - by apply step_definition.
  - by apply step_version.
  - by apply step_stable.
  - apply wp_ret. simpl. split; [done|]. split_and!; [reflexivity|done| |done].
    unfold holds. by rewrite Hk.
  - by apply wp_ret.
Qed.

Lemma apply_each_holds ctx rest : ∀ done state steps w,
  StronglySorted (λ d d', (rank d ≤ rank d')%nat) (done ++ rest) →
  (∀ d, d ∈ done ++ rest → d ∈ documents) →
  api_inv w → resolved (api_view w) state → (∀ d, d ∈ done → holds documents (api_view w) d) →
  wp (apply_each a ctx rest state steps) (λ r w',
    match r with
    | Ok (_, None) => api_inv w' ∧ ∀ d, d ∈ done ++ rest → holds documents (api_view w') d
    | _ => True
    end) w.
Proof.
  induction rest as [|d rest IH]; intros done state steps w Hsort Hin Hinv Hres Hh; simpl.
  { apply wp_ret. rewrite app_nil_r. done. }
  wp_step. eapply wp_mono; [apply step_document; [apply Hin; set_solver|done|done]|].
  intros [[[step [e|]] state']|e] w'; simpl; [intros _; by apply wp_ret| |done].
  intros (Hinv' & Hg & Hres' & Hd & Hkeep).
  specialize (IH (done ++ [d]) state' (steps ++ [step]) w').
  rewrite <-(assoc_L (++)) in IH. apply IH; try done.
  intros d' [Hd'| ->%list_elem_of_singleton]%elem_of_app; [|done].
  apply Hkeep; [apply Hin; set_solver| |by apply Hh].
  exact (StronglySorted_app_1_elem_of (λ d d', (rank d ≤ rank d')%nat) done (d :: rest) d' d
           Hsort Hd' ltac:(by left)).
Qed.

Theorem apply_establishes ctx w :
  api_inv w →
  wp (ApplyDocuments a ctx documents) (λ r w',
    match r with
    | Ok (_, None) => api_inv w' ∧ ∀ d, d ∈ documents → holds documents (api_view w') d
    | _ => True
    end) w.
Proof.
  intros Hinv. unfold ApplyDocuments. rewrite Hdry, andb_true_r.
  destruct (blank (ao_BaseURL a)); [by apply wp_ret|].
  eapply wp_mono; [apply (apply_each_holds ctx _ [])|].
  - apply orderDocuments_sorted.
  - intros d Hd. by apply elem_of_orderDocuments in Hd as [].
  - done.
  - apply resolved_empty.
  - intros d Hd. by apply elem_of_nil in Hd.
  - intros [[report [e|]]|e] w'; try done. intros [Hi Hh]. split; [done|].
    intros d Hd. apply Hh, elem_of_orderDocuments. split; [done|].
    by apply (validated_manifest _ _ d Hvalid Hd).
Qed.

(** ** Applying to a registry that holds the documents *)

(** Nothing is written, and a step that succeeds was skipped. *)
Definition quiet (w : W) (o : res (Outcome * applyState)) (w' : W) : Prop :=
  api_view w' = api_view w ∧
  match o with
  | Ok (step, None, state) =>
      api_inv w' ∧ resolved (api_view w') state ∧ sp_Status step = "skipped"
  | _ => True
  end.

Lemma quiet_version ctx d state w :
  doc_kind d = IsConfigVersion → d ∈ documents → api_inv w → resolved (api_view w) state →
  holds documents (api_view w) d → wp (applyVersion a ctx (mo_Manifest d) state) (quiet w) w.
Proof.
  intros Hk Hd Hinv Hres Hh. pose proof (portable_of d Hd) as Ha. unfold portable_document in Ha.
  pose proof (api_ok _ Hinv) as Hok. unfold holds in Hh. rewrite Hk in Ha, Hh.
  destruct Ha as (Hat & Hak & _), Hh as (ver & def & Hdef & Hf).
  unfold applyVersion. wp_step. wp_step. unfold resolve_version. wp_step.
  unfold listVersions. wp_step. use_api api_ListVersions.
  intros [[status found]|e] w1; [|by split]. intros (Hi & Hv & H200). simpl.
  destruct (status =? StatusOK) eqn:E1; simpl; [|by apply wp_throw].
  apply wp_ret. destruct H200 as (def' & Hdef' & Hall); [lia|].
  rewrite (defines_unique _ _ _ _ _ Hok Hdef' Hdef) in Hall.
  pose proof (find_equal_first (vs_Value (m_ConfigVersion (mo_Manifest d))) _ _ Hall) as Hfind.
  destruct (find_equal _ found) as [r|]; [|by rewrite Hf in Hfind].
  destruct Hfind as (ver' & Hf' & Hid & Hnum & _). apply wp_ret, wp_ret. unfold quiet.
  rewrite Hv. split_and!; try done.
  intros name r' [[<- <-]|[_ Hl]]%lookup_insert_Some; [|by apply Hres].
  exists d, ver'. split_and!; try done; [|by exists def].
  apply kind_of_name in Hk; [|done]. split; [by simplify_eq/=|done].
Qed.

Lemma quiet_document ctx d state w :
  d ∈ documents → api_inv w → resolved (api_view w) state → holds documents (api_view w) d →
  wp (applyDocument a ctx (mo_Manifest d) state) (quiet w) w.
Proof.
  intros Hd Hinv Hres Hh. unfold applyDocument. rewrite Hdry, Hroll. cbn [negb].
  pose proof (portable_of d Hd) as Ha. unfold portable_document in Ha.
  pose proof (api_ok _ Hinv) as Hok. unfold holds in Hh.
  destruct (doc_kind d) eqn:Hk.
  - apply wp_kept, wp_outcome. wp_step. use_api api_GetTenant.
    intros [[status found]|e] w1; [|by split]. intros (Hi & Hv & H200 & H404). simpl.
    destruct (status =? StatusOK) eqn:E1; [apply wp_ret; unfold quiet; by rewrite Hv|].
    destruct (status =? StatusNotFound) eqn:E2; simpl; [|by apply wp_throw].
    exfalso. destruct Hh as [t Ht]. rewrite H404 in Ht by lia. discriminate Ht.
  - destruct Ha as (Hat & Hak & _), Hh as (def & Hdef & Hs & Hdv).
    apply wp_kept, wp_outcome. wp_step. use_api api_GetDefinition.
    intros [[status found]|e] w1; [|by split]. intros (Hi & Hv & H200 & H404). simpl.
    destruct (status =? StatusOK) eqn:E1.
    { wp_step. apply wp_guard; [by split|intros _]. wp_step. apply wp_guard; [by split|intros _].
      apply wp_ret. unfold quiet. by rewrite Hv. }
    destruct (status =? StatusNotFound) eqn:E2; simpl; [|by apply wp_throw].
    exfalso. eapply H404; [lia|done].
  - apply quiet_version; [done..|]. unfold holds. by rewrite Hk.
  - destruct Ha as (Hat & Hak & Hae), Hh as (vd & ver & Hvd & Hn & Hver & def & st & Hdef & Hst & Hes).
    apply wp_kept, wp_outcome.
    destruct (state !! sv_VersionRef (m_StableVersion (mo_Manifest d))) as [r|] eqn:Hr;
      [|by apply wp_throw].
    destruct (Hres _ _ Hr) as (vd' & ver' & Hvd' & Hn' & Hver' & Hid & Hnum).
    rewrite (version_unique _ _ _ _ _ Hvalid Hvd' Hvd Hn' Hn) in Hver'.
    rewrite (has_version_unique _ _ _ _ Hok Hver' Hver) in Hid.
    wp_step. use_api api_GetStable. intros [[status found]|e] w1; [|by split].
    intros (Hi & Hv & H200 & H404). simpl.
    destruct (status =? StatusOK) eqn:E1; simpl.
    + destruct H200 as (def' & st' & Hdef' & Hst' & Hes'); [lia|].
      rewrite (defines_unique _ _ _ _ _ Hok Hdef' Hdef), Hst in Hst'. injection Hst' as <-.
      rewrite bool_decide_true by congruence. apply wp_ret. unfold quiet. by rewrite Hv.
    + destruct (status =? StatusNotFound) eqn:E2; simpl; [|by apply wp_throw].
      exfalso. rewrite (H404 ltac:(lia) def Hdef) in Hst. discriminate Hst.
  - by apply wp_ret.
  - by apply wp_ret.
Qed.

Lemma apply_each_quiet ctx rest : ∀ state steps w,
  (∀ d, d ∈ rest → d ∈ documents) → api_inv w → resolved (api_view w) state →
  (∀ d, d ∈ documents → holds documents (api_view w) d) →
  Forall (λ step, sp_Status step = "skipped") steps →
  wp (apply_each a ctx rest state steps) (λ r w', api_view w' = api_view w ∧
    match r with
    | Ok (report, None) => Forall (λ step, sp_Status step = "skipped") (ar_Steps report)
    | _ => True
    end) w.
Proof.
  induction rest as [|d rest IH]; intros state steps w Hin Hinv Hres Hh Hsk; simpl.
  { by apply wp_ret. }
  assert (d ∈ documents) as Hd by (apply Hin; by left).
  wp_step. eapply wp_mono; [apply quiet_document; auto|].
  intros [[[step [e|]] state']|e] w'; intros [Hv Hq].
  - apply wp_ret. by split.
  - destruct Hq as (Hi & Hres' & Hst). eapply wp_mono.
    { apply IH; try done; [intros d' Hd'; apply Hin; by right|by rewrite Hv|].
      apply Forall_app. split; [done|]. by apply Forall_singleton. }
    intros r w2 [Hv2 Hr]. by rewrite Hv2.
  - by split.
Qed.

Theorem apply_quiet ctx w :
  api_inv w → (∀ d, d ∈ documents → holds documents (api_view w) d) →
  wp (ApplyDocuments a ctx documents) (λ r w', api_view w' = api_view w ∧
    match r with
    | Ok (report, None) => Forall (λ step, sp_Status step = "skipped") (ar_Steps report)
    | _ => True
    end) w.
Proof.
  intros Hinv Hh. unfold ApplyDocuments. rewrite Hdry, andb_true_r.
  destruct (blank (ao_BaseURL a)); [by apply wp_ret|].
  apply apply_each_quiet; try done.
  - intros d Hd. by apply elem_of_orderDocuments in Hd as [].
Qed.

End Converge.
End ConfigConverge.
