(* ===== verification/ConfigDeploy.v ===== *)
(** The control plane as the network of an application of manifests: a request
    goes through the mux to its handler, and its answer is encoded.  The
    control plane keeps the promises of [ControlPlaneApi]. *)

From Stdlib Require Import ZArith Lia Ascii.
From S2P Require Import Prelude GoLib Host Http Mux JsonText Domain Registry RegistrySpec AgentRegistry RolloutService ControlPlane ConfigCode ConfigApply ConfigSpec.
Import Domain RegistrySpec ControlPlane ConfigSpec.
Open Scope string_scope.
Open Scope list_scope.
Open Scope Z_scope.

Module ConfigDeploy.

(** [base +:+ path], without the base. *)
Fixpoint strip_prefix (prefix s : string) : option string :=
  match prefix, s with
  | EmptyString, _ => Some s
  | String c prefix, String d s => if bool_decide (c = d) then strip_prefix prefix s else None
  | _, _ => None
  end.
Lemma strip_prefix_app prefix s : strip_prefix prefix (prefix +:+ s) = Some s.
Proof.
  induction prefix as [|c prefix IH]; [by destruct s|].
  change (strip_prefix (String c prefix) (String c (prefix +:+ s)) = Some s). cbn [strip_prefix].
  by rewrite bool_decide_true.
Qed.

Section Network.
Context {W : Type} `{Env W, !ConfigRegistry.Store W, !AgentRegistry.Store W, !RolloutService.Store W,
  !RolloutService.Registry W, !RolloutService.AgentSource W}.
Context `{!RequestDecoder createTenantRequest, !RequestDecoder createDefinitionRequest,
  !RequestDecoder createVersionRequest, !RequestDecoder setStableVersionRequest,
  !RequestDecoder registerAgentRequest, !RequestDecoder acknowledgementRequest,
  !RequestDecoder createRolloutRequest}.
(** [unrouted] is the answer to a request that reaches no handler. *)
Context (h : Handler W) (base : string) (encode : Payload → string)
  (unrouted : Context → HttpRequest → M W HttpResponse).

Definition body_of (resp : Response Payload) : string := default "" (encode <$> rs_payload resp).

Definition network : HttpClient W := λ ctx req,
  match path ← strip_prefix (TrimRight_slash base) (hq_URL req);
        Mux.dispatch routes (hq_Method req) path with
  | Some (route, values) =>
      resp ← handle h route ctx (MkRequest values (hq_Headers req) (hq_Body req));
      mret (MkHttpResponse (rs_status resp) (rs_etag resp) (Ok (body_of resp)))
  | None => unrouted ctx req
  end.
#[local] Existing Instance network.

Lemma wp_http ctx method path headers body route values (Q : res HttpResponse → W → Prop) w :
  Mux.dispatch routes method path = Some (route, values) →
  wp (handle h route ctx (MkRequest values headers body)) (λ r w',
    match r with
    | Ok resp => Q (Ok (MkHttpResponse (rs_status resp) (rs_etag resp) (Ok (body_of resp)))) w'
    | Err e => Q (Err e) w'
    end) w →
  wp (http_Do ctx (MkHttpRequest method (TrimRight_slash base +:+ path) headers body)) Q w.
Proof.
  intros Hd Hw. unfold http_Do, network. cbn [hq_Method hq_URL hq_Headers hq_Body].
  rewrite strip_prefix_app. cbn [mbind option_bind]. rewrite Hd. wp_step.
  eapply wp_mono; [exact Hw|]. by intros [resp|e].
Qed.

(** [Applier.get] and [Applier.post] of a request that reaches a handler. *)
Context (token : string) (dry rollouts : bool).
Abbreviation a := (ConfigApply.MkApplyOptions base token dry rollouts).

Lemma wp_get {T} `{ConfigApply.Decoder T} (dst : T) ctx path route values
    (Q : res (Z * T) → W → Prop) w :
  Mux.dispatch routes "GET" path = Some (route, values) →
  (∀ headers, wp (handle h route ctx (MkRequest values headers "")) (λ r w',
    match r with
    | Ok resp =>
        if rs_status resp =? StatusOK
        then match ConfigApply.json_Decode (body_of resp) with
             | Ok v => Q (Ok (StatusOK, v)) w'
             | Err e => Q (Err e) w'
             end
        else Q (Ok (rs_status resp, dst)) w'
    | Err e => Q (Err e) w'
    end) w) →
  wp (ConfigApply.get a dst ctx path) Q w.
Proof.
  intros Hd Hw. unfold ConfigApply.get, ConfigApply.get_request, ConfigApply.url. wp_step.
  eapply wp_http; [exact Hd|]. eapply wp_mono; [apply Hw|].
  intros [resp|e] w'; [|done]. cbn [hp_StatusCode hp_Body].
  destruct (rs_status resp =? StatusOK) eqn:E.
  - intros HQ. wp_step. wp_step. wp_step. wp_step.
    destruct (ConfigApply.json_Decode (body_of resp)) as [v|e]; [|exact HQ].
    apply wp_ret. by apply Z.eqb_eq in E as ->.
  - intros HQ. wp_step. wp_step. by apply wp_ret.
Qed.

Lemma wp_post {T} `{ConfigApply.Encoder T} ctx path (payload : T) status route values
    (Q : res string → W → Prop) w :
  Mux.dispatch routes "POST" path = Some (route, values) →
  (∀ e w', Q (Err e) w') →
  (∀ body headers, ConfigApply.json_Encode payload = Ok body →
    wp (handle h route ctx (MkRequest values headers body)) (λ r w',
      match r with
      | Ok resp => rs_status resp = status → Q (Ok (body_of resp)) w'
      | Err e => True
      end) w) →
  wp (ConfigApply.post a ctx path payload status) Q w.
Proof.
  intros Hd HE Hw. unfold ConfigApply.post, ConfigApply.post_request, ConfigApply.url.
  wp_step. wp_step. destruct (ConfigApply.json_Encode payload) as [body|e] eqn:Hb; [|apply HE].
  wp_step. eapply wp_http; [exact Hd|]. eapply wp_mono; [by apply Hw|].
  intros [resp|e] w'; [|by intros _; apply HE]. cbn [hp_StatusCode hp_Body]. intros HQ.
  destruct (rs_status resp =? status) eqn:E; cbn [negb].
  - apply wp_lift, HQ. by apply Z.eqb_eq in E.
  - wp_step. wp_step. apply wp_throw, HE.
Qed.

(** * The requests of an application reach their handlers *)

Definition with_tenant (tenant : string) : gmap string string := <["tenant" := tenant]> ∅.
Definition with_key (tenant key : string) : gmap string string :=
  <["tenant" := tenant]> (<["key" := key]> ∅).
Definition with_environment (tenant key env : string) : gmap string string :=
  <["tenant" := tenant]> (<["key" := key]> (<["environment" := env]> ∅)).

(** The paths as lists of segments. *)
Lemma tenant_path t :
  "/v1/tenants/" +:+ ConfigApply.escape t =
  Mux.join [Mux.Text "v1"; Mux.Text "tenants"; Mux.Name t].
Proof. rewrite <-(str_app_nil_r (ConfigApply.escape t)). reflexivity. Qed.
Lemma configs_path t :
  "/v1/tenants/" +:+ ConfigApply.escape t +:+ "/configs" =
  Mux.join [Mux.Text "v1"; Mux.Text "tenants"; Mux.Name t; Mux.Text "configs"].
Proof. reflexivity. Qed.
Lemma config_path t k :
  ConfigApply.configPath t k =
  Mux.join [Mux.Text "v1"; Mux.Text "tenants"; Mux.Name t; Mux.Text "configs"; Mux.Name k].
Proof.
  unfold ConfigApply.configPath. rewrite <-(str_app_nil_r (ConfigApply.escape k)). reflexivity.
Qed.
Lemma versions_path t k :
  ConfigApply.configPath t k +:+ "/versions" =
  Mux.join [Mux.Text "v1"; Mux.Text "tenants"; Mux.Name t; Mux.Text "configs"; Mux.Name k;
            Mux.Text "versions"].
Proof. unfold ConfigApply.configPath. rewrite !str_app_assoc. reflexivity. Qed.
Lemma stable_path t k e :
  ConfigApply.stablePath t k e =
  Mux.join [Mux.Text "v1"; Mux.Text "tenants"; Mux.Name t; Mux.Text "configs"; Mux.Name k;
            Mux.Text "environments"; Mux.Name e; Mux.Text "stable"].
Proof. reflexivity. Qed.

(** The mux recovers the names. *)
Ltac routed path :=
  intros; rewrite path, Mux.dispatch_join;
  [reflexivity|rewrite !Forall_cons, Forall_nil; split_and!; first [assumption | by split | done]].

Lemma dispatch_create_tenant :
  Mux.dispatch routes "POST" "/v1/tenants" = Some (CreateTenant_, ∅).
Proof. reflexivity. Qed.
Lemma dispatch_tenant t : Mux.routable t →
  Mux.dispatch routes "GET" ("/v1/tenants/" +:+ ConfigApply.escape t) =
  Some (GetTenant_, with_tenant t).
Proof. routed tenant_path. Qed.
Lemma dispatch_create_definition t : Mux.routable t →
  Mux.dispatch routes "POST" ("/v1/tenants/" +:+ ConfigApply.escape t +:+ "/configs") =
  Some (CreateDefinition_, with_tenant t).
Proof. routed configs_path. Qed.
Lemma dispatch_definition t k : Mux.routable t → Mux.routable k →
  Mux.dispatch routes "GET" (ConfigApply.configPath t k) = Some (GetDefinition_, with_key t k).
Proof. routed config_path. Qed.
Lemma dispatch_versions t k : Mux.routable t → Mux.routable k →
  Mux.dispatch routes "GET" (ConfigApply.configPath t k +:+ "/versions") =
  Some (ListVersions_, with_key t k).
Proof. routed versions_path. Qed.
Lemma dispatch_create_version t k : Mux.routable t → Mux.routable k →
  Mux.dispatch routes "POST" (ConfigApply.configPath t k +:+ "/versions") =
  Some (CreateVersion_, with_key t k).
Proof. routed versions_path. Qed.
Lemma dispatch_stable t k e : Mux.routable t → Mux.routable k → Mux.routable e →
  Mux.dispatch routes "GET" (ConfigApply.stablePath t k e) =
  Some (GetStableVersion_, with_environment t k e).
Proof. routed stable_path. Qed.
Lemma dispatch_set_stable t k e : Mux.routable t → Mux.routable k → Mux.routable e →
  Mux.dispatch routes "POST" (ConfigApply.stablePath t k e) =
  Some (SetStableVersion_, with_environment t k e).
Proof. routed stable_path. Qed.

(** * The promises of the interface *)

Context `{!ConfigApply.Decoder ConfigApply.tenantResponse,
  !ConfigApply.Decoder ConfigApply.definitionResponse,
  !ConfigApply.Decoder ConfigApply.versionResponse,
  !ConfigApply.Decoder (list ConfigApply.versionResponse),
  !ConfigApply.Decoder ConfigApply.environmentStateResponse}.
Context `{!ConfigApply.Encoder ConfigApply.createTenantRequest,
  !ConfigApply.Encoder ConfigApply.createDefinitionRequest,
  !ConfigApply.Encoder ConfigApply.createVersionRequest,
  !ConfigApply.Encoder ConfigApply.setStableVersionRequest}.

(** What the JSON encoders and decoders of the two sides make of a body: a
    string that is valid UTF-8 and a number arrive unchanged, a raw value
    compacted; an empty default is omitted. *)
Class ApiCodec := {
  sent_tenant : ∀ q text, ConfigApply.json_Encode q = Ok text →
    utf8_valid (ConfigApply.tq_ID q) = true →
    ∃ q', json_DecodeStrict text = Ok q' ∧ tq_ID q' = ConfigApply.tq_ID q;
  sent_definition : ∀ q text, ConfigApply.json_Encode q = Ok text →
    utf8_valid (ConfigApply.dq_Key q) = true →
    ∃ q', json_DecodeStrict text = Ok q' ∧ dq_Key q' = ConfigApply.dq_Key q ∧
          dq_Schema q' = JsonText.Compact (ConfigApply.dq_Schema q) ∧
          dq_Default q' = shown_default (ConfigApply.dq_Default q);
  sent_version : ∀ q text, ConfigApply.json_Encode q = Ok text →
    ∃ q', json_DecodeStrict text = Ok q' ∧ vq_Value q' = JsonText.Compact (ConfigApply.vq_Value q);
  sent_stable : ∀ q text, ConfigApply.json_Encode q = Ok text →
    ∃ q', json_DecodeStrict text = Ok q' ∧ sq_VersionNumber q' = ConfigApply.sq_VersionNumber q;
  shown_definition : ∀ d r, ConfigApply.json_Decode (encode (PDefinition d)) = Ok r →
    ConfigApply.dr_Schema r = JsonText.Compact (dr_Schema d) ∧
    ConfigApply.dr_DefaultValue r = shown_default (dr_DefaultValue d);
  shown_version : ∀ v r, utf8_valid (vr_ID v) = true →
    ConfigApply.json_Decode (encode (PVersion v)) = Ok r →
    ConfigApply.vr_ID r = vr_ID v ∧ ConfigApply.vr_VersionNumber r = vr_VersionNumber v ∧
    ConfigApply.vr_Value r = JsonText.Compact (vr_Value v);
  shown_versions : ∀ l r, Forall (λ v, utf8_valid (vr_ID v) = true) l →
    ConfigApply.json_Decode (encode (PVersions l)) = Ok r →
    Forall2 (λ r v, ConfigApply.vr_ID r = vr_ID v ∧
               ConfigApply.vr_VersionNumber r = vr_VersionNumber v ∧
               ConfigApply.vr_Value r = JsonText.Compact (vr_Value v)) r l;
  shown_state : ∀ e r, utf8_valid (er_StableVersionID e) = true →
    ConfigApply.json_Decode (encode (PEnvironmentState e)) = Ok r →
    ConfigApply.er_StableVersionID r = er_StableVersionID e }.

Context `{!ApiCodec} (failure : Context → error → Prop)
  (reg_inv : W → Prop) (reg_view : W → RegView) `{!StoreLaws W failure reg_inv reg_view}.
Context (frame : ∀ v, HostFrame (λ w, reg_inv w ∧ reg_view w = v)).

(** The identifiers of versions are valid text. *)
Definition ids_ok (v : RegView) : Prop :=
  ∀ id ver, ver ∈ rv_versions v id → utf8_valid (v_ID ver) = true.
Definition control_plane_ok (w : W) : Prop :=
  registry_inv reg_inv reg_view (h_registry h) w ∧ ids_ok (reg_view w).

Lemma ids_ok_same v v' : same_versions v v' → ids_ok v → ids_ok v'.
Proof. intros Hs Hids id ver. rewrite Hs. apply Hids. Qed.
Lemma ids_ok_add ver v v' :
  add_version ver v v' → utf8_valid (v_ID ver) = true → ids_ok v → ids_ok v'.
Proof.
  intros (_ & _ & Hv & _) Hver Hids id ver'. rewrite Hv. case_decide; [|apply Hids].
  intros [?| ->%list_elem_of_singleton]%elem_of_app; [by eapply Hids|done].
Qed.

(** A read: the invariant stays, and a 404 tells that the thing is absent. *)
Lemma wp_reply {A} write (call : M W A) k (Q : res (Response Payload) → W → Prop) w :
  wp call (λ r w', match r with Ok x => Q (Ok (k x)) w' | Err e => Q (Ok (write e)) w' end) w →
  wp (reply write call k) Q w.
Proof.
  intros Hw. unfold reply. wp_step. wp_step. eapply wp_mono; [exact Hw|]. by intros [x|e].
Qed.

Lemma failure_status e ctx : failure ctx e → rs_status (writeError e) ≠ StatusNotFound.
Proof.
  intros Hf. pose proof (law_failure _ _ Hf) as Hno. unfold writeError. rewrite Hno.
  by repeat case_match.
Qed.

Lemma writeError_not_200 e : (rs_status (writeError e) =? StatusOK) = false.
Proof. unfold writeError. by repeat case_match. Qed.
Lemma writeError_not_201 e : rs_status (writeError e) ≠ StatusCreated.
Proof. unfold writeError. by repeat case_match. Qed.

(** The path values of the routed requests. *)
Lemma value_tenant t hd b : PathValue (MkRequest (with_tenant t) hd b) "tenant" = t.
Proof. reflexivity. Qed.
Lemma value_key_tenant t k hd b : PathValue (MkRequest (with_key t k) hd b) "tenant" = t.
Proof. reflexivity. Qed.
Lemma value_key t k hd b : PathValue (MkRequest (with_key t k) hd b) "key" = k.
Proof. reflexivity. Qed.
Lemma value_env_tenant t k e hd b :
  PathValue (MkRequest (with_environment t k e) hd b) "tenant" = t.
Proof. reflexivity. Qed.
Lemma value_env_key t k e hd b : PathValue (MkRequest (with_environment t k e) hd b) "key" = k.
Proof. reflexivity. Qed.
Lemma value_env t k e hd b :
  PathValue (MkRequest (with_environment t k e) hd b) "environment" = e.
Proof. reflexivity. Qed.

(** A successful read of the registry: [post] tells what was found. *)
Lemma wp_get_read {A T} `{!ConfigApply.Decoder T} (dst : T) ctx path route values
    (call : M W A) (answer : A → Payload) (found : A → Prop) (absent : Prop) (shown : T → A → Prop) w :
  Mux.dispatch routes "GET" path = Some (route, values) →
  control_plane_ok w →
  (∀ headers, handle h route ctx (MkRequest values headers "") =
     reply writeError call (λ x, writeJSON StatusOK (answer x))) →
  wp call (λ r w', registry_inv reg_inv reg_view (h_registry h) w' ∧ reg_view w' = reg_view w ∧
    match r with
    | Ok x => found x
    | Err e => failure ctx e ∨ errors_Is e ConfigRegistry.ErrNotFound = true ∧ absent
    end) w →
  (∀ x v, found x → ConfigApply.json_Decode (encode (answer x)) = Ok v → shown v x) →
  wp (ConfigApply.get a dst ctx path) (λ r w', reg_view w' = reg_view w ∧
    match r with
    | Ok (status, v) => control_plane_ok w' ∧
        (status = StatusOK → ∃ x, found x ∧ shown v x) ∧ (status = StatusNotFound → absent)
    | Err _ => True
    end) w.
Proof.
  intros Hd [Hinv Hids] Hh Hcall Hshown. eapply wp_get; [exact Hd|]. intros headers. rewrite Hh.
  apply wp_reply. eapply wp_mono; [exact Hcall|].
  intros [x|e] w' (Hi & Hv & Hr); cbv beta iota.
  - cbn [rs_status writeJSON]. change (StatusOK =? StatusOK) with true. cbv iota.
    unfold body_of. cbn [rs_payload writeJSON default fmap option_fmap option_map].
    destruct (ConfigApply.json_Decode _) as [v|e] eqn:Hdec; split; try done.
    split; [split; [done|by rewrite Hv]|]. split; [|done]. intros _. exists x. eauto.
  - rewrite writeError_not_200. split; [done|].
    split; [split; [done|by rewrite Hv]|]. split; [intros H200|intros H404].
    + pose proof (writeError_not_200 e) as Hno. by rewrite H200 in Hno.
    + destruct Hr as [Hf|[_ Ha]]; [|done]. by apply failure_status in Hf.
Qed.

(** A write that succeeded. *)
Lemma wp_post_write {A S T} `{!ConfigApply.Encoder S, !RequestDecoder T} (q : S) ctx path route values status
    (call : T → M W A) (answer : A → Payload) (sent : T → Prop) (done_ : T → A → W → Prop) w :
  Mux.dispatch routes "POST" path = Some (route, values) →
  status ≠ StatusBadRequest →
  (∀ e, rs_status (writeError e) ≠ status) →
  (∀ headers body, handle h route ctx (MkRequest values headers body) =
     decodeRequest (MkRequest values headers body) (λ req : T,
       reply writeError (call req) (λ x, writeJSON status (answer x)))) →
  (∀ body, ConfigApply.json_Encode q = Ok body → ∃ req : T, json_DecodeStrict body = Ok req ∧ sent req) →
  (∀ req, sent req → wp (call req) (λ r w', match r with Ok x => done_ req x w' | Err _ => True end) w) →
  wp (ConfigApply.post a ctx path q status) (λ r w',
    match r with
    | Ok body => ∃ req x, sent req ∧ done_ req x w' ∧ body = encode (answer x)
    | Err _ => True
    end) w.
Proof.
  intros Hd Hbad Herr Hh Henc Hcall. eapply wp_post; [exact Hd|done|]. intros body headers Hb.
  rewrite Hh. unfold decodeRequest. cbn [rq_body]. destruct (Henc body Hb) as (req & -> & Hsent).
  apply wp_reply. eapply wp_mono; [by apply Hcall|]. intros [x|e] w'; cbv beta iota.
  - intros Hx _. exists req, x. done.
  - intros _ Hst. by apply Herr in Hst.
Qed.

(** Finish a read: rearrange the postcondition. *)
Ltac read_done :=
  intros [[status v]|e] w' [Hview Hpost]; [|exact Hview];
  destruct Hpost as (Hinv' & H200 & H404); split_and!; [exact Hinv'|exact Hview| |exact H404];
  intros Hstatus; destruct (H200 Hstatus) as (x & Hfound & Hshown).

Lemma GetTenant_promise ctx name w :
  control_plane_ok w → addressable name →
  wp (ConfigApply.get a (ConfigApply.MkTenantResponse "") ctx
        ("/v1/tenants/" +:+ ConfigApply.escape name)) (λ r w',
    match r with
    | Ok (status, _) => control_plane_ok w' ∧ reg_view w' = reg_view w ∧
        (status = StatusOK → is_Some (rv_tenants (reg_view w) !! name)) ∧
        (status = StatusNotFound → rv_tenants (reg_view w) !! name = None)
    | Err _ => reg_view w' = reg_view w
    end) w.
Proof.
  intros Hok (Hr & Hn & _). eapply wp_mono.
  { eapply (wp_get_read _ ctx _ GetTenant_ _ (ConfigRegistry.Service.GetTenant ctx name)
      (λ t, PTenant (tenantResponseFromDomain t))
      (λ t, rv_tenants (reg_view w) !! name = Some t) (rv_tenants (reg_view w) !! name = None)
      (λ _ _, True)); [by apply dispatch_tenant|done|done| |done].
    eapply wp_read; [apply Hok|apply law_GetTenant, Hok|]. intros r w' Hr' Hv Hi.
    split_and!; [done..|exact Hr']. }
  read_done. by eexists.
Qed.

Lemma GetDefinition_promise ctx tenant key w :
  control_plane_ok w → addressable tenant → addressable key →
  wp (ConfigApply.get a (ConfigApply.MkDefinitionResponse "" "") ctx
        (ConfigApply.configPath tenant key)) (λ r w',
    match r with
    | Ok (status, found) => control_plane_ok w' ∧ reg_view w' = reg_view w ∧
        (status = StatusOK → ∃ d, defines (reg_view w) tenant key d ∧ same_definition found d) ∧
        (status = StatusNotFound → ∀ d, ¬ defines (reg_view w) tenant key d)
    | Err _ => reg_view w' = reg_view w
    end) w.
Proof.
  intros Hok (Hr & Hn & _) (Hrk & _). eapply wp_mono.
  { eapply (wp_get_read _ ctx _ GetDefinition_ _ (ConfigRegistry.Service.GetDefinition ctx tenant key)
      (λ d, PDefinition (definitionResponseFromDomain d))
      (λ d, defines (reg_view w) tenant key d) (∀ d, ¬ defines (reg_view w) tenant key d)
      same_definition); [by apply dispatch_definition|done|done| |].
    - by apply (GetDefinition_spec failure reg_inv reg_view); [apply Hok|].
    - intros d v _ Hdec. exact (shown_definition _ _ Hdec). }
  read_done. by exists x.
Qed.

Lemma ListVersions_promise ctx tenant key w :
  control_plane_ok w → addressable tenant → addressable key →
  wp (ConfigApply.get a [] ctx (ConfigApply.configPath tenant key +:+ "/versions")) (λ r w',
    match r with
    | Ok (status, found) => control_plane_ok w' ∧ reg_view w' = reg_view w ∧
        (status = StatusOK → ∃ d, defines (reg_view w) tenant key d ∧
           Forall2 same_version found (rv_versions (reg_view w) (d_ID d)))
    | Err _ => reg_view w' = reg_view w
    end) w.
Proof.
  intros Hok (Hr & Hn & _) (Hrk & _). eapply wp_mono.
  { eapply (wp_get_read _ ctx _ ListVersions_ _ (ConfigRegistry.Service.ListVersions ctx tenant key)
      (λ l, PVersions (versionResponseFromDomain <$> l))
      (λ l, ∃ d, defines (reg_view w) tenant key d ∧ l = rv_versions (reg_view w) (d_ID d))
      (∀ d, ¬ defines (reg_view w) tenant key d)
      (λ found l, Forall2 same_version found l)); [by apply dispatch_versions|done|done| |].
    - by apply (ListVersions_spec failure reg_inv reg_view); [apply Hok|].
    - intros l v (d & _ & ->) Hdec. apply shown_versions in Hdec.
      + apply Forall2_fmap_r in Hdec. eapply Forall2_impl; [exact Hdec|]. done.
      + apply Forall_fmap, Forall_forall. intros ver Hver. by eapply Hok. }
  intros [[status v]|e] w' [Hv Hr']; [|exact Hv]. destruct Hr' as (Hok' & H200 & _).
  split_and!; [exact Hok'|exact Hv|]. intros Hst.
  destruct (H200 Hst) as (l & (d & Hd & ->) & Hs). by exists d.
Qed.

(** The stable version of a state is a version of its definition. *)
Lemma stable_id_valid w d env st :
  control_plane_ok w → no_nul (d_ID d) → rv_state (reg_view w) (d_ID d) env = Some st →
  utf8_valid (es_StableVersionID st) = true.
Proof.
  intros [Hinv Hids] Hn Hst.
  destruct (ok_stable _ (ri_ok _ _ _ _ Hinv) _ _ _ Hn Hst) as (_ & _ & ver & Hver & <-).
  by eapply Hids.
Qed.

Lemma GetStable_promise ctx tenant key env w :
  control_plane_ok w → addressable tenant → addressable key → addressable env →
  wp (ConfigApply.get a (ConfigApply.MkEnvironmentStateResponse "") ctx
        (ConfigApply.stablePath tenant key env)) (λ r w',
    match r with
    | Ok (status, found) => control_plane_ok w' ∧ reg_view w' = reg_view w ∧
        (status = StatusOK → ∃ d st, defines (reg_view w) tenant key d ∧
           rv_state (reg_view w) (d_ID d) env = Some st ∧
           ConfigApply.er_StableVersionID found = es_StableVersionID st) ∧
        (status = StatusNotFound → ∀ d, defines (reg_view w) tenant key d →
           rv_state (reg_view w) (d_ID d) env = None)
    | Err _ => reg_view w' = reg_view w
    end) w.
Proof.
  intros Hok (Hr & Hn & _) (Hrk & _) (Hre & _). eapply wp_mono.
  { eapply (wp_get_read _ ctx _ GetStableVersion_ _
      (ConfigRegistry.Service.GetEnvironmentState ctx tenant key env)
      (λ st, PEnvironmentState (environmentStateResponseFromDomain st))
      (λ st, ∃ d, defines (reg_view w) tenant key d ∧ rv_state (reg_view w) (d_ID d) env = Some st)
      (∀ d, defines (reg_view w) tenant key d → rv_state (reg_view w) (d_ID d) env = None)
      (λ found st, ConfigApply.er_StableVersionID found = es_StableVersionID st));
      [by apply dispatch_stable|done|done| |].
    - by apply (GetEnvironmentState_spec failure reg_inv reg_view); [apply Hok|].
    - intros st v (d & Hd & Hst) Hdec. apply shown_state in Hdec; [exact Hdec|].
      eapply stable_id_valid; [exact Hok| |exact Hst].
      destruct Hok as [Hinv _]. by destruct (ok_definition _ (ri_ok _ _ _ _ Hinv) _ _ (proj1 Hd)) as (_ & ? & _). }
  read_done. destruct Hfound as (d & Hd & Hst'). by exists d, x.
Qed.

(** ** The writes *)

Lemma CreateTenant_promise ctx q w :
  control_plane_ok w → addressable (ConfigApply.tq_ID q) →
  wp (ConfigApply.post a ctx "/v1/tenants" q StatusCreated) (λ r w',
    match r with
    | Ok _ => control_plane_ok w' ∧
        ∃ t, t_ID t = ConfigApply.tq_ID q ∧ put_tenant t (reg_view w) (reg_view w')
    | Err _ => True
    end) w.
Proof.
  intros Hok (_ & Hn & Hu). eapply wp_mono.
  { eapply (wp_post_write q ctx _ CreateTenant_ _ _
      (λ req, ConfigRegistry.Service.CreateTenant ctx
         (ConfigRegistry.MkCreateTenantInput (tq_ID req) (tq_Name req) (tq_Description req) (tq_Owner req)))
      (λ t, PTenant (tenantResponseFromDomain t))
      (λ req, tq_ID req = ConfigApply.tq_ID q)
      (λ _ t w', control_plane_ok w' ∧ t_ID t = ConfigApply.tq_ID q ∧
                 put_tenant t (reg_view w) (reg_view w')));
      [apply dispatch_create_tenant|done|apply writeError_not_201|done|by intros; eapply sent_tenant|].
    intros req Hreq. eapply wp_mono.
    { apply (CreateTenant_spec failure reg_inv reg_view frame (h_registry h)); [apply Hok|].
      simpl. by rewrite Hreq. }
    intros [t|e] w' [Hi Hr]; [|done]. destruct Hr as (Hid & _ & Hput). simpl in Hid.
    split_and!; [split; [done|]|congruence|done].
    eapply ids_ok_same; [|apply Hok]. apply Hput. }
  intros [body|e] w'; [|done]. intros (req & t & _ & (? & ? & ?) & _). eauto.
Qed.

Lemma CreateDefinition_promise ctx tenant q w :
  control_plane_ok w → addressable tenant → addressable (ConfigApply.dq_Key q) →
  wp (ConfigApply.post a ctx ("/v1/tenants/" +:+ ConfigApply.escape tenant +:+ "/configs") q
        StatusCreated) (λ r w',
    match r with
    | Ok _ => control_plane_ok w' ∧ ∃ d, d_TenantID d = tenant ∧ d_Key d = ConfigApply.dq_Key q ∧
        rv_definitions (reg_view w) !! d_ID d = None ∧
        d_Schema d = JsonText.Compact (ConfigApply.dq_Schema q) ∧
        d_DefaultValue d = shown_default (ConfigApply.dq_Default q) ∧
        put_definition d (reg_view w) (reg_view w')
    | Err _ => True
    end) w.
Proof.
  intros Hok (Hr & _) (_ & _ & Hu). eapply wp_mono.
  { eapply (wp_post_write q ctx _ CreateDefinition_ _ _
      (λ req, ConfigRegistry.Service.CreateDefinition (h_registry h) ctx
         (ConfigRegistry.MkCreateDefinitionInput tenant (dq_Key req) (dq_Description req)
            (dq_Schema req) (dq_Default req)))
      (λ d, PDefinition (definitionResponseFromDomain d))
      (λ req, dq_Key req = ConfigApply.dq_Key q ∧
              dq_Schema req = JsonText.Compact (ConfigApply.dq_Schema q) ∧
              dq_Default req = shown_default (ConfigApply.dq_Default q))
      (λ req d w', control_plane_ok w' ∧ d_TenantID d = tenant ∧ d_Key d = dq_Key req ∧
         d_Schema d = dq_Schema req ∧ d_DefaultValue d = dq_Default req ∧
         rv_definitions (reg_view w) !! d_ID d = None ∧ put_definition d (reg_view w) (reg_view w')));
      [by apply dispatch_create_definition|done|apply writeError_not_201|done|
       by intros; eapply sent_definition|].
    intros req Hreq. eapply wp_mono.
    { apply (CreateDefinition_spec failure reg_inv reg_view frame (h_registry h)); apply Hok. }
    intros [d|e] w' [Hi Hd]; [|done]. destruct Hd as (? & ? & ? & ? & ? & _ & Hput).
    split_and!; [split; [done|]|done..]. eapply ids_ok_same; [|apply Hok]. apply Hput. }
  intros [body|e] w'; [|done].
  intros (req & d & (Hk & Hs & Hd) & (Hok' & ? & ? & ? & ? & ? & ?) & _). split; [done|].
  exists d. split_and!; congruence.
Qed.

Lemma CreateVersion_promise ctx tenant key q w :
  control_plane_ok w → addressable tenant → addressable key →
  wp (ConfigApply.post a ctx (ConfigApply.configPath tenant key +:+ "/versions") q
        StatusCreated) (λ r w',
    match r with
    | Ok body => control_plane_ok w' ∧ ∃ d ver, defines (reg_view w) tenant key d ∧
        v_ConfigDefinitionID ver = d_ID d ∧ v_Value ver = JsonText.Compact (ConfigApply.vq_Value q) ∧
        add_version ver (reg_view w) (reg_view w') ∧
        ∀ created, ConfigApply.json_Decode body = Ok created → same_version created ver
    | Err _ => True
    end) w.
Proof.
  intros Hok (Hr & Hn & _) (Hrk & _). eapply wp_mono.
  { eapply (wp_post_write q ctx _ CreateVersion_ _ _
      (λ req, ConfigRegistry.Service.CreateVersion (h_registry h) ctx
         (ConfigRegistry.MkCreateVersionInput tenant key (vq_Value req) (vq_SourceCommitSHA req)
            (vq_CreatedBy req)))
      (λ ver, PVersion (versionResponseFromDomain ver))
      (λ req, vq_Value req = JsonText.Compact (ConfigApply.vq_Value q))
      (λ req ver w', control_plane_ok w' ∧ ∃ d, defines (reg_view w) tenant key d ∧
         v_ConfigDefinitionID ver = d_ID d ∧ v_Value ver = vq_Value req ∧
         utf8_valid (v_ID ver) = true ∧ add_version ver (reg_view w) (reg_view w')));
      [by apply dispatch_create_version|done|apply writeError_not_201|done|
       by intros; eapply sent_version|].
    intros req Hreq. eapply wp_mono.
    { apply (CreateVersion_spec failure reg_inv reg_view frame (h_registry h)); [apply Hok|done]. }
    intros [ver|e] w' [Hi Hd]; [|done]. destruct Hd as (d & ? & ? & ? & _ & _ & Hu & Hadd).
    split; [split; [done|by eapply ids_ok_add; [..|apply Hok]]|]. by exists d. }
  intros [body|e] w'; [|done].
  intros (req & ver & Hs & (Hok' & d & ? & ? & ? & Hu & ?) & ->). split; [done|].
  exists d, ver. split_and!; try done; [congruence|].
  intros created Hdec. by apply shown_version in Hdec.
Qed.

Lemma writeError_not_ok e : rs_status (writeError e) ≠ StatusOK.
Proof. unfold writeError. by repeat case_match. Qed.

Lemma SetStable_promise ctx tenant key env q w :
  control_plane_ok w → addressable tenant → addressable key → addressable env →
  wp (ConfigApply.post a ctx (ConfigApply.stablePath tenant key env) q StatusOK) (λ r w',
    match r with
    | Ok _ => control_plane_ok w' ∧ ∃ d ver st, defines (reg_view w) tenant key d ∧
        ver ∈ rv_versions (reg_view w) (d_ID d) ∧
        v_VersionNumber ver = ConfigApply.sq_VersionNumber q ∧
        es_ConfigDefinitionID st = d_ID d ∧ es_Environment st = env ∧
        es_StableVersionID st = v_ID ver ∧ put_state st (reg_view w) (reg_view w')
    | Err _ => True
    end) w.
Proof.
  intros Hok (Hr & Hn & _) (Hrk & _) (Hre & _). eapply wp_mono.
  { eapply (wp_post_write q ctx _ SetStableVersion_ _ _
      (λ req, ConfigRegistry.Service.SetStableVersion ctx
         (ConfigRegistry.MkSetStableVersionInput tenant key env (sq_VersionNumber req)))
      (λ st, PEnvironmentState (environmentStateResponseFromDomain st))
      (λ req, sq_VersionNumber req = ConfigApply.sq_VersionNumber q)
      (λ req st w', control_plane_ok w' ∧ ∃ d ver, defines (reg_view w) tenant key d ∧
         1 ≤ sq_VersionNumber req ∧
         rv_versions (reg_view w) (d_ID d) !! Z.to_nat (sq_VersionNumber req - 1) = Some ver ∧
         es_ConfigDefinitionID st = d_ID d ∧ es_Environment st = env ∧
         es_StableVersionID st = v_ID ver ∧ put_state st (reg_view w) (reg_view w')));
      [by apply dispatch_set_stable|done|apply writeError_not_ok|done|by intros; eapply sent_stable|].
    intros req Hreq. eapply wp_mono.
    { apply (SetStableVersion_spec failure reg_inv reg_view frame (h_registry h)); [apply Hok|done]. }
    intros [st|e] w' [Hi Hd]; [|done]. destruct Hd as (d & ver & ? & ? & ? & ? & ? & ? & _ & Hput).
    split; [split; [done|]|by exists d, ver]. eapply ids_ok_same; [|apply Hok]. apply Hput. }
  intros [body|e] w'; [|done].
  intros (req & st & Hs & (Hok' & d & ver & Hd & Hge & Hver & ? & ? & ? & ?) & _). split; [done|].
  exists d, ver, st. split_and!; try done; [by eapply list_elem_of_lookup_2|].
  destruct Hok as [Hinv _].
  destruct (ok_version _ (ri_ok _ _ _ _ Hinv) _ _ _ Hver) as (_ & -> & _). lia.
Qed.

#[export] Instance control_plane_api : ControlPlaneApi a control_plane_ok reg_view.
Proof.
  split.
  - intros w [Hinv _]. apply Hinv.
  - apply GetTenant_promise.
  - apply CreateTenant_promise.
  - apply GetDefinition_promise.
  - apply CreateDefinition_promise.
  - apply ListVersions_promise.
  - apply CreateVersion_promise.
  - apply GetStable_promise.
  - apply SetStable_promise.
Qed.

End Network.
End ConfigDeploy.
