(* ===== verification/Deployment.v ===== *)
(** The control plane as a process: it boots, then serves HTTP requests and
    reconciles its rollouts, in any order, with any cancellations and any
    clock.  Every state it reaches satisfies the invariants of the rollout
    machine. *)

From Stdlib Require Import ZArith Lia.
From S2P Require Import Prelude GoLib Host Http Domain Guardrail Registry RegistrySpec RegistryStore RegistryMemory AgentRegistry AgentStore AgentSpec Rollout RolloutFacts RolloutStore RolloutService RolloutSpec RolloutInvariants RolloutMemory RolloutRefine ControlPlane System.
Import Domain Rollout System RolloutSpec RolloutInvariants.
Open Scope string_scope.
Open Scope list_scope.
Open Scope Z_scope.

Module Deployment.

Section Deployment.
Context `{ControlPlane.RequestDecoder ControlPlane.createTenantRequest,
  ControlPlane.RequestDecoder ControlPlane.createDefinitionRequest,
  ControlPlane.RequestDecoder ControlPlane.createVersionRequest,
  ControlPlane.RequestDecoder ControlPlane.setStableVersionRequest,
  ControlPlane.RequestDecoder ControlPlane.registerAgentRequest,
  ControlPlane.RequestDecoder ControlPlane.acknowledgementRequest,
  ControlPlane.RequestDecoder ControlPlane.createRolloutRequest}.
Context (h : ControlPlane.Handler World).

(** What happens to the process: a request is served, or the timer of
    [cmd/control-plane] fires. *)
Inductive Event :=
| ERequest (route : ControlPlane.Route) (ctx : Context) (r : Request)
| EReconcile (ctx : Context).

Definition serve (e : Event) (w : World) : World :=
  match e with
  | ERequest route ctx r => (ControlPlane.handle h route ctx r w).2
  | EReconcile ctx =>
      match ControlPlane.h_rollouts h with
      | Some s => (RolloutService.ReconcileActive s ctx w).2
      | None => w
      end
  end.

(** A rollout's stages may be named anything but the stage the service itself
    adds for a rollback. *)
Definition admissible (e : Event) : Prop :=
  match e with
  | ERequest ControlPlane.CreateRollout_ _ r =>
      ∀ req s, ControlPlane.json_DecodeStrict (rq_body r) = Ok req →
        ControlPlane.h_rollouts h = Some s →
        RolloutRefine.unreserved
          (RolloutRefine.plan_of s (ControlPlane.create_rollout_input req))
  | _ => True
  end.

Inductive reachable (host : HostState) : World → Prop :=
| reachable_boot : reachable host (boot host)
| reachable_serve e w : reachable host w → admissible e → reachable host (serve e w).

(** The guardrail queries go to Prometheus, not to the process's stores. *)
Definition well_wired : Prop :=
  ∀ s, ControlPlane.h_rollouts h = Some s → queries_apart s.

(** * What one request does to the rollouts *)

Definition advances {A} (m : M World A) (w : World) : Prop :=
  wp m (λ _ w', store_inv w' ∧ view_ok (view w') ∧ rtc step (None, view w) (None, view w')) w.

Definition sound (w : World) : Prop := store_inv w ∧ view_ok (view w).

(** A call that leaves the rollouts and the agents alone. *)
Lemma advances_keep {A} (m : M World A) w : sound w → keeps_both m → advances m w.
Proof.
  intros [Hi Hok] Hk. destruct (apart_of_keep m Hk (view w) w) as [Hi' Hv]; [by split|].
  unfold advances, wp. rewrite Hv. split_and!; [done|done|apply rtc_refl].
Qed.

(** A call that changes the agents but not the rollouts. *)
Lemma advances_agents {A} (m : M World A) w :
  sound w → (∀ s : RolloutStore.MemoryStore, preserves (λ w : World, part w = s) m) →
  wp m (λ _ w', agent_inv w') w → advances m w.
Proof.
  intros [[Hi Ha] Hok] Hk Ha'. unfold advances, wp.
  assert (view (m w).2 = view w) as Hv.
  { by apply (preserves_part (λ s, RolloutMemory.view_of s = view w) m Hk). }
  rewrite Hv. split_and!; [|done|apply rtc_refl]. split; [|done].
  by apply (preserves_part RolloutMemory.mem_ok m Hk).
Qed.

Lemma advances_bind {A B} (m : M World A) (k : A → M World B) w :
  advances m w → (∀ a w', sound w' → advances (k a) w') → advances (m ≫= k) w.
Proof.
  unfold advances, wp. intros (Hi & Hok & Hs) Hk. unfold mbind, M_bind.
  destruct (m w) as [[a|e] w1] eqn:Hm; simpl in *; [|done].
  destruct (Hk a w1) as (Hi' & Hok' & Hs'); [by split|]. split_and!; [done..|]. by etrans.
Qed.

Lemma advances_try {A} (m : M World A) w : advances m w → advances (try m) w.
Proof. unfold advances, wp, try. by destruct (m w). Qed.

Lemma advances_ret {A} (a : A) w : sound w → advances (mret a : M World A) w.
Proof. intros [? ?]. unfold advances, wp; simpl. split_and!; [done..|apply rtc_refl]. Qed.

Lemma advances_reply {A} write (call : M World A) k w :
  sound w → advances call w → advances (ControlPlane.reply write call k) w.
Proof.
  intros Hw Hc. unfold ControlPlane.reply. apply advances_bind; [by apply advances_try|].
  intros [a|e] w' Hw'; by apply advances_ret.
Qed.

Lemma advances_decode {T} `{ControlPlane.RequestDecoder T} r (k : T → M World (Response ControlPlane.Payload)) w :
  sound w → (∀ req, ControlPlane.json_DecodeStrict (rq_body r) = Ok req → advances (k req) w) →
  advances (ControlPlane.decodeRequest r k) w.
Proof.
  intros Hw Hk. unfold ControlPlane.decodeRequest.
  destruct (ControlPlane.json_DecodeStrict _) as [req|e]; [by apply Hk|by apply advances_ret].
Qed.

#[local] Ltac quiet := apply advances_keep; [done|split; keep].

Lemma register_advances agents ctx input w :
  sound w → advances (AgentRegistry.Svc.Register agents ctx input) w.
Proof.
  intros Hw. apply advances_agents; [done|unfold AgentRegistry.Svc.Register, AgentRegistry.Svc.randomID; keep|].
  eapply wp_mono; [apply (AgentSpec.Register_spec interrupted agent_inv agent_view agents_frame), Hw|].
  intros r w' H'. apply H'.
Qed.

Lemma heartbeat_advances ctx agentID token w :
  sound w → advances (AgentRegistry.Svc.Heartbeat ctx agentID token) w.
Proof.
  intros Hw. apply advances_agents;
    [done|unfold AgentRegistry.Svc.Heartbeat, AgentRegistry.Svc.Verify; keep|].
  eapply wp_mono; [apply (AgentSpec.Heartbeat_spec interrupted agent_inv agent_view agents_frame), Hw|].
  intros r w' H'. apply H'.
Qed.

Lemma acknowledge_advances ctx input w :
  sound w → advances (AgentRegistry.Svc.Acknowledge ctx input) w.
Proof.
  intros Hw. apply advances_agents;
    [done|unfold AgentRegistry.Svc.Acknowledge, AgentRegistry.Svc.Verify, AgentRegistry.Svc.randomID; keep|].
  eapply wp_mono; [apply (AgentSpec.Acknowledge_spec interrupted agent_inv agent_view agents_frame), Hw|].
  intros r w' H'. apply H'.
Qed.

Lemma rollout_ack_advances ctx agentID req ack w :
  well_wired → sound w → advances (ControlPlane.rollout_acknowledgement h ctx agentID req ack) w.
Proof.
  intros Hq Hw. unfold ControlPlane.rollout_acknowledgement.
  destruct (ControlPlane.h_rollouts h) as [s|] eqn:Hs; [|by apply advances_ret].
  destruct (negb _ && negb _); [|by apply advances_ret].
  apply advances_reply; [done|]. pose proof (service_laws s (Hq s Hs)).
  apply (RolloutRefine.Acknowledge_refines s interrupted store_inv view); apply Hw.
Qed.

Lemma create_rollout_advances ctx r w :
  well_wired → sound w → admissible (ERequest ControlPlane.CreateRollout_ ctx r) →
  advances (ControlPlane.createRollout h ctx r) w.
Proof.
  intros Hq Hw Hadm. unfold ControlPlane.createRollout. simpl in Hadm.
  destruct (ControlPlane.h_rollouts h) as [s|] eqn:Hs; [|by apply advances_ret].
  apply advances_decode; [done|]. intros req Hreq.
  apply advances_reply; [done|]. pose proof (service_laws s (Hq s Hs)).
  apply (RolloutRefine.CreateRollout_refines s interrupted store_inv view); [apply Hw..|by apply Hadm].
Qed.

Lemma get_rollout_advances ctx r w : sound w → advances (ControlPlane.getRollout h ctx r) w.
Proof.
  intros Hw. unfold ControlPlane.getRollout.
  destruct (ControlPlane.h_rollouts h) as [s|] eqn:Hs; [|by apply advances_ret].
  apply advances_reply; [done|]. destruct Hw as [Hi Hok]. unfold advances.
  pose proof (service_laws (RolloutService.NewService World) new_service_queries).
  eapply wp_mono; [by apply (RolloutRefine.GetRollout_refines interrupted store_inv view)|].
  intros res w' (Hi' & Hv & _). rewrite Hv. split_and!; [done..|apply rtc_refl].
Qed.

Lemma handle_advances route ctx r w :
  well_wired → sound w → admissible (ERequest route ctx r) →
  advances (ControlPlane.handle h route ctx r) w.
Proof.
  intros Hq Hw Hadm. destruct route; cbn [ControlPlane.handle].
  - apply advances_decode; [done|]. intros req _. apply advances_reply; [done|].
    unfold ConfigRegistry.Service.CreateTenant. quiet.
  - apply advances_reply; [done|]. unfold ConfigRegistry.Service.ListTenants. quiet.
  - apply advances_reply; [done|]. unfold ConfigRegistry.Service.GetTenant. quiet.
  - apply advances_decode; [done|]. intros req _. apply advances_reply; [done|].
    unfold ConfigRegistry.Service.CreateDefinition, ConfigRegistry.Service.randomID. quiet.
  - apply advances_reply; [done|]. unfold ConfigRegistry.Service.ListDefinitions. quiet.
  - apply advances_reply; [done|]. unfold ConfigRegistry.Service.GetDefinition. quiet.
  - apply advances_decode; [done|]. intros req _. apply advances_reply; [done|].
    unfold ConfigRegistry.Service.CreateVersion, ConfigRegistry.Service.randomID. quiet.
  - apply advances_reply; [done|]. unfold ConfigRegistry.Service.ListVersions. quiet.
  - apply advances_decode; [done|]. intros req _. apply advances_reply; [done|].
    unfold ConfigRegistry.Service.SetStableVersion. quiet.
  - apply advances_reply; [done|]. unfold ConfigRegistry.Service.GetEnvironmentState. quiet.
  - unfold ControlPlane.registerAgent. destruct (ControlPlane.h_agents h); [|by apply advances_ret].
    apply advances_decode; [done|]. intros req _. apply advances_reply; [done|].
    by apply register_advances.
  - unfold ControlPlane.agentHeartbeat. destruct (ControlPlane.h_agents h); [|by apply advances_ret].
    apply advances_reply; [done|]. by apply heartbeat_advances.
  - unfold ControlPlane.agentAcknowledgement.
    destruct (ControlPlane.h_agents h); [|by apply advances_ret].
    apply advances_decode; [done|]. intros req _.
    apply advances_bind; [by apply advances_try, acknowledge_advances|].
    intros [ack|e] w' Hw'; [by apply rollout_ack_advances|by apply advances_ret].
  - by apply create_rollout_advances.
  - by apply get_rollout_advances.
Qed.

Lemma serve_advances e w :
  well_wired → sound w → admissible e →
  sound (serve e w) ∧ rtc step (None, view w) (None, view (serve e w)).
Proof.
  intros Hq Hw Hadm. destruct e as [route ctx r|ctx]; simpl.
  - destruct (handle_advances route ctx r w) as (? & ? & ?); [done..|]. split; [by split|done].
  - destruct (ControlPlane.h_rollouts h) as [s|] eqn:Hs; [|by split; [|apply rtc_refl]].
    pose proof (service_laws s (Hq s Hs)).
    destruct (RolloutRefine.ReconcileActive_refines s interrupted store_inv view ctx w) as (? & ? & ?);
      [apply Hw..|]. split; [by split|done].
Qed.

(** * Every reachable process *)

Lemma reachable_sound host w : well_wired → reachable host w → sound w ∧ reach None (view w).
Proof.
  intros Hq. induction 1 as [|e w Hr [IHs IHr] Hadm].
  - split; [split; [apply boot_store_inv|apply boot_view_ok]|apply boot_reach].
  - destruct (serve_advances e w) as [Hs Hst]; [done..|]. split; [done|].
    by apply (reach_steps (None, view w) (None, view (serve e w))).
Qed.

End Deployment.
End Deployment.
