(* ===== verification/Simulator.v ===== *)
(** [internal/simulator]: a load driver that runs a three-stage rollout over
    virtual agents, inside one process with the in-memory stores.

    [Run] fills new stores ([setup]), registers the agents with a pool of
    workers, creates the rollout, and then, stage after stage, fetches every
    agent's snapshot with a pool of workers and acknowledges what the stage
    assigns, until the rollout is finished.  Each pool has a scheduler of its
    own.  The loop over the stages has fuel; [None] is a loop that is still
    running. *)

From Stdlib Require Import ZArith Lia SpecFloat.
From S2P Require Import Prelude GoLib Format Parallel Host Domain Guardrail Registry RegistryStore AgentRegistry AgentStore Rollout RolloutStore RolloutService RolloutMemory DataPlane.
Import Domain Rollout Format Parallel.
Open Scope string_scope.
Open Scope list_scope.
Open Scope Z_scope.

Module Simulator.

(** [src/internal/simulator/simulator.go:18-23] Options *)
Record Options := MkOptions {
  o_AgentCount : Z;
  o_Concurrency : Z;
  o_Service : string;
  o_Environment : Environment }.

(** [src/internal/simulator/simulator.go:53-60] Latency *)
Record Latency := MkLatency {
  l_Count : Z;
  l_Min : Duration;
  l_Avg : Duration;
  l_P50 : Duration;
  l_P95 : Duration;
  l_Max : Duration }.

(** [src/internal/simulator/simulator.go:43-51] StageResult *)
Record StageResult := MkStageResult {
  sr_StageID : string;
  sr_Targets : Z;
  sr_Acked : Z;
  sr_Coverage : float64;
  sr_Duration : Duration;
  sr_NextState : string;
  sr_NextStage : string }.

(** [src/internal/simulator/simulator.go:25-41] Result *)
Record Result := MkResult {
  rs_AgentCount : Z;
  rs_RegisteredAgents : Z;
  rs_SnapshotReads : Z;
  rs_Acknowledgements : Z;
  rs_AgentsPerSecond : float64;
  rs_SnapshotsPerSecond : float64;
  rs_AcksPerSecond : float64;
  rs_RolloutID : string;
  rs_FinalState : string;
  rs_FinalStage : string;
  rs_Duration : Duration;
  rs_RegisterLatency : Latency;
  rs_SnapshotLatency : Latency;
  rs_AckLatency : Latency;
  rs_StageResults : list StageResult }.

(** [src/internal/simulator/simulator.go:62-65] virtualAgent *)
Record virtualAgent := MkVirtualAgent { va_ID : string; va_Token : string }.

(** [src/internal/simulator/simulator.go:293-301] pendingAck *)
Record pendingAck := MkPendingAck {
  pa_AgentID : string;
  pa_Token : string;
  pa_ConfigDefinitionID : string;
  pa_VersionID : string;
  pa_SnapshotRevision : Z;
  pa_RolloutID : string;
  pa_StageID : string }.

(** [src/internal/simulator/simulator.go:195-209] normalizeOptions *)
Definition normalizeOptions (options : Options) : Options :=
  MkOptions
    (if o_AgentCount options =? 0 then 1000 else o_AgentCount options)
    (if o_Concurrency options =? 0 then 64 else o_Concurrency options)
    (if empty_str (o_Service options) then "payment-service" else o_Service options)
    (if empty_str (o_Environment options) then EnvironmentProduction else o_Environment options).

(** ** The statistics of the latencies *)

(** [src/internal/simulator/simulator.go:423-435] percentile *)
Definition percentile (sorted : list Duration) (percentile : Z) : Duration :=
  if Nat.eqb (length sorted) 0 then 0
  else
    let n := Z.of_nat (length sorted) in
    let index := Z.quot (n * percentile + 99) 100 - 1 in
    let index := if index <? 0 then 0 else index in
    let index := if n <=? index then n - 1 else index in
    nth (Z.to_nat index) sorted 0.

(** The sum wraps around as [int64] does. *)
(** [src/internal/simulator/simulator.go:403-421] summarize *)
Definition summarize (values : list Duration) : Latency :=
  if Nat.eqb (length values) 0 then MkLatency 0 0 0 0 0 0
  else
    let sorted := SortFunc Z.leb values in
    let total := fold_left (λ total value, int64_wrap (total + value)) sorted 0 in
    let n := Z.of_nat (length sorted) in
    MkLatency n (nth 0 sorted 0) (Z.quot total n) (percentile sorted 50) (percentile sorted 95)
      (nth (length sorted - 1) sorted 0).

(** [src/internal/simulator/simulator.go:177-182] perSecond *)
Definition perSecond (count : Z) (duration : Duration) : float64 :=
  if duration <=? 0 then f_zero else f_div (f_of_int count) (Duration_Seconds duration).

(** What [MarshalJSON] hands to the encoder: the result, its duration printed;
    the other durations are numbers of nanoseconds. *)
(** [src/internal/simulator/simulator.go:184-193] Result.MarshalJSON *)
Record resultJSON := MkResultJSON { rj_alias : Result; rj_Duration : string }.

(** [src/internal/simulator/simulator.go:184-193] Result.MarshalJSON *)
Definition MarshalJSON (json_Marshal : resultJSON → res string) (r : Result) : res string :=
  json_Marshal (MkResultJSON r (Duration_String (rs_Duration r))).

(** ** The environment *)

(** [time.Date(2026, 8, 24, 0, 0, 0, 0, time.UTC)] *)
Definition seeded_at : Time := 739851 * 86400 * Second.

Definition schema : RawMessage := quoted "{'type':'number','minimum':0,'maximum':1}".

Section simulator.
Context {W : Type} `{Env W, Has RegistryStore.MemoryStore W, Has AgentStore.MemoryStore W,
  Has RolloutStore.MemoryStore W}.
#[local] Existing Instance RegistryStore.memory_store.
#[local] Existing Instance AgentStore.memory_store.
#[local] Existing Instance RolloutMemory.memory_store.
#[local] Existing Instance RolloutService.registry_service.
#[local] Instance agent_source : RolloutService.AgentSource W := {|
  RolloutService.agents_ListAgents := AgentRegistry.Svc.ListAgents |}.
#[local] Existing Instance DataPlane.registry_source.
#[local] Existing Instance DataPlane.agent_source.
#[local] Existing Instance DataPlane.rollout_source.

(** The registry service is its store; the validator does not read it. *)
(** [src/internal/simulator/simulator.go:67-72] environment *)
Record environment := MkEnvironment {
  env_registry : ConfigRegistry.SchemaValidator;
  env_agents : AgentRegistry.Service;
  env_rollouts : RolloutService.Service W;
  env_snapshots : DataPlane.SnapshotStore W }.

(** A new registry store with the simulated configuration and its two
    versions. *)
(** [src/internal/simulator/simulator.go:212-259] setup *)
Definition seed_registry (ctx : Context) (description creator : string) (env : Environment) : M W unit :=
  modify (set_part RegistryStore.NewMemoryStore);;
  let now := seeded_at in
  ConfigRegistry.CreateTenant ctx (MkTenant "payments" "Payments" "" "" now now);;
  ConfigRegistry.CreateDefinition ctx
    (MkConfigDefinition "cfg_payment_failure_rate" "payments" "payment.failure_rate" description
       schema "0" now now);;
  v1 ← ConfigRegistry.CreateVersion ctx
    (MkConfigVersion "ver_payment_failure_rate_v1" "cfg_payment_failure_rate" 0 "0" "" creator now);
  ConfigRegistry.CreateVersion ctx
    (MkConfigVersion "ver_payment_failure_rate_v2" "cfg_payment_failure_rate" 0 "0.2" "" creator now);;
  ConfigRegistry.SaveEnvironmentState ctx
    (MkConfigEnvironmentState "cfg_payment_failure_rate" env (v_ID v1) "" now).

(** [src/internal/simulator/simulator.go:211-267] setup *)
Definition setup (validator : ConfigRegistry.SchemaValidator) (ctx : Context) (options : Options)
    : M W environment :=
  seed_registry ctx "Synthetic payment authorization failure rate used by the simulator." "simulator"
    (o_Environment options);;
  modify (set_part AgentStore.NewMemoryStore);;
  modify (set_part RolloutStore.NewMemoryStore);;
  mret (MkEnvironment validator
          (AgentRegistry.NewService "sim-bootstrap" (60 * Minute))
          (RolloutService.NewService W)
          (DataPlane.GetSnapshot ["payments"])).

(** ** Registration *)

(** The slices the workers fill. *)
Record Registered := MkRegistered { rg_agents : list virtualAgent; rg_latencies : list Duration }.
Definition set_latency (i : Z) (d : Duration) (s : Registered) : Registered :=
  MkRegistered (rg_agents s) (<[Z.to_nat i := d]> (rg_latencies s)).
Definition set_agent (i : Z) (a : virtualAgent) (s : Registered) : Registered :=
  MkRegistered (<[Z.to_nat i := a]> (rg_agents s)) (rg_latencies s).

(** [src/internal/simulator/simulator.go:273-283] registerAgents *)
Definition register_input (options : Options) (index : Z) : AgentRegistry.RegisterInput :=
  let id := "agent-" +:+ pad0 4 (index + 1) in
  AgentRegistry.MkRegisterInput "sim-bootstrap" id (o_Service options) (o_Environment options)
    ("zone-" +:+ pretty (Z.rem index 3)) id ∅.

(** [src/internal/simulator/simulator.go:272-289] registerAgents *)
Definition register_agent (service : AgentRegistry.Service) (ctx : Context) (options : Options)
    (index : Z) : M (W * Registered) unit :=
  started ← shared now;
  result ← try (shared (AgentRegistry.Svc.Register service ctx (register_input options index)));
  ended ← shared now;
  locally (set_latency index (time_Sub ended started));;
  match result with
  | Err err => mthrow err
  | Ok result =>
      locally (set_agent index
        (MkVirtualAgent (a_ID (AgentRegistry.rr_Agent result)) (c_Token (AgentRegistry.rr_Credential result))))
  end.

(** [src/internal/simulator/simulator.go:269-291] registerAgents *)
Definition registerAgents (schedule : Scheduler) (service : AgentRegistry.Service) (ctx : Context)
    (options : Options) : M W Registered :=
  agents ← make (MkVirtualAgent "" "") (o_AgentCount options);
  latencies ← make 0 (o_AgentCount options);
  with_locals (MkRegistered agents latencies)
    (parallel (o_AgentCount options) (register_agent service ctx options) schedule
       (o_Concurrency options)).

(** ** Acknowledgement of a stage *)

Record Fetched := MkFetched { ft_latencies : list Duration; ft_pending : list pendingAck }.

(** [src/internal/simulator/simulator.go:315-330] acknowledgeStage *)
Definition pending_acks (agent : virtualAgent) (stageID : string) (snapshot : DataPlane.Snapshot)
    : list pendingAck :=
  (λ item, let a := DataPlane.si_Assignment item in
     MkPendingAck (va_ID agent) (va_Token agent) (DataPlane.si_ConfigDefinitionID item)
       (DataPlane.si_VersionID item) (DataPlane.sn_Revision snapshot) (DataPlane.as_RolloutID a)
       (DataPlane.as_StageID a)) <$>
  filter (λ item, DataPlane.as_RolloutID (DataPlane.si_Assignment item) ≠ "" ∧
                  DataPlane.as_StageID (DataPlane.si_Assignment item) = stageID)
    (DataPlane.sn_Configs snapshot).

(** [src/internal/simulator/simulator.go:307-332] acknowledgeStage *)
Definition fetch_agent (env : environment) (ctx : Context) (agents : list virtualAgent)
    (stageID : string) (i : Z) : M (W * Fetched) unit :=
  agent ← RolloutService.index agents i;
  started ← shared now;
  snapshot ← try (shared (env_snapshots env ctx (va_ID agent)));
  ended ← shared now;
  locally (λ s, MkFetched (<[Z.to_nat i := time_Sub ended started]> (ft_latencies s)) (ft_pending s));;
  match snapshot with
  | Err err => mthrow err
  | Ok snapshot =>
      locally (λ s, MkFetched (ft_latencies s) (ft_pending s ++ pending_acks agent stageID snapshot))
  end.

(** [src/internal/simulator/simulator.go:338-359] acknowledgeStage *)
Definition acknowledge_one (env : environment) (ctx : Context) (latencies : list Duration)
    (ack : pendingAck) : M W (list Duration) :=
  started ← now;
  AgentRegistry.Svc.Acknowledge ctx
    (AgentRegistry.MkAcknowledgeInput (pa_AgentID ack) (pa_Token ack) (pa_ConfigDefinitionID ack)
       (pa_VersionID ack) (pa_SnapshotRevision ack));;
  RolloutService.Acknowledge (env_rollouts env) ctx
    (RolloutService.MkAcknowledgeInput (pa_RolloutID ack) (pa_StageID ack) (pa_AgentID ack)
       (pa_VersionID ack) (pa_SnapshotRevision ack));;
  ended ← now;
  mret (latencies ++ [time_Sub ended started]).

(** [src/internal/simulator/simulator.go:303-361] acknowledgeStage *)
Definition acknowledgeStage (schedule : Scheduler) (env : environment) (ctx : Context)
    (agents : list virtualAgent) (stageID : string) (concurrency : Z)
    : M W (list Duration * list Duration) :=
  let count := Z.of_nat (length agents) in
  fetched ← with_locals (MkFetched (repeat 0 (length agents)) [])
    (parallel count (fetch_agent env ctx agents stageID) schedule concurrency);
  ackLatencies ← fold_m (ft_pending fetched) [] (acknowledge_one env ctx);
  mret (ft_latencies fetched, ackLatencies).

(** ** The run *)

(** [src/internal/simulator/simulator.go:88-103] Run *)
Definition rollout_input (options : Options) : RolloutService.CreateRolloutInput :=
  RolloutService.MkCreateRolloutInput "payments" "payment.failure_rate" (o_Environment options) 2
    [o_Service options]
    [MkStage "stage-5" 5 0; MkStage "stage-25" 25 0; MkStage "stage-100" 100 0] []
    (f_of_int 100) (5 * Minute) 0 0.

(** What the loop collects. *)
Record Progress := MkProgress {
  pg_snapshotLatencies : list Duration;
  pg_ackLatencies : list Duration;
  pg_stageResults : list StageResult }.

(** [src/internal/simulator/simulator.go:135-147] Run *)
Definition stage_result (active updated : Rollout) (targets : list StageTarget) (acked : nat)
    (duration : Duration) : StageResult :=
  let targets := Z.of_nat (length targets) in
  let acked := Z.of_nat acked in
  let coveragePercent :=
    if 0 <? targets then f_mul (f_div (f_of_int acked) (f_of_int targets)) (f_of_int 100) else f_zero in
  MkStageResult (r_CurrentStageID active) targets acked coveragePercent duration
    (State_string (r_State updated)) (r_CurrentStageID updated).

(** One iteration; [true] goes on. *)
(** [src/internal/simulator/simulator.go:112-154] Run *)
Definition run_stage (schedule : Scheduler) (env : environment) (ctx : Context) (id : string)
    (agents : list virtualAgent) (concurrency : Z) (p : Progress) : M W (Progress * bool) :=
  found ← RolloutService.GetRollout ctx id;
  let '(active, targets, _) := found in
  if Terminal (r_State active) then mret (p, false)
  else
    stageStarted ← now;
    latencies ← acknowledgeStage schedule env ctx agents (r_CurrentStageID active) concurrency;
    let '(stageSnapshotLatencies, stageAckLatencies) := latencies in
    found ← RolloutService.GetRollout ctx id;
    let '(updated, _, coverage) := found in
    ended ← now;
    let result := stage_result active updated targets (length stageAckLatencies)
                    (time_Sub ended stageStarted) in
    let p := MkProgress (pg_snapshotLatencies p ++ stageSnapshotLatencies)
               (pg_ackLatencies p ++ stageAckLatencies) (pg_stageResults p ++ [result]) in
    if Terminal (r_State updated) then mret (p, false)
    else if bool_decide (r_CurrentStageID updated = r_CurrentStageID active)
            && f_lt (cov_Percentage coverage) (r_RequiredAckPercent active)
    then mthrow (EText "stage %s did not reach required acknowledgement coverage" [r_CurrentStageID active])
    else mret (p, true).

(** [src/internal/simulator/simulator.go:108-155] Run *)
Fixpoint run_stages (fuel : nat) (schedule : nat → Scheduler) (env : environment) (ctx : Context)
    (id : string) (agents : list virtualAgent) (concurrency : Z) (p : Progress) : M W (option Progress) :=
  match fuel with
  | O => mret None
  | S fuel =>
      next ← run_stage (schedule fuel) env ctx id agents concurrency p;
      let '(p, again) := next in
      if (again : bool) then run_stages fuel schedule env ctx id agents concurrency p
      else mret (Some p)
  end.

(** [src/internal/simulator/simulator.go:162-174] Run *)
Definition result_of (options : Options) (agents : Registered) (created final : Rollout)
    (p : Progress) (duration : Duration) : Result :=
  let registered := Z.of_nat (length (rg_agents agents)) in
  let reads := Z.of_nat (length (pg_snapshotLatencies p)) in
  let acks := Z.of_nat (length (pg_ackLatencies p)) in
  MkResult (o_AgentCount options) registered reads acks (perSecond registered duration)
    (perSecond reads duration) (perSecond acks duration) (r_ID created)
    (State_string (r_State final)) (r_CurrentStageID final) duration
    (summarize (rg_latencies agents)) (summarize (pg_snapshotLatencies p))
    (summarize (pg_ackLatencies p)) (pg_stageResults p).

(** [src/internal/simulator/simulator.go:74-175] Run *)
Definition Run (fuel : nat) (schedule : nat → Scheduler) (validator : ConfigRegistry.SchemaValidator)
    (ctx : Context) (options : Options) : M W (option Result) :=
  let options := normalizeOptions options in
  started ← now;
  env ← setup validator ctx options;
  agents ← registerAgents (schedule fuel) (env_agents env) ctx options;
  created ← RolloutService.CreateRollout (env_rollouts env) ctx (rollout_input options);
  let '(created, _) := created in
  progress ← run_stages fuel schedule env ctx (r_ID created) (rg_agents agents)
               (o_Concurrency options) (MkProgress [] [] []);
  match progress with
  | None => mret None
  | Some p =>
      found ← RolloutService.GetRollout ctx (r_ID created);
      let '(final, _, _) := found in
      ended ← now;
      mret (Some (result_of options agents created final p (time_Sub ended started)))
  end.

End simulator.
Arguments environment W : clear implicits.

End Simulator.
