(* ===== verification/Reliability.v ===== *)
(** [internal/reliability]: the two planes as HTTP servers of one process, the
    failures injected into them, and the runner of the scenarios.

    A server is the address it listens on; a request finds the running server
    whose address begins its URL, its mux, and the handler behind it.  The
    services are one process's: they outlive the servers.  The harness runs one
    syncer at a time, with its cache. *)

From Stdlib Require Import ZArith Lia Ascii SpecFloat.
From S2P Require Import Prelude GoLib Format Parallel Host Http Mux Domain Guardrail Registry RegistryStore AgentRegistry AgentStore Rollout RolloutStore RolloutService RolloutMemory DataPlane Agent ControlPlane Health ConfigDeploy Simulator.
Import Domain Rollout Format Parallel.
Open Scope string_scope.
Open Scope list_scope.
Open Scope Z_scope.

Module Reliability.

(** [src/internal/reliability/harness.go:25-25] bootstrapToken *)
Definition bootstrapToken : string := "reliability-bootstrap".
(** [src/internal/reliability/scenarios.go:14-14] paymentFailureRateKey *)
Definition paymentFailureRateKey : string := "payment.failure_rate".

(** A [FailureTarget] is a string; two are declared. *)
(** [src/internal/reliability/harness.go:27-27] FailureTarget *)
Definition FailureTarget := string.
(** [src/internal/reliability/harness.go:30-30] FailureControlPlane *)
Definition FailureControlPlane : FailureTarget := "control-plane".
(** [src/internal/reliability/harness.go:31-31] FailureDataPlane *)
Definition FailureDataPlane : FailureTarget := "data-plane".

(** [src/internal/reliability/harness.go:34-39] Options *)
Record Options := MkOptions {
  o_Service : string;
  o_Environment : Environment;
  o_TempDir : string;
  o_Concurrency : Z }.

(** [src/internal/reliability/harness.go:41-44] AgentIdentity *)
Record AgentIdentity := MkAgentIdentity { id_ID : string; id_Token : string }.

(** [src/internal/reliability/scenarios.go:379-382] staticQueryer *)
Record staticQueryer := MkStaticQueryer { sq_value : float64; sq_err : option error }.

(** The state of a harness: the running servers, the number of servers started
    so far, and the queryer of the rollout service. *)
(** [src/internal/reliability/harness.go:57-60] Harness *)
Record Servers := MkServers {
  sv_controlPlane : option string;
  sv_dataPlane : option string;
  sv_started : nat;
  sv_queryer : option staticQueryer }.

(** What does not change. *)
(** [src/internal/reliability/harness.go:46-56] Harness *)
Record Harness := MkHarness {
  h_registry : ConfigRegistry.SchemaValidator;
  h_agents : AgentRegistry.Service;
  h_service : string;
  h_environment : Environment;
  h_tempDir : string;
  h_concurrency : Z }.

(** [src/internal/reliability/result.go:15-20] ScenarioEvent *)
Record ScenarioEvent := MkScenarioEvent {
  ev_Name : string;
  ev_Passed : bool;
  ev_Duration : Duration;
  ev_Error : string }.

(** A nil map reads as an empty one. *)
(** [src/internal/reliability/result.go:5-13] ScenarioResult *)
Record ScenarioResult := MkScenarioResult {
  sc_Name : string;
  sc_Passed : bool;
  sc_StartedAt : Time;
  sc_Duration : Duration;
  sc_Events : list ScenarioEvent;
  sc_Metrics : gmap string Z;
  sc_Timings : gmap string Duration }.

Definition zero_ScenarioResult : ScenarioResult := MkScenarioResult "" false 0 0 [] ∅ ∅.

(** [src/internal/reliability/result.go:22-27] ScenarioResult.addMetric *)
Definition add_metric (name : string) (value : Z) (r : ScenarioResult) : ScenarioResult :=
  MkScenarioResult (sc_Name r) (sc_Passed r) (sc_StartedAt r) (sc_Duration r) (sc_Events r)
    (<[name := value]> (sc_Metrics r)) (sc_Timings r).

(** [src/internal/reliability/result.go:29-34] ScenarioResult.addTiming *)
Definition add_timing (name : string) (value : Duration) (r : ScenarioResult) : ScenarioResult :=
  MkScenarioResult (sc_Name r) (sc_Passed r) (sc_StartedAt r) (sc_Duration r) (sc_Events r)
    (sc_Metrics r) (<[name := value]> (sc_Timings r)).

Definition add_event (event : ScenarioEvent) (r : ScenarioResult) : ScenarioResult :=
  MkScenarioResult (sc_Name r) (sc_Passed r) (sc_StartedAt r) (sc_Duration r)
    (sc_Events r ++ [event]) (sc_Metrics r) (sc_Timings r).

Definition set_outcome (passed : bool) (duration : Duration) (r : ScenarioResult) : ScenarioResult :=
  MkScenarioResult (sc_Name r) passed (sc_StartedAt r) duration (sc_Events r)
    (sc_Metrics r) (sc_Timings r).

(** What the standard library writes, and the network decides: the encoders of
    the responses, the address of the n-th server, the answer of a mux to a
    request without a pattern, and the error of a dial that finds no server. *)
Class Wire := {
  encode_control : ControlPlane.Payload → string;
  encode_data : DataPlane.Payload → string;
  encode_health : Health.response → string;
  json_MarshalIndent : DataPlane.Snapshot → res string;
  filepath_Join : string → string → string;
  format_Coverage : Coverage → string;
  server_URL : nat → string;
  unrouted : HttpResponse;
  connection_refused : string → error }.

(** The path a URL has on a server. *)
Definition server_path (base url : string) : option string :=
  match ConfigDeploy.strip_prefix base url with
  | Some (String "/"%char _ as path) => Some path
  | _ => None
  end.

Section reliability.
Context {W : Type} `{Env W, Has RegistryStore.MemoryStore W, Has AgentStore.MemoryStore W,
  Has RolloutStore.MemoryStore W, Has Servers W, Has Agent.SnapshotCache W, Has Agent.Etag W}.
Context `{ControlPlane.RequestDecoder ControlPlane.createTenantRequest,
  ControlPlane.RequestDecoder ControlPlane.createDefinitionRequest,
  ControlPlane.RequestDecoder ControlPlane.createVersionRequest,
  ControlPlane.RequestDecoder ControlPlane.setStableVersionRequest,
  ControlPlane.RequestDecoder ControlPlane.registerAgentRequest,
  ControlPlane.RequestDecoder ControlPlane.acknowledgementRequest,
  ControlPlane.RequestDecoder ControlPlane.createRolloutRequest}.
Context `{Codec DataPlane.Snapshot, Codec Agent.RegisterInput, Codec Agent.registerResponse,
  Codec Agent.AckPayload, Wire}.
#[local] Existing Instance RegistryStore.memory_store.
#[local] Existing Instance AgentStore.memory_store.
#[local] Existing Instance RolloutMemory.memory_store.
#[local] Existing Instance RolloutService.registry_service.
#[local] Existing Instance Simulator.agent_source.
#[local] Existing Instance DataPlane.registry_source.
#[local] Existing Instance DataPlane.agent_source.
#[local] Existing Instance DataPlane.rollout_source.

(** [src/internal/reliability/scenarios.go:384-389] staticQueryer.Query *)
Definition Query (q : staticQueryer) : RolloutService.Queryer W := λ ctx query at_,
  ctxErr ← ctx_Err ctx;
  ctx_check ctxErr;;
  match sq_err q with Some err => mthrow err | None => mret (sq_value q) end.

(** The rollout service as it is configured now. *)
Definition rollouts (sv : Servers) : RolloutService.Service W :=
  match sv_queryer sv with
  | None => RolloutService.NewService W
  | Some q => RolloutService.SetGuardrailQueryer (RolloutService.NewService W) (Query q)
  end.

Section harness.
Context (h : Harness).

(** ** The servers *)

Definition answer {P} (encode : P → string) (resp : Response P) : HttpResponse :=
  MkHttpResponse (rs_status resp) (rs_etag resp) (Ok (default "" (encode <$> rs_payload resp))).

(** The answer of a server: that of its mux, or the mux's own. *)
Definition served {P} (encode : P → string) (mux : Health.ServeHTTP W P) (ctx : Context)
    (req : HttpRequest) (path : string) : M W HttpResponse :=
  match mux ctx (hq_Method req) path (hq_Headers req) (hq_Body req) with
  | Some serve =>
      resp ← serve;
      mret (answer (λ p, match p with inl p => encode_health p | inr p => encode p end) resp)
  | None => mret unrouted
  end.

(** [src/internal/reliability/harness.go:162-167] Harness.StartControlPlane *)
Definition control_handler (sv : Servers) : Health.ServeHTTP W ControlPlane.Payload :=
  ControlPlane.NewHandlerWithServices (h_registry h) (Some (h_agents h)) (Some (rollouts sv))
    (Some Health.StaticChecker).

(** [src/internal/reliability/harness.go:129-129] NewHarness *)
Definition snapshots : DataPlane.SnapshotStore W := DataPlane.GetSnapshot ["payments"].

(** [src/internal/reliability/harness.go:176-179] Harness.StartDataPlane *)
Definition data_handler : Health.ServeHTTP W DataPlane.Payload :=
  DataPlane.NewHandler snapshots (DataPlane.AgentCredentialVerifier AgentRegistry.Svc.Verify).

(** The network between the agents and the servers. *)
Definition network : HttpClient W := λ ctx req,
  sv ← gets part;
  match base ← sv_controlPlane sv; server_path base (hq_URL req) with
  | Some path => served encode_control (control_handler sv) ctx req path
  | None =>
      match base ← sv_dataPlane sv; server_path base (hq_URL req) with
      | Some path => served encode_data data_handler ctx req path
      | None => mthrow (connection_refused (hq_URL req))
      end
  end.
#[local] Existing Instance network.

Definition update (f : Servers → Servers) : M W unit := modify (λ w, set_part (f (part w)) w).
Definition set_controlPlane (url : option string) (sv : Servers) : Servers :=
  MkServers url (sv_dataPlane sv) (sv_started sv) (sv_queryer sv).
Definition set_dataPlane (url : option string) (sv : Servers) : Servers :=
  MkServers (sv_controlPlane sv) url (sv_started sv) (sv_queryer sv).
Definition started (sv : Servers) : Servers :=
  MkServers (sv_controlPlane sv) (sv_dataPlane sv) (S (sv_started sv)) (sv_queryer sv).

(** [src/internal/reliability/harness.go:143-154] Harness.Close *)
Definition Close : M W unit :=
  update (λ sv, set_dataPlane None (set_controlPlane None sv)).

(** [src/internal/reliability/harness.go:156-168] Harness.StartControlPlane *)
Definition StartControlPlane : M W unit :=
  update (λ sv, match sv_controlPlane sv with
                | Some _ => sv
                | None => started (set_controlPlane (Some (server_URL (sv_started sv))) sv)
                end).

(** [src/internal/reliability/harness.go:170-180] Harness.StartDataPlane *)
Definition StartDataPlane : M W unit :=
  update (λ sv, match sv_dataPlane sv with
                | Some _ => sv
                | None => started (set_dataPlane (Some (server_URL (sv_started sv))) sv)
                end).

Definition unknown_target (target : FailureTarget) : error :=
  EText "unknown failure target: %s" [target].

(** [src/internal/reliability/harness.go:182-203] Harness.InjectFailure *)
Definition InjectFailure (target : FailureTarget) : M W unit :=
  if bool_decide (target = FailureControlPlane) then update (set_controlPlane None)
  else if bool_decide (target = FailureDataPlane) then update (set_dataPlane None)
  else mthrow (unknown_target target).

(** [src/internal/reliability/harness.go:205-215] Harness.Recover *)
Definition Recover (target : FailureTarget) : M W unit :=
  if bool_decide (target = FailureControlPlane) then StartControlPlane
  else if bool_decide (target = FailureDataPlane) then StartDataPlane
  else mthrow (unknown_target target).

(** [src/internal/reliability/harness.go:217-222] Harness.Restart *)
Definition Restart (target : FailureTarget) : M W unit :=
  InjectFailure target;; Recover target.

(** [src/internal/reliability/harness.go:224-231] Harness.ControlPlaneURL *)
Definition ControlPlaneURL : M W string :=
  sv ← gets part;
  match sv_controlPlane sv with
  | None => mthrow (EText "control plane is not running" [])
  | Some url => mret url
  end.

(** [src/internal/reliability/harness.go:233-240] Harness.DataPlaneURL *)
Definition DataPlaneURL : M W string :=
  sv ← gets part;
  match sv_dataPlane sv with
  | None => mthrow (EText "data plane is not running" [])
  | Some url => mret url
  end.

(** ** The clients *)

(** [src/internal/reliability/harness.go:248-255] Harness.RegisterAgent *)
Definition register_input (id : string) : Agent.RegisterInput :=
  Agent.MkRegisterInput bootstrapToken id (h_service h) (h_environment h) "zone-1" id ∅.

(** [src/internal/reliability/harness.go:242-260] Harness.RegisterAgent *)
Definition RegisterAgent (ctx : Context) (id : string) : M W AgentIdentity :=
  baseURL ← ControlPlaneURL;
  result ← Agent.Register baseURL ctx (register_input id);
  mret (MkAgentIdentity (Agent.rg_AgentID result) (Agent.rg_InstanceCredential result)).

(** The same code as the simulator's. *)
(** [src/internal/reliability/harness.go:420-458] runParallel *)
Definition runParallel {V} (count : Z) (fn : Z → M V unit) (schedule : Scheduler) (concurrency : Z)
    : M V unit := parallel count fn schedule concurrency.

(** [src/internal/reliability/harness.go:270-277] Harness.RegisterAgents *)
Definition register_one (ctx : Context) (prefix : string) (index : Z)
    : M (W * list AgentIdentity) unit :=
  identity ← shared (RegisterAgent ctx (prefix +:+ "-" +:+ pad0 4 (index + 1)));
  locally (λ agents, <[Z.to_nat index := identity]> agents).

(** [src/internal/reliability/harness.go:262-279] Harness.RegisterAgents *)
Definition RegisterAgents (schedule : Scheduler) (ctx : Context) (count concurrency : Z)
    (prefix : string) : M W (list AgentIdentity) :=
  guard_err (count <? 1) (EText "agent count must be positive" []);;
  let prefix := if empty_str prefix then "agent" else prefix in
  agents ← make (MkAgentIdentity "" "") count;
  with_locals agents (runParallel count (register_one ctx prefix) schedule concurrency).

(** [src/internal/reliability/harness.go:281-305] Harness.Heartbeat *)
Definition Heartbeat (ctx : Context) (identity : AgentIdentity) : M W unit :=
  baseURL ← ControlPlaneURL;
  resp ← http_Do ctx (MkHttpRequest "POST"
    (baseURL +:+ "/v1/agents/" +:+ id_ID identity +:+ "/heartbeat")
    (<["Authorization" := "Bearer " +:+ id_Token identity]> ∅) "");
  if negb (hp_StatusCode resp =? StatusOK) then Agent.status_error "heartbeat" resp
  else mret tt.

(** A new syncer starts without an entity tag, and its cache is empty; the
    files stay. *)
(** [src/internal/reliability/harness.go:307-322] Harness.NewSyncer *)
Definition NewSyncer (identity : AgentIdentity) : M W (Agent.Syncer W) :=
  baseURL ← DataPlaneURL;
  modify (λ w, set_part (Agent.MkSnapshotCache (Agent.c_fs (part w)) None) w);;
  modify (set_part (Agent.MkEtag ""));;
  mret (Agent.MkSyncer (Agent.MkSnapshotClient baseURL (id_ID identity) (id_Token identity))
          (filepath_Join (h_tempDir h) (id_ID identity +:+ "-snapshot.json")) None 0).

(** [src/internal/reliability/harness.go:324-330] Harness.CachedConfigValue *)
Definition CachedConfigValue (key : string) : M W (string * Z) :=
  item ← zoom (Agent.Config key);
  mret (DataPlane.si_Value item, DataPlane.si_Version item).

(** [src/internal/reliability/harness.go:333-353] Harness.CreateRollout *)
Definition default_input (i : RolloutService.CreateRolloutInput) : RolloutService.CreateRolloutInput :=
  RolloutService.MkCreateRolloutInput
    (if empty_str (RolloutService.ci_TenantID i) then "payments" else RolloutService.ci_TenantID i)
    (if empty_str (RolloutService.ci_Key i) then paymentFailureRateKey else RolloutService.ci_Key i)
    (if empty_str (RolloutService.ci_Environment i) then h_environment h else RolloutService.ci_Environment i)
    (if RolloutService.ci_CandidateVersionNumber i =? 0 then 2
     else RolloutService.ci_CandidateVersionNumber i)
    (if Nat.eqb (length (RolloutService.ci_TargetServices i)) 0 then [h_service h]
     else RolloutService.ci_TargetServices i)
    (RolloutService.ci_Stages i) (RolloutService.ci_Guardrails i)
    (if f_eq (RolloutService.ci_RequiredAckPercentage i) f_zero then f_of_int 100
     else RolloutService.ci_RequiredAckPercentage i)
    (if RolloutService.ci_DeploymentTimeout i =? 0 then 5 * Minute
     else RolloutService.ci_DeploymentTimeout i)
    (RolloutService.ci_RolloutMaxDuration i) (RolloutService.ci_RollbackTimeout i).

(** [src/internal/reliability/harness.go:332-355] Harness.CreateRollout *)
Definition CreateRollout (ctx : Context) (input : RolloutService.CreateRolloutInput)
    : M W (Rollout * list StageTarget) :=
  sv ← gets part;
  RolloutService.CreateRollout (rollouts sv) ctx (default_input input).

(** [src/internal/reliability/harness.go:357-359] Harness.GetRollout *)
Definition GetRollout (ctx : Context) (rolloutID : string) : M W (Rollout * list StageTarget * Coverage) :=
  RolloutService.GetRollout ctx rolloutID.

(** [src/internal/reliability/harness.go:361-363] Harness.ReconcileActive *)
Definition ReconcileActive (ctx : Context) : M W unit :=
  sv ← gets part;
  RolloutService.ReconcileActive (rollouts sv) ctx.

(** [src/internal/reliability/harness.go:365-367] Harness.SetGuardrailQueryer *)
Definition SetGuardrailQueryer (queryer : staticQueryer) : M W unit :=
  update (λ sv, MkServers (sv_controlPlane sv) (sv_dataPlane sv) (sv_started sv) (Some queryer)).

(** [src/internal/reliability/harness.go:369-384] Harness.FetchSnapshot *)
Definition FetchSnapshot (ctx : Context) (identity : AgentIdentity) : M W DataPlane.Snapshot :=
  baseURL ← DataPlaneURL;
  result ← Agent.Fetch (Agent.MkSnapshotClient baseURL (id_ID identity) (id_Token identity)) ctx "";
  mret (Agent.fr_Snapshot result).

(** [src/internal/reliability/harness.go:386-393] Harness.AcknowledgeSnapshotItem *)
Definition AcknowledgeSnapshotItem (ctx : Context) (identity : AgentIdentity)
    (item : DataPlane.SnapshotItem) (revision : Z) : M W unit :=
  baseURL ← ControlPlaneURL;
  Agent.Acknowledge baseURL ctx (id_ID identity) (id_Token identity) item revision.

(** [src/internal/reliability/harness.go:398-416] Harness.AcknowledgeAssignedStage *)
Definition acknowledge_stage_of (ctx : Context) (identities : list AgentIdentity) (stageID : string)
    (index : Z) : M (W * Z) unit :=
  identity ← RolloutService.index identities index;
  snapshot ← shared (FetchSnapshot ctx identity);
  for_each (DataPlane.sn_Configs snapshot) (λ item,
    if negb (bool_decide (DataPlane.as_StageID (DataPlane.si_Assignment item) = stageID)) then mret tt
    else
      shared (AcknowledgeSnapshotItem ctx identity item (DataPlane.sn_Revision snapshot));;
      locally (λ acknowledged, acknowledged + 1)).

(** [src/internal/reliability/harness.go:395-418] Harness.AcknowledgeAssignedStage *)
Definition AcknowledgeAssignedStage (schedule : Scheduler) (ctx : Context)
    (identities : list AgentIdentity) (stageID : string) (concurrency : Z) : M W Z :=
  with_locals 0 (runParallel (Z.of_nat (length identities))
    (acknowledge_stage_of ctx identities stageID) schedule concurrency).

End harness.

(** ** The runner

    A step reads and changes the world, the result of the scenario, and the
    variables [L] its closures share. *)

Definition StepM (L A : Type) : Type := M (W * (ScenarioResult * L)) A.

(** [src/internal/reliability/runner.go:8-11] Step *)
Record Step (L : Type) := MkStep { step_Name : string; step_Run : StepM L unit }.

Section runner.
Context {L : Type}.

Definition addMetric (name : string) (value : Z) : StepM L unit :=
  locally (λ '(r, l), (add_metric name value r, l)).
Definition addTiming (name : string) (value : Duration) : StepM L unit :=
  locally (λ '(r, l), (add_timing name value r, l)).
Definition on_result (f : ScenarioResult → ScenarioResult) : StepM L unit :=
  locally (λ '(r, l), (f r, l)).
Definition local : StepM L L := gets (λ '(_, (_, l)), l).
Definition set_local (l : L) : StepM L unit := locally (λ '(r, _), (r, l)).

(** [src/internal/reliability/runner.go:26-42] Runner.Run *)
Fixpoint run_steps (steps : list (Step L)) : StepM L (option error) :=
  match steps with
  | [] => mret None
  | step :: steps =>
      eventStarted ← shared now;
      result ← try (step_Run L step);
      ended ← shared now;
      let duration := time_Sub ended eventStarted in
      match result with
      | Err err =>
          on_result (add_event (MkScenarioEvent (step_Name L step) false duration (Error err)));;
          mret (Some err)
      | Ok _ =>
          on_result (add_event (MkScenarioEvent (step_Name L step) true duration ""));;
          run_steps steps
      end
  end.

(** The result, and the error of the step that failed. *)
(** [src/internal/reliability/runner.go:18-46] Runner.Run *)
Definition Run (name : string) (steps : list (Step L)) (init : L)
    : M W (ScenarioResult * option error) := λ w,
  let run : StepM L (option error) :=
    startedAt ← shared now;
    on_result (λ _, MkScenarioResult name true startedAt 0 [] ∅ ∅);;
    started ← shared now;
    err ← run_steps steps;
    ended ← shared now;
    on_result (set_outcome (match err with None => true | Some _ => false end) (time_Sub ended started));;
    mret err in
  let '(r, (w', (result, _))) := run (w, (zero_ScenarioResult, init)) in
  (match r with Ok err => Ok (result, err) | Err err => Err err end, w').

End runner.
Arguments MkStep {L} _ _.

(** ** The harness of a scenario *)

(** [src/internal/reliability/harness.go:62-141] NewHarness *)
Definition NewHarness (validator : ConfigRegistry.SchemaValidator) (ctx : Context) (options : Options)
    : M W Harness :=
  let service := if empty_str (o_Service options) then "payment-service" else o_Service options in
  let environment := if empty_str (o_Environment options) then EnvironmentProduction
                     else o_Environment options in
  let tempDir := if empty_str (o_TempDir options) then "." else o_TempDir options in
  let concurrency := if o_Concurrency options =? 0 then 16 else o_Concurrency options in
  Simulator.seed_registry ctx
    "Synthetic payment authorization failure rate used by reliability scenarios." "reliability"
    environment;;
  modify (set_part AgentStore.NewMemoryStore);;
  modify (set_part RolloutStore.NewMemoryStore);;
  update (λ sv, MkServers None None (sv_started sv) None);;
  mret (MkHarness validator (AgentRegistry.NewService bootstrapToken (60 * Minute)) service environment
          tempDir concurrency).

(** [NewHarness], the runner, and the deferred [Close]. *)
Definition with_harness {L} (validator : ConfigRegistry.SchemaValidator) (ctx : Context)
    (options : Options) (name : string) (steps : Harness → list (Step L)) (init : L)
    : M W (ScenarioResult * option error) :=
  harness ← try (NewHarness validator ctx options);
  match harness with
  | Err err => mret (zero_ScenarioResult, Some err)
  | Ok h =>
      outcome ← Run name (steps h) init;
      Close;;
      mret outcome
  end.

End reliability.
Arguments MkStep {W L} _ _.
Arguments step_Name {W L} _.
Arguments step_Run {W L} _.

End Reliability.
