(* ===== verification/Drive.v ===== *)
(** Running the services to success.  A steady world has the contents of its
    three stores, a clock that does not go back and stays before a deadline,
    and random draws that differ as long as they are few; the background
    context is never done.  In such a world the result of an operation is
    known, and so are the stores it leaves.

    [Process] is the process the drivers run in: the world of [System], the two
    servers, and the files and the entity tag of one syncer; on a host that
    behaves it is steady.  [Campaign] is the configuration both drivers seed:
    its registry and the snapshots its agents get. *)

From Stdlib Require Import ZArith Lia.
From S2P Require Import Prelude GoLib Sha256 Host Domain Registry RegistryStore AgentRegistry AgentStore Rollout RolloutStore RolloutService RolloutMemory DataPlane Agent System Simulator Reliability.
Import Domain.
Open Scope string_scope.
Open Scope list_scope.
Open Scope Z_scope.

Module Drive.

Abbreviation Reg := RegistryStore.MemoryStore.
Abbreviation Ag := AgentStore.MemoryStore.
Abbreviation Ro := RolloutStore.MemoryStore.

(** [St reg ag ro t d w]: the stores of [w], the last reading of its clock, and
    the draws so far, as text. *)
Class Steady (W : Type) `{Env W, Has Reg W, Has Ag W, Has Ro W} (first deadline : Time) (budget : nat)
    (St : Reg → Ag → Ro → Time → list string → W → Prop) := {
  st_first : ∀ reg ag ro t d w, St reg ag ro t d w → first ≤ t;
  st_reg : ∀ reg ag ro t d w, St reg ag ro t d w → part w = reg;
  st_ag : ∀ reg ag ro t d w, St reg ag ro t d w → part w = ag;
  st_ro : ∀ reg ag ro t d w, St reg ag ro t d w → part w = ro;
  st_set_reg : ∀ reg' reg ag ro t d w, St reg ag ro t d w → St reg' ag ro t d (set_part reg' w);
  st_set_ag : ∀ ag' reg ag ro t d w, St reg ag ro t d w → St reg ag' ro t d (set_part ag' w);
  st_set_ro : ∀ ro' reg ag ro t d w, St reg ag ro t d w → St reg ag ro' t d (set_part ro' w);
  st_now : ∀ reg ag ro t d w, St reg ag ro t d w →
    t ≤ (env_now w).1 ≤ deadline ∧ St reg ag ro (env_now w).1 d (env_now w).2;
  st_random : ∀ reg ag ro t d w, St reg ag ro t d w →
    ((length d < budget)%nat → Sha256.hex_encode (env_random 12 w).1 ∉ d) ∧
    St reg ag ro t (Sha256.hex_encode (env_random 12 w).1 :: d) (env_random 12 w).2;
  st_range : ∀ reg ag ro t d w, St reg ag ro t d w →
    range_ok (env_range w).1 ∧ St reg ag ro t d (env_range w).2;
  st_ctx : ∀ reg ag ro t d w, St reg ag ro t d w →
    (env_ctx Background w).1 = None ∧ St reg ag ro t d (env_ctx Background w).2 }.

Section drive.
Context {W : Type} {first deadline : Time} {budget : nat}
  {St : Reg → Ag → Ro → Time → list string → W → Prop} `{Steady W first deadline budget St}.
#[local] Existing Instance RegistryStore.memory_store.
#[local] Existing Instance AgentStore.memory_store.
#[local] Existing Instance RolloutMemory.memory_store.
Implicit Types (reg : Reg) (ag : Ag) (ro : Ro).

(** ** The rules *)

Lemma drive_now reg ag ro t d (Q : res Time → W → Prop) w :
  St reg ag ro t d w →
  (∀ t' w', t ≤ t' ≤ deadline → St reg ag ro t' d w' → Q (Ok t') w') → wp now Q w.
Proof.
  intros Hw HQ. unfold wp, now. destruct (st_now _ _ _ _ _ _ Hw) as [Ht Hw'].
  destruct (env_now w). by apply HQ.
Qed.

Lemma drive_id prefix reg ag ro t d (Q : res string → W → Prop) w :
  St reg ag ro t d w →
  (∀ b w', ((length d < budget)%nat → Sha256.hex_encode b ∉ d) →
     St reg ag ro t (Sha256.hex_encode b :: d) w' →
     Q (Ok (prefix +:+ "_" +:+ Sha256.hex_encode b)) w') →
  wp (random_id prefix) Q w.
Proof.
  intros Hw HQ. unfold wp, random_id, random_bytes, mbind, M_bind.
  destruct (st_random _ _ _ _ _ _ Hw) as [Hd Hw'].
  destruct (env_random 12 w) as [b w']. cbn [fst snd] in *. by apply HQ.
Qed.

Lemma drive_reg {A} (method : option error → M Reg A) r reg' reg ag ro t d (Q : res A → W → Prop) w :
  St reg ag ro t d w → method None reg = (r, reg') →
  (∀ w', St reg' ag ro t d w' → Q r w') → wp (store_call Background method) Q w.
Proof.
  intros Hw Hm HQ. unfold wp, store_call, mbind, M_bind, ctx_Err.
  destruct (st_ctx _ _ _ _ _ _ Hw) as [Hc Hw']. destruct (env_ctx Background w) as [e w'].
  cbn [fst snd] in *. subst e. unfold zoom. rewrite (st_reg _ _ _ _ _ _ Hw'). cbn [option_fmap fmap option_map].
  rewrite Hm. apply HQ. by eapply st_set_reg.
Qed.
Lemma drive_ag {A} (method : option error → M Ag A) r ag' reg ag ro t d (Q : res A → W → Prop) w :
  St reg ag ro t d w → method None ag = (r, ag') →
  (∀ w', St reg ag' ro t d w' → Q r w') → wp (store_call Background method) Q w.
Proof.
  intros Hw Hm HQ. unfold wp, store_call, mbind, M_bind, ctx_Err.
  destruct (st_ctx _ _ _ _ _ _ Hw) as [Hc Hw']. destruct (env_ctx Background w) as [e w'].
  cbn [fst snd] in *. subst e. unfold zoom. rewrite (st_ag _ _ _ _ _ _ Hw'). cbn [option_fmap fmap option_map].
  rewrite Hm. apply HQ. by eapply st_set_ag.
Qed.
Lemma drive_ro {A} (method : option error → M Ro A) r ro' reg ag ro t d (Q : res A → W → Prop) w :
  St reg ag ro t d w → method None ro = (r, ro') →
  (∀ w', St reg ag ro' t d w' → Q r w') → wp (store_call Background method) Q w.
Proof.
  intros Hw Hm HQ. unfold wp, store_call, mbind, M_bind, ctx_Err.
  destruct (st_ctx _ _ _ _ _ _ Hw) as [Hc Hw']. destruct (env_ctx Background w) as [e w'].
  cbn [fst snd] in *. subst e. unfold zoom. rewrite (st_ro _ _ _ _ _ _ Hw'). cbn [option_fmap fmap option_map].
  rewrite Hm. apply HQ. by eapply st_set_ro.
Qed.

(** The same for the methods that iterate over a map. *)
Lemma drive_reg_range {A} (method : option error → RangeOrder → M Reg A) r reg' reg ag ro t d
    (Q : res A → W → Prop) w :
  St reg ag ro t d w → (∀ range, range_ok range → method None range reg = (r, reg')) →
  (∀ w', St reg' ag ro t d w' → Q r w') → wp (store_range Background method) Q w.
Proof.
  intros Hw Hm HQ. unfold wp, store_range, mbind, M_bind, ctx_Err, range_order.
  destruct (st_ctx _ _ _ _ _ _ Hw) as [Hc Hw1]. destruct (env_ctx Background w) as [e w1].
  cbn [fst snd] in *. subst e.
  destruct (st_range _ _ _ _ _ _ Hw1) as [Hr Hw2]. destruct (env_range w1) as [range w2].
  cbn [fst snd] in *. unfold zoom. rewrite (st_reg _ _ _ _ _ _ Hw2). cbn [option_fmap fmap option_map].
  rewrite (Hm range Hr). apply HQ. by eapply st_set_reg.
Qed.
Lemma drive_ag_range {A} (method : option error → RangeOrder → M Ag A) r ag' reg ag ro t d
    (Q : res A → W → Prop) w :
  St reg ag ro t d w → (∀ range, range_ok range → method None range ag = (r, ag')) →
  (∀ w', St reg ag' ro t d w' → Q r w') → wp (store_range Background method) Q w.
Proof.
  intros Hw Hm HQ. unfold wp, store_range, mbind, M_bind, ctx_Err, range_order.
  destruct (st_ctx _ _ _ _ _ _ Hw) as [Hc Hw1]. destruct (env_ctx Background w) as [e w1].
  cbn [fst snd] in *. subst e.
  destruct (st_range _ _ _ _ _ _ Hw1) as [Hr Hw2]. destruct (env_range w1) as [range w2].
  cbn [fst snd] in *. unfold zoom. rewrite (st_ag _ _ _ _ _ _ Hw2). cbn [option_fmap fmap option_map].
  rewrite (Hm range Hr). apply HQ. by eapply st_set_ag.
Qed.

Lemma drive_ro_range {A} (method : option error → RangeOrder → M Ro A) r ro' reg ag ro t d
    (Q : res A → W → Prop) w :
  St reg ag ro t d w → (∀ range, range_ok range → method None range ro = (r, ro')) →
  (∀ w', St reg ag ro' t d w' → Q r w') → wp (store_range Background method) Q w.
Proof.
  intros Hw Hm HQ. unfold wp, store_range, mbind, M_bind, ctx_Err, range_order.
  destruct (st_ctx _ _ _ _ _ _ Hw) as [Hc Hw1]. destruct (env_ctx Background w) as [e w1].
  cbn [fst snd] in *. subst e.
  destruct (st_range _ _ _ _ _ _ Hw1) as [Hr Hw2]. destruct (env_range w1) as [range w2].
  cbn [fst snd] in *. unfold zoom. rewrite (st_ro _ _ _ _ _ _ Hw2). cbn [option_fmap fmap option_map].
  rewrite (Hm range Hr). apply HQ. by eapply st_set_ro.
Qed.

(** ** The agent registry *)

Definition enroll (a : Agent) (c : AgentCredential) ag : Ag :=
  AgentStore.MkMemoryStore (<[a_ID a := a]> (AgentStore.ms_agents ag))
    (<[c_Token c := c]> (AgentStore.ms_credentials ag)) (AgentStore.ms_acknowledgements ag).

(** What [Register] makes of its input. *)
Definition agent_of (input : AgentRegistry.RegisterInput) (at_ : Time) : Agent :=
  MkAgent (AgentRegistry.ri_ID input) (AgentRegistry.ri_Service input)
    (AgentRegistry.ri_Environment input) (AgentRegistry.ri_Zone input)
    (AgentRegistry.ri_Instance input) (AgentRegistry.ri_Labels input) at_ at_.
Definition credential_of (s : AgentRegistry.Service) (input : AgentRegistry.RegisterInput)
    (x : string) (at_ : Time) : AgentCredential :=
  MkAgentCredential ("cred_" +:+ x) (AgentRegistry.ri_ID input)
    (at_ + AgentRegistry.svc_credentialTTL s) at_.

Definition admissible (s : AgentRegistry.Service) (input : AgentRegistry.RegisterInput) : Prop :=
  AgentRegistry.ri_BootstrapToken input = AgentRegistry.svc_bootstrapToken s ∧
  blank (AgentRegistry.ri_Service input) = false ∧ blank (AgentRegistry.ri_Instance input) = false ∧
  Environment_Validate (AgentRegistry.ri_Environment input) = Ok tt ∧ AgentRegistry.ri_ID input ≠ "".

Lemma drive_Register s input reg ag ro t d w :
  admissible s input → St reg ag ro t d w →
  wp (AgentRegistry.Svc.Register s Background input) (λ r w', ∃ at_ b,
    let x := Sha256.hex_encode b in let a := agent_of input at_ in
    let c := credential_of s input x at_ in
    r = Ok (AgentRegistry.MkRegisterResult a c) ∧ t ≤ at_ ≤ deadline ∧
    ((length d < budget)%nat → x ∉ d) ∧ St reg (enroll a c ag) ro at_ (x :: d) w') w.
Proof.
  intros (Htok & Hs & Hi & He & Hid) Hw. unfold AgentRegistry.Svc.Register.
  rewrite Htok, Hs, Hi, He. rewrite bool_decide_true by done. rewrite andb_false_r.
  cbn [guard_err]. do 3 (wp_step; apply wp_ret).
  wp_step. eapply drive_now; [exact Hw|]. intros at_ w1 Ht Hw1.
  rewrite (proj2 (empty_str_false _) Hid). wp_step. apply wp_ret. cbv zeta.
  rewrite AgentRegistry.cloneLabels_id.
  wp_step. eapply drive_id; [exact Hw1|]. intros b w2 Hb Hw2. cbn beta iota.
  wp_step. eapply drive_ag; [exact Hw2|reflexivity|]. intros w3 Hw3. cbn beta iota.
  wp_step. eapply drive_ag; [exact Hw3|reflexivity|]. intros w4 Hw4. cbn beta iota. apply wp_ret.
  exists at_, b. split_and!; [done|lia..|done|]. unfold enroll.
  rewrite AgentRegistry.clone_agent_id in Hw4. exact Hw4.
Qed.

Lemma drive_Verify token c reg ag ro t d w :
  AgentStore.ms_credentials ag !! token = Some c → blank token = false → deadline < c_ExpiresAt c →
  St reg ag ro t d w →
  wp (AgentRegistry.Svc.Verify Background token) (λ r w', r = Ok (c_AgentID c) ∧
    ∃ t', t ≤ t' ≤ deadline ∧ St reg ag ro t' d w') w.
Proof.
  intros Hc Hb He Hw. unfold AgentRegistry.Svc.Verify. rewrite Hb. cbn [guard_err].
  wp_step. apply wp_ret. wp_step. wp_step. eapply drive_ag; [exact Hw| |].
  { unfold AgentStore.GetCredential, mbind, M_bind. simpl. rewrite Hc. reflexivity. }
  intros w1 Hw1. cbn beta iota. wp_step. eapply drive_now; [exact Hw1|]. intros t' w2 Ht Hw2.
  unfold time_After. rewrite (proj2 (Z.ltb_lt _ _)) by lia. cbn [negb guard_err].
  wp_step. apply wp_ret. apply wp_ret. split; [done|]. exists t'. by split.
Qed.

Definition seen (id : string) (a : Agent) (at_ : Time) ag : Ag :=
  AgentStore.set_agents ag (<[id := AgentStore.set_seen a at_]> (AgentStore.ms_agents ag)).

Lemma drive_Heartbeat id token c a reg ag ro t d w :
  AgentStore.ms_credentials ag !! token = Some c → c_AgentID c = id → blank token = false →
  deadline < c_ExpiresAt c → AgentStore.ms_agents ag !! id = Some a → St reg ag ro t d w →
  wp (AgentRegistry.Svc.Heartbeat Background id token) (λ r w', ∃ at_,
    r = Ok (AgentStore.set_seen a at_) ∧ t ≤ at_ ≤ deadline ∧ St reg (seen id a at_ ag) ro at_ d w') w.
Proof.
  intros Hc Hid Hb He Ha Hw. unfold AgentRegistry.Svc.Heartbeat. wp_step.
  wp_call drive_Verify; [done..|]. intros r w1 (-> & t1 & Ht1 & Hw1).
  rewrite bool_decide_true by done. cbn [negb guard_err]. wp_step. apply wp_ret.
  wp_step. eapply drive_now; [exact Hw1|]. intros at_ w2 Ht Hw2. cbn beta iota.
  eapply drive_ag; [exact Hw2| |].
  { unfold AgentStore.TouchHeartbeat, mbind, M_bind. simpl. rewrite Ha. reflexivity. }
  intros w3 Hw3. exists at_. rewrite AgentRegistry.clone_agent_id. split_and!; [done|lia..|done].
Qed.

(** An acknowledgement is recorded; the agents and credentials stay. *)
Definition same_agents ag ag' : Prop :=
  AgentStore.ms_agents ag' = AgentStore.ms_agents ag ∧
  AgentStore.ms_credentials ag' = AgentStore.ms_credentials ag.

Lemma drive_AgentAcknowledge input c reg ag ro t d w :
  AgentStore.ms_credentials ag !! AgentRegistry.ai_Token input = Some c →
  c_AgentID c = AgentRegistry.ai_AgentID input → blank (AgentRegistry.ai_Token input) = false →
  deadline < c_ExpiresAt c → AgentRegistry.ai_ConfigDefinitionID input ≠ "" →
  AgentRegistry.ai_VersionID input ≠ "" → 1 ≤ AgentRegistry.ai_SnapshotRevision input →
  St reg ag ro t d w →
  wp (AgentRegistry.Svc.Acknowledge Background input) (λ r w', is_ok r = true ∧
    ∃ ag' t' d', same_agents ag ag' ∧ t ≤ t' ≤ deadline ∧ St reg ag' ro t' d' w') w.
Proof.
  intros Hc Hid Hb He Hd Hv Hr Hw. unfold AgentRegistry.Svc.Acknowledge. wp_step.
  wp_call drive_Verify; [done..|]. intros r w1 (-> & t1 & Ht1 & Hw1).
  rewrite bool_decide_true by done.
  rewrite (proj2 (empty_str_false _) Hd), (proj2 (empty_str_false _) Hv), (proj2 (Z.ltb_ge _ _) Hr).
  cbn [negb guard_err orb]. wp_step. apply wp_ret. wp_step. apply wp_ret.
  wp_step. eapply drive_id; [exact Hw1|]. intros b w2 Hx Hw2. cbn beta iota.
  wp_step. eapply drive_now; [exact Hw2|]. intros t3 w3 Ht3 Hw3. cbv zeta.
  wp_step. eapply drive_ag; [exact Hw3|reflexivity|]. intros w4 Hw4. cbn beta iota. apply wp_ret.
  split; [done|]. eexists _, t3, _. split_and!; [|lia..|exact Hw4]. by split.
Qed.

End drive.
End Drive.

Import System Drive.

Module Process.

Record Process := MkProcess {
  pr_world : World;
  pr_servers : Reliability.Servers;
  pr_cache : Agent.SnapshotCache;
  pr_etag : Agent.Etag }.

Definition set_world (w : World) (p : Process) : Process :=
  MkProcess w (pr_servers p) (pr_cache p) (pr_etag p).

#[export] Instance process_env : Env Process := {|
  env_now p := let r := env_now (pr_world p) in (r.1, set_world r.2 p);
  env_random n p := let r := env_random n (pr_world p) in (r.1, set_world r.2 p);
  env_range p := let r := env_range (pr_world p) in (r.1, set_world r.2 p);
  env_ctx ctx p := let r := env_ctx ctx (pr_world p) in (r.1, set_world r.2 p) |}.

#[export] Instance process_env_laws : EnvLaws Process.
Proof.
  split.
  - intros p. apply (env_range_ok (pr_world p)).
  - intros ctx p c Hc. by apply (env_ctx_answers ctx (pr_world p)).
Qed.

#[export] Instance has_world {S} `{Has S World} : Has S Process := {|
  part p := part (pr_world p);
  set_part s p := set_world (set_part s (pr_world p)) p |}.
#[export] Instance has_servers : Has Reliability.Servers Process := {|
  part := pr_servers;
  set_part s p := MkProcess (pr_world p) s (pr_cache p) (pr_etag p) |}.
#[export] Instance has_cache : Has Agent.SnapshotCache Process := {|
  part := pr_cache;
  set_part c p := MkProcess (pr_world p) (pr_servers p) c (pr_etag p) |}.
#[export] Instance has_etag : Has Agent.Etag Process := {|
  part := pr_etag;
  set_part e p := MkProcess (pr_world p) (pr_servers p) (pr_cache p) e |}.

(** * Steady hosts *)

Section steady.
Context (first deadline : Time) (budget : nat) (h0 : HostState).

(** The text of the n-th draw. *)
Definition draw_text (n : nat) : string := Sha256.hex_encode (firstn 12 (h_entropy h0 n)).

Record steady_host : Prop := {
  sh_first : ∀ n, (h_clock_reads h0 ≤ n)%nat → first ≤ h_clock h0 n ≤ deadline;
  sh_order : ∀ n m, (h_clock_reads h0 ≤ n ≤ m)%nat → h_clock h0 n ≤ h_clock h0 m;
  sh_draws : ∀ n m, (h_draws h0 ≤ n < m)%nat → (m < h_draws h0 + budget)%nat →
    draw_text n ≠ draw_text m }.

(** The host after some readings, the last one [t], and the draws [d]. *)
Record advanced (h : HostState) (t : Time) (d : list string) : Prop := {
  ad_clock : h_clock h = h_clock h0;
  ad_entropy : h_entropy h = h_entropy h0;
  ad_reads : (h_clock_reads h0 ≤ h_clock_reads h)%nat;
  ad_first : first ≤ t;
  ad_last : ∀ n, (h_clock_reads h ≤ n)%nat → t ≤ h_clock h0 n;
  ad_draws : (h_draws h = h_draws h0 + length d)%nat;
  ad_drawn : ∀ x, x ∈ d → ∃ n, (h_draws h0 ≤ n < h_draws h)%nat ∧ x = draw_text n }.

Definition world_state (reg : Reg) (ag : Ag) (ro : Ro) (t : Time) (d : list string) (w : World) : Prop :=
  advanced (w_host w) t d ∧ w_registry w = reg ∧ w_agents w = ag ∧ w_rollouts w = ro.

Context (Hh : steady_host).

Lemma advanced_start : advanced h0 first [].
Proof.
  split; try done; [intros n Hn; by apply Hh|]. by intros x ?%elem_of_nil.
Qed.

Lemma advanced_now h t d : advanced h t d →
  let t' := h_clock h (h_clock_reads h) in
  t ≤ t' ≤ deadline ∧
  advanced (MkHost (h_clock h) (h_entropy h) (h_order h) (S (h_clock_reads h)) (h_draws h)
              (h_ranges h) (h_ctx_calls h)) t' d.
Proof.
  intros [Hc He Hr Hf Hl Hd Hx]. cbv zeta. rewrite Hc.
  pose proof (sh_first Hh (h_clock_reads h) Hr). pose proof (Hl (h_clock_reads h) ltac:(lia)).
  split; [lia|]. split; simpl; try done; [lia|lia|].
  intros n Hn. apply (sh_order Hh). lia.
Qed.

Lemma advanced_random h t d : advanced h t d →
  let x := Sha256.hex_encode (firstn 12 (h_entropy h (h_draws h))) in
  ((length d < budget)%nat → x ∉ d) ∧
  advanced (MkHost (h_clock h) (h_entropy h) (h_order h) (h_clock_reads h) (S (h_draws h))
              (h_ranges h) (h_ctx_calls h)) t (x :: d).
Proof.
  intros [Hc He Hr Hf Hl Hd Hx]. cbv zeta. rewrite He. fold (draw_text (h_draws h)). split.
  - intros Hb (n & Hn & Heq)%Hx. symmetry in Heq. revert Heq. apply (sh_draws Hh); lia.
  - split; simpl; try done; [lia|].
    intros x [-> |Hin]%elem_of_cons; [exists (h_draws h); split; [lia|done]|].
    destruct (Hx x Hin) as (n & Hn & ->). exists n. split; [lia|done].
Qed.

Lemma advanced_other h t d order ranges calls : advanced h t d →
  advanced (MkHost (h_clock h) (h_entropy h) order (h_clock_reads h) (h_draws h) ranges calls) t d.
Proof. intros [Hc He Hr Hf Hl Hd Hx]. by split. Qed.

#[export] Instance world_steady : Steady World first deadline budget world_state.
Proof.
  split; unfold world_state; intros *; intros (Ha & <- & <- & <-); try done.
  - by eapply ad_first.
  - destruct (advanced_now _ _ _ Ha); split; [done|]. by split.
  - destruct (advanced_random _ _ _ Ha); split; [done|]. by split.
  - split; [apply (env_range_ok w)|]. split; [by apply advanced_other|done].
  - split; [done|]. split; [by apply advanced_other|done].
Qed.

Definition process_state (sv : Reliability.Servers) (c : Agent.SnapshotCache) (e : Agent.Etag)
    (reg : Reg) (ag : Ag) (ro : Ro) (t : Time) (d : list string) (p : Process) : Prop :=
  world_state reg ag ro t d (pr_world p) ∧ pr_servers p = sv ∧ pr_cache p = c ∧ pr_etag p = e.

#[export] Instance process_steady sv c e :
  Steady Process first deadline budget (process_state sv c e).
Proof.
  split; unfold process_state; intros *; intros [Hw Hp].
  - exact (st_first _ _ _ _ _ _ Hw).
  - exact (st_reg _ _ _ _ _ _ Hw).
  - exact (st_ag _ _ _ _ _ _ Hw).
  - exact (st_ro _ _ _ _ _ _ Hw).
  - split; [exact (st_set_reg _ _ _ _ _ _ _ Hw)|done].
  - split; [exact (st_set_ag _ _ _ _ _ _ _ Hw)|done].
  - split; [exact (st_set_ro _ _ _ _ _ _ _ Hw)|done].
  - destruct (st_now _ _ _ _ _ _ Hw). split; [done|]. by split.
  - destruct (st_random _ _ _ _ _ _ Hw). split; [done|]. by split.
  - destruct (st_range _ _ _ _ _ _ Hw). split; [done|]. by split.
  - destruct (st_ctx _ _ _ _ _ _ Hw). split; [done|]. by split.
Qed.

(** The other parts of a process. *)
Lemma set_servers sv' sv c e reg ag ro t d p :
  process_state sv c e reg ag ro t d p → process_state sv' c e reg ag ro t d (set_part sv' p).
Proof. by intros (? & ? & ? & ?). Qed.
Lemma set_cache c' sv c e reg ag ro t d p :
  process_state sv c e reg ag ro t d p → process_state sv c' e reg ag ro t d (set_part c' p).
Proof. by intros (? & ? & ? & ?). Qed.
Lemma set_etag e' sv c e reg ag ro t d p :
  process_state sv c e reg ag ro t d p → process_state sv c e' reg ag ro t d (set_part e' p).
Proof. by intros (? & ? & ? & ?). Qed.
Lemma get_servers sv c e reg ag ro t d p :
  process_state sv c e reg ag ro t d p → part p = sv.
Proof. by intros (? & ? & ? & ?). Qed.
Lemma get_cache sv c e reg ag ro t d p :
  process_state sv c e reg ag ro t d p → part p = c.
Proof. by intros (? & ? & ? & ?). Qed.
Lemma get_etag sv c e reg ag ro t d p :
  process_state sv c e reg ag ro t d p → part p = e.
Proof. by intros (? & ? & ? & ?). Qed.

End steady.
End Process.

Import Domain Rollout Drive.

Module Campaign.

(** * The registry *)

Definition cfg_id : string := "cfg_payment_failure_rate".
Definition v1_id : string := "ver_payment_failure_rate_v1".
Definition v2_id : string := "ver_payment_failure_rate_v2".
Definition config_key : string := "payment.failure_rate".

Section registry.
Context (description creator : string) (env : Environment).

Definition definition : ConfigDefinition :=
  MkConfigDefinition cfg_id "payments" config_key description Simulator.schema "0"
    Simulator.seeded_at Simulator.seeded_at.
Definition version (id : string) (number : Z) (value : RawMessage) : ConfigVersion :=
  MkConfigVersion id cfg_id number value "" creator Simulator.seeded_at.
Definition v1 : ConfigVersion := version v1_id 1 "0".
Definition v2 : ConfigVersion := version v2_id 2 "0.2".

(** The registry whose stable version is [stable]. *)
Definition registry (stable : string) (updated : Time) : Reg :=
  RegistryStore.MkMemoryStore
    {[ "payments" := MkTenant "payments" "Payments" "" "" Simulator.seeded_at Simulator.seeded_at ]}
    {[ cfg_id := definition ]}
    {[ RegistryStore.definitionKey "payments" config_key := cfg_id ]}
    {[ cfg_id := [v1; v2] ]}
    (<[RegistryStore.versionNumberKey cfg_id 2 := v2]>
       {[ RegistryStore.versionNumberKey cfg_id 1 := v1 ]})
    {[ RegistryStore.stateKey cfg_id env := MkConfigEnvironmentState cfg_id env stable "" updated ]}.

(** ** What its methods answer *)

Lemma reg_definition stable updated :
  RegistryStore.GetDefinitionByKey None "payments" config_key (registry stable updated) =
  (Ok definition, registry stable updated).
Proof. reflexivity. Qed.
Lemma reg_versions stable updated :
  RegistryStore.ListVersions None cfg_id (registry stable updated) = (Ok [v1; v2], registry stable updated).
Proof. reflexivity. Qed.
Lemma reg_version_2 stable updated :
  RegistryStore.GetVersionByNumber None cfg_id 2 (registry stable updated) = (Ok v2, registry stable updated).
Proof. reflexivity. Qed.
Lemma reg_tenant stable updated : ∃ tenant,
  RegistryStore.GetTenant None "payments" (registry stable updated) = (Ok tenant, registry stable updated).
Proof. by eexists. Qed.
Lemma reg_state stable updated :
  RegistryStore.GetEnvironmentState None cfg_id env (registry stable updated) =
  (Ok (MkConfigEnvironmentState cfg_id env stable "" updated), registry stable updated).
Proof.
  unfold RegistryStore.GetEnvironmentState, mbind, M_bind. simpl.
  by rewrite lookup_singleton_eq.
Qed.
Lemma reg_set_state stable updated stable' updated' :
  RegistryStore.SaveEnvironmentState None (MkConfigEnvironmentState cfg_id env stable' "" updated')
    (registry stable updated) = (Ok tt, registry stable' updated').
Proof.
  assert (∀ m : gmap string ConfigEnvironmentState,
    <[RegistryStore.stateKey cfg_id env := MkConfigEnvironmentState cfg_id env stable' "" updated']>
      (RegistryStore.ms_states (registry stable updated)) = m →
    RegistryStore.SaveEnvironmentState None (MkConfigEnvironmentState cfg_id env stable' "" updated')
      (registry stable updated) =
    (Ok tt, let s := registry stable updated in
       RegistryStore.MkMemoryStore (RegistryStore.ms_tenants s) (RegistryStore.ms_definitions s)
         (RegistryStore.ms_definitionsByKey s) (RegistryStore.ms_versions s)
         (RegistryStore.ms_versionsByNumber s) m)) as Hm by by intros m <-.
  apply (Hm _ (insert_singleton_eq _ _ _)).
Qed.
Lemma reg_definitions range stable updated : range_ok range →
  RegistryStore.ListDefinitions None range "payments" (registry stable updated) =
  (Ok [definition], registry stable updated).
Proof.
  intros Hr. unfold RegistryStore.ListDefinitions, mbind, M_bind. simpl. unfold map_values.
  rewrite map_to_list_singleton. simpl. pose proof (Hr [cfg_id]) as Hp.
  apply Permutation_singleton_r in Hp. rewrite Hp. reflexivity.
Qed.

End registry.

(** ** The store while it is seeded *)

Section seed.
Context (description creator : string) (env : Environment).
Abbreviation tenants := (RegistryStore.ms_tenants (registry description creator env v1_id 0)).
Definition seed_1 : Reg := RegistryStore.MkMemoryStore tenants ∅ ∅ ∅ ∅ ∅.
Definition seed_2 : Reg :=
  RegistryStore.MkMemoryStore tenants {[ cfg_id := definition description ]}
    {[ RegistryStore.definitionKey "payments" config_key := cfg_id ]} ∅ ∅ ∅.
Definition seed_3 : Reg :=
  RegistryStore.MkMemoryStore tenants {[ cfg_id := definition description ]}
    {[ RegistryStore.definitionKey "payments" config_key := cfg_id ]}
    {[ cfg_id := [v1 creator] ]} {[ RegistryStore.versionNumberKey cfg_id 1 := v1 creator ]} ∅.
Definition seed_4 : Reg :=
  RegistryStore.MkMemoryStore tenants {[ cfg_id := definition description ]}
    {[ RegistryStore.definitionKey "payments" config_key := cfg_id ]}
    {[ cfg_id := [v1 creator; v2 creator] ]}
    (<[RegistryStore.versionNumberKey cfg_id 2 := v2 creator]>
       {[ RegistryStore.versionNumberKey cfg_id 1 := v1 creator ]}) ∅.

Lemma seed_tenant : RegistryStore.CreateTenant None
  (MkTenant "payments" "Payments" "" "" Simulator.seeded_at Simulator.seeded_at)
  RegistryStore.NewMemoryStore = (Ok tt, seed_1).
Proof. reflexivity. Qed.
Lemma seed_definition : RegistryStore.CreateDefinition None
  (definition description) seed_1 = (Ok tt, seed_2).
Proof. reflexivity. Qed.
Lemma seed_v1 : RegistryStore.CreateVersion None
  (MkConfigVersion v1_id cfg_id 0 "0" "" creator Simulator.seeded_at) seed_2 = (Ok (v1 creator), seed_3).
Proof. reflexivity. Qed.
Lemma seed_v2 : RegistryStore.CreateVersion None
  (MkConfigVersion v2_id cfg_id 0 "0.2" "" creator Simulator.seeded_at) seed_3 = (Ok (v2 creator), seed_4).
Proof. reflexivity. Qed.
Lemma seed_state : RegistryStore.SaveEnvironmentState None
  (MkConfigEnvironmentState cfg_id env v1_id "" Simulator.seeded_at) seed_4 =
  (Ok tt, registry description creator env v1_id Simulator.seeded_at).
Proof. reflexivity. Qed.
End seed.

(** * The operations *)

Section run.
Context {W : Type} {first deadline : Time} {budget : nat}
  {St : Reg → Ag → Ro → Time → list string → W → Prop} `{Steady W first deadline budget St}.
#[local] Existing Instance RegistryStore.memory_store.
#[local] Existing Instance AgentStore.memory_store.
#[local] Existing Instance RolloutMemory.memory_store.
#[local] Existing Instance RolloutService.registry_service.
#[local] Existing Instance Simulator.agent_source.
#[local] Existing Instance DataPlane.registry_source.
#[local] Existing Instance DataPlane.agent_source.
#[local] Existing Instance DataPlane.rollout_source.
Context (description creator : string) (env : Environment).
Abbreviation reg := (registry description creator env).

Lemma drive_seed reg0 ag ro t d w : St reg0 ag ro t d w →
  wp (Simulator.seed_registry Background description creator env) (λ r w',
    r = Ok tt ∧ St (reg v1_id Simulator.seeded_at) ag ro t d w') w.
Proof.
  intros Hw. unfold Simulator.seed_registry. cbv zeta.
  wp_step. eapply (st_set_reg RegistryStore.NewMemoryStore) in Hw.
  change (St RegistryStore.NewMemoryStore ag ro t d (modify (E := error) (set_part RegistryStore.NewMemoryStore) w).2) in Hw.
  unfold wp at 1. cbn [modify fst snd] in *.
  wp_step. eapply drive_reg; [exact Hw|apply seed_tenant|]. intros w1 Hw1. cbn beta iota.
  wp_step. eapply drive_reg; [exact Hw1|apply seed_definition|]. intros w2 Hw2. cbn beta iota.
  wp_step. eapply drive_reg; [exact Hw2|apply seed_v1|]. intros w3 Hw3. cbn beta iota.
  wp_step. eapply drive_reg; [exact Hw3|apply seed_v2|]. intros w4 Hw4. cbn beta iota.
  eapply drive_reg; [exact Hw4|apply seed_state|]. intros w5 Hw5. split; [done|]. exact Hw5.
Qed.

(** ** Snapshots *)

Definition serving (ro : Ro) (act : option (Rollout * list StageTarget)) : Prop :=
  match act with
  | None => ∃ e, RolloutStore.GetActiveRollout None cfg_id env ro = (Err e, ro) ∧ errors_Is e ErrNotFound = true
  | Some (r, ts) =>
      RolloutStore.GetActiveRollout None cfg_id env ro = (Ok r, ro) ∧
      RolloutStore.ListStageTargets None (r_ID r) (r_CurrentStageID r) ro = (Ok ts, ro)
  end.

(** What an agent is offered: a version, its assignment, the revision. *)
Definition offered (stable : string) (act : option (Rollout * list StageTarget)) (id : string)
    : string * DataPlane.Assignment * Z :=
  match act with
  | None => (stable, DataPlane.MkAssignment "" "", 1)
  | Some (r, ts) =>
      let e := EffectiveVersionForAgent r ts id in
      if negb (empty_str (ev_AssignedRollout e))
      then (ev_VersionID e, DataPlane.MkAssignment (ev_AssignedRollout e) (ev_AssignedStage e),
            ev_SnapshotRevision e)
      else (ev_VersionID e, DataPlane.MkAssignment "" "", 1)
  end.

Definition offered_item (v : ConfigVersion) (a : DataPlane.Assignment) : DataPlane.SnapshotItem :=
  DataPlane.MkSnapshotItem cfg_id config_key (v_ID v) (v_VersionNumber v)
    (DataPlane.cloneRaw (v_Value v)) (DataPlane.Checksum (v_Value v)) a.

Definition offered_snapshot (v : ConfigVersion) (a : DataPlane.Assignment) (revision : Z) (at_ : Time)
    : DataPlane.Snapshot :=
  DataPlane.MkSnapshot (if 1 <? revision then revision else 1) at_ [offered_item v a].

Lemma drive_effective def a state act g ag ro t d w :
  d_ID def = cfg_id → a_Environment a = env → serving ro act → St g ag ro t d w →
  wp (DataPlane.effective_assignment Background def a state) (λ r w',
    r = Ok (offered (es_StableVersionID state) act (a_ID a)) ∧ St g ag ro t d w') w.
Proof.
  intros Hdef He Hact Hw. unfold DataPlane.effective_assignment. rewrite Hdef, He.
  wp_step. wp_step. simpl DataPlane.rollouts_ActiveRollout. unfold RolloutService.ActiveRollout. wp_step.
  destruct act as [[r ts]|].
  - destruct Hact as [Hget Hlist]. eapply drive_ro; [exact Hw|exact Hget|]. intros w1 Hw1. cbn beta iota.
    wp_step. eapply drive_ro; [exact Hw1|exact Hlist|]. intros w2 Hw2. cbn beta iota. wp_step. cbn beta iota.
    unfold offered. cbv zeta. destruct (negb (empty_str _)); by wp_step.
  - destruct Hact as (e & Hget & Hnf). eapply drive_ro; [exact Hw|exact Hget|]. intros w1 Hw1. cbn beta iota.
    rewrite Hnf. cbn [negb guard_err]. wp_step. apply wp_ret. by wp_step.
Qed.

Lemma drive_GetSnapshot stable updated act id a v assignment revision ag ro t d w :
  AgentStore.ms_agents ag !! id = Some a → a_ID a = id → a_Environment a = env → stable ≠ "" →
  serving ro act → offered stable act id = (v_ID v, assignment, revision) →
  DataPlane.findVersionByID [v1 creator; v2 creator] (v_ID v) = Some v →
  St (reg stable updated) ag ro t d w →
  wp (DataPlane.GetSnapshot ["payments"] Background id) (λ r w', ∃ at_,
    r = Ok (offered_snapshot v assignment revision at_) ∧ t ≤ at_ ≤ deadline ∧
    St (reg stable updated) ag ro at_ d w') w.
Proof.
  intros Ha Hid He Hst Hact Hoff Hv Hw. unfold DataPlane.GetSnapshot. wp_step. wp_step.
  eapply drive_ag; [exact Hw| |].
  { unfold AgentStore.GetAgent, mbind, M_bind. simpl. rewrite Ha. reflexivity. }
  rewrite AgentRegistry.clone_agent_id. intros w1 Hw1. cbn beta iota.
  unfold DataPlane.snapshotTenants. cbn [length Nat.eqb negb app].
  wp_step. apply wp_ret. wp_step. cbn [fold_m]. wp_step. unfold DataPlane.add_tenant.
  wp_step. wp_step. simpl DataPlane.registry_ListDefinitions. unfold ConfigRegistry.Service.ListDefinitions.
  wp_step. destruct (reg_tenant description creator env stable updated) as [tenant Htenant].
  eapply drive_reg; [exact Hw1|exact Htenant|]. intros w2 Hw2. cbn beta iota.
  eapply drive_reg_range; [exact Hw2|intros range Hr; by apply reg_definitions|]. intros w3 Hw3.
  cbn beta iota. cbn [fold_m]. wp_step. unfold DataPlane.add_item. wp_step.
  unfold DataPlane.snapshotItem. wp_step. wp_step.
  simpl DataPlane.registry_GetEnvironmentState. unfold ConfigRegistry.Service.GetEnvironmentState.
  wp_step. eapply drive_reg; [exact Hw3|apply reg_definition|]. intros w4 Hw4. cbn beta iota.
  cbn [d_ID definition]. rewrite He.
  eapply drive_reg; [exact Hw4|apply reg_state|]. intros w5 Hw5. cbn beta iota.
  cbn [es_StableVersionID]. rewrite (proj2 (empty_str_false _) Hst).
  wp_step. simpl DataPlane.registry_ListVersions. unfold ConfigRegistry.Service.ListVersions.
  wp_step. eapply drive_reg; [exact Hw5|apply reg_definition|]. intros w6 Hw6. cbn beta iota.
  eapply drive_reg; [exact Hw6|apply reg_versions|]. intros w7 Hw7. cbn beta iota.
  wp_step. wp_call drive_effective; [done..|exact Hw7|]. cbn [es_StableVersionID]. rewrite Hid, Hoff.
  intros r w8 [-> Hw8]. cbn beta iota. rewrite Hv. wp_step. cbn beta iota. wp_step. cbn [fold_m]. wp_step.
  wp_step. wp_step. eapply drive_now; [exact Hw8|]. intros at_ w9 Ht Hw9. cbn beta iota. wp_step.
  exists at_. split_and!; [|lia..|done]. done.
Qed.

End run.
End Campaign.
