(* ===== verification/Scenarios.v ===== *)
(** [internal/reliability/scenarios.go]: the four scenarios as lists of steps
    over the harness.  The variables the steps of a scenario share are a record
    of its own; every pool of workers has its own scheduler. *)

From Stdlib Require Import ZArith Lia Ascii SpecFloat.
From S2P Require Import Prelude GoLib Format Parallel Host Http Domain Guardrail Registry RegistryStore AgentRegistry AgentStore Rollout RolloutStore RolloutService RolloutMemory DataPlane Agent ControlPlane Reliability.
Import Domain Rollout Format Parallel Reliability.
Open Scope string_scope.
Open Scope list_scope.
Open Scope Z_scope.

Module Scenarios.

(** [src/internal/reliability/scenarios.go:78-80] RunDataPlaneOutageScenario *)
Record Outage (W : Type) := MkOutage {
  ou_identity : AgentIdentity;
  ou_syncer : option (Agent.Syncer W) }.
Arguments MkOutage {W} _ _.
Arguments ou_identity {W} _.
Arguments ou_syncer {W} _.

(** [src/internal/reliability/scenarios.go:171-173] RunConcurrentRolloutAcknowledgementScenario *)
Record Concurrent := MkConcurrent {
  co_identities : list AgentIdentity;
  co_created : Rollout;
  co_targets : list StageTarget }.

(** [src/internal/reliability/scenarios.go:265-268] RunRollbackPropagationTimingScenario *)
Record Rollback := MkRollback {
  rb_identities : list AgentIdentity;
  rb_created : Rollout;
  rb_candidateTargets : list StageTarget;
  rb_rollbackStarted : Time }.

(** [src/internal/reliability/scenarios.go:207-207] RunConcurrentRolloutAcknowledgementScenario *)
Definition stage_100 : Stage := MkStage "stage-100" 100 0.

(** [src/internal/reliability/scenarios.go:300-312] RunRollbackPropagationTimingScenario *)
Definition bare_input (guardrails : list Guardrail.Rule) (rollbackTimeout : Duration)
    : RolloutService.CreateRolloutInput :=
  RolloutService.MkCreateRolloutInput "" "" "" 0 [] [stage_100] guardrails f_zero 0 0 rollbackTimeout.

(** 0.02 and 0.05. *)
Definition two_percent : float64 := f_div (f_of_int 2) (f_of_int 100).
Definition five_percent : float64 := f_div (f_of_int 5) (f_of_int 100).

(** [src/internal/reliability/scenarios.go:303-309] RunRollbackPropagationTimingScenario *)
Definition error_rate : Guardrail.Rule :=
  Guardrail.MkRule "error-rate"
    (quoted "sum(rate(payment_requests_total{result='error'}[1m]))") "<" two_percent 1.

#[export] Instance rollback_status_eq_dec : EqDecision RollbackStatus.
Proof. solve_decision. Defined.

Section scenarios.
Context {W : Type} `{Env W, Has RegistryStore.MemoryStore W, Has AgentStore.MemoryStore W,
  Has RolloutStore.MemoryStore W, Has Servers W, Has Agent.SnapshotCache W, Has Agent.Etag W}.
Context `{ControlPlane.RequestDecoder ControlPlane.createTenantRequest,
  ControlPlane.RequestDecoder ControlPlane.createDefinitionRequest,
  ControlPlane.RequestDecoder ControlPlane.createVersionRequest,
  ControlPlane.RequestDecoder ControlPlane.setStableVersionRequest,
  ControlPlane.RequestDecoder ControlPlane.registerAgentRequest,
  ControlPlane.RequestDecoder ControlPlane.acknowledgementRequest,
  ControlPlane.RequestDecoder ControlPlane.createRolloutRequest}.
Context `{Codec DataPlane.Snapshot, Codec Agent.RegisterInput, Codec Agent.registerResponse,
  Codec Agent.AckPayload, Wire}.
Context (ctx : Context).
Abbreviation StepM L := (Reliability.StepM (W := W) L).

(** Reading the clock, or a call of the harness, in a step. *)
Definition world {L A} (m : M W A) : StepM L A := shared m.

(** ** control-plane-restart *)

(** [src/internal/reliability/scenarios.go:29-33] RunControlPlaneRestartScenario *)
Definition start_control_plane : StepM AgentIdentity unit :=
  world StartControlPlane;;
  addMetric "control_plane_starts" 1.

(** [src/internal/reliability/scenarios.go:37-44] RunControlPlaneRestartScenario *)
Definition register_before_restart (h : Harness) : StepM AgentIdentity unit :=
  identity ← world (RegisterAgent h ctx "agent-restart-1");
  set_local identity;;
  addMetric "registered_agents" 1.

(** [src/internal/reliability/scenarios.go:48-54] RunControlPlaneRestartScenario *)
Definition restart_control_plane : StepM AgentIdentity unit :=
  world (Restart FailureControlPlane);;
  addMetric "control_plane_restarts" 1.

(** [src/internal/reliability/scenarios.go:58-64] RunControlPlaneRestartScenario *)
Definition heartbeat_after_restart (h : Harness) : StepM AgentIdentity unit :=
  identity ← local;
  world (Heartbeat h ctx identity);;
  addMetric "post_restart_heartbeats" 1.

(** [src/internal/reliability/scenarios.go:26-66] RunControlPlaneRestartScenario *)
Definition restart_steps (h : Harness) : list (Step (W := W) AgentIdentity) :=
  [ MkStep "start control plane" start_control_plane;
    MkStep "register agent before restart" (register_before_restart h);
    MkStep "restart control plane" restart_control_plane;
    MkStep "heartbeat through restarted control plane" (heartbeat_after_restart h) ].

(** [src/internal/reliability/scenarios.go:16-69] RunControlPlaneRestartScenario *)
Definition RunControlPlaneRestartScenario (validator : ConfigRegistry.SchemaValidator)
    (options : Options) : M W (ScenarioResult * option error) :=
  with_harness validator ctx options "control-plane-restart" restart_steps (MkAgentIdentity "" "").

(** ** data-plane-outage *)

(** The first step of three scenarios. *)
(** [src/internal/reliability/scenarios.go:87-93] RunDataPlaneOutageScenario *)
Definition start_planes {L} : StepM L unit :=
  world StartControlPlane;;
  world StartDataPlane;;
  addMetric "control_plane_starts" 1;;
  addMetric "data_plane_starts" 1.

(** [src/internal/reliability/scenarios.go:97-104] RunDataPlaneOutageScenario *)
Definition register_outage_agent (h : Harness) : StepM (Outage W) unit :=
  identity ← world (RegisterAgent h ctx "agent-outage-1");
  l ← local;
  set_local (MkOutage identity (ou_syncer l));;
  addMetric "registered_agents" 1.

(** [src/internal/reliability/scenarios.go:116-122] RunDataPlaneOutageScenario *)
Definition check_cached (format : string) : StepM (Outage W) unit :=
  vv ← world (CachedConfigValue paymentFailureRateKey);
  let '(value, version) := vv in
  guard_err (negb (bool_decide (value = "0")) || negb (version =? 1)) (EText format [value; pretty version]).

(** [src/internal/reliability/scenarios.go:108-126] RunDataPlaneOutageScenario *)
Definition warm_cache (h : Harness) : StepM (Outage W) unit :=
  l ← local;
  syncer ← world (NewSyncer h (ou_identity l));
  set_local (MkOutage (ou_identity l) (Some syncer));;
  world (Agent.SyncOnce (H0 := network h) json_MarshalIndent syncer ctx);;
  check_cached "unexpected cached config: value=%s version=%d";;
  addMetric "cache_warm_configs" 1.

(** [src/internal/reliability/scenarios.go:130-136] RunDataPlaneOutageScenario *)
Definition inject_outage : StepM (Outage W) unit :=
  world (InjectFailure FailureDataPlane);;
  addMetric "data_plane_outages" 1.

(** [src/internal/reliability/scenarios.go:140-156] RunDataPlaneOutageScenario *)
Definition read_during_outage (h : Harness) : StepM (Outage W) unit :=
  l ← local;
  match ou_syncer l with
  | None => mthrow (EText "cache was not warmed" [])
  | Some syncer =>
      polled ← try (world (Agent.SyncOnce (H0 := network h) json_MarshalIndent syncer ctx));
      guard_err (is_ok polled) (EText "expected data-plane polling to fail during outage" []);;
      check_cached "unexpected cached config during outage: value=%s version=%d";;
      addMetric "cache_reads_during_outage" 1
  end.

(** [src/internal/reliability/scenarios.go:84-158] RunDataPlaneOutageScenario *)
Definition outage_steps (h : Harness) : list (Step (W := W) (Outage W)) :=
  [ MkStep "start control and data planes" start_planes;
    MkStep "register agent" (register_outage_agent h);
    MkStep "warm local cache" (warm_cache h);
    MkStep "inject data-plane outage" inject_outage;
    MkStep "poll fails while cache remains usable" (read_during_outage h) ].

(** [src/internal/reliability/scenarios.go:71-161] RunDataPlaneOutageScenario *)
Definition RunDataPlaneOutageScenario (validator : ConfigRegistry.SchemaValidator)
    (options : Options) : M W (ScenarioResult * option error) :=
  with_harness validator ctx options "data-plane-outage" outage_steps
    (MkOutage (MkAgentIdentity "" "") None).

(** ** concurrent-rollout-acknowledgements *)

Section pools.
Context (schedule : nat → Scheduler) (agentCount : Z).

(** [src/internal/reliability/scenarios.go:190-200] RunConcurrentRolloutAcknowledgementScenario *)
Definition register_concurrently (h : Harness) : StepM Concurrent unit :=
  started ← world now;
  identities ← world (RegisterAgents h (schedule 0%nat) ctx agentCount (h_concurrency h) "concurrent-agent");
  l ← local;
  set_local (MkConcurrent identities (co_created l) (co_targets l));;
  addMetric "registered_agents" (Z.of_nat (length identities));;
  ended ← world now;
  addTiming "agent_registration_duration" (time_Sub ended started).

(** [src/internal/reliability/scenarios.go:204-217] RunConcurrentRolloutAcknowledgementScenario *)
Definition create_single_stage (h : Harness) : StepM Concurrent unit :=
  created ← world (CreateRollout h ctx (bare_input [] 0));
  let '(created, targets) := created in
  l ← local;
  set_local (MkConcurrent (co_identities l) created targets);;
  let n := Z.of_nat (length targets) in
  guard_err (negb (n =? agentCount))
    (EText "expected %d rollout targets, got %d" [pretty agentCount; pretty n]);;
  addMetric "rollout_targets" n.

(** [src/internal/reliability/scenarios.go:221-233] RunConcurrentRolloutAcknowledgementScenario *)
Definition acknowledge_concurrently (h : Harness) : StepM Concurrent unit :=
  started ← world now;
  l ← local;
  acked ← world (AcknowledgeAssignedStage h (schedule 1%nat) ctx (co_identities l)
                   (r_CurrentStageID (co_created l)) (h_concurrency h));
  addMetric "concurrent_acknowledgements" acked;;
  ended ← world now;
  addTiming "concurrent_ack_duration" (time_Sub ended started);;
  let n := Z.of_nat (length (co_targets l)) in
  guard_err (negb (acked =? n))
    (EText "expected %d acknowledgements, got %d" [pretty n; pretty acked]).

(** [src/internal/reliability/scenarios.go:237-250] RunConcurrentRolloutAcknowledgementScenario *)
Definition verify_completed : StepM Concurrent unit :=
  l ← local;
  found ← world (GetRollout ctx (r_ID (co_created l)));
  let '(final, _, coverage) := found in
  guard_err (negb (bool_decide (r_State final = StateCompleted)))
    (EText "expected completed rollout, got %s" [State_string (r_State final)]);;
  guard_err (negb (cov_Acked coverage =? cov_Total coverage)
             || negb (cov_Total coverage =? Z.of_nat (length (co_targets l))))
    (EText "unexpected coverage: %+v" [format_Coverage coverage]);;
  addMetric "final_coverage_percent" (f_to_int (cov_Percentage coverage)).

(** [src/internal/reliability/scenarios.go:177-252] RunConcurrentRolloutAcknowledgementScenario *)
Definition concurrent_steps (h : Harness) : list (Step (W := W) Concurrent) :=
  [ MkStep "start control and data planes" start_planes;
    MkStep "register concurrent agents" (register_concurrently h);
    MkStep "create single-stage rollout" (create_single_stage h);
    MkStep "acknowledge rollout concurrently" (acknowledge_concurrently h);
    MkStep "verify completed rollout" verify_completed ].

(** The number of agents, 200 in the code, is an argument. *)
(** [src/internal/reliability/scenarios.go:163-255] RunConcurrentRolloutAcknowledgementScenario *)
Definition RunConcurrentRolloutAcknowledgementScenario (validator : ConfigRegistry.SchemaValidator)
    (options : Options) : M W (ScenarioResult * option error) :=
  with_harness validator ctx options "concurrent-rollout-acknowledgements" concurrent_steps
    (MkConcurrent [] zero_Rollout []).

(** ** rollback-propagation-timing *)

(** [src/internal/reliability/scenarios.go:275-282] RunRollbackPropagationTimingScenario *)
Definition start_unhealthy : StepM Rollback unit :=
  world StartControlPlane;;
  world StartDataPlane;;
  world (SetGuardrailQueryer (MkStaticQueryer five_percent None));;
  addMetric "control_plane_starts" 1;;
  addMetric "data_plane_starts" 1.

(** [src/internal/reliability/scenarios.go:286-294] RunRollbackPropagationTimingScenario *)
Definition register_rollback_agents (h : Harness) : StepM Rollback unit :=
  identities ← world (RegisterAgents h (schedule 0%nat) ctx agentCount (h_concurrency h) "rollback-agent");
  l ← local;
  set_local (MkRollback identities (rb_created l) (rb_candidateTargets l) (rb_rollbackStarted l));;
  addMetric "registered_agents" (Z.of_nat (length identities)).

(** [src/internal/reliability/scenarios.go:298-319] RunRollbackPropagationTimingScenario *)
Definition create_guarded (h : Harness) : StepM Rollback unit :=
  created ← world (CreateRollout h ctx (bare_input [error_rate] Minute));
  let '(created, targets) := created in
  l ← local;
  set_local (MkRollback (rb_identities l) created targets (rb_rollbackStarted l));;
  addMetric "candidate_targets" (Z.of_nat (length targets)).

(** [src/internal/reliability/scenarios.go:322-337] RunRollbackPropagationTimingScenario *)
Definition trigger_rollback (h : Harness) : StepM Rollback unit :=
  l ← local;
  acked ← world (AcknowledgeAssignedStage h (schedule 1%nat) ctx (rb_identities l)
                   (r_CurrentStageID (rb_created l)) (h_concurrency h));
  found ← world (GetRollout ctx (r_ID (rb_created l)));
  let '(current, _, _) := found in
  guard_err (negb (bool_decide (r_State current = StateRollingBack)))
    (EText "expected rolling back rollout, got %s" [State_string (r_State current)]);;
  rollbackStarted ← world now;
  set_local (MkRollback (rb_identities l) (rb_created l) (rb_candidateTargets l) rollbackStarted);;
  addMetric "candidate_acknowledgements" acked.

(** [src/internal/reliability/scenarios.go:341-372] RunRollbackPropagationTimingScenario *)
Definition propagate_rollback (h : Harness) : StepM Rollback unit :=
  l ← local;
  world (ReconcileActive ctx);;
  found ← world (GetRollout ctx (r_ID (rb_created l)));
  let '(verifying, verificationTargets, _) := found in
  guard_err (negb (bool_decide (r_State verifying = StateRollingBack)))
    (EText "expected rollback verification, got %s" [State_string (r_State verifying)]);;
  guard_err (negb (Nat.eqb (length verificationTargets) (length (rb_candidateTargets l))))
    (EText "expected %d verification targets, got %d"
       [pretty (Z.of_nat (length (rb_candidateTargets l))); pretty (Z.of_nat (length verificationTargets))]);;
  acked ← world (AcknowledgeAssignedStage h (schedule 2%nat) ctx (rb_identities l)
                   (r_CurrentStageID verifying) (h_concurrency h));
  found ← world (GetRollout ctx (r_ID (rb_created l)));
  let '(final, _, _) := found in
  guard_err (negb (bool_decide (r_State final = StateRolledBack)))
    (EText "expected rolled back rollout, got %s" [State_string (r_State final)]);;
  guard_err (negb (bool_decide (r_RollbackStatus final = RollbackStatusVerified)))
    (EText "expected verified rollback, got %s" [RollbackStatus_string (r_RollbackStatus final)]);;
  addMetric "rollback_verification_acknowledgements" acked;;
  ended ← world now;
  addTiming "rollback_propagation_duration" (time_Sub ended (rb_rollbackStarted l)).

(** [src/internal/reliability/scenarios.go:272-374] RunRollbackPropagationTimingScenario *)
Definition rollback_steps (h : Harness) : list (Step (W := W) Rollback) :=
  [ MkStep "start control and data planes" start_unhealthy;
    MkStep "register rollback agents" (register_rollback_agents h);
    MkStep "create guarded rollout" (create_guarded h);
    MkStep "trigger rollback from unhealthy guardrail" (trigger_rollback h);
    MkStep "propagate stable rollback snapshot" (propagate_rollback h) ].

(** The number of agents is 120 in the code. *)
(** [src/internal/reliability/scenarios.go:257-377] RunRollbackPropagationTimingScenario *)
Definition RunRollbackPropagationTimingScenario (validator : ConfigRegistry.SchemaValidator)
    (options : Options) : M W (ScenarioResult * option error) :=
  with_harness validator ctx options "rollback-propagation-timing" rollback_steps
    (MkRollback [] zero_Rollout [] 0).

End pools.
End scenarios.
End Scenarios.
