(* ===== verification/SimulatorCommand.v ===== *)
(** What the commands of the two drivers share, and [cmd/simulator]: one run of
    the simulator and the text of its result.  The flags come parsed; the
    encoder of the JSON format is an argument. *)

From Stdlib Require Import ZArith Lia Ascii.
From S2P Require Import Prelude GoLib Format Domain Simulator.
Import Format.
Open Scope string_scope.
Open Scope list_scope.
Open Scope Z_scope.

Module DriverCommands.

(** [out.Write] of a formatted line. *)
(** [src/cmd/reliability/main.go:137-140] writeLine *)
Definition Writer (W : Type) : Type := string → M W unit.

Definition newline : string := String (ascii_of_N 10) "".
Definition in_ms (d : Duration) : string := Duration_String (Duration_Round d Millisecond).
Definition in_us (d : Duration) : string := Duration_String (Duration_Round d Microsecond).
Definition unsupported_format (format : string) : error := EText "unsupported format %q" [format].

(** The exit code, and what is written to the error output.  Printing an error
    may fail. *)
(** [src/cmd/simulator/main.go:16-23] main *)
Definition main {W} (stderr : Writer W) (run : M W unit) : M W Z :=
  result ← try run;
  match result with
  | Ok _ => mret 0
  | Err err =>
      written ← try (stderr (Error err +:+ newline));
      mret (match written with Ok _ => 1 | Err _ => 2 end)
  end.

End DriverCommands.

Import Domain Format DriverCommands.

Module SimulatorCommand.
Import Simulator.

(** [src/cmd/simulator/main.go:28-32] run *)
Record Flags := MkFlags {
  f_agents : Z;
  f_concurrency : Z;
  f_service : string;
  f_environment : string;
  f_format : string }.
(** [src/cmd/simulator/main.go:28-32] run *)
Definition default_flags : Flags := MkFlags 1000 64 "payment-service" EnvironmentProduction "text".

(** [src/cmd/simulator/main.go:94-102] formatLatency *)
Definition formatLatency (latency : Latency) : string :=
  "latency[min=" +:+ in_us (l_Min latency) +:+ " avg=" +:+ in_us (l_Avg latency)
  +:+ " p50=" +:+ in_us (l_P50 latency) +:+ " p95=" +:+ in_us (l_P95 latency)
  +:+ " max=" +:+ in_us (l_Max latency) +:+ "]".

(** [src/cmd/simulator/main.go:79-88] writeText *)
Definition stage_line (stage : StageResult) : string :=
  "stage " +:+ sr_StageID stage +:+ ": targets=" +:+ pretty (sr_Targets stage)
  +:+ " acked=" +:+ pretty (sr_Acked stage) +:+ " coverage=" +:+ fixed 2 (sr_Coverage stage)
  +:+ "% next=" +:+ sr_NextState stage +:+ "/" +:+ sr_NextStage stage
  +:+ " duration=" +:+ in_ms (sr_Duration stage) +:+ newline.

(** [src/cmd/simulator/main.go:60-77] writeText *)
Definition summary_lines (r : Result) : list string :=
  [ "agents: " +:+ pretty (rs_RegisteredAgents r) +:+ " registered" +:+ newline;
    "rollout: " +:+ rs_RolloutID r +:+ " " +:+ rs_FinalState r +:+ newline;
    "duration: " +:+ in_ms (rs_Duration r) +:+ newline;
    "throughput: agents=" +:+ fixed 0 (rs_AgentsPerSecond r) +:+ "/s snapshots="
      +:+ fixed 0 (rs_SnapshotsPerSecond r) +:+ "/s acks=" +:+ fixed 0 (rs_AcksPerSecond r)
      +:+ "/s" +:+ newline;
    "snapshots: " +:+ pretty (rs_SnapshotReads r) +:+ " " +:+ formatLatency (rs_SnapshotLatency r)
      +:+ newline;
    "acks: " +:+ pretty (rs_Acknowledgements r) +:+ " " +:+ formatLatency (rs_AckLatency r)
      +:+ newline ].

(** [src/cmd/simulator/main.go:59-92] writeText *)
Definition writeText {W} (write : Writer W) (r : Result) : M W unit :=
  for_each (summary_lines r) write;;
  for_each (rs_StageResults r) (λ stage, write (stage_line stage)).

(** [Run] with a loop that is still going on prints nothing. *)
(** [src/cmd/simulator/main.go:25-57] run *)
Definition run {W} (simulate : Options → M W (option Result)) (write : Writer W)
    (encode : Result → M W unit) (flags : res Flags) : M W unit :=
  flags ← lift flags;
  result ← simulate (MkOptions (f_agents flags) (f_concurrency flags) (f_service flags)
                       (f_environment flags));
  match result with
  | None => mret tt
  | Some result =>
      if bool_decide (f_format flags = "json") then encode result
      else if bool_decide (f_format flags = "text") then writeText write result
      else mthrow (unsupported_format (f_format flags))
  end.

(** The sample run of [docs/scale-simulator.md], from its figures. *)
Example sample_stage :
  stage_line (MkStageResult "stage-25" 252 252
    (f_mul (f_div (f_of_int 252) (f_of_int 252)) (f_of_int 100)) 63400000 "DEPLOYING" "stage-100")
  = "stage stage-25: targets=252 acked=252 coverage=100.00% next=DEPLOYING/stage-100 duration=63ms"
    +:+ newline.
Proof. vm_compute. reflexivity. Qed.
Example sample_latency :
  formatLatency (MkLatency 3000 0 2592000 1776000 8479000 17595000)
  = "latency[min=0s avg=2.592ms p50=1.776ms p95=8.479ms max=17.595ms]".
Proof. vm_compute. reflexivity. Qed.

End SimulatorCommand.
