(* ===== verification/ReliabilityCommand.v ===== *)
(** [cmd/reliability]: the scenarios a command line selects, in their order, and
    the text of their results.  The flags come parsed; the encoder of the JSON
    format, [os.MkdirTemp] and [os.RemoveAll] are arguments. *)

From Stdlib Require Import ZArith Lia Ascii.
From S2P Require Import Prelude GoLib Host Http Format Parallel Domain Registry RegistryStore AgentRegistry AgentStore RolloutStore DataPlane Agent ControlPlane Reliability Scenarios SimulatorCommand.
Import Domain Format Parallel DriverCommands.
Open Scope string_scope.
Open Scope list_scope.
Open Scope Z_scope.

Module ReliabilityCommand.
Import Reliability Scenarios.

(** [src/cmd/reliability/main.go:28-32] run *)
Record Flags := MkFlags {
  f_scenario : string;
  f_concurrency : Z;
  f_service : string;
  f_environment : string;
  f_format : string }.
(** [src/cmd/reliability/main.go:28-32] run *)
Definition default_flags : Flags := MkFlags "all" 32 "payment-service" EnvironmentProduction "text".

Definition ScenarioRunner (W : Type) : Type := Options → M W (ScenarioResult * option error).

(** The order of [all]. *)
(** [src/cmd/reliability/main.go:88-93] runSelected *)
Definition order : list string :=
  [ "control-plane-restart"; "data-plane-outage"; "concurrent-rollout-acknowledgements";
    "rollback-propagation-timing" ].

(** The runs of [all] up to the first that fails. *)
(** [src/cmd/reliability/main.go:94-101] runSelected *)
Fixpoint run_all_of {W} (runners : string → option (ScenarioRunner W)) (options : Options)
    (names : list string) : M W (list ScenarioResult * option error) :=
  match names with
  | [] => mret ([], None)
  | name :: names =>
      match runners name with
      | None => mthrow (ESentinel "runtime.Error" "nil function call")
      | Some runner =>
          outcome ← runner options;
          let '(result, err) := outcome in
          match err with
          | Some err => mret ([result], Some err)
          | None =>
              rest ← run_all_of runners options names;
              let '(results, err) := rest in
              mret (result :: results, err)
          end
      end
  end.

(** [src/cmd/reliability/main.go:72-103] runSelected *)
Definition runSelected {W} (runners : string → option (ScenarioRunner W)) (scenario : string)
    (options : Options) : M W (list ScenarioResult * option error) :=
  if negb (bool_decide (scenario = "all")) then
    match runners scenario with
    | None => mret ([], Some (EText "unknown scenario %q" [scenario]))
    | Some runner =>
        outcome ← runner options;
        let '(result, err) := outcome in
        mret ([result], err)
    end
  else run_all_of runners options order.

Definition passed_word (passed : bool) : string := if passed then "PASSED" else "FAILED".

(** [src/cmd/reliability/main.go:111-113] writeText *)
Definition scenario_line (r : ScenarioResult) : string :=
  "scenario " +:+ sc_Name r +:+ ": " +:+ passed_word (sc_Passed r) +:+ " duration="
  +:+ in_ms (sc_Duration r) +:+ newline.
(** [src/cmd/reliability/main.go:114-122] writeText *)
Definition event_line (e : ScenarioEvent) : string :=
  "  step " +:+ ev_Name e +:+ ": " +:+ passed_word (ev_Passed e) +:+ " duration="
  +:+ in_ms (ev_Duration e) +:+ newline.

(** A map is written in the order of the host. *)
(** [src/cmd/reliability/main.go:123-127] writeText *)
Definition metric_lines (range : RangeOrder) (metrics : gmap string Z) : list string :=
  omap (λ name, (λ value, "  metric " +:+ name +:+ "=" +:+ pretty value +:+ newline) <$> metrics !! name)
    (range (map_to_list metrics).*1).
(** [src/cmd/reliability/main.go:128-132] writeText *)
Definition timing_lines (range : RangeOrder) (timings : gmap string Duration) : list string :=
  omap (λ name, (λ value, "  timing " +:+ name +:+ "=" +:+ in_ms value +:+ newline) <$> timings !! name)
    (range (map_to_list timings).*1).

(** [src/cmd/reliability/main.go:105-135] writeText *)
Definition writeText {W} `{Env W} (write : Writer W) (results : list ScenarioResult) : M W unit :=
  for_each results (λ result,
    write (scenario_line result);;
    for_each (sc_Events result) (λ event, write (event_line event));;
    metrics ← range_order;
    for_each (metric_lines metrics (sc_Metrics result)) write;;
    timings ← range_order;
    for_each (timing_lines timings (sc_Timings result)) write).

Section run.
Context {W : Type} `{Env W, Has RegistryStore.MemoryStore W, Has AgentStore.MemoryStore W,
  Has RolloutStore.MemoryStore W, Has Servers W, Has Agent.SnapshotCache W, Has Agent.Etag W}.
Context `{ControlPlane.RequestDecoder ControlPlane.createTenantRequest,
  ControlPlane.RequestDecoder ControlPlane.createDefinitionRequest,
  ControlPlane.RequestDecoder ControlPlane.createVersionRequest,
  ControlPlane.RequestDecoder ControlPlane.setStableVersionRequest,
  ControlPlane.RequestDecoder ControlPlane.registerAgentRequest,
  ControlPlane.RequestDecoder ControlPlane.acknowledgementRequest,
  ControlPlane.RequestDecoder ControlPlane.createRolloutRequest}.
Context `{Codec DataPlane.Snapshot, Codec Agent.RegisterInput, Codec Agent.registerResponse,
  Codec Agent.AckPayload, Wire}.
Context (ctx : Context) (schedule : nat → Scheduler) (validator : ConfigRegistry.SchemaValidator).

(** [src/cmd/reliability/main.go:73-78] runSelected *)
Definition runners (scenario : string) : option (ScenarioRunner W) :=
  if bool_decide (scenario = "control-plane-restart")
  then Some (RunControlPlaneRestartScenario ctx validator)
  else if bool_decide (scenario = "data-plane-outage")
  then Some (RunDataPlaneOutageScenario ctx validator)
  else if bool_decide (scenario = "concurrent-rollout-acknowledgements")
  then Some (RunConcurrentRolloutAcknowledgementScenario ctx schedule 200 validator)
  else if bool_decide (scenario = "rollback-propagation-timing")
  then Some (RunRollbackPropagationTimingScenario ctx schedule 120 validator)
  else None.

(** The directory is removed whatever happens; a failure of that is only
    printed. *)
(** [src/cmd/reliability/main.go:25-70] run *)
Definition run (MkdirTemp : M W string) (RemoveAll : string → M W unit) (write stderr : Writer W)
    (encode : list ScenarioResult → M W unit) (flags : res Flags) : M W unit :=
  flags ← lift flags;
  tempDir ← MkdirTemp;
  outcome ← try (
    outcome ← runSelected runners (f_scenario flags)
                (MkOptions (f_service flags) (f_environment flags) tempDir (f_concurrency flags));
    let '(results, err) := outcome in
    match err with
    | Some err => mthrow err
    | None =>
        if bool_decide (f_format flags = "json") then encode results
        else if bool_decide (f_format flags = "text") then writeText write results
        else mthrow (unsupported_format (f_format flags))
    end);
  removed ← try (RemoveAll tempDir);
  match removed with
  | Ok _ => mret tt
  | Err err => try (stderr ("remove temp dir: " +:+ Error err +:+ newline));; mret tt
  end;;
  lift outcome.
End run.

End ReliabilityCommand.
