(* ===== verification/Convergence.v ===== *)
(** The reconciliation timer drives the deployed process to rest: its clock
    seen as a bound on the readings to come, and one pass over the overdue
    rollouts. *)

From Stdlib Require Import ZArith Lia.
From S2P Require Import Prelude GoLib Host Domain Guardrail Registry Rollout RolloutFacts RolloutStore RolloutService RolloutSpec RolloutMemory RolloutRefine RolloutProgress ControlPlane System Deployment.
Import Domain Rollout System RolloutSpec RolloutProgress Deployment.
Open Scope string_scope.
Open Scope list_scope.
Open Scope Z_scope.

Module Convergence.

(** Every reading of the clock from here on is at least [T]. *)
Definition late (T : Time) (w : World) : Prop :=
  ∀ n, (h_clock_reads (w_host w) ≤ n)%nat → T ≤ h_clock (w_host w) n.

#[export] Instance late_frame T : HostFrame (late T).
Proof. split; unfold late; simpl; auto with lia. Qed.

Lemma late_now T w : late T w → T ≤ (env_now w).1.
Proof. intros Hl. apply Hl. done. Qed.

Lemma late_part T (s : RolloutStore.MemoryStore) (w : World) : late T w → late T (set_part s w).
Proof. done. Qed.

Lemma late_store_call {A} T ctx (method : option error → M RolloutStore.MemoryStore A) :
  preserves (late T) (store_call ctx method).
Proof.
  apply preserves_bind; [apply preserves_ctx, _|]. intros e w Hw. unfold zoom.
  by destruct (method e (part w)).
Qed.
Lemma late_store_range {A} T ctx (method : option error → RangeOrder → M RolloutStore.MemoryStore A) :
  preserves (late T) (store_range ctx method).
Proof.
  apply preserves_bind; [apply preserves_ctx, _|]. intros e.
  apply preserves_bind; [apply preserves_range, _|]. intros range w Hw. unfold zoom.
  by destruct (method e range (part w)).
Qed.

#[export] Instance late_store T : RolloutLaws.StoreKeeps World (late T).
Proof. split; intros; first [apply late_store_call|apply late_store_range]. Qed.

(** The limit of every unfinished rollout has passed. *)
Definition overdue (w : World) : Prop :=
  ∃ T, late T w ∧ ∀ id r, vw_rollouts (view w) !! id = Some r → live r → due T r.

(** The same, decided for one [T]. *)
Definition due_at (T : Time) (r : Rollout) : bool :=
  (negb (servesCandidate (r_State r)) ||
     ((0 <? r_RolloutMaxDuration r) && (r_RolloutMaxDuration r <=? int64_max)
      && (r_CreatedAt r + r_RolloutMaxDuration r <=? T))) &&
  (negb (bool_decide (r_State r = StateRollingBack)
         && bool_decide (r_CurrentStageID r = verification_id (r_ID r))) ||
     ((0 <? r_RollbackTimeout r) && (r_RollbackTimeout r <=? int64_max)
      && (r_StageStartedAt r + r_RollbackTimeout r <=? T))).

Lemma due_at_due T r : due_at T r = true → due T r.
Proof.
  unfold due_at, due, forward. rewrite !andb_true_iff, !orb_true_iff, !andb_true_iff, !negb_true_iff.
  rewrite !Z.ltb_lt, !Z.leb_le. intros [H1 H2]. split.
  - intros Hf. destruct H1 as [?|[[? ?] ?]]; [congruence|done].
  - intros Hs Hc. destruct H2 as [H2|[[? ?] ?]]; [|done].
    by rewrite !bool_decide_true in H2.
Qed.

Definition overdue_at (T : Time) (w : World) : bool :=
  forallb (λ '(_, r), due_at T r) (map_to_list (vw_rollouts (view w))).

Lemma overdue_at_overdue T w : late T w → overdue_at T w = true → overdue w.
Proof.
  intros Hl Hd. exists T. split; [done|]. intros id r Hr _. apply due_at_due.
  unfold overdue_at in Hd. rewrite forallb_forall in Hd.
  apply (Hd (id, r)), list_elem_of_In. by apply elem_of_map_to_list.
Qed.

Section Convergence.
Context `{ControlPlane.RequestDecoder ControlPlane.createTenantRequest,
  ControlPlane.RequestDecoder ControlPlane.createDefinitionRequest,
  ControlPlane.RequestDecoder ControlPlane.createVersionRequest,
  ControlPlane.RequestDecoder ControlPlane.setStableVersionRequest,
  ControlPlane.RequestDecoder ControlPlane.registerAgentRequest,
  ControlPlane.RequestDecoder ControlPlane.acknowledgementRequest,
  ControlPlane.RequestDecoder ControlPlane.createRolloutRequest}.
Context (h : ControlPlane.Handler World).

(** One tick of the timer. *)
Definition tick (w : World) : World := serve h (EReconcile Background) w.

Lemma tick_moves s w :
  ControlPlane.h_rollouts h = Some s → well_wired h → sound w → overdue w →
  sound (tick w) ∧ ∀ id r, vw_rollouts (view w) !! id = Some r →
    ∃ r', vw_rollouts (view (tick w)) !! id = Some r' ∧ (phase r' ≤ Nat.pred (phase r))%nat.
Proof.
  intros Hs Hq [Hi Hok] (T & Hl & Hdue). pose proof (service_laws s (Hq s Hs)).
  destruct (ReconcileActive_moves s interrupted store_inv view Background interrupted_Background T
    (late T) (late_frame T) (late_now T) (late_store T) w Hi Hok Hl Hdue) as (_ & Hi' & Hok' & _ & Hm).
  unfold tick, serve. rewrite Hs. split; [done|].
  intros id r Hr. destruct (Hm id r Hr) as (r' & Hr' & Hlive & Hdone).
  exists r'. split; [done|]. destruct (Terminal (r_State r)) eqn:Ht.
  - rewrite Hdone by (unfold live; congruence). apply phase_live in Ht. lia.
  - specialize (Hlive Ht). lia.
Qed.

End Convergence.
End Convergence.
