(* ===== verification/CampaignDrive.v ===== *)
(** One rollout of the campaign both drivers seed, on a steady host: the store
    that holds it, the cohort of a stage and its acknowledgements, the agents
    that enrolled, and what the operations of the rollout service do then.  The
    simulator and the scenarios run them in their pools. *)

From Stdlib Require Import ZArith Lia Ascii SpecFloat.
From S2P Require Import Prelude GoLib Sha256 Host Format Domain Guardrail Registry RegistryStore AgentRegistry AgentStore Rollout RolloutFacts RolloutStore RolloutService RolloutMemory DataPlane System Simulator Drive.
Import Domain Rollout Format System Drive Campaign.
Open Scope string_scope.
Open Scope list_scope.
Open Scope Z_scope.

Module CampaignDrive.

(** * The identifiers *)

Lemma digit_inj a b : 0 ≤ a < 10 → 0 ≤ b < 10 →
  ascii_of_N (48 + Z.to_N a) = ascii_of_N (48 + Z.to_N b) → a = b.
Proof.
  intros Ha Hb Heq. apply (f_equal N_of_ascii) in Heq. rewrite !N_ascii_embedding in Heq by lia. lia.
Qed.

Lemma last_digits_inj n : ∀ a b r s, 0 ≤ a < 10 ^ Z.of_nat n → 0 ≤ b < 10 ^ Z.of_nat n →
  last_digits n a r = last_digits n b s → a = b ∧ r = s.
Proof.
  induction n as [|n IH]; intros a b r s Ha Hb Heq.
  { cbn in *. split; [lia|done]. }
  cbn [last_digits] in Heq. rewrite Nat2Z.inj_succ, Z.pow_succ_r in Ha, Hb by lia.
  pose proof (Z.mod_pos_bound a 10 ltac:(lia)). pose proof (Z.mod_pos_bound b 10 ltac:(lia)).
  pose proof (Z.div_mod a 10 ltac:(lia)). pose proof (Z.div_mod b 10 ltac:(lia)).
  apply IH in Heq as [Hq Heq]; [|split; [apply Z.div_pos; lia|apply Z.div_lt_upper_bound; lia]..].
  injection Heq as Hd Hr. assert (a mod 10 = b mod 10) by (apply digit_inj; done). split; [lia|done].
Qed.

(** Numbers of four digits. *)
Definition few (n : Z) : Prop := 0 < n < 10000.

(** The identifier of the agent of number [i]. *)
Definition numbered (prefix : string) (i : Z) : string := prefix +:+ pad0 4 (i + 1).

Lemma numbered_inj prefix n i j : few n → 0 ≤ i < n → 0 ≤ j < n → numbered prefix i = numbered prefix j → i = j.
Proof.
  unfold few, numbered, pad0. change (10 ^ Z.of_nat 4) with 10000. intros Hn Hi Hj.
  rewrite !(proj2 (Z.ltb_lt _ _)) by lia. intros Heq. apply (inj (String.append prefix)) in Heq.
  apply (last_digits_inj 4 (i + 1) (j + 1) "" "") in Heq; [lia|cbn; lia..].
Qed.

Lemma done_short n done i : NoDup (done ++ [i]) → (∀ j, j ∈ done ++ [i] → 0 ≤ j < n) →
  (length done < Z.to_nat n)%nat.
Proof.
  intros Hnd Hr.
  assert (done ++ [i] ⊆+ seqZ 0 n) as Hs%submseteq_length.
  { apply NoDup_submseteq; [done|]. intros j Hj. apply elem_of_seqZ. specialize (Hr j Hj). lia. }
  rewrite length_app, length_seqZ in Hs. cbn in Hs. lia.
Qed.

(** * The rollout store *)

Section store.
Context (env : Environment) (plan : list Stage).

(** One rollout, the targets of its stages, and the next revision. *)
Definition ro_store (r : Rollout) (tg : gmap string (list StageTarget)) (rev : Z) : Ro :=
  RolloutStore.MkMemoryStore {[ r_ID r := r ]}
    (if Terminal (r_State r) then ∅ else {[ nul_key cfg_id env := r_ID r ]}) {[ r_ID r := plan ]} tg rev.

Implicit Types (r : Rollout) (tg : gmap string (list StageTarget)).

Definition ours r : Prop := r_ConfigDefinitionID r = cfg_id ∧ r_Environment r = env.

Lemma ro_create r : ours r → Terminal (r_State r) = false →
  RolloutStore.CreateRollout None r plan RolloutStore.NewMemoryStore = (Ok tt, ro_store r ∅ 1).
Proof.
  intros [Hc He] Ht. unfold RolloutStore.CreateRollout, mbind, M_bind. cbn. rewrite Ht.
  unfold RolloutStore.set_stages, RolloutStore.set_rollouts, ro_store, RolloutStore.rolloutActiveKey.
  cbn. by rewrite RolloutMemory.cloneRollout_id, Ht, Hc, He.
Qed.

Lemma ro_get r tg rev : RolloutStore.GetRollout None (r_ID r) (ro_store r tg rev) = (Ok r, ro_store r tg rev).
Proof.
  unfold RolloutStore.GetRollout, mbind, M_bind. cbn. rewrite lookup_singleton_eq.
  by rewrite RolloutMemory.cloneRollout_id.
Qed.

Lemma ro_stages r tg rev : RolloutStore.ListStages None (r_ID r) (ro_store r tg rev) = (Ok plan, ro_store r tg rev).
Proof. unfold RolloutStore.ListStages, mbind, M_bind. cbn. by rewrite lookup_singleton_eq. Qed.

Definition targets_at (key : string) tg : list StageTarget := default [] (tg !! key).

Lemma ro_targets r tg rev id sid :
  RolloutStore.ListStageTargets None id sid (ro_store r tg rev) =
  (Ok (targets_at (RolloutStore.targetKey id sid) tg), ro_store r tg rev).
Proof. reflexivity. Qed.

(** [tg'] has the targets [ts] under [key], and under the other keys what [tg] has. *)
Definition targets_set (key : string) (ts : list StageTarget) tg tg' : Prop :=
  targets_at key tg' = ts ∧ ∀ other, other ≠ key → targets_at other tg' = targets_at other tg.

Lemma ro_active r tg rev : Terminal (r_State r) = false →
  RolloutStore.GetActiveRollout None cfg_id env (ro_store r tg rev) = (Ok r, ro_store r tg rev).
Proof.
  intros Ht. unfold RolloutStore.GetActiveRollout, mbind, M_bind, RolloutStore.rollout_at. cbn. rewrite Ht.
  rewrite !lookup_singleton_eq. cbn. rewrite Ht. cbn. by rewrite RolloutMemory.cloneRollout_id.
Qed.

Lemma ro_update r r' tg rev : ours r → ours r' → r_ID r' = r_ID r → Terminal (r_State r) = false →
  RolloutStore.UpdateRollout None r' (ro_store r tg rev) = (Ok tt, ro_store r' tg rev).
Proof.
  intros [Hc He] [Hc' He'] Hid Ht. unfold RolloutStore.UpdateRollout, mbind, M_bind. cbn.
  rewrite Hid, lookup_singleton_eq. cbn.
  unfold RolloutStore.set_rollouts, ro_store, RolloutStore.rolloutActiveKey. cbn.
  unfold modify. cbn. rewrite RolloutMemory.cloneRollout_id, Ht, Hc', He', Hid, insert_singleton_eq.
  destruct (Terminal (r_State r')); by rewrite ?delete_singleton_eq, ?insert_singleton_eq.
Qed.

Lemma ro_replace r tg rev id sid ts :
  RolloutStore.ReplaceStageTargets None id sid ts (ro_store r tg rev) =
  (Ok tt, ro_store r (<[RolloutStore.targetKey id sid := ts]> tg) rev).
Proof. reflexivity. Qed.

Lemma append_targets key ts : ∀ (m : gmap string (list StageTarget)),
  Forall (λ t, RolloutStore.targetKey (st_RolloutID t) (st_StageID t) = key) ts →
  targets_set key (targets_at key m ++ ts) m (fold_left RolloutStore.append_target ts m).
Proof.
  induction ts as [|t ts IH]; intros m Hall; cbn [fold_left].
  { split; [by rewrite app_nil_r|done]. }
  inversion_clear Hall as [|?? Ht Hts].
  assert (RolloutStore.append_target m t = <[key := targets_at key m ++ [t]]> m) as ->
    by (unfold RolloutStore.append_target; by rewrite Ht).
  destruct (IH (<[key := targets_at key m ++ [t]]> m) Hts) as [Hk Ho]. split.
  - rewrite Hk. unfold targets_at at 1. rewrite lookup_insert_eq. cbn. by rewrite <-(assoc_L (++)).
  - intros other Hne. rewrite Ho by done. unfold targets_at. by rewrite lookup_insert_ne.
Qed.

Lemma ro_save r tg rev key ts :
  Forall (λ t, RolloutStore.targetKey (st_RolloutID t) (st_StageID t) = key) ts → targets_at key tg = [] →
  ∃ tg', RolloutStore.SaveStageTargets None ts (ro_store r tg rev) = (Ok tt, ro_store r tg' rev) ∧
    targets_set key ts tg tg'.
Proof.
  intros Hall Hk. pose proof (append_targets key ts tg Hall) as Hset. rewrite Hk in Hset.
  eexists. split; [reflexivity|exact Hset].
Qed.

Lemma ro_revision r tg rev : 0 ≤ rev < 1000 →
  RolloutStore.NextSnapshotRevision None (ro_store r tg rev) = (Ok rev, ro_store r tg (rev + 1)).
Proof.
  intros Hr. unfold RolloutStore.NextSnapshotRevision, mbind, M_bind. cbn. unfold ro_store.
  rewrite int64_wrap_id; [done|]. unfold int64_ok, int64_min, int64_max. lia.
Qed.

Lemma ro_save_stage r tg rev stage : existsb (λ e, bool_decide (s_ID e = s_ID stage)) plan = false →
  RolloutStore.SaveStage None (r_ID r) stage (ro_store r tg rev) =
  (Ok tt, RolloutStore.set_stages (ro_store r tg rev) {[ r_ID r := plan ++ [stage] ]}).
Proof.
  intros He. unfold RolloutStore.SaveStage, mbind, M_bind. cbn. rewrite !lookup_singleton_eq. cbn. rewrite He.
  unfold modify. cbn. by rewrite insert_singleton_eq.
Qed.

Lemma ro_list_active r tg rev range : range_ok range → Terminal (r_State r) = false →
  RolloutStore.ListActiveRollouts None range (ro_store r tg rev) = (Ok [r], ro_store r tg rev).
Proof.
  intros Hr Ht. unfold RolloutStore.ListActiveRollouts, mbind, M_bind. cbn. rewrite Ht. unfold map_values.
  rewrite map_to_list_singleton. cbn. pose proof (Hr [nul_key cfg_id env]) as Hp.
  apply Permutation_singleton_r in Hp. rewrite Hp. cbn. rewrite lookup_singleton_eq. cbn.
  unfold RolloutStore.rollout_at. cbn. rewrite lookup_singleton_eq. cbn. rewrite Ht. cbn.
  by rewrite decide_True, list_fmap_singleton, RolloutMemory.cloneRollout_id by done.
Qed.
End store.

(** * The cohort of a stage *)

(** The bucket of an agent is within the percentage of the stage. *)
Definition takes (definition version : string) (percentage : Z) (id : string) : bool :=
  match Bucket (MkAssignmentKey definition version id) with
  | Ok b => Eligible b percentage
  | Err _ => false
  end.

Section cohort.
Context (ident : Z → string) (ms : list Z)
  (Hident : ∀ i j, i ∈ ms → j ∈ ms → ident i = ident j → i = j).

(** The targets of the members [ms], some of them acknowledged. *)
Record cohort (id sid version : string) (revision : Z) (acked : list Z) (ts : list StageTarget) : Prop := {
  ch_agents : st_AgentID <$> ts ≡ₚ ident <$> ms;
  ch_fields : ∀ t, t ∈ ts → st_RolloutID t = id ∧ st_StageID t = sid ∧
    st_ExpectedVersionID t = version ∧ st_SnapshotRevision t = revision;
  ch_pending : ∀ t i, t ∈ ts → i ∈ ms → i ∉ acked → st_AgentID t = ident i → st_Status t = TargetPending;
  ch_count : count_acked ts = Z.of_nat (length acked) }.

Lemma cohort_length id sid v rev acked ts : cohort id sid v rev acked ts → length ts = length ms.
Proof. intros [Ha _ _ _]. apply Permutation_length in Ha. by rewrite !length_fmap in Ha. Qed.

(** The first target of a member is its own. *)
Lemma cohort_first id sid v rev acked ts i : cohort id sid v rev acked ts → i ∈ ms →
  ∃ t, first_of (ident i) ts = Some t ∧ t ∈ ts ∧ st_AgentID t = ident i.
Proof.
  intros [Ha _ _ _] Hi. unfold first_of.
  assert (ident i ∈ st_AgentID <$> ts) as Hin by (rewrite Ha; by apply list_elem_of_fmap_2).
  apply list_elem_of_fmap in Hin as (t & Ht & Hin).
  assert (t ∈ filter (λ t, st_AgentID t = ident i) ts) as Hf by (by apply list_elem_of_filter).
  destruct (filter (λ t, st_AgentID t = ident i) ts) as [|t' l] eqn:E; [by apply elem_of_nil in Hf|].
  exists t'. split; [done|]. assert (t' ∈ filter (λ t, st_AgentID t = ident i) ts) as Hf' by (rewrite E; by left).
  by apply list_elem_of_filter in Hf' as [? ?].
Qed.

(** An acknowledgement from a member that has not sent one counts. *)
Lemma cohort_ack id sid v rev acked ts i at_ : cohort id sid v rev acked ts → i ∈ ms → i ∉ acked →
  ∃ ts', ApplyAck ts (MkAck id sid (ident i) v rev at_) = (ts', true) ∧
    cohort id sid v rev (acked ++ [i]) ts'.
Proof.
  intros Hc Hi Hni. destruct (cohort_first _ _ _ _ _ _ _ Hc Hi) as (t & Hf & Ht & Hta).
  pose proof Hc as [Ha Hfields Hpend Hcount].
  set (ack := MkAck _ _ _ _ _ _). destruct (ApplyAck ts ack) as [ts' counted] eqn:E.
  assert (counted = true) as ->.
  { change counted with ((ts', counted).2). rewrite <-E. apply ApplyAck_counts_iff. exists t.
    split; [done|]. destruct (Hfields t Ht) as (H1 & H2 & H3 & H4).
    split; [|by eapply Hpend]. unfold ack_matches. cbn [ack ack_RolloutID ack_StageID ack_VersionID ack_SnapshotRevision].
    rewrite H1, H2, H3, H4, !bool_decide_true by done. by rewrite Z.eqb_refl. }
  exists ts'. split; [done|]. apply ApplyAck_counted in E. cbn [ack ack_AgentID ack_AckedAt] in E.
  assert (∀ x, x ∈ ts' → ∃ y, y ∈ ts ∧ target_key x = target_key y ∧
            (st_AgentID x ≠ ident i → st_Status x = st_Status y)) as Hold.
  { clear -E. induction E as [y rest Hy _|y rest rest' Hy _ IH]; intros x [->|Hx]%elem_of_cons.
    - exists y. split_and!; [by left|done|]. intros Hne. by destruct Hne.
    - exists x. split_and!; [by right|done|done].
    - exists y. split_and!; [by left|done|done].
    - destruct (IH x Hx) as (z & Hz & Hk). exists z. split; [by right|done]. }
  split.
  - rewrite <-Ha. clear -E. induction E; cbn; [done|]. by f_equiv.
  - intros x Hx. destruct (Hold x Hx) as (y & Hy & Hk & _). unfold target_key in Hk. simplify_eq.
    destruct (Hfields y Hy) as (? & ? & ? & ?). split_and!; congruence.
  - intros x j Hx Hj Hnj Hxa. destruct (Hold x Hx) as (y & Hy & Hk & Hs).
    assert (st_AgentID x = st_AgentID y) as Hxy by (unfold target_key in Hk; congruence).
    rewrite Hs; [eapply (Hpend y j); [done|done|set_solver|congruence]|].
    rewrite Hxa. intros Heq%Hident; [set_solver|done..].
  - rewrite (acks_one_count _ _ _ _ E), Hcount, length_app. cbn. lia.
Qed.

(** The required percentage is that of the whole cohort. *)
Lemma cohort_reached id sid v rev acked ts : cohort id sid v rev acked ts →
  0 < Z.of_nat (length ms) < 10000 → (length acked <= length ms)%nat →
  CoverageReached ts (f_of_int 100) = Nat.eqb (length acked) (length ms).
Proof.
  intros Hc Hpos Hle. pose proof (cohort_length _ _ _ _ _ _ Hc) as Hlen. pose proof (ch_count _ _ _ _ _ _ Hc) as Hcount.
  destruct (Nat.eqb_spec (length acked) (length ms)) as [Heq|Hne].
  - unfold CoverageReached. change (cov_Total (AcknowledgementCoverage ts)) with (Z.of_nat (length ts)).
    rewrite (proj2 (Z.eqb_neq _ _)) by lia. rewrite full_coverage; [by vm_compute| |lia].
    rewrite Hlen. change (2 ^ 53) with 9007199254740992. lia.
  - apply partial_coverage; [|lia]. change (2 ^ 40) with 1099511627776. lia.
Qed.

(** ** What the cohort means for an agent *)

Lemma candidate_current r ts id e : (∃ t, t ∈ ts ∧ target_current r id t = true) →
  (∀ t, t ∈ ts → MkEffectiveVersion (st_ExpectedVersionID t) (st_RolloutID t) (st_StageID t) (st_SnapshotRevision t) = e) →
  candidateVersionForAgent r ts id = e.
Proof.
  intros (t & Ht & Hc) He. induction ts as [|x ts IH]; [by apply elem_of_nil in Ht|]. cbn.
  destruct (target_current r id x) eqn:Hx; cbn; [by apply He; left|].
  apply elem_of_cons in Ht as [<-|Ht]; [congruence|]. apply IH; [done|]. intros y Hy. apply He. by right.
Qed.

(** The first current target of a member. *)
Lemma cohort_current r sid v rev acked ts i : cohort (r_ID r) sid v rev acked ts → r_CurrentStageID r = sid → i ∈ ms →
  ∃ t, t ∈ ts ∧ target_current r (ident i) t = true.
Proof.
  intros Hc Hs Hi. destruct (cohort_first _ _ _ _ _ _ i Hc Hi) as (t & _ & Ht & Hta).
  destruct (ch_fields _ _ _ _ _ _ Hc t Ht) as (Hid & Hsid & _). exists t. split; [done|].
  unfold target_current. by rewrite !bool_decide_true by congruence.
Qed.

Lemma cohort_member r sid v rev acked ts i : cohort (r_ID r) sid v rev acked ts → r_CurrentStageID r = sid →
  r_State r ≠ StateRollingBack → servesCandidate (r_State r) = true → i ∈ ms →
  EffectiveVersionForAgent r ts (ident i) = MkEffectiveVersion v (r_ID r) sid rev.
Proof.
  intros Hc Hs Hr Hserves Hi. unfold EffectiveVersionForAgent. rewrite decide_False, Hserves by done. cbn [negb].
  apply candidate_current; [by eapply cohort_current|].
  intros t Ht. by destruct (ch_fields _ _ _ _ _ _ Hc t Ht) as (-> & -> & -> & ->).
Qed.

Lemma cohort_other r sid v rev acked ts id : cohort (r_ID r) sid v rev acked ts →
  r_State r ≠ StateRollingBack → servesCandidate (r_State r) = true → (∀ i, i ∈ ms → ident i ≠ id) →
  EffectiveVersionForAgent r ts id = stable_version r.
Proof.
  intros Hc Hr Hserves Hno. unfold EffectiveVersionForAgent. rewrite decide_False, Hserves by done. cbn [negb].
  destruct (candidateVersion_cases r ts id) as [Hs|(t & Ht & Hcur & _)]; [exact Hs|].
  unfold target_current in Hcur. apply andb_true_iff in Hcur as [[Hcur _]%andb_true_iff _].
  apply bool_decide_eq_true in Hcur.
  assert (id ∈ ident <$> ms) as Hm by (rewrite <-(ch_agents _ _ _ _ _ _ Hc), <-Hcur; by apply list_elem_of_fmap_2).
  apply list_elem_of_fmap in Hm as (j & -> & Hj). by destruct (Hno j Hj).
Qed.

(** A rolled back member is asked to confirm the stable version. *)
Lemma cohort_rolled_back r sid rev acked ts i : cohort (r_ID r) sid (r_StableVersionID r) rev acked ts →
  r_CurrentStageID r = sid → r_State r = StateRollingBack → i ∈ ms →
  EffectiveVersionForAgent r ts (ident i) = MkEffectiveVersion (r_StableVersionID r) (r_ID r) sid rev.
Proof.
  intros Hc Hs Hr Hi. unfold EffectiveVersionForAgent. rewrite decide_True by done.
  destruct (cohort_current r sid _ rev acked ts i Hc Hs Hi) as (t & Ht & Hcur).
  assert (∀ t, t ∈ ts → st_RolloutID t = r_ID r ∧ st_StageID t = sid ∧
    st_ExpectedVersionID t = r_StableVersionID r ∧ st_SnapshotRevision t = rev) as Hf by apply Hc.
  clear Hc. induction ts as [|x ts IH]; [by apply elem_of_nil in Ht|]. cbn.
  destruct (Hf x) as (H1 & H2 & H3 & H4); [by left|].
  destruct (target_current r (ident i) x) eqn:Hx; cbn.
  - rewrite bool_decide_true by done. cbn. by rewrite H1, H2, H4.
  - apply elem_of_cons in Ht as [<-|Ht]; [congruence|]. apply IH; [done|]. intros y Hy. apply Hf. by right.
Qed.
End cohort.

(** A new cohort: the agents the stage takes. *)
Lemma cohort_built ident all r stage agents revision now ts :
  a_ID <$> agents ≡ₚ ident <$> all →
  BuildStageTargets (MkBuildTargetsInput r stage agents revision now) = Ok ts →
  cohort ident (filter (λ i, takes (r_ConfigDefinitionID r) (r_CandidateVersionID r) (s_Percentage stage) (ident i) = true) all)
    (r_ID r) (s_ID stage) (r_CandidateVersionID r) revision [] ts.
Proof.
  intros Hagents Hts. pose proof (BuildStageTargets_fresh _ _ Hts) as Hfresh.
  rewrite Forall_forall in Hfresh. cbn [bi_Rollout bi_Stage bi_SnapshotRevision] in Hfresh.
  pose proof (BuildStageTargets_ok _ _ Hts) as (Hsort & _). cbn [bi_Agents] in Hsort.
  set (input := MkBuildTargetsInput r stage agents revision now) in *.
  split.
  - rewrite Hsort, SortFunc_perm.
    assert (∀ l : list Agent, st_AgentID <$> omap (agent_target input) l =
      omap (λ id, if takes (r_ConfigDefinitionID r) (r_CandidateVersionID r) (s_Percentage stage) id
                  then Some id else None) (a_ID <$> l)) as Hids.
    { induction l as [|a l IH]; [done|]. cbn. unfold agent_target at 1, agent_bucket, takes at 1.
      cbn [bi_Rollout bi_Stage input].
      destruct (Bucket _); [|done]. destruct (Eligible _ _); cbn; by rewrite IH. }
    rewrite Hids, Hagents. clear. induction all as [|i l IH]; [done|].
    cbn [fmap list_fmap omap list_omap]. rewrite filter_cons.
    destruct (takes _ _ _ _); cbn; by rewrite IH.
  - intros t Ht. by destruct (Hfresh t Ht) as (? & ? & Hver & ? & _).
  - intros t i Ht _ _ _. by destruct (Hfresh t Ht) as (_ & _ & _ & _ & ? & _).
  - cbn. clear -Hfresh. induction ts as [|t ts IH]; [done|]. cbn [count_acked].
    destruct (Hfresh t) as (_ & _ & _ & _ & -> & _); [by left|].
    rewrite IH; [done|]. intros x Hx. apply Hfresh. by right.
Qed.

(** * The agents that enrol *)

(** [sq_pair] is what a driver keeps of an agent: its identifier and its
    token. *)
Record Squad (A : Type) := MkSquad {
  sq_size : Z;
  sq_ident : Z → string;
  sq_registry : AgentRegistry.Service;
  sq_service : string;
  sq_environment : Environment;
  sq_input : Z → AgentRegistry.RegisterInput;
  sq_pair : string → string → A }.
Arguments MkSquad {A} _ _ _ _ _ _ _.
Arguments sq_size {A} _.
Arguments sq_ident {A} _ _.
Arguments sq_registry {A} _.
Arguments sq_service {A} _.
Arguments sq_environment {A} _.
Arguments sq_input {A} _ _.
Arguments sq_pair {A} _ _ _.

Record squad_ok {A} (q : Squad A) : Prop := {
  so_few : few (sq_size q);
  so_inj : ∀ i j, 0 ≤ i < sq_size q → 0 ≤ j < sq_size q → sq_ident q i = sq_ident q j → i = j;
  so_named : ∀ i, sq_ident q i ≠ "";
  so_id : ∀ i, AgentRegistry.ri_ID (sq_input q i) = sq_ident q i;
  so_service : ∀ i, AgentRegistry.ri_Service (sq_input q i) = sq_service q;
  so_environment : ∀ i, AgentRegistry.ri_Environment (sq_input q i) = sq_environment q;
  so_admissible : ∀ i, admissible (sq_registry q) (sq_input q i);
  so_valid : Environment_Validate (sq_environment q) = Ok tt;
  so_lasting : AgentRegistry.svc_credentialTTL (sq_registry q) = 60 * Minute }.

Section squad.
Context {W : Type} {first deadline : Time} {budget : nat}
  {St : Reg → Ag → Ro → Time → list string → W → Prop} `{Steady W first deadline budget St}.
Context {A : Type} (q : Squad A) (Hq : squad_ok q).
#[local] Existing Instance RegistryStore.memory_store.
#[local] Existing Instance AgentStore.memory_store.
#[local] Existing Instance RolloutMemory.memory_store.
#[local] Existing Instance RolloutService.registry_service.
#[local] Existing Instance Simulator.agent_source.
Implicit Types (reg : Reg) (ag : Ag) (ro : Ro).
Abbreviation n := (sq_size q).
Abbreviation ident := (sq_ident q).

Definition record_of (i : Z) (at_ : Time) : Agent := agent_of (sq_input q i) at_.
Definition credit (i : Z) (x : string) (at_ : Time) : AgentCredential :=
  credential_of (sq_registry q) (sq_input q i) x at_.

(** What is known of an agent: its record, its credential, and the pair the
    driver keeps. *)
Definition enrolled (ag : Ag) (agents : list A) (i : Z) : Prop :=
  ∃ at_ x, AgentStore.ms_agents ag !! ident i = Some (record_of i at_) ∧
    AgentStore.ms_credentials ag !! ("cred_" +:+ x) = Some (credit i x at_) ∧
    first ≤ at_ ∧ agents !! Z.to_nat i = Some (sq_pair q (ident i) ("cred_" +:+ x)).

Record registered (seen : list Z) (ag : Ag) (agents : list A) (d : list string) : Prop := {
  rd_range : ∀ i, i ∈ seen → 0 ≤ i < n;
  rd_drawn : length d = length seen;
  rd_tokens : ∀ token, is_Some (AgentStore.ms_credentials ag !! token) → ∃ x, x ∈ d ∧ token = "cred_" +:+ x;
  rd_known : ∀ id, is_Some (AgentStore.ms_agents ag !! id) → ∃ i, i ∈ seen ∧ id = ident i;
  rd_enrolled : ∀ i, i ∈ seen → enrolled ag agents i;
  rd_agents : length agents = Z.to_nat n }.

Lemma credit_agent i x at_ : c_AgentID (credit i x at_) = ident i.
Proof. apply (so_id _ Hq). Qed.

Lemma credit_lives i x at_ : deadline < first + 5 * Minute → first ≤ at_ → deadline < c_ExpiresAt (credit i x at_).
Proof.
  intros Hshort Hat. change (deadline < at_ + AgentRegistry.svc_credentialTTL (sq_registry q)).
  rewrite (so_lasting _ Hq). unfold Minute, Second in *. lia.
Qed.

Lemma registered_start agents : length agents = Z.to_nat n → registered [] AgentStore.NewMemoryStore agents [].
Proof. intros ?. split; try done; [by intros i ?%elem_of_nil|by intros ? [??]|by intros ? [??]|by intros i ?%elem_of_nil]. Qed.

Lemma registered_next seen i ag agents d x at_ :
  registered seen ag agents d → NoDup (seen ++ [i]) → 0 ≤ i < n → x ∉ d → first ≤ at_ →
  registered (seen ++ [i]) (enroll (record_of i at_) (credit i x at_) ag)
    (<[Z.to_nat i := sq_pair q (ident i) ("cred_" +:+ x)]> agents) (x :: d).
Proof.
  intros [Hr Hd Ht Hk He Ha] Hnd Hi Hx Hat.
  assert (i ∉ seen) as Hnew by (apply NoDup_app in Hnd as (_ & Hdis & _); set_solver).
  assert (∀ j, j ∈ seen → ident j ≠ ident i) as Hother.
  { intros j Hj Heq. apply (so_inj _ Hq) in Heq; [congruence|by apply Hr|done]. }
  assert (a_ID (record_of i at_) = ident i) as Hid by apply (so_id _ Hq).
  change (c_Token (credit i x at_)) with ("cred_" +:+ x).
  split; cbn [enroll AgentStore.ms_agents AgentStore.ms_credentials]; rewrite ?Hid.
  - intros j [Hj|Hj]%elem_of_app; [by apply Hr|]. apply list_elem_of_singleton in Hj. by subst j.
  - rewrite length_app. cbn. rewrite Hd. lia.
  - intros token. change (c_Token (credit i x at_)) with ("cred_" +:+ x).
    destruct (decide (token = "cred_" +:+ x)) as [->|Hne]; [exists x; split; [by left|done]|].
    rewrite lookup_insert_ne by done. intros (y & Hy & ->)%Ht. exists y. split; [by right|done].
  - intros id. destruct (decide (id = ident i)) as [->|Hne]; [intros _; exists i; split; [set_solver|done]|].
    rewrite lookup_insert_ne by done. intros (j & Hj & ->)%Hk. exists j. split; [set_solver|done].
  - intros j [Hj|Hj]%elem_of_app.
    + destruct (He j Hj) as (at' & y & Hagent & Hcred & Hat' & Hpair). exists at', y.
      cbn [enroll AgentStore.ms_agents AgentStore.ms_credentials]. rewrite Hid.
      change (c_Token (credit i x at_)) with ("cred_" +:+ x).
      rewrite lookup_insert_ne by (by apply not_eq_sym, Hother). split_and!; [done| |done|].
      * destruct (Ht ("cred_" +:+ y)) as (z & Hz & Heq); [by eexists|].
        rewrite lookup_insert_ne; [done|]. rewrite Heq. intros Heq'. apply (inj (String.append "cred_")) in Heq'. congruence.
      * rewrite list_lookup_insert_ne; [done|]. specialize (Hr j Hj).
        intros Heq. apply Hnew. replace i with j by lia. done.
    + apply list_elem_of_singleton in Hj. subst j. exists at_, x.
      cbn [enroll AgentStore.ms_agents AgentStore.ms_credentials]. rewrite Hid.
      split_and!; [apply lookup_insert_eq|apply lookup_insert_eq|done|].
      apply list_lookup_insert_eq. rewrite Ha. lia.
  - by rewrite length_insert.
Qed.

(** Some draw is left while some agent is. *)
Lemma registered_draws seen i ag agents d : (Z.to_nat n <= budget)%nat →
  registered seen ag agents d → NoDup (seen ++ [i]) → 0 ≤ i < n → (length d < budget)%nat.
Proof.
  intros Hbudget Hreg Hnd Hi. rewrite (rd_drawn _ _ _ _ Hreg).
  eapply Nat.lt_le_trans; [eapply (done_short n _ i); [done|]|done].
  intros j [Hj|Hj]%elem_of_app; [by apply (rd_range _ _ _ _ Hreg)|].
  apply list_elem_of_singleton in Hj. by subst j.
Qed.

(** ** The fleet *)

Record fleet (ag : Ag) (agents : list A) : Prop := {
  fl_known : ∀ id, is_Some (AgentStore.ms_agents ag !! id) → ∃ i, 0 ≤ i < n ∧ id = ident i;
  fl_enrolled : ∀ i, 0 ≤ i < n → enrolled ag agents i;
  fl_length : length agents = Z.to_nat n }.

Lemma registered_fleet order ag agents d : registered order ag agents d → order ≡ₚ seqZ 0 n → fleet ag agents.
Proof.
  intros Hreg Ho. assert (∀ i, i ∈ order ↔ 0 ≤ i < n) as Hin by (intros i; rewrite Ho, elem_of_seqZ; lia).
  split; [|intros i Hi; by apply (rd_enrolled _ _ _ _ Hreg), Hin|apply (rd_agents _ _ _ _ Hreg)].
  intros id Hid. destruct (rd_known _ _ _ _ Hreg id Hid) as (i & Hi%Hin & ->). by exists i.
Qed.

Lemma fleet_same ag ag' agents : same_agents ag ag' → fleet ag agents → fleet ag' agents.
Proof.
  intros [Ha Hc] [Hk He Hl]. split; [by rewrite Ha|intros i Hi|done]. unfold enrolled. rewrite Ha, Hc. by apply He.
Qed.

Lemma fleet_record ag agents id a : fleet ag agents → AgentStore.ms_agents ag !! id = Some a →
  a_ID a = id ∧ a_Environment a = sq_environment q ∧ a_Service a = sq_service q.
Proof.
  intros [Hk He _] Ha. destruct (Hk id) as (i & Hi & ->); [by eexists|].
  destruct (He i Hi) as (at_ & x & Ha' & _). rewrite Ha' in Ha. injection Ha as <-.
  split_and!; [apply (so_id _ Hq)|apply (so_environment _ Hq)|apply (so_service _ Hq)].
Qed.

Definition rostered (l : list Agent) : Prop :=
  a_ID <$> l ≡ₚ ident <$> seqZ 0 n ∧
  ∀ a, a ∈ l → a_Environment a = sq_environment q ∧ a_Service a = sq_service q.

Lemma fleet_list ag agents range : fleet ag agents → range_ok range →
  ∃ l, AgentStore.ListAgents None range ag = (Ok l, ag) ∧ rostered l.
Proof.
  intros Hf Hr. eexists. split; [reflexivity|].
  assert (AgentRegistry.clone_agent <$> map_values range (AgentStore.ms_agents ag) =
    map_values range (AgentStore.ms_agents ag)) as ->.
  { rewrite <-(list_fmap_id (map_values _ _)) at 2. apply list_fmap_ext. intros ?? _. apply AgentRegistry.clone_agent_id. }
  split; [|intros a; rewrite SortFunc_perm, elem_of_map_values by done; intros [id Ha];
    by destruct (fleet_record _ _ _ _ Hf Ha) as (_ & ? & ?)].
  rewrite SortFunc_perm. apply NoDup_Permutation.
  - apply NoDup_map_values; [done|]. intros k k' a a' Ha Ha' Heq.
    destruct (fleet_record _ _ _ _ Hf Ha) as [<- _], (fleet_record _ _ _ _ Hf Ha') as [<- _]. done.
  - apply NoDup_fmap_2_strong; [|apply NoDup_seqZ].
    intros i j Hi%elem_of_seqZ Hj%elem_of_seqZ. by apply (so_inj _ Hq); lia.
  - intros id. rewrite !list_elem_of_fmap. split.
    + intros (a & -> & Ha). apply elem_of_map_values in Ha as [k Ha]; [|done].
      destruct (fl_known _ _ Hf k) as (i & Hi & ->); [by eexists|].
      destruct (fleet_record _ _ _ _ Hf Ha) as [-> _]. exists i. rewrite elem_of_seqZ. split; [done|lia].
    + intros (i & -> & Hi%elem_of_seqZ). destruct (fl_enrolled _ _ Hf i) as (at_ & x & Ha & _); [lia|].
      exists (record_of i at_). split; [symmetry; apply (so_id _ Hq)|]. apply elem_of_map_values; [done|]. by exists (ident i).
Qed.

Lemma rostered_filter l : rostered l → RolloutService.filterAgents l (sq_environment q) [sq_service q] = l.
Proof.
  intros [_ Hl]. unfold RolloutService.filterAgents. induction l as [|a l IH]; [done|].
  destruct (Hl a) as [He Hs]; [by left|]. rewrite filter_cons_True.
  - f_equal. apply IH. intros x Hx. apply Hl. by right.
  - split; [done|]. right. rewrite Hs. by left.
Qed.

Lemma drive_ListAgents agents reg ag ro t d w : fleet ag agents → St reg ag ro t d w →
  wp (AgentRegistry.Svc.ListAgents Background) (λ r w', ∃ l, r = Ok l ∧ rostered l ∧ St reg ag ro t d w') w.
Proof.
  intros Hf Hw. unfold AgentRegistry.Svc.ListAgents. cbn [AgentRegistry.ListAgents AgentStore.memory_store].
  unfold wp, store_range, mbind, M_bind, ctx_Err, range_order.
  destruct (st_ctx _ _ _ _ _ _ Hw) as [Hc Hw1]. destruct (env_ctx Background w) as [e w1].
  cbn [fst snd] in *. subst e.
  destruct (st_range _ _ _ _ _ _ Hw1) as [Hr Hw2]. destruct (env_range w1) as [range w2].
  cbn [fst snd] in *. unfold zoom. rewrite (st_ag _ _ _ _ _ _ Hw2). cbn [option_fmap fmap option_map].
  destruct (fleet_list _ _ _ Hf Hr) as (l & -> & Hl). exists l. split_and!; [done..|]. by eapply st_set_ag.
Qed.

(** ** The rollout *)

Context (description creator : string) (rules : list Guardrail.Rule) (deploy longest rollback : Duration)
  (plan : list Stage).
Abbreviation env := (sq_environment q).
Abbreviation reg := (registry description creator env).

(** A rollout of the second version, in some state at some stage. *)
Definition campaign_rollout (id : string) (state : State) (sid : string) (index : Z)
    (failures : gmap string Z) (started : Time) (status : RollbackStatus) (created updated : Time) : Rollout :=
  MkRollout id cfg_id "payments" config_key env [sq_service q] v1_id v2_id 2 state sid index
    (f_of_int 100) rules failures started deploy longest rollback status created updated.

(** The agents a stage takes, by number. *)
Definition members (percentage : Z) : list Z :=
  filter (λ i, takes cfg_id v2_id percentage (ident i) = true) (seqZ 0 n).

Lemma members_range p i : i ∈ members p → 0 ≤ i < n.
Proof. intros [_ Hi%elem_of_seqZ]%list_elem_of_filter. lia. Qed.
Lemma members_NoDup p : NoDup (members p).
Proof. apply NoDup_filter, NoDup_seqZ. Qed.
Lemma members_inj p i j : i ∈ members p → j ∈ members p → ident i = ident j → i = j.
Proof. intros Hi%members_range Hj%members_range. by apply (so_inj _ Hq). Qed.
Lemma members_count p : Z.of_nat (length (members p)) < 10000.
Proof.
  unfold members. pose proof (length_filter (λ i, takes cfg_id v2_id p (ident i) = true) (seqZ 0 n)) as Hl.
  rewrite length_seqZ in Hl. pose proof (so_few _ Hq) as Hfew. unfold few in Hfew. lia.
Qed.

(** The last stage takes everyone in. *)
Lemma members_all : members 100 = seqZ 0 n.
Proof.
  unfold members. assert (∀ i, takes cfg_id v2_id 100 (ident i) = true) as Hall.
  { intros i. unfold takes.
    destruct (proj2 (Bucket_ok_iff (MkAssignmentKey cfg_id v2_id (ident i)))) as [b Hb].
    { split_and!; [done..|apply (so_named _ Hq)]. }
    rewrite Hb. apply Bucket_bounds in Hb. unfold BucketCount in Hb. unfold Eligible. cbn.
    rewrite (proj2 (Z.leb_le 0 b)), (proj2 (Z.ltb_lt b _)) by (unfold BucketCount; lia). done. }
  induction (seqZ 0 n) as [|i l IH]; [done|]. rewrite filter_cons_True by done. by f_equal.
Qed.

Lemma members_mono p p' : p ≤ p' → (length (members p) <= length (members p'))%nat.
Proof.
  intros Hp. apply submseteq_length, NoDup_submseteq; [apply members_NoDup|]. unfold members.
  intros i [Hin Hi]%list_elem_of_filter. apply list_elem_of_filter. split; [|done]. unfold takes in *.
  destruct (Bucket _); [|done]. by eapply Eligible_mono.
Qed.

Lemma drive_activateStage r stage agents tg rev g ag t d w :
  r_ID r ≠ "" → r_ConfigDefinitionID r = cfg_id → r_CandidateVersionID r = v2_id → r_Environment r = env →
  s_ID stage ≠ "" → 1 ≤ rev < 1000 → fleet ag agents →
  let key := RolloutStore.targetKey (r_ID r) (s_ID stage) in
  targets_at key tg = [] → St g ag (ro_store env plan r tg rev) t d w →
  wp (RolloutService.activateStage Background r stage [sq_service q]) (λ res w', ∃ ts tg' t', res = Ok ts ∧
    cohort ident (members (s_Percentage stage)) (r_ID r) (s_ID stage) v2_id rev [] ts ∧ targets_set key ts tg tg' ∧
    t ≤ t' ≤ deadline ∧ St g ag (ro_store env plan r tg' (rev + 1)) t' d w') w.
Proof.
  intros Hid Hdef Hver Henv Hsid Hrev Hf key Hkey Hw. unfold RolloutService.activateStage.
  wp_step. wp_call drive_ListAgents; [exact Hf|exact Hw|]. intros res w1 (l & -> & Hl & Hw1). cbv zeta. cbn beta iota.
  rewrite Henv, (rostered_filter l Hl).
  wp_step. eapply drive_ro; [exact Hw1|apply ro_revision; lia|]. intros w2 Hw2. cbn beta iota.
  wp_step. eapply drive_now; [exact Hw2|]. intros t3 w3 Ht3 Hw3. cbn beta iota.
  wp_step. destruct (BuildStageTargets (MkBuildTargetsInput r stage l rev t3)) as [ts|e] eqn:Hts.
  2: { exfalso. revert Hts. unfold BuildStageTargets. cbn [bi_Rollout bi_Stage bi_SnapshotRevision bi_Agents].
    rewrite Hdef, Hver, !(proj2 (empty_str_false _)), (proj2 (Z.ltb_ge _ _)) by first [done|lia].
    rewrite BuildStageTargets_loop_total; [done|cbn [bi_Rollout]; by rewrite ?Hdef, ?Hver..|].
    destruct Hl as [Hids _]. apply Forall_forall. intros a Ha.
    assert (a_ID a ∈ a_ID <$> l) as Hin by (by apply list_elem_of_fmap_2). rewrite Hids in Hin.
    apply list_elem_of_fmap in Hin as (i & -> & _). apply (so_named _ Hq). }
  assert (cohort ident (members (s_Percentage stage)) (r_ID r) (s_ID stage) v2_id rev [] ts) as Hc.
  { pose proof (cohort_built ident (seqZ 0 n) r stage l rev t3 ts (proj1 Hl) Hts) as Hc.
    rewrite Hdef, Hver in Hc. exact Hc. }
  destruct (ro_save env plan r tg (rev + 1) key ts) as (tg' & Hsave & Hset); [|done|].
  { apply Forall_forall. intros x Hx. by destruct (ch_fields _ _ _ _ _ _ _ _ Hc x Hx) as (-> & -> & _). }
  wp_step. cbn beta iota. wp_step. eapply drive_ro; [exact Hw3|exact Hsave|]. intros w4 Hw4. cbn beta iota. wp_step.
  exists ts, tg', t3. split_and!; [done|done|apply Hset..|lia|lia|done].
Qed.

(** A rollout is created, and its first stage activated. *)
Lemma drive_CreateRollout (s : RolloutService.Service W) input stage agents updated ag t d w :
  (if Nat.eqb (length (RolloutService.ci_Stages input)) 0 then RolloutService.svc_stagePlan s
   else RolloutService.ci_Stages input) = plan →
  RolloutService.validate_create input plan = Ok tt →
  RolloutService.ci_TenantID input = "payments" → RolloutService.ci_Key input = config_key →
  RolloutService.ci_Environment input = env → RolloutService.ci_CandidateVersionNumber input = 2 →
  RolloutService.ci_TargetServices input = [sq_service q] →
  plan !! 0%nat = Some stage → s_ID stage ≠ "" →
  (∀ id at_, RolloutService.new_rollout input id (definition description)
     (MkConfigEnvironmentState cfg_id env v1_id "" updated) (v2 creator) stage at_ =
   campaign_rollout id StateDeploying (s_ID stage) 0 ∅ at_ RollbackStatusNone at_ at_) →
  fleet ag agents → St (reg v1_id updated) ag RolloutStore.NewMemoryStore t d w →
  wp (RolloutService.CreateRollout s Background input) (λ res w', ∃ b created ts tg t' d',
    let id := "rollout" +:+ "_" +:+ Sha256.hex_encode b in
    let r := campaign_rollout id StateDeploying (s_ID stage) 0 ∅ created RollbackStatusNone created created in
    res = Ok (r, ts) ∧
    cohort ident (members (s_Percentage stage)) id (s_ID stage) v2_id 1 [] ts ∧
    targets_set (RolloutStore.targetKey id (s_ID stage)) ts ∅ tg ∧
    first ≤ created ≤ t' ∧ t ≤ t' ≤ deadline ∧ St (reg v1_id updated) ag (ro_store env plan r tg 2) t' d' w') w.
Proof.
  intros Hplan Hvalid Hten Hkey Henv Hnum Hsvc Hstage Hsid Hnew Hf Hw. unfold RolloutService.CreateRollout. cbv zeta.
  rewrite Hplan, Hvalid, Hten, Hkey, Henv, Hnum, Hsvc. wp_step. wp_step. cbn beta iota.
  wp_step. eapply drive_reg; [exact Hw|apply reg_definition|]. intros w1 Hw1. cbn beta iota.
  wp_step. unfold RolloutService.registry_ListVersions, RolloutService.registry_service, ConfigRegistry.Service.ListVersions.
  wp_step. eapply drive_reg; [exact Hw1|apply reg_definition|]. intros w2 Hw2. cbn beta iota.
  eapply drive_reg; [exact Hw2|apply reg_versions|]. intros w3 Hw3. cbn beta iota.
  change (RolloutService.findVersionByNumber _ _) with (Some (v2 creator)). cbn beta iota.
  wp_step. unfold RolloutService.registry_GetEnvironmentState, ConfigRegistry.Service.GetEnvironmentState.
  wp_step. eapply drive_reg; [exact Hw3|apply reg_definition|]. intros w4 Hw4. cbn beta iota.
  eapply drive_reg; [exact Hw4|apply reg_state|]. intros w5 Hw5. cbn beta iota.
  cbn [es_StableVersionID]. change (empty_str v1_id) with false. change (bool_decide (v1_id = v_ID (v2 creator))) with false.
  cbn [guard_err]. wp_step. wp_step. wp_step. wp_step.
  wp_step. eapply drive_now; [exact Hw5|]. intros t6 w6 Ht6 Hw6. cbn beta iota.
  wp_step. eapply drive_id; [exact Hw6|]. intros b w7 _ Hw7. cbn beta iota.
  set (id := "rollout" +:+ "_" +:+ _) in *.
  wp_step. unfold RolloutService.index. change (0 <=? 0) with true. cbn iota. change (Z.to_nat 0) with 0%nat.
  rewrite Hstage. wp_step. rewrite Hnew. set (r := campaign_rollout id _ _ _ _ _ _ _ _). cbn beta iota zeta. wp_step.
  eapply drive_ro; [exact Hw7|by apply (ro_create env plan r)|]. intros w8 Hw8. cbn beta iota.
  wp_step. wp_call (drive_activateStage r stage agents ∅ 1); [done..|exact Hf|done|exact Hw8|].
  intros res w9 (ts & tg & t9 & -> & Hc & Hset & Ht9 & Hw9). cbn beta iota. wp_step.
  pose proof (st_first _ _ _ _ _ _ Hw). exists b, t6, ts, tg, t9. eexists.
  split_and!; [done|exact Hc|apply Hset..|lia|lia|lia|lia|exact Hw9].
Qed.

(** ** Its reading *)

Lemma drive_GetRollout r tg rev g ag t d w : St g ag (ro_store env plan r tg rev) t d w →
  wp (RolloutService.GetRollout Background (r_ID r)) (λ res w',
    let ts := targets_at (RolloutStore.targetKey (r_ID r) (r_CurrentStageID r)) tg in
    res = Ok (r, ts, AcknowledgementCoverage ts) ∧ St g ag (ro_store env plan r tg rev) t d w') w.
Proof.
  intros Hw. unfold RolloutService.GetRollout.
  wp_step. eapply drive_ro; [exact Hw|apply (ro_get env plan r)|].
  intros w1 Hw1. cbn beta iota. wp_step. eapply drive_ro; [exact Hw1|apply (ro_targets env plan r)|].
  intros w2 Hw2. cbn beta iota. by wp_step.
Qed.

Lemma serving_ro r tg rev : ours env r → Terminal (r_State r) = false →
  serving env (ro_store env plan r tg rev)
    (Some (r, targets_at (RolloutStore.targetKey (r_ID r) (r_CurrentStageID r)) tg)).
Proof. intros Hr Ht. split; [by apply ro_active|apply (ro_targets env plan r)]. Qed.

(** ** Its end *)

Lemma drive_SetStableVersion updated ag ro t d w : St (reg v1_id updated) ag ro t d w →
  wp (ConfigRegistry.Service.SetStableVersion Background
        (ConfigRegistry.MkSetStableVersionInput "payments" config_key env 2)) (λ r w',
    is_ok r = true ∧ ∃ t', t ≤ t' ≤ deadline ∧ St (reg v2_id t') ag ro t' d w') w.
Proof.
  intros Hw. unfold ConfigRegistry.Service.SetStableVersion. cbn [ConfigRegistry.ss_Environment
    ConfigRegistry.ss_TenantID ConfigRegistry.ss_Key ConfigRegistry.ss_VersionNumber]. rewrite (so_valid _ Hq).
  wp_step. eapply drive_reg; [exact Hw|apply reg_definition|]. intros w1 Hw1. cbn beta iota.
  wp_step. eapply drive_reg; [exact Hw1|apply reg_version_2|]. intros w2 Hw2. cbn beta iota.
  wp_step. wp_step. eapply drive_reg; [exact Hw2|apply reg_state|]. intros w3 Hw3. cbn beta iota.
  wp_step. wp_step. unfold WithStableVersion. cbn [es_ActiveRolloutID blank]. change (blank "") with true.
  cbn [negb andb mret result_ret es_ConfigDefinitionID es_Environment es_ActiveRolloutID es_StableVersionID es_UpdatedAt].
  wp_step. eapply drive_now; [exact Hw3|]. intros t4 w4 Ht4 Hw4. cbv zeta. cbn beta iota.
  match goal with |- context [ConfigEnvironmentState_Validate ?s] =>
    assert (ConfigEnvironmentState_Validate s = Ok tt) as -> by exact (so_valid _ Hq) end.
  wp_step. eapply drive_reg; [exact Hw4|apply reg_set_state|]. intros w5 Hw5. cbn beta iota. wp_step.
  split; [done|]. exists t4. split; [lia|exact Hw5].
Qed.

(** The last stage is passed. *)
Lemma drive_complete id sid index failures started status created updated tg rev stable ag t d w :
  index = Z.of_nat (length plan) - 1 →
  St (reg v1_id stable) ag (ro_store env plan
    (campaign_rollout id StateDeploying sid index failures started status created updated) tg rev) t d w →
  wp (RolloutService.promote Background
        (campaign_rollout id StateDeploying sid index failures started status created updated) plan) (λ res w',
    is_ok res = true ∧ ∃ t' u, t ≤ t' ≤ deadline ∧
    St (reg v2_id u) ag (ro_store env plan
      (campaign_rollout id StateCompleted sid index failures started status created t') tg rev) t' d w') w.
Proof.
  set (r := campaign_rollout id StateDeploying _ _ _ _ _ _ _). intros Hindex Hw. unfold RolloutService.promote.
  change (r_CurrentStageIndex r) with index. rewrite (proj2 (Z.eqb_eq _ _)) by done.
  change (Transition (r_State r) StateEvaluating) with (Ok tt : res unit). wp_step. wp_step. cbn beta iota.
  wp_step. wp_call drive_SetStableVersion; [exact Hw|]. intros [state|e] w1; [|by intros [? _]].
  intros (_ & t1 & Ht1 & Hw1). cbn beta iota.
  wp_step. eapply drive_now; [exact Hw1|]. intros t2 w2 Ht2 Hw2. cbn beta iota. cbv zeta.
  change (set_state r StateCompleted t2) with
    (campaign_rollout id StateCompleted sid index failures started status created t2).
  wp_step. eapply drive_ro; [exact Hw2|apply (ro_update env plan r
    (campaign_rollout id StateCompleted sid index failures started status created t2)); done|].
  intros w3 Hw3. cbn beta iota. wp_step. split; [done|]. do 2 eexists. split; [|exact Hw3]. lia.
Qed.

(** ** Acknowledgements *)

(** The acknowledgement of a member that has not sent one is recorded; what
    follows depends on the state. *)
Lemma drive_Acknowledge (s : RolloutService.Service W) ms r v rev i acked ts tg next
    (Q : res RolloutService.AcknowledgeResult → W → Prop) g ag t d w :
  (∀ i j, i ∈ ms → j ∈ ms → ident i = ident j → i = j) →
  Terminal (r_State r) = false →
  let key := RolloutStore.targetKey (r_ID r) (r_CurrentStageID r) in
  targets_at key tg = ts → cohort ident ms (r_ID r) (r_CurrentStageID r) v rev acked ts →
  i ∈ ms → i ∉ acked → St g ag (ro_store env plan r tg next) t d w →
  (∀ ts' t' w', cohort ident ms (r_ID r) (r_CurrentStageID r) v rev (acked ++ [i]) ts' →
     t ≤ t' ≤ deadline → St g ag (ro_store env plan r (<[key := ts']> tg) next) t' d w' →
     wp (if decide (r_State r = StateRollingBack) then
           rollout ← RolloutService.reconcileRollback Background r ts';
           mret (RolloutService.MkAcknowledgeResult true (AcknowledgementCoverage ts') DecisionWait rollout)
         else
           guard_err (RolloutService.stage_index_error r plan)
                     (EWrap ErrInvalidInput "current stage index out of range" []);;
           currentStage ← RolloutService.index plan (r_CurrentStageIndex r);
           dr ← RolloutService.evaluateStageDecision s Background r ts' currentStage;
           let '(decision, rollout) := dr in
           rollout ← RolloutService.apply_decision Background decision rollout plan;
           mret (RolloutService.MkAcknowledgeResult true (AcknowledgementCoverage ts') decision rollout)) Q w') →
  wp (RolloutService.Acknowledge s Background
        (RolloutService.MkAcknowledgeInput (r_ID r) (r_CurrentStageID r) (ident i) v rev)) Q w.
Proof.
  intros Hinj Hterm key Hts Hc Hi Hni Hw HQ.
  unfold RolloutService.Acknowledge. cbn [RolloutService.ai_RolloutID RolloutService.ai_StageID RolloutService.ai_AgentID
    RolloutService.ai_VersionID RolloutService.ai_SnapshotRevision].
  wp_step. eapply drive_ro; [exact Hw|apply (ro_get env plan r)|]. intros w1 Hw1. cbn beta iota.
  rewrite Hterm. cbn [guard_err]. wp_step. wp_step. cbn beta iota.
  wp_step. eapply drive_ro; [exact Hw1|apply (ro_targets env plan r)|]. fold key. rewrite Hts. intros w2 Hw2. cbn beta iota.
  wp_step. eapply drive_now; [exact Hw2|]. intros t3 w3 Ht3 Hw3. cbn beta iota.
  destruct (cohort_ack ident ms Hinj _ _ _ _ acked ts i t3 Hc Hi Hni) as (ts' & -> & Hc').
  wp_step. eapply drive_ro; [exact Hw3|apply (ro_replace env plan r)|]. intros w4 Hw4. cbn beta iota.
  wp_step. eapply drive_ro; [exact Hw4|apply (ro_stages env plan r)|]. intros w5 Hw5. cbn beta iota.
  by apply (HQ ts' t3).
Qed.

(** The decision on a stage waits for the whole cohort. *)
Lemma drive_decision (s : RolloutService.Service W) id sid index failures started status created updated ts stage reached
    (Q : res (StageDecision * Rollout) → W → Prop) g ag ro t d w :
  deadline < first + 5 * Minute → 5 * Minute ≤ deploy → 5 * Minute ≤ longest → s_MinimumDuration stage = 0 →
  CoverageReached ts (f_of_int 100) = reached → first ≤ created → first ≤ started ≤ t →
  let r := campaign_rollout id StateDeploying sid index failures started status created updated in
  St g ag ro t d w →
  (∀ t' w', t ≤ t' ≤ deadline → St g ag ro t' d w' →
     if (reached : bool) then
       wp (if Nat.eqb (length rules) 0 then mret (DecisionPromote, r)
           else
             sr ← RolloutService.evaluateGuardrails s Background r t';
             let '(status, rollout) := sr in
             match status with
             | Guardrail.StatusHealthy => mret (DecisionPromote, rollout)
             | Guardrail.StatusUnhealthy => mret (DecisionRollback, rollout)
             | Guardrail.StatusUnknown => mret (DecisionPause, rollout)
             end) Q w'
     else Q (Ok (DecisionWait, r)) w') →
  wp (RolloutService.evaluateStageDecision s Background r ts stage) Q w.
Proof.
  intros Hshort Hdeploy Hlongest Hmin Hreached Hcreated Hstarted r Hw HQ. unfold RolloutService.evaluateStageDecision.
  wp_step. eapply drive_now; [exact Hw|]. intros t1 w1 Ht1 Hw1. cbn beta iota.
  assert (∀ u, first ≤ u → u ≤ t1 → 0 ≤ time_Sub t1 u < 5 * Minute) as Hsub.
  { intros u Hu Hu'. unfold Minute, Second in *. rewrite time_Sub_exact; [lia|].
    unfold int64_ok, int64_min, int64_max. lia. }
  change (r_RolloutMaxDuration r) with longest. change (r_CreatedAt r) with created.
  change (r_RequiredAckPercent r) with (f_of_int 100). change (r_StageStartedAt r) with started.
  change (r_DeploymentTimeout r) with deploy. change (r_Guardrails r) with rules.
  assert ((0 <? longest) && (longest <=? time_Sub t1 created) = false) as ->.
  { apply andb_false_iff. right. apply Z.leb_gt. destruct (Z.le_gt_cases created t1) as [Hle'|Hgt].
    - specialize (Hsub created ltac:(lia) ltac:(lia)). lia.
    - unfold time_Sub, Minute, Second, int64_min, int64_max in *. lia. }
  cbv zeta. unfold EvaluateStageProgress. cbn [sp_Targets sp_RequiredAckPercentage sp_StageStartedAt sp_Now
    sp_MinimumDuration sp_DeploymentTimeout]. rewrite Hreached, Hmin.
  specialize (Hsub started ltac:(lia) ltac:(lia)). specialize (HQ t1 w1 Ht1 Hw1).
  rewrite (proj2 (Z.leb_le 0 _)), (proj2 (Z.leb_gt deploy _)) by lia. rewrite andb_false_r.
  destruct reached; cbn [andb]; rewrite ?bool_decide_true, ?bool_decide_false by done; cbn [negb]; [exact HQ|].
  by wp_step.
Qed.

End squad.

End CampaignDrive.
