(* ===== verification/ReliabilityDrive.v ===== *)
(** What the runner reports whatever the steps do: a step adds metrics and
    timings to the result, and the runner alone adds the events.  Then the harness of the scenarios on a host that
    behaves: its servers, the requests of its agents, and the runner, step by
    step.  What the encoders and the network have to do is stated where it is
    used. *)

From Stdlib Require Import ZArith Lia Ascii.
From S2P Require Import Prelude GoLib Sha256 Host Http Mux Format Parallel ParallelProps FileSystem Domain Registry RegistryStore AgentRegistry AgentStore Rollout RolloutStore RolloutService RolloutMemory DataPlane Agent ControlPlane Health System DataPlaneFacts AgentFacts ConfigDeploy Simulator Reliability Drive Scenarios.
Import Domain Rollout Parallel ParallelFacts Reliability Scenarios.
Open Scope string_scope.
Open Scope list_scope.
Open Scope Z_scope.

Module ReliabilityFacts.

Create HintDb steps.

(** * Steps that leave the events alone *)

(** The part of a result that only the runner writes. *)
Definition identity_of (r : ScenarioResult) : string * bool * Time * Duration * list ScenarioEvent :=
  (sc_Name r, sc_Passed r, sc_StartedAt r, sc_Duration r, sc_Events r).

Section keeps.
Context {W L : Type}.
Abbreviation StepM A := (M (W * (ScenarioResult * L)) A).

Definition keeps {A} (m : StepM A) : Prop :=
  ∀ s, identity_of (m s).2.2.1 = identity_of s.2.1.

Lemma keeps_ret {A} (a : A) : keeps (mret a).
Proof. by intros s. Qed.
Lemma keeps_throw {A} (e : error) : keeps (mthrow e : StepM A).
Proof. by intros s. Qed.
Lemma keeps_bind {A B} (m : StepM A) (k : A → StepM B) :
  keeps m → (∀ a, keeps (k a)) → keeps (mbind k m).
Proof.
  intros Hm Hk s. unfold mbind, M_bind. specialize (Hm s).
  destruct (m s) as [[a|e] s']; simpl in *; [|done]. by rewrite Hk.
Qed.
Lemma keeps_try {A} (m : StepM A) : keeps m → keeps (try m).
Proof. intros Hm s. unfold try. specialize (Hm s). by destruct (m s). Qed.
Lemma keeps_guard c (e : error) : keeps (guard_err c e : StepM unit).
Proof. by destruct c; intros s. Qed.
Lemma keeps_world {A} (m : M W A) : keeps (world m : StepM A).
Proof. intros [w rl]. unfold world, shared. simpl. by destruct (m w). Qed.
Lemma keeps_local : keeps (local : StepM L).
Proof. by intros [w [r l]]. Qed.
Lemma keeps_set_local l : keeps (set_local l : StepM unit).
Proof. by intros [w [r l']]. Qed.
Lemma keeps_addMetric name value : keeps (addMetric name value : StepM unit).
Proof. by intros [w [r l]]. Qed.
Lemma keeps_addTiming name value : keeps (addTiming name value : StepM unit).
Proof. by intros [w [r l]]. Qed.
Lemma keeps_if {A} (b : bool) (m n : StepM A) : keeps m → keeps n → keeps (if b then m else n).
Proof. by destruct b. Qed.
Lemma keeps_option {A B} (x : option B) (m : StepM A) (n : B → StepM A) :
  keeps m → (∀ b, keeps (n b)) → keeps (match x with None => m | Some b => n b end).
Proof. by destruct x. Qed.
Lemma keeps_pair {A B C} (x : B * C) (n : B → C → StepM A) :
  (∀ b c, keeps (n b c)) → keeps (let '(b, c) := x in n b c).
Proof. by destruct x. Qed.
End keeps.

#[export] Hint Resolve keeps_ret keeps_throw keeps_bind keeps_try keeps_guard keeps_world keeps_local
  keeps_set_local keeps_addMetric keeps_addTiming keeps_if keeps_option keeps_pair : steps.

(** * The report of the runner *)

Section report.
Context {W : Type} `{Env W} {L : Type}.

Definition passed_event (e : ScenarioEvent) : Prop := ev_Passed e = true ∧ ev_Error e = "".

(** The events of steps named [names], of which the last may have failed. *)
Definition reported (names : list string) (err : option error) (events : list ScenarioEvent) : Prop :=
  match err with
  | None => ev_Name <$> events = names ∧ Forall passed_event events
  | Some e => ∃ before event after, events = before ++ [event] ∧ Forall passed_event before ∧
      ev_Passed event = false ∧ ev_Error event = Error e ∧ names = (ev_Name <$> events) ++ after
  end.

Lemma reported_cons name names err event events :
  ev_Name event = name → passed_event event → reported names err events →
  reported (name :: names) err (event :: events).
Proof.
  intros <- He. destruct err as [e|]; simpl.
  - intros (before & last & after & -> & Hb & Hp & Hx & ->).
    exists (event :: before), last, after. split_and!; [done|by constructor|done..].
  - intros [<- Hf]. split; [done|by constructor].
Qed.

Lemma run_steps_report (steps : list (Step (W := W) L)) : Forall (λ s, keeps (step_Run s)) steps →
  ∀ w r l, ∃ err w' r' l', run_steps steps (w, (r, l)) = (Ok err, (w', (r', l'))) ∧
    sc_Name r' = sc_Name r ∧
    ∃ events, sc_Events r' = sc_Events r ++ events ∧ reported (step_Name <$> steps) err events.
Proof.
  induction 1 as [|s steps Hs _ IH]; intros w r l.
  { exists None, w, r, l. split; [done|]. split; [done|]. exists []. by rewrite app_nil_r. }
  cbn [run_steps]. unfold mbind at 1, M_bind at 1, shared, now.
  destruct (env_now w) as [t1 w1]. cbn [fst snd].
  unfold mbind at 1, M_bind at 1, try. specialize (Hs (w1, (r, l))).
  destruct (step_Run s (w1, (r, l))) as [result [w2 [r2 l2]]]. cbn [fst snd] in Hs.
  injection Hs as Hn _ _ _ He.
  unfold mbind at 1, M_bind at 1. destruct (env_now w2) as [t3 w3]. cbv zeta.
  destruct result as [[]|e]; unfold mbind, M_bind, on_result, locally; cbn [fst snd].
  - destruct (IH w3 (add_event (MkScenarioEvent (step_Name s) true (time_Sub t3 t1) "") r2) l2)
      as (err & w' & r' & l' & -> & Hn' & events & He' & Hrep).
    exists err, w', r', l'. split; [done|]. split; [by rewrite Hn'|]. cbn [sc_Events add_event] in He'.
    eexists (_ :: events). rewrite He', <-(assoc_L (++)), He. split; [done|].
    by apply reported_cons.
  - do 4 eexists. split; [reflexivity|]. cbn [sc_Name add_event sc_Events]. split; [done|].
    eexists [_]. split; [by rewrite He|]. exists [], (MkScenarioEvent (step_Name s) false (time_Sub t3 t1) (Error e)), (step_Name <$> steps).
    by split_and!.
Qed.

Lemma run_report name (steps : list (Step (W := W) L)) init : Forall (λ s, keeps (step_Run s)) steps →
  ∀ w, ∃ result err w', Run name steps init w = (Ok (result, err), w') ∧
    sc_Name result = name ∧ sc_Passed result = bool_decide (err = None) ∧
    reported (step_Name <$> steps) err (sc_Events result).
Proof.
  intros Hs w. unfold Run. cbv zeta. unfold mbind, M_bind, shared, now, on_result, locally.
  destruct (env_now w) as [t1 w1]. destruct (env_now w1) as [t2 w2].
  destruct (run_steps_report steps Hs w2 (MkScenarioResult name true t1 0 [] ∅ ∅) init)
    as (err & w3 & r3 & l3 & -> & Hn & events & He & Hrep).
  destruct (env_now w3) as [t4 w4]. do 3 eexists. split; [reflexivity|].
  cbn [sc_Name set_outcome sc_Passed sc_Events]. split; [done|].
  split; [by destruct err|]. by rewrite He.
Qed.
End report.

End ReliabilityFacts.

Import Domain Rollout Parallel ParallelFacts System Drive Reliability Process Campaign ReliabilityFacts.

Module ReliabilityDrive.

Lemma server_path_app base rest :
  server_path base (base +:+ String "/"%char rest) = Some (String "/"%char rest).
Proof. unfold server_path. by rewrite ConfigDeploy.strip_prefix_app. Qed.

(** What is asked of the addresses: no trailing slash, and no request for one
    server reads as a request for another. *)
Class WireLaws `{Wire} : Prop := {
  server_URL_plain : ∀ n, TrimRight_slash (server_URL n) = server_URL n;
  server_URL_apart : ∀ n m rest, n ≠ m →
    server_path (server_URL n) (server_URL m +:+ String "/"%char rest) = None }.

Section harness.
Context `{ControlPlane.RequestDecoder ControlPlane.createTenantRequest,
  ControlPlane.RequestDecoder ControlPlane.createDefinitionRequest,
  ControlPlane.RequestDecoder ControlPlane.createVersionRequest,
  ControlPlane.RequestDecoder ControlPlane.setStableVersionRequest,
  ControlPlane.RequestDecoder ControlPlane.registerAgentRequest,
  ControlPlane.RequestDecoder ControlPlane.acknowledgementRequest,
  ControlPlane.RequestDecoder ControlPlane.createRolloutRequest}.
Context `{Codec DataPlane.Snapshot, Codec Agent.RegisterInput, Codec Agent.registerResponse,
  Codec Agent.AckPayload, Wire, !WireLaws}.
Context (first deadline : Time) (budget : nat) (h0 : HostState) (Hh : steady_host first deadline budget h0).
#[local] Existing Instance RegistryStore.memory_store.
#[local] Existing Instance AgentStore.memory_store.
#[local] Existing Instance RolloutMemory.memory_store.
#[local] Existing Instance RolloutService.registry_service.
#[local] Existing Instance Simulator.agent_source.
#[local] Existing Instance DataPlane.registry_source.
#[local] Existing Instance DataPlane.agent_source.
#[local] Existing Instance DataPlane.rollout_source.
#[local] Instance steady sv c e : Steady Process first deadline budget (process_state first h0 sv c e) :=
  process_steady first deadline budget h0 Hh sv c e.
Abbreviation state := (process_state first h0).

(** ** Requests *)

Lemma wp_served {P R} encode (probes : Health.Handler Process) (own : list (Mux.pattern R))
    (serve_own : R → Context → Request → M Process (Response P)) ctx method url path headers body route values
    (Q : res HttpResponse → Process → Prop) p :
  Forall (λ p, head (Mux.pt_segments p) = Some (Mux.Lit "v1")) own →
  Mux.dispatch own method path = Some (route, values) →
  wp (serve_own route ctx (MkRequest values headers body)) (λ r p',
    match r with Ok resp => Q (Ok (answer encode resp)) p' | Err err => Q (Err err) p' end) p →
  wp (served encode (Health.ServeMux probes own serve_own) ctx (MkHttpRequest method url headers body) path) Q p.
Proof.
  intros Hown Hd Hw. unfold served, Health.ServeMux. cbn [hq_Method hq_Headers hq_Body].
  rewrite (Health.dispatch_own own method path _ Hown Hd). cbn [mbind option_bind fst snd Health.serve_mounted].
  wp_step. wp_step. eapply wp_mono; [exact Hw|]. intros [resp|err] p'; [|done]. intros HQ. wp_step. wp_step.
  revert HQ. by destruct resp as [status etag [payload|]].
Qed.

Lemma wp_control h sv n ctx method rest headers body route values (Q : res HttpResponse → Process → Prop) p :
  part p = sv → sv_controlPlane sv = Some (server_URL n) →
  Mux.dispatch ControlPlane.routes method (String "/"%char rest) = Some (route, values) →
  wp (ControlPlane.handle (ControlPlane.MkHandler Process (h_registry h) (Some (h_agents h)) (Some (rollouts sv)))
        route ctx (MkRequest values headers body)) (λ r p',
    match r with Ok resp => Q (Ok (answer encode_control resp)) p' | Err err => Q (Err err) p' end) p →
  wp (network h ctx (MkHttpRequest method (server_URL n +:+ String "/"%char rest) headers body)) Q p.
Proof.
  intros Hp Hs Hd Hw. unfold network. wp_step. unfold wp at 1, gets. cbn [fst snd]. rewrite Hp, Hs.
  cbn [mbind option_bind hq_URL]. rewrite server_path_app.
  eapply (wp_served encode_control); [by repeat constructor|exact Hd|exact Hw].
Qed.

Lemma wp_data h sv n m ctx method rest headers body values (Q : res HttpResponse → Process → Prop) p :
  part p = sv → sv_controlPlane sv = Some (server_URL n) → sv_dataPlane sv = Some (server_URL m) → n ≠ m →
  Mux.dispatch DataPlane.routes method (String "/"%char rest) = Some (DataPlane.GetSnapshot_, values) →
  wp (DataPlane.getSnapshot snapshots (DataPlane.AgentCredentialVerifier AgentRegistry.Svc.Verify) ctx
        (MkRequest values headers body)) (λ r p',
    match r with Ok resp => Q (Ok (answer encode_data resp)) p' | Err err => Q (Err err) p' end) p →
  wp (network h ctx (MkHttpRequest method (server_URL m +:+ String "/"%char rest) headers body)) Q p.
Proof.
  intros Hp Hc Hs Hne Hd Hw. unfold network. wp_step. unfold wp at 1, gets. cbn [fst snd]. rewrite Hp, Hc, Hs.
  cbn [mbind option_bind hq_URL]. rewrite server_URL_apart by done. rewrite server_path_app.
  eapply (wp_served encode_data); [by repeat constructor|exact Hd|exact Hw].
Qed.

Lemma wp_refused h sv n m ctx method rest headers body (Q : res HttpResponse → Process → Prop) p :
  part p = sv → sv_controlPlane sv = Some (server_URL n) → sv_dataPlane sv = None → n ≠ m →
  let url := server_URL m +:+ String "/"%char rest in
  Q (Err (connection_refused url)) p →
  wp (network h ctx (MkHttpRequest method url headers body)) Q p.
Proof.
  intros Hp Hc Hs Hne url HQ. unfold network. wp_step. unfold wp at 1, gets. cbn [fst snd]. rewrite Hp, Hc, Hs.
  cbn [mbind option_bind hq_URL]. unfold url. rewrite server_URL_apart by done. by wp_step.
Qed.

(** ** The servers *)

Lemma drive_update f (Q : res unit → Process → Prop) sv c e reg ag ro t d p :
  state sv c e reg ag ro t d p →
  (∀ p', state (f sv) c e reg ag ro t d p' → Q (Ok tt) p') → wp (update f) Q p.
Proof.
  intros Hp HQ. unfold update, wp, modify. cbn [fst snd]. apply HQ.
  rewrite (get_servers _ _ _ _ _ _ _ _ _ _ _ Hp). by eapply set_servers.
Qed.

Lemma drive_gets_servers (Q : res Servers → Process → Prop) sv c e reg ag ro t d p :
  state sv c e reg ag ro t d p → Q (Ok sv) p → wp (gets part) Q p.
Proof. intros Hp HQ. unfold wp, gets. cbn [fst snd]. by rewrite (get_servers _ _ _ _ _ _ _ _ _ _ _ Hp). Qed.

(** ** An agent *)

(** The two ends of the registration of [id] understand each other. *)
Record enrolls (h : Harness) (id : string) : Prop := {
  en_id : id ≠ "";
  en_service : blank (h_service h) = false;
  en_instance : blank id = false;
  en_environment : Environment_Validate (h_environment h) = Ok tt;
  en_request : ∃ body, json_Marshal (register_input h id) = Ok body ∧
    ControlPlane.json_DecodeStrict body =
    Ok (ControlPlane.MkRegisterAgentRequest bootstrapToken id (h_service h) (h_environment h) "zone-1" id ∅);
  en_response : ∀ r, ControlPlane.ar_ID (ControlPlane.ra_Agent r) = id →
    json_Unmarshal (encode_control (ControlPlane.PRegistered r)) =
    Ok (Agent.MkRegisterResponse id (ControlPlane.ra_InstanceCredential r)) }.

Definition service : AgentRegistry.Service := AgentRegistry.NewService bootstrapToken (60 * Minute).
Definition enrolled_input (h : Harness) (id : string) : AgentRegistry.RegisterInput :=
  AgentRegistry.MkRegisterInput bootstrapToken id (h_service h) (h_environment h) "zone-1" id ∅.

Lemma dispatch_register :
  Mux.dispatch ControlPlane.routes "POST" "/v1/agents/register" = Some (ControlPlane.RegisterAgent_, ∅).
Proof. reflexivity. Qed.

Lemma drive_RegisterAgent h id n sv c e reg ag ro t d p :
  state sv c e reg ag ro t d p →
  h_agents h = service → enrolls h id → sv_controlPlane sv = Some (server_URL n) →
  wp (RegisterAgent h Background id) (λ r p', ∃ at_ b,
    let x := Sha256.hex_encode b in
    r = Ok (MkAgentIdentity id ("cred_" +:+ x)) ∧ t ≤ at_ ≤ deadline ∧ ((length d < budget)%nat → x ∉ d) ∧
    state sv c e reg (enroll (agent_of (enrolled_input h id) at_)
                       (credential_of service (enrolled_input h id) x at_) ag) ro at_ (x :: d) p') p.
Proof.
  intros Hp Hag [Hid Hs Hi He (body & Hm & Hdec) Hresp] Hsv. unfold RegisterAgent, ControlPlaneURL.
  wp_step. wp_step. eapply drive_gets_servers; [exact Hp|]. rewrite Hsv. wp_step.
  wp_step. unfold Agent.Register. wp_step. rewrite Hm. wp_step. wp_step. rewrite server_URL_plain. cbv zeta.
  eapply wp_control; [eapply get_servers; exact Hp|exact Hsv|apply dispatch_register|].
  unfold ControlPlane.handle. unfold ControlPlane.registerAgent. cbn [ControlPlane.h_agents].
  unfold ControlPlane.decodeRequest. cbn [rq_body]. rewrite Hdec. unfold ControlPlane.reply. rewrite Hag.
  cbn [ControlPlane.rq_BootstrapToken ControlPlane.rq_ID ControlPlane.rq_Service ControlPlane.rq_Environment
       ControlPlane.rq_Zone ControlPlane.rq_Instance ControlPlane.rq_Labels].
  fold (enrolled_input h id). wp_step. wp_step.
  wp_call (drive_Register (St := state sv c e)); [by split_and!|exact Hp|].
  intros r p1 (at_ & b & -> & Ht & Hfresh & Hp1). cbn beta iota. wp_step.
  unfold ControlPlane.writeJSON, answer. cbn [rs_status rs_payload rs_etag hp_StatusCode hp_Body].
  rewrite Z.eqb_refl. cbn [negb]. wp_step. wp_step. cbn [fmap option_fmap option_map default Datatypes.id]. wp_step. wp_step.
  match goal with |- context [json_Unmarshal (encode_control (ControlPlane.PRegistered ?r))] => rewrite (Hresp r) by done end.
  wp_step. wp_step. exists at_, b. split_and!; [done|lia..|done|done].
Qed.

(** The credential in a header. *)
Lemma bearer_credential x : bearer_token ("Bearer " +:+ "cred_" +:+ x) = "cred_" +:+ x.
Proof. reflexivity. Qed.
Lemma credential_not_blank x : blank ("cred_" +:+ x) = false.
Proof. reflexivity. Qed.

Lemma drive_HarnessHeartbeat h id x cr a n sv c e reg ag ro t d p :
  state sv c e reg ag ro t d p → sv_controlPlane sv = Some (server_URL n) →
  Mux.dispatch ControlPlane.routes "POST" ("/v1/agents/" +:+ id +:+ "/heartbeat") =
    Some (ControlPlane.AgentHeartbeat_, <["agentID" := id]> ∅) →
  AgentStore.ms_credentials ag !! ("cred_" +:+ x) = Some cr → c_AgentID cr = id →
  deadline < c_ExpiresAt cr → AgentStore.ms_agents ag !! id = Some a →
  wp (Heartbeat h Background (MkAgentIdentity id ("cred_" +:+ x))) (λ r p', ∃ at_,
    r = Ok tt ∧ t ≤ at_ ≤ deadline ∧ state sv c e reg (seen id a at_ ag) ro at_ d p') p.
Proof.
  intros Hp Hsv Hd Hcr Hid Hexp Ha. unfold Heartbeat, ControlPlaneURL.
  wp_step. wp_step. eapply drive_gets_servers; [exact Hp|]. rewrite Hsv. wp_step. wp_step.
  eapply wp_control; [eapply get_servers; exact Hp|exact Hsv|exact Hd|].
  unfold ControlPlane.handle, ControlPlane.agentHeartbeat. cbn [ControlPlane.h_agents].
  unfold ControlPlane.reply. wp_step. wp_step.
  change (ControlPlane.bearerToken _) with (bearer_token ("Bearer " +:+ "cred_" +:+ x)).
  change (PathValue _ _) with id. rewrite bearer_credential.
  wp_call (drive_Heartbeat (St := state sv c e));
    [exact Hcr|exact Hid|apply credential_not_blank|exact Hexp|exact Ha|exact Hp|].
  intros r p1 (at_ & -> & Ht & Hp1). cbn beta iota. wp_step.
  unfold ControlPlane.writeJSON, answer. cbn [rs_status hp_StatusCode].
  rewrite Z.eqb_refl. cbn [negb]. wp_step. exists at_. split_and!; [done|lia..|done].
Qed.

(** ** The runner *)

Lemma drive_step {L} (s : Step L) steps (Q : res (option error) → Process * (ScenarioResult * L) → Prop)
    sv c e reg ag ro t d p r l :
  state sv c e reg ag ro t d p →
  (∀ t1 p1, t ≤ t1 ≤ deadline → state sv c e reg ag ro t1 d p1 →
    wp (step_Run s) (λ res q, res = Ok tt ∧ ∃ sv' c' e' reg' ag' ro' t' d',
      state sv' c' e' reg' ag' ro' t' d' q.1 ∧
      ∀ t2 p2 event, t' ≤ t2 ≤ deadline → state sv' c' e' reg' ag' ro' t2 d' p2 →
        wp (run_steps steps) Q (p2, (add_event event q.2.1, q.2.2))) (p1, (r, l))) →
  wp (run_steps (s :: steps)) Q (p, (r, l)).
Proof.
  intros Hp Hs. cbn [run_steps]. wp_step. apply wp_shared. eapply drive_now; [exact Hp|].
  intros t1 p1 Ht1 Hp1. cbn beta iota. wp_step. wp_step. wp_call Hs; [done|done|].
  intros res [p2 [r2 l2]] (-> & sv' & c' & e' & reg' & ag' & ro' & t' & d' & Hp2 & Hk). cbn [fst snd] in *.
  wp_step. apply wp_shared. eapply drive_now; [exact Hp2|]. intros t3 p3 Ht3 Hp3. cbv zeta. cbn beta iota.
  wp_step. apply wp_locally. by eapply Hk.
Qed.

Lemma drive_Run {L} name (steps : list (Step L)) init
    (Q : res (ScenarioResult * option error) → Process → Prop) sv c e reg ag ro t d p :
  state sv c e reg ag ro t d p →
  (∀ t1 p1 r, t ≤ t1 ≤ deadline → state sv c e reg ag ro t1 d p1 → sc_Metrics r = ∅ →
    wp (run_steps steps) (λ res q, res = Ok None ∧ ∃ sv' c' e' reg' ag' ro' t' d',
      state sv' c' e' reg' ag' ro' t' d' q.1 ∧
      ∀ t2 p2 duration, t' ≤ t2 ≤ deadline → state sv' c' e' reg' ag' ro' t2 d' p2 →
        Q (Ok (set_outcome true duration q.2.1, None)) p2) (p1, (r, init))) →
  wp (Run name steps init) Q p.
Proof.
  intros Hp Hs. unfold Run. cbv zeta.
  match goal with |- context [mbind ?k ?m] =>
    enough (wp (mbind k m) (λ r q, match r with Ok err => Q (Ok (q.2.1, err)) q.1 | Err err => Q (Err err) q.1 end)
              (p, (zero_ScenarioResult, init))) as Hm end.
  { revert Hm. unfold wp at 1. intros Hm. unfold wp.
    match type of Hm with context [(?m ?s).1] => destruct (m s) as [[err|err] [p' [r l]]] end; exact Hm. }
  wp_step. apply wp_shared. eapply drive_now; [exact Hp|]. intros t1 p1 Ht1 Hp1. cbn beta iota.
  wp_step. apply wp_locally. wp_step. apply wp_shared. eapply drive_now; [exact Hp1|].
  intros t2 p2 Ht2 Hp2. cbn beta iota. wp_step. wp_call Hs; [|exact Hp2|done|]; [lia|].
  intros res [p3 [r3 l3]] (-> & sv' & c' & e' & reg' & ag' & ro' & t' & d' & Hp3 & Hk). cbn [fst snd] in *.
  wp_step. apply wp_shared. eapply drive_now; [exact Hp3|]. intros t4 p4 Ht4 Hp4. cbn beta iota.
  wp_step. apply wp_locally. wp_step. cbn [fst snd]. by eapply Hk.
Qed.

(** ** The harness *)

Definition default_to (zero s : string) : string := if empty_str s then zero else s.

Definition harness_of (validator : ConfigRegistry.SchemaValidator) (options : Options) : Harness :=
  MkHarness validator service (default_to "payment-service" (o_Service options))
    (default_to EnvironmentProduction (o_Environment options)) (default_to "." (o_TempDir options))
    (if o_Concurrency options =? 0 then 16 else o_Concurrency options).

(** The registry a harness starts with. *)
Definition seed_text : string :=
  "Synthetic payment authorization failure rate used by reliability scenarios.".
Definition seeded (options : Options) : Reg :=
  registry seed_text "reliability"
    (default_to EnvironmentProduction (o_Environment options)) v1_id Simulator.seeded_at.

Lemma drive_set_agents x (Q : res unit → Process → Prop) sv c e reg ag ro t d p :
  state sv c e reg ag ro t d p → (∀ p', state sv c e reg x ro t d p' → Q (Ok tt) p') →
  wp (modify (set_part x)) Q p.
Proof. intros Hp HQ. apply HQ. exact (st_set_ag (Steady := steady sv c e) x _ _ _ _ _ _ Hp). Qed.
Lemma drive_set_rollouts x (Q : res unit → Process → Prop) sv c e reg ag ro t d p :
  state sv c e reg ag ro t d p → (∀ p', state sv c e reg ag x t d p' → Q (Ok tt) p') →
  wp (modify (set_part x)) Q p.
Proof. intros Hp HQ. apply HQ. exact (st_set_ro (Steady := steady sv c e) x _ _ _ _ _ _ Hp). Qed.

Lemma drive_with_harness {L} validator options name (steps : Harness → list (Step L)) init
    (Q : res (ScenarioResult * option error) → Process → Prop) sv c e reg ag ro t d p :
  state sv c e reg ag ro t d p →
  (∀ p1, state (MkServers None None (sv_started sv) None) c e (seeded options) AgentStore.NewMemoryStore
           RolloutStore.NewMemoryStore t d p1 →
    wp (Run name (steps (harness_of validator options)) init) (λ r p2,
      match r with
      | Ok o => ∃ sv' c' e' reg' ag' ro' t' d', state sv' c' e' reg' ag' ro' t' d' p2 ∧
          ∀ p3, state (set_dataPlane None (set_controlPlane None sv')) c' e' reg' ag' ro' t' d' p3 →
            Q (Ok o) p3
      | Err err => Q (Err err) p2
      end) p1) →
  wp (with_harness validator Background options name steps init) Q p.
Proof.
  intros Hp Hs. unfold with_harness. wp_step. wp_step. unfold NewHarness. cbv zeta.
  wp_step. wp_call (drive_seed (St := state sv c e)); [exact Hp|]. intros r p1 [-> Hp1]. cbn beta iota.
  wp_step. eapply drive_set_agents; [exact Hp1|]. intros p2 Hp2. cbn beta iota.
  wp_step. eapply drive_set_rollouts; [exact Hp2|]. intros p3 Hp3. cbn beta iota.
  wp_step. eapply drive_update; [exact Hp3|]. intros p4 Hp4. cbn beta iota. wp_step.
  wp_step. wp_call Hs; [exact Hp4|]. intros [o|err] p5; [|done].
  intros (sv' & c' & e' & reg' & ag' & ro' & t' & d' & Hp5 & HQ). cbn beta iota. wp_step.
  eapply drive_update; [exact Hp5|]. intros p6 Hp6. cbn beta iota. wp_step. by apply HQ.
Qed.

(** A scenario, from its start to its report. *)
Lemma drive_scenario {L} validator options name (steps : Harness → list (Step L)) init
    (Q : res (ScenarioResult * option error) → Process → Prop) sv c e reg ag ro t d p :
  state sv c e reg ag ro t d p →
  (∀ t1 p1 r, t ≤ t1 ≤ deadline →
     state (MkServers None None (sv_started sv) None) c e (seeded options) AgentStore.NewMemoryStore
       RolloutStore.NewMemoryStore t1 d p1 → sc_Metrics r = ∅ →
     wp (run_steps (steps (harness_of validator options))) (λ res q, res = Ok None ∧ ∃ sv' c' e' reg' ag' ro' t' d',
       state sv' c' e' reg' ag' ro' t' d' q.1 ∧
       ∀ t2 p2 duration, t' ≤ t2 ≤ deadline →
         state (set_dataPlane None (set_controlPlane None sv')) c' e' reg' ag' ro' t2 d' p2 →
         Q (Ok (set_outcome true duration q.2.1, None)) p2) (p1, (r, init))) →
  wp (with_harness validator Background options name steps init) Q p.
Proof.
  intros Hp Hs. eapply drive_with_harness; [exact Hp|]. intros p1 Hp1.
  eapply drive_Run; [exact Hp1|]. intros t2 p2 r2 Ht2 Hp2 Hr2. eapply wp_mono; [by apply (Hs t2)|].
  intros res q (-> & sv' & c' & e' & reg' & ag' & ro' & t' & d' & Hq & HQ). split; [done|].
  do 8 eexists. split; [exact Hq|]. intros t3 p3 duration Ht3 Hp3. cbn beta iota.
  do 8 eexists. split; [exact Hp3|]. intros p4 Hp4. by eapply HQ.
Qed.

(** ** The syncer *)

Lemma drive_zoom_cache {A} (m : M Agent.SnapshotCache A) (Q : res A → Process → Prop) sv c e reg ag ro t d p :
  state sv c e reg ag ro t d p →
  wp m (λ r c', ∀ p', state sv c' e reg ag ro t d p' → Q r p') c → wp (zoom m) Q p.
Proof.
  intros Hp Hm. apply wp_zoom. rewrite (get_cache _ _ _ _ _ _ _ _ _ _ _ Hp).
  eapply wp_mono; [exact Hm|]. intros r c' HQ. apply HQ. by eapply set_cache.
Qed.

Lemma drive_cache {A} (method : option error → M Agent.SnapshotCache A) (Q : res A → Process → Prop)
    sv c e reg ag ro t d p :
  state sv c e reg ag ro t d p →
  wp (method None) (λ r c', ∀ p', state sv c' e reg ag ro t d p' → Q r p') c →
  wp (store_call Background method) Q p.
Proof.
  intros Hp Hm. unfold store_call. wp_step. unfold wp at 1, ctx_Err.
  destruct (st_ctx (Steady := steady sv c e) _ _ _ _ _ _ Hp) as [Hc Hp'].
  destruct (env_ctx Background p) as [x p']. cbn [fst snd] in *. subst x. cbn [fmap option_fmap option_map].
  by eapply drive_zoom_cache.
Qed.

(** A snapshot an agent is sent can be read. *)
Record readable (s : DataPlane.Snapshot) : Prop := {
  rb_marshal : is_ok (json_Marshal s) = true;
  rb_unmarshal : json_Unmarshal (encode_data (DataPlane.PSnapshot s)) = Ok s }.

(** An agent asks for its snapshot. *)
Lemma drive_Fetch creator env updated h id x cr a n m act v assignment revision stable sv c e ag ro t d p :
  state sv c e (registry seed_text creator env stable updated) ag ro t d p →
  (∀ at_, readable (offered_snapshot v assignment revision at_)) →
  sv_controlPlane sv = Some (server_URL n) → sv_dataPlane sv = Some (server_URL m) → n ≠ m →
  Mux.dispatch DataPlane.routes "GET" ("/v1/agents/" +:+ id +:+ "/snapshot") = Some (DataPlane.GetSnapshot_, <["agentID" := id]> ∅) →
  AgentStore.ms_credentials ag !! ("cred_" +:+ x) = Some cr → c_AgentID cr = id → deadline < c_ExpiresAt cr →
  AgentStore.ms_agents ag !! id = Some a → a_ID a = id → a_Environment a = env → stable ≠ "" →
  serving env ro act → offered stable act id = (v_ID v, assignment, revision) →
  DataPlane.findVersionByID [v1 creator; v2 creator] (v_ID v) = Some v →
  wp (Agent.Fetch (H := network h) (Agent.MkSnapshotClient (server_URL m) id ("cred_" +:+ x)) Background "") (λ r p',
    ∃ at_ etag, r = Ok (Agent.MkFetchResult (offered_snapshot v assignment revision at_) etag true) ∧ t ≤ at_ ≤ deadline ∧
      state sv c e (registry seed_text creator env stable updated) ag ro at_ d p') p.
Proof.
  intros Hp Hread Hsv Hdv Hne Hd Hcr Hid Hexp Ha Haid Hae Hst Hro Hoff Hv.
  unfold Agent.Fetch. wp_step. unfold Agent.fetch_request. cbn [Agent.sc_BaseURL Agent.sc_AgentID Agent.sc_Token empty_str negb].
  rewrite server_URL_plain. cbv zeta.
  eapply wp_data; [eapply get_servers; exact Hp|exact Hsv|exact Hdv|done|exact Hd|].
  unfold DataPlane.getSnapshot. cbv zeta.
  change (DataPlane.bearerToken _) with (bearer_token ("Bearer " +:+ "cred_" +:+ x)).
  change (PathValue _ _) with id. rewrite bearer_credential. wp_step. wp_step.
  unfold DataPlane.AgentCredentialVerifier. wp_step. wp_step.
  wp_call (drive_Verify (St := state sv c e)); [exact Hcr|apply credential_not_blank|exact Hexp|exact Hp|].
  intros r p1 (-> & t1 & Ht1 & Hp1). cbn beta iota. wp_step. rewrite Hid.
  rewrite bool_decide_true by done. cbn [negb]. wp_step. wp_step.
  wp_call (drive_GetSnapshot (St := state sv c e) seed_text creator env stable updated act id a v assignment revision);
    [exact Ha|exact Haid|exact Hae|exact Hst|exact Hro|exact Hoff|exact Hv|exact Hp1|].
  intros r p2 (at_ & -> & Ht2 & Hp2). cbn beta iota.
  destruct (Hread at_) as [Hmar Hun]. unfold DataPlane.ETag.
  destruct (json_Marshal (offered_snapshot v assignment revision at_)) as [text|]; [|done].
  cbn [mbind result_bind mret result_ret]. rewrite bool_decide_false by done. wp_step. unfold answer.
  cbn [rs_status rs_etag rs_payload fmap option_fmap option_map default Datatypes.id hp_StatusCode hp_Body hp_ETag].
  rewrite Z.eqb_refl. change (StatusOK =? StatusNotModified) with false. cbn [negb]. wp_step. wp_step.
  wp_step. wp_step. rewrite Hun. wp_step. eexists at_, _. split_and!; [done|lia..|exact Hp2].
Qed.

(** The snapshot of an agent while no rollout is active. *)
Definition stable_snapshot : Time → DataPlane.Snapshot :=
  offered_snapshot (v1 "reliability") (DataPlane.MkAssignment "" "") 1.

(** The two ends of a poll understand each other. *)
Record serves_snapshots : Prop := {
  sv_readable : ∀ at_, readable (stable_snapshot at_);
  sv_indent : ∀ at_, is_ok (json_MarshalIndent (stable_snapshot at_)) = true }.

Lemma stable_snapshot_valid at_ : Agent.ValidateSnapshot (stable_snapshot at_) = Ok tt.
Proof. vm_compute. reflexivity. Qed.

Definition snapshot_syncer (n : nat) (id x path : string) : Agent.Syncer Process :=
  Agent.MkSyncer (Agent.MkSnapshotClient (server_URL n) id ("cred_" +:+ x)) path None 0.

Definition cache_path (h : Harness) (id : string) : string :=
  filepath_Join (h_tempDir h) (id +:+ "-snapshot.json").

Lemma drive_NewSyncer h id x m sv c e reg ag ro t d p :
  state sv c e reg ag ro t d p → sv_dataPlane sv = Some (server_URL m) →
  wp (NewSyncer h (MkAgentIdentity id ("cred_" +:+ x))) (λ r p',
    r = Ok (snapshot_syncer m id x (cache_path h id)) ∧
    state sv (Agent.MkSnapshotCache (Agent.c_fs c) None) (Agent.MkEtag "") reg ag ro t d p') p.
Proof.
  intros Hp Hsv. unfold NewSyncer, DataPlaneURL. wp_step. wp_step.
  eapply drive_gets_servers; [exact Hp|]. rewrite Hsv. wp_step.
  wp_step. unfold wp at 1, modify. cbn [fst snd]. rewrite (get_cache _ _ _ _ _ _ _ _ _ _ _ Hp).
  wp_step. unfold wp at 1, modify. cbn [fst snd]. wp_step. split; [done|].
  by eapply set_etag, set_cache.
Qed.

(** A poll that finds the data plane fills the cache. *)
Lemma drive_poll options h id x cr a n m path sv c e ag ro t d p :
  state sv c e (seeded options) ag ro t d p →
  serves_snapshots → sv_controlPlane sv = Some (server_URL n) → sv_dataPlane sv = Some (server_URL m) → n ≠ m →
  Mux.dispatch DataPlane.routes "GET" ("/v1/agents/" +:+ id +:+ "/snapshot") = Some (DataPlane.GetSnapshot_, <["agentID" := id]> ∅) →
  AgentStore.ms_credentials ag !! ("cred_" +:+ x) = Some cr → c_AgentID cr = id → deadline < c_ExpiresAt cr →
  AgentStore.ms_agents ag !! id = Some a → a_ID a = id →
  a_Environment a = default_to EnvironmentProduction (o_Environment options) →
  serving (default_to EnvironmentProduction (o_Environment options)) ro None →
  Agent.etag e = "" →
  FileSystem.no_faults (Agent.c_fs c) →
  wp (Agent.SyncOnce (H0 := network h) json_MarshalIndent (snapshot_syncer m id x path) Background) (λ r p',
    r = Ok tt ∧ ∃ at_ c' e' t', t ≤ at_ ≤ t' ∧ t' ≤ deadline ∧ Agent.c_snapshot c' = Some (stable_snapshot at_) ∧
      AgentFacts.files c' !! path = match json_MarshalIndent (stable_snapshot at_) with Ok s => Some s | _ => None end ∧
      FileSystem.no_faults (Agent.c_fs c') ∧ state sv c' e' (seeded options) ag ro t' d p') p.
Proof.
  intros Hp [Hread Hind] Hsv Hdv Hne Hd Hcr Hid Hexp Ha Haid Hae Hro He Hfs. unfold Agent.SyncOnce.
  wp_step. unfold wp at 1, gets. cbn [fst snd]. rewrite (get_etag _ _ _ _ _ _ _ _ _ _ _ Hp), He.
  wp_step. cbn [snapshot_syncer Agent.sy_Client].
  wp_call (drive_Fetch "reliability" (default_to EnvironmentProduction (o_Environment options)) Simulator.seeded_at h id x cr a
    n m None (v1 "reliability") (DataPlane.MkAssignment "" "") 1 v1_id);
    [exact Hp|exact Hread|exact Hsv|exact Hdv|exact Hne|exact Hd|exact Hcr|exact Hid|exact Hexp|exact Ha|exact Haid|
     exact Hae|done|exact Hro|reflexivity|reflexivity|].
  intros r p2 (at_ & etag & -> & Ht2 & Hp2). cbn beta iota. fold (stable_snapshot at_). specialize (Hind at_).
  cbn [Agent.fr_Changed Agent.fr_Snapshot negb Agent.fr_ETag].
  wp_step. eapply drive_cache; [exact Hp2|].
  destruct (json_MarshalIndent (stable_snapshot at_)) as [data|] eqn:Hdata; [|done].
  wp_call (AgentFacts.Save_spec json_MarshalIndent path). intros r c' (_ & Hok & Hsaved) p3 Hp3.
  destruct (Hok eq_refl (stable_snapshot_valid at_) Hfs data Hdata) as [-> Hfs'].
  destruct Hsaved as (_ & _ & Hfile & Hcache). rewrite Hdata in Hfile. cbn [default Datatypes.id] in Hfile.
  wp_step. unfold wp at 1, modify. cbn [fst snd]. eapply set_etag in Hp3.
  unfold Agent.acknowledge_items. cbn [snapshot_syncer Agent.sy_Acknowledger]. wp_step.
  split; [done|]. eexists at_, c', _, at_. split_and!; [lia..|done|by rewrite Hdata|done|exact Hp3].
Qed.

(** A poll that finds no data plane changes nothing. *)
Lemma drive_missed_poll h id x n m path sv c e reg ag ro t d p :
  state sv c e reg ag ro t d p → sv_controlPlane sv = Some (server_URL n) → sv_dataPlane sv = None → n ≠ m →
  wp (Agent.SyncOnce (H0 := network h) json_MarshalIndent (snapshot_syncer m id x path) Background) (λ r p',
    is_ok r = false ∧ state sv c e reg ag ro t d p') p.
Proof.
  intros Hp Hsv Hdv Hne. unfold Agent.SyncOnce. wp_step. unfold wp at 1, gets. cbn [fst snd].
  wp_step. unfold Agent.Fetch. wp_step. unfold Agent.fetch_request. cbn [snapshot_syncer Agent.sy_Client
    Agent.sc_BaseURL Agent.sc_AgentID Agent.sc_Token]. rewrite server_URL_plain. cbv zeta.
  by eapply wp_refused; [eapply get_servers; exact Hp|exact Hsv|exact Hdv|done|].
Qed.

End harness.
End ReliabilityDrive.
