(* ===== verification/SimulatorDrive.v ===== *)
(** The simulator on a host that behaves: its registration, its rollout and the
    acknowledgements of every stage, whatever the schedulers of its pools. *)

From Stdlib Require Import ZArith Lia Ascii SpecFloat.
From S2P Require Import Prelude GoLib Sha256 Host Format Parallel ParallelProps Domain Guardrail Registry RegistryStore AgentRegistry AgentStore Rollout RolloutFacts RolloutStore RolloutService RolloutMemory DataPlane Simulator Drive CampaignDrive.
Import Domain Rollout Format Parallel ParallelFacts Simulator System Drive Campaign CampaignDrive.
Open Scope string_scope.
Open Scope list_scope.
Open Scope Z_scope.

Module SimulatorDrive.

Definition sim_id : Z → string := numbered "agent-".

Definition seed_text : string := "Synthetic payment authorization failure rate used by the simulator.".

Definition plan : list Stage := [MkStage "stage-5" 5 0; MkStage "stage-25" 25 0; MkStage "stage-100" 100 0].
Definition stage_at (k : nat) : Stage := nth k plan (MkStage "stage-100" 100 0).

(** The agents a stage takes in, by number. *)
Definition in_stage (k : nat) (i : Z) : bool := takes cfg_id v2_id (s_Percentage (stage_at k)) (sim_id i).
Definition members (n : Z) (k : nat) : list Z := filter (λ i, in_stage k i = true) (seqZ 0 n).

Section simulation.
Context {W : Type} {first deadline : Time} {budget : nat}
  {St : Reg → Ag → Ro → Time → list string → W → Prop} `{Steady W first deadline budget St}.
Context (options : Options) (Hfew : few (o_AgentCount options))
  (Hbudget : (Z.to_nat (o_AgentCount options) <= budget)%nat)
  (Hservice : blank (o_Service options) = false)
  (Henv : Environment_Validate (o_Environment options) = Ok tt)
  (Hshort : deadline < first + 5 * Minute).
#[local] Existing Instance RegistryStore.memory_store.
#[local] Existing Instance AgentStore.memory_store.
#[local] Existing Instance RolloutMemory.memory_store.
#[local] Existing Instance RolloutService.registry_service.
#[local] Existing Instance Simulator.agent_source.
#[local] Existing Instance DataPlane.registry_source.
#[local] Existing Instance DataPlane.agent_source.
#[local] Existing Instance DataPlane.rollout_source.
Abbreviation n := (o_AgentCount options).
Definition service : AgentRegistry.Service := AgentRegistry.NewService "sim-bootstrap" (60 * Minute).

Definition squad : Squad virtualAgent :=
  MkSquad n sim_id service (o_Service options) (o_Environment options) (register_input options) MkVirtualAgent.

Lemma simulated_squad : squad_ok squad.
Proof. split; try done. intros i j. by apply (numbered_inj _ n). Qed.

Abbreviation registered := (registered (first := first) squad).
Abbreviation fleet := (fleet (first := first) squad).
Abbreviation cohort_of id k acked ts :=
  (cohort sim_id (members n k) id (s_ID (stage_at k)) v2_id (Z.of_nat k + 1) acked ts).

(** ** Registration *)

Definition recorded (seen : list Z) (ag : Ag) (l : Registered) (d : list string) : Prop :=
  registered seen ag (rg_agents l) d ∧ length (rg_latencies l) = Z.to_nat n.

Lemma drive_register_agent i reg ag ro t d w l (seen : list Z) :
  recorded seen ag l d → NoDup (seen ++ [i]) → 0 ≤ i < n → St reg ag ro t d w →
  wp (register_agent service Background options i) (λ r q, r = Ok tt ∧ ∃ ag' t' d',
    recorded (seen ++ [i]) ag' q.2 d' ∧ t ≤ t' ≤ deadline ∧ St reg ag' ro t' d' q.1) (w, l).
Proof.
  intros [Hreg Hlat] Hnd Hi Hw. unfold register_agent.
  wp_step. apply wp_shared. eapply drive_now; [exact Hw|]. intros t1 w1 Ht1 Hw1. cbn beta iota.
  wp_step. wp_step. apply wp_shared. wp_call drive_Register; [|exact Hw1|].
  { by split_and!. }
  intros r w2 (at_ & b & -> & Ht2 & Hb & Hw2). cbn beta iota.
  wp_step. apply wp_shared. eapply drive_now; [exact Hw2|]. intros t3 w3 Ht3 Hw3. cbn beta iota.
  wp_step. apply wp_locally. apply wp_locally. cbn [AgentRegistry.rr_Agent AgentRegistry.rr_Credential fst snd].
  pose proof (st_first _ _ _ _ _ _ Hw).
  split; [done|]. do 3 eexists. split; [|split; [|exact Hw3]]; [|lia].
  split; [|cbn [rg_latencies set_agent set_latency]; by rewrite length_insert].
  apply (registered_next squad simulated_squad _ _ _ _ _ _ at_ Hreg); [done|done| |lia].
  apply Hb. by eapply (registered_draws squad (budget := budget)).
Qed.

Lemma drive_registerAgents schedule reg ro t w :
  t ≤ deadline → St reg AgentStore.NewMemoryStore ro t [] w →
  wp (registerAgents schedule service Background options) (λ r w', ∃ l ag order t' d', r = Ok l ∧
    recorded order ag l d' ∧ order ≡ₚ seqZ 0 n ∧ t ≤ t' ≤ deadline ∧ St reg ag ro t' d' w') w.
Proof.
  intros Ht Hw. unfold registerAgents, make. unfold few in Hfew.
  rewrite (proj2 (Z.ltb_ge _ _)) by lia. wp_step. wp_step. wp_step. wp_step.
  apply wp_with_locals.
  eapply (wp_parallel _ _ (λ seen q, ∃ ag t' d', recorded seen ag q.2 d' ∧ t ≤ t' ≤ deadline ∧ St reg ag ro t' d' q.1)).
  - do 3 eexists. split; [|split; [|exact Hw]]; [|done].
    split; [apply registered_start|]; cbn [rg_agents rg_latencies snd]; by rewrite repeat_length.
  - intros seen i [w1 l] Hnd Hi (ag & t1 & d1 & Hreg & Ht1 & Hw1). cbn [fst snd] in *.
    wp_call drive_register_agent; [done|done|done|exact Hw1|].
    intros r q (-> & ag' & t2 & d2 & Hreg' & Ht2 & Hq). split; [done|].
    exists ag', t2, d2. split_and!; [done|lia..|done].
  - intros order [w1 l] Ho (ag & t1 & d1 & Hreg & Ht1 & Hw1). cbn [fst snd] in *.
    exists l, ag, order, t1, d1. split_and!; [done..|lia|lia|done].
Qed.

(** ** The rollout *)

Definition in_rollout (id : string) (state : State) (k : nat) (created started updated : Time) : Rollout :=
  campaign_rollout squad [] (5 * Minute) (15 * Minute) (2 * Minute) id state (s_ID (stage_at k)) (Z.of_nat k) ∅ started
    RollbackStatusNone created updated.
Abbreviation target_key k id := (RolloutStore.targetKey id (s_ID (stage_at k))).
Abbreviation ro_store := (ro_store (o_Environment options) plan).

Lemma stage_percentage k : (k < 3)%nat → plan !! k = Some (stage_at k) ∧ s_ID (stage_at k) ≠ "" ∧
  s_MinimumDuration (stage_at k) = 0.
Proof. intros Hk. by destruct k as [|[|[|]]]; [..|lia]. Qed.

(** At time [t] the rollout is at stage [k], some members acknowledged; it is
    finished. *)
Definition running (id : string) (k : nat) (acked : list Z) (t : Time) (ro : Ro) : Prop :=
  ∃ created started updated ts tg,
    ro = ro_store (in_rollout id StateDeploying k created started updated) tg (Z.of_nat k + 2) ∧
    first ≤ created ∧ first ≤ started ≤ t ∧ targets_at (target_key k id) tg = ts ∧ cohort_of id k acked ts ∧
    ∀ j, (k < j < 3)%nat → targets_at (target_key j id) tg = [].
Definition finished (id : string) (ro : Ro) : Prop :=
  ∃ created started updated tg rev,
    ro = ro_store (in_rollout id StateCompleted 2 created started updated) tg rev.

Lemma target_key_inj id i j : (i < 3)%nat → (j < 3)%nat → target_key i id = target_key j id → i = j.
Proof.
  intros Hi Hj Heq. unfold RolloutStore.targetKey, nul_key in Heq.
  apply (inj (String.append id)) in Heq. destruct i as [|[|[|]]], j as [|[|[|]]]; try lia; discriminate Heq.
Qed.

Lemma rollout_valid : RolloutService.validate_create (rollout_input options) plan = Ok tt.
Proof. unfold RolloutService.validate_create. cbn [rollout_input RolloutService.ci_Environment]. by rewrite Henv. Qed.

Abbreviation reg := (registry seed_text "simulator" (o_Environment options)).

Lemma running_later id k acked t t' ro : t ≤ t' → running id k acked t ro → running id k acked t' ro.
Proof.
  intros Ht (created & started & updated & ts & tg & Hro & Hc & Hs & Hrest). exists created, started, updated, ts, tg.
  split_and!; [done|done|lia|lia|apply Hrest..].
Qed.

Lemma drive_simulated_rollout agents updated ag t d w :
  fleet ag agents →
  St (reg v1_id updated) ag RolloutStore.NewMemoryStore t d w →
  wp (RolloutService.CreateRollout (RolloutService.NewService W) Background (rollout_input options)) (λ r w',
    ∃ created ts ro t' d', r = Ok (created, ts) ∧ running (r_ID created) 0 [] t' ro ∧ r_ID created ≠ "" ∧
      t ≤ t' ≤ deadline ∧ St (reg v1_id updated) ag ro t' d' w') w.
Proof.
  intros Hf Hw.
  wp_call (CampaignDrive.drive_CreateRollout squad simulated_squad seed_text "simulator" [] (5 * Minute) (15 * Minute)
    (2 * Minute) plan (RolloutService.NewService W) (rollout_input options) (stage_at 0) agents updated);
    [done|apply rollout_valid|done..|exact Hf|exact Hw|].
  intros r w' (b & created & ts & tg & t' & d' & -> & Hc & [Hts Hother] & Hcr & Ht & Hw').
  do 5 eexists. split; [done|]. split; [|split; [done|split; [exact Ht|exact Hw']]].
  exists created, created, created, ts, tg. split_and!; [done|lia|lia|lia|done|done|].
  intros j Hj. rewrite Hother; [done|]. intros Heq%target_key_inj; lia.
Qed.

Lemma drive_GetRollout_running id k acked at_ g ag ro t d w : running id k acked at_ ro → St g ag ro t d w →
  wp (RolloutService.GetRollout Background id) (λ r w', St g ag ro t d w' ∧ ∃ created started updated ts cov,
    r = Ok (in_rollout id StateDeploying k created started updated, ts, cov) ∧
    length ts = length (members n k) ∧ cov = AcknowledgementCoverage ts) w.
Proof.
  intros (created & started & updated & ts & tg & -> & _ & _ & <- & Hc & _) Hw.
  wp_call (drive_GetRollout squad plan (in_rollout id StateDeploying k created started updated)); [exact Hw|].
  intros r w' [-> Hw']. split; [done|]. do 5 eexists. split_and!; [done|by eapply cohort_length|done].
Qed.

Lemma drive_GetRollout_finished id g ag ro t d w : finished id ro → St g ag ro t d w →
  wp (RolloutService.GetRollout Background id) (λ r w', St g ag ro t d w' ∧ ∃ created started updated ts cov,
    r = Ok (in_rollout id StateCompleted 2 created started updated, ts, cov)) w.
Proof.
  intros (created & started & updated & tg & rev & ->) Hw.
  wp_call (drive_GetRollout squad plan (in_rollout id StateCompleted 2 created started updated)); [exact Hw|].
  intros r w' [-> Hw']. split; [done|]. by do 5 eexists.
Qed.

(** ** The snapshots of a stage *)

Context (validator : ConfigRegistry.SchemaValidator).
Definition simulated : environment W :=
  MkEnvironment validator service (RolloutService.NewService W) (DataPlane.GetSnapshot ["payments"]).

Definition ack_of (agents : list virtualAgent) (id : string) (k : nat) (i : Z) : pendingAck :=
  let a := nth (Z.to_nat i) agents (MkVirtualAgent "" "") in
  MkPendingAck (va_ID a) (va_Token a) cfg_id v2_id (Z.of_nat k + 1) id (s_ID (stage_at k)).

(** What the agent of number [i] is offered during stage [k]. *)
Definition offer (id : string) (k : nat) (i : Z) : ConfigVersion * DataPlane.Assignment * Z :=
  if in_stage k i then (v2 "simulator", DataPlane.MkAssignment id (s_ID (stage_at k)), Z.of_nat k + 1)
  else (v1 "simulator", DataPlane.MkAssignment "" "", 1).

Lemma offer_acks agents id k i a at_ : id ≠ "" → agents !! Z.to_nat i = Some a →
  pending_acks a (s_ID (stage_at k)) (offered_snapshot (offer id k i).1.1 (offer id k i).1.2 (offer id k i).2 at_) =
  if in_stage k i then [ack_of agents id k i] else [].
Proof.
  intros Hid Ha. unfold offer. destruct (in_stage k i); cbn [fst snd].
  - unfold pending_acks, offered_snapshot. cbn [DataPlane.sn_Configs DataPlane.sn_Revision].
    rewrite filter_cons_True; [|by split]. cbn. unfold ack_of. rewrite (nth_lookup_Some _ _ _ _ Ha).
    f_equal. f_equal. destruct (Z.ltb_spec 1 (Z.of_nat k + 1)); lia.
  - unfold pending_acks, offered_snapshot. cbn [DataPlane.sn_Configs].
    rewrite filter_cons_False; [done|]. by intros [Hne _].
Qed.

Lemma running_effective id k acked created started updated ts i : cohort_of id k acked ts → 0 ≤ i < n →
  EffectiveVersionForAgent (in_rollout id StateDeploying k created started updated) ts (sim_id i) =
  if in_stage k i then MkEffectiveVersion v2_id id (s_ID (stage_at k)) (Z.of_nat k + 1)
  else MkEffectiveVersion v1_id "" "" 0.
Proof.
  intros Hc Hi. set (r := in_rollout _ _ _ _ _ _). change id with (r_ID r) in Hc.
  destruct (in_stage k i) eqn:Hin.
  - rewrite (cohort_member _ _ r _ _ _ _ _ i Hc); [done..|].
    apply list_elem_of_filter. split; [done|]. apply elem_of_seqZ. lia.
  - rewrite (cohort_other _ _ r _ _ _ _ _ (sim_id i) Hc); [done..|].
    intros j [Hj Hr%elem_of_seqZ]%list_elem_of_filter Heq.
    apply (numbered_inj _ n) in Heq; [congruence|done|lia|done].
Qed.

Lemma running_offers id k acked at_ ro i : id ≠ "" → running id k acked at_ ro → 0 ≤ i < n →
  ∃ act, serving (o_Environment options) ro act ∧
    offered v1_id act (sim_id i) = (v_ID (offer id k i).1.1, (offer id k i).1.2, (offer id k i).2).
Proof.
  intros Hid (created & started & updated & ts & tg & -> & _ & _ & <- & Hc & _) Hi.
  eexists. split.
  - by apply (serving_ro squad plan (in_rollout id StateDeploying k created started updated)).
  - unfold offered, offer. cbv zeta.
    change (r_ID _) with id. change (r_CurrentStageID _) with (s_ID (stage_at k)).
    rewrite (running_effective id k acked) by done.
    destruct (in_stage k i); cbn [ev_AssignedRollout ev_VersionID ev_AssignedStage ev_SnapshotRevision fst snd]; [|done].
    by rewrite (proj2 (empty_str_false _) Hid).
Qed.

Lemma drive_fetch_agent agents updated id k acked at0 ro ag i t d w l :
  id ≠ "" → running id k acked at0 ro → 0 ≤ i < n → fleet ag agents →
  St (reg v1_id updated) ag ro t d w →
  wp (fetch_agent simulated Background agents (s_ID (stage_at k)) i) (λ r q, r = Ok tt ∧ ∃ t' latency,
    q.2 = MkFetched (<[Z.to_nat i := latency]> (ft_latencies l))
            (ft_pending l ++ if in_stage k i then [ack_of agents id k i] else []) ∧
    t ≤ t' ≤ deadline ∧ St (reg v1_id updated) ag ro t' d q.1) (w, l).
Proof.
  intros Hid Hrun Hi Hf Hw. unfold fetch_agent.
  destruct (fl_enrolled _ _ _ Hf i Hi) as (at_ & x & Ha & _ & _ & Hpair).
  wp_step. unfold RolloutService.index. rewrite (proj2 (Z.leb_le 0 i)) by lia. rewrite Hpair. wp_step.
  wp_step. apply wp_shared. eapply drive_now; [exact Hw|]. intros t1 w1 Ht1 Hw1. cbn beta iota.
  destruct (running_offers id k acked at0 ro i) as (act & Hact & Hoff); [done..|].
  wp_step. wp_step. apply wp_shared. cbn [env_snapshots simulated va_ID].
  wp_call (drive_GetSnapshot seed_text "simulator" (o_Environment options) v1_id updated act (sim_id i)
    (agent_of (register_input options i) at_) (offer id k i).1.1 (offer id k i).1.2 (offer id k i).2);
    [exact Ha|done|done|done|exact Hact|exact Hoff|unfold offer; by destruct (in_stage k i)|exact Hw1|].
  intros r w2 (at2 & -> & Ht2 & Hw2). cbn beta iota.
  wp_step. apply wp_shared. eapply drive_now; [exact Hw2|]. intros t3 w3 Ht3 Hw3. cbn beta iota.
  wp_step. apply wp_locally. apply wp_locally. split; [done|]. exists t3. eexists. split; [|split; [lia|exact Hw3]].
  cbn [snd ft_latencies ft_pending]. by rewrite (offer_acks agents) by done.
Qed.

(** The pool of a stage: every snapshot is read, and every member has an
    acknowledgement to send. *)
Lemma drive_fetch_pool schedule concurrency agents updated id k acked at0 ro ag t d w :
  id ≠ "" → running id k acked at0 ro → fleet ag agents → t ≤ deadline → St (reg v1_id updated) ag ro t d w →
  wp (with_locals (MkFetched (repeat 0 (length agents)) [])
    (parallel (Z.of_nat (length agents)) (fetch_agent simulated Background agents (s_ID (stage_at k))) schedule
       concurrency)) (λ r w', ∃ l order t', r = Ok l ∧ length (ft_latencies l) = Z.to_nat n ∧
    order ≡ₚ members n k ∧ ft_pending l = ack_of agents id k <$> order ∧ t ≤ t' ≤ deadline ∧
    St (reg v1_id updated) ag ro t' d w') w.
Proof.
  intros Hid Hrun Hf Ht Hw. unfold few in Hfew. rewrite (fl_length _ _ _ Hf). change (sq_size squad) with n. apply wp_with_locals.
  replace (Z.of_nat (Z.to_nat n)) with n by lia.
  eapply (wp_parallel _ _ (λ seen q, length (ft_latencies q.2) = Z.to_nat n ∧
    ft_pending q.2 = ack_of agents id k <$> filter (λ i, in_stage k i = true) seen ∧
    ∃ t', t ≤ t' ≤ deadline ∧ St (reg v1_id updated) ag ro t' d q.1)).
  - split; [apply repeat_length|]. split; [done|]. exists t. split; [lia|exact Hw].
  - intros seen i [w1 l] _ Hi (Hlen & Hpend & t1 & Ht1 & Hw1). cbn [fst snd] in *.
    wp_call drive_fetch_agent; [exact Hid|exact Hrun|exact Hi|exact Hf|exact Hw1|].
    intros r q (-> & t2 & latency & Hq & Ht2 & Hq1). split; [done|]. rewrite Hq. cbn [ft_latencies ft_pending].
    split; [by rewrite length_insert|]. split.
    + rewrite Hpend, filter_app, fmap_app, filter_cons. f_equal. destruct (in_stage k i); by cbn.
    + exists t2. split; [lia|exact Hq1].
  - intros order [w1 l] Ho (Hlen & Hpend & t1 & Ht1 & Hw1). cbn [fst snd] in *.
    exists l, (filter (λ i, in_stage k i = true) order), t1. split_and!; [done|done| |done|lia|lia|done].
    unfold members. by rewrite Ho.
Qed.

(** ** The start of a run *)

Lemma drive_setup g ag ro t d w : St g ag ro t d w →
  wp (setup validator Background options) (λ r w', r = Ok simulated ∧
    St (reg v1_id seeded_at) AgentStore.NewMemoryStore RolloutStore.NewMemoryStore t d w') w.
Proof.
  intros Hw. unfold setup. wp_step. wp_call (drive_seed seed_text "simulator"); [exact Hw|]. intros r w1 [-> Hw1].
  cbn beta iota. eapply (st_set_ag AgentStore.NewMemoryStore) in Hw1.
  wp_step. unfold wp at 1, modify. cbn [fst snd].
  eapply (st_set_ro RolloutStore.NewMemoryStore) in Hw1.
  wp_step. unfold wp at 1, modify. cbn [fst snd]. wp_step. by split.
Qed.

Definition prepared (created : Rollout) (agents : list virtualAgent) (t : Time) (w : W) : Prop :=
  ∃ ag ro d, running (r_ID created) 0 [] t ro ∧ r_ID created ≠ "" ∧ fleet ag agents ∧ first ≤ t ≤ deadline ∧
    St (reg v1_id seeded_at) ag ro t d w.

(** A run reaches its first stage. *)
Lemma drive_start fuel schedule options0 g ag ro t w (Q : res (option Result) → W → Prop) :
  normalizeOptions options0 = options → St g ag ro t [] w →
  (∀ started l created t' w', length (rg_agents l) = Z.to_nat n → prepared created (rg_agents l) t' w' →
    wp (progress ← run_stages fuel schedule simulated Background (r_ID created) (rg_agents l) (o_Concurrency options)
          (MkProgress [] [] []);
        match progress with
        | None => mret None
        | Some p =>
            found ← RolloutService.GetRollout Background (r_ID created);
            let '(final, _, _) := found in
            ended ← now;
            mret (Some (result_of options l created final p (time_Sub ended started)))
        end) Q w') →
  wp (Run fuel schedule validator Background options0) Q w.
Proof.
  intros Hopt Hw HQ. unfold Run. rewrite Hopt. cbv zeta.
  wp_step. eapply drive_now; [exact Hw|]. intros t1 w1 Ht1 Hw1. cbn beta iota.
  wp_step. wp_call drive_setup; [exact Hw1|]. intros r w2 [-> Hw2]. cbn beta iota.
  wp_step. wp_call drive_registerAgents; [|exact Hw2|]; [lia|].
  intros r w3 (l & ag3 & order & t3 & d3 & -> & Hreg & Ho & Ht3 & Hw3). cbn beta iota.
  destruct Hreg as [Hreg Hlat]. pose proof (registered_fleet squad _ _ _ _ Hreg Ho) as Hf.
  wp_step. wp_call drive_simulated_rollout; [exact Hf|exact Hw3|].
  intros r w4 (created & ts & ro4 & t4 & d4 & -> & Hrun & Hid & Ht4 & Hw4). cbn beta iota zeta.
  pose proof (st_first _ _ _ _ _ _ Hw). apply (HQ t1 l created t4); [apply (rd_agents _ _ _ _ _ Hreg)|].
  exists ag3, ro4, d4. split_and!; [done|done|done|lia|lia|exact Hw4].
Qed.

(** Without a canary the first stage is never covered. *)
Lemma drive_no_canary fuel schedule id agents concurrency p updated ro ag t d w :
  members n 0 = [] → id ≠ "" → running id 0 [] t ro → fleet ag agents → t ≤ deadline →
  St (reg v1_id updated) ag ro t d w →
  wp (run_stages (S fuel) schedule simulated Background id agents concurrency p) (λ r _,
    r = Err (EText "stage %s did not reach required acknowledgement coverage" ["stage-5"])) w.
Proof.
  intros Hnone Hid Hrun Hf Ht Hw. cbn [run_stages]. wp_step. unfold run_stage.
  wp_step. wp_call drive_GetRollout_running; [exact Hrun|exact Hw|].
  intros r w1 (Hw1 & created & started & updated1 & ts & cov & -> & _ & _). cbn beta iota zeta.
  change (Terminal (r_State (in_rollout id StateDeploying 0 created started updated1))) with false. cbn iota.
  wp_step. eapply drive_now; [exact Hw1|]. intros t2 w2 Ht2 Hw2. cbn beta iota.
  wp_step. unfold acknowledgeStage. cbv zeta. wp_step.
  wp_call (drive_fetch_pool (schedule fuel) concurrency agents updated id 0);
    [done|exact Hrun|exact Hf| |exact Hw2|]; [lia|].
  intros r w3 (l & order & t3 & -> & _ & Ho & Hpend & Ht3 & Hw3). cbn beta iota.
  rewrite Hnone in Ho. apply Permutation_nil_r in Ho. subst order. rewrite Hpend. cbn [fmap list_fmap fold_m].
  wp_step. wp_step. wp_step. cbn beta iota zeta.
  wp_step. wp_call drive_GetRollout_running; [exact Hrun|exact Hw3|].
  intros r w4 (Hw4 & created' & started' & updated2 & ts' & cov' & -> & Hlen & ->). cbn beta iota zeta.
  wp_step. eapply drive_now; [exact Hw4|]. intros t5 w5 Ht5 Hw5. cbn beta iota.
  change (Terminal (r_State (in_rollout id StateDeploying 0 created' started' updated2))) with false. cbn iota.
  rewrite bool_decide_true by done. rewrite Hnone in Hlen. apply nil_length_inv in Hlen. subst ts'.
  change (f_lt (cov_Percentage (AcknowledgementCoverage []))
    (r_RequiredAckPercent (in_rollout id StateDeploying 0 created started updated1))) with true.
  cbn [andb]. by wp_step.
Qed.

(** ** The acknowledgements *)

Context (Hcanary : (0 < length (members n 0))%nat).

Lemma members_grow j k : (j <= k < 3)%nat → (length (members n j) <= length (members n k))%nat.
Proof.
  intros Hjk. apply (members_mono squad).
  destruct j as [|[|[|]]], k as [|[|[|]]]; cbn; lia.
Qed.

Lemma members_some k : (k < 3)%nat → (0 < length (members n k))%nat.
Proof. intros Hk. pose proof (members_grow 0 k ltac:(lia)). lia. Qed.

(** What follows the last acknowledgement of stage [k]. *)
Definition stage_done (id : string) (k : nat) (t : Time) (ro : Ro) (g : Reg) : Prop :=
  if Nat.eqb k 2 then finished id ro ∧ ∃ updated, g = reg v2_id updated
  else running id (S k) [] t ro ∧ ∃ updated, g = reg v1_id updated.

Lemma stage_done_later id k t t' ro g : t ≤ t' → stage_done id k t ro g → stage_done id k t' ro g.
Proof.
  unfold stage_done. destruct (Nat.eqb k 2); [done|]. intros Ht [Hrun ?]. split; [by eapply running_later|done].
Qed.

(** What follows every acknowledgement. *)
Definition acknowledged (id : string) (k : nat) (acked : list Z) (t : Time) (ro : Ro) (g : Reg) : Prop :=
  if Nat.eqb (length acked) (length (members n k)) then stage_done id k t ro g
  else running id k acked t ro ∧ ∃ updated, g = reg v1_id updated.

Lemma stage_reached id k acked ts : (k < 3)%nat → cohort_of id k acked ts → (length acked <= length (members n k))%nat →
  CoverageReached ts (f_of_int 100) = Nat.eqb (length acked) (length (members n k)).
Proof.
  intros Hk Hc Hle. pose proof (members_some k Hk).
  pose proof (members_count squad simulated_squad (s_Percentage (stage_at k))) as Hm.
  change (CampaignDrive.members squad _) with (members n k) in Hm.
  apply (cohort_reached _ _ _ _ _ _ _ _ Hc); [lia|done].
Qed.

Lemma drive_advance id k created started updated tg agents stable ag t d w :
  (k < 2)%nat → id ≠ "" → first ≤ created → fleet ag agents → (∀ j, (k < j < 3)%nat → targets_at (target_key j id) tg = []) →
  let r := in_rollout id StateDeploying k created started updated in
  St (reg v1_id stable) ag (ro_store r tg (Z.of_nat k + 2)) t d w →
  wp (RolloutService.promote Background r plan) (λ res w', is_ok res = true ∧ ∃ ro' t', running id (S k) [] t' ro' ∧
    t ≤ t' ≤ deadline ∧ St (reg v1_id stable) ag ro' t' d w') w.
Proof.
  intros Hk Hid Hcreated Hf Hkeys r Hw. unfold RolloutService.promote.
  change (r_CurrentStageIndex r) with (Z.of_nat k). change (Z.of_nat (length plan) - 1) with 2.
  rewrite (proj2 (Z.eqb_neq _ _)) by lia. cbv zeta. wp_step.
  unfold RolloutService.index. rewrite (proj2 (Z.leb_le 0 _)) by lia.
  destruct (stage_percentage (S k)) as (Hstage & Hsid & _); [lia|].
  replace (Z.to_nat (Z.of_nat k + 1)) with (S k) by lia. rewrite Hstage.
  wp_step. cbn beta iota. wp_step. eapply drive_now; [exact Hw|]. intros t1 w1 Ht1 Hw1. cbn beta iota.
  pose proof (st_first _ _ _ _ _ _ Hw) as Hfirst.
  set (r' := set_progress _ _ _ _ _ _ _).
  assert (r' = in_rollout id StateDeploying (S k) created t1 t1) as Hr'.
  { unfold r', r, in_rollout, campaign_rollout. rewrite Nat2Z.inj_succ. reflexivity. }
  rewrite Hr'. clear r' Hr'. set (r' := in_rollout _ _ _ _ _ _). wp_step.
  eapply drive_ro; [exact Hw1|apply (ro_update _ _ r r'); done|].
  intros w2 Hw2. cbn beta iota. replace (Z.of_nat k + 2) with (Z.of_nat (S k) + 1) in Hw2 by lia.
  wp_step. change (r_TargetServices _) with [o_Service options].
  wp_call (drive_activateStage squad simulated_squad plan r' (stage_at (S k)) agents tg (Z.of_nat (S k) + 1));
    [done..|lia|exact Hf|apply Hkeys; lia|exact Hw2|].
  intros res w3 (ts & tg' & t3 & -> & Hc & [Hts Hother] & Ht3 & Hw3). cbn beta iota. wp_step. split; [done|].
  do 2 eexists. split; [|split; [|exact Hw3]]; [|lia].
  exists created, t1, t1, ts, tg'. split_and!; [f_equal; lia|lia|lia|lia|done|done|].
  intros j Hj. rewrite Hother; [apply Hkeys; lia|]. intros Heq%target_key_inj; lia.
Qed.

(** An acknowledgement that counts. *)
Lemma drive_stage_ack id k acked i agents stable ro ag t d w :
  (k < 3)%nat → id ≠ "" → running id k acked t ro → i ∈ members n k → i ∉ acked → 
  (S (length acked) <= length (members n k))%nat → fleet ag agents → St (reg v1_id stable) ag ro t d w →
  wp (RolloutService.Acknowledge (RolloutService.NewService W) Background
        (RolloutService.MkAcknowledgeInput id (s_ID (stage_at k)) (sim_id i) v2_id (Z.of_nat k + 1)))
    (λ r w', is_ok r = true ∧ ∃ ro' g' t', acknowledged id k (acked ++ [i]) t' ro' g' ∧
       t ≤ t' ≤ deadline ∧ St g' ag ro' t' d w') w.
Proof.
  intros Hk Hid (created & started & updated & ts & tg & -> & Hcreated & Hstarted & Hts & Hc & Hkeys) Hi Hni Hle Hf Hw.
  set (r := in_rollout id StateDeploying k created started updated) in *.
  assert (∀ i j, i ∈ members n k → j ∈ members n k → sim_id i = sim_id j → i = j) as Hinj
    by (apply (members_inj squad simulated_squad (s_Percentage (stage_at k)))).
  eapply (CampaignDrive.drive_Acknowledge squad plan _ (members n k) r _ _ i acked); [exact Hinj|done|exact Hts|exact Hc|done..|exact Hw|].
  intros ts' t5 w5 Hc' Ht5 Hw5. rewrite decide_False by done. unfold RolloutService.stage_index_error.
  change (r_CurrentStageIndex r) with (Z.of_nat k). change (Z.of_nat (length plan)) with 3.
  rewrite (proj2 (Z.ltb_ge _ _)), (proj2 (Z.leb_gt _ _)) by lia. cbn [orb guard_err]. wp_step. wp_step. cbn beta iota.
  destruct (stage_percentage k Hk) as (Hstage & _ & Hmin).
  wp_step. unfold RolloutService.index. rewrite (proj2 (Z.leb_le 0 _)), Nat2Z.id by lia.
  rewrite Hstage. wp_step. cbn beta iota.
  assert (length (acked ++ [i]) <= length (members n k))%nat as Hle' by (rewrite length_app; cbn; lia).
  pose proof (stage_reached _ _ _ _ Hk Hc' Hle') as Hreached.
  wp_step. eapply (drive_decision squad [] (5 * Minute) (15 * Minute) (2 * Minute));
    [exact Hshort|unfold Minute, Second; lia..|exact Hmin|exact Hreached|done| |exact Hw5|]; [lia|].
  intros t6 w6 Ht6 Hw6. unfold acknowledged, stage_done.
  change (r_CurrentStageID r) with (s_ID (stage_at k)) in *. change (r_ID r) with id in *.
  assert (∀ j, (k < j < 3)%nat → targets_at (target_key j id) (<[target_key k id := ts']> tg) = []) as Hkeys'.
  { intros j Hj. unfold targets_at. rewrite lookup_insert_ne; [by apply Hkeys|]. intros Heq%target_key_inj; lia. }
  destruct (Nat.eqb (length (acked ++ [i])) _); [cbn [length Nat.eqb]; wp_step; cbn beta iota; destruct (Nat.eqb_spec k 2) as [->|Hk2]|].
  - wp_step. wp_call (drive_complete squad simulated_squad seed_text "simulator" [] (5 * Minute) (15 * Minute) (2 * Minute) plan id);
      [|exact Hw6|]; [done|]. intros [r7|e] w7 [Hok (t7 & u & Ht7 & Hw7)]; [|done].
    cbn beta iota. wp_step. split; [done|]. do 3 eexists. split; [|split; [|exact Hw7]]; [|lia].
    split; [|by eexists]. by do 5 eexists.
  - wp_step. wp_call (drive_advance id k); [lia|done|done|exact Hf|exact Hkeys'|exact Hw6|].
    intros [r7|e] w7 [Hok (ro' & t7 & Hrun & Ht7 & Hw7)]; [|done].
    cbn beta iota. wp_step. split; [done|]. do 3 eexists. split; [|split; [|exact Hw7]]; [by eauto|lia].
  - cbn beta iota. wp_step. cbn [RolloutService.apply_decision]. wp_step. cbn beta iota. wp_step. split; [done|].
    do 3 eexists. split; [|split; [|exact Hw6]]; [|lia]. split; [|by eauto].
    exists created, started, updated, ts'. eexists. split_and!; [done|lia|lia|lia|unfold targets_at; by rewrite lookup_insert_eq|done|done].
Qed.

Lemma drive_acknowledge_one lats id k acked i agents stable ro ag t d w :
  (k < 3)%nat → id ≠ "" → running id k acked t ro → i ∈ members n k → i ∉ acked →
  (S (length acked) <= length (members n k))%nat → fleet ag agents → St (reg v1_id stable) ag ro t d w →
  wp (acknowledge_one simulated Background lats (ack_of agents id k i))
    (λ r w', ∃ latency ro' g' ag' t' d', r = Ok (lats ++ [latency]) ∧ acknowledged id k (acked ++ [i]) t' ro' g' ∧
       fleet ag' agents ∧ t ≤ t' ≤ deadline ∧ St g' ag' ro' t' d' w') w.
Proof.
  intros Hk Hid Hrun Hi Hni Hle Hf Hw. unfold acknowledge_one.
  pose proof (members_range squad (s_Percentage (stage_at k)) i Hi) as Hrange.
  destruct (fl_enrolled _ _ _ Hf i Hrange) as (at_ & x & _ & Hcred & Hat & Hpair).
  unfold ack_of. rewrite (nth_lookup_Some _ _ _ _ Hpair).
  cbn [pa_AgentID pa_Token pa_ConfigDefinitionID pa_VersionID pa_SnapshotRevision pa_RolloutID pa_StageID va_ID va_Token].
  wp_step. eapply drive_now; [exact Hw|]. intros t1 w1 Ht1 Hw1. cbn beta iota.
  wp_step. wp_call drive_AgentAcknowledge; [exact Hcred|done|done|by apply (credit_lives squad simulated_squad i x at_ Hshort)|done|done| |exact Hw1|].
  { cbn. lia. }
  intros [k1|e] w2 [Hok (ag2 & t2 & d2 & Hsame & Ht2 & Hw2)]; [|done]. cbn beta iota.
  apply (running_later _ _ _ t t2) in Hrun; [|lia]. apply (fleet_same squad _ _ _ Hsame) in Hf.
  wp_step. wp_call (drive_stage_ack id k acked i agents); [done|done|exact Hrun|done|done|done|exact Hf|exact Hw2|].
  intros [r3|e] w3 [Hok3 (ro3 & g3 & t3 & Hack & Ht3 & Hw3)]; [|done]. cbn beta iota.
  wp_step. eapply drive_now; [exact Hw3|]. intros t4 w4 Ht4 Hw4. cbn beta iota. wp_step.
  do 6 eexists. split; [done|]. split; [|split; [exact Hf|split; [|exact Hw4]; lia]].
  unfold acknowledged in *. destruct (Nat.eqb _ _); [eapply stage_done_later; [|exact Hack]; lia|].
  destruct Hack as [Hrun' ?]. split; [|done]. eapply running_later; [|exact Hrun']. lia.
Qed.

(** Every member acknowledges: the stage is done. *)
Lemma drive_acks id k agents : (k < 3)%nat → id ≠ "" → ∀ rest acked lats ro g ag t d w,
  acked ++ rest ≡ₚ members n k → acknowledged id k acked t ro g → fleet ag agents → t ≤ deadline → St g ag ro t d w →
  wp (fold_m (ack_of agents id k <$> rest) lats (acknowledge_one simulated Background)) (λ r w', ∃ lats' ro' g' ag' t' d',
    r = Ok lats' ∧ length lats' = (length lats + length rest)%nat ∧ stage_done id k t' ro' g' ∧ fleet ag' agents ∧
    t ≤ t' ≤ deadline ∧ St g' ag' ro' t' d' w') w.
Proof.
  intros Hk Hid. induction rest as [|i rest IH]; intros acked lats ro g ag t d w Hp Hack Hf Ht Hw; cbn [fmap list_fmap fold_m].
  - wp_step. exists lats, ro, g, ag, t, d. split_and!; [done|cbn; lia| |done|lia|lia|done].
    unfold acknowledged in Hack. rewrite app_nil_r in Hp. apply Permutation_length in Hp.
    by rewrite Hp, Nat.eqb_refl in Hack.
  - pose proof (members_NoDup squad (s_Percentage (stage_at k))) as Hnd; change (CampaignDrive.members squad _) with (members n k) in Hnd. rewrite <-Hp in Hnd. apply NoDup_app in Hnd as (_ & Hdis & _).
    pose proof (Permutation_length Hp) as Hlen. rewrite length_app in Hlen. cbn [length] in Hlen.
    unfold acknowledged in Hack. rewrite (proj2 (Nat.eqb_neq _ _)) in Hack by lia. destruct Hack as [Hrun [stable ->]].
    wp_step. wp_call (drive_acknowledge_one lats id k acked i agents);
      [done|done|exact Hrun|rewrite <-Hp; set_solver| |lia|exact Hf|exact Hw|].
    { intros Hin. apply (Hdis i Hin). by left. }
    intros r w1 (latency & ro1 & g1 & ag1 & t1 & d1 & -> & Hack1 & Hf1 & Ht1 & Hw1). cbn beta iota.
    wp_call (IH (acked ++ [i]) (lats ++ [latency])); [by rewrite <-(assoc_L (++))|exact Hack1|exact Hf1|lia|exact Hw1|].
    intros r w2 (lats' & ro2 & g2 & ag2 & t2 & d2 & -> & Hl & Hdone & Hf2 & Ht2 & Hw2).
    exists lats', ro2, g2, ag2, t2, d2. rewrite length_app in Hl. cbn in Hl.
    split_and!; [done|cbn; lia|done|done|lia|lia|done].
Qed.

Lemma drive_acknowledgeStage schedule concurrency id k agents stable ro ag t d w :
  (k < 3)%nat → id ≠ "" → running id k [] t ro → fleet ag agents → t ≤ deadline → St (reg v1_id stable) ag ro t d w →
  wp (acknowledgeStage schedule simulated Background agents (s_ID (stage_at k)) concurrency) (λ r w',
    ∃ reads acks ro' g' ag' t' d', r = Ok (reads, acks) ∧ length reads = Z.to_nat n ∧
      length acks = length (members n k) ∧ stage_done id k t' ro' g' ∧ fleet ag' agents ∧
      t ≤ t' ≤ deadline ∧ St g' ag' ro' t' d' w') w.
Proof.
  intros Hk Hid Hrun Hf Ht Hw. unfold acknowledgeStage. cbv zeta. wp_step.
  wp_call drive_fetch_pool; [exact Hid|exact Hrun|exact Hf|exact Ht|exact Hw|].
  intros r w1 (l & order & t1 & -> & Hreads & Ho & -> & Ht1 & Hw1). cbn beta iota.
  wp_step. wp_call (drive_acks id k agents Hk Hid order [] []); [exact Ho| |exact Hf| |exact Hw1|]; [|lia|].
  { unfold acknowledged. pose proof (members_some k Hk). rewrite (proj2 (Nat.eqb_neq _ _)) by (cbn; lia).
    split; [|by eauto]. by eapply running_later; [|exact Hrun]; lia. }
  intros r w2 (acks & ro2 & g2 & ag2 & t2 & d2 & -> & Hl & Hdone & Hf2 & Ht2 & Hw2). cbn beta iota. wp_step.
  exists (ft_latencies l), acks, ro2, g2, ag2, t2, d2. apply Permutation_length in Ho. split_and!; [done|done|cbn in Hl; lia|done|done|lia|lia|done].
Qed.

(** ** The stages *)

(** What a stage result says, its duration apart. *)
Definition outline (r : StageResult) : string * Z * Z * float64 * string * string :=
  (sr_StageID r, sr_Targets r, sr_Acked r, sr_Coverage r, sr_NextState r, sr_NextStage r).
Definition stage_outline (k : nat) : string * Z * Z * float64 * string * string :=
  let m := Z.of_nat (length (members n k)) in
  (s_ID (stage_at k), m, m, f_of_int 100, if Nat.eqb k 2 then "COMPLETED" else "DEPLOYING", s_ID (stage_at (S k))).

(** The numbers after [k] stages. *)
Record after (k : nat) (p : Progress) : Prop := {
  af_reads : length (pg_snapshotLatencies p) = (k * Z.to_nat n)%nat;
  af_acks : length (pg_ackLatencies p) = sum_list ((λ j, length (members n j)) <$> seq 0 k);
  af_stages : outline <$> pg_stageResults p = stage_outline <$> seq 0 k }.

Lemma after_next k p reads acks r : after k p → length reads = Z.to_nat n →
  length acks = length (members n k) → outline r = stage_outline k →
  after (S k) (MkProgress (pg_snapshotLatencies p ++ reads) (pg_ackLatencies p ++ acks) (pg_stageResults p ++ [r])).
Proof.
  intros [Hr Ha Hs] Hreads Hacks Hout. split; rewrite ?seq_S; cbn [pg_snapshotLatencies pg_ackLatencies pg_stageResults].
  - rewrite length_app. lia.
  - rewrite length_app, fmap_app, sum_list_with_app. cbn. lia.
  - by rewrite !fmap_app, Hs; cbn; rewrite Hout.
Qed.

Lemma outline_result active updated targets acked duration k :
  (k < 3)%nat → r_CurrentStageID active = s_ID (stage_at k) → r_CurrentStageID updated = s_ID (stage_at (S k)) →
  State_string (r_State updated) = (if Nat.eqb k 2 then "COMPLETED" else "DEPLOYING") →
  length targets = length (members n k) → acked = length (members n k) →
  outline (stage_result active updated targets acked duration) = stage_outline k.
Proof.
  intros Hk Ha Hu Hs Ht ->. pose proof (members_some k Hk).
  pose proof (members_count squad simulated_squad (s_Percentage (stage_at k))) as Hm.
  change (CampaignDrive.members squad _) with (members n k) in Hm.
  unfold outline, stage_result, stage_outline. cbv zeta.
  cbn [sr_StageID sr_Targets sr_Acked sr_Coverage sr_NextState sr_NextStage].
  rewrite Ha, Hu, Hs, Ht, (proj2 (Z.ltb_lt _ _)) by lia.
  change (f_mul (f_div ?a ?b) _) with (f_mul (f_div a b) (f_of_int 100)).
  assert (f_mul (f_div (f_of_int (Z.of_nat (length (members n k)))) (f_of_int (Z.of_nat (length (members n k)))))
    (f_of_int 100) = f_of_int 100) as ->; [|done].
  apply full_percentage. change (2 ^ 53) with 9007199254740992. lia.
Qed.

Lemma drive_run_stage schedule concurrency id k p agents stable ro ag t d w :
  (k < 3)%nat → id ≠ "" → running id k [] t ro → fleet ag agents → t ≤ deadline → after k p → St (reg v1_id stable) ag ro t d w →
  wp (run_stage schedule simulated Background id agents concurrency p) (λ r w', ∃ p' ro' g' ag' t' d',
    r = Ok (p', negb (Nat.eqb k 2)) ∧ after (S k) p' ∧ stage_done id k t' ro' g' ∧ fleet ag' agents ∧
    t ≤ t' ≤ deadline ∧ St g' ag' ro' t' d' w') w.
Proof.
  intros Hk Hid Hrun Hf Ht Hp Hw. unfold run_stage.
  wp_step. wp_call drive_GetRollout_running; [exact Hrun|exact Hw|].
  intros r w1 (Hw1 & created & started & updated & ts & cov & -> & Hts & _). cbn beta iota zeta.
  change (Terminal (r_State (in_rollout id StateDeploying k created started updated))) with false. cbn iota.
  wp_step. eapply drive_now; [exact Hw1|]. intros t2 w2 Ht2 Hw2. cbn beta iota.
  apply (running_later _ _ _ t t2) in Hrun; [|lia].
  wp_step. wp_call (drive_acknowledgeStage schedule concurrency id k agents);
    [done|done|exact Hrun|exact Hf|lia|exact Hw2|].
  intros r w3 (reads & acks & ro3 & g3 & ag3 & t3 & d3 & -> & Hreads & Hacks & Hdone & Hf3 & Ht3 & Hw3).
  cbn beta iota zeta. pose proof Hdone as Hdone'. unfold stage_done in Hdone'.
  destruct (Nat.eqb_spec k 2) as [->|Hk2]; destruct Hdone' as [Hro _].
  - wp_step. wp_call drive_GetRollout_finished; [exact Hro|exact Hw3|].
    intros r w4 (Hw4 & created' & started' & updated' & ts' & cov' & ->). cbn beta iota zeta.
    wp_step. eapply drive_now; [exact Hw4|]. intros t5 w5 Ht5 Hw5. cbn beta iota.
    change (Terminal (r_State (in_rollout id StateCompleted 2 created' started' updated'))) with true. cbn iota. wp_step.
    do 6 eexists. split; [done|]. split; [|split; [|split; [exact Hf3|split; [|exact Hw5]; lia]]].
    + apply after_next; [done..|]. by apply outline_result.
    + eapply stage_done_later; [|exact Hdone]. lia.
  - wp_step. wp_call drive_GetRollout_running; [exact Hro|exact Hw3|].
    intros r w4 (Hw4 & created' & started' & updated' & ts' & cov' & -> & _ & _). cbn beta iota zeta.
    wp_step. eapply drive_now; [exact Hw4|]. intros t5 w5 Ht5 Hw5. cbn beta iota.
    change (Terminal (r_State (in_rollout id StateDeploying (S k) created' started' updated'))) with false. cbn iota.
    rewrite bool_decide_false by (destruct k as [|[|]]; [done..|lia]). cbn [andb]. wp_step.
    do 6 eexists. split; [done|].
    split; [|split; [|split; [exact Hf3|split; [|exact Hw5]; lia]]].
    + apply after_next; [done..|]. apply outline_result; [done..| |done|done].
      by rewrite (proj2 (Nat.eqb_neq _ _)) by done.
    + eapply stage_done_later; [|exact Hdone]. lia.
Qed.

Lemma drive_run_stages schedule concurrency id agents : id ≠ "" → ∀ left k fuel p stable ro ag t d w,
  (k + S left = 3)%nat → (S left <= fuel)%nat → running id k [] t ro → fleet ag agents → t ≤ deadline → after k p →
  St (reg v1_id stable) ag ro t d w →
  wp (run_stages fuel schedule simulated Background id agents concurrency p) (λ r w', ∃ p' ro' updated ag' t' d',
    r = Ok (Some p') ∧ after 3 p' ∧ finished id ro' ∧ t ≤ t' ≤ deadline ∧ St (reg v2_id updated) ag' ro' t' d' w') w.
Proof.
  intros Hid. induction left as [|left IH]; intros k fuel p stable ro ag t d w Hk Hfuel Hrun Hf Ht Hp Hw;
    (destruct fuel as [|fuel]; [lia|]); cbn [run_stages]; wp_step;
    (wp_call drive_run_stage; [|exact Hid|exact Hrun|exact Hf|exact Ht|exact Hp|exact Hw|]; [lia|]);
    intros r w1 (p1 & ro1 & g1 & ag1 & t1 & d1 & -> & Hp1 & Hdone & Hf1 & Ht1 & Hw1); cbn beta iota zeta;
    unfold stage_done in Hdone.
  - replace k with 2%nat in * by lia. destruct Hdone as [Hfin [updated ->]]. cbn [Nat.eqb negb]. wp_step.
    exists p1, ro1, updated, ag1, t1, d1. split_and!; [done|done|done|lia|lia|exact Hw1].
  - rewrite (proj2 (Nat.eqb_neq k 2)) in * by lia. destruct Hdone as [Hrun1 [updated ->]]. cbn [negb].
    wp_call (IH (S k)); [lia|lia|exact Hrun1|exact Hf1|lia|exact Hp1|exact Hw1|].
    intros r w2 (p2 & ro2 & u2 & ag2 & t2 & d2 & -> & Hp2 & Hfin & Ht2 & Hw2).
    exists p2, ro2, u2, ag2, t2, d2. split_and!; [done|done|done|lia|lia|exact Hw2].
Qed.

(** ** The run *)

(** The result of a simulation that finishes. *)
Record completed (r : Result) : Prop := {
  cm_agents : rs_AgentCount r = n ∧ rs_RegisteredAgents r = n;
  cm_reads : rs_SnapshotReads r = 3 * n;
  cm_acks : rs_Acknowledgements r = Z.of_nat (length (members n 0)) + Z.of_nat (length (members n 1)) + n;
  cm_final : rs_FinalState r = "COMPLETED" ∧ rs_FinalStage r = "stage-100";
  cm_stages : outline <$> rs_StageResults r = stage_outline <$> [0; 1; 2]%nat }.

Lemma drive_simulation fuel schedule options0 g ag ro t w : normalizeOptions options0 = options →
  (3 <= fuel)%nat → St g ag ro t [] w →
  wp (Run fuel schedule validator Background options0) (λ r w', ∃ result updated ag' ro' t' d',
    r = Ok (Some result) ∧ completed result ∧ St (reg v2_id updated) ag' ro' t' d' w') w.
Proof.
  intros Hopt Hfuel Hw. eapply drive_start; [done|exact Hw|].
  intros started l created t4 w4 Hlen (ag4 & ro4 & d4 & Hrun & Hid & Hf & Ht4 & Hw4).
  wp_step. wp_call (drive_run_stages schedule (o_Concurrency options) (r_ID created) (rg_agents l) Hid 2 0 fuel);
    [lia|lia|exact Hrun|exact Hf|lia| |exact Hw4|]; [by split|].
  intros r w5 (p5 & ro5 & updated & ag5 & t5 & d5 & -> & Hp5 & Hfin & Ht5 & Hw5). cbn beta iota.
  wp_step. wp_call drive_GetRollout_finished; [exact Hfin|exact Hw5|].
  intros r w6 (Hw6 & c & s & u & ts6 & cov & ->). cbn beta iota zeta.
  wp_step. eapply drive_now; [exact Hw6|]. intros t7 w7 Ht7 Hw7. cbn beta iota. wp_step.
  do 6 eexists. split; [done|]. split; [|exact Hw7].
  destruct Hp5 as [Hreads Hacks Hstages]. unfold few in Hfew.
  assert (length (members n 2) = Z.to_nat n) as Hall by (change (members n 2) with (CampaignDrive.members squad 100);
    by rewrite (members_all squad simulated_squad), length_seqZ).
  cbn in Hacks. rewrite Hall in Hacks.
  split; unfold result_of; cbv zeta; cbn [rs_AgentCount rs_RegisteredAgents rs_SnapshotReads rs_Acknowledgements
    rs_FinalState rs_FinalStage rs_StageResults]; [split; [done|lia]|lia|lia|done|exact Hstages].
Qed.

End simulation.
End SimulatorDrive.
