(* ===== verification/ScenarioDrive.v ===== *)
(** The scenarios with pools of workers on a host that behaves, whatever the
    schedulers: the agents that register, those that read their snapshot and
    acknowledge it, and what the rollout is then. *)

From Stdlib Require Import ZArith Lia Ascii SpecFloat.
From S2P Require Import Prelude GoLib Sha256 Host Http Mux Format Parallel ParallelProps Domain Guardrail Registry RegistryStore AgentRegistry AgentStore Rollout RolloutFacts RolloutStore RolloutService RolloutSpec RolloutMemory DataPlane Agent ControlPlane System Simulator Reliability Drive Scenarios CampaignDrive ReliabilityDrive.
Import Domain Rollout Format Parallel ParallelFacts Reliability Scenarios System Drive Process Campaign CampaignDrive ReliabilityDrive.
Open Scope string_scope.
Open Scope list_scope.
Open Scope Z_scope.

Module ScenarioDrive.

Lemma wp_bind_inv {W A B} (m : M W A) (k : A → M W B) (Q : res B → W → Prop) w :
  wp (m ≫= k) Q w →
  wp m (λ r w', match r with Ok a => wp (k a) Q w' | Err e => Q (Err e) w' end) w.
Proof. unfold wp, mbind, M_bind. by destruct (m w) as [[a|e] w']. Qed.

(** * The paths of the agents *)

Lemma simple_app a b : Mux.simple (a +:+ b) = Mux.simple a && Mux.simple b.
Proof.
  induction a as [|c a IH]; [done|]. change (String c a +:+ b) with (String c (a +:+ b)). cbn [Mux.simple].
  by rewrite IH, andb_assoc.
Qed.

Lemma simple_digit z : 0 ≤ z < 10 → Mux.simple_byte (ascii_of_N (48 + Z.to_N z)) = true.
Proof.
  intros Hz. assert (z ∈ seqZ 0 10) as Hin by (apply elem_of_seqZ; lia). clear Hz. revert z Hin.
  apply Forall_forall. by repeat constructor.
Qed.

Lemma simple_digits n : ∀ z rest, Mux.simple rest = true → Mux.simple (last_digits n z rest) = true.
Proof.
  induction n as [|n IH]; intros z rest Hr; [done|]. cbn [last_digits]. apply IH. cbn [Mux.simple].
  rewrite simple_digit, Hr; [done|]. apply Z.mod_pos_bound. lia.
Qed.

Lemma numbered_simple prefix n i : Mux.simple prefix = true → few n → 0 ≤ i < n → Mux.simple (numbered prefix i) = true.
Proof.
  unfold few, numbered, pad0. change (10 ^ Z.of_nat 4) with 10000. intros Hp Hn Hi.
  rewrite (proj2 (Z.ltb_lt _ _)), simple_app, Hp by lia. by apply simple_digits.
Qed.

Lemma agent_dispatch {R} (table : list (Mux.pattern R)) method id last :
  Mux.simple id = true → id ≠ "" → Mux.simple last = true → last ≠ "" →
  Mux.dispatch table method ("/v1/agents/" +:+ id +:+ "/" +:+ last) =
  Mux.find_pattern table method ["v1"; "agents"; id; last].
Proof.
  intros Hid Hne Hl Hln.
  pose proof (Mux.dispatch_join table method [Mux.Text "v1"; Mux.Text "agents"; Mux.Text id; Mux.Text last]
    ltac:(by repeat constructor)) as Hj.
  cbn [Mux.join Mux.part_escaped] in Hj. by rewrite str_app_nil_r in Hj.
Qed.

Lemma dispatch_snapshot id : Mux.simple id = true → id ≠ "" →
  Mux.dispatch DataPlane.routes "GET" ("/v1/agents/" +:+ id +:+ "/snapshot") =
  Some (DataPlane.GetSnapshot_, <["agentID" := id]> ∅).
Proof. intros Hid Hne. exact (agent_dispatch DataPlane.routes "GET" id "snapshot" Hid Hne eq_refl ltac:(done)). Qed.

Lemma dispatch_acknowledgement id : Mux.simple id = true → id ≠ "" →
  Mux.dispatch ControlPlane.routes "POST" ("/v1/agents/" +:+ id +:+ "/acknowledgements") =
  Some (ControlPlane.AgentAcknowledgement_, <["agentID" := id]> ∅).
Proof.
  intros Hid Hne.
  rewrite (agent_dispatch ControlPlane.routes "POST" id "acknowledgements" Hid Hne eq_refl ltac:(done) :
    Mux.dispatch _ _ ("/v1/agents/" +:+ id +:+ "/acknowledgements") = _).
  cbn. destruct (bool_decide ("register" = id)); reflexivity.
Qed.

(** * The pools *)

(** The agents of a scenario, and the host it runs on. *)
Record crew (first deadline : Time) (budget : nat) (h0 : HostState) (h : Harness) (prefix : string) (size : Z) : Prop := {
  cw_host : steady_host first deadline budget h0;
  cw_short : deadline < first + 5 * Minute;
  cw_few : few size;
  cw_draws : (Z.to_nat size <= budget)%nat;
  cw_agents : h_agents h = service;
  cw_prefix : prefix = "concurrent-agent" ∨ prefix = "rollback-agent";
  cw_service : blank (h_service h) = false;
  cw_environment : Environment_Validate (h_environment h) = Ok tt }.

Section pool.
Context `{ControlPlane.RequestDecoder ControlPlane.createTenantRequest,
  ControlPlane.RequestDecoder ControlPlane.createDefinitionRequest,
  ControlPlane.RequestDecoder ControlPlane.createVersionRequest,
  ControlPlane.RequestDecoder ControlPlane.setStableVersionRequest,
  ControlPlane.RequestDecoder ControlPlane.registerAgentRequest,
  ControlPlane.RequestDecoder ControlPlane.acknowledgementRequest,
  ControlPlane.RequestDecoder ControlPlane.createRolloutRequest}.
Context `{Codec DataPlane.Snapshot, Codec Agent.RegisterInput, Codec Agent.registerResponse,
  Codec Agent.AckPayload, Wire, !WireLaws}.
Context {first deadline : Time} {budget : nat} {h0 : HostState} {h : Harness} {prefix : string} {size : Z}
  (Hcrew : crew first deadline budget h0 h prefix size).
Abbreviation Hh := (cw_host _ _ _ _ _ _ _ Hcrew).
Abbreviation Hfew := (cw_few _ _ _ _ _ _ _ Hcrew).
Abbreviation Hagents := (cw_agents _ _ _ _ _ _ _ Hcrew).
Abbreviation Henv := (cw_environment _ _ _ _ _ _ _ Hcrew).
#[local] Existing Instance RegistryStore.memory_store.
#[local] Existing Instance AgentStore.memory_store.
#[local] Existing Instance RolloutMemory.memory_store.
#[local] Existing Instance RolloutService.registry_service.
#[local] Existing Instance Simulator.agent_source.
#[local] Existing Instance DataPlane.registry_source.
#[local] Existing Instance DataPlane.agent_source.
#[local] Existing Instance DataPlane.rollout_source.
#[local] Instance steady sv c e : Steady Process first deadline budget (process_state first h0 sv c e) :=
  process_steady first deadline budget h0 Hh sv c e.
Abbreviation state := (process_state first h0).

Definition ident (i : Z) : string := prefix +:+ "-" +:+ pad0 4 (i + 1).

Lemma ident_numbered i : ident i = numbered (prefix +:+ "-") i.
Proof. unfold ident, numbered. by destruct (cw_prefix _ _ _ _ _ _ _ Hcrew) as [Hp'|Hp']; rewrite Hp'. Qed.
Lemma ident_simple i : 0 ≤ i < size → Mux.simple (ident i) = true.
Proof.
  intros Hi. rewrite ident_numbered. apply (numbered_simple _ size); [|exact Hfew|done].
  by destruct (cw_prefix _ _ _ _ _ _ _ Hcrew) as [Hp'|Hp']; rewrite Hp'.
Qed.
Lemma ident_blank i : blank (ident i) = false ∧ ident i ≠ "".
Proof. unfold ident. by destruct (cw_prefix _ _ _ _ _ _ _ Hcrew) as [Hp'|Hp']; rewrite Hp'. Qed.

Definition squad : Squad AgentIdentity :=
  MkSquad size ident service (h_service h) (h_environment h) (λ i, enrolled_input h (ident i)) MkAgentIdentity.

Lemma scenario_squad : squad_ok squad.
Proof.
  pose proof Hfew. pose proof Henv. destruct Hcrew as [_ _ _ _ _ _ Hservice _].
  split; try done; cbn [squad sq_size sq_ident sq_input sq_registry].
  - intros i j Hi Hj. rewrite !ident_numbered. by apply (numbered_inj _ size).
  - intros i. apply ident_blank.
  - intros i. destruct (ident_blank i). by split_and!.
Qed.

Abbreviation registered := (registered (first := first) squad).
Abbreviation fleet := (fleet (first := first) squad).

(** Both servers run. *)
Record up (sv : Servers) (n m : nat) : Prop := {
  up_control : sv_controlPlane sv = Some (server_URL n);
  up_data : sv_dataPlane sv = Some (server_URL m);
  up_apart : n ≠ m }.

(** ** Registration *)

Lemma drive_register_one i n sv c e reg ag ro t d p l (order : list Z) :
  registered order ag l d → NoDup (order ++ [i]) → 0 ≤ i < size → enrolls h (ident i) →
  sv_controlPlane sv = Some (server_URL n) → state sv c e reg ag ro t d p →
  wp (register_one h Background prefix i) (λ r q, r = Ok tt ∧ ∃ ag' t' d',
    registered (order ++ [i]) ag' q.2 d' ∧ t ≤ t' ≤ deadline ∧ state sv c e reg ag' ro t' d' q.1) (p, l).
Proof.
  intros Hreg Hnd Hi Hen Hsv Hp. unfold register_one. fold (ident i).
  wp_step. apply wp_shared. wp_call drive_RegisterAgent; [exact Hh|exact Hp|exact Hagents|exact Hen|exact Hsv|].
  intros r p1 (at_ & b & -> & Ht & Hb & Hp1). cbn beta iota. apply wp_locally. split; [done|].
  pose proof (st_first (Steady := steady sv c e) _ _ _ _ _ _ Hp).
  do 3 eexists. split; [|split; [|exact Hp1]]; [|lia].
  apply (registered_next (St := state sv c e) squad scenario_squad _ _ _ _ _ _ at_ Hreg); [done|done| |lia].
  apply Hb. eapply (registered_draws squad (budget := budget)); [exact (cw_draws _ _ _ _ _ _ _ Hcrew)|done..].
Qed.

Lemma drive_RegisterAgents schedule concurrency n sv c e reg ro t p :
  state sv c e reg AgentStore.NewMemoryStore ro t [] p →
  (∀ i, 0 ≤ i < size → enrolls h (ident i)) → sv_controlPlane sv = Some (server_URL n) → t ≤ deadline →
  wp (RegisterAgents h schedule Background size concurrency prefix) (λ r p', ∃ l ag t' d', r = Ok l ∧
    fleet ag l ∧ t ≤ t' ≤ deadline ∧ state sv c e reg ag ro t' d' p') p.
Proof.
  intros Hp Hen Hsv Ht. unfold RegisterAgents, make. pose proof Hfew as Hfew'. unfold few in Hfew'.
  wp_step. wp_step; [lia|]. cbv zeta.
  assert (empty_str prefix = false) as -> by (by destruct (cw_prefix _ _ _ _ _ _ _ Hcrew) as [Hp'|Hp']; rewrite Hp').
  rewrite (proj2 (Z.ltb_ge size 0)) by lia. wp_step. wp_step. apply wp_with_locals. unfold runParallel.
  eapply (wp_parallel _ _ (λ order q, ∃ ag t' d', registered order ag q.2 d' ∧ t ≤ t' ≤ deadline ∧
    state sv c e reg ag ro t' d' q.1)).
  - do 3 eexists. split; [|split; [|exact Hp]]; [|done]. apply registered_start. apply repeat_length.
  - intros order i [p1 l] Hnd Hi (ag & t1 & d1 & Hreg & Ht1 & Hp1). cbn [fst snd] in *.
    wp_call drive_register_one; [done|done|done|by apply Hen|exact Hsv|exact Hp1|].
    intros r q (-> & ag' & t2 & d2 & Hreg' & Ht2 & Hq). split; [done|].
    exists ag', t2, d2. split_and!; [done|lia..|done].
  - intros order [p1 l] Ho (ag & t1 & d1 & Hreg & Ht1 & Hp1). cbn [fst snd] in *.
    exists l, ag, t1, d1. split_and!; [done|by eapply registered_fleet|lia|lia|done].
Qed.

(** ** Acknowledgements *)

(** What the agents are told during a stage. *)
Record Told := MkTold {
  to_version : ConfigVersion;
  to_rollout : string;
  to_stage : string;
  to_revision : Z }.
Definition assignment (x : Told) : DataPlane.Assignment := DataPlane.MkAssignment (to_rollout x) (to_stage x).

(** The two ends of an acknowledgement understand each other. *)
Record understood (x : Told) : Prop := {
  un_read : ∀ at_, readable (offered_snapshot (to_version x) (assignment x) (to_revision x) at_);
  un_ack : ∃ body,
    json_Marshal (Agent.ack_payload (offered_item (to_version x) (assignment x)) (to_revision x)) = Ok body ∧
    ControlPlane.json_DecodeStrict body =
    Ok (ControlPlane.MkAcknowledgementRequest cfg_id (v_ID (to_version x)) (to_revision x) (to_rollout x) (to_stage x)) }.

Abbreviation reg updated := (registry seed_text "reliability" (h_environment h) v1_id updated).

Definition next (order : list Z) (i : Z) : Prop :=
  NoDup (order ++ [i]) ∧ ∀ j, j ∈ order ++ [i] → 0 ≤ j < size.

(** A stage that goes on until every agent has acknowledged what it was told:
    [P] holds of the registry and the rollouts after the acknowledgements of
    some agents. *)
Record stage_of (sv : Servers) (c : Agent.SnapshotCache) (e : Agent.Etag) (x : Told)
    (P : list Z → Reg → Ro → Time → Prop) : Prop := {
  sg_version : to_version x ∈ [v1 "reliability"; v2 "reliability"];
  sg_rollout : to_rollout x ≠ "";
  sg_stage : to_stage x ≠ "";
  sg_revision : 1 ≤ to_revision x;
  sg_later : ∀ order g ro t t', t ≤ t' → P order g ro t → P order g ro t';
  sg_offers : ∀ order i g ro t, next order i → P order g ro t →
    (∃ updated, g = reg updated) ∧ ∃ act, serving (h_environment h) ro act ∧
      offered v1_id act (ident i) = (v_ID (to_version x), assignment x, to_revision x);
  sg_acked : ∀ order i g ro ag l t d p, next order i → P order g ro t → fleet ag l → state sv c e g ag ro t d p →
    wp (RolloutService.Acknowledge (rollouts sv) Background
          (RolloutService.MkAcknowledgeInput (to_rollout x) (to_stage x) (ident i) (v_ID (to_version x)) (to_revision x)))
      (λ r p', is_ok r = true ∧ ∃ g' ro' t', P (order ++ [i]) g' ro' t' ∧ t ≤ t' ≤ deadline ∧
        state sv c e g' ag ro' t' d p') p }.

Lemma drive_acknowledge_item sv c e x P order i y cr g ro ag l n m t d p :
  stage_of sv c e x P → understood x → up sv n m → next order i → P order g ro t → fleet ag l →
  AgentStore.ms_credentials ag !! ("cred_" +:+ y) = Some cr → c_AgentID cr = ident i → deadline < c_ExpiresAt cr →
  state sv c e g ag ro t d p →
  wp (AcknowledgeSnapshotItem h Background (MkAgentIdentity (ident i) ("cred_" +:+ y))
        (offered_item (to_version x) (assignment x)) (to_revision x)) (λ r p', r = Ok tt ∧ ∃ g' ag' ro' t' d',
    P (order ++ [i]) g' ro' t' ∧ fleet ag' l ∧ t ≤ t' ≤ deadline ∧ state sv c e g' ag' ro' t' d' p') p.
Proof.
  intros Hst [_ (body & Hm & Hdec)] [Hsv _ _] Hnext HP Hf Hcr Hcid Hexp Hp.
  assert (0 ≤ i < size) as Hi by (apply Hnext; set_solver).
  unfold AcknowledgeSnapshotItem, ControlPlaneURL. wp_step. wp_step. eapply drive_gets_servers; [exact Hp|]. rewrite Hsv.
  wp_step. unfold Agent.Acknowledge. cbn [id_ID id_Token]. rewrite Hm. wp_step. wp_step. wp_step.
  unfold Agent.ack_request. rewrite server_URL_plain. cbv zeta.
  eapply wp_control; [eapply get_servers; exact Hp|exact Hsv|apply dispatch_acknowledgement; [by apply ident_simple|apply ident_blank]|].
  unfold ControlPlane.handle, ControlPlane.agentAcknowledgement. cbn [ControlPlane.h_agents].
  unfold ControlPlane.decodeRequest. cbn [rq_body]. rewrite Hdec. wp_step. wp_step.
  change (ControlPlane.bearerToken _) with (bearer_token ("Bearer " +:+ "cred_" +:+ y)).
  change (PathValue _ _) with (ident i). rewrite bearer_credential.
  cbn [ControlPlane.aq_ConfigDefinitionID ControlPlane.aq_VersionID ControlPlane.aq_SnapshotRevision].
  wp_call (drive_AgentAcknowledge (St := state sv c e));
    [exact Hcr|exact Hcid|apply credential_not_blank|exact Hexp|done| |apply Hst|exact Hp|].
  { cbn. pose proof (sg_version _ _ _ _ _ Hst) as Hv. rewrite !elem_of_cons, elem_of_nil in Hv. by destruct Hv as [->|[->|[]]]. }
  intros [ack|err] p1 [Hok (ag1 & t1 & d1 & Hsame & Ht1 & Hp1)]; [|done]. cbn beta iota.
  apply (fleet_same squad _ _ _ Hsame) in Hf. apply (sg_later _ _ _ _ _ Hst _ _ _ t t1) in HP; [|lia].
  unfold ControlPlane.rollout_acknowledgement. cbn [ControlPlane.h_rollouts ControlPlane.aq_RolloutID ControlPlane.aq_StageID
    ControlPlane.aq_VersionID ControlPlane.aq_SnapshotRevision].
  rewrite (proj2 (empty_str_false _) (sg_rollout _ _ _ _ _ Hst)), (proj2 (empty_str_false _) (sg_stage _ _ _ _ _ Hst)).
  cbn [negb andb]. unfold ControlPlane.reply. wp_step. wp_step.
  wp_call (sg_acked _ _ _ _ _ Hst order i); [exact Hnext|exact HP|exact Hf|exact Hp1|].
  intros [result|err] p2 [Hok2 (g2 & ro2 & t2 & HP2 & Ht2 & Hp2)]; [|done]. cbn beta iota. wp_step.
  unfold ControlPlane.writeJSON, answer. cbn [rs_status hp_StatusCode]. rewrite Z.eqb_refl. cbn [negb]. wp_step.
  split; [done|]. exists g2, ag1, ro2, t2, d1. split_and!; [done|done|lia|lia|done].
Qed.

(** An agent reads its snapshot, and acknowledges what it is told. *)
Lemma drive_assigned_ack sv c e x P order i count g ro ag l n m t d p :
  stage_of sv c e x P → understood x → up sv n m → next order i → P order g ro t → fleet ag l →
  state sv c e g ag ro t d p →
  wp (acknowledge_stage_of h Background l (to_stage x) i) (λ r q, r = Ok tt ∧ q.2 = count + 1 ∧ ∃ g' ag' ro' t' d',
    P (order ++ [i]) g' ro' t' ∧ fleet ag' l ∧ t ≤ t' ≤ deadline ∧ state sv c e g' ag' ro' t' d' q.1) (p, count).
Proof.
  intros Hst Hun Hup Hnext HP Hf Hp. pose proof Hup as [Hsv Hdv Hne].
  assert (0 ≤ i < size) as Hi by (apply Hnext; set_solver).
  destruct (fl_enrolled _ _ _ Hf i Hi) as (at0 & y & Ha & Hcr & Hat0 & Hpair).
  destruct (sg_offers _ _ _ _ _ Hst order i g ro t Hnext HP) as [[updated Hg] (act & Hact & Hoff)].
  pose proof (credit_lives squad scenario_squad i y at0 (cw_short _ _ _ _ _ _ _ Hcrew) Hat0) as Hexp. subst g.
  unfold acknowledge_stage_of. wp_step. unfold RolloutService.index. rewrite (proj2 (Z.leb_le 0 i)) by lia. rewrite Hpair.
  wp_step. wp_step. apply wp_shared. unfold FetchSnapshot, DataPlaneURL. wp_step. wp_step.
  eapply drive_gets_servers; [exact Hp|]. rewrite Hdv. wp_step. cbn [squad sq_pair id_ID id_Token].
  wp_step. wp_call (drive_Fetch first deadline budget h0 Hh "reliability" (h_environment h) updated h (ident i) y
    (credit squad i y at0) (record_of squad i at0) n m act (to_version x) (assignment x) (to_revision x) v1_id);
    [exact Hp|apply Hun|exact Hsv|exact Hdv|exact Hne|apply dispatch_snapshot; [by apply ident_simple|apply ident_blank]|
     exact Hcr|done|exact Hexp|exact Ha|done|done|done|exact Hact|exact Hoff| |].
  { pose proof (sg_version _ _ _ _ _ Hst) as Hv. rewrite !elem_of_cons, elem_of_nil in Hv. by destruct Hv as [->|[->|[]]]. }
  intros r p1 (at1 & etag & -> & Ht1 & Hp1). cbn beta iota. wp_step. cbn [Agent.fr_Snapshot].
  unfold offered_snapshot. cbn [DataPlane.sn_Configs DataPlane.sn_Revision for_each].
  wp_step. unfold offered_item. cbn [DataPlane.si_Assignment assignment DataPlane.as_StageID].
  rewrite bool_decide_true by done. cbn [negb].
  assert ((if 1 <? to_revision x then to_revision x else 1) = to_revision x) as ->.
  { pose proof (sg_revision _ _ _ _ _ Hst). destruct (Z.ltb_spec 1 (to_revision x)); lia. }
  apply (sg_later _ _ _ _ _ Hst _ _ _ t at1) in HP; [|lia].
  wp_step. apply wp_shared. fold (offered_item (to_version x) (assignment x)).
  wp_call (drive_acknowledge_item sv c e x P order i y (credit squad i y at0));
    [exact Hst|exact Hun|exact Hup|exact Hnext|exact HP|exact Hf|exact Hcr|done|exact Hexp|exact Hp1|].
  intros r p2 (-> & g2 & ag2 & ro2 & t2 & d2 & HP2 & Hf2 & Ht2 & Hp2). cbn beta iota. apply wp_locally. cbn beta iota.
  wp_step. split_and!; [done..|]. exists g2, ag2, ro2, t2, d2. split_and!; [done|done|lia|lia|done].
Qed.

(** The pool of a stage. *)
Lemma drive_AcknowledgeAssignedStage x schedule concurrency sv c e P g ro ag l n m t d p :
  state sv c e g ag ro t d p → stage_of sv c e x P → understood x → up sv n m → P [] g ro t → fleet ag l → t ≤ deadline →
  wp (AcknowledgeAssignedStage h schedule Background l (to_stage x) concurrency) (λ r p', r = Ok size ∧ ∃ order g' ag' ro' t' d',
    order ≡ₚ seqZ 0 size ∧ P order g' ro' t' ∧ fleet ag' l ∧ t ≤ t' ≤ deadline ∧ state sv c e g' ag' ro' t' d' p') p.
Proof.
  intros Hp Hst Hun Hup HP Hf Ht. pose proof Hfew as Hfew'. unfold few in Hfew'. unfold AcknowledgeAssignedStage, runParallel.
  rewrite (fl_length _ _ _ Hf). change (sq_size squad) with size. rewrite Z2Nat.id by lia. apply wp_with_locals.
  eapply (wp_parallel _ _ (λ order q, (∀ j, j ∈ order → 0 ≤ j < size) ∧ q.2 = Z.of_nat (length order) ∧
    ∃ g' ag' ro' t' d', P order g' ro' t' ∧ fleet ag' l ∧ t ≤ t' ≤ deadline ∧ state sv c e g' ag' ro' t' d' q.1)).
  - split; [by intros j ?%elem_of_nil|]. split; [done|]. exists g, ag, ro, t, d. split_and!; [done|done|lia|lia|exact Hp].
  - intros order i [p1 count] Hnd Hi (Hrange & Hcount & g1 & ag1 & ro1 & t1 & d1 & HP1 & Hf1 & Ht1 & Hp1). cbn [fst snd] in *.
    assert (next order i) as Hnext.
    { split; [done|]. intros j [Hj|Hj%list_elem_of_singleton]%elem_of_app; [by apply Hrange|by subst j]. }
    wp_call (drive_assigned_ack sv c e x P order i count);
      [exact Hst|exact Hun|exact Hup|exact Hnext|exact HP1|exact Hf1|exact Hp1|].
    intros r q (-> & Hq & g2 & ag2 & ro2 & t2 & d2 & HP2 & Hf2 & Ht2 & Hp2). split; [done|].
    split; [apply Hnext|]. split; [rewrite Hq, Hcount, length_app; cbn; lia|].
    exists g2, ag2, ro2, t2, d2. split_and!; [done|done|lia|lia|done].
  - intros order [p1 count] Ho (Hrange & Hcount & g1 & ag1 & ro1 & t1 & d1 & HP1 & Hf1 & Ht1 & Hp1). cbn [fst snd] in *.
    split; [|exists order, g1, ag1, ro1, t1, d1; split_and!; [done|done|done|lia|lia|done]].
    rewrite Hcount, Ho, length_seqZ, Z2Nat.id by lia. done.
Qed.

(** ** The rollout to every agent *)

Abbreviation env := (h_environment h).
Abbreviation ids := (seqZ 0 size).
Abbreviation cohort := (cohort ident ids).

Lemma ids_inj i j : i ∈ ids → j ∈ ids → ident i = ident j → i = j.
Proof. intros Hi%elem_of_seqZ Hj%elem_of_seqZ. by apply (so_inj _ scenario_squad); cbn; lia. Qed.

Lemma next_pending order i : next order i →
  i ∈ ids ∧ i ∉ order ∧ (length order < length ids)%nat ∧ (length (order ++ [i]) <= length ids)%nat.
Proof.
  intros [Hnd Hr]. pose proof (done_short size order i Hnd Hr). rewrite length_app, length_seqZ. cbn [length].
  assert (0 ≤ i < size) by (apply Hr; set_solver). split_and!; [apply elem_of_seqZ; lia| |lia|lia].
  apply NoDup_app in Hnd as (_ & Hdis & _). set_solver.
Qed.

Lemma none_yet : Nat.eqb (length (@nil Z)) (length ids) = false.
Proof. apply Nat.eqb_neq. pose proof Hfew as Hfew'. unfold few in Hfew'. rewrite length_seqZ. cbn [length]. lia. Qed.
Lemma all_done order : order ≡ₚ ids → Nat.eqb (length order) (length ids) = true.
Proof. intros Ho. by rewrite (Permutation_length Ho), Nat.eqb_refl. Qed.

Lemma cohort_complete id sid v rev order ts : cohort id sid v rev order ts → (length order <= length ids)%nat →
  CoverageReached ts (f_of_int 100) = Nat.eqb (length order) (length ids).
Proof.
  intros Hc Hle. pose proof Hfew as Hfew'. unfold few in Hfew'. apply (cohort_reached _ _ _ _ _ _ _ _ Hc); [|done]. rewrite length_seqZ. lia.
Qed.

Section rollout.
Context (rules : list Guardrail.Rule) (rollback : Duration) (id : string) (Hid : id ≠ "").
Abbreviation plan := [stage_100].
Abbreviation rollout_at state sid failures started status created updated :=
  (campaign_rollout squad rules (5 * Minute) (15 * Minute) rollback id state sid 0 failures started status created updated).
Abbreviation key sid := (RolloutStore.targetKey id sid).

Lemma key_inj sid sid' : key sid = key sid' → sid = sid'.
Proof.
  intros Heq. unfold RolloutStore.targetKey, nul_key in Heq. apply (inj (String.append id)) in Heq. by injection Heq.
Qed.

(** The candidate is being deployed; some agents have acknowledged it. *)
Definition deploying (order : list Z) (g : Reg) (ro : Ro) (t : Time) : Prop :=
  ∃ created ts tg, ro = ro_store env plan (rollout_at StateDeploying "stage-100" ∅ created RollbackStatusNone created created) tg 2 ∧
    first ≤ created ≤ t ∧ targets_at (key "stage-100") tg = ts ∧
    (∀ sid, sid ≠ "stage-100" → targets_at (key sid) tg = []) ∧
    cohort id "stage-100" v2_id 1 order ts ∧ ∃ updated, g = reg updated.

Lemma deploying_later order g ro t t' : t ≤ t' → deploying order g ro t → deploying order g ro t'.
Proof.
  intros Ht (created & ts & tg & Hro & Hc & Hrest). exists created, ts, tg. split; [done|]. split; [lia|done].
Qed.

Definition candidate : Told := MkTold (v2 "reliability") id "stage-100" 1.

Lemma deploying_offers order i g ro t : next order i → deploying order g ro t →
  (∃ updated, g = reg updated) ∧ ∃ act, serving env ro act ∧
    offered v1_id act (ident i) = (v_ID (to_version candidate), assignment candidate, 1).
Proof.
  intros (Hi & _)%next_pending (created & ts & tg & -> & _ & <- & _ & Hc & Hg). split; [done|].
  set (r := rollout_at _ _ _ _ _ _ _) in *. eexists. split.
  - by apply (serving_ro squad plan r).
  - unfold offered. cbv zeta. change (r_CurrentStageID r) with "stage-100". change (r_ID r) with id.
    rewrite (cohort_member ident ids r "stage-100" v2_id 1 order _ i Hc) by done.
    cbn [ev_AssignedRollout ev_VersionID ev_AssignedStage ev_SnapshotRevision]. change (r_ID r) with id.
    by rewrite (proj2 (empty_str_false _) Hid).
Qed.

(** What happens to an acknowledgement of the candidate, up to the decision on
    the complete cohort. *)
Lemma drive_deploying_ack (s : RolloutService.Service Process) order i g ro ag t d p sv c e
    (Q : res RolloutService.AcknowledgeResult → Process → Prop) :
  next order i → deploying order g ro t → state sv c e g ag ro t d p →
  (∀ created ts tg t' p', let r := rollout_at StateDeploying "stage-100" ∅ created RollbackStatusNone created created in
     first ≤ created ≤ t' → targets_at (key "stage-100") tg = ts →
     (∀ sid, sid ≠ "stage-100" → targets_at (key sid) tg = []) → cohort id "stage-100" v2_id 1 (order ++ [i]) ts →
     t ≤ t' ≤ deadline → state sv c e g ag (ro_store env plan r tg 2) t' d p' →
     if Nat.eqb (length (order ++ [i])) (length ids) then
       wp (dr ← (if Nat.eqb (length rules) 0 then mret (DecisionPromote, r)
                 else
                   sr ← RolloutService.evaluateGuardrails s Background r t';
                   let '(status, rollout) := sr in
                   match status with
                   | Guardrail.StatusHealthy => mret (DecisionPromote, rollout)
                   | Guardrail.StatusUnhealthy => mret (DecisionRollback, rollout)
                   | Guardrail.StatusUnknown => mret (DecisionPause, rollout)
                   end);
           let '(decision, rollout) := dr in
           rollout ← RolloutService.apply_decision Background decision rollout plan;
           mret (RolloutService.MkAcknowledgeResult true (AcknowledgementCoverage ts) decision rollout)) Q p'
     else ∀ result, Q (Ok result) p') →
  wp (RolloutService.Acknowledge s Background
        (RolloutService.MkAcknowledgeInput id "stage-100" (ident i) v2_id 1)) Q p.
Proof.
  intros Hnext (created & ts & tg & -> & Hcreated & Hts & Hothers & Hc & Hg) Hp HQ.
  destruct (next_pending _ _ Hnext) as (Hi & Hni & _ & Hle).
  set (r := rollout_at StateDeploying _ _ _ _ _ _) in *.
  eapply (CampaignDrive.drive_Acknowledge (St := state sv c e) squad plan _ ids r _ _ i order);
    [exact ids_inj|done|exact Hts|exact Hc|exact Hi|exact Hni|exact Hp|].
  change (r_ID r) with id. change (r_CurrentStageID r) with "stage-100".
  intros ts' t5 p5 Hc' Ht5 Hp5. rewrite decide_False by done.
  change (RolloutService.stage_index_error r plan) with false. cbn [guard_err]. wp_step. wp_step. cbn beta iota.
  wp_step. change (RolloutService.index plan (r_CurrentStageIndex r)) with (mret stage_100 : M Process Stage). wp_step. cbn beta iota.
  wp_step. eapply (drive_decision (St := state sv c e) squad rules (5 * Minute) (15 * Minute) rollback);
    [exact (cw_short _ _ _ _ _ _ _ Hcrew)|unfold Minute, Second; lia..|done|by apply (cohort_complete _ _ _ _ _ _ Hc')|apply Hcreated| |exact Hp5|]; [lia|].
  intros t6 p6 Ht6 Hp6.
  specialize (HQ created ts' (<[key "stage-100" := ts']> tg) t6 p6). cbv zeta in HQ. fold r in HQ.
  assert (targets_at (key "stage-100") (<[key "stage-100" := ts']> tg) = ts') as Hk by (unfold targets_at; by rewrite lookup_insert_eq).
  assert (∀ sid, sid ≠ "stage-100" → targets_at (key sid) (<[key "stage-100" := ts']> tg) = []) as Hothers'.
  { intros sid Hsid. unfold targets_at. rewrite lookup_insert_ne; [by apply Hothers|].
    intros Heq%key_inj. congruence. }
  specialize (HQ ltac:(lia) Hk Hothers' Hc' ltac:(lia) Hp6).
  destruct (Nat.eqb (length (order ++ [i])) (length ids)).
  - by apply wp_bind_inv.
  - cbn beta iota. wp_step. cbn [RolloutService.apply_decision]. wp_step. cbn beta iota. wp_step. apply HQ.
Qed.
(** *** Without guardrails *)

(** Every agent has acknowledged: the candidate is the stable version. *)
Definition completed (order : list Z) (g : Reg) (ro : Ro) : Prop :=
  ∃ created ts tg ended, ro = ro_store env plan (rollout_at StateCompleted "stage-100" ∅ created RollbackStatusNone created ended) tg 2 ∧
    targets_at (key "stage-100") tg = ts ∧ cohort id "stage-100" v2_id 1 order ts ∧
    ∃ updated, g = registry seed_text "reliability" env v2_id updated.

Definition unguarded (order : list Z) (g : Reg) (ro : Ro) (t : Time) : Prop :=
  if Nat.eqb (length order) (length ids) then completed order g ro else deploying order g ro t.

Lemma unguarded_going order i g ro t : next order i → unguarded order g ro t → deploying order g ro t.
Proof. intros (_ & _ & Hlt & _)%next_pending. unfold unguarded. by rewrite (proj2 (Nat.eqb_neq _ _)) by lia. Qed.

Lemma deploying_next order t created ts tg g' : first ≤ created ≤ t → targets_at (key "stage-100") tg = ts →
  (∀ sid, sid ≠ "stage-100" → targets_at (key sid) tg = []) → cohort id "stage-100" v2_id 1 order ts →
  (∃ updated, g' = reg updated) →
  deploying order g' (ro_store env plan (rollout_at StateDeploying "stage-100" ∅ created RollbackStatusNone created created) tg 2) t.
Proof. intros Hc Hk Ho Hcohort Hg. exists created, ts, tg. split_and!; [done|lia|lia|assumption..]. Qed.

Lemma unguarded_stage sv c e : rules = [] → stage_of sv c e candidate unguarded.
Proof.
  intros Hrules. split; cbn [candidate to_version to_rollout to_stage to_revision]; [set_solver|done|done|lia|..].
  - intros order g ro t t' Ht. unfold unguarded. destruct (Nat.eqb _ _); [done|by apply deploying_later].
  - intros order i g ro t Hnext Hun. by apply (deploying_offers order i g ro t), (unguarded_going order i).
  - intros order i g ro ag l t d p Hnext Hun Hf Hp. pose proof (unguarded_going _ _ _ _ _ Hnext Hun) as Hd.
    assert (∃ updated, g = reg updated) as [updated ->] by (by destruct Hd as (? & ? & ? & _ & _ & _ & _ & _ & ?)).
    eapply drive_deploying_ack; [exact Hnext|exact Hd|exact Hp|].
    intros created ts tg t1 p1. cbv zeta. intros Hc Hk Hothers Hcohort Ht1 Hp1. unfold unguarded.
    destruct (Nat.eqb (length (order ++ [i])) (length ids)) eqn:Hall.
    + rewrite Hrules in *. cbn [length Nat.eqb]. wp_step. wp_step. cbn beta iota. wp_step.
      cbn [RolloutService.apply_decision].
      wp_call (drive_complete (St := state sv c e) squad scenario_squad seed_text "reliability" [] (5 * Minute) (15 * Minute)
        rollback plan id); [|exact Hp1|]; [done|].
      intros [r|err] p2 [Hok (t2 & u & Ht2 & Hp2)]; [|done]. cbn beta iota. wp_step. split; [done|].
      do 3 eexists. split; [|split; [|exact Hp2]]; [|lia]. exists created, ts, tg, t2. rewrite Hrules. by split_and!; eauto.
    + intros result. split; [done|]. do 3 eexists. split; [|split; [|exact Hp1]]; [|lia].
      eapply deploying_next; [done|exact Hk|done|exact Hcohort|by eexists].
Qed.
Lemma unguarded_start g ro t : deploying [] g ro t → unguarded [] g ro t.
Proof. unfold unguarded. by rewrite none_yet. Qed.
Lemma unguarded_end order g ro t : order ≡ₚ ids → unguarded order g ro t → completed order g ro.
Proof. intros Ho. unfold unguarded. by rewrite all_done. Qed.

(** *** With a guardrail that fails *)

(** Every agent has acknowledged: the rollout is rolled back. *)
Definition withdrawn (order : list Z) (g : Reg) (ro : Ro) : Prop :=
  ∃ failures created ts tg updated,
    ro = ro_store env plan (rollout_at StateRollingBack "stage-100" failures created RollbackStatusNone created updated) tg 2 ∧
    targets_at (key "stage-100") tg = ts ∧ (∀ sid, sid ≠ "stage-100" → targets_at (key sid) tg = []) ∧
    cohort id "stage-100" v2_id 1 order ts ∧ ∃ updated, g = reg updated.

Definition guarded (order : list Z) (g : Reg) (ro : Ro) (t : Time) : Prop :=
  if Nat.eqb (length order) (length ids) then withdrawn order g ro else deploying order g ro t.

Lemma guarded_going order i g ro t : next order i → guarded order g ro t → deploying order g ro t.
Proof. intros (_ & _ & Hlt & _)%next_pending. unfold guarded. by rewrite (proj2 (Nat.eqb_neq _ _)) by lia. Qed.

Lemma five_percent_unhealthy at_ : ∃ evaluation,
  Guardrail.EvaluateQueryResult error_rate (Ok five_percent) 0 at_ = Ok evaluation ∧
  Guardrail.e_Status evaluation = Guardrail.StatusUnhealthy.
Proof. eexists. split; [vm_compute; reflexivity|reflexivity]. Qed.

Lemma drive_Query value query at_ sv c e g ag ro t d p : state sv c e g ag ro t d p →
  wp (Query (MkStaticQueryer value None) Background query at_) (λ r p', r = Ok value ∧ state sv c e g ag ro t d p') p.
Proof.
  intros Hp. unfold Query. wp_step. unfold wp at 1, ctx_Err.
  destruct (st_ctx (Steady := steady sv c e) _ _ _ _ _ _ Hp) as [Hctx Hp1].
  destruct (env_ctx Background p) as [x p1]. cbn [fst snd] in *. subst x.
  wp_step. apply wp_ret. cbn [sq_err sq_value]. by wp_step.
Qed.

(** The guardrail is evaluated and fails. *)
Lemma drive_evaluateGuardrails sv c e created tg at_ g ag t d p :
  rules = [error_rate] → sv_queryer sv = Some (MkStaticQueryer five_percent None) →
  let r := rollout_at StateDeploying "stage-100" ∅ created RollbackStatusNone created created in
  state sv c e g ag (ro_store env plan r tg 2) t d p →
  wp (RolloutService.evaluateGuardrails (rollouts sv) Background r at_) (λ res p', ∃ failures,
    let r' := rollout_at StateDeploying "stage-100" failures created RollbackStatusNone created at_ in
    res = Ok (Guardrail.StatusUnhealthy, r') ∧ state sv c e g ag (ro_store env plan r' tg 2) t d p') p.
Proof.
  intros Hrules Hq r Hp. unfold RolloutService.evaluateGuardrails, rollouts. rewrite Hq.
  cbn [RolloutService.SetGuardrailQueryer RolloutService.svc_queryer].
  assert (r_Guardrails r = [error_rate]) as -> by exact Hrules.
  change (r_GuardrailFailures r) with (∅ : gmap string Z).
  wp_step. cbn [fold_m]. wp_step. change (default 0 ((∅ : gmap string Z) !! Guardrail.g_Name error_rate)) with 0.
  wp_step. wp_step. wp_step. wp_call drive_Query; [exact Hp|]. intros res p1 [-> Hp1]. cbn beta iota.
  destruct (five_percent_unhealthy at_) as (ev & -> & Hev).
  wp_step. wp_step. wp_step. cbn beta iota. set (failures := <[_ := _]> _).
  change (set_failures r failures at_) with
    (rollout_at StateDeploying "stage-100" failures created RollbackStatusNone created at_).
  wp_step. eapply drive_ro; [exact Hp1|apply (ro_update env plan r); done|]. intros p2 Hp2. cbn beta iota. wp_step.
  exists failures. split; [|exact Hp2]. cbn. by rewrite Hev.
Qed.

Lemma guarded_stage sv c e : rules = [error_rate] → sv_queryer sv = Some (MkStaticQueryer five_percent None) →
  stage_of sv c e candidate guarded.
Proof.
  intros Hrules Hq. split; cbn [candidate to_version to_rollout to_stage to_revision]; [set_solver|done|done|lia|..].
  - intros order g ro t t' Ht. unfold guarded. destruct (Nat.eqb _ _); [done|]. by apply (deploying_later order g ro t t').
  - intros order i g ro t Hnext Hun. by apply (deploying_offers order i g ro t), (guarded_going order i).
  - intros order i g ro ag l t d p Hnext Hun Hf Hp. pose proof (guarded_going _ _ _ _ _ Hnext Hun) as Hd.
    assert (∃ updated, g = reg updated) as [updated ->] by (by destruct Hd as (? & ? & ? & _ & _ & _ & _ & _ & ?)).
    eapply drive_deploying_ack; [exact Hnext|exact Hd|exact Hp|].
    intros created ts tg t1 p1. cbv zeta. intros Hc Hk Hothers Hcohort Ht1 Hp1. unfold guarded.
    destruct (Nat.eqb (length (order ++ [i])) (length ids)) eqn:Hall.
    + assert (Nat.eqb (length rules) 0 = false) as -> by (by rewrite Hrules).
      wp_step. wp_step. wp_call drive_evaluateGuardrails; [exact Hrules|exact Hq|exact Hp1|].
      intros r p2 (failures & -> & Hp2). cbn beta iota. wp_step. cbn beta iota. wp_step.
      cbn [RolloutService.apply_decision]. unfold RolloutService.startRollback. rewrite decide_False by done.
      unfold RolloutService.transition.
      change (Transition (r_State _) StateRollingBack) with (Ok tt : res unit). wp_step. wp_step. cbn beta iota.
      wp_step. eapply drive_now; [exact Hp2|]. intros t3 p3 Ht3 Hp3. cbn beta iota. cbv zeta.
      set (r' := set_state _ _ _).
      change r' with (rollout_at StateRollingBack "stage-100" failures created RollbackStatusNone created t3). clear r'.
      wp_step. eapply drive_ro; [exact Hp3|by apply (ro_update env plan)|]. intros p4 Hp4. cbn beta iota. wp_step. wp_step.
      split; [done|]. do 3 eexists. split; [|split; [|exact Hp4]]; [|lia].
      exists failures, created, ts, tg, t3. split_and!; [done|exact Hk|done|exact Hcohort|by eexists].
    + intros result. split; [done|]. do 3 eexists. split; [|split; [|exact Hp1]]; [|lia].
      eapply deploying_next; [done|exact Hk|done|exact Hcohort|by eexists].
Qed.
Lemma guarded_start g ro t : deploying [] g ro t → guarded [] g ro t.
Proof. unfold guarded. by rewrite none_yet. Qed.
Lemma guarded_end order g ro t : order ≡ₚ ids → guarded order g ro t → withdrawn order g ro.
Proof. intros Ho. unfold guarded. by rewrite all_done. Qed.

(** *** The verification of a rollback *)

Definition vsid : string := RolloutService.rollbackVerificationStageID id.
Definition verification_plan : list Stage := plan ++ [MkStage vsid 100 0].
Definition verification : Told := MkTold (v1 "reliability") id vsid 2.

Lemma vsid_apart : vsid ≠ "stage-100".
Proof. apply not_eq_sym. apply (RolloutSpec.short_not_verification "stage-100"). cbn. lia. Qed.

(** The agents are asked to confirm the stable version; some have. *)
Definition verifying (order : list Z) (g : Reg) (ro : Ro) (t : Time) : Prop :=
  ∃ failures created started ts tg updated,
    ro = ro_store env verification_plan
           (rollout_at StateRollingBack vsid failures started RollbackStatusNone created updated) tg 3 ∧
    first ≤ started ≤ t ∧ targets_at (key vsid) tg = ts ∧ cohort id vsid v1_id 2 order ts ∧ ∃ updated, g = reg updated.

(** Every agent has confirmed. *)
Definition verified (order : list Z) (g : Reg) (ro : Ro) : Prop :=
  ∃ failures created started ts tg updated,
    ro = ro_store env verification_plan
           (rollout_at StateRolledBack vsid failures started RollbackStatusVerified created updated) tg 3 ∧
    targets_at (key vsid) tg = ts ∧ cohort id vsid v1_id 2 order ts ∧ ∃ updated, g = reg updated.

Definition propagated (order : list Z) (g : Reg) (ro : Ro) (t : Time) : Prop :=
  if Nat.eqb (length order) (length ids) then verified order g ro else verifying order g ro t.

Lemma propagated_going order i g ro t : next order i → propagated order g ro t → verifying order g ro t.
Proof. intros (_ & _ & Hlt & _)%next_pending. unfold propagated. by rewrite (proj2 (Nat.eqb_neq _ _)) by lia. Qed.

Lemma verifying_later order g ro t t' : t ≤ t' → verifying order g ro t → verifying order g ro t'.
Proof.
  intros Ht (failures & created & started & ts & tg & updated & Hro & Hs & Hrest).
  exists failures, created, started, ts, tg, updated. split; [done|]. split; [lia|done].
Qed.

Lemma verifying_offers order i g ro t : next order i → verifying order g ro t →
  (∃ updated, g = reg updated) ∧ ∃ act, serving env ro act ∧
    offered v1_id act (ident i) = (v_ID (to_version verification), assignment verification, 2).
Proof.
  intros (Hi & _)%next_pending (failures & created & started & ts & tg & updated & -> & _ & <- & Hc & Hg). split; [done|].
  set (r := rollout_at _ _ _ _ _ _ _) in *. eexists. split.
  - by apply (serving_ro squad verification_plan r).
  - unfold offered. cbv zeta. change (r_CurrentStageID r) with vsid. change (r_ID r) with id.
    rewrite (cohort_rolled_back ident ids r vsid 2 order _ i Hc) by done.
    cbn [ev_AssignedRollout ev_VersionID ev_AssignedStage ev_SnapshotRevision]. change (r_ID r) with id.
    by rewrite (proj2 (empty_str_false _) Hid).
Qed.

(** The targets of the verification are a new cohort. *)
Lemma cohort_rollback r order ts revision now : r_ID r = id → r_StableVersionID r = v1_id →
  cohort id "stage-100" v2_id 1 order ts →
  cohort id vsid v1_id revision [] (RolloutService.rollback_target r revision now <$> ts).
Proof.
  intros Hr Hs [Ha _ _ _]. split.
  - rewrite <-Ha, <-list_fmap_compose. done.
  - intros t (t' & -> & _)%list_elem_of_fmap. unfold vsid. rewrite <-Hr, <-Hs. by split_and!.
  - by intros t i (t' & -> & _)%list_elem_of_fmap.
  - cbn. clear. by induction ts.
Qed.

Lemma propagated_stage sv c e : 0 < rollback → deadline < first + rollback → stage_of sv c e verification propagated.
Proof.
  intros Hpos Hin. split; cbn [verification to_version to_rollout to_stage to_revision]; [set_solver|done| |lia|..].
  - unfold vsid, RolloutService.rollbackVerificationStageID. by destruct id.
  - intros order g ro t t' Ht. unfold propagated. destruct (Nat.eqb _ _); [done|]. by apply (verifying_later order g ro t t').
  - intros order i g ro t Hnext Hun. by apply (verifying_offers order i g ro t), (propagated_going order i).
  - intros order i g ro ag l t d p Hnext Hun Hf Hp.
    destruct (propagated_going _ _ _ _ _ Hnext Hun)
      as (failures & created & started & ts & tg & updated & -> & Hs & Hk & Hc & Hg).
    destruct (next_pending _ _ Hnext) as (Hi & Hni & _ & Hle).
    set (r := rollout_at StateRollingBack _ _ _ _ _ _) in *.
    eapply (CampaignDrive.drive_Acknowledge (St := state sv c e) squad verification_plan _ ids r _ _ i order);
      [exact ids_inj|done|exact Hk|exact Hc|exact Hi|exact Hni|exact Hp|].
    change (r_ID r) with id. change (r_CurrentStageID r) with vsid.
    intros ts' t5 p5 Hc' Ht5 Hp5. rewrite decide_True by done. wp_step. unfold RolloutService.reconcileRollback. cbv zeta.
    change (r_CurrentStageID r) with vsid. change (r_ID r) with id. rewrite bool_decide_true by done. cbn [negb].
    change (r_RequiredAckPercent r) with (f_of_int 100). rewrite (cohort_complete _ _ _ _ _ _ Hc' Hle).
    assert (Nat.eqb (length ts') 0 = false) as ->.
    { apply Nat.eqb_neq. rewrite (cohort_length _ _ _ _ _ _ _ _ Hc'), length_seqZ. pose proof Hfew as Hfew'. unfold few in Hfew'. lia. }
    rewrite orb_false_r.
    assert (targets_at (key vsid) (<[key vsid := ts']> tg) = ts') as Hk' by (unfold targets_at; by rewrite lookup_insert_eq).
    unfold propagated. destruct (Nat.eqb (length (order ++ [i])) (length ids)) eqn:Hall.
    + unfold RolloutService.finish_rollback. wp_step. eapply drive_now; [exact Hp5|]. intros t6 p6 Ht6 Hp6. cbv zeta. cbn beta iota.
      set (r' := set_progress _ _ _ _ _ _ _).
      change r' with (rollout_at StateRolledBack vsid failures started RollbackStatusVerified created t6). clear r'.
      wp_step. eapply drive_ro; [exact Hp6|by apply (ro_update env verification_plan)|]. intros p7 Hp7. cbn beta iota. wp_step. wp_step.
      split; [done|]. do 3 eexists. split; [|split; [|exact Hp7]]; [|lia].
      exists failures, created, started, ts', (<[key vsid := ts']> tg), t6. split_and!; [done|exact Hk'|exact Hc'|exact Hg].
    + change (r_RollbackTimeout r) with rollback. rewrite (proj2 (Z.ltb_lt 0 rollback)) by done.
      wp_step. eapply drive_now; [exact Hp5|]. intros t6 p6 Ht6 Hp6. cbn beta iota.
      change (r_StageStartedAt r) with started.
      assert (rollback <=? time_Sub t6 started = false) as ->.
      { pose proof (cw_short _ _ _ _ _ _ _ Hcrew). apply Z.leb_gt. unfold Minute, Second in *. rewrite time_Sub_exact; [lia|]. unfold int64_ok, int64_min, int64_max. lia. }
      wp_step. wp_step. split; [done|]. do 3 eexists. split; [|split; [|exact Hp6]]; [|lia].
      exists failures, created, started, ts', (<[key vsid := ts']> tg), updated.
      split_and!; [done|lia|lia|exact Hk'|exact Hc'|exact Hg].
Qed.

Lemma propagated_start g ro t : verifying [] g ro t → propagated [] g ro t.
Proof. unfold propagated. by rewrite none_yet. Qed.
Lemma propagated_end order g ro t : order ≡ₚ ids → propagated order g ro t → verified order g ro.
Proof. intros Ho. unfold propagated. by rewrite all_done. Qed.

(** The next reconciliation starts the verification. *)
Lemma drive_ReconcileActive (s : RolloutService.Service Process) order g ro ag t d p sv c e :
  order ≡ₚ ids → withdrawn order g ro → t ≤ deadline → state sv c e g ag ro t d p →
  wp (RolloutService.ReconcileActive s Background) (λ r p', r = Ok tt ∧ ∃ ro' t', verifying [] g ro' t' ∧
    t ≤ t' ≤ deadline ∧ state sv c e g ag ro' t' d p') p.
Proof.
  intros Ho (failures & created & ts & tg & updated & -> & Hk & Hothers & Hc & Hg) Ht Hp.
  set (r := rollout_at StateRollingBack _ _ _ _ _ _) in *. unfold RolloutService.ReconcileActive.
  wp_step. eapply drive_ro_range; [exact Hp|intros range Hr; by apply (ro_list_active env plan r)|].
  intros p1 Hp1. cbn beta iota. cbn [for_each]. wp_step. change (Terminal (r_State r)) with false. cbn iota.
  wp_step. unfold RolloutService.reconcileRollout.
  wp_step. eapply drive_ro; [exact Hp1|apply (ro_targets env plan r)|].
  change (r_CurrentStageID r) with "stage-100". change (r_ID r) with id. rewrite Hk. intros p2 Hp2. cbn beta iota.
  rewrite decide_True by done. unfold RolloutService.reconcileRollback. cbv zeta.
  change (r_CurrentStageID r) with "stage-100". change (r_ID r) with id. fold vsid.
  rewrite bool_decide_false by apply not_eq_sym, vsid_apart. cbn [negb].
  unfold RolloutService.activateRollbackVerification.
  wp_step. eapply drive_ro; [exact Hp2|apply ro_revision; lia|]. intros p3 Hp3. cbn beta iota.
  wp_step. eapply drive_now; [exact Hp3|]. intros t4 p4 Ht4 Hp4. cbv zeta. cbn beta iota.
  change (r_ID r) with id. fold vsid.
  assert (cohort id vsid v1_id 2 [] (RolloutService.rollback_target r 2 t4 <$> ts)) as Hc' by by eapply cohort_rollback.
  set (ts' := RolloutService.rollback_target r 2 t4 <$> ts) in *.
  wp_step. eapply drive_ro; [exact Hp4|apply (ro_save_stage env plan r); cbn; by rewrite bool_decide_false by apply not_eq_sym, vsid_apart|].
  intros p5 Hp5. cbn beta iota.
  destruct (ro_save env verification_plan r tg 3 (key vsid) ts') as (tg' & Hsave & Hk' & _);
    [|apply Hothers, vsid_apart|].
  { apply Forall_forall. intros x Hx. by destruct (ch_fields _ _ _ _ _ _ _ _ Hc' x Hx) as (-> & -> & _). }
  wp_step. eapply drive_ro; [exact Hp5|exact Hsave|]. intros p6 Hp6. cbn beta iota.
  set (r' := set_progress _ _ _ _ _ _ _).
  change r' with (rollout_at StateRollingBack vsid failures t4 RollbackStatusNone created t4). clear r'.
  wp_step. eapply drive_ro; [exact Hp6|by apply (ro_update env verification_plan r)|]. intros p7 Hp7. cbn beta iota.
  assert (Nat.eqb (length ts') 0 = false) as ->.
  { apply Nat.eqb_neq. rewrite (cohort_length _ _ _ _ _ _ _ _ Hc'), length_seqZ. pose proof Hfew as Hfew'. unfold few in Hfew'. lia. }
  pose proof (st_first (Steady := steady sv c e) _ _ _ _ _ _ Hp).
  wp_step. wp_step. wp_step. split; [done|]. do 2 eexists. split; [|split; [|exact Hp7]]; [|lia].
  exists failures, created, t4, ts', tg', t4. split_and!; [done|lia|lia|exact Hk'|exact Hc'|exact Hg].
Qed.
End rollout.
(** The rollout is created. *)
Lemma drive_create rules timeout agents updated sv c e ag t d p :
  state sv c e (reg updated) ag RolloutStore.NewMemoryStore t d p →
  RolloutService.validate_guardrails rules = Ok tt → fleet ag agents →
  wp (CreateRollout h Background (bare_input rules timeout)) (λ res p', ∃ b created ts ro t' d',
    let id := "rollout_" +:+ Sha256.hex_encode b in
    res = Ok (created, ts) ∧ r_ID created = id ∧ r_CurrentStageID created = "stage-100" ∧ Z.of_nat (length ts) = size ∧
    deploying rules (RolloutService.default_duration timeout (2 * Minute)) id [] (reg updated) ro t' ∧
    t ≤ t' ≤ deadline ∧ state sv c e (reg updated) ag ro t' d' p') p.
Proof.
  intros Hp Hrules Hf. unfold CreateRollout. wp_step. eapply drive_gets_servers; [exact Hp|].
  wp_call (CampaignDrive.drive_CreateRollout (St := state sv c e) squad scenario_squad seed_text "reliability" rules (5 * Minute)
    (15 * Minute) (RolloutService.default_duration timeout (2 * Minute)) [stage_100] (rollouts sv)
    (default_input h (bare_input rules timeout)) stage_100 agents updated);
    [done| |done..|exact Hf|exact Hp|].
  { unfold RolloutService.validate_create. change (RolloutService.ci_Environment _) with env.
    change (RolloutService.ci_Guardrails _) with rules. by rewrite Henv, Hrules. }
  change (s_ID stage_100) with "stage-100". change (s_Percentage stage_100) with 100.
  rewrite (members_all squad scenario_squad). cbv zeta.
  intros res p' (b & created & ts & tg & t' & d' & -> & Hc & [Hk Hothers] & Hcr & Ht & Hp').
  do 6 eexists. split; [done|]. split; [done|]. split; [done|].
  split; [rewrite (cohort_length _ _ _ _ _ _ _ _ Hc), length_seqZ; cbn [squad sq_size]; pose proof Hfew as Hfew'; unfold few in Hfew'; lia|].
  split; [|split; [exact Ht|exact Hp']].
  exists created, ts, tg. split_and!; [done|lia|lia|exact Hk| |exact Hc|by eexists].
  intros sid Hsid. rewrite Hothers; [done|]. by intros Heq%key_inj.
Qed.

(** ** What is read of it *)

Lemma drive_read id r plan tg rev sv c e g ag t d p : r_ID r = id → state sv c e g ag (ro_store env plan r tg rev) t d p →
  wp (GetRollout Background id) (λ res p',
    let ts := targets_at (RolloutStore.targetKey id (r_CurrentStageID r)) tg in
    res = Ok (r, ts, AcknowledgementCoverage ts) ∧ state sv c e g ag (ro_store env plan r tg rev) t d p') p.
Proof. intros <- Hp. by apply (CampaignDrive.drive_GetRollout (St := state sv c e) squad plan r). Qed.

Lemma complete_coverage id sid v rev order ts : cohort id sid v rev order ts → order ≡ₚ ids →
  cov_Acked (AcknowledgementCoverage ts) = size ∧ cov_Total (AcknowledgementCoverage ts) = size ∧
  f_to_int (cov_Percentage (AcknowledgementCoverage ts)) = 100.
Proof.
  intros Hc Ho. pose proof (cohort_length _ _ _ _ _ _ _ _ Hc) as Hlen. pose proof (ch_count _ _ _ _ _ _ _ _ Hc) as Hcount.
  rewrite Ho in Hcount. rewrite length_seqZ in *. pose proof Hfew as Hfew'. unfold few in Hfew'.
  split; [change (count_acked ts = size); lia|]. split; [change (Z.of_nat (length ts) = size); lia|].
  rewrite full_coverage; [by vm_compute| |lia]. change (2 ^ 53) with 9007199254740992. lia.
Qed.

End pool.

Arguments ident _ _ : clear implicits.
End ScenarioDrive.
