(* ===== verification/ReliabilityProps.v ===== *)
(** The reliability scenarios: what they report, whatever the services do, and
    that they pass on a host that behaves. *)

From Stdlib Require Import ZArith Lia Ascii.
From S2P Require Import Prelude GoLib Sha256 Host Http Mux Url Format Parallel FileSystem Domain Registry RegistryStore AgentRegistry AgentStore Rollout RolloutStore RolloutService DataPlane Agent ControlPlane System Reliability Drive Scenarios SimulatorCommand ReliabilityCommand Demo ParallelProps CampaignDrive ReliabilityDrive ScenarioDrive.
Import Domain Rollout Parallel ParallelFacts Reliability Scenarios DriverCommands ReliabilityCommand ReliabilityFacts CampaignDrive ReliabilityDrive ScenarioDrive System Drive Process Campaign.
Open Scope string_scope.
Open Scope list_scope.
Open Scope Z_scope.

Module ReliabilityProps.

(** * Reports *)

(** The names of the steps of each scenario. *)
Definition step_names (scenario : string) : list string :=
  if bool_decide (scenario = "control-plane-restart") then
    [ "start control plane"; "register agent before restart"; "restart control plane";
      "heartbeat through restarted control plane" ]
  else if bool_decide (scenario = "data-plane-outage") then
    [ "start control and data planes"; "register agent"; "warm local cache";
      "inject data-plane outage"; "poll fails while cache remains usable" ]
  else if bool_decide (scenario = "concurrent-rollout-acknowledgements") then
    [ "start control and data planes"; "register concurrent agents"; "create single-stage rollout";
      "acknowledge rollout concurrently"; "verify completed rollout" ]
  else
    [ "start control and data planes"; "register rollback agents"; "create guarded rollout";
      "trigger rollback from unhealthy guardrail"; "propagate stable rollback snapshot" ].


Section scenarios.
Context {W : Type} `{Env W, Has RegistryStore.MemoryStore W, Has AgentStore.MemoryStore W,
  Has RolloutStore.MemoryStore W, Has Servers W, Has Agent.SnapshotCache W, Has Agent.Etag W}.
Context `{ControlPlane.RequestDecoder ControlPlane.createTenantRequest,
  ControlPlane.RequestDecoder ControlPlane.createDefinitionRequest,
  ControlPlane.RequestDecoder ControlPlane.createVersionRequest,
  ControlPlane.RequestDecoder ControlPlane.setStableVersionRequest,
  ControlPlane.RequestDecoder ControlPlane.registerAgentRequest,
  ControlPlane.RequestDecoder ControlPlane.acknowledgementRequest,
  ControlPlane.RequestDecoder ControlPlane.createRolloutRequest}.
Context `{Codec DataPlane.Snapshot, Codec Agent.RegisterInput, Codec Agent.registerResponse,
  Codec Agent.AckPayload, Wire}.


Context (ctx : Context) (schedule : nat → Scheduler).



Context (validator : ConfigRegistry.SchemaValidator).
Abbreviation runners := (runners (W := W) ctx schedule validator).



(** The command prints nothing of a scenario that failed: its outcome is the
    same whatever writers and encoder it is given. *)
Theorem failed_scenario_prints_nothing MkdirTemp RemoveAll write write' stderr encode encode' flags w
    dir w1 results err w2 :
  MkdirTemp w = (Ok dir, w1) →
  runSelected runners (f_scenario flags)
    (MkOptions (f_service flags) (f_environment flags) dir (f_concurrency flags)) w1
  = (Ok (results, Some err), w2) →
  let run write encode := ReliabilityCommand.run ctx schedule validator MkdirTemp RemoveAll write stderr
                            encode (Ok flags) w in
  (run write encode).1 = Err err ∧ run write encode = run write' encode'.
Proof.
  intros Hd Hr run. subst run. unfold ReliabilityCommand.run, mbind, M_bind, lift, try. rewrite Hd, Hr.
  unfold mthrow, M_throw. destruct (RemoveAll dir w2) as [[[]|e] w3]; [by split|].
  by destruct (stderr _ w3) as [[[]|?] ?].
Qed.
End scenarios.

(** * On a host that behaves *)

(** The moves of a scenario: the next step, the end of a step, a change of the
    servers, the variables of the scenario. *)
Ltac step_of Hh Hp := eapply drive_step; [exact Hh|exact Hp|cbn [step_Run]].
Ltac step_done Hp := cbn [fst snd]; split; [done|]; do 8 eexists; split; [exact Hp|].
Ltac servers_step Hp := wp_step; apply wp_shared; eapply drive_update; [exact Hp|].
Ltac read_local := unfold wp at 1, local, gets; cbn [fst snd ou_syncer].

Lemma start_state first deadline budget h0 p : steady_host first deadline budget h0 → w_host (pr_world p) = h0 →
  process_state first h0 (part p) (part p) (part p) (part p) (part p) (part p) first [] p.
Proof. intros Hh <-. split; [|done]. split; [by eapply advanced_start|done]. Qed.

Lemma wp_runs {A} (m : M Process (A * option error)) (P : A → Process → Prop) p :
  wp m (λ r p', ∃ a, r = Ok (a, None) ∧ P a p') p → ∃ a p', m p = (Ok (a, None), p') ∧ P a p'.
Proof. unfold wp. destruct (m p) as [r p']. cbn [fst snd]. intros (a & -> & HP). by exists a, p'. Qed.

Section behaves.
Context `{ControlPlane.RequestDecoder ControlPlane.createTenantRequest,
  ControlPlane.RequestDecoder ControlPlane.createDefinitionRequest,
  ControlPlane.RequestDecoder ControlPlane.createVersionRequest,
  ControlPlane.RequestDecoder ControlPlane.setStableVersionRequest,
  ControlPlane.RequestDecoder ControlPlane.registerAgentRequest,
  ControlPlane.RequestDecoder ControlPlane.acknowledgementRequest,
  ControlPlane.RequestDecoder ControlPlane.createRolloutRequest}.
Context `{Codec DataPlane.Snapshot, Codec Agent.RegisterInput, Codec Agent.registerResponse,
  Codec Agent.AckPayload, Wire, !WireLaws}.
Context (first deadline : Time) (h0 : HostState) (Hh : steady_host first deadline 1 h0)
  (Hshort : deadline < first + 60 * Minute).
Abbreviation state := (process_state first h0).

Lemma credential_outlives h id x at_ : first ≤ at_ →
  deadline < c_ExpiresAt (credential_of service (enrolled_input h id) x at_).
Proof. intros. change (deadline < at_ + 60 * Minute). lia. Qed.

(** On a host whose clock does not go back, and whatever its stores held, the
    restart scenario passes: the agent registered before the restart is still
    known to the control plane that was started again at another address, its
    credential is accepted there, and the heartbeat is recorded; no server is
    left running. *)
Theorem control_plane_restart_survives validator options p :
  w_host (pr_world p) = h0 → enrolls (harness_of validator options) "agent-restart-1" →
  ∃ result p', RunControlPlaneRestartScenario Background validator options p = (Ok (result, None), p') ∧
    sc_Passed result = true ∧ sc_Metrics result !! "post_restart_heartbeats" = Some 1 ∧
    sv_controlPlane (part p') = None ∧ sv_dataPlane (part p') = None ∧
    ∃ agent, AgentStore.ms_agents (part p') = {[ "agent-restart-1" := agent ]} ∧
      a_RegisteredAt agent ≤ a_LastSeenAt agent.
Proof.
  intros Hp Hen. apply wp_runs.
  unfold RunControlPlaneRestartScenario. eapply drive_scenario; [exact Hh|by eapply start_state|].
  intros t2 p2 r2 Ht2 Hp2 Hr2.
  step_of Hh Hp2. intros t3 p3 Ht3 Hp3. unfold start_control_plane, world.
  servers_step Hp3. intros p4 Hp4. cbn beta iota.
  apply wp_locally. step_done Hp4.
  intros t5 p5 event1 Ht5 Hp5.
  step_of Hh Hp5. intros t6 p6 Ht6 Hp6. unfold register_before_restart, world.
  wp_step. apply wp_shared.
  wp_call drive_RegisterAgent; [exact Hh|exact Hp6|reflexivity|exact Hen|reflexivity|].
  intros r p7 (at7 & b7 & -> & Ht7 & _ & Hp7). cbn beta iota.
  wp_step. apply wp_locally. apply wp_locally. step_done Hp7.
  intros t8 p8 event2 Ht8 Hp8.
  step_of Hh Hp8. intros t9 p9 Ht9 Hp9. unfold restart_control_plane, world, Restart.
  wp_step. apply wp_shared. wp_step. eapply drive_update; [exact Hp9|]. intros p10 Hp10. cbn beta iota.
  eapply drive_update; [exact Hp10|]. intros p11 Hp11. cbn beta iota.
  apply wp_locally. step_done Hp11.
  intros t12 p12 event3 Ht12 Hp12.
  step_of Hh Hp12. intros t13 p13 Ht13 Hp13. unfold heartbeat_after_restart, world. wp_step. read_local.
  wp_step. apply wp_shared.
  wp_call drive_HarnessHeartbeat; [exact Hh|exact Hp13|reflexivity|reflexivity|apply lookup_insert_eq|done| |apply lookup_insert_eq|].
  { apply credential_outlives. lia. }
  intros r p14 (at14 & -> & Ht14 & Hp14). cbn beta iota. apply wp_locally. cbn [fst snd]. split; [done|].
  do 8 eexists. split; [exact Hp14|]. intros t15 p15 event4 Ht15 Hp15. cbn [run_steps]. wp_step. step_done Hp15. 
  intros t16 p17 duration Ht16 Hp17. cbn beta iota.
  destruct Hp17 as ((_ & _ & Hag & _) & Hsv & _).
  change (@part Servers _ _ p17) with (pr_servers p17). rewrite Hsv.
  change (@part Ag _ _ p17) with (w_agents (pr_world p17)). rewrite Hag.
  eexists. split; [reflexivity|]. split_and!; [done|apply lookup_insert_eq|done|done|].
  eexists. split; [apply insert_insert_eq|]. change (at7 ≤ at14). lia.
Qed.




End behaves.

(** * The scenarios with pools of workers *)

Section pools.
Context `{ControlPlane.RequestDecoder ControlPlane.createTenantRequest,
  ControlPlane.RequestDecoder ControlPlane.createDefinitionRequest,
  ControlPlane.RequestDecoder ControlPlane.createVersionRequest,
  ControlPlane.RequestDecoder ControlPlane.setStableVersionRequest,
  ControlPlane.RequestDecoder ControlPlane.registerAgentRequest,
  ControlPlane.RequestDecoder ControlPlane.acknowledgementRequest,
  ControlPlane.RequestDecoder ControlPlane.createRolloutRequest}.
Context `{Codec DataPlane.Snapshot, Codec Agent.RegisterInput, Codec Agent.registerResponse,
  Codec Agent.AckPayload, Wire, !WireLaws}.
Abbreviation env options := (default_to EnvironmentProduction (o_Environment options)).



Section concurrent.
Context {first deadline : Time} {budget : nat} {h0 : HostState} {h : Harness} {agentCount : Z}
  (Hcrew : crew first deadline budget h0 h "concurrent-agent" agentCount).
Abbreviation fleet := (fleet (first := first) (squad (h := h) (prefix := "concurrent-agent") (size := agentCount))).
Abbreviation deploying :=
  (deploying (first := first) (h := h) (prefix := "concurrent-agent") (size := agentCount) [] (2 * Minute)).
Abbreviation completed := (completed (h := h) (prefix := "concurrent-agent") (size := agentCount) [] (2 * Minute)).


End concurrent.

Section rollback.
Context {first deadline : Time} {budget : nat} {h0 : HostState} {h : Harness} {agentCount : Z}
  (Hcrew : crew first deadline budget h0 h "rollback-agent" agentCount).
Abbreviation fleet := (fleet (first := first) (squad (h := h) (prefix := "rollback-agent") (size := agentCount))).
Abbreviation deploying :=
  (deploying (first := first) (h := h) (prefix := "rollback-agent") (size := agentCount) [error_rate] Minute).
Abbreviation withdrawn := (withdrawn (h := h) (prefix := "rollback-agent") (size := agentCount) [error_rate] Minute).
Abbreviation verified := (verified (h := h) (prefix := "rollback-agent") (size := agentCount) [error_rate] Minute).
Abbreviation unhealthy := (Some (MkStaticQueryer five_percent None)).



End rollback.

End pools.

Import System Demo Process ReliabilityDemo.


(** The two scenarios with pools of workers, with five agents. *)
Example concurrent_run :
  report (RunConcurrentRolloutAcknowledgementScenario Background (λ k n, k + n)%nat 5 Demo.accept_all options process)
  = Some (true, step_names "concurrent-rollout-acknowledgements", None).
Proof. vm_compute. reflexivity. Qed.
Example rollback_run :
  report (RunRollbackPropagationTimingScenario Background (λ k n, k + n)%nat 5 Demo.accept_all options process)
  = Some (true, step_names "rollback-propagation-timing", None).
Proof. vm_compute. reflexivity. Qed.

(** ** Its encoders *)


Lemma ones_plain n : TrimRight_slash (ones n) = ones n.
Proof. induction n as [|n IH]; [done|]. cbn. rewrite IH. by rewrite andb_comm. Qed.

Lemma trim_app a s : TrimRight_slash s = s → s ≠ "" → TrimRight_slash (a +:+ s) = a +:+ s.
Proof.
  intros Hs Hne. induction a as [|c a IH]; [done|].
  change (String c a +:+ s) with (String c (a +:+ s)). cbn [TrimRight_slash]. rewrite IH.
  by destruct a, s.
Qed.

Lemma ones_apart n m rest : n ≠ m →
  server_path (ones n) (ones m +:+ String "/"%char rest) = None.
Proof.
  revert m. induction n as [|n IH]; intros [|m] Hne; try done. apply (IH m). by intros ->.
Qed.

#[export] Instance wire_laws : WireLaws.
Proof.
  split.
  - intros n. apply (trim_app "http://127.0.0.1:" (String "4" (ones n))); [|done].
    cbn [TrimRight_slash]. rewrite ones_plain. by rewrite bool_decide_false, andb_false_r.
  - intros n m rest Hne. exact (ones_apart n m rest Hne).
Qed.

(** Texts without separators. *)
Definition plain (s : string) : Prop :=
  has_byte field_sep s = false ∧ has_byte item_sep s = false ∧ has_byte end_sep s = false.


Lemma Split_join sep l : l ≠ [] → Forall (λ s, has_byte sep s = false) l → Split sep (join sep l) = l.
Proof.
  intros Hne Hl. destruct l as [|s l]; [done|]. inversion_clear Hl as [|?? Hs Hrest]. unfold Split.
  rewrite split_byte_join; [done|done|]. by rewrite Forall_forall in Hrest.
Qed.


Lemma codecs_agree h id : plain (h_service h) → plain (h_environment h) → plain id →
  blank (h_service h) = false → id ≠ "" → blank id = false → Environment_Validate (h_environment h) = Ok tt →
  enrolls h id.
Proof.
  intros [Hs _] [He _] [Hi _] Hbs Hne Hbi Henv. split; [done..| |].
  - eexists. split; [reflexivity|]. unfold ControlPlane.json_DecodeStrict, register_decoder.
    rewrite Split_join; [done|done|]. by repeat constructor.
  - intros r Hr. cbn [json_Unmarshal response_codec encode_control wire write_control]. rewrite Hr.
    change (join field_sep [id; ControlPlane.ra_InstanceCredential r]) with
      (id +:+ String field_sep (ControlPlane.ra_InstanceCredential r)).
    by rewrite Cut_app.
Qed.

(** Snapshots of the two versions are read as they were written. *)
Section item.
Context (v : ConfigVersion) (rollout stage : string) (Hv : v ∈ [v1 "reliability"; v2 "reliability"])
  (Hr : plain rollout) (Hs : plain stage).
Abbreviation item := (offered_item v (DataPlane.MkAssignment rollout stage)).





End item.


(** ** A clock that stops after five seconds *)

Definition steady_clock (n : nat) : Time := 1000 * Second + Z.min (Z.of_nat n) 5000 * Format.Millisecond.
Definition steady_host_state : HostState :=
  MkHost steady_clock (λ n, repeat (N.of_nat n mod 256)%N 12) (λ _, key_order) 0 0 0 0.
Definition steady_process : Process :=
  MkProcess (boot steady_host_state) (MkServers None None 0 None)
    (Agent.MkSnapshotCache (FileSystem.MkFS ∅ (λ _, None) 0) None) (Agent.MkEtag "").

Lemma steady_demo : steady_host (1000 * Second) (1005 * Second) 200 steady_host_state.
Proof.
  split; cbn [steady_host_state h_clock h_clock_reads h_draws].
  - intros n _. unfold steady_clock, Format.Millisecond, Second. lia.
  - intros n m Hnm. unfold steady_clock, Format.Millisecond, Second. lia.
  - intros n m Hn Hm.
    assert (bool_decide (NoDup (draw_text steady_host_state <$> seq 0 200)) = true) as Hnd by (vm_compute; reflexivity).
    apply bool_decide_eq_true in Hnd. rewrite NoDup_alt in Hnd. intros Heq.
    assert (n = m) as Hnm; [|lia]. apply (Hnd n m (draw_text steady_host_state n)).
    + rewrite list_lookup_fmap, lookup_seq_lt by lia. done.
    + rewrite list_lookup_fmap, lookup_seq_lt, Heq by lia. done.
Qed.

Lemma fewer_draws n : (n <= 200)%nat → steady_host (1000 * Second) (1005 * Second) n steady_host_state.
Proof.
  intros Hn. destruct steady_demo as [Hrange Hmono Hdraws]. split; [exact Hrange|exact Hmono|].
  intros i j Hi Hj. apply Hdraws; lia.
Qed.



Lemma control_plane_restart_survives_witness : ∃ result p',
  RunControlPlaneRestartScenario Background Demo.accept_all options steady_process = (Ok (result, None), p') ∧
  sc_Passed result = true.
Proof.
  destruct (control_plane_restart_survives (1000 * Second) (1005 * Second) steady_host_state (fewer_draws 1 ltac:(lia))
              ltac:(unfold Minute, Second; lia) Demo.accept_all options steady_process eq_refl)
    as (result & p' & Hrun & Hpassed & _).
  - by apply codecs_agree; vm_compute.
  - exists result, p'. split; [exact Hrun|exact Hpassed].
Defined.




End ReliabilityProps.
