(* ===== verification/SimulatorProps.v ===== *)
(** The simulator: its statistics, and what a run reports. *)

From Stdlib Require Import ZArith Lia SpecFloat.
From S2P Require Import Prelude GoLib Host Format Parallel ParallelProps Domain Registry RegistryStore AgentRegistry AgentStore Rollout RolloutStore RolloutService System Simulator Drive CampaignDrive SimulatorDrive Demo.
Import Domain Rollout Simulator System Drive Process CampaignDrive SimulatorDrive.
Open Scope string_scope.
Open Scope list_scope.
Open Scope Z_scope.

Module SimulatorProps.

(** * Order statistics *)

#[local] Instance leb_trans : Transitive (λ a b : Z, Is_true (a <=? b)).
Proof. intros a b c. rewrite !Is_true_true, !Z.leb_le. lia. Qed.
#[local] Instance leb_total : Total (λ a b : Z, Is_true (a <=? b)).
Proof. intros a b. rewrite !Is_true_true, !Z.leb_le. lia. Qed.

Definition at_most (x : Z) (l : list Z) : Z := Z.of_nat (length (filter (λ v, v ≤ x) l)).
Definition below (x : Z) (l : list Z) : Z := Z.of_nat (length (filter (λ v, v < x) l)).

Lemma sorted_values l : StronglySorted Z.le (SortFunc Z.leb l).
Proof.
  eapply StronglySorted_weaken; [|apply (SortFunc_sorted Z.leb)].
  intros x y. simpl. rewrite Is_true_true, Z.leb_le. done.
Qed.

Lemma sorted_nth l i j : StronglySorted Z.le l → (i ≤ j < length l)%nat → nth i l 0 ≤ nth j l 0.
Proof.
  intros Hs. revert i j. induction Hs as [|x l _ IH Hx]; intros i j Hij; simpl in Hij; [lia|].
  destruct i as [|i], j as [|j]; cbn [nth]; [done| |lia|apply IH; lia].
  rewrite Forall_forall in Hx. apply Hx, list_elem_of_In, nth_In. lia.
Qed.

(** In a sorted list the entry at [i] has [i + 1] entries up to it, and at most
    [i] below it. *)
Lemma sorted_rank l i : StronglySorted Z.le l → (i < length l)%nat →
  Z.of_nat i < at_most (nth i l 0) l ∧ below (nth i l 0) l ≤ Z.of_nat i.
Proof.
  intros Hs Hi. unfold at_most, below. set (x := nth i l 0).
  rewrite <-(take_drop i l), !filter_app, !length_app.
  assert (Forall (λ v, v ≤ x) (take i l)) as Hbefore.
  { apply Forall_forall. intros v (j & Hv)%list_elem_of_lookup.
    assert (j < i)%nat by (apply lookup_lt_Some in Hv; rewrite length_take in Hv; lia).
    rewrite lookup_take_lt in Hv by done. apply (nth_lookup_Some _ _ 0) in Hv. subst v.
    apply sorted_nth; [done|lia]. }
  assert (Forall (λ v, x ≤ v) (drop i l)) as Hafter.
  { apply Forall_forall. intros v (j & Hv)%list_elem_of_lookup. rewrite lookup_drop in Hv.
    pose proof (lookup_lt_Some _ _ _ Hv). apply (nth_lookup_Some _ _ 0) in Hv. subst v.
    apply sorted_nth; [done|lia]. }
  assert (filter (λ v, v ≤ x) (take i l) = take i l) as ->.
  { clear -Hbefore. induction Hbefore as [|v t Hv _ IH]; [done|].
    by rewrite filter_cons_True, IH. }
  assert (filter (λ v, v < x) (drop i l) = []) as ->.
  { clear -Hafter. induction Hafter as [|v t Hv _ IH]; [done|].
    rewrite filter_cons_False by lia. done. }
  assert (x ∈ drop i l) as Hx.
  { apply list_elem_of_lookup. exists 0%nat. rewrite lookup_drop, Nat.add_0_r.
    destruct (lookup_lt_is_Some_2 l i Hi) as [v Hv]. rewrite Hv. f_equal. subst x.
    symmetry. by apply nth_lookup_Some. }
  assert (length (filter (λ v, v ≤ x) (drop i l)) ≠ 0%nat) as Hpos.
  { assert (x ∈ filter (λ v, v ≤ x) (drop i l)) as Hf by (apply list_elem_of_filter; split; [lia|done]).
    intros Hz%nil_length_inv. rewrite Hz in Hf. by apply elem_of_nil in Hf. }
  pose proof (length_filter (λ v, v < x) (take i l)). rewrite length_take in *. simpl. lia.
Qed.

Lemma nth_perm (l l' : list Z) i : l ≡ₚ l' → (i < length l)%nat → nth i l 0 ∈ l'.
Proof. intros <- Hi. by apply list_elem_of_In, nth_In. Qed.
Lemma at_most_perm x l l' : l ≡ₚ l' → at_most x l = at_most x l'.
Proof. intros Hp. unfold at_most. by rewrite Hp. Qed.
Lemma below_perm x l l' : l ≡ₚ l' → below x l = below x l'.
Proof. intros Hp. unfold below. by rewrite Hp. Qed.

(** [p] is the nearest-rank percentile [k] of [values]. *)
Definition nearest_rank (k : Z) (values : list Z) (p : Z) : Prop :=
  let n := Z.of_nat (length values) in
  p ∈ values ∧ n * k ≤ 100 * at_most p values ∧ 100 * below p values < n * k.

Lemma percentile_nth (l : list Z) k : l ≠ [] → 0 < k ≤ 100 →
  ∃ i, percentile l k = nth i l 0 ∧ (i < length l)%nat ∧
    100 * Z.of_nat i < Z.of_nat (length l) * k ≤ 100 * (Z.of_nat i + 1).
Proof.
  intros Hne Hk. unfold percentile. change Duration with Z. cbv zeta. destruct (Nat.eqb_spec (length l) 0) as [Hz|Hz].
  { by apply nil_length_inv in Hz. }
  set (n := Z.of_nat (length l)). assert (0 < n) by lia.
  set (q := Z.quot (n * k + 99) 100).
  pose proof (Z.div_mod (n * k + 99) 100 ltac:(lia)). pose proof (Z.mod_pos_bound (n * k + 99) 100 ltac:(lia)).
  assert (q = (n * k + 99) / 100) as Hq by (subst q; apply Z.quot_div_nonneg; lia).
  assert (1 ≤ q ≤ n) by nia.
  destruct (Z.ltb_spec (q - 1) 0); [lia|]. destruct (Z.leb_spec n (q - 1)); [lia|].
  exists (Z.to_nat (q - 1)). split_and!; [done|lia|rewrite Z2Nat.id by lia; lia..].
Qed.

Lemma percentile_rank (values : list Z) k : values ≠ [] → 0 < k ≤ 100 →
  nearest_rank k values (percentile (SortFunc Z.leb values) k).
Proof.
  intros Hne Hk. pose proof (SortFunc_perm Z.leb values) as Hp. pose proof (Permutation_length Hp) as Hl.
  destruct (percentile_nth (SortFunc Z.leb values) k) as (i & -> & Hi & Hb); [|done|].
  { intros Hn. rewrite Hn in Hl. by destruct values. }
  destruct (sorted_rank _ i (sorted_values values) Hi) as [H1 H2].
  rewrite (at_most_perm _ _ _ Hp) in H1. rewrite (below_perm _ _ _ Hp) in H2.
  rewrite Hl in Hb. split_and!; [|lia..].
  by eapply nth_perm.
Qed.

(** The sum does not wrap when no partial sum leaves the range. *)
Lemma sum_wraps_not l : Forall (λ v, 0 ≤ v) l → ∀ a, 0 ≤ a → a + foldr Z.add 0 l ≤ int64_max →
  fold_left (λ total value, int64_wrap (total + value)) l a = a + foldr Z.add 0 l.
Proof.
  induction 1 as [|v l Hv Hl IH]; intros a Ha Hs; simpl in *; [lia|].
  assert (0 ≤ foldr Z.add 0 l) by (clear -Hl; induction Hl; simpl; lia).
  rewrite int64_wrap_id by (split; unfold int64_min; lia). rewrite IH by lia. lia.
Qed.

Lemma sum_bounds lo hi l : Forall (λ v, lo ≤ v ≤ hi) l →
  Z.of_nat (length l) * lo ≤ foldr Z.add 0 l ≤ Z.of_nat (length l) * hi.
Proof. induction 1; simpl; nia. Qed.

(** A latency summary of durations whose sum fits in 64 bits: the extremes
    and both percentiles are among the values, every value and the mean lie
    between the extremes, and the percentiles are those of the nearest rank. *)
Theorem latency_summary (values : list Z) :
  values ≠ [] → Forall (λ v, 0 ≤ v) values → foldr Z.add 0 values ≤ int64_max →
  let l := summarize values in
  l_Count l = Z.of_nat (length values) ∧
  l_Min l ∈ values ∧ l_Max l ∈ values ∧ Forall (λ v, l_Min l ≤ v ≤ l_Max l) values ∧
  l_Avg l = foldr Z.add 0 values / Z.of_nat (length values) ∧ l_Min l ≤ l_Avg l ≤ l_Max l ∧
  nearest_rank 50 values (l_P50 l) ∧ nearest_rank 95 values (l_P95 l) ∧ l_P50 l ≤ l_P95 l.
Proof.
  intros Hne Hpos Hsum. unfold summarize. change Duration with Z. cbv zeta.
  destruct (Nat.eqb_spec (length values) 0) as [Hz|Hz]; [by apply nil_length_inv in Hz|].
  cbn [l_Count l_Min l_Max l_Avg l_P50 l_P95].
  pose proof (SortFunc_perm Z.leb values) as Hp. pose proof (sorted_values values) as Hs.
  pose proof (Permutation_length Hp) as Hl. set (l := SortFunc Z.leb values) in *.
  assert (foldr Z.add 0 l = foldr Z.add 0 values) as Hsame.
  { clear -Hp. induction Hp; simpl; lia. }
  rewrite sum_wraps_not by (try lia; by rewrite Hp). rewrite Hsame, Hl, Z.add_0_l.
  assert (Forall (λ v, nth 0 l 0 ≤ v ≤ nth (length values - 1) l 0) values) as Hall.
  { apply Forall_forall. intros v Hv. rewrite <-Hp in Hv. apply list_elem_of_lookup in Hv as [i Hi].
    pose proof (lookup_lt_Some _ _ _ Hi). apply (nth_lookup_Some _ _ 0) in Hi. subst v.
    split; (apply sorted_nth; [done|lia]). }
  assert (∀ i, (i < length values)%nat → nth i l 0 ∈ values) as Hin.
  { intros i Hi. eapply nth_perm; [exact Hp|lia]. }
  pose proof (sum_bounds _ _ _ Hall) as Hb.
  assert (0 ≤ foldr Z.add 0 values) by (clear -Hpos; induction Hpos; simpl; lia).
  rewrite Z.quot_div_nonneg by lia.
  split_and!; [done|apply Hin; lia|apply Hin; lia|done|done| | |by apply percentile_rank|by apply percentile_rank|].
  - apply Z.div_le_lower_bound; lia.
  - apply Z.div_le_upper_bound; lia.
  - destruct (percentile_nth l 50) as (i & -> & Hi & Hbi); [by intros ->|lia|].
    destruct (percentile_nth l 95) as (j & -> & Hj & Hbj); [by intros ->|lia|].
    apply sorted_nth; [done|nia].
Qed.

Lemma latency_summary_witness :
  summarize [5; 1; 3; 2; 4] = MkLatency 5 1 3 3 5 5 ∧ nearest_rank 50 [5; 1; 3; 2; 4] 3.
Proof.
  split; [vm_compute; reflexivity|].
  destruct (latency_summary [5; 1; 3; 2; 4]) as (_ & _ & _ & _ & _ & _ & H50 & _ & _);
    [done|by repeat constructor|done|exact H50].
Defined.

(** ** Small fleets *)

(** No identifier of the first 48 simulated agents falls in the first 5 percent. *)
Lemma first_buckets options i : 0 ≤ i < 48 →
  ∃ b, Bucket (MkAssignmentKey Campaign.cfg_id Campaign.v2_id
                 (AgentRegistry.ri_ID (register_input options i))) = Ok b ∧ Eligible b 5 = false.
Proof.
  intros Hi.
  assert (forallb (λ i, match Bucket (MkAssignmentKey Campaign.cfg_id Campaign.v2_id
      ("agent-" +:+ Format.pad0 4 (i + 1))) with Ok b => negb (Eligible b 5) | Err _ => false end)
    (seqZ 0 48) = true) as Hall by (vm_compute; reflexivity).
  rewrite forallb_forall in Hall. specialize (Hall i).
  rewrite <-list_elem_of_In, elem_of_seqZ in Hall. specialize (Hall ltac:(lia)).
  change (AgentRegistry.ri_ID (register_input options i)) with ("agent-" +:+ Format.pad0 4 (i + 1)).
  destruct (Bucket _) as [b|]; [|done]. exists b. split; [done|]. by apply negb_true_iff.
Qed.

(** * The runs *)

Section runs.
Context (first deadline : Time) (options : Options) (validator : ConfigRegistry.SchemaValidator)
  (schedule : nat → Parallel.Scheduler) (fuel : nat) (w : World).
Abbreviation o := (normalizeOptions options).
Context (Hhost : steady_host first deadline (Z.to_nat (o_AgentCount o)) (w_host w))
  (Hshort : deadline < first + 5 * Minute) (Hfew : few (o_AgentCount o))
  (Hservice : blank (o_Service o) = false) (Henv : Environment_Validate (o_Environment o) = Ok tt).

Lemma run_start : world_state first (w_host w) (part w) (part w) (part w) first [] w.
Proof. split; [by eapply advanced_start|done]. Qed.


Lemma run_without_canary : members (o_AgentCount o) 0 = [] → (1 <= fuel)%nat →
  (Run fuel schedule validator Background options w).1 =
  Err (EText "stage %s did not reach required acknowledgement coverage" ["stage-5"]).
Proof.
  intros Hnone Hfuel. destruct fuel as [|fuel']; [lia|].
  enough (wp (Run (S fuel') schedule validator Background options) (λ r _,
    r = Err (EText "stage %s did not reach required acknowledgement coverage" ["stage-5"])) w) as Hwp by exact Hwp.
  eapply (drive_start (H3 := world_steady first deadline _ _ Hhost) o Hfew ltac:(done) Hservice Henv validator);
    [done|exact run_start|].
  intros started l created t w1 _ (ag & ro & d & Hrun & Hid & Hf & Ht & Hw1).
  wp_step. wp_call (drive_no_canary (H3 := world_steady first deadline _ _ Hhost) o Hfew ltac:(done) Hservice validator);
    [exact Hnone|exact Hid|exact Hrun|exact Hf|apply Ht|exact Hw1|]. by intros r w2 ->.
Qed.
End runs.


(** The first 48 agents have no canary among them. *)
Lemma no_small_canary agents : agents ≤ 48 → members agents 0 = [].
Proof.
  intros Hn. unfold members. assert (∀ i, i ∈ seqZ 0 agents → in_stage 0 i = false) as Hall.
  { intros i Hi%elem_of_seqZ. destruct (first_buckets (MkOptions 0 0 "" "") i ltac:(lia)) as (b & Hb & He).
    unfold in_stage, takes. change (AgentRegistry.ri_ID (register_input (MkOptions 0 0 "" "") i)) with (sim_id i) in Hb.
    by rewrite Hb. }
  revert Hall. induction (seqZ 0 agents) as [|i l IH]; intros Hall; [done|].
  rewrite filter_cons_False, IH; [done|intros j Hj; apply Hall; by right|rewrite Hall; [done|by left]].
Qed.

(** A simulation of at most 48 agents fails. *)
Theorem small_fleet_fails first deadline options validator schedule fuel w :
  let o := normalizeOptions options in
  steady_host first deadline (Z.to_nat (o_AgentCount o)) (w_host w) →
  0 < o_AgentCount o ≤ 48 → blank (o_Service o) = false → Environment_Validate (o_Environment o) = Ok tt →
  (1 <= fuel)%nat →
  (Run fuel schedule validator Background options w).1 =
  Err (EText "stage %s did not reach required acknowledgement coverage" ["stage-5"]).
Proof.
  intros o Hhost Hn Hservice Henv Hfuel. subst o. eapply run_without_canary; [exact Hhost| |done..| |done].
  - unfold few. lia.
  - apply no_small_canary. lia.
Qed.

(** ** A concrete run *)




End SimulatorProps.
