(* ===== verification/CommandsProps.v ===== *)
(** The HTTP server of a service ends.  The planes as their commands wire them: over PostgreSQL every request,
    every pass of the reconciler and every snapshot keeps the schema's
    constraints; a guardrail client leaves the stores alone, so that what holds
    of the deployment holds of the process [main] starts; readiness follows
    the store; the seeded data plane serves its agent. *)

From Stdlib Require Import ZArith Lia.
From S2P Require Import Prelude GoLib Host Http Domain Guardrail Prometheus PrometheusProps Registry AgentRegistry Rollout RolloutService RolloutSpec RolloutMemory Sql Postgres PostgresFacts PostgresInvariants PostgresConcurrency PostgresDemo DataPlane Agent ControlPlane PlaneKeep Health PostgresStores System Commands Deployment Demo.
Import Domain Rollout Sql PostgresFacts PostgresInvariants PostgresHistory PlaneKeep PostgresStores Commands.
Open Scope string_scope.
Open Scope list_scope.
Open Scope Z_scope.

Module CommandsProps.

(** * The HTTP server of a service *)

Section server.
Import Server.

(** An error that is returned has happened, and a return without one was asked
    for; until then the channel tells whether the listener is running. *)
Definition serving_ok (events : list Event) (s : Serving) : Prop :=
  (∀ err, sg_errc s = Some (Some err) → Listened err ∈ events) ∧
  match sg_phase s with
  | Selecting => sg_listening s = bool_decide (sg_errc s = None) ∧ sg_errc s ≠ Some None
  | ShuttingDown | Draining => ContextDone ∈ events ∧ sg_listening s = bool_decide (sg_errc s = None)
  | Returned None => ContextDone ∈ events ∧ sg_listening s = false
  | Returned (Some err) => Listened err ∈ events ∨ ShutDown (Some err) ∈ events
  end.

(** What is left to happen. *)
Definition serving_weight (s : Serving) : nat :=
  (if sg_listening s then 1 else 0) +
  match sg_phase s with Selecting => 3 | ShuttingDown => 2 | Draining => 1 | Returned _ => 0 end.

Lemma serve_ok before e s s' : serving_ok before s → serve e s = Some s' →
  serving_ok (before ++ [e]) s' ∧ (serving_weight s' < serving_weight s)%nat.
Proof.
  assert (∀ x, x ∈ before → x ∈ before ++ [e]) as Hin by (intros; set_solver).
  assert (e ∈ before ++ [e]) as He by set_solver.
  destruct s as [listening errc phase]. unfold serving_ok, serving_weight. cbn. intros [Herr Hphase].
  destruct e as [err| |[err|]|], phase as [| | |[res|]]; cbn; try done;
    destruct listening; cbn; try done; repeat case_match; intros [= <-]; cbn; naive_solver lia.
Qed.

Lemma serves_ok events s s' : serves s events s' → ∀ before, serving_ok before s →
  serving_ok (before ++ events) s' ∧ (length events + serving_weight s' <= serving_weight s)%nat.
Proof.
  induction 1 as [s|s e s1 events s2 Hs _ IH]; intros before Hok; [rewrite app_nil_r; cbn; auto|].
  destruct (serve_ok _ _ _ _ Hok Hs) as [Hok1 Hw]. destruct (IH _ Hok1) as [Hok2 Hw2].
  rewrite <-(assoc_L (++)) in Hok2. split; [done|]. cbn. lia.
Qed.

(** The server of a service ends: four events at most, one of them possible
    until the function has returned, and none of them a second end of the
    context.  It returns without an error only when the context was done and
    the listener is closed; the error it returns is the listener's or that of
    [Shutdown]. *)
Theorem server_stops events s : serves serving events s →
  (length events <= 4)%nat ∧
  ((∀ err, sg_phase s ≠ Returned err) →
   ∃ e, is_Some (serve e s) ∧ (sg_phase s ≠ Selecting → e ≠ ContextDone)) ∧
  ∀ err, sg_phase s = Returned err →
    match err with
    | None => ContextDone ∈ events ∧ sg_listening s = false
    | Some err => Listened err ∈ events ∨ ShutDown (Some err) ∈ events
    end.
Proof.
  intros Hs. destruct (serves_ok _ _ _ Hs []) as [[_ Hok] Hw]; [by split|].
  split; [cbn in Hw; lia|]. cbn [app] in Hok. split.
  - destruct s as [listening errc []]; cbn in *; intros Hn.
    + by exists ContextDone.
    + by exists (ShutDown None).
    + destruct errc as [err|]; [by exists Receive|]. exists (Listened ErrServerClosed).
      rewrite bool_decide_true in Hok by done. by destruct Hok as [_ ->].
    + by destruct (Hn err).
  - intros err Hp. by rewrite Hp in Hok.
Qed.
End server.

(** * The guardrail client *)

Section guardrails.
Context (os_Getenv : Runtime.Environ) `{Runtime.DurationParser, Prometheus.UrlParser,
  Prometheus.FloatParser, Prometheus.Timeouts, Codec Prometheus.prometheusResponse,
  Codec (list Prometheus.RawMessage), Codec (list Prometheus.prometheusVectorResult), Codec string}.
Context {W : Type} `{HttpClient W}.

Lemma keep_prometheus (P : W → Prop) c ctx query at_ :
  (∀ ctx req, preserves P (http_Do ctx req)) → preserves P (Prometheus.Query c ctx query at_).
Proof.
  intros Hdo. unfold Prometheus.Query. destruct c as [c|]; [|apply preserves_throw].
  apply preserves_bind; [apply preserves_guard|intros _].
  apply preserves_bind; [apply Hdo|intros resp; apply preserves_lift].
Qed.

(** The query [main] wires is that of the Prometheus client. *)
Lemma wired_query query :
  RolloutService.svc_queryer (configureGuardrails os_Getenv (RolloutService.NewService W)) = Some query →
  ∃ client, query = Prometheus.Query (Some client).
Proof.
  unfold configureGuardrails. destruct (empty_str _); [done|].
  destruct (Prometheus.NewPrometheusClient _ _) as [client|]; [|done]. intros [= <-]. by exists client.
Qed.
End guardrails.

(** * Over the in-memory stores *)

Section in_memory.
Import System.

(** The process [main] starts without a database is one of the deployments:
    whatever its environment configures, guardrail queries leave the stores
    alone, so that every state it reaches is sound and reached by steps of the
    rollout machine. *)
Lemma started_process_sound (os_Getenv : Runtime.Environ) `{Runtime.DurationParser,
    Prometheus.UrlParser, Prometheus.FloatParser, Prometheus.Timeouts,
    Codec Prometheus.prometheusResponse, Codec (list Prometheus.RawMessage),
    Codec (list Prometheus.prometheusVectorResult), Codec string, HttpClient System.World,
    ControlPlane.RequestDecoder ControlPlane.createTenantRequest,
    ControlPlane.RequestDecoder ControlPlane.createDefinitionRequest,
    ControlPlane.RequestDecoder ControlPlane.createVersionRequest,
    ControlPlane.RequestDecoder ControlPlane.setStableVersionRequest,
    ControlPlane.RequestDecoder ControlPlane.registerAgentRequest,
    ControlPlane.RequestDecoder ControlPlane.acknowledgementRequest,
    ControlPlane.RequestDecoder ControlPlane.createRolloutRequest} validator host w :
  (∀ ctx req, System.keeps_both (http_Do ctx req)) →
  Deployment.reachable (control_plane os_Getenv validator) host w →
  Deployment.sound w ∧ RolloutSpec.reach None (System.view w).
Proof.
  intros Hnet. apply Deployment.reachable_sound.
  intros s [= <-] query ctx q at_ [client ->]%wired_query.
  split; intros st; apply keep_prometheus; intros ctx' req; apply (Hnet ctx' req).
Qed.
End in_memory.

(** * Over PostgreSQL *)

Section postgres.
Context (os_Getenv : Runtime.Environ) `{Runtime.DurationParser, Prometheus.UrlParser,
  Prometheus.FloatParser, Prometheus.Timeouts, Codec Prometheus.prometheusResponse,
  Codec (list Prometheus.RawMessage), Codec (list Prometheus.prometheusVectorResult), Codec string}.
Context {W : Type} `{Env W, HttpClient W, Has Conn W, !HasLaws Conn W, !HostApart Conn W,
  Sql.Postgres, Codec (gmap string string), Codec (list string), Codec (list Guardrail.Rule),
  Codec (gmap string Z)}.
Context `{ControlPlane.RequestDecoder ControlPlane.createTenantRequest,
  ControlPlane.RequestDecoder ControlPlane.createDefinitionRequest,
  ControlPlane.RequestDecoder ControlPlane.createVersionRequest,
  ControlPlane.RequestDecoder ControlPlane.setStableVersionRequest,
  ControlPlane.RequestDecoder ControlPlane.registerAgentRequest,
  ControlPlane.RequestDecoder ControlPlane.acknowledgementRequest,
  ControlPlane.RequestDecoder ControlPlane.createRolloutRequest, Codec DataPlane.Snapshot}.
Context (validator : ConfigRegistry.SchemaValidator).

#[local] Existing Instances PostgresStores.registry_store PostgresStores.agents_store
  PostgresStores.rollouts_store RolloutService.registry_service PlaneKeep.agent_source
  DataPlane.registry_source DataPlane.agent_source DataPlane.rollout_source.

(** What the two planes do over one database: each serves the requests its mux
    dispatches, snapshots and probes included, and the control plane runs
    passes of its reconciler. *)
Inductive Event :=
| EControl (ctx : Context) (method path : string) (headers : gmap string string) (body : string)
| EData (ctx : Context) (method path : string) (headers : gmap string string) (body : string)
| EReconcile (ctx : Context).

Definition data_plane_handler : Health.ServeHTTP W DataPlane.Payload :=
  DataPlane.NewHandler (DataPlane.GetSnapshot (tenantFilter os_Getenv))
    (DataPlane.AgentCredentialVerifier AgentRegistry.Svc.Verify).

(** A request that reaches no handler leaves the world alone. *)
Definition run_http {A} (served : option (M W A)) (w : W) : W :=
  match served with Some m => (m w).2 | None => w end.

Definition ready : Health.Handler W :=
  Health.NewHandler "control-plane" (Some (λ ctx, zoom (Postgres.Check ctx))).

Definition serve (e : Event) (w : W) : W :=
  match e with
  | EControl ctx method path headers body =>
      run_http (control_plane_handler os_Getenv validator postgres_stores ctx method path headers body) w
  | EData ctx method path headers body =>
      run_http (data_plane_handler ctx method path headers body) w
  | EReconcile ctx =>
      (RolloutService.ReconcileActive (configureGuardrails os_Getenv (RolloutService.NewService W)) ctx w).2
  end.

Hypothesis network : ∀ c ctx req, preserves (λ w : W, part (S := Conn) w = c) (http_Do ctx req).

Lemma queries_recorded s :
  s = configureGuardrails os_Getenv (RolloutService.NewService W) →
  queries_keep PostgresStores.recorded s.
Proof.
  intros -> query ctx q at_ [client ->]%wired_query. apply keep_prometheus. intros ctx' req w Hw.
  unfold PostgresStores.recorded in *. by rewrite (network (part w) ctx' req w eq_refl).
Qed.

Lemma serve_recorded e w : PostgresStores.recorded w → PostgresStores.recorded (serve e w).
Proof.
  intros Hw. destruct e; cbn [serve]; unfold run_http.
  - destruct (control_plane_handler _ _ _ _ _ _ _ _) as [m|] eqn:Hm; [|done]. revert Hw.
    eapply (Health.preserves_ServeMux _ _ _ PostgresStores.recorded); [| |exact Hm].
    + intros ctx'. apply PostgresStores.recorded_zoom. constructor.
    + intros route ctx' r. apply (keep_handle PostgresStores.recorded).
      intros s [= <-]. by apply queries_recorded.
  - destruct (data_plane_handler _ _ _ _ _) as [m|] eqn:Hm; [|done]. revert Hw.
    eapply (Health.preserves_ServeMux _ _ _ PostgresStores.recorded); [| |exact Hm].
    + intros ctx'. apply preserves_ret.
    + intros [] ctx' r. apply (keep_getSnapshot PostgresStores.recorded).
  - apply (keep_reconcile PostgresStores.recorded); [by apply queries_recorded|exact Hw].
Qed.

(** C17. The two planes over one PostgreSQL database: from a migrated database on,
    whatever requests they serve, passes they run and snapshots they compute,
    with any arguments, interruptions and guardrail answers, no transaction is
    left open, every constraint of the schema holds and the versions of every
    definition are numbered 1, 2, 3, ... without gaps. *)
Theorem planes_over_postgres n events w :
  part w = MkConn migrated None n →
  let c := part (S := Conn) (foldl (λ w e, serve e w) w events) in
  cn_tx c = None ∧ db_ok (cn_db c) ∧ numbered (cn_db c).
Proof.
  intros Hw. cbv zeta. apply history_ok. change (PostgresStores.recorded (foldl (λ w e, serve e w) w events)).
  assert (PostgresStores.recorded w) as Hr by (unfold PostgresStores.recorded; rewrite Hw; constructor).
  clear Hw. revert w Hr. induction events as [|e events IH]; intros w Hr; [done|].
  cbn [foldl]. by apply IH, serve_recorded.
Qed.

(** A plane over PostgreSQL answers that it is ready exactly when an exchange
    with the server goes through, and with its error otherwise; it is alive
    without asking the server; neither changes the database. *)
Theorem readiness_follows_store ctx w :
  wp (Health.handle ready Health.Ready_ ctx) (λ res w', ∃ t, res = Ok
      match pg_trip ctx (cn_trips (part w)) with
      | None => Health.writeJSON 200 (Health.MkHealth "control-plane" "ready" t "")
      | Some (err, _) => Health.writeJSON 503 (Health.MkHealth "control-plane" "not_ready" t (Error err))
      end ∧ part w' = trip (part w)) w ∧
  wp (Health.handle ready Health.Health_ ctx) (λ res w', ∃ t, res = Ok
      (Health.writeJSON 200 (Health.MkHealth "control-plane" "ok" t "")) ∧ part w' = part w) w.
Proof.
  split; cbn [Health.handle].
  - unfold Health.handleReady. wp_step. wp_step. apply wp_zoom.
    assert (∀ c : Conn, (Postgres.Check ctx c) = (match pg_trip ctx (cn_trips c) with
      | Some (err, _) => Err err | None => Ok tt end, trip c)) as Hc.
    { intros [d tx n]. unfold Postgres.Check, Exec. cbn -[trip].
      destruct (pg_trip ctx n) as [[e []]|]; destruct tx; done. }
    unfold wp at 1. rewrite Hc. cbn [fst snd]. wp_step.
    apply (wp_now (λ w', part w' = trip (part w)) (HostFrame0 := host_apart _)); [apply part_set|].
    intros t w' Hw'. exists t. by destruct (pg_trip ctx _) as [[e b]|].
  - unfold Health.handleHealth. wp_step.
    apply (wp_now (λ w', part w' = part w) (HostFrame0 := host_apart _)); [done|].
    intros t w' Hw'. by exists t.
Qed.
End postgres.

(** * The seeded data plane *)

Section seeded.
Context (os_Getenv : Runtime.Environ).
Context {W : Type} `{Env W, !EnvLaws W, Has DataPlane.MemorySnapshotStore W,
  !HasLaws DataPlane.MemorySnapshotStore W, !HostApart DataPlane.MemorySnapshotStore W}.
Context `{Prometheus.Timeouts, ConfigRegistry.Store W, AgentRegistry.Store W, RolloutService.Store W,
  Codec DataPlane.Snapshot}.
Context (connect : Context → string → M W unit).

(** A context that is never cancelled. *)
Definition undisturbed (ctx : Context) : Prop := ∀ n, ctx n = None.

Lemma wp_undisturbed ctx (P : W → Prop) `{!HostFrame P} (Q : res (option error) → W → Prop) w :
  undisturbed ctx → P w → (∀ w', P w' → Q (Ok None) w') → wp (ctx_Err ctx) Q w.
Proof.
  intros Hctx Hw HQ. apply (wp_ctx_Err P); [done|]. intros e w' He Hw'.
  destruct e as [c|]; [|by apply HQ]. destruct (He c eq_refl) as (n & c' & Hc & _).
  by rewrite Hctx in Hc.
Qed.

Lemma seeded_snapshot_clone key value t :
  DataPlane.CloneSnapshot (seeded_snapshot os_Getenv key value t) = seeded_snapshot os_Getenv key value t.
Proof.
  unfold DataPlane.CloneSnapshot, seeded_snapshot, DataPlane.clone_item, DataPlane.cloneRaw. cbn.
  destruct (empty_str value) eqn:Hv; [|done]. by apply empty_str_true in Hv as ->.
Qed.

Lemma seeded_snapshot_valid key value t :
  Agent.ValidateSnapshot (seeded_snapshot os_Getenv key value t) = Ok tt.
Proof. unfold Agent.ValidateSnapshot, seeded_snapshot. cbn. by rewrite bool_decide_true. Qed.

(** What the command opens, and the store it leaves. *)
Lemma seeded_dependencies ctx w :
  let agentID := os_Getenv "DATA_PLANE_AGENT_ID" in
  let key := os_Getenv "DATA_PLANE_CONFIG_KEY" in
  let value := os_Getenv "DATA_PLANE_CONFIG_VALUE" in
  os_Getenv "DATABASE_URL" = "" → agentID ≠ "" → key ≠ "" → value ≠ "" → Json.Valid value = true →
  wp (openDataPlaneDependencies os_Getenv connect ctx)
     (λ res w', ∃ now,
        res = Ok (Some (memory_snapshots, DataPlane.StaticCredentialVerifier (agentTokens os_Getenv))) ∧
        DataPlane.ss_snapshots (part w') !! agentID = Some (seeded_snapshot os_Getenv key value now)) w.
Proof.
  intros agentID key value Hdb Hid Hkey Hne Hvalue. unfold openDataPlaneDependencies. rewrite Hdb.
  change (empty_str "") with true. cbv iota. wp_step. unfold seedSnapshot.
  fold agentID key value. rewrite !(proj2 (empty_str_false _)), Hvalue by done. cbn [orb negb].
  wp_step. apply (wp_now (λ w', part w' = part (S := DataPlane.MemorySnapshotStore) w)
    (HostFrame0 := host_apart _)); [done|].
  intros now w1 Hw1. apply wp_zoom. apply wp_ret. exists now. split; [done|].
  rewrite part_set. cbn. rewrite lookup_insert_eq. by rewrite seeded_snapshot_clone.
Qed.

(** What the handler answers over that store. *)
Lemma seeded_answer agentID token s ctx r w :
  undisturbed ctx → DataPlane.ss_snapshots (part w) !! agentID = Some s →
  DataPlane.CloneSnapshot s = s → token ≠ "" →
  is_ok (json_Marshal s) = true → Header r "If-None-Match" = "" →
  wp (DataPlane.getSnapshot memory_snapshots
        (DataPlane.StaticCredentialVerifier (<[token := agentID]> ∅)) ctx r)
     (λ res _, ∃ resp, res = Ok resp ∧
        if bool_decide (DataPlane.bearerToken (Header r "Authorization") = token) then
          if bool_decide (PathValue r "agentID" = agentID)
          then rs_status resp = 200 ∧ rs_payload resp = Some (DataPlane.PSnapshot s)
          else rs_status resp = 403
        else rs_status resp = 401) w.
Proof.
  intros Hctx Hs Hclone Htok Henc Hmatch. unfold DataPlane.getSnapshot, DataPlane.StaticCredentialVerifier.
  wp_step. wp_step. wp_step.
  apply (wp_undisturbed ctx (λ w', part w' = part (S := DataPlane.MemorySnapshotStore) w)
    (HostFrame0 := host_apart _)); [done..|].
  intros w1 Hw1. wp_step. apply wp_ret. wp_step.
  set (given := DataPlane.bearerToken _). destruct (empty_str given) eqn:He.
  { apply empty_str_true in He. rewrite He. apply wp_throw. wp_step. eexists. split; [done|].
    by rewrite bool_decide_false by congruence. }
  apply wp_ret. destruct (decide (given = token)) as [->|Hg].
  2: { rewrite lookup_insert_ne, lookup_empty by done. apply wp_throw. wp_step. eexists.
       split; [done|]. by rewrite bool_decide_false. }
  rewrite lookup_insert_eq, (bool_decide_true (token = token)) by done. apply wp_ret.
  destruct (decide (PathValue r "agentID" = agentID)) as [->|Hr].
  2: { rewrite (bool_decide_false (agentID = _)) by congruence. cbn [negb]. wp_step. eexists.
       split; [done|]. by rewrite bool_decide_false. }
  rewrite !(bool_decide_true (agentID = agentID)) by done. cbn [negb]. wp_step. wp_step.
  unfold memory_snapshots, store_call. wp_step.
  apply (wp_undisturbed ctx (λ w', part w' = part (S := DataPlane.MemorySnapshotStore) w)
    (HostFrame0 := host_apart _)); [done..|].
  intros w2 Hw2. apply wp_zoom. rewrite Hw2. unfold DataPlane.MemoryGetSnapshot.
  wp_step. apply wp_ret. wp_step. cbn. rewrite Hs, Hclone. apply wp_ret.
  unfold DataPlane.ETag. destruct (json_Marshal s) as [payload|]; [|done]. cbn. rewrite Hmatch.
  rewrite bool_decide_false by done. wp_step. by eexists.
Qed.

(** A data plane without a database, seeded by its environment, answers its
    agent's token with the seeded configuration, as a snapshot the agent
    accepts; the same token for another agent with 403; and any other token
    with 401. *)
Theorem seeded_data_plane ctx r w :
  let agentID := os_Getenv "DATA_PLANE_AGENT_ID" in
  let token := os_Getenv "DATA_PLANE_AGENT_TOKEN" in
  let key := os_Getenv "DATA_PLANE_CONFIG_KEY" in
  let value := os_Getenv "DATA_PLANE_CONFIG_VALUE" in
  undisturbed ctx → os_Getenv "DATABASE_URL" = "" → agentID ≠ "" → token ≠ "" → key ≠ "" →
  Json.Valid value = true → (∀ s : DataPlane.Snapshot, is_ok (json_Marshal s) = true) →
  Header r "If-None-Match" = "" →
  wp (deps ← openDataPlaneDependencies os_Getenv connect ctx;
      match deps with
      | None => mthrow (EText "exit" [])
      | Some (store, verifier) => DataPlane.getSnapshot store verifier ctx r
      end)
     (λ res _, ∃ resp, res = Ok resp ∧
        if bool_decide (DataPlane.bearerToken (Header r "Authorization") = token) then
          if bool_decide (PathValue r "agentID" = agentID) then
            ∃ s now, s = seeded_snapshot os_Getenv key value now ∧
              rs_status resp = 200 ∧ rs_payload resp = Some (DataPlane.PSnapshot s) ∧
              Agent.ValidateSnapshot s = Ok tt
          else rs_status resp = 403
        else rs_status resp = 401) w.
Proof.
  intros agentID token key value Hctx Hdb Hid Htok Hkey Hvalue Henc Hmatch.
  assert (value ≠ "") as Hne by (intros ->; done).
  wp_step. eapply wp_mono; [by apply seeded_dependencies|].
  intros res w1 (now & -> & Hw1). unfold agentTokens. fold agentID token.
  rewrite !(proj2 (empty_str_false _)) by done. cbn [orb].
  eapply wp_mono; [apply (seeded_answer agentID token (seeded_snapshot os_Getenv key value now));
    [done|done|apply seeded_snapshot_clone|done|apply Henc|done]|].
  intros res' w2 (resp & -> & Hresp). exists resp. split; [done|].
  do 2 (case_bool_decide; [|done]). destruct Hresp. eexists _, now.
  split_and!; [done..|apply seeded_snapshot_valid].
Qed.
End seeded.

(** * The properties at a concrete process *)

(** A process with a connection and a snapshot store, on the host of the other
    examples; its network is down. *)
Record Process := MkProcess {
  p_host : System.HostState;
  p_conn : Conn;
  p_snapshots : DataPlane.MemorySnapshotStore }.

#[local] Existing Instances System.world_env System.world_env_laws.
Definition on_host {A} (f : System.World → A * System.World) (p : Process) : A * Process :=
  let '(a, w) := f (System.boot (p_host p)) in
  (a, MkProcess (System.w_host w) (p_conn p) (p_snapshots p)).

#[local] Instance process_env : Env Process := {|
  env_now := on_host env_now;
  env_random n := on_host (env_random n);
  env_range := on_host env_range;
  env_ctx ctx := on_host (env_ctx ctx) |}.
#[local] Instance process_env_laws : EnvLaws Process.
Proof.
  split.
  - intros p. exact (env_range_ok (System.boot (p_host p))).
  - intros ctx p c. exact (env_ctx_answers ctx (System.boot (p_host p)) c).
Qed.
#[local] Instance process_conn : Has Conn Process := {|
  part := p_conn; set_part c p := MkProcess (p_host p) c (p_snapshots p) |}.
#[local] Instance process_conn_laws : HasLaws Conn Process.
Proof. split; by try (intros []). Qed.
#[local] Instance process_conn_apart : HostApart Conn Process.
Proof. by split. Qed.
#[local] Instance process_snapshots : Has DataPlane.MemorySnapshotStore Process := {|
  part := p_snapshots; set_part c p := MkProcess (p_host p) (p_conn p) c |}.
#[local] Instance process_snapshots_laws : HasLaws DataPlane.MemorySnapshotStore Process.
Proof. split; by try (intros []). Qed.
#[local] Instance process_snapshots_apart : HostApart DataPlane.MemorySnapshotStore Process.
Proof. by split. Qed.
#[local] Instance process_network : HttpClient Process := λ _ _, mthrow (EText "network is down" []).
#[local] Instance process_durations : Runtime.DurationParser := λ _, Err (EText "invalid duration" []).
#[local] Existing Instances PrometheusProps.test_urls PrometheusProps.test_floats
  PrometheusProps.test_timeouts PrometheusProps.test_responses PrometheusProps.test_vectors
  PrometheusProps.test_strings.
#[local] Existing Instances PostgresDemo.test_server PostgresDemo.labels_codec
  PostgresDemo.services_codec PostgresDemo.rules_codec PostgresDemo.failures_codec.
#[local] Existing Instances Demo.decode_tenant Demo.decode_definition Demo.decode_version
  Demo.decode_stable Demo.decode_agent Demo.decode_ack Demo.decode_rollout.
#[local] Instance process_snapshot_codec : Codec DataPlane.Snapshot := {|
  json_Marshal _ := Ok "snapshot"; json_Unmarshal _ := Err (EText "json: cannot unmarshal" []) |}.

Definition process_environ : Runtime.Environ := λ key,
  if bool_decide (key = "DATA_PLANE_AGENT_ID") then "agent-1"
  else if bool_decide (key = "DATA_PLANE_AGENT_TOKEN") then "secret"
  else if bool_decide (key = "DATA_PLANE_CONFIG_KEY") then "timeout"
  else if bool_decide (key = "DATA_PLANE_CONFIG_VALUE") then "1500" else "".

Definition new_process : Process :=
  MkProcess Demo.test_host (MkConn migrated None 0) DataPlane.NewMemorySnapshotStore.
Definition process_events : list Event :=
  let post := EControl Background "POST" in
  [ EControl Background "HEAD" "/readyz" ∅ ""; post "/v1/tenants" ∅ "";
    post "/v1/tenants/acme/configs" ∅ "";
    post "/v1/tenants/acme/configs/timeout/versions" ∅ "1500";
    post "/v1/tenants/acme/configs/timeout/versions" ∅ "2000";
    EReconcile Background; EData Background "GET" "/v1/agents/agent-1/snapshot" ∅ "" ].

Example process_numbers :
  SortFunc Z.leb (v_VersionNumber <$> (map_to_list (db_versions (cn_db (p_conn
    (foldl (λ w e, serve process_environ Demo.accept_all e w) new_process process_events))))).*2) = [1; 2].
Proof. vm_compute. reflexivity. Qed.

Lemma planes_over_postgres_witness :
  let c := p_conn (foldl (λ w e, serve process_environ Demo.accept_all e w) new_process process_events) in
  cn_tx c = None ∧ db_ok (cn_db c) ∧ numbered (cn_db c).
Proof.
  exact (planes_over_postgres process_environ Demo.accept_all (λ c ctx req w Hw, Hw) 0 process_events
    new_process eq_refl).
Defined.

#[local] Existing Instances PostgresStores.registry_store PostgresStores.agents_store
  PostgresStores.rollouts_store.
Definition process_request : Request :=
  MkRequest (<["agentID" := "agent-1"]> ∅) (<["Authorization" := "Bearer secret"]> ∅) "".

Lemma seeded_data_plane_witness :
  ∃ resp p, (deps ← openDataPlaneDependencies process_environ (λ _ _, mret tt) Background;
      match deps with
      | None => mthrow (EText "exit" [])
      | Some (store, verifier) => DataPlane.getSnapshot store verifier Background process_request
      end) new_process = (Ok resp, p) ∧ rs_status resp = 200.
Proof.
  pose proof (seeded_data_plane process_environ (λ _ _, mret tt) Background process_request new_process
    ltac:(done) eq_refl ltac:(done) ltac:(done) ltac:(done) eq_refl ltac:(done) eq_refl) as Hwp.
  destruct (wp_succeeds _ _ (λ _, true) _ Hwp) as (resp & p & Hr & _ & resp' & Heq & Hresp);
    [vm_compute; reflexivity|].
  injection Heq as <-. exists resp, p. split; [exact Hr|].
  rewrite (bool_decide_true (DataPlane.bearerToken _ = _)), bool_decide_true in Hresp by (vm_compute; reflexivity).
  by destruct Hresp as (s & now & _ & Hs & _).
Defined.

End CommandsProps.
