(* ===== verification/RolloutProps.v ===== *)
(** The properties of the rollout service and of the process it runs in:
    refinement of the rollout machine, and what the machine guarantees of
    every state the process reaches. *)

From Stdlib Require Import ZArith Lia.
From S2P Require Import Prelude GoLib Host Http Domain Guardrail Registry RegistrySpec RegistryMemory Rollout RolloutFacts RolloutStore RolloutService RolloutSpec RolloutInvariants RolloutMemory RolloutRefine RolloutProgress DataPlane ControlPlane System DataPlaneFacts Deployment Convergence Demo.
Import DataPlane Domain Rollout RolloutService RolloutSpec RolloutInvariants DataPlaneFacts System Deployment.
Open Scope string_scope.
Open Scope list_scope.
Open Scope Z_scope.

Module RolloutProps.

(** * Refinement *)

(** C1. [Service.Acknowledge] refines the rollout machine: from any world whose
    store is well formed, whatever the request, the queries' answers and the
    point at which it is cancelled or fails, the call takes the store through
    a sequence of machine steps and leaves it well formed. *)
Theorem Acknowledge_refinement (s : Service World) ctx input w :
  queries_apart s → store_inv w → view_ok (view w) →
  wp (Acknowledge s ctx input) (λ _ w', store_inv w' ∧ view_ok (view w') ∧
    rtc step (None, view w) (None, view w')) w.
Proof. intros Hq Hi Hv. pose proof (service_laws s Hq). by apply (RolloutRefine.Acknowledge_refines s interrupted store_inv view). Qed.

Lemma Acknowledge_refinement_witness :
  wp (Acknowledge (NewService World) Background (MkAcknowledgeInput Demo.first_id "half" "agent-1" "v" 1))
     (λ _ w', store_inv w' ∧ view_ok (view w') ∧
        rtc step (None, view Demo.started) (None, view w')) Demo.started.
Proof.
  pose proof (reachable_sound _ _ _ Demo.wired Demo.started_reachable) as [[Hi Hv] _].
  apply Acknowledge_refinement; [apply new_service_queries|exact Hi|exact Hv].
Defined.

(** C2. [Service.ReconcileActive], the loop that promotes, pauses and rolls back
    every active rollout, refines the machine: each rollout it visits moves by
    machine steps, also when a later one fails. *)
Theorem ReconcileActive_refinement (s : Service World) ctx w :
  queries_apart s → store_inv w → view_ok (view w) →
  wp (ReconcileActive s ctx) (λ _ w', store_inv w' ∧ view_ok (view w') ∧
    rtc step (None, view w) (None, view w')) w.
Proof. intros Hq Hi Hv. pose proof (service_laws s Hq). by apply (RolloutRefine.ReconcileActive_refines s interrupted store_inv view). Qed.

Lemma ReconcileActive_refinement_witness :
  wp (ReconcileActive (NewService World) Background)
     (λ _ w', store_inv w' ∧ view_ok (view w') ∧
        rtc step (None, view Demo.second_started) (None, view w')) Demo.second_started.
Proof.
  pose proof (reachable_sound _ _ _ Demo.wired Demo.second_started_reachable) as [[Hi Hv] _].
  apply ReconcileActive_refinement; [apply new_service_queries|exact Hi|exact Hv].
Defined.

(** C3. [Service.CreateRollout] refines the machine: a rollout is added only
    with a valid plan, in a free slot, at its first stage, whose cohort is then
    written; a failure between the two writes leaves an empty cohort. *)
Theorem CreateRollout_refinement (s : Service World) ctx input w :
  queries_apart s → store_inv w → view_ok (view w) →
  RolloutRefine.unreserved (RolloutRefine.plan_of s input) →
  wp (CreateRollout s ctx input) (λ _ w', store_inv w' ∧ view_ok (view w') ∧
    rtc step (None, view w) (None, view w')) w.
Proof. intros Hq Hi Hv Hu. pose proof (service_laws s Hq). by apply (RolloutRefine.CreateRollout_refines s interrupted store_inv view). Qed.

Definition example_input : CreateRolloutInput :=
  MkCreateRolloutInput "acme" "timeout" "production" 2 [] [] [] f_zero 0 0 0.

Lemma CreateRollout_refinement_witness :
  wp (CreateRollout (NewService World) Background example_input)
     (λ _ w', store_inv w' ∧ view_ok (view w') ∧
        rtc step (None, view Demo.ready) (None, view w')) Demo.ready.
Proof.
  pose proof (reachable_sound _ _ _ Demo.wired Demo.ready_reachable) as [[Hi Hv] _].
  apply CreateRollout_refinement; [apply new_service_queries|exact Hi|exact Hv|].
  apply Forall_forall. simpl. intros st Hst.
  repeat (apply elem_of_cons in Hst as [-> |Hst]; [apply RolloutSpec.short_not_verification; simpl; lia|]).
  by apply not_elem_of_nil in Hst.
Defined.

(** C8. Completion publishes the candidate: when [Service.promote] returns a
    completed rollout, the registry's stable version for the rollout's key and
    environment is the version the rollout was created for. *)
Theorem completion_publishes validator ctx r stages w :
  RegistrySpec.registry_inv reg_inv reg_view validator w → no_nul (r_TenantID r) →
  wp (promote ctx r stages) (λ res w', ∀ r', res = Ok r' → r_State r' = StateCompleted →
    ∃ d ver st, RegistrySpec.defines (reg_view w) (r_TenantID r) (r_ConfigKey r) d ∧
      ver ∈ RegistrySpec.rv_versions (reg_view w) (d_ID d) ∧
      v_VersionNumber ver = r_CandidateVersion r ∧
      RegistrySpec.rv_state (reg_view w') (d_ID d) (r_Environment r) = Some st ∧
      es_StableVersionID st = v_ID ver) w.
Proof.
  intros Hinv Hn. unfold promote. wp_step.
  2: { cbv zeta. wp_step. apply wp_any. intros [next|e] w1; [|done].
       wp_step. apply wp_any. intros [t|e] w2; [|done]. wp_step. apply wp_any. intros [[]|e] w3; [|done].
       wp_step. apply wp_any. intros [ts|e] w4; [|done]. wp_step. by intros r' [= <-]. }
  wp_step. eapply (wp_mono _ (λ _ w', w' = w)).
  { destruct (Transition _ _); [done|]. by destruct (bool_decide _). }
  intros [[]|e] _ ->; [|done].
  wp_step. wp_call (RegistrySpec.SetStableVersion_spec interrupted reg_inv reg_view registry_frame validator);
    [done|done|]. simpl.
  intros [st|e] w1 [Hi1 Hres]; [|done].
  destruct Hres as (d & ver & Hd & Hge & Hver & Hcfg & Henv & Hstable & _ & Hput).
  assert (HostFrame (λ w' : World, reg_view w' = reg_view w1)) as Hframe by by split.
  wp_step. apply (wp_now _ (HostFrame0 := Hframe)); [done|]. intros t w2 Hv2. cbv zeta.
  wp_step. eapply (wp_mono _ (λ _ (w' : World), reg_view w' = reg_view w1)).
  { apply (preserves_wp (λ w' : World, reg_view w' = reg_view w1)); [|done].
    apply (preserves_part (λ s, RegistryMemory.view_of s = reg_view w1)). keep. }
  intros [[]|e] w3 Hv3; [|done]. wp_step. intros r' [= <-] _.
  exists d, ver, st. split_and!; [done|by eapply list_elem_of_lookup_2| | |done].
  - destruct (RegistrySpec.ok_version _ (RegistrySpec.ri_ok _ _ _ _ Hinv) _ _ _ Hver) as (_ & -> & _). lia.
  - change (RegistrySpec.rv_state (reg_view w3) (d_ID d) (r_Environment r) = Some st).
    rewrite Hv3. destruct Hput as (_ & _ & _ & ->).
    + rewrite decide_True by done. done.
    + destruct Hd as (Hd & _).
      by destruct (RegistrySpec.ok_definition _ (RegistrySpec.ri_ok _ _ _ _ Hinv) _ _ Hd) as (_ & ? & _).
Qed.

Lemma completion_publishes_witness :
  wp (promote Background (Demo.rollout_in Demo.halfway Demo.first_id)
        [MkStage "half" 50 0; MkStage "full" 100 0])
     (λ res w', ∀ r', res = Ok r' → r_State r' = StateCompleted →
        ∃ d ver st, RegistrySpec.defines (reg_view Demo.halfway) "acme" "timeout" d ∧
          ver ∈ RegistrySpec.rv_versions (reg_view Demo.halfway) (d_ID d) ∧
          v_VersionNumber ver = 2 ∧
          RegistrySpec.rv_state (reg_view w') (d_ID d) "production" = Some st ∧
          es_StableVersionID st = v_ID ver) Demo.halfway.
Proof.
  apply (completion_publishes Demo.accept_all Background (Demo.rollout_in Demo.halfway Demo.first_id));
    [exact Demo.halfway_registry_ok|vm_compute; reflexivity].
Defined.

(** * Every state the process reaches *)
Section Reachable.
Context `{ControlPlane.RequestDecoder ControlPlane.createTenantRequest,
  ControlPlane.RequestDecoder ControlPlane.createDefinitionRequest,
  ControlPlane.RequestDecoder ControlPlane.createVersionRequest,
  ControlPlane.RequestDecoder ControlPlane.setStableVersionRequest,
  ControlPlane.RequestDecoder ControlPlane.registerAgentRequest,
  ControlPlane.RequestDecoder ControlPlane.acknowledgementRequest,
  ControlPlane.RequestDecoder ControlPlane.createRolloutRequest}.
Context (h : ControlPlane.Handler World) (host : HostState).

(** C6. Whatever HTTP requests the control plane serves, in whatever order and
    however they are cancelled, no two unfinished rollouts are for the same
    configuration and environment. *)
Theorem one_live_rollout w id r id' r' :
  well_wired h → reachable h host w →
  vw_rollouts (view w) !! id = Some r → vw_rollouts (view w) !! id' = Some r' →
  Terminal (r_State r) = false → Terminal (r_State r') = false →
  r_ConfigDefinitionID r = r_ConfigDefinitionID r' → r_Environment r = r_Environment r' →
  id = id'.
Proof.
  intros Hw Hreach Hr Hr' Hl Hl' Hc He.
  destruct (reachable_sound h host w Hw Hreach) as [[_ Hok] _].
  eapply (view_slots _ Hok); [done..|]. unfold slot. congruence.
Qed.

(** C7. A completed rollout passed every stage of its plan: it stands at the
    last stage, the cohort of that stage reached the required acknowledgement
    percentage, and so did the cohorts of the earlier stages when the plan
    names its stages differently. *)
Theorem completed_is_covered w id r :
  well_wired h → reachable h host w → vw_rollouts (view w) !! id = Some r →
  r_State r = StateCompleted →
  ∃ plan, vw_stages (view w) !! id = Some plan ∧
    r_CurrentStageIndex r = Z.of_nat (length plan) - 1 ∧
    CoverageReached (vw_targets (view w) id (r_CurrentStageID r)) (r_RequiredAckPercent r) = true ∧
    (NoDup (s_ID <$> plan) → Forall (λ s,
       CoverageReached (vw_targets (view w) id (s_ID s)) (r_RequiredAckPercent r) = true) plan).
Proof.
  intros Hw Hreach Hr Hst.
  destruct (reachable_sound h host w Hw Hreach) as [_ Hre%reach_history].
  destruct (Hre _ _ Hr) as (plan & extra & Hh).
  destruct (hi_completed _ _ _ _ _ _ Hh Hst) as (-> & Hlast & Hcov & Hne).
  pose proof (hi_stages _ _ _ _ _ _ Hh) as Hs. rewrite app_nil_r in Hs.
  exists plan. split_and!; [done..|]. intros Hnd. apply Forall_lookup_2. intros i s Hi.
  destruct (decide (Z.of_nat i < r_CurrentStageIndex r)) as [Hlt|Hge].
  - by apply (co_before _ _ _ _ _ (hi_cohorts _ _ _ _ _ _ Hh Hnd) i).
  - destruct (hi_current _ _ _ _ _ _ Hh) as [[? _]|(s0 & Hl & Hc)]; [done|].
    apply lookup_lt_Some in Hi as Hlt. assert (i = Z.to_nat (r_CurrentStageIndex r)) as -> by lia.
    rewrite Hl in Hi. injection Hi as ->. by rewrite <-Hc.
Qed.

(** C9. A rolled back rollout was verified or timed out: either every agent of
    its verification cohort was asked to confirm the stable version and the
    required percentage did (or there was none to ask), or the rollback
    timeout is set and the result is marked partial. *)
Theorem rolled_back_is_accounted w id r :
  well_wired h → reachable h host w → vw_rollouts (view w) !! id = Some r →
  r_State r = StateRolledBack →
  let cohort := vw_targets (view w) id (verification_id id) in
  Forall (λ t, st_ExpectedVersionID t = r_StableVersionID r) cohort ∧
  (r_RollbackStatus r = RollbackStatusVerified ∧
     (CoverageReached cohort (r_RequiredAckPercent r) = true ∨ cohort = []) ∨
   r_RollbackStatus r = RollbackStatusPartial ∧ 0 < r_RollbackTimeout r).
Proof.
  intros Hw Hreach Hr Hst.
  destruct (reachable_sound h host w Hw Hreach) as [_ Hre%reach_history].
  destruct (Hre _ _ Hr) as (plan & extra & Hh). split.
  - apply Forall_forall. intros t Ht. by apply (hi_verification _ _ _ _ _ _ Hh).
  - by apply (hi_rolled_back _ _ _ _ _ _ Hh).
Qed.

(** C10. The blast radius of a rollout: while it runs, an agent's cohort
    membership is decided by its bucket.  Every member of the cohort of a
    stage has the bucket of its assignment key, below the percentage of a
    stage of the plan with that name, and is asked for the candidate version;
    with differently named stages no agent is in a cohort twice and the
    cohorts of stages not yet entered are empty. *)
Theorem cohorts_within_percentage w id r sid t :
  well_wired h → reachable h host w → vw_rollouts (view w) !! id = Some r →
  sid ≠ verification_id id → t ∈ vw_targets (view w) id sid →
  ∃ plan extra s, vw_stages (view w) !! id = Some (plan ++ extra) ∧
    Forall (λ s, s_ID s = verification_id id) extra ∧ s ∈ plan ∧ s_ID s = sid ∧
    Bucket (MkAssignmentKey (r_ConfigDefinitionID r) (r_CandidateVersionID r) (st_AgentID t))
      = Ok (st_Bucket t) ∧
    0 ≤ st_Bucket t < s_Percentage s * 100 ∧
    st_ExpectedVersionID t = r_CandidateVersionID r ∧
    (NoDup (s_ID <$> plan) → NoDup (st_AgentID <$> vw_targets (view w) id sid) ∧
       ∃ i, plan !! i = Some s ∧ Z.of_nat i ≤ r_CurrentStageIndex r).
Proof.
  intros Hw Hreach Hr Hne Ht.
  destruct (reachable_sound h host w Hw Hreach) as [_ Hre%reach_history].
  destruct (Hre _ _ Hr) as (plan & extra & Hh).
  destruct (hi_members _ _ _ _ _ _ Hh _ _ Hne Ht) as (s & Hs & Hsid & Hb & He & Hx & _).
  exists plan, extra, s. apply Eligible_spec in He as (Hp & Hlo & Hhi).
  split; [apply (hi_stages _ _ _ _ _ _ Hh)|]. split; [apply (hi_extra _ _ _ _ _ _ Hh)|].
  split_and!; try done; try lia. intros Hnd.
  destruct (hi_cohorts _ _ _ _ _ _ Hh Hnd) as [_ Hafter _ Hdist]. split; [by apply Hdist|].
  apply list_elem_of_lookup in Hs as [i Hi]. exists i. split; [done|].
  destruct (decide (Z.of_nat i ≤ r_CurrentStageIndex r)) as [|Hlt]; [done|].
  rewrite <-Hsid, (Hafter i s Hi) in Ht by lia. by apply not_elem_of_nil in Ht.
Qed.

(** C14. A finished rollout is final: no later request or reconciliation changes
    its record, its plan or any of its cohorts. *)
Theorem finished_is_final w e id r :
  well_wired h → reachable h host w → admissible h e →
  vw_rollouts (view w) !! id = Some r → Terminal (r_State r) = true →
  frozen (view w) (view (serve h e w)) id.
Proof.
  intros Hw Hreach Hadm Hr Ht. destruct (reachable_sound h host w Hw Hreach) as [[Hi Hok] _].
  destruct (serve_advances h e w Hw (conj Hi Hok) Hadm) as [_ Hs].
  eapply steps_frozen; [exact Hs|done..].
Qed.

(** A rollout never forgets what it is, goes back to an earlier stage, or
    leaves the life cycle: from one event to the next its identity (versions,
    configuration, plan parameters) is unchanged, its stage index does not
    decrease and its state moves along the edges of the life cycle. *)
Theorem lifecycle_respected w e id r :
  well_wired h → reachable h host w → admissible h e →
  vw_rollouts (view w) !! id = Some r →
  ∃ r', vw_rollouts (view (serve h e w)) !! id = Some r' ∧ identity r' = identity r ∧
    rtc lifecycle (r_State r) (r_State r') ∧ r_CurrentStageIndex r ≤ r_CurrentStageIndex r'.
Proof.
  intros Hw Hreach Hadm Hr. destruct (reachable_sound h host w Hw Hreach) as [[Hi Hok] _].
  destruct (serve_advances h e w Hw (conj Hi Hok) Hadm) as [_ Hs].
  eapply steps_rollout; [exact Hs|done..].
Qed.

(** C11. What an agent is served while a rollout runs for its environment: the
    stable version of the rollout, or its candidate when the rollout still
    serves it and the agent's bucket is within the percentage of the current
    stage; never anything else, and never the candidate during a rollback. *)
Theorem snapshot_respects_rollout w ctx tenantID definition agent id r :
  well_wired h → reachable h host w →
  vw_rollouts (view w) !! id = Some r → Terminal (r_State r) = false →
  r_ConfigDefinitionID r = d_ID definition → r_Environment r = a_Environment agent →
  wp (DataPlane.snapshotItem ctx tenantID definition agent)
     (λ res w', view w' = view w ∧ ∀ item rev, res = Ok (Some (item, rev)) →
        served (view w) r (a_ID agent) (DataPlane.si_VersionID item)) w.
Proof.
  intros Hw Hreach Hr Hl Hc He. destruct (reachable_sound h host w Hw Hreach) as [[Hi Hok] Hre].
  pose proof (ok_id _ _ _ (view_rollouts _ Hok _ _ Hr)) as Hid.
  eapply wp_mono; [eapply (snapshotItem_served _ _ _ _ None w r);
    [done..|by apply reach_history|by rewrite Hid|done|by unfold slot; congruence]|].
  by intros res w' (_ & ? & ?).
Qed.


End Reachable.
(** ** The properties at the worlds of [Demo] *)
Import Demo.

Lemma one_live_rollout_witness :
  Demo.state_in Demo.started Demo.first_id = StateDeploying ∧ Demo.first_id = Demo.first_id.
Proof.
  split; [vm_compute; reflexivity|].
  apply (one_live_rollout Demo.handler Demo.test_host Demo.started Demo.first_id
    (Demo.rollout_in Demo.started Demo.first_id) Demo.first_id
    (Demo.rollout_in Demo.started Demo.first_id));
    [exact Demo.wired|exact Demo.started_reachable|vm_compute; reflexivity..].
Defined.

Lemma completed_is_covered_witness :
  ∃ plan, vw_stages (view Demo.completed) !! Demo.first_id = Some plan ∧ length plan = 2%nat ∧
    CoverageReached (vw_targets (view Demo.completed) Demo.first_id "full") (f_of_int 100) = true.
Proof.
  destruct (completed_is_covered Demo.handler Demo.test_host Demo.completed Demo.first_id
    (Demo.rollout_in Demo.completed Demo.first_id)) as (plan & Hp & Hlen & Hcov & _);
    [exact Demo.wired|exact Demo.completed_reachable|vm_compute; reflexivity..|].
  exists plan. split; [exact Hp|]. split; [|exact Hcov].
  change (r_CurrentStageIndex (Demo.rollout_in Demo.completed Demo.first_id)) with 1 in Hlen. lia.
Defined.

Lemma rolled_back_is_accounted_witness :
  let r := Demo.rollout_in Demo.rolled_back Demo.second_id in
  r_RollbackStatus r = RollbackStatusVerified ∨ r_RollbackStatus r = RollbackStatusPartial.
Proof.
  destruct (rolled_back_is_accounted Demo.handler Demo.test_host Demo.rolled_back Demo.second_id
    (Demo.rollout_in Demo.rolled_back Demo.second_id)) as [_ [[Hv _]|[Hp _]]];
    [exact Demo.wired|exact Demo.rolled_back_reachable|vm_compute; reflexivity..|left; exact Hv|right; exact Hp].
Defined.

Definition first_target : StageTarget :=
  default (MkStageTarget "" "" "" 0 "" 0 0 0 TargetPending)
    (head (vw_targets (view Demo.started) Demo.first_id "half")).

Lemma cohorts_within_percentage_witness : 0 ≤ st_Bucket first_target < 10000.
Proof.
  destruct (cohorts_within_percentage Demo.handler Demo.test_host Demo.started Demo.first_id
    (Demo.rollout_in Demo.started Demo.first_id) "half" first_target)
    as (plan & extra & s & _ & _ & _ & _ & Hb & _);
    [exact Demo.wired|exact Demo.started_reachable|vm_compute; reflexivity| | |].
  - vm_compute. discriminate.
  - apply list_elem_of_lookup_2 with (i := 0%nat). vm_compute. reflexivity.
  - apply (Bucket_bounds _ _ Hb).
Defined.

Lemma finished_is_final_witness :
  frozen (view Demo.completed)
    (view (serve Demo.handler (EReconcile Background) Demo.completed)) Demo.first_id.
Proof.
  apply (finished_is_final Demo.handler Demo.test_host Demo.completed (EReconcile Background)
    Demo.first_id (Demo.rollout_in Demo.completed Demo.first_id));
    [exact Demo.wired|exact Demo.completed_reachable|exact I|vm_compute; reflexivity..].
Defined.

Lemma lifecycle_respected_witness :
  ∃ r', vw_rollouts (view Demo.rolling_back) !! Demo.second_id = Some r' ∧
    rtc lifecycle StateDeploying (r_State r').
Proof.
  destruct (lifecycle_respected Demo.handler Demo.test_host Demo.second_started (EReconcile Background)
    Demo.second_id (Demo.rollout_in Demo.second_started Demo.second_id)) as (r' & Hr & _ & Hl & _);
    [exact Demo.wired|exact Demo.second_started_reachable|exact I|vm_compute; reflexivity|].
  exists r'. split; [exact Hr|exact Hl].
Defined.



Definition demo_definition : ConfigDefinition :=
  MkConfigDefinition "cfg_000000000000000000000000" "acme" "timeout" "" "{}" "" 0 0.
Definition demo_agent : Agent := MkAgent "agent-1" "payments" "production" "" "i-1" ∅ 0 0.

Lemma snapshot_respects_rollout_witness :
  wp (DataPlane.snapshotItem Background "acme" demo_definition demo_agent)
     (λ res w', view w' = view Demo.started ∧ ∀ item rev, res = Ok (Some (item, rev)) →
        served (view Demo.started) (Demo.rollout_in Demo.started Demo.first_id) "agent-1"
          (DataPlane.si_VersionID item)) Demo.started.
Proof.
  apply (snapshot_respects_rollout Demo.handler Demo.test_host Demo.started Background "acme"
    demo_definition demo_agent Demo.first_id);
    [exact Demo.wired|exact Demo.started_reachable|vm_compute; reflexivity..].
Defined.

End RolloutProps.
