(* ===== verification/EffectProps.v ===== *)
(** What the operations of the rollout service accomplish when they succeed:
    the rollout a request creates, with its cohort, and what an acknowledgement
    does to the rollout it is for. *)

From Stdlib Require Import ZArith Lia.
From S2P Require Import Prelude GoLib Host Http Domain Guardrail Registry RegistrySpec RegistryMemory AgentRegistry AgentStore AgentSpec Rollout RolloutFacts RolloutStore RolloutService RolloutSpec RolloutMemory RolloutRefine ControlPlane System Deployment Demo.
Import Domain Rollout RolloutService RolloutSpec RolloutRefine System Deployment.
Open Scope string_scope.
Open Scope list_scope.
Open Scope Z_scope.

Module EffectProps.

(** * Acknowledgements *)

(** C4. A successful [Service.Acknowledge] did what it reports: the
    acknowledgement was applied to the cohort of the current stage of a live
    rollout, the count and coverage are those of the result, the decision was
    acted on (next stage, completion, pause, rollback, or nothing), the
    rollout returned is the one stored, and when the service waits the cohort
    stored is the one with the acknowledgement. *)
Theorem acknowledgement_effect (s : Service World) ctx input w :
  queries_apart s → store_inv w → view_ok (view w) →
  wp (Acknowledge s ctx input) (λ res w', ∀ out, res = Ok out →
    ∃ r stages at_,
      vw_rollouts (view w) !! ai_RolloutID input = Some r ∧ Terminal (r_State r) = false ∧
      vw_stages (view w) !! r_ID r = Some stages ∧
      let '(cohort, counted) := ApplyAck (vw_targets (view w) (r_ID r) (r_CurrentStageID r))
        (MkAck (ai_RolloutID input) (ai_StageID input) (ai_AgentID input) (ai_VersionID input)
           (ai_SnapshotRevision input) at_) in
      ar_Counted out = counted ∧ ar_Coverage out = AcknowledgementCoverage cohort ∧
      r_ID (ar_Rollout out) = r_ID r ∧ vw_rollouts (view w') !! r_ID r = Some (ar_Rollout out) ∧
      (r_State r = StateRollingBack → ar_Decision out = DecisionWait) ∧
      (servesCandidate (r_State r) = true →
         (∃ r1, (r1 = r ∨ ∃ failures t, r1 = set_failures r failures t) ∧
            acted (ar_Decision out) stages r1 (ar_Rollout out)) ∧
         (ar_Decision out = DecisionWait →
            vw_targets (view w') (r_ID r) (r_CurrentStageID r) = cohort))) w.
Proof.
  intros Hq Hi Hv. pose proof (service_laws s Hq).
  eapply wp_mono; [by apply (Acknowledge_effect s interrupted store_inv view)|].
  intros res w' [_ Heff]. exact Heff.
Qed.

Definition demo_ack : AcknowledgeInput :=
  MkAcknowledgeInput Demo.first_id "half" "agent-1" "ver_020202020202020202020202" 1.

Lemma acknowledgement_effect_witness :
  ∃ out w', Acknowledge (NewService World) Background demo_ack Demo.started = (Ok out, w') ∧
    ar_Counted out = true ∧ r_ID (ar_Rollout out) = Demo.first_id ∧
    vw_rollouts (view w') !! Demo.first_id = Some (ar_Rollout out).
Proof.
  pose proof (reachable_sound _ _ _ Demo.wired Demo.started_reachable) as [[Hi Hv] _].
  destruct (wp_succeeds _ _ (λ out, ar_Counted out && bool_decide (r_ID (ar_Rollout out) = Demo.first_id)) _
    (acknowledgement_effect (NewService World) Background demo_ack Demo.started
       new_service_queries Hi Hv)) as (out & w' & Hm & Hc & Hout); [vm_compute; reflexivity|].
  apply andb_true_iff in Hc as [Hc Hid]. apply bool_decide_eq_true in Hid.
  exists out, w'. split; [exact Hm|]. split; [exact Hc|]. split; [exact Hid|].
  destruct (Hout out eq_refl) as (r & stages & at_ & _ & _ & _ & Hrest).
  revert Hrest. destruct (ApplyAck _ _) as [cohort counted]. intros (_ & _ & Hr & Hst & _).
  rewrite <-Hr, Hid in Hst. exact Hst.
Defined.

(** * Creation *)

Lemma findVersionByNumber_Some l n v :
  findVersionByNumber l n = Some v → v ∈ l ∧ v_VersionNumber v = n.
Proof.
  induction l as [|x l IH]; simpl; [done|]. destruct (v_VersionNumber x =? n) eqn:Hn.
  - intros [= <-]. split; [by left|lia].
  - intros [? ?]%IH. split; [by right|done].
Qed.

Definition agents_are (A : AgentSpec.AgentView) (w : World) : Prop := agent_view w = A.

(** The laws with the agents held fixed: creating a rollout does not change
    them. *)
Definition inv_at (A : AgentSpec.AgentView) (w : World) : Prop := store_inv w ∧ agents_are A w.

Lemma store_keeps_at A : RolloutLaws.StoreKeeps World (agents_are A).
Proof.
  split; intros; apply (preserves_part (λ s, AgentSpec.mem_view s = A)); keep.
Qed.

#[local] Instance store_laws_at A : RolloutLaws.StoreLaws World interrupted (inv_at A) view.
Proof. apply RolloutLaws.StoreLaws_with; [apply _|apply store_keeps_at]. Qed.

Lemma apart_at A {X} (m : M World X) : keeps_both m → RolloutLaws.apart (inv_at A) view m.
Proof.
  intros Hk v w [[Hi Ha] Hv]. destruct (apart_of_keep m Hk v w (conj Hi Hv)) as [Hi' Hv'].
  split; [split; [done|]|done].
  by apply (preserves_part (λ s, AgentSpec.mem_view s = A) m (proj2 Hk)).
Qed.

#[local] Ltac apart := intros; apply apart_at; split; keep.

Lemma service_laws_at s A : queries_apart s → RolloutLaws.ServiceLaws World s (inv_at A) view.
Proof.
  intros Hq. split.
  - split; by intros.
  - intros. simpl. unfold ConfigRegistry.Service.GetDefinition. apart.
  - intros. simpl. unfold ConfigRegistry.Service.ListVersions. apart.
  - intros. simpl. unfold ConfigRegistry.Service.GetEnvironmentState. apart.
  - intros. simpl. unfold ConfigRegistry.Service.SetStableVersion. apart.
  - intros ctx v w [[Hi Ha] Hv]. 
    destruct (RolloutLaws.apart_ListAgents (ServiceLaws := service_laws s Hq) ctx v w (conj Hi Hv)) as [Hi' Hv'].
    destruct (distinct_agents ctx w (proj2 Hi)) as (_ & Ha' & _).
    split; [split; [done|]|done]. etrans; [exact Ha'|exact Ha].
  - intros ctx w [[_ Hi] _]. eapply wp_mono; [by apply distinct_agents|]. simpl. tauto.
  - intros. apply apart_at. by apply Hq.
Qed.

Lemma definition_unique validator tenantID key d d' w :
  RegistrySpec.registry_inv reg_inv reg_view validator w →
  RegistrySpec.defines (reg_view w) tenantID key d →
  RegistrySpec.defines (reg_view w) tenantID key d' → d = d'.
Proof.
  intros Hi (Hd & Ht & Hk) (Hd' & Ht' & Hk').
  assert (d_ID d = d_ID d') as Hid.
  { eapply (RegistrySpec.ok_unique_key _ (RegistrySpec.ri_ok _ _ _ _ Hi)); try done; congruence. }
  congruence.
Qed.

(** The rollout is built from what the registry answers. *)
Lemma created_from_registry validator s ctx input w :
  RegistrySpec.registry_inv reg_inv reg_view validator w → no_nul (ci_TenantID input) →
  wp (CreateRollout s ctx input) (λ res w', ∀ r ts, res = Ok (r, ts) →
    ∃ d ver st, RegistrySpec.defines (reg_view w) (ci_TenantID input) (ci_Key input) d ∧
      r_ConfigDefinitionID r = d_ID d ∧ ver ∈ RegistrySpec.rv_versions (reg_view w) (d_ID d) ∧
      v_VersionNumber ver = ci_CandidateVersionNumber input ∧ r_CandidateVersionID r = v_ID ver ∧
      RegistrySpec.rv_state (reg_view w) (d_ID d) (ci_Environment input) = Some st ∧
      r_StableVersionID r = es_StableVersionID st ∧ r_StableVersionID r ≠ r_CandidateVersionID r) w.
Proof.
  intros Hreg Hn. unfold CreateRollout. cbv zeta. wp_step. wp_step. destruct (validate_create _ _); [|done].
  wp_step. wp_call (RegistrySpec.GetDefinition_spec interrupted reg_inv reg_view validator); [done..|].
  intros [d|e] w1 (Hi1 & Hv1 & Hd); [|done].
  wp_step. wp_call (RegistrySpec.ListVersions_spec interrupted reg_inv reg_view validator); [done..|].
  intros [vs|e] w2 (Hi2 & Hv2 & Hvs); [|done]. destruct Hvs as (d2 & Hd2 & ->).
  destruct (findVersionByNumber _ _) as [ver|] eqn:Hfind; [|by wp_step].
  apply findVersionByNumber_Some in Hfind as [Hver Hnum].
  wp_step. wp_call (RegistrySpec.GetEnvironmentState_spec interrupted reg_inv reg_view validator); [done..|].
  intros [st|e] w3 (Hi3 & Hv3 & Hst); [|done]. destruct Hst as (d3 & Hd3 & Hst).
  rewrite Hv2, Hv1 in Hd3, Hst. rewrite Hv1 in Hd2, Hver.
  assert (d2 = d) as -> by exact (definition_unique _ _ _ _ _ _ Hreg Hd2 Hd).
  assert (d3 = d) as -> by exact (definition_unique _ _ _ _ _ _ Hreg Hd3 Hd).
  wp_step. wp_step; [done|]. wp_step. wp_step; [done|]. rename H0 into Hne. apply bool_decide_eq_false in Hne.
  wp_step. apply wp_any. intros [t|e] w4; [|done]. wp_step. apply wp_any. intros [id|e] w5; [|done].
  wp_step. apply wp_any. intros [first|e] w6; [|done]. wp_step. apply wp_any. intros [[]|e] w7; [|done].
  wp_step. apply wp_any. intros [ts|e] w8; [|done]. wp_step. intros r ts' [= <- <-]. simpl.
  exists d, ver, st. by split_and!.
Qed.

(** The cohort of a stage is decided by the buckets of the agents listed. *)
Lemma cohort_is_eligible A ctx r stage ts :
  cohort_of (inv_at A) ctx r stage ts → ∀ agentID, agentID ∈ st_AgentID <$> ts ↔
    ∃ a bucket, AgentSpec.av_agents A !! agentID = Some a ∧ targeted r a ∧
      Bucket (MkAssignmentKey (r_ConfigDefinitionID r) (r_CandidateVersionID r) agentID) = Ok bucket ∧
      Eligible bucket (s_Percentage stage) = true.
Proof.
  intros (agents & rev & t & w0 & w1 & [[Hi Ha] HA] & Hlist & Hb) agentID.
  pose proof (AgentSpec.law_ListAgents ctx w0 Ha) as Hl. unfold wp in Hl.
  change (AgentRegistry.ListAgents ctx w0) with (agents_ListAgents ctx w0) in Hl.
  rewrite Hlist in Hl. destruct Hl as (_ & _ & _ & _ & Hmem). rewrite HA in Hmem.
  split.
  - intros Hin. apply list_elem_of_fmap in Hin as (tg & -> & Htg).
    apply (BuildStageTargets_elem _ _ _ Hb) in Htg as (a & Hin & Htg).
    apply list_elem_of_filter in Hin as [Hf Hin].
    unfold agent_target, agent_bucket in Htg. simpl in Htg.
    destruct (Bucket _) as [b|] eqn:Hbk; [|done]. destruct (Eligible b _) eqn:He; [|done].
    injection Htg as <-. simpl. exists a, b. split_and!; try done. by apply Hmem.
  - intros (a & b & Ha' & Htgt & Hbk & He).
    pose proof (AgentSpec.law_agent_id w0 agentID a Ha) as Hid. rewrite HA in Hid. specialize (Hid Ha'). subst agentID.
    apply list_elem_of_fmap. eexists (target_of _ a b). split; [done|].
    apply (BuildStageTargets_elem _ _ _ Hb). exists a. split.
    + apply list_elem_of_filter. split; [done|]. by apply Hmem.
    + unfold agent_target, agent_bucket. simpl. by rewrite Hbk, He.
Qed.

(** C5. A successful [Service.CreateRollout] creates what was asked for: the
    candidate is the requested version of the definition, the stable version
    is the current one of the environment and differs from it; the rollout is
    new, deploys the first stage of a valid plan, and no other unfinished
    rollout has its configuration and environment; and the stored cohort is
    exactly the registered agents of the environment and the targeted services
    whose bucket is within the percentage of that stage. *)
Theorem rollout_created validator (s : Service World) ctx input w :
  queries_apart s → store_inv w → view_ok (view w) → unreserved (plan_of s input) →
  RegistrySpec.registry_inv reg_inv reg_view validator w → no_nul (ci_TenantID input) →
  wp (CreateRollout s ctx input) (λ res w', ∀ r ts, res = Ok (r, ts) →
    (∃ d ver st, RegistrySpec.defines (reg_view w) (ci_TenantID input) (ci_Key input) d ∧
       r_ConfigDefinitionID r = d_ID d ∧ ver ∈ RegistrySpec.rv_versions (reg_view w) (d_ID d) ∧
       v_VersionNumber ver = ci_CandidateVersionNumber input ∧ r_CandidateVersionID r = v_ID ver ∧
       RegistrySpec.rv_state (reg_view w) (d_ID d) (ci_Environment input) = Some st ∧
       r_StableVersionID r = es_StableVersionID st ∧ r_StableVersionID r ≠ r_CandidateVersionID r) ∧
    (vw_rollouts (view w) !! r_ID r = None ∧
       vw_rollouts (view w') = <[r_ID r := r]> (vw_rollouts (view w)) ∧
       vw_stages (view w') !! r_ID r = Some (plan_of s input) ∧ plan_ok (plan_of s input) ∧
       (∀ id' r', vw_rollouts (view w) !! id' = Some r' → live r' → slot r' ≠ slot r)) ∧
    (∃ first, plan_of s input !! 0%nat = Some first ∧ r_CurrentStageID r = s_ID first ∧
       vw_targets (view w') (r_ID r) (s_ID first) = ts ∧
       ∀ agentID, agentID ∈ st_AgentID <$> ts ↔
         ∃ a bucket, AgentSpec.av_agents (agent_view w) !! agentID = Some a ∧ targeted r a ∧
           Bucket (MkAssignmentKey (r_ConfigDefinitionID r) (r_CandidateVersionID r) agentID)
             = Ok bucket ∧ Eligible bucket (s_Percentage first) = true)) w.
Proof.
  intros Hq Hi Hok Hun Hreg Hn.
  pose proof (created_from_registry validator s ctx input w Hreg Hn) as Hfrom.
  pose proof (service_laws_at s (agent_view w) Hq) as Hlaws.
  destruct (CreateRollout_effect s interrupted (inv_at (agent_view w)) view ctx input w
    (conj Hi eq_refl) Hok Hun) as [_ Heff].
  intros r ts Hres. split; [by apply (Hfrom r ts)|].
  destruct (Heff r ts Hres) as (Hnew & Hput & Hst & Hplan & Hslots & first & Hfirst & Hcur & Hco & Hts).
  split; [by split_and!|]. exists first. split_and!; [done..|].
  by apply (cohort_is_eligible (agent_view w) ctx).
Qed.

Definition demo_input : CreateRolloutInput :=
  MkCreateRolloutInput "acme" "timeout" "production" 2 [] [MkStage "all" 100 0] [] f_zero 0 0 0.

Lemma rollout_created_witness :
  ∃ r ts w', CreateRollout (NewService World) Background demo_input Demo.ready = (Ok (r, ts), w') ∧
    st_AgentID <$> ts = ["agent-1"] ∧ vw_targets (view w') (r_ID r) "all" = ts.
Proof.
  pose proof (reachable_sound _ _ _ Demo.wired Demo.ready_reachable) as [[Hi Hv] _].
  assert (unreserved (plan_of (NewService World) demo_input)) as Hun.
  { constructor; [|constructor]. intros p. apply RolloutSpec.short_not_verification. simpl. lia. }
  destruct (wp_succeeds _ _ (λ '(r, ts), bool_decide (st_AgentID <$> ts = ["agent-1"])) _
    (rollout_created Demo.accept_all (NewService World) Background demo_input Demo.ready
       new_service_queries Hi Hv Hun Demo.ready_registry_ok eq_refl)) as ([r ts] & w' & Hm & Hc & Hout);
    [vm_compute; reflexivity|].
  exists r, ts, w'. split; [exact Hm|]. split; [apply bool_decide_eq_true in Hc; exact Hc|].
  destruct (Hout r ts eq_refl) as (_ & _ & first & Hfirst & _ & Hts & _).
  injection Hfirst as <-. exact Hts.
Defined.

End EffectProps.
