(* ===== verification/DecisionProps.v ===== *)
(** The properties of the rollout's decisions: stage plans, buckets and
    cohorts, acknowledgements and their coverage, stage progress, guardrails,
    and the version an agent is served. *)

From Stdlib Require Import ZArith Lia SpecFloat.
From S2P Require Import Prelude GoLib Domain Guardrail Rollout RolloutFacts.
Import Domain Rollout.
Open Scope string_scope.
Open Scope list_scope.
Open Scope Z_scope.

Module DecisionProps.

#[local] Existing Instance Guardrail.status_eq_dec.

(** * Cohorts *)

(** Building succeeds only for agents that have an identifier. *)
Lemma loop_ok_ids input agents ts :
  BuildStageTargets_loop input agents = Ok ts → Forall (λ a, a_ID a ≠ "") agents.
Proof.
  revert ts. induction agents as [|a agents IH]; intros ts; [constructor|].
  rewrite BuildStageTargets_loop_cons. intros H. res_ok H. constructor; [|by eapply IH].
  unfold agent_bucket in H0. by apply (proj1 (Bucket_ok_iff _) (ex_intro _ _ H0)).
Qed.

Definition with_agents (input : BuildTargetsInput) (agents : list Agent) : BuildTargetsInput :=
  MkBuildTargetsInput (bi_Rollout input) (bi_Stage input) agents (bi_SnapshotRevision input)
    (bi_CreatedAt input).

Definition with_stage (input : BuildTargetsInput) (stage : Stage) : BuildTargetsInput :=
  MkBuildTargetsInput (bi_Rollout input) stage (bi_Agents input) (bi_SnapshotRevision input)
    (bi_CreatedAt input).

(** What a successful build tells about its input. *)
Lemma BuildStageTargets_guards input ts :
  BuildStageTargets input = Ok ts →
  r_ID (bi_Rollout input) ≠ "" ∧ r_ConfigDefinitionID (bi_Rollout input) ≠ "" ∧
  r_CandidateVersionID (bi_Rollout input) ≠ "" ∧ s_ID (bi_Stage input) ≠ "" ∧
  1 ≤ bi_SnapshotRevision input ∧ Forall (λ a, a_ID a ≠ "") (bi_Agents input).
Proof.
  unfold BuildStageTargets. intros H. res_ok H. rewrite empty_str_false in *.
  split_and!; try done; [lia|]. by eapply loop_ok_ids.
Qed.

Lemma BuildStageTargets_total input :
  r_ID (bi_Rollout input) ≠ "" → r_ConfigDefinitionID (bi_Rollout input) ≠ "" →
  r_CandidateVersionID (bi_Rollout input) ≠ "" → s_ID (bi_Stage input) ≠ "" →
  1 ≤ bi_SnapshotRevision input → Forall (λ a, a_ID a ≠ "") (bi_Agents input) →
  BuildStageTargets input =
    Ok (SortFunc (λ a b, target_cmp a b <=? 0) (omap (agent_target input) (bi_Agents input))).
Proof.
  intros H1 H2 H3 H4 H5 H6. unfold BuildStageTargets. rewrite !res_guard_bind.
  rewrite <-empty_str_false in H1, H4. pose proof H2 as H2'. pose proof H3 as H3'.
  rewrite <-empty_str_false in H2', H3'. rewrite H1, H2', H3', H4.
  rewrite (proj2 (Z.ltb_ge _ _)) by done.
  by rewrite BuildStageTargets_loop_total.
Qed.

(** C40. The cohort of a stage does not depend on the order in which the agents
    are listed: any permutation of the same agents gives the same list of
    targets, in the same order. *)
Theorem cohort_ignores_listing_order input agents ts :
  NoDup (a_ID <$> bi_Agents input) → bi_Agents input ≡ₚ agents →
  BuildStageTargets input = Ok ts → BuildStageTargets (with_agents input agents) = Ok ts.
Proof.
  intros Hnd Hp Hts. destruct (BuildStageTargets_guards _ _ Hts) as (H1 & H2 & H3 & H4 & H5 & H6).
  rewrite BuildStageTargets_total in Hts by done. injection Hts as <-.
  rewrite BuildStageTargets_total; simpl; try done; [|by rewrite <-Hp].
  f_equal. symmetry. apply SortFunc_input_order; [apply _|apply _| |].
  - intros x y Hx Hy. by apply (agent_target_separated input).
  - change (agent_target (with_agents input agents)) with (agent_target input). by rewrite Hp.
Qed.

Definition example_rollout : Rollout :=
  MkRollout "r" "cfg" "acme" "timeout" "production" [] "v1" "v2" 2 StateDeploying "half" 0
    (f_of_int 95) [] ∅ 0 90 900 120 RollbackStatusNone 0 0.
Definition example_agent (id : string) : Agent := MkAgent id "payments" "production" "" "i" ∅ 0 0.
Definition example_agents : list Agent := [example_agent "a"; example_agent "b"; example_agent "c"].
Definition example_build (p : Z) : BuildTargetsInput :=
  MkBuildTargetsInput example_rollout (MkStage "half" p 0) example_agents 1 0.
Definition example_cohort (p : Z) : list StageTarget :=
  match BuildStageTargets (example_build p) with Ok ts => ts | Err _ => [] end.

Lemma cohort_ignores_listing_order_witness :
  length (example_cohort 100) = 3%nat ∧
  BuildStageTargets (with_agents (example_build 100) [example_agent "c"; example_agent "a"; example_agent "b"])
  = Ok (example_cohort 100).
Proof.
  split; [vm_compute; reflexivity|].
  apply (cohort_ignores_listing_order (example_build 100)).
  - apply (bool_decide_unpack _). vm_compute. exact I.
  - simpl. apply (Permutation_app_comm [example_agent "a"; example_agent "b"] [example_agent "c"]).
  - vm_compute. reflexivity.
Defined.

(** Raising the percentage only adds agents: an agent in the cohort of a
    stage is in the cohort built for the same agents at any larger percentage,
    with the same bucket, so a later stage keeps every agent that already runs
    the candidate. *)
Theorem cohort_grows input stage ts ts' :
  BuildStageTargets input = Ok ts → BuildStageTargets (with_stage input stage) = Ok ts' →
  s_Percentage (bi_Stage input) ≤ s_Percentage stage →
  ∀ t, t ∈ ts → ∃ t', t' ∈ ts' ∧ st_AgentID t' = st_AgentID t ∧ st_Bucket t' = st_Bucket t ∧
    st_ExpectedVersionID t' = st_ExpectedVersionID t.
Proof.
  intros Hts Hts' Hle t Ht.
  apply (BuildStageTargets_elem _ _ t Hts) in Ht as (a & Ha & Ht).
  unfold agent_target, agent_bucket in Ht.
  destruct (Bucket _) as [b|] eqn:Hb; [|done]. destruct (Eligible b _) eqn:He; [|done].
  injection Ht as <-.
  exists (target_of (with_stage input stage) a b). split_and!; try done.
  apply (BuildStageTargets_elem _ _ _ Hts'). exists a. split; [done|].
  unfold agent_target, agent_bucket. simpl. rewrite Hb.
  by rewrite (Eligible_mono b _ _ Hle He).
Qed.

Lemma cohort_grows_witness :
  ∃ t t', head (example_cohort 50) = Some t ∧ t' ∈ example_cohort 100 ∧
    st_AgentID t' = st_AgentID t ∧ st_Bucket t' = st_Bucket t.
Proof.
  destruct (head (example_cohort 50)) as [t|] eqn:Ht; [|vm_compute in Ht; discriminate Ht].
  destruct (cohort_grows (example_build 50) (MkStage "half" 100 0) (example_cohort 50)
    (example_cohort 100)) with (t := t) as (t' & Hin & Ha & Hb & _).
  - vm_compute; reflexivity.
  - vm_compute; reflexivity.
  - simpl. lia.
  - destruct (example_cohort 50); [discriminate Ht|]. injection Ht as ->. left.
  - exists t, t'. split; [reflexivity|]. split; [exact Hin|]. split; [exact Ha|exact Hb].
Defined.

(** A stage of one hundred percent reaches every agent it is built for,
    each exactly once. *)
Theorem full_stage_reaches_everyone input ts :
  NoDup (a_ID <$> bi_Agents input) → BuildStageTargets input = Ok ts →
  s_Percentage (bi_Stage input) = 100 →
  st_AgentID <$> ts ≡ₚ a_ID <$> bi_Agents input.
Proof.
  intros Hnd Hts Hp. apply NoDup_Permutation; [by eapply BuildStageTargets_NoDup|done|].
  destruct (BuildStageTargets_guards _ _ Hts) as (_ & H2 & H3 & _ & _ & H6).
  intros id. rewrite !list_elem_of_fmap. split.
  - intros (t & -> & Ht). apply (BuildStageTargets_elem _ _ t Hts) in Ht as (a & Ha & Ht).
    exists a. split; [|done]. by apply (agent_target_agent input).
  - intros (a & -> & Ha). pose proof (proj1 (Forall_forall _ _) H6 a Ha) as Hid.
    destruct (proj2 (Bucket_ok_iff (MkAssignmentKey (r_ConfigDefinitionID (bi_Rollout input))
      (r_CandidateVersionID (bi_Rollout input)) (a_ID a)))) as [b Hb]; [done|].
    exists (target_of input a b). split; [done|].
    apply (BuildStageTargets_elem _ _ _ Hts). exists a. split; [done|].
    unfold agent_target, agent_bucket. rewrite Hb, Hp. apply Bucket_bounds in Hb.
    by rewrite (proj2 (Eligible_spec b 100)) by (unfold BucketCount in *; lia).
Qed.

Lemma full_stage_reaches_everyone_witness :
  st_AgentID <$> example_cohort 100 ≡ₚ ["a"; "b"; "c"].
Proof.
  apply (full_stage_reaches_everyone (example_build 100)); [|vm_compute; reflexivity..].
  apply (bool_decide_unpack _). vm_compute. exact I.
Defined.

(** * Stage plans *)

(** [ValidateStagePlan] accepts exactly the plans whose stages have an
    identifier and strictly rising percentages within (0, 100] and that end at
    one hundred percent. *)
Theorem stage_plan_accepted stages :
  is_ok (ValidateStagePlan stages) = true ↔
  (Forall (λ s, s_ID s ≠ "" ∧ 0 < s_Percentage s ≤ 100) stages ∧
   (∀ i j si sj, (i < j)%nat → stages !! i = Some si → stages !! j = Some sj →
      s_Percentage si < s_Percentage sj) ∧
   ∃ final, last stages = Some final ∧ s_Percentage final = 100).
Proof.
  assert (is_ok (ValidateStagePlan stages) = true ↔ plan_ok stages) as ->.
  { rewrite <-(ValidateStagePlan_plan_ok stages tt).
    destruct (ValidateStagePlan stages) as [[]|]; split; done. }
  assert (∀ p l, rising p l ↔ Forall (λ s, s_ID s ≠ "" ∧ 0 < s_Percentage s ≤ 100 ∧ p < s_Percentage s) l ∧
    (∀ i j si sj, (i < j)%nat → l !! i = Some si → l !! j = Some sj → s_Percentage si < s_Percentage sj)) as Hrise.
  { intros p l. split.
    - intros Hr. split; [|intros; by eapply rising_lt].
      revert p Hr. induction l as [|s l IH]; intros p; [constructor|].
      intros (? & ? & ? & Hr). constructor; [done|].
      eapply Forall_impl; [by apply IH|]. simpl. intros s' (? & ? & ?). split_and!; try done; lia.
    - revert p. induction l as [|s l IH]; intros p; simpl; [done|].
      rewrite Forall_cons. intros [[(? & ? & ?) Hall] Hlt]. split_and!; try done; try lia.
      apply IH. split; [|intros i j si sj Hij Hi Hj; by apply (Hlt (S i) (S j)); [lia|..]].
      apply Forall_lookup_2. intros i s' Hi. apply Forall_lookup_1 with (i := i) (x := s') in Hall as (? & ? & ?); [|done].
      split_and!; try done; try lia. by apply (Hlt 0%nat (S i)); [lia|..]. }
  unfold plan_ok. rewrite Hrise. split.
  - intros ([Hall Hlt] & front & final & -> & Hf). split_and!.
    + eapply Forall_impl; [exact Hall|]. simpl. tauto.
    + done.
    + exists final. by rewrite last_snoc.
  - intros (Hall & Hlt & final & Hl & Hf). split; [split; [|done]|].
    + eapply Forall_impl; [exact Hall|]. simpl. intros s (? & ?). split_and!; try done; lia.
    + apply last_Some in Hl as [front ->]. eauto.
Qed.

(** * Acknowledgements *)

(** An acknowledgement counts at most once, and never un-counts another:
    [ApplyAck] reports it as counted exactly when the first target of the agent
    matches it in every field and is still pending; then the number of
    acknowledged targets grows by one, and repeating it counts nothing and
    changes nothing.  One that does not count changes nothing. *)
Theorem acknowledgement_counts_once ts ack :
  let '(ts', counted) := ApplyAck ts ack in
  (counted = true ↔ ∃ t, first_of (ack_AgentID ack) ts = Some t ∧ ack_matches t ack = true ∧
     st_Status t = TargetPending) ∧
  count_acked ts' = count_acked ts + (if counted then 1 else 0) ∧
  (counted = false → ts' = ts) ∧
  target_key <$> ts' = target_key <$> ts ∧
  ApplyAck ts' ack = (ts', false).
Proof.
  destruct (ApplyAck ts ack) as [ts' counted] eqn:Ha.
  split; [rewrite <-ApplyAck_counts_iff; by rewrite Ha|].
  destruct counted.
  - pose proof (ApplyAck_counted _ _ _ Ha) as Hack.
    split; [by apply (acks_one_count _ _ _ _ Hack)|]. split; [done|].
    split; [by eapply acks_one_keys|]. clear Hack.
    revert ts' Ha. induction ts as [|t ts IH]; intros ts'; simpl; [done|].
    case_bool_decide as Hag; simpl.
    + destruct (ack_matches t ack) eqn:Hm; simpl; [|done]. case_decide; [done|].
      intros [= <-]. simpl. rewrite bool_decide_true by done. simpl.
      change (ack_matches (mark_acked t (ack_AckedAt ack)) ack) with (ack_matches t ack).
      by rewrite Hm.
    + destruct (ApplyAck ts ack) as [rest' c]. intros [= <- ->]. simpl.
      rewrite bool_decide_false by done. simpl. by rewrite (IH rest').
  - pose proof (ApplyAck_not_counted _ _ _ Ha) as ->. split_and!; try done. lia.
Qed.

(** C39. Coverage is measured on the whole cohort, in binary floating point: an
    empty cohort is never covered; a percentage of one hundred is required of
    every agent (cohorts of less than 2^40 agents), no rounding promotes a
    stage that misses one or holds back one that misses none; and the counts
    are within the cohort. *)
Theorem coverage_of_cohort ts :
  (ts = [] → ∀ required, CoverageReached ts required = false) ∧
  (0 < Z.of_nat (length ts) < 2 ^ 40 →
     CoverageReached ts (f_of_int 100) = true ↔ count_acked ts = Z.of_nat (length ts)) ∧
  0 ≤ cov_Acked (AcknowledgementCoverage ts) ≤ cov_Total (AcknowledgementCoverage ts) ∧
  cov_Total (AcknowledgementCoverage ts) = Z.of_nat (length ts).
Proof.
  pose proof (count_acked_bounds ts). split_and!; [by intros ->| |apply count_acked_bounds..|done].
  intros Hlen. split.
  - intros Hc. destruct (Z.lt_ge_cases (count_acked ts) (Z.of_nat (length ts))); [|lia].
    by rewrite partial_coverage in Hc by lia.
  - intros Hall. unfold CoverageReached. cbn [cov_Total AcknowledgementCoverage].
    rewrite (proj2 (Z.eqb_neq _ _)), full_coverage; [by vm_compute| |done|lia].
    change (2 ^ 40) with 1099511627776 in Hlen. change (2 ^ 53) with 9007199254740992. lia.
Qed.

Definition sample_target (agent : string) (status : TargetStatus) : StageTarget :=
  MkStageTarget "r1" "stage-100" agent 0 "v2" 1 0 0 status.

Lemma coverage_of_cohort_witness :
  CoverageReached [sample_target "a" TargetAcked; sample_target "b" TargetAcked] (f_of_int 100) = true ∧
  CoverageReached [sample_target "a" TargetAcked; sample_target "b" TargetPending] (f_of_int 100) = false.
Proof.
  split.
  - destruct (coverage_of_cohort [sample_target "a" TargetAcked; sample_target "b" TargetAcked]) as (_ & Hc & _).
    apply Hc; [done|reflexivity].
  - destruct (coverage_of_cohort [sample_target "a" TargetAcked; sample_target "b" TargetPending]) as (_ & Hc & _).
    apply not_true_iff_false. intros Hr. apply Hc in Hr; done.
Defined.

(** * Stage progress *)

(** The stage decision is total and exclusive: promote exactly when the
    cohort is covered and the stage lasted its minimum duration, roll back
    exactly when it is not covered and a positive deployment timeout has
    passed, otherwise wait; it never pauses. *)
Theorem stage_decision input :
  let elapsed := time_Sub (sp_Now input) (sp_StageStartedAt input) in
  let covered := CoverageReached (sp_Targets input) (sp_RequiredAckPercentage input) in
  (EvaluateStageProgress input = DecisionPromote ↔
     covered = true ∧ sp_MinimumDuration input ≤ elapsed) ∧
  (EvaluateStageProgress input = DecisionRollback ↔
     covered = false ∧ 0 < sp_DeploymentTimeout input ≤ elapsed) ∧
  (EvaluateStageProgress input = DecisionWait ↔
     covered = true ∧ elapsed < sp_MinimumDuration input ∨
     covered = false ∧ (sp_DeploymentTimeout input ≤ 0 ∨ elapsed < sp_DeploymentTimeout input)) ∧
  EvaluateStageProgress input ≠ DecisionPause.
Proof.
  cbv zeta. split_and!; [apply EvaluateStageProgress_promote|apply EvaluateStageProgress_rollback| |
    apply EvaluateStageProgress_never_pauses].
  unfold EvaluateStageProgress.
  set (elapsed := time_Sub (sp_Now input) (sp_StageStartedAt input)).
  destruct (CoverageReached _ _); simpl.
  - destruct (Z.leb_spec (sp_MinimumDuration input) elapsed); split; try done.
    + intros [(_ & ?)|(? & _)]; [lia|done].
    + by left.
  - destruct (Z.ltb_spec 0 (sp_DeploymentTimeout input)),
      (Z.leb_spec (sp_DeploymentTimeout input) elapsed); simpl; split; try done;
      try (intros [(? & _)|(_ & [?|?])]; [done|lia..]); intros _; right; split; try done; lia.
Qed.

(** The version an agent is served by a rollout is the stable one or, only
    while the rollout deploys, evaluates, promotes or pauses, the version of a
    target of that agent in the current stage; in a rollback, and once the
    rollout is over, it is the stable version for everyone. *)
Theorem effective_version r ts agentID :
  let ev := EffectiveVersionForAgent r ts agentID in
  (ev_VersionID ev = r_StableVersionID r ∨
   servesCandidate (r_State r) = true ∧ ∃ t, t ∈ ts ∧ st_AgentID t = agentID ∧
     st_RolloutID t = r_ID r ∧ st_StageID t = r_CurrentStageID r ∧
     ev_VersionID ev = st_ExpectedVersionID t ∧ ev_SnapshotRevision ev = st_SnapshotRevision t) ∧
  (r_State r = StateRollingBack ∨ servesCandidate (r_State r) = false →
     ev_VersionID ev = r_StableVersionID r).
Proof.
  cbv zeta. unfold EffectiveVersionForAgent. case_decide as Hst.
  { split; [left|intros _]; apply rollback_serves_stable. }
  destruct (servesCandidate (r_State r)) eqn:Hs; simpl; [|by split; [left|]].
  split; [|by intros [?|?]].
  destruct (candidateVersion_cases r ts agentID) as [-> |(t & Hin & Hc & ->)]; [by left|].
  right. split; [done|]. exists t. unfold target_current in Hc.
  rewrite !andb_true_iff, !bool_decide_eq_true in Hc. destruct Hc as [[? ?] ?]. by split_and!.
Qed.

(** * Guardrails *)

Definition finite (value : float64) : Prop := f_IsNaN value = false ∧ f_IsInf value = false.

(** The evaluation of a valid rule never fails, and its three outcomes are
    decided by the sample: a finite sample that satisfies the comparison is
    healthy and clears the count of failures, a finite sample that violates it
    adds one and is unhealthy exactly from the required number on, and a
    missing or non-finite sample is unknown and leaves the count. *)
Theorem guardrail_outcome rule sample previous at_ :
  Guardrail.Rule_Validate rule = Ok tt → 0 ≤ previous < int64_max →
  ∃ e, Guardrail.EvaluateQueryResult rule sample previous at_ = Ok e ∧
    match sample with
    | Err _ => Guardrail.e_Status e = Guardrail.StatusUnknown ∧
               Guardrail.e_ConsecutiveFailures e = previous
    | Ok value =>
        (finite value → Guardrail.Compare value (Guardrail.g_Operator rule) (Guardrail.g_Threshold rule) = true →
           Guardrail.e_Status e = Guardrail.StatusHealthy ∧ Guardrail.e_ConsecutiveFailures e = 0) ∧
        (finite value → Guardrail.Compare value (Guardrail.g_Operator rule) (Guardrail.g_Threshold rule) = false →
           Guardrail.e_ConsecutiveFailures e = previous + 1 ∧
           (Guardrail.e_Status e = Guardrail.StatusUnhealthy ↔
              Guardrail.requiredFailures rule ≤ previous + 1)) ∧
        (¬ finite value → Guardrail.e_Status e = Guardrail.StatusUnknown ∧
           Guardrail.e_ConsecutiveFailures e = previous)
    end.
Proof.
  intros Hv Hp. assert (∀ reason, ∃ e, Guardrail.Unknown rule previous reason at_ = Ok e ∧
    Guardrail.e_Status e = Guardrail.StatusUnknown ∧ Guardrail.e_ConsecutiveFailures e = previous) as Hu.
  { intros reason. unfold Guardrail.Unknown. rewrite Hv. simpl.
    rewrite res_guard_bind, (proj2 (Z.ltb_ge _ _)) by lia. eexists. by split_and!. }
  destruct sample as [value|err]; [|apply Hu]. simpl. unfold Guardrail.Evaluate.
  rewrite Hv. simpl. rewrite res_guard_bind, (proj2 (Z.ltb_ge _ _)) by lia.
  destruct (f_IsNaN value || f_IsInf value) eqn:Hf.
  - destruct (Hu "guardrail sample is not finite") as (e & He & ? & ?). exists e.
    assert (¬ finite value) by (intros [Hn Hi]; by rewrite Hn, Hi in Hf).
    split; [done|]. split_and!; by intros.
  - apply orb_false_iff in Hf as [Hn Hi].
    assert (finite value) as Hfin by by split.
    rewrite int64_wrap_id by (unfold int64_ok, int64_min, int64_max in *; lia).
    destruct (Guardrail.Compare _ _ _).
    + eexists. split; [done|]. by split_and!.
    + destruct (Z.leb_spec (Guardrail.requiredFailures rule) (previous + 1)); (eexists; split; [done|]);
        (split; [done|]); (split; [|by intros]); intros _ _; simpl; (split; [done|]); split; try done; lia.
Qed.

Definition example_rule : Guardrail.Rule :=
  Guardrail.MkRule "errors" "rate" "<" (f_of_int 1) 2.

Lemma guardrail_outcome_witness :
  ∃ e, Guardrail.EvaluateQueryResult example_rule (Ok (f_of_int 5)) 1 0 = Ok e ∧
    Guardrail.e_ConsecutiveFailures e = 2.
Proof.
  destruct (guardrail_outcome example_rule (Ok (f_of_int 5)) 1 0) as (e & He & _ & Hv & _);
    [reflexivity|unfold int64_max; lia|].
  exists e. split; [exact He|]. apply Hv; [split; reflexivity|vm_compute; reflexivity].
Defined.

(** A rollout's guardrails together are unhealthy as soon as one is,
    healthy only when all are, and unknown otherwise, whatever their order. *)
Theorem guardrail_aggregate evaluations :
  (Guardrail.AggregateStatus evaluations = Guardrail.StatusUnhealthy ↔
     ∃ e, e ∈ evaluations ∧ Guardrail.e_Status e = Guardrail.StatusUnhealthy) ∧
  (Guardrail.AggregateStatus evaluations = Guardrail.StatusHealthy ↔
     ∀ e, e ∈ evaluations → Guardrail.e_Status e = Guardrail.StatusHealthy) ∧
  (Guardrail.AggregateStatus evaluations = Guardrail.StatusUnknown ↔
     (∀ e, e ∈ evaluations → Guardrail.e_Status e ≠ Guardrail.StatusUnhealthy) ∧
     ∃ e, e ∈ evaluations ∧ Guardrail.e_Status e = Guardrail.StatusUnknown).
Proof.
  pose proof (AggregateStatus_unhealthy evaluations) as Hu.
  pose proof (AggregateStatus_healthy evaluations) as Hh. rewrite Forall_forall in Hh.
  split_and!; [exact Hu|exact Hh|]. split.
  - intros Heq. split.
    + intros e He Hs. assert (Guardrail.AggregateStatus evaluations = Guardrail.StatusUnhealthy) by (apply Hu; eauto).
      congruence.
    + destruct (decide (Exists (λ e, Guardrail.e_Status e = Guardrail.StatusUnknown) evaluations)) as [Hex|Hno].
      { by apply Exists_exists in Hex. }
      exfalso. assert (Guardrail.AggregateStatus evaluations = Guardrail.StatusHealthy); [|congruence].
      apply Hh. intros e He. destruct (Guardrail.e_Status e) eqn:Hs; [done| |].
      * assert (Guardrail.AggregateStatus evaluations = Guardrail.StatusUnhealthy) by (apply Hu; eauto). congruence.
      * destruct Hno. apply Exists_exists. eauto.
  - intros [Hn (e & He & Hs)]. destruct (Guardrail.AggregateStatus evaluations) eqn:Heq; [| |done].
    + assert (Guardrail.e_Status e = Guardrail.StatusHealthy) by by apply Hh. congruence.
    + destruct (proj1 Hu eq_refl) as (e' & He' & Hs'). by destruct (Hn e' He').
Qed.

End DecisionProps.
