(* ===== verification/RegistryProps.v ===== *)
(** The properties of the two registries in the deployed process: versions,
    stable versions and definitions of the configuration registry, and the
    credentials of the agent registry. *)

From Stdlib Require Import ZArith Lia.
From S2P Require Import Prelude GoLib Host Domain Registry RegistrySpec RegistryMemory AgentRegistry AgentStore AgentSpec System Deployment Demo.
Import Domain RegistrySpec System.
Open Scope string_scope.
Open Scope list_scope.
Open Scope Z_scope.

Module RegistryProps.

Section Registry.
Context (validator : ConfigRegistry.SchemaValidator).
Abbreviation registry_ok := (registry_inv reg_inv reg_view validator).

(** [Service.SetStableVersion] moves the stable version of a key and
    environment to the existing version with the requested number, keeps the
    rollout marker of the state, and is refused, with nothing changed, while a
    rollout is marked active unless it repeats the current version; the
    registry stays well formed. *)
Theorem stable_version_moves ctx input w :
  registry_ok w → no_nul (ConfigRegistry.ss_TenantID input) →
  wp (ConfigRegistry.Service.SetStableVersion ctx input) (λ r w', registry_ok w' ∧
    match r with
    | Ok st => ∃ d ver,
        defines (reg_view w) (ConfigRegistry.ss_TenantID input) (ConfigRegistry.ss_Key input) d ∧
        ver ∈ rv_versions (reg_view w) (d_ID d) ∧
        v_VersionNumber ver = ConfigRegistry.ss_VersionNumber input ∧
        es_StableVersionID st = v_ID ver ∧
        (let before := state_before (reg_view w) (d_ID d) (ConfigRegistry.ss_Environment input) in
         es_ActiveRolloutID st = es_ActiveRolloutID before ∧
         (blank (es_ActiveRolloutID before) = true ∨ es_StableVersionID before = v_ID ver)) ∧
        put_state st (reg_view w) (reg_view w')
    | Err _ => reg_view w' = reg_view w
    end) w.
Proof.
  intros Hinv Hn. eapply wp_mono; [by apply (SetStableVersion_spec interrupted reg_inv reg_view registry_frame validator)|].
  intros [st|e] w' [Hi Hr]; [|done]. split; [done|].
  destruct Hr as (d & ver & Hd & Hge & Hver & _ & _ & Hst & Hact & Hput).
  exists d, ver. split_and!; try done; try apply Hact.
  - by eapply list_elem_of_lookup_2.
  - destruct (ok_version _ (ri_ok _ _ _ _ Hinv) _ _ _ Hver) as (_ & -> & _). lia.
Qed.

(** C26. [Service.CreateVersion] appends: the new version has the next number of
    its definition and a value the definition's schema accepts, and no earlier
    version, stable version or definition changes. *)
Theorem versions_are_numbered ctx input w :
  registry_ok w → no_nul (ConfigRegistry.cv_TenantID input) →
  wp (ConfigRegistry.Service.CreateVersion validator ctx input) (λ r w', registry_ok w' ∧
    match r with
    | Ok ver => ∃ d,
        defines (reg_view w) (ConfigRegistry.cv_TenantID input) (ConfigRegistry.cv_Key input) d ∧
        v_ConfigDefinitionID ver = d_ID d ∧ v_Value ver = ConfigRegistry.cv_Value input ∧
        v_VersionNumber ver = Z.of_nat (length (rv_versions (reg_view w) (d_ID d))) + 1 ∧
        is_ok (ConfigRegistry.ValidateValue validator (d_Schema d) (v_Value ver)) = true ∧
        add_version ver (reg_view w) (reg_view w')
    | Err _ => reg_view w' = reg_view w
    end) w.
Proof.
  intros Hinv Hn. eapply wp_mono; [by apply (CreateVersion_spec interrupted reg_inv reg_view registry_frame validator)|].
  intros [ver|e] w' [Hi Hr]; [|done]. split; [done|].
  destruct Hr as (d & ? & ? & Hval & ? & ? & _ & ?). exists d. rewrite Hval. by split_and!.
Qed.

(** [Service.CreateDefinition] never gives a tenant two definitions of the
    same key, and stores only definitions whose schema compiles and whose
    default value, if any, matches it. *)
Theorem definitions_are_unique ctx input w :
  registry_ok w →
  wp (ConfigRegistry.Service.CreateDefinition validator ctx input) (λ r w', registry_ok w' ∧
    match r with
    | Ok d => d_TenantID d = ConfigRegistry.cd_TenantID input ∧
        d_Key d = ConfigRegistry.cd_Key input ∧
        (∀ d', ¬ defines (reg_view w) (d_TenantID d) (d_Key d) d') ∧
        is_ok (ConfigRegistry.ValidateSchema validator (d_Schema d)) = true ∧
        put_definition d (reg_view w) (reg_view w') ∧
        ∀ d1 d2, defines (reg_view w') (d_TenantID d) (d_Key d) d1 →
          defines (reg_view w') (d_TenantID d) (d_Key d) d2 → d1 = d2
    | Err _ => reg_view w' = reg_view w
    end) w.
Proof.
  intros Hinv. eapply wp_mono; [by apply (CreateDefinition_spec interrupted reg_inv reg_view registry_frame validator)|].
  intros [d|e] w' [Hi Hr]; [|done]. split; [done|].
  destruct Hr as (Ht & Hk & _ & _ & _ & Hnew & Hput). rewrite Ht, Hk.
  assert (rv_definitions (reg_view w') !! d_ID d = Some d) as Hd.
  { destruct Hput as (_ & -> & _). apply lookup_insert_eq. }
  split_and!; try done.
  - by destruct (valid_schema _ _ (ri_valid _ _ _ _ Hi) _ _ Hd).
  - intros d1 d2 (H1 & Ht1 & Hk1) (H2 & Ht2 & Hk2).
    assert (d_ID d1 = d_ID d2) as Hid by (eapply (ok_unique_key _ (ri_ok _ _ _ _ Hi)); try done; congruence).
    rewrite Hid in H1. congruence.
Qed.

End Registry.

Lemma stable_version_moves_witness :
  wp (ConfigRegistry.Service.SetStableVersion Background
        (ConfigRegistry.MkSetStableVersionInput "acme" "timeout" "production" 2))
     (λ r w', registry_inv reg_inv reg_view Demo.accept_all w') Demo.ready.
Proof.
  eapply wp_mono; [apply (stable_version_moves Demo.accept_all Background
    (ConfigRegistry.MkSetStableVersionInput "acme" "timeout" "production" 2) Demo.ready
    Demo.ready_registry_ok); reflexivity|].
  intros r w' [Hi _]. exact Hi.
Defined.

Lemma versions_are_numbered_witness :
  wp (ConfigRegistry.Service.CreateVersion Demo.accept_all Background
        (ConfigRegistry.MkCreateVersionInput "acme" "timeout" "2500" "" "ops"))
     (λ r w', registry_inv reg_inv reg_view Demo.accept_all w') Demo.ready.
Proof.
  eapply wp_mono; [apply (versions_are_numbered Demo.accept_all Background
    (ConfigRegistry.MkCreateVersionInput "acme" "timeout" "2500" "" "ops") Demo.ready
    Demo.ready_registry_ok); reflexivity|].
  intros r w' [Hi _]. exact Hi.
Defined.

Lemma definitions_are_unique_witness :
  wp (ConfigRegistry.Service.CreateDefinition Demo.accept_all Background
        (ConfigRegistry.MkCreateDefinitionInput "acme" "retries" "" "{}" ""))
     (λ r w', registry_inv reg_inv reg_view Demo.accept_all w') Demo.ready.
Proof.
  eapply wp_mono; [apply (definitions_are_unique Demo.accept_all Background
    (ConfigRegistry.MkCreateDefinitionInput "acme" "retries" "" "{}" "") Demo.ready
    Demo.ready_registry_ok)|].
  intros r w' [Hi _]. exact Hi.
Defined.

(** * The agent registry *)



(** The credential an agent receives when it registers is its own: checked
    by any later request, it is accepted for that agent, unless it has expired
    by the reading of the clock or the request is interrupted. *)
Theorem registration_roundtrip s ctx ctx' input w :
  agent_inv w →
  wp (registered ← AgentRegistry.Svc.Register s ctx input;
      verified ← try (AgentRegistry.Svc.Verify ctx' (c_Token (AgentRegistry.rr_Credential registered)));
      mret (registered, verified))
     (λ r _, ∀ registered verified, r = Ok (registered, verified) →
        (AgentRegistry.ri_ID input ≠ "" →
           a_ID (AgentRegistry.rr_Agent registered) = AgentRegistry.ri_ID input) ∧
        match verified with
        | Ok agentID => agentID = a_ID (AgentRegistry.rr_Agent registered)
        | Err e => interrupted ctx' e ∨
            e = AgentRegistry.ErrExpiredCredential ∧
            ∃ checked, c_ExpiresAt (AgentRegistry.rr_Credential registered) ≤ checked
        end) w.
Proof.
  intros Hi. wp_step.
  wp_call (AgentSpec.Register_spec interrupted agent_inv agent_view agents_frame); [done|].
  intros [rr|e] w1 [Hi1 Hr]; [|done]. destruct Hr as (_ & _ & Hid & Hc & Hblank & _ & Hv).
  wp_step. wp_step.
  wp_call (AgentSpec.Verify_spec interrupted agent_inv agent_view agents_frame); [done|].
  intros res w2 (_ & _ & Hres). wp_step. intros registered verified [= <- <-]. split; [done|].
  rewrite Hv in Hres. simpl in Hres. rewrite lookup_insert_eq in Hres.
  destruct res as [agentID|e].
  - destruct Hres as (_ & c & checked & [= <-] & <- & _). done.
  - destruct Hres as [?|[(_ & [?|?])|(-> & c & checked & [= <-] & ?)]]; [by left|congruence|done|].
    right. split; [done|]. by exists checked.
Qed.

Lemma registration_roundtrip_witness :
  wp (registered ← AgentRegistry.Svc.Register (AgentRegistry.NewService "" 0) Background
        (AgentRegistry.MkRegisterInput "" "agent-9" "payments" "production" "" "i-9" ∅);
      verified ← try (AgentRegistry.Svc.Verify Background (c_Token (AgentRegistry.rr_Credential registered)));
      mret (registered, verified))
     (λ r _, ∃ registered, r = Ok (registered, Ok "agent-9") ∧
        a_ID (AgentRegistry.rr_Agent registered) = "agent-9") (boot Demo.test_host).
Proof.
  pose proof (registration_roundtrip (AgentRegistry.NewService "" 0) Background Background
    (AgentRegistry.MkRegisterInput "" "agent-9" "payments" "production" "" "i-9" ∅)
    (boot Demo.test_host) AgentSpec.agents_mem_New) as H.
  match type of H with wp ?m _ ?w => assert (match (m w).1 with
    | Ok (_, verified) => verified = Ok "agent-9" | Err _ => False end) as Hok by (vm_compute; reflexivity) end.
  unfold wp in *. revert H Hok.
  match goal with |- context [fst ?m] => destruct m as [[[registered verified]|e] w'] end;
    simpl; intros H Hok; [|destruct Hok].
  destruct (H registered verified eq_refl) as [Hid _].
  exists registered. rewrite Hok. split; [reflexivity|apply Hid; discriminate].
Defined.

(** A heartbeat and an acknowledgement are recorded only for the agent that
    presents its own unexpired credential; refused, they change nothing.  An
    accepted acknowledgement names a version and a positive revision. *)
Theorem credentials_guard_writes ctx agentID token input w :
  agent_inv w →
  wp (AgentRegistry.Svc.Heartbeat ctx agentID token) (λ r w',
    match r with
    | Ok a => a_ID a = agentID ∧ (∃ c checked,
        AgentSpec.av_credentials (agent_view w) !! token = Some c ∧ c_AgentID c = agentID ∧
        checked < c_ExpiresAt c) ∧ agent_view w' = AgentSpec.put_agent a (agent_view w)
    | Err _ => agent_view w' = agent_view w
    end) w ∧
  wp (AgentRegistry.Svc.Acknowledge ctx input) (λ r w',
    match r with
    | Ok k => k_AgentID k = AgentRegistry.ai_AgentID input ∧ 1 ≤ k_SnapshotRevision k ∧
        (∃ c checked,
          AgentSpec.av_credentials (agent_view w) !! AgentRegistry.ai_Token input = Some c ∧
          c_AgentID c = k_AgentID k ∧ checked < c_ExpiresAt c) ∧
        agent_view w' = AgentSpec.put_ack k (agent_view w)
    | Err _ => agent_view w' = agent_view w
    end) w.
Proof.
  intros Hi. split.
  - eapply wp_mono; [by apply (AgentSpec.Heartbeat_spec interrupted agent_inv agent_view agents_frame)|].
    intros [a|e] w' [_ Hr]; [|done].
    destruct Hr as (c & checked & a0 & seen & Hc & Hid & Hlt & Ha & -> & Hv).
    split_and!; [|by exists c, checked|done]. by apply (AgentSpec.law_agent_id w agentID a0).
  - eapply wp_mono; [by apply (AgentSpec.Acknowledge_spec interrupted agent_inv agent_view agents_frame)|].
    intros [k|e] w' [_ Hr]; [|done].
    destruct Hr as (c & checked & Hc & Hid & Hlt & Hk & _ & _ & _ & Hge & Hv).
    split_and!; try done. exists c, checked. split_and!; [done|congruence|done].
Qed.

Lemma credentials_guard_writes_witness :
  wp (AgentRegistry.Svc.Heartbeat Background "agent-1" "cred_030303030303030303030303")
     (λ r w', ∃ a, r = Ok a ∧ a_ID a = "agent-1") Demo.started.
Proof.
  destruct (credentials_guard_writes Background "agent-1" "cred_030303030303030303030303"
    (AgentRegistry.MkAcknowledgeInput "" "" "" "" 0) Demo.started) as [H _].
  { apply (Deployment.reachable_sound _ _ _ Demo.wired Demo.started_reachable). }
  assert (is_ok (AgentRegistry.Svc.Heartbeat Background "agent-1"
    "cred_030303030303030303030303" Demo.started).1 = true) as Hok by (vm_compute; reflexivity).
  unfold wp in *. revert H Hok.
  destruct (AgentRegistry.Svc.Heartbeat _ _ _ _) as [[a|e] w']; simpl; intros H Hok; [|discriminate Hok].
  exists a. split; [reflexivity|exact (proj1 H)].
Defined.

End RegistryProps.
