(* ===== verification/DataPlaneProps.v ===== *)
(** The properties of what agents are served and of what they keep: snapshots
    and their handler, the cache file across failures and restarts, and the
    sync loop. *)

From Stdlib Require Import ZArith Lia Ascii.
From S2P Require Import Prelude GoLib Sha256 Host Http Mux Health JsonText FileSystem Domain AgentRegistry AgentSpec DataPlane Agent System DataPlaneFacts AgentFacts Deployment Demo.
Import Domain DataPlane FileSystem Agent.
Open Scope string_scope.
Open Scope list_scope.
Open Scope Z_scope.

Module AgentDemo.

Record AgentWorld := MkAgentWorld {
  aw_cache : SnapshotCache;
  aw_etag : Etag;
  aw_answer : HttpResponse;
  aw_clock : Z }.

#[export] Instance agent_env : Env AgentWorld := {|
  env_now w := (aw_clock w, MkAgentWorld (aw_cache w) (aw_etag w) (aw_answer w) (aw_clock w + Second));
  env_random n w := (repeat 0%N n, w);
  env_range w := ((λ l, l), w);
  env_ctx ctx w := (ctx 0%nat, w) |}.
#[export] Instance agent_env_laws : EnvLaws AgentWorld.
Proof.
  split; [by intros w l|]. intros ctx w c Hc. by exists 0%nat.
Qed.

#[export] Instance agent_network : HttpClient AgentWorld := λ _ _ w, (Ok (aw_answer w), w).

#[export] Instance world_cache : Has SnapshotCache AgentWorld := {|
  part := aw_cache;
  set_part c w := MkAgentWorld c (aw_etag w) (aw_answer w) (aw_clock w) |}.
#[export] Instance world_etag : Has Etag AgentWorld := {|
  part := aw_etag;
  set_part e w := MkAgentWorld (aw_cache w) e (aw_answer w) (aw_clock w) |}.
#[export] Instance world_cache_laws : HasLaws SnapshotCache AgentWorld.
Proof. by split; intros; destruct w. Qed.
#[export] Instance cache_apart : HostApart SnapshotCache AgentWorld.
Proof. by intros c; split; intros; destruct w. Qed.
#[export] Instance etag_apart : HostApart Etag AgentWorld.
Proof. by intros c; split; intros; destruct w. Qed.
#[export] Instance cache_etag : Disjoint SnapshotCache Etag AgentWorld.
Proof. by intros t w. Qed.
#[export] Instance etag_cache : Disjoint Etag SnapshotCache AgentWorld.
Proof. by intros t w. Qed.

(** A snapshot of one item. *)
Definition one_item (value checksum : string) : Snapshot :=
  MkSnapshot 1 0 [MkSnapshotItem "cfg" "limits" "v1" 1 value checksum (MkAssignment "" "")].
Definition good : Snapshot := one_item "1500" (Checksum "1500").
Definition bad : Snapshot := one_item "1500" (Checksum "1501").

(** Two texts are understood; every snapshot is written as the first. *)
#[export] Instance demo_codec : Codec Snapshot := {|
  json_Marshal _ := Ok "good";
  json_Unmarshal body :=
    if bool_decide (body = "good") then Ok good
    else if bool_decide (body = "bad") then Ok bad
    else Err (EText "unexpected end of JSON input" []) |}.
Definition demo_MarshalIndent (s : Snapshot) : res string := Ok "good".

Definition syncer : Syncer AgentWorld :=
  MkSyncer (MkSnapshotClient "http://data-plane/" "agent-1" "token") "/var/lib/snapshot.json" None
    (2 * Second).

Definition empty_cache : SnapshotCache := MkSnapshotCache (MkFS ∅ (λ _, None) 0) None.
Definition agent_world (body : string) : AgentWorld :=
  MkAgentWorld empty_cache (MkEtag "") (MkHttpResponse StatusOK "tag" (Ok body)) 0.

(** One pass against a data plane that serves the good snapshot. *)
Example sync_good :
  let w := (SyncOnce demo_MarshalIndent syncer Background (agent_world "good")).2 in
  c_snapshot (aw_cache w) = Some good ∧ etag (aw_etag w) = "tag" ∧
  fs_files (c_fs (aw_cache w)) !! "/var/lib/snapshot.json" = Some "good".
Proof. vm_compute. by split_and!. Qed.

End AgentDemo.

Import Domain DataPlane FileSystem Agent AgentFacts DataPlaneFacts System.

Module DataPlaneProps.

(** * Snapshots *)






(** * The cache of an agent *)
Section Cache.
Context (json_MarshalIndent : Snapshot → res string).

(** Saving in one process and loading in the next, which starts without a
    snapshot in memory. *)
Definition restart (c : SnapshotCache) : SnapshotCache := MkSnapshotCache (c_fs c) None.

Definition save_and_reload `{Codec Snapshot} (path : string) (snapshot : Snapshot)
    (c : SnapshotCache) : res unit * res unit * SnapshotCache :=
  let '(saved, c1) := Save json_MarshalIndent path snapshot None c in
  let '(loaded, c2) := Load path None (restart c1) in
  (saved, loaded, c2).

(** What an agent reads back after a restart: when no system call fails, a
    valid snapshot is saved, and the next process finds the decoded text of
    the file, which it accepts exactly when every checksum still matches the
    decoded value. *)
Theorem restart_reads_saved `{Codec Snapshot} path snapshot text decoded c :
  ValidateSnapshot snapshot = Ok tt → no_faults (c_fs c) →
  json_MarshalIndent snapshot = Ok text → json_Unmarshal text = Ok decoded →
  ∃ c', save_and_reload path snapshot c = (Ok tt, ValidateSnapshot decoded, c') ∧
    c_snapshot c' = if is_ok (ValidateSnapshot decoded) then Some decoded else None.
Proof.
  intros Hval Hn Htext Hdec. unfold save_and_reload.
  pose proof (Save_spec json_MarshalIndent path snapshot None c) as Hs. unfold wp in Hs.
  destruct (Save _ _ _ _ _) as [saved c1]; simpl in Hs.
  destruct Hs as (_ & Hok & _ & _ & Hr).
  destruct (Hok eq_refl Hval Hn text Htext) as [-> Hn1]. rewrite Htext in Hr. simpl in Hr.
  destruct Hr as [Hf _].
  pose proof (Load_spec path (restart c1) text Hf Hn1) as Hl. unfold wp in Hl. rewrite Hdec in Hl.
  destruct (Load _ _ _) as [loaded c2]; simpl in Hl. destruct Hl as [-> Hc]. by exists c2.
Qed.

(** * The sync loop *)
Section Sync.
Context {W : Type} `{Env W, HttpClient W, Codec Snapshot, Has SnapshotCache W, Has Etag W,
  !EnvLaws W, !HasLaws SnapshotCache W, !HostApart SnapshotCache W,
  !Disjoint SnapshotCache Etag W}.

(** Whatever the data plane answers, the agent's cache holds only snapshots
    it has validated: one pass of the sync loop keeps this, also when the
    request, the file system or an acknowledgement fails. *)
Theorem sync_keeps_cache_valid (s : Syncer W) ctx w :
  (∀ (c : SnapshotCache) ctx req, preserves (λ w : W, part w = c) (http_Do ctx req)) →
  (∀ (c : SnapshotCache) acknowledge ctx a t item rev, sy_Acknowledger s = Some acknowledge →
     preserves (λ w : W, part w = c) (acknowledge ctx a t item rev)) →
  cache_valid (part w) →
  wp (SyncOnce json_MarshalIndent s ctx) (λ _ w', cache_valid (part w')) w.
Proof. intros Hnet Hack Hw. by apply (SyncOnce_valid json_MarshalIndent s Hnet Hack). Qed.

(** What happens to an agent: passes of its sync loop, and requests of the
    applications next to it. *)
Inductive Event :=
| EPoll (ctx : Context)
| ELocal (ctx : Context) (method path : string) (headers : gmap string string) (body : string).

Definition agent_step (s : Syncer W) (w : W) (e : Event) : W :=
  match e with
  | EPoll ctx => (SyncOnce json_MarshalIndent s ctx w).2
  | ELocal ctx method path headers body =>
      match NewHandler ctx method path headers body with Some m => (m w).2 | None => w end
  end.

(** A request reaches a handler, whose answer and world satisfy [Q]. *)
Definition answered {A} (served : option (M W A)) (Q : A → W → Prop) (w : W) : Prop :=
  ∃ m, served = Some m ∧ wp m (λ res w', ∃ resp, res = Ok resp ∧ Q resp w') w.

Lemma agent_step_keeps (I : SnapshotCache → Prop) (s : Syncer W) e :
  (∀ ctx, preserves (λ w, I (part w)) (SyncOnce json_MarshalIndent s ctx)) →
  ∀ w, I (part w) → I (part (agent_step s w e)).
Proof.
  intros Hsync w Hw. destruct e as [ctx|ctx method path headers body]; [by apply Hsync|]. cbn [agent_step].
  destruct (NewHandler _ _ _ _ _) as [m|] eqn:Hm; [|done].
  by rewrite (local_keeps (part w) _ _ _ _ _ _ Hm w eq_refl).
Qed.

Definition local_config (key : string) : string :=
  Mux.join [Mux.Text "v1"; Mux.Text "config"; Mux.Name key].

Lemma dispatch_config key : Mux.routable key →
  Mux.dispatch Health.routes "GET" (local_config key) = None ∧
  Mux.dispatch local_routes "GET" (local_config key) = Some (GetConfig_, <["key" := key]> ∅).
Proof.
  intros Hkey. unfold local_config. split; rewrite Mux.dispatch_join; try done;
    repeat constructor; by try apply Hkey.
Qed.

(** C25. What an application reads next to its agent, whatever the data plane
    answered and the applications asked before, and whichever requests, system
    calls and acknowledgements failed: a configuration comes from the cached
    snapshot, under the asked key and with the checksum it was published with;
    a key the snapshot does not have is not found; without a snapshot nothing
    is served.  The agent is ready exactly when it has a snapshot, it stays
    ready once it is, and no request changes the cache. *)
Theorem local_reads_are_validated (s : Syncer W) events w :
  (∀ (c : SnapshotCache) ctx req, preserves (λ w : W, part w = c) (http_Do ctx req)) →
  (∀ (c : SnapshotCache) acknowledge ctx a t item rev, sy_Acknowledger s = Some acknowledge →
     preserves (λ w : W, part w = c) (acknowledge ctx a t item rev)) →
  cache_valid (part w) →
  let w1 := foldl (agent_step s) w events in
  let cached := c_snapshot (part w1) in
  (is_Some (c_snapshot (part w)) → is_Some cached) ∧
  (∀ ctx headers body key, Mux.routable key →
     answered (NewHandler ctx "GET" (local_config key) headers body) (λ resp w2,
       part (S := SnapshotCache) w2 = part w1 ∧
       match snapshot ← cached; find_item key (sn_Configs snapshot) with
       | Some item =>
           si_Key item = key ∧ si_Checksum item = Checksum (si_Value item) ∧
           rs_status resp = 200 ∧ rs_payload resp =
             Some (inr (PConfig (MkConfigResponse key (si_Version item) (si_Value item))))
       | None => rs_status resp = if cached is Some _ then 404 else 503
       end) w1) ∧
  ∀ ctx headers body, answered (NewHandler ctx "GET" "/readyz" headers body) (λ resp w2,
    part (S := SnapshotCache) w2 = part w1 ∧ rs_status resp = if cached is Some _ then 200 else 503) w1.
Proof.
  intros Hnet Hack Hvalid w1 cached.
  assert (∀ I, (∀ ctx, preserves (λ w : W, I (part w)) (SyncOnce json_MarshalIndent s ctx)) →
    I (part w) → I (part (S := SnapshotCache) w1)) as Hkeep.
  { intros I HI. unfold w1. clear w1 cached Hvalid. revert w. induction events as [|e events IH]; intros w Hw; [done|].
    cbn [foldl]. by apply IH, agent_step_keeps. }
  split; [|split].
  - apply (Hkeep (λ c, is_Some (c_snapshot c))). intros ctx.
    apply (SyncOnce_keeps json_MarshalIndent s Hnet Hack (λ c, is_Some (c_snapshot c))), Save_ready.
  - intros ctx headers body key Hkey. destruct (dispatch_config key Hkey) as [Hp Hr].
    destruct (serve_local ctx "GET" _ headers body _ _ Hp Hr) as (m & Hm & Hwp).
    exists m. split; [done|]. eapply wp_mono; [apply Hwp|]. intros res w2 (Hw2 & resp & Hrun & ->).
    eexists. split; [done|]. split; [done|]. rewrite handle_local_run in Hrun. revert Hrun.
    change (PathValue _ "key") with key. cbn [fst]. fold cached.
    destruct cached as [snapshot|] eqn:Hc; cbn [mbind option_bind].
    2: { by intros [= <-]. }
    assert (cache_valid (part w1)) as Hv by (apply Hkeep; [apply SyncOnce_valid; done|done]).
    pose proof (proj1 (ValidateSnapshot_ok _) (Hv snapshot Hc)) as [_ Hsums].
    destruct (find_item key (sn_Configs snapshot)) as [item|] eqn:Hf; [|by intros [= <-]].
    apply find_item_some in Hf as [Hin <-]. intros [= <-].
    split_and!; [done|by eapply Forall_forall in Hsums|done|done].
  - intros ctx headers body. destruct (serve_ready ctx headers body) as (m & Hm & Hwp).
    exists m. split; [done|]. eapply wp_mono; [apply Hwp|]. intros res w2 (Hw2 & resp & -> & Hs).
    by exists resp.
Qed.

(** The data plane answers the agent's next request with [resp]. *)
Definition answers (resp : HttpResponse) (w : W) : Prop :=
  ∀ ctx req, ∃ w', http_Do ctx req w = (Ok resp, w') ∧
    part (S := SnapshotCache) w' = part w ∧ part (S := Etag) w' = part w.

(** A snapshot that does not validate is refused: the pass fails, and the
    cache, its file and the entity tag are left as they were, so that the next
    pass asks again. *)
Theorem sync_refuses_invalid (s : Syncer W) ctx w etag body snapshot e :
  (∀ c : Etag, HostFrame (λ w : W, part w = c)) → Disjoint Etag SnapshotCache W →
  answers (MkHttpResponse StatusOK etag (Ok body)) w → json_Unmarshal body = Ok snapshot →
  ValidateSnapshot snapshot = Err e →
  wp (SyncOnce json_MarshalIndent s ctx) (λ r w', (r = Err e ∨ ∃ e', interrupted ctx e' ∧ r = Err e') ∧
    part (S := SnapshotCache) w' = part w ∧ part (S := Etag) w' = part w) w.
Proof.
  intros Hframe Hdis Hans Hbody Hval. unfold SyncOnce. wp_step. unfold wp at 1. cbn [gets fst snd].
  wp_step. unfold Fetch. wp_step. unfold wp at 1.
  match goal with |- context [http_Do ctx ?req w] => destruct (Hans ctx req) as (w1 & -> & Hc1 & He1) end.
  cbn [fst snd hp_StatusCode]. change (StatusOK =? StatusNotModified) with false.
  change (StatusOK =? StatusOK) with true. cbn [negb hp_Body].
  wp_step. wp_step. wp_step. rewrite Hbody. wp_step. wp_step. cbn [fr_Changed negb fr_Snapshot].
  wp_step. eapply (wp_mono _ (λ r w', part (S := Etag) w' = part w ∧
    (r = Err e ∨ ∃ e', interrupted ctx e' ∧ r = Err e') ∧ part (S := SnapshotCache) w' = part w)).
  { apply wp_with; [|done|].
    - apply (preserves_bind (λ w', part w' = part w)).
      + apply (preserves_ctx _ (HostFrame0 := Hframe (part w))).
      + intros err. apply preserves_zoom_other.
    - eapply store_call_law with (post := λ r c, (r = Err e ∨ ∃ e', interrupted ctx e' ∧ r = Err e') ∧ c = part w).
      + intros err Herr. rewrite Hc1. unfold Save. wp_step.
        apply (wp_ctx_check _ _ _ _ Herr).
        * intros e' He'. split; [right; by exists e'|done].
        * wp_step. wp_step. rewrite Hval. split; [by left|done].
      + intros r w2 Hr. exact Hr. }
  intros r w2 (He & Hr & Hc). destruct r as [[]|err]; [|by split].
  destruct Hr as [?|(? & _ & ?)]; done.
Qed.

End Sync.
End Cache.

(** ** The properties at the agent of [AgentDemo] *)
Import AgentDemo.

Lemma restart_reads_saved_witness :
  ∃ c', save_and_reload demo_MarshalIndent "/var/lib/snapshot.json" good empty_cache
          = (Ok tt, Ok tt, c') ∧ c_snapshot c' = Some good.
Proof.
  destruct (restart_reads_saved demo_MarshalIndent "/var/lib/snapshot.json" good "good" good empty_cache)
    as (c' & Hc' & Hs); [vm_compute; reflexivity|intros n; reflexivity|reflexivity..|].
  exists c'. split; [exact Hc'|]. rewrite Hs. vm_compute. reflexivity.
Defined.

Lemma sync_keeps_cache_valid_witness :
  wp (SyncOnce demo_MarshalIndent syncer Background) (λ _ w', cache_valid (part w')) (agent_world "bad").
Proof.
  apply (sync_keeps_cache_valid demo_MarshalIndent syncer Background (agent_world "bad")).
  - intros c ctx req w Hw. exact Hw.
  - intros c acknowledge ctx a t item rev Ha. discriminate Ha.
  - intros snapshot Hs. discriminate Hs.
Defined.

(** A poll, and an application's request. *)
Lemma local_reads_are_validated_witness :
  let w1 := foldl (agent_step demo_MarshalIndent syncer) (agent_world "good")
    [EPoll Background; ELocal Background "GET" "/v1/snapshot" ∅ ""] in
  answered (NewHandler Background "GET" "/v1/config/limits" ∅ "")
    (λ resp _, rs_payload resp = Some (inr (PConfig (MkConfigResponse "limits" 1 "1500")))) w1.
Proof.
  destruct (local_reads_are_validated demo_MarshalIndent syncer
    [EPoll Background; ELocal Background "GET" "/v1/snapshot" ∅ ""] (agent_world "good"))
    as (_ & Hread & _).
  - intros c ctx req w Hw. exact Hw.
  - intros c acknowledge ctx a t item rev Ha. discriminate Ha.
  - intros snapshot Hs. discriminate Hs.
  - destruct (Hread Background ∅ "" "limits") as (m & Hm & Hwp); [by split_and!|].
    exists m. split; [exact Hm|]. eapply wp_mono; [exact Hwp|].
    intros res w2 (resp & Hres & _ & Hp). exists resp. split; [exact Hres|].
    vm_compute in Hp. exact (proj2 (proj2 (proj2 Hp))).
Defined.

Lemma sync_refuses_invalid_witness :
  wp (SyncOnce demo_MarshalIndent syncer Background) (λ r w',
    r = Err (EWrap ErrBadChecksum "%s" ["limits"]) ∧ aw_cache w' = empty_cache ∧
    aw_etag w' = MkEtag "") (agent_world "bad").
Proof.
  destruct (sync_refuses_invalid demo_MarshalIndent syncer Background (agent_world "bad") "tag" "bad"
    bad (EWrap ErrBadChecksum "%s" ["limits"])) as [[Hr|(e & He & _)] [Hc Ht]].
  - exact etag_apart.
  - exact etag_cache.
  - intros ctx req. exists (agent_world "bad"). split; [reflexivity|split; reflexivity].
  - reflexivity.
  - vm_compute. reflexivity.
  - split; [exact Hr|split; [exact Hc|exact Ht]].
  - destruct (interrupted_Background e He).
Defined.


(** The wait between two passes is within a fifth of the poll interval on
    either side, for every draw of the random source, and the loop never asks
    the source for a draw it panics on. *)
Theorem jitter_within_fifth draw interval :
  0 ≤ interval → 6 * interval ≤ 5 * int64_max → (∀ n, 0 < n → 0 ≤ draw n < n) →
  ∃ wait, jitter draw interval = Some wait ∧
    interval - interval / 5 ≤ wait ≤ interval + interval / 5.
Proof.
  intros H0 Hmax Hdraw. unfold jitter. rewrite Z.quot_div_nonneg by lia.
  assert (0 ≤ interval / 5) by (apply Z.div_pos; lia).
  assert (5 * (interval / 5) ≤ interval) by (apply Z.mul_div_le; lia).
  unfold int64_max in *.
  destruct (Z.eqb_spec (interval / 5) 0) as [He|He].
  { exists interval. split; [done|]. lia. }
  rewrite (int64_wrap_id (interval / 5 * 2 + 1)) by (unfold int64_ok, int64_min, int64_max; lia).
  rewrite (proj2 (Z.leb_gt _ _)) by lia.
  pose proof (Hdraw (interval / 5 * 2 + 1) ltac:(lia)) as Hd.
  rewrite (int64_wrap_id (draw _ - _)) by (unfold int64_ok, int64_min, int64_max; lia).
  rewrite int64_wrap_id by (unfold int64_ok, int64_min, int64_max; lia).
  eexists. split; [done|]. lia.
Qed.

Lemma jitter_within_fifth_witness :
  ∃ wait, jitter (λ n, n - 1) (2 * Second) = Some wait ∧ wait = 2400000000.
Proof.
  destruct (jitter_within_fifth (λ n, n - 1) (2 * Second)) as (wait & Hw & _);
    [unfold Second; lia|unfold Second, int64_max; lia|intros n Hn; lia|].
  exists wait. split; [exact Hw|]. vm_compute in Hw. injection Hw as <-. reflexivity.
Defined.

(** * The text of the values *)

(** What travels to an agent is the compact text of each value: a snapshot
    that the data plane built is accepted after the journey exactly when the
    checksum of every value is that of its compact text; plain values, such as
    numbers and literals, always are. *)
Theorem transported_snapshot s :
  ValidateSnapshot s = Ok tt →
  (ValidateSnapshot (compacted s) = Ok tt ↔
     Forall (λ item, Checksum (JsonText.Compact (si_Value item)) = Checksum (si_Value item)) (sn_Configs s)) ∧
  (plain_values s → compacted s = s ∧ reindent s = s).
Proof.
  rewrite ValidateSnapshot_ok. intros [Hrev Hsum]. split.
  - rewrite ValidateSnapshot_ok. simpl. rewrite Forall_fmap.
    split.
    + intros [_ Hall]. apply Forall_forall. intros item Hin.
      pose proof (proj1 (Forall_forall _ _) Hsum item Hin) as H1.
      pose proof (proj1 (Forall_forall _ _) Hall item Hin) as H2.
      unfold checksum_ok in *. simpl in *. congruence.
    + intros Hall. split; [done|]. apply Forall_forall. intros item Hin.
      pose proof (proj1 (Forall_forall _ _) Hsum item Hin) as H1.
      pose proof (proj1 (Forall_forall _ _) Hall item Hin) as H2.
      unfold checksum_ok in *. simpl in *. congruence.
  - intros Hp. split; [by apply compacted_plain|by apply reindent_plain].
Qed.

(** A snapshot of one item. *)
Definition one_item (value : string) : Snapshot := AgentDemo.one_item value (Checksum value).

Lemma transported_snapshot_witness :
  ValidateSnapshot (compacted (one_item "1500")) = Ok tt.
Proof.
  apply (transported_snapshot (one_item "1500")); [vm_compute; reflexivity|].
  constructor; [vm_compute; reflexivity|constructor].
Defined.

(** A value that the registry accepts need not survive: for an object
    written with a space, the snapshot the data plane builds is valid but the
    agent refuses it as it arrives, and for one without spaces the agent
    accepts and saves it but refuses its own file after a restart. *)
Theorem spaced_values_are_refused :
  let spaced := one_item (JsonText.quoted "{'max': 5}") in
  let tight := one_item (JsonText.quoted "{'max':5}") in
  (Json.Valid (JsonText.quoted "{'max': 5}") = true ∧ ValidateSnapshot spaced = Ok tt ∧
   ValidateSnapshot (compacted spaced) = Err (EWrap ErrBadChecksum "%s" ["limits"])) ∧
  (ValidateSnapshot (compacted tight) = Ok tt ∧
   ValidateSnapshot (reindent tight) = Err (EWrap ErrBadChecksum "%s" ["limits"])).
Proof. vm_compute. by split_and!. Qed.

End DataPlaneProps.
