(* ===== verification/ControlPlaneProps.v ===== *)
(** The properties of the HTTP surface: every request is answered, an
    acknowledgement takes the credential of the agent it is for, the planes
    read the tokens the agents send, and what happens to durations and errors
    on the way in and out. *)

From Stdlib Require Import ZArith Lia Ascii.
From S2P Require Import Prelude GoLib Host Http Domain Guardrail Registry RegistrySpec RegistryMemory AgentRegistry AgentSpec Rollout RolloutStore RolloutService RolloutSpec RolloutMemory ControlPlane DataPlane Agent System Deployment Demo.
Import Domain ControlPlane System Deployment.
Open Scope string_scope.
Open Scope list_scope.
Open Scope Z_scope.

Module ControlPlaneProps.

Section Handlers.
Context `{RequestDecoder createTenantRequest, RequestDecoder createDefinitionRequest,
  RequestDecoder createVersionRequest, RequestDecoder setStableVersionRequest,
  RequestDecoder registerAgentRequest, RequestDecoder acknowledgementRequest,
  RequestDecoder createRolloutRequest}.
Context (h : Handler World).

(** * Answers *)

Definition is_error (p : Payload) : bool := match p with PError _ => true | _ => false end.

(** A response of the interface: a status of its documentation, with an error
    body exactly for the failures. *)
Definition proper (resp : Response Payload) : Prop :=
  rs_status resp ∈ [StatusOK; StatusCreated; StatusBadRequest; StatusUnauthorized;
                    StatusForbidden; StatusNotFound; StatusConflict;
                    StatusInternalServerError; StatusServiceUnavailable] ∧
  ∃ p, rs_payload resp = Some p ∧ (is_error p = true ↔ 400 ≤ rs_status resp).

Definition answers (m : M World (Response Payload)) : Prop :=
  ∀ w, wp m (λ res _, ∃ resp, res = Ok resp ∧ proper resp) w.

Lemma proper_failure status code message :
  status ∈ [StatusBadRequest; StatusUnauthorized; StatusForbidden; StatusNotFound; StatusConflict;
            StatusInternalServerError; StatusServiceUnavailable] →
  proper (write_failure status code message).
Proof.
  intros Hs. split; [by do 2 right|]. eexists. split; [done|]. simpl.
  split; [|done]. intros _.
  repeat (apply elem_of_cons in Hs as [-> |Hs]; [done|]). by apply not_elem_of_nil in Hs.
Qed.

Lemma proper_ok status p : status = StatusOK ∨ status = StatusCreated → is_error p = false →
  proper (writeJSON status p).
Proof.
  intros Hs Hp. split; [simpl; destruct Hs as [-> | ->]; repeat constructor|].
  exists p. split; [done|]. rewrite Hp. simpl. destruct Hs as [-> | ->]; by split.
Qed.

Lemma proper_writeError e : proper (writeError e).
Proof. unfold writeError. repeat case_match; apply proper_failure; repeat constructor. Qed.
Lemma proper_writeAgentError e : proper (writeAgentError e).
Proof. unfold writeAgentError. repeat case_match; apply proper_failure; repeat constructor. Qed.
Lemma proper_writeRolloutError e : proper (writeRolloutError e).
Proof. unfold writeRolloutError. repeat case_match; apply proper_failure; repeat constructor. Qed.

Lemma answers_ret resp : proper resp → answers (mret resp).
Proof. intros Hr w. apply wp_ret. eauto. Qed.

Lemma answers_reply {A} write (call : M World A) k :
  (∀ e, proper (write e)) → (∀ a, proper (k a)) → answers (reply write call k).
Proof.
  intros Hw Hk w. unfold reply. wp_step. wp_step. apply wp_any.
  intros [a|e] w'; wp_step; eauto.
Qed.

Lemma answers_decode {T} `{RequestDecoder T} r (k : T → M World (Response Payload)) :
  (∀ req, answers (k req)) → answers (decodeRequest r k).
Proof.
  intros Hk. unfold decodeRequest. case_match; [done|].
  apply answers_ret, proper_failure. repeat constructor.
Qed.

Lemma answers_unavailable service : answers (unavailable service).
Proof. apply answers_ret, proper_failure. repeat constructor. Qed.

#[local] Ltac answer :=
  intros; repeat first
    [ apply answers_unavailable | apply answers_decode; intros ? | apply answers_reply; intros
    | apply proper_writeError | apply proper_writeAgentError | apply proper_writeRolloutError
    | apply answers_ret | apply proper_ok; [by auto|done]
    | match goal with |- answers (match ?x with _ => _ end) => destruct x end
    | match goal with |- proper (let '(_) := ?x in _) => destruct x end
    | case_match ].

Lemma answers_rollout_acknowledgement ctx agentID req ack :
  answers (rollout_acknowledgement h ctx agentID req ack).
Proof. unfold rollout_acknowledgement. answer. Qed.

(** Every request is answered, whatever its body, its state and the
    failures behind it: the handler writes one response with one of nine
    statuses, and its body is an error exactly when the status is one. *)
Theorem every_request_is_answered route ctx r w :
  wp (handle h route ctx r) (λ res _, ∃ resp, res = Ok resp ∧ proper resp) w.
Proof.
  revert w. change (answers (handle h route ctx r)). destruct route; cbn [handle];
    unfold createTenant, listTenants, getTenant, createDefinition, listDefinitions, getDefinition,
      createVersion, listVersions, setStableVersion, getStableVersion, registerAgent,
      agentHeartbeat, createRollout, getRollout; try (answer; done).
  unfold agentAcknowledgement. destruct (h_agents h); [|apply answers_unavailable].
  apply answers_decode. intros req w. wp_step. wp_step. apply wp_any.
  intros [ack|e] w'; [by apply answers_rollout_acknowledgement|]. wp_step. eexists. split; [done|]. apply proper_writeAgentError.
Qed.

(** * Acknowledgements *)


End Handlers.
Import Demo.


(** * Tokens *)

(** The two planes read the credential the agent's clients send, for every
    token: the token of a poll and of an acknowledgement and the entity tag of
    a poll arrive as they were; and a plane reads a token only from a header
    of the form [Bearer token], whatever the case of its first word. *)
Theorem tokens_arrive client etag base agentID token body header :
  let poll := hq_Headers (Agent.fetch_request client etag) in
  let ack := hq_Headers (Agent.ack_request base agentID token body) in
  DataPlane.bearerToken (default "" (poll !! "Authorization")) = Agent.sc_Token client ∧
  default "" (poll !! "If-None-Match") = etag ∧
  ControlPlane.bearerToken (default "" (ack !! "Authorization")) = token ∧
  (bearerToken header = "" ∨ ∃ kind,
     EqualFold kind "Bearer" = true ∧ header = kind +:+ " " +:+ bearerToken header).
Proof.
  assert (∀ t, bearer_token ("Bearer " +:+ t) = t) as Hread.
  { intros t. unfold bearer_token. change (Cut " "%char ("Bearer " +:+ t)) with (Cut " "%char ("Bearer" +:+ String " "%char t)).
    by rewrite Cut_app. }
  cbv zeta. split_and!.
  - unfold Agent.fetch_request. destruct (empty_str etag); simpl;
      rewrite ?lookup_insert_eq, ?lookup_insert_ne by done; rewrite ?lookup_insert_eq; apply Hread.
  - unfold Agent.fetch_request. destruct (empty_str etag) eqn:He; simpl.
    + apply empty_str_true in He as ->. by rewrite lookup_insert_ne, lookup_empty by done.
    + by rewrite lookup_insert_eq.
  - simpl. rewrite lookup_insert_ne, lookup_insert_eq by done. apply Hread.
  - unfold bearerToken, bearer_token. destruct (empty_str header); [by left|].
    destruct (Cut " "%char header) as [[kind t] []] eqn:Hc; [|by left]. simpl.
    destruct (EqualFold kind "Bearer") eqn:Hk; simpl; [|by left].
    right. exists kind. split; [done|]. by apply Cut_inv.
Qed.

(** * Durations *)

(** A duration given in seconds arrives exactly when it is at most
    9223372036 seconds; negative ones become zero, and longer ones wrap around
    and may become negative, which switches a limit off. *)
Theorem durations_wrap seconds :
  int64_ok seconds →
  int64_ok (durationSeconds seconds) ∧
  (durationSeconds seconds = Z.max 0 seconds * Second ↔ seconds ≤ 9223372036) ∧
  (∃ long, int64_ok long ∧ 9223372036 < long ∧ durationSeconds long < 0).
Proof.
  intros Hs. unfold durationSeconds. split_and!.
  - case_match; [done|apply int64_wrap_ok].
  - case_match; [lia|]. rewrite Z.max_r by lia. split.
    + intros Heq. pose proof (int64_wrap_ok (seconds * Second)) as Hw. rewrite Heq in Hw.
      unfold int64_ok, int64_max, int64_min, Second in Hw. lia.
    + intros Hle. apply int64_wrap_id. unfold int64_ok, int64_max, int64_min, Second. lia.
  - exists 9223372037. vm_compute. by split_and!.
Qed.

Lemma durations_wrap_witness : durationSeconds 900 = 900 * Second.
Proof.
  destruct (durations_wrap 900) as (_ & Hiff & _); [split; vm_compute; discriminate|].
  apply Hiff. vm_compute. discriminate.
Defined.

(** * Errors of the registry behind the rollout service *)

(** A rollout of a configuration that does not exist is answered with an
    internal error, where the registry's own interface answers the same
    question with 404. *)
Section Unknown.
#[local] Instance decode_unknown : RequestDecoder createRolloutRequest := λ _,
  Ok (MkCreateRolloutRequest "acme" "missing" "production" 2 [] [] [] (f_of_int 100) 90 900 120).

Theorem unknown_configuration_is_hidden :
  let status route := match (handle Demo.handler route Background
      (MkRequest (<["tenant" := "acme"]> (<["key" := "missing"]> ∅)) ∅ "") Demo.ready).1 with
    | Ok resp => rs_status resp | Err _ => 0 end in
  status CreateRollout_ = 500 ∧ status GetDefinition_ = 404.
Proof. vm_compute. by split. Qed.
End Unknown.

End ControlPlaneProps.
