(* ===== verification/ConfigProps.v ===== *)
(** The properties of configuration as code: what validation establishes, how
    documents are planned and named, and what an application to the deployed
    control plane leaves. *)

From Stdlib Require Import ZArith Lia Ascii.
From S2P Require Import Prelude GoLib Host Http Mux JsonText Domain Guardrail Registry RegistrySpec RegistryMemory AgentRegistry Rollout RolloutService ControlPlane System Deployment ConfigCode ConfigApply ConfigFacts ConfigSpec ConfigConverge ConfigDeploy Demo.
Import Domain RegistrySpec ControlPlane System ConfigCode ConfigFacts ConfigSpec.
Open Scope string_scope.
Open Scope list_scope.
Open Scope Z_scope.

Module ConfigProps.

(** * Validation *)

(** C29. In validated documents every reference to a version names exactly one
    [ConfigVersion] document, and one of the same tenant and key. *)
Theorem references_resolve validator documents d ref tenant key :
  validate_documents validator documents = [] → d ∈ documents →
  m_Kind (mo_Manifest d) = KindStableVersion ∧
    m_StableVersion (mo_Manifest d) =
      MkStableVersionSpec tenant key (sv_Environment (m_StableVersion (mo_Manifest d))) ref
  ∨ m_Kind (mo_Manifest d) = KindRollout ∧ ro_CandidateVersionRef (m_Rollout (mo_Manifest d)) = ref ∧
    ro_Tenant (m_Rollout (mo_Manifest d)) = tenant ∧ ro_Key (m_Rollout (mo_Manifest d)) = key →
  ∃ vd, (∀ d', d' ∈ documents ∧ m_Kind (mo_Manifest d') = KindConfigVersion ∧
               m_Name (mo_Manifest d') = ref ↔ d' = vd) ∧
        vs_Tenant (m_ConfigVersion (mo_Manifest vd)) = tenant ∧
        vs_Key (m_ConfigVersion (mo_Manifest vd)) = key.
Proof.
  intros Hv Hd Href. destruct (validated_manifest _ _ d Hv Hd) as (_ & _ & Hm).
  assert (∃ field, validate_ref (buildValidationState documents) field ref tenant key = []) as [field Hr].
  { destruct Href as [[Hk Hs]|(Hk & <- & <- & <-)]; rewrite Hk in Hm.
    - change (kind_of KindStableVersion) with IsStableVersion in Hm. cbv iota in Hm.
      unfold validate_stable in Hm. rewrite Hs in Hm. apply app_nil in Hm as [_ Hm]. eauto.
    - change (kind_of KindRollout) with IsRollout in Hm. cbv iota in Hm.
      unfold validate_rollout in Hm. rewrite !app_nil in Hm. destruct Hm as (_ & Hm & _). eauto. }
  apply reference_resolves in Hr as (vd & Hvd & Hn & ? & ?). exists vd. split; [|done].
  intros d'. split; [|by intros ->].
  intros (Hd' & Hn'). by eapply version_unique.
Qed.

Lemma references_resolve_witness :
  ∃ vd, (∀ d', d' ∈ ConfigDemo.documents ∧ m_Kind (mo_Manifest d') = KindConfigVersion ∧
               m_Name (mo_Manifest d') = "timeout-v2" ↔ d' = vd) ∧
        vs_Tenant (m_ConfigVersion (mo_Manifest vd)) = "acme" ∧
        vs_Key (m_ConfigVersion (mo_Manifest vd)) = "timeout".
Proof.
  apply (references_resolve ConfigDemo.accept_all ConfigDemo.documents
    (default (MkManifestDocument "" 0 zero_Manifest) (ConfigDemo.documents !! 1%nat))).
  - vm_compute. reflexivity.
  - right. by left.
  - left. split; reflexivity.
Defined.

(** The body of a rollout request as the handler decodes it, every field with
    the value the client gave it. *)
Definition arrived (q : ConfigApply.createRolloutRequest) : createRolloutRequest :=
  MkCreateRolloutRequest (ConfigApply.cq_TenantID q) (ConfigApply.cq_Key q)
    (ConfigApply.cq_Environment q) (ConfigApply.cq_CandidateVersion q)
    (ConfigApply.cq_TargetServices q)
    ((λ s, MkCreateRolloutStage (rs_ID s) (rs_Percentage s) (rs_MinimumDurationSeconds s))
       <$> ConfigApply.cq_Stages q)
    ((λ r, MkCreateGuardrail (gu_Name r) (gu_Query r) (gu_Operator r) (gu_Threshold r)
             (gu_ConsecutiveFailures r)) <$> ConfigApply.cq_Guardrails q)
    (ConfigApply.cq_RequiredAckPercentage q) (ConfigApply.cq_DeploymentTimeoutSeconds q)
    (ConfigApply.cq_RolloutMaxDurationSeconds q) (ConfigApply.cq_RollbackTimeoutSeconds q).

Lemma blank_nonempty s : blank s = false → empty_str s = false.
Proof. rewrite empty_str_false. by intros Hb ->. Qed.

Lemma stage_plan_durations f g stages :
  (∀ s, Rollout.s_ID (f s) = Rollout.s_ID (g s) ∧ Rollout.s_Percentage (f s) = Rollout.s_Percentage (g s)) →
  is_ok (Rollout.ValidateStagePlan (f <$> stages)) =
  is_ok (Rollout.ValidateStagePlan (g <$> (stages : list RolloutStage))).
Proof.
  intros Hfg. unfold Rollout.ValidateStagePlan. rewrite !length_fmap, !list_lookup_fmap.
  assert (∀ p, Rollout.ValidateStagePlan_loop (f <$> stages) p =
               Rollout.ValidateStagePlan_loop (g <$> stages) p) as ->.
  { induction stages as [|s stages IH]; intros p; [done|]. rewrite !fmap_cons. cbn [Rollout.ValidateStagePlan_loop].
    destruct (Hfg s) as [-> ->]. by rewrite IH. }
  destruct (stages !! _) as [s|]; [|done]. simpl. by destruct (Hfg s) as [_ ->].
Qed.

Lemma validated_guardrails rules :
  (∀ r, r ∈ rules → validate_guardrail r = []) →
  is_ok (RolloutService.validate_guardrails (guardrailsFromRequest
    ((λ r, MkCreateGuardrail (gu_Name r) (gu_Query r) (gu_Operator r) (gu_Threshold r)
             (gu_ConsecutiveFailures r)) <$> rules))) = true.
Proof.
  induction rules as [|rule rules IH]; intros Hall; [done|].
  pose proof (Hall rule ltac:(by left)) as Hrule. unfold validate_guardrail in Hrule.
  rewrite app_nil, add_if_nil, add_err_nil in Hrule. destruct Hrule as [Hq Hr].
  unfold guardrailsFromRequest in *. rewrite !fmap_cons. cbn [RolloutService.validate_guardrails].
  unfold guardrail_rule in Hr. cbn [gr_Name gr_Query gr_Operator gr_Threshold gr_ConsecutiveFailures Guardrail.g_Query].
  destruct (Guardrail.Rule_Validate _) as [[]|e]; [|done]. cbn [mbind result_bind].
  rewrite res_guard_bind, (blank_nonempty _ Hq). apply IH. intros r Hin. apply Hall. by right.
Qed.

Lemma validated_stages stages preset :
  validate_stages stages = [] → is_ok (Rollout.ValidateStagePlan preset) = true →
  let sent := stagesFromRequest ((λ s, MkCreateRolloutStage (rs_ID s) (rs_Percentage s)
                 (rs_MinimumDurationSeconds s)) <$> stages) in
  is_ok (Rollout.ValidateStagePlan (if Nat.eqb (length sent) 0 then preset else sent)) = true.
Proof.
  intros Hst Hpreset. unfold stagesFromRequest. cbv zeta. rewrite !length_fmap, <-list_fmap_compose.
  unfold validate_stages in Hst. destruct (Nat.eqb (length stages) 0) eqn:E; [done|].
  rewrite app_nil, add_err_nil in Hst. destruct Hst as [_ Hst].
  rewrite <-Hst. by apply stage_plan_durations.
Qed.

(** The checks of the service, passed one by one. *)
Lemma validate_create_passes (input : RolloutService.CreateRolloutInput) stages :
  empty_str (RolloutService.ci_TenantID input) = false →
  empty_str (RolloutService.ci_Key input) = false →
  is_ok (Domain.Environment_Validate (RolloutService.ci_Environment input)) = true →
  1 ≤ RolloutService.ci_CandidateVersionNumber input →
  is_ok (Rollout.ValidateStagePlan stages) = true →
  is_ok (RolloutService.validate_guardrails (RolloutService.ci_Guardrails input)) = true →
  is_ok (RolloutService.validate_create input stages) = true.
Proof.
  intros Ht Hk He Hc Hs Hg. unfold RolloutService.validate_create.
  rewrite res_guard_bind, Ht, Hk. cbn [orb].
  destruct (Domain.Environment_Validate _) as [[]|e]; [|done].
  rewrite res_guard_bind, (proj2 (Z.ltb_ge _ _) Hc).
  destruct (Rollout.ValidateStagePlan stages) as [[]|e]; [exact Hg|done].
Qed.

(** A validated rollout document passes every check the rollout service makes
    of a request before it reads the registry, when the body of the request
    arrives as the client filled it in. *)
Theorem validated_rollout_accepted validator documents d candidate preset :
  validate_documents validator documents = [] → d ∈ documents →
  m_Kind (mo_Manifest d) = KindRollout → 1 ≤ ConfigApply.vr_VersionNumber candidate →
  is_ok (Rollout.ValidateStagePlan preset) = true →
  let input := create_rollout_input
                 (arrived (ConfigApply.rollout_request (m_Rollout (mo_Manifest d)) candidate)) in
  is_ok (RolloutService.validate_create input
           (if Nat.eqb (length (RolloutService.ci_Stages input)) 0 then preset
            else RolloutService.ci_Stages input)) = true.
Proof.
  intros Hv Hd Hk Hc Hpreset. destruct (validated_manifest _ _ d Hv Hd) as (_ & _ & Hm).
  rewrite Hk in Hm. change (kind_of KindRollout) with IsRollout in Hm. cbv iota in Hm.
  unfold validate_rollout, validateTenantKeyEnvironment in Hm. cbv zeta in Hm.
  rewrite !app_nil, !add_if_nil, add_err_nil, flat_map_nil in Hm.
  destruct Hm as ((Ht & Hkey & Henv) & _ & Hst & Hgr & _).
  apply validate_create_passes.
  - by apply blank_nonempty.
  - by apply blank_nonempty.
  - exact Henv.
  - exact Hc.
  - exact (validated_stages _ _ Hst Hpreset).
  - exact (validated_guardrails _ Hgr).
Qed.

Lemma validated_rollout_accepted_witness :
  let input := create_rollout_input (arrived (ConfigApply.rollout_request
                 (m_Rollout (mo_Manifest (default (MkManifestDocument "" 0 zero_Manifest)
                    (head ConfigDemo.documents))))
                 (ConfigApply.MkVersionResponse "ver_1" 1 "1500"))) in
  is_ok (RolloutService.validate_create input
           (if Nat.eqb (length (RolloutService.ci_Stages input)) 0 then Rollout.DefaultStagePlan
            else RolloutService.ci_Stages input)) = true.
Proof.
  apply (validated_rollout_accepted ConfigDemo.accept_all ConfigDemo.documents).
  - vm_compute. reflexivity.
  - by left.
  - reflexivity.
  - simpl. lia.
  - reflexivity.
Defined.

(** * Values *)

(** Whatever value YAML decodes to, its normal form is one [json.Marshal]
    accepts, every map keyed by strings and by each of them once; normalising
    it again changes nothing. *)
Theorem normalised_is_json Sprint value :
  json_ready (normalizeYAML Sprint value) ∧
  normalizeYAML Sprint (normalizeYAML Sprint value) = normalizeYAML Sprint value.
Proof. split; [|apply normalizeYAML_fixed]; apply normalizeYAML_ready. Qed.

(** Two keys of a YAML map that print alike are one key of the JSON object: the
    entry visited last wins, and the language leaves that order open. *)
Theorem colliding_keys_depend_on_order :
  let print v := match v with AScalar s => s | _ => "" end in
  let number := (AScalar "1", AScalar "a") in let text := (AScalar "1", AScalar "b") in
  normalizeYAML print (AMapAny [number; text]) ≠ normalizeYAML print (AMapAny [text; number]).
Proof. vm_compute. discriminate. Qed.

(** * Planning *)

(** [orderDocuments] keeps exactly the documents of a known kind, sorts them by
    kind in the order tenants, definitions, versions, stable versions,
    rollouts, and keeps the order of the documents within each kind. *)
Theorem documents_ordered documents :
  ConfigApply.orderDocuments documents
    ≡ₚ filter (λ d, m_Kind (mo_Manifest d) ∈ ConfigApply.apply_order) documents ∧
  StronglySorted (λ d d', (rank d ≤ rank d')%nat) (ConfigApply.orderDocuments documents) ∧
  ∀ kind, kind ∈ ConfigApply.apply_order →
    filter (λ d, m_Kind (mo_Manifest d) = kind) (ConfigApply.orderDocuments documents) =
    filter (λ d, m_Kind (mo_Manifest d) = kind) documents.
Proof.
  split_and!; [apply orderDocuments_perm|apply orderDocuments_sorted|].
  intros kind. apply of_kind_orderDocuments.
Qed.

Section Client.
Context {W : Type} `{HttpClient W, JsonAny}.
Context `{ConfigApply.Decoder ConfigApply.tenantResponse,
  ConfigApply.Decoder ConfigApply.definitionResponse,
  ConfigApply.Decoder ConfigApply.versionResponse,
  ConfigApply.Decoder (list ConfigApply.versionResponse),
  ConfigApply.Decoder ConfigApply.environmentStateResponse,
  ConfigApply.Encoder ConfigApply.createTenantRequest,
  ConfigApply.Encoder ConfigApply.createDefinitionRequest,
  ConfigApply.Encoder ConfigApply.createVersionRequest,
  ConfigApply.Encoder ConfigApply.setStableVersionRequest,
  ConfigApply.Encoder ConfigApply.createRolloutRequest}.

(** A dry run sends no request, whatever the network: it leaves the world as
    it is, succeeds, and plans one step per document in the order of
    application. *)
Theorem dry_run_only_plans (a : ConfigApply.ApplyOptions) ctx documents (w : W) :
  ConfigApply.ao_DryRun a = true →
  ConfigApply.ApplyDocuments a ctx documents w =
  (Ok (ConfigApply.MkApplyReport
         ((λ d, ConfigApply.MkApplyStep (m_Kind (mo_Manifest d)) (m_Name (mo_Manifest d))
                  (ConfigApply.plannedAction (m_Kind (mo_Manifest d))) "planned" "dry run")
            <$> ConfigApply.orderDocuments documents), None), w).
Proof.
  intros Hdry. unfold ConfigApply.ApplyDocuments. rewrite Hdry, andb_false_r.
  assert (∀ l state steps, ConfigApply.apply_each a ctx l state steps w =
    (Ok (ConfigApply.MkApplyReport (steps ++
         ((λ d, ConfigApply.MkApplyStep (m_Kind (mo_Manifest d)) (m_Name (mo_Manifest d))
                  (ConfigApply.plannedAction (m_Kind (mo_Manifest d))) "planned" "dry run") <$> l)),
         None), w)) as Hall; [|by rewrite Hall].
  induction l as [|d l IH]; intros state steps; [by rewrite app_nil_r|].
  cbn [ConfigApply.apply_each]. unfold ConfigApply.applyDocument at 1. rewrite Hdry.
  etransitivity; [apply IH|]. by rewrite fmap_cons, <-(assoc_L (++)).
Qed.
End Client.

Lemma dry_run_only_plans_witness :
  ConfigDemo.statuses (ConfigDemo.apply_once true ConfigDemo.empty_world).1 =
  ["planned"; "planned"; "planned"; "planned"; "planned"; "planned"].
Proof.
  unfold ConfigDemo.apply_once.
  rewrite (dry_run_only_plans (ConfigDemo.options true) Background ConfigDemo.documents
             ConfigDemo.empty_world eq_refl).
  reflexivity.
Defined.

(** * Names in paths *)

(** C30. Whatever bytes a tenant, a key and an environment are made of, the paths
    the client builds from them are dispatched by the control plane's mux to
    the handler they are meant for, with exactly those path values; only the
    names the mux cleans away, the empty one and the two dots, are excepted. *)
Theorem names_reach_handlers tenant key env :
  Mux.routable tenant → Mux.routable key → Mux.routable env →
  Mux.dispatch routes "GET" ("/v1/tenants/" +:+ ConfigApply.escape tenant) =
    Some (GetTenant_, <["tenant" := tenant]> ∅) ∧
  Mux.dispatch routes "GET" (ConfigApply.configPath tenant key) =
    Some (GetDefinition_, <["tenant" := tenant]> (<["key" := key]> ∅)) ∧
  Mux.dispatch routes "POST" (ConfigApply.configPath tenant key +:+ "/versions") =
    Some (CreateVersion_, <["tenant" := tenant]> (<["key" := key]> ∅)) ∧
  Mux.dispatch routes "POST" (ConfigApply.stablePath tenant key env) =
    Some (SetStableVersion_,
          <["tenant" := tenant]> (<["key" := key]> (<["environment" := env]> ∅))).
Proof.
  intros. split_and!.
  - by apply ConfigDeploy.dispatch_tenant.
  - by apply ConfigDeploy.dispatch_definition.
  - by apply ConfigDeploy.dispatch_create_version.
  - by apply ConfigDeploy.dispatch_set_stable.
Qed.

Lemma names_reach_handlers_witness :
  Mux.dispatch routes "POST" (ConfigApply.stablePath "a/b%2F" "x y" "production") =
    Some (SetStableVersion_,
          <["tenant" := "a/b%2F"]> (<["key" := "x y"]> (<["environment" := "production"]> ∅))).
Proof.
  apply (names_reach_handlers "a/b%2F" "x y" "production"); by apply (bool_decide_unpack _).
Defined.

(** * Applying to the deployed control plane *)

Section Deployed.
Context `{!RequestDecoder createTenantRequest, !RequestDecoder createDefinitionRequest,
  !RequestDecoder createVersionRequest, !RequestDecoder setStableVersionRequest,
  !RequestDecoder registerAgentRequest, !RequestDecoder acknowledgementRequest,
  !RequestDecoder createRolloutRequest}.
Context `{!JsonAny, !JsonAnyLaws}.
Context `{!ConfigApply.Decoder ConfigApply.tenantResponse,
  !ConfigApply.Decoder ConfigApply.definitionResponse,
  !ConfigApply.Decoder ConfigApply.versionResponse,
  !ConfigApply.Decoder (list ConfigApply.versionResponse),
  !ConfigApply.Decoder ConfigApply.environmentStateResponse,
  !ConfigApply.Encoder ConfigApply.createTenantRequest,
  !ConfigApply.Encoder ConfigApply.createDefinitionRequest,
  !ConfigApply.Encoder ConfigApply.createVersionRequest,
  !ConfigApply.Encoder ConfigApply.setStableVersionRequest,
  !ConfigApply.Encoder ConfigApply.createRolloutRequest}.


End Deployed.

Import ConfigDemo.





End ConfigProps.
